(* ===== verification/_CoqProject ===== *)
-Q . S2P
Prelude.v
Errors.v
Overflow.v
Helpers.v
GasTables.v
Types.v
State.v
Logic.v
Toy.v
BigInt.v
Runtime.v
Memory.v
Output.v
Metering.v
Blockchain.v
Transfers.v
Storage.v
Validator.v
RuntimeExec.v
Builtin.v
VMHooks.v
BaseOps.v
AsyncCall.v
BaseOpsCalls.v
BigIntOps.v
SmallIntOps.v
CryptoEI.v
Execution.v
Host.v
GasConfig.v
OrderedJson.v
OrderedJsonProps.v
Hooks.v
HookRuns.v
Arguments.v
BaseOpsProps.v
CallsProps.v
BigIntProps.v
Imports.v
Contracts.v
Nesting.v
Guarantees.v
AsyncGas.v
WorldAccess.v
HostSetup.v
IpcMessages.v
IpcPipes.v
IpcParts.v
IpcDriver.v
IpcToy.v
IpcTraces.v
IpcSerial.v
IpcMessaging.v
IpcProps.v
GoText.v
Fallible.v
ScenExpr.v
ScenExprProps.v
ScenModel.v
ScenParse.v
ScenWrite.v
ScenRoundtrip.v
Stateful.v
WorldMock.v
ScenExec.v
ScenCheck.v
ScenRun.v
ScenEnds.v
ScenToy.v
ScenExecProps.v
ScenCheckProps.v
ScenRunProps.v
ScenHost.v
ScenHostRun.v
DebugServer.v
DebugServerProps.v
ScenDirs.v
Kast.v
Conservation.v
Wasmer.v
