(* ===== verification/Prelude.v ===== *)
(** * A verification of the WebAssembly VM host

    The program is the host of a WebAssembly virtual machine for smart
    contracts ([src/vmhost], with [src/math] and [src/config]), the layer that runs
    it in a process of its own ([src/ipc]), the scenarios its tests are written
    in ([src/scenarios]), the executor that runs them against a test world
    ([src/scenarioexec], [src/mock/world]), and a debug server over that world
    ([src/vmserver]).  A node calls
    [RunSmartContractCreate] or [RunSmartContractCall]; the host starts a wasmer
    instance of the contract's code and calls one of its functions; the contract
    calls back into the host through the functions exported to WebAssembly,
    which read and write the contexts of the host and may execute other
    contracts, nested in the current one.  At the end the host returns the
    [VMOutput]: return code and data, gas, and the accounts to change.

    ** Parts, and where they are

    The host keeps one context per concern, each with a stack of saved states
    for nested executions.  [State.HostState] has one record for each, so every
    file below works on the same state:

    - [Errors] ([errors.go], [errorWrapping.go]): sentinels, chains, [errors.Is]
      and the errors a run accumulates.
    - [Overflow] ([math/overflow.go]), [Helpers] ([helpers.go]): checked
      arithmetic at its width; slices, keys, LEB128.
    - [Types] ([common.go], [gasCost.go] and the vmcommon structures), [State]
      ([hostCore/host.go], the structures of [vmhost/contexts]): the data, the
      state, the code outside the repository, the monad.
    - [Logic]: weakest preconditions, frame conditions, the interface of state
      stacks.  [Toy]: a concrete world, for the witnesses.
    - [BigInt] ([bigint.go]): handles to big integers.
    - [Runtime], [RuntimeExec], [Memory] ([runtime.go]): the current call, wasmer
      instances and their stack, warm instances, linear memory, breakpoints;
      starting instances, failing executions, preparing asynchronous calls.
    - [Output], [Transfers] ([output.go], and [ExecuteESDTTransfer] of
      [execution.go]): the accumulated [VMOutput], its stack and its merging;
      value and token transfers, logs, the final output.
    - [Metering] ([metering.go]): gas limits and counters, and the final
      accounting.
    - [Blockchain] ([blockchain.go]): accounts behind the hook, snapshots.
    - [Storage] ([storage.go]): reads and writes, protection, gas.
    - [Validator] ([validator.go], [reservedFunctions.go]).
    - [Builtin], [AsyncCall], [Execution] ([execution.go], [asyncCall.go],
      [breakpoints.go]): built-in functions, asynchronous calls, calls on the
      destination and the same context, creation, deployment and upgrade.
    - [Host] ([host.go], [execution.go]): the entry points; [HostSetup]: [NewVMHost]
      and the constructors of the contexts.
    - [VMHooks], [BaseOps], [BaseOpsCalls] ([vmhooks/baseOps.go]), [BigIntOps]
      ([bigIntOps.go]), [SmallIntOps] ([smallIntOps.go]), [CryptoEI]
      ([cryptoei.go], and the hashers and signers of [src/crypto]): the functions exported
      to WebAssembly; [Imports]: the
      table they are registered in (the [...Imports] functions).
    - [Hooks], [Nesting], [Guarantees], [AsyncGas]: what a contract can do, and
      the theorems about nested executions and groups of asynchronous calls;
      [WorldAccess]: what the host changes of the world; [Conservation]: what becomes
      of the value of a transaction; [HookRuns], [Contracts]: every exported function
      is composed of what [Hooks] allows; [Arguments], [BaseOpsProps], [BigIntProps], [CallsProps]:
      what the exported functions do.
    - [Wasmer] ([src/wasmer]): the bindings to the engine: instances and what they
      export, calls, memory, the registration of imports.
    - [GasTables], [GasConfig] ([config/gasSchedule.go], [wasmer/opcodes.go]): the
      schedules of prices and the structures read from them.
    - [OrderedJson], [OrderedJsonProps] ([scenarios/orderedjson]): trees that keep
      the order of keys, their printer and parser.

    Scenarios are JSON files of steps, whose values are expressions:

    - [GoText], [Fallible]: what the sources use of the Go libraries for texts, and
      results that are a value or an error.
    - [ScenExpr], [ScenExprProps] ([scenarios/expression]): the interpreter of
      expressions, and the reconstructor that makes expressions of bytes.
    - [ScenModel], [ScenParse], [ScenWrite] ([scenarios/json]): the structures, read
      from a tree and written to one; [ScenRoundtrip]: what is written is read back.

    They are run against a world kept in memory ([src/mock/world], [src/scenarioexec],
    [src/scenarios/controller]):

    - [Stateful]: operations that change a state and end with an error, a value or a
      panic, their laws, and the automation for what keeps a predicate of the state.
    - [WorldMock] ([mock/world]): the accounts, blocks, shards and code of the test
      world; balances and token balances; reserved keys; the updates of an output,
      committed or rolled back; the hook a VM reads the world by.
    - [ScenExec] ([exec.go], [stepRunTx.go], [util.go], [gasScheduleLoad.go] and
      [scenarios/fileresolver]): the executor's state, its prices, transactions.
    - [ScenCheck] ([stepCheckAccounts.go], [stepCheckTxResult.go]): the comparison of
      the world and of results with what a scenario expects.
    - [ScenRun] ([execScenario.go], [execTest.go], [stepDumpWorld.go], and
      [scenarioOne.go], [testOne.go] of [scenarios/controller]): steps, scenarios and the
      files they include, tests, the dump of the state, the making of an executor.
    - [ScenDirs] ([scenarioDir.go], [testDir.go], [cmd/test/runner.go]):
      directories of scenarios and tests, the test runner, the tools that rewrite files.
    - [Kast] ([scenarios/orderedjson2kast]): the export for the K framework.
    - [ScenHost], [ScenHostRun]: the host of [Host] as the VM of the executor, with the
      test world as its hook, and a scenario run by it from end to end.
    - [ScenEnds], [ScenExecProps], [ScenCheckProps], [ScenRunProps]: the theorems;
      [ScenToy] runs a scenario against a small VM, for the witnesses.

    The debug server keeps such worlds in files between requests ([src/vmserver],
    [src/cmd/vmserver]): [DebugServer] has its requests, its files, its operations and its
    replies, [DebugServerProps] the theorems.

    The Node and the VM may be two processes ([src/ipc]):

    - [IpcMessages] ([ipc/common]): the messages, their kinds and their factory, and
      the serializable forms of outputs and accounts.
    - [IpcPipes] ([sender.go], [receiver.go], [messenger.go]): a process is a tree of
      reads and writes ([proc]); two pipes join two of them ([system]), and [step]
      moves either one.
    - [IpcParts] ([ipc/vmpart], [ipc/nodepart]): the loops and repliers of both
      sides, and the gateway that turns each call of the hook into a message.
    - [IpcDriver] ([nodepart/vmDriver.go]): starting, asking, restarting, closing.
    - [IpcTraces], [IpcSerial], [IpcMessaging], [IpcProps]: what a process does as
      a list of reads and writes, the two sides of a dialogue as dual lists, and the
      theorems.  [IpcToy] is a small instance, for the witnesses.

    Inside a file, a module named like the context holds its operations
    ([Metering.Metering.UseGas] is [meteringContext.UseGas] of [metering.go]);
    operations keep the names of the source.  A Go method is an operation
    of the monad [M] of [State]: from a [HostState] to an outcome and a state.
    The outcomes are [Ret], [Panic] (nil dereferences, indices out of range and
    the explicit breakpoints that leave the contract) and [OutOfFuel].  An
    [error] result is an ordinary value, [option error], so that code which
    drops or replaces an error does so here too.

    ** Code outside the repository

    The class [Externals] of [State] has what the sources call but do not
    contain: the blockchain hook over an abstract [World], the container of
    built-in functions, epoch flags, the parser of call data, JSON, hashing and
    the parts of wasmer that compile, cache and grow.  All theorems hold for
    every instance of it; what a theorem needs to know of one is a hypothesis.
    The class also has [range], the order in which Go visits a map: any
    permutation of its entries.

    The code of contracts is the parameter [wasm] of [Execution]: it runs an
    exported function, given [HostAPI], the operations that execute other
    contracts, which the host implements in terms of itself.  The hypothesis
    [Hooks.sandboxed] says of it what the sandbox promises: it acts on the
    host only through the operations of the contexts its imports are composed
    of, listed in [Hooks.hook_op], and those of [HostAPI], also when it panics.
    It is no bare assumption: [Contracts.contracts_sandboxed] proves it of every contract that is a
    program over the registered functions, a well-founded tree of calls with
    arguments and continuations.

    Of the engine the host needs no more than [Externals] has; the bindings in between
    are verified by themselves in [Wasmer], over the functions of its library in C
    ([WasmerLib]).

    Further parameters, each in the section that uses it: mapstructure's decoder
    ([GasConfig]), the cryptographic primitives ([CryptoEI]), the marshalizer,
    [fmt.Errorf], the execution handler and the program of the VM ([IpcPipes],
    [IpcParts], [IpcDriver]), and the times at which messages arrive, an oracle
    of the Node's part.  Below scenarios, the file system, the hash, twos-complement
    and [strconv.Quote] ([ScenEnv]), the built-in functions and the address of a new
    contract ([MockEnv]), the files of the executor, of the runner of directories and of
    the debug server ([ExecEnv], [DirEnv], [DebugEnv]), and the VM that the executor is
    given, an interface of the sources ([VMExecutionHandler]): theorems on scenarios that
    need it assume that a VM changes the executor's world only through its hook, and that
    it returns.  [ScenHost.host_implements_VM] proves both of the host.  The hook of
    [Externals] does not panic, while the test world does on states no test makes; the
    parameter [HookCrash] says what the host reads there instead.

    ** Fuel

    [Execution.host_api] ties that knot with one unit of fuel per level of
    nesting.  The bound is no restriction: an execution needs an instance,
    [StartWasmerInstance] refuses one beyond [maxWasmerInstances], and
    [Nesting.enough] is the number that may still start.  With that fuel,
    [Guarantees.nested_calls_end] shows that nested calls do not run out of it,
    and [Guarantees.transactions_return] that transactions return.  All other
    loops are structural or run over the entries of a map.  [IpcPipes.run] has
    fuel for the moves of the two processes; the theorems on transactions say that
    there is enough.  [ScenRun.ExecuteScenario] has
    one unit of fuel per level of included files: [ScenRunProps.fits] is the tree of
    files a scenario includes, and a finite one is always enough; a file that includes
    itself has none, and runs for ever in the sources too.

    ** What the theorems show

    - Nesting ([Guarantees]): a nested call that returns puts back the
      stacks, the big integers, the runtime state, the storage address and the
      instance of its caller, whatever the callee did; one that fails
      leaves no trace in the output, the gas counters and the world - but for
      the output of a built-in function that ran before it.  Transactions end
      with an output or an error, never a panic, and clean up.
    - The world ([WorldAccess]): the host changes it by saving compiled code, running
      built-in functions and reverting to snapshots, and by nothing else.
    - Gas ([Metering], [RuntimeExec], [Storage], [AsyncGas]): the final
      accounting conserves gas, and fails exactly when it must; the deduction of
      the initial cost, bounded use, the price of storage changes and
      asynchronous calls, and the shares of a group of calls.
    - Value ([Transfers], [Output]): transfers conserve the sum of balance
      changes; transfers are recorded; a failed execution reports nothing but
      its failure; merging is pointwise and independent of the map's order;
      saved states come back.  [Conservation]: the balance changes of a transaction sum up
      to the value it brought, for contracts that create no others and built-in functions
      that make no value; a creation whose initialisation fails takes what was sent to the
      new address out of the sum.
    - Setting up ([HostSetup]): a host is made exactly when its parameters are complete,
      and is ready for its first transaction.
    - Storage ([Storage]): which writes and reads are refused, and what the
      others change.
    - Memory ([Memory]): loads and stores stay within bounds, never panic,
      and read back what was stored.
    - Asynchronous calls ([AsyncGas]): pending calls, the input of callbacks,
      and two behaviours that are not what the code means to do.
    - Exported functions ([Contracts], [CallsProps], [Arguments], [BigIntProps],
      [BaseOpsProps]): every one stays within the sandbox and returns a value of its
      type; what arithmetic, storage, transfers and nested calls do on every branch.
    - The bindings ([Wasmer]): a call reaches the engine exactly when its arguments fit,
      with these arguments at the width of its parameters; the engine is given the imports
      of the host and no others, each with its own wrapper and types;
      what is made and cannot be read is never destroyed.
    - Gas schedules ([GasConfig]): a complete schedule becomes exactly its prices, or
      the error that names a zero.
    - Two processes ([IpcProps], [IpcSerial]): a transaction made over the pipes is
      the run of the host against the Node's hook, when the messages are carried in time and
      the Node serves the calls ([IpcMessaging.remote] is that
      specification, [direct] the one without errors made anew), in whatever order
      the two processes move; the requests the Node does not serve; the change of
      the gas schedule; what of an output travels.
    - JSON ([OrderedJsonProps]): the parser ends on every input and reads back what
      the printer writes.
    - Scenarios ([ScenExprProps], [ScenRoundtrip]): expressions have a value or an
      error, whatever the text; numbers fit their width; reconstructed values and
      written scenarios are read back, within conditions - the predicates [..._ok] of
      [ScenRoundtrip] say which values, and so which parts the sources do not write.
    - Running scenarios ([ScenExecProps], [ScenCheckProps], [ScenRunProps]): a
      transaction conserves the balances of the test world but for the price of its
      gas, if built-in functions change none; one that fails has its storages rolled back
      and nothing else of what built-in functions wrote; a scenario ends; it
      leaves the built-in functions and the fixed parts of its world in place; what the
      checks of accounts and of results compare, and what of a scenario they never look at
      (owners, frozen tokens, the + of tokens).
    - Around scenarios ([ScenHost], [ScenDirs], [Kast], [DebugServerProps]): the host
      is the VM they need; a directory passes exactly when its files do, and its first
      scenario decides the prices of all; exported terms tell trees apart; the world a
      request to the debug server leaves is the one the next request finds, if its strings
      are UTF-8, and a query changes none.
    - The rest: validation, error chains, overflow, slices, LEB128, handles.

    ** Decisions

    - Integers are [Z] with the wrap-around of their width written out ([u64],
      [u32], [s32]); theorems about gas assume the counters in range.
    - A nil slice and an empty one are the same list.  [big.Int] values are
      [Z]; a [big.Int] the code tests for nil is an [option].
    - Pointers that are compared or shared - wasmer instances and
      [AsyncContextInfo] - live in heaps of the state.  Other structures are
      values: the sources copy them, or never change them after sharing.  In
      [processAsyncInfo] the pending map shares its calls with the
      original, and only gas limits are written in between; they are written in
      both.
    - [InitStateFromContractCallInput] of the metering context changes the caller's
      input after the runtime context copied it; operations that do so return
      the changed input, and [deductInitialGas] reads the copy.
    - [UpdateGasStateOnSuccess] takes no [VMOutput]: the sources always pass the
      output state.  [SetGasSchedule] takes the parsed schedule.
    - Logging, locks and timing are left out; one transaction runs at a time.

    ** Not modelled

    [saveCrossShardCalls], which nothing calls; the engine of wasmer below its bindings,
    and the libraries of cryptography below theirs; the processes, files and signals of the operating
    system below [ipc], its logs and its marshalizers (the standard library); the router,
    the logging and the printing of the debug server and of the runners, and the flags of
    the command line, which are declared to a library; of the test tooling, the mocks of
    single contexts and of wasmer ([mock/context], [mock/contracts], [testcommon]), which
    replace what is modelled here, and the fuzzers ([fuzz]), which are random inputs to
    the executor; generated tables of prices ([tomlfiles.go]). *)
From Stdlib Require Export ZArith Lia.
From stdpp Require Export base gmap strings list list_numbers fin_maps option.
From Stdlib Require Strings.String Strings.Byte.

(** ** Byte strings

    Go's [string] and [[]byte] are both sequences of bytes; the conversions
    [string(b)] and [[]byte(s)] that the sources use everywhere are the
    identity on the sequence.  One type stands for both. *)

Abbreviation bytes := (list Byte.byte).

(** A Go string literal. *)
Definition bs (s : string) : bytes := String.list_byte_of_string s.

#[export] Instance byte_eq_dec : EqDecision Byte.byte := Byte.byte_eq_dec.

#[export] Program Instance byte_countable : Countable Byte.byte :=
  inj_countable Byte.to_N Byte.of_N _.
Next Obligation. apply Byte.of_to_N. Qed.

#[export] Instance byte_inhabited : Inhabited Byte.byte := populate Byte.x00.

(** [bytes.Equal] and [bytes.HasPrefix]. *)
Definition bytes_eqb (a b : bytes) : bool := bool_decide (a = b).

Lemma bytes_eqb_refl a : bytes_eqb a a = true.
Proof. by apply bool_decide_eq_true. Qed.

Lemma bytes_eqb_eq a b : bytes_eqb a b = true <-> a = b.
Proof. apply bool_decide_eq_true. Qed.

Lemma bytes_eqb_ne a b : a <> b -> bytes_eqb a b = false.
Proof. apply bool_decide_eq_false. Qed.

Fixpoint HasPrefix (s prefix : bytes) {struct prefix} : bool :=
  match prefix, s with
  | [], _ => true
  | p :: prefix', c :: s' => bool_decide (p = c) && HasPrefix s' prefix'
  | _ :: _, [] => false
  end.

(** [len(x)] as a Go [int]. *)
Definition len {A} (l : list A) : Z := Z.of_nat (length l).

Lemma HasPrefix_spec (s p : bytes) : HasPrefix s p = true <-> p `prefix_of` s.
Proof.
  revert s; induction p as [|c p IH]; intros s; cbn.
  - split; intros _; [apply prefix_nil | reflexivity].
  - destruct s as [|d s]; cbn.
    + split; [done | by intros ?%prefix_nil_not].
    + rewrite andb_true_iff, bool_decide_eq_true, IH. split.
      * intros [-> H]. by apply prefix_cons.
      * intros H. split; [by eapply prefix_cons_inv_1 | by eapply prefix_cons_inv_2].
Qed.

(** ** Machine integers

    A machine integer is a [Z] inside the range of its type; every arithmetic
    operation of the sources is followed by the wrap-around of that type. *)

#[local] Open Scope Z_scope.

Definition u8 (z : Z) : Z := z mod 2 ^ 8.
Definition u32 (z : Z) : Z := z mod 2 ^ 32.
Definition u64 (z : Z) : Z := z mod 2 ^ 64.
Definition s32 (z : Z) : Z := (z + 2 ^ 31) mod 2 ^ 32 - 2 ^ 31.
Definition s64 (z : Z) : Z := (z + 2 ^ 63) mod 2 ^ 64 - 2 ^ 63.

Definition MaxUint64 : Z := 2 ^ 64 - 1.
Definition MaxInt64 : Z := 2 ^ 63 - 1.
Definition MinInt64 : Z := - 2 ^ 63.
Definition MaxInt32 : Z := 2 ^ 31 - 1.

Definition is_u64 (z : Z) : Prop := 0 <= z < 2 ^ 64.
Definition is_s64 (z : Z) : Prop := - 2 ^ 63 <= z < 2 ^ 63.
Definition is_s32 (z : Z) : Prop := - 2 ^ 31 <= z < 2 ^ 31.

(** The powers of two are kept folded during proofs; [word_lia] opens them. *)
Ltac word_unfold :=
  unfold u8, u32, u64, s32, s64, is_u64, is_s64, is_s32,
    MaxUint64, MaxInt64, MinInt64, MaxInt32 in *;
  change (2 ^ 8) with 256 in *;
  change (2 ^ 31) with 2147483648 in *;
  change (2 ^ 32) with 4294967296 in *;
  change (2 ^ 63) with 9223372036854775808 in *;
  change (2 ^ 64) with 18446744073709551616 in *.

Ltac word_lia := word_unfold; Z.to_euclidean_division_equations; lia.

(** Closes range facts about closed terms. *)
Ltac word_compute := vm_compute; repeat split; first [reflexivity | discriminate].

Create HintDb words discriminated.
Create Rewrite HintDb words.
Create Rewrite HintDb stack.

Lemma u64_id z : is_u64 z -> u64 z = z.
Proof. intros. word_lia. Qed.

Lemma u64_range z : is_u64 (u64 z).
Proof. word_lia. Qed.

Lemma s32_id z : is_s32 z -> s32 z = z.
Proof. intros. word_lia. Qed.

Lemma s32_range z : is_s32 (s32 z).
Proof. word_lia. Qed.

Lemma s64_range z : is_s64 (s64 z).
Proof. word_lia. Qed.

Lemma s64_id z : is_s64 z -> s64 z = z.
Proof. intros. word_lia. Qed.

Lemma u32_nonneg z : 0 <= z < 2 ^ 32 -> u32 z = z.
Proof. intros. word_lia. Qed.

(** A negative [int32] converts to a [uint32] of at least [2^31]. *)
Lemma u32_neg z : - 2 ^ 31 <= z < 0 -> u32 z = z + 2 ^ 32.
Proof. intros. word_lia. Qed.

#[export] Hint Resolve u64_range s32_range s64_range : words.
#[export] Hint Rewrite u64_id s32_id s64_id using (auto with words; lia) : words.

Lemma len_nonneg {A} (l : list A) : 0 <= len l.
Proof. unfold len. lia. Qed.

Lemma len_app {A} (l k : list A) : len (l ++ k) = len l + len k.
Proof. unfold len. rewrite length_app. lia. Qed.

Lemma len_nil_inv {A} (l : list A) : len l = 0 -> l = [].
Proof. unfold len. destruct l; cbn; [done | lia]. Qed.

#[export] Hint Resolve len_nonneg : words.

(** ** Unsigned big-endian bytes: [big.Int.Bytes] and [big.Int.SetBytes] *)

Definition byte_of_Z (z : Z) : Byte.byte :=
  match Byte.of_N (Z.to_N (u8 z)) with Some b => b | None => Byte.x00 end.

Definition Z_of_byte (b : Byte.byte) : Z := Z.of_N (Byte.to_N b).

(** [SetBytes]: the value of a big-endian unsigned byte string. *)
Definition SetBytes (b : bytes) : Z :=
  foldl (fun acc c => acc * 256 + Z_of_byte c) 0 b.

(** The big-endian digits of [z], least significant consed last; [fuel] is
    the number of digits that may be produced. *)
Fixpoint be_digits (fuel : nat) (z : Z) (acc : bytes) : bytes :=
  match fuel with
  | O => acc
  | S fuel' => if z <=? 0 then acc
               else be_digits fuel' (z / 256) (byte_of_Z z :: acc)
  end.

(** [Bytes]: the absolute value, big-endian, without leading zeros.  A
    positive [z] has fewer than [Z.log2 z + 2] base-256 digits. *)
Definition Bytes (z : Z) : bytes :=
  be_digits (Z.to_nat (Z.log2 (Z.abs z) + 2)) (Z.abs z) [].

Lemma Z_of_byte_range b : 0 <= Z_of_byte b < 256.
Proof. unfold Z_of_byte. pose proof (Byte.to_N_bounded b). lia. Qed.

Lemma Z_of_byte_of_Z z : Z_of_byte (byte_of_Z z) = u8 z.
Proof.
  unfold Z_of_byte, byte_of_Z.
  destruct (Byte.of_N (Z.to_N (u8 z))) as [b|] eqn:E.
  - apply Byte.to_of_N in E. rewrite E. word_lia.
  - apply Byte.of_N_None_iff in E. exfalso. word_lia.
Qed.

Lemma byte_of_Z_of_byte b : byte_of_Z (Z_of_byte b) = b.
Proof.
  unfold byte_of_Z, Z_of_byte.
  replace (Z.to_N (u8 (Z.of_N (Byte.to_N b)))) with (Byte.to_N b).
  - by rewrite Byte.of_to_N.
  - pose proof (Byte.to_N_bounded b). word_lia.
Qed.

Lemma SetBytes_app a b : SetBytes (a ++ b) = SetBytes a * 256 ^ len b + SetBytes b.
Proof.
  unfold SetBytes. induction b as [|c b IH] using rev_ind.
  - rewrite app_nil_r. cbn [foldl]. change (len (@nil Byte.byte)) with 0.
    rewrite Z.pow_0_r. lia.
  - rewrite app_assoc, foldl_app, (foldl_app _ b [c]).
    cbn [foldl]. rewrite IH, len_app.
    replace (len [c]) with 1 by done.
    rewrite Z.pow_add_r by (auto with words; lia). rewrite Z.pow_1_r. ring.
Qed.

Lemma SetBytes_bound b : 0 <= SetBytes b < 256 ^ len b.
Proof.
  induction b as [|c b IH] using rev_ind; [done|].
  rewrite SetBytes_app, len_app. replace (len [c]) with 1 by done.
  rewrite Z.pow_add_r by (auto with words; lia). rewrite Z.pow_1_r.
  unfold SetBytes at 2 4. cbn [foldl]. pose proof (Z_of_byte_range c). nia.
Qed.

Lemma be_digits_spec fuel z acc :
  0 <= z < 256 ^ Z.of_nat fuel ->
  SetBytes (be_digits fuel z acc) = z * 256 ^ len acc + SetBytes acc.
Proof.
  revert z acc; induction fuel as [|fuel IH]; intros z acc Hz; cbn [be_digits].
  - change (256 ^ Z.of_nat 0) with 1 in Hz. replace z with 0 by lia. by rewrite Z.mul_0_l.
  - destruct (Z.leb_spec z 0); [replace z with 0 by lia; by rewrite Z.mul_0_l|].
    rewrite Nat2Z.inj_succ, Z.pow_succ_r in Hz by lia.
    rewrite IH by (split; [apply Z.div_pos; lia | apply Z.div_lt_upper_bound; lia]).
    change (byte_of_Z z :: acc) with ([byte_of_Z z] ++ acc).
    rewrite len_app, SetBytes_app. replace (len [byte_of_Z z]) with 1 by done.
    rewrite Z.pow_add_r by (auto with words; lia).
    replace (SetBytes [byte_of_Z z]) with (u8 z)
      by (unfold SetBytes; cbn [foldl]; rewrite Z_of_byte_of_Z; lia).
    unfold u8. pose proof (Z.div_mod z 256 ltac:(lia)). change (2 ^ 8) with 256. nia.
Qed.

(** [SetBytes] inverts [Bytes]. *)
Lemma SetBytes_Bytes z : SetBytes (Bytes z) = Z.abs z.
Proof.
  unfold Bytes. rewrite be_digits_spec; [unfold len; cbn; lia|].
  split; [lia|]. rewrite Z2Nat.id by (pose proof (Z.log2_nonneg (Z.abs z)); lia).
  destruct (Z.eq_dec (Z.abs z) 0) as [E|E].
  - rewrite E. by compute.
  - pose proof (Z.log2_spec (Z.abs z) ltac:(lia)) as [_ H].
    eapply Z.lt_le_trans; [exact H|]. pose proof (Z.log2_nonneg (Z.abs z)).
    change 256 with (2 ^ 8). rewrite <- Z.pow_mul_r by lia.
    apply Z.pow_le_mono_r; lia.
Qed.

(** ** Little-endian words *)

(** [binary.LittleEndian.Uint32] *)
Definition LittleEndian_Uint32 (b0 b1 b2 b3 : Byte.byte) : Z :=
  Z_of_byte b0 + 2 ^ 8 * Z_of_byte b1 + 2 ^ 16 * Z_of_byte b2 + 2 ^ 24 * Z_of_byte b3.

(** [binary.LittleEndian.PutUint32] *)
Definition PutUint32 (z : Z) : bytes :=
  [byte_of_Z z; byte_of_Z (z / 2 ^ 8); byte_of_Z (z / 2 ^ 16); byte_of_Z (z / 2 ^ 24)].

Lemma Uint32_PutUint32 z :
  0 <= z < 2 ^ 32 ->
  LittleEndian_Uint32 (byte_of_Z z) (byte_of_Z (z / 2 ^ 8)) (byte_of_Z (z / 2 ^ 16))
    (byte_of_Z (z / 2 ^ 24)) = z.
Proof.
  intros Hz. unfold LittleEndian_Uint32. rewrite !Z_of_byte_of_Z. unfold u8.
  change (2 ^ 32) with 4294967296 in Hz. change (2 ^ 8) with 256. change (2 ^ 16) with 65536.
  change (2 ^ 24) with 16777216.
  pose proof (Z.div_mod z 256 ltac:(lia)). pose proof (Z.mod_pos_bound z 256 ltac:(lia)).
  replace (z / 65536) with (z / 256 / 256) by (rewrite Z.div_div; [done | lia..]).
  replace (z / 16777216) with (z / 256 / 256 / 256) by (rewrite !Z.div_div; [done | lia..]).
  set (a := z / 256) in *. pose proof (Z.div_mod a 256 ltac:(lia)).
  pose proof (Z.mod_pos_bound a 256 ltac:(lia)).
  set (b := a / 256) in *. pose proof (Z.div_mod b 256 ltac:(lia)).
  pose proof (Z.mod_pos_bound b 256 ltac:(lia)).
  assert (0 <= b / 256 < 256) by (split; [apply Z.div_pos | apply Z.div_lt_upper_bound]; lia).
  rewrite (Z.mod_small (b / 256)) by lia. lia.
Qed.

(** ** Hexadecimal, as [encoding/hex] prints it *)

Definition hex_digit (z : Z) : Byte.byte :=
  if z <? 10 then byte_of_Z (48 + z) else byte_of_Z (87 + z).

Definition hex_EncodeToString (b : bytes) : bytes :=
  flat_map (fun c => [hex_digit (Z_of_byte c / 16); hex_digit (Z_of_byte c mod 16)]) b.

(** ** Loops that may fail *)

Fixpoint fold_option {A B} (f : A -> B -> option A) (l : list B) (a : A) : option A :=
  match l with
  | [] => Some a
  | b :: l' => a' ← f a b; fold_option f l' a'
  end.

(** ** Optional errors and generic list facts *)

(** [l[i:j]] for indices in range. *)
Definition slice {A} (l : list A) (i j : Z) : list A :=
  take (Z.to_nat (j - i)) (drop (Z.to_nat i) l).

Lemma slice_length {A} (l : list A) i j :
  0 <= i <= j -> j <= len l -> len (slice l i j) = j - i.
Proof. intros. unfold slice, len in *. rewrite length_take, length_drop. lia. Qed.

(** Overwriting the bytes of [l] from index [i] on with [d]: the effect of
    [copy(l[i:i+len(d)], d)]. *)
Definition splice {A} (l : list A) (i : Z) (d : list A) : list A :=
  take (Z.to_nat i) l ++ d ++ drop (Z.to_nat (i + len d)) l.

Lemma splice_length {A} (l : list A) i d :
  0 <= i -> i + len d <= len l -> len (splice l i d) = len l.
Proof.
  intros. unfold splice, len in *. rewrite !length_app, length_take, length_drop. lia.
Qed.

Lemma slice_splice {A} (l : list A) i d :
  0 <= i -> i + len d <= len l -> slice (splice l i d) i (i + len d) = d.
Proof.
  intros. unfold slice, splice, len in *.
  rewrite drop_app_length' by (rewrite length_take; lia).
  replace (Z.to_nat (i + Z.of_nat (length d) - i)) with (length d) by lia.
  apply take_app_length.
Qed.

Lemma splice_lookup_ne {A} (l : list A) i d (k : nat) :
  0 <= i -> i + len d <= len l ->
  Z.of_nat k < i \/ i + len d <= Z.of_nat k -> splice l i d !! k = l !! k.
Proof.
  intros Hi Hl Hk. unfold splice, len in *.
  destruct Hk as [Hk|Hk].
  - rewrite lookup_app_l by (rewrite length_take; lia).
    apply lookup_take_lt; lia.
  - rewrite lookup_app_r by (rewrite length_take; lia).
    rewrite lookup_app_r by (rewrite length_take; lia).
    rewrite length_take, lookup_drop. f_equal. lia.
Qed.

(** The last element of a stack and the stack without it: the stacks of the
    sources grow at the end. *)
Fixpoint pop {A} (l : list A) : option (A * list A) :=
  match l with
  | [] => None
  | x :: l' => match pop l' with
               | None => Some (x, [])
               | Some (y, l'') => Some (y, x :: l'')
               end
  end.

Lemma pop_snoc {A} (l : list A) x : pop (l ++ [x]) = Some (x, l).
Proof. induction l as [|y l IH]; cbn; [done | by rewrite IH]. Qed.

Lemma pop_None {A} (l : list A) : pop l = None <-> l = [].
Proof. destruct l as [|x l]; cbn; [done|]. destruct (pop l) as [[]|]; done. Qed.

Lemma pop_Some {A} (l : list A) x l' : pop l = Some (x, l') <-> l = l' ++ [x].
Proof.
  split; [|intros ->; apply pop_snoc].
  destruct l as [|y l _] using rev_ind; [done|].
  rewrite pop_snoc. by intros [= -> ->].
Qed.

#[export] Hint Rewrite @pop_snoc : stack.

(** Arithmetic and byte conversions stay folded under [cbn] and [simpl]. *)
Arguments u8 : simpl never.
Arguments u32 : simpl never.
Arguments u64 : simpl never.
Arguments s32 : simpl never.
Arguments s64 : simpl never.
Arguments byte_of_Z : simpl never.
Arguments Z_of_byte : simpl never.
Arguments SetBytes : simpl never.
Arguments Bytes : simpl never.
Arguments bs : simpl never.
Arguments len : simpl never.
Arguments MaxUint64 : simpl never.
Arguments MaxInt64 : simpl never.
Arguments MaxInt32 : simpl never.
Arguments MinInt64 : simpl never.

(** ** Sums *)

Fixpoint Zsum (l : list Z) : Z :=
  match l with [] => 0%Z | z :: l' => (z + Zsum l')%Z end.

Lemma Zsum_perm l l' : l ≡ₚ l' -> Zsum l = Zsum l'.
Proof. induction 1; cbn; lia. Qed.

Lemma Zsum_app l l' : Zsum (l ++ l') = (Zsum l + Zsum l')%Z.
Proof. induction l; cbn; lia. Qed.

Lemma Zsum_nonneg l : Forall (fun z => (0 <= z)%Z) l -> (0 <= Zsum l)%Z.
Proof. induction 1; cbn; lia. Qed.

(** The sum of [f] over the entries of a map. *)
Definition sum_map {A} (f : bytes -> A -> Z) (m : gmap bytes A) : Z :=
  Zsum ((fun ka => f ka.1 ka.2) <$> map_to_list m).

Section SumMap.
Context {A : Type}.
Implicit Types (f g : bytes -> A -> Z) (m : gmap bytes A).

Lemma sum_map_empty f : sum_map f ∅ = 0%Z.
Proof. unfold sum_map. by rewrite map_to_list_empty. Qed.

Lemma sum_map_insert f m k a :
  m !! k = None -> sum_map f (<[k := a]> m) = (f k a + sum_map f m)%Z.
Proof.
  intros Hk. unfold sum_map.
  by rewrite (Zsum_perm _ _ (fmap_Permutation _ _ _ (map_to_list_insert m k a Hk))).
Qed.

Lemma sum_map_split f m k a :
  m !! k = Some a -> sum_map f m = (f k a + sum_map f (delete k m))%Z.
Proof.
  intros Hk. rewrite <- (insert_delete_id m k a Hk) at 1.
  by rewrite sum_map_insert by apply lookup_delete_eq.
Qed.

Lemma sum_map_ext f g m :
  (forall k a, m !! k = Some a -> f k a = g k a) -> sum_map f m = sum_map g m.
Proof.
  induction m as [|k a m Hk IH] using map_ind; intros H; [by rewrite !sum_map_empty|].
  rewrite !sum_map_insert by done. rewrite (H k a) by apply lookup_insert_eq.
  rewrite IH; [done|]. intros i x Hi. apply H. rewrite lookup_insert_ne; [done|].
  intros ->. congruence.
Qed.

Lemma sum_map_add f g m : sum_map (fun k a => f k a + g k a)%Z m = (sum_map f m + sum_map g m)%Z.
Proof.
  induction m as [|k a m Hk IH] using map_ind; [by rewrite !sum_map_empty|].
  rewrite !sum_map_insert by done. lia.
Qed.

Lemma sum_map_nonneg f m :
  (forall k a, m !! k = Some a -> 0 <= f k a)%Z -> (0 <= sum_map f m)%Z.
Proof.
  intros H. apply Zsum_nonneg. apply Forall_fmap, list_relations.list.Forall_forall.
  intros [k a] Hin%elem_of_map_to_list. by apply H.
Qed.

Lemma sum_map_update f m k a b :
  m !! k = Some a -> sum_map f (<[k := b]> m) = (sum_map f m - f k a + f k b)%Z.
Proof.
  intros Hk. rewrite (sum_map_split f m k a Hk).
  rewrite (sum_map_split f (<[k := b]> m) k b) by apply lookup_insert_eq.
  rewrite delete_insert_eq. lia.
Qed.

End SumMap.

(** Replacing every value leaves a sum over the new values. *)
Lemma sum_map_imap {A B} (f : bytes -> B -> Z) (h : bytes -> A -> B) (m : gmap bytes A) :
  sum_map f (map_imap (fun k a => Some (h k a)) m) = sum_map (fun k a => f k (h k a)) m.
Proof.
  induction m as [|k a m Hk IH] using map_ind; [by rewrite map_imap_empty, !sum_map_empty|].
  rewrite (map_imap_insert_Some _ k a m (h k a)) by done.
  rewrite (sum_map_insert (fun k a => f k (h k a)) m) by done. rewrite <- IH.
  apply sum_map_insert. by rewrite map_lookup_imap, Hk.
Qed.
