(* ===== verification/Errors.v ===== *)
(** Errors of the VM: the sentinels of [src/vmhost/errors.go] and
    [src/math/errors.go], Go's error chains ([fmt.Errorf] with [%w],
    [errors.Is]) and the accumulating [WrappableError] of
    [src/vmhost/errorWrapping.go]. *)
From S2P Require Import Prelude.

(** ** Sentinels *)

(** One constructor per package-level error variable. *)
Inductive sentinel :=
| ErrReturnCodeNotOk
| ErrInvalidCallOnReadOnlyMode
| ErrNotEnoughGas
| ErrUnhandledRuntimeBreakpoint
| ErrSignalError
| ErrExecutionFailed
| ErrBadBounds
| ErrBadLowerBounds
| ErrBadUpperBounds
| ErrNegativeLength
| ErrFailedTransfer
| ErrTransferInsufficientFunds
| ErrTransferNegativeValue
| ErrUpgradeFailed
| ErrInvalidUpgradeArguments
| ErrInvalidFunction
| ErrInitFuncCalledInRun
| ErrCallBackFuncCalledInRun
| ErrCallBackFuncNotExpected
| ErrFuncNotFound
| ErrInvalidFunctionName
| ErrFunctionNonvoidSignature
| ErrContractInvalid
| ErrContractNotFound
| ErrMemoryDeclarationMissing
| ErrMaxInstancesReached
| ErrStoreReservedKey
| ErrCannotWriteProtectedKey
| ErrNonPayableFunctionEgld
| ErrNonPayableFunctionEsdt
| ErrArgIndexOutOfRange
| ErrArgOutOfRange
| ErrStorageValueOutOfRange
| ErrDivZero
| ErrBitwiseNegative
| ErrShiftNegative
| ErrAsyncContextDoesNotExist
| ErrInvalidAccount
| ErrDeploymentOverExistingAccount
| ErrAccountNotPayable
| ErrInvalidPublicKeySize
| ErrNilCallbackFunction
| ErrUpgradeNotAllowed
| ErrNilContract
| ErrBuiltinCallOnSameContextDisallowed
| ErrSyncExecutionNotInSameShard
| ErrInputAndOutputGasDoesNotMatch
| ErrTransferValueOnESDTCall
| ErrNilEnableEpochsHandler
| ErrAdditionOverflow
| ErrSubtractionUnderflow
| ErrMultiplicationOverflow.

#[export] Instance sentinel_eq_dec : EqDecision sentinel.
Proof. solve_decision. Defined.

(** The error a sentinel was built around with the [%w] verb. *)
Definition sentinel_wraps (s : sentinel) : option sentinel :=
  match s with
  | ErrBadLowerBounds => Some ErrBadBounds
  | ErrBadUpperBounds => Some ErrBadBounds
  | ErrTransferInsufficientFunds => Some ErrFailedTransfer
  | ErrTransferNegativeValue => Some ErrFailedTransfer
  | ErrInvalidUpgradeArguments => Some ErrUpgradeFailed
  | ErrInitFuncCalledInRun => Some ErrInvalidFunction
  | ErrCallBackFuncCalledInRun => Some ErrInvalidFunction
  | ErrCallBackFuncNotExpected => Some ErrInvalidFunction
  | ErrFuncNotFound => Some ErrInvalidFunction
  | ErrInvalidFunctionName => Some ErrInvalidFunction
  | ErrFunctionNonvoidSignature => Some ErrInvalidFunction
  | ErrContractNotFound => Some ErrContractInvalid
  | ErrMemoryDeclarationMissing => Some ErrContractInvalid
  | ErrMaxInstancesReached => Some ErrExecutionFailed
  | _ => None
  end.

(** The text of a sentinel, after the wrapped error where there is one. *)
Definition sentinel_text (s : sentinel) : bytes :=
  match s with
  | ErrReturnCodeNotOk => bs "return code is not ok"
  | ErrInvalidCallOnReadOnlyMode => bs "operation not permitted in read only mode"
  | ErrNotEnoughGas => bs "not enough gas"
  | ErrUnhandledRuntimeBreakpoint => bs "unhandled runtime breakpoint"
  | ErrSignalError => bs "error signalled by smartcontract"
  | ErrExecutionFailed => bs "execution failed"
  | ErrBadBounds => bs "bad bounds"
  | ErrBadLowerBounds => bs " (lower)"
  | ErrBadUpperBounds => bs " (upper)"
  | ErrNegativeLength => bs "negative length"
  | ErrFailedTransfer => bs "failed transfer"
  | ErrTransferInsufficientFunds => bs " (insufficient funds)"
  | ErrTransferNegativeValue => bs " (negative value)"
  | ErrUpgradeFailed => bs "upgrade failed"
  | ErrInvalidUpgradeArguments => bs " (invalid arguments)"
  | ErrInvalidFunction => bs "invalid function"
  | ErrInitFuncCalledInRun => bs " (calling init() directly is forbidden)"
  | ErrCallBackFuncCalledInRun => bs " (calling callBack() directly is forbidden)"
  | ErrCallBackFuncNotExpected => bs " (unexpected callback was received)"
  | ErrFuncNotFound => bs " (not found)"
  | ErrInvalidFunctionName => bs " (invalid name)"
  | ErrFunctionNonvoidSignature => bs " (nonvoid signature)"
  | ErrContractInvalid => bs "invalid contract code"
  | ErrContractNotFound => bs " (not found)"
  | ErrMemoryDeclarationMissing => bs " (missing memory declaration)"
  | ErrMaxInstancesReached => bs " (max instances reached)"
  | ErrStoreReservedKey => bs "cannot write to storage under reserved key"
  | ErrCannotWriteProtectedKey => bs "cannot write to protected key"
  | ErrNonPayableFunctionEgld => bs "function does not accept EGLD payment"
  | ErrNonPayableFunctionEsdt => bs "function does not accept ESDT payment"
  | ErrArgIndexOutOfRange => bs "argument index out of range"
  | ErrArgOutOfRange => bs "argument out of range"
  | ErrStorageValueOutOfRange => bs "storage value out of range"
  | ErrDivZero => bs "division by 0"
  | ErrBitwiseNegative => bs "bitwise operations only allowed on positive integers"
  | ErrShiftNegative => bs "bitwise shift operations only allowed on positive integers and by a positive amount"
  | ErrAsyncContextDoesNotExist => bs "async context does not exist"
  | ErrInvalidAccount => bs "account does not exist"
  | ErrDeploymentOverExistingAccount => bs "cannot deploy over existing account"
  | ErrAccountNotPayable => bs "sending value to non payable contract"
  | ErrInvalidPublicKeySize => bs "invalid public key size"
  | ErrNilCallbackFunction => bs "nil callback function"
  | ErrUpgradeNotAllowed => bs "upgrade not allowed"
  | ErrNilContract => bs "nil contract"
  | ErrBuiltinCallOnSameContextDisallowed => bs "calling built-in function on the same context is disallowed"
  | ErrSyncExecutionNotInSameShard => bs "sync execution request is not in the same shard"
  | ErrInputAndOutputGasDoesNotMatch => bs "input and output gas does not match"
  | ErrTransferValueOnESDTCall => bs "transfer value on esdt call"
  | ErrNilEnableEpochsHandler => bs "nil enable epochs handler"
  | ErrAdditionOverflow => bs "addition overflow"
  | ErrSubtractionUnderflow => bs "subtraction underflow"
  | ErrMultiplicationOverflow => bs "multiplication overflow"
  end.

(** ** Error values

    [ErrNew] is a fresh error: [errors.New] and [fmt.Errorf] without [%w], and
    every error a library or the blockchain returns; no sentinel is equal to
    it.  [ErrFmt] is [fmt.Errorf] with one [%w] between two texts. *)
Inductive error :=
| Sentinel (s : sentinel)
| ErrNew (msg : bytes)
| ErrFmt (prefix : bytes) (wrapped : error) (suffix : bytes).

Coercion Sentinel : sentinel >-> error.

#[export] Instance error_eq_dec : EqDecision error.
Proof. solve_decision. Defined.

Fixpoint Error (e : error) : bytes :=
  match e with
  | Sentinel s =>
      match sentinel_wraps s with
      | Some p => sentinel_text p ++ sentinel_text s
      | None => sentinel_text s
      end
  | ErrNew m => m
  | ErrFmt p e' s => p ++ Error e' ++ s
  end.

(** [errors.Is(err, target)] for a sentinel target: the chain of [Unwrap]. *)
Fixpoint errors_Is (e : error) (target : sentinel) : bool :=
  match e with
  | Sentinel s =>
      bool_decide (s = target) ||
      match sentinel_wraps s with
      | Some p => bool_decide (p = target)
      | None => false
      end
  | ErrNew _ => false
  | ErrFmt _ e' _ => errors_Is e' target
  end.

(** [errors.Is(err, target)] where [err] may be [nil]. *)
Definition opt_Is (e : option error) (target : sentinel) : bool :=
  match e with Some e => errors_Is e target | None => false end.

(** No sentinel wraps a sentinel that itself wraps one, so one step of
    unwrapping is all [errors_Is] needs. *)
Lemma sentinel_wraps_flat s p : sentinel_wraps s = Some p -> sentinel_wraps p = None.
Proof. destruct s; cbn; intros [= <-]; reflexivity. Qed.

Lemma errors_Is_refl (s : sentinel) : errors_Is s s = true.
Proof. cbn. by rewrite bool_decide_eq_true_2. Qed.

(** Wrapping with [%w] keeps every identity of the wrapped error. *)
Lemma errors_Is_ErrFmt p e s t : errors_Is (ErrFmt p e s) t = errors_Is e t.
Proof. reflexivity. Qed.

(** ** [WrappableError] *)

(** An error value that may also be a [*wrappableError]. *)
Module Wrappable.

(** [location] is what [runtime.Caller] reports: a parameter of the
    operations below. *)
Record errorWithLocation := mkErrorWithLocation {
  err : error;
  location : bytes;
  otherInfo : list bytes;
}.

Record wrappableError := mkWrappable { errsWithLocation : list errorWithLocation }.

Inductive anyError :=
| Plain (e : error)
| Wrapped (w : wrappableError).

Definition createErrorWithLocation (e : error) (loc : bytes) (info : list bytes) :=
  mkErrorWithLocation e loc info.

Definition WrapError (e : anyError) (loc : bytes) (info : list bytes) : wrappableError :=
  match e with
  | Wrapped w => w
  | Plain e => mkWrappable [createErrorWithLocation e loc info]
  end.

(** [wrapWithErrorWithSkipLevels]; [None] is a [nil] error. *)
Definition WrapWithError (w : wrappableError) (e : option anyError)
    (loc : bytes) (info : list bytes) : wrappableError :=
  match e with
  | None => w
  | Some (Plain e) =>
      mkWrappable (errsWithLocation w ++ [createErrorWithLocation e loc info])
  | Some (Wrapped w') => mkWrappable (errsWithLocation w ++ errsWithLocation w')
  end.

Definition WrapWithMessage (w : wrappableError) (msg : bytes) (loc : bytes) :=
  WrapWithError w (Some (Plain (ErrNew msg))) loc [].

Definition WrapWithStackTrace (w : wrappableError) (loc : bytes) :=
  WrapWithMessage w [] loc.

(** [GetBaseError] and [GetLastError] index the slice: [None] is the panic
    on an empty one. *)
Definition GetBaseError (w : wrappableError) : option error :=
  err <$> head (errsWithLocation w).

Definition GetLastError (w : wrappableError) : option error :=
  (err ∘ fst) <$> pop (errsWithLocation w).

Definition GetAllErrors (w : wrappableError) : list error :=
  err <$> errsWithLocation w.

(** [Is]: some accumulated error is the target. *)
Definition Is (w : wrappableError) (target : sentinel) : bool :=
  existsb (fun e => errors_Is (err e) target) (errsWithLocation w).

(** [Unwrap].  With no element left, [unwrapWrapping] returns a nil pointer
    which [Unwrap] then dereferences: the panic is [None]. *)
Definition unwrapWrapping (w : wrappableError) : option wrappableError :=
  match pop (errsWithLocation w) with
  | None => None
  | Some (_, rest) => Some (mkWrappable rest)
  end.

Definition Unwrap (w : wrappableError) : option anyError :=
  match unwrapWrapping w with
  | None => None
  | Some w' =>
      match errsWithLocation w' with
      | [e] => Some (Plain (err e))
      | _ => Some (Wrapped w')
      end
  end.

(** [errors.Is(werr, target)]: test [Is], then unwrap and go on.  Each
    unwrapping removes an element, so [length + 1] steps reach the end;
    [None] is a panic. *)
Fixpoint errors_Is_any (fuel : nat) (e : anyError) (target : sentinel) : option bool :=
  match e with
  | Plain e => Some (errors_Is e target)
  | Wrapped w =>
      if Is w target then Some true
      else match fuel with
           | O => None
           | S fuel' =>
               match Unwrap w with
               | None => None
               | Some e' => errors_Is_any fuel' e' target
               end
           end
  end.

Definition errors_Is_wrappable (w : wrappableError) (target : sentinel) : option bool :=
  errors_Is_any (S (length (errsWithLocation w))) (Wrapped w) target.

(** [strings.Join]. *)
Fixpoint Join (l : list bytes) (sep : bytes) : bytes :=
  match l with
  | [] => []
  | [x] => x
  | x :: l' => x ++ sep ++ Join l' sep
  end.

(** [Error]: the accumulated errors, the last one first. *)
Definition error_line (e : errorWithLocation) : bytes :=
  let msg := Error (err e) in
  let suffix := if bool_decide (msg = []) then [] else bs " [" ++ msg ++ bs "]" in
  let suffix := if bool_decide (otherInfo e = []) then suffix
                else suffix ++ bs " [" ++ Join (otherInfo e) (bs ",") ++ bs "]" in
  [byte_of_Z 10; byte_of_Z 9] ++ location e ++ suffix.

Definition Error_wrappable (w : wrappableError) : bytes :=
  concat (map error_line (rev (errsWithLocation w))).

(** *** Properties *)

Lemma Is_WrapWithError w e loc info t :
  Is (WrapWithError w (Some (Plain e)) loc info) t = Is w t || errors_Is e t.
Proof.
  unfold Is, WrapWithError, createErrorWithLocation. cbn.
  rewrite existsb_app. cbn. by rewrite orb_false_r.
Qed.

Lemma GetAllErrors_WrapWithError w e loc info :
  GetAllErrors (WrapWithError w (Some (Plain e)) loc info) = GetAllErrors w ++ [e].
Proof. unfold GetAllErrors. cbn. by rewrite fmap_app. Qed.

Lemma Is_iff w t : Is w t = true <-> exists e, e ∈ GetAllErrors w /\ errors_Is e t = true.
Proof.
  unfold Is, GetAllErrors. rewrite existsb_exists. split.
  - intros (e & Hin & He). exists (err e). split; [|done].
    apply list_elem_of_fmap. exists e. split; [done | by apply list_elem_of_In].
  - intros (e & Hin & He). apply list_elem_of_fmap in Hin as (x & -> & Hx).
    exists x. split; [by apply list_elem_of_In | done].
Qed.

Lemma Is_pop es e t :
  Is (mkWrappable (es ++ [e])) t = false -> Is (mkWrappable es) t = false.
Proof. unfold Is. cbn. rewrite existsb_app. by intros [H _]%orb_false_iff. Qed.

(** Unwrapping two errors or more ends at the first of them. *)
Lemma errors_Is_any_many fuel es e1 e2 t :
  (length es < fuel)%nat -> Is (mkWrappable (e1 :: e2 :: es)) t = false ->
  errors_Is_any fuel (Wrapped (mkWrappable (e1 :: e2 :: es))) t = Some false.
Proof.
  revert es. induction fuel as [|fuel IH]; intros es Hl HIs; [lia|].
  cbn [errors_Is_any]. rewrite HIs. unfold Unwrap, unwrapWrapping. cbn [errsWithLocation].
  destruct es as [|e3 es] using rev_ind.
  - change [e1; e2] with ([e1] ++ [e2]). rewrite pop_snoc. cbn [errsWithLocation].
    unfold Is in HIs. cbn in HIs. apply orb_false_iff in HIs as [He _].
    destruct fuel; cbn; by rewrite He.
  - rewrite length_app in Hl. cbn in Hl.
    change (e1 :: e2 :: es ++ [e3]) with ((e1 :: e2 :: es) ++ [e3]) in *. rewrite pop_snoc.
    cbn [errsWithLocation]. apply IH; [lia|]. by eapply Is_pop.
Qed.

(** C27: [errors.Is] on an accumulated error finds a target exactly when one of
    the accumulated errors is the target - except that when a single error was
    accumulated and it is not the target, unwrapping it leaves an empty list
    whose own unwrapping panics. *)
Theorem errors_Is_wrappable_exact e es t :
  let w := mkWrappable (e :: es) in
  (errors_Is_wrappable w t = Some true <-> exists x, x ∈ GetAllErrors w /\ errors_Is x t = true) /\
  (errors_Is_wrappable w t = None <-> es = [] /\ errors_Is (err e) t = false).
Proof.
  cbv zeta. rewrite <- Is_iff. unfold errors_Is_wrappable.
  destruct (Is (mkWrappable (e :: es)) t) eqn:HIs.
  - cbn [errors_Is_any]. rewrite HIs. split; [done|]. split; [done|]. intros [-> He].
    unfold Is in HIs. cbn in HIs. by rewrite He in HIs.
  - destruct es as [|e2 es].
    + assert (errors_Is (err e) t = false) as He.
      { unfold Is in HIs. cbn in HIs. by apply orb_false_iff in HIs as [He _]. }
      cbn. rewrite He. by split.
    + rewrite errors_Is_any_many by (cbn; lia || done). split; [done|]. split; [done|].
      by intros [? _].
Qed.

End Wrappable.
