(* ===== verification/Overflow.v ===== *)
(** Overflow-checked arithmetic: [src/math/overflow.go].  Logging is left out:
    it does not change any result. *)
From S2P Require Import Prelude Errors.

#[local] Open Scope Z_scope.

Definition AddUint64WithErr (a b : Z) : Z * option error :=
  let s := u64 (a + b) in
  if (a <=? s) && (b <=? s) then (s, None)
  else (s, Some (ErrAdditionOverflow : error)).

Definition AddUint64 (a b : Z) : Z :=
  match AddUint64WithErr a b with
  | (res, None) => res
  | (_, Some _) => MaxUint64
  end.

Definition AddInt64 (a b : Z) : Z :=
  let res := s64 (a + b) in
  if Bool.eqb (a <? res) (0 <? b) then res else MaxInt64.

Definition SubUint64 (a b : Z) : Z := if a <? b then 0 else u64 (a - b).

(** [res/b] is evaluated only when [a] and [b] are not zero. *)
Definition MulUint64WithErr (a b : Z) : Z * option error :=
  let res := u64 (a * b) in
  if (a =? 0) || (b =? 0) || (a =? res / b) then (res, None)
  else (0, Some (ErrMultiplicationOverflow : error)).

Definition MulUint64 (a b : Z) : Z :=
  match MulUint64WithErr a b with
  | (res, None) => res
  | (_, Some _) => MaxUint64
  end.

Definition AddInt32WithError (a b : Z) : Z * option error :=
  let res := s32 (a + b) in
  if Bool.eqb (a <? res) (0 <? b) then (res, None)
  else (0, Some (ErrAdditionOverflow : error)).

Definition AddInt32 (a b : Z) : Z :=
  match AddInt32WithError a b with
  | (res, None) => res
  | (_, Some _) => MaxInt32
  end.

(** Go's [int] has 64 bits on the supported platforms. *)
Definition SubInt (a b : Z) : Z :=
  let res := s64 (a - b) in
  if Bool.eqb (res <? a) (0 <? b) then res else MinInt64.

(** ** Lemmas for the clients *)

Lemma AddUint64_eq a b :
  is_u64 a -> is_u64 b -> AddUint64 a b = Z.min MaxUint64 (a + b).
Proof.
  intros Ha Hb. unfold AddUint64, AddUint64WithErr.
  destruct (Z.leb_spec a (u64 (a + b))), (Z.leb_spec b (u64 (a + b))); cbn; word_lia.
Qed.

Lemma AddUint64WithErr_eq a b :
  is_u64 a -> is_u64 b ->
  AddUint64WithErr a b =
    if a + b <? 2 ^ 64 then (a + b, None)
    else (a + b - 2 ^ 64, Some (ErrAdditionOverflow : error)).
Proof.
  intros Ha Hb. unfold AddUint64WithErr.
  destruct (Z.ltb_spec (a + b) (2 ^ 64)).
  - rewrite u64_id by word_lia.
    rewrite !(proj2 (Z.leb_le _ _)) by word_lia. done.
  - replace (u64 (a + b)) with (a + b - 2 ^ 64) by word_lia.
    rewrite (proj2 (Z.leb_gt _ _)) by word_lia. done.
Qed.

Lemma SubUint64_eq a b : is_u64 a -> is_u64 b -> SubUint64 a b = Z.max 0 (a - b).
Proof. intros Ha Hb. unfold SubUint64. destruct (Z.ltb_spec a b); word_lia. Qed.

Lemma MulUint64_eq a b :
  is_u64 a -> is_u64 b -> MulUint64 a b = Z.min MaxUint64 (a * b).
Proof.
  intros Ha Hb. unfold MulUint64, MulUint64WithErr.
  destruct (Z.eqb_spec a 0) as [->|Ha0]; [cbn; word_lia|].
  destruct (Z.eqb_spec b 0) as [->|Hb0]; [rewrite Z.mul_0_r; cbn; word_lia|].
  cbn [orb].
  assert (0 < a * b) by (word_unfold; nia).
  destruct (Z.lt_ge_cases (a * b) (2 ^ 64)) as [Hlt|Hge].
  - rewrite (u64_id (a * b)) by (unfold is_u64; lia).
    rewrite Z.div_mul, Z.eqb_refl by done. unfold MaxUint64. lia.
  - destruct (Z.eqb_spec a (u64 (a * b) / b)) as [E|_]; [exfalso|unfold MaxUint64; lia].
    pose proof (u64_range (a * b)) as Hr.
    pose proof (Z.div_mod (u64 (a * b)) b ltac:(lia)) as Hd.
    pose proof (Z.mod_pos_bound (u64 (a * b)) b ltac:(word_unfold; lia)) as Hm.
    rewrite <- E in Hd. unfold is_u64 in *.
    assert (u64 (a * b) = a * b + u64 (a * b) mod b) by lia. lia.
Qed.

Lemma AddUint64_range a b : is_u64 a -> is_u64 b -> is_u64 (AddUint64 a b).
Proof. intros Ha Hb. rewrite AddUint64_eq by done. word_lia. Qed.

Lemma SubUint64_range a b : is_u64 a -> is_u64 b -> is_u64 (SubUint64 a b).
Proof. intros Ha Hb. rewrite SubUint64_eq by done. word_lia. Qed.

Lemma MulUint64_range a b : is_u64 a -> is_u64 b -> is_u64 (MulUint64 a b).
Proof.
  intros Ha Hb. rewrite MulUint64_eq by done.
  assert (0 <= a * b) by (unfold is_u64 in *; nia). word_lia.
Qed.

#[export] Hint Resolve AddUint64_range SubUint64_range MulUint64_range : words.

Lemma AddInt32_in_range a b :
  is_s32 a -> is_s32 b -> is_s32 (a + b) -> AddInt32 a b = a + b.
Proof.
  intros Ha Hb Hs. unfold AddInt32, AddInt32WithError.
  rewrite (s32_id (a + b)) by done.
  destruct (Z.ltb_spec a (a + b)), (Z.ltb_spec 0 b); cbn; lia.
Qed.

Lemma AddInt32_out_of_range a b :
  is_s32 a -> is_s32 b -> ~ is_s32 (a + b) -> AddInt32 a b = MaxInt32.
Proof.
  intros Ha Hb Hs. unfold AddInt32, AddInt32WithError.
  destruct (Z.ltb_spec a (s32 (a + b))), (Z.ltb_spec 0 b); cbn; try done; word_lia.
Qed.

Lemma SubInt_in_range a b :
  is_s64 a -> is_s64 b -> is_s64 (a - b) -> SubInt a b = a - b.
Proof.
  intros Ha Hb Hs. unfold SubInt. rewrite (s64_id (a - b)) by done.
  destruct (Z.ltb_spec (a - b) a), (Z.ltb_spec 0 b); cbn; lia.
Qed.

(** ** Properties *)

(** On [uint64] operands addition and multiplication saturate at
    [MaxUint64] and subtraction at 0; in particular the division test of
    [MulUint64WithErr] detects exactly the products that do not fit. *)
Theorem uint64_arithmetic_saturates a b :
  is_u64 a -> is_u64 b ->
  AddUint64 a b = Z.min MaxUint64 (a + b) /\
  SubUint64 a b = Z.max 0 (a - b) /\
  MulUint64 a b = Z.min MaxUint64 (a * b) /\
  (snd (MulUint64WithErr a b) = None <-> a * b <= MaxUint64).
Proof.
  intros Ha Hb. split_and!; [by apply AddUint64_eq | by apply SubUint64_eq
    | by apply MulUint64_eq |].
  pose proof (MulUint64_eq a b Ha Hb) as Hmul.
  unfold MulUint64 in Hmul. unfold MulUint64WithErr in *.
  assert (0 <= a * b) by (unfold is_u64 in *; nia).
  destruct ((a =? 0) || (b =? 0) || _) eqn:E; cbn in *.
  - split; [|done]. intros _. rewrite !orb_true_iff, !Z.eqb_eq in E.
    destruct E as [[->| ->]|E]; [word_lia | rewrite Z.mul_0_r; word_lia|].
    destruct (Z.eq_dec b 0) as [->|]; [rewrite Z.mul_0_r; word_lia|].
    pose proof (u64_range (a * b)).
    pose proof (Z.mul_div_le (u64 (a * b)) b ltac:(unfold is_u64 in *; lia)).
    unfold is_u64, MaxUint64 in *. lia.
  - split; [done|]. intros Hle. exfalso.
    rewrite !orb_false_iff, !Z.eqb_neq in E. destruct E as [[E1 E2] E3].
    rewrite u64_id, Z.div_mul in E3 by (unfold is_u64, MaxUint64 in *; lia). done.
Qed.

Lemma uint64_arithmetic_saturates_witness :
  MulUint64 (2 ^ 63) 3 = MaxUint64 /\ MulUint64 (2 ^ 32) 7 = 2 ^ 32 * 7.
Proof.
  split.
  - rewrite (proj1 (proj2 (proj2 (uint64_arithmetic_saturates (2 ^ 63) 3
      ltac:(unfold is_u64; lia) ltac:(unfold is_u64; lia))))). reflexivity.
  - rewrite (proj1 (proj2 (proj2 (uint64_arithmetic_saturates (2 ^ 32) 7
      ltac:(unfold is_u64; lia) ltac:(unfold is_u64; lia))))). reflexivity.
Defined.

(** The signed checks accept exactly the representable results:
    [AddInt32WithError] fails iff the sum leaves [int32], and the value is
    the exact sum otherwise; [AddInt32] gives [MaxInt32] on any overflow,
    downwards included. *)
Theorem int32_addition_checked a b :
  is_s32 a -> is_s32 b ->
  (snd (AddInt32WithError a b) = None <-> is_s32 (a + b)) /\
  AddInt32 a b = (if bool_decide (- 2 ^ 31 <= a + b < 2 ^ 31) then a + b else MaxInt32).
Proof.
  intros Ha Hb. case_bool_decide as Hs.
  - split; [|by apply AddInt32_in_range]. split; [done|]. intros _.
    unfold AddInt32WithError. rewrite (s32_id (a + b)) by done.
    destruct (Z.ltb_spec a (a + b)), (Z.ltb_spec 0 b); cbn; done || lia.
  - split; [|by apply AddInt32_out_of_range]. split; [|done].
    unfold AddInt32WithError.
    destruct (Z.ltb_spec a (s32 (a + b))), (Z.ltb_spec 0 b); cbn; intros; try done; word_lia.
Qed.

Lemma int32_addition_checked_witness :
  AddInt32 (- 2 ^ 31) (-1) = MaxInt32 /\ AddInt32 5 (-7) = -2.
Proof.
  split.
  - rewrite (proj2 (int32_addition_checked (- 2 ^ 31) (-1)
      ltac:(unfold is_s32; lia) ltac:(unfold is_s32; lia))). reflexivity.
  - rewrite (proj2 (int32_addition_checked 5 (-7)
      ltac:(unfold is_s32; lia) ltac:(unfold is_s32; lia))). reflexivity.
Defined.
