(* ===== verification/Helpers.v ===== *)
(** Byte-slice helpers of [src/vmhost/helpers.go]: guarded slicing, padding,
    reversal, storage keys and the LEB128 encoding. *)
From S2P Require Import Prelude Errors Overflow.

#[local] Open Scope Z_scope.

(** [CustomStorageKey] appends the key type to the associated key. *)
Definition CustomStorageKey (keyType associatedKey : bytes) : bytes :=
  associatedKey ++ keyType.

Definition BooleanToInt (b : bool) : Z := if b then 1 else 0.

(** [make([][]byte, length)]: every row is the nil slice. *)
Definition GuardedMakeByteSlice2D (length : Z) : list bytes * option error :=
  if length <? 0 then ([], Some (ErrNew (bs "GuardedMakeByteSlice2D: negative length")))
  else (replicate (Z.to_nat length) [], None).

(** [data[offset:requestedEnd]] is evaluated only after the bounds tests. *)
Definition GuardedGetBytesSlice (data : bytes) (offset length : Z) : bytes * option error :=
  let dataLength := u32 (len data) in
  let isOffsetTooSmall := offset <? 0 in
  let isOffsetTooLarge := dataLength <? u32 offset in
  let requestedEnd := AddInt32 offset length in
  let isRequestedEndTooLarge := dataLength <? u32 requestedEnd in
  let isLengthNegative := length <? 0 in
  if isOffsetTooSmall || isOffsetTooLarge || isRequestedEndTooLarge then
    ([], Some (ErrNew (bs "GuardedGetBytesSlice: bad bounds")))
  else if isLengthNegative then
    ([], Some (ErrNew (bs "GuardedGetBytesSlice: negative length")))
  else (slice data offset requestedEnd, None).

(** Nil and empty slices both give a slice without bytes. *)
Definition PadBytesLeft (data : bytes) (size : Z) : bytes :=
  match data with
  | [] => []
  | _ =>
      let padSize := SubInt size (len data) in
      if padSize <=? 0 then data
      else replicate (Z.to_nat padSize) Byte.x00 ++ data
  end.

(** The loop of [InverseBytes]: [invBytes[length-i-1] = data[i]] for [i] from
    0; [todo] is what is left of [data]. *)
Fixpoint InverseBytes_loop (i : nat) (todo inv : bytes) : bytes :=
  match todo with
  | [] => inv
  | c :: todo' => InverseBytes_loop (S i) todo' (<[(length inv - i - 1)%nat := c]> inv)
  end.

Definition InverseBytes (data : bytes) : bytes :=
  InverseBytes_loop 0 data (replicate (length data) Byte.x00).

(** The loop of [U64ToLEB128].  Each round shifts [n] by seven bits, so a
    [uint64] is exhausted after ten rounds. *)
Fixpoint U64ToLEB128_loop (fuel : nat) (n : Z) (out : bytes) : bytes :=
  match fuel with
  | O => out
  | S fuel' =>
      let b := Z.land n 127 in
      let n' := Z.shiftr n 7 in
      if n' =? 0 then out ++ [byte_of_Z b]
      else U64ToLEB128_loop fuel' n' (out ++ [byte_of_Z (Z.lor b 128)])
  end.

Definition U64ToLEB128 (n : Z) : bytes := U64ToLEB128_loop 10 n [].

(** The value of a LEB128 string: the specification of the encoder. *)
Fixpoint LEB128_decode (b : bytes) : option Z :=
  match b with
  | [] => None
  | c :: b' =>
      let v := Z_of_byte c in
      if v <? 128 then match b' with [] => Some v | _ => None end
      else match LEB128_decode b' with
           | Some rest => Some (v - 128 + 128 * rest)
           | None => None
           end
  end.

(** ** Lemmas *)

Lemma GuardedGetBytesSlice_ok data offset length :
  len data < 2 ^ 31 -> is_s32 offset -> is_s32 length ->
  0 <= offset -> 0 <= length -> offset + length <= len data ->
  GuardedGetBytesSlice data offset length = (slice data offset (offset + length), None).
Proof.
  intros Hd Ho Hl H0 H1 H2. unfold GuardedGetBytesSlice.
  pose proof (len_nonneg data).
  rewrite AddInt32_in_range by (word_lia || done).
  rewrite (u32_nonneg (len data)), (u32_nonneg offset), (u32_nonneg (offset + length))
    by word_lia.
  destruct (Z.ltb_spec offset 0), (Z.ltb_spec (len data) offset),
    (Z.ltb_spec (len data) (offset + length)), (Z.ltb_spec length 0);
    cbn; done || lia.
Qed.

Lemma InverseBytes_loop_spec todo done' inv :
  length inv = (length todo + length done')%nat ->
  drop (length todo) inv = done' ->
  InverseBytes_loop (length done') todo inv = rev todo ++ done'.
Proof.
  revert done' inv. induction todo as [|c todo IH]; intros done' inv Hlen Hdrop; cbn.
  - cbn in Hdrop. by rewrite drop_0 in Hdrop.
  - change (S (length done')) with (length (c :: done')).
    cbn in Hlen. rewrite (IH (c :: done')).
    + by rewrite <- app_assoc.
    + rewrite length_insert. cbn. lia.
    + replace (length inv - length done' - 1)%nat with (length todo) by lia.
      rewrite drop_insert_ge by lia. rewrite Nat.sub_diag.
      rewrite (drop_S _ (inv !!! length todo)).
      * cbn [insert list_insert]. by rewrite <- Hdrop.
      * apply list_lookup_lookup_total_lt. lia.
Qed.

Lemma land_127 n : 0 <= n -> Z.land n 127 = n mod 128.
Proof. intros. change 127 with (Z.ones 7). by rewrite Z.land_ones. Qed.

Lemma lor_128 b : 0 <= b < 128 -> Z.lor b 128 = b + 128.
Proof.
  intros. rewrite <- Z.lxor_lor, <- Z.add_nocarry_lxor; try lia.
  all: apply Z.bits_inj'; intros i Hi; rewrite Z.land_spec, Z.bits_0.
  all: change 128 with (2 ^ 7); rewrite Z.pow2_bits_eqb by lia.
  all: destruct (Z.eqb_spec 7 i) as [<-|]; [|by rewrite andb_false_r].
  all: rewrite andb_true_r; apply Z.bits_above_log2; [lia|].
  all: destruct (Z.eq_dec b 0) as [->|]; [done|]; apply Z.log2_lt_pow2; lia.
Qed.

Lemma U64ToLEB128_loop_app fuel n out :
  U64ToLEB128_loop fuel n out = out ++ U64ToLEB128_loop fuel n [].
Proof.
  revert n out. induction fuel as [|fuel IH]; intros n out; cbn; [by rewrite app_nil_r|].
  destruct (_ =? 0); [done|]. rewrite IH, (IH _ [_]). by rewrite app_assoc.
Qed.

Lemma U64ToLEB128_loop_S fuel n out :
  U64ToLEB128_loop (S fuel) n out =
    if Z.shiftr n 7 =? 0 then out ++ [byte_of_Z (Z.land n 127)]
    else U64ToLEB128_loop fuel (Z.shiftr n 7) (out ++ [byte_of_Z (Z.lor (Z.land n 127) 128)]).
Proof. reflexivity. Qed.

Lemma U64ToLEB128_loop_decode fuel n :
  0 <= n < 2 ^ (7 * Z.of_nat (S fuel)) ->
  LEB128_decode (U64ToLEB128_loop (S fuel) n []) = Some n /\
  (1 <= length (U64ToLEB128_loop (S fuel) n []) <= S fuel)%nat.
Proof.
  revert n. induction fuel as [|fuel IH]; intros n Hn.
  all: remember (U64ToLEB128_loop _ n []) as out eqn:Eout.
  all: rewrite U64ToLEB128_loop_S, land_127, Z.shiftr_div_pow2 in Eout by lia;
       change (2 ^ 7) with 128 in Eout.
  all: pose proof (Z.mod_pos_bound n 128 ltac:(lia)).
  all: pose proof (Z.div_mod n 128 ltac:(lia)) as Hdm.
  - change (2 ^ (7 * Z.of_nat 1)) with 128 in Hn.
    rewrite (Z.div_small n 128), Z.mod_small in Eout by lia. cbn [Z.eqb app] in Eout.
    subst out. cbn.
    rewrite Z_of_byte_of_Z. replace (u8 n) with n by word_lia.
    destruct (Z.ltb_spec n 128); [|lia]. split; [done | lia].
  - destruct (Z.eqb_spec (n / 128) 0) as [E|E].
    + cbn [app] in Eout. subst out. cbn. rewrite Z_of_byte_of_Z.
      replace (u8 (n mod 128)) with n by (unfold u8; rewrite Z.mod_small by lia; lia).
      destruct (Z.ltb_spec n 128); [|lia]. split; [done | lia].
    + rewrite lor_128, U64ToLEB128_loop_app in Eout by lia. subst out.
      replace (7 * Z.of_nat (S (S fuel))) with (7 + 7 * Z.of_nat (S fuel)) in Hn by lia.
      rewrite Z.pow_add_r in Hn by lia. change (2 ^ 7) with 128 in Hn.
      destruct (IH (n / 128)) as [Hdec Hlen].
      { split; [apply Z.div_pos; lia | apply Z.div_lt_upper_bound; lia]. }
      cbn [app LEB128_decode]. rewrite Z_of_byte_of_Z, Hdec.
      replace (u8 (n mod 128 + 128)) with (n mod 128 + 128) by word_lia.
      destruct (Z.ltb_spec (n mod 128 + 128) 128); [lia|].
      split; [f_equal; lia | cbn [length]; lia].
Qed.

(** ** Properties *)

(** [GuardedGetBytesSlice] returns exactly the requested chunk when it
    lies inside the data and an error (and no bytes) in every other case. *)
Theorem GuardedGetBytesSlice_exact data offset length :
  len data < 2 ^ 31 - 1 -> is_s32 offset -> is_s32 length ->
  match GuardedGetBytesSlice data offset length with
  | (chunk, None) => 0 <= offset /\ 0 <= length /\ offset + length <= len data /\
                     chunk = slice data offset (offset + length) /\ len chunk = length
  | (chunk, Some _) => chunk = [] /\
                       (offset < 0 \/ length < 0 \/ len data < offset + length)
  end.
Proof.
  intros Hd Ho Hl. pose proof (len_nonneg data).
  destruct (decide (0 <= offset /\ 0 <= length /\ offset + length <= len data))
    as [(H0 & H1 & H2)|Hbad].
  - rewrite GuardedGetBytesSlice_ok by (done || lia).
    split_and!; try done. rewrite slice_length; lia.
  - unfold GuardedGetBytesSlice.
    destruct (Z.ltb_spec offset 0); [cbn; split; [done|lia]|].
    destruct (Z.ltb_spec length 0).
    { destruct (_ || _ || _); cbn; (split; [done|lia]). }
    assert (len data < offset + length) by lia.
    assert (len data < u32 (AddInt32 offset length)) as Hbig.
    { destruct (decide (is_s32 (offset + length))).
      - rewrite AddInt32_in_range by done. rewrite u32_nonneg by word_lia. lia.
      - rewrite AddInt32_out_of_range by done. rewrite u32_nonneg by word_lia. word_lia. }
    rewrite (u32_nonneg (len data)) by word_lia.
    rewrite (proj2 (Z.ltb_lt _ _) Hbig), orb_true_r. cbn. split; [done | lia].
Qed.

Lemma GuardedGetBytesSlice_exact_witness :
  GuardedGetBytesSlice (bs "abcdef") 2 3 = (bs "cde", None) /\
  (0 <= 2 /\ 0 <= 3 /\ 2 + 3 <= len (bs "abcdef") /\
   bs "cde" = slice (bs "abcdef") 2 (2 + 3) /\ len (bs "cde") = 3).
Proof.
  split; [reflexivity|].
  exact (GuardedGetBytesSlice_exact (bs "abcdef") 2 3 ltac:(reflexivity)
    ltac:(unfold is_s32; lia) ltac:(unfold is_s32; lia)).
Defined.

(** The LEB128 encoding of every [uint64] decodes back to it and has
    between one and ten bytes, so the encoder's loop ends within ten rounds. *)
Theorem U64ToLEB128_roundtrip n :
  is_u64 n ->
  LEB128_decode (U64ToLEB128 n) = Some n /\ (1 <= length (U64ToLEB128 n) <= 10)%nat.
Proof.
  intros Hn. apply (U64ToLEB128_loop_decode 9).
  split; [unfold is_u64 in Hn; lia|]. unfold is_u64 in Hn.
  eapply Z.lt_le_trans; [apply Hn|]. apply Z.pow_le_mono_r; lia.
Qed.

Lemma U64ToLEB128_roundtrip_witness :
  LEB128_decode (U64ToLEB128 624485) = Some 624485.
Proof. apply (U64ToLEB128_roundtrip 624485). unfold is_u64. lia. Defined.

(** The index loop of [InverseBytes] reverses its input. *)
Theorem InverseBytes_rev data : InverseBytes data = rev data.
Proof.
  unfold InverseBytes. rewrite (InverseBytes_loop_spec data []); [apply app_nil_r | |].
  - rewrite length_replicate. cbn. lia.
  - apply drop_ge. by rewrite length_replicate.
Qed.

(** [PadBytesLeft] keeps the unsigned value and gives non-empty data at
    least [size] bytes. *)
Theorem PadBytesLeft_value data size :
  is_s64 size -> is_s64 (len data) -> is_s64 (size - len data) ->
  SetBytes (PadBytesLeft data size) = SetBytes data /\
  (data <> [] -> len (PadBytesLeft data size) = Z.max size (len data)).
Proof.
  intros Hs Hd Hsd. destruct data as [|c data]; [done|]. unfold PadBytesLeft.
  rewrite SubInt_in_range by done. destruct (Z.leb_spec (size - len (c :: data)) 0).
  - split; [done|]. lia.
  - split.
    + rewrite SetBytes_app. replace (SetBytes (replicate _ _)) with 0; [lia|].
      unfold SetBytes. induction (Z.to_nat _) as [|k IH]; cbn; done.
    + intros _. unfold len in *. rewrite length_app, length_replicate. lia.
Qed.

Lemma PadBytesLeft_value_witness :
  SetBytes (PadBytesLeft (bs "ab") 4) = SetBytes (bs "ab").
Proof.
  apply (PadBytesLeft_value (bs "ab") 4); word_compute.
Defined.
