(* ===== verification/GasTables.v ===== *)
(** Tables of the gas schedule: the fields of the structures of
    [src/config/gasCost.go] in their order, the numbers of the opcodes
    ([src/wasmer/opcodes.go]), the assignments of [ToOpcodeCostsArray], and the
    entries of the maps [src/config/gasSchedule.go] fills. *)
From S2P Require Import Prelude.

#[local] Open Scope Z_scope.
#[local] Open Scope string_scope.

(** The fields of a structure of numbers: what [reflect] sees of it. *)
Fixpoint field (names : list string) (values : list Z) (name : string) : Z :=
  match names, values with
  | n :: names', v :: values' => if String.eqb n name then v else field names' values' name
  | _, _ => 0
  end.

(** What a map of costs is filled with: the value given, the gas lock of
    asynchronous callbacks, or a constant. *)
Inductive amount := Value | Lock | Fixed (n : Z).

(** ** The structures *)

Definition BaseOperationCost_fields : list string :=
  [
    "StorePerByte"; "ReleasePerByte"; "DataCopyPerByte"; "PersistPerByte"; "CompilePerByte";
    "AoTPreparePerByte"; "GetCode"
  ].

Definition BaseOpsAPICost_fields : list string :=
  [
    "GetSCAddress"; "GetOwnerAddress"; "IsSmartContract"; "GetShardOfAddress";
    "GetExternalBalance"; "GetBlockHash"; "TransferValue"; "GetArgument"; "GetFunction";
    "GetNumArguments"; "StorageStore"; "StorageLoad"; "GetCaller"; "GetCallValue"; "Log";
    "Finish"; "SignalError"; "GetBlockTimeStamp"; "GetGasLeft"; "Int64GetArgument";
    "Int64StorageStore"; "Int64StorageLoad"; "Int64Finish"; "GetStateRootHash"; "GetBlockNonce";
    "GetBlockEpoch"; "GetBlockRound"; "GetBlockRandomSeed"; "ExecuteOnSameContext";
    "ExecuteOnDestContext"; "DelegateExecution"; "ExecuteReadOnly"; "AsyncCallStep";
    "AsyncCallbackGasLock"; "CreateContract"; "GetReturnData"; "GetNumReturnData";
    "GetReturnDataSize"
  ].

Definition EthAPICost_fields : list string :=
  [
    "UseGas"; "GetAddress"; "GetExternalBalance"; "GetBlockHash"; "Call"; "CallDataCopy";
    "GetCallDataSize"; "CallCode"; "CallDelegate"; "CallStatic"; "StorageStore"; "StorageLoad";
    "GetCaller"; "GetCallValue"; "CodeCopy"; "GetCodeSize"; "GetBlockCoinbase"; "Create";
    "GetBlockDifficulty"; "ExternalCodeCopy"; "GetExternalCodeSize"; "GetGasLeft";
    "GetBlockGasLimit"; "GetTxGasPrice"; "Log"; "GetBlockNumber"; "GetTxOrigin"; "Finish";
    "Revert"; "GetReturnDataSize"; "ReturnDataCopy"; "SelfDestruct"; "GetBlockTimeStamp"
  ].

Definition BigIntAPICost_fields : list string :=
  [
    "BigIntNew"; "BigIntUnsignedByteLength"; "BigIntSignedByteLength"; "BigIntGetUnsignedBytes";
    "BigIntGetSignedBytes"; "BigIntSetUnsignedBytes"; "BigIntSetSignedBytes"; "BigIntIsInt64";
    "BigIntGetInt64"; "BigIntSetInt64"; "BigIntAdd"; "BigIntSub"; "BigIntMul"; "BigIntTDiv";
    "BigIntTMod"; "BigIntEDiv"; "BigIntEMod"; "BigIntAbs"; "BigIntNeg"; "BigIntSign";
    "BigIntCmp"; "BigIntNot"; "BigIntAnd"; "BigIntOr"; "BigIntXor"; "BigIntShr"; "BigIntShl";
    "BigIntFinishUnsigned"; "BigIntFinishSigned"; "BigIntStorageLoadUnsigned";
    "BigIntStorageStoreUnsigned"; "BigIntGetUnsignedArgument"; "BigIntGetSignedArgument";
    "BigIntGetCallValue"; "BigIntGetExternalBalance"
  ].

Definition CryptoAPICost_fields : list string :=
  [
    "SHA256"; "Keccak256"; "Ripemd160"; "VerifyBLS"; "VerifyEd25519"; "VerifySecp256k1"
  ].

Definition WASMOpcodeCost_fields_1 : list string :=
  [
    "Unreachable"; "Nop"; "Block"; "Loop"; "If"; "Else"; "End"; "Br"; "BrIf"; "BrTable";
    "Return"; "Call"; "CallIndirect"; "Drop"; "Select"; "TypedSelect"; "LocalGet"; "LocalSet";
    "LocalTee"; "GlobalGet"; "GlobalSet"; "I32Load"; "I64Load"; "F32Load"; "F64Load";
    "I32Load8S"; "I32Load8U"; "I32Load16S"; "I32Load16U"; "I64Load8S"; "I64Load8U";
    "I64Load16S"; "I64Load16U"; "I64Load32S"; "I64Load32U"; "I32Store"; "I64Store"; "F32Store";
    "F64Store"; "I32Store8"; "I32Store16"; "I64Store8"; "I64Store16"; "I64Store32";
    "MemorySize"; "MemoryGrow"; "I32Const"; "I64Const"; "F32Const"; "F64Const"; "RefNull";
    "RefIsNull"; "RefFunc"; "I32Eqz"; "I32Eq"; "I32Ne"; "I32LtS"; "I32LtU"; "I32GtS"; "I32GtU";
    "I32LeS"; "I32LeU"; "I32GeS"; "I32GeU"; "I64Eqz"; "I64Eq"; "I64Ne"; "I64LtS"; "I64LtU";
    "I64GtS"; "I64GtU"; "I64LeS"; "I64LeU"; "I64GeS"; "I64GeU"; "F32Eq"; "F32Ne"; "F32Lt";
    "F32Gt"; "F32Le"; "F32Ge"; "F64Eq"; "F64Ne"; "F64Lt"; "F64Gt"; "F64Le"; "F64Ge"; "I32Clz";
    "I32Ctz"; "I32Popcnt"; "I32Add"; "I32Sub"; "I32Mul"; "I32DivS"; "I32DivU"; "I32RemS";
    "I32RemU"; "I32And"; "I32Or"; "I32Xor"; "I32Shl"; "I32ShrS"; "I32ShrU"; "I32Rotl";
    "I32Rotr"; "I64Clz"; "I64Ctz"; "I64Popcnt"; "I64Add"; "I64Sub"; "I64Mul"; "I64DivS";
    "I64DivU"; "I64RemS"; "I64RemU"; "I64And"; "I64Or"; "I64Xor"; "I64Shl"; "I64ShrS";
    "I64ShrU"; "I64Rotl"; "I64Rotr"; "F32Abs"; "F32Neg"; "F32Ceil"; "F32Floor"; "F32Trunc";
    "F32Nearest"; "F32Sqrt"; "F32Add"; "F32Sub"; "F32Mul"; "F32Div"; "F32Min"; "F32Max";
    "F32Copysign"; "F64Abs"; "F64Neg"
  ].

Definition WASMOpcodeCost_fields_2 : list string :=
  [
    "F64Ceil"; "F64Floor"; "F64Trunc"; "F64Nearest"; "F64Sqrt"; "F64Add"; "F64Sub"; "F64Mul";
    "F64Div"; "F64Min"; "F64Max"; "F64Copysign"; "I32WrapI64"; "I32TruncF32S"; "I32TruncF32U";
    "I32TruncF64S"; "I32TruncF64U"; "I64ExtendI32S"; "I64ExtendI32U"; "I64TruncF32S";
    "I64TruncF32U"; "I64TruncF64S"; "I64TruncF64U"; "F32ConvertI32S"; "F32ConvertI32U";
    "F32ConvertI64S"; "F32ConvertI64U"; "F32DemoteF64"; "F64ConvertI32S"; "F64ConvertI32U";
    "F64ConvertI64S"; "F64ConvertI64U"; "F64PromoteF32"; "I32ReinterpretF32";
    "I64ReinterpretF64"; "F32ReinterpretI32"; "F64ReinterpretI64"; "I32Extend8S";
    "I32Extend16S"; "I64Extend8S"; "I64Extend16S"; "I64Extend32S"; "I32TruncSatF32S";
    "I32TruncSatF32U"; "I32TruncSatF64S"; "I32TruncSatF64U"; "I64TruncSatF32S";
    "I64TruncSatF32U"; "I64TruncSatF64S"; "I64TruncSatF64U"; "MemoryInit"; "DataDrop";
    "MemoryCopy"; "MemoryFill"; "TableInit"; "ElemDrop"; "TableCopy"; "TableFill"; "TableGet";
    "TableSet"; "TableGrow"; "TableSize"; "AtomicNotify"; "I32AtomicWait"; "I64AtomicWait";
    "AtomicFence"; "I32AtomicLoad"; "I64AtomicLoad"; "I32AtomicLoad8U"; "I32AtomicLoad16U";
    "I64AtomicLoad8U"; "I64AtomicLoad16U"; "I64AtomicLoad32U"; "I32AtomicStore";
    "I64AtomicStore"; "I32AtomicStore8"; "I32AtomicStore16"; "I64AtomicStore8";
    "I64AtomicStore16"; "I64AtomicStore32"; "I32AtomicRmwAdd"; "I64AtomicRmwAdd";
    "I32AtomicRmw8AddU"; "I32AtomicRmw16AddU"; "I64AtomicRmw8AddU"; "I64AtomicRmw16AddU";
    "I64AtomicRmw32AddU"; "I32AtomicRmwSub"; "I64AtomicRmwSub"; "I32AtomicRmw8SubU";
    "I32AtomicRmw16SubU"; "I64AtomicRmw8SubU"; "I64AtomicRmw16SubU"; "I64AtomicRmw32SubU";
    "I32AtomicRmwAnd"; "I64AtomicRmwAnd"; "I32AtomicRmw8AndU"; "I32AtomicRmw16AndU";
    "I64AtomicRmw8AndU"; "I64AtomicRmw16AndU"; "I64AtomicRmw32AndU"; "I32AtomicRmwOr";
    "I64AtomicRmwOr"; "I32AtomicRmw8OrU"; "I32AtomicRmw16OrU"; "I64AtomicRmw8OrU";
    "I64AtomicRmw16OrU"; "I64AtomicRmw32OrU"; "I32AtomicRmwXor"; "I64AtomicRmwXor";
    "I32AtomicRmw8XorU"; "I32AtomicRmw16XorU"; "I64AtomicRmw8XorU"; "I64AtomicRmw16XorU";
    "I64AtomicRmw32XorU"; "I32AtomicRmwXchg"; "I64AtomicRmwXchg"; "I32AtomicRmw8XchgU";
    "I32AtomicRmw16XchgU"; "I64AtomicRmw8XchgU"; "I64AtomicRmw16XchgU"; "I64AtomicRmw32XchgU";
    "I32AtomicRmwCmpxchg"; "I64AtomicRmwCmpxchg"; "I32AtomicRmw8CmpxchgU";
    "I32AtomicRmw16CmpxchgU"; "I64AtomicRmw8CmpxchgU"; "I64AtomicRmw16CmpxchgU";
    "I64AtomicRmw32CmpxchgU"; "V128Load"; "V128Store"; "V128Const"; "I8x16Splat";
    "I8x16ExtractLaneS"; "I8x16ExtractLaneU"; "I8x16ReplaceLane"; "I16x8Splat";
    "I16x8ExtractLaneS"; "I16x8ExtractLaneU"; "I16x8ReplaceLane"
  ].

Definition WASMOpcodeCost_fields_3 : list string :=
  [
    "I32x4Splat"; "I32x4ExtractLane"; "I32x4ReplaceLane"; "I64x2Splat"; "I64x2ExtractLane";
    "I64x2ReplaceLane"; "F32x4Splat"; "F32x4ExtractLane"; "F32x4ReplaceLane"; "F64x2Splat";
    "F64x2ExtractLane"; "F64x2ReplaceLane"; "I8x16Eq"; "I8x16Ne"; "I8x16LtS"; "I8x16LtU";
    "I8x16GtS"; "I8x16GtU"; "I8x16LeS"; "I8x16LeU"; "I8x16GeS"; "I8x16GeU"; "I16x8Eq";
    "I16x8Ne"; "I16x8LtS"; "I16x8LtU"; "I16x8GtS"; "I16x8GtU"; "I16x8LeS"; "I16x8LeU";
    "I16x8GeS"; "I16x8GeU"; "I32x4Eq"; "I32x4Ne"; "I32x4LtS"; "I32x4LtU"; "I32x4GtS";
    "I32x4GtU"; "I32x4LeS"; "I32x4LeU"; "I32x4GeS"; "I32x4GeU"; "F32x4Eq"; "F32x4Ne"; "F32x4Lt";
    "F32x4Gt"; "F32x4Le"; "F32x4Ge"; "F64x2Eq"; "F64x2Ne"; "F64x2Lt"; "F64x2Gt"; "F64x2Le";
    "F64x2Ge"; "V128Not"; "V128And"; "V128AndNot"; "V128Or"; "V128Xor"; "V128Bitselect";
    "I8x16Neg"; "I8x16AnyTrue"; "I8x16AllTrue"; "I8x16Shl"; "I8x16ShrS"; "I8x16ShrU";
    "I8x16Add"; "I8x16AddSaturateS"; "I8x16AddSaturateU"; "I8x16Sub"; "I8x16SubSaturateS";
    "I8x16SubSaturateU"; "I8x16MinS"; "I8x16MinU"; "I8x16MaxS"; "I8x16MaxU"; "I8x16Mul";
    "I16x8Neg"; "I16x8AnyTrue"; "I16x8AllTrue"; "I16x8Shl"; "I16x8ShrS"; "I16x8ShrU";
    "I16x8Add"; "I16x8AddSaturateS"; "I16x8AddSaturateU"; "I16x8Sub"; "I16x8SubSaturateS";
    "I16x8SubSaturateU"; "I16x8Mul"; "I16x8MinS"; "I16x8MinU"; "I16x8MaxS"; "I16x8MaxU";
    "I32x4Neg"; "I32x4AnyTrue"; "I32x4AllTrue"; "I32x4Shl"; "I32x4ShrS"; "I32x4ShrU";
    "I32x4Add"; "I32x4Sub"; "I32x4Mul"; "I32x4MinS"; "I32x4MinU"; "I32x4MaxS"; "I32x4MaxU";
    "I64x2Neg"; "I64x2AnyTrue"; "I64x2AllTrue"; "I64x2Shl"; "I64x2ShrS"; "I64x2ShrU";
    "I64x2Add"; "I64x2Sub"; "I64x2Mul"; "F32x4Abs"; "F32x4Neg"; "F32x4Sqrt"; "F32x4Add";
    "F32x4Sub"; "F32x4Mul"; "F32x4Div"; "F32x4Min"; "F32x4Max"; "F64x2Abs"; "F64x2Neg";
    "F64x2Sqrt"; "F64x2Add"; "F64x2Sub"; "F64x2Mul"; "F64x2Div"; "F64x2Min"; "F64x2Max";
    "I32x4TruncSatF32x4S"; "I32x4TruncSatF32x4U"; "I64x2TruncSatF64x2S"; "I64x2TruncSatF64x2U";
    "F32x4ConvertI32x4S"; "F32x4ConvertI32x4U"
  ].

Definition WASMOpcodeCost_fields_4 : list string :=
  [
    "F64x2ConvertI64x2S"; "F64x2ConvertI64x2U"; "V8x16Swizzle"; "V8x16Shuffle";
    "V8x16LoadSplat"; "V16x8LoadSplat"; "V32x4LoadSplat"; "V64x2LoadSplat"; "I8x16NarrowI16x8S";
    "I8x16NarrowI16x8U"; "I16x8NarrowI32x4S"; "I16x8NarrowI32x4U"; "I16x8WidenLowI8x16S";
    "I16x8WidenHighI8x16S"; "I16x8WidenLowI8x16U"; "I16x8WidenHighI8x16U";
    "I32x4WidenLowI16x8S"; "I32x4WidenHighI16x8S"; "I32x4WidenLowI16x8U";
    "I32x4WidenHighI16x8U"; "I16x8Load8x8S"; "I16x8Load8x8U"; "I32x4Load16x4S";
    "I32x4Load16x4U"; "I64x2Load32x2S"; "I64x2Load32x2U"; "I8x16RoundingAverageU";
    "I16x8RoundingAverageU"; "LocalAllocate"; "LocalsUnmetered"
  ].

Definition WASMOpcodeCost_fields : list string :=
  WASMOpcodeCost_fields_1 ++ WASMOpcodeCost_fields_2 ++ WASMOpcodeCost_fields_3 ++ WASMOpcodeCost_fields_4.

(** ** Opcodes *)

(** The constants [Opcode...], numbered by [iota]. *)
Definition opcodes_1 : list string :=
  [
    "Unreachable"; "Nop"; "Block"; "Loop"; "If"; "Else"; "End"; "Br"; "BrIf"; "BrTable";
    "Return"; "Call"; "CallIndirect"; "Drop"; "Select"; "TypedSelect"; "LocalGet"; "LocalSet";
    "LocalTee"; "GlobalGet"; "GlobalSet"; "I32Load"; "I64Load"; "F32Load"; "F64Load";
    "I32Load8S"; "I32Load8U"; "I32Load16S"; "I32Load16U"; "I64Load8S"; "I64Load8U";
    "I64Load16S"; "I64Load16U"; "I64Load32S"; "I64Load32U"; "I32Store"; "I64Store"; "F32Store";
    "F64Store"; "I32Store8"; "I32Store16"; "I64Store8"; "I64Store16"; "I64Store32";
    "MemorySize"; "MemoryGrow"; "I32Const"; "I64Const"; "F32Const"; "F64Const"; "RefNull";
    "RefIsNull"; "RefFunc"; "I32Eqz"; "I32Eq"; "I32Ne"; "I32LtS"; "I32LtU"; "I32GtS"; "I32GtU";
    "I32LeS"; "I32LeU"; "I32GeS"; "I32GeU"; "I64Eqz"; "I64Eq"; "I64Ne"; "I64LtS"; "I64LtU";
    "I64GtS"; "I64GtU"; "I64LeS"; "I64LeU"; "I64GeS"; "I64GeU"; "F32Eq"; "F32Ne"; "F32Lt";
    "F32Gt"; "F32Le"; "F32Ge"; "F64Eq"; "F64Ne"; "F64Lt"; "F64Gt"; "F64Le"; "F64Ge"; "I32Clz";
    "I32Ctz"; "I32Popcnt"; "I32Add"; "I32Sub"; "I32Mul"; "I32DivS"; "I32DivU"; "I32RemS";
    "I32RemU"; "I32And"; "I32Or"; "I32Xor"; "I32Shl"; "I32ShrS"; "I32ShrU"; "I32Rotl";
    "I32Rotr"; "I64Clz"; "I64Ctz"; "I64Popcnt"; "I64Add"; "I64Sub"; "I64Mul"; "I64DivS";
    "I64DivU"; "I64RemS"; "I64RemU"; "I64And"; "I64Or"; "I64Xor"; "I64Shl"; "I64ShrS";
    "I64ShrU"; "I64Rotl"; "I64Rotr"; "F32Abs"; "F32Neg"; "F32Ceil"; "F32Floor"; "F32Trunc";
    "F32Nearest"; "F32Sqrt"; "F32Add"; "F32Sub"; "F32Mul"; "F32Div"; "F32Min"; "F32Max";
    "F32Copysign"; "F64Abs"; "F64Neg"
  ].

Definition opcodes_2 : list string :=
  [
    "F64Ceil"; "F64Floor"; "F64Trunc"; "F64Nearest"; "F64Sqrt"; "F64Add"; "F64Sub"; "F64Mul";
    "F64Div"; "F64Min"; "F64Max"; "F64Copysign"; "I32WrapI64"; "I32TruncF32S"; "I32TruncF32U";
    "I32TruncF64S"; "I32TruncF64U"; "I64ExtendI32S"; "I64ExtendI32U"; "I64TruncF32S";
    "I64TruncF32U"; "I64TruncF64S"; "I64TruncF64U"; "F32ConvertI32S"; "F32ConvertI32U";
    "F32ConvertI64S"; "F32ConvertI64U"; "F32DemoteF64"; "F64ConvertI32S"; "F64ConvertI32U";
    "F64ConvertI64S"; "F64ConvertI64U"; "F64PromoteF32"; "I32ReinterpretF32";
    "I64ReinterpretF64"; "F32ReinterpretI32"; "F64ReinterpretI64"; "I32Extend8S";
    "I32Extend16S"; "I64Extend8S"; "I64Extend16S"; "I64Extend32S"; "I32TruncSatF32S";
    "I32TruncSatF32U"; "I32TruncSatF64S"; "I32TruncSatF64U"; "I64TruncSatF32S";
    "I64TruncSatF32U"; "I64TruncSatF64S"; "I64TruncSatF64U"; "MemoryInit"; "DataDrop";
    "MemoryCopy"; "MemoryFill"; "TableInit"; "ElemDrop"; "TableCopy"; "TableFill"; "TableGet";
    "TableSet"; "TableGrow"; "TableSize"; "AtomicNotify"; "I32AtomicWait"; "I64AtomicWait";
    "AtomicFence"; "I32AtomicLoad"; "I64AtomicLoad"; "I32AtomicLoad8U"; "I32AtomicLoad16U";
    "I64AtomicLoad8U"; "I64AtomicLoad16U"; "I64AtomicLoad32U"; "I32AtomicStore";
    "I64AtomicStore"; "I32AtomicStore8"; "I32AtomicStore16"; "I64AtomicStore8";
    "I64AtomicStore16"; "I64AtomicStore32"; "I32AtomicRmwAdd"; "I64AtomicRmwAdd";
    "I32AtomicRmw8AddU"; "I32AtomicRmw16AddU"; "I64AtomicRmw8AddU"; "I64AtomicRmw16AddU";
    "I64AtomicRmw32AddU"; "I32AtomicRmwSub"; "I64AtomicRmwSub"; "I32AtomicRmw8SubU";
    "I32AtomicRmw16SubU"; "I64AtomicRmw8SubU"; "I64AtomicRmw16SubU"; "I64AtomicRmw32SubU";
    "I32AtomicRmwAnd"; "I64AtomicRmwAnd"; "I32AtomicRmw8AndU"; "I32AtomicRmw16AndU";
    "I64AtomicRmw8AndU"; "I64AtomicRmw16AndU"; "I64AtomicRmw32AndU"; "I32AtomicRmwOr";
    "I64AtomicRmwOr"; "I32AtomicRmw8OrU"; "I32AtomicRmw16OrU"; "I64AtomicRmw8OrU";
    "I64AtomicRmw16OrU"; "I64AtomicRmw32OrU"; "I32AtomicRmwXor"; "I64AtomicRmwXor";
    "I32AtomicRmw8XorU"; "I32AtomicRmw16XorU"; "I64AtomicRmw8XorU"; "I64AtomicRmw16XorU";
    "I64AtomicRmw32XorU"; "I32AtomicRmwXchg"; "I64AtomicRmwXchg"; "I32AtomicRmw8XchgU";
    "I32AtomicRmw16XchgU"; "I64AtomicRmw8XchgU"; "I64AtomicRmw16XchgU"; "I64AtomicRmw32XchgU";
    "I32AtomicRmwCmpxchg"; "I64AtomicRmwCmpxchg"; "I32AtomicRmw8CmpxchgU";
    "I32AtomicRmw16CmpxchgU"; "I64AtomicRmw8CmpxchgU"; "I64AtomicRmw16CmpxchgU";
    "I64AtomicRmw32CmpxchgU"; "V128Load"; "V128Store"; "V128Const"; "I8x16Splat";
    "I8x16ExtractLaneS"; "I8x16ExtractLaneU"; "I8x16ReplaceLane"; "I16x8Splat";
    "I16x8ExtractLaneS"; "I16x8ExtractLaneU"; "I16x8ReplaceLane"
  ].

Definition opcodes_3 : list string :=
  [
    "I32x4Splat"; "I32x4ExtractLane"; "I32x4ReplaceLane"; "I64x2Splat"; "I64x2ExtractLane";
    "I64x2ReplaceLane"; "F32x4Splat"; "F32x4ExtractLane"; "F32x4ReplaceLane"; "F64x2Splat";
    "F64x2ExtractLane"; "F64x2ReplaceLane"; "I8x16Eq"; "I8x16Ne"; "I8x16LtS"; "I8x16LtU";
    "I8x16GtS"; "I8x16GtU"; "I8x16LeS"; "I8x16LeU"; "I8x16GeS"; "I8x16GeU"; "I16x8Eq";
    "I16x8Ne"; "I16x8LtS"; "I16x8LtU"; "I16x8GtS"; "I16x8GtU"; "I16x8LeS"; "I16x8LeU";
    "I16x8GeS"; "I16x8GeU"; "I32x4Eq"; "I32x4Ne"; "I32x4LtS"; "I32x4LtU"; "I32x4GtS";
    "I32x4GtU"; "I32x4LeS"; "I32x4LeU"; "I32x4GeS"; "I32x4GeU"; "F32x4Eq"; "F32x4Ne"; "F32x4Lt";
    "F32x4Gt"; "F32x4Le"; "F32x4Ge"; "F64x2Eq"; "F64x2Ne"; "F64x2Lt"; "F64x2Gt"; "F64x2Le";
    "F64x2Ge"; "V128Not"; "V128And"; "V128AndNot"; "V128Or"; "V128Xor"; "V128Bitselect";
    "I8x16Neg"; "I8x16AnyTrue"; "I8x16AllTrue"; "I8x16Shl"; "I8x16ShrS"; "I8x16ShrU";
    "I8x16Add"; "I8x16AddSaturateS"; "I8x16AddSaturateU"; "I8x16Sub"; "I8x16SubSaturateS";
    "I8x16SubSaturateU"; "I8x16MinS"; "I8x16MinU"; "I8x16MaxS"; "I8x16MaxU"; "I8x16Mul";
    "I16x8Neg"; "I16x8AnyTrue"; "I16x8AllTrue"; "I16x8Shl"; "I16x8ShrS"; "I16x8ShrU";
    "I16x8Add"; "I16x8AddSaturateS"; "I16x8AddSaturateU"; "I16x8Sub"; "I16x8SubSaturateS";
    "I16x8SubSaturateU"; "I16x8Mul"; "I16x8MinS"; "I16x8MinU"; "I16x8MaxS"; "I16x8MaxU";
    "I32x4Neg"; "I32x4AnyTrue"; "I32x4AllTrue"; "I32x4Shl"; "I32x4ShrS"; "I32x4ShrU";
    "I32x4Add"; "I32x4Sub"; "I32x4Mul"; "I32x4MinS"; "I32x4MinU"; "I32x4MaxS"; "I32x4MaxU";
    "I64x2Neg"; "I64x2AnyTrue"; "I64x2AllTrue"; "I64x2Shl"; "I64x2ShrS"; "I64x2ShrU";
    "I64x2Add"; "I64x2Sub"; "I64x2Mul"; "F32x4Abs"; "F32x4Neg"; "F32x4Sqrt"; "F32x4Add";
    "F32x4Sub"; "F32x4Mul"; "F32x4Div"; "F32x4Min"; "F32x4Max"; "F64x2Abs"; "F64x2Neg";
    "F64x2Sqrt"; "F64x2Add"; "F64x2Sub"; "F64x2Mul"; "F64x2Div"; "F64x2Min"; "F64x2Max";
    "I32x4TruncSatF32x4S"; "I32x4TruncSatF32x4U"; "I64x2TruncSatF64x2S"; "I64x2TruncSatF64x2U";
    "F32x4ConvertI32x4S"; "F32x4ConvertI32x4U"
  ].

Definition opcodes_4 : list string :=
  [
    "F64x2ConvertI64x2S"; "F64x2ConvertI64x2U"; "V8x16Swizzle"; "V8x16Shuffle";
    "V8x16LoadSplat"; "V16x8LoadSplat"; "V32x4LoadSplat"; "V64x2LoadSplat"; "I8x16NarrowI16x8S";
    "I8x16NarrowI16x8U"; "I16x8NarrowI32x4S"; "I16x8NarrowI32x4U"; "I16x8WidenLowI8x16S";
    "I16x8WidenHighI8x16S"; "I16x8WidenLowI8x16U"; "I16x8WidenHighI8x16U";
    "I32x4WidenLowI16x8S"; "I32x4WidenHighI16x8S"; "I32x4WidenLowI16x8U";
    "I32x4WidenHighI16x8U"; "I16x8Load8x8S"; "I16x8Load8x8U"; "I32x4Load16x4S";
    "I32x4Load16x4U"; "I64x2Load32x2S"; "I64x2Load32x2U"; "I8x16RoundingAverageU";
    "I16x8RoundingAverageU"; "LocalAllocate"
  ].

Definition opcodes : list string :=
  opcodes_1 ++ opcodes_2 ++ opcodes_3 ++ opcodes_4.

(** [opcode_costs[wasmer.Opcode...] = opcode_costs_struct....] *)
Definition assignments_1 : list (string * string) :=
  [
    ("Unreachable", "Unreachable"); ("Nop", "Nop"); ("Block", "Block"); ("Loop", "Loop");
    ("If", "If"); ("Else", "Else"); ("End", "End"); ("Br", "Br"); ("BrIf", "BrIf");
    ("BrTable", "BrTable"); ("Return", "Return"); ("Call", "Call");
    ("CallIndirect", "CallIndirect"); ("Drop", "Drop"); ("Select", "Select");
    ("TypedSelect", "TypedSelect"); ("LocalGet", "LocalGet"); ("LocalSet", "LocalSet");
    ("LocalTee", "LocalTee"); ("GlobalGet", "GlobalGet"); ("GlobalSet", "GlobalSet");
    ("I32Load", "I32Load"); ("I64Load", "I64Load"); ("F32Load", "F32Load");
    ("F64Load", "F64Load"); ("I32Load8S", "I32Load8S"); ("I32Load8U", "I32Load8U");
    ("I32Load16S", "I32Load16S"); ("I32Load16U", "I32Load16U"); ("I64Load8S", "I64Load8S");
    ("I64Load8U", "I64Load8U"); ("I64Load16S", "I64Load16S"); ("I64Load16U", "I64Load16U");
    ("I64Load32S", "I64Load32S"); ("I64Load32U", "I64Load32U"); ("I32Store", "I32Store");
    ("I64Store", "I64Store"); ("F32Store", "F32Store"); ("F64Store", "F64Store");
    ("I32Store8", "I32Store8"); ("I32Store16", "I32Store16"); ("I64Store8", "I64Store8");
    ("I64Store16", "I64Store16"); ("I64Store32", "I64Store32"); ("MemorySize", "MemorySize");
    ("MemoryGrow", "MemoryGrow"); ("I32Const", "I32Const"); ("I64Const", "I64Const");
    ("F32Const", "F32Const"); ("F64Const", "F64Const"); ("RefNull", "RefNull");
    ("RefIsNull", "RefIsNull"); ("RefFunc", "RefFunc"); ("I32Eqz", "I32Eqz");
    ("I32Eq", "I32Eq"); ("I32Ne", "I32Ne"); ("I32LtS", "I32LtS"); ("I32LtU", "I32LtU");
    ("I32GtS", "I32GtS"); ("I32GtU", "I32GtU"); ("I32LeS", "I32LeS"); ("I32LeU", "I32LeU");
    ("I32GeS", "I32GeS"); ("I32GeU", "I32GeU"); ("I64Eqz", "I64Eqz"); ("I64Eq", "I64Eq");
    ("I64Ne", "I64Ne"); ("I64LtS", "I64LtS"); ("I64LtU", "I64LtU"); ("I64GtS", "I64GtS");
    ("I64GtU", "I64GtU"); ("I64LeS", "I64LeS"); ("I64LeU", "I64LeU"); ("I64GeS", "I64GeS");
    ("I64GeU", "I64GeU"); ("F32Eq", "F32Eq"); ("F32Ne", "F32Ne"); ("F32Lt", "F32Lt");
    ("F32Gt", "F32Gt"); ("F32Le", "F32Le"); ("F32Ge", "F32Ge"); ("F64Eq", "F64Eq");
    ("F64Ne", "F64Ne"); ("F64Lt", "F64Lt"); ("F64Gt", "F64Gt"); ("F64Le", "F64Le");
    ("F64Ge", "F64Ge"); ("I32Clz", "I32Clz"); ("I32Ctz", "I32Ctz"); ("I32Popcnt", "I32Popcnt");
    ("I32Add", "I32Add"); ("I32Sub", "I32Sub"); ("I32Mul", "I32Mul"); ("I32DivS", "I32DivS");
    ("I32DivU", "I32DivU"); ("I32RemS", "I32RemS"); ("I32RemU", "I32RemU");
    ("I32And", "I32And"); ("I32Or", "I32Or"); ("I32Xor", "I32Xor"); ("I32Shl", "I32Shl");
    ("I32ShrS", "I32ShrS"); ("I32ShrU", "I32ShrU"); ("I32Rotl", "I32Rotl");
    ("I32Rotr", "I32Rotr"); ("I64Clz", "I64Clz"); ("I64Ctz", "I64Ctz");
    ("I64Popcnt", "I64Popcnt"); ("I64Add", "I64Add"); ("I64Sub", "I64Sub");
    ("I64Mul", "I64Mul"); ("I64DivS", "I64DivS"); ("I64DivU", "I64DivU");
    ("I64RemS", "I64RemS"); ("I64RemU", "I64RemU"); ("I64And", "I64And"); ("I64Or", "I64Or");
    ("I64Xor", "I64Xor"); ("I64Shl", "I64Shl"); ("I64ShrS", "I64ShrS"); ("I64ShrU", "I64ShrU");
    ("I64Rotl", "I64Rotl"); ("I64Rotr", "I64Rotr"); ("F32Abs", "F32Abs"); ("F32Neg", "F32Neg");
    ("F32Ceil", "F32Ceil"); ("F32Floor", "F32Floor"); ("F32Trunc", "F32Trunc");
    ("F32Nearest", "F32Nearest"); ("F32Sqrt", "F32Sqrt"); ("F32Add", "F32Add");
    ("F32Sub", "F32Sub"); ("F32Mul", "F32Mul"); ("F32Div", "F32Div"); ("F32Min", "F32Min");
    ("F32Max", "F32Max"); ("F32Copysign", "F32Copysign")
  ].

Definition assignments_2 : list (string * string) :=
  [
    ("F64Abs", "F64Abs"); ("F64Neg", "F64Neg"); ("F64Ceil", "F64Ceil");
    ("F64Floor", "F64Floor"); ("F64Trunc", "F64Trunc"); ("F64Nearest", "F64Nearest");
    ("F64Sqrt", "F64Sqrt"); ("F64Add", "F64Add"); ("F64Sub", "F64Sub"); ("F64Mul", "F64Mul");
    ("F64Div", "F64Div"); ("F64Min", "F64Min"); ("F64Max", "F64Max");
    ("F64Copysign", "F64Copysign"); ("I32WrapI64", "I32WrapI64");
    ("I32TruncF32S", "I32TruncF32S"); ("I32TruncF32U", "I32TruncF32U");
    ("I32TruncF64S", "I32TruncF64S"); ("I32TruncF64U", "I32TruncF64U");
    ("I64ExtendI32S", "I64ExtendI32S"); ("I64ExtendI32U", "I64ExtendI32U");
    ("I64TruncF32S", "I64TruncF32S"); ("I64TruncF32U", "I64TruncF32U");
    ("I64TruncF64S", "I64TruncF64S"); ("I64TruncF64U", "I64TruncF64U");
    ("F32ConvertI32S", "F32ConvertI32S"); ("F32ConvertI32U", "F32ConvertI32U");
    ("F32ConvertI64S", "F32ConvertI64S"); ("F32ConvertI64U", "F32ConvertI64U");
    ("F32DemoteF64", "F32DemoteF64"); ("F64ConvertI32S", "F64ConvertI32S");
    ("F64ConvertI32U", "F64ConvertI32U"); ("F64ConvertI64S", "F64ConvertI64S");
    ("F64ConvertI64U", "F64ConvertI64U"); ("F64PromoteF32", "F64PromoteF32");
    ("I32ReinterpretF32", "I32ReinterpretF32"); ("I64ReinterpretF64", "I64ReinterpretF64");
    ("F32ReinterpretI32", "F32ReinterpretI32"); ("F64ReinterpretI64", "F64ReinterpretI64");
    ("I32Extend8S", "I32Extend8S"); ("I32Extend16S", "I32Extend16S");
    ("I64Extend8S", "I64Extend8S"); ("I64Extend16S", "I64Extend16S");
    ("I64Extend32S", "I64Extend32S"); ("I32TruncSatF32S", "I32TruncSatF32S");
    ("I32TruncSatF32U", "I32TruncSatF32U"); ("I32TruncSatF64S", "I32TruncSatF64S");
    ("I32TruncSatF64U", "I32TruncSatF64U"); ("I64TruncSatF32S", "I64TruncSatF32S");
    ("I64TruncSatF32U", "I64TruncSatF32U"); ("I64TruncSatF64S", "I64TruncSatF64S");
    ("I64TruncSatF64U", "I64TruncSatF64U"); ("MemoryInit", "MemoryInit");
    ("DataDrop", "DataDrop"); ("MemoryCopy", "MemoryCopy"); ("MemoryFill", "MemoryFill");
    ("TableInit", "TableInit"); ("ElemDrop", "ElemDrop"); ("TableCopy", "TableCopy");
    ("TableFill", "TableFill"); ("TableGet", "TableGet"); ("TableSet", "TableSet");
    ("TableGrow", "TableGrow"); ("TableSize", "TableSize"); ("AtomicNotify", "AtomicNotify");
    ("I32AtomicWait", "I32AtomicWait"); ("I64AtomicWait", "I64AtomicWait");
    ("AtomicFence", "AtomicFence"); ("I32AtomicLoad", "I32AtomicLoad");
    ("I64AtomicLoad", "I64AtomicLoad"); ("I32AtomicLoad8U", "I32AtomicLoad8U");
    ("I32AtomicLoad16U", "I32AtomicLoad16U"); ("I64AtomicLoad8U", "I64AtomicLoad8U");
    ("I64AtomicLoad16U", "I64AtomicLoad16U"); ("I64AtomicLoad32U", "I64AtomicLoad32U");
    ("I32AtomicStore", "I32AtomicStore"); ("I64AtomicStore", "I64AtomicStore");
    ("I32AtomicStore8", "I32AtomicStore8"); ("I32AtomicStore16", "I32AtomicStore16");
    ("I64AtomicStore8", "I64AtomicStore8"); ("I64AtomicStore16", "I64AtomicStore16");
    ("I64AtomicStore32", "I64AtomicStore32"); ("I32AtomicRmwAdd", "I32AtomicRmwAdd");
    ("I64AtomicRmwAdd", "I64AtomicRmwAdd"); ("I32AtomicRmw8AddU", "I32AtomicRmw8AddU");
    ("I32AtomicRmw16AddU", "I32AtomicRmw16AddU"); ("I64AtomicRmw8AddU", "I64AtomicRmw8AddU");
    ("I64AtomicRmw16AddU", "I64AtomicRmw16AddU"); ("I64AtomicRmw32AddU", "I64AtomicRmw32AddU");
    ("I32AtomicRmwSub", "I32AtomicRmwSub"); ("I64AtomicRmwSub", "I64AtomicRmwSub");
    ("I32AtomicRmw8SubU", "I32AtomicRmw8SubU"); ("I32AtomicRmw16SubU", "I32AtomicRmw16SubU");
    ("I64AtomicRmw8SubU", "I64AtomicRmw8SubU"); ("I64AtomicRmw16SubU", "I64AtomicRmw16SubU");
    ("I64AtomicRmw32SubU", "I64AtomicRmw32SubU"); ("I32AtomicRmwAnd", "I32AtomicRmwAnd");
    ("I64AtomicRmwAnd", "I64AtomicRmwAnd"); ("I32AtomicRmw8AndU", "I32AtomicRmw8AndU");
    ("I32AtomicRmw16AndU", "I32AtomicRmw16AndU"); ("I64AtomicRmw8AndU", "I64AtomicRmw8AndU");
    ("I64AtomicRmw16AndU", "I64AtomicRmw16AndU"); ("I64AtomicRmw32AndU", "I64AtomicRmw32AndU");
    ("I32AtomicRmwOr", "I32AtomicRmwOr"); ("I64AtomicRmwOr", "I64AtomicRmwOr");
    ("I32AtomicRmw8OrU", "I32AtomicRmw8OrU"); ("I32AtomicRmw16OrU", "I32AtomicRmw16OrU");
    ("I64AtomicRmw8OrU", "I64AtomicRmw8OrU"); ("I64AtomicRmw16OrU", "I64AtomicRmw16OrU");
    ("I64AtomicRmw32OrU", "I64AtomicRmw32OrU"); ("I32AtomicRmwXor", "I32AtomicRmwXor");
    ("I64AtomicRmwXor", "I64AtomicRmwXor"); ("I32AtomicRmw8XorU", "I32AtomicRmw8XorU");
    ("I32AtomicRmw16XorU", "I32AtomicRmw16XorU"); ("I64AtomicRmw8XorU", "I64AtomicRmw8XorU");
    ("I64AtomicRmw16XorU", "I64AtomicRmw16XorU"); ("I64AtomicRmw32XorU", "I64AtomicRmw32XorU");
    ("I32AtomicRmwXchg", "I32AtomicRmwXchg"); ("I64AtomicRmwXchg", "I64AtomicRmwXchg");
    ("I32AtomicRmw8XchgU", "I32AtomicRmw8XchgU");
    ("I32AtomicRmw16XchgU", "I32AtomicRmw16XchgU");
    ("I64AtomicRmw8XchgU", "I64AtomicRmw8XchgU");
    ("I64AtomicRmw16XchgU", "I64AtomicRmw16XchgU");
    ("I64AtomicRmw32XchgU", "I64AtomicRmw32XchgU");
    ("I32AtomicRmwCmpxchg", "I32AtomicRmwCmpxchg");
    ("I64AtomicRmwCmpxchg", "I64AtomicRmwCmpxchg");
    ("I32AtomicRmw8CmpxchgU", "I32AtomicRmw8CmpxchgU");
    ("I32AtomicRmw16CmpxchgU", "I32AtomicRmw16CmpxchgU");
    ("I64AtomicRmw8CmpxchgU", "I64AtomicRmw8CmpxchgU");
    ("I64AtomicRmw16CmpxchgU", "I64AtomicRmw16CmpxchgU");
    ("I64AtomicRmw32CmpxchgU", "I64AtomicRmw32CmpxchgU"); ("V128Load", "V128Load");
    ("V128Store", "V128Store"); ("V128Const", "V128Const"); ("I8x16Splat", "I8x16Splat");
    ("I8x16ExtractLaneS", "I8x16ExtractLaneS"); ("I8x16ExtractLaneU", "I8x16ExtractLaneU");
    ("I8x16ReplaceLane", "I8x16ReplaceLane"); ("I16x8Splat", "I16x8Splat");
    ("I16x8ExtractLaneS", "I16x8ExtractLaneS")
  ].

Definition assignments_3 : list (string * string) :=
  [
    ("I16x8ExtractLaneU", "I16x8ExtractLaneU"); ("I16x8ReplaceLane", "I16x8ReplaceLane");
    ("I32x4Splat", "I32x4Splat"); ("I32x4ExtractLane", "I32x4ExtractLane");
    ("I32x4ReplaceLane", "I32x4ReplaceLane"); ("I64x2Splat", "I64x2Splat");
    ("I64x2ExtractLane", "I64x2ExtractLane"); ("I64x2ReplaceLane", "I64x2ReplaceLane");
    ("F32x4Splat", "F32x4Splat"); ("F32x4ExtractLane", "F32x4ExtractLane");
    ("F32x4ReplaceLane", "F32x4ReplaceLane"); ("F64x2Splat", "F64x2Splat");
    ("F64x2ExtractLane", "F64x2ExtractLane"); ("F64x2ReplaceLane", "F64x2ReplaceLane");
    ("I8x16Eq", "I8x16Eq"); ("I8x16Ne", "I8x16Ne"); ("I8x16LtS", "I8x16LtS");
    ("I8x16LtU", "I8x16LtU"); ("I8x16GtS", "I8x16GtS"); ("I8x16GtU", "I8x16GtU");
    ("I8x16LeS", "I8x16LeS"); ("I8x16LeU", "I8x16LeU"); ("I8x16GeS", "I8x16GeS");
    ("I8x16GeU", "I8x16GeU"); ("I16x8Eq", "I16x8Eq"); ("I16x8Ne", "I16x8Ne");
    ("I16x8LtS", "I16x8LtS"); ("I16x8LtU", "I16x8LtU"); ("I16x8GtS", "I16x8GtS");
    ("I16x8GtU", "I16x8GtU"); ("I16x8LeS", "I16x8LeS"); ("I16x8LeU", "I16x8LeU");
    ("I16x8GeS", "I16x8GeS"); ("I16x8GeU", "I16x8GeU"); ("I32x4Eq", "I32x4Eq");
    ("I32x4Ne", "I32x4Ne"); ("I32x4LtS", "I32x4LtS"); ("I32x4LtU", "I32x4LtU");
    ("I32x4GtS", "I32x4GtS"); ("I32x4GtU", "I32x4GtU"); ("I32x4LeS", "I32x4LeS");
    ("I32x4LeU", "I32x4LeU"); ("I32x4GeS", "I32x4GeS"); ("I32x4GeU", "I32x4GeU");
    ("F32x4Eq", "F32x4Eq"); ("F32x4Ne", "F32x4Ne"); ("F32x4Lt", "F32x4Lt");
    ("F32x4Gt", "F32x4Gt"); ("F32x4Le", "F32x4Le"); ("F32x4Ge", "F32x4Ge");
    ("F64x2Eq", "F64x2Eq"); ("F64x2Ne", "F64x2Ne"); ("F64x2Lt", "F64x2Lt");
    ("F64x2Gt", "F64x2Gt"); ("F64x2Le", "F64x2Le"); ("F64x2Ge", "F64x2Ge");
    ("V128Not", "V128Not"); ("V128And", "V128And"); ("V128AndNot", "V128AndNot");
    ("V128Or", "V128Or"); ("V128Xor", "V128Xor"); ("V128Bitselect", "V128Bitselect");
    ("I8x16Neg", "I8x16Neg"); ("I8x16AnyTrue", "I8x16AnyTrue");
    ("I8x16AllTrue", "I8x16AllTrue"); ("I8x16Shl", "I8x16Shl"); ("I8x16ShrS", "I8x16ShrS");
    ("I8x16ShrU", "I8x16ShrU"); ("I8x16Add", "I8x16Add");
    ("I8x16AddSaturateS", "I8x16AddSaturateS"); ("I8x16AddSaturateU", "I8x16AddSaturateU");
    ("I8x16Sub", "I8x16Sub"); ("I8x16SubSaturateS", "I8x16SubSaturateS");
    ("I8x16SubSaturateU", "I8x16SubSaturateU"); ("I8x16MinS", "I8x16MinS");
    ("I8x16MinU", "I8x16MinU"); ("I8x16MaxS", "I8x16MaxS"); ("I8x16MaxU", "I8x16MaxU");
    ("I8x16Mul", "I8x16Mul"); ("I16x8Neg", "I16x8Neg"); ("I16x8AnyTrue", "I16x8AnyTrue");
    ("I16x8AllTrue", "I16x8AllTrue"); ("I16x8Shl", "I16x8Shl"); ("I16x8ShrS", "I16x8ShrS");
    ("I16x8ShrU", "I16x8ShrU"); ("I16x8Add", "I16x8Add");
    ("I16x8AddSaturateS", "I16x8AddSaturateS"); ("I16x8AddSaturateU", "I16x8AddSaturateU");
    ("I16x8Sub", "I16x8Sub"); ("I16x8SubSaturateS", "I16x8SubSaturateS");
    ("I16x8SubSaturateU", "I16x8SubSaturateU"); ("I16x8Mul", "I16x8Mul");
    ("I16x8MinS", "I16x8MinS"); ("I16x8MinU", "I16x8MinU"); ("I16x8MaxS", "I16x8MaxS");
    ("I16x8MaxU", "I16x8MaxU"); ("I32x4Neg", "I32x4Neg"); ("I32x4AnyTrue", "I32x4AnyTrue");
    ("I32x4AllTrue", "I32x4AllTrue"); ("I32x4Shl", "I32x4Shl"); ("I32x4ShrS", "I32x4ShrS");
    ("I32x4ShrU", "I32x4ShrU"); ("I32x4Add", "I32x4Add"); ("I32x4Sub", "I32x4Sub");
    ("I32x4Mul", "I32x4Mul"); ("I32x4MinS", "I32x4MinS"); ("I32x4MinU", "I32x4MinU");
    ("I32x4MaxS", "I32x4MaxS"); ("I32x4MaxU", "I32x4MaxU"); ("I64x2Neg", "I64x2Neg");
    ("I64x2AnyTrue", "I64x2AnyTrue"); ("I64x2AllTrue", "I64x2AllTrue");
    ("I64x2Shl", "I64x2Shl"); ("I64x2ShrS", "I64x2ShrS"); ("I64x2ShrU", "I64x2ShrU");
    ("I64x2Add", "I64x2Add"); ("I64x2Sub", "I64x2Sub"); ("I64x2Mul", "I64x2Mul");
    ("F32x4Abs", "F32x4Abs"); ("F32x4Neg", "F32x4Neg"); ("F32x4Sqrt", "F32x4Sqrt");
    ("F32x4Add", "F32x4Add"); ("F32x4Sub", "F32x4Sub"); ("F32x4Mul", "F32x4Mul");
    ("F32x4Div", "F32x4Div"); ("F32x4Min", "F32x4Min"); ("F32x4Max", "F32x4Max");
    ("F64x2Abs", "F64x2Abs"); ("F64x2Neg", "F64x2Neg"); ("F64x2Sqrt", "F64x2Sqrt");
    ("F64x2Add", "F64x2Add"); ("F64x2Sub", "F64x2Sub"); ("F64x2Mul", "F64x2Mul");
    ("F64x2Div", "F64x2Div"); ("F64x2Min", "F64x2Min"); ("F64x2Max", "F64x2Max");
    ("I32x4TruncSatF32x4S", "I32x4TruncSatF32x4S");
    ("I32x4TruncSatF32x4U", "I32x4TruncSatF32x4U");
    ("I64x2TruncSatF64x2S", "I64x2TruncSatF64x2S");
    ("I64x2TruncSatF64x2U", "I64x2TruncSatF64x2U")
  ].

Definition assignments_4 : list (string * string) :=
  [
    ("F32x4ConvertI32x4S", "F32x4ConvertI32x4S"); ("F32x4ConvertI32x4U", "F32x4ConvertI32x4U");
    ("F64x2ConvertI64x2S", "F64x2ConvertI64x2S"); ("F64x2ConvertI64x2U", "F64x2ConvertI64x2U");
    ("V8x16Swizzle", "V8x16Swizzle"); ("V8x16Shuffle", "V8x16Shuffle");
    ("V8x16LoadSplat", "V8x16LoadSplat"); ("V16x8LoadSplat", "V16x8LoadSplat");
    ("V32x4LoadSplat", "V32x4LoadSplat"); ("V64x2LoadSplat", "V64x2LoadSplat");
    ("I8x16NarrowI16x8S", "I8x16NarrowI16x8S"); ("I8x16NarrowI16x8U", "I8x16NarrowI16x8U");
    ("I16x8NarrowI32x4S", "I16x8NarrowI32x4S"); ("I16x8NarrowI32x4U", "I16x8NarrowI32x4U");
    ("I16x8WidenLowI8x16S", "I16x8WidenLowI8x16S");
    ("I16x8WidenHighI8x16S", "I16x8WidenHighI8x16S");
    ("I16x8WidenLowI8x16U", "I16x8WidenLowI8x16U");
    ("I16x8WidenHighI8x16U", "I16x8WidenHighI8x16U");
    ("I32x4WidenLowI16x8S", "I32x4WidenLowI16x8S");
    ("I32x4WidenHighI16x8S", "I32x4WidenHighI16x8S");
    ("I32x4WidenLowI16x8U", "I32x4WidenLowI16x8U");
    ("I32x4WidenHighI16x8U", "I32x4WidenHighI16x8U"); ("I16x8Load8x8S", "I16x8Load8x8S");
    ("I16x8Load8x8U", "I16x8Load8x8U"); ("I32x4Load16x4S", "I32x4Load16x4S");
    ("I32x4Load16x4U", "I32x4Load16x4U"); ("I64x2Load32x2S", "I64x2Load32x2S");
    ("I64x2Load32x2U", "I64x2Load32x2U"); ("I8x16RoundingAverageU", "I8x16RoundingAverageU");
    ("I16x8RoundingAverageU", "I16x8RoundingAverageU"); ("LocalAllocate", "LocalAllocate")
  ].

Definition assignments : list (string * string) :=
  assignments_1 ++ assignments_2 ++ assignments_3 ++ assignments_4.

(** ** The maps *)

Definition FillGasMap_BuiltInCosts_table : list (string * amount) :=
  [
    ("ChangeOwnerAddress", Value); ("ClaimDeveloperRewards", Value); ("SaveUserName", Value);
    ("SaveKeyValue", Value); ("ESDTTransfer", Value); ("ESDTBurn", Value);
    ("ESDTLocalMint", Value); ("ESDTLocalBurn", Value); ("ESDTNFTCreate", Value);
    ("ESDTNFTAddQuantity", Value); ("ESDTNFTBurn", Value); ("ESDTNFTTransfer", Value);
    ("ESDTNFTChangeCreateOwner", Value); ("ESDTNFTAddUri", Value);
    ("ESDTNFTUpdateAttributes", Value); ("ESDTNFTMultiTransfer", Value);
    ("ESDTModifyRoyalties", Value); ("ESDTModifyCreator", Value); ("ESDTNFTRecreate", Value);
    ("ESDTNFTUpdate", Value); ("ESDTNFTSetNewURIs", Value); ("SetGuardian", Value);
    ("GuardAccount", Value); ("UnGuardAccount", Value); ("TrieLoadPerNode", Value);
    ("TrieStorePerNode", Value)
  ].

Definition FillGasMap_BaseOperationCosts_table : list (string * amount) :=
  [
    ("StorePerByte", Value); ("DataCopyPerByte", Value); ("ReleasePerByte", Value);
    ("PersistPerByte", Value); ("CompilePerByte", Value); ("AoTPreparePerByte", Value);
    ("GetCode", Value)
  ].

Definition FillGasMap_BaseOpsAPICosts_table : list (string * amount) :=
  [
    ("GetSCAddress", Value); ("GetOwnerAddress", Value); ("IsSmartContract", Value);
    ("GetShardOfAddress", Value); ("GetExternalBalance", Value); ("GetBlockHash", Value);
    ("TransferValue", Value); ("GetArgument", Value); ("GetFunction", Value);
    ("GetNumArguments", Value); ("StorageStore", Value); ("StorageLoad", Value);
    ("GetCaller", Value); ("GetCallValue", Value); ("Log", Value); ("Finish", Value);
    ("SignalError", Value); ("GetBlockTimeStamp", Value); ("GetGasLeft", Value);
    ("Int64GetArgument", Value); ("Int64StorageStore", Value); ("Int64StorageLoad", Value);
    ("Int64Finish", Value); ("GetStateRootHash", Value); ("GetBlockNonce", Value);
    ("GetBlockEpoch", Value); ("GetBlockRound", Value); ("GetBlockRandomSeed", Value);
    ("ExecuteOnSameContext", Value); ("ExecuteOnDestContext", Value);
    ("DelegateExecution", Value); ("ExecuteReadOnly", Value); ("AsyncCallStep", Value);
    ("AsyncCallbackGasLock", Lock); ("CreateContract", Value); ("GetReturnData", Value);
    ("GetNumReturnData", Value); ("GetReturnDataSize", Value)
  ].

Definition FillGasMap_EthereumAPICosts_table : list (string * amount) :=
  [
    ("UseGas", Value); ("GetAddress", Value); ("GetExternalBalance", Value);
    ("GetBlockHash", Value); ("Call", Value); ("CallDataCopy", Value);
    ("GetCallDataSize", Value); ("CallCode", Value); ("CallDelegate", Value);
    ("CallStatic", Value); ("StorageStore", Value); ("StorageLoad", Value);
    ("GetCaller", Value); ("GetCallValue", Value); ("CodeCopy", Value); ("GetCodeSize", Value);
    ("GetBlockCoinbase", Value); ("Create", Value); ("GetBlockDifficulty", Value);
    ("ExternalCodeCopy", Value); ("GetExternalCodeSize", Value); ("GetGasLeft", Value);
    ("GetBlockGasLimit", Value); ("GetTxGasPrice", Value); ("Log", Value);
    ("GetBlockNumber", Value); ("GetTxOrigin", Value); ("Finish", Value); ("Revert", Value);
    ("GetReturnDataSize", Value); ("ReturnDataCopy", Value); ("SelfDestruct", Value);
    ("GetBlockTimeStamp", Value)
  ].

Definition FillGasMap_BigIntAPICosts_table : list (string * amount) :=
  [
    ("BigIntNew", Value); ("BigIntUnsignedByteLength", Value);
    ("BigIntSignedByteLength", Value); ("BigIntGetUnsignedBytes", Value);
    ("BigIntGetSignedBytes", Value); ("BigIntSetUnsignedBytes", Value);
    ("BigIntSetSignedBytes", Value); ("BigIntIsInt64", Value); ("BigIntGetInt64", Value);
    ("BigIntSetInt64", Value); ("BigIntAdd", Value); ("BigIntSub", Value); ("BigIntMul", Value);
    ("BigIntTDiv", Value); ("BigIntTMod", Value); ("BigIntEDiv", Value); ("BigIntEMod", Value);
    ("BigIntAbs", Value); ("BigIntNeg", Value); ("BigIntSign", Value); ("BigIntCmp", Value);
    ("BigIntNot", Value); ("BigIntAnd", Value); ("BigIntOr", Value); ("BigIntXor", Value);
    ("BigIntShr", Value); ("BigIntShl", Value); ("BigIntFinishUnsigned", Value);
    ("BigIntFinishSigned", Value); ("BigIntStorageLoadUnsigned", Value);
    ("BigIntStorageStoreUnsigned", Value); ("BigIntGetUnsignedArgument", Value);
    ("BigIntGetSignedArgument", Value); ("BigIntGetCallValue", Value);
    ("BigIntGetExternalBalance", Value)
  ].

Definition FillGasMap_CryptoAPICosts_table : list (string * amount) :=
  [
    ("SHA256", Value); ("Keccak256", Value); ("Ripemd160", Value); ("VerifyBLS", Value);
    ("VerifyEd25519", Value); ("VerifySecp256k1", Value)
  ].

Definition FillGasMap_WASMOpcodeValues_table_1 : list (string * amount) :=
  [
    ("Unreachable", Value); ("Nop", Value); ("Block", Value); ("Loop", Value); ("If", Value);
    ("Else", Value); ("End", Value); ("Br", Value); ("BrIf", Value); ("BrTable", Value);
    ("Return", Value); ("Call", Value); ("CallIndirect", Value); ("Drop", Value);
    ("Select", Value); ("TypedSelect", Value); ("LocalGet", Value); ("LocalSet", Value);
    ("LocalTee", Value); ("GlobalGet", Value); ("GlobalSet", Value); ("I32Load", Value);
    ("I64Load", Value); ("F32Load", Value); ("F64Load", Value); ("I32Load8S", Value);
    ("I32Load8U", Value); ("I32Load16S", Value); ("I32Load16U", Value); ("I64Load8S", Value);
    ("I64Load8U", Value); ("I64Load16S", Value); ("I64Load16U", Value); ("I64Load32S", Value);
    ("I64Load32U", Value); ("I32Store", Value); ("I64Store", Value); ("F32Store", Value);
    ("F64Store", Value); ("I32Store8", Value); ("I32Store16", Value); ("I64Store8", Value);
    ("I64Store16", Value); ("I64Store32", Value); ("MemorySize", Value); ("MemoryGrow", Value);
    ("I32Const", Value); ("I64Const", Value); ("F32Const", Value); ("F64Const", Value);
    ("RefNull", Value); ("RefIsNull", Value); ("RefFunc", Value); ("I32Eqz", Value);
    ("I32Eq", Value); ("I32Ne", Value); ("I32LtS", Value); ("I32LtU", Value); ("I32GtS", Value);
    ("I32GtU", Value); ("I32LeS", Value); ("I32LeU", Value); ("I32GeS", Value);
    ("I32GeU", Value); ("I64Eqz", Value); ("I64Eq", Value); ("I64Ne", Value); ("I64LtS", Value);
    ("I64LtU", Value); ("I64GtS", Value); ("I64GtU", Value); ("I64LeS", Value);
    ("I64LeU", Value); ("I64GeS", Value); ("I64GeU", Value); ("F32Eq", Value); ("F32Ne", Value);
    ("F32Lt", Value); ("F32Gt", Value); ("F32Le", Value); ("F32Ge", Value); ("F64Eq", Value);
    ("F64Ne", Value); ("F64Lt", Value); ("F64Gt", Value); ("F64Le", Value); ("F64Ge", Value);
    ("I32Clz", Value); ("I32Ctz", Value); ("I32Popcnt", Value); ("I32Add", Value);
    ("I32Sub", Value); ("I32Mul", Value); ("I32DivS", Value); ("I32DivU", Value);
    ("I32RemS", Value); ("I32RemU", Value); ("I32And", Value); ("I32Or", Value);
    ("I32Xor", Value); ("I32Shl", Value); ("I32ShrS", Value); ("I32ShrU", Value);
    ("I32Rotl", Value); ("I32Rotr", Value); ("I64Clz", Value); ("I64Ctz", Value);
    ("I64Popcnt", Value); ("I64Add", Value); ("I64Sub", Value); ("I64Mul", Value);
    ("I64DivS", Value); ("I64DivU", Value); ("I64RemS", Value); ("I64RemU", Value);
    ("I64And", Value); ("I64Or", Value); ("I64Xor", Value); ("I64Shl", Value);
    ("I64ShrS", Value); ("I64ShrU", Value); ("I64Rotl", Value); ("I64Rotr", Value);
    ("F32Abs", Value); ("F32Neg", Value); ("F32Ceil", Value); ("F32Floor", Value);
    ("F32Trunc", Value); ("F32Nearest", Value); ("F32Sqrt", Value); ("F32Add", Value);
    ("F32Sub", Value); ("F32Mul", Value); ("F32Div", Value); ("F32Min", Value);
    ("F32Max", Value); ("F32Copysign", Value); ("F64Abs", Value)
  ].

Definition FillGasMap_WASMOpcodeValues_table_2 : list (string * amount) :=
  [
    ("F64Neg", Value); ("F64Ceil", Value); ("F64Floor", Value); ("F64Trunc", Value);
    ("F64Nearest", Value); ("F64Sqrt", Value); ("F64Add", Value); ("F64Sub", Value);
    ("F64Mul", Value); ("F64Div", Value); ("F64Min", Value); ("F64Max", Value);
    ("F64Copysign", Value); ("I32WrapI64", Value); ("I32TruncF32S", Value);
    ("I32TruncF32U", Value); ("I32TruncF64S", Value); ("I32TruncF64U", Value);
    ("I64ExtendI32S", Value); ("I64ExtendI32U", Value); ("I64TruncF32S", Value);
    ("I64TruncF32U", Value); ("I64TruncF64S", Value); ("I64TruncF64U", Value);
    ("F32ConvertI32S", Value); ("F32ConvertI32U", Value); ("F32ConvertI64S", Value);
    ("F32ConvertI64U", Value); ("F32DemoteF64", Value); ("F64ConvertI32S", Value);
    ("F64ConvertI32U", Value); ("F64ConvertI64S", Value); ("F64ConvertI64U", Value);
    ("F64PromoteF32", Value); ("I32ReinterpretF32", Value); ("I64ReinterpretF64", Value);
    ("F32ReinterpretI32", Value); ("F64ReinterpretI64", Value); ("I32Extend8S", Value);
    ("I32Extend16S", Value); ("I64Extend8S", Value); ("I64Extend16S", Value);
    ("I64Extend32S", Value); ("I32TruncSatF32S", Value); ("I32TruncSatF32U", Value);
    ("I32TruncSatF64S", Value); ("I32TruncSatF64U", Value); ("I64TruncSatF32S", Value);
    ("I64TruncSatF32U", Value); ("I64TruncSatF64S", Value); ("I64TruncSatF64U", Value);
    ("MemoryInit", Value); ("DataDrop", Value); ("MemoryCopy", Value); ("MemoryFill", Value);
    ("TableInit", Value); ("ElemDrop", Value); ("TableCopy", Value); ("TableFill", Value);
    ("TableGet", Value); ("TableSet", Value); ("TableGrow", Value); ("TableSize", Value);
    ("AtomicNotify", Value); ("I32AtomicWait", Value); ("I64AtomicWait", Value);
    ("AtomicFence", Value); ("I32AtomicLoad", Value); ("I64AtomicLoad", Value);
    ("I32AtomicLoad8U", Value); ("I32AtomicLoad16U", Value); ("I64AtomicLoad8U", Value);
    ("I64AtomicLoad16U", Value); ("I64AtomicLoad32U", Value); ("I32AtomicStore", Value);
    ("I64AtomicStore", Value); ("I32AtomicStore8", Value); ("I32AtomicStore16", Value);
    ("I64AtomicStore8", Value); ("I64AtomicStore16", Value); ("I64AtomicStore32", Value);
    ("I32AtomicRmwAdd", Value); ("I64AtomicRmwAdd", Value); ("I32AtomicRmw8AddU", Value);
    ("I32AtomicRmw16AddU", Value); ("I64AtomicRmw8AddU", Value); ("I64AtomicRmw16AddU", Value);
    ("I64AtomicRmw32AddU", Value); ("I32AtomicRmwSub", Value); ("I64AtomicRmwSub", Value);
    ("I32AtomicRmw8SubU", Value); ("I32AtomicRmw16SubU", Value); ("I64AtomicRmw8SubU", Value);
    ("I64AtomicRmw16SubU", Value); ("I64AtomicRmw32SubU", Value); ("I32AtomicRmwAnd", Value);
    ("I64AtomicRmwAnd", Value); ("I32AtomicRmw8AndU", Value); ("I32AtomicRmw16AndU", Value);
    ("I64AtomicRmw8AndU", Value); ("I64AtomicRmw16AndU", Value); ("I64AtomicRmw32AndU", Value);
    ("I32AtomicRmwOr", Value); ("I64AtomicRmwOr", Value); ("I32AtomicRmw8OrU", Value);
    ("I32AtomicRmw16OrU", Value); ("I64AtomicRmw8OrU", Value); ("I64AtomicRmw16OrU", Value);
    ("I64AtomicRmw32OrU", Value); ("I32AtomicRmwXor", Value); ("I64AtomicRmwXor", Value);
    ("I32AtomicRmw8XorU", Value); ("I32AtomicRmw16XorU", Value); ("I64AtomicRmw8XorU", Value);
    ("I64AtomicRmw16XorU", Value); ("I64AtomicRmw32XorU", Value); ("I32AtomicRmwXchg", Value);
    ("I64AtomicRmwXchg", Value); ("I32AtomicRmw8XchgU", Value); ("I32AtomicRmw16XchgU", Value);
    ("I64AtomicRmw8XchgU", Value); ("I64AtomicRmw16XchgU", Value);
    ("I64AtomicRmw32XchgU", Value); ("I32AtomicRmwCmpxchg", Value);
    ("I64AtomicRmwCmpxchg", Value); ("I32AtomicRmw8CmpxchgU", Value);
    ("I32AtomicRmw16CmpxchgU", Value); ("I64AtomicRmw8CmpxchgU", Value);
    ("I64AtomicRmw16CmpxchgU", Value); ("I64AtomicRmw32CmpxchgU", Value); ("V128Load", Value);
    ("V128Store", Value); ("V128Const", Value); ("I8x16Splat", Value);
    ("I8x16ExtractLaneS", Value); ("I8x16ExtractLaneU", Value); ("I8x16ReplaceLane", Value);
    ("I16x8Splat", Value); ("I16x8ExtractLaneS", Value); ("I16x8ExtractLaneU", Value)
  ].

Definition FillGasMap_WASMOpcodeValues_table_3 : list (string * amount) :=
  [
    ("I16x8ReplaceLane", Value); ("I32x4Splat", Value); ("I32x4ExtractLane", Value);
    ("I32x4ReplaceLane", Value); ("I64x2Splat", Value); ("I64x2ExtractLane", Value);
    ("I64x2ReplaceLane", Value); ("F32x4Splat", Value); ("F32x4ExtractLane", Value);
    ("F32x4ReplaceLane", Value); ("F64x2Splat", Value); ("F64x2ExtractLane", Value);
    ("F64x2ReplaceLane", Value); ("I8x16Eq", Value); ("I8x16Ne", Value); ("I8x16LtS", Value);
    ("I8x16LtU", Value); ("I8x16GtS", Value); ("I8x16GtU", Value); ("I8x16LeS", Value);
    ("I8x16LeU", Value); ("I8x16GeS", Value); ("I8x16GeU", Value); ("I16x8Eq", Value);
    ("I16x8Ne", Value); ("I16x8LtS", Value); ("I16x8LtU", Value); ("I16x8GtS", Value);
    ("I16x8GtU", Value); ("I16x8LeS", Value); ("I16x8LeU", Value); ("I16x8GeS", Value);
    ("I16x8GeU", Value); ("I32x4Eq", Value); ("I32x4Ne", Value); ("I32x4LtS", Value);
    ("I32x4LtU", Value); ("I32x4GtS", Value); ("I32x4GtU", Value); ("I32x4LeS", Value);
    ("I32x4LeU", Value); ("I32x4GeS", Value); ("I32x4GeU", Value); ("F32x4Eq", Value);
    ("F32x4Ne", Value); ("F32x4Lt", Value); ("F32x4Gt", Value); ("F32x4Le", Value);
    ("F32x4Ge", Value); ("F64x2Eq", Value); ("F64x2Ne", Value); ("F64x2Lt", Value);
    ("F64x2Gt", Value); ("F64x2Le", Value); ("F64x2Ge", Value); ("V128Not", Value);
    ("V128And", Value); ("V128AndNot", Value); ("V128Or", Value); ("V128Xor", Value);
    ("V128Bitselect", Value); ("I8x16Neg", Value); ("I8x16AnyTrue", Value);
    ("I8x16AllTrue", Value); ("I8x16Shl", Value); ("I8x16ShrS", Value); ("I8x16ShrU", Value);
    ("I8x16Add", Value); ("I8x16AddSaturateS", Value); ("I8x16AddSaturateU", Value);
    ("I8x16Sub", Value); ("I8x16SubSaturateS", Value); ("I8x16SubSaturateU", Value);
    ("I8x16MinS", Value); ("I8x16MinU", Value); ("I8x16MaxS", Value); ("I8x16MaxU", Value);
    ("I8x16Mul", Value); ("I16x8Neg", Value); ("I16x8AnyTrue", Value); ("I16x8AllTrue", Value);
    ("I16x8Shl", Value); ("I16x8ShrS", Value); ("I16x8ShrU", Value); ("I16x8Add", Value);
    ("I16x8AddSaturateS", Value); ("I16x8AddSaturateU", Value); ("I16x8Sub", Value);
    ("I16x8SubSaturateS", Value); ("I16x8SubSaturateU", Value); ("I16x8Mul", Value);
    ("I16x8MinS", Value); ("I16x8MinU", Value); ("I16x8MaxS", Value); ("I16x8MaxU", Value);
    ("I32x4Neg", Value); ("I32x4AnyTrue", Value); ("I32x4AllTrue", Value); ("I32x4Shl", Value);
    ("I32x4ShrS", Value); ("I32x4ShrU", Value); ("I32x4Add", Value); ("I32x4Sub", Value);
    ("I32x4Mul", Value); ("I32x4MinS", Value); ("I32x4MinU", Value); ("I32x4MaxS", Value);
    ("I32x4MaxU", Value); ("I64x2Neg", Value); ("I64x2AnyTrue", Value); ("I64x2AllTrue", Value);
    ("I64x2Shl", Value); ("I64x2ShrS", Value); ("I64x2ShrU", Value); ("I64x2Add", Value);
    ("I64x2Sub", Value); ("I64x2Mul", Value); ("F32x4Abs", Value); ("F32x4Neg", Value);
    ("F32x4Sqrt", Value); ("F32x4Add", Value); ("F32x4Sub", Value); ("F32x4Mul", Value);
    ("F32x4Div", Value); ("F32x4Min", Value); ("F32x4Max", Value); ("F64x2Abs", Value);
    ("F64x2Neg", Value); ("F64x2Sqrt", Value); ("F64x2Add", Value); ("F64x2Sub", Value);
    ("F64x2Mul", Value); ("F64x2Div", Value); ("F64x2Min", Value); ("F64x2Max", Value);
    ("I32x4TruncSatF32x4S", Value); ("I32x4TruncSatF32x4U", Value);
    ("I64x2TruncSatF64x2S", Value); ("I64x2TruncSatF64x2U", Value);
    ("F32x4ConvertI32x4S", Value)
  ].

Definition FillGasMap_WASMOpcodeValues_table_4 : list (string * amount) :=
  [
    ("F32x4ConvertI32x4U", Value); ("F64x2ConvertI64x2S", Value); ("F64x2ConvertI64x2U", Value);
    ("V8x16Swizzle", Value); ("V8x16Shuffle", Value); ("V8x16LoadSplat", Value);
    ("V16x8LoadSplat", Value); ("V32x4LoadSplat", Value); ("V64x2LoadSplat", Value);
    ("I8x16NarrowI16x8S", Value); ("I8x16NarrowI16x8U", Value); ("I16x8NarrowI32x4S", Value);
    ("I16x8NarrowI32x4U", Value); ("I16x8WidenLowI8x16S", Value);
    ("I16x8WidenHighI8x16S", Value); ("I16x8WidenLowI8x16U", Value);
    ("I16x8WidenHighI8x16U", Value); ("I32x4WidenLowI16x8S", Value);
    ("I32x4WidenHighI16x8S", Value); ("I32x4WidenLowI16x8U", Value);
    ("I32x4WidenHighI16x8U", Value); ("I16x8Load8x8S", Value); ("I16x8Load8x8U", Value);
    ("I32x4Load16x4S", Value); ("I32x4Load16x4U", Value); ("I64x2Load32x2S", Value);
    ("I64x2Load32x2U", Value); ("I8x16RoundingAverageU", Value);
    ("I16x8RoundingAverageU", Value); ("LocalAllocate", Value); ("LocalsUnmetered", Fixed 100)
  ].

Definition FillGasMap_WASMOpcodeValues_table : list (string * amount) :=
  FillGasMap_WASMOpcodeValues_table_1 ++ FillGasMap_WASMOpcodeValues_table_2 ++ FillGasMap_WASMOpcodeValues_table_3 ++ FillGasMap_WASMOpcodeValues_table_4.
