(* ===== verification/Types.v ===== *)
(** Data the contexts exchange: the [vmcommon] structures as the sources fill
    and read them, the structures of [src/vmhost/common.go], and the gas
    schedule of [src/config/gasCost.go].

    Slices that are only read are values; a nil [big.Int] pointer that the code
    tests for is [None]. *)
From S2P Require Import Prelude Errors GasTables.

#[local] Open Scope Z_scope.

(** ** The gas schedule *)

Module BaseOperationCost.
Record t := mk {
  StorePerByte : Z;
  ReleasePerByte : Z;
  DataCopyPerByte : Z;
  PersistPerByte : Z;
  CompilePerByte : Z;
  AoTPreparePerByte : Z;
  GetCode : Z
}.
(** The schedule that charges [c] everywhere, for examples. *)
Definition const (c : Z) : t := mk c c c c c c c.
End BaseOperationCost.

Module BaseOpsAPICost.
Record t := mk {
  GetSCAddress : Z;
  GetOwnerAddress : Z;
  IsSmartContract : Z;
  GetShardOfAddress : Z;
  GetExternalBalance : Z;
  GetBlockHash : Z;
  TransferValue : Z;
  GetArgument : Z;
  GetFunction : Z;
  GetNumArguments : Z;
  StorageStore : Z;
  StorageLoad : Z;
  GetCaller : Z;
  GetCallValue : Z;
  Log : Z;
  Finish : Z;
  SignalError : Z;
  GetBlockTimeStamp : Z;
  GetGasLeft : Z;
  Int64GetArgument : Z;
  Int64StorageStore : Z;
  Int64StorageLoad : Z;
  Int64Finish : Z;
  GetStateRootHash : Z;
  GetBlockNonce : Z;
  GetBlockEpoch : Z;
  GetBlockRound : Z;
  GetBlockRandomSeed : Z;
  ExecuteOnSameContext : Z;
  ExecuteOnDestContext : Z;
  DelegateExecution : Z;
  ExecuteReadOnly : Z;
  AsyncCallStep : Z;
  AsyncCallbackGasLock : Z;
  CreateContract : Z;
  GetReturnData : Z;
  GetNumReturnData : Z;
  GetReturnDataSize : Z
}.
(** The schedule that charges [c] everywhere, for examples. *)
Definition const (c : Z) : t := mk c c c c c c c c c c c c c c c c c c c c c c c c c c c c c c c c c c c c c c.
End BaseOpsAPICost.

Module BigIntAPICost.
Record t := mk {
  BigIntNew : Z;
  BigIntUnsignedByteLength : Z;
  BigIntSignedByteLength : Z;
  BigIntGetUnsignedBytes : Z;
  BigIntGetSignedBytes : Z;
  BigIntSetUnsignedBytes : Z;
  BigIntSetSignedBytes : Z;
  BigIntIsInt64 : Z;
  BigIntGetInt64 : Z;
  BigIntSetInt64 : Z;
  BigIntAdd : Z;
  BigIntSub : Z;
  BigIntMul : Z;
  BigIntTDiv : Z;
  BigIntTMod : Z;
  BigIntEDiv : Z;
  BigIntEMod : Z;
  BigIntAbs : Z;
  BigIntNeg : Z;
  BigIntSign : Z;
  BigIntCmp : Z;
  BigIntNot : Z;
  BigIntAnd : Z;
  BigIntOr : Z;
  BigIntXor : Z;
  BigIntShr : Z;
  BigIntShl : Z;
  BigIntFinishUnsigned : Z;
  BigIntFinishSigned : Z;
  BigIntStorageLoadUnsigned : Z;
  BigIntStorageStoreUnsigned : Z;
  BigIntGetUnsignedArgument : Z;
  BigIntGetSignedArgument : Z;
  BigIntGetCallValue : Z;
  BigIntGetExternalBalance : Z
}.
(** The schedule that charges [c] everywhere, for examples. *)
Definition const (c : Z) : t := mk c c c c c c c c c c c c c c c c c c c c c c c c c c c c c c c c c c c.
End BigIntAPICost.

Module CryptoAPICost.
Record t := mk {
  SHA256 : Z;
  Keccak256 : Z;
  Ripemd160 : Z;
  VerifyBLS : Z;
  VerifyEd25519 : Z;
  VerifySecp256k1 : Z
}.
(** The schedule that charges [c] everywhere, for examples. *)
Definition const (c : Z) : t := mk c c c c c c.
End CryptoAPICost.

Module EthAPICost.
Record t := mk {
  UseGas : Z;
  GetAddress : Z;
  GetExternalBalance : Z;
  GetBlockHash : Z;
  Call : Z;
  CallDataCopy : Z;
  GetCallDataSize : Z;
  CallCode : Z;
  CallDelegate : Z;
  CallStatic : Z;
  StorageStore : Z;
  StorageLoad : Z;
  GetCaller : Z;
  GetCallValue : Z;
  CodeCopy : Z;
  GetCodeSize : Z;
  GetBlockCoinbase : Z;
  Create : Z;
  GetBlockDifficulty : Z;
  ExternalCodeCopy : Z;
  GetExternalCodeSize : Z;
  GetGasLeft : Z;
  GetBlockGasLimit : Z;
  GetTxGasPrice : Z;
  Log : Z;
  GetBlockNumber : Z;
  GetTxOrigin : Z;
  Finish : Z;
  Revert : Z;
  GetReturnDataSize : Z;
  ReturnDataCopy : Z;
  SelfDestruct : Z;
  GetBlockTimeStamp : Z
}.
(** The schedule that charges [c] everywhere, for examples. *)
Definition const (c : Z) : t :=
  mk c c c c c c c c c c c c c c c c c c c c c c c c c c c c c c c c c.
End EthAPICost.

(** The prices of the opcodes, in the order of [GasTables.WASMOpcodeCost_fields]. *)
Definition WASMOpcodeCost : Type := list Z.

Definition opcode_cost (name : string) (costs : WASMOpcodeCost) : Z :=
  field WASMOpcodeCost_fields costs name.

Record GasCost := mkGasCost {
  gc_BaseOperationCost : BaseOperationCost.t;
  gc_BigIntAPICost : BigIntAPICost.t;
  gc_EthAPICost : EthAPICost.t;
  gc_BaseOpsAPICost : BaseOpsAPICost.t;
  gc_CryptoAPICost : CryptoAPICost.t;
  gc_WASMOpcodeCost : WASMOpcodeCost;
}.

Definition gc_LocalsUnmetered (schedule : GasCost) : Z :=
  opcode_cost "LocalsUnmetered" (gc_WASMOpcodeCost schedule).

Definition const_GasCost (c : Z) : GasCost :=
  mkGasCost (BaseOperationCost.const c) (BigIntAPICost.const c) (EthAPICost.const c)
    (BaseOpsAPICost.const c) (CryptoAPICost.const c)
    (replicate (length WASMOpcodeCost_fields) c).

(** ** Constants of [src/vmhost/common.go] *)

Inductive BreakpointValue :=
| BreakpointNone
| BreakpointExecutionFailed
| BreakpointAsyncCall
| BreakpointSignalError
| BreakpointOutOfGas.

#[export] Instance BreakpointValue_eq_dec : EqDecision BreakpointValue.
Proof. solve_decision. Defined.

(** The [uint64] that wasmer stores. *)
Definition breakpoint_to_Z (b : BreakpointValue) : Z :=
  match b with
  | BreakpointNone => 0
  | BreakpointExecutionFailed => 1
  | BreakpointAsyncCall => 2
  | BreakpointSignalError => 3
  | BreakpointOutOfGas => 4
  end.

Inductive AsyncCallExecutionMode :=
| SyncCall
| AsyncBuiltinFuncIntraShard
| AsyncBuiltinFuncCrossShard
| ESDTTransferOnCallBack
| AsyncUnknown.

#[export] Instance AsyncCallExecutionMode_eq_dec : EqDecision AsyncCallExecutionMode.
Proof. solve_decision. Defined.

Inductive AsyncCallStatus :=
| AsyncCallPending
| AsyncCallResolved
| AsyncCallRejected.

#[export] Instance AsyncCallStatus_eq_dec : EqDecision AsyncCallStatus.
Proof. solve_decision. Defined.

Definition CallbackFunctionName : bytes := bs "callBack".
Definition ProtectedStoragePrefix : bytes := bs "ARWEN@".
Definition TimeLockKeyPrefix : bytes := ProtectedStoragePrefix ++ bs "TIMELOCK".
Definition AsyncDataPrefix : bytes := ProtectedStoragePrefix ++ bs "ASYNC".
Definition AddressLen : Z := 32.
Definition HashLen : Z := 32.
Definition BalanceLen : Z := 32.
Definition CodeMetadataLen : Z := 2.
Definition InitFunctionName : bytes := bs "init".
Definition InitFunctionNameEth : bytes := bs "solidity.ctor".
Definition UpgradeFunctionName : bytes := bs "upgradeContract".

(** ** Structures of [vmcommon] *)

Inductive CallType :=
| DirectCall
| AsynchronousCall
| AsynchronousCallBack
| ESDTTransferAndExecute
| OtherCallType (n : Z).

#[export] Instance CallType_eq_dec : EqDecision CallType.
Proof. solve_decision. Defined.

Inductive ReturnCode :=
| Ok
| FunctionNotFound
| FunctionWrongSignature
| ContractNotFound
| UserError
| OutOfGas
| OutOfFunds
| ContractInvalid
| ExecutionFailed
| UpgradeFailed
| OtherReturnCode (n : Z).

#[export] Instance ReturnCode_eq_dec : EqDecision ReturnCode.
Proof. solve_decision. Defined.

Record ESDTTransfer := mkESDTTransfer {
  ESDTValue : Z;
  ESDTTokenName : bytes;
  ESDTTokenType : Z;
  ESDTTokenNonce : Z;
}.

Record VMInput := mkVMInput {
  CallerAddr : bytes;
  Arguments : list bytes;
  CallValue : Z;
  VMInput_CallType : CallType;
  GasPrice : Z;
  GasProvided : Z;
  GasLocked : Z;
  OriginalTxHash : bytes;
  CurrentTxHash : bytes;
  PrevTxHash : bytes;
  ESDTTransfers : list ESDTTransfer;
  ReturnCallAfterError : bool;
}.

Definition set_CallerAddr (v : bytes) (r : VMInput) : VMInput :=
  mkVMInput v (Arguments r) (CallValue r) (VMInput_CallType r) (GasPrice r) (GasProvided r)
    (GasLocked r) (OriginalTxHash r) (CurrentTxHash r) (PrevTxHash r) (ESDTTransfers r)
    (ReturnCallAfterError r).

Definition set_Arguments (v : list bytes) (r : VMInput) : VMInput :=
  mkVMInput (CallerAddr r) v (CallValue r) (VMInput_CallType r) (GasPrice r) (GasProvided r)
    (GasLocked r) (OriginalTxHash r) (CurrentTxHash r) (PrevTxHash r) (ESDTTransfers r)
    (ReturnCallAfterError r).

Definition set_CallValue (v : Z) (r : VMInput) : VMInput :=
  mkVMInput (CallerAddr r) (Arguments r) v (VMInput_CallType r) (GasPrice r) (GasProvided r)
    (GasLocked r) (OriginalTxHash r) (CurrentTxHash r) (PrevTxHash r) (ESDTTransfers r)
    (ReturnCallAfterError r).

Definition set_VMInput_CallType (v : CallType) (r : VMInput) : VMInput :=
  mkVMInput (CallerAddr r) (Arguments r) (CallValue r) v (GasPrice r) (GasProvided r)
    (GasLocked r) (OriginalTxHash r) (CurrentTxHash r) (PrevTxHash r) (ESDTTransfers r)
    (ReturnCallAfterError r).

Definition set_GasPrice (v : Z) (r : VMInput) : VMInput :=
  mkVMInput (CallerAddr r) (Arguments r) (CallValue r) (VMInput_CallType r) v (GasProvided r)
    (GasLocked r) (OriginalTxHash r) (CurrentTxHash r) (PrevTxHash r) (ESDTTransfers r)
    (ReturnCallAfterError r).

Definition set_GasProvided (v : Z) (r : VMInput) : VMInput :=
  mkVMInput (CallerAddr r) (Arguments r) (CallValue r) (VMInput_CallType r) (GasPrice r) v
    (GasLocked r) (OriginalTxHash r) (CurrentTxHash r) (PrevTxHash r) (ESDTTransfers r)
    (ReturnCallAfterError r).

Definition set_GasLocked (v : Z) (r : VMInput) : VMInput :=
  mkVMInput (CallerAddr r) (Arguments r) (CallValue r) (VMInput_CallType r) (GasPrice r)
    (GasProvided r) v (OriginalTxHash r) (CurrentTxHash r) (PrevTxHash r) (ESDTTransfers r)
    (ReturnCallAfterError r).

Definition set_OriginalTxHash (v : bytes) (r : VMInput) : VMInput :=
  mkVMInput (CallerAddr r) (Arguments r) (CallValue r) (VMInput_CallType r) (GasPrice r)
    (GasProvided r) (GasLocked r) v (CurrentTxHash r) (PrevTxHash r) (ESDTTransfers r)
    (ReturnCallAfterError r).

Definition set_CurrentTxHash (v : bytes) (r : VMInput) : VMInput :=
  mkVMInput (CallerAddr r) (Arguments r) (CallValue r) (VMInput_CallType r) (GasPrice r)
    (GasProvided r) (GasLocked r) (OriginalTxHash r) v (PrevTxHash r) (ESDTTransfers r)
    (ReturnCallAfterError r).

Definition set_PrevTxHash (v : bytes) (r : VMInput) : VMInput :=
  mkVMInput (CallerAddr r) (Arguments r) (CallValue r) (VMInput_CallType r) (GasPrice r)
    (GasProvided r) (GasLocked r) (OriginalTxHash r) (CurrentTxHash r) v (ESDTTransfers r)
    (ReturnCallAfterError r).

Definition set_ESDTTransfers (v : list ESDTTransfer) (r : VMInput) : VMInput :=
  mkVMInput (CallerAddr r) (Arguments r) (CallValue r) (VMInput_CallType r) (GasPrice r)
    (GasProvided r) (GasLocked r) (OriginalTxHash r) (CurrentTxHash r) (PrevTxHash r) v
    (ReturnCallAfterError r).

Definition set_ReturnCallAfterError (v : bool) (r : VMInput) : VMInput :=
  mkVMInput (CallerAddr r) (Arguments r) (CallValue r) (VMInput_CallType r) (GasPrice r)
    (GasProvided r) (GasLocked r) (OriginalTxHash r) (CurrentTxHash r) (PrevTxHash r)
    (ESDTTransfers r) v.

(** [&vmcommon.VMInput{}]. *)
Definition zeroVMInput : VMInput :=
  mkVMInput [] [] 0 DirectCall 0 0 0 [] [] [] [] false.

Record ContractCallInput := mkContractCallInput {
  call_VMInput : VMInput;
  RecipientAddr : bytes;
  Function_ : bytes;
  AllowInitFunction : bool;
}.

Definition set_call_VMInput (v : VMInput) (r : ContractCallInput) : ContractCallInput :=
  mkContractCallInput v (RecipientAddr r) (Function_ r) (AllowInitFunction r).

Definition set_RecipientAddr (v : bytes) (r : ContractCallInput) : ContractCallInput :=
  mkContractCallInput (call_VMInput r) v (Function_ r) (AllowInitFunction r).

Definition set_Function_ (v : bytes) (r : ContractCallInput) : ContractCallInput :=
  mkContractCallInput (call_VMInput r) (RecipientAddr r) v (AllowInitFunction r).

Definition set_AllowInitFunction (v : bool) (r : ContractCallInput) : ContractCallInput :=
  mkContractCallInput (call_VMInput r) (RecipientAddr r) (Function_ r) v.

Record ContractCreateInput := mkContractCreateInput {
  create_VMInput : VMInput;
  ContractCode : bytes;
  ContractCodeMetadata : bytes;
}.

Record StorageUpdate := mkStorageUpdate {
  Offset : bytes;
  Data : bytes;
}.

Record OutputTransfer := mkOutputTransfer {
  ot_Value : Z;
  ot_GasLimit : Z;
  ot_GasLocked : Z;
  ot_Data : bytes;
  ot_CallType : CallType;
  ot_SenderAddress : bytes;
}.

Definition set_ot_Value (v : Z) (r : OutputTransfer) : OutputTransfer :=
  mkOutputTransfer v (ot_GasLimit r) (ot_GasLocked r) (ot_Data r) (ot_CallType r)
    (ot_SenderAddress r).

Definition set_ot_GasLimit (v : Z) (r : OutputTransfer) : OutputTransfer :=
  mkOutputTransfer (ot_Value r) v (ot_GasLocked r) (ot_Data r) (ot_CallType r)
    (ot_SenderAddress r).

Definition set_ot_GasLocked (v : Z) (r : OutputTransfer) : OutputTransfer :=
  mkOutputTransfer (ot_Value r) (ot_GasLimit r) v (ot_Data r) (ot_CallType r)
    (ot_SenderAddress r).

Definition set_ot_Data (v : bytes) (r : OutputTransfer) : OutputTransfer :=
  mkOutputTransfer (ot_Value r) (ot_GasLimit r) (ot_GasLocked r) v (ot_CallType r)
    (ot_SenderAddress r).

Definition set_ot_CallType (v : CallType) (r : OutputTransfer) : OutputTransfer :=
  mkOutputTransfer (ot_Value r) (ot_GasLimit r) (ot_GasLocked r) (ot_Data r) v
    (ot_SenderAddress r).

Definition set_ot_SenderAddress (v : bytes) (r : OutputTransfer) : OutputTransfer :=
  mkOutputTransfer (ot_Value r) (ot_GasLimit r) (ot_GasLocked r) (ot_Data r) (ot_CallType r) v.

Record OutputAccount := mkOutputAccount {
  Address : bytes;
  Nonce : Z;
  Balance : option Z;
  BalanceDelta : option Z;
  StorageUpdates : gmap bytes StorageUpdate;
  Code : bytes;
  CodeMetadata : bytes;
  CodeDeployerAddress : option bytes;
  OutputTransfers : list OutputTransfer;
  GasUsed : Z;
}.

Definition set_Address (v : bytes) (r : OutputAccount) : OutputAccount :=
  mkOutputAccount v (Nonce r) (Balance r) (BalanceDelta r) (StorageUpdates r) (Code r)
    (CodeMetadata r) (CodeDeployerAddress r) (OutputTransfers r) (GasUsed r).

Definition set_Nonce (v : Z) (r : OutputAccount) : OutputAccount :=
  mkOutputAccount (Address r) v (Balance r) (BalanceDelta r) (StorageUpdates r) (Code r)
    (CodeMetadata r) (CodeDeployerAddress r) (OutputTransfers r) (GasUsed r).

Definition set_Balance (v : option Z) (r : OutputAccount) : OutputAccount :=
  mkOutputAccount (Address r) (Nonce r) v (BalanceDelta r) (StorageUpdates r) (Code r)
    (CodeMetadata r) (CodeDeployerAddress r) (OutputTransfers r) (GasUsed r).

Definition set_BalanceDelta (v : option Z) (r : OutputAccount) : OutputAccount :=
  mkOutputAccount (Address r) (Nonce r) (Balance r) v (StorageUpdates r) (Code r)
    (CodeMetadata r) (CodeDeployerAddress r) (OutputTransfers r) (GasUsed r).

Definition set_StorageUpdates (v : gmap bytes StorageUpdate) (r : OutputAccount) : OutputAccount :=
  mkOutputAccount (Address r) (Nonce r) (Balance r) (BalanceDelta r) v (Code r) (CodeMetadata r)
    (CodeDeployerAddress r) (OutputTransfers r) (GasUsed r).

Definition set_Code (v : bytes) (r : OutputAccount) : OutputAccount :=
  mkOutputAccount (Address r) (Nonce r) (Balance r) (BalanceDelta r) (StorageUpdates r) v
    (CodeMetadata r) (CodeDeployerAddress r) (OutputTransfers r) (GasUsed r).

Definition set_CodeMetadata (v : bytes) (r : OutputAccount) : OutputAccount :=
  mkOutputAccount (Address r) (Nonce r) (Balance r) (BalanceDelta r) (StorageUpdates r) (Code r)
    v (CodeDeployerAddress r) (OutputTransfers r) (GasUsed r).

Definition set_CodeDeployerAddress (v : option bytes) (r : OutputAccount) : OutputAccount :=
  mkOutputAccount (Address r) (Nonce r) (Balance r) (BalanceDelta r) (StorageUpdates r) (Code r)
    (CodeMetadata r) v (OutputTransfers r) (GasUsed r).

Definition set_OutputTransfers (v : list OutputTransfer) (r : OutputAccount) : OutputAccount :=
  mkOutputAccount (Address r) (Nonce r) (Balance r) (BalanceDelta r) (StorageUpdates r) (Code r)
    (CodeMetadata r) (CodeDeployerAddress r) v (GasUsed r).

Definition set_GasUsed (v : Z) (r : OutputAccount) : OutputAccount :=
  mkOutputAccount (Address r) (Nonce r) (Balance r) (BalanceDelta r) (StorageUpdates r) (Code r)
    (CodeMetadata r) (CodeDeployerAddress r) (OutputTransfers r) v.

Record LogEntry := mkLogEntry {
  Identifier : bytes;
  log_Address : bytes;
  Topics : list bytes;
  log_Data : list bytes;
}.

Record VMOutput := mkVMOutput {
  ReturnData : list bytes;
  out_ReturnCode : ReturnCode;
  ReturnMessage : bytes;
  GasRemaining : Z;
  GasRefund : option Z;
  OutputAccounts : gmap bytes OutputAccount;
  DeletedAccounts : list bytes;
  TouchedAccounts : list bytes;
  Logs : list LogEntry;
}.

Definition set_ReturnData (v : list bytes) (r : VMOutput) : VMOutput :=
  mkVMOutput v (out_ReturnCode r) (ReturnMessage r) (GasRemaining r) (GasRefund r)
    (OutputAccounts r) (DeletedAccounts r) (TouchedAccounts r) (Logs r).

Definition set_out_ReturnCode (v : ReturnCode) (r : VMOutput) : VMOutput :=
  mkVMOutput (ReturnData r) v (ReturnMessage r) (GasRemaining r) (GasRefund r)
    (OutputAccounts r) (DeletedAccounts r) (TouchedAccounts r) (Logs r).

Definition set_ReturnMessage (v : bytes) (r : VMOutput) : VMOutput :=
  mkVMOutput (ReturnData r) (out_ReturnCode r) v (GasRemaining r) (GasRefund r)
    (OutputAccounts r) (DeletedAccounts r) (TouchedAccounts r) (Logs r).

Definition set_GasRemaining (v : Z) (r : VMOutput) : VMOutput :=
  mkVMOutput (ReturnData r) (out_ReturnCode r) (ReturnMessage r) v (GasRefund r)
    (OutputAccounts r) (DeletedAccounts r) (TouchedAccounts r) (Logs r).

Definition set_GasRefund (v : option Z) (r : VMOutput) : VMOutput :=
  mkVMOutput (ReturnData r) (out_ReturnCode r) (ReturnMessage r) (GasRemaining r) v
    (OutputAccounts r) (DeletedAccounts r) (TouchedAccounts r) (Logs r).

Definition set_OutputAccounts (v : gmap bytes OutputAccount) (r : VMOutput) : VMOutput :=
  mkVMOutput (ReturnData r) (out_ReturnCode r) (ReturnMessage r) (GasRemaining r) (GasRefund r)
    v (DeletedAccounts r) (TouchedAccounts r) (Logs r).

Definition set_DeletedAccounts (v : list bytes) (r : VMOutput) : VMOutput :=
  mkVMOutput (ReturnData r) (out_ReturnCode r) (ReturnMessage r) (GasRemaining r) (GasRefund r)
    (OutputAccounts r) v (TouchedAccounts r) (Logs r).

Definition set_TouchedAccounts (v : list bytes) (r : VMOutput) : VMOutput :=
  mkVMOutput (ReturnData r) (out_ReturnCode r) (ReturnMessage r) (GasRemaining r) (GasRefund r)
    (OutputAccounts r) (DeletedAccounts r) v (Logs r).

Definition set_Logs (v : list LogEntry) (r : VMOutput) : VMOutput :=
  mkVMOutput (ReturnData r) (out_ReturnCode r) (ReturnMessage r) (GasRemaining r) (GasRefund r)
    (OutputAccounts r) (DeletedAccounts r) (TouchedAccounts r) v.

(** [esdt.ESDigitalToken] and its [esdt.MetaData], as the hook returns them. *)
Record MetaData := mkMetaData {
  md_Nonce : Z;
  md_Name : bytes;
  md_Creator : bytes;
  md_Royalties : Z;
  md_Hash : bytes;
  md_URIs : list bytes;
  md_Attributes : bytes;
}.

Record ESDigitalToken := mkESDigitalToken {
  esdt_Type : Z;
  esdt_Value : option Z;
  esdt_Properties : bytes;
  esdt_TokenMetaData : option MetaData;
}.

(** ** Structures of [src/vmhost/common.go] *)

Record CodeDeployInput := mkCodeDeployInput {
  cdi_ContractCode : bytes;
  cdi_ContractCodeMetadata : bytes;
  cdi_ContractAddress : bytes;
  cdi_CodeDeployerAddress : bytes;
}.

Record AsyncCallInfo := mkAsyncCallInfo {
  aci_Destination : bytes;
  aci_Data : bytes;
  aci_GasLimit : Z;
  aci_GasLocked : Z;
  aci_ValueBytes : bytes;
}.

Record AsyncGeneratedCall := mkAsyncGeneratedCall {
  ac_Status : AsyncCallStatus;
  ac_Destination : bytes;
  ac_Data : bytes;
  ac_GasLimit : Z;
  ac_ValueBytes : bytes;
  ac_SuccessCallback : bytes;
  ac_ErrorCallback : bytes;
  ac_ProvidedGas : Z;
}.

Definition set_ac_Status (v : AsyncCallStatus) (r : AsyncGeneratedCall) : AsyncGeneratedCall :=
  mkAsyncGeneratedCall v (ac_Destination r) (ac_Data r) (ac_GasLimit r) (ac_ValueBytes r)
    (ac_SuccessCallback r) (ac_ErrorCallback r) (ac_ProvidedGas r).

Definition set_ac_Destination (v : bytes) (r : AsyncGeneratedCall) : AsyncGeneratedCall :=
  mkAsyncGeneratedCall (ac_Status r) v (ac_Data r) (ac_GasLimit r) (ac_ValueBytes r)
    (ac_SuccessCallback r) (ac_ErrorCallback r) (ac_ProvidedGas r).

Definition set_ac_Data (v : bytes) (r : AsyncGeneratedCall) : AsyncGeneratedCall :=
  mkAsyncGeneratedCall (ac_Status r) (ac_Destination r) v (ac_GasLimit r) (ac_ValueBytes r)
    (ac_SuccessCallback r) (ac_ErrorCallback r) (ac_ProvidedGas r).

Definition set_ac_GasLimit (v : Z) (r : AsyncGeneratedCall) : AsyncGeneratedCall :=
  mkAsyncGeneratedCall (ac_Status r) (ac_Destination r) (ac_Data r) v (ac_ValueBytes r)
    (ac_SuccessCallback r) (ac_ErrorCallback r) (ac_ProvidedGas r).

Definition set_ac_ValueBytes (v : bytes) (r : AsyncGeneratedCall) : AsyncGeneratedCall :=
  mkAsyncGeneratedCall (ac_Status r) (ac_Destination r) (ac_Data r) (ac_GasLimit r) v
    (ac_SuccessCallback r) (ac_ErrorCallback r) (ac_ProvidedGas r).

Definition set_ac_SuccessCallback (v : bytes) (r : AsyncGeneratedCall) : AsyncGeneratedCall :=
  mkAsyncGeneratedCall (ac_Status r) (ac_Destination r) (ac_Data r) (ac_GasLimit r)
    (ac_ValueBytes r) v (ac_ErrorCallback r) (ac_ProvidedGas r).

Definition set_ac_ErrorCallback (v : bytes) (r : AsyncGeneratedCall) : AsyncGeneratedCall :=
  mkAsyncGeneratedCall (ac_Status r) (ac_Destination r) (ac_Data r) (ac_GasLimit r)
    (ac_ValueBytes r) (ac_SuccessCallback r) v (ac_ProvidedGas r).

Definition set_ac_ProvidedGas (v : Z) (r : AsyncGeneratedCall) : AsyncGeneratedCall :=
  mkAsyncGeneratedCall (ac_Status r) (ac_Destination r) (ac_Data r) (ac_GasLimit r)
    (ac_ValueBytes r) (ac_SuccessCallback r) (ac_ErrorCallback r) v.

Record AsyncContext := mkAsyncContext {
  Callback : bytes;
  AsyncCalls : list AsyncGeneratedCall;
}.

Definition set_Callback (v : bytes) (r : AsyncContext) : AsyncContext :=
  mkAsyncContext v (AsyncCalls r).

Definition set_AsyncCalls (v : list AsyncGeneratedCall) (r : AsyncContext) : AsyncContext :=
  mkAsyncContext (Callback r) v.

Record AsyncContextInfo := mkAsyncContextInfo {
  aci_CallerAddr : bytes;
  aci_ReturnData : bytes;
  AsyncContextMap : gmap bytes AsyncContext;
}.

Definition set_aci_CallerAddr (v : bytes) (r : AsyncContextInfo) : AsyncContextInfo :=
  mkAsyncContextInfo v (aci_ReturnData r) (AsyncContextMap r).

Definition set_aci_ReturnData (v : bytes) (r : AsyncContextInfo) : AsyncContextInfo :=
  mkAsyncContextInfo (aci_CallerAddr r) v (AsyncContextMap r).

Definition set_AsyncContextMap (v : gmap bytes AsyncContext) (r : AsyncContextInfo) : AsyncContextInfo :=
  mkAsyncContextInfo (aci_CallerAddr r) (aci_ReturnData r) v.
