(* ===== verification/State.v ===== *)
(** The state of the VM host, the code outside the repository it relies on,
    and the monad its operations run in.

    [Externals] gathers what the sources call but do not contain: the
    blockchain hook, the built-in function container, the epoch flags, the
    call-data parser, the crypto hook and the parts of wasmer that compile and
    cache code.  Every theorem holds for all of them.

    [HostState] has one record per context of [src/vmhost/contexts], the heap
    of wasmer instances (the contexts hold pointers to them, compare the
    pointers and mutate what they point to), the heap of [AsyncContextInfo]
    structures (shared by the runtime context, its state stack and the callers
    of [ExecuteOnDestContext]) and the state behind the blockchain hook. *)
From S2P Require Import Prelude Errors Overflow Types.

#[local] Open Scope Z_scope.

(** ** Code outside the repository *)

(** The epoch flags of [src/vmhost/hostCore/flags.go]. *)
Inductive EnableEpochFlag :=
| SCDeployFlag
| BuiltInFunctionsFlag
| RepairCallbackFlag
| AheadOfTimeGasUsageFlag.

(** What the hook returns for an account: [vmcommon.UserAccountHandler], by what its
    getters return. *)
Record UserAccount := mkUserAccount {
  acc_GetBalance : Z;
  acc_GetNonce : Z;
  acc_GetCodeHash : bytes;
  acc_GetCodeMetadata : bytes;
  acc_GetOwnerAddress : bytes;
  acc_GetRootHash : bytes;
  acc_AddressBytes : bytes;
  acc_GetDeveloperReward : Z;
  acc_GetUserName : bytes;
}.

(** [wasmer.CompilationOptions]. *)
Record CompilationOptions := mkCompilationOptions {
  opt_GasLimit : Z;
  opt_UnmeteredLocals : Z;
  opt_MaxMemoryGrow : Z;
  opt_MaxMemoryGrowDelta : Z;
  opt_OpcodeTrace : bool;
  opt_Metering : bool;
  opt_RuntimeBreakpoints : bool;
}.

(** A wasmer instance as [wasmer.InstanceHandler] shows it: what it exports
    and imports, and the cells its getters and setters access. *)
Record Instance := mkInstance {
  inst_Code : bytes;
  inst_Exports : gset bytes;
  inst_Signatures : gmap bytes (Z * Z);
  inst_Imports : gset bytes;
  inst_HasMemory : bool;
  inst_Memory : bytes;
  inst_Points : Z;
  inst_GasLimit : Z;
  inst_Breakpoint : Z;
  inst_Cleaned : bool;
}.

Definition set_inst_Code (v : bytes) (r : Instance) : Instance :=
  mkInstance v (inst_Exports r) (inst_Signatures r) (inst_Imports r) (inst_HasMemory r)
    (inst_Memory r) (inst_Points r) (inst_GasLimit r) (inst_Breakpoint r) (inst_Cleaned r).

Definition set_inst_Exports (v : gset bytes) (r : Instance) : Instance :=
  mkInstance (inst_Code r) v (inst_Signatures r) (inst_Imports r) (inst_HasMemory r)
    (inst_Memory r) (inst_Points r) (inst_GasLimit r) (inst_Breakpoint r) (inst_Cleaned r).

Definition set_inst_Signatures (v : gmap bytes (Z * Z)) (r : Instance) : Instance :=
  mkInstance (inst_Code r) (inst_Exports r) v (inst_Imports r) (inst_HasMemory r)
    (inst_Memory r) (inst_Points r) (inst_GasLimit r) (inst_Breakpoint r) (inst_Cleaned r).

Definition set_inst_Imports (v : gset bytes) (r : Instance) : Instance :=
  mkInstance (inst_Code r) (inst_Exports r) (inst_Signatures r) v (inst_HasMemory r)
    (inst_Memory r) (inst_Points r) (inst_GasLimit r) (inst_Breakpoint r) (inst_Cleaned r).

Definition set_inst_HasMemory (v : bool) (r : Instance) : Instance :=
  mkInstance (inst_Code r) (inst_Exports r) (inst_Signatures r) (inst_Imports r) v
    (inst_Memory r) (inst_Points r) (inst_GasLimit r) (inst_Breakpoint r) (inst_Cleaned r).

Definition set_inst_Memory (v : bytes) (r : Instance) : Instance :=
  mkInstance (inst_Code r) (inst_Exports r) (inst_Signatures r) (inst_Imports r)
    (inst_HasMemory r) v (inst_Points r) (inst_GasLimit r) (inst_Breakpoint r) (inst_Cleaned r).

Definition set_inst_Points (v : Z) (r : Instance) : Instance :=
  mkInstance (inst_Code r) (inst_Exports r) (inst_Signatures r) (inst_Imports r)
    (inst_HasMemory r) (inst_Memory r) v (inst_GasLimit r) (inst_Breakpoint r) (inst_Cleaned r).

Definition set_inst_GasLimit (v : Z) (r : Instance) : Instance :=
  mkInstance (inst_Code r) (inst_Exports r) (inst_Signatures r) (inst_Imports r)
    (inst_HasMemory r) (inst_Memory r) (inst_Points r) v (inst_Breakpoint r) (inst_Cleaned r).

Definition set_inst_Breakpoint (v : Z) (r : Instance) : Instance :=
  mkInstance (inst_Code r) (inst_Exports r) (inst_Signatures r) (inst_Imports r)
    (inst_HasMemory r) (inst_Memory r) (inst_Points r) (inst_GasLimit r) v (inst_Cleaned r).

Definition set_inst_Cleaned (v : bool) (r : Instance) : Instance :=
  mkInstance (inst_Code r) (inst_Exports r) (inst_Signatures r) (inst_Imports r)
    (inst_HasMemory r) (inst_Memory r) (inst_Points r) (inst_GasLimit r) (inst_Breakpoint r) v.

Class Externals := {
  (** The state behind the blockchain hook. *)
  World : Type;

  (** [vmcommon.BlockchainHook] *)
  bh_NewAddress : World -> bytes -> Z -> bytes -> bytes * option error;
  bh_GetUserAccount : World -> bytes -> option UserAccount * option error;
  bh_GetCode : World -> UserAccount -> bytes;
  bh_GetStorageData : World -> bytes -> bytes -> bytes * option error;
  bh_GetBlockhash : World -> Z -> bytes * option error;
  bh_GetShardOfAddress : World -> bytes -> Z;
  bh_IsSmartContract : World -> bytes -> bool;
  bh_IsPayable : World -> bytes -> bool * option error;
  bh_SaveCompiledCode : World -> bytes -> bytes -> World;
  bh_GetCompiledCode : World -> bytes -> bool * bytes;
  bh_ProcessBuiltInFunction :
    World -> ContractCallInput -> World * (option VMOutput * option error);
  bh_GetSnapshot : World -> Z;
  bh_RevertToSnapshot : World -> Z -> World * option error;
  bh_GetESDTToken : World -> bytes -> bytes -> Z -> option ESDigitalToken * option error;
  bh_CurrentEpoch : World -> Z;
  bh_CurrentNonce : World -> Z;
  bh_CurrentRound : World -> Z;
  bh_CurrentTimeStamp : World -> Z;
  bh_CurrentRandomSeed : World -> bytes;
  bh_LastEpoch : World -> Z;
  bh_LastNonce : World -> Z;
  bh_LastRound : World -> Z;
  bh_LastTimeStamp : World -> Z;
  bh_LastRandomSeed : World -> bytes;
  bh_GetStateRootHash : World -> bytes;

  (** [vmcommon.BuiltInFunctionContainer]: [Get] succeeds on an active
      function; the keys of the container. *)
  bf_IsActive : bytes -> bool;
  bf_Keys : gset bytes;

  (** constants of [core]: [BuiltInFunctionESDTTransfer],
      [BuiltInFunctionESDTNFTTransfer], [Fungible], [NonFungible],
      [ProtectedKeyPrefix] and [ESDTNFTLatestNonceIdentifier] *)
  core_BuiltInFunctionESDTTransfer : bytes;
  core_BuiltInFunctionESDTNFTTransfer : bytes;
  core_Fungible : Z;
  core_NonFungible : Z;
  core_ProtectedKeyPrefix : bytes;
  core_ESDTNFTLatestNonceIdentifier : bytes;

  (** [encoding/json] on [AsyncContextInfo]; [null] decodes to a nil pointer *)
  json_Marshal : AsyncContextInfo -> bytes * option error;
  json_Unmarshal : bytes -> option AsyncContextInfo * option error;

  (** [EnableEpochsHandler.IsFlagEnabled] *)
  IsFlagEnabled : EnableEpochFlag -> bool;

  (** [vmcommon.CodeMetadataFromBytes] *)
  CodeMetadata_Readable : bytes -> bool;
  CodeMetadata_Upgradeable : bytes -> bool;

  (** [parsers.CallArgsParser.ParseData] *)
  ParseData : bytes -> bytes * list bytes * option error;

  (** [vmcommon.ReturnCode]: its number and its name *)
  ReturnCode_Int64 : ReturnCode -> Z;
  ReturnCode_String : ReturnCode -> bytes;

  (** the file and line [runtime.Caller] reports to an error wrapper *)
  caller_location : bytes;

  (** [crypto.VMCrypto]: wrappers of hashing and signature libraries *)
  crypto_Sha256 : bytes -> bytes * option error;
  crypto_Keccak256 : bytes -> bytes * option error;
  crypto_Ripemd160 : bytes -> bytes * option error;
  crypto_VerifyBLS : bytes -> bytes -> bytes -> option error;
  crypto_VerifyEd25519 : bytes -> bytes -> bytes -> option error;
  crypto_VerifySecp256k1 : bytes -> bytes -> bytes -> option error;

  (** [twos-complement] of mx-components-big-int: [ToBytes] and [SetBytes] *)
  twos_ToBytes : Z -> bytes;
  twos_SetBytes : bytes -> Z;

  (** wasmer: compiling, instantiating from the cache, caching, growing the
      memory of an instance by a number of pages *)
  w_NewInstanceWithOptions : bytes -> CompilationOptions -> Instance * option error;
  w_NewInstanceFromCompiledCodeWithOptions :
    bytes -> CompilationOptions -> Instance * option error;
  w_Cache : Instance -> bytes * option error;
  w_MemoryGrow : Instance -> Z -> bytes * option error;

  (** The order in which [range] visits a map.  Go leaves it unspecified, so it
      is any permutation of the entries. *)
  range : forall {A}, gmap bytes A -> list (bytes * A);
  range_perm : forall {A} (m : gmap bytes A), range m ≡ₚ map_to_list m;
}.

(** ** The contexts *)

(** [bigIntContext]: a handle is an [int32]; every handle owns its [big.Int],
    which [PushState] clones, so the map holds the numbers. *)
Record bigIntContext := mkbigIntContext {
  bi_values : gmap Z Z;
  bi_stateStack : list (gmap Z Z);
}.

Definition set_bi_values (v : gmap Z Z) (r : bigIntContext) : bigIntContext :=
  mkbigIntContext v (bi_stateStack r).

Definition set_bi_stateStack (v : list (gmap Z Z)) (r : bigIntContext) : bigIntContext :=
  mkbigIntContext (bi_values r) v.

(** [blockchainContext]: the stack of snapshots. *)
Record blockchainContext := mkblockchainContext {
  bc_stateStack : list Z;
}.

Definition set_bc_stateStack (v : list Z) (r : blockchainContext) : blockchainContext :=
  mkblockchainContext v.

(** The fields of [meteringContext] that [PushState] saves. *)
Record meteringState := mkmeteringState {
  initialGasProvided : Z;
  initialCost : Z;
  gasForExecution : Z;
  gasUsedByAccounts : gmap bytes Z;
}.

Definition set_initialGasProvided (v : Z) (r : meteringState) : meteringState :=
  mkmeteringState v (initialCost r) (gasForExecution r) (gasUsedByAccounts r).

Definition set_initialCost (v : Z) (r : meteringState) : meteringState :=
  mkmeteringState (initialGasProvided r) v (gasForExecution r) (gasUsedByAccounts r).

Definition set_gasForExecution (v : Z) (r : meteringState) : meteringState :=
  mkmeteringState (initialGasProvided r) (initialCost r) v (gasUsedByAccounts r).

Definition set_gasUsedByAccounts (v : gmap bytes Z) (r : meteringState) : meteringState :=
  mkmeteringState (initialGasProvided r) (initialCost r) (gasForExecution r) v.

Record meteringContext := mkmeteringContext {
  met_state : meteringState;
  met_stateStack : list meteringState;
  gasSchedule : GasCost;
  blockGasLimit : Z;
}.

Definition set_met_state (v : meteringState) (r : meteringContext) : meteringContext :=
  mkmeteringContext v (met_stateStack r) (gasSchedule r) (blockGasLimit r).

Definition set_met_stateStack (v : list meteringState) (r : meteringContext) : meteringContext :=
  mkmeteringContext (met_state r) v (gasSchedule r) (blockGasLimit r).

Definition set_gasSchedule (v : GasCost) (r : meteringContext) : meteringContext :=
  mkmeteringContext (met_state r) (met_stateStack r) v (blockGasLimit r).

Definition set_blockGasLimit (v : Z) (r : meteringContext) : meteringContext :=
  mkmeteringContext (met_state r) (met_stateStack r) (gasSchedule r) v.

Record outputContext := mkoutputContext {
  outputState : VMOutput;
  out_stateStack : list VMOutput;
  codeUpdates : gset bytes;
}.

Definition set_outputState (v : VMOutput) (r : outputContext) : outputContext :=
  mkoutputContext v (out_stateStack r) (codeUpdates r).

Definition set_out_stateStack (v : list VMOutput) (r : outputContext) : outputContext :=
  mkoutputContext (outputState r) v (codeUpdates r).

Definition set_codeUpdates (v : gset bytes) (r : outputContext) : outputContext :=
  mkoutputContext (outputState r) (out_stateStack r) v.

(** The fields of [runtimeContext] that [PushState] saves; [asyncContextInfo]
    is a pointer. *)
Record runtimeState := mkruntimeState {
  vmInput : VMInput;
  scAddress : bytes;
  callFunction : bytes;
  readOnly : bool;
  asyncCallInfo : option AsyncCallInfo;
  asyncContextInfo : nat;
}.

Definition set_vmInput (v : VMInput) (r : runtimeState) : runtimeState :=
  mkruntimeState v (scAddress r) (callFunction r) (readOnly r) (asyncCallInfo r)
    (asyncContextInfo r).

Definition set_scAddress (v : bytes) (r : runtimeState) : runtimeState :=
  mkruntimeState (vmInput r) v (callFunction r) (readOnly r) (asyncCallInfo r)
    (asyncContextInfo r).

Definition set_callFunction (v : bytes) (r : runtimeState) : runtimeState :=
  mkruntimeState (vmInput r) (scAddress r) v (readOnly r) (asyncCallInfo r) (asyncContextInfo r).

Definition set_readOnly (v : bool) (r : runtimeState) : runtimeState :=
  mkruntimeState (vmInput r) (scAddress r) (callFunction r) v (asyncCallInfo r)
    (asyncContextInfo r).

Definition set_asyncCallInfo (v : option AsyncCallInfo) (r : runtimeState) : runtimeState :=
  mkruntimeState (vmInput r) (scAddress r) (callFunction r) (readOnly r) v (asyncContextInfo r).

Definition set_asyncContextInfo (v : nat) (r : runtimeState) : runtimeState :=
  mkruntimeState (vmInput r) (scAddress r) (callFunction r) (readOnly r) (asyncCallInfo r) v.

(** [runtimeContext]; [instance] and the stack hold pointers into the heap of
    instances, [None] is the nil interface. *)
Record runtimeContext := mkruntimeContext {
  rt_state : runtimeState;
  rt_stateStack : list runtimeState;
  instance : option nat;
  instanceStack : list (option nat);
  codeSize : Z;
  vmType : bytes;
  verifyCode : bool;
  maxWasmerInstances : Z;
  reserved : gset bytes;
  useWarmInstance : bool;
  warmInstanceAddress : option bytes;
  warmInstance : option nat;
  rt_errors : option Wrappable.wrappableError;
}.

Definition set_rt_state (v : runtimeState) (r : runtimeContext) : runtimeContext :=
  mkruntimeContext v (rt_stateStack r) (instance r) (instanceStack r) (codeSize r) (vmType r)
    (verifyCode r) (maxWasmerInstances r) (reserved r) (useWarmInstance r)
    (warmInstanceAddress r) (warmInstance r) (rt_errors r).

Definition set_rt_stateStack (v : list runtimeState) (r : runtimeContext) : runtimeContext :=
  mkruntimeContext (rt_state r) v (instance r) (instanceStack r) (codeSize r) (vmType r)
    (verifyCode r) (maxWasmerInstances r) (reserved r) (useWarmInstance r)
    (warmInstanceAddress r) (warmInstance r) (rt_errors r).

Definition set_instance (v : option nat) (r : runtimeContext) : runtimeContext :=
  mkruntimeContext (rt_state r) (rt_stateStack r) v (instanceStack r) (codeSize r) (vmType r)
    (verifyCode r) (maxWasmerInstances r) (reserved r) (useWarmInstance r)
    (warmInstanceAddress r) (warmInstance r) (rt_errors r).

Definition set_instanceStack (v : list (option nat)) (r : runtimeContext) : runtimeContext :=
  mkruntimeContext (rt_state r) (rt_stateStack r) (instance r) v (codeSize r) (vmType r)
    (verifyCode r) (maxWasmerInstances r) (reserved r) (useWarmInstance r)
    (warmInstanceAddress r) (warmInstance r) (rt_errors r).

Definition set_codeSize (v : Z) (r : runtimeContext) : runtimeContext :=
  mkruntimeContext (rt_state r) (rt_stateStack r) (instance r) (instanceStack r) v (vmType r)
    (verifyCode r) (maxWasmerInstances r) (reserved r) (useWarmInstance r)
    (warmInstanceAddress r) (warmInstance r) (rt_errors r).

Definition set_vmType (v : bytes) (r : runtimeContext) : runtimeContext :=
  mkruntimeContext (rt_state r) (rt_stateStack r) (instance r) (instanceStack r) (codeSize r) v
    (verifyCode r) (maxWasmerInstances r) (reserved r) (useWarmInstance r)
    (warmInstanceAddress r) (warmInstance r) (rt_errors r).

Definition set_verifyCode (v : bool) (r : runtimeContext) : runtimeContext :=
  mkruntimeContext (rt_state r) (rt_stateStack r) (instance r) (instanceStack r) (codeSize r)
    (vmType r) v (maxWasmerInstances r) (reserved r) (useWarmInstance r) (warmInstanceAddress r)
    (warmInstance r) (rt_errors r).

Definition set_maxWasmerInstances (v : Z) (r : runtimeContext) : runtimeContext :=
  mkruntimeContext (rt_state r) (rt_stateStack r) (instance r) (instanceStack r) (codeSize r)
    (vmType r) (verifyCode r) v (reserved r) (useWarmInstance r) (warmInstanceAddress r)
    (warmInstance r) (rt_errors r).

Definition set_reserved (v : gset bytes) (r : runtimeContext) : runtimeContext :=
  mkruntimeContext (rt_state r) (rt_stateStack r) (instance r) (instanceStack r) (codeSize r)
    (vmType r) (verifyCode r) (maxWasmerInstances r) v (useWarmInstance r)
    (warmInstanceAddress r) (warmInstance r) (rt_errors r).

Definition set_useWarmInstance (v : bool) (r : runtimeContext) : runtimeContext :=
  mkruntimeContext (rt_state r) (rt_stateStack r) (instance r) (instanceStack r) (codeSize r)
    (vmType r) (verifyCode r) (maxWasmerInstances r) (reserved r) v (warmInstanceAddress r)
    (warmInstance r) (rt_errors r).

Definition set_warmInstanceAddress (v : option bytes) (r : runtimeContext) : runtimeContext :=
  mkruntimeContext (rt_state r) (rt_stateStack r) (instance r) (instanceStack r) (codeSize r)
    (vmType r) (verifyCode r) (maxWasmerInstances r) (reserved r) (useWarmInstance r) v
    (warmInstance r) (rt_errors r).

Definition set_warmInstance (v : option nat) (r : runtimeContext) : runtimeContext :=
  mkruntimeContext (rt_state r) (rt_stateStack r) (instance r) (instanceStack r) (codeSize r)
    (vmType r) (verifyCode r) (maxWasmerInstances r) (reserved r) (useWarmInstance r)
    (warmInstanceAddress r) v (rt_errors r).

Definition set_rt_errors (v : option Wrappable.wrappableError) (r : runtimeContext) : runtimeContext :=
  mkruntimeContext (rt_state r) (rt_stateStack r) (instance r) (instanceStack r) (codeSize r)
    (vmType r) (verifyCode r) (maxWasmerInstances r) (reserved r) (useWarmInstance r)
    (warmInstanceAddress r) (warmInstance r) v.

Record storageContext := mkstorageContext {
  sto_address : bytes;
  sto_stateStack : list bytes;
  protectedKeyPrefix : bytes;
  vmStorageProtectionEnabled : bool;
}.

Definition set_sto_address (v : bytes) (r : storageContext) : storageContext :=
  mkstorageContext v (sto_stateStack r) (protectedKeyPrefix r) (vmStorageProtectionEnabled r).

Definition set_sto_stateStack (v : list bytes) (r : storageContext) : storageContext :=
  mkstorageContext (sto_address r) v (protectedKeyPrefix r) (vmStorageProtectionEnabled r).

Definition set_protectedKeyPrefix (v : bytes) (r : storageContext) : storageContext :=
  mkstorageContext (sto_address r) (sto_stateStack r) v (vmStorageProtectionEnabled r).

Definition set_vmStorageProtectionEnabled (v : bool) (r : storageContext) : storageContext :=
  mkstorageContext (sto_address r) (sto_stateStack r) (protectedKeyPrefix r) v.

(** ** The host *)

Section Host.
Context `{Ext : Externals}.

Record HostState := mkHostState {
  st_bigInt : bigIntContext;
  st_blockchain : blockchainContext;
  st_metering : meteringContext;
  st_output : outputContext;
  st_runtime : runtimeContext;
  st_storage : storageContext;
  st_instances : gmap nat Instance;
  st_asyncInfos : gmap nat AsyncContextInfo;
  st_next : nat;
  st_world : World;
}.

Definition set_st_bigInt (v : bigIntContext) (r : HostState) : HostState :=
  mkHostState v (st_blockchain r) (st_metering r) (st_output r) (st_runtime r) (st_storage r)
    (st_instances r) (st_asyncInfos r) (st_next r) (st_world r).

Definition set_st_blockchain (v : blockchainContext) (r : HostState) : HostState :=
  mkHostState (st_bigInt r) v (st_metering r) (st_output r) (st_runtime r) (st_storage r)
    (st_instances r) (st_asyncInfos r) (st_next r) (st_world r).

Definition set_st_metering (v : meteringContext) (r : HostState) : HostState :=
  mkHostState (st_bigInt r) (st_blockchain r) v (st_output r) (st_runtime r) (st_storage r)
    (st_instances r) (st_asyncInfos r) (st_next r) (st_world r).

Definition set_st_output (v : outputContext) (r : HostState) : HostState :=
  mkHostState (st_bigInt r) (st_blockchain r) (st_metering r) v (st_runtime r) (st_storage r)
    (st_instances r) (st_asyncInfos r) (st_next r) (st_world r).

Definition set_st_runtime (v : runtimeContext) (r : HostState) : HostState :=
  mkHostState (st_bigInt r) (st_blockchain r) (st_metering r) (st_output r) v (st_storage r)
    (st_instances r) (st_asyncInfos r) (st_next r) (st_world r).

Definition set_st_storage (v : storageContext) (r : HostState) : HostState :=
  mkHostState (st_bigInt r) (st_blockchain r) (st_metering r) (st_output r) (st_runtime r) v
    (st_instances r) (st_asyncInfos r) (st_next r) (st_world r).

Definition set_st_instances (v : gmap nat Instance) (r : HostState) : HostState :=
  mkHostState (st_bigInt r) (st_blockchain r) (st_metering r) (st_output r) (st_runtime r)
    (st_storage r) v (st_asyncInfos r) (st_next r) (st_world r).

Definition set_st_asyncInfos (v : gmap nat AsyncContextInfo) (r : HostState) : HostState :=
  mkHostState (st_bigInt r) (st_blockchain r) (st_metering r) (st_output r) (st_runtime r)
    (st_storage r) (st_instances r) v (st_next r) (st_world r).

Definition set_st_next (v : nat) (r : HostState) : HostState :=
  mkHostState (st_bigInt r) (st_blockchain r) (st_metering r) (st_output r) (st_runtime r)
    (st_storage r) (st_instances r) (st_asyncInfos r) v (st_world r).

Definition set_st_world (v : World) (r : HostState) : HostState :=
  mkHostState (st_bigInt r) (st_blockchain r) (st_metering r) (st_output r) (st_runtime r)
    (st_storage r) (st_instances r) (st_asyncInfos r) (st_next r) v.

End Host.

(** ** The monad *)

(** A Go function returns, panics, or - in the fuelled executions of
    [Execution] - exhausts the fuel of the model. *)
Inductive outcome (A : Type) :=
| Ret (a : A)
| Panic
| OutOfFuel.
Arguments Ret {A} a.
Arguments Panic {A}.
Arguments OutOfFuel {A}.

Definition M `{Externals} (A : Type) : Type := HostState -> HostState * outcome A.

#[export] Instance M_ret `{Externals} : MRet M := fun A a st => (st, Ret a).

#[export] Instance M_bind `{Externals} : MBind M := fun A B f m st =>
  match m st with
  | (st', Ret a) => f a st'
  | (st', Panic) => (st', Panic)
  | (st', OutOfFuel) => (st', OutOfFuel)
  end.

Section Monad.
Context `{Ext : Externals}.

Definition panic {A} : M A := fun st => (st, Panic).
Definition out_of_fuel {A} : M A := fun st => (st, OutOfFuel).
Definition gets {A} (f : HostState -> A) : M A := fun st => (st, Ret (f st)).
Definition modify (f : HostState -> HostState) : M unit := fun st => (f st, Ret tt).

(** A value that must be there: a nil pointer or a missing map entry that the
    code dereferences panics. *)
Definition deref {A} (o : option A) : M A :=
  match o with Some a => mret a | None => panic end.

(** [defer]: the deferred call runs when the body returns, with its results,
    which it may replace, and also when it panics (the named results are then
    still unset), after which the panic goes on. *)
Definition with_defer {A B} (body : M A) (deferred : option A -> M B) : M B := fun st =>
  match body st with
  | (st', Ret a) => deferred (Some a) st'
  | (st', Panic) =>
      match deferred None st' with
      | (st'', OutOfFuel) => (st'', OutOfFuel)
      | (st'', _) => (st'', Panic)
      end
  | (st', OutOfFuel) => (st', OutOfFuel)
  end.

Fixpoint for_each {A} (l : list A) (f : A -> M unit) : M unit :=
  match l with
  | [] => mret tt
  | x :: l' => f x ;; for_each l' f
  end.

(** A loop that stops at the first error. *)
Fixpoint for_each_err {A} (l : list A) (f : A -> M (option error)) : M (option error) :=
  match l with
  | [] => mret None
  | x :: l' => e ← f x; match e with Some e => mret (Some e) | None => for_each_err l' f end
  end.

Definition modify_bigInt (f : bigIntContext -> bigIntContext) : M unit :=
  modify (fun st => set_st_bigInt (f (st_bigInt st)) st).
Definition modify_blockchain (f : blockchainContext -> blockchainContext) : M unit :=
  modify (fun st => set_st_blockchain (f (st_blockchain st)) st).
Definition modify_metering (f : meteringContext -> meteringContext) : M unit :=
  modify (fun st => set_st_metering (f (st_metering st)) st).
Definition modify_output (f : outputContext -> outputContext) : M unit :=
  modify (fun st => set_st_output (f (st_output st)) st).
Definition modify_runtime (f : runtimeContext -> runtimeContext) : M unit :=
  modify (fun st => set_st_runtime (f (st_runtime st)) st).
Definition modify_storage (f : storageContext -> storageContext) : M unit :=
  modify (fun st => set_st_storage (f (st_storage st)) st).
Definition modify_world (f : World -> World) : M unit :=
  modify (fun st => set_st_world (f (st_world st)) st).

(** The feature tests of [src/vmhost/hostCore/host.go]. *)
Definition IsVMV2Enabled : bool := IsFlagEnabled SCDeployFlag.
Definition IsVMV3Enabled : bool := IsFlagEnabled RepairCallbackFlag.
Definition IsAheadOfTimeCompileEnabled : bool := IsFlagEnabled AheadOfTimeGasUsageFlag.
Definition IsDynamicGasLockingEnabled : bool := IsFlagEnabled SCDeployFlag.
Definition IsESDTFunctionsEnabled : bool := IsFlagEnabled BuiltInFunctionsFlag.

End Monad.
