(* ===== verification/Logic.v ===== *)
(** Reasoning about the monad: total-correctness weakest preconditions, the
    class of computations that respect a preorder on states, and the interface
    of the contexts' state stacks.

    [wp m Q st] says that [m] run in [st] returns - no panic, no exhausted
    fuel - with a result and a state that satisfy [Q].  [Keeps R m] says that
    every run of [m], whatever its outcome, relates its initial and final state
    by [R]; the instances let type-class resolution derive it for a composed
    operation. *)
From S2P Require Import Prelude Errors Types State.

Section Wp.
Context `{Ext : Externals}.

Definition wp {A} (m : M A) (Q : A -> HostState -> Prop) (st : HostState) : Prop :=
  exists a st', m st = (st', Ret a) /\ Q a st'.

Lemma wp_ret {A} (a : A) Q st : Q a st -> wp (mret a) Q st.
Proof. intros H. by exists a, st. Qed.

Lemma wp_bind {A B} (m : M A) (f : A -> M B) Q st :
  wp m (fun a st' => wp (f a) Q st') st -> wp (m ≫= f) Q st.
Proof.
  intros (a & st' & Hm & b & st'' & Hf & HQ). exists b, st''. split; [|done].
  cbv [mbind M_bind]. by rewrite Hm.
Qed.

Lemma wp_gets {A} (f : HostState -> A) Q st : Q (f st) st -> wp (gets f) Q st.
Proof. intros H. by exists (f st), st. Qed.

Lemma wp_modify f Q st : Q tt (f st) -> wp (modify f) Q st.
Proof. intros H. by exists tt, (f st). Qed.

Lemma wp_deref {A} (o : option A) a Q st : o = Some a -> Q a st -> wp (deref o) Q st.
Proof. intros -> H. by exists a, st. Qed.

Lemma wp_mono {A} (m : M A) (P Q : A -> HostState -> Prop) st :
  wp m P st -> (forall a st', P a st' -> Q a st') -> wp m Q st.
Proof. intros (a & st' & Hm & HP) HPQ. exists a, st'. auto. Qed.

(** What a [wp] says about the run of the computation. *)
Lemma wp_run {A} (m : M A) Q st st' a :
  wp m Q st -> m st = (st', Ret a) -> Q a st'.
Proof. intros (b & st'' & Hm & HQ). rewrite Hm. by intros [= -> ->]. Qed.

Lemma bind_run {A B} (m : M A) (f : A -> M B) st st' a :
  m st = (st', Ret a) -> (m ≫= f) st = f a st'.
Proof. intros Hm. cbv [mbind M_bind]. by rewrite Hm. Qed.

(** Running the first two computations of a sequence. *)
Lemma bind_assoc_run {A B C} (m : M A) (f : A -> M B) (g : B -> M C) st st' b :
  (m ≫= f) st = (st', Ret b) -> (m ≫= fun a => f a ≫= g) st = g b st'.
Proof. cbv [mbind M_bind]. destruct (m st) as [st1 [a| |]]; try done. by intros ->. Qed.

(** ** Computations that cannot exhaust fuel *)

Class NoFuel {A} (m : M A) : Prop := no_fuel : forall st, (m st).2 <> OutOfFuel.

#[export] Instance nofuel_ret {A} (a : A) : NoFuel (mret (M := M) a).
Proof. done. Qed.

#[export] Instance nofuel_bind {A B} (m : M A) (f : A -> M B) :
  NoFuel m -> (forall a, NoFuel (f a)) -> NoFuel (m ≫= f).
Proof.
  intros Hm Hf st. cbv [mbind M_bind]. specialize (Hm st).
  destruct (m st) as [st' [a| |]]; cbn in *; [apply Hf | done..].
Qed.

#[export] Instance nofuel_gets {A} (f : HostState -> A) : NoFuel (gets f).
Proof. done. Qed.

#[export] Instance nofuel_modify f : NoFuel (modify f).
Proof. done. Qed.

#[export] Instance nofuel_panic {A} : NoFuel (panic (A := A)).
Proof. done. Qed.

#[export] Instance nofuel_deref {A} (o : option A) : NoFuel (deref o).
Proof. by destruct o. Qed.

#[export] Instance nofuel_with_defer {A B} (body : M A) (d : option A -> M B) :
  NoFuel body -> (forall a, NoFuel (d a)) -> NoFuel (with_defer body d).
Proof.
  intros Hb Hd st. unfold with_defer. specialize (Hb st).
  destruct (body st) as [st' [a| |]]; cbn in *; [apply Hd | | done].
  specialize (Hd None st'). by destruct (d None st') as [st'' []].
Qed.

#[export] Instance nofuel_for_each {A} (l : list A) (f : A -> M unit) :
  (forall a, NoFuel (f a)) -> NoFuel (for_each l f).
Proof. intros Hf. induction l; cbn; apply _. Qed.

#[export] Instance nofuel_for_each_err {A} (l : list A) (f : A -> M (option error)) :
  (forall a, NoFuel (f a)) -> NoFuel (for_each_err l f).
Proof.
  intros Hf. induction l as [|a l IH]; cbn; [apply _|].
  apply nofuel_bind; [done|]. intros [e|]; apply _.
Qed.

Lemma bind_Ret_inv {A B} (m : M A) (f : A -> M B) st st'' b :
  (m ≫= f) st = (st'', Ret b) ->
  exists a st', m st = (st', Ret a) /\ f a st' = (st'', Ret b).
Proof. cbv [mbind M_bind]. destruct (m st) as [st' []]; try done. eauto. Qed.

(** ** Computations that respect a preorder *)

Class Keeps (R : relation HostState) {A} (m : M A) : Prop :=
  keeps : forall st, R st (fst (m st)).

Context (R : relation HostState) `{!PreOrder R}.

#[export] Instance keeps_ret {A} (a : A) : Keeps R (mret (M := M) a).
Proof. intros st. cbn. reflexivity. Qed.

#[export] Instance keeps_bind {A B} (m : M A) (f : A -> M B) :
  Keeps R m -> (forall a, Keeps R (f a)) -> Keeps R (m ≫= f).
Proof.
  intros Hm Hf st. cbv [mbind M_bind]. specialize (Hm st).
  destruct (m st) as [st' [a| |]]; cbn in *; [|done..].
  etransitivity; [exact Hm | apply Hf].
Qed.

#[export] Instance keeps_gets {A} (f : HostState -> A) : Keeps R (gets f).
Proof. intros st. cbn. reflexivity. Qed.

#[export] Instance keeps_panic {A} : Keeps R (panic (A := A)).
Proof. intros st. cbn. reflexivity. Qed.

#[export] Instance keeps_out_of_fuel {A} : Keeps R (out_of_fuel (A := A)).
Proof. intros st. cbn. reflexivity. Qed.

#[export] Instance keeps_deref {A} (o : option A) : Keeps R (deref o).
Proof. destruct o; apply _. Qed.

#[export] Instance keeps_with_defer {A B} (body : M A) (d : option A -> M B) :
  Keeps R body -> (forall a, Keeps R (d a)) -> Keeps R (with_defer body d).
Proof.
  intros Hb Hd st. unfold with_defer. specialize (Hb st).
  destruct (body st) as [st' [a| |]]; cbn in *.
  - etransitivity; [exact Hb | apply Hd].
  - specialize (Hd None st'). destruct (d None st') as [st'' []]; cbn in *;
      by etransitivity.
  - done.
Qed.

#[export] Instance keeps_if {A} (b : bool) (m n : M A) :
  Keeps R m -> Keeps R n -> Keeps R (if b then m else n).
Proof. by destruct b. Qed.

#[export] Instance keeps_option {A B} (o : option A) (f : A -> M B) (n : M B) :
  (forall a, Keeps R (f a)) -> Keeps R n ->
  Keeps R (match o with Some a => f a | None => n end).
Proof. destruct o; auto. Qed.

#[export] Instance keeps_for_each {A} (l : list A) (f : A -> M unit) :
  (forall a, Keeps R (f a)) -> Keeps R (for_each l f).
Proof. intros Hf. induction l; cbn; apply _. Qed.

#[export] Instance keeps_for_each_err {A} (l : list A) (f : A -> M (option error)) :
  (forall a, Keeps R (f a)) -> Keeps R (for_each_err l f).
Proof. intros Hf. induction l; cbn; apply _. Qed.

Lemma keeps_modify f : (forall st, R st (f st)) -> Keeps R (modify f).
Proof. intros H st. cbn. apply H. Qed.

End Wp.

(** Agreement of two states on a part of them is the preorder used most. *)
Definition same `{Externals} {A} (part : HostState -> A) : relation HostState :=
  fun st st' => part st' = part st.

#[export] Instance same_preorder `{Externals} {A} (part : HostState -> A) :
  PreOrder (same part).
Proof. split; [done|]. intros x y z Hxy Hyz. unfold same in *. congruence. Qed.

(** Symbolic execution of a monadic operation under [wp]. *)
Ltac wp_step :=
  lazymatch goal with
  | |- wp (mbind _ _) _ _ => apply wp_bind
  | |- wp (mret _) _ _ => apply wp_ret
  | |- wp (gets _) _ _ => apply wp_gets
  | |- wp (modify _) _ _ => apply wp_modify
  | |- wp (deref (Some _)) _ _ => apply (wp_deref _ _ _ _ eq_refl)
  end.

(** ** State stacks

    [vmhost.StateStack] of [src/vmhost/interface.go]: what the host relies on
    when it saves and restores the contexts around a nested call.  [view] is the
    stack, [saved] what [PushState] would store now, and [holds] says that the
    context's active part is the given stored one. *)
Class StateStack `{Externals} (S : Type) := {
  PushState : M unit;
  PopSetActiveState : M unit;
  PopDiscard : M unit;
  view : HostState -> list S;
  saved : HostState -> S;
  holds : HostState -> S -> Prop;
  PushState_spec st :
    exists st', PushState st = (st', Ret tt) /\ view st' = view st ++ [saved st];
  PopSetActiveState_spec st l x :
    view st = l ++ [x] ->
    exists st', PopSetActiveState st = (st', Ret tt) /\ view st' = l /\ holds st' x;
  PopSetActiveState_nil st : view st = [] -> PopSetActiveState st = (st, Ret tt);
  PopDiscard_spec st l x :
    view st = l ++ [x] ->
    exists st', PopDiscard st = (st', Ret tt) /\ view st' = l;
  PopDiscard_nil st : view st = [] -> PopDiscard st = (st, Ret tt);
}.

(** A computation run between a push and a pop that leaves the stack as it found
    it: afterwards the stack is back and the saved part is active again. *)
Lemma push_run_pop `{Externals} {S A} `{!StateStack S} (m : M A) st st1 st2 a :
  PushState (S := S) st = (st1, Ret tt) ->
  m st1 = (st2, Ret a) ->
  view (S := S) st2 = view st1 ->
  exists st3, PopSetActiveState st2 = (st3, Ret tt) /\
              view st3 = view (S := S) st /\ holds st3 (saved (S := S) st).
Proof.
  intros Hpush Hm Hview.
  destruct (PushState_spec (S := S) st) as (st1' & Hpush' & Hv1).
  rewrite Hpush in Hpush'. injection Hpush' as <-. rewrite Hv1 in Hview.
  apply (PopSetActiveState_spec (S := S) st2 _ _ Hview).
Qed.

(** A state update keeps a part of the state when the part does not depend on
    what is updated: decided by computation. *)
Ltac keep_modify :=
  apply keeps_modify; intros ?;
  first [reflexivity | unfold same; cbn; repeat case_match; reflexivity].

#[export] Hint Extern 2 (Keeps (same _) (modify _)) => keep_modify : typeclass_instances.
#[export] Hint Extern 2 (Keeps (same _) (modify_bigInt _)) => keep_modify : typeclass_instances.
#[export] Hint Extern 2 (Keeps (same _) (modify_blockchain _)) => keep_modify : typeclass_instances.
#[export] Hint Extern 2 (Keeps (same _) (modify_metering _)) => keep_modify : typeclass_instances.
#[export] Hint Extern 2 (Keeps (same _) (modify_output _)) => keep_modify : typeclass_instances.
#[export] Hint Extern 2 (Keeps (same _) (modify_runtime _)) => keep_modify : typeclass_instances.
#[export] Hint Extern 2 (Keeps (same _) (modify_storage _)) => keep_modify : typeclass_instances.
#[export] Hint Extern 2 (Keeps (same _) (modify_world _)) => keep_modify : typeclass_instances.

(** Derives [Keeps R m] for a composed operation: case analysis on the pairs,
    options and booleans it branches on, instances for the rest. *)
Ltac keeps_step :=
  first
    [ apply _
    | lazymatch goal with
      | |- Keeps _ (mbind _ _) => apply keeps_bind; [| |intros ?]
      | |- Keeps _ (with_defer _ _) => apply keeps_with_defer; [| |intros ?]
      | |- Keeps _ (for_each _ _) => apply keeps_for_each; [|intros ?]
      | |- Keeps _ (for_each_err _ _) => apply keeps_for_each_err; [|intros ?]
      | |- Keeps _ (match ?x with _ => _ end) => destruct x
      | |- Keeps _ (let _ := _ in _) => cbv zeta
      end ].
Ltac keeps_auto := repeat keeps_step.

(** Derives [NoFuel m] the same way. *)
Ltac nofuel_step :=
  first
    [ apply _
    | lazymatch goal with
      | |- NoFuel (mbind _ _) => apply nofuel_bind; [|intros ?]
      | |- NoFuel (with_defer _ _) => apply nofuel_with_defer; [|intros ?]
      | |- NoFuel (for_each _ _) => apply nofuel_for_each; intros ?
      | |- NoFuel (for_each_err _ _) => apply nofuel_for_each_err; intros ?
      | |- NoFuel (match ?x with _ => _ end) => destruct x
      | |- NoFuel (let _ := _ in _) => cbv zeta
      end ].
Ltac nofuel_auto := repeat nofuel_step.
