(* ===== verification/Toy.v ===== *)
(** A concrete, computable instance of the code outside the repository, for the
    witnesses: an account map with a journal of its past values behind the
    blockchain hook, and instances that export [init], [callBack] and [main] and
    have 32 bytes of memory. *)
From S2P Require Import Prelude Errors Types State.

#[local] Open Scope Z_scope.

Record toyAccount := mktoyAccount {
  toy_account : UserAccount;
  toy_code : bytes;
  toy_storage : gmap bytes bytes;
}.

(** The journal, newest first; it is never empty in the states used. *)
Abbreviation toyWorld := (list (gmap bytes toyAccount)).

Definition toy_now (w : toyWorld) : gmap bytes toyAccount := default ∅ (head w).

Definition toy_instance (code : bytes) (gasLimit : Z) : Instance :=
  {| inst_Code := code;
     inst_Exports := {[ InitFunctionName; CallbackFunctionName; bs "main" ]};
     inst_Signatures := {[ InitFunctionName := (0, 0); CallbackFunctionName := (0, 0);
                           bs "main" := (0, 0) ]};
     inst_Imports := {[ bs "getCaller" ]};
     inst_HasMemory := true;
     inst_Memory := replicate 32 Byte.x00;
     inst_Points := 0;
     inst_GasLimit := gasLimit;
     inst_Breakpoint := 0;
     inst_Cleaned := false |}.

Definition toy_new (code : bytes) (o : CompilationOptions) : Instance * option error :=
  (toy_instance code (opt_GasLimit o),
   if bool_decide (code = []) then Some (ErrNew (bs "invalid bytecode")) else None).

(** Nonces are unsigned. *)
Definition toy_find (w : toyWorld) (a : bytes) : option UserAccount :=
  account ← toy_now w !! a;
  if 0 <=? acc_GetNonce (toy_account account) then Some (toy_account account) else None.

Definition toy_vmOutput (gas : Z) : VMOutput :=
  mkVMOutput [] Ok [] gas (Some 0) ∅ [] [] [].

(** Two's complement on enough bytes: the low [n] digits of [z] in base 256. *)
Fixpoint toy_digits (n : nat) (z : Z) (acc : bytes) : bytes :=
  match n with
  | O => acc
  | S n' => toy_digits n' (z / 256) (byte_of_Z z :: acc)
  end.

Definition toy_twos_ToBytes (z : Z) : bytes :=
  toy_digits (Z.to_nat (Z.log2 (Z.abs z) / 8 + 2)) z [].

Definition toy_twos_SetBytes (b : bytes) : Z :=
  let z := SetBytes b in
  if 256 ^ len b <=? 2 * z then z - 256 ^ len b else z.

(** The built-in functions and the JSON decoder are parameters; [toy] has a
    function that does nothing and a decoder that yields no calls. *)
Definition toy_with
    (builtin : toyWorld -> ContractCallInput -> toyWorld * (option VMOutput * option error))
    (unmarshal : bytes -> option AsyncContextInfo * option error) :
    Externals := {|
  World := toyWorld;
  bh_NewAddress := fun w creator nonce vmType => (creator ++ Bytes (nonce + 1), None);
  bh_GetUserAccount := fun w a => (toy_find w a, None);
  bh_GetCode := fun w acc => acc_GetCodeHash acc;
  bh_GetStorageData := fun w a k =>
    (default [] (toy_now w !! a ≫= fun acc => toy_storage acc !! k), None);
  bh_GetBlockhash := fun w n => ([], None);
  bh_GetShardOfAddress := fun w a => 0;
  bh_IsSmartContract := fun w a => HasPrefix a (bs "sc");
  bh_IsPayable := fun w a => (true, None);
  bh_SaveCompiledCode := fun w h c => w;
  bh_GetCompiledCode := fun w h => (false, []);
  bh_ProcessBuiltInFunction := builtin;
  bh_GetSnapshot := fun w => len w;
  bh_RevertToSnapshot := fun w n => (drop (length w - Z.to_nat n) w, None);
  bh_GetESDTToken := fun w a t n => (Some (mkESDigitalToken 0 (Some 5) [] None), None);
  bh_CurrentEpoch := fun w => 3;
  bh_CurrentNonce := fun w => 100;
  bh_CurrentRound := fun w => 200;
  bh_CurrentTimeStamp := fun w => 1000;
  bh_CurrentRandomSeed := fun w => bs "seed";
  bh_LastEpoch := fun w => 3;
  bh_LastNonce := fun w => 99;
  bh_LastRound := fun w => 199;
  bh_LastTimeStamp := fun w => 994;
  bh_LastRandomSeed := fun w => bs "last seed";
  bh_GetStateRootHash := fun w => bs "root";
  bf_IsActive := fun f => bytes_eqb f (bs "ESDTTransfer");
  bf_Keys := {[ bs "ESDTTransfer" ]};
  core_BuiltInFunctionESDTTransfer := bs "ESDTTransfer";
  core_BuiltInFunctionESDTNFTTransfer := bs "ESDTNFTTransfer";
  core_Fungible := 0;
  core_NonFungible := 1;
  core_ProtectedKeyPrefix := bs "ELROND";
  core_ESDTNFTLatestNonceIdentifier := bs "esdtnonce";
  json_Marshal := fun info => (aci_CallerAddr info, None);
  json_Unmarshal := unmarshal;
  IsFlagEnabled := fun _ => true;
  CodeMetadata_Readable := fun m => bytes_eqb m (bs "r");
  CodeMetadata_Upgradeable := fun m => bytes_eqb m (bs "u");
  ParseData := fun d => (d, [], if bool_decide (d = []) then Some (ErrNew (bs "empty")) else None);
  ReturnCode_Int64 := fun c => match c with Ok => 0 | OtherReturnCode n => n | _ => 4 end;
  ReturnCode_String := fun c => match c with Ok => bs "ok" | _ => bs "failed" end;
  caller_location := bs "file:1";
  crypto_Sha256 := fun c => (take 32 c, None);
  crypto_Keccak256 := fun c => (take 32 c, None);
  crypto_Ripemd160 := fun c => (take 20 c, None);
  crypto_VerifyBLS := fun k m s => None;
  crypto_VerifyEd25519 := fun k m s => None;
  crypto_VerifySecp256k1 := fun k m s => None;
  twos_ToBytes := toy_twos_ToBytes;
  twos_SetBytes := toy_twos_SetBytes;
  w_NewInstanceWithOptions := toy_new;
  w_NewInstanceFromCompiledCodeWithOptions := toy_new;
  w_Cache := fun i => (inst_Code i, None);
  w_MemoryGrow := fun i n =>
    if len (inst_Memory i) <? 1024
    then (inst_Memory i ++ replicate (Z.to_nat (8 * n)) Byte.x00, None)
    else ([], Some (ErrNew (bs "cannot grow")));
  range := fun A m => map_to_list m;
  range_perm := fun A m => reflexivity _;
|}.

Definition toy_builtin (w : toyWorld) (i : ContractCallInput) :
    toyWorld * (option VMOutput * option error) :=
  (w, (Some (toy_vmOutput (GasProvided (call_VMInput i))), None)).

Definition toy_unmarshal (b : bytes) : option AsyncContextInfo * option error :=
  (Some (mkAsyncContextInfo b [] ∅), None).

Definition toy : Externals := toy_with toy_builtin toy_unmarshal.

(** A host with [caller] as the current contract, running instance number 1. *)
Definition toy_state (w : toyWorld) (gas : Z) : @HostState toy :=
  @mkHostState toy
    (mkbigIntContext ∅ [])
    (mkblockchainContext [])
    (mkmeteringContext (mkmeteringState gas 0 gas ∅) [] (const_GasCost 1) 1000000)
    (mkoutputContext (mkVMOutput [] Ok [] 0 (Some 0) ∅ [] [] []) [] ∅)
    (mkruntimeContext
       (mkruntimeState (set_GasProvided gas zeroVMInput) (bs "sc1") (bs "main") false None 0)
       [] (Some 1%nat) [] 0 (bs "vm") false 10 ∅ false None None None)
    (mkstorageContext (bs "sc1") [] (bs "ELROND") true)
    {[ 1%nat := toy_instance (bs "code") gas ]}
    {[ 0%nat := mkAsyncContextInfo [] [] ∅ ]}
    2 w.

(** [Externals] is a class, but [toy] is not an instance: witnesses name it. *)
