(* ===== verification/BigInt.v ===== *)
(** The big-integer context: [src/vmhost/contexts/bigint.go]. *)
From S2P Require Import Prelude Types State Logic.

#[local] Open Scope Z_scope.

Module BigInt.

Definition InitState (c : bigIntContext) : bigIntContext := set_bi_values ∅ c.

(** [clone] copies every [big.Int]: the same numbers. *)
Definition clone (c : bigIntContext) : gmap Z Z := bi_values c.

Definition PushState (c : bigIntContext) : bigIntContext :=
  set_bi_stateStack (bi_stateStack c ++ [clone c]) c.

Definition PopSetActiveState (c : bigIntContext) : bigIntContext :=
  match pop (bi_stateStack c) with
  | None => c
  | Some (prevValues, rest) => set_bi_values prevValues (set_bi_stateStack rest c)
  end.

Definition PopDiscard (c : bigIntContext) : bigIntContext :=
  match pop (bi_stateStack c) with
  | None => c
  | Some (_, rest) => set_bi_stateStack rest c
  end.

Definition ClearStateStack (c : bigIntContext) : bigIntContext := set_bi_stateStack [] c.

(** The search of [Put]: the first free handle from [h] on, counting in
    [int32].  [fuel] bounds the number of handles tried; [None] means the
    bound was reached. *)
Fixpoint Put_loop (fuel : nat) (values : gmap Z Z) (h : Z) : option Z :=
  match fuel with
  | O => None
  | S fuel' =>
      match values !! h with
      | None => Some h
      | Some _ => Put_loop fuel' values (s32 (h + 1))
      end
  end.

(** One more try than there are values is enough while the map is smaller
    than the handle space ([Put_total]). *)
Definition Put (value : Z) (c : bigIntContext) : option (Z * bigIntContext) :=
  let newHandle := s32 (Z.of_nat (size (bi_values c))) in
  match Put_loop (S (size (bi_values c))) (bi_values c) newHandle with
  | None => None
  | Some h => Some (h, set_bi_values (<[h := value]> (bi_values c)) c)
  end.

Definition GetOne (handle : Z) (c : bigIntContext) : Z * bigIntContext :=
  match bi_values c !! handle with
  | Some v => (v, c)
  | None => (0, set_bi_values (<[handle := 0]> (bi_values c)) c)
  end.

(** Go evaluates the calls from left to right. *)
Definition GetTwo (handle1 handle2 : Z) (c : bigIntContext) : Z * Z * bigIntContext :=
  let (a, c1) := GetOne handle1 c in
  let (b, c2) := GetOne handle2 c1 in
  (a, b, c2).

Definition GetThree (handle1 handle2 handle3 : Z) (c : bigIntContext) :
    Z * Z * Z * bigIntContext :=
  let (a, c1) := GetOne handle1 c in
  let (b, c2) := GetOne handle2 c1 in
  let (d, c3) := GetOne handle3 c2 in
  (a, b, d, c3).

(** Writing through the pointer that [GetOne handle] returned. *)
Definition SetValue (handle value : Z) (c : bigIntContext) : bigIntContext :=
  set_bi_values (<[handle := value]> (bi_values c)) c.

(** ** Lemmas *)

(** The handles tried from [h]: [h], [h+1], ... in [int32]. *)
Fixpoint candidates (n : nat) (h : Z) : list Z :=
  match n with O => [] | S n' => h :: candidates n' (s32 (h + 1)) end.

Lemma Put_loop_None fuel values h :
  Put_loop fuel values h = None -> forall x, x ∈ candidates fuel h -> x ∈ dom values.
Proof.
  revert h; induction fuel as [|fuel IH]; intros h; cbn.
  - intros _ x Hx. by apply not_elem_of_nil in Hx.
  - destruct (values !! h) eqn:E; [|done]. intros Hl x [->|Hx]%elem_of_cons.
    + by apply elem_of_dom.
    + by eapply IH.
Qed.

Lemma Put_loop_Some fuel values h r :
  is_s32 h -> Put_loop fuel values h = Some r -> values !! r = None /\ is_s32 r.
Proof.
  revert h; induction fuel as [|fuel IH]; intros h Hh; cbn; [done|].
  destruct (values !! h) eqn:E; [|by intros [= <-]].
  apply IH. apply s32_range.
Qed.

Lemma candidates_elem n h x :
  is_s32 h -> x ∈ candidates n h ->
  exists k, 0 <= k < Z.of_nat n /\ x = s32 (h + k).
Proof.
  revert h; induction n as [|n IH]; intros h Hh; cbn.
  - intros Hx. by apply not_elem_of_nil in Hx.
  - intros [->|Hx]%elem_of_cons.
    + exists 0. split; [lia|]. rewrite Z.add_0_r. by rewrite s32_id.
    + apply IH in Hx as (k & Hk & ->); [|apply s32_range].
      exists (k + 1). split; [lia|]. word_lia.
Qed.

Lemma candidates_NoDup n h :
  is_s32 h -> Z.of_nat n <= 2 ^ 32 -> NoDup (candidates n h).
Proof.
  revert h; induction n as [|n IH]; intros h Hh Hn; cbn; constructor.
  - intros (k & Hk & He)%candidates_elem; [|apply s32_range]. word_lia.
  - apply IH; [apply s32_range | lia].
Qed.

Lemma candidates_length n h : length (candidates n h) = n.
Proof. revert h; induction n; intros; cbn; auto. Qed.

(** A set with fewer elements than there are distinct candidates misses one. *)
Lemma Put_loop_finds values h :
  is_s32 h -> Z.of_nat (size values) < 2 ^ 32 ->
  is_Some (Put_loop (S (size values)) values h).
Proof.
  intros Hh Hsz. destruct (Put_loop _ _ _) eqn:E; [by eexists | exfalso].
  pose proof (Put_loop_None _ _ _ E) as Hall.
  assert (NoDup (candidates (S (size values)) h)) as Hnd
    by (apply candidates_NoDup; [done | lia]).
  assert (candidates (S (size values)) h ⊆+ elements (dom values)) as Hsub.
  { apply NoDup_submseteq; [done|]. intros x Hx. apply elem_of_elements. by apply Hall. }
  apply submseteq_length in Hsub. rewrite candidates_length in Hsub.
  change (length (elements (dom values))) with (size (dom values)) in Hsub.
  rewrite size_dom in Hsub. lia.
Qed.

Lemma GetOne_lookup h c : bi_values (snd (GetOne h c)) !! h = Some (fst (GetOne h c)).
Proof.
  unfold GetOne. destruct (bi_values c !! h) eqn:E; cbn; [done|].
  by rewrite lookup_insert_eq.
Qed.

Lemma GetOne_stack h c : bi_stateStack (snd (GetOne h c)) = bi_stateStack c.
Proof. unfold GetOne. by destruct (bi_values c !! h). Qed.

(** ** Properties *)

(** While fewer than 2^32 handles are in use the search loop of [Put]
    ends and yields an [int32] handle that was free; the value is stored
    under it and no other handle changes. *)
Theorem Put_total value c :
  Z.of_nat (size (bi_values c)) < 2 ^ 32 ->
  exists h c', Put value c = Some (h, c') /\ is_s32 h /\
    bi_values c !! h = None /\ bi_values c' !! h = Some value /\
    (forall h', h' <> h -> bi_values c' !! h' = bi_values c !! h') /\
    bi_stateStack c' = bi_stateStack c.
Proof.
  intros Hsz. unfold Put.
  destruct (Put_loop_finds (bi_values c) (s32 (Z.of_nat (size (bi_values c))))
    (s32_range _) Hsz) as [h Hh].
  rewrite Hh. apply Put_loop_Some in Hh as [Hfree Hr]; [|apply s32_range].
  eexists h, _. split; [reflexivity|]. cbn.
  split_and!; [done.. | by rewrite lookup_insert_eq | | done].
  intros h' Hne. by rewrite lookup_insert_ne.
Qed.

Lemma Put_total_witness :
  exists h c', Put 7 (mkbigIntContext {[1 := 5; 2 := 6]} []) = Some (h, c') /\
    bi_values c' !! h = Some 7.
Proof.
  destruct (Put_total 7 (mkbigIntContext {[1 := 5; 2 := 6]} [])) as (h & c' & H).
  { vm_compute. reflexivity. }
  exists h, c'. split; apply H.
Defined.

End BigInt.

(** ** The context as a component of the host *)

#[export] Instance bigInt_stack `{Ext : Externals} : StateStack (gmap Z Z).
Proof.
  refine {|
    PushState := modify_bigInt BigInt.PushState;
    PopSetActiveState := modify_bigInt BigInt.PopSetActiveState;
    PopDiscard := modify_bigInt BigInt.PopDiscard;
    view st := bi_stateStack (st_bigInt st);
    saved st := bi_values (st_bigInt st);
    holds st x := bi_values (st_bigInt st) = x
  |}.
  - intros st. eexists. split; reflexivity.
  - intros st l x Hv. eexists. split; [reflexivity|]. cbn.
    unfold BigInt.PopSetActiveState. by rewrite Hv, pop_snoc.
  - intros st Hv. unfold modify_bigInt, modify, BigInt.PopSetActiveState. rewrite Hv. cbn.
    by destruct st.
  - intros st l x Hv. eexists. split; [reflexivity|]. cbn.
    unfold BigInt.PopDiscard. by rewrite Hv, pop_snoc.
  - intros st Hv. unfold modify_bigInt, modify, BigInt.PopDiscard. rewrite Hv. cbn.
    by destruct st.
Defined.

(** ** The operations the exported functions use *)

Section InHost.
Context `{Ext : Externals}.

Definition bigInt_GetOne (handle : Z) : M Z := fun st =>
  let (v, c) := BigInt.GetOne handle (st_bigInt st) in (set_st_bigInt c st, Ret v).

(** Go evaluates the operands of the [return] statements from left to right. *)
Definition bigInt_GetTwo (handle1 handle2 : Z) : M (Z * Z) :=
  a ← bigInt_GetOne handle1; b ← bigInt_GetOne handle2; mret (a, b).

Definition bigInt_GetThree (handle1 handle2 handle3 : Z) : M (Z * Z * Z) :=
  a ← bigInt_GetOne handle1; b ← bigInt_GetOne handle2; c ← bigInt_GetOne handle3;
  mret (a, b, c).

Definition bigInt_SetValue (handle value : Z) : M unit :=
  modify_bigInt (BigInt.SetValue handle value).

(** Without a free handle the search of [Put] does not end; the map would hold
    2^32 numbers. *)
Definition bigInt_Put (value : Z) : M Z := fun st =>
  match BigInt.Put value (st_bigInt st) with
  | Some (h, c) => (set_st_bigInt c st, Ret h)
  | None => (st, Panic)
  end.

Lemma bigInt_GetThree_run handle1 handle2 handle3 st :
  bigInt_GetThree handle1 handle2 handle3 st =
    let '(v, c) := BigInt.GetThree handle1 handle2 handle3 (st_bigInt st) in
    (set_st_bigInt c st, Ret v).
Proof.
  unfold bigInt_GetThree, bigInt_GetOne, BigInt.GetThree. cbv [mbind M_bind mret M_ret].
  destruct (BigInt.GetOne handle1 _) as [a c1]. cbn.
  destruct (BigInt.GetOne handle2 c1) as [b c2]. cbn.
  by destruct (BigInt.GetOne handle3 c2) as [d c3].
Qed.

Lemma bigInt_GetTwo_run handle1 handle2 st :
  bigInt_GetTwo handle1 handle2 st =
    let '(v, c) := BigInt.GetTwo handle1 handle2 (st_bigInt st) in
    (set_st_bigInt c st, Ret v).
Proof.
  unfold bigInt_GetTwo, bigInt_GetOne, BigInt.GetTwo. cbv [mbind M_bind mret M_ret].
  destruct (BigInt.GetOne handle1 _) as [a c1]. cbn.
  by destruct (BigInt.GetOne handle2 c1) as [b c2].
Qed.

End InHost.
