(* ===== verification/Runtime.v ===== *)
(** The runtime context, first part: [src/vmhost/contexts/runtime.go] without
    what needs the other contexts.  The current call, the running wasmer
    instance and its cells, the linear memory, the error list, and the state
    and instance stacks.  [RuntimeExec] has the rest. *)
From S2P Require Import Prelude Errors Overflow Types State Logic.

#[local] Open Scope Z_scope.

(** [MaxMemoryGrow] and [MaxMemoryGrowDelta]. *)
Definition MaxMemoryGrow : Z := 10.
Definition MaxMemoryGrowDelta : Z := 10.

(** ** The call input *)

(** [copyESDTTransfer] and the copy [SetVMInput] makes.  Every field is copied
    but [PrevTxHash], which is left at its zero value. *)
Definition copyESDTTransfer (t : ESDTTransfer) : ESDTTransfer :=
  mkESDTTransfer (ESDTValue t) (ESDTTokenName t) (ESDTTokenType t) (ESDTTokenNonce t).

Definition copyVMInput (v : VMInput) : VMInput :=
  {| CallerAddr := CallerAddr v;
     Arguments := Arguments v;
     CallValue := CallValue v;
     VMInput_CallType := VMInput_CallType v;
     GasPrice := GasPrice v;
     GasProvided := GasProvided v;
     GasLocked := GasLocked v;
     OriginalTxHash := OriginalTxHash v;
     CurrentTxHash := CurrentTxHash v;
     PrevTxHash := [];
     ESDTTransfers := map copyESDTTransfer (ESDTTransfers v);
     ReturnCallAfterError := ReturnCallAfterError v |}.

Lemma copyVMInput_idemp v : copyVMInput (copyVMInput v) = copyVMInput v.
Proof.
  unfold copyVMInput. cbn. f_equal. rewrite map_map. by apply map_ext.
Qed.

(** ** Linear memory *)

(** [MemLoad] on the bytes of the memory; a request beyond the end is padded
    with zeros. *)
Definition mem_load (memory : bytes) (offset length : Z) : bytes * option error :=
  let memoryLength := u32 (len memory) in
  let requestedEnd := AddInt32 offset length in
  let isOffsetTooSmall := offset <? 0 in
  let isOffsetTooLarge := memoryLength <? u32 offset in
  let isRequestedEndTooLarge := memoryLength <? u32 requestedEnd in
  let isLengthNegative := length <? 0 in
  if isOffsetTooSmall || isOffsetTooLarge then
    ([], Some (ErrFmt (bs "mem load: ") ErrBadBounds []))
  else if isLengthNegative then
    ([], Some (ErrFmt (bs "mem load: ") ErrNegativeLength []))
  else
    let source := if isRequestedEndTooLarge then drop (Z.to_nat offset) memory
                  else slice memory offset requestedEnd in
    (take (Z.to_nat length) (source ++ replicate (Z.to_nat length) Byte.x00), None).

Section Runtime.
Context `{Ext : Externals}.

(** ** The running instance *)

Definition rt (st : HostState) : runtimeState := rt_state (st_runtime st).

Definition current_instance : M Instance :=
  i ← gets (fun st => instance (st_runtime st));
  h ← deref i;
  o ← gets (fun st => st_instances st !! h);
  deref o.

Definition modify_instance (f : Instance -> Instance) : M unit :=
  i ← gets (fun st => instance (st_runtime st));
  h ← deref i;
  o ← gets (fun st => st_instances st !! h);
  inst ← deref o;
  modify (fun st => set_st_instances (<[h := f inst]> (st_instances st)) st).

End Runtime.

Module Runtime.
Section Runtime.
Context `{Ext : Externals}.

Definition modify_state (f : runtimeState -> runtimeState) : M unit :=
  modify_runtime (fun c => set_rt_state (f (rt_state c)) c).

(** *** Getters and setters *)

Definition GetVMInput : M VMInput := gets (fun st => vmInput (rt st)).
Definition SetVMInput (v : VMInput) : M unit :=
  modify_state (set_vmInput (copyVMInput v)).
Definition GetSCAddress : M bytes := gets (fun st => scAddress (rt st)).
Definition SetSCAddress (a : bytes) : M unit := modify_state (set_scAddress a).
Definition GetCurrentTxHash : M bytes := gets (fun st => CurrentTxHash (vmInput (rt st))).
Definition GetOriginalTxHash : M bytes := gets (fun st => OriginalTxHash (vmInput (rt st))).
Definition Function_ : M bytes := gets (fun st => callFunction (rt st)).
Definition Arguments : M (list bytes) := gets (fun st => Types.Arguments (vmInput (rt st))).
Definition GetVMType : M bytes := gets (fun st => vmType (st_runtime st)).
Definition GetSCCodeSize : M Z := gets (fun st => codeSize (st_runtime st)).
Definition ReadOnly : M bool := gets (fun st => readOnly (rt st)).
Definition SetReadOnly (b : bool) : M unit := modify_state (set_readOnly b).
Definition SetCustomCallFunction (f : bytes) : M unit := modify_state (set_callFunction f).
Definition GetAsyncCallInfo : M (option AsyncCallInfo) :=
  gets (fun st => asyncCallInfo (rt st)).
Definition SetAsyncCallInfo (i : option AsyncCallInfo) : M unit :=
  modify_state (set_asyncCallInfo i).
Definition GetAsyncContextInfo : M nat := gets (fun st => asyncContextInfo (rt st)).
Definition MustVerifyNextContractCode : M unit := modify_runtime (set_verifyCode true).
Definition SetMaxInstanceCount (n : Z) : M unit := modify_runtime (set_maxWasmerInstances n).
Definition RunningInstancesCount : M Z :=
  gets (fun st => u64 (len (instanceStack (st_runtime st)))).

(** A new [AsyncContextInfo] structure on the heap. *)
Definition new_asyncContextInfo (info : AsyncContextInfo) : M nat := fun st =>
  (set_st_asyncInfos (<[st_next st := info]> (st_asyncInfos st))
     (set_st_next (S (st_next st)) st), Ret (st_next st)).

Definition InitState : M unit :=
  loc ← new_asyncContextInfo (mkAsyncContextInfo [] [] ∅);
  modify_runtime (fun c =>
    set_rt_state (mkruntimeState zeroVMInput [] [] false None loc)
      (set_verifyCode false (set_rt_errors None c))).

Definition InitStateFromContractCallInput (input : ContractCallInput) : M unit :=
  SetVMInput (call_VMInput input) ;;
  SetSCAddress (RecipientAddr input) ;;
  SetCustomCallFunction (Types.Function_ input) ;;
  loc ← new_asyncContextInfo
          (mkAsyncContextInfo (CallerAddr (call_VMInput input)) [] ∅);
  modify_state (set_asyncContextInfo loc).

Definition ExtractCodeUpgradeFromArgs : M (bytes * bytes * option error) :=
  args ← Arguments;
  match args with
  | code :: codeMetadata :: rest =>
      v ← GetVMInput;
      modify_state (set_vmInput (set_Arguments rest v)) ;;
      mret (code, codeMetadata, None)
  | _ => mret ([], [], Some (ErrInvalidUpgradeArguments : error))
  end.

(** *** Gas points and breakpoints of the instance *)

Definition GetPointsUsed : M Z :=
  i ← gets (fun st => instance (st_runtime st));
  match i with
  | None => mret 0
  | Some _ => inst ← current_instance; mret (inst_Points inst)
  end.

Definition SetPointsUsed (gasPoints : Z) : M unit :=
  let gasPoints := if MaxInt64 <? gasPoints then MaxInt64 else gasPoints in
  modify_instance (set_inst_Points gasPoints).

Definition SetRuntimeBreakpointValue (b : BreakpointValue) : M unit :=
  modify_instance (set_inst_Breakpoint (breakpoint_to_Z b)).

Definition GetRuntimeBreakpointValue : M Z :=
  inst ← current_instance; mret (inst_Breakpoint inst).

Definition HasCallbackMethod : M bool :=
  inst ← current_instance; mret (bool_decide (CallbackFunctionName ∈ inst_Exports inst)).

Definition IsFunctionImported (name : bytes) : M bool :=
  inst ← current_instance; mret (bool_decide (name ∈ inst_Imports inst)).

Definition BaseOpsErrorShouldFailExecution : bool := true.
Definition SyncExecAPIErrorShouldFailExecution : bool := true.
Definition BigIntAPIErrorShouldFailExecution : bool := true.
Definition CryptoAPIErrorShouldFailExecution : bool := true.

(** *** Errors *)

Definition AddError (e : option error) (info : list bytes) : M unit :=
  match e with
  | None => mret tt
  | Some e =>
      modify_runtime (fun c => set_rt_errors (Some
        match rt_errors c with
        | None => Wrappable.WrapError (Wrappable.Plain e) caller_location info
        | Some w => Wrappable.WrapWithError w (Some (Wrappable.Plain e)) caller_location info
        end) c)
  end.

(** *** Instances *)

Definition IsWarmInstance : M bool :=
  gets (fun st => match instance (st_runtime st) with
                  | None => false
                  | Some h => bool_decide (warmInstance (st_runtime st) = Some h)
                  end).

(** [instance.Clean()] and [context.instance = nil] *)
Definition CleanWasmerInstance : M unit :=
  i ← gets (fun st => instance (st_runtime st));
  warm ← IsWarmInstance;
  match i with
  | None => mret tt
  | Some h =>
      if (warm : bool) then mret tt
      else
        modify (fun st => set_st_instances
          (alter (set_inst_Cleaned true) h (st_instances st)) st) ;;
        modify_runtime (set_instance None)
  end.

Definition ResetWarmInstance : M unit :=
  i ← gets (fun st => instance (st_runtime st));
  match i with
  | None => mret tt
  | Some h =>
      modify (fun st => set_st_instances
        (alter (set_inst_Cleaned true) h (st_instances st)) st) ;;
      modify_runtime (fun c => set_instance None
        (set_warmInstanceAddress None (set_warmInstance None c)))
  end.

Definition pushInstance : M unit :=
  modify_runtime (fun c => set_instanceStack (instanceStack c ++ [instance c]) c).

Definition popInstance : M unit :=
  stack ← gets (fun st => instanceStack (st_runtime st));
  match pop stack with
  | None => mret tt
  | Some (prevInstance, rest) =>
      modify_runtime (set_instanceStack rest) ;;
      cur ← gets (fun st => instance (st_runtime st));
      if bool_decide (prevInstance = cur) then mret tt
      else CleanWasmerInstance ;; modify_runtime (set_instance prevInstance)
  end.

(** *** The state stack *)

Definition PushState : M unit :=
  modify_runtime (fun c =>
    set_rt_stateStack
      (rt_stateStack c ++ [set_vmInput (copyVMInput (vmInput (rt_state c))) (rt_state c)]) c) ;;
  pushInstance.

Definition PopSetActiveState : M unit :=
  stack ← gets (fun st => rt_stateStack (st_runtime st));
  match pop stack with
  | None => mret tt
  | Some (prevState, rest) =>
      modify_runtime (fun c => set_rt_stateStack rest
        (set_rt_state (set_vmInput (copyVMInput (vmInput prevState)) prevState) c)) ;;
      popInstance
  end.

Definition PopDiscard : M unit :=
  stack ← gets (fun st => rt_stateStack (st_runtime st));
  match pop stack with
  | None => mret tt
  | Some (_, rest) => modify_runtime (set_rt_stateStack rest) ;; popInstance
  end.

Definition ClearStateStack : M unit := modify_runtime (set_rt_stateStack []).

Definition IsContractOnTheStack (address : bytes) : M bool :=
  gets (fun st => existsb (fun s => bytes_eqb address (scAddress s))
                          (rt_stateStack (st_runtime st))).

(** *** Functions of the instance *)

(** [GetFunctionToCall] and [GetInitFunction] give the name of the exported
    function the host goes on to call. *)
Definition GetFunctionToCall : M (bytes * option error) :=
  inst ← current_instance;
  f ← Function_;
  if bool_decide (f ∈ inst_Exports inst) then mret (f, None)
  else if bytes_eqb f CallbackFunctionName then
    mret ([], Some (ErrNilCallbackFunction : error))
  else mret ([], Some (ErrFuncNotFound : error)).

Definition GetInitFunction : M (option bytes) :=
  inst ← current_instance;
  mret (if bool_decide (InitFunctionName ∈ inst_Exports inst) then Some InitFunctionName
        else None).

(** *** Memory *)

Definition MemLoad (offset length : Z) : M (bytes * option error) :=
  if length =? 0 then mret ([], None)
  else inst ← current_instance; mret (mem_load (inst_Memory inst) offset length).

Fixpoint MemLoadMultiple_loop (offset : Z) (lengths : list Z) (results : list bytes) :
    M (list bytes * option error) :=
  match lengths with
  | [] => mret (results, None)
  | length :: lengths' =>
      r ← MemLoad offset length;
      match r with
      | (_, Some e) => mret ([], Some e)
      | (result, None) =>
          MemLoadMultiple_loop (s32 (offset + length)) lengths' (results ++ [result])
      end
  end.

Definition MemLoadMultiple (offset : Z) (lengths : list Z) : M (list bytes * option error) :=
  MemLoadMultiple_loop offset lengths [].

(** The slice [memoryView[offset:requestedEnd]] panics when its bounds are
    inverted; [copy] moves as many bytes as fit. *)
Definition MemStore (offset : Z) (data : bytes) : M (option error) :=
  let dataLength := s32 (len data) in
  if dataLength =? 0 then mret None
  else
    inst ← current_instance;
    let requestedEnd := AddInt32 offset dataLength in
    let isOffsetTooSmall := offset <? 0 in
    let isNewPageNecessary := u32 (len (inst_Memory inst)) <? u32 requestedEnd in
    if isOffsetTooSmall then mret (Some (ErrBadLowerBounds : error))
    else
      grown ← (if isNewPageNecessary then
                 match w_MemoryGrow inst 1 with
                 | (_, Some e) => mret (Some e)
                 | (memory, None) => modify_instance (set_inst_Memory memory) ;; mret None
                 end
               else mret None);
      match grown with
      | Some e => mret (Some e)
      | None =>
          inst ← current_instance;
          let memory := inst_Memory inst in
          if u32 (len memory) <? u32 requestedEnd then
            mret (Some (ErrBadUpperBounds : error))
          else if requestedEnd <? offset then panic
          else
            modify_instance (set_inst_Memory
              (splice memory offset (take (Z.to_nat (requestedEnd - offset)) data))) ;;
            mret None
      end.

End Runtime.
End Runtime.

(** ** Lemmas *)

Section Lemmas.
Context `{Ext : Externals}.

(** [h] is the running instance and [inst] its content. *)
Definition running (st : HostState) (h : nat) (inst : Instance) : Prop :=
  instance (st_runtime st) = Some h /\ st_instances st !! h = Some inst.

Definition with_instance (h : nat) (inst : Instance) (st : HostState) : HostState :=
  set_st_instances (<[h := inst]> (st_instances st)) st.

Lemma running_with_instance st h inst inst' :
  running st h inst -> running (with_instance h inst' st) h inst'.
Proof. intros [Hi Hl]. split; [done|]. cbn. by rewrite lookup_insert_eq. Qed.

Lemma with_instance_same st h inst inst' :
  running st h inst -> inst' = inst -> with_instance h inst' st = st.
Proof.
  intros [_ Hl] ->. unfold with_instance. rewrite insert_id by done. by destruct st.
Qed.

Lemma current_instance_run st h inst :
  running st h inst -> current_instance st = (st, Ret inst).
Proof.
  intros [Hi Hl]. unfold current_instance, gets, mbind, M_bind, deref.
  rewrite Hi. cbn. by rewrite Hl.
Qed.

Lemma modify_instance_run f st h inst :
  running st h inst -> modify_instance f st = (with_instance h (f inst) st, Ret tt).
Proof.
  intros [Hi Hl]. unfold modify_instance, gets, mbind, M_bind, deref, modify.
  rewrite Hi. cbn. by rewrite Hl.
Qed.

Lemma wp_current_instance Q st h inst :
  running st h inst -> Q inst st -> wp current_instance Q st.
Proof. intros Hr HQ. exists inst, st. by rewrite (current_instance_run st h inst). Qed.

Lemma wp_modify_instance f Q st h inst :
  running st h inst -> Q tt (with_instance h (f inst) st) -> wp (modify_instance f) Q st.
Proof. intros Hr HQ. eexists tt, _. by rewrite (modify_instance_run f st h inst). Qed.

Lemma GetPointsUsed_run st h inst :
  running st h inst -> Runtime.GetPointsUsed st = (st, Ret (inst_Points inst)).
Proof.
  intros Hr. unfold Runtime.GetPointsUsed, gets, mbind, M_bind.
  rewrite (proj1 Hr). by rewrite (current_instance_run st h inst).
Qed.

Lemma SetPointsUsed_run g st h inst :
  running st h inst ->
  Runtime.SetPointsUsed g st = (with_instance h (set_inst_Points (Z.min g MaxInt64) inst) st, Ret tt).
Proof.
  intros Hr. unfold Runtime.SetPointsUsed. rewrite (modify_instance_run _ st h inst) by done.
  do 3 f_equal. destruct (Z.ltb_spec MaxInt64 g); lia.
Qed.

(** What operations on the instance leave alone. *)
Definition instance_frame (st : HostState) :=
  (st_bigInt st, st_blockchain st, st_metering st, st_output st, st_runtime st,
   st_storage st, st_asyncInfos st, st_next st, st_world st).

#[export] Instance current_instance_keeps R `{!PreOrder R} : Keeps R current_instance.
Proof. unfold current_instance. keeps_auto. Qed.

#[export] Instance modify_instance_keeps f : Keeps (same instance_frame) (modify_instance f).
Proof. unfold modify_instance. keeps_auto. Qed.

(** *** [mem_load] *)

Lemma mem_load_ok memory offset length :
  len memory < MaxInt32 -> is_s32 offset -> is_s32 length ->
  0 <= offset <= len memory -> 0 <= length ->
  mem_load memory offset length =
    (take (Z.to_nat length)
       (drop (Z.to_nat offset) memory ++ replicate (Z.to_nat length) Byte.x00), None).
Proof.
  intros Hm Ho Hl H0 H1. unfold mem_load.
  rewrite (u32_nonneg (len memory)), (u32_nonneg offset) by word_lia.
  destruct (Z.ltb_spec offset 0); [lia|]. destruct (Z.ltb_spec (len memory) offset); [lia|].
  destruct (Z.ltb_spec length 0); [lia|]. cbn [orb]. f_equal.
  destruct (Z.ltb_spec (len memory) (u32 (AddInt32 offset length))) as [|Hin]; [done|].
  destruct (decide (is_s32 (offset + length))) as [Hs|Hs].
  2:{ rewrite AddInt32_out_of_range, u32_nonneg in Hin by (done || word_lia). word_lia. }
  rewrite AddInt32_in_range, u32_nonneg in Hin by (done || word_lia).
  rewrite AddInt32_in_range by done. unfold slice.
  replace (offset + length - offset) with length by lia.
  assert (length <= len memory - offset) by lia. unfold len in *.
  rewrite !take_app_le by (rewrite ?length_take, ?length_drop; lia).
  rewrite take_take. f_equal. lia.
Qed.

End Lemmas.

(** ** The state stack as a component of the host *)

Section Stack.
Context `{Ext : Externals}.

#[export] Instance CleanWasmerInstance_keeps :
  Keeps (same (fun st => (rt_state (st_runtime st), rt_stateStack (st_runtime st),
                          instanceStack (st_runtime st)))) Runtime.CleanWasmerInstance.
Proof. unfold Runtime.CleanWasmerInstance, Runtime.IsWarmInstance. keeps_auto. Qed.

#[export] Instance popInstance_keeps :
  Keeps (same (fun st => (rt_state (st_runtime st), rt_stateStack (st_runtime st))))
    Runtime.popInstance.
Proof.
  unfold Runtime.popInstance, Runtime.CleanWasmerInstance, Runtime.IsWarmInstance. keeps_auto.
Qed.

Lemma CleanWasmerInstance_run st :
  exists st', Runtime.CleanWasmerInstance st = (st', Ret tt).
Proof.
  unfold Runtime.CleanWasmerInstance, Runtime.IsWarmInstance, gets, mbind, M_bind.
  destruct (instance (st_runtime st)) as [h|]; [|by eexists].
  case_bool_decide; by eexists.
Qed.

(** [popInstance] always returns; afterwards the instance on top of the stack is
    the running one. *)
Lemma popInstance_run st l i :
  instanceStack (st_runtime st) = l ++ [i] ->
  exists st', Runtime.popInstance st = (st', Ret tt) /\
    instanceStack (st_runtime st') = l /\ instance (st_runtime st') = i.
Proof.
  intros Hs. unfold Runtime.popInstance.
  rewrite (bind_run _ _ _ _ _ eq_refl), Hs, pop_snoc. cbv beta iota.
  rewrite (bind_run _ _ _ _ _ eq_refl), (bind_run _ _ _ _ _ eq_refl). cbv beta.
  case_bool_decide as Hi; [by eexists|].
  set (st1 := set_st_runtime _ st).
  destruct (CleanWasmerInstance_run st1) as [st2 H2].
  rewrite (bind_run _ _ _ _ _ H2). eexists. split; [reflexivity|]. split; [|done].
  pose proof (CleanWasmerInstance_keeps st1) as Hk. rewrite H2 in Hk.
  unfold same in Hk. cbn in *. congruence.
Qed.

Lemma popInstance_nil st :
  instanceStack (st_runtime st) = [] -> Runtime.popInstance st = (st, Ret tt).
Proof.
  intros Hs. unfold Runtime.popInstance. by rewrite (bind_run _ _ _ _ _ eq_refl), Hs.
Qed.

Lemma popInstance_total st : exists st', Runtime.popInstance st = (st', Ret tt).
Proof.
  destruct (instanceStack (st_runtime st)) as [|i l _] eqn:E using rev_ind.
  - eexists. by apply popInstance_nil.
  - destruct (popInstance_run st l i E) as (st' & H & _). by eexists.
Qed.

#[export] Instance runtime_stack : StateStack runtimeState.
Proof.
  refine {|
    PushState := Runtime.PushState;
    PopSetActiveState := Runtime.PopSetActiveState;
    PopDiscard := Runtime.PopDiscard;
    view st := rt_stateStack (st_runtime st);
    saved st := set_vmInput (copyVMInput (vmInput (rt st))) (rt st);
    holds st x := rt st = set_vmInput (copyVMInput (vmInput x)) x
  |}.
  - intros st. eexists. split; reflexivity.
  - intros st l x Hv. unfold Runtime.PopSetActiveState.
    rewrite (bind_run _ _ _ _ _ eq_refl), Hv, pop_snoc. cbv beta iota.
    rewrite (bind_run _ _ _ _ _ eq_refl).
    set (st1 := set_st_runtime _ st).
    destruct (popInstance_total st1) as [st2 H2]. exists st2. split; [done|].
    pose proof (popInstance_keeps st1) as Hk. rewrite H2 in Hk. unfold same in Hk.
    cbn in Hk. injection Hk as Hk1 Hk2. split; [done | by unfold rt].
  - intros st Hv. unfold Runtime.PopSetActiveState.
    by rewrite (bind_run _ _ _ _ _ eq_refl), Hv.
  - intros st l x Hv. unfold Runtime.PopDiscard.
    rewrite (bind_run _ _ _ _ _ eq_refl), Hv, pop_snoc. cbv beta iota.
    rewrite (bind_run _ _ _ _ _ eq_refl).
    set (st1 := set_st_runtime _ st).
    destruct (popInstance_total st1) as [st2 H2]. exists st2. split; [done|].
    pose proof (popInstance_keeps st1) as Hk. rewrite H2 in Hk. unfold same in Hk.
    cbn in Hk. by injection Hk as Hk1 Hk2.
  - intros st Hv. unfold Runtime.PopDiscard.
    by rewrite (bind_run _ _ _ _ _ eq_refl), Hv.
Defined.

End Stack.
