(* ===== verification/Memory.v ===== *)
(** The linear memory of the running instance: [MemLoad] and [MemStore] of
    [src/vmhost/contexts/runtime.go] (their definitions are in [Runtime]). *)
From S2P Require Import Prelude Errors Overflow Types State Logic Runtime Toy.

#[local] Open Scope Z_scope.

Section Memory.
Context `{Ext : Externals}.

(** What wasmer documents of growing a memory by a page: on success the old
    contents are a prefix of the new ones, and a memory stays below 2 GiB. *)
Definition Grow_extends : Prop := forall inst memory,
  w_MemoryGrow inst 1 = (memory, None) ->
  inst_Memory inst `prefix_of` memory /\ len memory < MaxInt32.

(** The outcome of [MemStore offset data] on a memory [old] that became [new]:
    bytes outside the target range are unchanged, memory never shrinks, and a
    store that reports success has written the data. *)
Definition stored (offset : Z) (data old new : bytes) (r : option error) : Prop :=
  len old <= len new /\
  (forall k : nat, Z.of_nat k < len old ->
     Z.of_nat k < offset \/ offset + len data <= Z.of_nat k -> new !! k = old !! k) /\
  (r = None -> slice new offset (offset + len data) = data) /\
  (r <> None -> old `prefix_of` new).

Lemma stored_unchanged offset data old e : stored offset data old old (Some e).
Proof. split_and!; try done. Qed.

Lemma stored_prefix offset data old new e :
  old `prefix_of` new -> stored offset data old new (Some e).
Proof.
  intros [ext ->]. split_and!; try done.
  - rewrite len_app. pose proof (len_nonneg ext). lia.
  - intros k Hk _. unfold len in Hk. by rewrite lookup_app_l by lia.
  - intros _. by exists ext.
Qed.

Lemma stored_splice offset data old new :
  old `prefix_of` new -> 0 <= offset -> offset + len data <= len new ->
  stored offset data old (splice new offset data) None.
Proof.
  intros [ext ->] H0 H1. split_and!; [| | |done].
  - rewrite splice_length, len_app by done. pose proof (len_nonneg ext). lia.
  - intros k Hk Hout. unfold len in Hk. rewrite splice_lookup_ne by done.
    by rewrite lookup_app_l by lia.
  - intros _. by apply slice_splice.
Qed.

(** The write itself, once the memory is large enough. *)
Lemma MemStore_write st h inst offset data :
  running st h inst -> is_s32 offset -> 0 <= offset ->
  data <> [] -> len data < 2 ^ 31 -> len (inst_Memory inst) < MaxInt32 ->
  let requestedEnd := AddInt32 offset (len data) in
  let memory := inst_Memory inst in
  (if u32 (len memory) <? u32 requestedEnd then
     mret (Some (ErrBadUpperBounds : error))
   else if requestedEnd <? offset then panic
   else
     modify_instance (set_inst_Memory
       (splice memory offset (take (Z.to_nat (requestedEnd - offset)) data))) ;;
     mret None) st =
  (if offset + len data <=? len memory
   then (with_instance h (set_inst_Memory (splice memory offset data) inst) st, Ret None)
   else (st, Ret (Some (ErrBadUpperBounds : error)))).
Proof.
  intros Hr Ho H0 Hd Hl Hm. cbv zeta.
  pose proof (len_nonneg data). pose proof (len_nonneg (inst_Memory inst)).
  rewrite (u32_nonneg (len (inst_Memory inst))) by word_lia.
  destruct (decide (is_s32 (offset + len data))) as [Hs|Hs].
  - rewrite AddInt32_in_range by (done || word_lia).
    rewrite (u32_nonneg (offset + len data)) by word_lia.
    destruct (Z.ltb_spec (len (inst_Memory inst)) (offset + len data)),
      (Z.leb_spec (offset + len data) (len (inst_Memory inst))); try lia; [done|].
    destruct (Z.ltb_spec (offset + len data) offset); [lia|].
    replace (Z.to_nat (offset + len data - offset)) with (length data)
      by (unfold len; lia).
    rewrite firstn_all. by rewrite (bind_run _ _ _ _ _ (modify_instance_run _ _ _ _ Hr)).
  - rewrite AddInt32_out_of_range by (done || word_lia).
    rewrite (u32_nonneg MaxInt32) by word_lia.
    destruct (Z.ltb_spec (len (inst_Memory inst)) MaxInt32),
      (Z.leb_spec (offset + len data) (len (inst_Memory inst))); try done; word_lia.
Qed.

(** The condition for a new page is that the data does not fit. *)
Lemma MemStore_fits inst offset (data : bytes) :
  is_s32 offset -> 0 <= offset -> len data < 2 ^ 31 -> len (inst_Memory inst) < MaxInt32 ->
  (u32 (len (inst_Memory inst)) <? u32 (AddInt32 offset (len data))) =
  negb (offset + len data <=? len (inst_Memory inst)).
Proof.
  intros Ho H0 Hl Hm. pose proof (len_nonneg data). pose proof (len_nonneg (inst_Memory inst)).
  rewrite (u32_nonneg (len (inst_Memory inst))) by word_lia.
  destruct (decide (is_s32 (offset + len data))) as [Hs|Hs].
  - rewrite AddInt32_in_range, u32_nonneg by (done || word_lia).
    destruct (Z.ltb_spec (len (inst_Memory inst)) (offset + len data)),
      (Z.leb_spec (offset + len data) (len (inst_Memory inst))); done || lia.
  - rewrite AddInt32_out_of_range, u32_nonneg by (done || word_lia).
    destruct (Z.ltb_spec (len (inst_Memory inst)) MaxInt32),
      (Z.leb_spec (offset + len data) (len (inst_Memory inst))); try done; word_lia.
Qed.

Lemma with_instance_twice h i j st :
  with_instance h i (with_instance h j st) = with_instance h i st.
Proof. unfold with_instance. cbn. by rewrite insert_insert_eq. Qed.

Lemma with_instance_ne h i st h' :
  h' <> h -> st_instances (with_instance h i st) !! h' = st_instances st !! h'.
Proof. intros Hh. cbn. by rewrite lookup_insert_ne by done. Qed.

(** The whole of [MemStore] in closed form: where it grows the memory, where it
    writes and which error it returns. *)
Lemma MemStore_run st h inst offset data :
  Grow_extends -> running st h inst -> len (inst_Memory inst) < MaxInt32 ->
  is_s32 offset -> len data < 2 ^ 31 ->
  let write m := set_inst_Memory (splice m offset data) inst in
  Runtime.MemStore offset data st =
  if len data =? 0 then (st, Ret None)
  else if offset <? 0 then (st, Ret (Some (ErrBadLowerBounds : error)))
  else if offset + len data <=? len (inst_Memory inst) then
    (with_instance h (write (inst_Memory inst)) st, Ret None)
  else match w_MemoryGrow inst 1 with
       | (_, Some e) => (st, Ret (Some e))
       | (m, None) =>
           if offset + len data <=? len m then (with_instance h (write m) st, Ret None)
           else (with_instance h (set_inst_Memory m inst) st,
                 Ret (Some (ErrBadUpperBounds : error)))
       end.
Proof.
  intros Hgrow Hr Hm Ho Hd write. pose proof (len_nonneg data).
  unfold Runtime.MemStore. rewrite s32_id by word_lia.
  destruct (Z.eqb_spec (len data) 0) as [Hz|Hz]; [done|].
  assert (data <> []) as Hne by by intros ->.
  rewrite (bind_run _ _ _ _ _ (current_instance_run _ _ _ Hr)). cbv zeta.
  destruct (Z.ltb_spec offset 0) as [Hneg|Hpos]; [done|].
  rewrite (MemStore_fits inst offset data) by done.
  destruct (Z.leb_spec (offset + len data) (len (inst_Memory inst))) as [Hin|Hout]; cbn [negb].
  - rewrite (bind_run _ _ st st None eq_refl).
    rewrite (bind_run _ _ _ _ _ (current_instance_run _ _ _ Hr)).
    rewrite (MemStore_write st h inst) by done.
    destruct (Z.leb_spec (offset + len data) (len (inst_Memory inst))); [done | lia].
  - destruct (w_MemoryGrow inst 1) as [memory [e|]] eqn:Eg; [done|].
    apply Hgrow in Eg as [_ Hm'].
    pose proof (running_with_instance _ _ _ (set_inst_Memory memory inst) Hr) as Hr1.
    rewrite (bind_run _ _ st (with_instance h (set_inst_Memory memory inst) st) None).
    2:{ by rewrite (bind_run _ _ _ _ _ (modify_instance_run _ _ _ _ Hr)). }
    cbv beta iota. rewrite (bind_run _ _ _ _ _ (current_instance_run _ _ _ Hr1)).
    rewrite (MemStore_write _ _ _ _ _ Hr1) by done. cbn [inst_Memory set_inst_Memory].
    destruct (Z.leb_spec (offset + len data) (len memory)); [|done].
    by rewrite with_instance_twice.
Qed.

(** ** Properties *)

(** C23: [MemStore] never panics; it touches nothing but the bytes
    [offset, offset + len data) of the running instance's memory (and its size,
    when it grows by a page), reports success exactly with the data written,
    and every other part of the host state is unchanged. *)
Theorem MemStore_safe st h inst offset data :
  Grow_extends -> running st h inst -> len (inst_Memory inst) < MaxInt32 ->
  is_s32 offset -> len data < 2 ^ 31 ->
  exists st' r inst',
    Runtime.MemStore offset data st = (st', Ret r) /\ running st' h inst' /\
    inst' = set_inst_Memory (inst_Memory inst') inst /\
    instance_frame st' = instance_frame st /\
    (forall h', h' <> h -> st_instances st' !! h' = st_instances st !! h') /\
    (data <> [] -> stored offset data (inst_Memory inst) (inst_Memory inst') r) /\
    (0 <= offset -> offset + len data <= len (inst_Memory inst) -> r = None).
Proof.
  intros Hgrow Hr Hm Ho Hd. pose proof (len_nonneg data).
  assert (inst = set_inst_Memory (inst_Memory inst) inst) as Heta by by destruct inst.
  rewrite (MemStore_run st h inst) by done.
  assert (forall m r, inst_Memory inst `prefix_of` m ->
    stored offset data (inst_Memory inst) (inst_Memory (set_inst_Memory m inst)) (Some r))
    by (intros; by apply stored_prefix).
  destruct (Z.eqb_spec (len data) 0) as [Hz|Hz].
  { eexists st, None, inst. split_and!; try done. intros Hne. by apply len_nil_inv in Hz. }
  destruct (Z.ltb_spec offset 0) as [Hneg|Hpos].
  { eexists st, _, inst. split; [reflexivity|]. split_and!; try done; try lia;
      intros _; apply stored_unchanged. }
  destruct (Z.leb_spec (offset + len data) (len (inst_Memory inst))).
  { eexists _, None, _. split; [reflexivity|].
    split_and!; eauto using running_with_instance, with_instance_ne.
    intros _. by apply stored_splice. }
  destruct (w_MemoryGrow inst 1) as [m [e|]] eqn:Eg.
  { eexists st, _, inst. split; [reflexivity|]. split_and!; try done; try lia;
      intros _; apply stored_unchanged. }
  apply Hgrow in Eg as [Hpre _].
  destruct (Z.leb_spec (offset + len data) (len m)); eexists _, _, _; (split; [reflexivity|]);
    split_and!; eauto using running_with_instance, with_instance_ne; try lia.
  intros _. by apply stored_splice.
Qed.

Lemma mem_load_splice memory offset data :
  0 <= offset -> offset + len data <= len memory -> len memory < MaxInt32 ->
  mem_load (splice memory offset data) offset (len data) = (data, None).
Proof.
  intros H0 Hfit Hm. pose proof (len_nonneg data).
  pose proof (splice_length memory offset data H0 Hfit) as Hlen.
  rewrite mem_load_ok by (rewrite ?Hlen; word_lia). f_equal.
  rewrite take_app_le.
  - replace (Z.to_nat (len data)) with (Z.to_nat (offset + len data - offset)) by lia.
    exact (slice_splice memory offset data H0 Hfit).
  - unfold len in *. rewrite length_drop. lia.
Qed.

(** [MemLoad] changes no state and fails exactly when the offset or the
    length is negative or the offset is beyond the memory; otherwise it returns
    [length] bytes, those of the memory padded with zeros past its end. *)
Theorem MemLoad_exact st h inst offset length :
  running st h inst -> len (inst_Memory inst) < MaxInt32 ->
  is_s32 offset -> is_s32 length -> length <> 0 ->
  exists r, Runtime.MemLoad offset length st = (st, Ret r) /\
  match r with
  | (data, None) =>
      0 <= offset <= len (inst_Memory inst) /\ len data = length /\
      (forall k : nat, Z.of_nat k < length ->
         data !! k = Some (default Byte.x00 (inst_Memory inst !! (Z.to_nat offset + k)%nat)))
  | (data, Some e) =>
      data = [] /\ (offset < 0 \/ length < 0 \/ len (inst_Memory inst) < offset) /\
      (errors_Is e ErrBadBounds = true \/ errors_Is e ErrNegativeLength = true)
  end.
Proof.
  intros Hr Hm Ho Hl Hnz. unfold Runtime.MemLoad.
  destruct (Z.eqb_spec length 0); [done|].
  rewrite (bind_run _ _ _ _ _ (current_instance_run _ _ _ Hr)). eexists. split; [reflexivity|].
  pose proof (len_nonneg (inst_Memory inst)).
  destruct (decide (0 <= offset <= len (inst_Memory inst) /\ 0 <= length)) as [[Hin Hpos]|Hbad].
  - rewrite mem_load_ok by done. split_and!; try lia.
    + unfold len. rewrite length_take, length_app, length_replicate. lia.
    + intros k Hk. rewrite lookup_take_lt by lia.
      destruct (decide (k < Datatypes.length (drop (Z.to_nat offset) (inst_Memory inst)))%nat)
        as [Hk'|Hk'].
      * rewrite lookup_app_l, lookup_drop by done. rewrite length_drop in Hk'.
        destruct (lookup_lt_is_Some_2 (inst_Memory inst) (Z.to_nat offset + k)) as [b Hb];
          [lia | by rewrite Hb].
      * rewrite lookup_app_r by lia. rewrite length_drop in *.
        rewrite lookup_replicate_2 by lia. by rewrite lookup_ge_None_2 by lia.
  - unfold mem_load. rewrite (u32_nonneg (len (inst_Memory inst))) by word_lia.
    destruct (Z.ltb_spec offset 0); [cbn; split_and!; try done; [lia | by left]|].
    rewrite (u32_nonneg offset) by word_lia.
    destruct (Z.ltb_spec (len (inst_Memory inst)) offset);
      [cbn; split_and!; try done; [lia | by left]|].
    destruct (Z.ltb_spec length 0); [cbn; split_and!; try done; [lia | by right] | lia].
Qed.

(** What [MemStore] stores inside the memory [MemLoad] then loads. *)
Theorem MemStore_MemLoad st h inst offset data :
  Grow_extends -> running st h inst -> len (inst_Memory inst) < MaxInt32 ->
  is_s32 offset -> 0 <= offset -> offset + len data <= len (inst_Memory inst) ->
  exists st', Runtime.MemStore offset data st = (st', Ret None) /\
              Runtime.MemLoad offset (len data) st' = (st', Ret (data, None)).
Proof.
  intros Hgrow Hr Hm Ho H0 Hfit. pose proof (len_nonneg data).
  rewrite (MemStore_run st h inst) by (done || word_lia). unfold Runtime.MemLoad.
  destruct (Z.eqb_spec (len data) 0) as [E|E].
  { exists st. by rewrite (len_nil_inv _ E). }
  destruct (Z.ltb_spec offset 0); [lia|].
  destruct (Z.leb_spec (offset + len data) (len (inst_Memory inst))); [|lia].
  eexists. split; [reflexivity|].
  pose proof (running_with_instance _ _ _
    (set_inst_Memory (splice (inst_Memory inst) offset data) inst) Hr) as Hr'.
  rewrite (bind_run _ _ _ _ _ (current_instance_run _ _ _ Hr')).
  cbn [inst_Memory set_inst_Memory]. by rewrite mem_load_splice by done.
Qed.

End Memory.

(** ** Witnesses *)

(** [toy]'s memories grow the way wasmer's do. *)
Lemma toy_Grow_extends : @Grow_extends toy.
Proof.
  intros inst memory. cbn. destruct (Z.ltb_spec (len (inst_Memory inst)) 1024); [|done].
  intros [= <-]. split; [by eexists|]. rewrite len_app.
  match goal with |- context [len (_ :: ?l)] => assert (len (Byte.x00 :: l) = 8) as -> by reflexivity end.
  word_lia.
Qed.

Lemma toy_running w gas :
  @running toy (toy_state w gas) 1 (toy_instance (bs "code") gas).
Proof. by split. Qed.

Lemma MemStore_safe_witness :
  exists st' r, @Runtime.MemStore toy 30 (bs "abc") (toy_state [] 5) = (st', Ret r).
Proof.
  destruct (@MemStore_safe toy (toy_state [] 5) 1 (toy_instance (bs "code") 5) 30 (bs "abc"))
    as (st' & r & _ & H & _); [exact toy_Grow_extends | by split | word_compute .. |].
  by exists st', r.
Defined.

Lemma MemLoad_exact_witness :
  exists r, @Runtime.MemLoad toy 30 8 (toy_state [] 5) = (toy_state [] 5, Ret r).
Proof.
  destruct (@MemLoad_exact toy (toy_state [] 5) 1 (toy_instance (bs "code") 5) 30 8)
    as (r & H & _); [by split | word_compute .. | done |].
  by exists r.
Defined.

Lemma MemStore_MemLoad_witness :
  exists st', @Runtime.MemLoad toy 4 3 st' = (st', Ret (bs "abc", None)).
Proof.
  destruct (@MemStore_MemLoad toy (toy_state [] 5) 1 (toy_instance (bs "code") 5) 4 (bs "abc"))
    as (st' & _ & H); [exact toy_Grow_extends | by split | word_compute .. |].
  by exists st'.
Defined.
