(* ===== verification/Output.v ===== *)
(** The output context, [src/vmhost/contexts/output.go]: the accumulated
    [VMOutput], its stack, and the merging of outputs.  The operations that call
    other contexts (transfers, logs, the final output) are in [Transfers]. *)
From S2P Require Import Prelude Errors Overflow Types State Logic Toy.

#[local] Open Scope Z_scope.

(** ** Fresh values *)

Definition newVMOutput : VMOutput :=
  {| ReturnData := [];
     out_ReturnCode := Ok;
     ReturnMessage := [];
     GasRemaining := 0;
     GasRefund := Some 0;
     OutputAccounts := ∅;
     DeletedAccounts := [];
     TouchedAccounts := [];
     Logs := [] |}.

(** [&vmcommon.OutputAccount{}] *)
Definition zeroOutputAccount : OutputAccount :=
  {| Address := []; Nonce := 0; Balance := None; BalanceDelta := None; StorageUpdates := ∅;
     Code := []; CodeMetadata := []; CodeDeployerAddress := None; OutputTransfers := [];
     GasUsed := 0 |}.

Definition NewVMOutputAccount (address : bytes) : OutputAccount :=
  {| Address := address; Nonce := 0; Balance := None; BalanceDelta := Some 0;
     StorageUpdates := ∅; Code := []; CodeMetadata := []; CodeDeployerAddress := None;
     OutputTransfers := []; GasUsed := 0 |}.

(** ** Merging *)

Definition mergeStorageUpdates (left right : gmap bytes StorageUpdate) :
    gmap bytes StorageUpdate :=
  right ∪ left.

Definition nonempty_or (right left : bytes) : bytes :=
  match right with [] => left | _ => right end.

Definition mergeOutputAccounts (l r : OutputAccount) : OutputAccount :=
  {| Address := nonempty_or (Address r) (Address l);
     Nonce := if Nonce l <? Nonce r then Nonce r else Nonce l;
     Balance := match Balance r with Some b => Some b | None => Balance l end;
     BalanceDelta := match BalanceDelta r with
                     | Some d => Some d
                     | None => Some (default 0 (BalanceDelta l))
                     end;
     StorageUpdates := mergeStorageUpdates (StorageUpdates l) (StorageUpdates r);
     Code := nonempty_or (Code r) (Code l);
     CodeMetadata := nonempty_or (CodeMetadata r) (CodeMetadata l);
     CodeDeployerAddress := match CodeDeployerAddress r with
                            | Some a => Some a
                            | None => CodeDeployerAddress l
                            end;
     OutputTransfers :=
       if len (OutputTransfers l) <? len (OutputTransfers r)
       then OutputTransfers l ++ drop (length (OutputTransfers l)) (OutputTransfers r)
       else OutputTransfers l;
     GasUsed := GasUsed r |}.

(** One iteration of the loop of [mergeVMOutputs]: the right account goes to
    the left account of its own [Address]. *)
Definition merge_account (accounts : gmap bytes OutputAccount) (r : OutputAccount) :
    gmap bytes OutputAccount :=
  let leftAccount := default zeroOutputAccount (accounts !! Address r) in
  <[Address r := mergeOutputAccounts leftAccount r]> accounts.

Section Merge.
Context `{Ext : Externals}.

Definition mergeVMOutputs (left right : VMOutput) : VMOutput :=
  {| ReturnData := ReturnData left ++ ReturnData right;
     out_ReturnCode := out_ReturnCode right;
     ReturnMessage := ReturnMessage right;
     GasRemaining := GasRemaining right;
     GasRefund := Some (default 0 (GasRefund right));
     OutputAccounts :=
       fold_left (fun accounts kr => merge_account accounts (snd kr))
         (range (OutputAccounts right)) (OutputAccounts left);
     DeletedAccounts := DeletedAccounts left;
     TouchedAccounts := TouchedAccounts left;
     Logs := Logs left ++ Logs right |}.

End Merge.

(** ** The operations on the context *)

Module Output.
Section Output.
Context `{Ext : Externals}.

Definition on_state (f : VMOutput -> VMOutput) (c : outputContext) : outputContext :=
  set_outputState (f (outputState c)) c.

Definition InitState (c : outputContext) : outputContext :=
  set_codeUpdates ∅ (set_outputState newVMOutput c).

Definition PushState (c : outputContext) : outputContext :=
  set_out_stateStack (out_stateStack c ++ [mergeVMOutputs newVMOutput (outputState c)]) c.

Definition PopSetActiveState (c : outputContext) : outputContext :=
  match pop (out_stateStack c) with
  | None => c
  | Some (prevState, rest) => set_outputState prevState (set_out_stateStack rest c)
  end.

Definition PopMergeActiveState (c : outputContext) : outputContext :=
  match pop (out_stateStack c) with
  | None => c
  | Some (prevState, rest) =>
      let prevState := mergeVMOutputs prevState (outputState c) in
      set_outputState (mergeVMOutputs newVMOutput prevState) (set_out_stateStack rest c)
  end.

Definition PopDiscard (c : outputContext) : outputContext :=
  match pop (out_stateStack c) with
  | None => c
  | Some (_, rest) => set_out_stateStack rest c
  end.

Definition ClearStateStack (c : outputContext) : outputContext := set_out_stateStack [] c.

Definition CensorVMOutput : outputContext -> outputContext :=
  on_state (fun o =>
    {| ReturnData := [];
       out_ReturnCode := Ok;
       ReturnMessage := [];
       GasRemaining := 0;
       GasRefund := Some 0;
       OutputAccounts := OutputAccounts o;
       DeletedAccounts := DeletedAccounts o;
       TouchedAccounts := TouchedAccounts o;
       Logs := [] |}).

(** [GetOutputAccount] returns a pointer into the map of accounts: callers
    that go on to change the account use [update_account]. *)
Definition GetOutputAccount (address : bytes) (c : outputContext) :
    OutputAccount * bool * outputContext :=
  match OutputAccounts (outputState c) !! address with
  | Some account => (account, false, c)
  | None =>
      let account := NewVMOutputAccount address in
      (account, true,
       on_state (fun o => set_OutputAccounts (<[address := account]> (OutputAccounts o)) o) c)
  end.

Definition update_account (address : bytes) (f : OutputAccount -> OutputAccount)
    (c : outputContext) : outputContext :=
  let '(account, _, c) := GetOutputAccount address c in
  on_state (fun o => set_OutputAccounts (<[address := f account]> (OutputAccounts o)) o) c.

Definition DeleteOutputAccount (address : bytes) (c : outputContext) : outputContext :=
  set_codeUpdates (codeUpdates c ∖ {[address]})
    (on_state (fun o => set_OutputAccounts (delete address (OutputAccounts o)) o) c).

Definition GetRefund (c : outputContext) : option Z :=
  u64 ∘ s64 <$> GasRefund (outputState c).
Definition SetRefund (refund : Z) : outputContext -> outputContext :=
  on_state (set_GasRefund (Some (s64 refund))).
Definition SetReturnCode (code : ReturnCode) : outputContext -> outputContext :=
  on_state (set_out_ReturnCode code).
Definition SetReturnMessage (m : bytes) : outputContext -> outputContext :=
  on_state (set_ReturnMessage m).
Definition ClearReturnData : outputContext -> outputContext := on_state (set_ReturnData []).

Definition Finish (data : bytes) : outputContext -> outputContext :=
  on_state (fun o => set_ReturnData (ReturnData o ++ [data]) o).
Definition PrependFinish (data : bytes) : outputContext -> outputContext :=
  on_state (fun o => set_ReturnData (data :: ReturnData o) o).

Definition DeployCode (input : CodeDeployInput) (c : outputContext) : outputContext :=
  let address := cdi_ContractAddress input in
  let c := update_account address (fun a =>
    set_Code (cdi_ContractCode input)
      (set_CodeMetadata (cdi_ContractCodeMetadata input)
        (set_CodeDeployerAddress (Some (cdi_CodeDeployerAddress input)) a))) c in
  set_codeUpdates ({[address]} ∪ codeUpdates c) c.

Definition removeNonUpdatedCode (c : outputContext) : outputContext :=
  on_state (fun o => set_OutputAccounts
    (map_imap (fun address account => Some
       (if decide (address ∈ codeUpdates c) then account
        else set_Code [] (set_CodeMetadata [] (set_CodeDeployerAddress None account))))
       (OutputAccounts o)) o) c.

Definition resolveReturnCodeFromError (err : option error) : ReturnCode :=
  match err with
  | None => Ok
  | Some err =>
      if errors_Is err ErrSignalError then UserError
      else if errors_Is err ErrFuncNotFound then FunctionNotFound
      else if errors_Is err ErrFunctionNonvoidSignature then FunctionWrongSignature
      else if errors_Is err ErrInvalidFunction then UserError
      else if errors_Is err ErrNotEnoughGas then OutOfGas
      else if errors_Is err ErrContractNotFound then ContractNotFound
      else if errors_Is err ErrContractInvalid then ContractInvalid
      else if errors_Is err ErrUpgradeFailed then UpgradeFailed
      else if errors_Is err ErrTransferInsufficientFunds then OutOfFunds
      else ExecutionFailed
  end.

(** One iteration of the loop of [AddToActiveState]; the right account is
    updated in place, so the loop also builds the right accounts. *)
Definition add_step (acc : gmap bytes OutputAccount * gmap bytes OutputAccount)
    (kr : bytes * OutputAccount) :
    option (gmap bytes OutputAccount * gmap bytes OutputAccount) :=
  let '(lefts, rights) := acc in
  let '(key, r) := kr in
  match lefts !! Address r with
  | None => Some (lefts, rights)
  | Some l =>
      r' ← (match BalanceDelta r with
            | None => Some r
            | Some d => dl ← BalanceDelta l; Some (set_BalanceDelta (Some (d + dl)) r)
            end);
      let l' := match OutputTransfers r with
                | [] => l
                | transfers => set_OutputTransfers (OutputTransfers l ++ transfers) l
                end in
      Some (<[Address r := l']> lefts, <[key := r']> rights)
  end.

(** Returns the context and the rights output as [AddToActiveState] leaves it;
    [None] is the panic of adding a nil [big.Int]. *)
Definition AddToActiveState (rightOutput : VMOutput) (c : outputContext) :
    option (outputContext * VMOutput) :=
  let o := outputState c in
  refund ← (match GasRefund rightOutput with
            | None => Some None
            | Some r => l ← GasRefund o; Some (Some (r + l))
            end);
  accounts ← fold_option add_step (range (OutputAccounts rightOutput))
               (OutputAccounts o, OutputAccounts rightOutput);
  let '(lefts, rights) := accounts in
  let rightOutput := set_OutputAccounts rights (set_GasRefund refund rightOutput) in
  Some (set_outputState (mergeVMOutputs (set_OutputAccounts lefts o) rightOutput) c,
        rightOutput).

End Output.
End Output.

(** ** In the host *)

Section InHost.
Context `{Ext : Externals}.

Definition outputOf (st : HostState) : VMOutput := outputState (st_output st).

(** [GetOutputAccount] through the host; it creates a missing account. *)
Definition get_account (address : bytes) : M OutputAccount := fun st =>
  let '(account, _, c) := Output.GetOutputAccount address (st_output st) in
  (set_st_output c st, Ret account).

Definition modify_account (address : bytes) (f : OutputAccount -> OutputAccount) : M unit :=
  modify_output (Output.update_account address f).

#[export] Instance get_account_keeps {A} (part : HostState -> A) address :
  (forall c st, part (set_st_output c st) = part st) ->
  Keeps (same part) (get_account address).
Proof.
  intros Hp st. unfold get_account, same.
  destruct (Output.GetOutputAccount address (st_output st)) as [[a b] c]. apply Hp.
Qed.

End InHost.

(** ** Well-formed outputs *)

(** Every account is stored under its own address, with a balance delta. *)
Definition account_wf (address : bytes) (a : OutputAccount) : Prop :=
  Address a = address /\ is_Some (BalanceDelta a) /\ 0 <= Nonce a.

Definition accounts_wf (m : gmap bytes OutputAccount) : Prop := map_Forall account_wf m.

Definition output_wf (o : VMOutput) : Prop :=
  accounts_wf (OutputAccounts o) /\ is_Some (GasRefund o).

(** Accounts stored under their own addresses, as a right operand of a merge
    must be. *)
Definition keyed (m : gmap bytes OutputAccount) : Prop :=
  map_Forall (fun address a => Address a = address) m.

Lemma accounts_wf_keyed m : accounts_wf m -> keyed m.
Proof. intros H k a Hk. by destruct (H k a Hk). Qed.

(** ** The merge, account by account *)

Definition merge_entry (l r : option OutputAccount) : option OutputAccount :=
  match r with
  | None => l
  | Some r => Some (mergeOutputAccounts (default zeroOutputAccount l) r)
  end.

Section MergeLemmas.
Context `{Ext : Externals}.

Lemma range_keys {A} (m : gmap bytes A) : NoDup (range m).*1.
Proof. rewrite range_perm. apply NoDup_fst_map_to_list. Qed.

Lemma range_list_to_map {A} (m : gmap bytes A) : list_to_map (range m) = m.
Proof.
  rewrite <- (list_to_map_to_list m) at 2. apply list_to_map_proper; [apply range_keys|].
  apply range_perm.
Qed.

Lemma elem_of_range {A} (m : gmap bytes A) k a : (k, a) ∈ range m <-> m !! k = Some a.
Proof. rewrite range_perm. apply elem_of_map_to_list. Qed.

Lemma merge_loop (l : list (bytes * OutputAccount)) accounts a :
  NoDup l.*1 -> (forall k r, (k, r) ∈ l -> Address r = k) ->
  fold_left (fun m kr => merge_account m (snd kr)) l accounts !! a =
  merge_entry (accounts !! a) ((list_to_map l : gmap bytes OutputAccount) !! a).
Proof.
  revert accounts; induction l as [|[k r] l IH]; intros accounts Hnd Hk; cbn; [done|].
  apply list_relations.list.NoDup_cons in Hnd as [Hnin Hnd].
  rewrite IH by (done || (intros; apply Hk; by right)).
  assert (Address r = k) as HA by (apply Hk; by left).
  unfold merge_account. rewrite HA.
  destruct (decide (a = k)) as [->|Hne].
  - rewrite !lookup_insert_eq. by rewrite (not_elem_of_list_to_map_1 _ _ Hnin).
  - by rewrite !lookup_insert_ne by done.
Qed.

Lemma mergeVMOutputs_lookup l r a :
  keyed (OutputAccounts r) ->
  OutputAccounts (mergeVMOutputs l r) !! a =
  merge_entry (OutputAccounts l !! a) (OutputAccounts r !! a).
Proof.
  intros Hk. cbn [mergeVMOutputs OutputAccounts].
  rewrite merge_loop; [by rewrite range_list_to_map | apply range_keys |].
  intros k x Hx%elem_of_range. by apply Hk.
Qed.

Lemma nonempty_or_nil r : nonempty_or r [] = r.
Proof. by destruct r. Qed.

Lemma merge_zero k a : account_wf k a -> mergeOutputAccounts zeroOutputAccount a = a.
Proof.
  intros (_ & [d Hd] & Hn). destruct a as [ad no ba bd su co cm de ts gas]. cbn in *. subst. unfold mergeOutputAccounts. cbn.
  rewrite !nonempty_or_nil. f_equal.
  - destruct (Z.ltb_spec 0 no); lia.
  - by destruct ba.
  - unfold mergeStorageUpdates. by rewrite (right_id_L ∅ (∪)).
  - by destruct de.
  - rewrite drop_0. by destruct ts.
Qed.

Lemma merge_new_accounts o :
  accounts_wf (OutputAccounts o) ->
  OutputAccounts (mergeVMOutputs newVMOutput o) = OutputAccounts o.
Proof.
  intros Hwf. apply map_eq. intros a.
  rewrite mergeVMOutputs_lookup by by apply accounts_wf_keyed.
  destruct (OutputAccounts o !! a) as [x|] eqn:E; cbn; [|done].
  rewrite lookup_empty. cbn. f_equal. eapply merge_zero. by apply Hwf.
Qed.

(** What a snapshot of an output holds: all of it but the deleted and touched
    accounts, which the merge does not copy. *)
Definition snapshot (o : VMOutput) : VMOutput := set_DeletedAccounts [] (set_TouchedAccounts [] o).

Lemma merge_new o : output_wf o -> mergeVMOutputs newVMOutput o = snapshot o.
Proof.
  intros [Hwf [g Hg]]. pose proof (merge_new_accounts o Hwf) as Ha.
  unfold mergeVMOutputs, snapshot in *. cbn in *. rewrite Ha, Hg. cbn.
  by destruct o; cbn in *; subst.
Qed.

Lemma merge_wf_entry k l r :
  account_wf k r -> (forall x, l = Some x -> account_wf k x) ->
  account_wf k (mergeOutputAccounts (default zeroOutputAccount l) r).
Proof.
  intros (HA & [d Hd] & Hn) Hl. split_and!; cbn.
  - unfold nonempty_or. destruct (Address r) eqn:E; [|done].
    destruct l as [x|]; cbn; [|done]. by destruct (Hl x eq_refl).
  - rewrite Hd. by eexists.
  - destruct (Z.ltb_spec (Nonce (default zeroOutputAccount l)) (Nonce r)); lia.
Qed.

Lemma merge_wf l r : output_wf l -> output_wf r -> output_wf (mergeVMOutputs l r).
Proof.
  intros [Hl _] [Hr _]. split; [|by eexists]. intros k a.
  rewrite mergeVMOutputs_lookup by by apply accounts_wf_keyed.
  destruct (OutputAccounts r !! k) as [x|] eqn:E; cbn; [|apply Hl].
  intros [= <-]. apply merge_wf_entry; [by apply Hr | by intros ? ?%Hl].
Qed.

(** *** Merging an extension *)

(** What executing further does to an account: transfers and storage updates
    are only added, nonces grow, code and deployer are not erased. *)
Record account_extends (l r : OutputAccount) : Prop := {
  ext_Address : Address r = Address l;
  ext_Nonce : Nonce l <= Nonce r;
  ext_Balance : is_Some (Balance l) -> is_Some (Balance r);
  ext_BalanceDelta : is_Some (BalanceDelta r);
  ext_StorageUpdates : dom (StorageUpdates l) ⊆ dom (StorageUpdates r);
  ext_Code : Code r = [] -> Code l = [];
  ext_CodeMetadata : CodeMetadata r = [] -> CodeMetadata l = [];
  ext_Deployer : is_Some (CodeDeployerAddress l) -> is_Some (CodeDeployerAddress r);
  ext_Transfers : OutputTransfers l `prefix_of` OutputTransfers r;
}.

Lemma nonempty_or_ext r l : (r = [] -> l = []) -> nonempty_or r l = r.
Proof. destruct r; [|done]. intros H. by apply H. Qed.

Lemma merge_extension l r : account_extends l r -> mergeOutputAccounts l r = r.
Proof.
  intros []. destruct r as [ad no ba bd su co cm de ts gas]. cbn in *.
  unfold mergeOutputAccounts. cbn.
  rewrite !nonempty_or_ext by (done || congruence). f_equal.
  - destruct (Z.ltb_spec (Nonce l) no); lia.
  - destruct ba; [done|]. destruct (Balance l); [|done].
    by destruct (ext_Balance0 ltac:(by eexists)).
  - by destruct ext_BalanceDelta0 as [d ->].
  - unfold mergeStorageUpdates. apply map_eq. intros k. rewrite lookup_union.
    destruct (su !! k) eqn:E; [by destruct (StorageUpdates l !! k)|].
    apply not_elem_of_dom in E. rewrite (left_id_L None (∪)).
    apply not_elem_of_dom. intros Hk. apply E. by apply ext_StorageUpdates0.
  - destruct de; [done|]. destruct (CodeDeployerAddress l); [|done].
    by destruct (ext_Deployer0 ltac:(by eexists)).
  - destruct ext_Transfers0 as [more ->]. unfold len. rewrite length_app.
    destruct (Z.ltb_spec (Z.of_nat (length (OutputTransfers l)))
      (Z.of_nat (length (OutputTransfers l) + length more))) as [|Hge].
    + by rewrite drop_app_length.
    + destruct more; [by rewrite app_nil_r | cbn in Hge; lia].
Qed.

Lemma account_extends_refl k a : account_wf k a -> account_extends a a.
Proof. intros (_ & H & _). by split. Qed.

Lemma account_extends_trans a b c :
  account_extends a b -> account_extends b c -> account_extends a c.
Proof.
  intros [] []. split; try done; try congruence; eauto.
  - lia.
  - by etransitivity.
  - by etransitivity.
Qed.

Definition accounts_extend (old new : gmap bytes OutputAccount) : Prop :=
  forall k a, old !! k = Some a -> exists b, new !! k = Some b /\ account_extends a b.

Lemma merge_accounts_extension l r :
  accounts_wf (OutputAccounts r) -> accounts_extend (OutputAccounts l) (OutputAccounts r) ->
  OutputAccounts (mergeVMOutputs l r) = OutputAccounts r.
Proof.
  intros Hwf Hext. apply map_eq. intros a.
  rewrite mergeVMOutputs_lookup by by apply accounts_wf_keyed.
  destruct (OutputAccounts r !! a) as [x|] eqn:E; cbn.
  - f_equal. destruct (OutputAccounts l !! a) as [y|] eqn:El; cbn.
    + destruct (Hext a y El) as (b & Hb & Hab). apply merge_extension. congruence.
    + eapply merge_zero. by apply Hwf.
  - destruct (OutputAccounts l !! a) as [y|] eqn:El; [|done].
    destruct (Hext a y El) as (b & Hb & _). congruence.
Qed.

End MergeLemmas.

(** ** The accounts after [AddToActiveState] *)

Definition delta_of (o : VMOutput) (a : bytes) : Z :=
  default 0 (OutputAccounts o !! a ≫= BalanceDelta).

Definition transfers_of (o : VMOutput) (a : bytes) : list OutputTransfer :=
  default [] (OutputTransfers <$> OutputAccounts o !! a).

Definition plus_delta (l : option OutputAccount) (r : OutputAccount) : OutputAccount :=
  match l, BalanceDelta r with
  | Some l, Some d => set_BalanceDelta (Some (d + default 0 (BalanceDelta l))) r
  | _, _ => r
  end.

Definition plus_transfers (l : OutputAccount) (r : option OutputAccount) : OutputAccount :=
  match r with
  | Some r => set_OutputTransfers (OutputTransfers l ++ OutputTransfers r) l
  | None => l
  end.

Section AddToActiveState.
Context `{Ext : Externals}.

Lemma set_OutputTransfers_same a : set_OutputTransfers (OutputTransfers a ++ []) a = a.
Proof. rewrite app_nil_r. by destruct a. Qed.

Lemma add_step_run (L R : gmap bytes OutputAccount) k r :
  Address r = k -> R !! k = Some r ->
  (forall x, L !! k = Some x -> is_Some (BalanceDelta x)) ->
  Output.add_step (L, R) (k, r) =
  Some (alter (fun l => plus_transfers l (Some r)) k L, <[k := plus_delta (L !! k) r]> R).
Proof.
  intros HA HR Hbd. cbn. rewrite HA. destruct (L !! k) as [l|] eqn:El.
  - destruct (Hbd l eq_refl) as [dl Hdl]. rewrite Hdl. cbn.
    assert (forall (x : OutputAccount) (m : gmap bytes OutputAccount),
      m !! k = Some l ->
      <[k := match OutputTransfers r with
             | [] => l
             | ts => set_OutputTransfers (OutputTransfers l ++ ts) l end]> m =
      alter (fun l => set_OutputTransfers (OutputTransfers l ++ OutputTransfers r) l) k m) as Halt.
    { intros _ m Hm. rewrite <- (insert_id m k l Hm) at 2. rewrite alter_insert_eq. f_equal.
      destruct (OutputTransfers r); [by rewrite set_OutputTransfers_same | done]. }
    destruct (BalanceDelta r) as [d|]; cbn; rewrite Halt by done; by rewrite ?Hdl.
  - do 2 f_equal.
    + symmetry. apply map_eq. intros i. destruct (decide (i = k)) as [->|];
        [by rewrite lookup_alter_eq, El | by rewrite lookup_alter_ne].
    + by rewrite insert_id.
Qed.

Lemma add_loop (l : list (bytes * OutputAccount)) (L R : gmap bytes OutputAccount) :
  NoDup l.*1 -> (forall k r, (k, r) ∈ l -> Address r = k /\ R !! k = Some r) ->
  map_Forall (fun _ x => is_Some (BalanceDelta x)) L ->
  exists L' R', fold_option Output.add_step l (L, R) = Some (L', R') /\
    forall a, let r := (list_to_map l : gmap bytes OutputAccount) !! a in
      L' !! a = (λ x, plus_transfers x r) <$> L !! a /\
      R' !! a = match r with Some r => Some (plus_delta (L !! a) r) | None => R !! a end.
Proof.
  revert L R; induction l as [|[k r] l IH]; intros L R Hnd Hk Hbd.
  { exists L, R. split; [done|]. intros a. cbn. rewrite lookup_empty. split; [|done].
    by destruct (L !! a). }
  apply list_relations.list.NoDup_cons in Hnd as [Hnin Hnd]. cbn [fst] in Hnin.
  destruct (Hk k r) as [HA HR]; [by left|].
  cbn [fold_option]. rewrite add_step_run by (done || apply Hbd). cbn [mbind option_bind].
  destruct (IH (alter (fun l => plus_transfers l (Some r)) k L)
    (<[k:=plus_delta (L !! k) r]> R)) as (L' & R' & -> & HLR); [done | | |].
  - intros k' r' Hin. assert (k' <> k) as Hne.
    { intros ->. apply Hnin. by apply (list_elem_of_fmap_2 fst _ _ Hin). }
    rewrite lookup_insert_ne by done. apply Hk. by right.
  - intros i x. destruct (decide (i = k)) as [->|].
    + rewrite lookup_alter_eq. destruct (L !! k) as [y|] eqn:E; [|done].
      cbn. intros [= <-]. by apply (Hbd k y).
    + rewrite lookup_alter_ne by done. apply Hbd.
  - exists L', R'. split; [done|]. intros a. specialize (HLR a) as [HL HR']. cbn.
    rewrite HL, HR'. destruct (decide (a = k)) as [->|].
    + rewrite !lookup_insert_eq, lookup_alter_eq, (not_elem_of_list_to_map_1 _ _ Hnin).
      split; [|done]. by destruct (L !! k).
    + rewrite !lookup_insert_ne, !lookup_alter_ne by done. done.
Qed.

Lemma plus_delta_Address l r : Address (plus_delta l r) = Address r.
Proof. unfold plus_delta. destruct l; [|done]. by destruct (BalanceDelta r). Qed.

(** The accounts after [AddToActiveState], and that it does not panic. *)
Lemma AddToActiveState_run c right :
  output_wf (outputState c) -> keyed (OutputAccounts right) ->
  exists c' right', Output.AddToActiveState right c = Some (c', right') /\
    out_stateStack c' = out_stateStack c /\ codeUpdates c' = codeUpdates c /\
    ReturnData (outputState c') = ReturnData (outputState c) ++ ReturnData right /\
    Logs (outputState c') = Logs (outputState c) ++ Logs right /\
    GasRemaining (outputState c') = GasRemaining right /\
    GasRefund (outputState c') =
      Some (match GasRefund right with
            | Some r => r + default 0 (GasRefund (outputState c))
            | None => 0
            end) /\
    forall a, OutputAccounts (outputState c') !! a =
      merge_entry
        ((λ x, plus_transfers x (OutputAccounts right !! a)) <$> OutputAccounts (outputState c) !! a)
        (plus_delta (OutputAccounts (outputState c) !! a) <$> OutputAccounts right !! a).
Proof.
  intros [Hwf [g Hg]] Hk. unfold Output.AddToActiveState. rewrite Hg.
  destruct (add_loop (range (OutputAccounts right)) (OutputAccounts (outputState c))
    (OutputAccounts right)) as (L' & R' & HLR & Ha).
  { apply range_keys. }
  { intros k r Hr%elem_of_range. split; [by apply Hk | done]. }
  { intros k a Hka. by apply (Hwf k a Hka). }
  assert (keyed R') as HkR.
  { intros k x Hx. destruct (Ha k) as [_ HR]. rewrite Hx, range_list_to_map in HR.
    destruct (OutputAccounts right !! k) as [r|] eqn:E; [|done]. injection HR as ->.
    rewrite plus_delta_Address. by apply Hk. }
  rewrite HLR. destruct (GasRefund right) as [r|] eqn:Er; cbn [mbind option_bind];
    (eexists _, _; split; [reflexivity|]; split_and!; try done; intros a;
     specialize (Ha a) as [HL HR]; rewrite range_list_to_map in HL, HR;
     cbn [outputState set_outputState]; rewrite mergeVMOutputs_lookup by done;
     cbn [OutputAccounts set_OutputAccounts set_GasRefund]; rewrite HL, HR;
     by destruct (OutputAccounts right !! a)).
Qed.

End AddToActiveState.

(** ** The stack interface *)

Section Stack.
Context `{Ext : Externals}.

#[export] Instance output_stack : StateStack VMOutput.
Proof.
  refine {|
    PushState := modify_output Output.PushState;
    PopSetActiveState := modify_output Output.PopSetActiveState;
    PopDiscard := modify_output Output.PopDiscard;
    view st := out_stateStack (st_output st);
    saved st := mergeVMOutputs newVMOutput (outputState (st_output st));
    holds st x := outputState (st_output st) = x
  |}.
  - intros st. eexists. split; reflexivity.
  - intros st l x Hv. eexists. split; [reflexivity|]. cbn.
    unfold Output.PopSetActiveState. by rewrite Hv, pop_snoc.
  - intros st Hv. unfold modify_output, modify, Output.PopSetActiveState. rewrite Hv. cbn.
    by destruct st.
  - intros st l x Hv. eexists. split; [reflexivity|]. cbn.
    unfold Output.PopDiscard. by rewrite Hv, pop_snoc.
  - intros st Hv. unfold modify_output, modify, Output.PopDiscard. rewrite Hv. cbn.
    by destruct st.
Defined.

(** ** Properties *)

(** C15: merging outputs works account by account - the order in which Go visits
    the right operand's map of accounts does not matter: an account of both
    operands is merged, one of a single operand is kept (a right one on top of
    an empty account). *)
Theorem mergeVMOutputs_pointwise (Ext' : Externals) l r :
  keyed (OutputAccounts r) ->
  @mergeVMOutputs Ext l r = @mergeVMOutputs Ext' l r /\
  (forall a, OutputAccounts (mergeVMOutputs l r) !! a =
     merge_entry (OutputAccounts l !! a) (OutputAccounts r !! a)).
Proof.
  intros Hk. split; [|intros; by apply mergeVMOutputs_lookup].
  assert (OutputAccounts (@mergeVMOutputs Ext l r) = OutputAccounts (@mergeVMOutputs Ext' l r))
    as Ha by (apply map_eq; intros a; by rewrite !mergeVMOutputs_lookup).
  unfold mergeVMOutputs in *. cbn in Ha. by rewrite Ha.
Qed.

(** Pushing a well-formed output and popping it later, whatever was
    executed in between, restores the output (all but its lists of deleted and
    touched accounts) and the stack. *)
Theorem snapshot_restored c c' :
  output_wf (outputState c) ->
  out_stateStack c' = out_stateStack (Output.PushState c) ->
  outputState (Output.PopSetActiveState c') =
    set_DeletedAccounts [] (set_TouchedAccounts [] (outputState c)) /\
  out_stateStack (Output.PopSetActiveState c') = out_stateStack c /\
  codeUpdates (Output.PopSetActiveState c') = codeUpdates c'.
Proof.
  intros Hwf Hs. unfold Output.PopSetActiveState. rewrite Hs. cbn.
  rewrite pop_snoc. cbn. by rewrite merge_new.
Qed.

(** When the executed contract only extended the accounts it started from
    (transfers appended, nonces not lowered, storage updates kept),
    [PopMergeActiveState] keeps exactly its accounts, and its return data and
    logs follow those of the caller. *)
Theorem PopMergeActiveState_extension c l saved :
  out_stateStack c = l ++ [saved] -> output_wf saved -> output_wf (outputState c) ->
  accounts_extend (OutputAccounts saved) (OutputAccounts (outputState c)) ->
  let c' := Output.PopMergeActiveState c in
  out_stateStack c' = l /\
  OutputAccounts (outputState c') = OutputAccounts (outputState c) /\
  ReturnData (outputState c') = ReturnData saved ++ ReturnData (outputState c) /\
  Logs (outputState c') = Logs saved ++ Logs (outputState c) /\
  GasRefund (outputState c') = GasRefund (outputState c) /\
  out_ReturnCode (outputState c') = out_ReturnCode (outputState c).
Proof.
  intros Hs Hwfs Hwf Hext. cbv zeta. unfold Output.PopMergeActiveState.
  rewrite Hs, pop_snoc. cbn [out_stateStack set_outputState set_out_stateStack outputState].
  rewrite merge_new by by apply merge_wf. unfold snapshot.
  assert (OutputAccounts (mergeVMOutputs saved (outputState c)) = OutputAccounts (outputState c))
    as Ha by (apply merge_accounts_extension; [apply Hwf | done]).
  destruct Hwf as [_ [g Hg]]. split_and!; try done. cbn. by rewrite Hg.
Qed.

(** Merging an output into the active state never panics on a well-formed
    state; for every account the balance changes add up and the transfers of
    the merged output follow those already there. *)
Theorem AddToActiveState_adds c right :
  output_wf (outputState c) -> keyed (OutputAccounts right) ->
  exists c' right', Output.AddToActiveState right c = Some (c', right') /\
    (forall a,
       delta_of (outputState c') a = delta_of (outputState c) a + delta_of right a /\
       transfers_of (outputState c') a =
         transfers_of (outputState c) a ++ transfers_of right a) /\
    ReturnData (outputState c') = ReturnData (outputState c) ++ ReturnData right /\
    Logs (outputState c') = Logs (outputState c) ++ Logs right.
Proof.
  intros Hwf Hk. destruct (AddToActiveState_run c right Hwf Hk)
    as (c' & right' & Hrun & _ & _ & Hd & Hl & _ & _ & Ha).
  exists c', right'. split; [done|]. split; [|done]. intros a.
  unfold delta_of, transfers_of. rewrite (Ha a).
  destruct (OutputAccounts (outputState c) !! a) as [l|] eqn:El,
    (OutputAccounts right !! a) as [r|]; cbn.
  - destruct (proj1 Hwf a l El) as (_ & [dl Hdl] & _). rewrite Hdl. cbn. split.
    + destruct (BalanceDelta r) as [d|] eqn:Er; cbn; rewrite ?Er; cbn; lia.
    + destruct (BalanceDelta r); cbn; unfold len; rewrite length_app;
        (destruct (Z.ltb_spec (Z.of_nat (length (OutputTransfers l) + length (OutputTransfers r)))
          (Z.of_nat (length (OutputTransfers r)))); [lia | done]).
  - rewrite app_nil_r. split; [lia | done].
  - rewrite drop_0. split; [by destruct (BalanceDelta r) | by destruct (OutputTransfers r)].
  - done.
Qed.

End Stack.

(** ** Witnesses *)

Definition sample_account : OutputAccount :=
  set_OutputTransfers [mkOutputTransfer 5 0 0 [] DirectCall (bs "bob")]
    (set_BalanceDelta (Some 5) (NewVMOutputAccount (bs "alice"))).

Definition sample_output : VMOutput :=
  set_OutputAccounts {[ bs "alice" := sample_account ]} newVMOutput.

Lemma sample_output_wf : output_wf sample_output.
Proof.
  split; [|by eexists]. unfold accounts_wf, sample_output. cbn. apply map_Forall_singleton.
  split_and!; [done | by eexists | done].
Qed.

Lemma mergeVMOutputs_pointwise_witness :
  OutputAccounts (@mergeVMOutputs toy newVMOutput sample_output) !! bs "alice" =
  Some sample_account.
Proof.
  rewrite (proj2 (@mergeVMOutputs_pointwise toy toy newVMOutput sample_output
    (accounts_wf_keyed _ (proj1 sample_output_wf)))).
  vm_compute. reflexivity.
Defined.

Lemma snapshot_restored_witness :
  let c := mkoutputContext sample_output [] ∅ in
  outputState (Output.PopSetActiveState
    (set_outputState newVMOutput (@Output.PushState toy c))) = sample_output.
Proof.
  apply (proj1 (@snapshot_restored toy (mkoutputContext sample_output [] ∅)
    (set_outputState newVMOutput (@Output.PushState toy (mkoutputContext sample_output [] ∅)))
    sample_output_wf eq_refl)).
Defined.

Lemma PopMergeActiveState_extension_witness :
  OutputAccounts (outputState (@Output.PopMergeActiveState toy
    (mkoutputContext sample_output [newVMOutput] ∅))) = {[ bs "alice" := sample_account ]}.
Proof.
  apply (@PopMergeActiveState_extension toy (mkoutputContext sample_output [newVMOutput] ∅)
    [] newVMOutput eq_refl).
  - split; [apply map_Forall_empty | by eexists].
  - exact sample_output_wf.
  - intros k a. cbn. by rewrite lookup_empty.
Defined.

Lemma AddToActiveState_adds_witness :
  exists c' r', @Output.AddToActiveState toy sample_output
    (mkoutputContext sample_output [] ∅) = Some (c', r') /\
    delta_of (outputState c') (bs "alice") = 10.
Proof.
  destruct (@AddToActiveState_adds toy (mkoutputContext sample_output [] ∅) sample_output
    sample_output_wf (accounts_wf_keyed _ (proj1 sample_output_wf)))
    as (c' & r' & H & Ha & _).
  exists c', r'. split; [exact H|]. rewrite (proj1 (Ha (bs "alice"))). vm_compute. reflexivity.
Defined.
