(* ===== verification/Metering.v ===== *)
(** The metering context, [src/vmhost/contexts/metering.go]: gas limits, the gas
    used by each account, and the final gas accounting. *)
From S2P Require Import Prelude Errors Overflow Types State Logic Toy Runtime Output.

#[local] Open Scope Z_scope.

Module Metering.
Section Metering.
Context `{Ext : Externals}.

Definition met (st : HostState) : meteringState := met_state (st_metering st).
Definition modify_state (f : meteringState -> meteringState) : M unit :=
  modify_metering (fun c => set_met_state (f (met_state c)) c).

(** *** Initial state and state stack *)

Definition InitState : M unit := modify_state (fun _ => mkmeteringState 0 0 0 ∅).

(** [unlockGasIfAsyncCallback]: the input, which the caller owns, is updated. *)
Definition unlockGasIfAsyncCallback (input : VMInput) : M VMInput :=
  match VMInput_CallType input with
  | AsynchronousCallBack =>
      let gasProvided := AddUint64 (GasProvided input) (GasLocked input) in
      modify_state (set_gasForExecution gasProvided) ;;
      mret (set_GasLocked 0 (set_GasProvided gasProvided input))
  | _ => mret input
  end.

Definition InitStateFromContractCallInput (input : VMInput) : M VMInput :=
  InitState ;;
  input ← unlockGasIfAsyncCallback input;
  modify_state (set_initialGasProvided (GasProvided input)) ;;
  modify_state (set_gasForExecution (GasProvided input)) ;;
  mret input.

Definition PushState : M unit :=
  modify_metering (fun c => set_met_stateStack (met_stateStack c ++ [met_state c]) c).

Definition PopSetActiveState : M unit :=
  modify_metering (fun c =>
    match pop (met_stateStack c) with
    | None => c
    | Some (prevState, rest) => set_met_state prevState (set_met_stateStack rest c)
    end).

Definition PopDiscard : M unit :=
  modify_metering (fun c =>
    match pop (met_stateStack c) with
    | None => c
    | Some (_, rest) => set_met_stateStack rest c
    end).

(** [addToGasUsedByAccounts]; a missing entry counts as zero. *)
Definition addToGasUsedByAccounts (used gasUsed : gmap bytes Z) : gmap bytes Z :=
  fold_left (fun used kg => <[fst kg := u64 (default 0 (used !! fst kg) + snd kg)]> used)
    (range gasUsed) used.

Definition PopMergeActiveState : M unit :=
  modify_metering (fun c =>
    match pop (met_stateStack c) with
    | None => c
    | Some (prevState, rest) =>
        set_met_state
          (set_gasUsedByAccounts
             (addToGasUsedByAccounts (gasUsedByAccounts (met_state c))
                (gasUsedByAccounts prevState)) prevState)
          (set_met_stateStack rest c)
    end).

Definition ClearStateStack : M unit := modify_metering (set_met_stateStack []).

(** *** Using and restoring gas *)

Definition UseGas (gas : Z) : M unit :=
  used ← Runtime.GetPointsUsed; Runtime.SetPointsUsed (AddUint64 used gas).

Definition RestoreGas (gas : Z) : M unit :=
  gasUsed ← Runtime.GetPointsUsed;
  if gas <=? gasUsed then Runtime.SetPointsUsed (SubUint64 gasUsed gas) else mret tt.

Definition FreeGas (gas : Z) : M unit :=
  r ← gets (fun st => Output.GetRefund (st_output st));
  refund ← deref r;
  modify_output (Output.SetRefund (AddUint64 refund gas)).

Definition GasLeft : M Z :=
  gasProvided ← gets (fun st => gasForExecution (met st));
  gasUsed ← Runtime.GetPointsUsed;
  mret (if gasProvided <? gasUsed then 0 else gasProvided - gasUsed).

Definition GasSpentByContract : M Z :=
  executionGasUsed ← Runtime.GetPointsUsed;
  cost ← gets (fun st => initialCost (met st));
  mret (AddUint64 (if IsVMV2Enabled then cost else 0) executionGasUsed).

Definition GasUsedForExecution : M Z :=
  gasUsed ← GasSpentByContract;
  cost ← gets (fun st => initialCost (met st));
  mret (SubUint64 gasUsed cost).

Definition GetGasForExecution : M Z := gets (fun st => gasForExecution (met st)).
Definition GetGasProvided : M Z := gets (fun st => initialGasProvided (met st)).
Definition GetSCPrepareInitialCost : M Z := gets (fun st => initialCost (met st)).
Definition GetGasLocked : M Z := gets (fun st => GasLocked (vmInput (rt st))).
Definition BlockGasLimit : M Z := gets (fun st => blockGasLimit (st_metering st)).
Definition GasSchedule : M GasCost := gets (fun st => gasSchedule (st_metering st)).

(** The new schedule is what [config.CreateGasConfig] returned. *)
Definition SetGasSchedule (parsed : option GasCost) : M unit :=
  match parsed with
  | None => mret tt
  | Some schedule => modify_metering (set_gasSchedule schedule)
  end.

Definition BoundGasLimit (value : Z) : M Z :=
  gasLeft ← GasLeft;
  let limit := u64 value in
  mret (if gasLeft <? limit then gasLeft else limit).

Definition UseGasBounded (gasToUse : Z) : M (option error) :=
  gasLeft ← GasLeft;
  if gasLeft <=? gasToUse then mret (Some (ErrNotEnoughGas : error))
  else UseGas gasToUse ;; mret None.

Definition UseGasForAsyncStep : M (option error) :=
  schedule ← GasSchedule;
  UseGasBounded (BaseOpsAPICost.AsyncCallStep (gc_BaseOpsAPICost schedule)).

Definition ComputeGasLockedForAsync : M Z :=
  schedule ← GasSchedule;
  codeSize ← Runtime.GetSCCodeSize;
  let base := gc_BaseOperationCost schedule in
  let api := gc_BaseOpsAPICost schedule in
  let costPerByte := if IsAheadOfTimeCompileEnabled then BaseOperationCost.AoTPreparePerByte base
                     else BaseOperationCost.CompilePerByte base in
  let compilationGasLock := if IsDynamicGasLockingEnabled then MulUint64 codeSize costPerByte
                            else 0 in
  let executionGasLock :=
    AddUint64 (BaseOpsAPICost.AsyncCallStep api) (BaseOpsAPICost.AsyncCallbackGasLock api) in
  mret (AddUint64 compilationGasLock executionGasLock).

(** *** Initial cost *)

Definition deductInitialGas (code : bytes) (baseCost costPerByte : Z) : M (option error) :=
  input ← Runtime.GetVMInput;
  let codeCost := MulUint64 (u64 (len code)) costPerByte in
  let cost := AddUint64 baseCost codeCost in
  if GasProvided input <? cost then mret (Some (ErrNotEnoughGas : error))
  else
    modify_state (set_initialCost cost) ;;
    modify_state (set_gasForExecution (GasProvided input - cost)) ;;
    mret None.

Definition DeductInitialGasForExecution (contract : bytes) : M (option error) :=
  schedule ← GasSchedule;
  let base := gc_BaseOperationCost schedule in
  if IsAheadOfTimeCompileEnabled then
    deductInitialGas contract (BaseOperationCost.GetCode base)
      (BaseOperationCost.AoTPreparePerByte base)
  else deductInitialGas contract 0 (BaseOperationCost.CompilePerByte base).

Definition DeductInitialGasForDirectDeployment (input : CodeDeployInput) : M (option error) :=
  schedule ← GasSchedule;
  deductInitialGas (cdi_ContractCode input)
    (BaseOpsAPICost.CreateContract (gc_BaseOpsAPICost schedule))
    (BaseOperationCost.CompilePerByte (gc_BaseOperationCost schedule)).

Definition DeductInitialGasForIndirectDeployment (input : CodeDeployInput) : M (option error) :=
  schedule ← GasSchedule;
  deductInitialGas (cdi_ContractCode input) 0
    (BaseOperationCost.CompilePerByte (gc_BaseOperationCost schedule)).

(** *** Gas accounting by account *)

Definition getGasTransferredByAccount (account : OutputAccount) : Z :=
  fold_left (fun gasUsed t => AddUint64 (AddUint64 gasUsed (ot_GasLimit t)) (ot_GasLocked t))
    (OutputTransfers account) 0.

Definition getCurrentTotalUsedGas (accounts : gmap bytes OutputAccount) : Z :=
  fold_left (fun gasUsed ka =>
      AddUint64 (AddUint64 gasUsed (GasUsed (snd ka))) (getGasTransferredByAccount (snd ka)))
    (range accounts) 0.

Definition getGasUsedByAllOtherAccounts (current : bytes) (used : gmap bytes Z)
    (accounts : gmap bytes OutputAccount) : Z :=
  fold_left (fun total ka =>
      let gasUsed := if bytes_eqb (fst ka) current then 0 else default 0 (used !! fst ka) in
      AddUint64 (AddUint64 total gasUsed) (getGasTransferredByAccount (snd ka)))
    (range accounts) 0.

Definition updateSCGasUsed : M unit :=
  currentAccountAddress ← Runtime.GetSCAddress;
  currentContractAccount ← get_account currentAccountAddress;
  outputAccounts ← gets (fun st => OutputAccounts (outputOf st));
  used ← gets (fun st => gasUsedByAccounts (met st));
  let gasTransferredByCurrentAccount := getGasTransferredByAccount currentContractAccount in
  let gasUsedByOthers := getGasUsedByAllOtherAccounts currentAccountAddress used outputAccounts in
  gasUsed ← GasSpentByContract;
  let gasUsed := SubUint64 gasUsed gasTransferredByCurrentAccount in
  let gasUsed := SubUint64 gasUsed gasUsedByOthers in
  modify_state (fun s =>
    set_gasUsedByAccounts (<[currentAccountAddress := gasUsed]> (gasUsedByAccounts s)) s).

(** The [VMOutput] argument of the functions below is always the state of the
    output context. *)
Definition setGasUsedToOutputAccounts : M (option error) :=
  used ← gets (fun st => gasUsedByAccounts (met st));
  modify_output (Output.on_state (fun o => set_OutputAccounts
    (map_imap (fun address account => Some (set_GasUsed (default 0 (used !! address)) account))
       (OutputAccounts o)) o)) ;;
  accounts ← gets (fun st => OutputAccounts (outputOf st));
  mret (if bool_decide (dom used ⊆ dom accounts) then None
        else Some (ErrNew (bs "expected OutputAccount has used gas but is missing"))).

Definition checkGas : M (option error) :=
  if IsVMV2Enabled then
    accounts ← gets (fun st => OutputAccounts (outputOf st));
    gasRemaining ← gets (fun st => GasRemaining (outputOf st));
    gasProvided ← GetGasProvided;
    let totalGas := AddUint64 (getCurrentTotalUsedGas accounts) gasRemaining in
    mret (if totalGas =? gasProvided then None
          else Some (ErrInputAndOutputGasDoesNotMatch : error))
  else mret None.

Definition UpdateGasStateOnSuccess : M (option error) :=
  updateSCGasUsed ;;
  err ← setGasUsedToOutputAccounts;
  match err with
  | Some e => mret (Some e)
  | None => checkGas
  end.

Definition UpdateGasStateOnFailure : M unit :=
  address ← Runtime.GetSCAddress;
  gasProvided ← GetGasProvided;
  modify_account address (fun a => set_GasUsed (AddUint64 (GasUsed a) gasProvided) a).

Definition TrackGasUsedByBuiltinFunction (builtinInput : ContractCallInput)
    (builtinOutput : VMOutput) (postBuiltinInput : option ContractCallInput) : M unit :=
  let gasUsed := SubUint64 (GasProvided (call_VMInput builtinInput)) (GasRemaining builtinOutput) in
  let gasUsed := match postBuiltinInput with
                 | Some post => SubUint64 gasUsed (GasProvided (call_VMInput post))
                 | None => gasUsed
                 end in
  UseGas gasUsed.

End Metering.
End Metering.

(** ** The stack interface *)

Section Stack.
Context `{Ext : Externals}.

#[export] Instance metering_stack : StateStack meteringState.
Proof.
  refine {|
    PushState := Metering.PushState;
    PopSetActiveState := Metering.PopSetActiveState;
    PopDiscard := Metering.PopDiscard;
    view st := met_stateStack (st_metering st);
    saved st := Metering.met st;
    holds st x := Metering.met st = x
  |}.
  - intros st. eexists. split; reflexivity.
  - intros st l x Hv. eexists. split; [reflexivity|]. cbn. by rewrite Hv, pop_snoc.
  - intros st Hv. unfold Metering.PopSetActiveState, modify_metering, modify. rewrite Hv. cbn.
    by destruct st.
  - intros st l x Hv. eexists. split; [reflexivity|]. cbn. by rewrite Hv, pop_snoc.
  - intros st Hv. unfold Metering.PopDiscard, modify_metering, modify. rewrite Hv. cbn.
    by destruct st.
Defined.

End Stack.

(** ** Saturating sums *)

Lemma fold_AddUint64 {A} (f g : A -> Z) l s :
  is_u64 s -> Forall (fun x => is_u64 (f x) /\ is_u64 (g x)) l ->
  fold_left (fun acc x => AddUint64 (AddUint64 acc (f x)) (g x)) l s =
  Z.min MaxUint64 (s + Zsum ((fun x => f x + g x) <$> l)).
Proof.
  revert s; induction l as [|x l IH]; intros s Hs Hl; cbn.
  { word_lia. }
  apply Forall_cons_iff in Hl as [[Hf Hg] Hl].
  assert (0 <= Zsum ((fun x => f x + g x) <$> l)).
  { apply Zsum_nonneg, Forall_fmap. eapply Forall_impl; [|exact Hl]. cbn. word_lia. }
  rewrite IH by auto with words.
  rewrite (AddUint64_eq (AddUint64 s (f x))) by auto with words.
  rewrite AddUint64_eq by done. word_lia.
Qed.

(** The gas sent with the transfers recorded for an account. *)
Definition transferred (a : OutputAccount) : Z :=
  Zsum ((fun t => ot_GasLimit t + ot_GasLocked t) <$> OutputTransfers a).

Definition transfers_u64 (a : OutputAccount) : Prop :=
  Forall (fun t => is_u64 (ot_GasLimit t) /\ is_u64 (ot_GasLocked t)) (OutputTransfers a).

Lemma transferred_nonneg a : transfers_u64 a -> 0 <= transferred a.
Proof.
  intros H. apply Zsum_nonneg, Forall_fmap. eapply Forall_impl; [|exact H]. cbn. word_lia.
Qed.

Lemma getGasTransferredByAccount_eq a :
  transfers_u64 a -> Metering.getGasTransferredByAccount a = Z.min MaxUint64 (transferred a).
Proof. intros H. unfold Metering.getGasTransferredByAccount. by rewrite fold_AddUint64. Qed.

Lemma getGasTransferredByAccount_range a :
  transfers_u64 a -> is_u64 (Metering.getGasTransferredByAccount a).
Proof.
  intros H. rewrite getGasTransferredByAccount_eq by done.
  pose proof (transferred_nonneg a H). word_lia.
Qed.

Section Sums.
Context `{Ext : Externals}.

(** The accounts whose numbers are machine integers. *)
Definition accounts_u64 (m : gmap bytes OutputAccount) : Prop :=
  map_Forall (fun _ a => transfers_u64 a /\ is_u64 (GasUsed a)) m.

Lemma fold_range {A} (f g : bytes * A -> Z) (m : gmap bytes A) :
  (forall k a, m !! k = Some a -> is_u64 (f (k, a)) /\ is_u64 (g (k, a))) ->
  fold_left (fun acc x => AddUint64 (AddUint64 acc (f x)) (g x)) (range m) 0 =
  Z.min MaxUint64 (sum_map (fun k a => f (k, a) + g (k, a)) m).
Proof.
  intros H. rewrite fold_AddUint64.
  - rewrite Z.add_0_l. f_equal. unfold sum_map.
    rewrite (Zsum_perm _ _ (fmap_Permutation _ _ _ (range_perm m))).
    f_equal. apply list_fmap_ext. by intros i [k a] _.
  - word_lia.
  - apply list_relations.list.Forall_forall. intros [k a] Hin%elem_of_range. by apply H.
Qed.

(** Sums that cap each term at [MaxUint64] and the whole at [MaxUint64]. *)
Lemma sum_map_cap {A} (f g : bytes -> A -> Z) (m : gmap bytes A) :
  (forall k a, m !! k = Some a -> 0 <= f k a /\ 0 <= g k a) ->
  sum_map (fun k a => f k a + g k a) m <= MaxUint64 ->
  sum_map (fun k a => f k a + Z.min MaxUint64 (g k a)) m =
  sum_map (fun k a => f k a + g k a) m.
Proof.
  intros H Hle. apply sum_map_ext. intros k a Hk.
  rewrite (sum_map_split _ m k a Hk) in Hle.
  assert (0 <= sum_map (fun k a => f k a + g k a) (delete k m)).
  { apply sum_map_nonneg. intros i x [_ Hi]%lookup_delete_Some. specialize (H i x Hi). lia. }
  specialize (H k a Hk). lia.
Qed.

Lemma getCurrentTotalUsedGas_eq m :
  accounts_u64 m -> sum_map (fun _ a => GasUsed a + transferred a) m <= MaxUint64 ->
  Metering.getCurrentTotalUsedGas m = sum_map (fun _ a => GasUsed a + transferred a) m.
Proof.
  intros Hm Hle. unfold Metering.getCurrentTotalUsedGas.
  rewrite (fold_range (fun ka => GasUsed ka.2) (fun ka => Metering.getGasTransferredByAccount ka.2)).
  2:{ intros k a Hk. cbn. destruct (Hm k a Hk). by auto using getGasTransferredByAccount_range. }
  cbn. rewrite (sum_map_ext _ (fun _ a => GasUsed a + Z.min MaxUint64 (transferred a))).
  2:{ intros k a Hk. by rewrite getGasTransferredByAccount_eq by apply (Hm k a Hk). }
  rewrite (sum_map_cap (fun _ a => GasUsed a) (fun _ a => transferred a)); [lia | | done].
  intros k a Hk. destruct (Hm k a Hk) as [Ht Hu]. split; [apply Hu | by apply transferred_nonneg].
Qed.

(** The gas used by the accounts other than [current]. *)
Definition used_by_others (current : bytes) (used : gmap bytes Z)
    (m : gmap bytes OutputAccount) : Z :=
  sum_map (fun k _ => if bytes_eqb k current then 0 else default 0 (used !! k)) m.

Definition total_transferred (m : gmap bytes OutputAccount) : Z :=
  sum_map (fun _ a => transferred a) m.

Definition used_u64 (used : gmap bytes Z) : Prop := map_Forall (fun _ g => is_u64 g) used.

Lemma used_default_u64 used k : used_u64 used -> is_u64 (default 0 (used !! k)).
Proof. intros H. destruct (used !! k) eqn:E; cbn; [by apply (H k) | word_lia]. Qed.

Lemma getGasUsedByAllOtherAccounts_eq current used m :
  accounts_u64 m -> used_u64 used ->
  used_by_others current used m + total_transferred m <= MaxUint64 ->
  Metering.getGasUsedByAllOtherAccounts current used m =
  used_by_others current used m + total_transferred m.
Proof.
  intros Hm Hu Hle. unfold Metering.getGasUsedByAllOtherAccounts.
  assert (forall k, is_u64 (if bytes_eqb k current then 0 else default 0 (used !! k))) as Hr.
  { intros k. destruct (bytes_eqb k current); [word_lia | by apply used_default_u64]. }
  rewrite (fold_range (fun ka => if bytes_eqb ka.1 current then 0 else default 0 (used !! ka.1))
             (fun ka => Metering.getGasTransferredByAccount ka.2)).
  2:{ intros k a Hk. cbn. split; [apply Hr|].
      apply getGasTransferredByAccount_range. apply (Hm k a Hk). }
  unfold used_by_others, total_transferred in *. rewrite <- sum_map_add in *. cbn.
  rewrite (sum_map_ext _ (fun k a => (if bytes_eqb k current then 0 else default 0 (used !! k))
             + Z.min MaxUint64 (transferred a))).
  2:{ intros k a Hk. by rewrite getGasTransferredByAccount_eq by apply (Hm k a Hk). }
  rewrite (sum_map_cap (fun k _ => if bytes_eqb k current then 0 else default 0 (used !! k))
             (fun _ a => transferred a)); [lia | | done].
  intros k a Hk. split; [apply Hr | apply transferred_nonneg; apply (Hm k a Hk)].
Qed.

End Sums.

(** ** Runs of the operations *)

Section Runs.
Context `{Ext : Externals}.

Lemma GasLeft_run st h inst :
  running st h inst ->
  Metering.GasLeft st =
    (st, Ret (Z.max 0 (gasForExecution (Metering.met st) - inst_Points inst))).
Proof.
  intros Hr. unfold Metering.GasLeft. rewrite (bind_run _ _ _ _ _ eq_refl).
  rewrite (bind_run _ _ _ _ _ (GetPointsUsed_run _ _ _ Hr)). unfold mret, M_ret. do 2 f_equal.
  destruct (Z.ltb_spec (gasForExecution (Metering.met st)) (inst_Points inst)); lia.
Qed.

Lemma UseGas_run st h inst gas :
  running st h inst -> is_u64 (inst_Points inst) -> is_u64 gas ->
  Metering.UseGas gas st =
    (with_instance h (set_inst_Points (Z.min (inst_Points inst + gas) MaxInt64) inst) st, Ret tt).
Proof.
  intros Hr Hp Hg. unfold Metering.UseGas.
  rewrite (bind_run _ _ _ _ _ (GetPointsUsed_run _ _ _ Hr)), (SetPointsUsed_run _ _ h inst) by done.
  rewrite AddUint64_eq by done.
  assert (Z.min (Z.min MaxUint64 (inst_Points inst + gas)) MaxInt64 =
          Z.min (inst_Points inst + gas) MaxInt64) as -> by word_lia. done.
Qed.

Lemma GasSpentByContract_run st h inst :
  running st h inst -> IsVMV2Enabled = true ->
  Metering.GasSpentByContract st =
    (st, Ret (AddUint64 (initialCost (Metering.met st)) (inst_Points inst))).
Proof.
  intros Hr Hv. unfold Metering.GasSpentByContract.
  rewrite (bind_run _ _ _ _ _ (GetPointsUsed_run _ _ _ Hr)), (bind_run _ _ _ _ _ eq_refl).
  by rewrite Hv.
Qed.

(** The accounts once [GetOutputAccount] has created a missing one. *)
Definition accounts_with (a : bytes) (m : gmap bytes OutputAccount) : gmap bytes OutputAccount :=
  match m !! a with Some _ => m | None => <[a := NewVMOutputAccount a]> m end.

Definition account_at (a : bytes) (m : gmap bytes OutputAccount) : OutputAccount :=
  default (NewVMOutputAccount a) (m !! a).

Lemma accounts_with_lookup a m : accounts_with a m !! a = Some (account_at a m).
Proof.
  unfold accounts_with, account_at. destruct (m !! a) eqn:E; [done|]. by rewrite lookup_insert_eq.
Qed.

Lemma accounts_with_ne a b m : b <> a -> accounts_with a m !! b = m !! b.
Proof. intros. unfold accounts_with. destruct (m !! a); [done|]. by rewrite lookup_insert_ne. Qed.

Lemma get_account_run st a :
  exists st', get_account a st = (st', Ret (account_at a (OutputAccounts (outputOf st)))) /\
    st' = set_st_output (Output.on_state
      (set_OutputAccounts (accounts_with a (OutputAccounts (outputOf st)))) (st_output st)) st.
Proof.
  unfold get_account, Output.GetOutputAccount, account_at, accounts_with, outputOf.
  destruct (OutputAccounts (outputState (st_output st)) !! a); eexists; (split; [reflexivity|]).
  - destruct st as [b1 b2 b3 [[] ? ?] b5 b6 b7 b8 b9 b10]. done.
  - done.
Qed.

Lemma sum_accounts_with (f : bytes -> OutputAccount -> Z) a m :
  f a (NewVMOutputAccount a) = 0 -> sum_map f (accounts_with a m) = sum_map f m.
Proof.
  intros Hf. unfold accounts_with. destruct (m !! a) eqn:E; [done|].
  rewrite sum_map_insert by done. lia.
Qed.

Lemma accounts_with_u64 a m : accounts_u64 m -> accounts_u64 (accounts_with a m).
Proof.
  intros H. unfold accounts_with. destruct (m !! a) eqn:E; [done|].
  apply map_Forall_insert_2; [|done]. split; [by apply Forall_nil | cbn; word_lia].
Qed.

(** ** The final accounting *)

(** The state [GetVMOutput] calls [UpdateGasStateOnSuccess] in: the gas provided
    was split into the initial cost and the gas for execution, and what is left
    of the latter is the remaining gas of the output. *)
Record gas_ready (st : HostState) (h : nat) (inst : Instance) : Prop := {
  ready_running : running st h inst;
  ready_points : 0 <= inst_Points inst <= gasForExecution (Metering.met st);
  ready_split : initialCost (Metering.met st) + gasForExecution (Metering.met st) =
                initialGasProvided (Metering.met st);
  ready_cost : 0 <= initialCost (Metering.met st);
  ready_used : used_u64 (gasUsedByAccounts (Metering.met st));
  ready_known : dom (gasUsedByAccounts (Metering.met st)) ⊆
                {[scAddress (rt st)]} ∪ dom (OutputAccounts (outputOf st));
  ready_accounts : accounts_u64 (OutputAccounts (outputOf st));
  ready_remaining : GasRemaining (outputOf st) =
                    gasForExecution (Metering.met st) - inst_Points inst;
  ready_bound : used_by_others (scAddress (rt st)) (gasUsedByAccounts (Metering.met st))
                  (OutputAccounts (outputOf st)) +
                total_transferred (OutputAccounts (outputOf st)) +
                initialGasProvided (Metering.met st) <= MaxUint64;
}.

(** The numbers of the accounting. *)
Definition spent (st : HostState) (inst : Instance) : Z :=
  initialCost (Metering.met st) + inst_Points inst.
Definition forwarded (st : HostState) : Z :=
  used_by_others (scAddress (rt st)) (gasUsedByAccounts (Metering.met st))
    (OutputAccounts (outputOf st)) + total_transferred (OutputAccounts (outputOf st)).
Definition sent_to_itself (st : HostState) : Z :=
  transferred (account_at (scAddress (rt st)) (OutputAccounts (outputOf st))).
Definition used_by_current (st : HostState) (inst : Instance) : Z :=
  Z.max 0 (Z.max 0 (spent st inst - sent_to_itself st) - forwarded st).

Lemma used_by_others_nonneg c used m : used_u64 used -> 0 <= used_by_others c used m.
Proof.
  intros H. apply sum_map_nonneg. intros k a _. destruct (bytes_eqb k c); [done|].
  pose proof (used_default_u64 used k H). word_lia.
Qed.

Lemma account_at_transfers a m : accounts_u64 m -> transfers_u64 (account_at a m).
Proof.
  intros H. unfold account_at. destruct (m !! a) eqn:E; cbn; [by apply (H a) | by apply Forall_nil].
Qed.

Lemma sent_to_itself_bound st h inst :
  gas_ready st h inst -> 0 <= sent_to_itself st <= forwarded st.
Proof.
  intros []. pose proof (used_by_others_nonneg (scAddress (rt st)) _
    (OutputAccounts (outputOf st)) ready_used0) as Hu.
  unfold forwarded, sent_to_itself. set (m := OutputAccounts (outputOf st)) in *.
  assert (0 <= transferred (account_at (scAddress (rt st)) m))
    by (by apply transferred_nonneg, account_at_transfers).
  split; [done|]. unfold total_transferred.
  rewrite <- (sum_accounts_with _ (scAddress (rt st))) by done.
  rewrite (sum_map_split _ _ _ _ (accounts_with_lookup (scAddress (rt st)) m)). cbn beta.
  assert (0 <= sum_map (fun _ a => transferred a)
    (delete (scAddress (rt st)) (accounts_with (scAddress (rt st)) m))); [|lia].
  apply sum_map_nonneg. intros k a [Hne Hk]%lookup_delete_Some. apply transferred_nonneg.
  rewrite accounts_with_ne in Hk by done. by apply (ready_accounts0 k a).
Qed.

(** [updateSCGasUsed] in closed form. *)
Lemma updateSCGasUsed_run st h inst :
  gas_ready st h inst -> IsVMV2Enabled = true ->
  exists st', Metering.updateSCGasUsed st = (st', Ret tt) /\
    gasUsedByAccounts (Metering.met st') =
      <[scAddress (rt st) := used_by_current st inst]> (gasUsedByAccounts (Metering.met st)) /\
    initialGasProvided (Metering.met st') = initialGasProvided (Metering.met st) /\
    outputOf st' = set_OutputAccounts
      (accounts_with (scAddress (rt st)) (OutputAccounts (outputOf st))) (outputOf st).
Proof.
  intros Hready Hv. pose proof (sent_to_itself_bound _ _ _ Hready) as Hself.
  unfold used_by_current, spent, sent_to_itself, forwarded in *.
  destruct Hready as [Hr Hp Hs Hc Hu Hk Ha Hg Hb].
  pose proof (used_by_others_nonneg (scAddress (rt st)) _ (OutputAccounts (outputOf st)) Hu).
  unfold Metering.updateSCGasUsed. rewrite (bind_run _ _ _ _ _ eq_refl).
  destruct (get_account_run st (scAddress (rt st))) as (st1 & H1 & Hst1).
  rewrite (bind_run _ _ _ _ _ H1), (bind_run _ _ _ _ _ eq_refl), (bind_run _ _ _ _ _ eq_refl).
  assert (running st1 h inst) as Hr1 by by rewrite Hst1.
  rewrite (bind_run _ _ _ _ _ (GasSpentByContract_run _ _ _ Hr1 Hv)).
  eexists. split; [reflexivity|]. rewrite Hst1. cbn.
  set (m := OutputAccounts (outputOf st)) in *. set (cur := scAddress (rt st)) in *.
  set (used := gasUsedByAccounts (Metering.met st)) in *.
  rewrite getGasTransferredByAccount_eq by by apply account_at_transfers.
  assert (total_transferred (accounts_with cur m) = total_transferred m) as Ht
    by by apply sum_accounts_with.
  assert (used_by_others cur used (accounts_with cur m) = used_by_others cur used m) as Ho
    by (apply sum_accounts_with; by rewrite bytes_eqb_refl).
  split; [|done]. f_equal.
  change (outputState (st_output st)) with (outputOf st).
  change (met_state (st_metering st)) with (Metering.met st). fold m used.
  assert (accounts_u64 (accounts_with cur m)) by by apply accounts_with_u64.
  rewrite getGasUsedByAllOtherAccounts_eq; [| done | done | ].
  2:{ change (Metering.met (set_st_output _ st)) with (Metering.met st). fold used.
      rewrite Ht, Ho. word_lia. }
  change (Metering.met (set_st_output _ st)) with (Metering.met st). fold used.
  rewrite Ht, Ho.
  rewrite AddUint64_eq by word_lia.
  rewrite (SubUint64_eq (Z.min MaxUint64 _)) by word_lia.
  rewrite SubUint64_eq by word_lia. word_lia.
Qed.

(** [setGasUsedToOutputAccounts] on the accounts. *)
Definition with_gas_used (used : gmap bytes Z) (m : gmap bytes OutputAccount) :
    gmap bytes OutputAccount :=
  map_imap (fun address a => Some (set_GasUsed (default 0 (used !! address)) a)) m.

Lemma with_gas_used_dom used m : dom (with_gas_used used m) = dom m.
Proof.
  apply set_eq. intros k. rewrite !elem_of_dom. unfold with_gas_used. rewrite map_lookup_imap.
  destruct (m !! k); cbn; split; intros [? ?]; by eexists.
Qed.

Lemma setGasUsedToOutputAccounts_run st :
  dom (gasUsedByAccounts (Metering.met st)) ⊆ dom (OutputAccounts (outputOf st)) ->
  exists st', Metering.setGasUsedToOutputAccounts st = (st', Ret None) /\
    Metering.met st' = Metering.met st /\
    outputOf st' = set_OutputAccounts
      (with_gas_used (gasUsedByAccounts (Metering.met st)) (OutputAccounts (outputOf st)))
      (outputOf st).
Proof.
  intros Hk. unfold Metering.setGasUsedToOutputAccounts.
  rewrite !(bind_run _ _ _ _ _ eq_refl). unfold mret, M_ret.
  rewrite bool_decide_true; [by eexists|]. cbn.
  change (map_imap _ _) with
    (with_gas_used (gasUsedByAccounts (Metering.met st)) (OutputAccounts (outputOf st))).
  by rewrite with_gas_used_dom.
Qed.

(** The total the check compares with the gas provided. *)
Lemma accounted_total st inst h :
  gas_ready st h inst ->
  let cur := scAddress (rt st) in
  let used := <[cur := used_by_current st inst]> (gasUsedByAccounts (Metering.met st)) in
  let m := with_gas_used used (accounts_with cur (OutputAccounts (outputOf st))) in
  sum_map (fun _ a => GasUsed a + transferred a) m = used_by_current st inst + forwarded st.
Proof.
  intros Hready. cbv zeta. unfold with_gas_used. rewrite sum_map_imap.
  set (m := OutputAccounts (outputOf st)). set (cur := scAddress (rt st)).
  set (used := gasUsedByAccounts (Metering.met st)). unfold forwarded. fold m cur used.
  etransitivity; [exact (sum_map_add
    (fun k _ => default 0 (<[cur := used_by_current st inst]> used !! k))
    (fun _ a => transferred a) (accounts_with cur m))|].
  rewrite (sum_accounts_with (fun _ a => transferred a)) by done. fold (total_transferred m).
  rewrite (sum_map_split _ _ _ _ (accounts_with_lookup cur m)). rewrite lookup_insert_eq.
  assert (used_by_others cur used (accounts_with cur m) = used_by_others cur used m) as Ho
    by (apply sum_accounts_with; by rewrite bytes_eqb_refl).
  rewrite <- Ho. unfold used_by_others.
  rewrite (sum_map_split _ _ _ _ (accounts_with_lookup cur m)), bytes_eqb_refl.
  rewrite (sum_map_ext _ (fun k _ => if bytes_eqb k cur then 0 else default 0 (used !! k))
             (delete cur (accounts_with cur m))); [cbn; lia|].
  intros k a [Hne _]%lookup_delete_Some. rewrite lookup_insert_ne by done.
  destruct (bytes_eqb k cur) eqn:E; [|done]. apply bytes_eqb_eq in E. congruence.
Qed.

End Runs.

(** ** Properties *)

Section Properties.
Context `{Ext : Externals}.

Lemma with_gas_used_u64 used m :
  used_u64 used -> accounts_u64 m -> accounts_u64 (with_gas_used used m).
Proof.
  intros Hu Hm k a. unfold with_gas_used. rewrite map_lookup_imap.
  destruct (m !! k) as [x|] eqn:E; [|done]. cbn. intros [= <-]. split; [apply (Hm k x E)|].
  by apply used_default_u64.
Qed.

Lemma used_by_current_range st h inst :
  gas_ready st h inst -> is_u64 (used_by_current st inst) /\
    used_by_current st inst + forwarded st <= MaxUint64.
Proof.
  intros Hready. pose proof (sent_to_itself_bound _ _ _ Hready).
  destruct Hready. unfold used_by_current, spent, forwarded in *. word_lia.
Qed.

Lemma checkGas_run st :
  IsVMV2Enabled = true ->
  Metering.checkGas st = (st, Ret
    (if AddUint64 (Metering.getCurrentTotalUsedGas (OutputAccounts (outputOf st)))
          (GasRemaining (outputOf st)) =? initialGasProvided (Metering.met st)
     then None else Some (ErrInputAndOutputGasDoesNotMatch : error))).
Proof. intros Hv. unfold Metering.checkGas. by rewrite Hv, !(bind_run _ _ _ _ _ eq_refl). Qed.

(** C11: the final gas accounting of a successful execution.  It succeeds exactly
    when what the contract spent covers all that was used by other accounts and
    forwarded with transfers, and no gas-carrying transfer goes back to the
    contract itself (such a transfer is subtracted twice; it only passes when
    nothing is left for the contract).  On success gas is conserved: the gas
    used and forwarded over all accounts, plus the gas remaining, is the gas
    provided. *)
Theorem UpdateGasStateOnSuccess_balance st h inst :
  IsVMV2Enabled = true -> gas_ready st h inst ->
  exists st' r, Metering.UpdateGasStateOnSuccess st = (st', Ret r) /\
    (r = None <-> forwarded st <= spent st inst /\
                  (sent_to_itself st = 0 \/ forwarded st = spent st inst)) /\
    (r = None ->
       sum_map (fun _ a => GasUsed a + transferred a) (OutputAccounts (outputOf st')) +
       GasRemaining (outputOf st') = initialGasProvided (Metering.met st')).
Proof.
  intros Hv Hready. pose proof (sent_to_itself_bound _ _ _ Hready) as Hself.
  pose proof (used_by_current_range _ _ _ Hready) as [Hcr Hcb].
  pose proof (accounted_total _ _ _ Hready) as Htotal. cbv zeta in Htotal.
  destruct (updateSCGasUsed_run st h inst Hready Hv) as (st1 & H1 & Hu1 & Hp1 & Ho1).
  destruct Hready as [Hr Hp Hs Hc Hu Hk Ha Hg Hb].
  change (forwarded st + initialGasProvided (Metering.met st) <= MaxUint64) in Hb.
  destruct (setGasUsedToOutputAccounts_run st1) as (st2 & H2 & Hm2 & Ho2).
  { rewrite Hu1, Ho1, dom_insert_L. cbn. intros k Hin.
    destruct (decide (k = scAddress (rt st))) as [->|Hne].
    - apply elem_of_dom. rewrite accounts_with_lookup. by eexists.
    - apply elem_of_union in Hin as [?%elem_of_singleton|Hin]; [done|].
      apply Hk, elem_of_union in Hin as [?%elem_of_singleton|Hd]; [done|]. apply elem_of_dom. rewrite accounts_with_ne by done. by apply elem_of_dom. }
  unfold Metering.UpdateGasStateOnSuccess.
  rewrite (bind_run _ _ _ _ _ H1), (bind_run _ _ _ _ _ H2), checkGas_run by done.
  eexists st2, _. split; [reflexivity|].
  rewrite Ho2, Hm2, Hu1, Ho1, Hp1. cbn [OutputAccounts set_OutputAccounts GasRemaining].
  rewrite getCurrentTotalUsedGas_eq; [rewrite Htotal | | by rewrite Htotal].
  - rewrite AddUint64_eq by word_lia.
    unfold used_by_current, spent in *.
    destruct (Z.eqb_spec (Z.min MaxUint64 (Z.max 0 (Z.max 0 (initialCost (Metering.met st) +
      inst_Points inst - sent_to_itself st) - forwarded st) + forwarded st +
      GasRemaining (outputOf st))) (initialGasProvided (Metering.met st))) as [E|E].
    + split; [|word_lia]. split; [|done]. intros _. word_lia.
    + split; [|done]. split; [done|]. intros. exfalso. apply E. word_lia.
  - apply with_gas_used_u64; [|by apply accounts_with_u64].
    apply map_Forall_insert_2; done.
Qed.

(** [UseGasBounded] consumes exactly the requested gas when more than that
    is left, and otherwise fails without touching the state; it never makes the
    gas left grow. *)
Theorem UseGasBounded_exact st h inst gas :
  running st h inst -> 0 <= inst_Points inst <= MaxInt64 -> is_u64 gas ->
  gasForExecution (Metering.met st) <= MaxInt64 ->
  exists avail, Metering.GasLeft st = (st, Ret avail) /\ 0 <= avail /\
  if gas <? avail then
    exists st', Metering.UseGasBounded gas st = (st', Ret None) /\
      Metering.GasLeft st' = (st', Ret (avail - gas)) /\
      st' = with_instance h (set_inst_Points (inst_Points inst + gas) inst) st
  else Metering.UseGasBounded gas st = (st, Ret (Some (ErrNotEnoughGas : error))).
Proof.
  intros Hr Hp Hg Hm. eexists. split; [by apply (GasLeft_run st h inst)|].
  split; [lia|]. unfold Metering.UseGasBounded.
  rewrite (bind_run _ _ _ _ _ (GasLeft_run st h inst Hr)).
  pose (avail := Z.max 0 (gasForExecution (Metering.met st) - inst_Points inst)).
  fold avail.
  destruct (Z.ltb_spec gas avail), (Z.leb_spec avail gas); try lia; [|done].
  rewrite (bind_run _ _ _ _ _ (UseGas_run st h inst gas Hr ltac:(word_lia) Hg)).
  eexists. split; [reflexivity|].
  rewrite (Z.min_l (inst_Points inst + gas)) by (subst avail; word_lia).
  split; [|done].
  erewrite GasLeft_run by by eapply running_with_instance. do 2 f_equal.
  change (Metering.met (with_instance _ _ st)) with (Metering.met st).
  cbn [inst_Points set_inst_Points]. subst avail. word_lia.
Qed.

(** Restoring gas just used gives back the state it was used in, as long as
    the gas points stay within [int64]. *)
Theorem UseGas_RestoreGas st h inst gas :
  running st h inst -> 0 <= inst_Points inst -> is_u64 gas ->
  inst_Points inst + gas <= MaxInt64 ->
  (Metering.UseGas gas ;; Metering.RestoreGas gas) st = (st, Ret tt).
Proof.
  intros Hr Hp Hg Hle.
  rewrite (bind_run _ _ _ _ _ (UseGas_run st h inst gas Hr ltac:(word_lia) Hg)).
  rewrite Z.min_l by done. unfold Metering.RestoreGas.
  pose proof (running_with_instance _ _ _ (set_inst_Points (inst_Points inst + gas) inst) Hr) as Hr'.
  rewrite (bind_run _ _ _ _ _ (GetPointsUsed_run _ _ _ Hr')). cbn [inst_Points set_inst_Points].
  destruct (Z.leb_spec gas (inst_Points inst + gas)); [|lia].
  rewrite (SetPointsUsed_run _ _ _ _ Hr'). rewrite SubUint64_eq by word_lia.
  do 2 f_equal. unfold with_instance. cbn.
  rewrite Z.min_l, insert_insert_eq by word_lia.
  replace (Z.max 0 (inst_Points inst + gas - gas)) with (inst_Points inst) by lia.
  destruct Hr as [_ Hl]. rewrite insert_id by (rewrite Hl; by destruct inst). by destruct st.
Qed.

(** The initial cost is deducted from the gas provided to the running
    contract exactly when it is affordable (a saturated cost never is, for less
    than [MaxUint64] provided): afterwards the cost and the gas for
    execution add up to the gas provided; otherwise nothing changes. *)
Theorem deductInitialGas_splits st code baseCost costPerByte :
  let provided := GasProvided (vmInput (rt st)) in
  0 <= provided < MaxUint64 -> is_u64 baseCost -> is_u64 costPerByte -> len code < 2 ^ 63 ->
  let cost := baseCost + len code * costPerByte in
  let '(st', r) := Metering.deductInitialGas code baseCost costPerByte st in
  if cost <=? provided then
    r = Ret None /\ initialCost (Metering.met st') = cost /\
    gasForExecution (Metering.met st') = provided - cost
  else r = Ret (Some (ErrNotEnoughGas : error)) /\ st' = st.
Proof.
  intros provided Hp Hb Hc Hl cost. pose proof (len_nonneg code).
  assert (0 <= len code * costPerByte) by (word_unfold; nia).
  unfold Metering.deductInitialGas. rewrite (bind_run _ _ _ _ _ eq_refl). fold provided.
  rewrite u64_id by word_lia. rewrite MulUint64_eq by (done || word_lia).
  rewrite AddUint64_eq by (done || word_lia). unfold cost.
  generalize dependent (len code * costPerByte). intros codeCost _ Hcode.
  destruct (Z.ltb_spec provided (Z.min MaxUint64 (baseCost + Z.min MaxUint64 codeCost))),
    (Z.leb_spec (baseCost + codeCost) provided); try (exfalso; word_lia); [done|].
  rewrite (Z.min_r _ codeCost), Z.min_r by word_lia. done.
Qed.

(** An asynchronous callback's locked gas is counted as provided but is not
    available to the execution: the runtime context copied the call input
    before the metering context unlocked the gas, and the deduction of the
    initial cost reads that copy.  The split of [deductInitialGas_splits] then
    falls short of the gas provided by the locked gas. *)
Theorem callback_gas_not_unlocked st input code baseCost costPerByte st1 input' st2 :
  VMInput_CallType input = AsynchronousCallBack ->
  is_u64 (GasProvided input) -> 0 < GasLocked input ->
  GasProvided input + GasLocked input <= MaxUint64 ->
  (Runtime.SetVMInput input ;; Metering.InitStateFromContractCallInput input) st =
    (st1, Ret input') ->
  Metering.deductInitialGas code baseCost costPerByte st1 = (st2, Ret None) ->
  GasProvided input' = GasProvided input + GasLocked input /\
  initialCost (Metering.met st2) + gasForExecution (Metering.met st2) =
    initialGasProvided (Metering.met st2) - GasLocked input.
Proof.
  intros Hct Hp Hl Hb. unfold Metering.InitStateFromContractCallInput,
    Metering.unlockGasIfAsyncCallback, Metering.deductInitialGas. rewrite Hct.
  rewrite !(bind_run _ _ _ _ _ eq_refl). cbn. rewrite AddUint64_eq by word_lia.
  intros [= <- <-]. cbn.
  destruct (GasProvided input <? _); [done|]. intros [= <-]. cbn. word_lia.
Qed.

End Properties.

(** ** Witnesses *)

Definition toy_ready : @HostState toy :=
  let st := toy_state [] 5 in
  @set_st_output toy (set_outputState (set_GasRemaining 5 newVMOutput) (@st_output toy st)) st.

Lemma toy_ready_ok : @gas_ready toy toy_ready 1 (toy_instance (bs "code") 5).
Proof.
  split.
  - by split.
  - word_compute.
  - reflexivity.
  - word_compute.
  - intros k g Hk. change ((∅ : gmap bytes Z) !! k = Some g) in Hk. by rewrite lookup_empty in Hk.
  - change (dom (∅ : gmap bytes Z) ⊆ {[bs "sc1"]} ∪ dom (∅ : gmap bytes OutputAccount)).
    intros k. by rewrite dom_empty, elem_of_empty.
  - intros k a Hk. change ((∅ : gmap bytes OutputAccount) !! k = Some a) in Hk.
    by rewrite lookup_empty in Hk.
  - reflexivity.
  - word_compute.
Qed.

Lemma UpdateGasStateOnSuccess_balance_witness :
  exists st' r, @Metering.UpdateGasStateOnSuccess toy toy_ready = (st', Ret r) /\ r = None.
Proof.
  destruct (@UpdateGasStateOnSuccess_balance toy toy_ready 1 (toy_instance (bs "code") 5)
    eq_refl toy_ready_ok) as (st' & r & H & Hok & _).
  exists st', r. split; [exact H|]. apply Hok. split; [|left]; vm_compute; [discriminate | reflexivity].
Defined.

Lemma UseGasBounded_exact_witness :
  exists left, @Metering.GasLeft toy (toy_state [] 5) = (toy_state [] 5, Ret left) /\ 0 <= left.
Proof.
  destruct (@UseGasBounded_exact toy (toy_state [] 5) 1 (toy_instance (bs "code") 5) 3)
    as (l & H & Hl & _); [by split | word_compute .. |].
  by exists l.
Defined.

Lemma UseGas_RestoreGas_witness :
  (@Metering.UseGas toy 3 ;; @Metering.RestoreGas toy 3) (toy_state [] 5) =
  (toy_state [] 5, Ret tt).
Proof.
  apply (@UseGas_RestoreGas toy (toy_state [] 5) 1 (toy_instance (bs "code") 5));
    [by split | word_compute ..].
Defined.

Lemma deductInitialGas_splits_witness :
  exists st', @Metering.deductInitialGas toy (bs "code") 1 2 (toy_state [] 50) = (st', Ret None).
Proof.
  pose proof (@deductInitialGas_splits toy (toy_state [] 50) (bs "code") 1 2
    ltac:(word_compute) ltac:(word_compute) ltac:(word_compute) ltac:(word_compute)) as H.
  cbv zeta in H. destruct (@Metering.deductInitialGas toy (bs "code") 1 2 (toy_state [] 50))
    as [st' r]. exists st'. destruct H as (-> & _). reflexivity.
Defined.

Definition callback_input : VMInput :=
  set_GasProvided 50 (set_GasLocked 7 (set_VMInput_CallType AsynchronousCallBack zeroVMInput)).

Lemma callback_gas_not_unlocked_witness :
  exists st2 : @HostState toy,
    initialCost (@Metering.met toy st2) + gasForExecution (@Metering.met toy st2) =
    initialGasProvided (@Metering.met toy st2) - GasLocked callback_input.
Proof.
  destruct ((@Runtime.SetVMInput toy callback_input ;;
    @Metering.InitStateFromContractCallInput toy callback_input) (toy_state [] 0))
    as [st1 r1] eqn:H1.
  destruct (@Metering.deductInitialGas toy (bs "code") 1 2 st1) as [st2 r2] eqn:H2.
  assert (r1 = Ret (set_GasProvided 57 (set_GasLocked 0 callback_input)) /\ r2 = Ret None)
    as [-> ->].
  { apply (f_equal fst) in H1 as Hs. apply (f_equal snd) in H1 as Hr.
    apply (f_equal snd) in H2. cbn [fst snd] in *. subst st1 r1 r2.
    split; vm_compute; reflexivity. }
  exists st2. refine (proj2 (@callback_gas_not_unlocked toy (toy_state [] 0) callback_input
    (bs "code") 1 2 st1 _ st2 _ _ _ _ H1 H2)); word_compute.
Defined.
