(* ===== verification/Blockchain.v ===== *)
(** The blockchain context, [src/vmhost/contexts/blockchain.go]: access to the
    accounts behind the blockchain hook through the cache of output accounts,
    and the stack of snapshots. *)
From S2P Require Import Prelude Errors Overflow Types State Logic Toy Runtime Output.

#[local] Open Scope Z_scope.

Module Blockchain.
Section Blockchain.
Context `{Ext : Externals}.

(** [blockChainHook.GetUserAccount] with the test the callers make:
    [err != nil || IfNil(account)]. *)
Definition GetUserAccount (address : bytes) : M (option UserAccount * option error) :=
  gets (fun st => bh_GetUserAccount (st_world st) address).

Definition present (r : option UserAccount * option error) : option UserAccount :=
  match r with
  | (Some account, None) => Some account
  | _ => None
  end.

Definition IsSmartContract (addr : bytes) : M bool :=
  gets (fun st => bh_IsSmartContract (st_world st) addr).
Definition IsPayable (addr : bytes) : M (bool * option error) :=
  gets (fun st => bh_IsPayable (st_world st) addr).
Definition GetShardOfAddress (addr : bytes) : M Z :=
  gets (fun st => bh_GetShardOfAddress (st_world st) addr).
Definition SaveCompiledCode (codeHash code : bytes) : M unit :=
  modify_world (fun w => bh_SaveCompiledCode w codeHash code).
Definition GetCompiledCode (codeHash : bytes) : M (bool * bytes) :=
  gets (fun st => bh_GetCompiledCode (st_world st) codeHash).
Definition ProcessBuiltInFunction (input : ContractCallInput) :
    M (option VMOutput * option error) := fun st =>
  let '(w, r) := bh_ProcessBuiltInFunction (st_world st) input in (set_st_world w st, Ret r).

Definition AccountExists (address : bytes) : M bool :=
  r ← GetUserAccount address;
  mret (match r with (Some _, None) => true | _ => false end).

Definition GetNonce (address : bytes) : M (Z * option error) :=
  isNew ← gets (fun st => bool_decide (OutputAccounts (outputOf st) !! address = None));
  outputAccount ← get_account address;
  let readNonceFromBlockChain :=
    (isNew : bool) || ((Nonce outputAccount =? 0) && IsVMV3Enabled) in
  if negb readNonceFromBlockChain then mret (Nonce outputAccount, None)
  else
    r ← GetUserAccount address;
    match present r with
    | None => mret (0, snd r)
    | Some account =>
        let nonce := acc_GetNonce account in
        modify_account address (set_Nonce nonce) ;; mret (nonce, None)
    end.

Definition IncreaseNonce (address : bytes) : M unit :=
  r ← GetNonce address;
  modify_account address (set_Nonce (u64 (fst r + 1))).

Definition NewAddress (creatorAddress : bytes) : M (bytes * option error) :=
  r ← GetNonce creatorAddress;
  match r with
  | (_, Some err) => mret ([], Some err)
  | (nonce, None) =>
      isSC ← IsSmartContract creatorAddress;
      let isIndirectDeployment := (isSC : bool) && IsVMV3Enabled in
      let nonce := if negb isIndirectDeployment && (0 <? nonce) then nonce - 1 else nonce in
      vmType ← Runtime.GetVMType;
      gets (fun st => bh_NewAddress (st_world st) creatorAddress nonce vmType)
  end.

(** The balance of an account unknown to the hook is 0, whatever its change
    in the current output. *)
Definition GetBalanceBigInt (address : bytes) : M Z :=
  isNew ← gets (fun st => bool_decide (OutputAccounts (outputOf st) !! address = None));
  outputAccount ← get_account address;
  if negb (isNew : bool) then
    match Balance outputAccount with
    | Some balance =>
        delta ← deref (BalanceDelta outputAccount); mret (balance + delta)
    | None =>
        r ← GetUserAccount address;
        match present r with
        | None => mret 0
        | Some account =>
            modify_account address (set_Balance (Some (acc_GetBalance account))) ;;
            delta ← deref (BalanceDelta outputAccount);
            mret (acc_GetBalance account + delta)
        end
    end
  else
    r ← GetUserAccount address;
    match present r with
    | None => mret 0
    | Some account =>
        modify_account address (set_Balance (Some (acc_GetBalance account))) ;;
        mret (acc_GetBalance account)
    end.

(** [big.Int.Bytes] of the balance. *)
Definition GetBalance (address : bytes) : M bytes :=
  balance ← GetBalanceBigInt address; mret (Bytes (Z.abs balance)).

Definition GetCodeHash (address : bytes) : M bytes :=
  r ← GetUserAccount address;
  mret (match present r with None => [] | Some account => acc_GetCodeHash account end).

Definition GetCode (address : bytes) : M (bytes * option error) :=
  isNew ← gets (fun st => bool_decide (OutputAccounts (outputOf st) !! address = None));
  outputAccount ← get_account address;
  let hasCode := negb (isNew : bool) && (0 <? len (Code outputAccount)) in
  if hasCode then mret (Code outputAccount, None)
  else
    r ← GetUserAccount address;
    match r with
    | (_, Some err) => mret ([], Some err)
    | (None, None) => mret ([], Some (ErrInvalidAccount : error))
    | (Some account, None) =>
        code ← gets (fun st => bh_GetCode (st_world st) account);
        if len code =? 0 then mret ([], Some (ErrContractNotFound : error))
        else modify_account address (set_Code code) ;; mret (code, None)
    end.

Definition GetCodeSize (address : bytes) : M (Z * option error) :=
  r ← GetUserAccount address;
  match present r with
  | None => mret (0, snd r)
  | Some account =>
      code ← gets (fun st => bh_GetCode (st_world st) account); mret (s32 (len code), None)
  end.

Definition BlockHash (number : Z) : M bytes :=
  if number <? 0 then mret []
  else
    r ← gets (fun st => bh_GetBlockhash (st_world st) (u64 number));
    mret (match r with (block, None) => block | (_, Some _) => [] end).

(** *** Blocks, the state and the tokens, as the hook reports them *)

Definition CurrentEpoch : M Z := gets (fun st => bh_CurrentEpoch (st_world st)).
Definition CurrentNonce : M Z := gets (fun st => bh_CurrentNonce (st_world st)).
Definition GetStateRootHash : M bytes := gets (fun st => bh_GetStateRootHash (st_world st)).
Definition LastTimeStamp : M Z := gets (fun st => bh_LastTimeStamp (st_world st)).
Definition LastNonce : M Z := gets (fun st => bh_LastNonce (st_world st)).
Definition LastRound : M Z := gets (fun st => bh_LastRound (st_world st)).
Definition LastEpoch : M Z := gets (fun st => bh_LastEpoch (st_world st)).
Definition CurrentRound : M Z := gets (fun st => bh_CurrentRound (st_world st)).
Definition CurrentTimeStamp : M Z := gets (fun st => bh_CurrentTimeStamp (st_world st)).
Definition LastRandomSeed : M bytes := gets (fun st => bh_LastRandomSeed (st_world st)).
Definition CurrentRandomSeed : M bytes := gets (fun st => bh_CurrentRandomSeed (st_world st)).

Definition GetESDTToken (address tokenID : bytes) (nonce : Z) :
    M (option ESDigitalToken * option error) :=
  gets (fun st => bh_GetESDTToken (st_world st) address tokenID nonce).

Definition GetOwnerAddress : M (bytes * option error) :=
  scAddress ← Runtime.GetSCAddress;
  r ← GetUserAccount scAddress;
  mret (match present r with
        | None => ([], snd r)
        | Some account => (acc_GetOwnerAddress account, None)
        end).

(** [host.AreInSameShard] *)
Definition AreInSameShard (leftAddress rightAddress : bytes) : M bool :=
  leftShard ← GetShardOfAddress leftAddress;
  rightShard ← GetShardOfAddress rightAddress;
  mret (leftShard =? rightShard).

(** *** Snapshots *)

Definition GetSnapshot : M Z := gets (fun st => bh_GetSnapshot (st_world st)).
Definition RevertToSnapshot (snapshot : Z) : M unit :=
  modify_world (fun w => fst (bh_RevertToSnapshot w snapshot)).

Definition PushState : M unit :=
  snapshot ← GetSnapshot;
  modify_blockchain (fun c => set_bc_stateStack (bc_stateStack c ++ [snapshot]) c).

Definition PopSetActiveState : M unit :=
  stack ← gets (fun st => bc_stateStack (st_blockchain st));
  match pop stack with
  | None => mret tt
  | Some (prevSnapshot, rest) =>
      RevertToSnapshot prevSnapshot ;; modify_blockchain (set_bc_stateStack rest)
  end.

Definition PopDiscard : M unit :=
  modify_blockchain (fun c =>
    match pop (bc_stateStack c) with
    | None => c
    | Some (_, rest) => set_bc_stateStack rest c
    end).

Definition ClearStateStack : M unit := modify_blockchain (set_bc_stateStack []).

(** Empty in the source. *)
Definition InitState : M unit := mret tt.

End Blockchain.
End Blockchain.

(** ** The stack interface: popping reverts to the pushed snapshot *)

#[export] Instance blockchain_stack `{Ext : Externals} : StateStack Z.
Proof.
  refine {|
    PushState := Blockchain.PushState;
    PopSetActiveState := Blockchain.PopSetActiveState;
    PopDiscard := Blockchain.PopDiscard;
    view st := bc_stateStack (st_blockchain st);
    saved st := bh_GetSnapshot (st_world st);
    holds st x := exists w, st_world st = fst (bh_RevertToSnapshot w x)
  |}.
  - intros st. eexists. split; reflexivity.
  - intros st l x Hv. unfold Blockchain.PopSetActiveState.
    rewrite (bind_run _ _ _ _ _ eq_refl), Hv, pop_snoc. eexists. split; [reflexivity|].
    split; [done | by eexists].
  - intros st Hv. unfold Blockchain.PopSetActiveState.
    by rewrite (bind_run _ _ _ _ _ eq_refl), Hv.
  - intros st l x Hv. eexists. split; [reflexivity|]. cbn. by rewrite Hv, pop_snoc.
  - intros st Hv. unfold Blockchain.PopDiscard, modify_blockchain, modify. rewrite Hv. cbn.
    by destruct st.
Defined.
