(* ===== verification/Transfers.v ===== *)
(** The operations of the output context that involve other contexts
    ([src/vmhost/contexts/output.go]: logs, value and ESDT transfers, the final
    output) and [ExecuteESDTTransfer] of [src/vmhost/hostCore/execution.go]. *)
From S2P Require Import Prelude Errors Overflow Types State Logic Toy Runtime Output Metering.
From S2P Require Import Blockchain.

#[local] Open Scope Z_scope.

Section Transfers.
Context `{Ext : Externals}.

(** ** Logs *)

Definition WriteLog (address : bytes) (topics : list bytes) (data : bytes) : M unit :=
  readOnly ← Runtime.ReadOnly;
  if (readOnly : bool) then mret tt
  else
    let newLogEntry :=
      match topics with
      | [] => mkLogEntry [] address [] [data]
      | identifier :: rest => mkLogEntry identifier address rest [data]
      end in
    modify_output (Output.on_state (fun o => set_Logs (Logs o ++ [newLogEntry]) o)).

(** ** Value transfers *)

(** [account.BalanceDelta = big.NewInt(0).Add(account.BalanceDelta, value)] *)
Definition add_to_delta (address : bytes) (value : Z) : M unit :=
  account ← get_account address;
  delta ← deref (BalanceDelta account);
  modify_account address (set_BalanceDelta (Some (delta + value))).

Definition AddTxValueToAccount (address : bytes) (value : Z) : M unit :=
  add_to_delta address value.

Definition hasSufficientBalance (address : bytes) (value : Z) : M bool :=
  senderBalance ← Blockchain.GetBalanceBigInt address;
  mret (value <=? senderBalance).

Definition TransferValueOnly (destination sender : bytes) (value : Z) (checkPayable : bool) :
    M (option error) :=
  if value <? 0 then mret (Some (ErrTransferNegativeValue : error))
  else
    sufficient ← hasSufficientBalance sender value;
    if negb (sufficient : bool) then mret (Some (ErrTransferInsufficientFunds : error))
    else
      r ← Blockchain.IsPayable destination;
      match r with
      | (_, Some err) => mret (Some err)
      | (payable, None) =>
          input ← Runtime.GetVMInput;
          let isAsyncCall :=
            IsVMV3Enabled && bool_decide (VMInput_CallType input = AsynchronousCall) in
          let checkPayable := checkPayable || negb IsESDTFunctionsEnabled in
          let hasValue := 0 <? value in
          if checkPayable && negb payable && hasValue && negb isAsyncCall then
            mret (Some (ErrAccountNotPayable : error))
          else
            _ ← get_account sender;
            _ ← get_account destination;
            add_to_delta sender (- value) ;;
            add_to_delta destination value ;;
            mret None
      end.

Definition append_transfer (address : bytes) (t : OutputTransfer) : M unit :=
  modify_account address (fun a => set_OutputTransfers (OutputTransfers a ++ [t]) a).

Definition Transfer (destination sender : bytes) (gasLimit gasLocked value : Z) (input : bytes)
    (callType : CallType) : M (option error) :=
  let checkPayableIfNotCallback :=
    (0 <? gasLimit) && negb (bool_decide (callType = AsynchronousCallBack)) in
  err ← TransferValueOnly destination sender value checkPayableIfNotCallback;
  match err with
  | Some e => mret (Some e)
  | None =>
      append_transfer destination
        {| ot_Value := value; ot_GasLimit := gasLimit; ot_GasLocked := gasLocked;
           ot_Data := input; ot_CallType := callType; ot_SenderAddress := sender |} ;;
      mret None
  end.

(** ** ESDT transfers *)

(** The gas of the transfers a built-in function created is not consumed here. *)
Definition subtract_transfers (gasConsumed : Z) (accounts : list (bytes * OutputAccount)) : Z :=
  fold_left (fun gas ka =>
    fold_left (fun gas t => SubUint64 gas (ot_GasLimit t)) (OutputTransfers (snd ka)) gas)
    accounts gasConsumed.

Definition ExecuteESDTTransfer (destination sender tokenIdentifier : bytes) (nonce value : Z)
    (callType : CallType) : M (option VMOutput * Z * option error) :=
  vmInput ← Runtime.GetVMInput;
  gasProvided ← Metering.GasLeft;
  let valueBytes := Bytes (Z.abs value) in
  let esdtTransferInput :=
    {| call_VMInput :=
         set_GasProvided gasProvided (set_GasPrice (GasPrice vmInput)
           (set_VMInput_CallType callType (set_CallerAddr sender
             (set_Arguments
                (if 0 <? nonce then [tokenIdentifier; Bytes nonce; valueBytes; destination]
                 else [tokenIdentifier; valueBytes]) zeroVMInput))));
       RecipientAddr := if 0 <? nonce then sender else destination;
       Function_ := if 0 <? nonce then core_BuiltInFunctionESDTNFTTransfer
                    else core_BuiltInFunctionESDTTransfer;
       AllowInitFunction := false |} in
  r ← Blockchain.ProcessBuiltInFunction esdtTransferInput;
  match r with
  | (vmOutput, Some err) => mret (vmOutput, gasProvided, Some err)
  | (vmOutput, None) =>
      out ← deref vmOutput;
      if negb (bool_decide (out_ReturnCode out = Ok)) then
        mret (Some out, gasProvided, Some (ErrExecutionFailed : error))
      else
        let gasConsumed := SubUint64 gasProvided (GasRemaining out) in
        let gasConsumed := subtract_transfers gasConsumed (range (OutputAccounts out)) in
        if negb (bool_decide (callType = AsynchronousCallBack)) then
          gasLeft ← Metering.GasLeft;
          if gasLeft <? gasConsumed then
            mret (Some out, gasProvided, Some (ErrNotEnoughGas : error))
          else Metering.UseGas gasConsumed ;; mret (Some out, gasConsumed, None)
        else mret (Some out, gasConsumed, None)
  end.

Definition at_sign : bytes := bs "@".

(** The data field of the recorded ESDT transfer. *)
Definition esdt_data (sameShard : bool) (destination tokenIdentifier : bytes) (nonce value : Z)
    (vmOutput : VMOutput) : bytes :=
  let token := hex_EncodeToString tokenIdentifier in
  let amount := hex_EncodeToString (Bytes (Z.abs value)) in
  let plain := core_BuiltInFunctionESDTTransfer ++ at_sign ++ token ++ at_sign ++ amount in
  if 0 <? nonce then
    let data := core_BuiltInFunctionESDTNFTTransfer ++ at_sign ++ token ++ at_sign ++
                hex_EncodeToString (Bytes nonce) ++ at_sign ++ amount in
    if sameShard then data ++ at_sign ++ hex_EncodeToString destination
    else match OutputTransfers <$> OutputAccounts vmOutput !! destination with
         | Some [t] => ot_Data t
         | _ => data
         end
  else plain.

Definition call_data (callInput : ContractCallInput) : bytes :=
  at_sign ++ hex_EncodeToString (Function_ callInput) ++
  concat (map (fun arg => at_sign ++ hex_EncodeToString arg) (Arguments (call_VMInput callInput))).

Definition TransferESDT (destination sender tokenIdentifier : bytes) (nonce value : Z)
    (callInput : option ContractCallInput) : M (Z * option error) :=
  isSmartContract ← Blockchain.IsSmartContract destination;
  sameShard ← Blockchain.AreInSameShard sender destination;
  let executed := if (isSmartContract : bool) then callInput else None in
  let callType := match executed with Some _ => ESDTTransferAndExecute | None => DirectCall end in
  r ← ExecuteESDTTransfer destination sender tokenIdentifier nonce value callType;
  match r with
  | (_, _, Some err) => mret (0, Some err)
  | (vmOutput, gasConsumedByTransfer, None) =>
      let gasRemaining :=
        match executed with
        | Some input =>
            if GasProvided (call_VMInput input) <? gasConsumedByTransfer then None
            else Some (GasProvided (call_VMInput input) - gasConsumedByTransfer)
        | None => Some 0
        end in
      match gasRemaining with
      | None => mret (0, Some (ErrNotEnoughGas : error))
      | Some gasRemaining =>
          err ← (match executed with
                 | None => mret None
                 | Some _ =>
                     gasLeft ← Metering.GasLeft;
                     if gasLeft <? gasRemaining then mret (Some (ErrNotEnoughGas : error))
                     else if (sameShard : bool) then mret None
                     else Metering.UseGas gasRemaining ;; mret None
                 end);
          match err with
          | Some e => mret (0, Some e)
          | None =>
              _ ← get_account destination;
              out ← deref vmOutput;
              let data := esdt_data sameShard destination tokenIdentifier nonce value out in
              append_transfer destination
                {| ot_Value := 0;
                   ot_GasLimit := if (sameShard : bool) then 0 else gasRemaining;
                   ot_GasLocked := 0;
                   ot_Data := data ++ match callInput with
                                      | Some input => call_data input
                                      | None => []
                                      end;
                   ot_CallType := DirectCall;
                   ot_SenderAddress := sender |} ;;
              modify_output (Output.on_state (fun o => set_Logs (Logs o ++ Logs out) o)) ;;
              mret (gasRemaining, None)
          end
      end
  end.

(** ** The final output *)

Definition CreateVMOutputInCaseOfError (err : error) : M VMOutput :=
  function ← Runtime.Function_;
  Runtime.AddError (Some err) [function] ;;
  returnMessage ← gets (fun st => ReturnMessage (outputOf st));
  let message :=
    if errors_Is err ErrSignalError then returnMessage
    else if 0 <? len returnMessage then returnMessage
    else Error err in
  let returnCode := Output.resolveReturnCodeFromError (Some err) in
  Metering.UpdateGasStateOnFailure ;;
  mret {| ReturnData := []; out_ReturnCode := returnCode; ReturnMessage := message;
          GasRemaining := 0; GasRefund := Some 0; OutputAccounts := ∅; DeletedAccounts := [];
          TouchedAccounts := []; Logs := [] |}.

Definition GetVMOutput : M VMOutput :=
  modify_output Output.removeNonUpdatedCode ;;
  gasLeft ← Metering.GasLeft;
  modify_output (Output.on_state (set_GasRemaining gasLeft)) ;;
  err ← Metering.UpdateGasStateOnSuccess;
  match err with
  | Some e => CreateVMOutputInCaseOfError e
  | None => gets outputOf
  end.

End Transfers.

(** ** How balances move *)

Section Money.
Context `{Ext : Externals}.

Lemma delta_of_account_at o a :
  delta_of o a = default 0 (BalanceDelta (account_at a (OutputAccounts o))).
Proof. unfold delta_of, account_at. by destruct (OutputAccounts o !! a). Qed.

Lemma transfers_of_account_at o a :
  transfers_of o a = OutputTransfers (account_at a (OutputAccounts o)).
Proof. unfold transfers_of, account_at. by destruct (OutputAccounts o !! a). Qed.

(** The balance [GetBalanceBigInt] reports. *)
Definition balance_of (st : HostState) (a : bytes) : Z :=
  let account := account_at a (OutputAccounts (outputOf st)) in
  let delta := default 0 (BalanceDelta account) in
  match Balance account with
  | Some b => b + delta
  | None => match Blockchain.present (bh_GetUserAccount (st_world st) a) with
            | Some u => acc_GetBalance u + delta
            | None => 0
            end
  end.

Definition total_delta (o : VMOutput) : Z :=
  sum_map (fun _ a => default 0 (BalanceDelta a)) (OutputAccounts o).

(** All of the host but the output context. *)
Definition output_frame (st : HostState) :=
  (st_bigInt st, st_blockchain st, st_metering st, st_runtime st, st_storage st,
   st_instances st, st_asyncInfos st, st_next st, st_world st).

Lemma output_frame_parts st st' :
  output_frame st' = output_frame st -> st_world st' = st_world st /\ rt st' = rt st.
Proof. unfold rt. intros Hf. injection Hf. intuition congruence. Qed.

(** From [st] to [st'] the balance changes moved by [f], and by [total] in sum;
    no transfer was recorded and only the output context was touched. *)
Record moved (f : bytes -> Z) (total : Z) (st st' : HostState) : Prop := {
  moved_wf : output_wf (outputOf st');
  moved_frame : output_frame st' = output_frame st;
  moved_delta a : delta_of (outputOf st') a = delta_of (outputOf st) a + f a;
  moved_transfers a : transfers_of (outputOf st') a = transfers_of (outputOf st) a;
  moved_total : total_delta (outputOf st') = total_delta (outputOf st) + total;
}.

Definition nothing (_ : bytes) : Z := 0.
Definition at_address (a : bytes) (v : Z) (b : bytes) : Z := if decide (b = a) then v else 0.

Lemma moved_refl st : output_wf (outputOf st) -> moved nothing 0 st st.
Proof. intros H. split; try done; unfold nothing; intros; lia. Qed.

Lemma moved_trans f t g u st1 st2 st3 :
  moved f t st1 st2 -> moved g u st2 st3 -> moved (fun a => f a + g a) (t + u) st1 st3.
Proof.
  intros H1 H2. split.
  - apply H2.
  - by rewrite (moved_frame _ _ _ _ H2), (moved_frame _ _ _ _ H1).
  - intros a. rewrite (moved_delta _ _ _ _ H2), (moved_delta _ _ _ _ H1). lia.
  - intros a. by rewrite (moved_transfers _ _ _ _ H2), (moved_transfers _ _ _ _ H1).
  - rewrite (moved_total _ _ _ _ H2), (moved_total _ _ _ _ H1). lia.
Qed.

Lemma account_at_wf a o : output_wf o -> account_wf a (account_at a (OutputAccounts o)).
Proof.
  intros [H _]. unfold account_at. destruct (OutputAccounts o !! a) eqn:E; cbn; [by apply H|].
  split_and!; [done | by eexists | done].
Qed.

Lemma accounts_with_wf a m : accounts_wf m -> accounts_wf (accounts_with a m).
Proof.
  intros H. unfold accounts_with. destruct (m !! a); [done|].
  apply map_Forall_insert_2; [|done]. split_and!; [done | by eexists | done].
Qed.

Lemma account_at_with a b m : account_at b (accounts_with a m) = account_at b m.
Proof.
  unfold account_at, accounts_with. destruct (m !! a) eqn:E; [done|].
  destruct (decide (b = a)) as [->|]; [by rewrite lookup_insert_eq, E | by rewrite lookup_insert_ne].
Qed.

Lemma get_account_moved st a :
  output_wf (outputOf st) ->
  exists st', get_account a st = (st', Ret (account_at a (OutputAccounts (outputOf st)))) /\
    moved nothing 0 st st' /\
    OutputAccounts (outputOf st') = accounts_with a (OutputAccounts (outputOf st)).
Proof.
  intros [Hwf Hg]. destruct (get_account_run st a) as (st' & -> & ->).
  eexists. split; [reflexivity|]. split; [|done]. split; [| done | | |].
  - split; [by apply accounts_with_wf | done].
  - intros b. rewrite !delta_of_account_at. cbn. rewrite account_at_with. unfold nothing. lia.
  - intros b. rewrite !transfers_of_account_at. cbn. by rewrite account_at_with.
  - unfold total_delta. cbn. rewrite sum_accounts_with by done. unfold outputOf. lia.
Qed.

(** The accounts after [modify_account], and the rest of the state. *)
Lemma modify_account_run st a f :
  exists st', modify_account a f st = (st', Ret tt) /\
    output_frame st' = output_frame st /\ GasRefund (outputOf st') = GasRefund (outputOf st) /\
    OutputAccounts (outputOf st') =
      <[a := f (account_at a (OutputAccounts (outputOf st)))]> (OutputAccounts (outputOf st)).
Proof.
  eexists. split; [reflexivity|]. unfold outputOf, Output.update_account,
    Output.GetOutputAccount, account_at. cbn.
  destruct (OutputAccounts (outputState (st_output st)) !! a) eqn:E; cbn; [done|].
  split_and!; try done. by rewrite insert_insert_eq.
Qed.

Lemma account_at_insert a b x m :
  account_at b (<[a := x]> m) = if decide (b = a) then x else account_at b m.
Proof.
  unfold account_at. destruct (decide (b = a)) as [->|];
    [by rewrite lookup_insert_eq | by rewrite lookup_insert_ne].
Qed.

Lemma total_delta_insert a x o o' :
  OutputAccounts o' = <[a := x]> (OutputAccounts o) ->
  total_delta o' = total_delta o - delta_of o a + default 0 (BalanceDelta x).
Proof.
  intros Ho. unfold total_delta. rewrite Ho, delta_of_account_at. unfold account_at.
  destruct (OutputAccounts o !! a) as [y|] eqn:E; cbn.
  - by rewrite (sum_map_update _ _ _ _ _ E).
  - rewrite sum_map_insert by done. lia.
Qed.

Lemma modify_account_moved st a f d :
  output_wf (outputOf st) ->
  (let x := account_at a (OutputAccounts (outputOf st)) in
   account_wf a (f x) /\ OutputTransfers (f x) = OutputTransfers x /\
   default 0 (BalanceDelta (f x)) = default 0 (BalanceDelta x) + d) ->
  exists st', modify_account a f st = (st', Ret tt) /\ moved (at_address a d) d st st'.
Proof.
  intros [Hwf Hg] (Hx & Ht & Hd). destruct (modify_account_run st a f) as (st' & Hrun & Hf & Hr & Ha).
  exists st'. split; [done|]. split; [| done | | |].
  - split; [|by rewrite Hr]. rewrite Ha. by apply map_Forall_insert_2.
  - intros b. rewrite !delta_of_account_at, Ha, account_at_insert. unfold at_address.
    destruct (decide (b = a)) as [->|]; lia.
  - intros b. rewrite !transfers_of_account_at, Ha, account_at_insert.
    destruct (decide (b = a)) as [->|]; done.
  - rewrite (total_delta_insert _ _ _ _ Ha), delta_of_account_at. lia.
Qed.

Lemma add_to_delta_moved st a v :
  output_wf (outputOf st) ->
  exists st', add_to_delta a v st = (st', Ret tt) /\ moved (at_address a v) v st st'.
Proof.
  intros Hwf. destruct (get_account_moved st a Hwf) as (st1 & H1 & Hm1 & Ha1).
  unfold add_to_delta. rewrite (bind_run _ _ _ _ _ H1).
  pose proof (account_at_wf a _ Hwf) as (HA & [d Hd] & Hn). rewrite Hd.
  rewrite (bind_run _ _ st1 st1 d eq_refl).
  destruct (modify_account_moved st1 a (set_BalanceDelta (Some (d + v))) v) as (st2 & H2 & Hm2).
  { apply Hm1. }
  { cbv zeta. rewrite Ha1, account_at_with, Hd. cbn. by split_and!. }
  exists st2. split; [done|]. pose proof (moved_trans _ _ _ _ _ _ _ Hm1 Hm2) as Hm.
  destruct Hm. split; done.
Qed.

Lemma GetBalanceBigInt_run st a :
  output_wf (outputOf st) ->
  exists st', Blockchain.GetBalanceBigInt a st = (st', Ret (balance_of st a)) /\
    moved nothing 0 st st'.
Proof.
  intros Hwf. unfold Blockchain.GetBalanceBigInt. rewrite (bind_run _ _ _ _ _ eq_refl).
  destruct (get_account_moved st a Hwf) as (st1 & H1 & Hm1 & Ha1).
  rewrite (bind_run _ _ _ _ _ H1).
  pose proof (account_at_wf a _ Hwf) as (HA & [d Hd] & Hn).
  destruct (output_frame_parts _ _ (moved_frame _ _ _ _ Hm1)) as [Hw _].
  assert (Hcache : forall b, exists st', modify_account a (set_Balance (Some b)) st1 = (st', Ret tt) /\
    moved nothing 0 st st').
  { intros b. destruct (modify_account_moved st1 a (set_Balance (Some b)) 0) as (st2 & H2 & Hm2).
    - apply Hm1.
    - cbv zeta. rewrite Ha1, account_at_with. cbn. rewrite Hd. split_and!; [| done | cbn; lia].
      split_and!; [done | by eexists | done].
    - exists st2. split; [done|]. pose proof (moved_trans _ _ _ _ _ _ _ Hm1 Hm2) as Hm.
      destruct Hm. split; try done. intros b'. rewrite moved_delta0. unfold at_address, nothing.
      destruct (decide (b' = a)); lia. }
  unfold balance_of. rewrite Hd. cbn [default].
  set (x := account_at a (OutputAccounts (outputOf st))) in *.
  case_bool_decide as Hnew; cbn [negb].
  - assert (x = NewVMOutputAccount a) as Hx by (unfold x, account_at; by rewrite Hnew).
    rewrite (bind_run _ _ _ _ _ eq_refl), Hw, Hx. rewrite Hx in Hd. cbn in Hd. injection Hd as <-.
    cbn [Balance NewVMOutputAccount].
    destruct (Blockchain.present (bh_GetUserAccount (st_world st) a)) as [u|]; [|by exists st1].
    destruct (Hcache (acc_GetBalance u)) as (st2 & H2 & Hm2). rewrite (bind_run _ _ _ _ _ H2).
    exists st2. by rewrite Z.add_0_r.
  - destruct (Balance x) as [b|]; [by exists st1|].
    rewrite (bind_run _ _ _ _ _ eq_refl), Hw.
    destruct (Blockchain.present (bh_GetUserAccount (st_world st) a)) as [u|]; [|by exists st1].
    destruct (Hcache (acc_GetBalance u)) as (st2 & H2 & Hm2). rewrite (bind_run _ _ _ _ _ H2).
    by exists st2.
Qed.

End Money.

(** ** Properties *)

Section Properties.
Context `{Ext : Externals}.

(** The payable test of [TransferValueOnly]. *)
Definition payable_ok (st : HostState) (destination : bytes) (value : Z) (checkPayable : bool) : Prop :=
  exists payable, bh_IsPayable (st_world st) destination = (payable, None) /\
    ((checkPayable = true \/ IsESDTFunctionsEnabled = false) -> payable = false -> 0 < value ->
     IsVMV3Enabled = true /\ VMInput_CallType (vmInput (rt st)) = AsynchronousCall).

Lemma payable_test st (payable checkPayable : bool) value :
  (checkPayable || negb IsESDTFunctionsEnabled) && negb payable && (0 <? value) &&
    negb (IsVMV3Enabled && bool_decide (VMInput_CallType (vmInput (rt st)) = AsynchronousCall))
  = false <->
  ((checkPayable = true \/ IsESDTFunctionsEnabled = false) -> payable = false -> 0 < value ->
   IsVMV3Enabled = true /\ VMInput_CallType (vmInput (rt st)) = AsynchronousCall).
Proof.
  destruct checkPayable, IsESDTFunctionsEnabled, payable, (Z.ltb_spec 0 value),
    IsVMV3Enabled; cbn; try case_bool_decide; cbn; split; intros;
    repeat match goal with H : _ \/ _ |- _ => destruct H end; try done; try lia;
    try (exfalso; tauto); exfalso;
    match goal with H : _ -> _ -> _ -> _ |- _ =>
      destruct H as [? ?]; (done || lia || tauto) end.
Qed.

(** The movement of a transfer, in closed form, for the clients. *)
Lemma TransferValueOnly_run st destination sender value checkPayable :
  output_wf (outputOf st) ->
  exists st' r, TransferValueOnly destination sender value checkPayable st = (st', Ret r) /\
    (r = None <-> 0 <= value <= balance_of st sender /\
                  payable_ok st destination value checkPayable) /\
    moved (fun a => if r is None then at_address destination value a - at_address sender value a
                    else 0) 0 st st'.
Proof.
  intros Hwf. unfold TransferValueOnly, hasSufficientBalance.
  destruct (Z.ltb_spec value 0).
  { exists st, (Some (ErrTransferNegativeValue : error)). split_and!; [done | | by apply moved_refl].
    split; [done | lia]. }
  destruct (GetBalanceBigInt_run st sender Hwf) as (st1 & H1 & Hm1).
  rewrite (bind_run _ _ st st1 (value <=? balance_of st sender))
    by by rewrite (bind_run _ _ _ _ _ H1).
  destruct (Z.leb_spec value (balance_of st sender)); cbn [negb].
  2:{ eexists st1, _. split; [reflexivity|]. split; [split; [done | lia] | exact Hm1]. }
  destruct (output_frame_parts _ _ (moved_frame _ _ _ _ Hm1)) as [Hw1 Hrt1].
  rewrite (bind_run _ _ _ _ _ eq_refl), Hw1.
  destruct (bh_IsPayable (st_world st) destination) as [payable [e|]] eqn:Ep.
  { eexists st1, _. split; [reflexivity|]. split; [|exact Hm1].
    split; [done|]. intros [_ (p & Hp & _)]. congruence. }
  rewrite (bind_run _ _ _ _ _ eq_refl), Hrt1.
  destruct ((checkPayable || negb IsESDTFunctionsEnabled) && negb payable && (0 <? value) &&
    negb (IsVMV3Enabled && bool_decide (VMInput_CallType (vmInput (rt st)) = AsynchronousCall)))
    eqn:Et.
  { eexists st1, _. split; [reflexivity|]. split; [|exact Hm1].
    split; [done|]. intros [_ (p & Hp & Hok)]. rewrite Ep in Hp. injection Hp as <-.
    apply payable_test in Hok. congruence. }
  destruct (get_account_moved st1 sender (moved_wf _ _ _ _ Hm1)) as (st2 & H2 & Hm2 & _).
  destruct (get_account_moved st2 destination (moved_wf _ _ _ _ Hm2)) as (st3 & H3 & Hm3 & _).
  destruct (add_to_delta_moved st3 sender (- value) (moved_wf _ _ _ _ Hm3)) as (st4 & H4 & Hm4).
  destruct (add_to_delta_moved st4 destination value (moved_wf _ _ _ _ Hm4)) as (st5 & H5 & Hm5).
  rewrite (bind_run _ _ _ _ _ H2), (bind_run _ _ _ _ _ H3), (bind_run _ _ _ _ _ H4),
    (bind_run _ _ _ _ _ H5).
  exists st5, None. split; [done|]. split.
  { split; [|done]. intros _. split; [lia|]. exists payable. by rewrite <- payable_test. }
  pose proof (moved_trans _ _ _ _ _ _ _ (moved_trans _ _ _ _ _ _ _ (moved_trans _ _ _ _ _ _ _
    (moved_trans _ _ _ _ _ _ _ Hm1 Hm2) Hm3) Hm4) Hm5) as [? ? Hd ? Ht].
  split; try done.
  - intros a. rewrite Hd. unfold nothing, at_address.
    destruct (decide (a = sender)), (decide (a = destination)); lia.
  - rewrite Ht. lia.
Qed.

(** C13: a value transfer succeeds exactly when the value is not negative, the
    sender's balance covers it and the destination may receive it.  On success
    the value moves from the sender's balance change to the destination's (a
    transfer to oneself changes nothing), on failure nothing moves; in both
    cases the sum of all balance changes and every other part of the host are
    as before. *)
Theorem TransferValueOnly_conserves st destination sender value checkPayable :
  output_wf (outputOf st) ->
  exists st' r, TransferValueOnly destination sender value checkPayable st = (st', Ret r) /\
    (r = None <-> 0 <= value <= balance_of st sender /\
                  payable_ok st destination value checkPayable) /\
    (forall a, delta_of (outputOf st') a = delta_of (outputOf st) a +
       if r is None then at_address destination value a - at_address sender value a else 0) /\
    total_delta (outputOf st') = total_delta (outputOf st) /\
    output_frame st' = output_frame st.
Proof.
  intros Hwf.
  destruct (TransferValueOnly_run st destination sender value checkPayable Hwf)
    as (st' & r & Hrun & Hr & [Hw Hf Hd Ht Htot]).
  exists st', r. rewrite Htot, Z.add_0_r. by split_and!.
Qed.

Lemma Transfer_run st destination sender gasLimit gasLocked value input callType :
  output_wf (outputOf st) ->
  let check := (0 <? gasLimit) && negb (bool_decide (callType = AsynchronousCallBack)) in
  let t := mkOutputTransfer value gasLimit gasLocked input callType sender in
  exists st' r, Transfer destination sender gasLimit gasLocked value input callType st =
      (st', Ret r) /\
    (r = None <-> 0 <= value <= balance_of st sender /\ payable_ok st destination value check) /\
    (forall a, transfers_of (outputOf st') a = transfers_of (outputOf st) a ++
       if r is None then (if decide (a = destination) then [t] else []) else []) /\
    (forall a, delta_of (outputOf st') a = delta_of (outputOf st) a +
       if r is None then at_address destination value a - at_address sender value a else 0) /\
    total_delta (outputOf st') = total_delta (outputOf st) /\
    output_frame st' = output_frame st /\ output_wf (outputOf st').
Proof.
  intros Hwf check t. unfold Transfer. fold check.
  destruct (TransferValueOnly_run st destination sender value check Hwf)
    as (st1 & r & Hrun & Hr & [Hw Hf Hd Ht Htot]).
  rewrite (bind_run _ _ _ _ _ Hrun). rewrite Z.add_0_r in Htot.
  destruct r as [e|].
  { exists st1, (Some e). split_and!; try done. intros a. by rewrite Ht, app_nil_r. }
  fold t. unfold append_transfer.
  destruct (modify_account_run st1 destination
    (fun a => set_OutputTransfers (OutputTransfers a ++ [t]) a)) as (st2 & H2 & Hf2 & Hr2 & Ha2).
  rewrite (bind_run _ _ _ _ _ H2). exists st2, None. split; [done|]. split; [done|].
  split_and!.
  - intros a. rewrite <- Ht, !transfers_of_account_at, Ha2, account_at_insert.
    destruct (decide (a = destination)) as [->|]; [done | by rewrite app_nil_r].
  - intros a. rewrite <- (Hd a), !delta_of_account_at, Ha2, account_at_insert.
    by destruct (decide (a = destination)) as [->|].
  - rewrite (total_delta_insert _ _ _ _ Ha2), delta_of_account_at. cbn. lia.
  - by rewrite Hf2.
  - split; [|rewrite Hr2; apply Hw]. rewrite Ha2. apply map_Forall_insert_2; [|apply Hw].
    pose proof (account_at_wf destination _ Hw) as (? & ? & ?). by split_and!.
Qed.

(** [Transfer] records exactly one output transfer - at the destination,
    after those already there, with the given gas, data and sender - when the
    value moves, and none otherwise; a callback, or a transfer without gas, is
    not subject to the destination's payable flag once ESDT is enabled. *)
Theorem Transfer_records st destination sender gasLimit gasLocked value input callType :
  output_wf (outputOf st) ->
  let check := (0 <? gasLimit) && negb (bool_decide (callType = AsynchronousCallBack)) in
  let t := mkOutputTransfer value gasLimit gasLocked input callType sender in
  exists st' r, Transfer destination sender gasLimit gasLocked value input callType st =
      (st', Ret r) /\
    (r = None <-> 0 <= value <= balance_of st sender /\ payable_ok st destination value check) /\
    (forall a, transfers_of (outputOf st') a = transfers_of (outputOf st) a ++
       if r is None then (if decide (a = destination) then [t] else []) else []) /\
    total_delta (outputOf st') = total_delta (outputOf st) /\
    output_frame st' = output_frame st /\ output_wf (outputOf st').
Proof.
  intros Hwf check t.
  destruct (Transfer_run st destination sender gasLimit gasLocked value input callType Hwf)
    as (st' & r & H & Hr & Ht & _ & Hrest).
  by exists st', r.
Qed.

Lemma UpdateGasStateOnFailure_run st :
  exists st', Metering.UpdateGasStateOnFailure st = (st', Ret tt) /\
    GasUsed (account_at (scAddress (rt st)) (OutputAccounts (outputOf st'))) =
      AddUint64 (GasUsed (account_at (scAddress (rt st)) (OutputAccounts (outputOf st))))
        (initialGasProvided (Metering.met st)).
Proof.
  unfold Metering.UpdateGasStateOnFailure. rewrite !(bind_run _ _ st st _ eq_refl).
  match goal with |- context [modify_account ?a ?f] =>
    destruct (modify_account_run st a f) as (st2 & H2 & _ & _ & Ha2) end.
  exists st2. split; [done|]. rewrite Ha2, account_at_insert, decide_True by done. done.
Qed.

(** C24: on an error the host answers with an empty output - no gas left, no
    refund, no accounts, no return data, a return code that is never [Ok] - and
    the message is the one a contract signalled or, failing that, the text of
    the error; all the gas provided is charged to the current contract. *)
Theorem CreateVMOutputInCaseOfError_censors st err :
  exists st' out, CreateVMOutputInCaseOfError err st = (st', Ret out) /\
    out_ReturnCode out <> Ok /\ GasRemaining out = 0 /\ GasRefund out = Some 0 /\
    OutputAccounts out = ∅ /\ ReturnData out = [] /\ Logs out = [] /\
    ReturnMessage out =
      (if errors_Is err ErrSignalError || (0 <? len (ReturnMessage (outputOf st)))
       then ReturnMessage (outputOf st) else Error err) /\
    GasUsed (account_at (scAddress (rt st)) (OutputAccounts (outputOf st'))) =
      AddUint64 (GasUsed (account_at (scAddress (rt st)) (OutputAccounts (outputOf st))))
        (initialGasProvided (Metering.met st)).
Proof.
  unfold CreateVMOutputInCaseOfError. rewrite (bind_run _ _ st st _ eq_refl).
  erewrite (bind_run _ _ st _ tt eq_refl). set (st1 := set_st_runtime _ st).
  rewrite (bind_run _ _ st1 st1 _ eq_refl).
  destruct (UpdateGasStateOnFailure_run st1) as (st2 & H2 & Ha2).
  rewrite (bind_run _ _ _ _ _ H2). eexists st2, _. split; [reflexivity|]. cbn.
  split_and!; try done.
  - repeat case_match; done.
  - by destruct (errors_Is err ErrSignalError).
Qed.

End Properties.

(** ** Witnesses *)

Definition rich (balance : Z) : toyWorld :=
  [ {[ bs "sc1" := mktoyAccount (mkUserAccount balance 0 [] [] [] [] [] 0 []) [] ∅ ]} ].

Definition toy_start : @HostState toy :=
  let st := toy_state (rich 100) 50 in
  @set_st_output toy (mkoutputContext newVMOutput [] ∅) st.

Lemma toy_start_wf : output_wf (@outputOf toy toy_start).
Proof. split; [apply map_Forall_empty | by eexists]. Qed.

Lemma TransferValueOnly_conserves_witness :
  exists st', @TransferValueOnly toy (bs "bob") (bs "sc1") 7 true toy_start = (st', Ret None) /\
    delta_of (@outputOf toy st') (bs "bob") = 7.
Proof.
  destruct (@TransferValueOnly_conserves toy toy_start (bs "bob") (bs "sc1") 7 true toy_start_wf)
    as (st' & r & H & Hr & Hd & _).
  assert (r = None) as ->.
  { apply Hr. split; [vm_compute; split; discriminate|]. exists true. by split. }
  exists st'. split; [exact H|]. rewrite Hd. vm_compute. reflexivity.
Defined.

Lemma Transfer_records_witness :
  exists st', @Transfer toy (bs "bob") (bs "sc1") 0 0 7 (bs "hi") DirectCall toy_start =
    (st', Ret None) /\ length (transfers_of (@outputOf toy st') (bs "bob")) = 1%nat.
Proof.
  destruct (@Transfer_records toy toy_start (bs "bob") (bs "sc1") 0 0 7 (bs "hi") DirectCall
    toy_start_wf) as (st' & r & H & Hr & Ht & _).
  assert (r = None) as ->.
  { apply Hr. split; [vm_compute; split; discriminate|]. exists true. by split. }
  exists st'. split; [exact H|]. rewrite Ht. vm_compute. reflexivity.
Defined.
