(* ===== verification/Storage.v ===== *)
(** The storage context, [src/vmhost/contexts/storage.go]: reads and writes of
    the contract's storage through the storage updates of the output accounts,
    their protection and their gas. *)
From S2P Require Import Prelude Errors Overflow Types State Logic Toy Runtime Output Metering.
From S2P Require Import Blockchain Transfers.

#[local] Open Scope Z_scope.

Inductive StorageStatus :=
| StorageUnchanged
| StorageModified
| StorageAdded
| StorageDeleted.

Module Storage.
Section Storage.
Context `{Ext : Externals}.

Definition address : M bytes := gets (fun st => sto_address (st_storage st)).

(** *** State stack *)

Definition PushState (c : storageContext) : storageContext :=
  set_sto_stateStack (sto_stateStack c ++ [sto_address c]) c.

Definition PopSetActiveState (c : storageContext) : storageContext :=
  match pop (sto_stateStack c) with
  | None => c
  | Some (prevAddress, rest) => set_sto_address prevAddress (set_sto_stateStack rest c)
  end.

Definition PopDiscard (c : storageContext) : storageContext :=
  match pop (sto_stateStack c) with
  | None => c
  | Some (_, rest) => set_sto_stateStack rest c
  end.

Definition ClearStateStack (c : storageContext) : storageContext := set_sto_stateStack [] c.

Definition SetAddress (a : bytes) : M unit := modify_storage (set_sto_address a).
Definition enableStorageProtection : M unit := modify_storage (set_vmStorageProtectionEnabled true).
Definition disableStorageProtection : M unit :=
  modify_storage (set_vmStorageProtectionEnabled false).

Definition isVMProtectedKey (key : bytes) : bool := HasPrefix key ProtectedStoragePrefix.
Definition isProtocolProtectedKey (key : bytes) : M bool :=
  gets (fun st => HasPrefix key (protectedKeyPrefix (st_storage st))).

(** *** Reading *)

Definition GetStorageUpdates (a : bytes) : M (gmap bytes StorageUpdate) :=
  account ← get_account a; mret (StorageUpdates account).

(** [storageUpdates[key] = &StorageUpdate{key, value}] *)
Definition put_update (a key value : bytes) : M unit :=
  modify_account a (fun account =>
    set_StorageUpdates (<[key := mkStorageUpdate key value]> (StorageUpdates account)) account).

Definition getStorageFromAddressUnmetered (a key : bytes) : M bytes :=
  storageUpdates ← GetStorageUpdates a;
  match storageUpdates !! key with
  | Some update => mret (Data update)
  | None =>
      r ← gets (fun st => bh_GetStorageData (st_world st) a key);
      put_update a key (fst r) ;;
      mret (fst r)
  end.

Definition GetStorageUnmetered (key : bytes) : M bytes :=
  a ← address; getStorageFromAddressUnmetered a key.

(** Gas for [length] units at a price per byte of the schedule. *)
Definition per_byte (price : BaseOperationCost.t -> Z) (length : Z) : M Z :=
  schedule ← Metering.GasSchedule;
  mret (MulUint64 (price (gc_BaseOperationCost schedule)) (u64 length)).

Definition use_per_byte (price : BaseOperationCost.t -> Z) (length : Z) : M unit :=
  gasToUse ← per_byte price length; Metering.UseGas gasToUse.

(** The part of the key beyond the length of an address is paid for. *)
Definition use_extra_bytes (key : bytes) : M unit :=
  let extraBytes := len key - AddressLen in
  if 0 <? extraBytes then use_per_byte BaseOperationCost.DataCopyPerByte extraBytes else mret tt.

Definition GetStorage (key : bytes) : M bytes :=
  use_extra_bytes key ;;
  value ← GetStorageUnmetered key;
  use_per_byte BaseOperationCost.DataCopyPerByte (len value) ;;
  mret value.

Definition GetStorageFromAddress (a key : bytes) : M bytes :=
  use_extra_bytes key ;;
  current ← address;
  readable ← (if bytes_eqb a current then mret true
              else
                r ← Blockchain.GetUserAccount a;
                mret match Blockchain.present r with
                     | None => false
                     | Some userAcc => CodeMetadata_Readable (acc_GetCodeMetadata userAcc)
                     end);
  if negb (readable : bool) then mret []
  else
    protected ← isProtocolProtectedKey key;
    value ← (if (protected : bool) then
               gets (fun st => fst (bh_GetStorageData (st_world st) a key))
             else getStorageFromAddressUnmetered a key);
    use_per_byte BaseOperationCost.DataCopyPerByte (len value) ;;
    mret value.

(** *** Writing *)

(** The gas of replacing [oldValue] by a different [value], and the status. *)
Definition charge_update (oldValue value : bytes) : M StorageStatus :=
  let length := len value in
  let lengthOldValue := len oldValue in
  if bytes_eqb oldValue [] then
    use_per_byte BaseOperationCost.StorePerByte length ;; mret StorageAdded
  else if bytes_eqb value [] then
    freeGas ← per_byte BaseOperationCost.ReleasePerByte lengthOldValue;
    Metering.FreeGas freeGas ;; mret StorageDeleted
  else
    let newValueExtraLength := SubInt length lengthOldValue in
    (if 0 <? newValueExtraLength then
       useGas ← per_byte BaseOperationCost.PersistPerByte lengthOldValue;
       newValStoreUseGas ← per_byte BaseOperationCost.StorePerByte newValueExtraLength;
       Metering.UseGas (AddUint64 useGas newValStoreUseGas)
     else mret tt) ;;
    (if newValueExtraLength <? 0 then
       use_per_byte BaseOperationCost.PersistPerByte length ;;
       freeGas ← per_byte BaseOperationCost.ReleasePerByte (s64 (- newValueExtraLength));
       Metering.FreeGas freeGas
     else mret tt) ;;
    mret StorageModified.

Definition SetStorage (key value : bytes) : M (StorageStatus * option error) :=
  readOnly ← Runtime.ReadOnly;
  if (readOnly : bool) then mret (StorageUnchanged, None)
  else
    protocolProtected ← isProtocolProtectedKey key;
    if (protocolProtected : bool) then
      mret (StorageUnchanged, Some (ErrStoreReservedKey : error))
    else
      protection ← gets (fun st => vmStorageProtectionEnabled (st_storage st));
      if isVMProtectedKey key && protection then
        mret (StorageUnchanged, Some (ErrCannotWriteProtectedKey : error))
      else
        use_extra_bytes key ;;
        a ← address;
        storageUpdates ← GetStorageUpdates a;
        oldValue ← (match storageUpdates !! key with
                    | None =>
                        oldValue ← GetStorageUnmetered key;
                        put_update a key oldValue ;; mret oldValue
                    | Some update => mret (Data update)
                    end);
        if bytes_eqb oldValue value then
          use_per_byte BaseOperationCost.DataCopyPerByte (len value) ;;
          mret (StorageUnchanged, None)
        else
          put_update a key value ;;
          status ← charge_update oldValue value;
          mret (status, None).

Definition SetProtectedStorage (key value : bytes) : M (StorageStatus * option error) :=
  disableStorageProtection ;;
  with_defer (SetStorage key value) (fun r =>
    enableStorageProtection ;;
    match r with Some r => mret r | None => panic end).

End Storage.
End Storage.

#[export] Instance storage_stack `{Ext : Externals} : StateStack bytes.
Proof.
  refine {|
    PushState := modify_storage Storage.PushState;
    PopSetActiveState := modify_storage Storage.PopSetActiveState;
    PopDiscard := modify_storage Storage.PopDiscard;
    view st := sto_stateStack (st_storage st);
    saved st := sto_address (st_storage st);
    holds st x := sto_address (st_storage st) = x
  |}.
  - intros st. eexists. split; reflexivity.
  - intros st l x Hv. eexists. split; [reflexivity|]. cbn.
    unfold Storage.PopSetActiveState. by rewrite Hv, pop_snoc.
  - intros st Hv. unfold modify_storage, modify, Storage.PopSetActiveState. rewrite Hv. cbn.
    by destruct st.
  - intros st l x Hv. eexists. split; [reflexivity|]. cbn.
    unfold Storage.PopDiscard. by rewrite Hv, pop_snoc.
  - intros st Hv. unfold modify_storage, modify, Storage.PopDiscard. rewrite Hv. cbn.
    by destruct st.
Defined.

(** ** What a contract sees of the storage *)

Section View.
Context `{Ext : Externals}.

(** The value under a key of an account: the pending update or what the hook has. *)
Definition storage_value (st : HostState) (a key : bytes) : bytes :=
  match StorageUpdates (account_at a (OutputAccounts (outputOf st))) !! key with
  | Some update => Data update
  | None => fst (bh_GetStorageData (st_world st) a key)
  end.

(** A state the storage operations can run in: an instance to charge, and a
    well-formed output. *)
Record ready (st : HostState) : Prop := {
  ready_live : exists h inst, running st h inst;
  ready_output : output_wf (outputOf st);
}.

(** What storage operations never change. *)
Record kept (st st' : HostState) : Prop := {
  kept_ready : ready st';
  kept_storage : st_storage st' = st_storage st;
  kept_runtime : st_runtime st' = st_runtime st;
  kept_world : st_world st' = st_world st;
}.

(** [st'] differs from [st] in gas only. *)
Record charged (st st' : HostState) : Prop := {
  charged_kept : kept st st';
  charged_accounts : OutputAccounts (outputOf st') = OutputAccounts (outputOf st);
}.

Lemma kept_refl st : ready st -> kept st st.
Proof. by split. Qed.

Lemma kept_trans a b c : kept a b -> kept b c -> kept a c.
Proof. intros [] []. split; congruence || done. Qed.

Lemma charged_refl st : ready st -> charged st st.
Proof. intros H. by split; [apply kept_refl|]. Qed.

Lemma charged_trans a b c : charged a b -> charged b c -> charged a c.
Proof. intros [] []. split; [by eapply kept_trans | congruence]. Qed.

Lemma charged_value st st' a key : charged st st' -> storage_value st' a key = storage_value st a key.
Proof. intros [[] Ha]. unfold storage_value. by rewrite Ha, kept_world0. Qed.

Lemma UseGas_charged st gas :
  ready st -> exists st', Metering.UseGas gas st = (st', Ret tt) /\ charged st st'.
Proof.
  intros [(h & inst & Hr) Hwf]. unfold Metering.UseGas.
  rewrite (bind_run _ _ _ _ _ (GetPointsUsed_run _ _ _ Hr)), (SetPointsUsed_run _ _ _ _ Hr).
  eexists. split; [reflexivity|]. split; [|done]. split; [|done..]. split; [|exact Hwf].
  exists h. eexists. by apply (running_with_instance st h inst).
Qed.

Lemma use_per_byte_charged st price length :
  ready st -> exists st', Storage.use_per_byte price length st = (st', Ret tt) /\ charged st st'.
Proof.
  intros Hr. unfold Storage.use_per_byte, Storage.per_byte.
  rewrite !(bind_run _ _ st st _ eq_refl). by apply UseGas_charged.
Qed.

Lemma use_extra_bytes_charged st key :
  ready st -> exists st', Storage.use_extra_bytes key st = (st', Ret tt) /\ charged st st'.
Proof.
  intros Hr. unfold Storage.use_extra_bytes. destruct (0 <? len key - AddressLen).
  - by apply use_per_byte_charged.
  - exists st. split; [done | by apply charged_refl].
Qed.

Lemma FreeGas_charged st gas :
  ready st -> exists st', Metering.FreeGas gas st = (st', Ret tt) /\ charged st st'.
Proof.
  intros [(h & inst & Hr) [Hwf [g Hg]]]. unfold Metering.FreeGas.
  rewrite (bind_run _ _ _ _ _ eq_refl). unfold Output.GetRefund. unfold outputOf in Hg. rewrite Hg.
  rewrite (bind_run _ _ st st _ eq_refl). eexists. split; [reflexivity|].
  split; [|done]. split; [|done..]. split; [by exists h, inst|]. split; [exact Hwf | by eexists].
Qed.

(** The status [SetStorage] reports for a change. *)
Definition update_status (oldValue value : bytes) : StorageStatus :=
  if decide (oldValue = []) then StorageAdded
  else if decide (value = []) then StorageDeleted
  else StorageModified.

Lemma charge_update_charged st oldValue value :
  ready st ->
  exists st', Storage.charge_update oldValue value st = (st', Ret (update_status oldValue value)) /\
    charged st st'.
Proof.
  intros Hr. unfold Storage.charge_update, update_status.
  destruct (decide (oldValue = [])) as [->|Ho].
  { rewrite bytes_eqb_refl. destruct (use_per_byte_charged st BaseOperationCost.StorePerByte (len value) Hr)
      as (st1 & H1 & Hc1). rewrite (bind_run _ _ _ _ _ H1). by exists st1. }
  rewrite (bytes_eqb_ne _ _ Ho). destruct (decide (value = [])) as [->|Hv].
  { rewrite bytes_eqb_refl, (bind_run _ _ st st _ eq_refl).
    match goal with |- context [Metering.FreeGas ?g] =>
      destruct (FreeGas_charged st g Hr) as (st1 & H1 & Hc1) end.
    rewrite (bind_run _ _ _ _ _ H1). by exists st1. }
  rewrite (bytes_eqb_ne _ _ Hv). set (extra := SubInt (len value) (len oldValue)).
  match goal with |- context [if 0 <? extra then ?m else _] =>
    assert (exists st1, (if 0 <? extra then m else mret tt) st = (st1, Ret tt) /\ charged st st1)
      as (st1 & H1 & Hc1) end.
  { destruct (0 <? extra); [|exists st; split; [done | by apply charged_refl]].
    rewrite !(bind_run _ _ st st _ eq_refl). by apply UseGas_charged. }
  rewrite (bind_run _ _ _ _ _ H1).
  match goal with |- context [if extra <? 0 then ?m else _] =>
    assert (exists st2, (if extra <? 0 then m else mret tt) st1 = (st2, Ret tt) /\ charged st1 st2)
      as (st2 & H2 & Hc2) end.
  { pose proof (kept_ready _ _ (charged_kept _ _ Hc1)) as Hr1.
    destruct (extra <? 0); [|exists st1; split; [done | by apply charged_refl]].
    destruct (use_per_byte_charged st1 BaseOperationCost.PersistPerByte (len value) Hr1)
      as (st2 & H2 & Hc2). rewrite (bind_run _ _ _ _ _ H2), (bind_run _ _ st2 st2 _ eq_refl).
    match goal with |- context [Metering.FreeGas ?g] =>
      destruct (FreeGas_charged st2 g (kept_ready _ _ (charged_kept _ _ Hc2)))
        as (st3 & H3 & Hc3) end.
    exists st3. split; [exact H3 | by eapply charged_trans]. }
  rewrite (bind_run _ _ _ _ _ H2). exists st2. split; [done | by eapply charged_trans].
Qed.

(** ** Reading and writing the updates *)

Lemma ready_frame st st' :
  ready st -> output_frame st' = output_frame st -> output_wf (outputOf st') -> ready st'.
Proof.
  intros [(h & inst & Hr) _] Hf Hwf. split; [|done]. exists h, inst.
  unfold running in *. injection Hf. intros. intuition congruence.
Qed.

Lemma kept_frame st st' :
  ready st -> output_frame st' = output_frame st -> output_wf (outputOf st') -> kept st st'.
Proof.
  intros Hr Hf Hwf. split; [by eapply ready_frame | | | ]; by injection Hf.
Qed.

(** A write puts the value under the key and nothing else. *)
Lemma put_update_run st a key value :
  ready st ->
  exists st', Storage.put_update a key value st = (st', Ret tt) /\ kept st st' /\
    forall b k, storage_value st' b k =
      if decide (b = a /\ k = key) then value else storage_value st b k.
Proof.
  intros Hr. unfold Storage.put_update.
  match goal with |- context [modify_account a ?f] =>
    destruct (modify_account_run st a f) as (st' & H1 & Hf & Hg & Ha) end.
  exists st'. split; [done|]. pose proof (ready_output _ Hr) as Hwf.
  assert (output_wf (outputOf st')) as Hwf'.
  { split; [|rewrite Hg; apply Hwf]. rewrite Ha. apply map_Forall_insert_2; [|apply Hwf].
    pose proof (account_at_wf a _ Hwf) as (? & ? & ?). by split_and!. }
  pose proof (kept_frame st st' Hr Hf Hwf') as Hk. split; [done|].
  intros b k. unfold storage_value. rewrite Ha, account_at_insert, (kept_world _ _ Hk).
  destruct (decide (b = a)) as [->|Hb]; cbn.
  - destruct (decide (k = key)) as [->|Hk'].
    + rewrite lookup_insert_eq, decide_True by done. done.
    + rewrite lookup_insert_ne, decide_False by (done || tauto). done.
  - by rewrite decide_False by tauto.
Qed.

Lemma GetStorageUpdates_run st a :
  ready st ->
  exists st', Storage.GetStorageUpdates a st =
      (st', Ret (StorageUpdates (account_at a (OutputAccounts (outputOf st))))) /\
    kept st st' /\ (forall b k, storage_value st' b k = storage_value st b k) /\
    (forall b, account_at b (OutputAccounts (outputOf st')) =
               account_at b (OutputAccounts (outputOf st))).
Proof.
  intros Hr. destruct (get_account_moved st a (ready_output _ Hr)) as (st1 & H1 & Hm & Ha).
  unfold Storage.GetStorageUpdates. rewrite (bind_run _ _ _ _ _ H1). exists st1.
  split; [done|]. pose proof (kept_frame st st1 Hr (moved_frame _ _ _ _ Hm) (moved_wf _ _ _ _ Hm)).
  split_and!; [done | |].
  - intros b k. unfold storage_value. by rewrite Ha, account_at_with, (kept_world _ _ H).
  - intros b. by rewrite Ha, account_at_with.
Qed.

Lemma getStorageFromAddressUnmetered_run st a key :
  ready st ->
  exists st', Storage.getStorageFromAddressUnmetered a key st =
      (st', Ret (storage_value st a key)) /\
    kept st st' /\ (forall b k, storage_value st' b k = storage_value st b k).
Proof.
  intros Hr. unfold Storage.getStorageFromAddressUnmetered.
  destruct (GetStorageUpdates_run st a Hr) as (st1 & H1 & Hk1 & Hv1 & Ha1).
  rewrite (bind_run _ _ _ _ _ H1).
  destruct (StorageUpdates (account_at a (OutputAccounts (outputOf st))) !! key) as [u|] eqn:E.
  - exists st1. split; [|done]. unfold storage_value. by rewrite E.
  - rewrite (bind_run _ _ _ _ _ eq_refl), (kept_world _ _ Hk1).
    set (value := fst (bh_GetStorageData (st_world st) a key)).
    destruct (put_update_run st1 a key value (kept_ready _ _ Hk1)) as (st2 & H2 & Hk2 & Hv2).
    rewrite (bind_run _ _ _ _ _ H2). exists st2.
    assert (storage_value st a key = value) as Hval by (unfold storage_value; by rewrite E).
    split; [by rewrite Hval|]. split; [by eapply kept_trans|].
    intros b k. rewrite Hv2, Hv1. destruct (decide _) as [[-> ->]|]; congruence.
Qed.

Lemma GetStorageUnmetered_run st key :
  ready st ->
  exists st', Storage.GetStorageUnmetered key st =
      (st', Ret (storage_value st (sto_address (st_storage st)) key)) /\
    kept st st' /\ (forall b k, storage_value st' b k = storage_value st b k).
Proof.
  intros Hr. unfold Storage.GetStorageUnmetered. rewrite (bind_run _ _ _ _ _ eq_refl).
  by apply getStorageFromAddressUnmetered_run.
Qed.

End View.

(** ** Writes *)

Section Writes.
Context `{Ext : Externals}.

(** Why a write is refused, and with which error. *)
Definition write_refused (st : HostState) (key : bytes) : option (option error) :=
  if readOnly (rt st) then Some None
  else if HasPrefix key (protectedKeyPrefix (st_storage st)) then
    Some (Some (ErrStoreReservedKey : error))
  else if Storage.isVMProtectedKey key && vmStorageProtectionEnabled (st_storage st) then
    Some (Some (ErrCannotWriteProtectedKey : error))
  else None.

Lemma SetStorage_refused st key value e :
  write_refused st key = Some e ->
  Storage.SetStorage key value st = (st, Ret (StorageUnchanged, e)).
Proof.
  unfold write_refused, Storage.SetStorage. rewrite (bind_run _ _ st st _ eq_refl).
  destruct (readOnly (rt st)); [by intros [= <-]|].
  rewrite (bind_run _ _ st st _ eq_refl).
  destruct (HasPrefix key (protectedKeyPrefix (st_storage st))); [by intros [= <-]|].
  rewrite (bind_run _ _ st st _ eq_refl).
  destruct (Storage.isVMProtectedKey key && vmStorageProtectionEnabled (st_storage st));
    by intros [= <-].
Qed.

(** Reading the old value, which also caches it. *)
Lemma old_value_run st key :
  ready st ->
  let a := sto_address (st_storage st) in
  exists st', (storageUpdates ← Storage.GetStorageUpdates a;
      match storageUpdates !! key with
      | None => oldValue ← Storage.GetStorageUnmetered key;
                Storage.put_update a key oldValue ;; mret oldValue
      | Some update => mret (Data update)
      end) st = (st', Ret (storage_value st a key)) /\
    kept st st' /\ forall b k, storage_value st' b k = storage_value st b k.
Proof.
  intros Hr a. destruct (GetStorageUpdates_run st a Hr) as (st1 & H1 & Hk1 & Hv1 & Ha1).
  rewrite (bind_run _ _ _ _ _ H1).
  destruct (StorageUpdates (account_at a (OutputAccounts (outputOf st))) !! key) as [u|] eqn:E.
  { exists st1. split; [|done]. unfold storage_value. by rewrite E. }
  destruct (GetStorageUnmetered_run st1 key (kept_ready _ _ Hk1)) as (st2 & H2 & Hk2 & Hv2).
  rewrite (kept_storage _ _ Hk1), Hv1 in H2. fold a in H2. rewrite (bind_run _ _ _ _ _ H2).
  destruct (put_update_run st2 a key (storage_value st a key) (kept_ready _ _ Hk2))
    as (st3 & H3 & Hk3 & Hv3).
  rewrite (bind_run _ _ _ _ _ H3). exists st3. split; [done|].
  split; [eapply kept_trans; [by eapply kept_trans | done]|].
  intros b k. rewrite Hv3, Hv2, Hv1. destruct (decide _) as [[-> ->]|]; done.
Qed.

Definition write_status (old value : bytes) : StorageStatus :=
  if decide (old = value) then StorageUnchanged else update_status old value.

Lemma SetStorage_run st key value :
  ready st -> write_refused st key = None ->
  let a := sto_address (st_storage st) in
  exists st', Storage.SetStorage key value st =
      (st', Ret (write_status (storage_value st a key) value, None)) /\
    kept st st' /\
    forall b k, storage_value st' b k =
      if decide (b = a /\ k = key) then value else storage_value st b k.
Proof.
  intros Hr Hok a. unfold write_refused in Hok. unfold Storage.SetStorage.
  rewrite (bind_run _ _ st st _ eq_refl).
  destruct (readOnly (rt st)); [done|]. rewrite (bind_run _ _ st st _ eq_refl).
  destruct (HasPrefix key (protectedKeyPrefix (st_storage st))); [done|].
  rewrite (bind_run _ _ st st _ eq_refl).
  destruct (Storage.isVMProtectedKey key && vmStorageProtectionEnabled (st_storage st)); [done|].
  destruct (use_extra_bytes_charged st key Hr) as (st1 & H1 & Hc1).
  rewrite (bind_run _ _ _ _ _ H1), (bind_run _ _ st1 st1 _ eq_refl).
  pose proof (charged_kept _ _ Hc1) as Hk1. rewrite (kept_storage _ _ Hk1). fold a.
  destruct (old_value_run st1 key (kept_ready _ _ Hk1)) as (st2 & H2 & Hk2 & Hv2).
  rewrite (kept_storage _ _ Hk1), (charged_value _ _ _ _ Hc1) in H2. fold a in H2.
  rewrite (bind_assoc_run _ _ _ _ _ _ H2).
  set (old := storage_value st a key).
  pose proof (kept_trans _ _ _ Hk1 Hk2) as Hk12. unfold write_status.
  destruct (decide (old = value)) as [Heq|Hne].
  - rewrite Heq, bytes_eqb_refl.
    destruct (use_per_byte_charged st2 BaseOperationCost.DataCopyPerByte (len value)
      (kept_ready _ _ Hk2)) as (st3 & H3 & Hc3). rewrite (bind_run _ _ _ _ _ H3).
    exists st3. split; [done|]. split; [by eapply kept_trans, charged_kept|].
    intros b k. rewrite (charged_value _ _ _ _ Hc3), Hv2, (charged_value _ _ _ _ Hc1).
    by destruct (decide _) as [[-> ->]|].
  - rewrite (bytes_eqb_ne _ _ Hne).
    destruct (put_update_run st2 a key value (kept_ready _ _ Hk2)) as (st3 & H3 & Hk3 & Hv3).
    rewrite (bind_run _ _ _ _ _ H3).
    destruct (charge_update_charged st3 old value (kept_ready _ _ Hk3)) as (st4 & H4 & Hc4).
    rewrite (bind_run _ _ _ _ _ H4). exists st4. split; [done|].
    split; [eapply kept_trans; [by eapply kept_trans | by apply charged_kept]|].
    intros b k. by rewrite (charged_value _ _ _ _ Hc4), Hv3, Hv2, (charged_value _ _ _ _ Hc1).
Qed.

Lemma GetStorage_run st key :
  ready st ->
  exists st', Storage.GetStorage key st =
      (st', Ret (storage_value st (sto_address (st_storage st)) key)) /\
    kept st st' /\ forall b k, storage_value st' b k = storage_value st b k.
Proof.
  intros Hr. unfold Storage.GetStorage.
  destruct (use_extra_bytes_charged st key Hr) as (st1 & H1 & Hc1). rewrite (bind_run _ _ _ _ _ H1).
  pose proof (charged_kept _ _ Hc1) as Hk1.
  destruct (GetStorageUnmetered_run st1 key (kept_ready _ _ Hk1)) as (st2 & H2 & Hk2 & Hv2).
  rewrite (kept_storage _ _ Hk1), (charged_value _ _ _ _ Hc1) in H2.
  rewrite (bind_run _ _ _ _ _ H2).
  match goal with |- context [Storage.use_per_byte ?p ?n] =>
    destruct (use_per_byte_charged st2 p n (kept_ready _ _ Hk2)) as (st3 & H3 & Hc3) end.
  rewrite (bind_run _ _ _ _ _ H3). exists st3. split; [done|].
  split; [eapply kept_trans; [by eapply kept_trans | by apply charged_kept]|].
  intros b k. by rewrite (charged_value _ _ _ _ Hc3), Hv2, (charged_value _ _ _ _ Hc1).
Qed.

Lemma SetProtectedStorage_run st key value :
  ready st -> readOnly (rt st) = false ->
  HasPrefix key (protectedKeyPrefix (st_storage st)) = false ->
  let a := sto_address (st_storage st) in
  exists st', Storage.SetProtectedStorage key value st =
      (st', Ret (write_status (storage_value st a key) value, None)) /\
    ready st' /\ st_runtime st' = st_runtime st /\ st_world st' = st_world st /\
    st_storage st' = set_vmStorageProtectionEnabled true (st_storage st) /\
    forall b k, storage_value st' b k =
      if decide (b = a /\ k = key) then value else storage_value st b k.
Proof.
  intros Hr Hro Hp a. unfold Storage.SetProtectedStorage. rewrite (bind_run _ _ st _ tt eq_refl).
  set (st1 := set_st_storage _ st).
  assert (ready st1) as Hr1 by (destruct Hr; by split).
  assert (write_refused st1 key = None) as Hok.
  { unfold write_refused. change (rt st1) with (rt st). rewrite Hro.
    change (protectedKeyPrefix (st_storage st1)) with (protectedKeyPrefix (st_storage st)).
    rewrite Hp. cbn. by rewrite andb_false_r. }
  destruct (SetStorage_run st1 key value Hr1 Hok) as (st2 & H2 & [Hr2 Hs2 Ht2 Hw2] & Hv2).
  unfold with_defer. rewrite H2. eexists. split; [reflexivity|].
  split; [by destruct Hr2; split|]. split; [exact Ht2|]. split; [exact Hw2|]. split; [|exact Hv2].
  cbn. by rewrite Hs2.
Qed.

#[export] Instance get_account_no_fuel a : NoFuel (get_account a).
Proof.
  intros st. unfold get_account. by destruct (Output.GetOutputAccount a (st_output st)) as [[? ?] ?].
Qed.

#[export] Instance SetStorage_no_fuel key value : NoFuel (Storage.SetStorage key value).
Proof.
  unfold Storage.SetStorage, Storage.use_extra_bytes, Storage.charge_update, Storage.use_per_byte,
    Storage.per_byte, Storage.GetStorageUpdates, Storage.GetStorageUnmetered,
    Storage.getStorageFromAddressUnmetered, Storage.put_update, Metering.UseGas, Metering.FreeGas,
    Runtime.GetPointsUsed, Runtime.SetPointsUsed, current_instance, modify_instance,
    modify_account, modify_output. nofuel_auto.
Qed.

(** ** Properties *)

(** C14: a write is refused, with the state untouched, in read-only mode
    (silently), to a key the protocol protects and, while the VM's protection is
    on, to a key the VM protects; otherwise the value is stored under the key of
    the current contract, no other value of any contract changes, and the status
    says whether it was unchanged, added, deleted or modified. *)
Theorem SetStorage_exact st key value :
  ready st ->
  let a := sto_address (st_storage st) in
  match write_refused st key with
  | Some e => Storage.SetStorage key value st = (st, Ret (StorageUnchanged, e))
  | None =>
      exists st', Storage.SetStorage key value st =
          (st', Ret (write_status (storage_value st a key) value, None)) /\
        (forall b k, storage_value st' b k =
           if decide (b = a /\ k = key) then value else storage_value st b k) /\
        st_storage st' = st_storage st /\ st_runtime st' = st_runtime st /\ st_world st' = st_world st
  end.
Proof.
  intros Hr a. destruct (write_refused st key) as [e|] eqn:E; [by apply SetStorage_refused|].
  destruct (SetStorage_run st key value Hr E) as (st' & H & [] & Hv). by exists st'.
Qed.

(** What was written is what is read back, and reading does not change any
    value. *)
Theorem SetStorage_GetStorage st key value :
  ready st -> write_refused st key = None ->
  exists st1 status st2,
    Storage.SetStorage key value st = (st1, Ret (status, None)) /\
    Storage.GetStorage key st1 = (st2, Ret value) /\
    forall b k, storage_value st2 b k = storage_value st1 b k.
Proof.
  intros Hr Hok. destruct (SetStorage_run st key value Hr Hok) as (st1 & H1 & Hk1 & Hv1).
  destruct (GetStorage_run st1 key (kept_ready _ _ Hk1)) as (st2 & H2 & _ & Hv2).
  rewrite (kept_storage _ _ Hk1), Hv1, decide_True in H2 by done. exists st1; eexists; exists st2. by split_and!.
Qed.

(** [SetProtectedStorage] can write the keys the VM protects, and always
    leaves the protection switched on - also when the write is refused or
    panics. *)
Theorem SetProtectedStorage_exact st key value :
  vmStorageProtectionEnabled (st_storage (fst (Storage.SetProtectedStorage key value st))) = true /\
  (ready st -> readOnly (rt st) = false ->
   HasPrefix key (protectedKeyPrefix (st_storage st)) = false ->
   exists st' status, Storage.SetProtectedStorage key value st = (st', Ret (status, None)) /\
     storage_value st' (sto_address (st_storage st)) key = value).
Proof.
  unfold Storage.SetProtectedStorage. rewrite (bind_run _ _ st _ tt eq_refl).
  set (st1 := set_st_storage _ st). split.
  - unfold with_defer. pose proof (no_fuel (m := Storage.SetStorage key value) st1) as Hf.
    destruct (Storage.SetStorage key value st1) as [st2 [r| |]]; [done | done | by destruct Hf].
  - intros Hr Hro Hp. destruct (SetProtectedStorage_run st key value Hr Hro Hp)
      as (st' & H & _ & _ & _ & _ & Hv).
    eexists _, _. split; [exact H|]. by rewrite Hv, decide_True.
Qed.

(** *** The gas of a write *)

(** The gas used and the gas freed by replacing [old] by a different [value]. *)
Definition update_cost (prices : BaseOperationCost.t) (old value : bytes) : Z * Z :=
  let n := len value in
  let m := len old in
  if decide (old = []) then (BaseOperationCost.StorePerByte prices * n, 0)
  else if decide (value = []) then (0, BaseOperationCost.ReleasePerByte prices * m)
  else if m <? n then
    (BaseOperationCost.PersistPerByte prices * m + BaseOperationCost.StorePerByte prices * (n - m), 0)
  else if n <? m then
    (BaseOperationCost.PersistPerByte prices * n, BaseOperationCost.ReleasePerByte prices * (m - n))
  else (0, 0).

Definition prices_u64 (p : BaseOperationCost.t) : Prop :=
  is_u64 (BaseOperationCost.StorePerByte p) /\ is_u64 (BaseOperationCost.ReleasePerByte p) /\
  is_u64 (BaseOperationCost.PersistPerByte p).

Definition base_prices (st : HostState) : BaseOperationCost.t :=
  gc_BaseOperationCost (gasSchedule (st_metering st)).

Lemma use_per_byte_run st h inst (price : BaseOperationCost.t -> Z) n :
  running st h inst -> 0 <= inst_Points inst -> is_u64 (price (base_prices st)) -> 0 <= n < 2 ^ 63 ->
  inst_Points inst + price (base_prices st) * n <= MaxInt64 ->
  Storage.use_per_byte price n st =
    (with_instance h (set_inst_Points (inst_Points inst + price (base_prices st) * n) inst) st,
     Ret tt).
Proof.
  intros Hr H0 Hp Hn Hle. assert (0 <= price (base_prices st) * n) by (word_unfold; nia).
  unfold Storage.use_per_byte, Storage.per_byte. rewrite !(bind_run _ _ st st _ eq_refl).
  change (gc_BaseOperationCost (gasSchedule (st_metering st))) with (base_prices st).
  assert (is_u64 n) by word_lia. rewrite u64_id, MulUint64_eq, Z.min_r by (done || word_lia).
  rewrite (UseGas_run _ h inst) by (done || word_lia). by rewrite Z.min_l by word_lia.
Qed.

Lemma FreeGas_run st gas g :
  GasRefund (outputOf st) = Some g -> 0 <= g -> 0 <= gas -> g + gas <= MaxInt64 ->
  Metering.FreeGas gas st =
    (set_st_output (Output.on_state (set_GasRefund (Some (g + gas))) (st_output st)) st, Ret tt).
Proof.
  intros Hg H0 H1 Hle. unfold Metering.FreeGas.
  rewrite (bind_run _ _ st st (Some g)).
  2:{ unfold gets, Output.GetRefund. unfold outputOf in Hg. rewrite Hg. cbn.
      by rewrite s64_id, u64_id by word_lia. }
  rewrite (bind_run _ _ st st g eq_refl). rewrite AddUint64_eq by word_lia.
  unfold Output.SetRefund. by rewrite Z.min_r, s64_id by word_lia.
Qed.

Lemma per_byte_run st (price : BaseOperationCost.t -> Z) n :
  0 <= n < 2 ^ 63 -> is_u64 (price (base_prices st)) -> price (base_prices st) * n <= MaxUint64 ->
  Storage.per_byte price n st = (st, Ret (price (base_prices st) * n)).
Proof.
  intros Hn Hp Hle. unfold Storage.per_byte. rewrite (bind_run _ _ st st _ eq_refl).
  change (gc_BaseOperationCost (gasSchedule (st_metering st))) with (base_prices st).
  assert (is_u64 n) by word_lia. by rewrite u64_id, MulUint64_eq, Z.min_r by done.
Qed.

(** The gas of a longer and of a shorter value. *)
Lemma grow_cost st h inst g m d :
  running st h inst -> GasRefund (outputOf st) = Some g ->
  prices_u64 (base_prices st) -> 0 <= inst_Points inst -> 0 <= m -> m + d < 2 ^ 63 -> 0 < d ->
  let used := BaseOperationCost.PersistPerByte (base_prices st) * m +
              BaseOperationCost.StorePerByte (base_prices st) * d in
  inst_Points inst + used <= MaxInt64 ->
  exists st' inst',
    ((if 0 <? d then
        useGas ← Storage.per_byte BaseOperationCost.PersistPerByte m;
        newValStoreUseGas ← Storage.per_byte BaseOperationCost.StorePerByte d;
        Metering.UseGas (AddUint64 useGas newValStoreUseGas)
      else mret tt) ;;
     (if d <? 0 then
        Storage.use_per_byte BaseOperationCost.PersistPerByte (m + d) ;;
        freeGas ← Storage.per_byte BaseOperationCost.ReleasePerByte (s64 (- d));
        Metering.FreeGas freeGas
      else mret tt) ;;
     mret StorageModified) st = (st', Ret StorageModified) /\
    running st' h inst' /\ inst_Points inst' = inst_Points inst + used /\
    GasRefund (outputOf st') = Some g.
Proof.
  intros Hr Hg (Hstore & Hrelease & Hpersist) H0 Hm Hmd Hd used Hu.
  assert (0 <= BaseOperationCost.PersistPerByte (base_prices st) * m) by (word_unfold; nia).
  assert (0 <= BaseOperationCost.StorePerByte (base_prices st) * d) by (word_unfold; nia).
  destruct (Z.ltb_spec 0 d), (Z.ltb_spec d 0); try lia.
  rewrite (bind_run _ _ st (with_instance h (set_inst_Points (inst_Points inst + used) inst) st) tt).
  - eexists _, _. split; [reflexivity|]. split; [by eapply running_with_instance | done].
  - rewrite (bind_run _ _ _ _ _ (per_byte_run st BaseOperationCost.PersistPerByte m
      ltac:(lia) Hpersist ltac:(subst used; word_lia))).
    rewrite (bind_run _ _ _ _ _ (per_byte_run st BaseOperationCost.StorePerByte d
      ltac:(lia) Hstore ltac:(subst used; word_lia))).
    rewrite AddUint64_eq, Z.min_r by (subst used; word_lia).
    rewrite (UseGas_run _ h inst) by (done || (subst used; word_lia)).
    by rewrite Z.min_l by (subst used; word_lia).
Qed.

Lemma shrink_cost st h inst g n d :
  running st h inst -> GasRefund (outputOf st) = Some g ->
  prices_u64 (base_prices st) -> 0 <= inst_Points inst -> 0 <= g -> 0 <= n -> n + d < 2 ^ 63 ->
  0 < d ->
  inst_Points inst + BaseOperationCost.PersistPerByte (base_prices st) * n <= MaxInt64 ->
  g + BaseOperationCost.ReleasePerByte (base_prices st) * d <= MaxInt64 ->
  exists st' inst',
    ((Storage.use_per_byte BaseOperationCost.PersistPerByte n ;;
      freeGas ← Storage.per_byte BaseOperationCost.ReleasePerByte (s64 (- (- d)));
      Metering.FreeGas freeGas) ;;
     mret StorageModified) st = (st', Ret StorageModified) /\
    running st' h inst' /\
    inst_Points inst' = inst_Points inst + BaseOperationCost.PersistPerByte (base_prices st) * n /\
    GasRefund (outputOf st') = Some (g + BaseOperationCost.ReleasePerByte (base_prices st) * d).
Proof.
  intros Hr Hg (Hstore & Hrelease & Hpersist) H0 H1 Hn Hnd Hd Hu Hf.
  assert (0 <= BaseOperationCost.ReleasePerByte (base_prices st) * d) by (word_unfold; nia).
  pose proof (use_per_byte_run st h inst BaseOperationCost.PersistPerByte n Hr H0 Hpersist
    ltac:(lia) Hu) as Huse.
  set (st1 := with_instance h _ st) in Huse.
  pose proof (FreeGas_run st1 (BaseOperationCost.ReleasePerByte (base_prices st) * d) g Hg H1
    ltac:(done) Hf) as Hfree.
  set (st2 := set_st_output _ st1) in Hfree.
  rewrite (bind_run _ _ st st2 tt).
  - eexists _, _. split; [reflexivity|]. split; [by eapply running_with_instance | done].
  - rewrite (bind_run _ _ _ _ _ Huse). rewrite Z.opp_involutive, s64_id by word_lia.
    rewrite (bind_run _ _ _ _ _ (per_byte_run st1 BaseOperationCost.ReleasePerByte d
      ltac:(lia) Hrelease ltac:(change (base_prices st1) with (base_prices st); word_lia))).
    exact Hfree.
Qed.

(** The gas of a changed value.  Within [int64] the points used grow and the
    refund grows by exactly [update_cost]; in particular a shorter value is
    partly refunded, and a different value of the same length costs nothing. *)
Theorem charge_update_cost st h inst g old value :
  running st h inst -> output_wf (outputOf st) -> GasRefund (outputOf st) = Some g ->
  prices_u64 (base_prices st) -> 0 <= inst_Points inst -> 0 <= g ->
  len old < 2 ^ 63 -> len value < 2 ^ 63 ->
  let (used, freed) := update_cost (base_prices st) old value in
  inst_Points inst + used <= MaxInt64 -> g + freed <= MaxInt64 ->
  exists st' inst', Storage.charge_update old value st = (st', Ret (update_status old value)) /\
    running st' h inst' /\ inst_Points inst' = inst_Points inst + used /\
    GasRefund (outputOf st') = Some (g + freed).
Proof.
  intros Hr Hwf Hg (Hstore & Hrelease & Hpersist) H0 H1 Hold Hval.
  pose proof (len_nonneg old) as Hlo. pose proof (len_nonneg value) as Hlv.
  unfold Storage.charge_update, update_cost, update_status.
  destruct (decide (old = [])) as [->|Ho].
  { intros Hu Hf. rewrite bytes_eqb_refl.
    rewrite (bind_run _ _ _ _ _ (use_per_byte_run st h inst _ _ Hr H0 Hstore (conj Hlv Hval) Hu)).
    eexists _, _. split; [reflexivity|]. rewrite Z.add_0_r.
    split_and!; [by eapply running_with_instance | done..]. }
  rewrite (bytes_eqb_ne _ _ Ho). destruct (decide (value = [])) as [->|Hv].
  { intros Hu Hf. assert (0 <= BaseOperationCost.ReleasePerByte (base_prices st) * len old)
      by (word_unfold; nia).
    rewrite bytes_eqb_refl, (bind_run _ _ _ _ _ (per_byte_run st
      BaseOperationCost.ReleasePerByte (len old) ltac:(lia) Hrelease ltac:(word_lia))).
    rewrite (bind_run _ _ _ _ _ (FreeGas_run _ _ _ Hg ltac:(lia) ltac:(done) Hf)).
    eexists _, inst. split; [reflexivity|]. rewrite Z.add_0_r. by split_and!. }
  rewrite (bytes_eqb_ne _ _ Hv), SubInt_in_range by word_lia.
  destruct (Z.ltb_spec (len old) (len value)) as [Hlt|Hge].
  { intros Hu Hf. rewrite Z.add_0_r.
    destruct (grow_cost st h inst g (len old) (len value - len old)) as (st' & inst' & H);
      try done; try lia. replace (len old + (len value - len old)) with (len value) in H by lia.
    by exists st', inst'. }
  destruct (Z.ltb_spec 0 (len value - len old)); [lia|].
  destruct (Z.ltb_spec (len value) (len old)), (Z.ltb_spec (len value - len old) 0); try lia;
    intros Hu Hf; rewrite (bind_run _ _ st st tt eq_refl).
  - destruct (shrink_cost st h inst g (len value) (len old - len value)) as (st' & inst' & H');
      try done; try lia.
    replace (- (len old - len value)) with (len value - len old) in H' by lia.
    by exists st', inst'.
  - eexists st, inst. split; [reflexivity|]. rewrite !Z.add_0_r. by split_and!.
Qed.

(** *** Reading from an address *)

(** What [GetStorageFromAddress] may show of account [a]. *)
Definition readable_from (st : HostState) (a : bytes) : bool :=
  bytes_eqb a (sto_address (st_storage st)) ||
  match Blockchain.present (bh_GetUserAccount (st_world st) a) with
  | Some userAcc => CodeMetadata_Readable (acc_GetCodeMetadata userAcc)
  | None => false
  end.

Lemma GetStorageFromAddress_run st a key :
  ready st ->
  exists st', Storage.GetStorageFromAddress a key st =
      (st', Ret (if readable_from st a then
                   if HasPrefix key (protectedKeyPrefix (st_storage st))
                   then fst (bh_GetStorageData (st_world st) a key) else storage_value st a key
                 else [])) /\
    forall b k, storage_value st' b k = storage_value st b k.
Proof.
  intros Hr. unfold Storage.GetStorageFromAddress.
  destruct (use_extra_bytes_charged st key Hr) as (st1 & H1 & Hc1). rewrite (bind_run _ _ _ _ _ H1).
  pose proof (charged_kept _ _ Hc1) as Hk1. rewrite (bind_run _ _ st1 st1 _ eq_refl).
  rewrite (bind_run _ _ st1 st1 (readable_from st a)).
  2:{ unfold readable_from. rewrite (kept_storage _ _ Hk1).
      destruct (bytes_eqb a (sto_address (st_storage st))); [done|].
      rewrite (bind_run _ _ _ _ _ eq_refl), (kept_world _ _ Hk1). done. }
  destruct (readable_from st a); cbn [negb].
  2:{ exists st1. split; [done|]. intros. by apply charged_value. }
  rewrite (bind_run _ _ st1 st1 _ eq_refl), (kept_storage _ _ Hk1).
  match goal with |- context [mbind _ (if ?b then ?m else ?n)] =>
    assert (exists st2, (if b then m else n) st1 = (st2, Ret (if b
      then fst (bh_GetStorageData (st_world st) a key) else storage_value st a key)) /\
      kept st1 st2 /\ forall x k, storage_value st2 x k = storage_value st1 x k)
      as (st2 & H2 & Hk2 & Hv2) end.
  { pose proof (kept_ready _ _ Hk1) as Hr1. destruct (HasPrefix _ _).
    - exists st1. rewrite <- (kept_world _ _ Hk1). split; [done|]. split; [by apply kept_refl | done].
    - destruct (getStorageFromAddressUnmetered_run st1 a key Hr1) as (st2 & H2 & Hk2 & Hv2).
      rewrite (charged_value _ _ _ _ Hc1) in H2. by exists st2. }
  rewrite (bind_run _ _ _ _ _ H2).
  match goal with |- context [Storage.use_per_byte ?p ?n] =>
    destruct (use_per_byte_charged st2 p n (kept_ready _ _ Hk2)) as (st3 & H3 & Hc3) end.
  rewrite (bind_run _ _ _ _ _ H3). exists st3. split; [done|].
  intros b k. by rewrite (charged_value _ _ _ _ Hc3), Hv2, (charged_value _ _ _ _ Hc1).
Qed.

(** A contract reads its own storage and that of readable contracts only; a
    key the protocol protects is read past the cache of pending updates, any
    other key through it; nothing read is changed. *)
Theorem GetStorageFromAddress_exact st a key :
  ready st ->
  exists st' value, Storage.GetStorageFromAddress a key st = (st', Ret value) /\
    (readable_from st a = false -> value = []) /\
    (readable_from st a = true ->
       HasPrefix key (protectedKeyPrefix (st_storage st)) = true ->
       value = fst (bh_GetStorageData (st_world st) a key)) /\
    (readable_from st a = true ->
       HasPrefix key (protectedKeyPrefix (st_storage st)) = false ->
       value = storage_value st a key) /\
    (forall b k, storage_value st' b k = storage_value st b k).
Proof.
  intros Hr. destruct (GetStorageFromAddress_run st a key Hr) as (st' & H & Hv).
  exists st'. eexists. split; [exact H|].
  destruct (readable_from st a), (HasPrefix _ _); by split_and!.
Qed.

(** Reading a protocol-protected key of one's own storage with [GetStorage]
    returns the cached update, while [GetStorageFromAddress] on the same address
    returns what the node has: the two differ once a built-in function has
    changed the value. *)
Theorem protected_key_reads_differ st key update :
  ready st -> HasPrefix key (protectedKeyPrefix (st_storage st)) = true ->
  let a := sto_address (st_storage st) in
  StorageUpdates (account_at a (OutputAccounts (outputOf st))) !! key = Some update ->
  (exists st1, Storage.GetStorage key st = (st1, Ret (Data update))) /\
  (exists st2, Storage.GetStorageFromAddress a key st =
     (st2, Ret (fst (bh_GetStorageData (st_world st) a key)))).
Proof.
  intros Hr Hp a Hu. split.
  - destruct (GetStorage_run st key Hr) as (st1 & H & _ & _). exists st1. rewrite H.
    do 2 f_equal. unfold storage_value. fold a. by rewrite Hu.
  - destruct (GetStorageFromAddress_run st a key Hr) as (st2 & H & _). exists st2. rewrite H.
    unfold readable_from. fold a. by rewrite bytes_eqb_refl, Hp.
Qed.

End Writes.

(** ** Witnesses *)

Lemma toy_start_ready : @ready toy toy_start.
Proof. split; [by exists 1%nat; eexists | exact toy_start_wf]. Qed.

Lemma SetStorage_exact_witness :
  exists st', @Storage.SetStorage toy (bs "k") (bs "v") toy_start =
    (st', Ret (StorageAdded, None)).
Proof.
  pose proof (@SetStorage_exact toy toy_start (bs "k") (bs "v") toy_start_ready) as H.
  cbv zeta in H. replace (@write_refused toy toy_start (bs "k")) with (@None (option error)) in H
    by (vm_compute; reflexivity).
  destruct H as (st' & H & _). exists st'. exact H.
Defined.

Lemma SetStorage_GetStorage_witness :
  exists st1 st2, @Storage.GetStorage toy (bs "k") st1 = (st2, Ret (bs "v")).
Proof.
  destruct (@SetStorage_GetStorage toy toy_start (bs "k") (bs "v") toy_start_ready)
    as (st1 & status & st2 & _ & H & _); [vm_compute; reflexivity|].
  exists st1, st2. exact H.
Defined.

Lemma charge_update_cost_witness :
  exists st', @Storage.charge_update toy (bs "abcd") (bs "ab") toy_start =
    (st', Ret StorageModified).
Proof.
  destruct (@charge_update_cost toy toy_start 1 (toy_instance (bs "code") 50) 0
    (bs "abcd") (bs "ab")) as (st' & inst' & H & _);
    [by split | exact toy_start_wf | done | word_compute .. |].
  exists st'. exact H.
Defined.

Lemma GetStorageFromAddress_exact_witness :
  exists st', @Storage.GetStorageFromAddress toy (bs "other") (bs "k") toy_start =
    (st', Ret []).
Proof.
  destruct (@GetStorageFromAddress_exact toy toy_start (bs "other") (bs "k") toy_start_ready)
    as (st' & value & H & Hno & _).
  exists st'. rewrite H, (Hno ltac:(vm_compute; reflexivity)). reflexivity.
Defined.

Definition toy_cached : @HostState toy :=
  fst (@Storage.put_update toy (bs "sc1") (bs "ELRONDx") (bs "old") toy_start).

Lemma protected_key_reads_differ_witness :
  (exists st1, @Storage.GetStorage toy (bs "ELRONDx") toy_cached = (st1, Ret (bs "old"))) /\
  (exists st2, @Storage.GetStorageFromAddress toy (bs "sc1") (bs "ELRONDx") toy_cached =
     (st2, Ret [])).
Proof.
  destruct (@put_update_run toy toy_start (bs "sc1") (bs "ELRONDx") (bs "old") toy_start_ready)
    as (st' & H & Hk & _).
  assert (@ready toy toy_cached) as Hr by (unfold toy_cached; rewrite H; apply Hk).
  exact (@protected_key_reads_differ toy toy_cached (bs "ELRONDx")
    (mkStorageUpdate (bs "ELRONDx") (bs "old")) Hr ltac:(vm_compute; reflexivity)
    ltac:(vm_compute; reflexivity)).
Defined.

Lemma SetProtectedStorage_exact_witness :
  exists st' status, @Storage.SetProtectedStorage toy (bs "ARWEN@x") (bs "v") toy_start =
    (st', Ret (status, None)).
Proof.
  destruct (proj2 (@SetProtectedStorage_exact toy toy_start (bs "ARWEN@x") (bs "v"))
    toy_start_ready eq_refl ltac:(vm_compute; reflexivity)) as (st' & status & H & _).
  exists st', status. exact H.
Defined.
