(* ===== verification/Validator.v ===== *)
(** Validation of contract code: [src/vmhost/contexts/validator.go] and
    [src/vmhost/contexts/reservedFunctions.go]. *)
From S2P Require Import Prelude Errors Types State Logic Toy Output.

#[local] Open Scope Z_scope.

(** The first error of a loop over a list. *)
Fixpoint first_error {A} (f : A -> option error) (l : list A) : option error :=
  match l with
  | [] => None
  | x :: l' => match f x with Some e => Some e | None => first_error f l' end
  end.

Lemma first_error_None {A} (f : A -> option error) l :
  first_error f l = None <-> forall x, x ∈ l -> f x = None.
Proof.
  induction l as [|x l IH]; cbn.
  - split; [by intros _ x ?%elem_of_nil | done].
  - destruct (f x) eqn:E.
    + split; [done|]. intros H. rewrite H in E; [done | by left].
    + rewrite IH. split.
      * intros H y [->|Hy]%elem_of_cons; [done | by apply H].
      * intros H y Hy. apply H. by right.
Qed.

Lemma first_error_Some {A} (f : A -> option error) l e :
  first_error f l = Some e -> exists x, x ∈ l /\ f x = Some e.
Proof.
  induction l as [|x l IH]; cbn; [done|]. destruct (f x) eqn:E.
  - intros [= ->]. exists x. split; [by left | done].
  - intros (y & Hy & Hf)%IH. exists y. split; [by right | done].
Qed.

Section Validator.
Context `{Ext : Externals}.

(** [range] over the keys of a map used as a set. *)
Definition range_set (s : gset bytes) : list bytes := (range (gset_to_gmap tt s)).*1.

Lemma elem_of_range_set s x : x ∈ range_set s <-> x ∈ s.
Proof.
  unfold range_set. rewrite list_elem_of_fmap. split.
  - intros ([y []] & -> & Hy%elem_of_range). cbn. by apply lookup_gset_to_gmap_Some in Hy as [? _].
  - intros Hx. exists (x, tt). split; [done|]. apply elem_of_range. by apply lookup_gset_to_gmap_Some.
Qed.

(** ** Reserved functions *)

Definition NewReservedFunctions (scAPINames : gset bytes) : gset bytes :=
  filter (fun name => bf_IsActive name = true) bf_Keys ∪ scAPINames ∪ {[UpgradeFunctionName]}.

Definition IsReserved (reserved : gset bytes) (functionName : bytes) : bool :=
  bool_decide (functionName ∈ reserved).

Definition GetReserved (reserved : gset bytes) : list bytes := range_set reserved.

(** ** The validator *)

(** [fmt.Errorf("%w: %s", err, name)] *)
Definition err_about (err : sentinel) (name : bytes) : error := ErrFmt [] err (bs ": " ++ name).

(** Every byte is at most [unicode.MaxASCII]. *)
Definition isASCIIString (input : bytes) : bool := forallb (fun c => Z_of_byte c <=? 127) input.

Definition verifyValidFunctionName (reserved : gset bytes) (functionName : bytes) : option error :=
  let errInvalidName := Some (err_about ErrInvalidFunctionName functionName) in
  if len functionName =? 0 then errInvalidName
  else if 256 <=? len functionName then errInvalidName
  else if negb (isASCIIString functionName) then errInvalidName
  else if IsReserved reserved functionName then errInvalidName
  else None.

Definition verifyMemoryDeclaration (instance : Instance) : option error :=
  if inst_HasMemory instance then None else Some (ErrMemoryDeclarationMissing : error).

Definition noArity : Z := -1.

Definition getInputArity (instance : Instance) (functionName : bytes) : Z * option error :=
  match inst_Signatures instance !! functionName with
  | None => (noArity, Some (err_about ErrFuncNotFound functionName))
  | Some (inputArity, _) => (inputArity, None)
  end.

Definition getOutputArity (instance : Instance) (functionName : bytes) : Z * option error :=
  match inst_Signatures instance !! functionName with
  | None => (noArity, Some (err_about ErrFuncNotFound functionName))
  | Some (_, outputArity) => (outputArity, None)
  end.

Definition verifyVoidFunction (instance : Instance) (functionName : bytes) : option error :=
  match getInputArity instance functionName with
  | (_, Some err) => Some err
  | (inArity, None) =>
      match getOutputArity instance functionName with
      | (_, Some err) => Some err
      | (outArity, None) =>
          if (inArity =? 0) && (outArity =? 0) then None
          else Some (err_about ErrFunctionNonvoidSignature functionName)
      end
  end.

Definition verifyFunctions (reserved : gset bytes) (instance : Instance) : option error :=
  first_error (fun functionName =>
      match verifyValidFunctionName reserved functionName with
      | Some err => Some err
      | None => verifyVoidFunction instance functionName
      end)
    (range_set (inst_Exports instance)).

(** ** Properties *)

(** A name a contract may export. *)
Definition acceptable_name (reserved : gset bytes) (name : bytes) : Prop :=
  0 < len name < 256 /\ Forall (fun c => Z_of_byte c <= 127) name /\ name ∉ reserved.

Lemma isASCIIString_true name :
  isASCIIString name = true <-> Forall (fun c => Z_of_byte c <= 127) name.
Proof.
  unfold isASCIIString. rewrite forallb_forall, List.Forall_forall.
  split; intros H x Hx; specialize (H x Hx); lia.
Qed.

Lemma verifyValidFunctionName_None reserved name :
  verifyValidFunctionName reserved name = None <-> acceptable_name reserved name.
Proof.
  unfold verifyValidFunctionName, acceptable_name, IsReserved. pose proof (len_nonneg name).
  rewrite <- isASCIIString_true.
  destruct (Z.eqb_spec (len name) 0); [split; [done | lia]|].
  destruct (Z.leb_spec 256 (len name)); [split; [done | lia]|].
  destruct (isASCIIString name); cbn; [|split; [done | by intros (_ & ? & _)]].
  case_bool_decide; (split; [try done | try tauto]). intros _. split_and!; done || lia.
Qed.

Lemma verifyVoidFunction_None instance name :
  verifyVoidFunction instance name = None <-> inst_Signatures instance !! name = Some (0, 0).
Proof.
  unfold verifyVoidFunction, getInputArity, getOutputArity.
  destruct (inst_Signatures instance !! name) as [[i o]|]; [|done].
  destruct (Z.eqb_spec i 0), (Z.eqb_spec o 0); cbn; split; try done; congruence.
Qed.

(** C25: the exports of a contract pass validation - in whatever order they are
    visited - exactly when each is a non-empty ASCII name shorter than 256
    bytes that is not reserved (an active built-in function, a name of the VM's
    API, or [upgradeContract]) and denotes a function without arguments and
    results; a failure is one of the three validation errors. *)
Theorem verifyFunctions_exact scAPINames instance :
  let reserved := NewReservedFunctions scAPINames in
  (verifyFunctions reserved instance = None <->
     forall name, name ∈ inst_Exports instance ->
       0 < len name < 256 /\ Forall (fun c => Z_of_byte c <= 127) name /\
       ~ (name ∈ bf_Keys /\ bf_IsActive name = true) /\ (name ∉ scAPINames) /\
       name <> UpgradeFunctionName /\
       inst_Signatures instance !! name = Some (0, 0)) /\
  (forall e, verifyFunctions reserved instance = Some e ->
     errors_Is e ErrInvalidFunctionName = true \/ errors_Is e ErrFuncNotFound = true \/
     errors_Is e ErrFunctionNonvoidSignature = true).
Proof.
  intros reserved. unfold verifyFunctions. split.
  - rewrite first_error_None. split; intros H name Hname.
    + specialize (H name (proj2 (elem_of_range_set _ _) Hname)).
      destruct (verifyValidFunctionName reserved name) eqn:E; [done|].
      apply verifyValidFunctionName_None in E as (Hlen & Hascii & Hres).
      apply verifyVoidFunction_None in H. subst reserved. unfold NewReservedFunctions in Hres.
      rewrite !elem_of_union, elem_of_filter, elem_of_singleton in Hres.
      split_and!; try done; tauto.
    + apply elem_of_range_set, H in Hname as (Hlen & Hascii & Hb & Ha & Hu & Hs).
      assert (verifyValidFunctionName reserved name = None) as ->.
      { apply verifyValidFunctionName_None. split_and!; try done; try lia. subst reserved.
        unfold NewReservedFunctions.
        rewrite !elem_of_union, elem_of_filter, elem_of_singleton. tauto. }
      by apply verifyVoidFunction_None.
  - intros e (name & _ & He)%first_error_Some.
    unfold verifyValidFunctionName, verifyVoidFunction, getInputArity, getOutputArity in He.
    repeat case_match; simplify_eq; unfold err_about; cbn; auto.
Qed.

End Validator.
