(* ===== verification/RuntimeExec.v ===== *)
(** The runtime context, second part: [src/vmhost/contexts/runtime.go] where it
    starts instances, fails executions and prepares asynchronous calls with the
    help of the other contexts.  [WithFaultAndHost] is of
    [src/vmhost/helpers.go]. *)
From S2P Require Import Prelude Errors Overflow Types State Logic Toy Runtime Output Metering.
From S2P Require Import Blockchain Transfers Storage Validator.

#[local] Open Scope Z_scope.

Module RuntimeExec.
Section RuntimeExec.
Context `{Ext : Externals}.

(** *** Starting instances *)

(** A new instance on the heap becomes the running one. *)
Definition new_instance (inst : Instance) : M unit := fun st =>
  let h := st_next st in
  (set_st_runtime (set_instance (Some h) (st_runtime st))
     (set_st_instances (<[h := inst]> (st_instances st)) (set_st_next (S h) st)), Ret tt).

Definition compilation_options (gasLimit : Z) : M CompilationOptions :=
  schedule ← Metering.GasSchedule;
  mret {| opt_GasLimit := gasLimit;
          opt_UnmeteredLocals := gc_LocalsUnmetered schedule;
          opt_MaxMemoryGrow := MaxMemoryGrow;
          opt_MaxMemoryGrowDelta := MaxMemoryGrowDelta;
          opt_OpcodeTrace := false;
          opt_Metering := true;
          opt_RuntimeBreakpoints := true |}.

Definition setWarmInstanceWhenNeeded (gasLimit : Z) : M bool :=
  scAddress ← Runtime.GetSCAddress;
  c ← gets st_runtime;
  let useWarm := useWarmInstance c &&
    match warmInstanceAddress c with Some a => bytes_eqb scAddress a | None => false end in
  if useWarm then
    modify_runtime (set_instance (warmInstance c)) ;;
    Runtime.SetPointsUsed 0 ;;
    modify_instance (set_inst_GasLimit gasLimit) ;;
    Runtime.SetRuntimeBreakpointValue BreakpointNone ;;
    mret true
  else mret false.

Definition saveCompiledCode (codeHash : bytes) : M unit :=
  inst ← current_instance;
  match w_Cache inst with
  | (_, Some _) => mret tt
  | (compiledCode, None) => Blockchain.SaveCompiledCode codeHash compiledCode
  end.

Definition forbidden_imports : list bytes :=
  map bs ["transferESDTExecute"; "transferESDTNFTExecute"; "transferValueExecute";
          "getESDTBalance"; "getESDTTokenData"; "getESDTTokenType"; "getESDTTokenNonce";
          "getCurrentESDTNFTNonce"; "getESDTNFTNameLength"; "getESDTNFTAttributeLength";
          "getESDTNFTURILength"; "bigIntGetESDTExternalBalance"]%string.

Definition checkBackwardCompatibility : M (option error) :=
  if IsESDTFunctionsEnabled then mret None
  else
    for_each_err forbidden_imports (fun name =>
      imported ← Runtime.IsFunctionImported name;
      mret (if (imported : bool) then Some (ErrContractInvalid : error) else None)).

Definition VerifyContractCode : M (option error) :=
  verify ← gets (fun st => verifyCode (st_runtime st));
  if negb (verify : bool) then mret None
  else
    modify_runtime (set_verifyCode false) ;;
    inst ← current_instance;
    match verifyMemoryDeclaration inst with
    | Some err => mret (Some err)
    | None =>
        reserved ← gets (fun st => reserved (st_runtime st));
        match verifyFunctions reserved inst with
        | Some err => mret (Some err)
        | None => checkBackwardCompatibility
        end
    end.

Definition makeInstanceFromCompiledCode (codeHash : bytes) (gasLimit : Z) (newCode : bool) :
    M bool :=
  if negb IsAheadOfTimeCompileEnabled then mret false
  else if newCode || (len codeHash =? 0) then mret false
  else
    r ← Blockchain.GetCompiledCode codeHash;
    match r with
    | (false, _) => mret false
    | (true, compiledCode) =>
        options ← compilation_options gasLimit;
        match w_NewInstanceFromCompiledCodeWithOptions compiledCode options with
        | (_, Some _) => mret false
        | (newInstance, None) =>
            new_instance newInstance ;;
            modify_runtime (set_verifyCode false) ;;
            mret true
        end
    end.

(** What follows once the instance is made and the hash of its code known. *)
Definition finish_instance (codeHash : bytes) (newCode : bool) : M (option error) :=
  saveCompiledCode codeHash ;;
  err ← (if newCode then VerifyContractCode else mret None);
  match err with
  | Some e => Runtime.CleanWasmerInstance ;; mret (Some e)
  | None =>
      modify_runtime (fun c =>
        if useWarmInstance c then
          set_warmInstanceAddress (Some (scAddress (rt_state c)))
            (set_warmInstance (instance c) c)
        else c) ;;
      mret None
  end.

Definition makeInstanceFromContractByteCode (contract codeHash : bytes) (gasLimit : Z)
    (newCode : bool) : M (option error) :=
  options ← compilation_options gasLimit;
  match w_NewInstanceWithOptions contract options with
  | (_, Some err) => modify_runtime (set_instance None) ;; mret (Some err)
  | (newInstance, None) =>
      new_instance newInstance ;;
      if newCode || (len codeHash =? 0) then
        match crypto_Sha256 contract with
        | (_, Some err) => Runtime.CleanWasmerInstance ;; mret (Some err)
        | (codeHash, None) => finish_instance codeHash newCode
        end
      else finish_instance codeHash newCode
  end.

Definition StartWasmerInstance (contract : bytes) (gasLimit : Z) (newCode : bool) :
    M (option error) :=
  count ← Runtime.RunningInstancesCount;
  max ← gets (fun st => maxWasmerInstances (st_runtime st));
  if max <=? count then
    modify_runtime (set_instance None) ;; mret (Some (ErrMaxInstancesReached : error))
  else
    warmInstanceUsed ← setWarmInstanceWhenNeeded gasLimit;
    if (warmInstanceUsed : bool) then mret None
    else
      address ← Runtime.GetSCAddress;
      codeHash ← Blockchain.GetCodeHash address;
      compiledCodeUsed ← makeInstanceFromCompiledCode codeHash gasLimit newCode;
      if (compiledCodeUsed : bool) then mret None
      else makeInstanceFromContractByteCode contract codeHash gasLimit newCode.

Definition GetSCCode : M (bytes * option error) :=
  address ← Runtime.GetSCAddress;
  r ← Blockchain.GetCode address;
  match r with
  | (_, Some err) => mret ([], Some err)
  | (code, None) => modify_runtime (set_codeSize (u64 (len code))) ;; mret (code, None)
  end.

(** *** Failing an execution *)

Definition FailExecution (err : option error) : M unit :=
  modify_output (Output.SetReturnCode ExecutionFailed) ;;
  let message := match err with Some e => Error e | None => bs "execution failed" end in
  Runtime.AddError (Some match err with Some e => e | None => ErrNew message end) [] ;;
  modify_output (Output.SetReturnMessage message) ;;
  Runtime.SetRuntimeBreakpointValue BreakpointExecutionFailed.

Definition SignalUserError (message : bytes) : M unit :=
  modify_output (Output.SetReturnCode UserError) ;;
  modify_output (Output.SetReturnMessage message) ;;
  Runtime.SetRuntimeBreakpointValue BreakpointSignalError ;;
  Runtime.AddError (Some (ErrNew message)) [].

(** [WithFaultAndHost] of [helpers.go]: true when the caller must stop; an
    execution that fails loses the gas it has left. *)
Definition WithFaultAndHost (err : option error) (failExecution : bool) : M bool :=
  match err with
  | None => mret false
  | Some e =>
      (if failExecution then
         gasLeft ← Metering.GasLeft;
         Metering.UseGas gasLeft ;;
         FailExecution (Some e)
       else mret tt) ;;
      mret true
  end.

(** *** Asynchronous calls *)

Definition ExecuteAsyncCall (address data value : bytes) : M (option error) :=
  err ← Metering.UseGasForAsyncStep;
  match err with
  | Some e => mret (Some e)
  | None =>
      hasCallback ← Runtime.HasCallbackMethod;
      let shouldLockGas := (hasCallback : bool) || negb IsDynamicGasLockingEnabled in
      locked ← (if shouldLockGas then
                  gasToLock ← Metering.ComputeGasLockedForAsync;
                  err ← Metering.UseGasBounded gasToLock;
                  mret (gasToLock, err)
                else mret (0, None));
      match locked with
      | (_, Some e) => mret (Some e)
      | (gasToLock, None) =>
          gasLeft ← Metering.GasLeft;
          Runtime.SetAsyncCallInfo (Some
            {| aci_Destination := address; aci_Data := data; aci_GasLimit := gasLeft;
               aci_GasLocked := gasToLock; aci_ValueBytes := value |}) ;;
          Runtime.SetRuntimeBreakpointValue BreakpointAsyncCall ;;
          mret None
      end
  end.

(** The [AsyncContextInfo] the runtime context points to. *)
Definition current_async_info : M AsyncContextInfo :=
  loc ← Runtime.GetAsyncContextInfo;
  o ← gets (fun st => st_asyncInfos st !! loc);
  deref o.

Definition modify_async_info (f : AsyncContextInfo -> AsyncContextInfo) : M unit :=
  loc ← Runtime.GetAsyncContextInfo;
  modify (fun st => set_st_asyncInfos (alter f loc (st_asyncInfos st)) st).

Definition AddAsyncContextCall (contextIdentifier : bytes) (asyncCall : AsyncGeneratedCall) :
    M (option error) :=
  info ← current_async_info;
  let context := default (mkAsyncContext [] []) (AsyncContextMap info !! contextIdentifier) in
  let context := set_AsyncCalls (AsyncCalls context ++ [asyncCall]) context in
  modify_async_info (fun info =>
    set_AsyncContextMap (<[contextIdentifier := context]> (AsyncContextMap info)) info) ;;
  mret None.

Definition GetAsyncContext (contextIdentifier : bytes) : M (option AsyncContext * option error) :=
  info ← current_async_info;
  mret match AsyncContextMap info !! contextIdentifier with
       | None => (None, Some (ErrAsyncContextDoesNotExist : error))
       | Some context => (Some context, None)
       end.

End RuntimeExec.
End RuntimeExec.

(** ** Lemmas *)

Section Lemmas.
Context `{Ext : Externals}.

(** [UseGasBounded] in closed form. *)
Lemma UseGasBounded_run st h inst gas :
  running st h inst -> 0 <= inst_Points inst <= MaxInt64 -> is_u64 gas ->
  gasForExecution (Metering.met st) <= MaxInt64 ->
  Metering.UseGasBounded gas st =
    if gas <? gasForExecution (Metering.met st) - inst_Points inst
    then (with_instance h (set_inst_Points (inst_Points inst + gas) inst) st, Ret None)
    else (st, Ret (Some (ErrNotEnoughGas : error))).
Proof.
  intros Hr Hp Hg Hm. unfold Metering.UseGasBounded.
  rewrite (bind_run _ _ _ _ _ (GasLeft_run st h inst Hr)).
  destruct (Z.ltb_spec gas (gasForExecution (Metering.met st) - inst_Points inst)),
    (Z.leb_spec (Z.max 0 (gasForExecution (Metering.met st) - inst_Points inst)) gas);
    try (exfalso; word_lia); [|done].
  rewrite (bind_run _ _ _ _ _ (UseGas_run st h inst gas Hr ltac:(word_lia) Hg)).
  by rewrite Z.min_l by word_lia.
Qed.

Definition async_step (st : HostState) : Z :=
  BaseOpsAPICost.AsyncCallStep (gc_BaseOpsAPICost (gasSchedule (st_metering st))).

(** The cost of the callback: compiling the contract again and executing a step. *)
Definition callback_cost (st : HostState) : Z :=
  (if IsDynamicGasLockingEnabled then
     codeSize (st_runtime st) *
     (if IsAheadOfTimeCompileEnabled then BaseOperationCost.AoTPreparePerByte (base_prices st)
      else BaseOperationCost.CompilePerByte (base_prices st))
   else 0) +
  (async_step st +
   BaseOpsAPICost.AsyncCallbackGasLock (gc_BaseOpsAPICost (gasSchedule (st_metering st)))).

(** The prices [ExecuteAsyncCall] uses. *)
Record async_prices_u64 (st : HostState) : Prop := {
  price_size : is_u64 (codeSize (st_runtime st));
  price_compile : is_u64 (BaseOperationCost.CompilePerByte (base_prices st));
  price_prepare : is_u64 (BaseOperationCost.AoTPreparePerByte (base_prices st));
  price_step : is_u64 (async_step st);
  price_lock : is_u64
    (BaseOpsAPICost.AsyncCallbackGasLock (gc_BaseOpsAPICost (gasSchedule (st_metering st))));
}.

Lemma ComputeGasLockedForAsync_run st :
  async_prices_u64 st ->
  Metering.ComputeGasLockedForAsync st = (st, Ret (Z.min MaxUint64 (callback_cost st))) /\
  is_u64 (Z.min MaxUint64 (callback_cost st)).
Proof.
  intros []. unfold Metering.ComputeGasLockedForAsync, callback_cost.
  rewrite !(bind_run _ _ st st _ eq_refl).
  change (gc_BaseOperationCost (gasSchedule (st_metering st))) with (base_prices st).
  fold (async_step st).
  set (price := if IsAheadOfTimeCompileEnabled then _ else _) in *.
  assert (is_u64 price) as Hprice by (subst price; by destruct IsAheadOfTimeCompileEnabled).
  assert (0 <= codeSize (st_runtime st) * price) by (word_unfold; nia).
  rewrite (MulUint64_eq _ price) by done. rewrite (AddUint64_eq (async_step st)) by done.
  generalize dependent (codeSize (st_runtime st) * price). intros x Hx.
  destruct IsDynamicGasLockingEnabled; rewrite AddUint64_eq by word_lia;
    (split; [unfold mret, M_ret; do 2 f_equal |]); word_lia.
Qed.

Lemma UseGasForAsyncStep_run st h inst :
  running st h inst -> 0 <= inst_Points inst <= MaxInt64 -> is_u64 (async_step st) ->
  gasForExecution (Metering.met st) <= MaxInt64 ->
  Metering.UseGasForAsyncStep st =
    if async_step st <? gasForExecution (Metering.met st) - inst_Points inst
    then (with_instance h (set_inst_Points (inst_Points inst + async_step st) inst) st, Ret None)
    else (st, Ret (Some (ErrNotEnoughGas : error))).
Proof.
  intros. unfold Metering.UseGasForAsyncStep. rewrite (bind_run _ _ st st _ eq_refl).
  fold (async_step st). by apply UseGasBounded_run.
Qed.

(** The second step of [ExecuteAsyncCall]: locking gas for the callback. *)
Lemma lock_gas_run st h inst (shouldLock : bool) :
  running st h inst -> 0 <= inst_Points inst <= MaxInt64 ->
  gasForExecution (Metering.met st) <= MaxInt64 -> async_prices_u64 st ->
  let left := gasForExecution (Metering.met st) - inst_Points inst in
  let lock := if shouldLock then Z.min MaxUint64 (callback_cost st) else 0 in
  (if shouldLock then
     gasToLock ← Metering.ComputeGasLockedForAsync;
     err ← Metering.UseGasBounded gasToLock;
     mret (gasToLock, err)
   else mret (0, None)) st =
    if negb shouldLock || (lock <? left)
    then (with_instance h (set_inst_Points (inst_Points inst + lock) inst) st, Ret (lock, None))
    else (st, Ret (lock, Some (ErrNotEnoughGas : error))).
Proof.
  intros Hr Hp Hm Hprices left lock. destruct shouldLock; cbn [negb orb]; subst lock.
  - destruct (ComputeGasLockedForAsync_run st Hprices) as [Hc Hlock].
    rewrite (bind_run _ _ _ _ _ Hc). unfold mbind, M_bind.
    rewrite (UseGasBounded_run st h inst) by done. fold left.
    by destruct (Z.min MaxUint64 (callback_cost st) <? left).
  - by rewrite (with_instance_same st h inst) by (done || by destruct inst; cbn; rewrite Z.add_0_r).
Qed.

(** The last part of [ExecuteAsyncCall]: the call is recorded with all the gas
    that is left. *)
Lemma record_async_call_run st h inst address data value lock :
  running st h inst ->
  exists st', (gasLeft ← Metering.GasLeft;
     Runtime.SetAsyncCallInfo (Some (mkAsyncCallInfo address data gasLeft lock value)) ;;
     Runtime.SetRuntimeBreakpointValue BreakpointAsyncCall ;;
     mret (None : option error)) st = (st', Ret None) /\
    asyncCallInfo (rt st') = Some (mkAsyncCallInfo address data
      (Z.max 0 (gasForExecution (Metering.met st) - inst_Points inst)) lock value) /\
    running st' h (set_inst_Breakpoint (breakpoint_to_Z BreakpointAsyncCall) inst).
Proof.
  intros Hr. rewrite (bind_run _ _ _ _ _ (GasLeft_run st h inst Hr)).
  rewrite (bind_run _ _ _ _ _ eq_refl). set (st1 := set_st_runtime _ st).
  assert (running st1 h inst) as Hr1 by exact Hr.
  unfold Runtime.SetRuntimeBreakpointValue.
  rewrite (bind_run _ _ _ _ _ (modify_instance_run _ st1 h inst Hr1)).
  eexists. split; [reflexivity|]. split; [done|]. by eapply running_with_instance.
Qed.

(** The gas [ExecuteAsyncCall] locks. *)
Definition gas_to_lock (st : HostState) (inst : Instance) : Z :=
  if bool_decide (CallbackFunctionName ∈ inst_Exports inst) || negb IsDynamicGasLockingEnabled
  then Z.min MaxUint64 (callback_cost st) else 0.

End Lemmas.

(** What starting an instance never touches. *)
Definition stack_frame `{Externals} (st : HostState) :=
  (instanceStack (st_runtime st), rt_stateStack (st_runtime st),
   maxWasmerInstances (st_runtime st)).

#[export] Instance new_instance_keeps `{Externals} inst :
  Keeps (same stack_frame) (RuntimeExec.new_instance inst).
Proof. intros st. reflexivity. Qed.

#[export] Instance StartWasmerInstance_keeps `{Externals} contract gasLimit newCode :
  Keeps (same stack_frame) (RuntimeExec.StartWasmerInstance contract gasLimit newCode).
Proof.
  unfold RuntimeExec.StartWasmerInstance, RuntimeExec.setWarmInstanceWhenNeeded,
    RuntimeExec.makeInstanceFromCompiledCode, RuntimeExec.makeInstanceFromContractByteCode,
    RuntimeExec.finish_instance, RuntimeExec.VerifyContractCode, RuntimeExec.saveCompiledCode,
    RuntimeExec.checkBackwardCompatibility, RuntimeExec.compilation_options,
    Runtime.CleanWasmerInstance, Runtime.IsWarmInstance, Runtime.SetPointsUsed,
    Runtime.SetRuntimeBreakpointValue, Runtime.IsFunctionImported, modify_instance,
    Blockchain.SaveCompiledCode. keeps_auto.
Qed.

(** ** Properties *)

Section Properties.
Context `{Ext : Externals}.

(** No instance is started beyond the limit: with [maxWasmerInstances]
    instances on the stack [StartWasmerInstance] fails, leaves no instance
    running and changes nothing else; and it never touches the stacks. *)
Theorem StartWasmerInstance_bounded st contract gasLimit newCode :
  let '(st', r) := RuntimeExec.StartWasmerInstance contract gasLimit newCode st in
  instanceStack (st_runtime st') = instanceStack (st_runtime st) /\
  rt_stateStack (st_runtime st') = rt_stateStack (st_runtime st) /\
  maxWasmerInstances (st_runtime st') = maxWasmerInstances (st_runtime st) /\
  (maxWasmerInstances (st_runtime st) <= u64 (len (instanceStack (st_runtime st))) ->
   r = Ret (Some (ErrMaxInstancesReached : error)) /\
   st' = set_st_runtime (set_instance None (st_runtime st)) st).
Proof.
  pose proof (StartWasmerInstance_keeps contract gasLimit newCode st) as Hk. unfold same in Hk.
  destruct (RuntimeExec.StartWasmerInstance contract gasLimit newCode st) as [st' r] eqn:E.
  cbn in Hk. injection Hk as Hs1 Hs2 Hs3. split_and!; try done. intros Hmax.
  revert E. unfold RuntimeExec.StartWasmerInstance. rewrite !(bind_run _ _ st st _ eq_refl).
  destruct (Z.leb_spec (maxWasmerInstances (st_runtime st))
    (u64 (len (instanceStack (st_runtime st))))); [|lia].
  rewrite (bind_run _ _ _ _ _ eq_refl). by intros [= <- <-].
Qed.

(** Preparing an asynchronous call pays for the step, locks the cost of the
    callback (when there is one to run, or gas locking is not dynamic) and hands
    all that is left to the call: step, lock and limit add up to the gas that was
    left.  Without enough gas it fails and no call is prepared. *)
Theorem ExecuteAsyncCall_gas st h inst address data value :
  running st h inst -> 0 <= inst_Points inst <= MaxInt64 ->
  gasForExecution (Metering.met st) <= MaxInt64 -> async_prices_u64 st ->
  let left := gasForExecution (Metering.met st) - inst_Points inst in
  let shouldLock :=
    bool_decide (CallbackFunctionName ∈ inst_Exports inst) || negb IsDynamicGasLockingEnabled in
  let lock := gas_to_lock st inst in
  exists st' r, RuntimeExec.ExecuteAsyncCall address data value st = (st', Ret r) /\
  if (async_step st <? left) && (negb shouldLock || (lock <? left - async_step st)) then
    r = None /\
    exists limit, async_step st + lock + limit = left /\
      asyncCallInfo (rt st') = Some (mkAsyncCallInfo address data limit lock value) /\
      exists inst', running st' h inst' /\
        inst_Points inst' = inst_Points inst + async_step st + lock /\
        inst_Breakpoint inst' = breakpoint_to_Z BreakpointAsyncCall
  else r = Some (ErrNotEnoughGas : error) /\ asyncCallInfo (rt st') = asyncCallInfo (rt st).
Proof.
  intros Hr Hp Hm Hprices left shouldLock lock. pose proof (price_step _ Hprices) as Hstep.
  unfold RuntimeExec.ExecuteAsyncCall.
  pose proof (UseGasForAsyncStep_run st h inst Hr Hp Hstep Hm) as Huse. fold left in Huse.
  destruct (Z.ltb_spec (async_step st) left) as [H1|H1]; cbn [andb];
    rewrite (bind_run _ _ _ _ _ Huse); [|by eexists st, _].
  set (inst1 := set_inst_Points (inst_Points inst + async_step st) inst) in *.
  set (st1 := with_instance h inst1 st) in *.
  assert (running st1 h inst1) as Hr1 by by eapply running_with_instance.
  rewrite (bind_run _ _ st1 st1 (bool_decide (CallbackFunctionName ∈ inst_Exports inst))).
  2:{ unfold Runtime.HasCallbackMethod.
      by rewrite (bind_run _ _ _ _ _ (current_instance_run _ _ _ Hr1)). }
  fold shouldLock.
  assert (0 <= inst_Points inst1 <= MaxInt64) as Hp1
    by (cbn [inst1 inst_Points set_inst_Points]; subst left; word_lia).
  assert (async_prices_u64 st1) as Hprices1 by by destruct Hprices.
  pose proof (lock_gas_run st1 h inst1 shouldLock Hr1 Hp1 Hm Hprices1) as Hlock. cbv zeta in Hlock.
  change (callback_cost st1) with (callback_cost st) in Hlock.
  change (if shouldLock then Z.min MaxUint64 (callback_cost st) else 0) with lock in Hlock.
  change (Metering.met st1) with (Metering.met st) in Hlock.
  cbn [inst1 inst_Points set_inst_Points] in Hlock.
  replace (gasForExecution (Metering.met st) - (inst_Points inst + async_step st))
    with (left - async_step st) in Hlock by lia.
  destruct (negb shouldLock || (lock <? left - async_step st)) eqn:H2;
    rewrite (bind_run _ _ _ _ _ Hlock); [|by eexists st1, _].
  set (inst2 := set_inst_Points _ inst1). set (st2 := with_instance h inst2 st1).
  destruct (record_async_call_run st2 h inst2 address data value lock) as (st3 & H3 & Hi & Hr3);
    [by eapply running_with_instance|].
  exists st3, None. split; [exact H3|]. split; [done|].
  eexists. split; [|split; [exact Hi | eexists; by split; [exact Hr3|]]].
  change (Metering.met st2) with (Metering.met st). cbn [inst2 inst_Points set_inst_Points].
  apply orb_true_iff in H2 as [H2|H2%Z.ltb_lt]; [|subst left; lia].
  subst lock left. unfold gas_to_lock. fold shouldLock. destruct shouldLock; [done|lia].
Qed.

(** A fault that fails the execution takes all the gas left, sets the
    return code and the message of the error, and stops the instance at its
    breakpoint. *)
Theorem WithFaultAndHost_fails st h inst e :
  running st h inst -> 0 <= inst_Points inst <= MaxInt64 ->
  gasForExecution (Metering.met st) <= MaxInt64 ->
  exists st' inst', RuntimeExec.WithFaultAndHost (Some e) true st = (st', Ret true) /\
    running st' h inst' /\ Metering.GasLeft st' = (st', Ret 0) /\
    inst_Breakpoint inst' = breakpoint_to_Z BreakpointExecutionFailed /\
    out_ReturnCode (outputOf st') = ExecutionFailed /\
    ReturnMessage (outputOf st') = Error e /\
    OutputAccounts (outputOf st') = OutputAccounts (outputOf st).
Proof.
  intros Hr Hp Hm. unfold RuntimeExec.WithFaultAndHost.
  set (left := Z.max 0 (gasForExecution (Metering.met st) - inst_Points inst)).
  pose proof (UseGas_run st h inst left Hr ltac:(word_lia) ltac:(subst left; word_lia)) as Huse.
  set (inst1 := set_inst_Points _ inst) in Huse. set (st1 := with_instance h inst1 st) in Huse.
  assert (running st1 h inst1) as Hr1 by by eapply running_with_instance.
  assert (exists st2, RuntimeExec.FailExecution (Some e) st1 = (st2, Ret tt) /\
    running st2 h (set_inst_Breakpoint (breakpoint_to_Z BreakpointExecutionFailed) inst1) /\
    Metering.met st2 = Metering.met st /\ out_ReturnCode (outputOf st2) = ExecutionFailed /\
    ReturnMessage (outputOf st2) = Error e /\
    OutputAccounts (outputOf st2) = OutputAccounts (outputOf st)) as (st2 & H2 & Hr2 & Hm2 & Ho2).
  { unfold RuntimeExec.FailExecution, Runtime.SetRuntimeBreakpointValue.
    rewrite (bind_run _ _ _ _ _ eq_refl), (bind_run _ _ _ _ _ eq_refl),
      (bind_run _ _ _ _ _ eq_refl).
    match goal with |- context [modify_instance ?f ?s] =>
      rewrite (modify_instance_run f s h inst1 Hr1) end.
    eexists. split; [reflexivity|]. split; [by eapply running_with_instance | done]. }
  exists st2. eexists. split.
  { rewrite (bind_run _ _ st st2 tt); [done|].
    rewrite (bind_run _ _ _ _ _ (GasLeft_run st h inst Hr)). fold left.
    by rewrite (bind_run _ _ _ _ _ Huse). }
  split; [exact Hr2|]. split; [|by split; [|apply Ho2]].
  rewrite (GasLeft_run st2 h _ Hr2), Hm2. do 2 f_equal.
  cbn [inst_Points set_inst_Breakpoint inst1 set_inst_Points]. subst left. word_lia.
Qed.

End Properties.

(** ** Witnesses *)

Lemma ExecuteAsyncCall_gas_witness :
  exists st' r, @RuntimeExec.ExecuteAsyncCall toy (bs "bob") (bs "f") [] toy_start = (st', Ret r).
Proof.
  destruct (@ExecuteAsyncCall_gas toy toy_start 1 (toy_instance (bs "code") 50) (bs "bob") (bs "f") [])
    as (st' & r & H & _); [by split | word_compute | word_compute | split; word_compute |].
  exists st', r. exact H.
Defined.

Lemma WithFaultAndHost_fails_witness :
  exists st', @RuntimeExec.WithFaultAndHost toy (Some (ErrSignalError : error)) true toy_start =
    (st', Ret true).
Proof.
  destruct (@WithFaultAndHost_fails toy toy_start 1 (toy_instance (bs "code") 50) ErrSignalError)
    as (st' & inst' & H & _); [by split | word_compute | word_compute |].
  exists st'. exact H.
Defined.
