(* ===== verification/Builtin.v ===== *)
(** Built-in functions called by contracts, and the checks around a call: the
    part of [src/vmhost/hostCore/execution.go] that does not execute contract
    code. *)
From S2P Require Import Prelude Errors Overflow Types State Logic Toy Runtime Output Metering.
From S2P Require Import Blockchain Transfers Storage Validator RuntimeExec.

#[local] Open Scope Z_scope.

Section Builtin.
Context `{Ext : Externals}.

Definition IsBuiltinFunctionName (functionName : bytes) : bool := bf_IsActive functionName.

Definition isInitFunction (functionName : bytes) : bool :=
  bytes_eqb functionName InitFunctionName || bytes_eqb functionName InitFunctionNameEth.

Definition isInitFunctionBeingCalled : M bool :=
  functionName ← Runtime.Function_; mret (isInitFunction functionName).

Definition isBuiltinFunctionBeingCalled : M bool :=
  functionName ← Runtime.Function_; mret (IsBuiltinFunctionName functionName).

Definition verifyAllowedFunctionCall : M (option error) :=
  functionName ← Runtime.Function_;
  if isInitFunction functionName then mret (Some (ErrInitFuncCalledInRun : error))
  else
    input ← Runtime.GetVMInput;
    let isCallBack := bytes_eqb functionName CallbackFunctionName in
    let isInAsyncCallBack := bool_decide (VMInput_CallType input = AsynchronousCallBack) in
    mret (if isCallBack && negb isInAsyncCallBack then Some (ErrCallBackFuncCalledInRun : error)
          else None).

Definition checkFinalGasAfterExit : M (option error) :=
  if negb IsVMV2Enabled then mret None
  else
    totalUsedPoints ← Runtime.GetPointsUsed;
    gasForExecution ← Metering.GetGasForExecution;
    mret (if gasForExecution <? totalUsedPoints then Some (ErrNotEnoughGas : error) else None).

Definition checkGasForGetCode (input : ContractCallInput) : M (option error) :=
  if negb IsVMV2Enabled then mret None
  else
    schedule ← Metering.GasSchedule;
    let getCodeBaseCost := BaseOperationCost.GetCode (gc_BaseOperationCost schedule) in
    mret (if GasProvided (call_VMInput input) <? getCodeBaseCost
          then Some (ErrNotEnoughGas : error) else None).

(** [copyTxHashesFromContext]: the updated input. *)
Definition copyTxHashesFromContext (copyEnabled : bool) (input : ContractCallInput) :
    M ContractCallInput :=
  current ← Runtime.GetVMInput;
  mret (if negb copyEnabled then input
        else
          let v := call_VMInput input in
          let v := set_OriginalTxHash (nonempty_or (OriginalTxHash current) (OriginalTxHash v)) v in
          let v := set_CurrentTxHash (nonempty_or (CurrentTxHash current) (CurrentTxHash v)) v in
          let v := set_PrevTxHash (nonempty_or (PrevTxHash current) (PrevTxHash v)) v in
          set_call_VMInput v input).

Definition isESDTTransferFunction (f : bytes) : bool :=
  bytes_eqb f core_BuiltInFunctionESDTTransfer || bytes_eqb f core_BuiltInFunctionESDTNFTTransfer.

(** An argument out of range panics. *)
Definition argument (args : list bytes) (n : nat) : option bytes := args !! n.

Definition fillWithESDTValue (fullVMInput newVMInput : ContractCallInput) :
    option ContractCallInput :=
  if negb (isESDTTransferFunction (Function_ fullVMInput)) then Some newVMInput
  else
    let args := Arguments (call_VMInput fullVMInput) in
    name ← argument args 0;
    second ← argument args 1;
    let fungible := mkESDTTransfer (SetBytes second) name 0 0 in
    transfer ← (if bytes_eqb (Function_ fullVMInput) core_BuiltInFunctionESDTNFTTransfer then
                  third ← argument args 2;
                  Some (mkESDTTransfer (SetBytes third) name core_NonFungible
                          (u64 (SetBytes second)))
                else Some fungible);
    Some (set_call_VMInput (set_ESDTTransfers [transfer] (call_VMInput newVMInput)) newVMInput).

Definition isSCExecutionAfterBuiltInFunc (vmInput : ContractCallInput) (vmOutput : VMOutput) :
    M (option ContractCallInput * option error) :=
  if negb (bool_decide (out_ReturnCode vmOutput = Ok)) then mret (None, None)
  else
    let v := call_VMInput vmInput in
    recipient ← (if bytes_eqb (Function_ vmInput) core_BuiltInFunctionESDTNFTTransfer &&
                    bytes_eqb (CallerAddr v) (RecipientAddr vmInput)
                 then deref (argument (Arguments v) 3)
                 else mret (RecipientAddr vmInput));
    sameShard ← Blockchain.AreInSameShard (CallerAddr v) recipient;
    if negb (sameShard : bool) then mret (None, None)
    else
      isSC ← Blockchain.IsSmartContract recipient;
      if negb (isSC : bool) then mret (None, None)
      else
        match OutputTransfers <$> OutputAccounts vmOutput !! recipient with
        | Some [transfer] =>
            match ParseData (ot_Data transfer) with
            | (_, _, Some err) => mret (None, Some err)
            | (function, arguments, None) =>
                let newVMInput :=
                  {| call_VMInput :=
                       set_CallerAddr (CallerAddr v) (set_Arguments arguments
                         (set_VMInput_CallType (VMInput_CallType v) (set_GasPrice (GasPrice v)
                         (set_GasProvided (ot_GasLimit transfer)
                         (set_GasLocked (ot_GasLocked transfer)
                         (set_OriginalTxHash (OriginalTxHash v)
                         (set_CurrentTxHash (CurrentTxHash v) zeroVMInput)))))));
                     RecipientAddr := recipient;
                     Function_ := function;
                     AllowInitFunction := false |} in
                newVMInput ← deref (fillWithESDTValue vmInput newVMInput);
                mret (Some newVMInput, None)
            end
        | _ => mret (None, None)
        end.

(** [addOutputTransferToVMOutput]; the new account has neither a balance change
    nor storage updates. *)
Definition addOutputTransferToVMOutput (function : bytes) (arguments : list bytes)
    (sender recipient : bytes) (callType : CallType) (vmOutput : VMOutput) : VMOutput :=
  let outTransfer :=
    {| ot_Value := 0; ot_GasLimit := 0; ot_GasLocked := 0;
       ot_Data := function ++ concat (map (fun arg => at_sign ++ hex_EncodeToString arg) arguments);
       ot_CallType := callType; ot_SenderAddress := sender |} in
  let outAcc := default (set_Address recipient zeroOutputAccount)
                  (OutputAccounts vmOutput !! recipient) in
  let outAcc := set_OutputTransfers (OutputTransfers outAcc ++ [outTransfer]) outAcc in
  set_OutputAccounts (<[recipient := outAcc]> (OutputAccounts vmOutput)) vmOutput.

Definition addESDTTransferToVMOutputSCIntraShardCall (input : ContractCallInput)
    (output : VMOutput) : M VMOutput :=
  let v := call_VMInput input in
  if negb (bool_decide (out_ReturnCode output = Ok)) then mret output
  else
    sameShard ← Blockchain.AreInSameShard (RecipientAddr input) (CallerAddr v);
    if negb (sameShard : bool) then mret output
    else if negb (isESDTTransferFunction (Function_ input)) then mret output
    else
      let add recipient :=
        mret (addOutputTransferToVMOutput (Function_ input) (Arguments v) (CallerAddr v) recipient
                (VMInput_CallType v) output) in
      if bytes_eqb (Function_ input) core_BuiltInFunctionESDTNFTTransfer then
        match Arguments v with
        | [_; _; _; recipient] => add recipient
        | _ => mret output
        end
      else add (RecipientAddr input).

Definition callBuiltinFunction (input : ContractCallInput) :
    M (option ContractCallInput * option VMOutput * option error) :=
  let gasProvided := GasProvided (call_VMInput input) in
  r ← Blockchain.ProcessBuiltInFunction input;
  match r with
  | (_, Some err) => Metering.UseGas gasProvided ;; mret (None, None, Some err)
  | (vmOutput, None) =>
      vmOutput ← deref vmOutput;
      r ← isSCExecutionAfterBuiltInFunc input vmOutput;
      match r with
      | (_, Some err) => Metering.UseGas gasProvided ;; mret (None, None, Some err)
      | (newVMInput, None) =>
          let vmOutput :=
            match newVMInput with
            | Some _ =>
                set_OutputAccounts (set_OutputTransfers [] <$> OutputAccounts vmOutput) vmOutput
            | None => vmOutput
            end in
          Metering.TrackGasUsedByBuiltinFunction input vmOutput newVMInput ;;
          vmOutput ← addESDTTransferToVMOutputSCIntraShardCall input vmOutput;
          mret (newVMInput, Some vmOutput, None)
      end
  end.

(** [AddToActiveState] through the host: the right output as it is left. *)
Definition add_to_active_state (rightOutput : VMOutput) : M VMOutput := fun st =>
  match Output.AddToActiveState rightOutput (st_output st) with
  | Some (c, rightOutput) => (set_st_output c st, Ret rightOutput)
  | None => (st, Panic)
  end.

Definition handleBuiltinFunctionCall (input : ContractCallInput) :
    M (option ContractCallInput * option VMOutput * option error) :=
  r ← callBuiltinFunction input;
  match r with
  | (_, _, Some err) => mret (None, None, Some err)
  | (postBuiltinInput, builtinOutput, None) =>
      builtinOutput ← deref builtinOutput;
      builtinOutput ← add_to_active_state builtinOutput;
      mret (postBuiltinInput, Some builtinOutput, None)
  end.

Definition checkUpgradePermission (vmInput : ContractCallInput) : M (option error) :=
  r ← Blockchain.GetUserAccount (RecipientAddr vmInput);
  mret match r with
       | (_, Some err) => Some err
       | (None, None) => Some (ErrNilContract : error)
       | (Some contract, None) =>
           if CodeMetadata_Upgradeable (acc_GetCodeMetadata contract) &&
              bytes_eqb (CallerAddr (call_VMInput vmInput)) (acc_GetOwnerAddress contract)
           then None
           else Some (ErrUpgradeNotAllowed : error)
       end.

End Builtin.
