(* ===== verification/VMHooks.v ===== *)
(** What the functions exported to WebAssembly share
    ([src/vmhost/vmhooks/baseOps.go]): prices, the guard around every fallible
    call, the arguments of a nested call in the memory of the caller, and the
    inputs built from them. *)
From stdpp Require Import pretty.
From S2P Require Import Prelude Errors Overflow Helpers Types State Logic Toy BigInt Runtime.
From S2P Require Import Output Metering Blockchain Transfers Storage RuntimeExec Builtin Memory.

#[local] Open Scope Z_scope.

(** ** Guards

    [if vmhost.WithFault(err, context, failExecution) { return d }] after a
    call: the exported function returns [d] when the call failed. *)

Section Guards.
Context `{Ext : Externals}.

Definition guarded_err {B} (failExecution : bool) (d : B) (m : M (option error)) (k : M B) :
    M B :=
  err ← m;
  faulted ← RuntimeExec.WithFaultAndHost err failExecution;
  if (faulted : bool) then mret d else k.

(** The same for a call that also has a result. *)
Definition guarded {A B} (failExecution : bool) (d : B) (m : M (A * option error))
    (k : A -> M B) : M B :=
  r ← m;
  guarded_err failExecution d (mret (snd r)) (k (fst r)).

(** [if err != nil { return d, err }] *)
Definition propagate {A B} (d : B) (m : M (A * option error)) (k : A -> M (B * option error)) :
    M (B * option error) :=
  r ← m;
  match r with
  | (_, Some err) => mret (d, Some err)
  | (a, None) => k a
  end.

(** ** Prices *)

Definition base_price (price : BaseOpsAPICost.t -> Z) : M Z :=
  schedule ← Metering.GasSchedule; mret (price (gc_BaseOpsAPICost schedule)).
Definition bigInt_price (price : BigIntAPICost.t -> Z) : M Z :=
  schedule ← Metering.GasSchedule; mret (price (gc_BigIntAPICost schedule)).
Definition crypto_price (price : CryptoAPICost.t -> Z) : M Z :=
  schedule ← Metering.GasSchedule; mret (price (gc_CryptoAPICost schedule)).

(** [metering.UseGas(metering.GasSchedule().BaseOpsAPICost...)] *)
Definition use_base (price : BaseOpsAPICost.t -> Z) : M unit :=
  gasToUse ← base_price price; Metering.UseGas gasToUse.
Definition use_bigInt (price : BigIntAPICost.t -> Z) : M unit :=
  gasToUse ← bigInt_price price; Metering.UseGas gasToUse.

(** [math.AddUint64(price, math.MulUint64(perByte, uint64(length)))] *)
Definition use_base_and_bytes (price : BaseOpsAPICost.t -> Z)
    (perByte : BaseOperationCost.t -> Z) (length : Z) : M unit :=
  gasToUse ← base_price price;
  gas ← Storage.per_byte perByte length;
  Metering.UseGas (AddUint64 gasToUse gas).

End Guards.

Declare Scope hook_scope.
Delimit Scope hook_scope with hook.

(** The guards of the base operations; the other interfaces have their own flag. *)
Module BaseOpsGuard.
Notation "x ←? m 'orelse' d ; k" :=
  (guarded Runtime.BaseOpsErrorShouldFailExecution d m (fun x => k))
  (at level 20, m at level 100, d at level 9, k at level 200, only parsing) : hook_scope.
Notation "?? m 'orelse' d ; k" :=
  (guarded_err Runtime.BaseOpsErrorShouldFailExecution d m k)
  (at level 20, m at level 100, d at level 9, k at level 200, only parsing) : hook_scope.
End BaseOpsGuard.

Module BigIntGuard.
Notation "x ←? m 'orelse' d ; k" :=
  (guarded Runtime.BigIntAPIErrorShouldFailExecution d m (fun x => k))
  (at level 20, m at level 100, d at level 9, k at level 200, only parsing) : hook_scope.
Notation "?? m 'orelse' d ; k" :=
  (guarded_err Runtime.BigIntAPIErrorShouldFailExecution d m k)
  (at level 20, m at level 100, d at level 9, k at level 200, only parsing) : hook_scope.
End BigIntGuard.

Module CryptoGuard.
Notation "x ←? m 'orelse' d ; k" :=
  (guarded Runtime.CryptoAPIErrorShouldFailExecution d m (fun x => k))
  (at level 20, m at level 100, d at level 9, k at level 200, only parsing) : hook_scope.
Notation "?? m 'orelse' d ; k" :=
  (guarded_err Runtime.CryptoAPIErrorShouldFailExecution d m k)
  (at level 20, m at level 100, d at level 9, k at level 200, only parsing) : hook_scope.
End CryptoGuard.

(** ** Arguments in memory *)

(** The loop of [createInt32Array].  [None] is a panic: a write past the end of
    [integers], or a slice past the end of the data, whose length is a multiple
    of four. *)
Fixpoint createInt32Array_loop (rawData : bytes) (index : nat) (integers : list Z) :
    option (list Z) :=
  match rawData with
  | [] => Some integers
  | b0 :: b1 :: b2 :: b3 :: rest =>
      if Z.of_nat index <? len integers then
        createInt32Array_loop rest (S index)
          (<[index := s32 (LittleEndian_Uint32 b0 b1 b2 b3)]> integers)
      else None
  | _ => None
  end.

Definition createInt32Array (rawData : bytes) (numIntegers : Z) : option (list Z) :=
  if numIntegers <? 0 then None
  else createInt32Array_loop rawData 0 (replicate (Z.to_nat numIntegers) 0).

(** [totalArgumentBytes] is an [int32]. *)
Definition total_bytes (argumentLengths : list Z) : Z :=
  fold_left (fun total length => s32 (total + length)) argumentLengths 0.

Section Arguments.
Context `{Ext : Externals}.

Definition getArgumentsFromMemory (numArguments argumentsLengthOffset dataOffset : Z) :
    M (list bytes * Z * option error) :=
  if numArguments <? 0 then
    mret ([], 0, Some (ErrNew (bs "negative numArguments (" ++ bs (pretty numArguments) ++ bs ")")))
  else
    propagate ([], 0) (Runtime.MemLoad argumentsLengthOffset (s32 (numArguments * 4)))
      (fun argumentsLengthData =>
        argumentLengths ← deref (createInt32Array argumentsLengthData numArguments);
        propagate ([], 0) (Runtime.MemLoadMultiple dataOffset argumentLengths) (fun data =>
          mret (data, total_bytes argumentLengths, None))).

(** [indirectContractCallArguments]; a value that was not asked for is nil. *)
Record indirectContractCallArguments := mkCallArgs {
  ica_dest : bytes;
  ica_value : option Z;
  ica_function : bytes;
  ica_args : list bytes;
  ica_actualLen : Z;
}.

(** The result that goes with an error; no caller looks at it. *)
Definition no_call_args : indirectContractCallArguments := mkCallArgs [] None [] [] 0.

(** The error of [getArgumentsFromMemory] is assigned and not tested. *)
Definition extractIndirectContractCallArguments (destOffset valueOffset : Z)
    (hasValueOffset : bool)
    (functionOffset functionLength numArguments argumentsLengthOffset dataOffset : Z) :
    M (indirectContractCallArguments * option error) :=
  propagate no_call_args (Runtime.MemLoad destOffset AddressLen) (fun dest =>
  propagate no_call_args
    (if hasValueOffset then
       propagate None (Runtime.MemLoad valueOffset BalanceLen) (fun valueBytes =>
         mret (Some (SetBytes valueBytes), None))
     else mret (None, None)) (fun value =>
  propagate no_call_args (Runtime.MemLoad functionOffset functionLength) (fun function =>
    r ← getArgumentsFromMemory numArguments argumentsLengthOffset dataOffset;
    let '(args, actualLen, _) := r in
    Storage.use_per_byte BaseOperationCost.DataCopyPerByte actualLen ;;
    mret (mkCallArgs dest value function args actualLen, None)))).

Definition extractIndirectContractCallArgumentsWithValue (destOffset valueOffset functionOffset
    functionLength numArguments argumentsLengthOffset dataOffset : Z) :
    M (indirectContractCallArguments * option error) :=
  extractIndirectContractCallArguments destOffset valueOffset true functionOffset functionLength
    numArguments argumentsLengthOffset dataOffset.

Definition extractIndirectContractCallArgumentsWithoutValue (destOffset functionOffset
    functionLength numArguments argumentsLengthOffset dataOffset : Z) :
    M (indirectContractCallArguments * option error) :=
  extractIndirectContractCallArguments destOffset 0 false functionOffset functionLength
    numArguments argumentsLengthOffset dataOffset.

(** ** Inputs of nested calls *)

Definition isBuiltInCall (data : bytes) : bool :=
  let '(functionName, _, _) := ParseData data in IsBuiltinFunctionName functionName.

Definition makeCrossShardCallFromInput (vmInput : option ContractCallInput) : bytes :=
  match vmInput with
  | None => []
  | Some vmInput =>
      fold_left (fun txData arg => txData ++ at_sign ++ hex_EncodeToString arg)
        (Arguments (call_VMInput vmInput)) (Function_ vmInput)
  end.

(** [getFirstESDTTransferIfExist] *)
Definition getFirstESDTTransferIfExist (vmInput : VMInput) : ESDTTransfer :=
  match ESDTTransfers vmInput with
  | t :: _ => t
  | [] => mkESDTTransfer 0 [] 0 0
  end.

Definition prepareIndirectContractCallInput (sender : bytes) (value gasLimit : Z)
    (destination function : bytes) (data : list bytes) (syncExecutionRequired : bool) :
    M (option ContractCallInput * option error) :=
  scAddress ← Runtime.GetSCAddress;
  tooFar ← (if syncExecutionRequired then
              same ← Blockchain.AreInSameShard scAddress destination; mret (negb (same : bool))
            else mret false);
  if (tooFar : bool) then mret (None, Some (ErrSyncExecutionNotInSameShard : error))
  else
    gasProvided ← Metering.BoundGasLimit gasLimit;
    mret (Some
      {| call_VMInput :=
           set_CallerAddr sender (set_Arguments data (set_CallValue value
             (set_GasPrice 0 (set_GasProvided gasProvided zeroVMInput))));
         RecipientAddr := destination;
         Function_ := function;
         AllowInitFunction := false |}, None).

End Arguments.
