(* ===== verification/BaseOps.v ===== *)
(** The functions exported to WebAssembly that involve one account and no other
    contract ([src/vmhost/vmhooks/baseOps.go]): the current call and its
    arguments, the storage and its time locks, payments and tokens, logs and
    results, the block.  An [int32] or [int64] argument is a [Z] in range; a
    result is one too ([Imports]). *)
From S2P Require Import Prelude Errors Overflow Helpers Types State Logic Toy BigInt Runtime.
From S2P Require Import Output Metering Blockchain Transfers Storage RuntimeExec Builtin Memory.
From S2P Require Import VMHooks.

Import BaseOpsGuard.
#[local] Open Scope Z_scope.
#[local] Open Scope hook_scope.

(** [int32(storageStatus)] *)
Definition StorageStatus_to_Z (s : StorageStatus) : Z :=
  match s with
  | StorageUnchanged => 0
  | StorageModified => 1
  | StorageAdded => 2
  | StorageDeleted => 3
  end.

Section BaseOps.
Context `{Ext : Externals}.

(** ** The contract and its environment *)

Definition v1_3_getGasLeft : M Z :=
  use_base BaseOpsAPICost.GetGasLeft ;;
  gasLeft ← Metering.GasLeft;
  mret (s64 gasLeft).

Definition v1_3_getSCAddress (resultOffset : Z) : M unit :=
  use_base BaseOpsAPICost.GetSCAddress ;;
  owner ← Runtime.GetSCAddress;
  ?? Runtime.MemStore resultOffset owner orelse tt;
  mret tt.

Definition v1_3_getOwnerAddress (resultOffset : Z) : M unit :=
  use_base BaseOpsAPICost.GetOwnerAddress ;;
  owner ←? Blockchain.GetOwnerAddress orelse tt;
  ?? Runtime.MemStore resultOffset owner orelse tt;
  mret tt.

Definition v1_3_getShardOfAddress (addressOffset : Z) : M Z :=
  use_base BaseOpsAPICost.GetShardOfAddress ;;
  address ←? Runtime.MemLoad addressOffset AddressLen orelse 0;
  shard ← Blockchain.GetShardOfAddress address;
  mret (s32 shard).

Definition v1_3_isSmartContract (addressOffset : Z) : M Z :=
  use_base BaseOpsAPICost.IsSmartContract ;;
  address ←? Runtime.MemLoad addressOffset AddressLen orelse 0;
  isSmartContract ← Blockchain.IsSmartContract address;
  mret (s32 (BooleanToInt isSmartContract)).

Definition v1_3_signalError (messageOffset messageLength : Z) : M unit :=
  use_base BaseOpsAPICost.SignalError ;;
  message ←? Runtime.MemLoad messageOffset messageLength orelse tt;
  RuntimeExec.SignalUserError message.

Definition v1_3_getExternalBalance (addressOffset resultOffset : Z) : M unit :=
  use_base BaseOpsAPICost.GetExternalBalance ;;
  address ←? Runtime.MemLoad addressOffset AddressLen orelse tt;
  balance ← Blockchain.GetBalance address;
  ?? Runtime.MemStore resultOffset balance orelse tt;
  mret tt.

Definition v1_3_blockHash (nonce resultOffset : Z) : M Z :=
  use_base BaseOpsAPICost.GetBlockHash ;;
  hash ← Blockchain.BlockHash nonce;
  ?? Runtime.MemStore resultOffset hash orelse 1;
  mret 0.

(** ** Tokens of an account *)

Definition getESDTDataFromBlockchainHook (addressOffset tokenIDOffset tokenIDLen nonce : Z) :
    M (option ESDigitalToken * option error) :=
  use_base BaseOpsAPICost.GetExternalBalance ;;
  propagate None (Runtime.MemLoad addressOffset AddressLen) (fun address =>
  propagate None (Runtime.MemLoad tokenIDOffset tokenIDLen) (fun tokenID =>
  propagate None (Blockchain.GetESDTToken address tokenID (u64 nonce)) (fun esdtToken =>
    mret (esdtToken, None)))).

Definition v1_3_getESDTBalance (addressOffset tokenIDOffset tokenIDLen nonce resultOffset : Z) :
    M Z :=
  esdtData ←? getESDTDataFromBlockchainHook addressOffset tokenIDOffset tokenIDLen nonce orelse 0;
  esdtData ← deref esdtData;
  value ← deref (esdt_Value esdtData);
  ?? Runtime.MemStore resultOffset (Bytes value) orelse 0;
  mret (s32 (len (Bytes value))).

(** [esdtData == nil || esdtData.TokenMetaData == nil] *)
Definition metadata_of (esdtData : option ESDigitalToken) : option MetaData :=
  match esdtData with None => None | Some token => esdt_TokenMetaData token end.

Definition v1_3_getESDTNFTNameLength (addressOffset tokenIDOffset tokenIDLen nonce : Z) : M Z :=
  esdtData ←? getESDTDataFromBlockchainHook addressOffset tokenIDOffset tokenIDLen nonce orelse 0;
  match metadata_of esdtData with
  | None => mret 0
  | Some metadata => mret (s32 (len (md_Name metadata)))
  end.

Definition v1_3_getESDTNFTAttributeLength (addressOffset tokenIDOffset tokenIDLen nonce : Z) :
    M Z :=
  esdtData ←? getESDTDataFromBlockchainHook addressOffset tokenIDOffset tokenIDLen nonce orelse 0;
  match metadata_of esdtData with
  | None => mret 0
  | Some metadata => mret (s32 (len (md_Attributes metadata)))
  end.

Definition v1_3_getESDTNFTURILength (addressOffset tokenIDOffset tokenIDLen nonce : Z) : M Z :=
  esdtData ←? getESDTDataFromBlockchainHook addressOffset tokenIDOffset tokenIDLen nonce orelse 0;
  match metadata_of esdtData with
  | None => mret 0
  | Some metadata =>
      match md_URIs metadata with
      | [] => mret 0
      | uri :: _ => mret (s32 (len uri))
      end
  end.

Definition v1_3_getESDTTokenData (addressOffset tokenIDOffset tokenIDLen nonce valueHandle
    propertiesOffset hashOffset nameOffset attributesOffset creatorOffset royaltiesHandle
    urisOffset : Z) : M Z :=
  esdtData ←? getESDTDataFromBlockchainHook addressOffset tokenIDOffset tokenIDLen nonce orelse 0;
  _ ← bigInt_GetOne valueHandle;
  esdtData ← deref esdtData;
  value ← deref (esdt_Value esdtData);
  bigInt_SetValue valueHandle value ;;
  ?? Runtime.MemStore propertiesOffset (esdt_Properties esdtData) orelse 0;
  match esdt_TokenMetaData esdtData with
  | None => mret (s32 (len (Bytes value)))
  | Some metadata =>
      ?? Runtime.MemStore hashOffset (md_Hash metadata) orelse 0;
      ?? Runtime.MemStore nameOffset (md_Name metadata) orelse 0;
      ?? Runtime.MemStore attributesOffset (md_Attributes metadata) orelse 0;
      ?? Runtime.MemStore creatorOffset (md_Creator metadata) orelse 0;
      _ ← bigInt_GetOne royaltiesHandle;
      bigInt_SetValue royaltiesHandle (u64 (md_Royalties metadata)) ;;
      match md_URIs metadata with
      | [] => mret (s32 (len (Bytes value)))
      | uri :: _ =>
          ?? Runtime.MemStore urisOffset uri orelse 0;
          mret (s32 (len (Bytes value)))
      end
  end.

(** ** Arguments *)

Definition v1_3_getArgumentLength (id : Z) : M Z :=
  use_base BaseOpsAPICost.GetArgument ;;
  args ← Runtime.Arguments;
  if (id <? 0) || (s32 (len args) <=? id) then mret (-1)
  else
    arg ← deref (args !! Z.to_nat id);
    mret (s32 (len arg)).

Definition v1_3_getArgument (id argOffset : Z) : M Z :=
  use_base BaseOpsAPICost.GetArgument ;;
  args ← Runtime.Arguments;
  if (id <? 0) || (s32 (len args) <=? id) then mret (-1)
  else
    arg ← deref (args !! Z.to_nat id);
    ?? Runtime.MemStore argOffset arg orelse (-1);
    mret (s32 (len arg)).

Definition v1_3_getFunction (functionOffset : Z) : M Z :=
  use_base BaseOpsAPICost.GetFunction ;;
  function ← Runtime.Function_;
  ?? Runtime.MemStore functionOffset function orelse (-1);
  mret (s32 (len function)).

Definition v1_3_getNumArguments : M Z :=
  use_base BaseOpsAPICost.GetNumArguments ;;
  args ← Runtime.Arguments;
  mret (s32 (len args)).

(** ** Storage *)

Definition v1_3_storageStore (keyOffset keyLength dataOffset dataLength : Z) : M Z :=
  use_base BaseOpsAPICost.StorageStore ;;
  key ←? Runtime.MemLoad keyOffset keyLength orelse (-1);
  data ←? Runtime.MemLoad dataOffset dataLength orelse (-1);
  storageStatus ←? Storage.SetStorage key data orelse (-1);
  mret (StorageStatus_to_Z storageStatus).

Definition v1_3_storageLoadLength (keyOffset keyLength : Z) : M Z :=
  use_base BaseOpsAPICost.StorageLoad ;;
  key ←? Runtime.MemLoad keyOffset keyLength orelse (-1);
  data ← Storage.GetStorageUnmetered key;
  mret (s32 (len data)).

Definition v1_3_storageLoadFromAddress (addressOffset keyOffset keyLength dataOffset : Z) : M Z :=
  use_base BaseOpsAPICost.StorageLoad ;;
  key ←? Runtime.MemLoad keyOffset keyLength orelse (-1);
  address ←? Runtime.MemLoad addressOffset AddressLen orelse (-1);
  data ← Storage.GetStorageFromAddress address key;
  ?? Runtime.MemStore dataOffset data orelse (-1);
  mret (s32 (len data)).

Definition v1_3_storageLoad (keyOffset keyLength dataOffset : Z) : M Z :=
  use_base BaseOpsAPICost.StorageLoad ;;
  key ←? Runtime.MemLoad keyOffset keyLength orelse (-1);
  data ← Storage.GetStorage key;
  ?? Runtime.MemStore dataOffset data orelse (-1);
  mret (s32 (len data)).

(** [big.Int.Bytes] drops the sign of the time stamp. *)
Definition v1_3_setStorageLock (keyOffset keyLength lockTimestamp : Z) : M Z :=
  use_base BaseOpsAPICost.Int64StorageStore ;;
  key ←? Runtime.MemLoad keyOffset keyLength orelse (-1);
  let timeLockKey := CustomStorageKey TimeLockKeyPrefix key in
  storageStatus ←? Storage.SetProtectedStorage timeLockKey (Bytes lockTimestamp) orelse (-1);
  mret (StorageStatus_to_Z storageStatus).

Definition v1_3_getStorageLock (keyOffset keyLength : Z) : M Z :=
  use_base BaseOpsAPICost.StorageLoad ;;
  key ←? Runtime.MemLoad keyOffset keyLength orelse (-1);
  let timeLockKey := CustomStorageKey TimeLockKeyPrefix key in
  data ← Storage.GetStorage timeLockKey;
  mret (s64 (SetBytes data)).

Definition v1_3_getBlockTimestamp : M Z :=
  use_base BaseOpsAPICost.GetBlockTimeStamp ;;
  t ← Blockchain.CurrentTimeStamp;
  mret (s64 t).

Definition v1_3_isStorageLocked (keyOffset keyLength : Z) : M Z :=
  timeLock ← v1_3_getStorageLock keyOffset keyLength;
  if timeLock <? 0 then mret (-1)
  else
    currentTimestamp ← v1_3_getBlockTimestamp;
    if timeLock <=? currentTimestamp then mret 0 else mret 1.

Definition v1_3_clearStorageLock (keyOffset keyLength : Z) : M Z :=
  v1_3_setStorageLock keyOffset keyLength 0.

(** ** The caller and its payment *)

Definition v1_3_getCaller (resultOffset : Z) : M unit :=
  use_base BaseOpsAPICost.GetCaller ;;
  input ← Runtime.GetVMInput;
  ?? Runtime.MemStore resultOffset (CallerAddr input) orelse tt;
  mret tt.

Definition v1_3_checkNoPayment : M unit :=
  use_base BaseOpsAPICost.GetCallValue ;;
  vmInput ← Runtime.GetVMInput;
  if 0 <? CallValue vmInput then
    _ ← RuntimeExec.WithFaultAndHost (Some (ErrNonPayableFunctionEgld : error))
          Runtime.BaseOpsErrorShouldFailExecution;
    mret tt
  else if 0 <? len (ESDTTransfers vmInput) then
    _ ← RuntimeExec.WithFaultAndHost (Some (ErrNonPayableFunctionEsdt : error))
          Runtime.BaseOpsErrorShouldFailExecution;
    mret tt
  else mret tt.

Definition v1_3_callValue (resultOffset : Z) : M Z :=
  use_base BaseOpsAPICost.GetCallValue ;;
  input ← Runtime.GetVMInput;
  let value := PadBytesLeft (Bytes (CallValue input)) BalanceLen in
  ?? Runtime.MemStore resultOffset value orelse (-1);
  mret (s32 (len value)).

Definition v1_3_getESDTValue (resultOffset : Z) : M Z :=
  use_base BaseOpsAPICost.GetCallValue ;;
  input ← Runtime.GetVMInput;
  let esdtTransfer := getFirstESDTTransferIfExist input in
  let value := if 0 <? ESDTValue esdtTransfer
               then PadBytesLeft (Bytes (ESDTValue esdtTransfer)) BalanceLen else [] in
  ?? Runtime.MemStore resultOffset value orelse (-1);
  mret (s32 (len value)).

Definition v1_3_getESDTTokenName (resultOffset : Z) : M Z :=
  use_base BaseOpsAPICost.GetCallValue ;;
  input ← Runtime.GetVMInput;
  let tokenName := ESDTTokenName (getFirstESDTTransferIfExist input) in
  ?? Runtime.MemStore resultOffset tokenName orelse (-1);
  mret (s32 (len tokenName)).

Definition v1_3_getESDTTokenNonce : M Z :=
  use_base BaseOpsAPICost.GetCallValue ;;
  input ← Runtime.GetVMInput;
  mret (s64 (ESDTTokenNonce (getFirstESDTTransferIfExist input))).

(** The errors of the memory do not fail the execution here. *)
Definition v1_3_getCurrentESDTNFTNonce (addressOffset tokenIDOffset tokenIDLen : Z) : M Z :=
  use_base BaseOpsAPICost.StorageLoad ;;
  r ← Runtime.MemLoad addressOffset AddressLen;
  match r with
  | (_, Some _) => mret 0
  | (destination, None) =>
      r ← Runtime.MemLoad tokenIDOffset tokenIDLen;
      match r with
      | (_, Some _) => mret 0
      | (tokenID, None) =>
          let key := core_ProtectedKeyPrefix ++ core_ESDTNFTLatestNonceIdentifier ++ tokenID in
          data ← Storage.GetStorageFromAddress destination key;
          mret (s64 (u64 (SetBytes data)))
      end
  end.

Definition v1_3_getESDTTokenType : M Z :=
  use_base BaseOpsAPICost.GetCallValue ;;
  input ← Runtime.GetVMInput;
  mret (s32 (ESDTTokenType (getFirstESDTTransferIfExist input))).

(** [copy(dst, src)]: as many bytes as the shorter of the two has. *)
Definition go_copy (dst src : bytes) : bytes :=
  take (length dst) src ++ drop (length src) dst.

(** [make([]byte, 0, len(...))] has no room for the copy. *)
Definition v1_3_getCallValueTokenName (callValueOffset tokenNameOffset : Z) : M Z :=
  use_base BaseOpsAPICost.GetCallValue ;;
  input ← Runtime.GetVMInput;
  let esdtTransfer := getFirstESDTTransferIfExist input in
  let hasToken := 0 <? len (ESDTTokenName esdtTransfer) in
  let tokenName := if hasToken then go_copy [] (ESDTTokenName esdtTransfer) else [] in
  let callValue := if hasToken then Bytes (ESDTValue esdtTransfer)
                   else Bytes (CallValue input) in
  let callValue := PadBytesLeft callValue BalanceLen in
  ?? Runtime.MemStore tokenNameOffset tokenName orelse (-1);
  ?? Runtime.MemStore callValueOffset callValue orelse (-1);
  mret (s32 (len tokenName)).

(** ** Logs and results *)

(** The loop over the topics: [todo] of them are left, the next one is [i]. *)
Fixpoint load_topics (topicPtr : Z) (todo : nat) (i : Z) (topics : list bytes) (log : bytes) :
    M unit :=
  match todo with
  | O =>
      scAddress ← Runtime.GetSCAddress;
      WriteLog scAddress topics log
  | S todo' =>
      topic ←? Runtime.MemLoad (s32 (topicPtr + s32 (i * HashLen))) HashLen orelse tt;
      load_topics topicPtr todo' (i + 1) (<[Z.to_nat i := topic]> topics) log
  end.

Definition v1_3_writeLog (dataPointer dataLength topicPtr numTopics : Z) : M unit :=
  use_base_and_bytes BaseOpsAPICost.Log BaseOperationCost.PersistPerByte
    (s32 (s32 (numTopics * HashLen) + dataLength)) ;;
  log ←? Runtime.MemLoad dataPointer dataLength orelse tt;
  topics ←? mret (GuardedMakeByteSlice2D numTopics) orelse tt;
  load_topics topicPtr (Z.to_nat numTopics) 0 topics log.

Definition v1_3_writeEventLog (numTopics topicLengthsOffset topicOffset dataOffset
    dataLength : Z) : M unit :=
  r ←? getArgumentsFromMemory numTopics topicLengthsOffset topicOffset orelse tt;
  let '(topics, topicDataTotalLen) := r in
  data ←? Runtime.MemLoad dataOffset dataLength orelse tt;
  use_base_and_bytes BaseOpsAPICost.Log BaseOperationCost.DataCopyPerByte
    (s32 (topicDataTotalLen + dataLength)) ;;
  scAddress ← Runtime.GetSCAddress;
  WriteLog scAddress topics data.

Definition v1_3_returnData (pointer length : Z) : M unit :=
  use_base_and_bytes BaseOpsAPICost.Finish BaseOperationCost.PersistPerByte length ;;
  data ←? Runtime.MemLoad pointer length orelse tt;
  modify_output (Output.Finish data).

Definition v1_3_getNumReturnData : M Z :=
  use_base BaseOpsAPICost.GetNumReturnData ;;
  returnData ← gets (fun st => ReturnData (outputOf st));
  mret (s32 (len returnData)).

(** A negative index panics. *)
Definition nth_result (returnData : list bytes) (resultID : Z) : M bytes :=
  if resultID <? 0 then panic else deref (returnData !! Z.to_nat resultID).

Definition v1_3_getReturnDataSize (resultID : Z) : M Z :=
  use_base BaseOpsAPICost.GetReturnDataSize ;;
  returnData ← gets (fun st => ReturnData (outputOf st));
  if s32 (len returnData) <=? resultID then mret 0
  else
    data ← nth_result returnData resultID;
    mret (s32 (len data)).

Definition v1_3_getReturnData (resultID dataOffset : Z) : M Z :=
  use_base BaseOpsAPICost.GetReturnData ;;
  returnData ← gets (fun st => ReturnData (outputOf st));
  if s32 (len returnData) <=? resultID then mret 0
  else
    data ← nth_result returnData resultID;
    ?? Runtime.MemStore dataOffset data orelse 0;
    mret (s32 (len data)).

(** ** The block and the transaction *)

Definition v1_3_getBlockNonce : M Z :=
  use_base BaseOpsAPICost.GetBlockNonce ;;
  n ← Blockchain.CurrentNonce; mret (s64 n).

Definition v1_3_getBlockRound : M Z :=
  use_base BaseOpsAPICost.GetBlockRound ;;
  n ← Blockchain.CurrentRound; mret (s64 n).

Definition v1_3_getBlockEpoch : M Z :=
  use_base BaseOpsAPICost.GetBlockEpoch ;;
  n ← Blockchain.CurrentEpoch; mret (s64 n).

Definition v1_3_getBlockRandomSeed (pointer : Z) : M unit :=
  use_base BaseOpsAPICost.GetBlockRandomSeed ;;
  randomSeed ← Blockchain.CurrentRandomSeed;
  ?? Runtime.MemStore pointer randomSeed orelse tt;
  mret tt.

Definition v1_3_getStateRootHash (pointer : Z) : M unit :=
  use_base BaseOpsAPICost.GetStateRootHash ;;
  stateRootHash ← Blockchain.GetStateRootHash;
  ?? Runtime.MemStore pointer stateRootHash orelse tt;
  mret tt.

Definition v1_3_getPrevBlockTimestamp : M Z :=
  use_base BaseOpsAPICost.GetBlockTimeStamp ;;
  n ← Blockchain.LastTimeStamp; mret (s64 n).

Definition v1_3_getPrevBlockNonce : M Z :=
  use_base BaseOpsAPICost.GetBlockNonce ;;
  n ← Blockchain.LastNonce; mret (s64 n).

Definition v1_3_getPrevBlockRound : M Z :=
  use_base BaseOpsAPICost.GetBlockRound ;;
  n ← Blockchain.LastRound; mret (s64 n).

Definition v1_3_getPrevBlockEpoch : M Z :=
  use_base BaseOpsAPICost.GetBlockEpoch ;;
  n ← Blockchain.LastEpoch; mret (s64 n).

Definition v1_3_getPrevBlockRandomSeed (pointer : Z) : M unit :=
  use_base BaseOpsAPICost.GetBlockRandomSeed ;;
  randomSeed ← Blockchain.LastRandomSeed;
  ?? Runtime.MemStore pointer randomSeed orelse tt;
  mret tt.

Definition v1_3_getOriginalTxHash (dataOffset : Z) : M unit :=
  use_base BaseOpsAPICost.GetBlockHash ;;
  hash ← Runtime.GetOriginalTxHash;
  ?? Runtime.MemStore dataOffset hash orelse tt;
  mret tt.

End BaseOps.
