(* ===== verification/AsyncCall.v ===== *)
(** Asynchronous calls and breakpoints: [src/vmhost/hostCore/asyncCall.go] and
    [src/vmhost/hostCore/breakpoints.go].

    The operations execute other contracts through [HostAPI], the interface the
    host gives to running contracts; [Execution] implements it. *)
From S2P Require Import Prelude Errors Overflow Helpers Types State Logic Toy Runtime Output.
From S2P Require Import Metering Blockchain Transfers Storage Validator RuntimeExec Builtin.

#[local] Open Scope Z_scope.

(** The operations of the host that execute contracts.  An [AsyncContextInfo]
    result is a pointer, nil when the execution did not get that far. *)
Record HostAPI `{Externals} := mkHostAPI {
  api_ExecuteOnDestContext : ContractCallInput -> M (VMOutput * option nat * option error);
  api_ExecuteOnSameContext : ContractCallInput -> M (option nat * option error);
  api_CreateNewContract : ContractCreateInput -> M (bytes * option error);
}.

(** [AsyncCallInfoHandler]: a generated call answers like an [AsyncCallInfo]
    without locked gas. *)
Definition handler_of_call (ac : AsyncGeneratedCall) : AsyncCallInfo :=
  mkAsyncCallInfo (ac_Destination ac) (ac_Data ac) (ac_GasLimit ac) 0 (ac_ValueBytes ac).

(** ** The calls of an [AsyncContextInfo] *)

(** [getPendingAsyncCalls]: the pending calls, by context. *)
Definition is_pending (ac : AsyncGeneratedCall) : bool := bool_decide (ac_Status ac = AsyncCallPending).

Definition getPendingAsyncCalls (asyncInfo : AsyncContextInfo) : AsyncContextInfo :=
  {| aci_CallerAddr := aci_CallerAddr asyncInfo;
     aci_ReturnData := aci_ReturnData asyncInfo;
     AsyncContextMap :=
       omap (fun asyncContext =>
           match List.filter is_pending (AsyncCalls asyncContext) with
           | [] => None
           | calls => Some (mkAsyncContext (Callback asyncContext) calls)
           end) (AsyncContextMap asyncInfo) |}.

(** The positions of a list with its elements. *)
Definition indexed {A} (l : list A) : list (nat * A) := imap pair l.

Section Calls.
Context `{Ext : Externals}.

(** All calls, each with its context and position, in the order of the two
    nested loops over them. *)
Definition all_calls (asyncInfo : AsyncContextInfo) : list (bytes * nat * AsyncGeneratedCall) :=
  concat (map (fun ic => map (fun nc => (ic.1, nc.1, nc.2)) (indexed (AsyncCalls ic.2)))
            (range (AsyncContextMap asyncInfo))).

Definition update_call (identifier : bytes) (index : nat)
    (f : AsyncGeneratedCall -> AsyncGeneratedCall) (asyncInfo : AsyncContextInfo) :
    AsyncContextInfo :=
  set_AsyncContextMap
    (alter (fun c => set_AsyncCalls (alter f index (AsyncCalls c)) c) identifier
       (AsyncContextMap asyncInfo)) asyncInfo.

(** The first loop of [setupAsyncCallsGas]. *)
Fixpoint sum_gas (gasLeft : Z) (calls : list (bytes * nat * AsyncGeneratedCall))
    (gasNeeded callsWithZeroGas : Z) (asyncInfo : AsyncContextInfo) :
    AsyncContextInfo * (Z * Z + error) :=
  match calls with
  | [] => (asyncInfo, inl (gasNeeded, callsWithZeroGas))
  | (identifier, index, asyncCall) :: calls' =>
      match AddUint64WithErr gasNeeded (ac_ProvidedGas asyncCall) with
      | (_, Some err) => (asyncInfo, inr err)
      | (gasNeeded, None) =>
          if gasLeft <? gasNeeded then (asyncInfo, inr (ErrNotEnoughGas : error))
          else if ac_ProvidedGas asyncCall =? 0 then
            sum_gas gasLeft calls' gasNeeded (u64 (callsWithZeroGas + 1)) asyncInfo
          else
            sum_gas gasLeft calls' gasNeeded callsWithZeroGas
              (update_call identifier index (set_ac_GasLimit (ac_ProvidedGas asyncCall)) asyncInfo)
      end
  end.

(** The second loop. *)
Definition share_gas (gasShare : Z) (calls : list (bytes * nat * AsyncGeneratedCall))
    (asyncInfo : AsyncContextInfo) : AsyncContextInfo :=
  fold_left (fun info c =>
      let '(identifier, index, asyncCall) := c in
      if ac_ProvidedGas asyncCall =? 0
      then update_call identifier index (set_ac_GasLimit gasShare) info else info)
    calls asyncInfo.

(** [setupAsyncCallsGas] on the gas left: the structure as it is left. *)
Definition setup_gas (gasLeft : Z) (asyncInfo : AsyncContextInfo) :
    AsyncContextInfo * option error :=
  let calls := all_calls asyncInfo in
  match sum_gas gasLeft calls 0 0 asyncInfo with
  | (asyncInfo, inr err) => (asyncInfo, Some err)
  | (asyncInfo, inl (gasNeeded, callsWithZeroGas)) =>
      if callsWithZeroGas =? 0 then (asyncInfo, None)
      else if gasLeft <=? gasNeeded then (asyncInfo, Some (ErrNotEnoughGas : error))
      else (share_gas ((gasLeft - gasNeeded) / callsWithZeroGas) calls asyncInfo, None)
  end.

(** ** Inputs of the calls *)

Definition computeDataLengthFromArguments (function : bytes) (arguments : list bytes) : Z :=
  let dataLength := AddUint64 (u64 (len function)) (u64 (len arguments)) in
  s64 (fold_left (fun n element => AddUint64 n (u64 (len element))) arguments dataLength).

Definition createDestinationContractCallInput (asyncCallInfo : AsyncCallInfo) :
    M (option ContractCallInput * option error) :=
  sender ← Runtime.GetSCAddress;
  match ParseData (aci_Data asyncCallInfo) with
  | (_, _, Some err) => mret (None, Some err)
  | (function, arguments, None) =>
      input ← Runtime.GetVMInput;
      gasLeft ← Metering.GasLeft;
      mret (Some
        {| call_VMInput :=
             set_CallerAddr sender (set_Arguments arguments
               (set_CallValue (SetBytes (aci_ValueBytes asyncCallInfo))
               (set_VMInput_CallType AsynchronousCall (set_GasPrice (GasPrice input)
               (set_GasProvided gasLeft (set_GasLocked (aci_GasLocked asyncCallInfo)
               (set_CurrentTxHash (CurrentTxHash input)
               (set_OriginalTxHash (OriginalTxHash input) zeroVMInput))))))));
           RecipientAddr := aci_Destination asyncCallInfo;
           Function_ := function;
           AllowInitFunction := false |}, None)
  end.

Definition computeCallValueFromLastOutputTransfer (destinationVMOutput : VMOutput) : M Z :=
  if negb IsVMV3Enabled then mret 0
  else if 0 <? len (ReturnData destinationVMOutput) then mret 0
  else
    callBackReceiver ← Runtime.GetSCAddress;
    mret match OutputAccounts destinationVMOutput !! callBackReceiver with
         | None => 0
         | Some outAcc =>
             match pop (OutputTransfers outAcc) with
             | None => 0
             | Some (lastOutTransfer, _) =>
                 if len (ot_Data lastOutTransfer) =? 0 then ot_Value lastOutTransfer else 0
             end
         end.

Definition isESDTTransferOnReturnDataFromFunctionAndArgs (functionName : bytes)
    (args : list bytes) : bool :=
  (bytes_eqb functionName core_BuiltInFunctionESDTTransfer && (len args =? 2)) ||
  (bytes_eqb functionName core_BuiltInFunctionESDTNFTTransfer && (len args =? 4)).

(** The function and arguments of an ESDT transfer in the return data. *)
Definition isESDTTransferOnReturnDataWithNoAdditionalData (destinationVMOutput : VMOutput) :
    option (bytes * list bytes) :=
  match ReturnData destinationVMOutput with
  | [] => None
  | data :: _ =>
      match ParseData data with
      | (_, _, Some _) => None
      | (functionName, args, None) =>
          if isESDTTransferOnReturnDataFromFunctionAndArgs functionName args
          then Some (functionName, args) else None
      end
  end.

Definition return_code_bytes (c : ReturnCode) : bytes := Bytes (Z.abs (ReturnCode_Int64 c)).

(** The arguments of the callback that carries an ESDT transfer back. *)
Definition esdt_callback_arguments (functionName : bytes) (esdtArgs : list bytes)
    (callbackFunction : bytes) (destinationVMOutput : VMOutput) : option (list bytes) :=
  first ← esdtArgs !! 0%nat;
  second ← esdtArgs !! 1%nat;
  nft ← (if bytes_eqb functionName core_BuiltInFunctionESDTNFTTransfer then
           third ← esdtArgs !! 2%nat; fourth ← esdtArgs !! 3%nat; Some [third; fourth]
         else Some []);
  Some ([first; second] ++ nft ++
        [callbackFunction; return_code_bytes (out_ReturnCode destinationVMOutput)] ++
        drop 1 (ReturnData destinationVMOutput)).

(** A nil [asyncCallInfo] panics. *)
Definition createCallbackContractCallInput (asyncCallInfo : option AsyncCallInfo)
    (destinationVMOutput : VMOutput) (callbackInitiator callbackFunction : bytes)
    (destinationErr : option error) : M (option ContractCallInput * option error) :=
  schedule ← Metering.GasSchedule;
  let returnCode := out_ReturnCode destinationVMOutput in
  let succeeded := bool_decide (destinationErr = None) && bool_decide (returnCode = Ok) in
  let esdt := if succeeded then isESDTTransferOnReturnDataWithNoAdditionalData destinationVMOutput
              else None in
  let arguments := return_code_bytes returnCode ::
    (if succeeded then ReturnData destinationVMOutput else [ReturnMessage destinationVMOutput]) in
  asyncCallInfo ← deref asyncCallInfo;
  let gasLimit := u64 (GasRemaining destinationVMOutput + aci_GasLocked asyncCallInfo) in
  let dataLength := computeDataLengthFromArguments callbackFunction arguments in
  let gas := MulUint64 (BaseOperationCost.DataCopyPerByte (gc_BaseOperationCost schedule))
               (u64 dataLength) in
  let gasToUse := AddUint64 (BaseOpsAPICost.AsyncCallStep (gc_BaseOpsAPICost schedule)) gas in
  if gasLimit <=? gasToUse then mret (None, Some (ErrNotEnoughGas : error))
  else
    value ← computeCallValueFromLastOutputTransfer destinationVMOutput;
    current ← Runtime.GetVMInput;
    recipient ← Runtime.GetSCAddress;
    let input :=
      {| call_VMInput :=
           set_CallerAddr callbackInitiator (set_Arguments arguments (set_CallValue value
             (set_VMInput_CallType AsynchronousCallBack (set_GasPrice (GasPrice current)
             (set_GasProvided (gasLimit - gasToUse)
             (set_CurrentTxHash (CurrentTxHash current)
             (set_OriginalTxHash (OriginalTxHash current)
             (set_ReturnCallAfterError (negb succeeded) zeroVMInput))))))));
         RecipientAddr := recipient;
         Function_ := callbackFunction;
         AllowInitFunction := false |} in
    match esdt with
    | None => mret (Some input, None)
    | Some (functionName, esdtArgs) =>
        arguments ← deref (esdt_callback_arguments functionName esdtArgs callbackFunction
                             destinationVMOutput);
        mret (Some (set_call_VMInput (set_Arguments arguments (call_VMInput input))
                      (mkContractCallInput (call_VMInput input) recipient functionName false)), None)
    end.

(** ** Sending calls to other shards *)

Definition canExecuteSynchronously (destination : bytes) : M bool :=
  r ← Blockchain.GetCode destination;
  mret match r with
       | (calledSCCode, None) => 0 <? len calledSCCode
       | (_, Some _) => false
       end.

(** A failed transfer takes the gas left and fails the execution. *)
Definition fail_transfer (err : error) : M (option error) :=
  gasLeft ← Metering.GasLeft;
  Metering.UseGas gasLeft ;;
  RuntimeExec.FailExecution (Some err) ;;
  mret (Some err).

Definition use_all_gas : M unit :=
  gasLeft ← Metering.GasLeft; Metering.UseGas gasLeft.

Definition sendAsyncCallToDestination (asyncCallInfo : AsyncCallInfo) : M (option error) :=
  sender ← Runtime.GetSCAddress;
  err ← Transfer (aci_Destination asyncCallInfo) sender (aci_GasLimit asyncCallInfo)
          (aci_GasLocked asyncCallInfo) (SetBytes (aci_ValueBytes asyncCallInfo))
          (aci_Data asyncCallInfo) AsynchronousCall;
  match err with
  | Some e => fail_transfer e
  | None => use_all_gas ;; mret None
  end.

Definition callback_data (returnCode : ReturnCode) (returnData : list bytes) : bytes :=
  at_sign ++ hex_EncodeToString (ReturnCode_String returnCode) ++
  concat (map (fun data => at_sign ++ hex_EncodeToString data) returnData).

Definition sendCallbackToCurrentCaller : M (option error) :=
  currentCall ← Runtime.GetVMInput;
  output ← gets outputOf;
  let retData := callback_data (out_ReturnCode output) (ReturnData output) in
  sender ← Runtime.GetSCAddress;
  gasLeft ← Metering.GasLeft;
  err ← Transfer (CallerAddr currentCall) sender gasLeft 0 (CallValue currentCall) retData
          AsynchronousCallBack;
  match err with
  | Some e => fail_transfer e
  | None => use_all_gas ;; mret None
  end.

Definition sendStorageCallbackToDestination (callerAddress returnData : bytes) :
    M (option error) :=
  currentCall ← Runtime.GetVMInput;
  sender ← Runtime.GetSCAddress;
  gasLeft ← Metering.GasLeft;
  err ← Transfer callerAddress sender gasLeft 0 (CallValue currentCall) returnData
          AsynchronousCallBack;
  match err with
  | Some e => fail_transfer e
  | None => mret None
  end.

Definition determineAsyncCallExecutionMode (asyncCallInfo : AsyncCallInfo) :
    M (AsyncCallExecutionMode * option error) :=
  match ParseData (aci_Data asyncCallInfo) with
  | (_, _, Some err) => mret (AsyncUnknown, Some err)
  | (functionName, args, None) =>
      address ← Runtime.GetSCAddress;
      sameShard ← Blockchain.AreInSameShard address (aci_Destination asyncCallInfo);
      if IsBuiltinFunctionName functionName then
        if (sameShard : bool) then
          input ← Runtime.GetVMInput;
          mret (if isESDTTransferOnReturnDataFromFunctionAndArgs functionName args &&
                   bool_decide (VMInput_CallType input = AsynchronousCall) &&
                   bytes_eqb (CallerAddr input) (aci_Destination asyncCallInfo)
                then (ESDTTransferOnCallBack, None) else (AsyncBuiltinFuncIntraShard, None))
        else mret (AsyncBuiltinFuncCrossShard, None)
      else
        sync ← canExecuteSynchronously (aci_Destination asyncCallInfo);
        mret (if (sync : bool) then (SyncCall, None) else (AsyncUnknown, None))
  end.

Definition processCallbackVMOutput (callbackVMOutput : option VMOutput) (callBackErr : option error) :
    M (option error) :=
  match callBackErr with
  | None => mret None
  | Some callBackErr =>
      Runtime.modify_state (fun s => set_vmInput (set_GasProvided 0 (vmInput s)) s) ;;
      out ← (match callbackVMOutput with
             | Some out => mret out
             | None => CreateVMOutputInCaseOfError callBackErr
             end);
      modify_output (Output.SetReturnMessage (ReturnMessage out)) ;;
      modify_output (Output.Finish (ReturnCode_String (out_ReturnCode out))) ;;
      hash ← Runtime.GetCurrentTxHash;
      modify_output (Output.Finish hash) ;;
      mret None
  end.

Definition savePendingAsyncCalls (pendingAsyncMap : AsyncContextInfo) : M (option error) :=
  if bool_decide (AsyncContextMap pendingAsyncMap = ∅) then mret None
  else
    hash ← Runtime.GetOriginalTxHash;
    match json_Marshal pendingAsyncMap with
    | (_, Some err) => mret (Some err)
    | (data, None) =>
        r ← Storage.SetProtectedStorage (CustomStorageKey AsyncDataPrefix hash) data;
        mret (snd r)
    end.

End Calls.

(** ** The operations that execute contracts *)

Section Executing.
Context `{Ext : Externals} (api : HostAPI).

Definition executeSyncDestinationCall (asyncCallInfo : AsyncCallInfo) :
    M (option VMOutput * option error) :=
  r ← createDestinationContractCallInput asyncCallInfo;
  match r with
  | (_, Some err) => mret (None, Some err)
  | (input, None) =>
      input ← deref input;
      r ← api_ExecuteOnDestContext api input;
      let '(vmOutput, _, err) := r in mret (Some vmOutput, err)
  end.

Definition executeSyncCallbackCall (asyncCallInfo : AsyncCallInfo)
    (destinationVMOutput : option VMOutput) (destinationErr : option error) :
    M (option VMOutput * option error) :=
  destinationVMOutput ← deref destinationVMOutput;
  r ← createCallbackContractCallInput (Some asyncCallInfo) destinationVMOutput
        (aci_Destination asyncCallInfo) CallbackFunctionName destinationErr;
  match r with
  | (_, Some err) => mret (None, Some err)
  | (input, None) =>
      input ← deref input;
      Metering.RestoreGas (aci_GasLocked asyncCallInfo) ;;
      r ← api_ExecuteOnDestContext api input;
      let '(vmOutput, _, err) := r in mret (Some vmOutput, err)
  end.

Definition handleAsyncCallBreakpoint : M (option error) :=
  Runtime.SetRuntimeBreakpointValue BreakpointNone ;;
  info ← Runtime.GetAsyncCallInfo;
  asyncCallInfo ← deref info;
  r ← determineAsyncCallExecutionMode asyncCallInfo;
  match r with
  | (_, Some err) => mret (Some err)
  | (AsyncUnknown, None) => sendAsyncCallToDestination asyncCallInfo
  | (AsyncBuiltinFuncCrossShard, None) =>
      r ← executeSyncDestinationCall asyncCallInfo; mret (snd r)
  | (ESDTTransferOnCallBack, None) =>
      modify_output (Output.PrependFinish (aci_Data asyncCallInfo)) ;;
      Metering.RestoreGas (aci_GasLocked asyncCallInfo) ;;
      mret None
  | (_, None) =>
      r ← executeSyncDestinationCall asyncCallInfo;
      let '(destinationVMOutput, destinationErr) := r in
      r ← executeSyncCallbackCall asyncCallInfo destinationVMOutput destinationErr;
      let '(callbackVMOutput, callBackErr) := r in
      processCallbackVMOutput callbackVMOutput callBackErr
  end.

(** [breakpoints.go] *)
Definition handleBreakpoint (breakpointValue : Z) : M (option error) :=
  if breakpointValue =? breakpoint_to_Z BreakpointAsyncCall then handleAsyncCallBreakpoint
  else if breakpointValue =? breakpoint_to_Z BreakpointExecutionFailed then
    mret (Some (ErrExecutionFailed : error))
  else if breakpointValue =? breakpoint_to_Z BreakpointSignalError then
    mret (Some (ErrSignalError : error))
  else if breakpointValue =? breakpoint_to_Z BreakpointOutOfGas then
    mret (Some (ErrNotEnoughGas : error))
  else mret (Some (ErrUnhandledRuntimeBreakpoint : error)).

Definition handleBreakpointIfAny (executionErr : option error) : M (option error) :=
  match executionErr with
  | None => mret None
  | Some _ =>
      breakpointValue ← Runtime.GetRuntimeBreakpointValue;
      if negb (breakpointValue =? breakpoint_to_Z BreakpointNone) then
        err ← handleBreakpoint breakpointValue;
        Runtime.AddError err [] ;;
        mret err
      else mret (Some (ErrExecutionFailed : error))
  end.

(** *** Groups of asynchronous calls

    The structure is on the heap, shared with the runtime context; a call in it
    is denoted by the location, the context and the position. *)

Definition load_info (loc : nat) : M AsyncContextInfo :=
  o ← gets (fun st => st_asyncInfos st !! loc); deref o.

Definition store_info (loc : nat) (info : AsyncContextInfo) : M unit :=
  modify (fun st => set_st_asyncInfos (<[loc := info]> (st_asyncInfos st)) st).

Definition load_call (loc : nat) (identifier : bytes) (index : nat) : M AsyncGeneratedCall :=
  info ← load_info loc;
  deref (AsyncContextMap info !! identifier ≫= fun c => AsyncCalls c !! index).

Definition setupAsyncCallsGas (info : AsyncContextInfo) : M (AsyncContextInfo * option error) :=
  gasLeft ← Metering.GasLeft; mret (setup_gas gasLeft info).

Definition callbackAsync (loc : nat) (identifier : bytes) (index : nat) (vmOutput : VMOutput)
    (executionError : option error) : M (option error) :=
  let resolved := bool_decide (out_ReturnCode vmOutput = Ok) in
  info ← load_info loc;
  store_info loc (update_call identifier index
    (set_ac_Status (if resolved then AsyncCallResolved else AsyncCallRejected)) info) ;;
  asyncCall ← load_call loc identifier index;
  let callbackFunction := if resolved then ac_SuccessCallback asyncCall
                          else ac_ErrorCallback asyncCall in
  r ← createCallbackContractCallInput (Some (handler_of_call asyncCall)) vmOutput
        (ac_Destination asyncCall) callbackFunction executionError;
  match r with
  | (_, Some err) => mret (Some err)
  | (input, None) =>
      input ← deref input;
      r ← api_ExecuteOnDestContext api input;
      let '(callbackVMOutput, _, callBackErr) := r in
      processCallbackVMOutput (Some callbackVMOutput) callBackErr
  end.

(** The error of [createDestinationContractCallInput] is dropped: the nil input
    it comes with panics, as does the nil structure of a failed execution. *)
Definition processAsyncCall (loc : nat) (identifier : bytes) (index : nat) : M (option error) :=
  asyncCall ← load_call loc identifier index;
  r ← createDestinationContractCallInput (handler_of_call asyncCall);
  input ← deref (fst r);
  r ← api_ExecuteOnDestContext api input;
  let '(output, asyncMap, executionError) := r in
  asyncLoc ← deref asyncMap;
  asyncInfo ← load_info asyncLoc;
  if bool_decide (AsyncContextMap (getPendingAsyncCalls asyncInfo) = ∅) then
    callbackAsync loc identifier index output executionError
  else mret executionError.

(** The pending calls of [pending] written back where [calls] has them. *)
Fixpoint write_pending (calls pending : list AsyncGeneratedCall) : list AsyncGeneratedCall :=
  match calls, pending with
  | [], _ => []
  | c :: calls', p :: pending' =>
      if is_pending c then p :: write_pending calls' pending' else c :: write_pending calls' pending
  | _, [] => calls
  end.

(** [getPendingAsyncCalls] shares the calls it keeps with the structure they
    are from: what is written to them is seen in both. *)
Definition share_pending (asyncInfo pendingMapInfo : AsyncContextInfo) : AsyncContextInfo :=
  set_AsyncContextMap
    (map_imap (fun identifier c =>
       Some (set_AsyncCalls
         (write_pending (AsyncCalls c)
            (default [] (AsyncCalls <$> AsyncContextMap pendingMapInfo !! identifier))) c))
       (AsyncContextMap asyncInfo)) asyncInfo.

Definition processAsyncInfo (loc : nat) : M (option AsyncContextInfo * option error) :=
  asyncInfo ← load_info loc;
  if bool_decide (AsyncContextMap asyncInfo = ∅) then mret (Some asyncInfo, None)
  else
    r ← setupAsyncCallsGas asyncInfo;
    store_info loc (fst r) ;;
    match snd r with
    | Some err => mret (None, Some err)
    | None =>
        err ← for_each_err (all_calls (fst r)) (fun c =>
          let '(identifier, index, _) := c in
          asyncCall ← load_call loc identifier index;
          sync ← canExecuteSynchronously (ac_Destination asyncCall);
          if (sync : bool) then processAsyncCall loc identifier index else mret None);
        match err with
        | Some err => mret (None, Some err)
        | None =>
            asyncInfo ← load_info loc;
            let pendingMapInfo := getPendingAsyncCalls asyncInfo in
            if bool_decide (AsyncContextMap pendingMapInfo = ∅) then mret (Some pendingMapInfo, None)
            else
              err ← savePendingAsyncCalls pendingMapInfo;
              match err with
              | Some err => mret (None, Some err)
              | None =>
                  r ← setupAsyncCallsGas pendingMapInfo;
                  let '(pendingMapInfo, err) := r in
                  store_info loc (share_pending asyncInfo pendingMapInfo) ;;
                  match err with
                  | Some err => mret (None, Some err)
                  | None =>
                      err ← for_each_err (all_calls pendingMapInfo) (fun c =>
                        let '(_, _, asyncCall) := c in
                        sync ← canExecuteSynchronously (ac_Destination asyncCall);
                        if (sync : bool) then mret None
                        else sendAsyncCallToDestination (handler_of_call asyncCall));
                      match err with
                      | Some err => mret (None, Some err)
                      | None => mret (Some pendingMapInfo, None)
                      end
                  end
              end
        end
    end.

(** *** Callbacks from other shards *)

(** The contexts in the order visited, up to the first with a call to [caller]. *)
Fixpoint find_call (caller : bytes) (contexts : list (bytes * AsyncContext)) :
    option (bytes * AsyncContext * nat) :=
  match contexts with
  | [] => None
  | (identifier, c) :: contexts' =>
      match list_find (fun ac => caller = ac_Destination ac) (AsyncCalls c) with
      | Some (position, _) =>
          (** an empty identifier does not end the search *)
          if 0 <? len identifier then Some (identifier, c, position)
          else find_call caller contexts'
      | None => find_call caller contexts'
      end
  end.

(** [getCurrentAsyncInfo]; [processCallbackStack] reads the same key. *)
Definition load_async_data : M bytes :=
  hash ← Runtime.GetOriginalTxHash;
  Storage.GetStorageUnmetered (CustomStorageKey AsyncDataPrefix hash).

(** A context whose last call is answered is removed; the shortened list of
    calls of the others is not stored back. *)
Definition processCallbackStack : M (option error) :=
  buff ← load_async_data;
  if len buff =? 0 then mret None
  else
    match json_Unmarshal buff with
    | (_, Some err) => mret (Some err)
    | (info, None) =>
        asyncInfo ← deref info;
        vmInput ← Runtime.GetVMInput;
        match find_call (CallerAddr vmInput) (range (AsyncContextMap asyncInfo)) with
        | None => mret (Some (ErrCallBackFuncNotExpected : error))
        | Some (identifier, c, _) =>
            let contextMap := if len (AsyncCalls c) <=? 1
                              then delete identifier (AsyncContextMap asyncInfo)
                              else AsyncContextMap asyncInfo in
            if negb (bool_decide (contextMap = ∅)) then mret None
            else
              hash ← Runtime.GetOriginalTxHash;
              r ← Storage.SetProtectedStorage (CustomStorageKey AsyncDataPrefix hash) [];
              match snd r with
              | Some err => mret (Some err)
              | None =>
                  sync ← canExecuteSynchronously (aci_CallerAddr asyncInfo);
                  if negb (sync : bool) then
                    sendStorageCallbackToDestination (aci_CallerAddr asyncInfo)
                      (aci_ReturnData asyncInfo)
                  else
                    vmOutput ← GetVMOutput;
                    r ← createCallbackContractCallInput None vmOutput (aci_CallerAddr asyncInfo)
                          CallbackFunctionName None;
                    match r with
                    | (_, Some err) => mret (Some err)
                    | (input, None) =>
                        input ← deref input;
                        r ← api_ExecuteOnDestContext api input;
                        let '(callbackVMOutput, _, callBackErr) := r in
                        processCallbackVMOutput (Some callbackVMOutput) callBackErr
                    end
              end
        end
    end.

Definition getCurrentAsyncInfo : M (option AsyncContextInfo * option error) :=
  buff ← load_async_data;
  if len buff =? 0 then mret (Some (mkAsyncContextInfo [] [] ∅), None)
  else mret (json_Unmarshal buff).

(** The first call to [caller], in any context. *)
Definition find_callback (caller : bytes) (asyncInfo : AsyncContextInfo) :
    option AsyncGeneratedCall :=
  snd <$> list_find (fun ac => caller = ac_Destination ac)
    (concat (map (fun ic => AsyncCalls ic.2) (range (AsyncContextMap asyncInfo)))).

(** A nil function is returned without an error when a custom callback is not
    exported. *)
Definition getFunctionByCallType (callType : CallType) : M (option bytes * option error) :=
  if negb (bool_decide (callType = AsynchronousCallBack)) then
    r ← Runtime.GetFunctionToCall;
    mret match r with
         | (function, None) => (Some function, None)
         | (_, Some err) => (None, Some err)
         end
  else
    r ← getCurrentAsyncInfo;
    match r with
    | (_, Some err) => mret (None, Some err)
    | (info, None) =>
        asyncInfo ← deref info;
        vmInput ← Runtime.GetVMInput;
        let custom := find_callback (CallerAddr vmInput) asyncInfo in
        (match custom with
         | Some asyncCall => Runtime.SetCustomCallFunction (ac_SuccessCallback asyncCall)
         | None => mret tt
         end) ;;
        r ← Runtime.GetFunctionToCall;
        mret match r, custom with
             | (function, None), _ => (Some function, None)
             | (_, Some _), None => (None, Some (ErrNilCallbackFunction : error))
             | (_, Some _), Some _ => (None, None)
             end
    end.

End Executing.
