(* ===== verification/BaseOpsCalls.v ===== *)
(** The functions exported to WebAssembly that reach other accounts
    ([src/vmhost/vmhooks/baseOps.go]): transfers of value and of tokens, the
    execution of other contracts, their creation and upgrade, asynchronous
    calls.  The [WithTypedArgs] level takes arguments already read from memory,
    the [WithHost] level reads them. *)
From S2P Require Import Prelude Errors Overflow Helpers Types State Logic Toy BigInt Runtime.
From S2P Require Import Output Metering Blockchain Transfers Storage RuntimeExec Builtin Memory.
From S2P Require Import AsyncCall VMHooks.

Import BaseOpsGuard.
#[local] Open Scope Z_scope.
#[local] Open Scope hook_scope.

Section BaseOpsCalls.
Context `{Ext : Externals} (api : HostAPI).

(** ** Transfers *)

Definition v1_3_transferValue (destOffset valueOffset dataOffset length : Z) : M Z :=
  use_base BaseOpsAPICost.TransferValue ;;
  sender ← Runtime.GetSCAddress;
  dest ←? Runtime.MemLoad destOffset AddressLen orelse 1;
  valueBytes ←? Runtime.MemLoad valueOffset BalanceLen orelse 1;
  Storage.use_per_byte BaseOperationCost.PersistPerByte length ;;
  data ←? Runtime.MemLoad dataOffset length orelse 1;
  if isBuiltInCall data then mret 1
  else
    ?? Transfer dest sender 0 0 (SetBytes valueBytes) data DirectCall orelse 1;
    mret 0.

(** [function != nil] and [contractCallInput != nil] *)
Definition TransferValueExecuteWithTypedArgs (dest : bytes) (value gasLimit : Z)
    (function : option bytes) (args : list bytes) : M Z :=
  use_base BaseOpsAPICost.TransferValue ;;
  sender ← Runtime.GetSCAddress;
  contractCallInput ←? (match function with
                        | None => mret (None, None)
                        | Some function =>
                            prepareIndirectContractCallInput sender value gasLimit dest function
                              args false
                        end) orelse 1;
  let isBuiltIn := match contractCallInput with
                   | Some input => IsBuiltinFunctionName (Function_ input)
                   | None => false
                   end in
  if isBuiltIn then mret 1
  else
    sameShard ← Blockchain.AreInSameShard sender dest;
    isSmartContract ← Blockchain.IsSmartContract dest;
    let transfer :=
      ?? Transfer dest sender (u64 gasLimit) 0 value
           (makeCrossShardCallFromInput contractCallInput) DirectCall orelse 1;
      mret 0 in
    match contractCallInput with
    | Some input =>
        if (sameShard : bool) && isSmartContract then
          r ← api_ExecuteOnDestContext api input;
          mret (match r with (_, _, Some _) => 1 | (_, _, None) => 0 end)
        else transfer
    | None => transfer
    end.

Definition TransferValueExecuteWithHost (destOffset valueOffset gasLimit functionOffset
    functionLength numArguments argumentsLengthOffset dataOffset : Z) : M Z :=
  use_base BaseOpsAPICost.TransferValue ;;
  callArgs ←? extractIndirectContractCallArgumentsWithValue destOffset valueOffset functionOffset
                functionLength numArguments argumentsLengthOffset dataOffset orelse 1;
  value ← deref (ica_value callArgs);
  TransferValueExecuteWithTypedArgs (ica_dest callArgs) value gasLimit
    (Some (ica_function callArgs)) (ica_args callArgs).

Definition v1_3_transferValueExecute : Z -> Z -> Z -> Z -> Z -> Z -> Z -> Z -> M Z :=
  TransferValueExecuteWithHost.

(** Deprecated: it only charges. *)
Definition v1_3_transferESDT (destOffset tokenIDOffset tokenIDLen valueOffset gasLimit
    dataOffset length : Z) : M Z :=
  use_base BaseOpsAPICost.TransferValue ;;
  Storage.use_per_byte BaseOperationCost.PersistPerByte length ;;
  mret 1.

(** [contractCallInput.ESDTTransfers] *)
Definition with_esdt_transfer (value : Z) (tokenName : bytes) (nonce : Z)
    (input : ContractCallInput) : ContractCallInput :=
  let tokenType := if 0 <? nonce then core_NonFungible else core_Fungible in
  set_call_VMInput (set_ESDTTransfers
    [mkESDTTransfer value tokenName (u32 tokenType) (u64 nonce)] (call_VMInput input)) input.

Definition TransferESDTNFTExecuteWithTypedArgs (esdtValue : Z) (esdtTokenName dest : bytes)
    (nonce gasLimit : Z) (function : option bytes) (data : list bytes) : M Z :=
  use_base BaseOpsAPICost.TransferValue ;;
  sender ← Runtime.GetSCAddress;
  guarded Runtime.SyncExecAPIErrorShouldFailExecution 1
    (match function with
     | None => mret (None, None)
     | Some function =>
         prepareIndirectContractCallInput sender 0 gasLimit dest function data false
     end) (fun contractCallInput =>
  let contractCallInput :=
    with_esdt_transfer esdtValue esdtTokenName nonce <$> contractCallInput in
  snapshotBeforeTransfer ← Blockchain.GetSnapshot;
  gasLimitForExec ←? TransferESDT dest sender esdtTokenName (u64 nonce) esdtValue
                       contractCallInput orelse 1;
  sameShard ← Blockchain.AreInSameShard sender dest;
  isSmartContract ← Blockchain.IsSmartContract dest;
  match contractCallInput with
  | Some input =>
      if (sameShard : bool) && isSmartContract then
        let input := set_call_VMInput (set_GasProvided gasLimitForExec (call_VMInput input)) input in
        r ← api_ExecuteOnDestContext api input;
        match r with
        | (_, _, Some _) => Blockchain.RevertToSnapshot snapshotBeforeTransfer ;; mret 1
        | (_, _, None) => mret 0
        end
      else mret 0
  | None => mret 0
  end).

Definition TransferESDTNFTExecuteWithHost (destOffset tokenIDOffset tokenIDLen valueOffset nonce
    gasLimit functionOffset functionLength numArguments argumentsLengthOffset dataOffset : Z) :
    M Z :=
  tokenIdentifier ←? Runtime.MemLoad tokenIDOffset tokenIDLen orelse 1;
  callArgs ←? extractIndirectContractCallArgumentsWithValue destOffset valueOffset functionOffset
                functionLength numArguments argumentsLengthOffset dataOffset orelse 1;
  Storage.use_per_byte BaseOperationCost.DataCopyPerByte (ica_actualLen callArgs) ;;
  value ← deref (ica_value callArgs);
  TransferESDTNFTExecuteWithTypedArgs value tokenIdentifier (ica_dest callArgs) nonce gasLimit
    (Some (ica_function callArgs)) (ica_args callArgs).

Definition v1_3_transferESDTNFTExecute :
    Z -> Z -> Z -> Z -> Z -> Z -> Z -> Z -> Z -> Z -> Z -> M Z :=
  TransferESDTNFTExecuteWithHost.

Definition v1_3_transferESDTExecute (destOffset tokenIDOffset tokenIDLen valueOffset gasLimit
    functionOffset functionLength numArguments argumentsLengthOffset dataOffset : Z) : M Z :=
  v1_3_transferESDTNFTExecute destOffset tokenIDOffset tokenIDLen valueOffset 0 gasLimit
    functionOffset functionLength numArguments argumentsLengthOffset dataOffset.

(** ** Asynchronous calls *)

Definition v1_3_createAsyncCall (asyncContextIdentifier identifierLength destOffset valueOffset
    dataOffset length successOffset successLength errorOffset errorLength gas : Z) : M unit :=
  acIdentifier ←? Runtime.MemLoad asyncContextIdentifier identifierLength orelse tt;
  calledSCAddress ←? Runtime.MemLoad destOffset AddressLen orelse tt;
  value ←? Runtime.MemLoad valueOffset BalanceLen orelse tt;
  data ←? Runtime.MemLoad dataOffset length orelse tt;
  successFunc ←? Runtime.MemLoad successOffset successLength orelse tt;
  errorFunc ←? Runtime.MemLoad errorOffset errorLength orelse tt;
  ?? RuntimeExec.AddAsyncContextCall acIdentifier
       {| ac_Status := AsyncCallPending;
          ac_Destination := calledSCAddress;
          ac_Data := data;
          ac_GasLimit := 0;
          ac_ValueBytes := value;
          ac_SuccessCallback := successFunc;
          ac_ErrorCallback := errorFunc;
          ac_ProvidedGas := u64 gas |} orelse tt;
  mret tt.

(** [asyncContext.Callback = ...] through the pointer in the map. *)
Definition v1_3_setAsyncContextCallback (asyncContextIdentifier identifierLength callback
    callbackLength : Z) : M Z :=
  acIdentifier ←? Runtime.MemLoad asyncContextIdentifier identifierLength orelse (-1);
  asyncContext ←? RuntimeExec.GetAsyncContext acIdentifier orelse (-1);
  callbackFunc ←? Runtime.MemLoad callback callbackLength orelse (-1);
  _ ← deref asyncContext;
  RuntimeExec.modify_async_info (fun info =>
    set_AsyncContextMap
      (alter (set_Callback callbackFunc) acIdentifier (AsyncContextMap info)) info) ;;
  mret 0.

Definition v1_3_asyncCall (destOffset valueOffset dataOffset length : Z) : M unit :=
  use_base BaseOpsAPICost.AsyncCallStep ;;
  calledSCAddress ←? Runtime.MemLoad destOffset AddressLen orelse tt;
  value ←? Runtime.MemLoad valueOffset BalanceLen orelse tt;
  Storage.use_per_byte BaseOperationCost.DataCopyPerByte length ;;
  data ←? Runtime.MemLoad dataOffset length orelse tt;
  err ← RuntimeExec.ExecuteAsyncCall calledSCAddress data value;
  if opt_Is err ErrNotEnoughGas then Runtime.SetRuntimeBreakpointValue BreakpointOutOfGas
  else
    ?? mret err orelse tt;
    mret tt.

(** ** Upgrades *)

(** The error of [ExecuteAsyncCall] is logged and dropped. *)
Definition upgradeContract (destContractAddress code codeMetadata value : bytes)
    (data : list bytes) (gasLimit : Z) : M unit :=
  gasSchedule ← Metering.GasSchedule;
  let prices := gc_BaseOpsAPICost gasSchedule in
  let minAsyncCallCost :=
    AddUint64 (MulUint64 2 (BaseOpsAPICost.AsyncCallStep prices))
      (BaseOpsAPICost.AsyncCallbackGasLock prices) in
  if u64 gasLimit <? minAsyncCallCost then
    Runtime.SetRuntimeBreakpointValue BreakpointOutOfGas
  else
    let callData :=
      fold_left (fun callData arg => callData ++ at_sign ++ hex_EncodeToString arg) data
        (UpgradeFunctionName ++ at_sign ++ hex_EncodeToString code ++ at_sign ++
         hex_EncodeToString codeMetadata) in
    _ ← RuntimeExec.ExecuteAsyncCall destContractAddress callData value;
    mret tt.

Definition v1_3_upgradeContract (destOffset gasLimit valueOffset codeOffset codeMetadataOffset
    length numArguments argumentsLengthOffset dataOffset : Z) : M unit :=
  use_base BaseOpsAPICost.CreateContract ;;
  value ←? Runtime.MemLoad valueOffset BalanceLen orelse tt;
  code ←? Runtime.MemLoad codeOffset length orelse tt;
  codeMetadata ←? Runtime.MemLoad codeMetadataOffset CodeMetadataLen orelse tt;
  r ← getArgumentsFromMemory numArguments argumentsLengthOffset dataOffset;
  let '(data, actualLen, err) := r in
  Storage.use_per_byte BaseOperationCost.DataCopyPerByte actualLen ;;
  ?? mret err orelse tt;
  calledSCAddress ←? Runtime.MemLoad destOffset AddressLen orelse tt;
  Storage.use_per_byte BaseOperationCost.DataCopyPerByte length ;;
  upgradeContract calledSCAddress code codeMetadata value data gasLimit.

Definition UpgradeFromSourceContractWithTypedArgs (sourceContractAddress destContractAddress
    value : bytes) (data : list bytes) (gasLimit : Z) (codeMetadata : bytes) : M unit :=
  code ←? Blockchain.GetCode sourceContractAddress orelse tt;
  upgradeContract destContractAddress code codeMetadata value data gasLimit.

Definition v1_3_upgradeFromSourceContract (destOffset gasLimit valueOffset
    sourceContractAddressOffset codeMetadataOffset numArguments argumentsLengthOffset
    dataOffset : Z) : M unit :=
  use_base BaseOpsAPICost.CreateContract ;;
  value ←? Runtime.MemLoad valueOffset BalanceLen orelse tt;
  sourceContractAddress ←? Runtime.MemLoad sourceContractAddressOffset AddressLen orelse tt;
  codeMetadata ←? Runtime.MemLoad codeMetadataOffset CodeMetadataLen orelse tt;
  r ← getArgumentsFromMemory numArguments argumentsLengthOffset dataOffset;
  let '(data, actualLen, err) := r in
  Storage.use_per_byte BaseOperationCost.DataCopyPerByte actualLen ;;
  ?? mret err orelse tt;
  calledSCAddress ←? Runtime.MemLoad destOffset AddressLen orelse tt;
  UpgradeFromSourceContractWithTypedArgs sourceContractAddress calledSCAddress value data gasLimit
    codeMetadata.

(** ** Execution of other contracts *)

Definition ExecuteOnSameContextWithTypedArgs (gasLimit value : Z) (function dest : bytes)
    (args : list bytes) : M Z :=
  use_base BaseOpsAPICost.ExecuteOnSameContext ;;
  sender ← Runtime.GetSCAddress;
  contractCallInput ←? prepareIndirectContractCallInput sender value gasLimit dest function args
                         true orelse 1;
  input ← deref contractCallInput;
  if isBuiltInCall (Function_ input) then mret 1
  else
    _ ←? api_ExecuteOnSameContext api input orelse 1;
    mret 0.

Definition ExecuteOnSameContextWithHost (gasLimit addressOffset valueOffset functionOffset
    functionLength numArguments argumentsLengthOffset dataOffset : Z) : M Z :=
  callArgs ←? extractIndirectContractCallArgumentsWithValue addressOffset valueOffset
                functionOffset functionLength numArguments argumentsLengthOffset dataOffset
                orelse 1;
  value ← deref (ica_value callArgs);
  ExecuteOnSameContextWithTypedArgs gasLimit value (ica_function callArgs) (ica_dest callArgs)
    (ica_args callArgs).

Definition v1_3_executeOnSameContext : Z -> Z -> Z -> Z -> Z -> Z -> Z -> Z -> M Z :=
  ExecuteOnSameContextWithHost.

Definition ExecuteOnDestContextWithTypedArgs (gasLimit value : Z) (function dest : bytes)
    (args : list bytes) : M Z :=
  use_base BaseOpsAPICost.ExecuteOnDestContext ;;
  sender ← Runtime.GetSCAddress;
  contractCallInput ←? prepareIndirectContractCallInput sender value gasLimit dest function args
                         true orelse 1;
  input ← deref contractCallInput;
  _ ←? api_ExecuteOnDestContext api input orelse 1;
  mret 0.

Definition ExecuteOnDestContextWithHost (gasLimit addressOffset valueOffset functionOffset
    functionLength numArguments argumentsLengthOffset dataOffset : Z) : M Z :=
  callArgs ←? extractIndirectContractCallArgumentsWithValue addressOffset valueOffset
                functionOffset functionLength numArguments argumentsLengthOffset dataOffset
                orelse 1;
  value ← deref (ica_value callArgs);
  ExecuteOnDestContextWithTypedArgs gasLimit value (ica_function callArgs) (ica_dest callArgs)
    (ica_args callArgs).

Definition v1_3_executeOnDestContext : Z -> Z -> Z -> Z -> Z -> Z -> Z -> Z -> M Z :=
  ExecuteOnDestContextWithHost.

Definition ExecuteOnDestContextByCallerWithTypedArgs (gasLimit value : Z) (function dest : bytes)
    (args : list bytes) : M Z :=
  use_base BaseOpsAPICost.ExecuteOnDestContext ;;
  vmInput ← Runtime.GetVMInput;
  contractCallInput ←? prepareIndirectContractCallInput (CallerAddr vmInput) value gasLimit dest
                         function args true orelse 1;
  input ← deref contractCallInput;
  if isBuiltInCall (Function_ input) then mret 1
  else
    _ ←? api_ExecuteOnDestContext api input orelse 1;
    mret 0.

Definition ExecuteOnDestContextByCallerWithHost (gasLimit addressOffset valueOffset functionOffset
    functionLength numArguments argumentsLengthOffset dataOffset : Z) : M Z :=
  callArgs ←? extractIndirectContractCallArgumentsWithValue addressOffset valueOffset
                functionOffset functionLength numArguments argumentsLengthOffset dataOffset
                orelse 1;
  value ← deref (ica_value callArgs);
  ExecuteOnDestContextByCallerWithTypedArgs gasLimit value (ica_function callArgs)
    (ica_dest callArgs) (ica_args callArgs).

Definition v1_3_executeOnDestContextByCaller : Z -> Z -> Z -> Z -> Z -> Z -> Z -> Z -> M Z :=
  ExecuteOnDestContextByCallerWithHost.

Definition DelegateExecutionWithTypedArgs (gasLimit : Z) (function dest : bytes)
    (args : list bytes) : M Z :=
  use_base BaseOpsAPICost.DelegateExecution ;;
  sender ← Runtime.GetSCAddress;
  vmInput ← Runtime.GetVMInput;
  contractCallInput ←? prepareIndirectContractCallInput sender (CallValue vmInput) gasLimit dest
                         function args true orelse 1;
  input ← deref contractCallInput;
  if isBuiltInCall (Function_ input) then mret 1
  else
    _ ←? api_ExecuteOnSameContext api input orelse 1;
    mret 0.

Definition DelegateExecutionWithHost (gasLimit addressOffset functionOffset functionLength
    numArguments argumentsLengthOffset dataOffset : Z) : M Z :=
  callArgs ←? extractIndirectContractCallArgumentsWithoutValue addressOffset functionOffset
                functionLength numArguments argumentsLengthOffset dataOffset orelse 1;
  DelegateExecutionWithTypedArgs gasLimit (ica_function callArgs) (ica_dest callArgs)
    (ica_args callArgs).

Definition v1_3_delegateExecution : Z -> Z -> Z -> Z -> Z -> Z -> Z -> M Z :=
  DelegateExecutionWithHost.

(** The mode is switched off after the call, not restored. *)
Definition ExecuteReadOnlyWithTypedArguments (gasLimit : Z) (function dest : bytes)
    (args : list bytes) : M Z :=
  use_base BaseOpsAPICost.ExecuteReadOnly ;;
  sender ← Runtime.GetSCAddress;
  vmInput ← Runtime.GetVMInput;
  contractCallInput ←? prepareIndirectContractCallInput sender (CallValue vmInput) gasLimit dest
                         function args true orelse 1;
  input ← deref contractCallInput;
  if isBuiltInCall (Function_ input) then mret 1
  else
    Runtime.SetReadOnly true ;;
    r ← api_ExecuteOnSameContext api input;
    Runtime.SetReadOnly false ;;
    ?? mret (snd r) orelse 1;
    mret 0.

Definition ExecuteReadOnlyWithHost (gasLimit addressOffset functionOffset functionLength
    numArguments argumentsLengthOffset dataOffset : Z) : M Z :=
  callArgs ←? extractIndirectContractCallArgumentsWithoutValue addressOffset functionOffset
                functionLength numArguments argumentsLengthOffset dataOffset orelse 1;
  ExecuteReadOnlyWithTypedArguments gasLimit (ica_function callArgs) (ica_dest callArgs)
    (ica_args callArgs).

Definition v1_3_executeReadOnly : Z -> Z -> Z -> Z -> Z -> Z -> Z -> M Z :=
  ExecuteReadOnlyWithHost.

(** ** Creation of contracts *)

Definition createContract (sender : bytes) (data : list bytes) (value gasLimit : Z)
    (code codeMetadata : bytes) : M (bytes * option error) :=
  gasProvided ← Metering.BoundGasLimit gasLimit;
  api_CreateNewContract api
    {| create_VMInput :=
         set_CallerAddr sender (set_Arguments data (set_CallValue value
           (set_GasPrice 0 (set_GasProvided gasProvided zeroVMInput))));
       ContractCode := code;
       ContractCodeMetadata := codeMetadata |}.

(** The error of the creation itself does not fail the caller. *)
Definition v1_3_createContract (gasLimit valueOffset codeOffset codeMetadataOffset length
    resultOffset numArguments argumentsLengthOffset dataOffset : Z) : M Z :=
  use_base BaseOpsAPICost.CreateContract ;;
  sender ← Runtime.GetSCAddress;
  value ←? Runtime.MemLoad valueOffset BalanceLen orelse 1;
  code ←? Runtime.MemLoad codeOffset length orelse 1;
  codeMetadata ←? Runtime.MemLoad codeMetadataOffset CodeMetadataLen orelse 1;
  r ← getArgumentsFromMemory numArguments argumentsLengthOffset dataOffset;
  let '(data, actualLen, err) := r in
  Storage.use_per_byte BaseOperationCost.DataCopyPerByte actualLen ;;
  ?? mret err orelse 1;
  r ← createContract sender data (SetBytes value) gasLimit code codeMetadata;
  match r with
  | (_, Some _) => mret 1
  | (newAddress, None) =>
      ?? Runtime.MemStore resultOffset newAddress orelse 1;
      mret 0
  end.

Definition DeployFromSourceContractWithTypedArgs (sourceContractAddress codeMetadata : bytes)
    (value : Z) (data : list bytes) (gasLimit : Z) : M (bytes * option error) :=
  sender ← Runtime.GetSCAddress;
  r ← Blockchain.GetCode sourceContractAddress;
  ?? mret (snd r) orelse ([], snd r);
  createContract sender data value gasLimit (fst r) codeMetadata.

Definition v1_3_deployFromSourceContract (gasLimit valueOffset sourceContractAddressOffset
    codeMetadataOffset resultAddressOffset numArguments argumentsLengthOffset dataOffset : Z) :
    M Z :=
  use_base BaseOpsAPICost.CreateContract ;;
  value ←? Runtime.MemLoad valueOffset BalanceLen orelse 1;
  sourceContractAddress ←? Runtime.MemLoad sourceContractAddressOffset AddressLen orelse 1;
  codeMetadata ←? Runtime.MemLoad codeMetadataOffset CodeMetadataLen orelse 1;
  r ← getArgumentsFromMemory numArguments argumentsLengthOffset dataOffset;
  let '(data, actualLen, err) := r in
  Storage.use_per_byte BaseOperationCost.DataCopyPerByte actualLen ;;
  ?? mret err orelse 1;
  r ← DeployFromSourceContractWithTypedArgs sourceContractAddress codeMetadata (SetBytes value)
        data gasLimit;
  match r with
  | (_, Some _) => mret 1
  | (newAddress, None) =>
      ?? Runtime.MemStore resultAddressOffset newAddress orelse 1;
      mret 0
  end.

End BaseOpsCalls.
