(* ===== verification/BigIntOps.v ===== *)
(** The functions exported to WebAssembly on big integers,
    [src/vmhost/vmhooks/bigIntOps.go].  A contract names a number by its handle;
    two handles of an operation may be the same, so the operands are read
    before the destination is written. *)
From S2P Require Import Prelude Errors Overflow Helpers Types State Logic Toy BigInt Runtime.
From S2P Require Import Output Metering Blockchain Transfers Storage RuntimeExec Builtin Memory.
From S2P Require Import VMHooks BaseOps.

Import BigIntGuard.
#[local] Open Scope Z_scope.
#[local] Open Scope hook_scope.

Definition maxBigIntByteLenForNormalCost : Z := 32.

(** ** Methods of [big.Int] *)

(** [BitLen]: the length of the absolute value. *)
Definition BitLen (x : Z) : Z := if x =? 0 then 0 else Z.log2 (Z.abs x) + 1.

Definition Sign (x : Z) : Z := Z.sgn x.

Definition Cmp (x y : Z) : Z := if x <? y then -1 else if y <? x then 1 else 0.

Definition IsInt64 (x : Z) : bool := (MinInt64 <=? x) && (x <=? MaxInt64).
Definition IsUint64 (x : Z) : bool := (0 <=? x) && (x <=? MaxUint64).

(** [Int64] and [Uint64] keep the low 64 bits. *)
Definition Int64 (x : Z) : Z := s64 x.
Definition Uint64 (x : Z) : Z := u64 x.

(** [Quo] and [Rem] truncate towards zero. *)
Definition Quo (x y : Z) : Z := Z.quot x y.
Definition Rem (x y : Z) : Z := Z.rem x y.

(** [Div] and [Mod] as [math/big] computes them from [QuoRem]: the remainder is
    moved into [0, |y|). *)
Definition Div (x y : Z) : Z :=
  if Z.rem x y <? 0 then (if y <? 0 then Z.quot x y + 1 else Z.quot x y - 1) else Z.quot x y.
Definition Mod (x y : Z) : Z :=
  if Z.rem x y <? 0 then (if y <? 0 then Z.rem x y - y else Z.rem x y + y) else Z.rem x y.

Section BigIntOps.
Context `{Ext : Externals}.

(** Numbers of more than 32 bytes cost more. *)
Definition useExtraGasForOperations (values : list Z) : M unit :=
  for_each values (fun val =>
    let byteLen := BitLen val / 8 in
    if maxBigIntByteLenForNormalCost <? byteLen then
      schedule ← Metering.GasSchedule;
      Metering.UseGas (MulUint64 (u64 byteLen)
        (BaseOperationCost.DataCopyPerByte (gc_BaseOperationCost schedule)))
    else mret tt).

(** [args[id]]; a negative index panics. *)
Definition args_at (args : list bytes) (id : Z) : M bytes :=
  if id <? 0 then panic else deref (args !! Z.to_nat id).

(** ** Arguments, payments, balances *)

Definition v1_3_bigIntGetUnsignedArgument (id destination : Z) : M unit :=
  use_bigInt BigIntAPICost.BigIntGetUnsignedArgument ;;
  args ← Runtime.Arguments;
  if s32 (len args) <=? id then mret tt
  else
    _ ← bigInt_GetOne destination;
    arg ← args_at args id;
    bigInt_SetValue destination (SetBytes arg).

Definition v1_3_bigIntGetSignedArgument (id destination : Z) : M unit :=
  use_bigInt BigIntAPICost.BigIntGetSignedArgument ;;
  args ← Runtime.Arguments;
  if s32 (len args) <=? id then mret tt
  else
    _ ← bigInt_GetOne destination;
    arg ← args_at args id;
    bigInt_SetValue destination (twos_SetBytes arg).

Definition v1_3_bigIntStorageStoreUnsigned (keyOffset keyLength source : Z) : M Z :=
  use_bigInt BigIntAPICost.BigIntStorageStoreUnsigned ;;
  key ←? Runtime.MemLoad keyOffset keyLength orelse 0;
  value ← bigInt_GetOne source;
  storageStatus ←? Storage.SetStorage key (Bytes value) orelse (-1);
  mret (StorageStatus_to_Z storageStatus).

Definition v1_3_bigIntStorageLoadUnsigned (keyOffset keyLength destination : Z) : M Z :=
  use_bigInt BigIntAPICost.BigIntStorageLoadUnsigned ;;
  key ←? Runtime.MemLoad keyOffset keyLength orelse 0;
  data ← Storage.GetStorage key;
  _ ← bigInt_GetOne destination;
  bigInt_SetValue destination (SetBytes data) ;;
  mret (s32 (len data)).

Definition v1_3_bigIntGetCallValue (destination : Z) : M unit :=
  use_bigInt BigIntAPICost.BigIntGetCallValue ;;
  _ ← bigInt_GetOne destination;
  input ← Runtime.GetVMInput;
  bigInt_SetValue destination (CallValue input).

Definition v1_3_bigIntGetESDTCallValue (destination : Z) : M unit :=
  use_bigInt BigIntAPICost.BigIntGetCallValue ;;
  _ ← bigInt_GetOne destination;
  input ← Runtime.GetVMInput;
  bigInt_SetValue destination (ESDTValue (getFirstESDTTransferIfExist input)).

Definition v1_3_bigIntGetExternalBalance (addressOffset result : Z) : M unit :=
  use_bigInt BigIntAPICost.BigIntGetExternalBalance ;;
  address ←? Runtime.MemLoad addressOffset AddressLen orelse tt;
  balance ← Blockchain.GetBalance address;
  _ ← bigInt_GetOne result;
  bigInt_SetValue result (SetBytes balance).

Definition v1_3_bigIntGetESDTExternalBalance (addressOffset tokenIDOffset tokenIDLen nonce
    result : Z) : M unit :=
  use_bigInt BigIntAPICost.BigIntGetExternalBalance ;;
  esdtData ←? getESDTDataFromBlockchainHook addressOffset tokenIDOffset tokenIDLen nonce
    orelse tt;
  match esdtData with
  | None => mret tt
  | Some esdtData =>
      _ ← bigInt_GetOne result;
      value ← deref (esdt_Value esdtData);
      bigInt_SetValue result value
  end.

(** ** Creation, bytes, machine words *)

Definition v1_3_bigIntNew (smallValue : Z) : M Z :=
  use_bigInt BigIntAPICost.BigIntNew ;;
  bigInt_Put smallValue.

Definition v1_3_bigIntUnsignedByteLength (reference : Z) : M Z :=
  use_bigInt BigIntAPICost.BigIntUnsignedByteLength ;;
  value ← bigInt_GetOne reference;
  mret (s32 (len (Bytes value))).

Definition v1_3_bigIntSignedByteLength (reference : Z) : M Z :=
  use_bigInt BigIntAPICost.BigIntSignedByteLength ;;
  value ← bigInt_GetOne reference;
  mret (s32 (len (twos_ToBytes value))).

Definition v1_3_bigIntGetUnsignedBytes (reference byteOffset : Z) : M Z :=
  use_bigInt BigIntAPICost.BigIntGetUnsignedBytes ;;
  value ← bigInt_GetOne reference;
  let data := Bytes value in
  ?? Runtime.MemStore byteOffset data orelse 0;
  Storage.use_per_byte BaseOperationCost.DataCopyPerByte (len data) ;;
  mret (s32 (len data)).

Definition v1_3_bigIntGetSignedBytes (reference byteOffset : Z) : M Z :=
  use_bigInt BigIntAPICost.BigIntGetSignedBytes ;;
  value ← bigInt_GetOne reference;
  let data := twos_ToBytes value in
  ?? Runtime.MemStore byteOffset data orelse 0;
  Storage.use_per_byte BaseOperationCost.DataCopyPerByte (len data) ;;
  mret (s32 (len data)).

Definition v1_3_bigIntSetUnsignedBytes (destination byteOffset byteLength : Z) : M unit :=
  use_bigInt BigIntAPICost.BigIntSetUnsignedBytes ;;
  data ←? Runtime.MemLoad byteOffset byteLength orelse tt;
  _ ← bigInt_GetOne destination;
  bigInt_SetValue destination (SetBytes data) ;;
  Storage.use_per_byte BaseOperationCost.DataCopyPerByte (len data).

Definition v1_3_bigIntSetSignedBytes (destination byteOffset byteLength : Z) : M unit :=
  use_bigInt BigIntAPICost.BigIntSetSignedBytes ;;
  data ←? Runtime.MemLoad byteOffset byteLength orelse tt;
  _ ← bigInt_GetOne destination;
  bigInt_SetValue destination (twos_SetBytes data) ;;
  Storage.use_per_byte BaseOperationCost.DataCopyPerByte (len data).

Definition v1_3_bigIntIsInt64 (handle : Z) : M Z :=
  use_bigInt BigIntAPICost.BigIntIsInt64 ;;
  value ← bigInt_GetOne handle;
  mret (if IsInt64 value then 1 else 0).

Definition v1_3_bigIntGetInt64 (handle : Z) : M Z :=
  use_bigInt BigIntAPICost.BigIntGetInt64 ;;
  value ← bigInt_GetOne handle;
  mret (Int64 value).

Definition v1_3_bigIntSetInt64 (destination value : Z) : M unit :=
  use_bigInt BigIntAPICost.BigIntSub ;;
  _ ← bigInt_GetOne destination;
  bigInt_SetValue destination value.

(** ** Arithmetic *)

Definition v1_3_bigIntAdd (destination op1 op2 : Z) : M unit :=
  use_bigInt BigIntAPICost.BigIntSub ;;
  '(dest, a, b) ← bigInt_GetThree destination op1 op2;
  useExtraGasForOperations [dest; a; b] ;;
  bigInt_SetValue destination (a + b).

Definition v1_3_bigIntSub (destination op1 op2 : Z) : M unit :=
  use_bigInt BigIntAPICost.BigIntSub ;;
  '(dest, a, b) ← bigInt_GetThree destination op1 op2;
  useExtraGasForOperations [dest; a; b] ;;
  bigInt_SetValue destination (a - b).

Definition v1_3_bigIntMul (destination op1 op2 : Z) : M unit :=
  use_bigInt BigIntAPICost.BigIntMul ;;
  '(dest, a, b) ← bigInt_GetThree destination op1 op2;
  useExtraGasForOperations [dest; a; b] ;;
  bigInt_SetValue destination (a * b).

(** [vmhost.WithFault(err, ...); return] *)
Definition fault (err : error) : M unit :=
  _ ← RuntimeExec.WithFaultAndHost (Some err) Runtime.BigIntAPIErrorShouldFailExecution;
  mret tt.

Definition v1_3_bigIntTDiv (destination op1 op2 : Z) : M unit :=
  use_bigInt BigIntAPICost.BigIntTDiv ;;
  '(dest, a, b) ← bigInt_GetThree destination op1 op2;
  useExtraGasForOperations [dest; a; b] ;;
  if Sign b =? 0 then fault ErrDivZero else bigInt_SetValue destination (Quo a b).

Definition v1_3_bigIntTMod (destination op1 op2 : Z) : M unit :=
  use_bigInt BigIntAPICost.BigIntSub ;;
  '(dest, a, b) ← bigInt_GetThree destination op1 op2;
  useExtraGasForOperations [dest; a; b] ;;
  if Sign b =? 0 then fault ErrDivZero else bigInt_SetValue destination (Rem a b).

Definition v1_3_bigIntEDiv (destination op1 op2 : Z) : M unit :=
  use_bigInt BigIntAPICost.BigIntSub ;;
  '(dest, a, b) ← bigInt_GetThree destination op1 op2;
  useExtraGasForOperations [dest; a; b] ;;
  if Sign b =? 0 then fault ErrDivZero else bigInt_SetValue destination (Div a b).

Definition v1_3_bigIntEMod (destination op1 op2 : Z) : M unit :=
  use_bigInt BigIntAPICost.BigIntSub ;;
  '(dest, a, b) ← bigInt_GetThree destination op1 op2;
  useExtraGasForOperations [dest; a; b] ;;
  if Sign b =? 0 then fault ErrDivZero else bigInt_SetValue destination (Mod a b).

Definition v1_3_bigIntAbs (destination op : Z) : M unit :=
  use_bigInt BigIntAPICost.BigIntSub ;;
  '(dest, a) ← bigInt_GetTwo destination op;
  useExtraGasForOperations [dest; a] ;;
  bigInt_SetValue destination (Z.abs a).

Definition v1_3_bigIntNeg (destination op : Z) : M unit :=
  use_bigInt BigIntAPICost.BigIntSub ;;
  '(dest, a) ← bigInt_GetTwo destination op;
  useExtraGasForOperations [dest; a] ;;
  bigInt_SetValue destination (- a).

Definition v1_3_bigIntSign (op : Z) : M Z :=
  use_bigInt BigIntAPICost.BigIntSign ;;
  a ← bigInt_GetOne op;
  useExtraGasForOperations [a] ;;
  mret (Sign a).

Definition v1_3_bigIntCmp (op1 op2 : Z) : M Z :=
  use_bigInt BigIntAPICost.BigIntCmp ;;
  '(a, b) ← bigInt_GetTwo op1 op2;
  useExtraGasForOperations [a; b] ;;
  mret (Cmp a b).

(** ** Bits *)

Definition v1_3_bigIntNot (destination op : Z) : M unit :=
  use_bigInt BigIntAPICost.BigIntSub ;;
  '(dest, a) ← bigInt_GetTwo destination op;
  useExtraGasForOperations [dest; a] ;;
  if Sign a <? 0 then fault ErrBitwiseNegative else bigInt_SetValue destination (Z.lnot a).

Definition v1_3_bigIntAnd (destination op1 op2 : Z) : M unit :=
  use_bigInt BigIntAPICost.BigIntSub ;;
  '(dest, a, b) ← bigInt_GetThree destination op1 op2;
  useExtraGasForOperations [a; b] ;;
  if (Sign a <? 0) || (Sign b <? 0) then fault ErrBitwiseNegative
  else bigInt_SetValue destination (Z.land a b).

Definition v1_3_bigIntOr (destination op1 op2 : Z) : M unit :=
  use_bigInt BigIntAPICost.BigIntSub ;;
  '(dest, a, b) ← bigInt_GetThree destination op1 op2;
  useExtraGasForOperations [a; b] ;;
  if (Sign a <? 0) || (Sign b <? 0) then fault ErrBitwiseNegative
  else bigInt_SetValue destination (Z.lor a b).

Definition v1_3_bigIntXor (destination op1 op2 : Z) : M unit :=
  use_bigInt BigIntAPICost.BigIntSub ;;
  '(dest, a, b) ← bigInt_GetThree destination op1 op2;
  useExtraGasForOperations [a; b] ;;
  if (Sign a <? 0) || (Sign b <? 0) then fault ErrBitwiseNegative
  else bigInt_SetValue destination (Z.lxor a b).

Definition v1_3_bigIntShr (destination op bits : Z) : M unit :=
  use_bigInt BigIntAPICost.BigIntSub ;;
  '(dest, a) ← bigInt_GetTwo destination op;
  useExtraGasForOperations [a] ;;
  if (Sign a <? 0) || (bits <? 0) then fault ErrShiftNegative
  else
    bigInt_SetValue destination (Z.shiftr a bits) ;;
    useExtraGasForOperations [Z.shiftr a bits].

(** The shifted number is paid for after it was computed. *)
Definition v1_3_bigIntShl (destination op bits : Z) : M unit :=
  use_bigInt BigIntAPICost.BigIntSub ;;
  '(dest, a) ← bigInt_GetTwo destination op;
  useExtraGasForOperations [a] ;;
  if (Sign a <? 0) || (bits <? 0) then fault ErrShiftNegative
  else
    bigInt_SetValue destination (Z.shiftl a bits) ;;
    useExtraGasForOperations [Z.shiftl a bits].

(** ** Results *)

Definition v1_3_bigIntFinishUnsigned (reference : Z) : M unit :=
  use_bigInt BigIntAPICost.BigIntFinishUnsigned ;;
  value ← bigInt_GetOne reference;
  modify_output (Output.Finish (Bytes value)) ;;
  Storage.use_per_byte BaseOperationCost.PersistPerByte (len (Bytes value)).

Definition v1_3_bigIntFinishSigned (reference : Z) : M unit :=
  use_bigInt BigIntAPICost.BigIntFinishSigned ;;
  value ← bigInt_GetOne reference;
  let bigInt2cBytes := twos_ToBytes value in
  modify_output (Output.Finish bigInt2cBytes) ;;
  Storage.use_per_byte BaseOperationCost.PersistPerByte (len bigInt2cBytes).

End BigIntOps.
