(* ===== verification/SmallIntOps.v ===== *)
(** The functions exported to WebAssembly on 64-bit integers,
    [src/vmhost/vmhooks/smallIntOps.go].  WebAssembly has one 64-bit type: an
    unsigned value travels as the [int64] with the same bits. *)
From S2P Require Import Prelude Errors Overflow Helpers Types State Logic Toy BigInt Runtime.
From S2P Require Import Output Metering Blockchain Transfers Storage RuntimeExec Builtin Memory.
From S2P Require Import VMHooks BaseOps BigIntOps.

Import BaseOpsGuard.
#[local] Open Scope Z_scope.
#[local] Open Scope hook_scope.

Section SmallIntOps.
Context `{Ext : Externals}.

(** [vmhost.WithFault(err, ...); return 0] *)
Definition fault0 (err : error) : M Z :=
  _ ← RuntimeExec.WithFaultAndHost (Some err) Runtime.BaseOpsErrorShouldFailExecution;
  mret 0.

Definition v1_3_smallIntGetUnsignedArgument (id : Z) : M Z :=
  use_base BaseOpsAPICost.Int64GetArgument ;;
  args ← Runtime.Arguments;
  if (id <? 0) || (s32 (len args) <=? id) then fault0 ErrArgIndexOutOfRange
  else
    arg ← deref (args !! Z.to_nat id);
    let argBigInt := SetBytes arg in
    if negb (IsUint64 argBigInt) then fault0 ErrArgOutOfRange
    else mret (s64 (Uint64 argBigInt)).

Definition v1_3_smallIntGetSignedArgument (id : Z) : M Z :=
  use_base BaseOpsAPICost.Int64GetArgument ;;
  args ← Runtime.Arguments;
  if (id <? 0) || (s32 (len args) <=? id) then fault0 ErrArgIndexOutOfRange
  else
    arg ← deref (args !! Z.to_nat id);
    let argBigInt := twos_SetBytes arg in
    if negb (IsInt64 argBigInt) then fault0 ErrArgOutOfRange
    else mret (Int64 argBigInt).

Definition v1_3_smallIntFinishUnsigned (value : Z) : M unit :=
  use_base BaseOpsAPICost.Int64Finish ;;
  modify_output (Output.Finish (Bytes (u64 value))).

Definition v1_3_smallIntFinishSigned (value : Z) : M unit :=
  use_base BaseOpsAPICost.Int64Finish ;;
  modify_output (Output.Finish (twos_ToBytes value)).

Definition v1_3_smallIntStorageStoreUnsigned (keyOffset keyLength value : Z) : M Z :=
  use_base BaseOpsAPICost.Int64StorageStore ;;
  key ←? Runtime.MemLoad keyOffset keyLength orelse (-1);
  storageStatus ←? Storage.SetStorage key (Bytes (u64 value)) orelse (-1);
  mret (StorageStatus_to_Z storageStatus).

Definition v1_3_smallIntStorageStoreSigned (keyOffset keyLength value : Z) : M Z :=
  use_base BaseOpsAPICost.Int64StorageStore ;;
  key ←? Runtime.MemLoad keyOffset keyLength orelse (-1);
  storageStatus ←? Storage.SetStorage key (twos_ToBytes value) orelse (-1);
  mret (StorageStatus_to_Z storageStatus).

Definition v1_3_smallIntStorageLoadUnsigned (keyOffset keyLength : Z) : M Z :=
  use_base BaseOpsAPICost.Int64StorageLoad ;;
  key ←? Runtime.MemLoad keyOffset keyLength orelse 0;
  data ← Storage.GetStorage key;
  let valueBigInt := SetBytes data in
  if negb (IsUint64 valueBigInt) then fault0 ErrStorageValueOutOfRange
  else mret (s64 (Uint64 valueBigInt)).

Definition v1_3_smallIntStorageLoadSigned (keyOffset keyLength : Z) : M Z :=
  use_base BaseOpsAPICost.Int64StorageLoad ;;
  key ←? Runtime.MemLoad keyOffset keyLength orelse 0;
  data ← Storage.GetStorage key;
  let valueBigInt := twos_SetBytes data in
  if negb (IsInt64 valueBigInt) then fault0 ErrStorageValueOutOfRange
  else mret (Int64 valueBigInt).

(** *** Backwards compatibility *)

Definition v1_3_int64getArgument (id : Z) : M Z := v1_3_smallIntGetSignedArgument id.
Definition v1_3_int64finish (value : Z) : M unit := v1_3_smallIntFinishSigned value.
Definition v1_3_int64storageStore (keyOffset keyLength value : Z) : M Z :=
  v1_3_smallIntStorageStoreUnsigned keyOffset keyLength value.
Definition v1_3_int64storageLoad (keyOffset keyLength : Z) : M Z :=
  v1_3_smallIntStorageLoadUnsigned keyOffset keyLength.

End SmallIntOps.
