(* ===== verification/CryptoEI.v ===== *)
(** The cryptographic functions exported to WebAssembly,
    [src/vmhost/cryptoapi/cryptoei.go], over the hashes and the signature checks of
    the crypto hook ([Externals]); and that hook as the node makes it, the hashers and
    signers of [src/crypto] over the libraries they call. *)
From S2P Require Import Prelude Errors Overflow Helpers Types State Logic Toy BigInt Runtime.
From S2P Require Import Output Metering Blockchain Transfers Storage RuntimeExec Builtin Memory.
From S2P Require Import VMHooks BaseOps.

Import CryptoGuard.
#[local] Open Scope Z_scope.
#[local] Open Scope hook_scope.

(** ** The hook ([src/crypto]) *)

Module crypto.

(** The libraries: hashes are written to and summed; the check of an Ed25519 signature
    panics on a key of another length than [PublicKeySize]. *)
Class CryptoLib := {
  sha256_Write : bytes -> option error;
  sha256_Sum : bytes -> bytes;
  keccak_Write : bytes -> option error;
  keccak_Sum : bytes -> bytes;
  ripemd160_Write : bytes -> option error;
  ripemd160_Sum : bytes -> bytes;
  blsKey : Type;
  keyGenerator_PublicKeyFromByteArray : bytes -> error + blsKey;
  blsSigner_Verify : blsKey -> bytes -> bytes -> option error;
  libed25519_PublicKeySize : Z;
  libed25519_Verify : bytes -> bytes -> bytes -> outcome bool;
  btcecKey : Type;
  btcec_ParsePubKey : bytes -> error + btcecKey;
  ecdsaSignature : Type;
  ecdsa_ParseSignature : bytes -> error + ecdsaSignature;
  signature_Verify : ecdsaSignature -> bytes -> btcecKey -> bool;
  chainhash_DoubleHashB : bytes -> bytes;
}.

Section Hook.
Context `{Lib : CryptoLib}.

Definition hashed (written : option error) (sum : bytes) : bytes * option error :=
  match written with Some err => ([], Some err) | None => (sum, None) end.

Definition Sha256 (data : bytes) : bytes * option error := hashed (sha256_Write data) (sha256_Sum data).
Definition Keccak256 (data : bytes) : bytes * option error := hashed (keccak_Write data) (keccak_Sum data).
Definition Ripemd160 (data : bytes) : bytes * option error := hashed (ripemd160_Write data) (ripemd160_Sum data).

Definition ErrInvalidPublicKey : error := ErrNew (bs "public key is invalid").
Definition ErrInvalidSignature : error := ErrNew (bs "invalid signature").

Definition VerifyBLS (key msg sig : bytes) : option error :=
  match keyGenerator_PublicKeyFromByteArray key with
  | inl err => Some err
  | inr publicKey => blsSigner_Verify publicKey msg sig
  end.

Definition VerifyEd25519 (key msg sig : bytes) : outcome (option error) :=
  if negb (len key =? libed25519_PublicKeySize) then Ret (Some ErrInvalidPublicKey)
  else
    match libed25519_Verify key msg sig with
    | Ret isValidSig => Ret (if isValidSig : bool then None else Some ErrInvalidSignature)
    | Panic => Panic
    | OutOfFuel => OutOfFuel
    end.

Definition VerifySecp256k1 (key msg sig : bytes) : option error :=
  match btcec_ParsePubKey key with
  | inl err => Some err
  | inr pubKey =>
      match ecdsa_ParseSignature sig with
      | inl err => Some err
      | inr signature =>
          if signature_Verify signature (chainhash_DoubleHashB msg) pubKey then None
          else Some ErrInvalidSignature
      end
  end.

(** The library only sees keys it does not panic on. *)
Lemma VerifyEd25519_returns key msg sig :
  (forall key msg sig, len key = libed25519_PublicKeySize -> exists b, libed25519_Verify key msg sig = Ret b) ->
  exists r, VerifyEd25519 key msg sig = Ret r /\
    (r = None <-> len key = libed25519_PublicKeySize /\ libed25519_Verify key msg sig = Ret true).
Proof.
  intros Hlib. unfold VerifyEd25519. destruct (len key =? libed25519_PublicKeySize) eqn:E; cbn [negb].
  - apply Z.eqb_eq in E. destruct (Hlib key msg sig E) as [[] ->]; eexists; (split; [done|]); split; try done.
    by intros [_ [=]].
  - apply Z.eqb_neq in E. eexists. split; [done|]. split; [done|]. by intros [? _].
Qed.

End Hook.
End crypto.

(** ** The exported functions *)

Definition blsPublicKeyLength : Z := 96.
Definition blsSignatureLength : Z := 48.
Definition ed25519PublicKeyLength : Z := 32.
Definition ed25519SignatureLength : Z := 64.
Definition secp256k1CompressedPublicKeyLength : Z := 33.
Definition secp256k1UncompressedPublicKeyLength : Z := 65.
Definition sigHeaderLength : Z := 2.

Section CryptoEI.
Context `{Ext : Externals}.

Definition use_crypto (price : CryptoAPICost.t -> Z) : M unit :=
  gasToUse ← crypto_price price; Metering.UseGas gasToUse.

Definition use_crypto_and_bytes (price : CryptoAPICost.t -> Z) (length : Z) : M unit :=
  memLoadGas ← Storage.per_byte BaseOperationCost.DataCopyPerByte length;
  gasToUse ← crypto_price price;
  Metering.UseGas (AddUint64 gasToUse memLoadGas).

Definition v1_3_sha256 (dataOffset length resultOffset : Z) : M Z :=
  use_crypto_and_bytes CryptoAPICost.SHA256 length ;;
  data ←? Runtime.MemLoad dataOffset length orelse 1;
  match crypto_Sha256 data with
  | (_, Some _) => mret 1
  | (result, None) =>
      ?? Runtime.MemStore resultOffset result orelse 1;
      mret 0
  end.

Definition v1_3_keccak256 (dataOffset length resultOffset : Z) : M Z :=
  use_crypto_and_bytes CryptoAPICost.Keccak256 length ;;
  data ←? Runtime.MemLoad dataOffset length orelse 1;
  match crypto_Keccak256 data with
  | (_, Some _) => mret 1
  | (result, None) =>
      ?? Runtime.MemStore resultOffset result orelse 1;
      mret 0
  end.

Definition v1_3_ripemd160 (dataOffset length resultOffset : Z) : M Z :=
  use_crypto_and_bytes CryptoAPICost.Ripemd160 length ;;
  data ←? Runtime.MemLoad dataOffset length orelse 1;
  match crypto_Ripemd160 data with
  | (_, Some _) => mret 1
  | (result, None) =>
      ?? Runtime.MemStore resultOffset result orelse 1;
      mret 0
  end.

Definition v1_3_verifyBLS (keyOffset messageOffset messageLength sigOffset : Z) : M Z :=
  use_crypto CryptoAPICost.VerifyBLS ;;
  key ←? Runtime.MemLoad keyOffset blsPublicKeyLength orelse 1;
  Storage.use_per_byte BaseOperationCost.DataCopyPerByte messageLength ;;
  message ←? Runtime.MemLoad messageOffset messageLength orelse 1;
  sig ←? Runtime.MemLoad sigOffset blsSignatureLength orelse 1;
  mret (match crypto_VerifyBLS key message sig with Some _ => -1 | None => 0 end).

Definition v1_3_verifyEd25519 (keyOffset messageOffset messageLength sigOffset : Z) : M Z :=
  use_crypto CryptoAPICost.VerifyEd25519 ;;
  key ←? Runtime.MemLoad keyOffset ed25519PublicKeyLength orelse 1;
  Storage.use_per_byte BaseOperationCost.DataCopyPerByte messageLength ;;
  message ←? Runtime.MemLoad messageOffset messageLength orelse 1;
  sig ←? Runtime.MemLoad sigOffset ed25519SignatureLength orelse 1;
  mret (match crypto_VerifyEd25519 key message sig with Some _ => -1 | None => 0 end).

(** The second byte of a DER signature is the length of what follows it. *)
Definition v1_3_verifySecp256k1 (keyOffset keyLength messageOffset messageLength sigOffset : Z) :
    M Z :=
  use_crypto CryptoAPICost.VerifySecp256k1 ;;
  if negb (keyLength =? secp256k1CompressedPublicKeyLength) &&
     negb (keyLength =? secp256k1UncompressedPublicKeyLength) then
    _ ← RuntimeExec.WithFaultAndHost (Some (ErrInvalidPublicKeySize : error))
          Runtime.BaseOpsErrorShouldFailExecution;
    mret 1
  else
    key ←? Runtime.MemLoad keyOffset keyLength orelse 1;
    Storage.use_per_byte BaseOperationCost.DataCopyPerByte messageLength ;;
    message ←? Runtime.MemLoad messageOffset messageLength orelse 1;
    sigHeader ←? Runtime.MemLoad sigOffset sigHeaderLength orelse 1;
    lengthByte ← deref (sigHeader !! 1%nat);
    let sigLength := s32 (Z_of_byte lengthByte + sigHeaderLength) in
    sig ←? Runtime.MemLoad sigOffset sigLength orelse 1;
    mret (match crypto_VerifySecp256k1 key message sig with Some _ => -1 | None => 0 end).

End CryptoEI.
