(* ===== verification/Execution.v ===== *)
(** Execution of contracts: [src/vmhost/hostCore/execution.go] and the entry
    points of [src/vmhost/hostCore/host.go].

    A call of an exported function runs WebAssembly code, which is outside the
    repository: it is the parameter [wasm].  The code acts on the host through
    the operations of the contexts and, to execute other contracts, through
    [HostAPI], which the host implements in terms of itself: [host_api] ties
    the knot with fuel, one unit per level of nesting. *)
From S2P Require Import Prelude Errors Overflow Helpers Types State Logic Toy BigInt Runtime.
From S2P Require Import Output Metering Blockchain Transfers Storage Validator RuntimeExec.
From S2P Require Import Builtin AsyncCall.

#[local] Open Scope Z_scope.

Section Execution.
Context `{Ext : Externals}.

(** [wasm api f] is the run of the exported function [f] of the running
    instance; it returns the error wasmer reports. *)
Context (wasm : HostAPI -> bytes -> M (option error)).

Section Level.
Context (api : HostAPI).

(** ** Calling functions of the instance *)

Definition callInitFunction : M (option error) :=
  init ← Runtime.GetInitFunction;
  match init with
  | None => mret None
  | Some init =>
      err ← wasm api init;
      err ← (match err with
             | Some e => handleBreakpointIfAny api (Some e)
             | None => mret None
             end);
      match err with
      | Some e => mret (Some e)
      | None => checkFinalGasAfterExit
      end
  end.

Definition callSCMethodIndirect : M (option error) :=
  r ← Runtime.GetFunctionToCall;
  match r with
  | (_, Some err) =>
      mret (if errors_Is err ErrNilCallbackFunction then None else Some err)
  | (function, None) =>
      err ← wasm api function;
      match err with
      | Some e => handleBreakpointIfAny api (Some e)
      | None => mret None
      end
  end.

Definition callSCMethod : M (option error) :=
  err ← verifyAllowedFunctionCall;
  match err with
  | Some e => mret (Some e)
  | None =>
      input ← Runtime.GetVMInput;
      let callType := VMInput_CallType input in
      r ← getFunctionByCallType callType;
      match r with
      | (_, Some err) =>
          if bool_decide (callType = AsynchronousCallBack) && errors_Is err ErrNilCallbackFunction
          then processCallbackStack api
          else mret (Some err)
      | (function, None) =>
          function ← deref function;
          err ← wasm api function;
          err ← (match err with
                 | Some e => handleBreakpointIfAny api (Some e)
                 | None => mret None
                 end);
          err ← (match err with
                 | Some e => mret (Some e)
                 | None => checkFinalGasAfterExit
                 end);
          match err with
          | Some e => mret (Some e)
          | None =>
              match callType with
              | AsynchronousCall =>
                  loc ← Runtime.GetAsyncContextInfo;
                  r ← processAsyncInfo api loc;
                  match r with
                  | (_, Some e) => mret (Some e)
                  | (pendingMap, None) =>
                      pendingMap ← deref pendingMap;
                      if bool_decide (AsyncContextMap pendingMap = ∅) then sendCallbackToCurrentCaller
                      else mret None
                  end
              | AsynchronousCallBack => processCallbackStack api
              | _ =>
                  loc ← Runtime.GetAsyncContextInfo;
                  r ← processAsyncInfo api loc; mret (snd r)
              end
          end
      end
  end.

(** ** Deployment *)

Definition performCodeDeployment (input : CodeDeployInput) : M (option VMOutput * option error) :=
  err ← Metering.DeductInitialGasForDirectDeployment input;
  match err with
  | Some e => modify_output (Output.SetReturnCode OutOfGas) ;; mret (None, Some e)
  | None =>
      Runtime.MustVerifyNextContractCode ;;
      gas ← Metering.GetGasForExecution;
      err ← RuntimeExec.StartWasmerInstance (cdi_ContractCode input) gas true;
      match err with
      | Some _ => mret (None, Some (ErrContractInvalid : error))
      | None =>
          err ← callInitFunction;
          match err with
          | Some e => mret (None, Some e)
          | None =>
              modify_output (Output.DeployCode input) ;;
              vmOutput ← GetVMOutput;
              Runtime.CleanWasmerInstance ;;
              mret (Some vmOutput, None)
          end
      end
  end.

(** ** Indirect execution *)

Definition executeUpgrade (input : ContractCallInput) : M (option error) :=
  err ← checkUpgradePermission input;
  match err with
  | Some e => mret (Some e)
  | None =>
      r ← Runtime.ExtractCodeUpgradeFromArgs;
      match r with
      | (_, _, Some _) => mret (Some (ErrInvalidUpgradeArguments : error))
      | (code, codeMetadata, None) =>
          let codeDeployInput :=
            mkCodeDeployInput code codeMetadata (RecipientAddr input)
              (CallerAddr (call_VMInput input)) in
          err ← Metering.DeductInitialGasForDirectDeployment codeDeployInput;
          match err with
          | Some e => modify_output (Output.SetReturnCode OutOfGas) ;; mret (Some e)
          | None =>
              Runtime.MustVerifyNextContractCode ;;
              gas ← Metering.GetGasForExecution;
              err ← RuntimeExec.StartWasmerInstance code gas true;
              match err with
              | Some _ => mret (Some (ErrContractInvalid : error))
              | None =>
                  err ← callInitFunction;
                  match err with
                  | Some e => mret (Some e)
                  | None =>
                      modify_output (Output.DeployCode codeDeployInput) ;;
                      returnCode ← gets (fun st => out_ReturnCode (outputOf st));
                      mret (if bool_decide (returnCode = Ok) then None
                            else Some (ErrReturnCodeNotOk : error))
                  end
              end
          end
      end
  end.

Definition execute (input : ContractCallInput) : M (option error) :=
  isInit ← isInitFunctionBeingCalled;
  if (isInit : bool) && negb (AllowInitFunction input) then
    mret (Some (ErrInitFuncCalledInRun : error))
  else
    Metering.UseGas (GasProvided (call_VMInput input)) ;;
    if bytes_eqb (Function_ input) UpgradeFunctionName then executeUpgrade input
    else
      r ← RuntimeExec.GetSCCode;
      match r with
      | (_, Some e) => mret (Some e)
      | (contract, None) =>
          err ← Metering.DeductInitialGasForExecution contract;
          match err with
          | Some e => mret (Some e)
          | None =>
              gas ← Metering.GetGasForExecution;
              err ← RuntimeExec.StartWasmerInstance contract gas false;
              match err with
              | Some e => mret (Some e)
              | None =>
                  err ← callSCMethodIndirect;
                  match err with
                  | Some e => mret (Some e)
                  | None =>
                      returnCode ← gets (fun st => out_ReturnCode (outputOf st));
                      mret (if bool_decide (returnCode = Ok) then None
                            else Some (ErrReturnCodeNotOk : error))
                  end
              end
          end
      end.

(** *** On the destination's context *)

Definition finishExecuteOnDestContext (executeErr : option error) : M VMOutput :=
  vmOutput ← (match executeErr with
              | Some e => CreateVMOutputInCaseOfError e
              | None => GetVMOutput
              end);
  _ ← Metering.GasSpentByContract;
  modify_bigInt BigInt.PopSetActiveState ;;
  modify_storage Storage.PopSetActiveState ;;
  (if bool_decide (out_ReturnCode vmOutput = Ok) then
     Metering.PopMergeActiveState ;; modify_output Output.PopMergeActiveState
   else
     Metering.PopSetActiveState ;; modify_output Output.PopSetActiveState) ;;
  Runtime.PopSetActiveState ;;
  Metering.RestoreGas (GasRemaining vmOutput) ;;
  mret vmOutput.

(** The contexts pushed and set up for the callee: the input as the metering
    context leaves it. *)
Definition enterDestContext (input : ContractCallInput) : M ContractCallInput :=
  modify_bigInt BigInt.PushState ;;
  modify_bigInt BigInt.InitState ;;
  modify_output Output.PushState ;;
  modify_output Output.CensorVMOutput ;;
  input ← copyTxHashesFromContext IsESDTFunctionsEnabled input;
  Runtime.PushState ;;
  Runtime.InitStateFromContractCallInput input ;;
  Metering.PushState ;;
  vmInput ← Metering.InitStateFromContractCallInput (call_VMInput input);
  modify_storage Storage.PushState ;;
  address ← Runtime.GetSCAddress;
  Storage.SetAddress address ;;
  mret (set_call_VMInput vmInput input).

(** The body between the push and the deferred call; the pointer it returns is
    nil until the contract has run. *)
Definition runOnDestContext (input : ContractCallInput) : M (option nat * option error) :=
  let v := call_VMInput input in
  err ← (if negb (bool_decide (VMInput_CallType v = AsynchronousCallBack)) || (CallValue v =? 0)
         then TransferValueOnly (RecipientAddr input) (CallerAddr v) (CallValue v) false
         else mret None);
  match err with
  | Some e => mret (None, Some e)
  | None =>
      err ← execute input;
      match err with
      | Some e => mret (None, Some e)
      | None =>
          loc ← Runtime.GetAsyncContextInfo;
          r ← processAsyncInfo api loc;
          mret (Some loc, snd r)
      end
  end.

Definition executeOnDestContextNoBuiltinFunction (input : ContractCallInput) :
    M (VMOutput * option nat * option error) :=
  input ← enterDestContext input;
  with_defer (runOnDestContext input) (fun r =>
    let '(asyncInfo, err) := default (None, None) r in
    vmOutput ← finishExecuteOnDestContext err;
    mret (vmOutput, asyncInfo,
          if bool_decide (err = None) && negb (bool_decide (out_ReturnCode vmOutput = Ok))
          then Some (ErrExecutionFailed : error) else err)).

Definition ExecuteOnDestContext (input : ContractCallInput) :
    M (VMOutput * option nat * option error) :=
  Blockchain.PushState ;;
  r ← (if IsBuiltinFunctionName (Function_ input) then handleBuiltinFunctionCall input
       else mret (Some input, None, None));
  match r with
  | (_, _, Some err) =>
      Blockchain.PopSetActiveState ;;
      Runtime.AddError (Some err) [Function_ input] ;;
      vmOutput ← CreateVMOutputInCaseOfError err;
      mret (vmOutput, None, Some err)
  | (scExecutionInput, builtinOutput, None) =>
      r ← (match scExecutionInput with
           | Some input => executeOnDestContextNoBuiltinFunction input
           | None => vmOutput ← deref builtinOutput; mret (vmOutput, None, None)
           end);
      let '(vmOutput, asyncInfo, err) := r in
      match err with
      | Some _ => Blockchain.PopSetActiveState
      | None => Blockchain.PopDiscard
      end ;;
      mret (vmOutput, asyncInfo, err)
  end.

(** *** On the same context *)

Definition finishExecuteOnSameContext (executeErr : option error) : M unit :=
  returnCode ← gets (fun st => out_ReturnCode (outputOf st));
  if negb (bool_decide (returnCode = Ok)) || negb (bool_decide (executeErr = None)) then
    modify_bigInt BigInt.PopSetActiveState ;;
    Metering.PopSetActiveState ;;
    modify_output Output.PopSetActiveState ;;
    Runtime.PopSetActiveState ;;
    Blockchain.PopSetActiveState
  else
    vmOutput ← GetVMOutput;
    Metering.PopMergeActiveState ;;
    modify_output Output.PopDiscard ;;
    modify_bigInt BigInt.PopDiscard ;;
    Blockchain.PopDiscard ;;
    Runtime.PopSetActiveState ;;
    Metering.RestoreGas (GasRemaining vmOutput).

Definition runOnSameContext (input : ContractCallInput) : M (option nat * option error) :=
  let v := call_VMInput input in
  err ← TransferValueOnly (RecipientAddr input) (CallerAddr v) (CallValue v) false;
  match err with
  | Some e => mret (None, Some e)
  | None =>
      err ← execute input;
      match err with
      | Some e => mret (None, Some e)
      | None => loc ← Runtime.GetAsyncContextInfo; mret (Some loc, None)
      end
  end.

Definition ExecuteOnSameContext (input : ContractCallInput) : M (option nat * option error) :=
  if IsBuiltinFunctionName (Function_ input) then
    mret (None, Some (ErrBuiltinCallOnSameContextDisallowed : error))
  else
    modify_bigInt BigInt.PushState ;;
    modify_output Output.PushState ;;
    input ← copyTxHashesFromContext IsESDTFunctionsEnabled input;
    Runtime.PushState ;;
    Runtime.InitStateFromContractCallInput input ;;
    Metering.PushState ;;
    vmInput ← Metering.InitStateFromContractCallInput (call_VMInput input);
    let input := set_call_VMInput vmInput input in
    Blockchain.PushState ;;
    with_defer (runOnSameContext input) (fun r =>
      let '(asyncInfo, err) := default (None, None) r in
      Runtime.AddError err [Function_ input] ;;
      finishExecuteOnSameContext err ;;
      mret (asyncInfo, err)).

(** *** Creating contracts *)

(** The deferred [DeleteOutputAccount] runs when [ExecuteOnDestContext] fails;
    a panic there leaves [err] nil. *)
Definition CreateNewContract (executeOnDest : ContractCallInput ->
      M (VMOutput * option nat * option error)) (input : ContractCreateInput) :
    M (bytes * option error) :=
  let v := create_VMInput input in
  let codeDeployInput address :=
    mkCodeDeployInput (ContractCode input) (ContractCodeMetadata input) address
      (CallerAddr v) in
  err ← Metering.DeductInitialGasForIndirectDeployment (codeDeployInput []);
  match err with
  | Some e => mret ([], Some e)
  | None =>
      readOnly ← Runtime.ReadOnly;
      if (readOnly : bool) then mret ([], Some (ErrInvalidCallOnReadOnlyMode : error))
      else
        r ← Blockchain.NewAddress (CallerAddr v);
        match r with
        | (_, Some e) => mret ([], Some e)
        | (newContractAddress, None) =>
            exists_ ← Blockchain.AccountExists newContractAddress;
            if (exists_ : bool) then mret ([], Some (ErrDeploymentOverExistingAccount : error))
            else
              modify_output (Output.DeployCode (codeDeployInput newContractAddress)) ;;
              Runtime.MustVerifyNextContractCode ;;
              r ← executeOnDest
                    (mkContractCallInput v newContractAddress InitFunctionName true);
              let '(_, _, err) := r in
              match err with
              | Some e =>
                  modify_output (Output.DeleteOutputAccount newContractAddress) ;;
                  mret ([], Some e)
              | None =>
                  Blockchain.IncreaseNonce (CallerAddr v) ;;
                  mret (newContractAddress, None)
              end
        end
  end.

End Level.

(** ** The knot *)

Definition no_api : HostAPI :=
  mkHostAPI Ext (fun _ => out_of_fuel) (fun _ => out_of_fuel) (fun _ => out_of_fuel).

Fixpoint host_api (fuel : nat) : HostAPI :=
  match fuel with
  | O => no_api
  | S fuel =>
      mkHostAPI Ext
        (ExecuteOnDestContext (host_api fuel))
        (ExecuteOnSameContext (host_api fuel))
        (CreateNewContract (ExecuteOnDestContext (host_api fuel)))
  end.

End Execution.
