(* ===== verification/Host.v ===== *)
(** The entry points of the host: [src/vmhost/hostCore/host.go] and the
    [doRun] operations of [src/vmhost/hostCore/execution.go].

    Each entry point resets the contexts, runs the contract with whatever fuel
    [api] carries, cleans the instance in a deferred call and turns a panic
    into an error.  [recovered] is the value [recover] yields there, as an
    error: the panics of the Go runtime are not modelled further. *)
From S2P Require Import Prelude Errors Overflow Helpers Types State Logic Toy BigInt Runtime.
From S2P Require Import Output Metering Blockchain Transfers Storage Validator RuntimeExec.
From S2P Require Import Builtin AsyncCall Execution.

#[local] Open Scope Z_scope.

Section Host.
Context `{Ext : Externals} (wasm : HostAPI -> bytes -> M (option error)).
Context (recovered : HostState -> error).

(** ** Resetting and cleaning *)

(** The stack of the blockchain context is not cleared. *)
Definition ClearContextStateStack : M unit :=
  modify_bigInt BigInt.ClearStateStack ;;
  modify_output Output.ClearStateStack ;;
  Metering.ClearStateStack ;;
  Runtime.ClearStateStack ;;
  modify_storage Storage.ClearStateStack.

(** [InitState]; the one of the storage context does nothing. *)
Definition initContexts : M unit :=
  ClearContextStateStack ;;
  modify_bigInt BigInt.InitState ;;
  modify_output Output.InitState ;;
  Metering.InitState ;;
  Runtime.InitState.

Definition Clean : M unit :=
  warm ← Runtime.IsWarmInstance;
  if (warm : bool) then mret tt else Runtime.CleanWasmerInstance.

(** The argument is what [CreateGasConfig] makes of the new schedule. *)
Definition GasScheduleChange (parsed : option GasCost) : M unit :=
  match parsed with
  | None => mret tt
  | Some _ => Metering.SetGasSchedule parsed
  end.

(** [defer host.Clean()] *)
Definition with_clean (body : M VMOutput) : M VMOutput :=
  with_defer body (fun r => Clean ;; deref r).

Definition TryCatch {A} (try : M A) : M (option A * option error) := fun st =>
  match try st with
  | (st', Ret a) => (st', Ret (Some a, None))
  | (st', Panic) => (st', Ret (None, Some (recovered st')))
  | (st', OutOfFuel) => (st', OutOfFuel)
  end.

(** ** Running contracts *)

Section Level.
Context (api : HostAPI).

(** The output of a deployment, an error turned into one. *)
Definition deployment_output (input : CodeDeployInput) : M VMOutput :=
  r ← performCodeDeployment wasm api input;
  match r with
  | (_, Some e) => CreateVMOutputInCaseOfError e
  | (vmOutput, None) => deref vmOutput
  end.

Definition doRunSmartContractCreate (input : ContractCreateInput) : M VMOutput :=
  initContexts ;;
  with_clean (
    let v := create_VMInput input in
    r ← Blockchain.NewAddress (CallerAddr v);
    match r with
    | (_, Some e) => CreateVMOutputInCaseOfError e
    | (address, None) =>
        Runtime.SetVMInput v ;;
        Runtime.SetSCAddress address ;;
        _ ← Metering.InitStateFromContractCallInput v;
        AddTxValueToAccount address (CallValue v) ;;
        current ← Runtime.GetSCAddress;
        Storage.SetAddress current ;;
        deployment_output (mkCodeDeployInput (ContractCode input) (ContractCodeMetadata input)
                             address (CallerAddr v))
    end).

(** What upgrades and calls begin with: the input as the metering context
    leaves it. *)
Definition enterCall (input : ContractCallInput) : M ContractCallInput :=
  Runtime.InitStateFromContractCallInput input ;;
  v ← Metering.InitStateFromContractCallInput (call_VMInput input);
  AddTxValueToAccount (RecipientAddr input) (CallValue v) ;;
  current ← Runtime.GetSCAddress;
  Storage.SetAddress current ;;
  mret (set_call_VMInput v input).

Definition doRunSmartContractUpgrade (input : ContractCallInput) : M VMOutput :=
  initContexts ;;
  with_clean (
    input ← enterCall input;
    r ← Runtime.ExtractCodeUpgradeFromArgs;
    match r with
    | (_, _, Some _) => CreateVMOutputInCaseOfError ErrInvalidUpgradeArguments
    | (code, codeMetadata, None) =>
        deployment_output (mkCodeDeployInput code codeMetadata (RecipientAddr input)
                             (CallerAddr (call_VMInput input)))
    end).

(** The rest of a call. *)
Definition runSmartContractCall (input : ContractCallInput) : M VMOutput :=
  err ← checkGasForGetCode input;
  match err with
  | Some _ => CreateVMOutputInCaseOfError ErrNotEnoughGas
  | None =>
      r ← RuntimeExec.GetSCCode;
      match r with
      | (_, Some _) => CreateVMOutputInCaseOfError ErrContractNotFound
      | (contract, None) =>
          err ← Metering.DeductInitialGasForExecution contract;
          match err with
          | Some _ => CreateVMOutputInCaseOfError ErrNotEnoughGas
          | None =>
              gas ← Metering.GetGasForExecution;
              err ← RuntimeExec.StartWasmerInstance contract gas false;
              match err with
              | Some _ => CreateVMOutputInCaseOfError ErrContractInvalid
              | None =>
                  err ← callSCMethod wasm api;
                  match err with
                  | Some e => CreateVMOutputInCaseOfError e
                  | None =>
                      vmOutput ← GetVMOutput;
                      Runtime.CleanWasmerInstance ;;
                      mret vmOutput
                  end
              end
          end
      end
  end.

Definition doRunSmartContractCall (input : ContractCallInput) : M VMOutput :=
  initContexts ;;
  with_clean (input ← enterCall input; runSmartContractCall input).

Definition hasRetriableExecutionError (vmOutput : VMOutput) : M bool :=
  warm ← Runtime.IsWarmInstance;
  mret ((warm : bool) && bytes_eqb (ReturnMessage vmOutput) (bs "allocation error")).

Definition RunSmartContractCreate (input : ContractCreateInput) :
    M (option VMOutput * option error) :=
  TryCatch (doRunSmartContractCreate input).

Definition RunSmartContractCall (input : ContractCallInput) :
    M (option VMOutput * option error) :=
  if bytes_eqb (Function_ input) UpgradeFunctionName then
    TryCatch (doRunSmartContractUpgrade input)
  else
    TryCatch (
      vmOutput ← doRunSmartContractCall input;
      retriable ← hasRetriableExecutionError vmOutput;
      (if (retriable : bool) then Runtime.ResetWarmInstance else mret tt) ;;
      mret vmOutput).

End Level.
End Host.
