(* ===== verification/GasConfig.v ===== *)
(** The gas schedule: [CreateGasConfig], [FillGasMap] and [ToOpcodeCostsArray] of
    [src/config], and the change of schedule of a host
    ([src/vmhost/hostCore/host.go]).

    A structure of numbers is the list of its fields in order, as [reflect] and
    [mapstructure] see it; the tables of names are those of [GasTables].
    [mapstructure.Decode] is outside the repository: a parameter [Decode] that is
    given the map and the fields with their widths.  What is relied on is
    [decodes]: a field whose name is a key gets the value of the key. *)
From S2P Require Import Prelude Errors Overflow Helpers GasTables Types State Logic Toy BigInt.
From S2P Require Import Runtime Output Metering Blockchain Storage RuntimeExec Builtin AsyncCall.
From S2P Require Import Execution Host.

#[local] Open Scope string_scope.
#[local] Open Scope list_scope.
#[local] Open Scope Z_scope.

Abbreviation GasScheduleMap := (gmap bytes (gmap bytes Z)).

(** ** Structures and their fields *)

Definition BaseOperationCost_of (values : list Z) : BaseOperationCost.t :=
  let v := field BaseOperationCost_fields values in
  BaseOperationCost.mk
    (v "StorePerByte") (v "ReleasePerByte") (v "DataCopyPerByte") (v "PersistPerByte")
    (v "CompilePerByte") (v "AoTPreparePerByte") (v "GetCode").

Definition BaseOperationCost_values (c : BaseOperationCost.t) : list Z :=
  [
    BaseOperationCost.StorePerByte c; BaseOperationCost.ReleasePerByte c;
    BaseOperationCost.DataCopyPerByte c; BaseOperationCost.PersistPerByte c;
    BaseOperationCost.CompilePerByte c; BaseOperationCost.AoTPreparePerByte c;
    BaseOperationCost.GetCode c
  ].

Definition BigIntAPICost_of (values : list Z) : BigIntAPICost.t :=
  let v := field BigIntAPICost_fields values in
  BigIntAPICost.mk
    (v "BigIntNew") (v "BigIntUnsignedByteLength") (v "BigIntSignedByteLength")
    (v "BigIntGetUnsignedBytes") (v "BigIntGetSignedBytes") (v "BigIntSetUnsignedBytes")
    (v "BigIntSetSignedBytes") (v "BigIntIsInt64") (v "BigIntGetInt64") (v "BigIntSetInt64")
    (v "BigIntAdd") (v "BigIntSub") (v "BigIntMul") (v "BigIntTDiv") (v "BigIntTMod")
    (v "BigIntEDiv") (v "BigIntEMod") (v "BigIntAbs") (v "BigIntNeg") (v "BigIntSign")
    (v "BigIntCmp") (v "BigIntNot") (v "BigIntAnd") (v "BigIntOr") (v "BigIntXor") (v "BigIntShr")
    (v "BigIntShl") (v "BigIntFinishUnsigned") (v "BigIntFinishSigned")
    (v "BigIntStorageLoadUnsigned") (v "BigIntStorageStoreUnsigned")
    (v "BigIntGetUnsignedArgument") (v "BigIntGetSignedArgument") (v "BigIntGetCallValue")
    (v "BigIntGetExternalBalance").

Definition BigIntAPICost_values (c : BigIntAPICost.t) : list Z :=
  [
    BigIntAPICost.BigIntNew c; BigIntAPICost.BigIntUnsignedByteLength c;
    BigIntAPICost.BigIntSignedByteLength c; BigIntAPICost.BigIntGetUnsignedBytes c;
    BigIntAPICost.BigIntGetSignedBytes c; BigIntAPICost.BigIntSetUnsignedBytes c;
    BigIntAPICost.BigIntSetSignedBytes c; BigIntAPICost.BigIntIsInt64 c;
    BigIntAPICost.BigIntGetInt64 c; BigIntAPICost.BigIntSetInt64 c; BigIntAPICost.BigIntAdd c;
    BigIntAPICost.BigIntSub c; BigIntAPICost.BigIntMul c; BigIntAPICost.BigIntTDiv c;
    BigIntAPICost.BigIntTMod c; BigIntAPICost.BigIntEDiv c; BigIntAPICost.BigIntEMod c;
    BigIntAPICost.BigIntAbs c; BigIntAPICost.BigIntNeg c; BigIntAPICost.BigIntSign c;
    BigIntAPICost.BigIntCmp c; BigIntAPICost.BigIntNot c; BigIntAPICost.BigIntAnd c;
    BigIntAPICost.BigIntOr c; BigIntAPICost.BigIntXor c; BigIntAPICost.BigIntShr c;
    BigIntAPICost.BigIntShl c; BigIntAPICost.BigIntFinishUnsigned c;
    BigIntAPICost.BigIntFinishSigned c; BigIntAPICost.BigIntStorageLoadUnsigned c;
    BigIntAPICost.BigIntStorageStoreUnsigned c; BigIntAPICost.BigIntGetUnsignedArgument c;
    BigIntAPICost.BigIntGetSignedArgument c; BigIntAPICost.BigIntGetCallValue c;
    BigIntAPICost.BigIntGetExternalBalance c
  ].

Definition EthAPICost_of (values : list Z) : EthAPICost.t :=
  let v := field EthAPICost_fields values in
  EthAPICost.mk
    (v "UseGas") (v "GetAddress") (v "GetExternalBalance") (v "GetBlockHash") (v "Call")
    (v "CallDataCopy") (v "GetCallDataSize") (v "CallCode") (v "CallDelegate") (v "CallStatic")
    (v "StorageStore") (v "StorageLoad") (v "GetCaller") (v "GetCallValue") (v "CodeCopy")
    (v "GetCodeSize") (v "GetBlockCoinbase") (v "Create") (v "GetBlockDifficulty")
    (v "ExternalCodeCopy") (v "GetExternalCodeSize") (v "GetGasLeft") (v "GetBlockGasLimit")
    (v "GetTxGasPrice") (v "Log") (v "GetBlockNumber") (v "GetTxOrigin") (v "Finish") (v "Revert")
    (v "GetReturnDataSize") (v "ReturnDataCopy") (v "SelfDestruct") (v "GetBlockTimeStamp").

Definition EthAPICost_values (c : EthAPICost.t) : list Z :=
  [
    EthAPICost.UseGas c; EthAPICost.GetAddress c; EthAPICost.GetExternalBalance c;
    EthAPICost.GetBlockHash c; EthAPICost.Call c; EthAPICost.CallDataCopy c;
    EthAPICost.GetCallDataSize c; EthAPICost.CallCode c; EthAPICost.CallDelegate c;
    EthAPICost.CallStatic c; EthAPICost.StorageStore c; EthAPICost.StorageLoad c;
    EthAPICost.GetCaller c; EthAPICost.GetCallValue c; EthAPICost.CodeCopy c;
    EthAPICost.GetCodeSize c; EthAPICost.GetBlockCoinbase c; EthAPICost.Create c;
    EthAPICost.GetBlockDifficulty c; EthAPICost.ExternalCodeCopy c;
    EthAPICost.GetExternalCodeSize c; EthAPICost.GetGasLeft c; EthAPICost.GetBlockGasLimit c;
    EthAPICost.GetTxGasPrice c; EthAPICost.Log c; EthAPICost.GetBlockNumber c;
    EthAPICost.GetTxOrigin c; EthAPICost.Finish c; EthAPICost.Revert c;
    EthAPICost.GetReturnDataSize c; EthAPICost.ReturnDataCopy c; EthAPICost.SelfDestruct c;
    EthAPICost.GetBlockTimeStamp c
  ].

Definition BaseOpsAPICost_of (values : list Z) : BaseOpsAPICost.t :=
  let v := field BaseOpsAPICost_fields values in
  BaseOpsAPICost.mk
    (v "GetSCAddress") (v "GetOwnerAddress") (v "IsSmartContract") (v "GetShardOfAddress")
    (v "GetExternalBalance") (v "GetBlockHash") (v "TransferValue") (v "GetArgument")
    (v "GetFunction") (v "GetNumArguments") (v "StorageStore") (v "StorageLoad") (v "GetCaller")
    (v "GetCallValue") (v "Log") (v "Finish") (v "SignalError") (v "GetBlockTimeStamp")
    (v "GetGasLeft") (v "Int64GetArgument") (v "Int64StorageStore") (v "Int64StorageLoad")
    (v "Int64Finish") (v "GetStateRootHash") (v "GetBlockNonce") (v "GetBlockEpoch")
    (v "GetBlockRound") (v "GetBlockRandomSeed") (v "ExecuteOnSameContext")
    (v "ExecuteOnDestContext") (v "DelegateExecution") (v "ExecuteReadOnly") (v "AsyncCallStep")
    (v "AsyncCallbackGasLock") (v "CreateContract") (v "GetReturnData") (v "GetNumReturnData")
    (v "GetReturnDataSize").

Definition BaseOpsAPICost_values (c : BaseOpsAPICost.t) : list Z :=
  [
    BaseOpsAPICost.GetSCAddress c; BaseOpsAPICost.GetOwnerAddress c;
    BaseOpsAPICost.IsSmartContract c; BaseOpsAPICost.GetShardOfAddress c;
    BaseOpsAPICost.GetExternalBalance c; BaseOpsAPICost.GetBlockHash c;
    BaseOpsAPICost.TransferValue c; BaseOpsAPICost.GetArgument c; BaseOpsAPICost.GetFunction c;
    BaseOpsAPICost.GetNumArguments c; BaseOpsAPICost.StorageStore c; BaseOpsAPICost.StorageLoad c;
    BaseOpsAPICost.GetCaller c; BaseOpsAPICost.GetCallValue c; BaseOpsAPICost.Log c;
    BaseOpsAPICost.Finish c; BaseOpsAPICost.SignalError c; BaseOpsAPICost.GetBlockTimeStamp c;
    BaseOpsAPICost.GetGasLeft c; BaseOpsAPICost.Int64GetArgument c;
    BaseOpsAPICost.Int64StorageStore c; BaseOpsAPICost.Int64StorageLoad c;
    BaseOpsAPICost.Int64Finish c; BaseOpsAPICost.GetStateRootHash c;
    BaseOpsAPICost.GetBlockNonce c; BaseOpsAPICost.GetBlockEpoch c;
    BaseOpsAPICost.GetBlockRound c; BaseOpsAPICost.GetBlockRandomSeed c;
    BaseOpsAPICost.ExecuteOnSameContext c; BaseOpsAPICost.ExecuteOnDestContext c;
    BaseOpsAPICost.DelegateExecution c; BaseOpsAPICost.ExecuteReadOnly c;
    BaseOpsAPICost.AsyncCallStep c; BaseOpsAPICost.AsyncCallbackGasLock c;
    BaseOpsAPICost.CreateContract c; BaseOpsAPICost.GetReturnData c;
    BaseOpsAPICost.GetNumReturnData c; BaseOpsAPICost.GetReturnDataSize c
  ].

Definition CryptoAPICost_of (values : list Z) : CryptoAPICost.t :=
  let v := field CryptoAPICost_fields values in
  CryptoAPICost.mk
    (v "SHA256") (v "Keccak256") (v "Ripemd160") (v "VerifyBLS") (v "VerifyEd25519")
    (v "VerifySecp256k1").

Definition CryptoAPICost_values (c : CryptoAPICost.t) : list Z :=
  [
    CryptoAPICost.SHA256 c; CryptoAPICost.Keccak256 c; CryptoAPICost.Ripemd160 c;
    CryptoAPICost.VerifyBLS c; CryptoAPICost.VerifyEd25519 c; CryptoAPICost.VerifySecp256k1 c
  ].

(** The structures of [GasCost], in the order in which they are decoded, with the
    width of their fields. *)
Definition sections : list (string * (list string * Z)) :=
  [
    ("BaseOperationCost", (BaseOperationCost_fields, 64));
    ("BaseOpsAPICost", (BaseOpsAPICost_fields, 64));
    ("BigIntAPICost", (BigIntAPICost_fields, 64));
    ("EthAPICost", (EthAPICost_fields, 64));
    ("CryptoAPICost", (CryptoAPICost_fields, 64));
    ("WASMOpcodeCost", (WASMOpcodeCost_fields, 32))
  ].

(** The fields of a structure of a schedule. *)
Definition values_of (section : string) (g : GasCost) : list Z :=
  if String.eqb section "BaseOperationCost" then BaseOperationCost_values (gc_BaseOperationCost g)
  else if String.eqb section "BaseOpsAPICost" then BaseOpsAPICost_values (gc_BaseOpsAPICost g)
  else if String.eqb section "BigIntAPICost" then BigIntAPICost_values (gc_BigIntAPICost g)
  else if String.eqb section "EthAPICost" then EthAPICost_values (gc_EthAPICost g)
  else if String.eqb section "CryptoAPICost" then CryptoAPICost_values (gc_CryptoAPICost g)
  else gc_WASMOpcodeCost g.

(** ** Making a schedule *)

Fixpoint checkForZeroUint64Fields (names : list string) (values : list Z) : option error :=
  match names, values with
  | name :: names', v :: values' =>
      if v =? 0 then
        Some (ErrNew (bs "Gas cost for operation " ++ bs name ++
                      bs " has been set to 0 or is not set."))
      else checkForZeroUint64Fields names' values'
  | _, _ => None
  end.

Section Config.
Context (Decode : gmap bytes Z -> list (bytes * Z) -> list Z * option error).

Definition decode_section (gasMap : GasScheduleMap) (section : string) (fields : list string)
    (width : Z) : error + list Z :=
  match Decode (default ∅ (gasMap !! bs section)) (map (fun n => (bs n, width)) fields) with
  | (_, Some err) => inl err
  | (values, None) =>
      match checkForZeroUint64Fields fields values with
      | Some err => inl err
      | None => inr values
      end
  end.

Definition CreateGasConfig (gasMap : GasScheduleMap) : error + GasCost :=
  match decode_section gasMap "BaseOperationCost" BaseOperationCost_fields 64 with
  | inl err => inl err
  | inr baseOps =>
  match decode_section gasMap "BaseOpsAPICost" BaseOpsAPICost_fields 64 with
  | inl err => inl err
  | inr baseOpsAPI =>
  match decode_section gasMap "BigIntAPICost" BigIntAPICost_fields 64 with
  | inl err => inl err
  | inr bigIntOps =>
  match decode_section gasMap "EthAPICost" EthAPICost_fields 64 with
  | inl err => inl err
  | inr ethOps =>
  match decode_section gasMap "CryptoAPICost" CryptoAPICost_fields 64 with
  | inl err => inl err
  | inr cryptOps =>
  match decode_section gasMap "WASMOpcodeCost" WASMOpcodeCost_fields 32 with
  | inl err => inl err
  | inr opcodeCosts =>
      inr
        {| gc_BaseOperationCost := BaseOperationCost_of baseOps;
           gc_BigIntAPICost := BigIntAPICost_of bigIntOps;
           gc_EthAPICost := EthAPICost_of ethOps;
           gc_BaseOpsAPICost := BaseOpsAPICost_of baseOpsAPI;
           gc_CryptoAPICost := CryptoAPICost_of cryptOps;
           gc_WASMOpcodeCost := opcodeCosts |}
  end end end end end end.

(** ** Filling a map *)

Definition amount_of (value asyncCallbackGasLock : Z) (a : amount) : Z :=
  match a with
  | Value => value
  | Lock => asyncCallbackGasLock
  | Fixed n => n
  end.

Definition fill_into (table : list (string * amount)) (value asyncCallbackGasLock : Z)
    (gasMap : gmap bytes Z) : gmap bytes Z :=
  fold_left (fun gasMap '(name, a) =>
      <[bs name := amount_of value asyncCallbackGasLock a]> gasMap) table gasMap.

Definition fill (table : list (string * amount)) (value asyncCallbackGasLock : Z) :
    gmap bytes Z :=
  fill_into table value asyncCallbackGasLock ∅.

Definition FillGasMap_BuiltInCosts (value : Z) : gmap bytes Z :=
  fill FillGasMap_BuiltInCosts_table value 0.
Definition FillGasMap_BaseOperationCosts (value : Z) : gmap bytes Z :=
  fill FillGasMap_BaseOperationCosts_table value 0.
Definition FillGasMap_BaseOpsAPICosts (value asyncCallbackGasLock : Z) : gmap bytes Z :=
  fill FillGasMap_BaseOpsAPICosts_table value asyncCallbackGasLock.
Definition FillGasMap_EthereumAPICosts (value : Z) : gmap bytes Z :=
  fill FillGasMap_EthereumAPICosts_table value 0.
Definition FillGasMap_BigIntAPICosts (value : Z) : gmap bytes Z :=
  fill FillGasMap_BigIntAPICosts_table value 0.
Definition FillGasMap_CryptoAPICosts (value : Z) : gmap bytes Z :=
  fill FillGasMap_CryptoAPICosts_table value 0.
Definition FillGasMap_WASMOpcodeValues (value : Z) : gmap bytes Z :=
  fill FillGasMap_WASMOpcodeValues_table value 0.

Definition FillGasMap (gasMap : GasScheduleMap) (value asyncCallbackGasLock : Z) :
    GasScheduleMap :=
  let gasMap := <[bs "BuiltInCost" := FillGasMap_BuiltInCosts value]> gasMap in
  let gasMap := <[bs "BaseOperationCost" := FillGasMap_BaseOperationCosts value]> gasMap in
  let gasMap := <[bs "BaseOpsAPICost" :=
                    FillGasMap_BaseOpsAPICosts value asyncCallbackGasLock]> gasMap in
  let gasMap := <[bs "EthAPICost" := FillGasMap_EthereumAPICosts value]> gasMap in
  let gasMap := <[bs "BigIntAPICost" := FillGasMap_BigIntAPICosts value]> gasMap in
  let gasMap := <[bs "CryptoAPICost" := FillGasMap_CryptoAPICosts value]> gasMap in
  <[bs "WASMOpcodeCost" := FillGasMap_WASMOpcodeValues value]> gasMap.

Definition MakeGasMap (value asyncCallbackGasLock : Z) : GasScheduleMap :=
  FillGasMap ∅ value asyncCallbackGasLock.

Definition GasValueForTests : Z := 1.
Definition AsyncCallbackGasLockForTests : Z := 100000.
Definition MakeGasMapForTests : GasScheduleMap :=
  MakeGasMap GasValueForTests AsyncCallbackGasLockForTests.

(** ** Opcodes *)

Definition OPCODE_COUNT : nat := 448.

(** [wasmer.Opcode...] *)
Fixpoint opcode_number (names : list string) (name : string) : nat :=
  match names with
  | [] => 0
  | n :: names' => if String.eqb n name then 0 else S (opcode_number names' name)
  end.

Definition ToOpcodeCostsArray (costs : WASMOpcodeCost) : list Z :=
  fold_left (fun opcode_costs '(opcode, name) =>
      <[opcode_number opcodes opcode := opcode_cost name costs]> opcode_costs)
    assignments (replicate OPCODE_COUNT 0).

(** ** The schedule of a host *)

Section Host.
Context `{Ext : Externals}.

(** [host.gasSchedule], and the prices wasmer was given. *)
Record hostSchedule := mkHostSchedule {
  hs_gasSchedule : GasScheduleMap;
  hs_opcodeCosts : list Z;
}.

Definition GasScheduleChange (newGasSchedule : GasScheduleMap) (host : hostSchedule) :
    M hostSchedule :=
  match CreateGasConfig newGasSchedule with
  | inl _ => mret (mkHostSchedule newGasSchedule (hs_opcodeCosts host))
  | inr gasCostConfig =>
      Host.GasScheduleChange (Some gasCostConfig) ;;
      mret (mkHostSchedule newGasSchedule (ToOpcodeCostsArray (gc_WASMOpcodeCost gasCostConfig)))
  end.

Definition GetGasScheduleMap (host : hostSchedule) : GasScheduleMap := hs_gasSchedule host.

End Host.

(** ** Lemmas *)

(** The documented behaviour of [mapstructure.Decode] on a map of numbers: a
    field that is a key, with a value its type can hold, gets the value. *)
Definition has_fields (gasMap : gmap bytes Z) (fields : list (bytes * Z)) : Prop :=
  Forall (fun '(n, width) => exists v, gasMap !! n = Some v /\ 0 <= v < 2 ^ width) fields.

Definition decodes : Prop := forall gasMap fields,
  has_fields gasMap fields ->
  Decode gasMap fields = (map (fun '(n, _) => default 0 (gasMap !! n)) fields, None).

End Config.

Lemma field_nth names vs i name v :
  NoDup names -> names !! i = Some name -> vs !! i = Some v -> field names vs name = v.
Proof.
  revert vs i. induction names as [|n names IH]; intros [|w vs] [|i] Hnd Hn Hv; try done.
  - cbn in *. simplify_eq. by rewrite String.eqb_refl.
  - cbn in *. inversion_clear Hnd as [|? ? Hnot Hnd'].
    destruct (String.eqb_spec n name) as [->|]; [|by eapply IH].
    exfalso. apply Hnot. by eapply list_elem_of_lookup_2.
Qed.

(** Reading the fields back from the structure they made. *)
Lemma map_field names vs :
  NoDup names -> length vs = length names -> map (field names vs) names = vs.
Proof.
  intros Hnd Hlen. apply list_eq. intros i. change (map ?f ?l) with (f <$> l).
  rewrite list_lookup_fmap.
  destruct (names !! i) as [name|] eqn:En; cbn.
  - destruct (lookup_lt_is_Some_2 vs i) as [v Hv]; [rewrite Hlen; by eapply lookup_lt_Some|].
    by rewrite Hv, (field_nth _ _ _ _ _ Hnd En Hv).
  - symmetry. apply lookup_ge_None_2. rewrite Hlen. by apply lookup_ge_None_1.
Qed.

Lemma sections_NoDup : Forall (fun '(_, (fields, _)) => NoDup fields) sections.
Proof.
  repeat apply List.Forall_cons; [..|constructor];
    (eapply bool_decide_unpack; vm_compute; exact I).
Qed.

Lemma checkForZero_None names vs :
  length names = length vs ->
  (checkForZeroUint64Fields names vs = None <-> Forall (fun v => v <> 0) vs).
Proof.
  revert vs. induction names as [|n names IH]; intros [|v vs] H; try done.
  cbn. rewrite List.Forall_cons_iff. destruct (Z.eqb_spec v 0).
  - split; [done | by intros []].
  - rewrite IH by (by injection H). tauto.
Qed.

(** The first field that is 0 is the one reported. *)
Definition zero_cost (name : string) : error :=
  ErrNew (bs "Gas cost for operation " ++ bs name ++ bs " has been set to 0 or is not set.").

Lemma checkForZero_Some names vs err :
  checkForZeroUint64Fields names vs = Some err ->
  exists i name, names !! i = Some name /\ vs !! i = Some 0 /\ err = zero_cost name /\
    forall j v, (j < i)%nat -> vs !! j = Some v -> v <> 0.
Proof.
  revert vs. induction names as [|n names IH]; intros [|v vs] H; try done. cbn in H.
  destruct (Z.eqb_spec v 0) as [->|Hv].
  - injection H as <-. exists 0%nat, n. split_and!; try done. lia.
  - destruct (IH vs H) as (i & name & Hn & Hz & -> & Hbefore).
    exists (S i), name. split_and!; try done. intros [|j] w Hj Hw; [by injection Hw as <-|].
    apply (Hbefore j); [lia | done].
Qed.

(** ** A map that has every price *)

Section Complete.
Context (gasMap : GasScheduleMap).

Definition price_in (section name : string) : Z :=
  default 0 (gasMap !! bs section ≫= (fun m => m !! bs name)).

Definition prices_in (section : string) (fields : list string) : list Z :=
  map (price_in section) fields.

(** Every field of every structure is a key, with a value its type can hold. *)
Definition complete : Prop :=
  Forall (fun '(section, (fields, width)) => Forall (fun name =>
      exists m v, gasMap !! bs section = Some m /\ m !! bs name = Some v /\ 0 <= v < 2 ^ width)
    fields) sections.

Context (Decode : gmap bytes Z -> list (bytes * Z) -> list Z * option error).
Context (Hdecodes : decodes Decode).

Lemma decode_section_run section fields width :
  In (section, (fields, width)) sections -> complete ->
  decode_section Decode gasMap section fields width =
    match checkForZeroUint64Fields fields (prices_in section fields) with
    | Some err => inl err
    | None => inr (prices_in section fields)
    end.
Proof.
  intros Hin Hc. unfold decode_section.
  pose proof (proj1 (List.Forall_forall _ _) Hc _ Hin) as Hf. cbn beta iota in Hf.
  rewrite Hdecodes.
  - rewrite map_map. unfold prices_in, price_in.
    rewrite (map_ext _ (fun name => default 0 (gasMap !! bs section ≫= (fun m => m !! bs name)))).
    { done. }
    intros name. destruct (gasMap !! bs section); cbn; [done|]. by rewrite lookup_empty.
  - unfold has_fields. rewrite List.Forall_map. eapply List.Forall_impl; [|exact Hf].
    cbn. intros name (m & v & -> & Hv & Hr). by exists v.
Qed.

Lemma decode_section_cases section fields width :
  In (section, (fields, width)) sections -> complete ->
  (decode_section Decode gasMap section fields width = inr (prices_in section fields) /\
   Forall (fun v => v <> 0) (prices_in section fields)) \/
  (exists name, In name fields /\ price_in section name = 0 /\
   decode_section Decode gasMap section fields width = inl (zero_cost name)).
Proof.
  intros Hin Hc. rewrite (decode_section_run _ _ _ Hin Hc).
  destruct (checkForZeroUint64Fields fields (prices_in section fields)) as [err|] eqn:E.
  - right. apply checkForZero_Some in E as (i & name & Hn & Hz & -> & _).
    exists name. split_and!; [|..|done].
    + apply list_elem_of_In. by eapply list_elem_of_lookup_2.
    + unfold prices_in in Hz. change (map ?f ?l) with (f <$> l) in Hz.
      rewrite list_lookup_fmap, Hn in Hz. by injection Hz.
  - left. split; [done|]. apply checkForZero_None in E; [done|]. unfold prices_in.
    by rewrite length_map.
Qed.

(** The structures have the fields of the sections. *)
Lemma structure_values section fields width :
  In (section, (fields, width)) sections ->
  map (field fields (prices_in section fields)) fields = prices_in section fields.
Proof.
  intros Hin. apply map_field; [|apply length_map].
  apply (proj1 (List.Forall_forall _ _) sections_NoDup _ Hin).
Qed.

End Complete.

(** The next structure is read, or names a price that is 0. *)
Ltac section_case Hcases :=
  match goal with |- context [decode_section _ _ ?s ?f ?w] =>
    let Hin := fresh in
    assert (In (s, (f, w)) sections) as Hin by (unfold sections; cbn [In]; tauto);
    destruct (Hcases s f w Hin) as [[-> ?]|(name & ? & ? & ->)];
      [|by exists s, f, w, name] end.

Lemma CreateGasConfig_run Decode gasMap :
  decodes Decode -> complete gasMap ->
  match CreateGasConfig Decode gasMap with
  | inr g => forall section fields width, In (section, (fields, width)) sections ->
      values_of section g = prices_in gasMap section fields /\
      Forall (fun v => v <> 0) (values_of section g)
  | inl err => exists section fields width name, In (section, (fields, width)) sections /\
      In name fields /\ price_in gasMap section name = 0 /\ err = zero_cost name
  end.
Proof.
  intros Hd Hc. unfold CreateGasConfig.
  pose proof (fun s f w H => decode_section_cases gasMap Decode Hd s f w H Hc) as Hcases.
  pose proof (structure_values gasMap) as Hvalues.
  do 6 section_case Hcases.
  intros section fields width Hin.
  assert (forall s f w, In (s, (f, w)) sections -> forall vs,
    vs = map (field f (prices_in gasMap s f)) f -> Forall (fun v => v <> 0) (prices_in gasMap s f) ->
    vs = prices_in gasMap s f /\ Forall (fun v => v <> 0) vs) as Hend.
  { intros s f w Hs vs -> Hnz. by rewrite (Hvalues s f w Hs). }
  pose proof Hin as Hin'. unfold sections in Hin'. cbn [In] in Hin'.
  repeat (destruct Hin' as [Hin'|Hin']; [|]); [injection Hin' as <- <- <- .. | done];
    (eapply Hend; [exact Hin | | assumption]);
    first [reflexivity | by rewrite (Hvalues _ _ _ Hin)].
Qed.

(** ** Filled maps *)

#[global] Instance amount_eq_dec : EqDecision amount.
Proof. solve_decision. Defined.

Lemma bs_inj s t : bs s = bs t -> s = t.
Proof.
  intros H. rewrite <- (String.string_of_list_byte_of_string s),
    <- (String.string_of_list_byte_of_string t). unfold bs in H. by rewrite H.
Qed.

Lemma fill_other table value lock gasMap name :
  ~ In name (map fst table) ->
  fill_into table value lock gasMap !! bs name = gasMap !! bs name.
Proof.
  revert gasMap. induction table as [|[n a] table IH]; intros gasMap H; [done|].
  cbn in *. unfold fill_into in IH. rewrite IH by tauto. apply lookup_insert_ne.
  intros Heq%bs_inj. tauto.
Qed.

Lemma fill_lookup table value lock name a :
  NoDup (map fst table) -> In (name, a) table ->
  fill table value lock !! bs name = Some (amount_of value lock a).
Proof.
  unfold fill. generalize (∅ : gmap bytes Z).
  induction table as [|[n b] table IH]; intros gasMap Hnd Hin; [done|].
  cbn in *. inversion_clear Hnd as [|? ? Hnot Hnd'].
  destruct Hin as [[= -> ->]|Hin]; [|by apply IH].
  unfold fill_into. cbn.
  change (fill_into table value lock (<[bs name := amount_of value lock a]> gasMap) !! bs name =
    Some (amount_of value lock a)).
  rewrite fill_other; [by rewrite lookup_insert_eq | by rewrite <- list_elem_of_In].
Qed.

Definition table_of (section : string) : list (string * amount) :=
  if String.eqb section "BaseOperationCost" then FillGasMap_BaseOperationCosts_table
  else if String.eqb section "BaseOpsAPICost" then FillGasMap_BaseOpsAPICosts_table
  else if String.eqb section "BigIntAPICost" then FillGasMap_BigIntAPICosts_table
  else if String.eqb section "EthAPICost" then FillGasMap_EthereumAPICosts_table
  else if String.eqb section "CryptoAPICost" then FillGasMap_CryptoAPICosts_table
  else FillGasMap_WASMOpcodeValues_table.

(** The amounts meant: the lock and the number of free locals have their own. *)
Definition expected (name : string) : amount :=
  if String.eqb name "AsyncCallbackGasLock" then Lock
  else if String.eqb name "LocalsUnmetered" then Fixed 100
  else Value.

Lemma tables_NoDup : Forall (fun '(section, _) => NoDup (map fst (table_of section))) sections.
Proof.
  repeat apply List.Forall_cons; [..|constructor];
    (eapply bool_decide_unpack; vm_compute; exact I).
Qed.

Definition covers (table : list (string * amount)) (name : string) : bool :=
  existsb (fun '(n, a) => String.eqb n name && bool_decide (a = expected name)) table.

Lemma covers_In table name : covers table name = true -> In (name, expected name) table.
Proof.
  intros ([n a] & Hin & Heq)%existsb_exists. apply andb_true_iff in Heq as [Hn Ha].
  apply String.eqb_eq in Hn as ->. by apply bool_decide_eq_true_1 in Ha as ->.
Qed.

Lemma tables_complete section fields width name :
  In (section, (fields, width)) sections -> In name fields ->
  In (name, expected name) (table_of section).
Proof.
  assert (forallb (fun '(section, (fields, _)) => forallb (covers (table_of section)) fields)
    sections = true) as H by (vm_compute; reflexivity).
  intros Hin Hname. apply covers_In. rewrite forallb_forall in H. specialize (H _ Hin).
  cbn beta iota in H. rewrite forallb_forall in H. by apply H.
Qed.

(** The lock is an entry of one structure only. *)
Lemma expected_Lock section fields width name :
  In (section, (fields, width)) sections -> In name fields -> expected name = Lock ->
  section = "BaseOpsAPICost".
Proof.
  assert (Forall (fun '(section, (fields, _)) => section = "BaseOpsAPICost" \/
    Forall (fun name => expected name <> Lock) fields) sections) as H.
  { repeat apply List.Forall_cons; [..|constructor];
      (eapply bool_decide_unpack; vm_compute; exact I). }
  intros Hin Hname Hlock.
  destruct (proj1 (List.Forall_forall _ _) H _ Hin) as [|Hn]; [done|].
  by destruct (proj1 (List.Forall_forall _ _) Hn _ Hname).
Qed.

Lemma FillGasMap_section gasMap value lock section fields width :
  In (section, (fields, width)) sections ->
  FillGasMap gasMap value lock !! bs section =
    Some (fill (table_of section) value (if String.eqb section "BaseOpsAPICost" then lock else 0)).
Proof.
  intros Hin. unfold sections in Hin. cbn [In] in Hin. unfold FillGasMap. cbv zeta.
  repeat (destruct Hin as [Hin|Hin]; [|]); [injection Hin as <- <- <- .. | done];
    repeat (rewrite lookup_insert_ne by (vm_compute; discriminate)); by rewrite lookup_insert_eq.
Qed.

Lemma FillGasMap_price gasMap value lock section fields width name :
  In (section, (fields, width)) sections -> In name fields ->
  exists m, FillGasMap gasMap value lock !! bs section = Some m /\
    m !! bs name = Some (amount_of value lock (expected name)).
Proof.
  intros Hin Hname. rewrite (FillGasMap_section _ _ _ _ _ _ Hin).
  eexists. split; [reflexivity|].
  rewrite (fill_lookup _ _ _ name (expected name)).
  - destruct (expected name) eqn:E; try done.
    by rewrite (expected_Lock _ _ _ _ Hin Hname E).
  - apply (proj1 (List.Forall_forall _ _) tables_NoDup _ Hin).
  - by eapply tables_complete.
Qed.

Lemma FillGasMap_complete gasMap value lock :
  0 <= value < 2 ^ 32 -> 0 <= lock < 2 ^ 64 -> complete (FillGasMap gasMap value lock).
Proof.
  intros Hv Hl. apply List.Forall_forall. intros [section [fields width]] Hin.
  apply List.Forall_forall. intros name Hname.
  destruct (FillGasMap_price gasMap value lock _ _ _ _ Hin Hname) as (m & Hm & Hp).
  exists m, (amount_of value lock (expected name)). split; [done|]. split; [done|].
  assert (32 <= width) as Hw.
  { unfold sections in Hin. cbn [In] in Hin.
    repeat (destruct Hin as [Hin|Hin]; [|]); [injection Hin as <- <- <- .. | done]; lia. }
  assert (2 ^ 32 <= 2 ^ width) by (apply Z.pow_le_mono_r; lia).
  destruct (expected name) eqn:E; cbn.
  - lia.
  - pose proof (expected_Lock _ _ _ _ Hin Hname E) as ->.
    assert (width = 64) as ->; [|done]. unfold sections in Hin. cbn [In] in Hin.
    repeat (destruct Hin as [Hin|Hin]; [|]); [by injection Hin as .. | done].
  - unfold expected in E. repeat case_match; simplify_eq. lia.
Qed.

Lemma field_map fields (f : string -> Z) name :
  NoDup fields -> In name fields -> field fields (map f fields) name = f name.
Proof.
  intros Hnd (i & Hi)%list_elem_of_In%list_elem_of_lookup_1.
  apply (field_nth _ _ i); [done..|]. change (map f fields) with (f <$> fields).
  by rewrite list_lookup_fmap, Hi.
Qed.

(** ** Opcodes *)

Lemma opcodes_NoDup : NoDup opcodes.
Proof. eapply bool_decide_unpack. vm_compute. exact I. Qed.

(** Every opcode gets the price of its own name. *)
Lemma assignments_diagonal : assignments = map (fun name => (name, name)) opcodes.
Proof. vm_compute. reflexivity. Qed.

#[local] Opaque opcodes.

Lemma fold_left_diagonal {A} (f : A -> string * string -> A) names a :
  fold_left f (map (fun n => (n, n)) names) a = fold_left (fun a n => f a (n, n)) names a.
Proof. revert a. by induction names as [|n names IH]; intros a; cbn. Qed.

Lemma opcode_number_lookup names i name :
  NoDup names -> names !! i = Some name -> opcode_number names name = i.
Proof.
  revert i. induction names as [|n names IH]; intros [|i] Hnd Hn; try done; cbn in *.
  - injection Hn as ->. by rewrite String.eqb_refl.
  - inversion_clear Hnd as [|? ? Hnot Hnd']. destruct (String.eqb_spec n name) as [->|].
    + exfalso. apply Hnot. by eapply list_elem_of_lookup_2.
    + by rewrite (IH i).
Qed.

Definition assign_costs (costs : WASMOpcodeCost) (names : list string) (array : list Z) : list Z :=
  fold_left (fun array name => <[opcode_number opcodes name := opcode_cost name costs]> array)
    names array.

Lemma assign_costs_length costs names array :
  length (assign_costs costs names array) = length array.
Proof.
  revert array. induction names as [|n names IH]; intros array; cbn; [done|].
  unfold assign_costs in IH. by rewrite IH, length_insert.
Qed.

(** [names] are opcodes; those assigned last win, and there is one of each. *)
Lemma assign_costs_lookup costs names array i name :
  Forall (fun n => n ∈ opcodes) names -> opcodes !! i = Some name -> (i < length array)%nat ->
  assign_costs costs names array !! i =
    if bool_decide (name ∈ names) then Some (opcode_cost name costs) else array !! i.
Proof.
  revert array. induction names as [|n names IH]; intros array Hall Hi Hlen; [done|].
  apply List.Forall_cons_iff in Hall as [Hn Hall]. cbn.
  change (assign_costs costs names (<[opcode_number opcodes n := opcode_cost n costs]> array) !! i
    = if bool_decide (name ∈ n :: names) then Some (opcode_cost name costs) else array !! i).
  rewrite IH by (done || by rewrite length_insert).
  apply list_elem_of_lookup_1 in Hn as [j Hj].
  rewrite (opcode_number_lookup _ _ _ opcodes_NoDup Hj).
  destruct (decide (n = name)) as [->|Hne].
  - rewrite (bool_decide_eq_true_2 (name ∈ name :: names)) by by left.
    case_bool_decide; [done|]. rewrite (NoDup_lookup _ _ _ _ opcodes_NoDup Hj Hi).
    by rewrite list_lookup_insert_eq.
  - assert (name ∈ n :: names <-> name ∈ names) as Hiff.
    { split; [by intros [Heq|]%elem_of_cons | by right]. }
    rewrite (bool_decide_ext _ _ Hiff). case_bool_decide; [done|].
    rewrite list_lookup_insert_ne; [done|]. intros ->. congruence.
Qed.

(** ** Properties *)

(** C28: a map that has an entry for every price is turned into the schedule with
    exactly those prices, structure by structure and field by field, when none is
    0; otherwise into the error that names a field whose price is 0. *)
Theorem CreateGasConfig_exact Decode gasMap :
  decodes Decode -> complete gasMap ->
  match CreateGasConfig Decode gasMap with
  | inr g => forall section fields width, In (section, (fields, width)) sections ->
      values_of section g = prices_in gasMap section fields /\
      Forall (fun v => v <> 0) (values_of section g)
  | inl err => exists section fields width name, In (section, (fields, width)) sections /\
      In name fields /\ price_in gasMap section name = 0 /\ err = zero_cost name
  end.
Proof. apply CreateGasConfig_run. Qed.

(** The maps that [FillGasMap] fills, whatever they held before, are accepted
    and give every operation and opcode the value asked for - but for the gas lock
    of asynchronous callbacks, which has its own, and the number of unmetered
    locals, which is always 100. *)
Theorem FillGasMap_accepted Decode gasMap value asyncCallbackGasLock :
  decodes Decode -> 0 < value < 2 ^ 32 -> 0 < asyncCallbackGasLock < 2 ^ 64 ->
  exists g, CreateGasConfig Decode (FillGasMap gasMap value asyncCallbackGasLock) = inr g /\
    forall section fields width name,
      In (section, (fields, width)) sections -> In name fields ->
      field fields (values_of section g) name =
        if String.eqb name "AsyncCallbackGasLock" then asyncCallbackGasLock
        else if String.eqb name "LocalsUnmetered" then 100 else value.
Proof.
  intros Hd Hv Hl. set (m := FillGasMap gasMap value asyncCallbackGasLock).
  assert (forall section fields width name, In (section, (fields, width)) sections ->
    In name fields -> price_in m section name = amount_of value asyncCallbackGasLock (expected name))
    as Hprice.
  { intros section fields width name Hin Hname. unfold price_in.
    destruct (FillGasMap_price gasMap value asyncCallbackGasLock _ _ _ _ Hin Hname) as (? & Hm & Hp).
    fold m in Hm. rewrite Hm. cbn. by rewrite Hp. }
  pose proof (CreateGasConfig_run Decode m Hd
    (FillGasMap_complete gasMap value asyncCallbackGasLock ltac:(lia) ltac:(lia))) as Hrun.
  destruct (CreateGasConfig Decode m) as [err|g].
  - destruct Hrun as (section & fields & width & name & Hin & Hname & Hzero & _).
    rewrite (Hprice _ _ _ _ Hin Hname) in Hzero. unfold expected in Hzero.
    repeat case_match; cbn in Hzero; lia.
  - exists g. split; [done|]. intros section fields width name Hin Hname.
    destruct (Hrun _ _ _ Hin) as [-> _]. unfold prices_in.
    rewrite field_map; [|apply (proj1 (List.Forall_forall _ _) sections_NoDup _ Hin) | done].
    rewrite (Hprice _ _ _ _ Hin Hname). unfold expected. by repeat case_match.
Qed.

(** The array given to wasmer has the price of every opcode at the number of
    that opcode, and nothing else. *)
Theorem ToOpcodeCostsArray_exact costs :
  length (ToOpcodeCostsArray costs) = OPCODE_COUNT /\ length opcodes = OPCODE_COUNT /\
  forall i name, opcodes !! i = Some name ->
    ToOpcodeCostsArray costs !! i = Some (opcode_cost name costs).
Proof.
  assert (ToOpcodeCostsArray costs = assign_costs costs opcodes (replicate OPCODE_COUNT 0)) as ->.
  { unfold ToOpcodeCostsArray, assign_costs. by rewrite assignments_diagonal, fold_left_diagonal. }
  split; [by rewrite assign_costs_length, length_replicate|].
  assert (length opcodes = OPCODE_COUNT) as Hlen by (vm_compute; reflexivity).
  split; [done|]. intros i name Hi. rewrite (assign_costs_lookup _ _ _ _ name).
  - by rewrite bool_decide_eq_true_2 by (by eapply list_elem_of_lookup_2).
  - apply List.Forall_forall. intros x Hx. by apply list_elem_of_In.
  - done.
  - rewrite length_replicate, <- Hlen. by eapply lookup_lt_Some.
Qed.

(** A schedule that is rejected changes no price, and is the one the host reports
    from then on. *)
Theorem GasScheduleChange_exact `{Ext : Externals} Decode newGasSchedule host st :
  exists st' host',
    GasScheduleChange Decode newGasSchedule host st = (st', Ret host') /\
    GetGasScheduleMap host' = newGasSchedule /\
    match CreateGasConfig Decode newGasSchedule with
    | inr g => gasSchedule (st_metering st') = g /\
        hs_opcodeCosts host' = ToOpcodeCostsArray (gc_WASMOpcodeCost g)
    | inl _ => st' = st /\ hs_opcodeCosts host' = hs_opcodeCosts host
    end.
Proof.
  unfold GasScheduleChange. destruct (CreateGasConfig Decode newGasSchedule) as [err|g].
  - by do 2 eexists.
  - do 2 eexists. split; [reflexivity|]. by split_and!.
Qed.

(** ** Witnesses *)

(** What [mapstructure] does with a map whose keys are spelled like the fields. *)
Definition exact_Decode (gasMap : gmap bytes Z) (fields : list (bytes * Z)) :
    list Z * option error :=
  (map (fun '(n, _) => default 0 (gasMap !! n)) fields, None).

Lemma exact_Decode_decodes : decodes exact_Decode.
Proof. by intros gasMap fields _. Qed.

(** The schedule for tests. *)
Lemma CreateGasConfig_exact_witness :
  exists g, CreateGasConfig exact_Decode MakeGasMapForTests = inr g /\
    values_of "CryptoAPICost" g = prices_in MakeGasMapForTests "CryptoAPICost" CryptoAPICost_fields.
Proof.
  assert (complete MakeGasMapForTests) as Hc by (apply FillGasMap_complete; word_compute).
  pose proof (CreateGasConfig_exact exact_Decode MakeGasMapForTests exact_Decode_decodes Hc) as H.
  destruct (CreateGasConfig exact_Decode MakeGasMapForTests) as [err|g] eqn:E.
  - exfalso. assert (match CreateGasConfig exact_Decode MakeGasMapForTests with
      inl _ => false | inr _ => true end = true) as Ht by (vm_compute; reflexivity).
    by rewrite E in Ht.
  - exists g. split; [done|].
    apply (H "CryptoAPICost" CryptoAPICost_fields 64). unfold sections. cbn [In]. tauto.
Defined.

Lemma FillGasMap_accepted_witness :
  exists g, CreateGasConfig exact_Decode (FillGasMap ∅ 7 1000) = inr g /\
    field CryptoAPICost_fields (values_of "CryptoAPICost" g) "VerifyBLS" = 7.
Proof.
  destruct (FillGasMap_accepted exact_Decode ∅ 7 1000 exact_Decode_decodes)
    as (g & Hg & H); [word_compute ..|].
  exists g. split; [done|].
  apply (H "CryptoAPICost" CryptoAPICost_fields 64 "VerifyBLS").
  - unfold sections. cbn [In]. tauto.
  - unfold CryptoAPICost_fields. cbn [In]. tauto.
Defined.
