(* ===== verification/OrderedJson.v ===== *)
(** Ordered JSON: trees whose maps keep the order of their keys
    ([src/scenarios/orderedjson]): the model ([ojModel.go]), the printer
    ([ojToJson.go]) and the parser ([ojParse.go]), a machine with a stack of
    states that reads one character at a time.

    Slices and maps that the parser fills are values.  [ONil] is the nil interface: the
    parser puts none into a map, but the writers of scenarios may. *)
From stdpp Require Import sorting.
From S2P Require Import Prelude Errors Types State.

#[local] Open Scope Z_scope.

(** ** Characters *)

Definition quote : Byte.byte := Byte.x22.
Definition backslash : Byte.byte := Byte.x5c.
Definition lbrace : Byte.byte := Byte.x7b.
Definition rbrace : Byte.byte := Byte.x7d.
Definition lbracket : Byte.byte := Byte.x5b.
Definition rbracket : Byte.byte := Byte.x5d.
Definition comma : Byte.byte := Byte.x2c.
Definition colon : Byte.byte := Byte.x3a.
Definition newline : Byte.byte := Byte.x0a.
Definition space : Byte.byte := Byte.x20.

Definition byte_eqb (a b : Byte.byte) : bool := bool_decide (a = b).

Definition isWhitespace (c : Byte.byte) : bool :=
  byte_eqb c space || byte_eqb c newline || byte_eqb c Byte.x0d || byte_eqb c Byte.x09.

(** ** The model *)

(** [OMap keySet orderedKV] *)
#[local] Unset Elimination Schemes.
Inductive OJsonObject :=
| OMap (KeySet : gset bytes) (OrderedKV : list (bytes * OJsonObject))
| OList (items : list OJsonObject)
| OString (Value : bytes)
| OBool (b : bool)
| ONil.
#[local] Set Elimination Schemes.

(** Induction through the lists. *)
Fixpoint OJsonObject_ind (P : OJsonObject -> Prop)
    (Hmap : forall s kv, Forall (fun p => P (snd p)) kv -> P (OMap s kv))
    (Hlist : forall l, Forall P l -> P (OList l))
    (Hstring : forall v, P (OString v)) (Hbool : forall b, P (OBool b)) (Hnil : P ONil)
    (j : OJsonObject) : P j :=
  match j with
  | OMap s kv => Hmap s kv
      ((fix go (kv : list (bytes * OJsonObject)) : Forall (fun p => P (snd p)) kv :=
          match kv with
          | [] => List.Forall_nil _
          | p :: kv' =>
              List.Forall_cons _ _ _ (OJsonObject_ind P Hmap Hlist Hstring Hbool Hnil (snd p)) (go kv')
          end) kv)
  | OList l => Hlist l
      ((fix go (l : list OJsonObject) : Forall P l :=
          match l with
          | [] => List.Forall_nil _
          | x :: l' => List.Forall_cons _ _ _ (OJsonObject_ind P Hmap Hlist Hstring Hbool Hnil x) (go l')
          end) l)
  | OString v => Hstring v
  | OBool b => Hbool b
  | ONil => Hnil
  end.

(** [OJsonMap] *)
Record OJsonMap := mkOJsonMap {
  KeySet : gset bytes;
  OrderedKV : list (bytes * OJsonObject);
}.

Definition NewMap : OJsonMap := mkOJsonMap ∅ [].

Definition Put (key : bytes) (value : OJsonObject) (j : OJsonMap) : OJsonMap :=
  if bool_decide (key ∈ KeySet j) then j
  else mkOJsonMap ({[key]} ∪ KeySet j) (OrderedKV j ++ [(key, value)]).

Definition Size (j : OJsonMap) : Z := len (OrderedKV j).

Definition RefreshKeySet (j : OJsonMap) : OJsonMap :=
  mkOJsonMap (fold_left (fun keys kv => {[fst kv]} ∪ keys) (OrderedKV j) ∅) (OrderedKV j).

(** The order of Go strings. *)
Fixpoint string_leb (a b : bytes) : bool :=
  match a, b with
  | [], _ => true
  | _ :: _, [] => false
  | x :: a', y :: b' =>
      if Z_of_byte x <? Z_of_byte y then true
      else if Z_of_byte y <? Z_of_byte x then false
      else string_leb a' b'
  end.

Definition key_le (p q : bytes * OJsonObject) : Prop := string_leb (fst p) (fst q) = true.
#[global] Instance key_le_dec p q : Decision (key_le p q) := decide (string_leb _ _ = true).

(** [sort.Slice] by key; the keys of a map are distinct, so their order is the only
    one. *)
Definition KeyValuePairsSortedByKey (j : OJsonMap) : list (bytes * OJsonObject) :=
  sorting.merge_sort key_le (OrderedKV j).

(** ** Printing *)

Definition addIndent (indent : nat) : bytes := concat (replicate indent (bs "    ")).

Definition string_text (v : bytes) : bytes := quote :: v ++ [quote].

(** The loops of [writeJSON], on a line each. *)
Definition write_items (write : OJsonObject -> bytes) (indent : nat) :=
  fix go (l : list OJsonObject) : bytes :=
    match l with
    | [] => []
    | child :: rest =>
        [newline] ++ addIndent indent ++ write child ++
        match rest with [] => [] | _ :: _ => [comma] ++ go rest end
    end.

Definition write_pairs (write : OJsonObject -> bytes) (indent : nat) :=
  fix go (kv : list (bytes * OJsonObject)) : bytes :=
    match kv with
    | [] => []
    | (key, value) :: rest =>
        [newline] ++ addIndent indent ++ string_text key ++ [colon; space] ++ write value ++
        match rest with [] => [] | _ :: _ => [comma] ++ go rest end
    end.

(** A nil value of a map is written as nothing.  A nil item of a list, or a nil tree by
    itself, panics: what makes lists and prints trees sees to it ([ScenWrite.item]). *)
Fixpoint writeJSON (j : OJsonObject) (indent : nat) : bytes :=
  match j with
  | OMap _ [] => [lbrace; rbrace]
  | OMap _ kv =>
      [lbrace] ++ write_pairs (fun value => writeJSON value (S indent)) (S indent) kv ++
      [newline] ++ addIndent indent ++ [rbrace]
  | OList [] => [lbracket; rbracket]
  | OList l =>
      [lbracket] ++ write_items (fun child => writeJSON child (S indent)) (S indent) l ++
      [newline] ++ addIndent indent ++ [rbracket]
  | OString v => string_text v
  | OBool b => if b then bs "true" else bs "false"
  | ONil => []
  end.

Definition JSONString (j : OJsonObject) : bytes := writeJSON j 0.

(** ** Parsing *)

Inductive jsonParserState :=
| AnyObjPlaceholder
| SingleValue (buffer : bytes) (stringEscape : bool)
| StateMap (currentMap : OJsonMap)
| StateList (list : list OJsonObject)
| MapKeyValue (keyBuffer : bytes) (state : Z).

(** [stateStack], the top first, and [pendingResult]. *)
Record parser := mkparser {
  stateStack : list jsonParserState;
  pendingResult : option OJsonObject;
}.

Definition starts_with (c : Byte.byte) (s : bytes) : bool :=
  match s with [] => false | x :: _ => byte_eqb x c end.
Definition ends_with (c : Byte.byte) (s : bytes) : bool :=
  match list.last s with None => false | Some x => byte_eqb x c end.

(** [s[1 : len(s)-1]]: out of range for a string of one character. *)
Definition unquote (s : bytes) : option bytes :=
  if len s <? 2 then None else Some (slice s 1 (len s - 1)).

(** What a transition gives: the character is used up ([done]) or looked at
    again, or parsing ends with an error. *)
Inductive transition :=
| Done (p : parser)
| Again (p : parser)
| Failed (err : error)
| Panics.

Definition invalid (s : string) : transition := Failed (ErrNew (bs s)).

Definition finalize (buffer : bytes) : outcome (option OJsonObject * option error) :=
  if starts_with quote buffer && ends_with quote buffer then
    match unquote buffer with
    | None => Panic
    | Some str => Ret (Some (OString str), None)
    end
  else if bool_decide (buffer = bs "true") then Ret (Some (OBool true), None)
  else if bool_decide (buffer = bs "false") then Ret (Some (OBool false), None)
  else Ret (None, Some (ErrNew (bs "Invalid value: " ++ buffer))).

(** [stateStack.pop(); pendingResult, err = finalize()] *)
Definition finish_value (buffer : bytes) (stack : list jsonParserState)
    (k : parser -> transition) : transition :=
  match finalize buffer with
  | Ret (result, None) => k (mkparser stack result)
  | Ret (_, Some err) => Failed err
  | _ => Panics
  end.

Definition closes_value (c : Byte.byte) : bool :=
  byte_eqb c rbracket || byte_eqb c rbrace || byte_eqb c comma || isWhitespace c.

(** The body of the inner loop, for the character [c] after [prev]. *)
Definition step (prev c : Byte.byte) (p : parser) : transition :=
  match stateStack p with
  | [] =>
      if isWhitespace c then Done p else invalid "unexpected characters at the end"
  | AnyObjPlaceholder :: stack =>
      match pendingResult p with
      | Some _ => invalid "invalid state"
      | None =>
          let replaceTop s := mkparser (s :: stack) None in
          if isWhitespace c then Done p
          else if byte_eqb c lbrace then Done (replaceTop (StateMap NewMap))
          else if byte_eqb c lbracket then Done (replaceTop (StateList []))
          else if byte_eqb c rbracket || byte_eqb c rbrace || byte_eqb c comma then
            invalid "misplaced character"
          else Again (replaceTop (SingleValue [] false))
      end
  | SingleValue buffer stringEscape :: stack =>
      let write escape := mkparser (SingleValue (buffer ++ [c]) escape :: stack) (pendingResult p) in
      match buffer with
      | [] => Done (write (byte_eqb c quote))
      | _ :: _ =>
          if stringEscape then
            if byte_eqb c quote && negb (byte_eqb prev backslash) then
              finish_value (buffer ++ [c]) stack Done
            else Done (write stringEscape)
          else if closes_value c then finish_value buffer stack Again
          else Done (write stringEscape)
      end
  | StateList list :: stack =>
      let list := list ++ match pendingResult p with Some result => [result] | None => [] end in
      if isWhitespace c then Done (mkparser (StateList list :: stack) None)
      else if byte_eqb c rbracket then Done (mkparser stack (Some (OList list)))
      else
        match list with
        | [] => Again (mkparser (AnyObjPlaceholder :: StateList list :: stack) None)
        | _ :: _ =>
            if byte_eqb c comma then
              Done (mkparser (AnyObjPlaceholder :: StateList list :: stack) None)
            else Done (mkparser (StateList list :: stack) None)
        end
  | StateMap currentMap :: stack =>
      if isWhitespace c then Done p
      else if byte_eqb c rbrace then
        Done (mkparser stack (Some (OMap (KeySet currentMap) (OrderedKV currentMap))))
      else if byte_eqb c comma then
        Done (mkparser (MapKeyValue [] 0 :: stateStack p) (pendingResult p))
      else if Size currentMap =? 0 then
        Again (mkparser (MapKeyValue [] 0 :: stateStack p) (pendingResult p))
      else invalid "invalid map state"
  | MapKeyValue keyBuffer state :: stack =>
      let next keyBuffer state :=
        Done (mkparser (MapKeyValue keyBuffer state :: stack) (pendingResult p)) in
      if state =? 0 then
        match keyBuffer with
        | [] =>
            if isWhitespace c then Done p
            else if negb (byte_eqb c quote) then invalid "map key must start with a quote"
            else next [c] 0
        | _ :: _ =>
            next (keyBuffer ++ [c])
              (if byte_eqb c quote && negb (byte_eqb prev backslash) then 1 else 0)
        end
      else if state =? 1 then
        if isWhitespace c then Done p
        else if byte_eqb c colon then
          Done (mkparser (AnyObjPlaceholder :: MapKeyValue keyBuffer 2 :: stack) (pendingResult p))
        else invalid "invalid character in map definition, colon expected"
      else if state =? 2 then
        match pendingResult p with
        | None => invalid "missing value in map"
        | Some value =>
            if negb (starts_with quote keyBuffer) || negb (ends_with quote keyBuffer) then
              invalid "map key should be a string enclosed in quotes"
            else
              match unquote keyBuffer, stack with
              | Some key, StateMap currentMap :: below =>
                  Again (mkparser (StateMap (Put key value currentMap) :: below) None)
              | Some _, _ :: _ => invalid "map key value state, but no map state underneath"
              | _, _ => Panics
              end
        end
      else invalid "unknown jsonStateMapKeyValue state"
  end.

(** [for !done { ... }] *)
Fixpoint loop (fuel : nat) (prev c : Byte.byte) (p : parser) : outcome (error + parser) :=
  match fuel with
  | O => OutOfFuel
  | S fuel' =>
      match step prev c p with
      | Done p' => Ret (inr p')
      | Again p' => loop fuel' prev c p'
      | Failed err => Ret (inl err)
      | Panics => Panic
      end
  end.

(** A character that is looked at again pops a state, or is used up after three
    rounds. *)
Definition read_char (prev c : Byte.byte) (p : parser) : outcome (error + parser) :=
  loop (3 + length (stateStack p)) prev c p.

(** [for i, c := range input]; [prev] is [input[i-1]]. *)
Fixpoint read_all (prev : Byte.byte) (input : bytes) (p : parser) : outcome (error + parser) :=
  match input with
  | [] => Ret (inr p)
  | c :: rest =>
      match read_char prev c p with
      | Ret (inr p') => read_all c rest p'
      | r => r
      end
  end.

Definition initial : parser := mkparser [AnyObjPlaceholder] None.

(** [input[-1]] does not exist and is not read: no buffer has a character yet. *)
Definition ParseOrderedJSON (input : bytes) : outcome (option OJsonObject * option error) :=
  match read_all Byte.x00 input initial with
  | Ret (inr p) =>
      match stateStack p with
      | [] => Ret (pendingResult p, None)
      | _ :: _ => Ret (None, Some (ErrNew (bs "state stack should be empty at the end")))
      end
  | Ret (inl err) => Ret (None, Some err)
  | Panic => Panic
  | OutOfFuel => OutOfFuel
  end.
