(* ===== verification/OrderedJsonProps.v ===== *)
(** The parser and the printer of ordered JSON ([OrderedJson]): parsing always
    ends, without a panic, and reads back what was printed. *)
From S2P Require Import Prelude Errors Types State OrderedJson.

#[local] Open Scope Z_scope.
#[local] Set Warnings "-clear-no-such-hyp".

(** ** Rounds of the inner loop *)

Definition bound (p : parser) : nat :=
  match stateStack p with
  | [] => 1
  | AnyObjPlaceholder :: _ => 2
  | SingleValue [] _ :: _ => 1
  | SingleValue (_ :: _) _ :: stack => 4 + length stack
  | StateMap _ :: _ => 2
  | StateList _ :: _ => 3
  | MapKeyValue _ state :: stack => if state =? 2 then 4 + length stack else 1
  end.

Lemma bound_stack p : (bound p <= 3 + length (stateStack p))%nat.
Proof.
  unfold bound. destruct (stateStack p) as [|[| [|x b] e |m|l|kb s] stack]; cbn; try lia.
  destruct (s =? 2); lia.
Qed.

Lemma finish_value_Done buffer stack p' : finish_value buffer stack Done <> Again p'.
Proof. unfold finish_value. by destruct (finalize buffer) as [[r [e|]]| |]. Qed.

Lemma finish_value_stack buffer stack p' :
  finish_value buffer stack Again = Again p' -> stateStack p' = stack.
Proof.
  unfold finish_value. destruct (finalize buffer) as [[r [e|]]| |]; try done.
  by intros [= <-].
Qed.

(** A character that is looked at again finds a smaller bound. *)
Lemma step_bound prev c p p' : step prev c p = Again p' -> (bound p' < bound p)%nat.
Proof.
  unfold step, bound at 2.
  destruct (stateStack p) as [|[| [|x b] e |m|l|kb s] stack] eqn:Es.
  - by case_match.
  - repeat case_match; try done; intros [= <-]; cbn; lia.
  - done.
  - destruct e; [case_match; [by intros ?%finish_value_Done | done]|].
    destruct (closes_value c); [|done]. intros H%finish_value_stack.
    pose proof (bound_stack p'). rewrite H in *. lia.
  - repeat case_match; try done; intros [= <-]; cbn; lia.
  - repeat case_match; try done; intros [= <-]; cbn; lia.
  - cbv zeta.
    destruct (s =? 0) eqn:E0; [repeat case_match; done|].
    destruct (s =? 1) eqn:E1; [repeat case_match; done|].
    destruct (s =? 2) eqn:E2; [|done].
    repeat case_match; try done; intros [= <-]; cbn; lia.
Qed.

Lemma loop_enough prev c n m p :
  (bound p <= n)%nat -> (bound p <= m)%nat -> loop n prev c p = loop m prev c p.
Proof.
  revert m p. induction n as [|n IH]; intros [|m] p Hn Hm; [done|..].
  1-2: unfold bound in *; repeat case_match; lia.
  cbn. destruct (step prev c p) as [p'|p'|e|] eqn:E; try done.
  apply step_bound in E. apply IH; lia.
Qed.

Lemma read_char_done prev c p p' : step prev c p = Done p' -> read_char prev c p = Ret (inr p').
Proof. intros H. unfold read_char. cbn. by rewrite H. Qed.

Lemma read_char_again prev c p p' :
  step prev c p = Again p' -> read_char prev c p = read_char prev c p'.
Proof.
  intros H. pose proof (step_bound _ _ _ _ H).
  pose proof (bound_stack p). pose proof (bound_stack p').
  transitivity (loop (2 + length (stateStack p)) prev c p').
  - unfold read_char. change (3 + ?n)%nat with (S (2 + n)). remember (2 + _)%nat. cbn. by rewrite H.
  - apply loop_enough; lia.
Qed.

(** ** Every input is answered *)

(** Buffers of quoted text begin with the quote; a key that is complete ends with
    another one. *)
Definition state_ok (s : jsonParserState) (below : list jsonParserState) : Prop :=
  match s with
  | SingleValue (x :: _) stringEscape => stringEscape = byte_eqb x quote
  | MapKeyValue keyBuffer state =>
      (exists m l, below = StateMap m :: l) /\
      if state =? 0 then starts_with quote keyBuffer = true \/ keyBuffer = []
      else exists v, keyBuffer = string_text v
  | _ => True
  end.

Fixpoint stack_ok (l : list jsonParserState) : Prop :=
  match l with
  | [] => True
  | s :: l' => state_ok s l' /\ stack_ok l'
  end.

(** When nothing is left to read into, there is a result. *)
Definition parser_ok (p : parser) : Prop :=
  stack_ok (stateStack p) /\ (stateStack p = [] -> is_Some (pendingResult p)).

Lemma byte_eqb_eq a b : byte_eqb a b = true <-> a = b.
Proof. unfold byte_eqb. apply bool_decide_eq_true. Qed.

Lemma byte_eqb_refl a : byte_eqb a a = true.
Proof. by apply byte_eqb_eq. Qed.

Lemma unquote_text v : unquote (string_text v) = Some v.
Proof.
  unfold unquote, string_text, slice, len. cbn [length]. rewrite length_app. cbn [length].
  destruct (Z.ltb_spec (Z.of_nat (S (length v + 1))) 2); [lia|].
  change (Z.to_nat 1) with 1%nat. rewrite skipn_cons, drop_0.
  replace (Z.to_nat (Z.of_nat (S (length v + 1)) - 1 - 1)) with (length v) by lia.
  by rewrite take_app_length.
Qed.

Lemma ends_with_snoc c s : ends_with c (s ++ [c]) = true.
Proof. unfold ends_with. rewrite last_snoc. apply byte_eqb_refl. Qed.

Lemma finalize_text v : finalize (string_text v) = Ret (Some (OString v), None).
Proof.
  assert (starts_with quote (string_text v) = true) as Hs by apply byte_eqb_refl.
  assert (ends_with quote (string_text v) = true) as He by exact (ends_with_snoc quote (quote :: v)).
  unfold finalize. by rewrite Hs, He, unquote_text.
Qed.

(** A quoted text that just closed, with the quote that opened it. *)
Lemma closed_text x b : byte_eqb x quote = true -> (x :: b) ++ [quote] = string_text b.
Proof. by intros ->%byte_eqb_eq. Qed.

Lemma finish_value_ok buffer stack k :
  starts_with quote buffer = false \/ (exists v, buffer = string_text v) ->
  (forall p, parser_ok p -> match k p with Done p' | Again p' => parser_ok p' | Failed _ => True
                            | Panics => False end) ->
  stack_ok stack ->
  match finish_value buffer stack k with
  | Done p' | Again p' => parser_ok p'
  | Failed _ => True
  | Panics => False
  end.
Proof.
  intros Hb Hk Hs. unfold finish_value.
  assert (exists r, finalize buffer = Ret r /\ (snd r = None -> is_Some (fst r))) as (r & -> & Hr).
  { destruct Hb as [Hb|[v ->]]; [|rewrite finalize_text; by eexists].
    unfold finalize. rewrite Hb. cbn [andb]. repeat case_match; by eexists. }
  destruct r as [result [e|]]; [done|]. apply Hk. split; [done|]. intros _. by apply Hr.
Qed.

Definition transition_ok (t : transition) : Prop :=
  match t with
  | Done p | Again p => parser_ok p
  | Failed _ => True
  | Panics => False
  end.

Lemma step_ok_value prev c buffer escape stack pending :
  stack_ok (SingleValue buffer escape :: stack) ->
  transition_ok (step prev c (mkparser (SingleValue buffer escape :: stack) pending)).
Proof.
  intros [Hs Hst]. cbn [step stateStack pendingResult].
  destruct buffer as [|x b]; [by repeat split|]. cbn in Hs. subst escape.
  destruct (byte_eqb x quote) eqn:Ex.
  - case_match eqn:Ec; [|by repeat split; cbn; rewrite ?Ex].
    apply andb_true_iff in Ec as [->%byte_eqb_eq _].
    apply finish_value_ok; [|done..]. right. exists b. by apply closed_text.
  - case_match; [|by repeat split; cbn; rewrite ?Ex].
    apply finish_value_ok; [|done..]. by left.
Qed.

Lemma step_ok_key prev c keyBuffer state stack pending :
  stack_ok (MapKeyValue keyBuffer state :: stack) ->
  transition_ok (step prev c (mkparser (MapKeyValue keyBuffer state :: stack) pending)).
Proof.
  intros [[(m & l & ->) Hs] Hst]. cbn [step stateStack pendingResult]. cbv zeta.
  assert (forall kb s pending, (if s =? 0 then starts_with quote kb = true \/ kb = []
    else exists v, kb = string_text v) ->
    parser_ok (mkparser (MapKeyValue kb s :: StateMap m :: l) pending)) as Hnext.
  { intros kb s pending' H. split; [|done]. cbn. split; [|done]. by split; [eexists _, _|]. }
  destruct (state =? 0) eqn:E0; [|destruct (state =? 1) eqn:E1; [|destruct (state =? 2) eqn:E2]].
  - destruct keyBuffer as [|x b].
    + case_match; [apply Hnext; rewrite E0; by right|].
      destruct (byte_eqb c quote) eqn:Ec; cbn; [|done]. apply Hnext. by left.
    + destruct Hs as [Hs|]; [|done]. cbn in Hs.
      destruct (byte_eqb c quote && negb (byte_eqb prev backslash)) eqn:Ec; cbn.
      * apply andb_true_iff in Ec as [->%byte_eqb_eq _]. apply Hnext. exists b. by apply closed_text.
      * apply Hnext. by left.
  - case_match; [apply Hnext; by rewrite E0|]. case_match; [|done].
    cbn. destruct (Hnext keyBuffer 2 pending Hs) as [? _]. split; [|done]. by split.
  - destruct pending as [value|]; [|done]. destruct Hs as [v ->].
    assert (starts_with quote (string_text v) = true) as -> by apply byte_eqb_refl.
    assert (ends_with quote (string_text v) = true) as -> by exact (ends_with_snoc quote (quote :: v)).
    cbn [negb orb]. rewrite unquote_text. split; [|done]. cbn in *. by destruct Hst.
  - done.
Qed.

Lemma step_ok prev c p : parser_ok p -> transition_ok (step prev c p).
Proof.
  destruct p as [[|[|buffer escape|m|l|kb s] stack] pending]; intros [Hs Hp];
    cbn [stateStack pendingResult] in *.
  - cbn. by case_match.
  - cbn [step stateStack pendingResult]. destruct Hs as [_ Hs]. repeat case_match; by repeat split.
  - by apply step_ok_value.
  - cbn [step stateStack pendingResult]. destruct Hs as [_ Hs].
    repeat case_match; repeat split; try done; try (by right); by eexists _, _.
  - cbn [step stateStack pendingResult]. destruct Hs as [_ Hs]. cbv zeta.
    repeat case_match; by repeat split.
  - by apply step_ok_key.
Qed.

Lemma read_char_ok prev c p :
  parser_ok p ->
  exists r, read_char prev c p = Ret r /\ match r with inr p' => parser_ok p' | inl _ => True end.
Proof.
  unfold read_char. generalize (bound_stack p). generalize (3 + length (stateStack p))%nat.
  intros n. revert p. induction n as [|n IH]; intros p Hn Hp.
  { unfold bound in Hn. repeat case_match; lia. }
  pose proof (step_ok prev c p Hp) as Hok. cbn.
  destruct (step prev c p) as [p'|p'|e|] eqn:E; [by eexists | | by eexists | done].
  apply step_bound in E. apply IH; [lia | done].
Qed.

Lemma read_all_ok prev input p :
  parser_ok p ->
  exists r, read_all prev input p = Ret r /\ match r with inr p' => parser_ok p' | inl _ => True end.
Proof.
  revert prev p. induction input as [|c input IH]; intros prev p Hp; cbn [read_all]; [by eexists|].
  destruct (read_char_ok prev c p Hp) as ([e|p'] & -> & Hp'); [by eexists | by apply IH].
Qed.

(** ** Composing runs *)

#[local] Opaque read_char.

(** [text], after [prev], takes the parser from [p] to [q]. *)
Definition reads (prev : Byte.byte) (text : bytes) (p q : parser) : Prop :=
  read_all prev text p = Ret (inr q).

Lemma last_default {A} (a : list A) d x y : List.last (d :: a) x = List.last (d :: a) y.
Proof. revert d. induction a as [|e a IH]; intros d; [done | apply (IH e)]. Qed.

Lemma read_all_app prev a b p q :
  reads prev a p q -> read_all prev (a ++ b) p = read_all (List.last a prev) b q.
Proof.
  unfold reads. revert prev p. induction a as [|c a IH]; intros prev p; cbn [read_all app].
  { by intros [= ->]. }
  destruct (read_char prev c p) as [[e|p']| |]; try done. intros H. rewrite (IH c p' H).
  destruct a as [|d a]; [done|]. change (List.last (c :: d :: a) prev) with (List.last (d :: a) prev).
  by rewrite (last_default a d c prev).
Qed.

Lemma reads_app prev a b p q r :
  reads prev a p q -> reads (List.last a prev) b q r -> reads prev (a ++ b) p r.
Proof. intros H1 H2. unfold reads. by rewrite (read_all_app _ _ _ _ _ H1). Qed.

Lemma reads_char prev c p q : step prev c p = Done q -> reads prev [c] p q.
Proof. intros H. unfold reads. cbn [read_all]. by rewrite (read_char_done _ _ _ _ H). Qed.

Lemma reads_cons prev c text p q r :
  read_char prev c p = Ret (inr q) -> reads c text q r -> reads prev (c :: text) p r.
Proof. intros H1 H2. unfold reads. cbn [read_all]. by rewrite H1. Qed.

(** States in which blanks are skipped. *)
Definition skips_blanks (p : parser) : Prop :=
  forall prev c, isWhitespace c = true -> read_char prev c p = Ret (inr p).

Lemma skips_by_step p :
  (forall prev c, isWhitespace c = true -> step prev c p = Done p) -> skips_blanks p.
Proof. intros H prev c Hc. by apply read_char_done, H. Qed.

Lemma reads_blanks prev text p :
  skips_blanks p -> Forall (fun c => isWhitespace c = true) text -> reads prev text p p.
Proof.
  intros Hp Ht. revert prev. induction Ht as [|c text Hc Ht IH]; intros prev; [done|].
  by eapply reads_cons; [apply Hp|].
Qed.

Lemma skips_placeholder stack : skips_blanks (mkparser (AnyObjPlaceholder :: stack) None).
Proof. apply skips_by_step. intros prev c Hc. cbn. by rewrite Hc. Qed.

Lemma skips_list l stack : skips_blanks (mkparser (StateList l :: stack) None).
Proof. apply skips_by_step. intros prev c Hc. cbn. by rewrite Hc, app_nil_r. Qed.

Lemma skips_map m stack pending : skips_blanks (mkparser (StateMap m :: stack) pending).
Proof. apply skips_by_step. intros prev c Hc. cbn. by rewrite Hc. Qed.

Lemma skips_key stack pending : skips_blanks (mkparser (MapKeyValue [] 0 :: stack) pending).
Proof. apply skips_by_step. intros prev c Hc. cbn. by rewrite Hc. Qed.

#[local] Hint Resolve skips_placeholder skips_list skips_map skips_key : core.

Definition line (indent : nat) : bytes := newline :: addIndent indent.

Lemma line_blank indent : Forall (fun c => isWhitespace c = true) (line indent).
Proof.
  apply List.Forall_cons; [done|]. unfold addIndent.
  induction indent as [|n IH]; cbn; [done|]. by repeat (apply List.Forall_cons; [done|]).
Qed.

(** ** Texts in quotes *)

(** A text that can stand between quotes: a quote in it follows a backslash, and
    its last character is not one. *)
Fixpoint quotable (prev : Byte.byte) (v : bytes) : bool :=
  match v with
  | [] => negb (byte_eqb prev backslash)
  | c :: v' => (negb (byte_eqb c quote) || byte_eqb prev backslash) && quotable c v'
  end.

Lemma reads_value_text prev v acc stack :
  quotable prev v = true ->
  reads prev (v ++ [quote]) (mkparser (SingleValue (quote :: acc) true :: stack) None)
    (mkparser stack (Some (OString (acc ++ v)))).
Proof.
  revert prev acc. induction v as [|c v IH]; intros prev acc Hv; cbn [app].
  - apply reads_char. cbn in Hv. cbn. rewrite Hv. cbn.
    unfold finish_value. change (quote :: acc ++ [quote]) with (string_text acc).
    by rewrite finalize_text, app_nil_r.
  - cbn in Hv. apply andb_true_iff in Hv as [Hc Hv].
    eapply reads_cons; [apply read_char_done|].
    + cbn. assert (byte_eqb c quote && negb (byte_eqb prev backslash) = false) as ->; [|reflexivity].
      by destruct (byte_eqb c quote), (byte_eqb prev backslash).
    + rewrite (cons_middle c acc v), (app_assoc acc [c] v). by apply IH.
Qed.

Lemma reads_string prev v stack :
  quotable quote v = true ->
  reads prev (string_text v) (mkparser (AnyObjPlaceholder :: stack) None)
    (mkparser stack (Some (OString v))).
Proof.
  intros Hv. unfold string_text. eapply reads_cons.
  - rewrite (read_char_again _ _ _ (mkparser (SingleValue [] false :: stack) None)) by done.
    by apply read_char_done.
  - by apply (reads_value_text quote v [] stack).
Qed.

Lemma reads_key_text prev v acc stack pending :
  quotable prev v = true ->
  reads prev (v ++ [quote]) (mkparser (MapKeyValue (quote :: acc) 0 :: stack) pending)
    (mkparser (MapKeyValue (string_text (acc ++ v)) 1 :: stack) pending).
Proof.
  revert prev acc. induction v as [|c v IH]; intros prev acc Hv; cbn [app].
  - apply reads_char. cbn in Hv. cbn. by rewrite Hv, app_nil_r.
  - cbn in Hv. apply andb_true_iff in Hv as [Hc Hv].
    eapply reads_cons; [apply read_char_done|].
    + cbn. assert (byte_eqb c quote && negb (byte_eqb prev backslash) = false) as ->; [|reflexivity].
      by destruct (byte_eqb c quote), (byte_eqb prev backslash).
    + rewrite (cons_middle c acc v), (app_assoc acc [c] v). by apply IH.
Qed.

Lemma reads_key prev v stack pending :
  quotable quote v = true ->
  reads prev (string_text v) (mkparser (MapKeyValue [] 0 :: stack) pending)
    (mkparser (MapKeyValue (string_text v) 1 :: stack) pending).
Proof.
  intros Hv. unfold string_text at 1. eapply reads_cons; [by apply read_char_done|].
  by apply (reads_key_text quote v [] stack).
Qed.

(** ** Printed values *)

(** What can be printed and read back: texts that can stand between quotes, keys
    that are distinct, and a key set that lists them. *)
Fixpoint printable (j : OJsonObject) : bool :=
  match j with
  | OMap keySet kv =>
      bool_decide (keySet = list_to_set (map fst kv)) && bool_decide (NoDup (map fst kv)) &&
      forallb (fun '(key, value) => quotable quote key && printable value) kv
  | OList l => forallb printable l
  | OString v => quotable quote v
  | OBool _ => true
  | ONil => false
  end.

(** Reading has reached the end of the value [j]: what follows is read as if [j]
    were pending. *)
Definition completes (q : parser) (stack : list jsonParserState) (j : OJsonObject) : Prop :=
  forall prev c, closes_value c = true ->
    read_char prev c q = read_char prev c (mkparser stack (Some j)).

(** [text] is read as the value [j]. *)
Definition reads_as (text : bytes) (j : OJsonObject) : Prop := forall prev stack,
  exists q, reads prev text (mkparser (AnyObjPlaceholder :: stack) None) q /\ completes q stack j.

(** The end of the text ends the value. *)
Definition reads_to (text : bytes) (j : OJsonObject) : Prop := forall prev stack,
  reads prev text (mkparser (AnyObjPlaceholder :: stack) None) (mkparser stack (Some j)).

Lemma reads_exactly text j : reads_to text j -> reads_as text j.
Proof. intros H prev stack. eexists. by split; [apply H|]. Qed.

Lemma reads_plain prev c acc text stack :
  forallb (fun d => negb (closes_value d)) text = true ->
  reads prev text (mkparser (SingleValue (c :: acc) false :: stack) None)
    (mkparser (SingleValue (c :: acc ++ text) false :: stack) None).
Proof.
  revert prev acc. induction text as [|d text IH]; intros prev acc Ht.
  { by rewrite app_nil_r. }
  cbn [forallb] in Ht. apply andb_true_iff in Ht as [Hd%negb_true_iff Ht].
  eapply reads_cons; [apply read_char_done; cbn [step stateStack]; by rewrite Hd|].
  rewrite (cons_middle d acc text), (app_assoc acc [d] text). by apply IH.
Qed.

Lemma reads_bool (b : bool) : reads_as (if b then bs "true" else bs "false") (OBool b).
Proof.
  intros prev stack.
  exists (mkparser (SingleValue (if b then bs "true" else bs "false") false :: stack) None). split.
  - assert (forall c text, isWhitespace c = false -> byte_eqb c lbrace = false ->
      byte_eqb c lbracket = false -> closes_value c = false -> byte_eqb c quote = false ->
      forallb (fun d => negb (closes_value d)) text = true ->
      reads prev (c :: text) (mkparser (AnyObjPlaceholder :: stack) None)
        (mkparser (SingleValue (c :: text) false :: stack) None)) as Hword.
    { intros c text Hw Hb Hl Hc Hq Ht. eapply reads_cons; [|by apply (reads_plain c c [] text)].
      rewrite (read_char_again _ _ _ (mkparser (SingleValue [] false :: stack) None)).
      - apply read_char_done. cbn. by rewrite Hq.
      - cbn. rewrite Hw, Hb, Hl. unfold closes_value in Hc. rewrite Hw, orb_false_r in Hc.
        by rewrite Hc. }
    by destruct b; apply Hword.
  - intros p c Hc. apply read_char_again.
    destruct b; cbn [step stateStack]; rewrite Hc; reflexivity.
Qed.

(** ** Lists *)

Lemma reads_completed prev c q stack j p :
  completes q stack j -> closes_value c = true ->
  step prev c (mkparser stack (Some j)) = Done p -> reads prev [c] q p.
Proof.
  intros Hq Hc Hs. unfold reads. cbn [read_all]. by rewrite (Hq prev c Hc), (read_char_done _ _ _ _ Hs).
Qed.

Lemma text_head j indent :
  j <> ONil -> exists c text, writeJSON j indent = c :: text /\ isWhitespace c = false /\
    byte_eqb c rbracket = false /\ byte_eqb c comma = false.
Proof. destruct j as [s [|[k v] kv]|[|x l]|v|[]|]; intros Hj; [by do 2 eexists.. | done]. Qed.

(** Nothing is not read as a value. *)
Lemma reads_as_text text j : reads_as text j -> text <> [].
Proof.
  intros H ->. destruct (H Byte.x00 []) as (q & [= <-] & Hc).
  specialize (Hc Byte.x00 comma eq_refl). vm_compute in Hc. discriminate.
Qed.

Lemma reads_as_head j indent :
  reads_as (writeJSON j indent) j ->
  exists c text, writeJSON j indent = c :: text /\ isWhitespace c = false /\
    byte_eqb c rbracket = false /\ byte_eqb c comma = false.
Proof. intros H. apply text_head. intros ->. by apply reads_as_text in H. Qed.

(** A line with a value, where a value is expected. *)
Lemma reads_line text j n prev stack :
  reads_as text j ->
  exists q, reads prev (line n ++ text) (mkparser (AnyObjPlaceholder :: stack) None) q /\
    completes q stack j.
Proof.
  intros Ht. destruct (Ht (List.last (line n) prev) stack) as (q & Hq & Hc).
  exists q. split; [|done]. eapply reads_app; [|exact Hq].
  apply reads_blanks; [done | apply line_blank].
Qed.

Lemma reads_items write n l x prev acc stack :
  Forall (fun j => reads_as (write j) j) (x :: l) ->
  exists q init z, reads prev (write_items write n (x :: l))
      (mkparser (AnyObjPlaceholder :: StateList acc :: stack) None) q /\
    completes q (StateList init :: stack) z /\ init ++ [z] = acc ++ x :: l.
Proof.
  revert x prev acc. induction l as [|y l IH]; intros x prev acc Hall;
    apply List.Forall_cons_iff in Hall as [Hx Hall];
    destruct (reads_line (write x) x n prev (StateList acc :: stack) Hx) as (q & Hq & Hc).
  - exists q, acc, x. split; [|done]. cbn [write_items]. rewrite app_nil_r. exact Hq.
  - set (p := mkparser (AnyObjPlaceholder :: StateList (acc ++ [x]) :: stack) None).
    assert (reads (List.last (line n ++ write x) prev) [comma] q p) as Hcomma.
    { eapply reads_completed; [exact Hc | done |]. unfold p. cbn.
      by destruct (acc ++ [x]) eqn:E; [destruct acc|]. }
    destruct (IH y (List.last [comma] (List.last (line n ++ write x) prev)) (acc ++ [x]) Hall)
      as (r & init & z & Hr & Hcr & Hz).
    exists r, init, z. split; [|split; [done | by rewrite Hz, <- app_assoc]].
    change (write_items write n (x :: y :: l)) with
      (line n ++ write x ++ [comma] ++ write_items write n (y :: l)).
    rewrite app_assoc. eapply reads_app; [exact Hq|]. eapply reads_app; [exact Hcomma | exact Hr].
Qed.

(** Before its first item a list behaves as if the item was already expected. *)
Lemma first_item prev blanks c text stack :
  Forall (fun c => isWhitespace c = true) blanks ->
  isWhitespace c = false -> byte_eqb c rbracket = false ->
  read_all prev (blanks ++ c :: text) (mkparser (StateList [] :: stack) None) =
  read_all prev (blanks ++ c :: text) (mkparser (AnyObjPlaceholder :: StateList [] :: stack) None).
Proof.
  intros Hb Hw Hc.
  rewrite (read_all_app _ _ _ _ _ (reads_blanks prev blanks _ (skips_list [] stack) Hb)).
  rewrite (read_all_app _ _ _ _ _ (reads_blanks prev blanks _ (skips_placeholder _) Hb)).
  cbn [read_all].
  rewrite (read_char_again _ c (mkparser (StateList [] :: stack) None)
    (mkparser (AnyObjPlaceholder :: StateList [] :: stack) None)); [done|].
  cbn. by rewrite Hw, Hc.
Qed.

Lemma items_head write n x l :
  exists text, write_items write n (x :: l) = line n ++ write x ++ text.
Proof. cbn [write_items]. eexists. reflexivity. Qed.

Lemma reads_list l indent :
  Forall (fun j => forall indent, reads_as (writeJSON j indent) j) l ->
  reads_to (writeJSON (OList l) indent) (OList l).
Proof.
  intros Hall prev stack. destruct l as [|x l].
  { eapply reads_cons; [by apply read_char_done | by apply reads_char]. }
  set (write := fun child => writeJSON child (S indent)).
  destruct (reads_items write (S indent) l x lbracket [] stack) as (q & init & z & Hq & Hc & Hz).
  { eapply List.Forall_impl; [|exact Hall]. intros j Hj. apply Hj. }
  change (writeJSON (OList (x :: l)) indent) with
    (lbracket :: write_items write (S indent) (x :: l) ++ line indent ++ [rbracket]).
  eapply reads_cons; [by apply read_char_done|]. eapply reads_app.
  - unfold reads in *. rewrite <- Hq. destruct (items_head write (S indent) x l) as [text ->].
    destruct (reads_as_head x (S indent)) as (c & t & Ht & Hw & Hr & _).
    { exact (List.Forall_inv Hall (S indent)). }
    change (write x) with (writeJSON x (S indent)). rewrite Ht, <- app_comm_cons. apply first_item; [apply line_blank | done..].
  - set (p := mkparser (StateList ([] ++ x :: l) :: stack) None).
    change (line indent ++ [rbracket]) with ([newline] ++ addIndent indent ++ [rbracket]).
    eapply reads_app; [|eapply reads_app].
    + eapply (reads_completed _ _ _ _ _ p); [exact Hc | done |]. cbn. by rewrite Hz.
    + apply reads_blanks; [apply skips_list|]. by apply (List.Forall_inv_tail (line_blank indent)).
    + apply reads_char. cbn. by rewrite app_nil_r.
Qed.

(** ** Maps *)

(** The map after the pairs [kv]. *)
Definition put_all (kv : list (bytes * OJsonObject)) (m : OJsonMap) : OJsonMap :=
  fold_left (fun m '(key, value) => Put key value m) kv m.

Definition pair_ok (write : OJsonObject -> bytes) (p : bytes * OJsonObject) : Prop :=
  quotable quote (fst p) = true /\ reads_as (write (snd p)) (snd p).

(** A pair, on a line of its own: then the value is pending under its key. *)
Lemma reads_pair write n key value prev m stack :
  pair_ok write (key, value) ->
  exists q, reads prev (line n ++ string_text key ++ [colon; space] ++ write value)
      (mkparser (MapKeyValue [] 0 :: StateMap m :: stack) None) q /\
    completes q (MapKeyValue (string_text key) 2 :: StateMap m :: stack) value.
Proof.
  intros [Hk Hv]. cbn [fst snd] in *.
  set (below := MapKeyValue (string_text key) 2 :: StateMap m :: stack).
  destruct (Hv space below) as (q & Hq & Hc). exists q. split; [|exact Hc].
  eapply reads_app; [by apply reads_blanks; [apply skips_key | apply line_blank]|].
  eapply reads_app; [by apply reads_key|].
  eapply reads_cons; [by apply read_char_done|].
  eapply reads_cons; [|exact Hq]. by apply skips_placeholder.
Qed.

(** What follows the value of a pair finds the pair in the map. *)
Lemma completes_pair q key value m stack prev c :
  completes q (MapKeyValue (string_text key) 2 :: StateMap m :: stack) value ->
  closes_value c = true ->
  read_char prev c q = read_char prev c (mkparser (StateMap (Put key value m) :: stack) None).
Proof.
  intros Hq Hc. rewrite (Hq prev c Hc). apply read_char_again.
  assert (starts_with quote (string_text key) = true) as Hs by apply byte_eqb_refl.
  assert (ends_with quote (string_text key) = true) as He
    by exact (ends_with_snoc quote (quote :: key)).
  unfold step. cbn [stateStack pendingResult Z.eqb]. by rewrite Hs, He, unquote_text.
Qed.

Lemma reads_pairs write n kv key value prev m stack :
  Forall (pair_ok write) ((key, value) :: kv) ->
  exists q, reads prev (write_pairs write n ((key, value) :: kv))
      (mkparser (MapKeyValue [] 0 :: StateMap m :: stack) None) q /\
    forall prev c, closes_value c = true ->
      read_char prev c q =
      read_char prev c (mkparser (StateMap (put_all ((key, value) :: kv) m) :: stack) None).
Proof.
  revert key value prev m. induction kv as [|[key' value'] kv IH]; intros key value prev m Hall;
    apply List.Forall_cons_iff in Hall as [Hx Hall];
    destruct (reads_pair write n key value prev m stack Hx) as (q & Hq & Hc).
  - exists q. split; [|intros; by apply completes_pair]. cbn [write_pairs]. rewrite app_nil_r. exact Hq.
  - set (text := line n ++ string_text key ++ [colon; space] ++ write value) in *.
    set (m' := Put key value m).
    assert (reads (List.last text prev) [comma] q
      (mkparser (MapKeyValue [] 0 :: StateMap m' :: stack) None)) as Hcomma.
    { unfold reads. cbn [read_all]. rewrite (completes_pair _ _ _ _ _ _ comma Hc) by done.
      by rewrite (read_char_done _ _ _ (mkparser (MapKeyValue [] 0 :: StateMap m' :: stack) None)). }
    destruct (IH key' value' (List.last [comma] (List.last text prev)) m' Hall) as (r & Hr & Hcr).
    exists r. split; [|exact Hcr].
    assert (write_pairs write n ((key, value) :: (key', value') :: kv) =
      text ++ [comma] ++ write_pairs write n ((key', value') :: kv)) as ->.
    { unfold text. cbn [write_pairs]. by rewrite <- !app_assoc. }
    eapply reads_app; [exact Hq|]. eapply reads_app; [exact Hcomma | exact Hr].
Qed.

(** Before its first pair a map behaves as if the pair was already expected. *)
Lemma first_pair prev blanks text stack :
  Forall (fun c => isWhitespace c = true) blanks ->
  read_all prev (blanks ++ quote :: text) (mkparser (StateMap NewMap :: stack) None) =
  read_all prev (blanks ++ quote :: text)
    (mkparser (MapKeyValue [] 0 :: StateMap NewMap :: stack) None).
Proof.
  intros Hb.
  rewrite (read_all_app _ _ _ _ _ (reads_blanks prev blanks _ (skips_map NewMap stack None) Hb)).
  rewrite (read_all_app _ _ _ _ _ (reads_blanks prev blanks _ (skips_key _ None) Hb)).
  cbn [read_all].
  by rewrite (read_char_again _ quote (mkparser (StateMap NewMap :: stack) None)
    (mkparser (MapKeyValue [] 0 :: StateMap NewMap :: stack) None)).
Qed.

Lemma put_all_app kv m :
  NoDup (map fst kv) -> (forall key, In key (map fst kv) -> key ∉ KeySet m) ->
  put_all kv m = mkOJsonMap (list_to_set (map fst kv) ∪ KeySet m) (OrderedKV m ++ kv).
Proof.
  revert m. induction kv as [|[key value] kv IH]; intros [keys l] Hnd Hfresh.
  - unfold put_all. cbn. rewrite app_nil_r. f_equal. set_solver.
  - inversion_clear Hnd as [|? ? Hnot Hnd']. cbn [map fst] in *.
    change (put_all ((key, value) :: kv) (mkOJsonMap keys l))
      with (put_all kv (Put key value (mkOJsonMap keys l))).
    assert (key ∉ keys) as Hk by (apply Hfresh; by left).
    unfold Put. cbn [KeySet OrderedKV]. rewrite bool_decide_eq_false_2 by done.
    rewrite IH; [|done|].
    + cbn [KeySet OrderedKV]. rewrite <- app_assoc. f_equal. set_solver.
    + intros key' Hin. cbn. assert (key' ∉ keys) by (apply Hfresh; by right).
      assert (key' <> key) by (intros ->; apply Hnot; by apply list_elem_of_In). set_solver.
Qed.

Lemma put_all_new kv :
  NoDup (map fst kv) -> put_all kv NewMap = mkOJsonMap (list_to_set (map fst kv)) kv.
Proof.
  intros Hnd. rewrite put_all_app; [|done|set_solver]. cbn. f_equal. set_solver.
Qed.

Lemma pairs_head write n key value kv :
  exists text, write_pairs write n ((key, value) :: kv) = line n ++ quote :: text.
Proof. eexists. cbn [write_pairs]. unfold line, string_text. cbn. reflexivity. Qed.

Lemma reads_map kv indent :
  NoDup (map fst kv) ->
  Forall (fun p => quotable quote (fst p) = true /\
    forall indent, reads_as (writeJSON (snd p) indent) (snd p)) kv ->
  let j := OMap (list_to_set (map fst kv)) kv in
  reads_to (writeJSON j indent) j.
Proof.
  intros Hnd Hall. cbv zeta. intros prev stack. destruct kv as [|[key value] kv].
  { eapply reads_cons; [by apply read_char_done | by apply reads_char]. }
  set (write := fun child => writeJSON child (S indent)).
  destruct (reads_pairs write (S indent) kv key value lbrace NewMap stack) as (q & Hq & Hc).
  { eapply List.Forall_impl; [|exact Hall]. intros p [Hk Hv]. split; [done | apply Hv]. }
  rewrite (put_all_new _ Hnd) in Hc.
  change (writeJSON (OMap ?s ((key, value) :: kv)) indent) with
    (lbrace :: write_pairs write (S indent) ((key, value) :: kv) ++ line indent ++ [rbrace]).
  eapply reads_cons; [by apply read_char_done|]. eapply reads_app.
  - unfold reads in *. rewrite <- Hq. destruct (pairs_head write (S indent) key value kv) as [text ->].
    apply first_pair, line_blank.
  - set (p := mkparser (StateMap (mkOJsonMap (list_to_set (map fst ((key, value) :: kv)))
      ((key, value) :: kv)) :: stack) None) in *.
    change (line indent ++ [rbrace]) with ([newline] ++ addIndent indent ++ [rbrace]).
    eapply reads_app; [|eapply reads_app].
    + unfold reads. cbn [read_all]. rewrite (Hc _ newline eq_refl). unfold p.
      by rewrite (skips_map _ _ _ _ newline eq_refl).
    + apply reads_blanks; [apply skips_map|]. by apply (List.Forall_inv_tail (line_blank indent)).
    + by apply reads_char.
Qed.

(** But for a bool, whose end only shows in what follows. *)
Lemma printable_reads j : printable j = true -> forall indent,
  match j with
  | OBool _ => reads_as (writeJSON j indent) j
  | _ => reads_to (writeJSON j indent) j
  end.
Proof.
  induction j as [s kv IH|l IH|v|b|] using OJsonObject_ind; cbn [printable]; intros Hp indent.
  - apply andb_true_iff in Hp as [[Hs Hnd]%andb_true_iff Hkv].
    apply bool_decide_eq_true_1 in Hs as ->. apply bool_decide_eq_true_1 in Hnd.
    apply reads_map; [done|]. rewrite forallb_forall in Hkv. rewrite List.Forall_forall in IH |- *.
    intros [key value] Hin. specialize (Hkv _ Hin). cbn in *.
    apply andb_true_iff in Hkv as [? Hv]. split; [done|]. intros n.
    specialize (IH _ Hin Hv n). destruct value; first [exact IH | exact (reads_exactly _ _ IH)].
  - apply reads_list. rewrite forallb_forall in Hp. rewrite List.Forall_forall in IH |- *.
    intros j Hin n. specialize (IH _ Hin (Hp _ Hin) n). destruct j; first [exact IH | exact (reads_exactly _ _ IH)].
  - intros prev stack. by apply reads_string.
  - apply reads_bool.
  - done.
Qed.

Lemma ParseOrderedJSON_returns input : exists r, ParseOrderedJSON input = Ret r.
Proof.
  unfold ParseOrderedJSON.
  destruct (read_all_ok Byte.x00 input initial) as ([e|p] & -> & Hp); [by repeat split | by eexists |].
  destruct Hp as [_ Hp]. destruct (stateStack p); by eexists.
Qed.

(** ** Properties *)

(** Whatever the input, parsing ends - the inner loop never needs more rounds
    than its bound - without a panic, and gives a tree or an error, never both and
    never neither. *)
Theorem ParseOrderedJSON_total input :
  exists r, ParseOrderedJSON input = Ret r /\
    match r with
    | (Some _, None) | (None, Some _) => True
    | _ => False
    end.
Proof.
  unfold ParseOrderedJSON.
  destruct (read_all_ok Byte.x00 input initial) as ([e|p] & -> & Hp);
    [by repeat split | by eexists |].
  destruct Hp as [_ Hp]. destruct (stateStack p); [|by eexists].
  destruct (Hp eq_refl) as [j ->]. by eexists.
Qed.

(** A tree that is printed is read back, in the order of its maps and with
    their key sets, whatever its shape and depth - a list or a map, or a text by
    itself: a bool by itself has nothing after it that could close it. *)
Theorem JSONString_roundtrip j :
  printable j = true -> (forall b, j <> OBool b) ->
  ParseOrderedJSON (JSONString j) = Ret (Some j, None).
Proof.
  intros Hp Hj. unfold ParseOrderedJSON, JSONString, initial.
  pose proof (printable_reads j Hp 0) as H.
  by destruct j as [s kv|l|v|b|]; [..|by destruct (Hj b)|done]; rewrite (H Byte.x00 []).
Qed.

(** After the first item of a list, anything but a comma or a closing bracket
    is skipped: what stands between an item and the next comma is lost, without an
    error. *)
Theorem list_skips_junk prev junk x l stack :
  Forall (fun c => c <> comma /\ c <> rbracket) junk ->
  read_all prev junk (mkparser (StateList (x :: l) :: stack) None) =
    Ret (inr (mkparser (StateList (x :: l) :: stack) None)).
Proof.
  intros Hj. revert prev. induction Hj as [|c junk [Hc Hr] Hj IH]; intros prev; [done|].
  cbn [read_all]. rewrite (read_char_done _ _ _ (mkparser (StateList (x :: l) :: stack) None)); [done|].
  cbn. rewrite app_nil_r. case_match; [done|].
  assert (byte_eqb c rbracket = false) as ->.
  { destruct (byte_eqb c rbracket) eqn:E; [|done]. by apply byte_eqb_eq in E. }
  assert (byte_eqb c comma = false) as ->; [|done].
  destruct (byte_eqb c comma) eqn:E; [|done]. by apply byte_eqb_eq in E.
Qed.

(** ** Witnesses *)

Definition sample_tree : OJsonObject :=
  let kv := [(bs "b", OString (bs "x")); (bs "a", OList [OBool true; OList []; OMap ∅ []])] in
  OMap (list_to_set (map fst kv)) kv.

Lemma JSONString_roundtrip_witness :
  ParseOrderedJSON (JSONString sample_tree) = Ret (Some sample_tree, None).
Proof. apply (JSONString_roundtrip sample_tree); [vm_compute; reflexivity | discriminate]. Defined.

(** [["a" junk: read as [["a"]. *)
Lemma list_skips_junk_witness :
  read_all space (bs "junk") (mkparser [StateList [OString (bs "a")]] None) =
    Ret (inr (mkparser [StateList [OString (bs "a")]] None)).
Proof.
  apply (list_skips_junk space (bs "junk") (OString (bs "a")) [] []).
  repeat apply List.Forall_cons; try (split; discriminate). constructor.
Defined.
