(* ===== verification/Hooks.v ===== *)
(** What a running contract can do: the operations of the contexts that the
    functions exported to WebAssembly ([src/vmhost/vmhooks],
    [src/vmhost/cryptoapi]) are composed of, and the hypothesis on wasmer that
    the theorems about nested executions rely on.

    The code of a contract is outside the repository.  It runs in a sandbox
    whose only way out is its imports, so whatever every operation preserves, a
    run of it preserves: [sandboxed]. *)
From S2P Require Import Prelude Errors Overflow Helpers Types State Logic Toy BigInt Runtime.
From S2P Require Import Output Metering Blockchain Transfers Storage Validator RuntimeExec.
From S2P Require Import Builtin AsyncCall.

#[local] Open Scope Z_scope.

Section Hooks.
Context `{Ext : Externals}.

(** [op_instance] is the code itself: it writes its memory, burns gas points
    and stops at breakpoints.  [op_bigInt] are the operations of the big-integer
    context, which change the numbers behind the handles. *)
Inductive hook_op : forall {A}, M A -> Prop :=
| op_read {A} (f : HostState -> A) : hook_op (gets f)
| op_instance f : hook_op (modify_instance f)
| op_bigInt f : hook_op (modify_bigInt (fun c => set_bi_values (f (bi_values c)) c))
| op_GetOne h : hook_op (bigInt_GetOne h)
| op_SetValue h v : hook_op (bigInt_SetValue h v)
| op_Put v : hook_op (bigInt_Put v)
| op_MemLoad offset length : hook_op (Runtime.MemLoad offset length)
| op_MemLoadMultiple offset lengths : hook_op (Runtime.MemLoadMultiple offset lengths)
| op_MemStore offset data : hook_op (Runtime.MemStore offset data)
| op_SetReadOnly b : hook_op (Runtime.SetReadOnly b)
| op_SetRuntimeBreakpointValue b : hook_op (Runtime.SetRuntimeBreakpointValue b)
| op_UseGas gas : hook_op (Metering.UseGas gas)
| op_GasLeft : hook_op Metering.GasLeft
| op_BoundGasLimit v : hook_op (Metering.BoundGasLimit v)
| op_WithFaultAndHost e b : hook_op (RuntimeExec.WithFaultAndHost e b)
| op_FailExecution e : hook_op (RuntimeExec.FailExecution e)
| op_SignalUserError m : hook_op (RuntimeExec.SignalUserError m)
| op_ExecuteAsyncCall a d v : hook_op (RuntimeExec.ExecuteAsyncCall a d v)
| op_AddAsyncContextCall i c : hook_op (RuntimeExec.AddAsyncContextCall i c)
| op_GetAsyncContext i : hook_op (RuntimeExec.GetAsyncContext i)
| op_modify_async_info f : hook_op (RuntimeExec.modify_async_info f)
| op_GetStorage k : hook_op (Storage.GetStorage k)
| op_GetStorageFromAddress a k : hook_op (Storage.GetStorageFromAddress a k)
| op_GetStorageUnmetered k : hook_op (Storage.GetStorageUnmetered k)
| op_SetStorage k v : hook_op (Storage.SetStorage k v)
| op_SetProtectedStorage k v : hook_op (Storage.SetProtectedStorage k v)
| op_Transfer d s gl gk v i t : hook_op (Transfer d s gl gk v i t)
| op_TransferESDT d s t n v i : hook_op (TransferESDT d s t n v i)
| op_WriteLog a t d : hook_op (WriteLog a t d)
| op_Finish d : hook_op (modify_output (Output.Finish d))
| op_GetBalance a : hook_op (Blockchain.GetBalance a)
| op_GetCode a : hook_op (Blockchain.GetCode a)
| op_BlockHash n : hook_op (Blockchain.BlockHash n)
| op_GetOwnerAddress : hook_op Blockchain.GetOwnerAddress
| op_IsSmartContract a : hook_op (Blockchain.IsSmartContract a)
| op_GetShardOfAddress a : hook_op (Blockchain.GetShardOfAddress a)
| op_AreInSameShard a b : hook_op (Blockchain.AreInSameShard a b)
| op_RevertToSnapshot snapshot : hook_op (Blockchain.RevertToSnapshot snapshot).

(** The stacks of the contexts, with what the operations of a contract leave
    alone. *)
Record frame := mkframe {
  fr_bigInt : list (gmap Z Z);
  fr_blockchain : list Z;
  fr_metering : list meteringState;
  fr_output : list VMOutput;
  fr_runtime : list runtimeState;
  fr_instances : list (option nat);
  fr_storage : list bytes;
  fr_address : bytes;
  fr_max : Z;
}.

Definition frame_of (st : HostState) : frame :=
  {| fr_bigInt := bi_stateStack (st_bigInt st);
     fr_blockchain := bc_stateStack (st_blockchain st);
     fr_metering := met_stateStack (st_metering st);
     fr_output := out_stateStack (st_output st);
     fr_runtime := rt_stateStack (st_runtime st);
     fr_instances := instanceStack (st_runtime st);
     fr_storage := sto_stateStack (st_storage st);
     fr_address := sto_address (st_storage st);
     fr_max := maxWasmerInstances (st_runtime st) |}.

(** An operation of the contexts: it leaves the frame alone and needs no fuel. *)
Class Local {A} (m : M A) : Prop := {
  local_keeps : Keeps (same frame_of) m;
  local_nofuel : NoFuel m;
}.

End Hooks.

Ltac head_of t := lazymatch t with ?f _ => head_of f | _ => t end.

(** Case analysis and instances, unfolding the operation otherwise. *)
Ltac keeps_deep := repeat first
  [ keeps_step
  | lazymatch goal with |- Keeps _ ?m => let h := head_of m in unfold h end ].
Ltac nofuel_deep := repeat first
  [ nofuel_step
  | lazymatch goal with |- NoFuel ?m => let h := head_of m in unfold h end ].
Ltac local_op := split; [keeps_deep | nofuel_deep].

Section Local.
Context `{Ext : Externals}.

#[export] Instance get_account_frame a : Keeps (same frame_of) (get_account a).
Proof.
  intros st. unfold get_account, Output.GetOutputAccount, same.
  by destruct (OutputAccounts (outputState (st_output st)) !! a).
Qed.

#[export] Instance bigInt_GetOne_frame h : Keeps (same frame_of) (bigInt_GetOne h).
Proof.
  intros st. unfold bigInt_GetOne, BigInt.GetOne, same.
  by destruct (bi_values (st_bigInt st) !! h).
Qed.

#[export] Instance bigInt_GetOne_nofuel h : NoFuel (bigInt_GetOne h).
Proof. intros st. unfold bigInt_GetOne. by destruct (BigInt.GetOne h (st_bigInt st)). Qed.

#[export] Instance bigInt_Put_frame v : Keeps (same frame_of) (bigInt_Put v).
Proof.
  intros st. unfold bigInt_Put, BigInt.Put, same. by destruct (BigInt.Put_loop _ _ _).
Qed.

#[export] Instance bigInt_Put_nofuel v : NoFuel (bigInt_Put v).
Proof. intros st. unfold bigInt_Put. by destruct (BigInt.Put v _) as [[]|]. Qed.

#[export] Instance modify_instance_frame f : Keeps (same frame_of) (modify_instance f).
Proof. keeps_deep. Qed.

#[export] Instance modify_account_frame a f : Keeps (same frame_of) (modify_account a f).
Proof.
  intros st. unfold modify_account, Output.update_account, same. cbn.
  by unfold Output.GetOutputAccount; destruct (OutputAccounts (outputState (st_output st)) !! a).
Qed.

#[export] Instance DeployCode_frame i : Keeps (same frame_of) (modify_output (Output.DeployCode i)).
Proof.
  intros st. unfold Output.DeployCode, Output.update_account, Output.GetOutputAccount, same.
  cbn. by destruct (OutputAccounts (outputState (st_output st)) !! cdi_ContractAddress i).
Qed.

#[export] Instance ProcessBuiltInFunction_frame i :
  Keeps (same frame_of) (Blockchain.ProcessBuiltInFunction i).
Proof.
  intros st. unfold Blockchain.ProcessBuiltInFunction.
  by destruct (bh_ProcessBuiltInFunction (st_world st) i).
Qed.

#[export] Instance ProcessBuiltInFunction_nofuel i : NoFuel (Blockchain.ProcessBuiltInFunction i).
Proof.
  intros st. unfold Blockchain.ProcessBuiltInFunction.
  by destruct (bh_ProcessBuiltInFunction (st_world st) i).
Qed.

#[export] Instance new_instance_frame inst :
  Keeps (same frame_of) (RuntimeExec.new_instance inst).
Proof. done. Qed.

#[export] Instance new_instance_nofuel inst : NoFuel (RuntimeExec.new_instance inst).
Proof. done. Qed.

#[export] Instance new_asyncContextInfo_frame info :
  Keeps (same frame_of) (Runtime.new_asyncContextInfo info).
Proof. done. Qed.

#[export] Instance new_asyncContextInfo_nofuel info : NoFuel (Runtime.new_asyncContextInfo info).
Proof. done. Qed.

Lemma AddToActiveState_stack o c c' r :
  Output.AddToActiveState o c = Some (c', r) -> out_stateStack c' = out_stateStack c.
Proof.
  unfold Output.AddToActiveState. intros (refund & _ & H)%bind_Some.
  apply bind_Some in H as ([lefts rights] & _ & [= <- _]). done.
Qed.

#[export] Instance add_to_active_state_frame o : Keeps (same frame_of) (add_to_active_state o).
Proof.
  intros st. unfold add_to_active_state, same.
  destruct (Output.AddToActiveState o (st_output st)) as [[c r]|] eqn:E; [|done].
  unfold frame_of. cbn. by rewrite (AddToActiveState_stack _ _ _ _ E).
Qed.

#[export] Instance add_to_active_state_nofuel o : NoFuel (add_to_active_state o).
Proof. intros st. unfold add_to_active_state. by repeat case_match. Qed.

Lemma MemLoadMultiple_loop_local offset lengths results :
  Keeps (same frame_of) (Runtime.MemLoadMultiple_loop offset lengths results) /\
  NoFuel (Runtime.MemLoadMultiple_loop offset lengths results).
Proof.
  revert offset results. induction lengths; intros offset results; cbn; [split; apply _|].
  split; [keeps_deep | nofuel_deep]; apply IHlengths.
Qed.

Lemma hook_op_local {A} (m : M A) : hook_op m -> Local m.
Proof.
  destruct 1; solve [split; apply MemLoadMultiple_loop_local | local_op].
Qed.
End Local.

(** ** Triples

    [ends_in F X P m Q]: a run of [m] from a state with [P] ends in a state with
    [Q] when it returns and in one with [X] when it panics; the fuel can only run
    out when [F].  [triple] says nothing of a panic, which ends the transaction. *)

Section Triple.
Context `{Ext : Externals}.

Definition ends_in {A} (F : Prop) (X P : HostState -> Prop) (m : M A)
    (Q : A -> HostState -> Prop) : Prop :=
  forall st, P st ->
  match m st with
  | (st', Ret a) => Q a st'
  | (st', Panic) => X st'
  | (_, OutOfFuel) => F
  end.

Lemma ends_in_ret {A} (a : A) F X (P : HostState -> Prop) (Q : A -> HostState -> Prop) :
  (forall st, P st -> Q a st) -> ends_in F X P (mret a) Q.
Proof. intros H st HP. cbn. auto. Qed.

Lemma ends_in_bind {A B} (m : M A) (f : A -> M B) F X P Q R :
  ends_in F X P m Q -> (forall a, ends_in F X (Q a) (f a) R) -> ends_in F X P (m ≫= f) R.
Proof.
  intros Hm Hf st HP. cbv [mbind M_bind]. specialize (Hm st HP).
  destruct (m st) as [st' [a| |]]; [by apply Hf | done..].
Qed.

Lemma ends_in_panic {A} F (X P : HostState -> Prop) (Q : A -> HostState -> Prop) :
  (forall st, P st -> X st) -> ends_in F X P panic Q.
Proof. intros H st HP. cbn. auto. Qed.

Lemma ends_in_pre {A} (m : M A) F X (P P' : HostState -> Prop) Q :
  ends_in F X P' m Q -> (forall st, P st -> P' st) -> ends_in F X P m Q.
Proof. intros Hm HP st H. apply Hm; auto. Qed.

Lemma ends_in_post {A} (m : M A) F X P (Q Q' : A -> HostState -> Prop) :
  ends_in F X P m Q' -> (forall a st, Q' a st -> Q a st) -> ends_in F X P m Q.
Proof.
  intros Hm HQ st H. specialize (Hm st H). destruct (m st) as [st' []]; auto.
Qed.

Definition triple {A} (F : Prop) (P : HostState -> Prop) (m : M A)
    (Q : A -> HostState -> Prop) : Prop := ends_in F (fun _ => True) P m Q.

Lemma triple_ret {A} (a : A) F (P : HostState -> Prop) (Q : A -> HostState -> Prop) :
  (forall st, P st -> Q a st) -> triple F P (mret a) Q.
Proof. apply ends_in_ret. Qed.

Lemma triple_bind {A B} (m : M A) (f : A -> M B) F P Q R :
  triple F P m Q -> (forall a, triple F (Q a) (f a) R) -> triple F P (m ≫= f) R.
Proof. apply ends_in_bind. Qed.

Lemma triple_pre {A} (m : M A) F (P P' : HostState -> Prop) Q :
  triple F P' m Q -> (forall st, P st -> P' st) -> triple F P m Q.
Proof. apply ends_in_pre. Qed.

Lemma triple_pure {A} (m : M A) F P (phi : Prop) Q :
  (phi -> triple F P m Q) -> triple F (fun st => P st /\ phi) m Q.
Proof. intros Hm st [H Hphi]. by apply Hm. Qed.

Lemma triple_post {A} (m : M A) F P (Q Q' : A -> HostState -> Prop) :
  triple F P m Q' -> (forall a st, Q' a st -> Q a st) -> triple F P m Q.
Proof. apply ends_in_post. Qed.

Lemma triple_fuel {A} (m : M A) (F F' : Prop) P Q :
  triple F' P m Q -> (F' -> F) -> triple F P m Q.
Proof. intros Hm HF st H. specialize (Hm st H). destruct (m st) as [st' []]; auto. Qed.

Lemma triple_with_defer {A B} (body : M A) (d : option A -> M B) F P Q R :
  triple F P body Q -> NoFuel (d None) -> (forall a, triple F (Q a) (d (Some a)) R) ->
  triple F P (with_defer body d) R.
Proof.
  intros Hb Hn Hd st HP. unfold with_defer. specialize (Hb st HP).
  destruct (body st) as [st' [a| |]]; [by apply Hd | | done].
  specialize (Hn st'). destruct (d None st') as [st'' []]; done.
Qed.

Lemma triple_for_each_err {A} (l : list A) (f : A -> M (option error)) F (P : HostState -> Prop) :
  (forall a, triple F P (f a) (fun _ => P)) -> triple F P (for_each_err l f) (fun _ => P).
Proof.
  intros Hf. induction l as [|a l IH]; cbn; [by apply triple_ret|].
  eapply triple_bind; [apply Hf|]. intros [e|]; [by apply triple_ret | exact IH].
Qed.

Lemma triple_deref {A} (o : option A) F (P : HostState -> Prop) :
  triple F P (deref o) (fun _ => P).
Proof. destruct o; [by apply triple_ret | done]. Qed.

(** The states with a given frame. *)
Definition framed (c : frame) (st : HostState) : Prop := frame_of st = c.

Lemma triple_local {A} (m : M A) F c : Local m -> triple F (framed c) m (fun _ => framed c).
Proof.
  intros [Hk Hn] st Hc. specialize (Hk st). specialize (Hn st). unfold same, framed in *.
  destruct (m st) as [st' []]; cbn in *; [congruence | done..].
Qed.

(** The operations of the host that execute contracts keep [P]. *)
Record api_ends_in (F : Prop) (X P : HostState -> Prop) (api : HostAPI) : Prop := {
  api_dest i : ends_in F X P (api_ExecuteOnDestContext api i) (fun _ => P);
  api_same i : ends_in F X P (api_ExecuteOnSameContext api i) (fun _ => P);
  api_create i : ends_in F X P (api_CreateNewContract api i) (fun _ => P);
}.

Definition api_triple (F : Prop) (P : HostState -> Prop) (api : HostAPI) : Prop :=
  api_ends_in F (fun _ => True) P api.

(** The hypothesis on wasmer: the code of a contract acts on the host through
    its imports only, so that what all of these keep, it keeps - also when it
    panics, where the states with [P] are among those with [X]. *)
Definition sandboxed (wasm : HostAPI -> bytes -> M (option error)) : Prop :=
  forall api f F (X P : HostState -> Prop),
    (forall st, P st -> X st) ->
    (forall A (m : M A), hook_op m -> ends_in F X P m (fun _ => P)) ->
    api_ends_in F X P api ->
    ends_in F X P (wasm api f) (fun _ => P).

End Triple.

(** Derives [triple F (framed c) m (fun _ => framed c)]: the calls of other
    contracts by hypothesis, everything else is an operation of the contexts. *)
Ltac triple_step :=
  first
    [ eassumption
    | lazymatch goal with
      | |- triple _ _ (mret _) _ => by apply triple_ret
      | |- triple _ _ (deref _) _ => apply triple_deref
      | |- triple _ _ (mbind _ _) _ => eapply triple_bind; [|intros ?]
      | |- triple _ _ (for_each_err _ _) _ => apply triple_for_each_err; intros ?
      | |- triple _ _ (match ?x with _ => _ end) _ => destruct x
      | |- triple _ _ (let _ := _ in _) _ => cbv zeta
      end
    | apply triple_local; solve [local_op] ].
