(* ===== verification/HookRuns.v ===== *)
(** How the pieces of an exported function run: paying, reading the memory, the
    guards.  [paid st st'] is the relation for the first: [st'] is [st] but for
    gas points, so everything the function goes on to read is unchanged. *)
From S2P Require Import Prelude Errors Overflow Helpers Types State Logic Toy BigInt Runtime.
From S2P Require Import Output Metering Blockchain Transfers Storage RuntimeExec Builtin Memory.
From S2P Require Import VMHooks BaseOps AsyncCall BaseOpsCalls BigIntOps SmallIntOps CryptoEI.
From S2P Require Import Hooks.

#[local] Open Scope Z_scope.

Section HookRuns.
Context `{Ext : Externals}.

(** ** The running instance and its memory *)

Definition live (st : HostState) : Prop := exists h inst, running st h inst.

Definition memory_of (st : HostState) : bytes :=
  match instance (st_runtime st) ≫= (fun h => st_instances st !! h) with
  | Some inst => inst_Memory inst
  | None => []
  end.

(** The state without the instances. *)
Definition forget (st : HostState) : HostState := set_st_instances ∅ st.

Record paid (st st' : HostState) : Prop := {
  paid_live : live st';
  paid_memory : memory_of st' = memory_of st;
  paid_forget : forget st' = forget st;
}.

Lemma memory_of_running st h inst : running st h inst -> memory_of st = inst_Memory inst.
Proof. intros [Hi Hl]. unfold memory_of. rewrite Hi. cbn. by rewrite Hl. Qed.

Lemma paid_refl st : live st -> paid st st.
Proof. by split. Qed.

Lemma paid_trans a b c : paid a b -> paid b c -> paid a c.
Proof. intros [] []. split; congruence. Qed.

Section Parts.
Context (st st' : HostState) (Hp : paid st st').
Lemma paid_bigInt : st_bigInt st' = st_bigInt st.
Proof. exact (f_equal st_bigInt (paid_forget _ _ Hp)). Qed.
Lemma paid_metering : st_metering st' = st_metering st.
Proof. exact (f_equal st_metering (paid_forget _ _ Hp)). Qed.
Lemma paid_output : st_output st' = st_output st.
Proof. exact (f_equal st_output (paid_forget _ _ Hp)). Qed.
Lemma paid_runtime : st_runtime st' = st_runtime st.
Proof. exact (f_equal st_runtime (paid_forget _ _ Hp)). Qed.
Lemma paid_storage : st_storage st' = st_storage st.
Proof. exact (f_equal st_storage (paid_forget _ _ Hp)). Qed.
Lemma paid_world : st_world st' = st_world st.
Proof. exact (f_equal st_world (paid_forget _ _ Hp)). Qed.
Lemma paid_asyncInfos : st_asyncInfos st' = st_asyncInfos st.
Proof. exact (f_equal st_asyncInfos (paid_forget _ _ Hp)). Qed.
End Parts.

Lemma paid_points st h inst g :
  running st h inst -> paid st (with_instance h (set_inst_Points g inst) st).
Proof.
  intros Hr. pose proof (running_with_instance st h inst (set_inst_Points g inst) Hr) as Hr'.
  split; [by do 2 eexists | | done].
  by rewrite (memory_of_running _ _ _ Hr), (memory_of_running _ _ _ Hr').
Qed.

(** ** Paying *)

Lemma UseGas_paid st gas :
  live st -> exists st', Metering.UseGas gas st = (st', Ret tt) /\ paid st st'.
Proof.
  intros (h & inst & Hr). unfold Metering.UseGas.
  rewrite (bind_run _ _ _ _ _ (GetPointsUsed_run _ _ _ Hr)), (SetPointsUsed_run _ _ _ _ Hr).
  eexists. split; [reflexivity | by apply paid_points].
Qed.

Lemma use_base_paid st price :
  live st -> exists st', use_base price st = (st', Ret tt) /\ paid st st'.
Proof. apply UseGas_paid. Qed.

Lemma use_bigInt_paid st price :
  live st -> exists st', use_bigInt price st = (st', Ret tt) /\ paid st st'.
Proof. apply UseGas_paid. Qed.

Lemma use_per_byte_paid st price n :
  live st -> exists st', Storage.use_per_byte price n st = (st', Ret tt) /\ paid st st'.
Proof. apply UseGas_paid. Qed.

Lemma useExtraGasForOperations_paid st values :
  live st -> exists st', useExtraGasForOperations values st = (st', Ret tt) /\ paid st st'.
Proof.
  revert st. induction values as [|v values IH]; intros st Hl.
  { exists st. by split; [|apply paid_refl]. }
  unfold useExtraGasForOperations. cbn [for_each].
  assert (exists st1, (let byteLen := BitLen v / 8 in
      if maxBigIntByteLenForNormalCost <? byteLen then
        schedule ← Metering.GasSchedule;
        Metering.UseGas (MulUint64 (u64 byteLen)
          (BaseOperationCost.DataCopyPerByte (gc_BaseOperationCost schedule)))
      else mret tt) st = (st1, Ret tt) /\ paid st st1) as (st1 & H1 & Hp1).
  { cbv zeta. case_match; [by apply UseGas_paid|]. exists st. by split; [|apply paid_refl]. }
  rewrite (bind_run _ _ _ _ _ H1).
  destruct (IH st1 (paid_live _ _ Hp1)) as (st2 & H2 & Hp2).
  exists st2. split; [exact H2 | by eapply paid_trans].
Qed.

(** ** Reading the memory *)

(** What [MemLoad] returns. *)
Definition loaded (st : HostState) (offset length : Z) : bytes * option error :=
  if length =? 0 then ([], None) else mem_load (memory_of st) offset length.

Lemma MemLoad_run st offset length :
  live st -> Runtime.MemLoad offset length st = (st, Ret (loaded st offset length)).
Proof.
  intros (h & inst & Hr). unfold Runtime.MemLoad, loaded.
  destruct (length =? 0); [done|].
  rewrite (bind_run _ _ _ _ _ (current_instance_run _ _ _ Hr)).
  by rewrite (memory_of_running _ _ _ Hr).
Qed.

Lemma loaded_paid st st' offset length :
  paid st st' -> loaded st' offset length = loaded st offset length.
Proof. intros Hp. unfold loaded. by rewrite (paid_memory _ _ Hp). Qed.

Lemma mem_load_result memory offset length data :
  mem_load memory offset length = (data, None) -> 0 <= length /\ len data = length.
Proof.
  unfold mem_load. destruct (_ || _); [done|]. destruct (Z.ltb_spec length 0); [done|].
  intros [= <-]. split; [done|]. unfold len.
  rewrite length_take, length_app, length_replicate. lia.
Qed.

(** The bytes loaded are as many as asked for. *)
Lemma loaded_length st offset length data :
  loaded st offset length = (data, None) -> len data = length.
Proof.
  unfold loaded. destruct (Z.eqb_spec length 0) as [->|]; [by intros [= <-]|].
  intros H. by apply mem_load_result in H as [].
Qed.

(** In range: the slice of the memory. *)
Lemma loaded_slice st offset length :
  0 <= offset -> 0 <= length -> offset + length <= len (memory_of st) ->
  len (memory_of st) < MaxInt32 ->
  loaded st offset length = (slice (memory_of st) offset (offset + length), None).
Proof.
  intros Ho Hl Hend Hm. unfold loaded. destruct (Z.eqb_spec length 0) as [->|Hne].
  { unfold slice. by rewrite Z.add_0_r, Z.sub_diag. }
  unfold mem_load. rewrite AddInt32_in_range by word_lia.
  rewrite !u32_nonneg by word_lia.
  destruct (Z.ltb_spec offset 0), (Z.ltb_spec (len (memory_of st)) offset),
    (Z.ltb_spec length 0), (Z.ltb_spec (len (memory_of st)) (offset + length)); try lia.
  cbn [orb]. f_equal. rewrite take_app_le.
  - apply take_ge. pose proof (slice_length (memory_of st) offset (offset + length) ltac:(lia) Hend).
    unfold len in *. lia.
  - pose proof (slice_length (memory_of st) offset (offset + length) ltac:(lia) Hend).
    unfold len in *. lia.
Qed.

(** ** Guards *)

Lemma guarded_ok {A B} fail (d : B) (m : M (A * option error)) k st st' a :
  m st = (st', Ret (a, None)) -> guarded fail d m k st = k a st'.
Proof. intros H. unfold guarded. by rewrite (bind_run _ _ _ _ _ H). Qed.

Lemma guarded_err_ok {B} fail (d : B) (m : M (option error)) k st st' :
  m st = (st', Ret None) -> guarded_err fail d m k st = k st'.
Proof. intros H. unfold guarded_err. by rewrite (bind_run _ _ _ _ _ H). Qed.

(** A guarded call after which the function goes on, or not. *)
Lemma guarded_load {B} fail (d : B) offset length k st :
  live st ->
  guarded fail d (Runtime.MemLoad offset length) k st =
    match loaded st offset length with
    | (data, None) => k data st
    | (_, Some e) => (_ ← RuntimeExec.WithFaultAndHost (Some e) fail; mret d) st
    end.
Proof.
  intros Hl. unfold guarded. rewrite (bind_run _ _ _ _ _ (MemLoad_run _ _ _ Hl)).
  destruct (loaded st offset length) as [data [e|]]; [|done].
  unfold guarded_err. cbn [snd]. rewrite (bind_run _ _ st st _ eq_refl).
  unfold RuntimeExec.WithFaultAndHost. destruct fail; cbv [mbind M_bind mret M_ret].
  - repeat case_match; simplify_eq; done.
  - done.
Qed.

Lemma propagate_ok {A B} (d : B) (m : M (A * option error)) k st st' a :
  m st = (st', Ret (a, None)) -> propagate d m k st = k a st'.
Proof. intros H. unfold propagate. by rewrite (bind_run _ _ _ _ _ H). Qed.

Lemma propagate_err {A B} (d : B) (m : M (A * option error)) k st st' a e :
  m st = (st', Ret (a, Some e)) -> propagate d m k st = (st', Ret (d, Some e)).
Proof. intros H. unfold propagate. by rewrite (bind_run _ _ _ _ _ H). Qed.

(** ** Faults *)

(** The execution has failed with [e]; nothing but gas, output code and message,
    breakpoint and error list is touched. *)
Record failed_with (e : error) (st st' : HostState) : Prop := {
  failed_breakpoint : exists h inst, running st' h inst /\
    inst_Breakpoint inst = breakpoint_to_Z BreakpointExecutionFailed;
  failed_code : out_ReturnCode (outputOf st') = ExecutionFailed;
  failed_message : ReturnMessage (outputOf st') = Error e;
  failed_accounts : OutputAccounts (outputOf st') = OutputAccounts (outputOf st);
  failed_bigInt : st_bigInt st' = st_bigInt st;
  failed_storage : st_storage st' = st_storage st;
  failed_world : st_world st' = st_world st;
  failed_state : rt st' = rt st;
}.

Lemma failed_paid e st st1 st' : paid st st1 -> failed_with e st1 st' -> failed_with e st st'.
Proof.
  intros Hp []. split; try done.
  - rewrite failed_accounts0. unfold outputOf. by rewrite (paid_output _ _ Hp).
  - by rewrite failed_bigInt0, (paid_bigInt _ _ Hp).
  - by rewrite failed_storage0, (paid_storage _ _ Hp).
  - by rewrite failed_world0, (paid_world _ _ Hp).
  - rewrite failed_state0. unfold rt. by rewrite (paid_runtime _ _ Hp).
Qed.

Lemma fault_run st e :
  live st ->
  exists st', RuntimeExec.WithFaultAndHost (Some e) true st = (st', Ret true) /\
    failed_with e st st'.
Proof.
  intros (h & inst & Hr). unfold RuntimeExec.WithFaultAndHost.
  pose proof (GasLeft_run st h inst Hr) as Hg. set (left := Z.max 0 _) in Hg.
  assert (exists g, Metering.UseGas left st =
            (with_instance h (set_inst_Points g inst) st, Ret tt)) as [g Hu].
  { eexists. unfold Metering.UseGas.
    rewrite (bind_run _ _ _ _ _ (GetPointsUsed_run _ _ _ Hr)). apply (SetPointsUsed_run _ _ _ _ Hr). }
  set (inst1 := set_inst_Points g inst) in Hu. set (st1 := with_instance h inst1 st) in Hu.
  assert (running st1 h inst1) as Hr1 by by eapply running_with_instance.
  assert (exists st2, RuntimeExec.FailExecution (Some e) st1 = (st2, Ret tt) /\
    failed_with e st st2) as (st2 & H2 & Hf).
  { unfold RuntimeExec.FailExecution, Runtime.SetRuntimeBreakpointValue.
    rewrite (bind_run _ _ _ _ _ eq_refl), (bind_run _ _ _ _ _ eq_refl),
      (bind_run _ _ _ _ _ eq_refl).
    match goal with |- context [modify_instance ?f ?s] =>
      rewrite (modify_instance_run f s h inst1 Hr1) end.
    eexists. split; [reflexivity|]. split; try done.
    do 2 eexists. split; [by eapply running_with_instance | done]. }
  exists st2. split; [|done].
  rewrite (bind_run _ _ st st2 tt); [done|].
  by rewrite (bind_run _ _ _ _ _ Hg), (bind_run _ _ _ _ _ Hu).
Qed.

End HookRuns.
