(* ===== verification/Arguments.v ===== *)
(** The arguments a contract passes through its memory: [getArgumentsFromMemory]
    and [createInt32Array] of [src/vmhost/vmhooks/baseOps.go] (their definitions
    are in [VMHooks]).  The caller writes the number of arguments, their
    lengths as little-endian 32-bit integers and their concatenation. *)
From S2P Require Import Prelude Errors Overflow Helpers Types State Logic Toy BigInt Runtime.
From S2P Require Import Output Metering Blockchain Transfers Storage RuntimeExec Builtin Memory.
From S2P Require Import VMHooks BaseOps Hooks HookRuns.

#[local] Open Scope Z_scope.

(** ** The layout, as the caller writes it *)

Definition encode_lengths (args : list bytes) : bytes :=
  concat (map (fun arg => PutUint32 (len arg)) args).

(** ** Lemmas *)

(** The loop fills the array from [index] on. *)
Lemma createInt32Array_loop_spec lengths index integers :
  Forall (fun l => 0 <= l < 2 ^ 31) lengths ->
  (index + length lengths <= length integers)%nat ->
  createInt32Array_loop (concat (map PutUint32 lengths)) index integers =
    Some (take index integers ++ lengths ++ drop (index + length lengths) integers).
Proof.
  intros Hl. revert index integers. induction Hl as [|l lengths Hl _ IH]; intros index integers Hn.
  { cbn. by rewrite Nat.add_0_r, take_drop. }
  cbn [length] in Hn. cbn [map concat app PutUint32 createInt32Array_loop].
  destruct (Z.ltb_spec (Z.of_nat index) (len integers)); [|unfold len in *; lia].
  rewrite Uint32_PutUint32 by lia. rewrite s32_id by word_lia.
  rewrite IH by (rewrite length_insert; lia). f_equal.
  cbn [length]. rewrite (take_S_r _ _ l) by (apply list_lookup_insert_eq; lia).
  rewrite take_insert_ge, drop_insert_lt by lia.
  rewrite <- app_assoc. cbn [app]. by rewrite Nat.add_succ_r.
Qed.

Lemma createInt32Array_spec lengths :
  Forall (fun l => 0 <= l < 2 ^ 31) lengths ->
  createInt32Array (concat (map PutUint32 lengths)) (len lengths) = Some lengths.
Proof.
  intros Hl. unfold createInt32Array. destruct (Z.ltb_spec (len lengths) 0) as [H|_].
  { pose proof (len_nonneg lengths). lia. }
  unfold len. rewrite Nat2Z.id.
  rewrite createInt32Array_loop_spec by (rewrite ?length_replicate; done || lia).
  rewrite take_0, drop_ge by (rewrite length_replicate; lia). cbn. by rewrite app_nil_r.
Qed.

(** The data of a whole number of integers that fit does not make it panic. *)
Lemma createInt32Array_loop_total k rawData index integers :
  length rawData = (4 * k)%nat -> (index + k <= length integers)%nat ->
  exists r, createInt32Array_loop rawData index integers = Some r /\
    length r = length integers.
Proof.
  revert rawData index integers. induction k as [|k IH]; intros raw index integers Hr Hk.
  { destruct raw; [by eexists | done]. }
  destruct raw as [|b0 [|b1 [|b2 [|b3 raw]]]]; cbn in Hr; try lia.
  cbn [createInt32Array_loop].
  destruct (Z.ltb_spec (Z.of_nat index) (len integers)); [|unfold len in *; lia].
  destruct (IH raw (S index) (<[index:=s32 (LittleEndian_Uint32 b0 b1 b2 b3)]> integers))
    as (r & Hrun & Hlen); [lia | rewrite length_insert; lia |].
  exists r. split; [done|]. by rewrite length_insert in Hlen.
Qed.

(** Whatever the number of arguments, [numArguments*4] in [int32] is a number of
    bytes the array has room for. *)
Lemma createInt32Array_total rawData n :
  is_s32 n -> 0 <= n -> len rawData = s32 (n * 4) ->
  exists lengths, createInt32Array rawData n = Some lengths /\ len lengths = n.
Proof.
  intros Hn H0 Hlen. unfold createInt32Array. destruct (Z.ltb_spec n 0); [lia|].
  pose proof (len_nonneg rawData).
  assert (exists j, s32 (n * 4) = 4 * j /\ j <= n) as (j & Hj & Hjn).
  { pose proof (Z.div_mod (n * 4 + 2 ^ 31) (2 ^ 32) ltac:(done)) as Hq.
    assert (0 <= (n * 4 + 2 ^ 31) / 2 ^ 32) by (apply Z.div_pos; lia).
    exists (n - 2 ^ 30 * ((n * 4 + 2 ^ 31) / 2 ^ 32)). unfold s32.
    set (q := (n * 4 + 2 ^ 31) / 2 ^ 32) in *. lia. }
  destruct (createInt32Array_loop_total (Z.to_nat j) rawData 0 (replicate (Z.to_nat n) 0))
    as (lengths & Hrun & Hl).
  - unfold len in *. lia.
  - rewrite length_replicate. lia.
  - exists lengths. split; [done|]. unfold len. rewrite Hl, length_replicate. lia.
Qed.

Lemma fold_total lengths acc :
  0 <= acc -> Forall (fun l => 0 <= l) lengths -> acc + foldr Z.add 0 lengths < 2 ^ 31 ->
  fold_left (fun total length => s32 (total + length)) lengths acc = acc + foldr Z.add 0 lengths.
Proof.
  intros Ha Hl. revert acc Ha. induction Hl as [|l lengths Hl Hls IH]; intros acc Ha Hs; cbn in *.
  { lia. }
  assert (0 <= foldr Z.add 0 lengths) by (clear - Hls; induction Hls; cbn; lia).
  rewrite s32_id by word_lia. rewrite IH; lia.
Qed.

Section Loads.
Context `{Ext : Externals}.

(** One argument after the other. *)
Lemma MemLoadMultiple_spec st offset args results :
  live st -> 0 <= offset -> len (memory_of st) < MaxInt32 ->
  offset + len (concat args) <= len (memory_of st) ->
  slice (memory_of st) offset (offset + len (concat args)) = concat args ->
  Runtime.MemLoadMultiple_loop offset (map len args) results st =
    (st, Ret (results ++ args, None)).
Proof.
  intros Hl Ho Hm. revert offset results Ho.
  induction args as [|arg args IH]; intros offset results Ho Hend Hs;
    cbn [map Runtime.MemLoadMultiple_loop].
  { by rewrite app_nil_r. }
  cbn [concat] in Hend, Hs. rewrite len_app in Hend, Hs.
  pose proof (len_nonneg arg). pose proof (len_nonneg (concat args)).
  rewrite (bind_run _ _ _ _ _ (MemLoad_run _ _ _ Hl)).
  rewrite loaded_slice by lia.
  assert (slice (memory_of st) offset (offset + len arg) = arg /\
    slice (memory_of st) (offset + len arg) (offset + len arg + len (concat args)) = concat args)
    as [Hs1 Hs2].
  { unfold slice in *. apply app_inj_1.
    - rewrite length_take, length_drop. unfold len in *. lia.
    - rewrite <- Hs. replace (Z.to_nat (offset + len arg)) with
        (Z.to_nat offset + Z.to_nat (len arg))%nat by lia.
      rewrite <- drop_drop.
      replace (Z.to_nat (offset + (len arg + len (concat args)) - offset)) with
        (Z.to_nat (offset + len arg - offset) +
         Z.to_nat (offset + len arg + len (concat args) - (offset + len arg)))%nat by lia.
      replace (Z.to_nat (len arg)) with (Z.to_nat (offset + len arg - offset)) by lia.
      by rewrite take_take_drop. }
  rewrite Hs1, s32_id by word_lia. rewrite IH by (done || lia).
  by rewrite <- app_assoc.
Qed.

Lemma MemLoadMultiple_total st offset lengths results :
  live st ->
  exists data err, Runtime.MemLoadMultiple_loop offset lengths results st = (st, Ret (data, err)) /\
    (err = None -> length data = (length results + length lengths)%nat).
Proof.
  intros Hl. revert offset results. induction lengths as [|l lengths IH]; intros offset results;
    cbn [Runtime.MemLoadMultiple_loop].
  { exists results, None. split; [done|]. cbn. lia. }
  rewrite (bind_run _ _ _ _ _ (MemLoad_run _ _ _ Hl)).
  destruct (loaded st offset l) as [data [e|]]; [by eexists _, _|].
  destruct (IH (s32 (offset + l)) (results ++ [data])) as (data' & err & H & Hlen).
  exists data', err. split; [done|]. intros He. specialize (Hlen He).
  rewrite length_app in Hlen. cbn in *. lia.
Qed.

Lemma MemLoadMultiple_empty st offset n results :
  live st -> is_s32 offset ->
  Runtime.MemLoadMultiple_loop offset (replicate n 0) results st =
    (st, Ret (results ++ replicate n [], None)).
Proof.
  intros Hl Ho. revert results. induction n as [|n IH]; intros results;
    cbn [replicate Runtime.MemLoadMultiple_loop].
  { by rewrite app_nil_r. }
  rewrite (bind_run _ _ _ _ _ (MemLoad_run _ _ _ Hl)). cbn [loaded Z.eqb].
  rewrite Z.add_0_r, s32_id, IH by done. by rewrite <- app_assoc.
Qed.

(** ** Properties *)

(** The arguments a contract lays out in its memory - their number, their
    lengths as little-endian 32-bit integers, their bytes one after the other -
    are the ones the host reads, in order and with their total length, for any
    layout inside the memory. *)
Theorem getArgumentsFromMemory_roundtrip st args argumentsLengthOffset dataOffset :
  live st -> len (memory_of st) < MaxInt32 -> len args < 2 ^ 29 ->
  0 <= argumentsLengthOffset ->
  argumentsLengthOffset + 4 * len args <= len (memory_of st) ->
  slice (memory_of st) argumentsLengthOffset (argumentsLengthOffset + 4 * len args) =
    encode_lengths args ->
  0 <= dataOffset -> dataOffset + len (concat args) <= len (memory_of st) ->
  slice (memory_of st) dataOffset (dataOffset + len (concat args)) = concat args ->
  getArgumentsFromMemory (len args) argumentsLengthOffset dataOffset st =
    (st, Ret (args, len (concat args), None)).
Proof.
  intros Hl Hm Hn Ho1 He1 Hs1 Ho2 He2 Hs2. unfold getArgumentsFromMemory.
  pose proof (len_nonneg args). destruct (Z.ltb_spec (len args) 0); [lia|].
  rewrite s32_id by word_lia. rewrite Z.mul_comm.
  erewrite propagate_ok; [|by rewrite MemLoad_run, loaded_slice, Hs1 by (done || lia)].
  assert (Forall (fun l => 0 <= l < 2 ^ 31) (map len args)) as Hlens.
  { apply Forall_map, List.Forall_forall. intros arg Hin. cbn. pose proof (len_nonneg arg).
    apply in_split in Hin as (a1 & a2 & ->). rewrite concat_app, len_app in He2. cbn in He2.
    rewrite len_app in He2. pose proof (len_nonneg (concat a1)).
    pose proof (len_nonneg (concat a2)). word_lia. }
  assert (createInt32Array (encode_lengths args) (len args) = Some (map len args)) as ->.
  { unfold encode_lengths. rewrite <- (map_map len PutUint32).
    replace (len args) with (len (map len args)) by (unfold len; by rewrite length_map).
    by apply createInt32Array_spec. }
  rewrite (bind_run _ _ st st _ eq_refl).
  erewrite propagate_ok; [|by apply (MemLoadMultiple_spec st dataOffset args [])].
  assert (foldr Z.add 0 (map len args) = len (concat args)) as Hsum.
  { clear. induction args; cbn; [done|]. by rewrite IHargs, len_app. }
  unfold total_bytes. rewrite fold_total.
  - by rewrite Hsum.
  - done.
  - eapply List.Forall_impl; [|exact Hlens]. cbn. lia.
  - rewrite Hsum. word_lia.
Qed.

(** Reading the arguments never panics and changes nothing, whatever number
    of arguments and whatever memory a contract presents: it gives as many
    arguments as were announced, or an error and no arguments. *)
Theorem getArgumentsFromMemory_total st numArguments argumentsLengthOffset dataOffset :
  live st -> is_s32 numArguments ->
  exists args total err,
    getArgumentsFromMemory numArguments argumentsLengthOffset dataOffset st =
      (st, Ret (args, total, err)) /\
    match err with
    | None => len args = numArguments
    | Some _ => args = [] /\ total = 0
    end.
Proof.
  intros Hl Hn. unfold getArgumentsFromMemory.
  destruct (Z.ltb_spec numArguments 0); [by do 3 eexists|].
  pose proof (MemLoad_run st argumentsLengthOffset (s32 (numArguments * 4)) Hl) as Hload.
  destruct (loaded st argumentsLengthOffset (s32 (numArguments * 4))) as [raw [e|]] eqn:E.
  { rewrite (propagate_err _ _ _ _ _ _ _ Hload). by do 3 eexists. }
  rewrite (propagate_ok _ _ _ _ _ _ Hload).
  destruct (createInt32Array_total raw numArguments) as (lengths & -> & Hlen);
    [done | done | by apply loaded_length in E |].
  rewrite (bind_run _ _ st st _ eq_refl). unfold Runtime.MemLoadMultiple.
  destruct (MemLoadMultiple_total st dataOffset lengths [] Hl) as (data & err & Hd & Hdl).
  destruct err as [e|].
  { rewrite (propagate_err _ _ _ _ _ _ _ Hd). by do 3 eexists. }
  rewrite (propagate_ok _ _ _ _ _ _ Hd). do 3 eexists. split; [reflexivity|].
  specialize (Hdl eq_refl). cbn in Hdl. unfold len in *. lia.
Qed.

(** [numArguments*4] overflows: a contract that announces 2^30 arguments
    gets 2^30 empty arguments, without an error and without a byte of its memory
    being read, so what it pays for the copied data is nothing. *)
Theorem getArgumentsFromMemory_overflow st argumentsLengthOffset dataOffset :
  live st -> is_s32 dataOffset ->
  getArgumentsFromMemory (2 ^ 30) argumentsLengthOffset dataOffset st =
    (st, Ret (replicate (Z.to_nat (2 ^ 30)) [], 0, None)).
Proof.
  intros Hl Ho. unfold getArgumentsFromMemory. remember (Z.to_nat (2 ^ 30)) as n eqn:En.
  replace (2 ^ 30 <? 0) with false by done. replace (s32 (2 ^ 30 * 4)) with 0 by done.
  erewrite propagate_ok; [|by rewrite MemLoad_run by done].
  unfold createInt32Array. replace (2 ^ 30 <? 0) with false by done.
  rewrite <- En. cbn [createInt32Array_loop].
  rewrite (bind_run _ _ st st _ eq_refl).
  erewrite propagate_ok; [|by apply (MemLoadMultiple_empty st dataOffset n [])].
  assert (total_bytes (replicate n 0) = 0) as ->; [|done].
  unfold total_bytes. clear En. by induction n.
Qed.

End Loads.

(** ** Witnesses *)

(** The arguments [ab] and [c] at offset 8, their lengths at offset 0. *)
Definition two_arguments : @HostState toy :=
  @set_st_instances toy
    {[ 1%nat := set_inst_Memory
         (encode_lengths [bs "ab"; bs "c"] ++ bs "abc" ++ replicate 8 Byte.x00)
         (toy_instance (bs "code") 5) ]}
    (toy_state [] 5).

Lemma two_arguments_live : @live toy two_arguments.
Proof. by do 2 eexists. Qed.

Lemma getArgumentsFromMemory_roundtrip_witness :
  @getArgumentsFromMemory toy 2 0 8 two_arguments =
    (two_arguments, Ret ([bs "ab"; bs "c"], 3, None)).
Proof.
  apply (@getArgumentsFromMemory_roundtrip toy two_arguments [bs "ab"; bs "c"] 0 8
    two_arguments_live); vm_compute; first [reflexivity | discriminate].
Defined.

Lemma getArgumentsFromMemory_total_witness :
  exists r, @getArgumentsFromMemory toy 3 0 8 two_arguments = (two_arguments, Ret r).
Proof.
  destruct (@getArgumentsFromMemory_total toy two_arguments 3 0 8 two_arguments_live)
    as (args & total & err & H & _); [word_compute|]. by exists (args, total, err).
Defined.

Lemma getArgumentsFromMemory_overflow_witness :
  @getArgumentsFromMemory toy (2 ^ 30) 0 8 two_arguments =
    (two_arguments, Ret (replicate (Z.to_nat (2 ^ 30)) [], 0, None)).
Proof.
  apply (@getArgumentsFromMemory_overflow toy two_arguments 0 8 two_arguments_live). word_compute.
Defined.
