(* ===== verification/BaseOpsProps.v ===== *)
(** What the base operations exported to WebAssembly do: time locks, payment
    checks, indices of arguments and results (definitions in [BaseOps]). *)
From S2P Require Import Prelude Errors Overflow Helpers Types State Logic Toy BigInt Runtime.
From S2P Require Import Output Metering Blockchain Transfers Storage RuntimeExec Builtin Memory.
From S2P Require Import VMHooks BaseOps BigIntOps SmallIntOps Hooks HookRuns.

#[local] Open Scope Z_scope.

(** ** The storage leaves the memory alone *)

Section Lemmas.
Context `{Ext : Externals}.

#[export] Instance SetPointsUsed_memory g : Keeps (same memory_of) (Runtime.SetPointsUsed g).
Proof.
  intros st. unfold Runtime.SetPointsUsed, modify_instance, same, memory_of.
  cbv [mbind M_bind gets deref modify mret M_ret panic].
  destruct (instance (st_runtime st)) as [h|] eqn:Ei; cbn; [|by rewrite Ei].
  destruct (st_instances st !! h) as [inst|] eqn:El; cbn; rewrite Ei; cbn; [|by rewrite El].
  by rewrite lookup_insert_eq.
Qed.

#[export] Instance get_account_memory a : Keeps (same memory_of) (get_account a).
Proof. by apply get_account_keeps. Qed.

#[export] Instance modify_account_memory a f : Keeps (same memory_of) (modify_account a f).
Proof.
  intros st. unfold modify_account, Output.update_account, same. cbn.
  by unfold Output.GetOutputAccount; destruct (OutputAccounts (outputState (st_output st)) !! a).
Qed.

#[export] Instance SetProtectedStorage_memory key value :
  Keeps (same memory_of) (Storage.SetProtectedStorage key value).
Proof. keeps_deep. Qed.

#[export] Instance SetStorage_memory key value :
  Keeps (same memory_of) (Storage.SetStorage key value).
Proof. keeps_deep. Qed.

#[export] Instance GetStorage_memory key : Keeps (same memory_of) (Storage.GetStorage key).
Proof. keeps_deep. Qed.

End Lemmas.

(** ** Time locks *)

Section Locks.
Context `{Ext : Externals}.

Lemma ready_live st : ready st -> live st.
Proof. by intros [H _]. Qed.

Lemma paid_ready st st' : paid st st' -> ready st -> ready st'.
Proof.
  intros Hp Hr. split; [exact (paid_live _ _ Hp)|]. unfold outputOf.
  rewrite (paid_output _ _ Hp). apply Hr.
Qed.

Lemma paid_value st st' a key : paid st st' -> storage_value st' a key = storage_value st a key.
Proof.
  intros Hp. unfold storage_value, outputOf. by rewrite (paid_output _ _ Hp), (paid_world _ _ Hp).
Qed.

Lemma keeps_run {A B} (part : HostState -> B) (m : M A) st st' r :
  Keeps (same part) m -> m st = (st', r) -> part st' = part st.
Proof. intros Hk Hrun. specialize (Hk st). by rewrite Hrun in Hk. Qed.

(** A payment, then the key from memory. *)
Lemma pay_and_load {A} price (d : A) offset length k st data :
  live st -> loaded st offset length = (data, None) ->
  exists st1, paid st st1 /\
    (use_base price ;;
     guarded Runtime.BaseOpsErrorShouldFailExecution d (Runtime.MemLoad offset length) k) st =
    k data st1.
Proof.
  intros Hl Hload. destruct (use_base_paid st price Hl) as (st1 & H1 & Hp).
  exists st1. split; [done|]. rewrite (bind_run _ _ _ _ _ H1).
  rewrite guarded_load by exact (paid_live _ _ Hp). by rewrite (loaded_paid _ _ _ _ Hp), Hload.
Qed.

Lemma getStorageLock_run st keyOffset keyLength key :
  ready st -> loaded st keyOffset keyLength = (key, None) ->
  exists st', v1_3_getStorageLock keyOffset keyLength st =
      (st', Ret (s64 (SetBytes (storage_value st (sto_address (st_storage st))
                                  (CustomStorageKey TimeLockKeyPrefix key))))) /\
    ready st' /\ st_world st' = st_world st.
Proof.
  intros Hr Hload. unfold v1_3_getStorageLock.
  destruct (pay_and_load BaseOpsAPICost.StorageLoad (-1) keyOffset keyLength
    (fun key => data ← Storage.GetStorage (CustomStorageKey TimeLockKeyPrefix key);
                mret (s64 (SetBytes data))) st key (ready_live _ Hr) Hload) as (st1 & Hp & ->).
  pose proof (paid_ready _ _ Hp Hr) as Hr1.
  destruct (GetStorage_run st1 (CustomStorageKey TimeLockKeyPrefix key) Hr1)
    as (st2 & H2 & Hk & _).
  rewrite (bind_run _ _ _ _ _ H2). exists st2. rewrite (paid_value _ _ _ _ Hp), (paid_storage _ _ Hp).
  split; [done|]. split; [apply Hk|]. by rewrite (kept_world _ _ Hk), (paid_world _ _ Hp).
Qed.

Lemma setStorageLock_run st keyOffset keyLength key t :
  ready st -> readOnly (rt st) = false -> loaded st keyOffset keyLength = (key, None) ->
  let lockKey := CustomStorageKey TimeLockKeyPrefix key in
  HasPrefix lockKey (protectedKeyPrefix (st_storage st)) = false ->
  exists st' status, v1_3_setStorageLock keyOffset keyLength t st =
      (st', Ret (StorageStatus_to_Z status)) /\
    ready st' /\ memory_of st' = memory_of st /\ st_world st' = st_world st /\
    sto_address (st_storage st') = sto_address (st_storage st) /\
    storage_value st' (sto_address (st_storage st)) lockKey = Bytes t.
Proof.
  intros Hr Hro Hload lockKey Hpre. unfold v1_3_setStorageLock.
  destruct (pay_and_load BaseOpsAPICost.Int64StorageStore (-1) keyOffset keyLength
    (fun key => guarded Runtime.BaseOpsErrorShouldFailExecution (-1)
       (Storage.SetProtectedStorage (CustomStorageKey TimeLockKeyPrefix key) (Bytes t))
       (fun storageStatus => mret (StorageStatus_to_Z storageStatus)))
    st key (ready_live _ Hr) Hload) as (st1 & Hp & ->).
  destruct (SetProtectedStorage_run st1 lockKey (Bytes t)) as (st2 & H2 & Hr2 & _ & Hw & Hs & Hv).
  { exact (paid_ready _ _ Hp Hr). }
  { unfold rt. by rewrite (paid_runtime _ _ Hp). }
  { by rewrite (paid_storage _ _ Hp). }
  rewrite (guarded_ok _ _ _ _ _ _ _ H2). do 2 eexists. split; [reflexivity|].
  split; [done|]. split; [by rewrite (keeps_run memory_of _ _ _ _ _ H2), (paid_memory _ _ Hp)|].
  split; [by rewrite Hw, (paid_world _ _ Hp)|]. rewrite Hs. cbn.
  rewrite (paid_storage _ _ Hp) in *. split; [done|]. by rewrite Hv, decide_True.
Qed.

(** The time lock a contract sets under a key is the one it reads back and
    that [isStorageLocked] compares with the time of the block - but for its
    sign: what is stored is the absolute value of the time stamp, so a lock in
    the past (negative) becomes a lock in the future. *)
Theorem storage_lock_roundtrip st keyOffset keyLength key t :
  ready st -> readOnly (rt st) = false -> loaded st keyOffset keyLength = (key, None) ->
  HasPrefix (CustomStorageKey TimeLockKeyPrefix key) (protectedKeyPrefix (st_storage st)) = false ->
  MinInt64 < t <= MaxInt64 ->
  exists st1 status, v1_3_setStorageLock keyOffset keyLength t st = (st1, Ret status) /\
    0 <= status <= 3 /\
    (exists st2, v1_3_getStorageLock keyOffset keyLength st1 = (st2, Ret (Z.abs t))) /\
    exists st3, v1_3_isStorageLocked keyOffset keyLength st1 =
      (st3, Ret (if Z.abs t <=? s64 (bh_CurrentTimeStamp (st_world st)) then 0 else 1)).
Proof.
  intros Hr Hro Hload Hpre Ht.
  destruct (setStorageLock_run st keyOffset keyLength key t Hr Hro Hload Hpre)
    as (st1 & status & H1 & Hr1 & Hm1 & Hw1 & Ha1 & Hv1).
  assert (loaded st1 keyOffset keyLength = (key, None)) as Hload1
    by (unfold loaded; by rewrite Hm1).
  destruct (getStorageLock_run st1 keyOffset keyLength key Hr1 Hload1) as (st2 & H2 & Hr2 & Hw2).
  rewrite Ha1, Hv1, SetBytes_Bytes, s64_id in H2 by word_lia.
  do 2 eexists. split; [exact H1|]. split; [by destruct status|]. split; [by exists st2|].
  unfold v1_3_isStorageLocked. rewrite (bind_run _ _ _ _ _ H2).
  destruct (Z.ltb_spec (Z.abs t) 0); [lia|]. unfold v1_3_getBlockTimestamp.
  destruct (use_base_paid st2 BaseOpsAPICost.GetBlockTimeStamp (ready_live _ Hr2))
    as (st3 & H3 & Hp3).
  exists st3. erewrite bind_run; [|rewrite (bind_run _ _ _ _ _ H3); reflexivity].
  cbn. rewrite (paid_world _ _ Hp3), Hw2, Hw1. by destruct (_ <=? _).
Qed.

(** ** Payment checks *)

(** [checkNoPayment] fails the execution, with the error of the kind of
    payment, exactly when the call carries a value or tokens; otherwise it only
    costs gas. *)
Theorem checkNoPayment_exact st :
  live st ->
  exists st', v1_3_checkNoPayment st = (st', Ret tt) /\
    if 0 <? CallValue (vmInput (rt st)) then failed_with ErrNonPayableFunctionEgld st st'
    else match ESDTTransfers (vmInput (rt st)) with
         | [] => paid st st'
         | _ => failed_with ErrNonPayableFunctionEsdt st st'
         end.
Proof.
  intros Hl. unfold v1_3_checkNoPayment.
  destruct (use_base_paid st BaseOpsAPICost.GetCallValue Hl) as (st1 & H1 & Hp).
  rewrite (bind_run _ _ _ _ _ H1), (bind_run _ _ st1 st1 _ eq_refl).
  unfold rt at 1 2. rewrite (paid_runtime _ _ Hp). fold (rt st).
  assert (forall e, exists st', (_ ← RuntimeExec.WithFaultAndHost (Some (Sentinel e)) true; mret tt) st1 =
      (st', Ret tt) /\ failed_with e st st') as Hfault.
  { intros e. destruct (fault_run st1 e (paid_live _ _ Hp)) as (st' & H & Hf).
    exists st'. rewrite (bind_run _ _ _ _ _ H). split; [done|]. by apply (failed_paid _ st st1). }
  destruct (0 <? CallValue (vmInput (rt st))); [apply Hfault|].
  destruct (ESDTTransfers (vmInput (rt st))) as [|t ts]; [by exists st1|].
  replace (0 <? len (t :: ts)) with true by (symmetry; apply Z.ltb_lt; unfold len; cbn; lia).
  apply Hfault.
Qed.

(** ** Indices of arguments and results *)

(** The index of an argument is checked: any [int32] is answered, by the
    length of the argument or by -1. The index of a result is checked on one side
    only: a negative one is a panic of the host. *)
Theorem argument_and_result_indices st id :
  live st -> is_s32 id ->
  len (Arguments (vmInput (rt st))) < 2 ^ 31 -> len (ReturnData (outputOf st)) < 2 ^ 31 ->
  (exists st', paid st st' /\ v1_3_getArgumentLength id st =
     (st', Ret (match Arguments (vmInput (rt st)) !! Z.to_nat id with
                | Some arg => if id <? 0 then -1 else s32 (len arg)
                | None => -1
                end))) /\
  (exists st', paid st st' /\ v1_3_getReturnDataSize id st =
     (st', if id <? 0 then Panic
           else Ret (match ReturnData (outputOf st) !! Z.to_nat id with
                     | Some data => s32 (len data)
                     | None => 0
                     end))).
Proof.
  intros Hl Hid Ha Hd. split.
  - destruct (use_base_paid st BaseOpsAPICost.GetArgument Hl) as (st1 & H1 & Hp).
    exists st1. split; [done|]. unfold v1_3_getArgumentLength.
    rewrite (bind_run _ _ _ _ _ H1), (bind_run _ _ st1 st1 _ eq_refl).
    unfold rt at 1 2. rewrite (paid_runtime _ _ Hp). fold (rt st).
    set (args := Arguments _) in *. pose proof (len_nonneg args).
    rewrite s32_id by word_lia.
    destruct (Z.ltb_spec id 0); cbn [orb]; [by case_match|].
    destruct (Z.leb_spec (len args) id) as [Hge|Hlt].
    + rewrite lookup_ge_None_2; [done|]. unfold len in Hge. lia.
    + destruct (lookup_lt_is_Some_2 args (Z.to_nat id)) as [arg Harg]; [unfold len in Hlt; lia|].
      by rewrite Harg.
  - destruct (use_base_paid st BaseOpsAPICost.GetReturnDataSize Hl) as (st1 & H1 & Hp).
    exists st1. split; [done|]. unfold v1_3_getReturnDataSize.
    rewrite (bind_run _ _ _ _ _ H1), (bind_run _ _ st1 st1 _ eq_refl).
    unfold outputOf at 1 2. rewrite (paid_output _ _ Hp). fold (outputOf st).
    set (data := ReturnData _) in *. pose proof (len_nonneg data).
    rewrite s32_id by word_lia. unfold nth_result.
    destruct (Z.leb_spec (len data) id) as [Hge|Hlt].
    + destruct (Z.ltb_spec id 0); [lia|].
      rewrite lookup_ge_None_2; [done|]. unfold len in Hge. lia.
    + destruct (Z.ltb_spec id 0); [done|].
      destruct (lookup_lt_is_Some_2 data (Z.to_nat id)) as [d Hdata]; [unfold len in Hlt; lia|].
      by rewrite Hdata.
Qed.

(** [getCallValueTokenName] never tells the name of a token: the length it
    returns is 0, or -1 when a store fails. *)
Theorem getCallValueTokenName_nameless callValueOffset tokenNameOffset st st' r :
  v1_3_getCallValueTokenName callValueOffset tokenNameOffset st = (st', Ret r) ->
  r = 0 \/ r = -1.
Proof.
  unfold v1_3_getCallValueTokenName. intros (? & st1 & _ & H)%bind_Ret_inv.
  apply bind_Ret_inv in H as (input & st2 & _ & H). cbv zeta in H.
  assert ((if 0 <? len (ESDTTokenName (getFirstESDTTransferIfExist input))
           then go_copy [] (ESDTTokenName (getFirstESDTTransferIfExist input)) else []) = [])
    as Hname by (unfold go_copy; cbn; rewrite drop_nil; by case_match).
  rewrite Hname in H. clear Hname. unfold guarded_err in H.
  apply bind_Ret_inv in H as (? & st3 & _ & H). apply bind_Ret_inv in H as ([] & st4 & _ & H).
  { injection H as _ <-. by right. }
  apply bind_Ret_inv in H as (? & st5 & _ & H). apply bind_Ret_inv in H as ([] & st6 & _ & H).
  { injection H as _ <-. by right. }
  injection H as _ <-. by left.
Qed.

End Locks.

(** ** Witnesses *)

Lemma storage_lock_roundtrip_witness :
  exists st1 st2, @v1_3_getStorageLock toy 0 3 st1 = (st2, Ret 2000).
Proof.
  destruct (@storage_lock_roundtrip toy toy_start 0 3 [Byte.x00; Byte.x00; Byte.x00] (-2000)
    toy_start_ready) as (st1 & status & _ & _ & [st2 H] & _);
    [vm_compute; reflexivity .. | word_compute |].
  by exists st1, st2.
Defined.

Lemma toy_start_live : @live toy toy_start.
Proof. by do 2 eexists. Qed.

Lemma checkNoPayment_exact_witness :
  exists st', @v1_3_checkNoPayment toy toy_start = (st', Ret tt) /\ @paid toy toy_start st'.
Proof.
  destruct (@checkNoPayment_exact toy toy_start toy_start_live) as (st' & H & Hp). by exists st'.
Defined.

Lemma argument_and_result_indices_witness :
  exists st', @v1_3_getReturnDataSize toy (-1) toy_start = (st', Panic).
Proof.
  destruct (@argument_and_result_indices toy toy_start (-1) toy_start_live) as [_ (st' & _ & H)];
    [word_compute .. |].
  by exists st'.
Defined.

(** A payment of 5 in a token. *)
Definition paid_in_token : @HostState toy :=
  @set_st_runtime toy
    (set_rt_state
       (set_vmInput (set_ESDTTransfers [mkESDTTransfer 5 (bs "TKN") 0 0] zeroVMInput)
          (@rt toy toy_start)) (@st_runtime toy toy_start)) toy_start.

Abbreviation token_run := (@v1_3_getCallValueTokenName toy 0 40 paid_in_token).

Lemma getCallValueTokenName_nameless_witness :
  token_run = (fst token_run, Ret 0) /\ (0 = 0 \/ 0 = -1).
Proof.
  assert (token_run = (fst token_run, Ret 0)) as Hrun.
  { assert (snd token_run = Ret 0) as <- by (vm_compute; reflexivity). apply surjective_pairing. }
  split; [exact Hrun|]. exact (@getCallValueTokenName_nameless toy 0 40 _ _ 0 Hrun).
Defined.
