(* ===== verification/CallsProps.v ===== *)
(** What the exported functions that reach other accounts do (definitions in
    [BaseOpsCalls]): transfers of value, arguments of indirect calls, read-only
    execution. *)
From S2P Require Import Prelude Errors Overflow Helpers Types State Logic Toy BigInt Runtime.
From S2P Require Import Output Metering Blockchain Transfers Storage RuntimeExec Builtin Memory.
From S2P Require Import VMHooks BaseOps AsyncCall BaseOpsCalls Hooks HookRuns Arguments.
From S2P Require Import BaseOpsProps.

#[local] Open Scope Z_scope.

Section Calls.
Context `{Ext : Externals}.

(** ** Transfers of value *)

(** [transferValue] once the arguments are loaded and paid for. *)
Definition transfer_loaded (sender dest valueBytes data : bytes) : M Z :=
  if isBuiltInCall data then mret 1
  else guarded_err Runtime.BaseOpsErrorShouldFailExecution 1
         (Transfer dest sender 0 0 (SetBytes valueBytes) data DirectCall) (mret 0).

Lemma transferValue_loads st destOffset valueOffset dataOffset length dest valueBytes data :
  live st ->
  loaded st destOffset AddressLen = (dest, None) ->
  loaded st valueOffset BalanceLen = (valueBytes, None) ->
  loaded st dataOffset length = (data, None) ->
  exists st', paid st st' /\
    v1_3_transferValue destOffset valueOffset dataOffset length st =
    transfer_loaded (scAddress (rt st)) dest valueBytes data st'.
Proof.
  intros Hl Hd Hv Hx. unfold v1_3_transferValue.
  destruct (use_base_paid st BaseOpsAPICost.TransferValue Hl) as (st1 & H1 & Hp1).
  rewrite (bind_run _ _ _ _ _ H1), (bind_run _ _ _ _ _ eq_refl).
  rewrite guarded_load, (loaded_paid _ _ _ _ Hp1), Hd by exact (paid_live _ _ Hp1).
  rewrite guarded_load, (loaded_paid _ _ _ _ Hp1), Hv by exact (paid_live _ _ Hp1).
  destruct (use_per_byte_paid st1 BaseOperationCost.PersistPerByte length (paid_live _ _ Hp1))
    as (st2 & H2 & Hp2).
  pose proof (paid_trans _ _ _ Hp1 Hp2) as Hp. exists st2. split; [exact Hp|].
  rewrite (bind_run _ _ _ _ _ H2), guarded_load, (loaded_paid _ _ _ _ Hp), Hx
    by exact (paid_live _ _ Hp).
  unfold rt. by rewrite (paid_runtime _ _ Hp1).
Qed.

Lemma guarded_err_run {B} fail (d : B) (m : M (option error)) k st st' e :
  m st = (st', Ret (Some e)) ->
  guarded_err fail d m k st = (_ ← RuntimeExec.WithFaultAndHost (Some e) fail; mret d) st'.
Proof.
  intros H. unfold guarded_err, RuntimeExec.WithFaultAndHost.
  rewrite (bind_run _ _ _ _ _ H). destruct fail; cbv [mbind M_bind mret M_ret].
  - repeat case_match; simplify_eq; done.
  - done.
Qed.

Lemma paid_balance st st' a : paid st st' -> balance_of st' a = balance_of st a.
Proof.
  intros Hp. unfold balance_of, outputOf. by rewrite (paid_output _ _ Hp), (paid_world _ _ Hp).
Qed.

(** The output after a transfer of [value] with result [r], or after none. *)
Record transferred (st st' : HostState) (sender dest : bytes) (value : Z) (data : bytes)
    (ok : bool) : Prop := {
  tr_deltas a : delta_of (outputOf st') a = delta_of (outputOf st) a +
    (if ok then at_address dest value a - at_address sender value a else 0);
  tr_transfers a : transfers_of (outputOf st') a = transfers_of (outputOf st) a ++
    (if ok then
       if decide (a = dest) then [mkOutputTransfer value 0 0 data DirectCall sender] else []
     else []);
  tr_storage : st_storage st' = st_storage st;
  tr_world : st_world st' = st_world st;
}.

Lemma transfer_loaded_run st sender dest valueBytes data :
  ready st -> isBuiltInCall data = false ->
  let value := SetBytes valueBytes in
  exists st' (ok : bool),
    transfer_loaded sender dest valueBytes data st = (st', Ret (if ok then 0 else 1)) /\
    (ok = true <-> 0 <= value <= balance_of st sender /\ payable_ok st dest value false) /\
    transferred st st' sender dest value data ok /\
    (ok = true -> rt st' = rt st) /\
    (ok = false -> exists e st1, failed_with e st1 st').
Proof.
  intros Hready Hb value. unfold transfer_loaded. rewrite Hb.
  destruct (Transfer_run st dest sender 0 0 value data DirectCall (ready_output _ Hready))
    as (st1 & r & H1 & Hr & Ht & Hd & _ & Hf & Hwf1).
  destruct (output_frame_parts _ _ Hf) as [Hw Hrt].
  destruct r as [e|].
  - rewrite (guarded_err_run _ _ _ _ _ _ _ H1).
    assert (live st1) as Hl1 by exact (BaseOpsProps.ready_live _ (ready_frame st st1 Hready Hf Hwf1)).
    destruct (fault_run st1 e Hl1) as (st2 & H2 & Hfail).
    exists st2, false. rewrite (bind_run _ _ _ _ _ H2). split; [done|].
    split; [by split; [|intros H%Hr]|]. split; [|by split; [|intros _; exists e, st1]].
    destruct Hfail as [_ _ _ Ha _ Hs Hwo _].
    split; intros; [rewrite <- Hd | rewrite <- Ht | rewrite Hs | by rewrite Hwo].
    + unfold delta_of. by rewrite Ha.
    + unfold transfers_of. by rewrite Ha.
    + injection Hf. congruence.
  - rewrite (guarded_err_ok _ _ _ _ _ _ H1). exists st1, true. split_and!; try done.
    + by split; [intros _; apply Hr|].
    + split; try done. injection Hf. congruence.
Qed.

(** [transferValue], with its arguments in memory: data that calls a built-in
    function is refused with 1 after charging and without a fault; otherwise the
    value is moved exactly when it is within the balance of the contract - no
    test of the payable flag, for the transfer has no gas, and none of read-only
    mode - and a transfer with the data is recorded at the destination; when it
    is not moved the execution has failed and the output records nothing. *)
Theorem transferValue_exact st destOffset valueOffset dataOffset length dest valueBytes data :
  ready st ->
  loaded st destOffset AddressLen = (dest, None) ->
  loaded st valueOffset BalanceLen = (valueBytes, None) ->
  loaded st dataOffset length = (data, None) ->
  let value := SetBytes valueBytes in
  let sender := scAddress (rt st) in
  exists st' (r : Z),
    v1_3_transferValue destOffset valueOffset dataOffset length st = (st', Ret r) /\
    (r = 0 \/ r = 1) /\
    (isBuiltInCall data = true -> r = 1 /\ paid st st') /\
    (isBuiltInCall data = false ->
       (r = 0 <-> 0 <= value <= balance_of st sender /\ payable_ok st dest value false) /\
       transferred st st' sender dest value data (r =? 0) /\
       (r = 0 -> rt st' = rt st) /\
       (r = 1 -> exists e st1, failed_with e st1 st')).
Proof.
  intros Hready Hd Hv Hx. cbv zeta.
  destruct (transferValue_loads _ _ _ _ _ _ _ _ (ready_live _ Hready) Hd Hv Hx) as (st1 & Hp & ->).
  destruct (isBuiltInCall data) eqn:Eb.
  { exists st1, 1. unfold transfer_loaded. rewrite Eb. split_and!; try done. by right. }
  destruct (transfer_loaded_run st1 (scAddress (rt st)) dest valueBytes data (paid_ready _ _ Hp Hready) Eb)
    as (st2 & ok & H2 & Hok & Htr & Hrt & Hfail).
  rewrite (paid_balance _ _ _ Hp) in Hok.
  assert (forall b, payable_ok st1 dest (SetBytes valueBytes) b <->
    payable_ok st dest (SetBytes valueBytes) b) as Hpay.
  { intros b. unfold payable_ok, rt. by rewrite (paid_world _ _ Hp), (paid_runtime _ _ Hp). }
  exists st2, (if ok then 0 else 1). split; [exact H2|].
  split; [destruct ok; [by left | by right]|]. split; [done|]. intros _.
  split_and!.
  - rewrite <- Hpay, <- Hok. by destruct ok.
  - destruct Htr as [Hdl Htl Hs Hw]. unfold outputOf in *.
    rewrite (paid_output _ _ Hp) in Hdl, Htl.
    rewrite (paid_storage _ _ Hp) in Hs. rewrite (paid_world _ _ Hp) in Hw.
    by split; destruct ok.
  - destruct ok; [|done]. intros _. rewrite (Hrt eq_refl). unfold rt.
    by rewrite (paid_runtime _ _ Hp).
  - destruct ok; [done|]. intros _. by apply Hfail.
Qed.

(** ** Arguments of indirect calls *)

(** When the address, the value and the function of an indirect call are
    readable, the call goes ahead with whatever arguments were read: an error of
    [getArgumentsFromMemory] - a negative number of arguments, a bad offset - is
    dropped, and the function is called with no arguments. *)
Theorem extractIndirectContractCallArguments_exact st destOffset valueOffset functionOffset
    functionLength numArguments argumentsLengthOffset dataOffset dest valueBytes function :
  live st -> is_s32 numArguments ->
  loaded st destOffset AddressLen = (dest, None) ->
  loaded st valueOffset BalanceLen = (valueBytes, None) ->
  loaded st functionOffset functionLength = (function, None) ->
  exists args actualLen err st',
    getArgumentsFromMemory numArguments argumentsLengthOffset dataOffset st =
      (st, Ret (args, actualLen, err)) /\
    len args = (if err is None then numArguments else 0) /\
    extractIndirectContractCallArgumentsWithValue destOffset valueOffset functionOffset
      functionLength numArguments argumentsLengthOffset dataOffset st =
      (st', Ret (mkCallArgs dest (Some (SetBytes valueBytes)) function args actualLen, None)) /\
    paid st st'.
Proof.
  intros Hl Hn Hd Hv Hf.
  destruct (getArgumentsFromMemory_total st numArguments argumentsLengthOffset dataOffset Hl Hn)
    as (args & actualLen & err & Hargs & Hlen).
  destruct (use_per_byte_paid st BaseOperationCost.DataCopyPerByte actualLen Hl)
    as (st1 & H1 & Hp).
  exists args, actualLen, err, st1. split; [exact Hargs|]. split.
  { by destruct err as [e|]; [destruct Hlen as [-> _]|]. }
  split; [|exact Hp].
  unfold extractIndirectContractCallArgumentsWithValue, extractIndirectContractCallArguments.
  rewrite (propagate_ok _ _ _ _ st dest) by (by rewrite MemLoad_run, Hd by done).
  rewrite (propagate_ok _ _ _ _ st (Some (SetBytes valueBytes))).
  2:{ by rewrite (propagate_ok _ _ _ _ st valueBytes) by (by rewrite MemLoad_run, Hv by done). }
  rewrite (propagate_ok _ _ _ _ st function) by (by rewrite MemLoad_run, Hf by done).
  by rewrite (bind_run _ _ _ _ _ Hargs), (bind_run _ _ _ _ _ H1).
Qed.

(** ** Read-only execution *)

(** [api], where an execution on the same context that is not read-only is a
    panic. *)
Definition only_read_only (api : HostAPI) : HostAPI := {|
  api_ExecuteOnDestContext := api_ExecuteOnDestContext api;
  api_ExecuteOnSameContext i := fun st =>
    if readOnly (rt st) then api_ExecuteOnSameContext api i st else (st, Panic);
  api_CreateNewContract := api_CreateNewContract api;
|}.

Lemma bind_ext {A B} (m : M A) (f g : A -> M B) st :
  (forall a st', f a st' = g a st') -> (m ≫= f) st = (m ≫= g) st.
Proof. intros H. cbv [mbind M_bind]. by destruct (m st) as [st' [a| |]]. Qed.

Lemma guarded_ext {A B} fail (d : B) (m : M (A * option error)) f g st :
  (forall a st', f a st' = g a st') -> guarded fail d m f st = guarded fail d m g st.
Proof.
  intros H. unfold guarded, guarded_err. apply bind_ext. intros a st1. apply bind_ext. intros e st2.
  apply bind_ext. intros [] st3; [done | apply H].
Qed.

Lemma triple_True {A} (m : M A) : triple True (fun _ => True) m (fun _ _ => True).
Proof. intros st _. by destruct (m st) as [? []]. Qed.

Lemma guarded_triple {A B} fail (d : B) (m : M (A * option error)) k (Q : B -> HostState -> Prop) :
  (forall st, Q d st) -> (forall a, triple True (fun _ => True) (k a) Q) ->
  triple True (fun _ => True) (guarded fail d m k) Q.
Proof.
  intros Hd Hk. unfold guarded, guarded_err.
  repeat (eapply triple_bind; [by apply triple_True|]; intros ?).
  case_match; [by apply triple_ret | apply Hk].
Qed.

Lemma guarded_err_triple (err : option error) :
  triple True (fun st => readOnly (rt st) = false)
    (guarded_err Runtime.BaseOpsErrorShouldFailExecution 1 (mret err) (mret 0))
    (fun r st => r = 0 -> readOnly (rt st) = false).
Proof.
  intros st Hst. destruct err as [e|]; [|rewrite (guarded_err_ok _ _ _ _ st st eq_refl); by intros _].
  rewrite (guarded_err_run _ _ _ _ st st e eq_refl).
  match goal with |- context [(_ ← ?m; mret 1) st] =>
    assert (triple True (fun _ => True) (_ ← m; mret 1)
      (fun r st => r = 0 -> readOnly (rt st) = false)) as Ht end; [|exact (Ht st I)].
  eapply triple_bind; [by apply triple_True|]. intros ?. by apply triple_ret.
Qed.

(** C22: the execution that [executeReadOnly] starts is entered in read-only mode: replacing
    every execution that is entered in another mode by a panic makes no difference.  The mode
    is switched off after it, not restored: when [executeReadOnly] has returned 0, the
    contract that called it is not read-only, even if it was itself running read-only, so a
    callee that makes such a call goes on with writing allowed. *)
Theorem executeReadOnly_mode api gasLimit addressOffset functionOffset functionLength
    numArguments argumentsLengthOffset dataOffset st :
  let run api := v1_3_executeReadOnly api gasLimit addressOffset functionOffset functionLength
    numArguments argumentsLengthOffset dataOffset st in
  run (only_read_only api) = run api /\
  (forall st', run api = (st', Ret 0) -> readOnly (rt st') = false).
Proof.
  cbv zeta. unfold v1_3_executeReadOnly, ExecuteReadOnlyWithHost. split.
  - apply guarded_ext. intros callArgs st1. unfold ExecuteReadOnlyWithTypedArguments.
    do 3 (apply bind_ext; intros ? ?). apply guarded_ext. intros input st2.
    apply bind_ext. intros ? st3. case_match; [done|].
    unfold Runtime.SetReadOnly. by rewrite !(bind_run _ _ _ _ _ eq_refl).
  - intros st' Hrun.
    match type of Hrun with ?m st = _ => assert (triple True (fun _ => True) m
      (fun r st => r = 0 -> readOnly (rt st) = false)) as Ht end.
    { apply guarded_triple; [done|]. intros callArgs. unfold ExecuteReadOnlyWithTypedArguments.
      do 3 (eapply triple_bind; [by apply triple_True|]; intros ?).
      apply guarded_triple; [done|]. intros input.
      eapply triple_bind; [by apply triple_True|]. intros ?. case_match; [by apply triple_ret|].
      do 2 (eapply triple_bind; [by apply triple_True|]; intros ?).
      eapply triple_bind; [|intros ?; apply guarded_err_triple]. by intros ? _. }
    specialize (Ht st I). rewrite Hrun in Ht. by apply Ht.
Qed.

End Calls.

(** ** Witnesses *)

(** The arguments of a call to bob in the memory: the address at offset 0, a value
    of 7 at 32, the data at 64. *)
Definition call_memory (function : bytes) : @HostState toy :=
  @set_st_instances toy
    {[ 1%nat := set_inst_Memory
         (bs "bob" ++ replicate 29 Byte.x00 ++ replicate 31 Byte.x00 ++ [Byte.x07] ++ function ++
          replicate 8 Byte.x00)
         (toy_instance (bs "code") 5) ]} toy_start.

Lemma call_memory_ready function : @ready toy (call_memory function).
Proof. split; [by exists 1%nat; eexists | exact toy_start_wf]. Qed.

Definition bob32 : bytes := bs "bob" ++ replicate 29 Byte.x00.

(** The value 7 of a transfer that the balance of the contract covers. *)
Lemma transferValue_exact_witness :
  exists st' r, @v1_3_transferValue toy 0 32 64 2 (call_memory (bs "hi")) = (st', Ret r) /\
    (r = 0 <-> 0 <= 7 <= @balance_of toy (call_memory (bs "hi")) (bs "sc1") /\
       @payable_ok toy (call_memory (bs "hi")) bob32 7 false).
Proof.
  destruct (@transferValue_exact toy (call_memory (bs "hi")) 0 32 64 2 bob32
    (replicate 31 Byte.x00 ++ [Byte.x07]) (bs "hi") (call_memory_ready _))
    as (st' & r & H & _ & _ & Hr); [vm_compute; reflexivity .. |].
  exists st', r. split; [exact H|]. by apply Hr.
Defined.

Lemma extractIndirectContractCallArguments_exact_witness :
  exists st', @extractIndirectContractCallArgumentsWithValue toy 0 32 64 2 (-1) 0 0
      (call_memory (bs "fn")) =
    (st', Ret (mkCallArgs bob32 (Some 7) (bs "fn") [] 0, None)).
Proof.
  destruct (@extractIndirectContractCallArguments_exact toy (call_memory (bs "fn")) 0 32 64 2 (-1)
    0 0 bob32 (replicate 31 Byte.x00 ++ [Byte.x07]) (bs "fn")
    (ready_live _ (call_memory_ready _))) as (args & n & err & st' & Ha & _ & H & _);
    [word_compute | vm_compute; reflexivity .. |].
  injection Ha as <- <- <-. by exists st'.
Defined.

(** A contract that runs read-only executes the function [fn] of bob; nothing
    else happens in that call. *)
Definition quiet_api : @HostAPI toy := {|
  api_ExecuteOnDestContext := fun _ => panic;
  api_ExecuteOnSameContext := fun _ => mret (None, None);
  api_CreateNewContract := fun _ => panic;
|}.

Definition read_only_caller : @HostState toy :=
  @set_st_runtime toy
    (set_rt_state (set_readOnly true (@rt toy (call_memory (bs "fn"))))
       (@st_runtime toy (call_memory (bs "fn")))) (call_memory (bs "fn")).

Abbreviation read_only_run := (@v1_3_executeReadOnly toy quiet_api 0 0 64 2 0 0 0 read_only_caller).

Lemma executeReadOnly_mode_witness :
  readOnly (@rt toy read_only_caller) = true /\
  exists st', read_only_run = (st', Ret 0) /\ readOnly (@rt toy st') = false.
Proof.
  split; [reflexivity|]. exists (fst read_only_run).
  assert (read_only_run = (fst read_only_run, Ret 0)) as Hrun.
  { assert (snd read_only_run = Ret 0) as <- by (vm_compute; reflexivity).
    apply surjective_pairing. }
  split; [exact Hrun|].
  exact (proj2 (@executeReadOnly_mode toy quiet_api 0 0 64 2 0 0 0 read_only_caller) _ Hrun).
Defined.
