(* ===== verification/BigIntProps.v ===== *)
(** What the operations on big integers exported to WebAssembly compute
    (definitions in [BigIntOps] and [SmallIntOps]). *)
From S2P Require Import Prelude Errors Overflow Helpers Types State Logic Toy BigInt Runtime.
From S2P Require Import Output Metering Blockchain Transfers Storage RuntimeExec Builtin Memory.
From S2P Require Import VMHooks BaseOps BigIntOps SmallIntOps Hooks HookRuns BaseOpsProps.

#[local] Open Scope Z_scope.

Section Numbers.
Context `{Ext : Externals}.

(** The number behind a handle; a handle not used yet has 0. *)
Definition number (st : HostState) (handle : Z) : Z :=
  default 0 (bi_values (st_bigInt st) !! handle).

(** Naming a handle creates it. *)
Definition touch (values : gmap Z Z) (handle : Z) : gmap Z Z :=
  match values !! handle with Some _ => values | None => <[handle := 0]> values end.

Definition touched (handles : list Z) (st : HostState) : HostState :=
  set_st_bigInt
    (set_bi_values (foldl touch (bi_values (st_bigInt st)) handles) (st_bigInt st)) st.

(** [st'] is [st] with the handles of the operation in use, [value] behind the
    destination, and gas paid. *)
Definition wrote (destination value : Z) (handles : list Z) (st st' : HostState) : Prop :=
  exists st1, st1 = touched handles st /\
    paid (set_st_bigInt (BigInt.SetValue destination value (st_bigInt st1)) st1) st'.

(** [m] returns with [value] behind the destination. *)
Definition computes (m : M unit) (destination value : Z) (handles : list Z) (st : HostState) :
    Prop :=
  exists st', m st = (st', Ret tt) /\ wrote destination value handles st st'.

(** [m] fails the execution and writes no number. *)
Definition fails_with (m : M unit) (e : error) (handles : list Z) (st : HostState) : Prop :=
  exists st', m st = (st', Ret tt) /\ failed_with e (touched handles st) st'.

(** ** Lemmas *)

Lemma number_touched handles st h : number (touched handles st) h = number st h.
Proof.
  unfold number, touched. cbn. generalize (bi_values (st_bigInt st)) as m.
  induction handles as [|h' handles IH]; intros m; cbn; [done|]. rewrite IH. unfold touch.
  destruct (m !! h') eqn:E; [done|].
  destruct (decide (h' = h)) as [->|]; [by rewrite lookup_insert_eq, E | by rewrite lookup_insert_ne].
Qed.

Lemma number_wrote st st' destination value handles :
  wrote destination value handles st st' -> number st' destination = value.
Proof.
  intros (st1 & _ & Hp). unfold number. rewrite (paid_bigInt _ _ Hp). cbn.
  by rewrite lookup_insert_eq.
Qed.

Lemma number_wrote_ne st st' destination value handles h :
  wrote destination value handles st st' -> h <> destination -> number st' h = number st h.
Proof.
  intros (st1 & -> & Hp) Hne. rewrite <- (number_touched handles st h). unfold number.
  rewrite (paid_bigInt _ _ Hp). cbn. by rewrite lookup_insert_ne.
Qed.

Lemma live_bigInt c st : live st -> live (set_st_bigInt c st).
Proof. intros (h & inst & Hr). by exists h, inst. Qed.

Lemma GetOne_touched st h :
  bigInt_GetOne h st = (touched [h] st, Ret (number st h)).
Proof.
  unfold bigInt_GetOne, BigInt.GetOne, touched, touch, number. cbn.
  destruct (bi_values (st_bigInt st) !! h); cbn; [|done].
  f_equal. by destruct st as [[]].
Qed.

Lemma GetThree_touched st h1 h2 h3 :
  bigInt_GetThree h1 h2 h3 st =
    (touched [h1; h2; h3] st, Ret (number st h1, number st h2, number st h3)).
Proof.
  unfold bigInt_GetThree.
  rewrite (bind_run _ _ _ _ _ (GetOne_touched st h1)).
  rewrite (bind_run _ _ _ _ _ (GetOne_touched _ h2)).
  rewrite (bind_run _ _ _ _ _ (GetOne_touched _ h3)).
  rewrite !number_touched. done.
Qed.

Lemma GetTwo_touched st h1 h2 :
  bigInt_GetTwo h1 h2 st = (touched [h1; h2] st, Ret (number st h1, number st h2)).
Proof.
  unfold bigInt_GetTwo.
  rewrite (bind_run _ _ _ _ _ (GetOne_touched st h1)).
  rewrite (bind_run _ _ _ _ _ (GetOne_touched _ h2)).
  by rewrite !number_touched.
Qed.

Lemma paid_touched st st1 handles :
  paid st st1 -> paid (touched handles st) (touched handles st1).
Proof.
  intros Hp. pose proof (paid_bigInt _ _ Hp) as Hb. unfold touched.
  split; [by apply live_bigInt, (paid_live _ _ Hp) | exact (paid_memory _ _ Hp) |].
  rewrite Hb. pose proof (paid_forget _ _ Hp) as Hf. destruct st, st1. cbn in *.
  unfold forget in *. cbn in *. by simplify_eq.
Qed.

(** The operands of a binary operation: paid for, and read before anything is
    written. *)
Lemma binary_operands {A} price (values : Z -> Z -> Z -> list Z) (k : Z -> Z -> M A)
    st destination op1 op2 :
  live st ->
  exists st1, paid (touched [destination; op1; op2] st) st1 /\
    (use_bigInt price ;;
     '(dest, a, b) ← bigInt_GetThree destination op1 op2;
     useExtraGasForOperations (values dest a b) ;; k a b) st = k (number st op1) (number st op2) st1.
Proof.
  intros Hl. destruct (use_bigInt_paid st price Hl) as (st1 & H1 & Hp1).
  rewrite (bind_run _ _ _ _ _ H1), (bind_run _ _ _ _ _ (GetThree_touched _ _ _ _)).
  match goal with |- context [(_ ← useExtraGasForOperations ?vs; _) ?s] =>
    destruct (useExtraGasForOperations_paid s vs) as (st2 & H2 & Hp2) end.
  { apply live_bigInt, (paid_live _ _ Hp1). }
  rewrite (bind_run _ _ _ _ _ H2). exists st2.
  split; [eapply paid_trans; [by apply paid_touched | done]|].
  unfold number. by rewrite (paid_bigInt _ _ Hp1).
Qed.

Lemma unary_operands {A} price (values : Z -> Z -> list Z) (k : Z -> M A) st destination op :
  live st ->
  exists st1, paid (touched [destination; op] st) st1 /\
    (use_bigInt price ;;
     '(dest, a) ← bigInt_GetTwo destination op;
     useExtraGasForOperations (values dest a) ;; k a) st = k (number st op) st1.
Proof.
  intros Hl. destruct (use_bigInt_paid st price Hl) as (st1 & H1 & Hp1).
  rewrite (bind_run _ _ _ _ _ H1), (bind_run _ _ _ _ _ (GetTwo_touched _ _ _)).
  match goal with |- context [(_ ← useExtraGasForOperations ?vs; _) ?s] =>
    destruct (useExtraGasForOperations_paid s vs) as (st2 & H2 & Hp2) end.
  { apply live_bigInt, (paid_live _ _ Hp1). }
  rewrite (bind_run _ _ _ _ _ H2). exists st2.
  split; [eapply paid_trans; [by apply paid_touched | done]|].
  unfold number. by rewrite (paid_bigInt _ _ Hp1).
Qed.

Lemma SetValue_wrote st st1 handles destination value :
  paid (touched handles st) st1 ->
  exists st', bigInt_SetValue destination value st1 = (st', Ret tt) /\
    wrote destination value handles st st'.
Proof.
  intros Hp. eexists. split; [reflexivity|]. eexists. split; [reflexivity|].
  pose proof (paid_bigInt _ _ Hp) as Hb. cbn -[touched] in *.
  split; [by apply live_bigInt, (paid_live _ _ Hp) | exact (paid_memory _ _ Hp) |].
  rewrite Hb. pose proof (paid_forget _ _ Hp) as Hf. destruct st, st1. cbn in *.
  unfold forget in *. cbn in *. by simplify_eq.
Qed.

Lemma wrote_paid st st1 st2 destination value handles :
  wrote destination value handles st st1 -> paid st1 st2 -> wrote destination value handles st st2.
Proof.
  intros (st0 & H0 & Hp) Hp'. exists st0. split; [done | by eapply paid_trans].
Qed.

(** A shift pays for its result after it has written it. *)
Lemma shifted_wrote st st1 handles destination value :
  paid (touched handles st) st1 ->
  exists st', (bigInt_SetValue destination value ;; useExtraGasForOperations [value]) st1 =
      (st', Ret tt) /\ wrote destination value handles st st'.
Proof.
  intros Hp. destruct (SetValue_wrote st st1 handles destination value Hp) as (st2 & H2 & Hw).
  rewrite (bind_run _ _ _ _ _ H2). pose proof Hw as (st0 & _ & Hp2).
  destruct (useExtraGasForOperations_paid st2 [value] (paid_live _ _ Hp2)) as (st3 & H3 & Hp3).
  exists st3. split; [done | by eapply wrote_paid].
Qed.

Lemma fault_touched (st st1 : HostState) handles e :
  paid (touched handles st) st1 ->
  exists st', fault e st1 = (st', Ret tt) /\ failed_with e (touched handles st) st'.
Proof.
  intros Hp. destruct (fault_run st1 e (paid_live _ _ Hp)) as (st' & H & Hf).
  exists st'. unfold fault. rewrite (bind_run _ _ _ _ _ H). split; [done|].
  by apply (failed_paid _ _ st1).
Qed.

(** What is left to show of an operation once its operands are read. *)
Lemma binary_op price (values : Z -> Z -> Z -> list Z) (k : Z -> Z -> M unit)
    st destination op1 op2 (R : HostState -> Prop) :
  live st ->
  (forall st1, paid (touched [destination; op1; op2] st) st1 ->
     exists st', k (number st op1) (number st op2) st1 = (st', Ret tt) /\ R st') ->
  exists st',
    (use_bigInt price ;;
     '(dest, a, b) ← bigInt_GetThree destination op1 op2;
     useExtraGasForOperations (values dest a b) ;; k a b) st = (st', Ret tt) /\ R st'.
Proof.
  intros Hl HR.
  destruct (binary_operands price values k st destination op1 op2 Hl) as (st1 & Hp & ->). auto.
Qed.

Lemma unary_op price (values : Z -> Z -> list Z) (k : Z -> M unit) st destination op
    (R : HostState -> Prop) :
  live st ->
  (forall st1, paid (touched [destination; op] st) st1 ->
     exists st', k (number st op) st1 = (st', Ret tt) /\ R st') ->
  exists st',
    (use_bigInt price ;;
     '(dest, a) ← bigInt_GetTwo destination op;
     useExtraGasForOperations (values dest a) ;; k a) st = (st', Ret tt) /\ R st'.
Proof.
  intros Hl HR.
  destruct (unary_operands price values k st destination op Hl) as (st1 & Hp & ->). auto.
Qed.

End Numbers.

(** Euclidean division: the remainder is never negative. *)
Definition euclid_div (x y : Z) : Z := Z.sgn y * (x / Z.abs y).
Definition euclid_mod (x y : Z) : Z := x mod Z.abs y.

Lemma Div_Mod_spec x y : y <> 0 -> x = y * Div x y + Mod x y /\ 0 <= Mod x y < Z.abs y.
Proof.
  intros Hy. unfold Div, Mod. pose proof (Z.quot_rem x y Hy). pose proof (Z.rem_bound_abs x y Hy).
  destruct (Z.ltb_spec (Z.rem x y) 0), (Z.ltb_spec y 0); lia.
Qed.

Lemma euclid_unique y q r q' r' :
  y * q + r = y * q' + r' -> 0 <= r < Z.abs y -> 0 <= r' < Z.abs y -> q = q' /\ r = r'.
Proof. intros. assert (y * (q - q') = r' - r) by lia. assert (q - q' = 0) by nia. nia. Qed.

Lemma Div_Mod_euclid x y :
  y <> 0 -> Div x y = euclid_div x y /\ Mod x y = euclid_mod x y.
Proof.
  intros Hy. destruct (Div_Mod_spec x y Hy) as [H1 H2]. unfold euclid_div, euclid_mod.
  apply (euclid_unique y); [|done | apply Z.mod_pos_bound; lia].
  rewrite <- H1, Z.mul_assoc. replace (y * Z.sgn y) with (Z.abs y) by lia. apply Z.div_mod. lia.
Qed.

Ltac operands Hl :=
  first
    [ apply (binary_op _ (fun dest a b => [dest; a; b])); [exact Hl | intros st1 Hpaid]
    | apply (binary_op _ (fun dest a b => [a; b])); [exact Hl | intros st1 Hpaid]
    | apply (unary_op _ (fun dest a => [dest; a])); [exact Hl | intros st1 Hpaid]
    | apply (unary_op _ (fun dest a => [a])); [exact Hl | intros st1 Hpaid] ];
  cbv beta.

Section Properties.
Context `{Ext : Externals}.

(** C17: addition, subtraction, multiplication, absolute value and negation are
    exact on numbers of any size and for any handles, also when the destination
    is an operand and when a handle has no number yet (it counts as 0): the
    destination gets the result, no other number changes, and apart from gas
    nothing else of the host does. *)
Theorem bigInt_arithmetic_exact st destination op1 op2 :
  live st ->
  let handles := [destination; op1; op2] in
  let a := number st op1 in
  let b := number st op2 in
  computes (v1_3_bigIntAdd destination op1 op2) destination (a + b) handles st /\
  computes (v1_3_bigIntSub destination op1 op2) destination (a - b) handles st /\
  computes (v1_3_bigIntMul destination op1 op2) destination (a * b) handles st /\
  computes (v1_3_bigIntAbs destination op1) destination (Z.abs a) [destination; op1] st /\
  computes (v1_3_bigIntNeg destination op1) destination (- a) [destination; op1] st.
Proof.
  intros Hl handles a b. split_and!; unfold computes, v1_3_bigIntAdd, v1_3_bigIntSub,
    v1_3_bigIntMul, v1_3_bigIntAbs, v1_3_bigIntNeg; operands Hl; by apply SetValue_wrote.
Qed.

(** C18: the four divisions.  By zero they fail the execution and leave every
    number alone.  Otherwise [EDiv] and [EMod], which [math/big] obtains by
    adjusting the truncated division, are Euclidean division with its unique
    remainder in [0, |b|); [TDiv] and [TMod] truncate, with the sign of the
    dividend. *)
Theorem bigInt_division_exact st destination op1 op2 :
  live st ->
  let handles := [destination; op1; op2] in
  let a := number st op1 in
  let b := number st op2 in
  if decide (b = 0) then
    fails_with (v1_3_bigIntEDiv destination op1 op2) ErrDivZero handles st /\
    fails_with (v1_3_bigIntEMod destination op1 op2) ErrDivZero handles st /\
    fails_with (v1_3_bigIntTDiv destination op1 op2) ErrDivZero handles st /\
    fails_with (v1_3_bigIntTMod destination op1 op2) ErrDivZero handles st
  else
    computes (v1_3_bigIntEDiv destination op1 op2) destination (euclid_div a b) handles st /\
    computes (v1_3_bigIntEMod destination op1 op2) destination (euclid_mod a b) handles st /\
    computes (v1_3_bigIntTDiv destination op1 op2) destination (Z.quot a b) handles st /\
    computes (v1_3_bigIntTMod destination op1 op2) destination (Z.rem a b) handles st.
Proof.
  intros Hl handles a b.
  assert ((Sign b =? 0) = bool_decide (b = 0)) as Hsign.
  { unfold Sign. case_bool_decide; [by subst b; rewrite H|]. apply Z.eqb_neq. lia. }
  assert (b <> 0 -> euclid_div a b = Div a b /\ euclid_mod a b = Mod a b) as Heuclid
    by (intros Hb; by destruct (Div_Mod_euclid a b Hb)).
  destruct (decide (b = 0)) as [Hb|Hb]; [|destruct (Heuclid Hb) as [-> ->]]; split_and!;
    unfold computes, fails_with, v1_3_bigIntEDiv, v1_3_bigIntEMod, v1_3_bigIntTDiv,
      v1_3_bigIntTMod; operands Hl; fold a b; rewrite Hsign;
    case_bool_decide; try done; (by apply SetValue_wrote) || by apply fault_touched.
Qed.

(** The bitwise operations and the shifts are refused for negative operands,
    and exact otherwise. *)
Theorem bigInt_bits_exact st destination op1 op2 bits :
  live st ->
  let handles := [destination; op1; op2] in
  let a := number st op1 in
  let b := number st op2 in
  (if (a <? 0) || (b <? 0) then
     fails_with (v1_3_bigIntAnd destination op1 op2) ErrBitwiseNegative handles st /\
     fails_with (v1_3_bigIntOr destination op1 op2) ErrBitwiseNegative handles st /\
     fails_with (v1_3_bigIntXor destination op1 op2) ErrBitwiseNegative handles st
   else
     computes (v1_3_bigIntAnd destination op1 op2) destination (Z.land a b) handles st /\
     computes (v1_3_bigIntOr destination op1 op2) destination (Z.lor a b) handles st /\
     computes (v1_3_bigIntXor destination op1 op2) destination (Z.lxor a b) handles st) /\
  (if (a <? 0) || (bits <? 0) then
     fails_with (v1_3_bigIntShr destination op1 bits) ErrShiftNegative [destination; op1] st /\
     fails_with (v1_3_bigIntShl destination op1 bits) ErrShiftNegative [destination; op1] st
   else
     computes (v1_3_bigIntShr destination op1 bits) destination (a / 2 ^ bits)
       [destination; op1] st /\
     computes (v1_3_bigIntShl destination op1 bits) destination (a * 2 ^ bits)
       [destination; op1] st).
Proof.
  intros Hl handles a b.
  assert (forall x, (Sign x <? 0) = (x <? 0)) as Hsign
    by (intros x; unfold Sign; destruct (Z.ltb_spec x 0), (Z.ltb_spec (Z.sgn x) 0); lia).
  split.
  - destruct ((a <? 0) || (b <? 0)) eqn:E; split_and!;
      unfold computes, fails_with, v1_3_bigIntAnd, v1_3_bigIntOr, v1_3_bigIntXor;
      operands Hl; fold a b; rewrite !Hsign, E;
      (by apply SetValue_wrote) || by apply fault_touched.
  - destruct ((a <? 0) || (bits <? 0)) eqn:E; split;
      unfold computes, fails_with, v1_3_bigIntShr, v1_3_bigIntShl;
      operands Hl; fold a; rewrite Hsign, E; try by apply fault_touched.
    all: apply orb_false_iff in E as [_ Hbits%Z.ltb_ge];
      rewrite <- ?Z.shiftr_div_pow2, <- ?Z.shiftl_mul_pow2 by done; by apply shifted_wrote.
Qed.

End Properties.

(** ** 64-bit integers in the storage *)

Section SmallInts.
Context `{Ext : Externals}.

(** What [twos-complement] documents: [SetBytes] inverts [ToBytes]. *)
Definition twos_inverse : Prop := forall z, is_s64 z -> twos_SetBytes (twos_ToBytes z) = z.

Lemma smallInt_store st keyOffset keyLength key value :
  ready st -> loaded st keyOffset keyLength = (key, None) -> write_refused st key = None ->
  exists st' status,
    (use_base BaseOpsAPICost.Int64StorageStore ;;
     guarded Runtime.BaseOpsErrorShouldFailExecution (-1) (Runtime.MemLoad keyOffset keyLength)
       (fun key => guarded Runtime.BaseOpsErrorShouldFailExecution (-1)
          (Storage.SetStorage key value)
          (fun storageStatus => mret (StorageStatus_to_Z storageStatus)))) st =
      (st', Ret (StorageStatus_to_Z status)) /\
    ready st' /\ loaded st' keyOffset keyLength = (key, None) /\
    storage_value st' (sto_address (st_storage st')) key = value.
Proof.
  intros Hr Hload Hok.
  destruct (pay_and_load BaseOpsAPICost.Int64StorageStore (-1) keyOffset keyLength
    (fun key => guarded Runtime.BaseOpsErrorShouldFailExecution (-1)
       (Storage.SetStorage key value)
       (fun storageStatus => mret (StorageStatus_to_Z storageStatus)))
    st key (ready_live _ Hr) Hload) as (st1 & Hp & ->).
  assert (write_refused st1 key = None) as Hok1.
  { revert Hok. unfold write_refused, rt. by rewrite (paid_runtime _ _ Hp), (paid_storage _ _ Hp). }
  destruct (SetStorage_run st1 key value (paid_ready _ _ Hp Hr) Hok1) as (st2 & H2 & Hk & Hv).
  rewrite (guarded_ok _ _ _ _ _ _ _ H2). do 2 eexists. split; [reflexivity|].
  split; [apply Hk|]. split.
  - unfold loaded. rewrite (keeps_run memory_of _ _ _ _ _ H2), (paid_memory _ _ Hp). exact Hload.
  - by rewrite Hv, (kept_storage _ _ Hk), decide_True.
Qed.

Lemma smallInt_load st keyOffset keyLength key (k : bytes -> M Z) :
  ready st -> loaded st keyOffset keyLength = (key, None) ->
  exists st',
    (use_base BaseOpsAPICost.Int64StorageLoad ;;
     guarded Runtime.BaseOpsErrorShouldFailExecution 0 (Runtime.MemLoad keyOffset keyLength)
       (fun key => data ← Storage.GetStorage key; k data)) st =
      k (storage_value st (sto_address (st_storage st)) key) st'.
Proof.
  intros Hr Hload.
  destruct (pay_and_load BaseOpsAPICost.Int64StorageLoad 0 keyOffset keyLength
    (fun key => data ← Storage.GetStorage key; k data) st key (ready_live _ Hr) Hload)
    as (st1 & Hp & ->).
  destruct (GetStorage_run st1 key (paid_ready _ _ Hp Hr)) as (st2 & H2 & _).
  rewrite (bind_run _ _ _ _ _ H2). exists st2. by rewrite (paid_value _ _ _ _ Hp), (paid_storage _ _ Hp).
Qed.

(** A 64-bit integer that a contract stores is the one it loads, for every
    [int64], by the unsigned and by the signed functions and by the [int64] names
    kept for compatibility. *)
Theorem smallInt_storage_roundtrip st keyOffset keyLength key value :
  ready st -> loaded st keyOffset keyLength = (key, None) -> write_refused st key = None ->
  is_s64 value -> twos_inverse ->
  (exists st1 status st2,
     v1_3_smallIntStorageStoreUnsigned keyOffset keyLength value st = (st1, Ret status) /\
     v1_3_smallIntStorageLoadUnsigned keyOffset keyLength st1 = (st2, Ret value)) /\
  (exists st1 status st2,
     v1_3_smallIntStorageStoreSigned keyOffset keyLength value st = (st1, Ret status) /\
     v1_3_smallIntStorageLoadSigned keyOffset keyLength st1 = (st2, Ret value)) /\
  (exists st1 status st2,
     v1_3_int64storageStore keyOffset keyLength value st = (st1, Ret status) /\
     v1_3_int64storageLoad keyOffset keyLength st1 = (st2, Ret value)).
Proof.
  intros Hr Hload Hok Hv Htwos.
  assert (exists st1 status st2,
     v1_3_smallIntStorageStoreUnsigned keyOffset keyLength value st = (st1, Ret status) /\
     v1_3_smallIntStorageLoadUnsigned keyOffset keyLength st1 = (st2, Ret value)) as Hunsigned.
  { destruct (smallInt_store st keyOffset keyLength key (Bytes (u64 value)) Hr Hload Hok)
      as (st1 & status & H1 & Hr1 & Hload1 & Hv1).
    exists st1, (StorageStatus_to_Z status). unfold v1_3_smallIntStorageLoadUnsigned.
    edestruct (smallInt_load st1 keyOffset keyLength key) as [st2 H2]; [done..|].
    exists st2. split; [exact H1|]. rewrite H2, Hv1, SetBytes_Bytes.
    rewrite Z.abs_eq by word_lia. replace (IsUint64 (u64 value)) with true; cbn [negb].
    - unfold mret, M_ret, Uint64. do 2 f_equal. word_lia.
    - unfold IsUint64. symmetry. apply andb_true_iff. split; apply Z.leb_le; word_lia. }
  split; [exact Hunsigned|]. split; [|exact Hunsigned].
  destruct (smallInt_store st keyOffset keyLength key (twos_ToBytes value) Hr Hload Hok)
    as (st1 & status & H1 & Hr1 & Hload1 & Hv1).
  exists st1, (StorageStatus_to_Z status). unfold v1_3_smallIntStorageLoadSigned.
  edestruct (smallInt_load st1 keyOffset keyLength key) as [st2 H2]; [done..|].
  exists st2. split; [exact H1|]. rewrite H2, Hv1, Htwos by done.
  replace (IsInt64 value) with true; cbn [negb].
  - unfold mret, M_ret, Int64. do 2 f_equal. by apply s64_id.
  - unfold IsInt64. symmetry. apply andb_true_iff. split; apply Z.leb_le; word_lia.
Qed.

End SmallInts.

(** ** Witnesses *)

(** The numbers 7 and -2 behind the handles 1 and 2. *)
Definition two_numbers : @HostState toy :=
  @set_st_bigInt toy (mkbigIntContext {[ 1 := 7; 2 := -2 ]} []) toy_start.

Lemma two_numbers_live : @live toy two_numbers.
Proof. by do 2 eexists. Qed.

(** The destination is an operand. *)
Lemma bigInt_arithmetic_exact_witness :
  exists st', @v1_3_bigIntAdd toy 1 1 2 two_numbers = (st', Ret tt) /\
    @wrote toy 1 5 [1; 1; 2] two_numbers st'.
Proof.
  destruct (@bigInt_arithmetic_exact toy two_numbers 1 1 2 two_numbers_live) as [H _]. exact H.
Defined.

Lemma bigInt_division_exact_witness :
  (exists st', @v1_3_bigIntEDiv toy 3 1 2 two_numbers = (st', Ret tt) /\
     @wrote toy 3 (-3) [3; 1; 2] two_numbers st') /\
  (exists st', @v1_3_bigIntTMod toy 3 1 4 two_numbers = (st', Ret tt) /\
     @failed_with toy ErrDivZero (@touched toy [3; 1; 4] two_numbers) st').
Proof.
  split.
  - destruct (@bigInt_division_exact toy two_numbers 3 1 2 two_numbers_live) as [H _]. exact H.
  - destruct (@bigInt_division_exact toy two_numbers 3 1 4 two_numbers_live) as (_ & _ & _ & H).
    exact H.
Defined.

Lemma bigInt_bits_exact_witness :
  (exists st', @v1_3_bigIntAnd toy 3 1 2 two_numbers = (st', Ret tt) /\
     @failed_with toy ErrBitwiseNegative (@touched toy [3; 1; 2] two_numbers) st') /\
  (exists st', @v1_3_bigIntShl toy 3 1 2 two_numbers = (st', Ret tt) /\
     @wrote toy 3 28 [3; 1] two_numbers st').
Proof.
  destruct (@bigInt_bits_exact toy two_numbers 3 1 2 2 two_numbers_live)
    as [(Hand & _ & _) (_ & Hshl)].
  split; [exact Hand | exact Hshl].
Defined.

Lemma toy_digits_length n z acc : len (toy_digits n z acc) = Z.of_nat n + len acc.
Proof.
  revert z acc. induction n as [|n IH]; intros z acc; cbn [toy_digits]; [done|].
  rewrite IH. unfold len. cbn [length]. lia.
Qed.

Lemma toy_digits_value n z acc :
  SetBytes (toy_digits n z acc) = z mod 256 ^ Z.of_nat n * 256 ^ len acc + SetBytes acc.
Proof.
  revert z acc. induction n as [|n IH]; intros z acc; cbn [toy_digits].
  { change (256 ^ Z.of_nat 0) with 1. by rewrite Z.mod_1_r. }
  rewrite IH, Nat2Z.inj_succ, Z.pow_succ_r by lia.
  rewrite Z.rem_mul_r by (try apply Z.pow_pos_nonneg; lia).
  change (byte_of_Z z :: acc) with ([byte_of_Z z] ++ acc). rewrite SetBytes_app, len_app.
  replace (len [byte_of_Z z]) with 1 by done.
  replace (SetBytes [byte_of_Z z]) with (z mod 256)
    by (unfold SetBytes; cbn [foldl]; rewrite Z_of_byte_of_Z; done).
  rewrite Z.pow_add_r by (auto with words; lia). ring.
Qed.

Lemma toy_twos_inverse : @twos_inverse toy.
Proof.
  intros z _. cbn. unfold toy_twos_SetBytes, toy_twos_ToBytes.
  rewrite toy_digits_length, toy_digits_value. change (len []) with 0. change (SetBytes []) with 0.
  pose proof (Z.log2_nonneg (Z.abs z)). set (k := Z.log2 (Z.abs z) / 8).
  assert (0 <= k) by (apply Z.div_pos; lia).
  rewrite Z2Nat.id, Z.pow_0_r, Z.mul_1_r, !Z.add_0_r by lia.
  assert (Z.abs z < 256 ^ (k + 1)) as Hz.
  { destruct (Z.eq_dec z 0) as [->|]; [by apply Z.pow_pos_nonneg; lia|].
    eapply Z.lt_le_trans; [apply Z.log2_spec; lia|]. change 256 with (2 ^ 8).
    rewrite <- Z.pow_mul_r by lia. apply Z.pow_le_mono_r; [lia|].
    pose proof (Z.div_mod (Z.log2 (Z.abs z)) 8 ltac:(lia)).
    pose proof (Z.mod_pos_bound (Z.log2 (Z.abs z)) 8 ltac:(lia)). subst k. lia. }
  replace (k + 2) with (Z.succ (k + 1)) by lia. rewrite Z.pow_succ_r by lia.
  set (b := 256 ^ (k + 1)) in *.
  destruct (Z.leb_spec 0 z).
  - rewrite Z.mod_small by lia. destruct (Z.leb_spec (256 * b) (2 * z)); lia.
  - replace (z mod (256 * b)) with (z + 256 * b)
      by (apply Z.mod_unique with (-1); lia).
    destruct (Z.leb_spec (256 * b) (2 * (z + 256 * b))); lia.
Qed.

Lemma smallInt_storage_roundtrip_witness :
  exists st1 st2, @v1_3_smallIntStorageLoadSigned toy 0 3 st1 = (st2, Ret (-5)).
Proof.
  destruct (@smallInt_storage_roundtrip toy toy_start 0 3 [Byte.x00; Byte.x00; Byte.x00] (-5)
    toy_start_ready) as (_ & (st1 & status & st2 & _ & H) & _);
    [vm_compute; reflexivity | vm_compute; reflexivity | word_compute | exact toy_twos_inverse |].
  by exists st1, st2.
Defined.
