(* ===== verification/Imports.v ===== *)
(** The functions a contract may import: the tables built by
    [BaseOpsAPIImports], [BigIntImports], [SmallIntImports] and [CryptoImports]
    ([src/vmhost/vmhooks], [src/vmhost/cryptoapi]), joined in [NewVMHost]
    ([src/vmhost/hostCore/host.go]), with the types of the exported functions.

    Every one of them is composed of the operations of [Hooks] and the
    executions of [HostAPI], and returns a value of its declared type.  So a
    contract that reaches the host only through its imports is [sandboxed]. *)
From stdpp Require Import vector.
From S2P Require Import Prelude Errors Overflow Helpers Types State Logic Toy BigInt Runtime.
From S2P Require Import Output Metering Blockchain Transfers Storage Validator RuntimeExec.
From S2P Require Import Builtin Memory VMHooks BaseOps AsyncCall BaseOpsCalls BigIntOps.
From S2P Require Import SmallIntOps CryptoEI Hooks.

#[local] Open Scope Z_scope.

(** ** Types of the exported functions *)

Inductive ValType := I32 | I64.

(** A Go function of these arguments. *)
Fixpoint fn (args : list ValType) (R : Type) : Type :=
  match args with
  | [] => R
  | _ :: args' => Z -> fn args' R
  end.

Definition result_type (r : option ValType) : Type :=
  match r with None => unit | Some _ => Z end.

Definition in_type (t : ValType) (z : Z) : Prop :=
  match t with I32 => is_s32 z | I64 => is_s64 z end.

Definition has_type (r : option ValType) : result_type r -> Prop :=
  match r with None => fun _ => True | Some t => fun z => in_type t z end.

(** The Go integer with the bits that WebAssembly passes. *)
Definition of_bits (t : ValType) (bits : Z) : Z :=
  match t with I32 => s32 bits | I64 => s64 bits end.

Fixpoint apply_bits (args : list ValType) {R} : fn args R -> vec Z (length args) -> R :=
  match args with
  | [] => fun r _ => r
  | t :: args' => fun f bits => apply_bits args' (f (of_bits t (Vector.hd bits))) (Vector.tl bits)
  end.

Section Imports.
Context `{Ext : Externals}.

Record Import := mkImport {
  imp_name : bytes;
  imp_args : list ValType;
  imp_result : option ValType;
  imp_run : HostAPI -> fn imp_args (M (result_type imp_result));
}.

(** [imports.Append(name, implementation, ...)] *)
Definition Append (name : string) (args : list ValType) (result : option ValType)
    (run : HostAPI -> fn args (M (result_type result))) : Import :=
  mkImport (bs name) args result run.

Definition call_import (api : HostAPI) (i : Import) (bits : vec Z (length (imp_args i))) :
    M (result_type (imp_result i)) :=
  apply_bits (imp_args i) (imp_run i api) bits.

(** The contract, its environment and transfers. *)
Definition AccountImports : list Import :=
  [
     Append "getSCAddress" [I32] None (fun _ => v1_3_getSCAddress);
     Append "getOwnerAddress" [I32] None (fun _ => v1_3_getOwnerAddress);
     Append "getShardOfAddress" [I32] (Some I32) (fun _ => v1_3_getShardOfAddress);
     Append "isSmartContract" [I32] (Some I32) (fun _ => v1_3_isSmartContract);
     Append "getExternalBalance" [I32; I32] None (fun _ => v1_3_getExternalBalance);
     Append "getBlockHash" [I64; I32] (Some I32) (fun _ => v1_3_blockHash);
     Append "transferValue" [I32; I32; I32; I32] (Some I32) (fun _ => v1_3_transferValue);
     Append "transferESDTExecute" [I32; I32; I32; I32; I64; I32; I32; I32; I32; I32] (Some I32)
       (fun api => v1_3_transferESDTExecute api);
     Append "transferESDTNFTExecute" [I32; I32; I32; I32; I64; I64; I32; I32; I32; I32; I32] (Some I32)
       (fun api => v1_3_transferESDTNFTExecute api);
     Append "transferESDT" [I32; I32; I32; I32; I64; I32; I32] (Some I32)
       (fun _ => v1_3_transferESDT);
     Append "transferValueExecute" [I32; I32; I64; I32; I32; I32; I32; I32] (Some I32)
       (fun api => v1_3_transferValueExecute api);
     Append "asyncCall" [I32; I32; I32; I32] None (fun _ => v1_3_asyncCall)
  ].

(** Arguments and storage. *)
Definition ArgumentStorageImports : list Import :=
  [
     Append "getArgumentLength" [I32] (Some I32) (fun _ => v1_3_getArgumentLength);
     Append "getArgument" [I32; I32] (Some I32) (fun _ => v1_3_getArgument);
     Append "getFunction" [I32] (Some I32) (fun _ => v1_3_getFunction);
     Append "getNumArguments" [] (Some I32) (fun _ => v1_3_getNumArguments);
     Append "storageStore" [I32; I32; I32; I32] (Some I32) (fun _ => v1_3_storageStore);
     Append "storageLoadLength" [I32; I32] (Some I32) (fun _ => v1_3_storageLoadLength);
     Append "storageLoad" [I32; I32; I32] (Some I32) (fun _ => v1_3_storageLoad);
     Append "storageLoadFromAddress" [I32; I32; I32; I32] (Some I32)
       (fun _ => v1_3_storageLoadFromAddress);
     Append "getStorageLock" [I32; I32] (Some I64) (fun _ => v1_3_getStorageLock);
     Append "setStorageLock" [I32; I32; I64] (Some I32) (fun _ => v1_3_setStorageLock);
     Append "isStorageLocked" [I32; I32] (Some I32) (fun _ => v1_3_isStorageLocked);
     Append "clearStorageLock" [I32; I32] (Some I32) (fun _ => v1_3_clearStorageLock)
  ].

(** The payment, logs and results. *)
Definition PaymentResultImports : list Import :=
  [
     Append "getCaller" [I32] None (fun _ => v1_3_getCaller);
     Append "checkNoPayment" [] None (fun _ => v1_3_checkNoPayment);
     Append "getCallValue" [I32] (Some I32) (fun _ => v1_3_callValue);
     Append "getESDTValue" [I32] (Some I32) (fun _ => v1_3_getESDTValue);
     Append "getESDTTokenName" [I32] (Some I32) (fun _ => v1_3_getESDTTokenName);
     Append "getESDTTokenType" [] (Some I32) (fun _ => v1_3_getESDTTokenType);
     Append "getESDTTokenNonce" [] (Some I64) (fun _ => v1_3_getESDTTokenNonce);
     Append "getCurrentESDTNFTNonce" [I32; I32; I32] (Some I64)
       (fun _ => v1_3_getCurrentESDTNFTNonce);
     Append "getCallValueTokenName" [I32; I32] (Some I32) (fun _ => v1_3_getCallValueTokenName);
     Append "writeLog" [I32; I32; I32; I32] None (fun _ => v1_3_writeLog);
     Append "writeEventLog" [I32; I32; I32; I32; I32] None (fun _ => v1_3_writeEventLog);
     Append "finish" [I32; I32] None (fun _ => v1_3_returnData);
     Append "signalError" [I32; I32] None (fun _ => v1_3_signalError)
  ].

(** The block and the gas. *)
Definition BlockImports : list Import :=
  [
     Append "getBlockTimestamp" [] (Some I64) (fun _ => v1_3_getBlockTimestamp);
     Append "getBlockNonce" [] (Some I64) (fun _ => v1_3_getBlockNonce);
     Append "getBlockRound" [] (Some I64) (fun _ => v1_3_getBlockRound);
     Append "getBlockEpoch" [] (Some I64) (fun _ => v1_3_getBlockEpoch);
     Append "getBlockRandomSeed" [I32] None (fun _ => v1_3_getBlockRandomSeed);
     Append "getStateRootHash" [I32] None (fun _ => v1_3_getStateRootHash);
     Append "getPrevBlockTimestamp" [] (Some I64) (fun _ => v1_3_getPrevBlockTimestamp);
     Append "getPrevBlockNonce" [] (Some I64) (fun _ => v1_3_getPrevBlockNonce);
     Append "getPrevBlockRound" [] (Some I64) (fun _ => v1_3_getPrevBlockRound);
     Append "getPrevBlockEpoch" [] (Some I64) (fun _ => v1_3_getPrevBlockEpoch);
     Append "getPrevBlockRandomSeed" [I32] None (fun _ => v1_3_getPrevBlockRandomSeed);
     Append "getOriginalTxHash" [I32] None (fun _ => v1_3_getOriginalTxHash);
     Append "getGasLeft" [] (Some I64) (fun _ => v1_3_getGasLeft)
  ].

(** The execution of other contracts and its results. *)
Definition ExecutionImports : list Import :=
  [
     Append "executeOnDestContext" [I64; I32; I32; I32; I32; I32; I32; I32] (Some I32)
       (fun api => v1_3_executeOnDestContext api);
     Append "executeOnDestContextByCaller" [I64; I32; I32; I32; I32; I32; I32; I32] (Some I32)
       (fun api => v1_3_executeOnDestContextByCaller api);
     Append "executeOnSameContext" [I64; I32; I32; I32; I32; I32; I32; I32] (Some I32)
       (fun api => v1_3_executeOnSameContext api);
     Append "delegateExecution" [I64; I32; I32; I32; I32; I32; I32] (Some I32)
       (fun api => v1_3_delegateExecution api);
     Append "createContract" [I64; I32; I32; I32; I32; I32; I32; I32; I32] (Some I32)
       (fun api => v1_3_createContract api);
     Append "deployFromSourceContract" [I64; I32; I32; I32; I32; I32; I32; I32] (Some I32)
       (fun api => v1_3_deployFromSourceContract api);
     Append "upgradeContract" [I32; I64; I32; I32; I32; I32; I32; I32; I32] None
       (fun _ => v1_3_upgradeContract);
     Append "upgradeFromSourceContract" [I32; I64; I32; I32; I32; I32; I32; I32] None
       (fun _ => v1_3_upgradeFromSourceContract);
     Append "executeReadOnly" [I64; I32; I32; I32; I32; I32; I32] (Some I32)
       (fun api => v1_3_executeReadOnly api);
     Append "getNumReturnData" [] (Some I32) (fun _ => v1_3_getNumReturnData);
     Append "getReturnDataSize" [I32] (Some I32) (fun _ => v1_3_getReturnDataSize);
     Append "getReturnData" [I32; I32] (Some I32) (fun _ => v1_3_getReturnData)
  ].

(** Tokens of an account. *)
Definition ESDTImports : list Import :=
  [
     Append "getESDTBalance" [I32; I32; I32; I64; I32] (Some I32) (fun _ => v1_3_getESDTBalance);
     Append "getESDTTokenData" [I32; I32; I32; I64; I32; I32; I32; I32; I32; I32; I32; I32] (Some I32)
       (fun _ => v1_3_getESDTTokenData);
     Append "getESDTNFTNameLength" [I32; I32; I32; I64] (Some I32)
       (fun _ => v1_3_getESDTNFTNameLength);
     Append "getESDTNFTAttributeLength" [I32; I32; I32; I64] (Some I32)
       (fun _ => v1_3_getESDTNFTAttributeLength);
     Append "getESDTNFTURILength" [I32; I32; I32; I64] (Some I32)
       (fun _ => v1_3_getESDTNFTURILength)
  ].

Definition BaseOpsAPIImports : list Import :=
  AccountImports ++ ArgumentStorageImports ++ PaymentResultImports ++ BlockImports ++
  ExecutionImports ++ ESDTImports.

(** Creation, bytes and machine words, arithmetic. *)
Definition BigIntNumberImports : list Import :=
  [
     Append "bigIntNew" [I64] (Some I32) (fun _ => v1_3_bigIntNew);
     Append "bigIntUnsignedByteLength" [I32] (Some I32) (fun _ => v1_3_bigIntUnsignedByteLength);
     Append "bigIntSignedByteLength" [I32] (Some I32) (fun _ => v1_3_bigIntSignedByteLength);
     Append "bigIntGetUnsignedBytes" [I32; I32] (Some I32) (fun _ => v1_3_bigIntGetUnsignedBytes);
     Append "bigIntGetSignedBytes" [I32; I32] (Some I32) (fun _ => v1_3_bigIntGetSignedBytes);
     Append "bigIntSetUnsignedBytes" [I32; I32; I32] None (fun _ => v1_3_bigIntSetUnsignedBytes);
     Append "bigIntSetSignedBytes" [I32; I32; I32] None (fun _ => v1_3_bigIntSetSignedBytes);
     Append "bigIntIsInt64" [I32] (Some I32) (fun _ => v1_3_bigIntIsInt64);
     Append "bigIntGetInt64" [I32] (Some I64) (fun _ => v1_3_bigIntGetInt64);
     Append "bigIntSetInt64" [I32; I64] None (fun _ => v1_3_bigIntSetInt64);
     Append "bigIntAdd" [I32; I32; I32] None (fun _ => v1_3_bigIntAdd);
     Append "bigIntSub" [I32; I32; I32] None (fun _ => v1_3_bigIntSub);
     Append "bigIntMul" [I32; I32; I32] None (fun _ => v1_3_bigIntMul);
     Append "bigIntTDiv" [I32; I32; I32] None (fun _ => v1_3_bigIntTDiv);
     Append "bigIntTMod" [I32; I32; I32] None (fun _ => v1_3_bigIntTMod);
     Append "bigIntEDiv" [I32; I32; I32] None (fun _ => v1_3_bigIntEDiv);
     Append "bigIntEMod" [I32; I32; I32] None (fun _ => v1_3_bigIntEMod);
     Append "bigIntAbs" [I32; I32] None (fun _ => v1_3_bigIntAbs);
     Append "bigIntNeg" [I32; I32] None (fun _ => v1_3_bigIntNeg);
     Append "bigIntSign" [I32] (Some I32) (fun _ => v1_3_bigIntSign);
     Append "bigIntCmp" [I32; I32] (Some I32) (fun _ => v1_3_bigIntCmp)
  ].

(** Bits, results, storage, arguments and payments. *)
Definition BigIntBitImports : list Import :=
  [
     Append "bigIntNot" [I32; I32] None (fun _ => v1_3_bigIntNot);
     Append "bigIntAnd" [I32; I32; I32] None (fun _ => v1_3_bigIntAnd);
     Append "bigIntOr" [I32; I32; I32] None (fun _ => v1_3_bigIntOr);
     Append "bigIntXor" [I32; I32; I32] None (fun _ => v1_3_bigIntXor);
     Append "bigIntShr" [I32; I32; I32] None (fun _ => v1_3_bigIntShr);
     Append "bigIntShl" [I32; I32; I32] None (fun _ => v1_3_bigIntShl);
     Append "bigIntFinishUnsigned" [I32] None (fun _ => v1_3_bigIntFinishUnsigned);
     Append "bigIntFinishSigned" [I32] None (fun _ => v1_3_bigIntFinishSigned);
     Append "bigIntStorageStoreUnsigned" [I32; I32; I32] (Some I32)
       (fun _ => v1_3_bigIntStorageStoreUnsigned);
     Append "bigIntStorageLoadUnsigned" [I32; I32; I32] (Some I32)
       (fun _ => v1_3_bigIntStorageLoadUnsigned);
     Append "bigIntGetUnsignedArgument" [I32; I32] None (fun _ => v1_3_bigIntGetUnsignedArgument);
     Append "bigIntGetSignedArgument" [I32; I32] None (fun _ => v1_3_bigIntGetSignedArgument);
     Append "bigIntGetCallValue" [I32] None (fun _ => v1_3_bigIntGetCallValue);
     Append "bigIntGetESDTCallValue" [I32] None (fun _ => v1_3_bigIntGetESDTCallValue);
     Append "bigIntGetESDTExternalBalance" [I32; I32; I32; I64; I32] None
       (fun _ => v1_3_bigIntGetESDTExternalBalance);
     Append "bigIntGetExternalBalance" [I32; I32] None (fun _ => v1_3_bigIntGetExternalBalance)
  ].

Definition BigIntImports (imports : list Import) : list Import :=
  imports ++ BigIntNumberImports ++ BigIntBitImports.

(** The 64-bit integers. *)
Definition SmallIntTable : list Import :=
  [
     Append "smallIntGetUnsignedArgument" [I32] (Some I64)
       (fun _ => v1_3_smallIntGetUnsignedArgument);
     Append "smallIntGetSignedArgument" [I32] (Some I64)
       (fun _ => v1_3_smallIntGetSignedArgument);
     Append "smallIntFinishUnsigned" [I64] None (fun _ => v1_3_smallIntFinishUnsigned);
     Append "smallIntFinishSigned" [I64] None (fun _ => v1_3_smallIntFinishSigned);
     Append "smallIntStorageStoreUnsigned" [I32; I32; I64] (Some I32)
       (fun _ => v1_3_smallIntStorageStoreUnsigned);
     Append "smallIntStorageStoreSigned" [I32; I32; I64] (Some I32)
       (fun _ => v1_3_smallIntStorageStoreSigned);
     Append "smallIntStorageLoadUnsigned" [I32; I32] (Some I64)
       (fun _ => v1_3_smallIntStorageLoadUnsigned);
     Append "smallIntStorageLoadSigned" [I32; I32] (Some I64)
       (fun _ => v1_3_smallIntStorageLoadSigned);
     Append "int64getArgument" [I32] (Some I64) (fun _ => v1_3_int64getArgument);
     Append "int64storageStore" [I32; I32; I64] (Some I32) (fun _ => v1_3_int64storageStore);
     Append "int64storageLoad" [I32; I32] (Some I64) (fun _ => v1_3_int64storageLoad);
     Append "int64finish" [I64] None (fun _ => v1_3_int64finish)
  ].

Definition SmallIntImports (imports : list Import) : list Import := imports ++ SmallIntTable.

(** Hashes and signatures. *)
Definition CryptoTable : list Import :=
  [
     Append "sha256" [I32; I32; I32] (Some I32) (fun _ => v1_3_sha256);
     Append "keccak256" [I32; I32; I32] (Some I32) (fun _ => v1_3_keccak256);
     Append "ripemd160" [I32; I32; I32] (Some I32) (fun _ => v1_3_ripemd160);
     Append "verifyBLS" [I32; I32; I32; I32] (Some I32) (fun _ => v1_3_verifyBLS);
     Append "verifyEd25519" [I32; I32; I32; I32] (Some I32) (fun _ => v1_3_verifyEd25519);
     Append "verifySecp256k1" [I32; I32; I32; I32; I32] (Some I32)
       (fun _ => v1_3_verifySecp256k1)
  ].

Definition CryptoImports (imports : list Import) : list Import := imports ++ CryptoTable.

(** The imports as [NewVMHost] collects them. *)
Definition vm_imports : list Import :=
  CryptoImports (SmallIntImports (BigIntImports BaseOpsAPIImports)).

Definition import_names : list bytes := map imp_name vm_imports.

End Imports.

(** ** Composition

    [composed api m Q]: [m] is a composition of operations of the contexts and
    of executions of other contracts by [api], and its results satisfy [Q]. *)

Create HintDb hooks discriminated.
#[export] Hint Constants Opaque : hooks.
#[export] Hint Constructors hook_op : hooks.

Section Composed.
Context `{Ext : Externals}.

Definition composed (api : HostAPI) {A} (m : M A) (Q : A -> Prop) : Prop :=
  forall F (X P : HostState -> Prop),
    (forall st, P st -> X st) ->
    (forall B (n : M B), hook_op n -> ends_in F X P n (fun _ => P)) ->
    api_ends_in F X P api ->
    ends_in F X P m (fun a st => P st /\ Q a).

Context (api : HostAPI).

Lemma composed_op {A} (m : M A) : hook_op m -> composed api m (fun _ => True).
Proof. intros Hm F X P _ Hops _. eapply ends_in_post; [by apply Hops | by intros]. Qed.

Lemma composed_ret {A} (a : A) (Q : A -> Prop) : Q a -> composed api (mret a) Q.
Proof. intros HQ F X P _ _ _. by apply ends_in_ret. Qed.

Lemma composed_bind {A B} (m : M A) (f : A -> M B) (Q : B -> Prop) :
  composed api m (fun _ => True) -> (forall a, composed api (f a) Q) -> composed api (m ≫= f) Q.
Proof.
  intros Hm Hf F X P HX Hops Hapi. eapply ends_in_bind; [by apply Hm|]. intros a. cbn.
  apply ends_in_pre with P; [by apply Hf | tauto].
Qed.

Lemma composed_panic {A} (Q : A -> Prop) : composed api panic Q.
Proof. intros F X P HX _ _. by apply ends_in_panic. Qed.

Lemma composed_deref {A} (o : option A) : composed api (deref o) (fun _ => True).
Proof. destruct o; [by apply composed_ret | apply composed_panic]. Qed.

Lemma composed_for_each {A} (l : list A) (f : A -> M unit) :
  (forall a, composed api (f a) (fun _ => True)) ->
  composed api (for_each l f) (fun _ => True).
Proof.
  intros Hf. induction l; cbn; [by apply composed_ret | by apply composed_bind].
Qed.

Lemma composed_dest input :
  composed api (api_ExecuteOnDestContext api input) (fun _ => True).
Proof. intros F X P _ _ Hapi. eapply ends_in_post; [by apply api_dest | by intros]. Qed.

Lemma composed_same input :
  composed api (api_ExecuteOnSameContext api input) (fun _ => True).
Proof. intros F X P _ _ Hapi. eapply ends_in_post; [by apply api_same | by intros]. Qed.

Lemma composed_create input :
  composed api (api_CreateNewContract api input) (fun _ => True).
Proof. intros F X P _ _ Hapi. eapply ends_in_post; [by apply api_create | by intros]. Qed.

(** A handle fits its type whatever the number of handles in use. *)
Lemma composed_Put value : composed api (bigInt_Put value) is_s32.
Proof.
  intros F X P _ Hops _ st HP. specialize (Hops _ _ (op_Put value) st HP). revert Hops.
  unfold bigInt_Put, BigInt.Put.
  destruct (BigInt.Put_loop _ _ _) as [h|] eqn:E; [|done]. intros H. split; [exact H|].
  by apply BigInt.Put_loop_Some in E as [_ Hr]; [|apply s32_range].
Qed.

(** What holds of every composition when the state is left out. *)
Lemma composed_result {A} (m : M A) Q st st' a :
  composed api m Q -> m st = (st', Ret a) -> Q a.
Proof.
  intros Hm Hrun. specialize (Hm True (fun _ => True) (fun _ => True) ltac:(done)).
  assert (forall B (n : M B), ends_in True (fun _ => True) (fun _ => True) n (fun _ _ => True)) as Hany
    by (intros B n st0 _; by destruct (n st0) as [? []]).
  specialize (Hm (fun B n _ => Hany B n) ltac:(split; intros; apply Hany) st I).
  rewrite Hrun in Hm. apply Hm.
Qed.

End Composed.

(** The value of a leaf has the declared type. *)
Ltac result_step :=
  lazymatch goal with
  | |- True => exact I
  | |- in_type _ (match ?x with _ => _ end) => destruct x
  | |- has_type _ _ => cbn [has_type]
  | |- is_s32 (s32 _) => apply s32_range
  | |- is_s64 (s64 _) => apply s64_range
  | |- in_type I32 _ => cbn [in_type]
  | |- in_type I64 _ => cbn [in_type]
  | |- is_s32 (match ?x with _ => _ end) => destruct x
  | |- is_s32 (StorageStatus_to_Z ?x) => destruct x; unfold is_s32; cbn; lia
  | |- is_s32 (Cmp _ _) => unfold Cmp
  | |- is_s32 (Sign _) => unfold Sign, is_s32; lia
  | |- is_s32 _ => unfold is_s32; lia
  | |- is_s64 (Int64 _) => apply s64_range
  | |- is_s64 _ => unfold is_s64; lia
  end.

Ltac head_of_fn t := lazymatch t with ?f _ => head_of_fn f | _ => t end.

(** Derives [composed api m Q] from the text of [m]. *)
Ltac composed_step :=
  lazymatch goal with
  | |- composed _ (mret _) _ => apply composed_ret; repeat result_step
  | |- composed _ (deref _) _ => apply composed_deref
  | |- composed _ panic _ => apply composed_panic
  | |- composed _ (mbind _ _) _ => apply composed_bind; [|intros ?]
  | |- composed _ (for_each _ _) _ => apply composed_for_each; intros ?
  | |- composed _ (match ?x with _ => _ end) _ => destruct x
  | |- composed _ (let _ := _ in _) _ => cbv zeta
  | |- composed _ (api_ExecuteOnDestContext _ _) _ => apply composed_dest
  | |- composed _ (api_ExecuteOnSameContext _ _) _ => apply composed_same
  | |- composed _ (api_CreateNewContract _ _) _ => apply composed_create
  | |- composed _ (bigInt_Put _) (has_type _) => apply composed_Put
  | |- composed _ ?m _ =>
      first
        [ apply composed_op; solve [eauto 1 with hooks nocore]
        | let h := head_of_fn m in unfold h ]
  end.
Ltac composed_auto := repeat (cbn beta; composed_step).


(** ** Every import is a composition of a value of its type *)

Section Tables.
Context `{Ext : Externals}.

Fixpoint composed_fn (api : HostAPI) (args : list ValType) (r : option ValType) :
    fn args (M (result_type r)) -> Prop :=
  match args with
  | [] => fun m => composed api m (has_type r)
  | _ :: args' => fun f => forall z, composed_fn api args' r (f z)
  end.

Definition import_ok (i : Import) : Prop :=
  forall api, composed_fn api (imp_args i) (imp_result i) (imp_run i api).

Lemma apply_bits_composed api args r (f : fn args (M (result_type r))) bits :
  composed_fn api args r f -> composed api (apply_bits args f bits) (has_type r).
Proof.
  induction args as [|t args IH]; cbn; [done|]. intros Hf. apply IH, Hf.
Qed.

Lemma load_topics_composed api topicPtr todo i topics log :
  composed api (load_topics topicPtr todo i topics log) (fun _ => True).
Proof.
  revert i topics. induction todo as [|todo IH]; intros i topics; cbn [load_topics].
  - composed_auto.
  - unfold guarded. composed_auto. apply IH.
Qed.

End Tables.

Ltac import_ok_auto :=
  intros api; cbn [composed_fn imp_args imp_result imp_run Append]; intros;
  composed_auto; apply load_topics_composed.
Ltac imports_ok_auto :=
  repeat apply List.Forall_cons; [import_ok_auto .. | apply List.Forall_nil].

Section Tables.
Context `{Ext : Externals}.

Lemma AccountImports_ok : Forall import_ok AccountImports.
Proof. imports_ok_auto. Qed.

Lemma ArgumentStorageImports_ok : Forall import_ok ArgumentStorageImports.
Proof. imports_ok_auto. Qed.

Lemma PaymentResultImports_ok : Forall import_ok PaymentResultImports.
Proof. imports_ok_auto. Qed.

Lemma BlockImports_ok : Forall import_ok BlockImports.
Proof. imports_ok_auto. Qed.

Lemma ExecutionImports_ok : Forall import_ok ExecutionImports.
Proof. imports_ok_auto. Qed.

Lemma ESDTImports_ok : Forall import_ok ESDTImports.
Proof. imports_ok_auto. Qed.

Lemma BigIntNumberImports_ok : Forall import_ok BigIntNumberImports.
Proof. imports_ok_auto. Qed.

Lemma BigIntBitImports_ok : Forall import_ok BigIntBitImports.
Proof. imports_ok_auto. Qed.

Lemma SmallIntTable_ok : Forall import_ok SmallIntTable.
Proof. imports_ok_auto. Qed.

Lemma CryptoTable_ok : Forall import_ok CryptoTable.
Proof. imports_ok_auto. Qed.

End Tables.
