(* ===== verification/Contracts.v ===== *)
(** Contracts as programs over the imports.

    The code of a contract is outside the repository; a run of it is a tree of
    steps: it computes on its own instance, or calls an import of [vm_imports]
    with the bits of the arguments and goes on with the result.  Any such
    program is [sandboxed], which discharges the hypothesis on wasmer that
    [Guarantees] has about arbitrary contracts, and every import returns a value
    of the type it is declared with. *)
From stdpp Require Import vector.
From S2P Require Import Prelude Errors Overflow Helpers Types State Logic Toy BigInt Runtime.
From S2P Require Import Output Metering Blockchain Transfers Storage Validator RuntimeExec.
From S2P Require Import Builtin AsyncCall Hooks Imports.

#[local] Open Scope Z_scope.

Section Contracts.
Context `{Ext : Externals}.

(** [Return] ends the call of the exported function with the error wasmer
    reports.  [Compute] covers every instruction that is not a call: it reads and
    writes the memory, the gas points and the breakpoint of the instance.  Gas
    bounds every run, so a run is a well-founded tree. *)
Inductive program :=
| Return (err : option error)
| Compute (f : Instance -> Instance) (k : Instance -> program)
| CallImport (i : Import) (linked : In i vm_imports) (bits : vec Z (length (imp_args i)))
    (k : result_type (imp_result i) -> program).

Fixpoint run_program (api : HostAPI) (p : program) : M (option error) :=
  match p with
  | Return err => mret err
  | Compute f k =>
      modify_instance f ;;
      inst ← current_instance;
      run_program api (k inst)
  | CallImport i _ bits k =>
      r ← call_import api i bits;
      run_program api (k r)
  end.

(** wasmer, when the exported function [f] of the running instance is called. *)
Definition run_contract (contract : Instance -> bytes -> program) (api : HostAPI) (f : bytes) :
    M (option error) :=
  inst ← current_instance;
  run_program api (contract inst f).

(** ** Lemmas *)

Lemma vm_imports_ok : Forall import_ok vm_imports.
Proof.
  unfold vm_imports, CryptoImports, SmallIntImports, BigIntImports, BaseOpsAPIImports.
  repeat apply Forall_app_2;
    auto using AccountImports_ok, ArgumentStorageImports_ok, PaymentResultImports_ok,
      BlockImports_ok, ExecutionImports_ok, ESDTImports_ok, BigIntNumberImports_ok,
      BigIntBitImports_ok, SmallIntTable_ok, CryptoTable_ok.
Qed.

Lemma call_import_composed api i bits :
  In i vm_imports -> composed api (call_import api i bits) (has_type (imp_result i)).
Proof.
  intros Hi. apply apply_bits_composed.
  apply (proj1 (List.Forall_forall import_ok vm_imports) vm_imports_ok i Hi).
Qed.

Lemma current_instance_composed api : composed api current_instance (fun _ => True).
Proof. composed_auto. Qed.

Lemma run_program_composed api p : composed api (run_program api p) (fun _ => True).
Proof.
  induction p as [err|f k IH|i Hi bits k IH]; cbn [run_program].
  - by apply composed_ret.
  - apply composed_bind; [apply composed_op; constructor|]. intros ?.
    apply composed_bind; [apply current_instance_composed | exact IH].
  - apply composed_bind; [|exact IH].
    intros F X P HX Hops Hapi.
    eapply ends_in_post; [by apply (call_import_composed api i bits Hi F X P)|]. by intros ? ? [].
Qed.

Lemma run_contract_composed contract api f :
  composed api (run_contract contract api f) (fun _ => True).
Proof.
  apply composed_bind; [apply current_instance_composed|]. intros inst.
  apply run_program_composed.
Qed.

Lemma run_contract_sandboxed contract : sandboxed (run_contract contract).
Proof.
  intros api f F X P HX Hops Hapi.
  eapply ends_in_post; [by apply (run_contract_composed contract api f F X P) | by intros ? ? []].
Qed.

(** No two functions are registered under one name. *)
Lemma import_names_NoDup : NoDup import_names.
Proof. apply (bool_decide_unpack (NoDup import_names)). vm_compute. exact I. Qed.

(** ** Properties *)

(** What a contract links to is what the host exports: no two functions of
    the four tables share a name, so that none replaces another when they are
    appended, and a contract that passes validation exports none of their names
    - a call of an import never reaches code of the contract. *)
Theorem imports_not_shadowed instance :
  NoDup import_names /\
  (Validator.verifyFunctions (Validator.NewReservedFunctions (list_to_set import_names)) instance
     = None ->
   forall i, In i vm_imports -> imp_name i ∉ inst_Exports instance).
Proof.
  split; [exact import_names_NoDup|]. intros Hv i Hi Hex.
  unfold Validator.verifyFunctions in Hv. rewrite first_error_None in Hv.
  specialize (Hv _ (proj2 (elem_of_range_set _ _) Hex)).
  destruct (Validator.verifyValidFunctionName _ (imp_name i)) eqn:E; [done|].
  apply Validator.verifyValidFunctionName_None in E as (_ & _ & Hres). apply Hres.
  unfold Validator.NewReservedFunctions. rewrite !elem_of_union, elem_of_list_to_set.
  left. right. unfold import_names. rewrite list_elem_of_In. by apply in_map.
Qed.

(** C1: a contract that reaches the host only through the functions exported to
    WebAssembly is sandboxed: whatever property of the host state the operations
    of the contexts and the executions of other contracts preserve, every call
    of every function of the contract preserves, on every path of every import. *)
Theorem contracts_sandboxed (contract : Instance -> bytes -> program) :
  sandboxed (run_contract contract).
Proof. apply run_contract_sandboxed. Qed.

(** An exported function gives WebAssembly a value of the type it is
    registered with: whatever the bits of the arguments, the state of the host
    and the contracts it executes, a result fits the [i32] or [i64] of its
    signature. *)
Theorem imports_well_typed api i bits st st' r :
  In i vm_imports -> call_import api i bits st = (st', Ret r) -> has_type (imp_result i) r.
Proof. intros Hi. apply composed_result with api. by apply call_import_composed. Qed.

End Contracts.

(** ** Witnesses *)

(** The nonce of the block. *)
Lemma imports_well_typed_witness :
  exists i r, @In (@Import toy) i (@vm_imports toy) /\ imp_name i = bs "getBlockNonce" /\
    @has_type (@imp_result toy i) r.
Proof.
  set (api := @mkHostAPI toy (fun _ => panic) (fun _ => panic) (fun _ => panic)).
  set (i := @Append toy "getBlockNonce" [] (Some I64) (fun _ => @BaseOps.v1_3_getBlockNonce toy)).
  assert (In i (@vm_imports toy)) as Hi by (repeat (first [left; reflexivity | right])).
  set (st := toy_state [] 5).
  exists i, 100. split_and!; [done|done|].
  assert (call_import api i [#] st = (fst (call_import api i [#] st), Ret 100)) as Hrun.
  { assert (snd (@call_import toy api i [#] st) = Ret 100) as <- by (vm_compute; reflexivity).
    apply surjective_pairing. }
  exact (@imports_well_typed toy api i [#] st _ 100 Hi Hrun).
Defined.

(** The instance of the toy contracts is accepted and does not export the first
    import. *)
Lemma imports_not_shadowed_witness :
  exists i, In i (@vm_imports toy) /\ @imp_name toy i = bs "getSCAddress" /\
    @imp_name toy i ∉ inst_Exports (toy_instance (bs "code") 5).
Proof.
  set (i := @Append toy "getSCAddress" [I32] None (fun _ => @BaseOps.v1_3_getSCAddress toy)).
  assert (In i (@vm_imports toy)) as Hi by (left; reflexivity).
  exists i. split_and!; [exact Hi | reflexivity |].
  refine (proj2 (@imports_not_shadowed toy (toy_instance (bs "code") 5)) _ i Hi).
  vm_compute. reflexivity.
Defined.
