(* ===== verification/Nesting.v ===== *)
(** Nested executions: what [ExecuteOnDestContext], [ExecuteOnSameContext] and
    [CreateNewContract] of [src/vmhost/hostCore/execution.go] guarantee to the
    contract that calls them, whatever the called contracts do.

    The proofs are by induction on the fuel of [host_api]; a contract is any
    [wasm] that is [sandboxed].  A level of nesting pushes one state on each
    stack and pops it, and instances stop being started at
    [maxWasmerInstances], so the nesting is bounded by it. *)
From S2P Require Import Prelude Errors Overflow Helpers Types State Logic Toy BigInt Runtime.
From S2P Require Import Output Metering Blockchain Transfers Storage Validator RuntimeExec.
From S2P Require Import Builtin AsyncCall Execution Host Hooks.

#[local] Open Scope Z_scope.

(** ** The operations of one level *)

Section Level.
Context `{Ext : Externals} (wasm : HostAPI -> bytes -> M (option error)).
Context (Hsandboxed : sandboxed wasm).
Context (api : HostAPI) (F : Prop) (c : frame).

Section Calls.
Context (Hapi : api_triple F (framed c) api).

Lemma wasm_triple f : triple F (framed c) (wasm api f) (fun _ => framed c).
Proof.
  apply Hsandboxed; [done | | exact Hapi]. intros A m Hm. by apply triple_local, hook_op_local.
Qed.

Lemma dest_triple i : triple F (framed c) (api_ExecuteOnDestContext api i) (fun _ => framed c).
Proof. apply Hapi. Qed.

#[local] Hint Resolve wasm_triple dest_triple : core.

Ltac level := repeat first [solve [eauto 1] | triple_step].

Lemma executeSyncDestinationCall_triple i :
  triple F (framed c) (executeSyncDestinationCall api i) (fun _ => framed c).
Proof. unfold executeSyncDestinationCall. level. Qed.

Lemma executeSyncCallbackCall_triple i o e :
  triple F (framed c) (executeSyncCallbackCall api i o e) (fun _ => framed c).
Proof. unfold executeSyncCallbackCall. level. Qed.

#[local] Hint Resolve executeSyncDestinationCall_triple executeSyncCallbackCall_triple : core.

Lemma handleAsyncCallBreakpoint_triple :
  triple F (framed c) (handleAsyncCallBreakpoint api) (fun _ => framed c).
Proof. unfold handleAsyncCallBreakpoint. level. Qed.

#[local] Hint Resolve handleAsyncCallBreakpoint_triple : core.

Lemma handleBreakpointIfAny_triple e :
  triple F (framed c) (handleBreakpointIfAny api e) (fun _ => framed c).
Proof. unfold handleBreakpointIfAny, handleBreakpoint. level. Qed.

Lemma callbackAsync_triple loc i n o e :
  triple F (framed c) (callbackAsync api loc i n o e) (fun _ => framed c).
Proof. unfold callbackAsync. level. Qed.

#[local] Hint Resolve handleBreakpointIfAny_triple callbackAsync_triple : core.

Lemma processAsyncCall_triple loc i n :
  triple F (framed c) (processAsyncCall api loc i n) (fun _ => framed c).
Proof. unfold processAsyncCall. level. Qed.

#[local] Hint Resolve processAsyncCall_triple : core.

Lemma processAsyncInfo_triple loc :
  triple F (framed c) (processAsyncInfo api loc) (fun _ => framed c).
Proof. unfold processAsyncInfo. level. Qed.

Lemma processCallbackStack_triple :
  triple F (framed c) (processCallbackStack api) (fun _ => framed c).
Proof. unfold processCallbackStack. level. Qed.

#[local] Hint Resolve processAsyncInfo_triple processCallbackStack_triple : core.

Lemma callInitFunction_triple :
  triple F (framed c) (callInitFunction wasm api) (fun _ => framed c).
Proof. unfold callInitFunction. level. Qed.

Lemma callSCMethodIndirect_triple :
  triple F (framed c) (callSCMethodIndirect wasm api) (fun _ => framed c).
Proof. unfold callSCMethodIndirect. level. Qed.

Lemma callSCMethod_triple :
  triple F (framed c) (callSCMethod wasm api) (fun _ => framed c).
Proof. unfold callSCMethod. level. Qed.

End Calls.

(** Other contracts are only called once an instance has started, which the
    number of running instances bounds. *)
Definition can_start : Prop := u64 (len (fr_instances c)) < fr_max c.

Lemma StartWasmerInstance_triple contract gasLimit newCode :
  triple F (framed c) (RuntimeExec.StartWasmerInstance contract gasLimit newCode)
    (fun r st => framed c st /\ (r = None -> can_start)).
Proof.
  assert (Local (RuntimeExec.StartWasmerInstance contract gasLimit newCode)) as [Hk Hn]
    by local_op.
  intros st Hc. specialize (Hk st). specialize (Hn st).
  destruct (RuntimeExec.StartWasmerInstance contract gasLimit newCode st) as [st' [r| |]] eqn:E;
    cbn in *; [|done..].
  split; [unfold same, framed in *; congruence|]. intros ->.
  revert E. unfold RuntimeExec.StartWasmerInstance. rewrite !(bind_run _ _ st st _ eq_refl).
  unfold can_start. rewrite <- Hc. cbn [fr_max fr_instances frame_of].
  case_match eqn:Hle; [done|]. intros _. lia.
Qed.

(** The executions that succeed only after a start. *)
Definition started (r : option error) (st : HostState) : Prop :=
  framed c st /\ (r = None -> can_start).

Lemma started_after (m : M (option error)) :
  can_start -> triple F (framed c) m (fun _ => framed c) -> triple F (framed c) m started.
Proof. intros Hc Hm. eapply triple_post; [exact Hm|]. by split. Qed.

Lemma started_error e : triple F (framed c) (mret (Some e)) started.
Proof. apply triple_ret. by split. Qed.

Lemma StartWasmerInstance_bind contract gasLimit newCode (f : option error -> M (option error)) :
  (can_start -> triple F (framed c) (f None) (fun _ => framed c)) ->
  (forall e, triple F (framed c) (f (Some e)) started) ->
  triple F (framed c) (RuntimeExec.StartWasmerInstance contract gasLimit newCode ≫= f) started.
Proof.
  intros Hnone Hsome. eapply triple_bind; [apply StartWasmerInstance_triple|].
  intros [e|] st [Hc Hr]; [by apply Hsome | by apply started_after; auto].
Qed.

Lemma start_bind {A} contract gasLimit newCode (f : option error -> M A) :
  (can_start -> triple F (framed c) (f None) (fun _ => framed c)) ->
  (forall e, triple F (framed c) (f (Some e)) (fun _ => framed c)) ->
  triple F (framed c) (RuntimeExec.StartWasmerInstance contract gasLimit newCode ≫= f)
    (fun _ => framed c).
Proof.
  intros Hnone Hsome. eapply triple_bind; [apply StartWasmerInstance_triple|].
  intros [e|] st [Hc Hr]; [by apply Hsome | by apply Hnone; auto].
Qed.

Context (Hapi : can_start -> api_triple F (framed c) api).

Ltac level := repeat first
  [ solve [eauto 2 using handleBreakpointIfAny_triple, callInitFunction_triple,
      callSCMethodIndirect_triple, callSCMethod_triple, processAsyncInfo_triple, started_error]
  | lazymatch goal with
    | |- triple _ _ (RuntimeExec.StartWasmerInstance _ _ _ ≫= _) _ =>
        first [ apply StartWasmerInstance_bind; [intros ?%Hapi | intros ?]
              | apply start_bind; [intros ?%Hapi | intros ?] ]
    end
  | triple_step ].

Lemma executeUpgrade_triple i : triple F (framed c) (executeUpgrade wasm api i) started.
Proof. unfold executeUpgrade. level. Qed.

#[local] Hint Resolve executeUpgrade_triple : core.

Lemma execute_triple i : triple F (framed c) (execute wasm api i) started.
Proof. unfold execute. level. Qed.

(** After a successful execution. *)
Lemma execute_bind {A} i (f : option error -> M A) :
  (can_start -> triple F (framed c) (f None) (fun _ => framed c)) ->
  (forall e, triple F (framed c) (f (Some e)) (fun _ => framed c)) ->
  triple F (framed c) (execute wasm api i ≫= f) (fun _ => framed c).
Proof.
  intros Hnone Hsome. eapply triple_bind; [apply execute_triple|].
  intros [e|] st [Hc Hr]; [by apply Hsome | by apply Hnone; auto].
Qed.

Lemma runOnDestContext_triple i :
  triple F (framed c) (runOnDestContext wasm api i) (fun _ => framed c).
Proof.
  unfold runOnDestContext. eapply triple_bind; [level|]. intros [e|]; [level|].
  apply execute_bind; [intros ?%Hapi | intros ?]; level.
Qed.

Lemma deployment_output_triple i :
  triple F (framed c) (deployment_output wasm api i) (fun _ => framed c).
Proof. unfold deployment_output, performCodeDeployment. level. Qed.

Lemma runSmartContractCall_triple i :
  triple F (framed c) (runSmartContractCall wasm api i) (fun _ => framed c).
Proof. unfold runSmartContractCall. level. Qed.

Lemma runOnSameContext_triple i :
  triple F (framed c) (runOnSameContext wasm api i) (fun _ => framed c).
Proof.
  unfold runOnSameContext. eapply triple_bind; [level|]. intros [e|]; [level|].
  apply execute_bind; [intros ?%Hapi | intros ?]; level.
Qed.

End Level.

(** ** Pushing and popping around a call *)

Section Frames.
Context `{Ext : Externals}.

(** What the runtime context saves of itself. *)
Definition saved_runtime (st : HostState) : runtimeState :=
  set_vmInput (copyVMInput (vmInput (rt st))) (rt st).

(** The frame of the callee of [ExecuteOnDestContext] for [address], called in
    [st]. *)
Definition dest_frame (address : bytes) (st : HostState) : frame :=
  {| fr_bigInt := bi_stateStack (st_bigInt st) ++ [bi_values (st_bigInt st)];
     fr_blockchain := bc_stateStack (st_blockchain st);
     fr_metering := met_stateStack (st_metering st) ++ [Metering.met st];
     fr_output := out_stateStack (st_output st) ++ [mergeVMOutputs newVMOutput (outputOf st)];
     fr_runtime := rt_stateStack (st_runtime st) ++ [saved_runtime st];
     fr_instances := instanceStack (st_runtime st) ++ [instance (st_runtime st)];
     fr_storage := sto_stateStack (st_storage st) ++ [sto_address (st_storage st)];
     fr_address := address;
     fr_max := maxWasmerInstances (st_runtime st) |}.

(** What a call restores of its caller besides the stacks. *)
Definition caller_part (st : HostState) : gmap Z Z * runtimeState * option nat :=
  (bi_values (st_bigInt st), saved_runtime st, instance (st_runtime st)).

(** What a call that fails undoes. *)
Definition rolled_back (st st' : HostState) : Prop :=
  outputOf st' = mergeVMOutputs newVMOutput (outputOf st) /\ Metering.met st' = Metering.met st.

Lemma copyTxHashesFromContext_run enabled input st :
  exists v, copyTxHashesFromContext enabled input st = (st, Ret (set_call_VMInput v input)).
Proof.
  unfold copyTxHashesFromContext. rewrite (bind_run _ _ st st _ eq_refl).
  destruct enabled; cbn [negb]; [by eexists|].
  exists (call_VMInput input). by destruct input.
Qed.

(** The metering context starts a call with a state of its own. *)
Lemma metering_init_run v st :
  exists m v', Metering.InitStateFromContractCallInput v st =
    (set_st_metering (set_met_state m (st_metering st)) st, Ret v').
Proof.
  destruct v as [? ? ? callType ? ? ? ? ? ? ? ?]. destruct callType; by eexists _, _.
Qed.

Lemma enterDestContext_run input st :
  exists st1 input1, enterDestContext input st = (st1, Ret input1) /\
    framed (dest_frame (RecipientAddr input) st) st1 /\ st_world st1 = st_world st.
Proof.
  unfold enterDestContext. do 4 rewrite (bind_run _ _ _ _ _ eq_refl).
  match goal with |- context [(copyTxHashesFromContext _ _ ≫= _) ?s] =>
    set (sa := s); destruct (copyTxHashesFromContext_run IsESDTFunctionsEnabled input sa) as [v Hv] end.
  rewrite (bind_run _ _ _ _ _ Hv). clear Hv. do 3 rewrite (bind_run _ _ _ _ _ eq_refl).
  match goal with |- context [(Metering.InitStateFromContractCallInput ?v ≫= _) ?s] =>
    set (sb := s); destruct (metering_init_run v sb) as (m & v' & Hm) end.
  rewrite (bind_run _ _ _ _ _ Hm). clear Hm. do 3 rewrite (bind_run _ _ _ _ _ eq_refl).
  eexists _, _. split; [reflexivity|]. by split.
Qed.

(** Everything but the instances. *)
Definition but_instances (st : HostState) :=
  (st_bigInt st, st_blockchain st, st_metering st, st_output st, st_runtime st, st_storage st,
   st_world st).

#[export] Instance RestoreGas_keeps gas : Keeps (same but_instances) (Metering.RestoreGas gas).
Proof. keeps_deep. Qed.

(** What the runtime context does not pop. *)
Definition but_runtime (st : HostState) :=
  (st_bigInt st, st_blockchain st, st_metering st, st_output st, st_storage st, st_world st,
   maxWasmerInstances (st_runtime st)).

#[export] Instance runtime_pop_keeps : Keeps (same but_runtime) Runtime.PopSetActiveState.
Proof. keeps_deep. Qed.

Lemma runtime_pop_run st l x insts i :
  rt_stateStack (st_runtime st) = l ++ [x] -> instanceStack (st_runtime st) = insts ++ [i] ->
  exists st', Runtime.PopSetActiveState st = (st', Ret tt) /\
    rt_stateStack (st_runtime st') = l /\ instanceStack (st_runtime st') = insts /\
    instance (st_runtime st') = i /\ rt st' = set_vmInput (copyVMInput (vmInput x)) x /\
    but_runtime st' = but_runtime st.
Proof.
  intros Hl Hi. pose proof (runtime_pop_keeps st) as Hk.
  unfold Runtime.PopSetActiveState in *.
  rewrite (bind_run _ _ _ _ _ eq_refl), Hl, pop_snoc in *. cbv beta iota in *.
  rewrite (bind_run _ _ _ _ _ eq_refl) in *.
  match goal with |- context [Runtime.popInstance ?s] => set (st1 := s) in * end.
  destruct (popInstance_run st1 insts i Hi) as (st2 & H2 & His & Hinst).
  pose proof (popInstance_keeps st1) as Hs. rewrite H2 in *. unfold same in *. cbn in *.
  injection Hs as Hrt Hst. exists st2. by split_and!.
Qed.

Lemma seq4_run {B} (m1 m2 m3 m4 : M unit) (k : M B) st st' :
  (m1 ;; m2 ;; m3 ;; m4) st = (st', Ret tt) -> (m1 ;; m2 ;; m3 ;; m4 ;; k) st = k st'.
Proof.
  cbv [mbind M_bind]. repeat (case_match; try done). by intros [= <-].
Qed.

(** The first steps of the deferred call, on any state [st2] with the frame of
    the callee; the last one gives gas back. *)
Lemma pops_run (ok : bool) st0 st2 address :
  framed (dest_frame address st0) st2 ->
  exists st3,
    (modify_bigInt BigInt.PopSetActiveState ;;
     modify_storage Storage.PopSetActiveState ;;
     (if ok then Metering.PopMergeActiveState ;; modify_output Output.PopMergeActiveState
      else Metering.PopSetActiveState ;; modify_output Output.PopSetActiveState) ;;
     Runtime.PopSetActiveState) st2 = (st3, Ret tt) /\
    frame_of st3 = frame_of st0 /\ caller_part st3 = caller_part st0 /\
    (ok = false -> rolled_back st0 st3) /\ st_world st3 = st_world st2.
Proof.
  intros Hc. unfold framed, dest_frame, frame_of in Hc.
  injection Hc as Hbi Hbc Hme Hou Hrt Hin Hst Had Hmax.
  do 2 rewrite (bind_run _ _ _ _ _ eq_refl).
  match goal with |- context [(_ ≫= _) ?s] => set (sta := s) end.
  assert (exists stb, (if ok then Metering.PopMergeActiveState ;;
        modify_output Output.PopMergeActiveState
      else Metering.PopSetActiveState ;; modify_output Output.PopSetActiveState) sta = (stb, Ret tt)
     /\ st_runtime stb = st_runtime st2 /\ st_world stb = st_world st2 /\
     st_bigInt stb = st_bigInt sta /\ st_storage stb = st_storage sta /\
     st_blockchain stb = st_blockchain sta /\
     met_stateStack (st_metering stb) = met_stateStack (st_metering st0) /\
     out_stateStack (st_output stb) = out_stateStack (st_output st0) /\
     (ok = false -> rolled_back st0 stb))
    as (stb & Hb & Hbrt & Hbw & Hbbi & Hbst & Hbbc & Hbme & Hbou & Hback).
  { destruct ok; rewrite (bind_run _ _ _ _ _ eq_refl); eexists;
      (split; [reflexivity|]); unfold rolled_back, Metering.met, outputOf;
      cbn; unfold Output.PopMergeActiveState, Output.PopSetActiveState;
      cbn; rewrite ?Hme, ?Hou, ?pop_snoc; cbn; by split_and!. }
  rewrite (bind_run _ _ _ _ _ Hb).
  destruct (runtime_pop_run stb _ _ _ _ ltac:(by rewrite Hbrt) ltac:(by rewrite Hbrt))
    as (st3 & H3 & Hl & Hi & Hinst & Hstate & Hrest).
  injection Hrest as Rbi Rbc Rme Rou Rst Rw Rmax.
  assert (st_bigInt sta = set_bi_values (bi_values (st_bigInt st0))
            (set_bi_stateStack (bi_stateStack (st_bigInt st0)) (st_bigInt st2))) as Ebi.
  { cbn. unfold BigInt.PopSetActiveState. by rewrite Hbi, pop_snoc. }
  assert (st_storage sta = set_sto_address (sto_address (st_storage st0))
            (set_sto_stateStack (sto_stateStack (st_storage st0)) (st_storage st2))) as Est.
  { cbn. unfold Storage.PopSetActiveState. by rewrite Hst, pop_snoc. }
  exists st3. split; [exact H3|]. split; [|split; [|split]].
  - unfold frame_of. rewrite Rbi, Hbbi, Ebi, Rbc, Hbbc, Rme, Hbme, Rou, Hbou, Hl, Hi, Rst, Hbst,
      Est, Rmax, Hbrt, Hmax. cbn. by rewrite Hbc.
  - unfold caller_part. rewrite Rbi, Hbbi, Ebi, Hinst. unfold saved_runtime at 1.
    rewrite Hstate. cbn. by rewrite !copyVMInput_idemp.
  - intros Hok. destruct (Hback Hok) as [H1 H2]. unfold rolled_back, outputOf, Metering.met.
    by rewrite Rou, Rme.
  - by rewrite Rw.
Qed.

(** The output of a failed execution never carries [Ok]. *)
Lemma error_output_code e st st' out :
  CreateVMOutputInCaseOfError e st = (st', Ret out) ->
  out_ReturnCode out <> Ok /\ GasRemaining out = 0 /\ OutputAccounts out = ∅ /\ Logs out = [].
Proof.
  unfold CreateVMOutputInCaseOfError.
  intros (? & ? & _ & H)%bind_Ret_inv. apply bind_Ret_inv in H as (? & ? & _ & H).
  apply bind_Ret_inv in H as (? & ? & _ & H). apply bind_Ret_inv in H as (? & ? & _ & H).
  injection H as _ <-. cbn. split_and!; try done. by repeat case_match.
Qed.

(** What the caller gets of the execution with result [err]. *)
Definition call_result (st0 : HostState) (err : option error) (vmOutput : VMOutput)
    (st : HostState) : Prop :=
  frame_of st = frame_of st0 /\ caller_part st = caller_part st0 /\
  (err <> None -> out_ReturnCode vmOutput <> Ok) /\
  (out_ReturnCode vmOutput <> Ok -> rolled_back st0 st).

Lemma finishExecuteOnDestContext_triple F address st0 err :
  triple F (framed (dest_frame address st0)) (finishExecuteOnDestContext err) (call_result st0 err).
Proof.
  unfold finishExecuteOnDestContext.
  eapply triple_bind with (Q := fun v st => framed (dest_frame address st0) st /\
                                          (err <> None -> out_ReturnCode v <> Ok)).
  { destruct err as [e|].
    - intros st Hst.
      assert (Local (CreateVMOutputInCaseOfError e)) as HL by local_op.
      pose proof (triple_local _ F _ HL st Hst) as H. cbn in H.
      destruct (CreateVMOutputInCaseOfError e st) as [st' [v| |]] eqn:E; [|done..].
      split; [done|]. intros _. by eapply error_output_code.
    - eapply triple_post; [apply triple_local; local_op|]. by split. }
  intros v. apply triple_pure. intros Hcode.
  eapply triple_bind; [apply triple_local; local_op|]. intros _ st2 Hst.
  destruct (pops_run (bool_decide (out_ReturnCode v = Ok)) st0 st2 address Hst)
    as (st3 & H3 & Hf & Hc & Hb & _).
  rewrite (seq4_run _ _ _ _ _ _ _ H3). cbv [mbind M_bind].
  pose proof (RestoreGas_keeps (GasRemaining v) st3) as Hr. unfold same, but_instances in Hr.
  assert (NoFuel (Metering.RestoreGas (GasRemaining v))) as Hn by nofuel_deep.
  specialize (Hn st3). destruct (Metering.RestoreGas (GasRemaining v) st3) as [st4 [u| |]];
    cbn in *; [|done..].
  injection Hr as Rbi Rbc Rme Rou Rrt Rst Rw. unfold call_result. split_and!.
  - rewrite <- Hf. unfold frame_of. by rewrite Rbi, Rbc, Rme, Rou, Rrt, Rst.
  - rewrite <- Hc. unfold caller_part, saved_runtime, rt. by rewrite Rbi, Rrt.
  - done.
  - intros Hok. unfold rolled_back, outputOf, Metering.met in *. rewrite Rou, Rme.
    apply Hb. by apply bool_decide_eq_false.
Qed.

End Frames.

(** ** The operations that execute contracts *)

(** The built-in functions leave the caller alone. *)
Section Builtins.
Context `{Ext : Externals}.

#[export] Instance get_account_caller a : Keeps (same caller_part) (get_account a).
Proof. intros st. unfold get_account. by destruct (Output.GetOutputAccount a (st_output st)) as [[]]. Qed.

#[export] Instance ProcessBuiltInFunction_caller i :
  Keeps (same caller_part) (Blockchain.ProcessBuiltInFunction i).
Proof.
  intros st. unfold Blockchain.ProcessBuiltInFunction.
  by destruct (bh_ProcessBuiltInFunction (st_world st) i).
Qed.

#[export] Instance add_to_active_state_caller o :
  Keeps (same caller_part) (add_to_active_state o).
Proof. intros st. unfold add_to_active_state. by repeat case_match. Qed.

#[export] Instance handleBuiltinFunctionCall_caller i :
  Keeps (same caller_part) (handleBuiltinFunctionCall i).
Proof. keeps_deep. Qed.

#[export] Instance handleBuiltinFunctionCall_local i : Local (handleBuiltinFunctionCall i).
Proof. local_op. Qed.

#[export] Instance CreateVMOutputInCaseOfError_caller e :
  Keeps (same caller_part) (CreateVMOutputInCaseOfError e).
Proof. keeps_deep. Qed.

#[export] Instance CreateVMOutputInCaseOfError_world e :
  Keeps (same st_world) (CreateVMOutputInCaseOfError e).
Proof.
  assert (forall a, Keeps (same st_world) (get_account a)) by (intros; by apply get_account_keeps).
  keeps_deep.
Qed.

End Builtins.

Section Executions.
Context `{Ext : Externals} (wasm : HostAPI -> bytes -> M (option error)).
Context (Hsandboxed : sandboxed wasm).
Context (api : HostAPI) (F : Prop).

(** [api] serves the contracts one level of nesting above [c]. *)
Definition serves_above (c : frame) : Prop := forall c',
  length (fr_instances c') = S (length (fr_instances c)) -> fr_max c' = fr_max c ->
  can_start c' -> api_triple F (framed c') api.

Lemma serves_dest address st :
  serves_above (frame_of st) ->
  can_start (dest_frame address st) -> api_triple F (framed (dest_frame address st)) api.
Proof. intros H. apply H; [|done]. cbn. by rewrite length_app, Nat.add_comm. Qed.

(** What the caller in [st0] gets of [executeOnDestContextNoBuiltinFunction]. *)
Definition dest_result (st0 : HostState) (r : VMOutput * option nat * option error)
    (st : HostState) : Prop :=
  let '(vmOutput, _, err) := r in
  frame_of st = frame_of st0 /\ caller_part st = caller_part st0 /\
  (err = None <-> out_ReturnCode vmOutput = Ok) /\
  (err <> None -> rolled_back st0 st).

Lemma executeOnDestContextNoBuiltinFunction_triple st0 input :
  serves_above (frame_of st0) ->
  triple F (fun st => st = st0) (executeOnDestContextNoBuiltinFunction wasm api input)
    (dest_result st0).
Proof.
  intros Hapi st ->. unfold executeOnDestContextNoBuiltinFunction.
  destruct (enterDestContext_run input st0) as (st1 & input1 & H1 & Hf1 & _).
  rewrite (bind_run _ _ _ _ _ H1). revert st1 Hf1 H1. intros st1 Hf1 _.
  eapply triple_with_defer; [| | | exact Hf1].
  { apply runOnDestContext_triple; [done|]. by apply serves_dest. }
  { cbn [default]. apply nofuel_bind; [|intros; apply _].
    unfold finishExecuteOnDestContext. nofuel_deep. }
  intros [asyncInfo err]. cbn [default]. eapply triple_bind.
  { apply finishExecuteOnDestContext_triple. }
  intros v. apply triple_ret. intros st (Hf & Hc & Hcode & Hback). unfold dest_result.
  destruct err as [e|]; cbn.
  - assert (out_ReturnCode v <> Ok) as Hv by by apply Hcode. split_and!; try done. auto.
  - destruct (decide (out_ReturnCode v = Ok)) as [Hv|Hv].
    + rewrite bool_decide_eq_true_2 by done. cbn. by split_and!.
    + rewrite bool_decide_eq_false_2 by done. cbn. split_and!; try done. auto.
Qed.

(** The world was put back to its snapshot in [st0]. *)
Definition world_reverted (st0 st : HostState) : Prop :=
  exists w, st_world st = fst (bh_RevertToSnapshot w (bh_GetSnapshot (st_world st0))).

(** What the caller in [st0] gets of [ExecuteOnDestContext]; the output of a
    built-in function is not taken back when the contract it calls fails. *)
Definition executed (builtin : bool) (st0 : HostState) (r : VMOutput * option nat * option error)
    (st : HostState) : Prop :=
  let '(vmOutput, _, err) := r in
  frame_of st = frame_of st0 /\ caller_part st = caller_part st0 /\
  (err <> None -> world_reverted st0 st /\ out_ReturnCode vmOutput <> Ok) /\
  (builtin = false -> (err = None <-> out_ReturnCode vmOutput = Ok) /\
                     (err <> None -> rolled_back st0 st)).

Lemma snapshot_pushed st0 :
  exists st1, Blockchain.PushState st0 = (st1, Ret tt) /\
    st1 = set_st_blockchain (set_bc_stateStack
      (bc_stateStack (st_blockchain st0) ++ [bh_GetSnapshot (st_world st0)]) (st_blockchain st0)) st0.
Proof. by eexists. Qed.

(** Popping it, after anything that left the stacks alone. *)
Lemma snapshot_popped (failed : bool) st0 st1 st2 :
  Blockchain.PushState st0 = (st1, Ret tt) -> frame_of st2 = frame_of st1 ->
  exists st3, (if failed then Blockchain.PopSetActiveState else Blockchain.PopDiscard) st2 =
      (st3, Ret tt) /\
    frame_of st3 = frame_of st0 /\ caller_part st3 = caller_part st2 /\
    outputOf st3 = outputOf st2 /\ Metering.met st3 = Metering.met st2 /\
    (failed = true -> world_reverted st0 st3).
Proof.
  intros [= <-] Hf. unfold frame_of in Hf. cbn in Hf.
  injection Hf as Hbi Hbc Hme Hou Hrt Hin Hst Had Hmax.
  destruct failed.
  - unfold Blockchain.PopSetActiveState. rewrite (bind_run _ _ _ _ _ eq_refl), Hbc, pop_snoc.
    eexists. split; [reflexivity|]. split_and!; try done.
    + unfold frame_of. cbn. by rewrite Hbi, Hme, Hou, Hrt, Hin, Hst, Had, Hmax.
    + intros _. by eexists.
  - eexists. split; [reflexivity|]. split_and!; try done.
    unfold frame_of. cbn. by rewrite Hbc, pop_snoc, Hbi, Hme, Hou, Hrt, Hin, Hst, Had, Hmax.
Qed.

(** The last step of [ExecuteOnDestContext]. *)
Definition before_pop (builtin : bool) (st0 st1 : HostState)
    (r : VMOutput * option nat * option error) (st : HostState) : Prop :=
  let '(v, _, err) := r in
  frame_of st = frame_of st1 /\ caller_part st = caller_part st0 /\
  (err <> None -> out_ReturnCode v <> Ok) /\
  (builtin = false -> (err = None <-> out_ReturnCode v = Ok) /\
                     (err <> None -> rolled_back st0 st)).

Lemma dest_finish_triple st0 st1 builtin v info err :
  Blockchain.PushState st0 = (st1, Ret tt) ->
  triple F (before_pop builtin st0 st1 (v, info, err))
    (match err with Some _ => Blockchain.PopSetActiveState | None => Blockchain.PopDiscard end ;;
     mret (v, info, err)) (executed builtin st0).
Proof.
  intros Hpush st2 (Hf & Hc & Hcode & Hback).
  destruct (snapshot_popped (negb (bool_decide (err = None))) st0 st1 st2 Hpush Hf)
    as (st3 & H3 & Hf3 & Hc3 & Ho3 & Hm3 & Hw).
  assert (forall b, match err with Some _ => Blockchain.PopSetActiveState
                      | None => Blockchain.PopDiscard end st2 = b ->
                    b = (st3, Ret tt)) as H by (intros b <-; by destruct err).
  rewrite (bind_run _ _ _ _ _ (H _ eq_refl)). cbn. split; [done|]. split; [congruence|]. split.
  - intros He. split; [|by apply Hcode]. apply Hw. by destruct err.
  - intros Hb. destruct (Hback Hb) as [Hiff Hroll]. split; [done|]. intros He.
    destruct (Hroll He) as [H1 H2]. split; congruence.
Qed.

(** A built-in function that fails. *)
Lemma builtin_error_triple st0 st1 input err :
  Blockchain.PushState st0 = (st1, Ret tt) ->
  triple F (fun st => frame_of st = frame_of st1 /\ caller_part st = caller_part st0)
    (Blockchain.PopSetActiveState ;;
     Runtime.AddError (Some err) [Function_ input] ;;
     vmOutput ← CreateVMOutputInCaseOfError err;
     mret (vmOutput, None : option nat, Some err)) (executed true st0).
Proof.
  intros Hpush st2 [Hf Hc].
  destruct (snapshot_popped true st0 st1 st2 Hpush Hf) as (st3 & H3 & Hf3 & Hc3 & _ & _ & Hw).
  rewrite (bind_run _ _ _ _ _ H3), (bind_run _ _ _ _ _ eq_refl).
  match goal with |- context [(CreateVMOutputInCaseOfError err ≫= _) ?s] => set (st4 := s) end.
  assert (Local (CreateVMOutputInCaseOfError err)) as [Hk Hn] by local_op.
  specialize (Hk st4). specialize (Hn st4).
  pose proof (CreateVMOutputInCaseOfError_caller err st4) as Hc4.
  pose proof (CreateVMOutputInCaseOfError_world err st4) as Hw4. unfold same in *.
  cbv [mbind M_bind].
  destruct (CreateVMOutputInCaseOfError err st4) as [st5 [v| |]] eqn:E; cbn in *; [|done..].
  split; [by rewrite Hk, <- Hf3|]. split; [by rewrite Hc4, <- Hc, <- Hc3|]. split; [|done].
  intros _. split; [|by eapply error_output_code]. destruct (Hw eq_refl) as [w Hw'].
  exists w. by rewrite Hw4, <- Hw'.
Qed.

Lemma ExecuteOnDestContext_triple st0 input :
  serves_above (frame_of st0) ->
  triple F (fun st => st = st0) (ExecuteOnDestContext wasm api input)
    (executed (IsBuiltinFunctionName (Function_ input)) st0).
Proof.
  intros Hapi st ->. unfold ExecuteOnDestContext.
  destruct (snapshot_pushed st0) as (st1 & H1 & E1).
  assert (caller_part st1 = caller_part st0) as Hc1 by by rewrite E1.
  assert (fr_instances (frame_of st1) = fr_instances (frame_of st0) /\
          fr_max (frame_of st1) = fr_max (frame_of st0)) as [Hi1 Hm1] by by rewrite E1.
  assert (outputOf st1 = outputOf st0 /\ Metering.met st1 = Metering.met st0) as [Ho1 Hme1]
    by by rewrite E1.
  rewrite (bind_run _ _ _ _ _ H1). clear E1.
  assert (forall st2, frame_of st2 = frame_of st1 -> serves_above (frame_of st2)) as Hserves.
  { intros st2 -> c' Hl Hm. apply Hapi; congruence. }
  destruct (IsBuiltinFunctionName (Function_ input)).
  - eapply triple_bind with (P := fun st => st = st1)
      (Q := fun _ st => frame_of st = frame_of st1 /\ caller_part st = caller_part st0); [| |done].
    { intros st ->. destruct (handleBuiltinFunctionCall_local input) as [Hk Hn].
      specialize (Hk st1). specialize (Hn st1).
      pose proof (handleBuiltinFunctionCall_caller input st1) as Hc. unfold same in *.
      destruct (handleBuiltinFunctionCall input st1) as [st2 [r| |]]; cbn in *; [|done..].
      split; congruence. }
    intros [[scInput builtinOutput] [e|]]; [by apply builtin_error_triple|].
    apply (triple_bind _ _ _ _ (before_pop true st0 st1));
      [|intros [[v info] err]; by apply dest_finish_triple].
    intros st2 [Hf2 Hc2]. destruct scInput as [input'|].
    + eapply triple_post; [by apply executeOnDestContextNoBuiltinFunction_triple, Hserves | | done].
      intros [[v info] err] st3 (Hf & Hc & Hiff & _). split_and!; try done; try congruence.
      intros He Hok. by apply He, Hiff.
    + destruct builtinOutput as [v|]; [|done]. cbn. by split_and!.
  - rewrite (bind_run _ _ _ _ _ eq_refl).
    pose proof (executeOnDestContextNoBuiltinFunction_triple st1 input (Hserves _ eq_refl)) as H.
    refine (triple_bind _ _ F (fun st => st = st1) (before_pop false st0 st1) _ _ _ st1 eq_refl);
      [|intros [[v info] err]; by apply dest_finish_triple].
    eapply triple_post; [exact H|]. intros [[v info] err] st3 (Hf & Hc & Hiff & Hroll).
    unfold before_pop, rolled_back in *. rewrite <- Ho1, <- Hme1.
    split_and!; try done; try congruence.
    intros He Hok. by apply He, Hiff.
Qed.

(** *** On the same context *)

(** The frame of the callee of [ExecuteOnSameContext]. *)
Definition same_frame (st : HostState) : frame :=
  {| fr_bigInt := bi_stateStack (st_bigInt st) ++ [bi_values (st_bigInt st)];
     fr_blockchain := bc_stateStack (st_blockchain st) ++ [bh_GetSnapshot (st_world st)];
     fr_metering := met_stateStack (st_metering st) ++ [Metering.met st];
     fr_output := out_stateStack (st_output st) ++ [mergeVMOutputs newVMOutput (outputOf st)];
     fr_runtime := rt_stateStack (st_runtime st) ++ [saved_runtime st];
     fr_instances := instanceStack (st_runtime st) ++ [instance (st_runtime st)];
     fr_storage := sto_stateStack (st_storage st);
     fr_address := sto_address (st_storage st);
     fr_max := maxWasmerInstances (st_runtime st) |}.

(** What the caller in [st0] gets of it: the callee works on the caller's
    big integers and output, unless it fails. *)
Definition same_result (st0 : HostState) (r : option nat * option error) (st : HostState) : Prop :=
  frame_of st = frame_of st0 /\ saved_runtime st = saved_runtime st0 /\
  instance (st_runtime st) = instance (st_runtime st0) /\
  (snd r <> None ->
   bi_values (st_bigInt st) = bi_values (st_bigInt st0) /\ rolled_back st0 st /\
   world_reverted st0 st).

(** The pops of a failure. *)
Lemma same_failure_run st0 st2 :
  framed (same_frame st0) st2 ->
  exists st3,
    (modify_bigInt BigInt.PopSetActiveState ;;
     Metering.PopSetActiveState ;;
     modify_output Output.PopSetActiveState ;;
     Runtime.PopSetActiveState ;;
     Blockchain.PopSetActiveState) st2 = (st3, Ret tt) /\
    forall r, same_result st0 r st3.
Proof.
  intros Hc. unfold framed, same_frame, frame_of in Hc.
  injection Hc as Hbi Hbc Hme Hou Hrt Hin Hst Had Hmax.
  do 3 rewrite (bind_run _ _ _ _ _ eq_refl).
  match goal with |- context [(_ ≫= _) ?s] => set (sta := s) end.
  destruct (runtime_pop_run sta _ _ _ _ Hrt Hin)
    as (stb & Hb & Hl & Hi & Hinst & Hstate & Hrest).
  rewrite (bind_run _ _ _ _ _ Hb). unfold Blockchain.PopSetActiveState.
  rewrite (bind_run _ _ _ _ _ eq_refl).
  injection Hrest as Rbi Rbc Rme Rou Rst Rw Rmax.
  cbn in Rbi, Rbc, Rme, Rou, Rst, Rw, Rmax.
  unfold BigInt.PopSetActiveState in Rbi. unfold Output.PopSetActiveState in Rou.
  rewrite Hbi, pop_snoc in Rbi. rewrite Hme, pop_snoc in Rme. rewrite Hou, pop_snoc in Rou.
  rewrite Rbc, Hbc, pop_snoc. eexists. split; [reflexivity|]. intros r.
  unfold same_result, rolled_back, world_reverted, frame_of, saved_runtime, rt, outputOf,
    Metering.met in *. cbn.
  rewrite Rbi, Rme, Rou, Rst, Rmax, Hl, Hi, Hinst, Hstate, Hst, Had, Hmax. cbn.
  rewrite !copyVMInput_idemp. split_and!; try done. intros _. split_and!; try done. by eexists.
Qed.

(** The pops of a success, and the gas given back. *)
Lemma same_success_triple st0 vmOutput info :
  triple F (framed (same_frame st0))
    (Metering.PopMergeActiveState ;;
     modify_output Output.PopDiscard ;;
     modify_bigInt BigInt.PopDiscard ;;
     Blockchain.PopDiscard ;;
     Runtime.PopSetActiveState ;;
     Metering.RestoreGas (GasRemaining vmOutput))
    (fun _ => same_result st0 (info, None)).
Proof.
  intros st2 Hc. unfold framed, same_frame, frame_of in Hc.
  injection Hc as Hbi Hbc Hme Hou Hrt Hin Hst Had Hmax.
  do 4 rewrite (bind_run _ _ _ _ _ eq_refl).
  match goal with |- context [(_ ≫= _) ?s] => set (sta := s) end.
  destruct (runtime_pop_run sta _ _ _ _ Hrt Hin)
    as (stb & Hb & Hl & Hi & Hinst & Hstate & Hrest).
  rewrite (bind_run _ _ _ _ _ Hb). injection Hrest as Rbi Rbc Rme Rou Rst Rw Rmax.
  pose proof (RestoreGas_keeps (GasRemaining vmOutput) stb) as Hr. unfold same, but_instances in Hr.
  assert (NoFuel (Metering.RestoreGas (GasRemaining vmOutput))) as Hn by nofuel_deep.
  specialize (Hn stb). destruct (Metering.RestoreGas (GasRemaining vmOutput) stb) as [st4 [u| |]];
    cbn in *; [|done..].
  injection Hr as Qbi Qbc Qme Qou Qrt Qst Qw.
  unfold BigInt.PopDiscard in Rbi. unfold Output.PopDiscard in Rou.
  rewrite Hbi, pop_snoc in Rbi. rewrite Hou, pop_snoc in Rou.
  rewrite Hbc, pop_snoc in Rbc. rewrite Hme, pop_snoc in Rme.
  unfold same_result, frame_of, saved_runtime, rt in *. cbn.
  rewrite Qbi, Qbc, Qme, Qou, Qrt, Qst, Rbi, Rbc, Rme, Rou, Rst, Rmax, Hl, Hi, Hinst, Hstate,
    Hst, Had, Hmax. cbn. by rewrite !copyVMInput_idemp.
Qed.

Lemma finishExecuteOnSameContext_triple st0 info err :
  triple F (framed (same_frame st0)) (finishExecuteOnSameContext err)
    (fun _ => same_result st0 (info, err)).
Proof.
  intros st2 Hc. unfold finishExecuteOnSameContext. rewrite (bind_run _ _ _ _ _ eq_refl).
  cbv beta.
  destruct (negb (bool_decide (out_ReturnCode (outputOf st2) = Ok)) ||
            negb (bool_decide (err = None))) eqn:Hfail.
  - destruct (same_failure_run st0 st2 Hc) as (st3 & H3 & Hres). rewrite H3. apply Hres.
  - assert (err = None) as ->.
    { apply orb_false_iff in Hfail as [_ Hfail]. by apply negb_false_iff, bool_decide_eq_true in Hfail. }
    refine (triple_bind _ _ F (framed (same_frame st0)) (fun _ => framed (same_frame st0))
              _ _ _ st2 Hc); [apply triple_local; local_op|].
    intros v. apply same_success_triple.
Qed.

Lemma serves_same st :
  serves_above (frame_of st) -> can_start (same_frame st) ->
  api_triple F (framed (same_frame st)) api.
Proof. intros H. apply H; [|done]. cbn. by rewrite length_app, Nat.add_comm. Qed.

Lemma ExecuteOnSameContext_triple st0 input :
  serves_above (frame_of st0) -> IsBuiltinFunctionName (Function_ input) = false ->
  triple F (fun st => st = st0) (ExecuteOnSameContext wasm api input) (same_result st0).
Proof.
  intros Hapi Hbuiltin st ->. unfold ExecuteOnSameContext. rewrite Hbuiltin.
  do 2 rewrite (bind_run _ _ _ _ _ eq_refl).
  match goal with |- context [(copyTxHashesFromContext _ _ ≫= _) ?s] =>
    set (sa := s); destruct (copyTxHashesFromContext_run IsESDTFunctionsEnabled input sa) as [v Hv] end.
  rewrite (bind_run _ _ _ _ _ Hv). clear Hv. do 3 rewrite (bind_run _ _ _ _ _ eq_refl).
  match goal with |- context [(Metering.InitStateFromContractCallInput ?v ≫= _) ?s] =>
    set (sb := s); destruct (metering_init_run v sb) as (m & v' & Hm) end.
  rewrite (bind_run _ _ _ _ _ Hm). clear Hm. cbv zeta. rewrite (bind_run _ _ _ _ _ eq_refl).
  match goal with |- context [(with_defer _ _) ?s] => set (sc := s) end.
  assert (framed (same_frame st0) sc) as Hc by done.
  eapply triple_with_defer; [| | | exact Hc].
  { apply runOnSameContext_triple; [done|]. by apply serves_same. }
  { cbn [default]. unfold finishExecuteOnSameContext. nofuel_deep. }
  intros [asyncInfo err]. cbn [default]. eapply triple_bind; [apply triple_local; local_op|].
  intros ?. eapply triple_bind; [by apply finishExecuteOnSameContext_triple with (info := asyncInfo)|].
  intros ?. by apply triple_ret.
Qed.

Lemma ExecuteOnDestContext_framed c input :
  serves_above c ->
  triple F (framed c) (ExecuteOnDestContext wasm api input) (fun _ => framed c).
Proof.
  intros Hc st Hst. unfold framed in Hst. subst c.
  refine (triple_post _ _ _ _ _ (ExecuteOnDestContext_triple st input Hc) _ st eq_refl).
  intros [[v info] err] st' [Hf _]. exact Hf.
Qed.

Lemma ExecuteOnSameContext_framed c input :
  serves_above c ->
  triple F (framed c) (ExecuteOnSameContext wasm api input) (fun _ => framed c).
Proof.
  intros Hc st Hst. unfold framed in Hst. subst c.
  destruct (IsBuiltinFunctionName (Function_ input)) eqn:Hb.
  { unfold ExecuteOnSameContext. by rewrite Hb. }
  refine (triple_post _ _ _ _ _ (ExecuteOnSameContext_triple st input Hc Hb) _ st eq_refl).
  intros [info err] st' [Hf _]. exact Hf.
Qed.

Lemma CreateNewContract_framed c input :
  serves_above c ->
  triple F (framed c) (CreateNewContract (ExecuteOnDestContext wasm api) input)
    (fun _ => framed c).
Proof.
  intros Hc. unfold CreateNewContract. pose proof (ExecuteOnDestContext_framed c) as Hdest.
  repeat first [by apply Hdest | triple_step].
Qed.

End Executions.

(** ** The fuel of the host *)

Section Fuel.
Context `{Ext : Externals} (wasm : HostAPI -> bytes -> M (option error)).
Context (Hsandboxed : sandboxed wasm).

(** Fuel for as many levels as instances can still be started; the count of
    instances is a [uint64], which must not wrap. *)
Definition enough (fuel : nat) (c : frame) : Prop :=
  (0 < fuel)%nat /\ fr_max c - len (fr_instances c) <= Z.of_nat fuel /\
  fr_max c <= MaxUint64 /\ len (fr_instances c) < MaxUint64.

Lemma api_triple_fuel (F F' : Prop) P api :
  api_triple F' P api -> (F' -> F) -> api_triple F P api.
Proof. intros H HF. split; intros; (eapply triple_fuel; [apply H | done]). Qed.

Lemma enough_above fuel c c' :
  length (fr_instances c') = S (length (fr_instances c)) -> fr_max c' = fr_max c ->
  can_start c' -> enough (S fuel) c -> enough fuel c'.
Proof.
  unfold can_start, enough, len. intros -> -> Hs (_ & Hfuel & Hmax & Hlen).
  rewrite Nat2Z.inj_succ in *. unfold u64 in Hs. rewrite Z.mod_small in Hs by word_lia.
  split_and!; lia.
Qed.

Lemma host_api_serves fuel c :
  (forall c', api_triple (~ enough fuel c') (framed c') (host_api wasm fuel)) ->
  serves_above (host_api wasm fuel) (~ enough (S fuel) c) c.
Proof.
  intros IH c' Hl Hm Hs. eapply api_triple_fuel; [apply IH|].
  intros Hn He. by apply Hn, (enough_above fuel c).
Qed.

Lemma host_api_triple fuel c : api_triple (~ enough fuel c) (framed c) (host_api wasm fuel).
Proof.
  revert c. induction fuel as [|fuel IH]; intros c.
  { split; intros i st _ [H _]; lia. }
  pose proof (host_api_serves fuel c IH) as Hs. split; intros i; cbn.
  - by apply ExecuteOnDestContext_framed.
  - by apply ExecuteOnSameContext_framed.
  - by apply CreateNewContract_framed.
Qed.

End Fuel.
