(* ===== verification/Guarantees.v ===== *)
(** What the host guarantees: to a contract that calls another one, and to the
    node that runs a transaction.  The theorems hold for any code of contracts
    ([sandboxed]) and any fuel, and say how much fuel is enough. *)
From S2P Require Import Prelude Errors Overflow Helpers Types State Logic Toy BigInt Runtime.
From S2P Require Import Output Metering Blockchain Transfers Storage Validator RuntimeExec.
From S2P Require Import Builtin AsyncCall Execution Host Hooks Nesting.

#[local] Open Scope Z_scope.

Section Transactions.
Context `{Ext : Externals} (wasm : HostAPI -> bytes -> M (option error)).
Context (Hsandboxed : sandboxed wasm).

(** The instances started and their bound. *)
Definition slots (st : HostState) : list (option nat) * Z :=
  (instanceStack (st_runtime st), maxWasmerInstances (st_runtime st)).

Definition slots_of (c : frame) : list (option nat) * Z := (fr_instances c, fr_max c).

Lemma slots_frame st : slots st = slots_of (frame_of st).
Proof. done. Qed.

(** A run that starts in any frame with these slots. *)
Lemma triple_slots {A} (m : M A) F s :
  (forall c, slots_of c = s -> triple F (framed c) m (fun _ => framed c)) ->
  triple F (fun st => slots st = s) m (fun _ st => slots st = s).
Proof.
  intros Hm st Hs. pose proof (Hm (frame_of st) Hs st eq_refl) as H.
  destruct (m st) as [st' [a| |]]; [|done..]. rewrite slots_frame. unfold framed in H.
  by rewrite H.
Qed.

Lemma triple_keeps_slots {A} (m : M A) F s :
  Keeps (same slots) m -> NoFuel m ->
  triple F (fun st => slots st = s) m (fun _ st => slots st = s).
Proof.
  intros Hk Hn st Hs. specialize (Hk st). specialize (Hn st). unfold same in Hk.
  destruct (m st) as [st' [a| |]]; cbn in *; [congruence | done..].
Qed.

#[local] Instance new_asyncContextInfo_slots info :
  Keeps (same slots) (Runtime.new_asyncContextInfo info).
Proof. done. Qed.

#[local] Instance get_account_slots a : Keeps (same slots) (get_account a).
Proof. by apply get_account_keeps. Qed.

#[local] Instance Storage_SetAddress_slots a : Keeps (same slots) (Storage.SetAddress a).
Proof. done. Qed.

Lemma initContexts_slots s F :
  triple F (fun st => slots st = s) initContexts (fun _ st => slots st = s).
Proof. apply triple_keeps_slots; [keeps_deep | nofuel_deep]. Qed.

Lemma enterCall_slots s F i :
  triple F (fun st => slots st = s) (enterCall i) (fun _ st => slots st = s).
Proof. apply triple_keeps_slots; [keeps_deep | nofuel_deep]. Qed.

#[local] Instance AddTxValue_slots a v : Keeps (same slots) (AddTxValueToAccount a v).
Proof. keeps_deep. Qed.

#[local] Instance Clean_nofuel : NoFuel Clean.
Proof. nofuel_deep. Qed.

(** The fuel a transaction needs. *)
Definition transaction_fuel (fuel : nat) (st : HostState) : Prop :=
  (0 < fuel)%nat /\
  maxWasmerInstances (st_runtime st) - len (instanceStack (st_runtime st)) <= Z.of_nat fuel /\
  maxWasmerInstances (st_runtime st) <= MaxUint64 /\
  len (instanceStack (st_runtime st)) < MaxUint64.

Lemma transaction_fuel_slots fuel st c :
  transaction_fuel fuel st -> slots_of c = slots st -> enough fuel c.
Proof. intros H [= Hi Hm]. unfold enough. by rewrite Hi, Hm. Qed.

Lemma host_api_total fuel st c :
  transaction_fuel fuel st -> slots_of c = slots st ->
  api_triple False (framed c) (host_api wasm fuel).
Proof.
  intros Hst Hc. eapply api_triple_fuel; [by apply host_api_triple|].
  intros H. apply H. by eapply transaction_fuel_slots.
Qed.

(** A transaction: anything after the reset that runs in any frame, in a
    deferred clean-up. *)
Lemma transaction_total (body : M VMOutput) st :
  triple False (fun st' => slots st' = slots st) body (fun _ st' => slots st' = slots st) ->
  ((initContexts ;; with_clean body) st).2 <> OutOfFuel.
Proof.
  intros Hbody.
  assert (triple False (fun st' => slots st' = slots st) (initContexts ;; with_clean body)
            (fun _ _ => True)) as H.
  { eapply triple_bind; [apply initContexts_slots|]. intros ?.
    eapply triple_with_defer; [exact Hbody | apply _ |].
    intros v st1 _. assert (NoFuel (Clean ;; deref (Some v))) as Hn by apply _.
    specialize (Hn st1). by destruct ((Clean ;; deref (Some v)) st1) as [st2 []]. }
  specialize (H st eq_refl). by destruct ((initContexts ;; with_clean body) st) as [st' []].
Qed.

Lemma doRunSmartContractCall_total fuel st input :
  transaction_fuel fuel st ->
  (doRunSmartContractCall wasm (host_api wasm fuel) input st).2 <> OutOfFuel.
Proof.
  intros Hst. apply transaction_total. eapply triple_bind; [apply enterCall_slots|]. intros i.
  apply triple_slots. intros c Hc. apply runSmartContractCall_triple; [done|].
  intros _. by apply (host_api_total fuel st).
Qed.

Lemma doRunSmartContractUpgrade_total fuel st input :
  transaction_fuel fuel st ->
  (doRunSmartContractUpgrade wasm (host_api wasm fuel) input st).2 <> OutOfFuel.
Proof.
  intros Hst. apply transaction_total. eapply triple_bind; [apply enterCall_slots|]. intros i.
  apply triple_slots. intros c Hc.
  repeat first [ apply deployment_output_triple; [done|]; intros _; by apply (host_api_total fuel st)
               | triple_step ].
Qed.

Lemma doRunSmartContractCreate_total fuel st input :
  transaction_fuel fuel st ->
  (doRunSmartContractCreate wasm (host_api wasm fuel) input st).2 <> OutOfFuel.
Proof.
  intros Hst. apply transaction_total. cbv zeta.
  eapply triple_bind; [apply triple_keeps_slots; [keeps_deep | nofuel_deep]|].
  intros [address [e|]]; [apply triple_keeps_slots; [keeps_deep | nofuel_deep]|].
  do 6 (eapply triple_bind; [apply triple_keeps_slots; [keeps_deep | nofuel_deep]|intros ?]).
  apply triple_slots. intros c Hc. apply deployment_output_triple; [done|].
  intros _. by apply (host_api_total fuel st).
Qed.

(** *** What the clean-up leaves *)

(** No instance is left running but a warm one. *)
Definition clean (st : HostState) : Prop :=
  instance (st_runtime st) = None \/ instance (st_runtime st) = warmInstance (st_runtime st).

Lemma Clean_run st : exists st', Clean st = (st', Ret tt) /\ clean st'.
Proof.
  unfold Clean, Runtime.CleanWasmerInstance, Runtime.IsWarmInstance, clean.
  rewrite (bind_run _ _ _ _ _ eq_refl). cbv beta.
  destruct (instance (st_runtime st)) as [h|] eqn:Hi.
  - destruct (bool_decide (warmInstance (st_runtime st) = Some h)) eqn:Hw.
    + apply bool_decide_eq_true in Hw. exists st. split; [done|]. right. congruence.
    + do 2 rewrite (bind_run _ _ _ _ _ eq_refl). rewrite Hi, Hw. eexists. split; [done|]. by left.
  - do 2 rewrite (bind_run _ _ _ _ _ eq_refl). rewrite Hi. exists st. split; [done|]. by left.
Qed.

(** However the body ends. *)
Lemma with_clean_cleans (body : M VMOutput) st :
  let '(st', r) := with_clean body st in r = OutOfFuel \/ clean st'.
Proof.
  unfold with_clean, with_defer. destruct (body st) as [st1 [v| |]]; [| |by left].
  - destruct (Clean_run st1) as (st2 & H2 & Hc). rewrite (bind_run _ _ _ _ _ H2). by right.
  - destruct (Clean_run st1) as (st2 & H2 & Hc). rewrite (bind_run _ _ _ _ _ H2). by right.
Qed.

(** The result of an entry point: an output or an error, never both. *)
Definition returned (r : option VMOutput * option error) : Prop :=
  match r with
  | (Some _, None) | (None, Some _) => True
  | _ => False
  end.

Context (recovered : HostState -> error).

Lemma TryCatch_returns (m : M VMOutput) st :
  (m st).2 <> OutOfFuel -> (let '(st', r) := m st in r = OutOfFuel \/ clean st') ->
  exists st' r, TryCatch recovered m st = (st', Ret r) /\ returned r /\ clean st'.
Proof.
  intros Hn Hc. unfold TryCatch. destruct (m st) as [st' [v| |]]; cbn in *; try done.
  - destruct Hc; [done|]. by eexists _, _.
  - destruct Hc; [done|]. by eexists _, _.
Qed.

Lemma initContexts_run st : exists st', initContexts st = (st', Ret tt).
Proof. by eexists. Qed.

Lemma after_init_cleans (body : M VMOutput) st :
  let '(st', r) := (initContexts ;; with_clean body) st in r = OutOfFuel \/ clean st'.
Proof.
  destruct (initContexts_run st) as [st1 H1]. rewrite (bind_run _ _ _ _ _ H1).
  apply with_clean_cleans.
Qed.

(** The reset of the warm instance after a call. *)
Lemma retry_step (m : M VMOutput) st :
  (let '(st', r) := m st in r = OutOfFuel \/ clean st') ->
  let m' := (vmOutput ← m; retriable ← hasRetriableExecutionError vmOutput;
             (if (retriable : bool) then Runtime.ResetWarmInstance else mret tt) ;; mret vmOutput) in
  ((m' st).2 = OutOfFuel <-> (m st).2 = OutOfFuel) /\
  let '(st', r) := m' st in r = OutOfFuel \/ clean st'.
Proof.
  cbv zeta. cbv [mbind M_bind]. destruct (m st) as [st1 [v| |]]; intros Hc; cbn in *;
    [|by auto..].
  destruct Hc as [|Hc]; [done|].
  unfold hasRetriableExecutionError, Runtime.IsWarmInstance, Runtime.ResetWarmInstance.
  cbv [mbind M_bind gets mret M_ret].
  destruct (instance (st_runtime st1)) as [h|]; cbn; [|by auto].
  destruct (_ && _); cbn; [|by auto].
  destruct (instance (st_runtime st1)); cbn; split; try done; right; [by left | exact Hc].
Qed.

End Transactions.

Section Properties.
Context `{Ext : Externals}.

Lemma host_returns wasm recovered fuel st :
  sandboxed wasm -> transaction_fuel fuel st ->
  (forall input, exists st' r,
     RunSmartContractCall wasm recovered (host_api wasm fuel) input st = (st', Ret r) /\
     returned r /\ clean st') /\
  (forall input, exists st' r,
     RunSmartContractCreate wasm recovered (host_api wasm fuel) input st = (st', Ret r) /\
     returned r /\ clean st').
Proof.
  intros Hw Hst. split; intros input.
  - unfold RunSmartContractCall. case_match.
    + apply TryCatch_returns; [|apply after_init_cleans].
      apply doRunSmartContractUpgrade_total; assumption.
    + destruct (retry_step (doRunSmartContractCall wasm (host_api wasm fuel) input) st) as [Hf Hc].
      { apply after_init_cleans. }
      apply TryCatch_returns; [|exact Hc]. rewrite Hf.
      by apply (doRunSmartContractCall_total wasm Hw fuel st input).
  - apply TryCatch_returns; [|apply after_init_cleans].
    apply doRunSmartContractCreate_total; assumption.
Qed.

(** C2: whatever a transaction does, the host returns to the node: with fuel for
    as many levels of nesting as instances may run, running, upgrading or
    deploying a contract ends, with an output or an error but never both, and
    leaves no instance running but a warm one. *)
Theorem transactions_return wasm recovered fuel st :
  sandboxed wasm -> transaction_fuel fuel st ->
  (forall input, exists st' r,
     RunSmartContractCall wasm recovered (host_api wasm fuel) input st = (st', Ret r) /\
     returned r /\ clean st') /\
  (forall input, exists st' r,
     RunSmartContractCreate wasm recovered (host_api wasm fuel) input st = (st', Ret r) /\
     returned r /\ clean st').
Proof. apply host_returns. Qed.

(** C6: a contract that calls another one on its own context finds, when the call
    returns, everything that is its own as it left it, whatever the callee and
    the contracts it called in turn did and whether they failed: the state
    stacks of all contexts, its big integers, its input, address and
    asynchronous calls, its storage address and its running instance. *)
Theorem ExecuteOnDestContext_restores_caller wasm fuel input st st' vmOutput info err :
  sandboxed wasm ->
  ExecuteOnDestContext wasm (host_api wasm fuel) input st = (st', Ret (vmOutput, info, err)) ->
  frame_of st' = frame_of st /\
  bi_values (st_bigInt st') = bi_values (st_bigInt st) /\
  saved_runtime st' = saved_runtime st /\
  instance (st_runtime st') = instance (st_runtime st).
Proof.
  intros Hw Hrun.
  pose proof (ExecuteOnDestContext_triple wasm Hw (host_api wasm fuel) _ st input
    (host_api_serves wasm fuel _ (host_api_triple wasm Hw fuel)) st eq_refl) as H.
  rewrite Hrun in H. destruct H as (Hf & Hc & _).
  apply pair_equal_spec in Hc as [Hc Hi]. apply pair_equal_spec in Hc as [Hb Hr]. by split_and!.
Qed.

(** C5: a call that fails is undone.  In every case the world is put back to its snapshot,
    when a built-in function or the contract after it failed too, and the output the caller
    gets is not [Ok].  When the function called is no built-in one, also the output of the
    caller's context is the one it had before the call, as the state stack keeps it (without
    the deleted and touched accounts), and its gas counters are the ones before the call;
    after a built-in function they need not be. *)
Theorem failed_call_is_undone wasm fuel input st st' vmOutput info e :
  sandboxed wasm ->
  ExecuteOnDestContext wasm (host_api wasm fuel) input st = (st', Ret (vmOutput, info, Some e)) ->
  out_ReturnCode vmOutput <> Ok /\ world_reverted st st' /\
  (IsBuiltinFunctionName (Function_ input) = false ->
   outputOf st' = mergeVMOutputs newVMOutput (outputOf st) /\ Metering.met st' = Metering.met st).
Proof.
  intros Hw Hrun.
  pose proof (ExecuteOnDestContext_triple wasm Hw (host_api wasm fuel) _ st input
    (host_api_serves wasm fuel _ (host_api_triple wasm Hw fuel)) st eq_refl) as H.
  rewrite Hrun in H. destruct H as (_ & _ & Herr & Hroll).
  destruct (Herr ltac:(done)) as [Hrev Hcode]. split_and!; try done.
  intros Hb. by apply (Hroll Hb).
Qed.

(** C26: when a call of a built-in function succeeds and the contract executed
    after it fails, the world is put back but the output of the built-in function
    is not: the caller's output keeps what [handleBuiltinFunctionCall] added. *)
Theorem builtin_output_survives_failure wasm fuel input st st1 st2 st' scInput builtinOutput
    vmOutput info e :
  sandboxed wasm -> IsBuiltinFunctionName (Function_ input) = true ->
  Blockchain.PushState st = (st1, Ret tt) ->
  handleBuiltinFunctionCall input st1 = (st2, Ret (Some scInput, Some builtinOutput, None)) ->
  ExecuteOnDestContext wasm (host_api wasm fuel) input st = (st', Ret (vmOutput, info, Some e)) ->
  world_reverted st st' /\ outputOf st' = mergeVMOutputs newVMOutput (outputOf st2).
Proof.
  intros Hw Hb Hpush Hbuiltin Hrun.
  assert (serves_above (host_api wasm fuel) (~ enough (S fuel) (frame_of st)) (frame_of st))
    as Hserves by apply host_api_serves, host_api_triple, Hw.
  pose proof (ExecuteOnDestContext_triple wasm Hw _ _ st input Hserves st eq_refl) as H.
  rewrite Hrun in H. destruct H as (_ & _ & Herr & _). split; [by apply Herr|].
  unfold ExecuteOnDestContext in Hrun. rewrite (bind_run _ _ _ _ _ Hpush), Hb in Hrun.
  rewrite (bind_run _ _ _ _ _ Hbuiltin) in Hrun. cbv beta iota in Hrun.
  apply bind_Ret_inv in Hrun as ([[v i] err] & st3 & Hsc & Hpop).
  assert (frame_of st2 = frame_of st1) as Hf2.
  { destruct (handleBuiltinFunctionCall_local input) as [Hk _]. specialize (Hk st1).
    by rewrite Hbuiltin in Hk. }
  assert (serves_above (host_api wasm fuel) (~ enough (S fuel) (frame_of st)) (frame_of st2))
    as Hserves2.
  { intros c' Hl Hm. apply Hserves; rewrite Hf2 in *; by injection Hpush as <-. }
  pose proof (executeOnDestContextNoBuiltinFunction_triple wasm Hw _ _ st2 scInput Hserves2 st2
    eq_refl) as H.
  rewrite Hsc in H. destruct H as (Hf3 & _ & _ & Hroll).
  apply bind_Ret_inv in Hpop as (u & st4 & Hpop & Hret). injection Hret as <- _ _ ->.
  destruct (snapshot_popped true st st1 st3 Hpush) as (st5 & H5 & _ & _ & Ho & _); [congruence|].
  cbv iota in H5. rewrite H5 in Hpop. injection Hpop as <-. rewrite Ho. by apply Hroll.
Qed.

(** C8: a call on the caller's own context keeps the caller's runtime state,
    instance and storage address and all state stacks; when it fails, also the big
    integers, output, gas counters and world it shared with the callee are back. *)
Theorem ExecuteOnSameContext_restores_caller wasm fuel input st st' info err :
  sandboxed wasm -> IsBuiltinFunctionName (Function_ input) = false ->
  ExecuteOnSameContext wasm (host_api wasm fuel) input st = (st', Ret (info, err)) ->
  frame_of st' = frame_of st /\ saved_runtime st' = saved_runtime st /\
  instance (st_runtime st') = instance (st_runtime st) /\
  (err <> None ->
   bi_values (st_bigInt st') = bi_values (st_bigInt st) /\
   outputOf st' = mergeVMOutputs newVMOutput (outputOf st) /\
   Metering.met st' = Metering.met st /\ world_reverted st st').
Proof.
  intros Hw Hb Hrun.
  pose proof (ExecuteOnSameContext_triple wasm Hw (host_api wasm fuel) _ st input
    (host_api_serves wasm fuel _ (host_api_triple wasm Hw fuel)) Hb st eq_refl) as H.
  rewrite Hrun in H. destruct H as (Hf & Hs & Hi & Hfail). split_and!; try done.
  intros He. destruct (Hfail He) as (H1 & [H2 H3] & H4). by split_and!.
Qed.

(** C21: Nested calls of sandboxed contracts end: a contract that calls itself or others
    without end is stopped by the bound on running instances, so fuel for the instances
    that can still be started is always enough, as long as the bound and the stack of
    instances fit a uint64. *)
Theorem nested_calls_end wasm fuel input st :
  sandboxed wasm ->
  maxWasmerInstances (st_runtime st) - len (instanceStack (st_runtime st)) <= Z.of_nat fuel + 1 ->
  maxWasmerInstances (st_runtime st) <= MaxUint64 ->
  len (instanceStack (st_runtime st)) < MaxUint64 ->
  (ExecuteOnDestContext wasm (host_api wasm fuel) input st).2 <> OutOfFuel /\
  (ExecuteOnSameContext wasm (host_api wasm fuel) input st).2 <> OutOfFuel.
Proof.
  intros Hw Hfuel Hmax Hlen.
  pose proof (host_api_triple wasm Hw (S fuel) (frame_of st)) as [Hd Hs _].
  assert (enough (S fuel) (frame_of st)) as Henough.
  { unfold enough. cbn. split_and!; lia. }
  specialize (Hd input st eq_refl). specialize (Hs input st eq_refl). cbn in Hd, Hs.
  split; intros H.
  - destruct (ExecuteOnDestContext wasm (host_api wasm fuel) input st) as [? []]; cbn in *; auto;
      done.
  - destruct (ExecuteOnSameContext wasm (host_api wasm fuel) input st) as [? []]; cbn in *; auto;
      done.
Qed.

End Properties.

(** ** Witnesses *)

(** The contracts [sc1], which calls [sc2], and [sc2], which writes its storage
    and fails. *)
Definition two_contracts : toyWorld :=
  [ {[ bs "sc1" := mktoyAccount (mkUserAccount 100 0 (bs "code1") [] [] [] [] 0 []) (bs "code1") ∅;
       bs "sc2" := mktoyAccount (mkUserAccount 0 0 (bs "code2") [] [] [] [] 0 []) (bs "code2") ∅ ]} ].

Definition toy_call : ContractCallInput :=
  mkContractCallInput
    (set_CallerAddr (bs "sc1") (set_CallValue 7 (set_GasProvided 40 zeroVMInput)))
    (bs "sc2") (bs "main") false.

Definition toy_wasm `{Ext : Externals} (api : HostAPI) (f : bytes) : M (option error) :=
  address ← Runtime.GetSCAddress;
  if bytes_eqb address (bs "sc2") then
    _ ← Storage.SetStorage (bs "k") (bs "v");
    RuntimeExec.SignalUserError (bs "no") ;;
    mret (Some (ErrNew (bs "breakpoint")))
  else
    _ ← api_ExecuteOnDestContext api toy_call;
    mret None.

Lemma toy_wasm_sandboxed `{Ext : Externals} : sandboxed toy_wasm.
Proof.
  intros api f F X P HX Hop Hapi. unfold toy_wasm.
  eapply ends_in_bind; [apply Hop; constructor|]. intros address. case_match.
  - eapply ends_in_bind; [apply Hop; constructor|]. intros ?.
    eapply ends_in_bind; [apply Hop; constructor|]. intros ?. by apply ends_in_ret.
  - eapply ends_in_bind; [apply Hapi|]. intros ?. by apply ends_in_ret.
Qed.

Definition toy_two : @HostState toy :=
  @set_st_output toy (mkoutputContext newVMOutput [] ∅) (toy_state two_contracts 50).
(** The run of the failing call, without its final state. *)
Abbreviation toy_run := (@ExecuteOnDestContext toy toy_wasm (@host_api toy toy_wasm 10) toy_call
  toy_two).

Lemma toy_fuel : @transaction_fuel toy 10 toy_two.
Proof. split_and!; vm_compute; first [reflexivity | discriminate | lia]. Qed.

Definition toy_recovered (_ : @HostState toy) : error := ErrExecutionFailed.

Lemma transactions_return_witness :
  (forall input, exists st' r,
     @RunSmartContractCall toy toy_wasm toy_recovered (@host_api toy toy_wasm 10) input toy_two =
       (st', Ret r) /\ returned r /\ @clean toy st') /\
  (forall input, exists st' r,
     @RunSmartContractCreate toy toy_wasm toy_recovered (@host_api toy toy_wasm 10) input toy_two =
       (st', Ret r) /\ returned r /\ @clean toy st').
Proof.
  exact (@transactions_return toy toy_wasm toy_recovered 10 toy_two (@toy_wasm_sandboxed toy) toy_fuel).
Defined.

Definition toy_failure : VMOutput :=
  mkVMOutput [] UserError (bs "no") 0 (Some 0) ∅ [] [] [].

Lemma toy_run_eq : toy_run = (fst toy_run, Ret (toy_failure, None, Some (ErrSignalError : error))).
Proof.
  assert (snd toy_run = Ret (toy_failure, None, Some (ErrSignalError : error))) as <-
    by (vm_compute; reflexivity).
  apply surjective_pairing.
Qed.

Lemma ExecuteOnDestContext_restores_caller_witness :
  @saved_runtime toy (fst toy_run) = @saved_runtime toy toy_two.
Proof.
  apply (@ExecuteOnDestContext_restores_caller toy toy_wasm 10 toy_call toy_two _ _ _ _
    (@toy_wasm_sandboxed toy) toy_run_eq).
Defined.

Lemma failed_call_is_undone_witness :
  @outputOf toy (fst toy_run) = @mergeVMOutputs toy newVMOutput (@outputOf toy toy_two).
Proof.
  apply (@failed_call_is_undone toy toy_wasm 10 toy_call toy_two _ _ _ _
    (@toy_wasm_sandboxed toy) toy_run_eq). vm_compute. reflexivity.
Defined.

Abbreviation toy_same := (@ExecuteOnSameContext toy toy_wasm (@host_api toy toy_wasm 10) toy_call
  toy_two).

Lemma toy_same_eq : toy_same = (fst toy_same, Ret (None, Some (ErrSignalError : error))).
Proof.
  assert (snd toy_same = Ret (None, Some (ErrSignalError : error))) as <-
    by (vm_compute; reflexivity).
  apply surjective_pairing.
Qed.

Lemma ExecuteOnSameContext_restores_caller_witness :
  @outputOf toy (fst toy_same) = @mergeVMOutputs toy newVMOutput (@outputOf toy toy_two).
Proof.
  apply (@ExecuteOnSameContext_restores_caller toy toy_wasm 10 toy_call toy_two _ _ _
    (@toy_wasm_sandboxed toy) eq_refl toy_same_eq). done.
Defined.

Lemma nested_calls_end_witness :
  (@ExecuteOnDestContext toy toy_wasm (@host_api toy toy_wasm 10) toy_call toy_two).2 <> OutOfFuel.
Proof.
  apply (@nested_calls_end toy toy_wasm 10 toy_call toy_two (@toy_wasm_sandboxed toy));
    vm_compute; first [reflexivity | discriminate].
Defined.

(** A host whose transfer of tokens succeeds with a log entry and calls the
    recipient. *)
Definition toy_esdt : Externals := toy_with (fun w i =>
  let transfer := mkOutputTransfer 0 20 0 (bs "main") DirectCall (bs "sc1") in
  let account := set_OutputTransfers [transfer]
    (mkOutputAccount (RecipientAddr i) 0 None None ∅ [] [] None [] 0) in
  (w, (Some (mkVMOutput [] Ok [] 20 (Some 0) {[ RecipientAddr i := account ]} [] []
               [mkLogEntry (bs "ESDTTransfer") (bs "sc1") [] []]), None))) toy_unmarshal.

Definition toy_token_call : ContractCallInput :=
  mkContractCallInput
    (set_CallerAddr (bs "sc1") (set_Arguments [bs "TOKEN"; bs "1"]
      (set_GasProvided 40 zeroVMInput)))
    (bs "sc2") (bs "ESDTTransfer") false.

(** The state of [toy_two] under these externals. *)
Definition toy_tokens : @HostState toy_esdt :=
  @mkHostState toy_esdt (@st_bigInt toy toy_two) (@st_blockchain toy toy_two)
    (@st_metering toy toy_two) (@st_output toy toy_two) (@st_runtime toy toy_two)
    (@st_storage toy toy_two) (@st_instances toy toy_two) (@st_asyncInfos toy toy_two)
    (@st_next toy toy_two) (@st_world toy toy_two).

Abbreviation token_push := (@Blockchain.PushState toy_esdt toy_tokens).
Abbreviation token_builtin := (@handleBuiltinFunctionCall toy_esdt toy_token_call (fst token_push)).
Abbreviation token_run := (@ExecuteOnDestContext toy_esdt toy_wasm
  (@host_api toy_esdt toy_wasm 10) toy_token_call toy_tokens).

(** What a built-in function that goes on to a contract returns. *)
Definition builtin_results
    (r : outcome (option ContractCallInput * option VMOutput * option error)) :
    option (ContractCallInput * VMOutput) :=
  match r with
  | Ret (Some scInput, Some builtinOutput, None) => Some (scInput, builtinOutput)
  | _ => None
  end.

Lemma builtin_results_Some r :
  bool_decide (is_Some (builtin_results r)) = true ->
  exists scInput builtinOutput, r = Ret (Some scInput, Some builtinOutput, None).
Proof.
  destruct r as [[[[scInput|] [builtinOutput|]] [e|]]| |]; try done. by eexists _, _.
Qed.

Lemma token_builtin_eq : exists scInput builtinOutput,
  token_builtin = (fst token_builtin, Ret (Some scInput, Some builtinOutput, None)).
Proof.
  destruct (builtin_results_Some (snd token_builtin)) as (scInput & builtinOutput & H).
  { vm_compute. reflexivity. }
  exists scInput, builtinOutput. rewrite <- H. apply surjective_pairing.
Qed.

Lemma token_run_eq :
  token_run = (fst token_run, Ret (toy_failure, None, Some (ErrSignalError : error))).
Proof.
  assert (snd token_run = Ret (toy_failure, None, Some (ErrSignalError : error))) as <-
    by (vm_compute; reflexivity).
  apply surjective_pairing.
Qed.

Lemma builtin_output_survives_failure_witness :
  Identifier <$> Logs (@outputOf toy_esdt (fst token_run)) = [bs "ESDTTransfer"].
Proof.
  destruct token_builtin_eq as (scInput & builtinOutput & Hbuiltin).
  assert (@outputOf toy_esdt (fst token_run) =
          @mergeVMOutputs toy_esdt newVMOutput (@outputOf toy_esdt (fst token_builtin))) as ->.
  { apply (@builtin_output_survives_failure toy_esdt toy_wasm 10 toy_token_call toy_tokens
      (fst token_push) (fst token_builtin) (fst token_run) scInput builtinOutput toy_failure None
      ErrSignalError (@toy_wasm_sandboxed toy_esdt) eq_refl eq_refl Hbuiltin token_run_eq). }
  vm_compute. reflexivity.
Defined.
