(* ===== verification/AsyncGas.v ===== *)
(** The gas and the book-keeping of groups of asynchronous calls:
    [setupAsyncCallsGas], [getPendingAsyncCalls], [createCallbackContractCallInput]
    and [processCallbackStack] of [src/vmhost/hostCore/asyncCall.go]. *)
From S2P Require Import Prelude Errors Overflow Helpers Types State Logic Toy Runtime Output.
From S2P Require Import Metering Blockchain Transfers Storage Validator RuntimeExec Builtin.
From S2P Require Import AsyncCall.

#[local] Open Scope Z_scope.

(** ** The calls of a structure, by position *)

Section Positions.
Context `{Ext : Externals}.

Definition call_at (info : AsyncContextInfo) (identifier : bytes) (index : nat) :
    option AsyncGeneratedCall :=
  AsyncContextMap info !! identifier ≫= fun c => AsyncCalls c !! index.

Lemma elem_of_indexed {A} (l : list A) n x : (n, x) ∈ indexed l <-> l !! n = Some x.
Proof.
  unfold indexed. rewrite elem_of_lookup_imap. split.
  - intros (i & y & [= -> ->] & H). done.
  - intros H. by exists n, x.
Qed.

Lemma elem_of_all_calls info identifier index ac :
  (identifier, index, ac) ∈ all_calls info <-> call_at info identifier index = Some ac.
Proof.
  unfold all_calls, call_at. rewrite list_elem_of_In, in_concat. split.
  - intros (l & Hl & Hin). apply in_map_iff in Hl as ([id c] & <- & Hc). cbn in Hin.
    apply in_map_iff in Hin as ([n x] & [= <- <- <-] & Hx).
    apply list_elem_of_In in Hc, Hx. rewrite range_perm in Hc.
    apply elem_of_map_to_list in Hc as ->. cbn. by apply elem_of_indexed.
  - intros (c & Hc & Hx)%bind_Some. eexists. split.
    + apply in_map_iff. exists (identifier, c). split; [done|].
      apply list_elem_of_In. rewrite range_perm. by apply elem_of_map_to_list.
    + apply in_map_iff. exists (index, ac). split; [done|].
      by apply list_elem_of_In, elem_of_indexed.
Qed.

Definition position (c : bytes * nat * AsyncGeneratedCall) : bytes * nat := c.1.

Lemma NoDup_indexed {A} (id : bytes) (l : list A) :
  NoDup (map (fun nc : nat * A => (id, nc.1)) (indexed l)).
Proof.
  unfold indexed. apply list_relations.list.NoDup_alt. intros i j p Hi Hj.
  rewrite !list_lookup_fmap, !list_lookup_imap in *.
  destruct (l !! i); [|done]. destruct (l !! j); [|done]. cbn in *. congruence.
Qed.

Lemma all_calls_positions info : NoDup (position <$> all_calls info).
Proof.
  unfold all_calls.
  assert (forall l : list (bytes * AsyncContext), NoDup l.*1 ->
    NoDup (position <$> concat (map (fun ic : bytes * AsyncContext =>
      map (fun nc => (ic.1, nc.1, nc.2)) (indexed (AsyncCalls ic.2))) l))) as H.
  { induction l as [|[id c] l IH]; cbn [fmap list_fmap fst snd map concat]; [constructor|].
    intros [Hid Hl]%list_relations.list.NoDup_cons. rewrite fmap_app.
    apply list_relations.list.NoDup_app. split; [|split; [|by apply IH]].
    - match goal with |- NoDup (position <$> ?l) => change (position <$> l) with (map position l) end. rewrite map_map. apply (NoDup_indexed id).
    - intros [i n] Hx Hy. apply Hid.
      rewrite list_elem_of_fmap in Hx. destruct Hx as (x & Ex & Hx).
      rewrite list_elem_of_fmap in Hy. destruct Hy as (y & Ey & Hy).
      apply list_elem_of_In, in_map_iff in Hx as (nc & <- & _). injection Ex as -> ->.
      apply list_elem_of_In, in_concat in Hy as (l' & Hl' & Hy).
      apply in_map_iff in Hl' as ([id' c'] & <- & Hic).
      apply in_map_iff in Hy as (nc' & <- & _). injection Ey as -> _.
      apply list_elem_of_fmap. exists (id', c'). split; [done|]. by apply list_elem_of_In. }
  apply H. rewrite range_perm. apply NoDup_fst_map_to_list.
Qed.

Lemma call_at_update identifier index f info identifier' index' :
  call_at (update_call identifier index f info) identifier' index' =
  (if decide ((identifier, index) = (identifier', index'))
   then f <$> call_at info identifier' index' else call_at info identifier' index').
Proof.
  unfold call_at, update_call. cbn. destruct (decide (identifier = identifier')) as [->|Hid].
  - rewrite lookup_alter_eq. destruct (AsyncContextMap info !! identifier') as [c|]; cbn;
      [|by case_decide].
    destruct (decide (index = index')) as [->|Hn].
    + by rewrite decide_True, list_lookup_alter_eq.
    + rewrite decide_False by congruence. by rewrite list_lookup_alter_ne.
  - rewrite lookup_alter_ne by done. by rewrite decide_False by congruence.
Qed.

Lemma update_call_id identifier index info :
  update_call identifier index (fun ac => ac) info = info.
Proof.
  unfold update_call. destruct info as [caller data m]. unfold set_AsyncContextMap. cbn.
  f_equal. apply alter_id. intros c _. destruct c as [callback calls]. unfold set_AsyncCalls. cbn.
  f_equal. apply list_eq. intros i. destruct (decide (i = index)) as [->|].
  - rewrite list_lookup_alter_eq. by destruct (calls !! index).
  - by rewrite list_lookup_alter_ne.
Qed.

(** Updating the calls of a list one after the other. *)
Definition assign (g : AsyncGeneratedCall -> AsyncGeneratedCall -> AsyncGeneratedCall)
    (cs : list (bytes * nat * AsyncGeneratedCall)) (info : AsyncContextInfo) : AsyncContextInfo :=
  fold_left (fun info c => update_call c.1.1 c.1.2 (g c.2) info) cs info.

Lemma assign_other g cs info identifier index :
  (identifier, index) ∉ position <$> cs ->
  call_at (assign g cs info) identifier index = call_at info identifier index.
Proof.
  revert info. induction cs as [|[[i n] ac] cs IH]; intros info; [done|].
  intros [Hne Hnot]%not_elem_of_cons. cbn in Hne.
  change (assign g ((i, n, ac) :: cs) info) with (assign g cs (update_call i n (g ac) info)).
  rewrite IH, call_at_update by done. by rewrite decide_False by congruence.
Qed.

Lemma assign_call g cs info identifier index ac :
  NoDup (position <$> cs) -> (identifier, index, ac) ∈ cs ->
  call_at (assign g cs info) identifier index = g ac <$> call_at info identifier index.
Proof.
  revert info. induction cs as [|c cs IH]; intros info Hnd Hin.
  { by apply not_elem_of_nil in Hin. }
  apply list_relations.list.NoDup_cons in Hnd as [Hnot Hnd].
  apply elem_of_cons in Hin as [<-|Hin].
  - change (assign g ((identifier, index, ac) :: cs) info) with
      (assign g cs (update_call identifier index (g ac) info)).
    rewrite assign_other by done. rewrite call_at_update. by rewrite decide_True.
  - change (assign g (c :: cs) info) with (assign g cs (update_call c.1.1 c.1.2 (g c.2) info)).
    rewrite IH by done. rewrite call_at_update. rewrite decide_False; [done|].
    intros [= H1 H2]. apply Hnot. apply list_elem_of_fmap.
    exists (identifier, index, ac). split; [|done]. unfold position. cbn.
    destruct c as [[] ?]. cbn in *. congruence.
Qed.

(** Over all calls: each call of the result is that of the structure, updated. *)
Lemma assign_all g info info' identifier index :
  (forall i n, call_at info' i n = None <-> call_at info i n = None) ->
  call_at (assign g (all_calls info) info') identifier index =
  (ac ← call_at info identifier index; g ac <$> call_at info' identifier index).
Proof.
  intros Hdom. destruct (call_at info identifier index) as [ac|] eqn:E; cbn.
  - apply assign_call; [apply all_calls_positions|]. by apply elem_of_all_calls.
  - rewrite assign_other; [by apply Hdom|]. intros H.
    apply list_elem_of_fmap in H as ([[i n] ac] & [= -> ->] & H).
    apply elem_of_all_calls in H. congruence.
Qed.

End Positions.

(** ** Sharing the gas *)

Section Gas.
Context `{Ext : Externals}.

Definition needed (cs : list (bytes * nat * AsyncGeneratedCall)) : Z :=
  Zsum (map (fun c => ac_ProvidedGas c.2) cs).

(** The calls that left their gas to the host. *)
Definition is_open (ac : AsyncGeneratedCall) : bool := ac_ProvidedGas ac =? 0.
Definition open_calls (cs : list (bytes * nat * AsyncGeneratedCall)) : Z :=
  Zsum (map (fun c => if is_open c.2 then 1 else 0) cs).

Definition provided_u64 (cs : list (bytes * nat * AsyncGeneratedCall)) : Prop :=
  Forall (fun c => is_u64 (ac_ProvidedGas c.2)) cs.

(** What the first loop does to a call. *)
Definition first_limit (ac0 ac : AsyncGeneratedCall) : AsyncGeneratedCall :=
  if is_open ac0 then ac else set_ac_GasLimit (ac_ProvidedGas ac0) ac.

Lemma needed_nonneg cs : provided_u64 cs -> 0 <= needed cs.
Proof.
  unfold needed. induction 1 as [|c cs Hc _ IH]; cbn; [lia|]. word_lia.
Qed.

Lemma open_calls_bound cs : 0 <= open_calls cs <= len cs.
Proof.
  unfold open_calls, len. induction cs as [|c cs IH]; cbn; [lia|]. destruct (is_open c.2); lia.
Qed.

Lemma open_calls_none cs c : open_calls cs = 0 -> c ∈ cs -> is_open c.2 = false.
Proof.
  induction cs as [|c' cs IH]; intros H0 Hin; [by apply not_elem_of_nil in Hin|].
  change (open_calls (c' :: cs)) with ((if is_open c'.2 then 1 else 0) + open_calls cs) in H0.
  pose proof (open_calls_bound cs). apply elem_of_cons in Hin as [->|Hin].
  - destruct (is_open c'.2); [lia | done].
  - apply IH; [|done]. destruct (is_open c'.2); lia.
Qed.

Lemma sum_gas_eq gasLeft cs :
  is_u64 gasLeft -> provided_u64 cs -> forall gasNeeded zeros info,
  0 <= gasNeeded <= gasLeft -> 0 <= zeros -> zeros + len cs <= MaxUint64 ->
  if gasNeeded + needed cs <=? gasLeft
  then sum_gas gasLeft cs gasNeeded zeros info =
    (assign first_limit cs info, inl (gasNeeded + needed cs, zeros + open_calls cs))
  else exists info' e, sum_gas gasLeft cs gasNeeded zeros info = (info', inr e).
Proof.
  intros Hleft. induction 1 as [|[[id n] ac] cs Hac Hcs IH]; intros gasNeeded zeros info Hn Hz Hlen.
  { unfold needed, open_calls. cbn. rewrite !Z.add_0_r.
    by destruct (Z.leb_spec gasNeeded gasLeft); [|lia]. }
  pose proof (needed_nonneg cs Hcs) as Hnn. cbn in Hac.
  assert (needed ((id, n, ac) :: cs) = ac_ProvidedGas ac + needed cs) as -> by done.
  assert (open_calls ((id, n, ac) :: cs) = (if is_open ac then 1 else 0) + open_calls cs) as -> by done.
  unfold len in *. cbn [length] in Hlen. rewrite Nat2Z.inj_succ in Hlen. cbn [sum_gas].
  rewrite AddUint64WithErr_eq by word_lia.
  change (assign first_limit ((id, n, ac) :: cs) info) with
    (assign first_limit cs (update_call id n (first_limit ac) info)).
  unfold first_limit at 2, is_open. set (p := ac_ProvidedGas ac) in *.
  destruct (Z.leb_spec (gasNeeded + p) gasLeft) as [Hle|Hgt].
  - rewrite (proj2 (Z.ltb_lt (gasNeeded + p) (2 ^ 64))) by word_lia.
    rewrite (proj2 (Z.ltb_ge gasLeft (gasNeeded + p))) by lia. rewrite Z.add_assoc.
    destruct (Z.eqb_spec p 0) as [Hp|Hp].
    + rewrite update_call_id, u64_id by word_lia. rewrite Z.add_assoc. apply IH; lia.
    + rewrite Z.add_0_l. apply IH; word_lia.
  - rewrite (proj2 (Z.leb_gt _ _)) by lia.
    destruct (gasNeeded + p <? 2 ^ 64); [|by eexists _, _].
    rewrite (proj2 (Z.ltb_lt gasLeft (gasNeeded + p))) by lia. by eexists _, _.
Qed.

(** *** The result *)

Definition limits (info : AsyncContextInfo) : Z :=
  Zsum (map (fun c => ac_GasLimit c.2) (all_calls info)).

(** The gas a call gets: what it asked for, or a share of what remains. *)
Definition give (share : Z) (ac : AsyncGeneratedCall) : AsyncGeneratedCall :=
  set_ac_GasLimit (if is_open ac then share else ac_ProvidedGas ac) ac.

Definition second_limit (share : Z) (ac0 ac : AsyncGeneratedCall) : AsyncGeneratedCall :=
  if is_open ac0 then set_ac_GasLimit share ac else ac.

Lemma share_gas_assign share cs info : share_gas share cs info = assign (second_limit share) cs info.
Proof.
  unfold share_gas, assign, second_limit. revert info.
  induction cs as [|[[id n] ac] cs IH]; intros info; cbn; [done|]. unfold is_open at 2.
  destruct (ac_ProvidedGas ac =? 0); [apply IH|]. rewrite update_call_id. apply IH.
Qed.

Lemma call_at_first info identifier index :
  call_at (assign first_limit (all_calls info) info) identifier index =
  (fun ac => first_limit ac ac) <$> call_at info identifier index.
Proof. rewrite assign_all by done. by destruct (call_at info identifier index). Qed.

(** The two loops together. *)
Lemma call_at_shared share info identifier index :
  call_at (share_gas share (all_calls info) (assign first_limit (all_calls info) info))
    identifier index = give share <$> call_at info identifier index.
Proof.
  rewrite share_gas_assign, assign_all.
  - rewrite call_at_first. destruct (call_at info identifier index) as [ac|]; [|done]. cbn.
    unfold first_limit, second_limit, give. by destruct (is_open ac).
  - intros i n. rewrite call_at_first. by destruct (call_at info i n).
Qed.

(** A structure whose calls are those of another, each changed by [f]. *)
Lemma all_calls_mapped f info info' :
  (forall i n, call_at info' i n = f <$> call_at info i n) ->
  all_calls info' ≡ₚ map (fun c => (c.1, f c.2)) (all_calls info).
Proof.
  intros Hf. apply NoDup_Permutation.
  - eapply list_monad.list.NoDup_fmap_1, all_calls_positions.
  - apply (list_monad.list.NoDup_fmap_1 position).
    replace (position <$> map (fun c => (c.1, f c.2)) (all_calls info))
      with (position <$> all_calls info); [apply all_calls_positions|].
    induction (all_calls info) as [|c cs IH]; [done|]. cbn. by rewrite IH.
  - intros [[i n] ac]. rewrite elem_of_all_calls, Hf, list_elem_of_In, in_map_iff. split.
    + intros H. apply fmap_Some in H as (ac0 & H & ->). exists (i, n, ac0).
      split; [done|]. by apply list_elem_of_In, elem_of_all_calls.
    + intros ([[i' n'] ac0] & [= -> -> <-] & H). apply list_elem_of_In, elem_of_all_calls in H.
      by rewrite H.
Qed.

Lemma limits_shared share info info' :
  (forall i n, call_at info' i n = give share <$> call_at info i n) ->
  limits info' = needed (all_calls info) + open_calls (all_calls info) * share.
Proof.
  intros H. unfold limits. rewrite (Zsum_perm _ _ (Permutation_map _ (all_calls_mapped _ _ _ H))).
  unfold needed, open_calls. induction (all_calls info) as [|[[i n] ac] cs IH]; [done|].
  cbn in *. rewrite IH. unfold is_open. destruct (Z.eqb_spec (ac_ProvidedGas ac) 0); lia.
Qed.
(** C16: [setupAsyncCallsGas] gives every call of a group its gas within the gas
    left: it succeeds exactly when what the calls ask for fits and, if some call
    asks for nothing, leaves something to share; then each call has what it asked
    for or an equal share of the rest, in whatever order Go visits the map, and
    all the limits together stay within the gas left. *)
Theorem setupAsyncCallsGas_shares gasLeft info :
  is_u64 gasLeft -> provided_u64 (all_calls info) -> len (all_calls info) <= MaxUint64 ->
  let '(info', err) := setup_gas gasLeft info in
  let rest := gasLeft - needed (all_calls info) in
  (err = None <-> 0 <= rest /\ (0 < open_calls (all_calls info) -> 0 < rest)) /\
  (err = None ->
   (forall identifier index,
      call_at info' identifier index =
        give (rest / open_calls (all_calls info)) <$> call_at info identifier index) /\
   limits info' <= gasLeft).
Proof.
  intros Hleft Hp Hlen. unfold setup_gas. set (cs := all_calls info) in *.
  pose proof (sum_gas_eq gasLeft cs Hleft Hp 0 0 info ltac:(word_lia) ltac:(lia) ltac:(lia)) as H.
  pose proof (open_calls_bound cs) as Hz. pose proof (needed_nonneg cs Hp) as Hn.
  rewrite !Z.add_0_l in H. destruct (Z.leb_spec (needed cs) gasLeft) as [Hle|Hgt].
  - rewrite H. destruct (Z.eqb_spec (open_calls cs) 0) as [H0|H0].
    + assert (forall i n, call_at (assign first_limit cs info) i n =
        give ((gasLeft - needed cs) / open_calls cs) <$> call_at info i n) as Hcalls.
      { intros i n. subst cs. rewrite call_at_first. destruct (call_at info i n) as [ac|] eqn:E; [|done].
        cbn. f_equal. unfold first_limit, give.
        pose proof (open_calls_none (all_calls info) (i, n, ac) H0) as Ho. cbn in Ho.
        by rewrite Ho by by apply elem_of_all_calls. }
      split; [split; [|done]; intros _; lia|]. intros _. split; [exact Hcalls|].
      rewrite (limits_shared _ _ _ Hcalls). fold cs. lia.
    + destruct (Z.leb_spec gasLeft (needed cs)).
      { split; [split; [done|lia]|done]. }
      assert (forall i n, call_at (share_gas ((gasLeft - needed cs) / open_calls cs) cs
          (assign first_limit cs info)) i n =
        give ((gasLeft - needed cs) / open_calls cs) <$> call_at info i n) as Hcalls.
      { intros i n. apply call_at_shared. }
      split; [split; [lia|done]|]. intros _. split; [exact Hcalls|].
      rewrite (limits_shared _ _ _ Hcalls). fold cs.
      pose proof (Z.mul_div_le (gasLeft - needed cs) (open_calls cs)). lia.
  - destruct H as (info' & e & ->). split; [split; [done|lia]|done].
Qed.

End Gas.

(** ** Pending calls and callbacks *)

Section Callbacks.
Context `{Ext : Externals}.

Definition calls_of (info : AsyncContextInfo) (identifier : bytes) : list AsyncGeneratedCall :=
  from_option AsyncCalls [] (AsyncContextMap info !! identifier).

Lemma filter_nil {A} (f : A -> bool) l :
  List.filter f l = [] <-> forall n x, l !! n = Some x -> f x = false.
Proof.
  induction l as [|a l IH]; cbn; [split; [done|]; by intros|]. split.
  - destruct (f a) eqn:E; [done|]. intros H [|n] x Hx; cbn in Hx; [by injection Hx as <-|].
    by apply (proj1 IH H n).
  - intros H. rewrite (H 0%nat a eq_refl). apply IH. intros n x Hx. by apply (H (S n)).
Qed.

(** [getPendingAsyncCalls] keeps the pending calls and nothing else: of every
    context it keeps the calls with the status pending, in their order, and a
    group counts as done exactly when none of its calls is pending. *)
Theorem getPendingAsyncCalls_exact info :
  let pending := getPendingAsyncCalls info in
  (forall identifier,
     calls_of pending identifier = List.filter is_pending (calls_of info identifier)) /\
  (AsyncContextMap pending = ∅ <->
   forall identifier index ac, call_at info identifier index = Some ac ->
     ac_Status ac <> AsyncCallPending) /\
  aci_CallerAddr pending = aci_CallerAddr info /\ aci_ReturnData pending = aci_ReturnData info.
Proof.
  cbv zeta. split; [|split; [|done]].
  - intros i. unfold calls_of, getPendingAsyncCalls. cbn. rewrite lookup_omap.
    destruct (AsyncContextMap info !! i) as [c|]; cbn; [|done].
    by destruct (List.filter is_pending (AsyncCalls c)).
  - split.
    + intros Hempty i n ac (c & Hc & Hn)%bind_Some Hp.
      assert (AsyncContextMap (getPendingAsyncCalls info) !! i = None) as H
        by by rewrite Hempty.
      cbn in H. rewrite lookup_omap, Hc in H. cbn in H.
      destruct (List.filter is_pending (AsyncCalls c)) eqn:E; [|done].
      rewrite filter_nil in E. specialize (E n ac Hn). unfold is_pending in E.
      by apply bool_decide_eq_false in E.
    + intros H. apply map_eq. intros i. cbn. rewrite lookup_omap, lookup_empty.
      destruct (AsyncContextMap info !! i) as [c|] eqn:E; cbn; [|done].
      destruct (List.filter is_pending (AsyncCalls c)) eqn:Ef; [done|].
      assert (List.filter is_pending (AsyncCalls c) = []) as H'; [|by rewrite H' in Ef].
      apply filter_nil. intros n ac Hn. apply bool_decide_eq_false. apply (H i n).
      unfold call_at. by rewrite E.
Qed.

(** The gas the callback costs before it starts. *)
Definition callback_input_cost (st : HostState) (function : bytes) (arguments : list bytes) : Z :=
  AddUint64 (BaseOpsAPICost.AsyncCallStep (gc_BaseOpsAPICost (gasSchedule (st_metering st))))
    (MulUint64 (BaseOperationCost.DataCopyPerByte
                  (gc_BaseOperationCost (gasSchedule (st_metering st))))
       (u64 (computeDataLengthFromArguments function arguments))).

Lemma esdt_callback_arguments_total f args callback out :
  core_BuiltInFunctionESDTTransfer <> core_BuiltInFunctionESDTNFTTransfer ->
  isESDTTransferOnReturnDataFromFunctionAndArgs f args = true ->
  is_Some (esdt_callback_arguments f args callback out).
Proof.
  intros Hnames. unfold isESDTTransferOnReturnDataFromFunctionAndArgs, esdt_callback_arguments, len.
  intros [H|H]%orb_true_iff; apply andb_true_iff in H as [Hf Hl]; apply Z.eqb_eq in Hl.
  - apply bytes_eqb_eq in Hf as ->. rewrite (bytes_eqb_ne _ _ Hnames).
    destruct args as [|a [|b []]]; cbn in *; try lia. by eexists.
  - rewrite Hf. destruct args as [|a [|b [|c [|d []]]]]; cbn in *; try lia. by eexists.
Qed.

Lemma isESDTTransferOnReturnData_Some out f args :
  isESDTTransferOnReturnDataWithNoAdditionalData out = Some (f, args) ->
  isESDTTransferOnReturnDataFromFunctionAndArgs f args = true.
Proof.
  unfold isESDTTransferOnReturnDataWithNoAdditionalData.
  destruct (ReturnData out) as [|d l]; [done|]. destruct (ParseData d) as [[f' args'] [e|]]; [done|].
  destruct (isESDTTransferOnReturnDataFromFunctionAndArgs f' args') eqn:E; [|done].
  by intros [= <- <-].
Qed.

Lemma computeCallValue_run out st :
  exists v, computeCallValueFromLastOutputTransfer out st = (st, Ret v).
Proof.
  unfold computeCallValueFromLastOutputTransfer. destruct IsVMV3Enabled; cbn [negb]; [|by eexists].
  destruct (0 <? len (ReturnData out)); [by eexists|]. rewrite (bind_run _ _ st st _ eq_refl).
  by eexists.
Qed.

(** The input of a callback: it runs on the current contract with what is
    left of the destination's gas and the gas locked for it, less the cost of
    the step and of copying the arguments; without more than that cost it is not
    created.  It tells the callback the return code, and the data or the error
    message; a token transfer in the return data takes the place of the
    function. *)
Theorem createCallbackContractCallInput_exact st call out initiator callback derr :
  core_BuiltInFunctionESDTTransfer <> core_BuiltInFunctionESDTNFTTransfer ->
  let succeeded := bool_decide (derr = None) && bool_decide (out_ReturnCode out = Ok) in
  let arguments := return_code_bytes (out_ReturnCode out) ::
    (if succeeded then ReturnData out else [ReturnMessage out]) in
  let gas := u64 (GasRemaining out + aci_GasLocked call) in
  let cost := callback_input_cost st callback arguments in
  if gas <=? cost
  then createCallbackContractCallInput (Some call) out initiator callback derr st =
    (st, Ret (None, Some (ErrNotEnoughGas : error)))
  else exists input,
    createCallbackContractCallInput (Some call) out initiator callback derr st =
      (st, Ret (Some input, None)) /\
    GasProvided (call_VMInput input) + cost = gas /\
    CallerAddr (call_VMInput input) = initiator /\
    RecipientAddr input = scAddress (rt st) /\
    VMInput_CallType (call_VMInput input) = AsynchronousCallBack /\
    ReturnCallAfterError (call_VMInput input) = negb succeeded /\
    match (if succeeded then isESDTTransferOnReturnDataWithNoAdditionalData out else None) with
    | None => Function_ input = callback /\ Arguments (call_VMInput input) = arguments
    | Some (function, esdtArgs) =>
        Function_ input = function /\
        esdt_callback_arguments function esdtArgs callback out =
          Some (Arguments (call_VMInput input))
    end.
Proof.
  intros Hnames. cbv zeta. unfold createCallbackContractCallInput, callback_input_cost.
  set (succeeded := bool_decide (derr = None) && bool_decide (out_ReturnCode out = Ok)).
  rewrite (bind_run _ _ st st _ eq_refl). cbv zeta. fold succeeded.
  rewrite (bind_run _ _ st st call eq_refl).
  set (cost := AddUint64 _ _). set (gas := u64 _).
  destruct (gas <=? cost) eqn:Hle; [done|].
  destruct (computeCallValue_run out st) as [v Hv]. rewrite (bind_run _ _ _ _ _ Hv).
  do 2 rewrite (bind_run _ _ st st _ eq_refl).
  destruct (if succeeded then isESDTTransferOnReturnDataWithNoAdditionalData out else None)
    as [[f args]|] eqn:Hesdt.
  - destruct (esdt_callback_arguments_total f args callback out Hnames) as [args' Hargs].
    { destruct succeeded; [|done]. by apply isESDTTransferOnReturnData_Some in Hesdt. }
    rewrite Hargs. rewrite (bind_run _ _ st st args' eq_refl). eexists. split; [reflexivity|].
    cbn. split_and!; try done. lia.
  - eexists. split; [reflexivity|]. cbn. split_and!; try done. lia.
Qed.

(** The data [processCallbackStack] finds. *)
Lemma find_call_None_pending caller contexts identifier c n :
  find_call caller contexts = Some (identifier, c, n) ->
  (identifier, c) ∈ contexts /\ exists ac, AsyncCalls c !! n = Some ac /\ ac_Destination ac = caller.
Proof.
  induction contexts as [|[i c'] contexts IH]; cbn; [done|].
  destruct (list_find (fun ac => caller = ac_Destination ac) (AsyncCalls c')) as [[p ac]|] eqn:E.
  - destruct (0 <? len i).
    + intros [= <- <- <-]. split; [by left|]. apply list_find_Some in E as (Hp & -> & _).
      by exists ac.
    + intros H. destruct (IH H) as [Hin Hex]. split; [by right | exact Hex].
  - intros H. destruct (IH H) as [Hin Hex]. split; [by right | exact Hex].
Qed.

(** A callback from another shard for a context that has more than one call is
    dropped: [processCallbackStack] only reads the stored structure and returns
    without an error, so the answered call stays stored and the group never
    completes. *)
Theorem processCallbackStack_keeps_answered_call api st st1 buff info identifier c n :
  load_async_data st = (st1, Ret buff) -> 0 < len buff ->
  json_Unmarshal buff = (Some info, None) ->
  find_call (CallerAddr (vmInput (rt st1))) (range (AsyncContextMap info)) =
    Some (identifier, c, n) ->
  1 < len (AsyncCalls c) ->
  processCallbackStack api st = (st1, Ret None).
Proof.
  intros Hload Hlen Hjson Hfind Hcalls. unfold processCallbackStack.
  rewrite (bind_run _ _ _ _ _ Hload). rewrite (proj2 (Z.eqb_neq _ _)) by lia.
  rewrite Hjson. rewrite (bind_run _ _ st1 st1 info eq_refl).
  rewrite (bind_run _ _ st1 st1 _ eq_refl). rewrite Hfind.
  rewrite (proj2 (Z.leb_gt _ _)) by lia.
  rewrite bool_decide_eq_false_2; [done|]. intros Hempty.
  apply find_call_None_pending in Hfind as [Hin _]. rewrite range_perm, Hempty in Hin.
  rewrite map_to_list_empty in Hin. by apply not_elem_of_nil in Hin.
Qed.

(** The key the asynchronous data of a transaction is stored under: the prefix
    comes last, so protection looks at the hash. *)
Lemma HasPrefix_app_long (s t p : bytes) :
  len p <= len s -> HasPrefix (s ++ t) p = HasPrefix s p.
Proof.
  revert s. induction p as [|c p IH]; intros s Hl; [done|].
  destruct s as [|d s]; unfold len in *; cbn in *; [lia|]. rewrite IH; [done|]. lia.
Qed.

(** The asynchronous calls that the host saves under a protected key are not
    protected: a contract may overwrite them with [SetStorage], unless the hash
    of the transaction happens to begin with the prefix. *)
Theorem async_data_not_protected st hash value :
  let key := CustomStorageKey AsyncDataPrefix hash in
  ready st -> readOnly (rt st) = false ->
  HasPrefix key (protectedKeyPrefix (st_storage st)) = false ->
  len ProtectedStoragePrefix <= len hash -> HasPrefix hash ProtectedStoragePrefix = false ->
  exists st' status, Storage.SetStorage key value st = (st', Ret (status, None)) /\
    storage_value st' (sto_address (st_storage st)) key = value.
Proof.
  intros key Hr Hro Hprotocol Hlen Hhash.
  destruct (SetStorage_run st key value Hr) as (st' & H & _ & Hv).
  { unfold write_refused. rewrite Hro, Hprotocol. unfold Storage.isVMProtectedKey, key, CustomStorageKey.
    by rewrite HasPrefix_app_long, Hhash. }
  eexists st', _. split; [exact H|]. rewrite Hv. by rewrite decide_True.
Qed.

End Callbacks.

(** ** Witnesses *)

Definition toy_group : AsyncContextInfo :=
  let call gas := mkAsyncGeneratedCall AsyncCallPending (bs "sc2") (bs "main") 0 [] (bs "yes")
                    (bs "no") gas in
  mkAsyncContextInfo (bs "sc1") []
    {[ bs "a" := mkAsyncContext [] [call 10; call 0]; bs "b" := mkAsyncContext [] [call 0; call 20] ]}.

Lemma setupAsyncCallsGas_shares_witness :
  exists info', @setup_gas toy 50 toy_group = (info', None) /\ @limits toy info' <= 50.
Proof.
  pose proof (@setupAsyncCallsGas_shares toy 50 toy_group ltac:(word_compute)
    ltac:(repeat constructor; vm_compute; done) ltac:(word_compute)) as H.
  destruct (@setup_gas toy 50 toy_group) as [info' err]. destruct H as [Herr Hok].
  assert (err = None) as -> by (apply Herr; vm_compute; split; [discriminate | done]).
  exists info'. split; [done|]. by apply Hok.
Defined.

Lemma createCallbackContractCallInput_exact_witness :
  exists input, @createCallbackContractCallInput toy
      (Some (mkAsyncCallInfo (bs "sc2") [] 0 5 [])) (toy_vmOutput 100) (bs "sc2")
      CallbackFunctionName None toy_start = (toy_start, Ret (Some input, None)) /\
    RecipientAddr input = bs "sc1".
Proof.
  pose proof (@createCallbackContractCallInput_exact toy toy_start
    (mkAsyncCallInfo (bs "sc2") [] 0 5 []) (toy_vmOutput 100) (bs "sc2") CallbackFunctionName None
    ltac:(vm_compute; discriminate)) as H.
  cbv zeta in H. destruct (_ <=? _) eqn:E; [vm_compute in E; discriminate|].
  destruct H as (input & H1 & _ & _ & H2 & _). exists input. by split.
Defined.

Definition toy_hash : bytes := bs "0123456789".

Lemma async_data_not_protected_witness :
  exists st' status, @Storage.SetStorage toy (CustomStorageKey AsyncDataPrefix toy_hash) (bs "v")
    toy_start = (st', Ret (status, None)).
Proof.
  destruct (@async_data_not_protected toy toy_start toy_hash (bs "v") toy_start_ready eq_refl)
    as (st' & status & H & _); [reflexivity | vm_compute; discriminate | reflexivity |].
  exists st', status. exact H.
Defined.

(** A host whose stored structure is [toy_group], at the callback of [sc2]. *)
Definition toy_json : Externals := toy_with toy_builtin (fun _ => (Some toy_group, None)).

Definition toy_callback_state : @HostState toy_json :=
  let world : toyWorld :=
    [ {[ bs "sc1" := mktoyAccount (mkUserAccount 0 0 [] [] [] [] [] 0 []) []
                       {[ CustomStorageKey AsyncDataPrefix [] := bs "stored" ]} ]} ] in
  let st := toy_state world 50 in
  let runtime := set_rt_state (set_vmInput (set_CallerAddr (bs "sc2") zeroVMInput)
                   (@rt toy st)) (@st_runtime toy st) in
  @mkHostState toy_json (@st_bigInt toy st) (@st_blockchain toy st) (@st_metering toy st)
    (@st_output toy st) runtime (@st_storage toy st) (@st_instances toy st)
    (@st_asyncInfos toy st) (@st_next toy st) world.

Definition toy_api : @HostAPI toy_json :=
  @mkHostAPI toy_json (fun _ => panic) (fun _ => panic) (fun _ => panic).

Abbreviation toy_load := (@load_async_data toy_json toy_callback_state).

Lemma processCallbackStack_keeps_answered_call_witness :
  @processCallbackStack toy_json toy_api toy_callback_state = (fst toy_load, Ret None).
Proof.
  assert (toy_load = (fst toy_load, Ret (bs "stored"))) as Hload.
  { assert (snd toy_load = Ret (bs "stored")) as <- by (vm_compute; reflexivity).
    apply surjective_pairing. }
  destruct (find_call (bs "sc2") (@range toy_json _ (AsyncContextMap toy_group)))
    as [[[i c] n]|] eqn:E; [|vm_compute in E; discriminate].
  apply (@processCallbackStack_keeps_answered_call toy_json toy_api toy_callback_state
    (fst toy_load) (bs "stored") toy_group i c n Hload); [word_compute | reflexivity | |].
  - rewrite <- E. vm_compute. reflexivity.
  - vm_compute in E. injection E as <- <- <-. word_compute.
Defined.
