(* ===== verification/WorldAccess.v ===== *)
(** What the host changes of the world behind its hook.  [vmcommon.BlockchainHook]
    has three methods that change what a node keeps: the host saves compiled code,
    runs built-in functions and reverts to snapshots.  Every transaction is a
    sequence of these three, whatever the contracts do: balances, nonces and
    storage are only ever changed by the node, from the output it is given. *)
From S2P Require Import Prelude Errors Overflow Helpers Types State Logic Toy BigInt Runtime.
From S2P Require Import Output Metering Blockchain Transfers Storage Validator RuntimeExec.
From S2P Require Import Builtin AsyncCall Execution Host Hooks Nesting Guarantees.

#[local] Open Scope Z_scope.

Section Steps.
Context `{Ext : Externals}.

(** One call of the hook that changes the world. *)
Inductive world_step : relation World :=
| step_SaveCompiledCode w codeHash code : world_step w (bh_SaveCompiledCode w codeHash code)
| step_ProcessBuiltInFunction w input :
    world_step w (fst (bh_ProcessBuiltInFunction w input))
| step_RevertToSnapshot w snapshot : world_step w (fst (bh_RevertToSnapshot w snapshot)).

Definition world_steps (st st' : HostState) : Prop := rtc world_step (st_world st) (st_world st').

#[export] Instance world_steps_preorder : PreOrder world_steps.
Proof. split; [intros st; apply rtc_refl | intros a b c; apply (transitivity (R := rtc world_step))]. Qed.

(** A computation that changes the world by steps alone, however it ends. *)
Class Steps {A} (m : M A) : Prop :=
  steps st : match m st with (_, OutOfFuel) => True | (st', _) => world_steps st st' end.

Lemma same_steps {A} (m : M A) : Keeps (same st_world) m -> Steps m.
Proof.
  intros Hm st. specialize (Hm st). unfold world_steps. unfold same in Hm.
  destruct (m st) as [st' []]; cbn in Hm; [by rewrite Hm.. | done].
Qed.

Lemma steps_bind {A B} (m : M A) (f : A -> M B) :
  Steps m -> (forall a, Steps (f a)) -> Steps (m ≫= f).
Proof.
  intros Hm Hf st. cbv [mbind M_bind]. specialize (Hm st).
  destruct (m st) as [st' [a| |]]; [|exact Hm | done]. specialize (Hf a st').
  destruct (f a st') as [st'' []]; [by etransitivity.. | done].
Qed.

Lemma steps_with_defer {A B} (body : M A) (d : option A -> M B) :
  Steps body -> (forall a, Steps (d a)) -> Steps (with_defer body d).
Proof.
  intros Hb Hd st. unfold with_defer. specialize (Hb st).
  destruct (body st) as [st' [a| |]]; [| |done].
  - specialize (Hd (Some a) st'). destruct (d (Some a) st') as [st'' []]; [by etransitivity.. | done].
  - specialize (Hd None st'). destruct (d None st') as [st'' []]; [by etransitivity.. | done].
Qed.

Lemma steps_for_each {A} (l : list A) (f : A -> M unit) :
  (forall a, Steps (f a)) -> Steps (for_each l f).
Proof. intros Hf. induction l; cbn; [by apply same_steps | by apply steps_bind]. Qed.

Lemma steps_for_each_err {A} (l : list A) (f : A -> M (option error)) :
  (forall a, Steps (f a)) -> Steps (for_each_err l f).
Proof.
  intros Hf. induction l as [|a l IH]; cbn; [by apply same_steps|].
  apply steps_bind; [done|]. intros [e|]; [by apply same_steps | exact IH].
Qed.

Lemma steps_TryCatch {A} recovered (m : M A) : Steps m -> Steps (TryCatch recovered m).
Proof. intros Hm st. unfold TryCatch. specialize (Hm st). by destruct (m st) as [st' []]. Qed.

Lemma SaveCompiledCode_steps codeHash code : Steps (Blockchain.SaveCompiledCode codeHash code).
Proof. intros st. apply rtc_once. apply step_SaveCompiledCode. Qed.

Lemma ProcessBuiltInFunction_steps input : Steps (Blockchain.ProcessBuiltInFunction input).
Proof.
  intros st. unfold Blockchain.ProcessBuiltInFunction, world_steps.
  pose proof (step_ProcessBuiltInFunction (st_world st) input) as H.
  destruct (bh_ProcessBuiltInFunction (st_world st) input) as [w r]. by apply rtc_once.
Qed.

Lemma RevertToSnapshot_steps snapshot : Steps (Blockchain.RevertToSnapshot snapshot).
Proof. intros st. apply rtc_once. apply step_RevertToSnapshot. Qed.

#[export] Instance get_account_world a : Keeps (same st_world) (get_account a).
Proof. by apply get_account_keeps. Qed.

#[export] Instance new_asyncContextInfo_world info :
  Keeps (same st_world) (Runtime.new_asyncContextInfo info).
Proof. done. Qed.

#[export] Instance bigInt_GetOne_world h : Keeps (same st_world) (bigInt_GetOne h).
Proof. intros st. unfold bigInt_GetOne. by destruct (BigInt.GetOne h (st_bigInt st)). Qed.

#[export] Instance bigInt_Put_world v : Keeps (same st_world) (bigInt_Put v).
Proof. intros st. unfold bigInt_Put. by destruct (BigInt.Put v (st_bigInt st)) as [[]|]. Qed.

#[export] Instance add_to_active_state_world o : Keeps (same st_world) (add_to_active_state o).
Proof. intros st. unfold add_to_active_state. by repeat case_match. Qed.

#[export] Instance new_instance_world i : Keeps (same st_world) (RuntimeExec.new_instance i).
Proof. done. Qed.

#[export] Instance MemLoadMultiple_world offset lengths :
  Keeps (same st_world) (Runtime.MemLoadMultiple offset lengths).
Proof.
  unfold Runtime.MemLoadMultiple. generalize (@nil bytes).
  revert offset. induction lengths; intros offset results; cbn; [apply _ | keeps_deep; apply IHlengths].
Qed.

End Steps.

Create HintDb steps discriminated.
#[export] Hint Resolve SaveCompiledCode_steps ProcessBuiltInFunction_steps RevertToSnapshot_steps : steps.

(** Derives [Steps m] from the text of [m]. *)
Ltac steps_step :=
  first
    [ solve [eauto 1 with steps nocore]
    | lazymatch goal with
      | |- Steps (mbind _ _) => apply steps_bind; [|intros ?]
      | |- Steps (with_defer _ _) => apply steps_with_defer; [|intros ?]
      | |- Steps (for_each _ _) => apply steps_for_each; intros ?
      | |- Steps (for_each_err _ _) => apply steps_for_each_err; intros ?
      | |- Steps (TryCatch _ _) => apply steps_TryCatch
      | |- Steps (match ?x with _ => _ end) => destruct x
      | |- Steps (let _ := _ in _) => cbv zeta
      end
    | apply same_steps; solve [keeps_deep]
    | lazymatch goal with |- Steps ?m => let h := head_of m in unfold h end ].
Ltac steps_auto := repeat steps_step.

(** ** The operations of the host *)

Section Access.
Context `{Ext : Externals}.

Lemma hook_op_steps {A} (m : M A) : hook_op m -> Steps m.
Proof. destruct 1; steps_auto. Qed.

(** The executions that the code of a contract and the host are given. *)
Record api_steps (api : HostAPI) : Prop := {
  dest_steps i : Steps (api_ExecuteOnDestContext api i);
  same_context_steps i : Steps (api_ExecuteOnSameContext api i);
  create_steps i : Steps (api_CreateNewContract api i);
}.

Context (wasm : HostAPI -> bytes -> M (option error)).
Context (Hsandboxed : sandboxed wasm).

Lemma steps_ends_in {A} (m : M A) w :
  Steps m -> ends_in True (fun st => rtc world_step w (st_world st))
    (fun st => rtc world_step w (st_world st)) m (fun _ st => rtc world_step w (st_world st)).
Proof.
  intros Hm st Hw. specialize (Hm st). destruct (m st) as [st' []]; [by etransitivity.. | done].
Qed.

Lemma wasm_steps api f : api_steps api -> Steps (wasm api f).
Proof.
  intros Hapi st. set (P st' := rtc world_step (st_world st) (st_world st')).
  assert (H : ends_in True P P (wasm api f) (fun _ => P)).
  { apply Hsandboxed; [done | |].
    - intros A m Hm. by apply steps_ends_in, hook_op_steps.
    - split; intros i; apply steps_ends_in; apply Hapi. }
  specialize (H st (rtc_refl _ _)). by destruct (wasm api f st) as [st' []].
Qed.

Section Level.
Context (api : HostAPI) (Hapi : api_steps api).

#[local] Hint Extern 0 (Steps (wasm _ _)) => (exact (wasm_steps _ _ Hapi)) : steps.
#[local] Hint Extern 0 (Steps (api_ExecuteOnDestContext _ _)) => (apply (dest_steps _ Hapi)) : steps.
#[local] Hint Extern 0 (Steps (api_ExecuteOnSameContext _ _)) => (apply (same_context_steps _ Hapi)) : steps.
#[local] Hint Extern 0 (Steps (api_CreateNewContract _ _)) => (apply (create_steps _ Hapi)) : steps.

Lemma handleBreakpointIfAny_steps e : Steps (handleBreakpointIfAny api e).
Proof. steps_auto. Qed.

Lemma processAsyncInfo_steps loc : Steps (processAsyncInfo api loc).
Proof. steps_auto. Qed.

#[local] Hint Resolve handleBreakpointIfAny_steps processAsyncInfo_steps : steps.

Lemma processCallbackStack_steps : Steps (processCallbackStack api).
Proof. steps_auto. Qed.

Lemma performCodeDeployment_steps input : Steps (performCodeDeployment wasm api input).
Proof. steps_auto. Qed.

#[local] Hint Resolve processCallbackStack_steps performCodeDeployment_steps : steps.

Lemma execute_steps input : Steps (execute wasm api input).
Proof. steps_auto. Qed.

#[local] Hint Resolve execute_steps : steps.

Lemma handleBuiltinFunctionCall_steps input : Steps (handleBuiltinFunctionCall input).
Proof. unfold handleBuiltinFunctionCall, callBuiltinFunction. steps_auto. Qed.

Lemma PopSetActiveState_steps : Steps Blockchain.PopSetActiveState.
Proof. unfold Blockchain.PopSetActiveState. steps_auto. Qed.

#[local] Hint Resolve handleBuiltinFunctionCall_steps PopSetActiveState_steps : steps.

Lemma executeOnDestContextNoBuiltinFunction_steps input :
  Steps (executeOnDestContextNoBuiltinFunction wasm api input).
Proof.
  apply steps_bind; [apply same_steps; unfold enterDestContext; keeps_deep|]. intros ?.
  apply steps_with_defer.
  - unfold runOnDestContext. steps_auto.
  - intros r. destruct (default (None, None) r) as [info err].
    apply steps_bind; [apply same_steps; unfold finishExecuteOnDestContext; keeps_deep|].
    intros ?. by apply same_steps.
Qed.

#[local] Hint Resolve executeOnDestContextNoBuiltinFunction_steps : steps.

Lemma ExecuteOnDestContext_steps input : Steps (ExecuteOnDestContext wasm api input).
Proof. steps_auto. Qed.

Lemma ExecuteOnSameContext_steps input : Steps (ExecuteOnSameContext wasm api input).
Proof. steps_auto. Qed.

Lemma CreateNewContract_steps executeOnDest input :
  (forall i, Steps (executeOnDest i)) -> Steps (CreateNewContract executeOnDest input).
Proof. intros Hdest. unfold CreateNewContract. steps_auto. Qed.

Lemma deployment_output_steps input : Steps (deployment_output wasm api input).
Proof. unfold deployment_output. steps_auto. Qed.

#[local] Hint Resolve deployment_output_steps : steps.

Lemma runSmartContractCall_steps input : Steps (runSmartContractCall wasm api input).
Proof. unfold runSmartContractCall. steps_auto. Qed.

#[local] Hint Resolve runSmartContractCall_steps : steps.

Lemma RunSmartContractCreate_steps recovered input :
  Steps (RunSmartContractCreate wasm recovered api input).
Proof.
  unfold RunSmartContractCreate, doRunSmartContractCreate, with_clean. steps_auto.
Qed.

Lemma RunSmartContractCall_steps recovered input :
  Steps (RunSmartContractCall wasm recovered api input).
Proof.
  unfold RunSmartContractCall, doRunSmartContractCall, doRunSmartContractUpgrade, with_clean.
  steps_auto.
Qed.

End Level.

Lemma host_api_steps fuel : api_steps (host_api wasm fuel).
Proof.
  induction fuel as [|fuel IH]; [by split|]. split; intros i; cbn [host_api
    api_ExecuteOnDestContext api_ExecuteOnSameContext api_CreateNewContract].
  - by apply ExecuteOnDestContext_steps.
  - by apply ExecuteOnSameContext_steps.
  - apply CreateNewContract_steps. intros ?. by apply ExecuteOnDestContext_steps.
Qed.

End Access.

Section Property.
Context `{Ext : Externals}.

(** A transaction changes the world of the node by no more than the three
    methods of the hook that are meant for it: whatever the contracts do, the world
    after running, upgrading or deploying one, also when the host recovers from a
    panic, is reached from the world before by saving compiled code, running built-in
    functions and reverting to snapshots. *)
Theorem transactions_change_world_by_hook wasm recovered fuel st :
  sandboxed wasm -> transaction_fuel fuel st ->
  (forall input, rtc world_step (st_world st)
     (st_world (fst (RunSmartContractCall wasm recovered (host_api wasm fuel) input st)))) /\
  (forall input, rtc world_step (st_world st)
     (st_world (fst (RunSmartContractCreate wasm recovered (host_api wasm fuel) input st)))).
Proof.
  intros Hw Hfuel. destruct (host_returns wasm recovered fuel st Hw Hfuel) as [Hcall Hcreate].
  split; intros input.
  - destruct (Hcall input) as (st' & r & Hrun & _).
    pose proof (RunSmartContractCall_steps wasm Hw _ (host_api_steps wasm Hw fuel) recovered input st) as H.
    rewrite Hrun in *. exact H.
  - destruct (Hcreate input) as (st' & r & Hrun & _).
    pose proof (RunSmartContractCreate_steps wasm Hw _ (host_api_steps wasm Hw fuel) recovered input st) as H.
    rewrite Hrun in *. exact H.
Qed.

End Property.

(** ** Witnesses *)

Lemma transactions_change_world_by_hook_witness :
  rtc (@world_step toy) (@st_world toy toy_two)
    (@st_world toy (fst (@RunSmartContractCall toy toy_wasm toy_recovered
       (@host_api toy toy_wasm 10) toy_call toy_two))).
Proof.
  exact (proj1 (@transactions_change_world_by_hook toy toy_wasm toy_recovered 10 toy_two
    (@toy_wasm_sandboxed toy) toy_fuel) toy_call).
Defined.
