(* ===== verification/HostSetup.v ===== *)
(** Making a host: [NewVMHost] of [src/vmhost/hostCore/host.go] and the constructors of
    the contexts it calls, from the parameters of a node to the first state.

    The tables of imports are fixed and have no duplicates
    ([Imports.import_names_NoDup]), so registering them does not fail; the signal
    handlers of wasmer are left out. *)
From S2P Require Import Prelude Errors Overflow Helpers Types State Logic Toy BigInt Runtime.
From S2P Require Import Output Metering Blockchain Transfers Storage Validator RuntimeExec.
From S2P Require Import Builtin AsyncCall Execution Host GasConfig Hooks Imports Nesting Guarantees.

#[local] Open Scope Z_scope.

(** [vmhost.VMHostParameters]; the container of built-in functions and the flags are
    those of [Externals], so of the flags' handler only whether there is one is left. *)
Record VMHostParameters := mkVMHostParameters {
  hp_VMType : bytes;
  hp_BlockGasLimit : Z;
  hp_GasSchedule : GasScheduleMap;
  hp_ProtectedKeyPrefix : bytes;
  hp_UseWarmInstance : bool;
  hp_EnableEpochsHandler : bool;
}.

(** [MaximumWasmerInstanceCount] *)
Definition MaximumWasmerInstanceCount : Z := 10.

Section Setup.
Context `{Ext : Externals}.
Context (Decode : gmap bytes Z -> list (bytes * Z) -> list Z * option error).
(** [core.CheckHandlerCompatibility] of the handler and [allFlags] *)
Context (CheckHandlerCompatibility : list EnableEpochFlag -> option error).

(** ** Contexts *)

Definition NewBigIntContext : bigIntContext := mkbigIntContext ∅ [].

Definition NewBlockchainContext : blockchainContext := mkblockchainContext [].

Definition NewOutputContext : outputContext := Output.InitState (mkoutputContext newVMOutput [] ∅).

Definition NewStorageContext (protectedKeyPrefix : bytes) : error + storageContext :=
  if len protectedKeyPrefix =? 0 then inl (ErrNew (bs "ProtectedKeyPrefix cannot be empty"))
  else inr (mkstorageContext [] [] protectedKeyPrefix true).

Definition NewMeteringContext (gasMap : GasScheduleMap) (blockGasLimit : Z) :
    error + meteringContext :=
  match CreateGasConfig Decode gasMap with
  | inl err => inl err
  | inr gasSchedule =>
      inr (mkmeteringContext (mkmeteringState 0 0 0 ∅) [] gasSchedule blockGasLimit)
  end.

(** [newWASMValidator] *)
Definition newWASMValidator : gset bytes := Validator.NewReservedFunctions (list_to_set import_names).

(** Its [asyncContextInfo] is the first structure on the heap. *)
Definition NewRuntimeContext (vmType : bytes) (useWarmInstance : bool) : runtimeContext :=
  mkruntimeContext (mkruntimeState zeroVMInput [] [] false None 0) [] None [] 0 vmType false 0
    newWASMValidator useWarmInstance None None None.

(** ** The host *)

(** The order of [allFlags]. *)
Definition allFlags : list EnableEpochFlag :=
  [SCDeployFlag; BuiltInFunctionsFlag; RepairCallbackFlag; AheadOfTimeGasUsageFlag].

(** The state once every context is there. *)
Definition assembled (params : VMHostParameters) (metering : meteringContext)
    (storage : storageContext) (w : World) : HostState :=
  mkHostState NewBigIntContext NewBlockchainContext metering NewOutputContext
    (NewRuntimeContext (hp_VMType params) (hp_UseWarmInstance params)) storage
    ∅ {[ 0%nat := mkAsyncContextInfo [] [] ∅ ]} 1 w.

Definition NewVMHost (params : VMHostParameters) (w : World) : error + HostState * hostSchedule :=
  if negb (hp_EnableEpochsHandler params) then inl (ErrNilEnableEpochsHandler : error)
  else
    match CheckHandlerCompatibility allFlags with
    | Some err => inl err
    | None =>
        match NewMeteringContext (hp_GasSchedule params) (hp_BlockGasLimit params) with
        | inl err => inl err
        | inr metering =>
            match NewStorageContext (hp_ProtectedKeyPrefix params) with
            | inl err => inl err
            | inr storage =>
                match CreateGasConfig Decode (hp_GasSchedule params) with
                | inl err => inl err
                | inr gasCostConfig =>
                    let host := assembled params metering storage w in
                    let '(host, _) := (Runtime.SetMaxInstanceCount MaximumWasmerInstanceCount ;;
                                       initContexts) host in
                    inr (host, mkHostSchedule (hp_GasSchedule params)
                           (ToOpcodeCostsArray (gc_WASMOpcodeCost gasCostConfig)))
                end
            end
        end
    end.

(** ** A new host *)

(** Ready for its first transaction: nothing runs, nothing is saved, and as many
    instances may start as there is room for. *)
Record ready (w : World) (st : HostState) : Prop := {
  ready_world : st_world st = w;
  ready_frame : frame_of st = {| fr_bigInt := []; fr_blockchain := []; fr_metering := [];
    fr_output := []; fr_runtime := []; fr_instances := []; fr_storage := []; fr_address := [];
    fr_max := MaximumWasmerInstanceCount |};
  ready_clean : clean st;
  ready_output : outputOf st = newVMOutput;
}.

(** What resetting the contexts of a host leaves. *)
Lemma fresh_run n st :
  exists st', (Runtime.SetMaxInstanceCount n ;; initContexts) st = (st', Ret tt) /\
    st_world st' = st_world st /\ gasSchedule (st_metering st') = gasSchedule (st_metering st) /\
    protectedKeyPrefix (st_storage st') = protectedKeyPrefix (st_storage st) /\
    vmStorageProtectionEnabled (st_storage st') = vmStorageProtectionEnabled (st_storage st) /\
    frame_of st' = {| fr_bigInt := []; fr_blockchain := bc_stateStack (st_blockchain st);
      fr_metering := []; fr_output := []; fr_runtime := []; fr_instances := instanceStack (st_runtime st);
      fr_storage := []; fr_address := sto_address (st_storage st); fr_max := n |} /\
    instance (st_runtime st') = instance (st_runtime st) /\ outputOf st' = newVMOutput.
Proof. eexists. split; [reflexivity|]. split_and!; reflexivity. Qed.

(** C12: a host is made exactly when the node gives it flags it knows, a schedule of
    prices without gaps and a prefix for protected keys, checked in that order - the
    first one missing is the error; a new host charges the prices of the schedule,
    protects the keys, has nothing running or saved, and has room for ten nested
    executions, so that ten units of fuel are enough for its first transaction. *)
Theorem NewVMHost_exact params w :
  match NewVMHost params w with
  | inl err =>
      (hp_EnableEpochsHandler params = false /\ err = ErrNilEnableEpochsHandler) \/
      (hp_EnableEpochsHandler params = true /\
       (CheckHandlerCompatibility allFlags = Some err \/
        CheckHandlerCompatibility allFlags = None /\
        (CreateGasConfig Decode (hp_GasSchedule params) = inl err \/
         is_Some (match CreateGasConfig Decode (hp_GasSchedule params) with
                  | inr g => Some g | inl _ => None end) /\
         hp_ProtectedKeyPrefix params = [] /\
         err = ErrNew (bs "ProtectedKeyPrefix cannot be empty"))))
  | inr (st, schedule) =>
      hp_EnableEpochsHandler params = true /\ CheckHandlerCompatibility allFlags = None /\
      CreateGasConfig Decode (hp_GasSchedule params) = inr (gasSchedule (st_metering st)) /\
      hs_gasSchedule schedule = hp_GasSchedule params /\
      hs_opcodeCosts schedule = ToOpcodeCostsArray (gc_WASMOpcodeCost (gasSchedule (st_metering st))) /\
      protectedKeyPrefix (st_storage st) = hp_ProtectedKeyPrefix params /\
      vmStorageProtectionEnabled (st_storage st) = true /\ hp_ProtectedKeyPrefix params <> [] /\
      ready w st /\ transaction_fuel 10 st
  end.
Proof.
  unfold NewVMHost, NewMeteringContext, NewStorageContext.
  destruct (hp_EnableEpochsHandler params); cbn [negb]; [|left; auto].
  destruct (CheckHandlerCompatibility allFlags) as [err|]; [right; split; auto|].
  destruct (CreateGasConfig Decode (hp_GasSchedule params)) as [err|g]; [right; auto 6|].
  destruct (hp_ProtectedKeyPrefix params) as [|b prefix] eqn:Hp.
  { right. split; [reflexivity|]. right. split; [reflexivity|]. right. split; [by eexists|]. auto. }
  rewrite (proj2 (Z.eqb_neq _ _)) by by unfold len; cbn [length]; lia.
  edestruct (fresh_run MaximumWasmerInstanceCount (assembled params
    (mkmeteringContext (mkmeteringState 0 0 0 ∅) [] g (hp_BlockGasLimit params))
    (mkstorageContext [] [] (b :: prefix) true) w)) as (st & Hrun & Hw & Hg & Hk & Hv & Hf & Hi & Ho).
  rewrite Hrun, Hg, Hk, Hv. split_and!; try reflexivity; try discriminate.
  - split; [exact Hw | exact Hf | left; exact Hi | exact Ho].
  - pose proof (f_equal fr_max Hf) as Hmax. pose proof (f_equal fr_instances Hf) as Hin.
    cbn [fr_max fr_instances frame_of] in Hmax, Hin. unfold transaction_fuel. rewrite Hmax, Hin.
    vm_compute. repeat split; first [lia | discriminate | reflexivity].
Qed.

End Setup.
