(* ===== verification/IpcMessages.v ===== *)
(** The messages between the Node and the VM ([src/ipc/common]): their kinds and
    the tests on them ([messages.go]), the structures and their constructors
    ([messages.go], [messagesBlockchain.go], [messagesContracts.go],
    [messagesDiagnose.go]), the factory ([messagesFactory.go]), and the forms in
    which maps, outputs and accounts travel ([serializableMaps.go],
    [serializableVMOutput.go], [account.go], [arguments.go]).

    A pointer is an option; a [MessageHandler] is the [Message] it embeds and its
    Go type with the other fields, a constructor of [Body].  Kinds are [uint32]:
    the kind in a header is any number. *)
From S2P Require Import Prelude Errors Types State GasConfig.

#[local] Open Scope string_scope.
#[local] Open Scope list_scope.
#[local] Open Scope Z_scope.

(** ** Kinds of messages *)

Module MessageKind.

Definition FirstKind : Z := 0.
Definition Initialize : Z := 1.
Definition Stop : Z := 2.
Definition ContractDeployRequest : Z := 3.
Definition ContractCallRequest : Z := 4.
Definition ContractResponse : Z := 5.
Definition GasScheduleChangeRequest : Z := 6.
Definition GasScheduleChangeResponse : Z := 7.
Definition BlockchainNewAddressRequest : Z := 8.
Definition BlockchainNewAddressResponse : Z := 9.
Definition BlockchainGetStorageDataRequest : Z := 10.
Definition BlockchainGetStorageDataResponse : Z := 11.
Definition BlockchainGetBlockhashRequest : Z := 12.
Definition BlockchainGetBlockhashResponse : Z := 13.
Definition BlockchainLastNonceRequest : Z := 14.
Definition BlockchainLastNonceResponse : Z := 15.
Definition BlockchainLastRoundRequest : Z := 16.
Definition BlockchainLastRoundResponse : Z := 17.
Definition BlockchainLastTimeStampRequest : Z := 18.
Definition BlockchainLastTimeStampResponse : Z := 19.
Definition BlockchainLastRandomSeedRequest : Z := 20.
Definition BlockchainLastRandomSeedResponse : Z := 21.
Definition BlockchainLastEpochRequest : Z := 22.
Definition BlockchainLastEpochResponse : Z := 23.
Definition BlockchainGetStateRootHashRequest : Z := 24.
Definition BlockchainGetStateRootHashResponse : Z := 25.
Definition BlockchainCurrentNonceRequest : Z := 26.
Definition BlockchainCurrentNonceResponse : Z := 27.
Definition BlockchainCurrentRoundRequest : Z := 28.
Definition BlockchainCurrentRoundResponse : Z := 29.
Definition BlockchainCurrentTimeStampRequest : Z := 30.
Definition BlockchainCurrentTimeStampResponse : Z := 31.
Definition BlockchainCurrentRandomSeedRequest : Z := 32.
Definition BlockchainCurrentRandomSeedResponse : Z := 33.
Definition BlockchainCurrentEpochRequest : Z := 34.
Definition BlockchainCurrentEpochResponse : Z := 35.
Definition BlockchainProcessBuiltinFunctionRequest : Z := 36.
Definition BlockchainProcessBuiltinFunctionResponse : Z := 37.
Definition BlockchainGetESDTTokenRequest : Z := 38.
Definition BlockchainGetESDTTokenResponse : Z := 39.
Definition BlockchainGetBuiltinFunctionNamesRequest : Z := 40.
Definition BlockchainGetBuiltinFunctionNamesResponse : Z := 41.
Definition BlockchainGetAllStateRequest : Z := 42.
Definition BlockchainGetAllStateResponse : Z := 43.
Definition BlockchainGetUserAccountRequest : Z := 44.
Definition BlockchainGetUserAccountResponse : Z := 45.
Definition BlockchainGetCodeRequest : Z := 46.
Definition BlockchainGetCodeResponse : Z := 47.
Definition BlockchainGetShardOfAddressRequest : Z := 48.
Definition BlockchainGetShardOfAddressResponse : Z := 49.
Definition BlockchainIsPayableRequest : Z := 50.
Definition BlockchainIsPayableResponse : Z := 51.
Definition BlockchainIsSmartContractRequest : Z := 52.
Definition BlockchainIsSmartContractResponse : Z := 53.
Definition BlockchainSaveCompiledCodeRequest : Z := 54.
Definition BlockchainSaveCompiledCodeResponse : Z := 55.
Definition BlockchainGetCompiledCodeRequest : Z := 56.
Definition BlockchainGetCompiledCodeResponse : Z := 57.
Definition DiagnoseWaitRequest : Z := 58.
Definition DiagnoseWaitResponse : Z := 59.
Definition VersionRequest : Z := 60.
Definition VersionResponse : Z := 61.
Definition BlockchainClearCompiledCodesRequest : Z := 62.
Definition BlockchainClearCompiledCodesResponse : Z := 63.
Definition BlockchainGetSnapshotRequest : Z := 64.
Definition BlockchainGetSnapshotResponse : Z := 65.
Definition BlockchainIsInterfaceNilRequest : Z := 66.
Definition BlockchainIsInterfaceNilResponse : Z := 67.
Definition BlockchainRevertToSnapshotRequest : Z := 68.
Definition BlockchainRevertToSnapshotResponse : Z := 69.
Definition BlockchainProcessBuiltInFunctionRequest : Z := 70.
Definition BlockchainProcessBuiltInFunctionResponse : Z := 71.
Definition UndefinedRequestOrResponse : Z := 72.
Definition LastKind : Z := 73.

End MessageKind.

Definition messageKindNames_1 : list (Z * bytes) :=
  [
    (MessageKind.FirstKind, bs "FirstKind");
    (MessageKind.Initialize, bs "Initialize");
    (MessageKind.Stop, bs "Stop");
    (MessageKind.ContractDeployRequest, bs "ContractDeployRequest");
    (MessageKind.ContractCallRequest, bs "ContractCallRequest");
    (MessageKind.ContractResponse, bs "ContractResponse");
    (MessageKind.GasScheduleChangeRequest, bs "GasScheduleChangeRequest");
    (MessageKind.GasScheduleChangeResponse, bs "GasScheduleChangeResponse");
    (MessageKind.BlockchainNewAddressRequest, bs "BlockchainNewAddressRequest");
    (MessageKind.BlockchainNewAddressResponse, bs "BlockchainNewAddressResponse");
    (MessageKind.BlockchainGetStorageDataRequest, bs "BlockchainGetStorageDataRequest");
    (MessageKind.BlockchainGetStorageDataResponse, bs "BlockchainGetStorageDataResponse");
    (MessageKind.BlockchainGetBlockhashRequest, bs "BlockchainGetBlockhashRequest");
    (MessageKind.BlockchainGetBlockhashResponse, bs "BlockchainGetBlockhashResponse");
    (MessageKind.BlockchainLastNonceRequest, bs "BlockchainLastNonceRequest");
    (MessageKind.BlockchainLastNonceResponse, bs "BlockchainLastNonceResponse");
    (MessageKind.BlockchainLastRoundRequest, bs "BlockchainLastRoundRequest");
    (MessageKind.BlockchainLastRoundResponse, bs "BlockchainLastRoundResponse");
    (MessageKind.BlockchainLastTimeStampRequest, bs "BlockchainLastTimeStampRequest");
    (MessageKind.BlockchainLastTimeStampResponse, bs "BlockchainLastTimeStampResponse");
    (MessageKind.BlockchainLastRandomSeedRequest, bs "BlockchainLastRandomSeedRequest");
    (MessageKind.BlockchainLastRandomSeedResponse, bs "BlockchainLastRandomSeedResponse");
    (MessageKind.BlockchainLastEpochRequest, bs "BlockchainLastEpochRequest");
    (MessageKind.BlockchainLastEpochResponse, bs "BlockchainLastEpochResponse");
    (MessageKind.BlockchainGetStateRootHashRequest, bs "BlockchainGetStateRootHashRequest");
    (MessageKind.BlockchainGetStateRootHashResponse, bs "BlockchainGetStateRootHashResponse");
    (MessageKind.BlockchainCurrentNonceRequest, bs "BlockchainCurrentNonceRequest");
    (MessageKind.BlockchainCurrentNonceResponse, bs "BlockchainCurrentNonceResponse");
    (MessageKind.BlockchainCurrentRoundRequest, bs "BlockchainCurrentRoundRequest");
    (MessageKind.BlockchainCurrentRoundResponse, bs "BlockchainCurrentRoundResponse");
    (MessageKind.BlockchainCurrentTimeStampRequest, bs "BlockchainCurrentTimeStampRequest");
    (MessageKind.BlockchainCurrentTimeStampResponse, bs "BlockchainCurrentTimeStampResponse");
    (MessageKind.BlockchainCurrentRandomSeedRequest, bs "BlockchainCurrentRandomSeedRequest");
    (MessageKind.BlockchainCurrentRandomSeedResponse, bs "BlockchainCurrentRandomSeedResponse");
    (MessageKind.BlockchainCurrentEpochRequest, bs "BlockchainCurrentEpochRequest");
    (MessageKind.BlockchainCurrentEpochResponse, bs "BlockchainCurrentEpochResponse");
    (MessageKind.BlockchainProcessBuiltinFunctionRequest, bs "BlockchainProcessBuiltinFunctionRequest")
  ].

Definition messageKindNames_2 : list (Z * bytes) :=
  [
    (MessageKind.BlockchainProcessBuiltinFunctionResponse, bs "BlockchainProcessBuiltinFunctionResponse");
    (MessageKind.BlockchainGetESDTTokenRequest, bs "BlockchainGetESDTTokenRequest");
    (MessageKind.BlockchainGetESDTTokenResponse, bs "BlockchainGetESDTTokenResponse");
    (MessageKind.BlockchainGetBuiltinFunctionNamesRequest, bs "BlockchainGetBuiltinFunctionNamesRequest");
    (MessageKind.BlockchainGetBuiltinFunctionNamesResponse, bs "BlockchainGetBuiltinFunctionNamesResponse");
    (MessageKind.BlockchainGetAllStateRequest, bs "BlockchainGetAllStateRequest");
    (MessageKind.BlockchainGetAllStateResponse, bs "BlockchainGetAllStateResponse");
    (MessageKind.BlockchainGetUserAccountRequest, bs "BlockchainGetUserAccountRequest");
    (MessageKind.BlockchainGetUserAccountResponse, bs "BlockchainGetUserAccountResponse");
    (MessageKind.BlockchainGetCodeRequest, bs "BlockchainGetCodeRequest");
    (MessageKind.BlockchainGetCodeResponse, bs "BlockchainGetCodeResponse");
    (MessageKind.BlockchainGetShardOfAddressRequest, bs "BlockchainGetShardOfAddressRequest");
    (MessageKind.BlockchainGetShardOfAddressResponse, bs "BlockchainGetShardOfAddressResponse");
    (MessageKind.BlockchainIsSmartContractRequest, bs "BlockchainIsSmartContractRequest");
    (MessageKind.BlockchainIsSmartContractResponse, bs "BlockchainIsSmartContractResponse");
    (MessageKind.BlockchainIsPayableRequest, bs "BlockchainIsPayableRequest");
    (MessageKind.BlockchainIsPayableResponse, bs "BlockchainIsPayableResponse");
    (MessageKind.BlockchainGetCompiledCodeResponse, bs "BlockchainGetCompiledCodeResponse");
    (MessageKind.BlockchainGetCompiledCodeRequest, bs "BlockchainGetCompiledCodeRequest");
    (MessageKind.BlockchainSaveCompiledCodeRequest, bs "BlockchainSaveCompiledCodeRequest");
    (MessageKind.BlockchainSaveCompiledCodeResponse, bs "BlockchainSaveCompiledCodeResponse");
    (MessageKind.DiagnoseWaitRequest, bs "DiagnoseWaitRequest");
    (MessageKind.DiagnoseWaitResponse, bs "DiagnoseWaitResponse");
    (MessageKind.VersionRequest, bs "VersionRequest");
    (MessageKind.VersionResponse, bs "VersionResponse");
    (MessageKind.BlockchainClearCompiledCodesRequest, bs "BlockchainClearCompiledCodesRequest");
    (MessageKind.BlockchainClearCompiledCodesResponse, bs "BlockchainClearCompiledCodesResponse");
    (MessageKind.BlockchainGetSnapshotRequest, bs "BlockchainGetSnapshotRequest");
    (MessageKind.BlockchainGetSnapshotResponse, bs "BlockchainGetSnapshotResponse");
    (MessageKind.BlockchainIsInterfaceNilRequest, bs "BlockchainIsInterfaceNilRequest");
    (MessageKind.BlockchainIsInterfaceNilResponse, bs "BlockchainIsInterfaceNilResponse");
    (MessageKind.BlockchainRevertToSnapshotRequest, bs "BlockchainRevertToSnapshotRequest");
    (MessageKind.BlockchainRevertToSnapshotResponse, bs "BlockchainRevertToSnapshotResponse");
    (MessageKind.BlockchainProcessBuiltInFunctionRequest, bs "BlockchainProcessBuiltInFunctionRequest");
    (MessageKind.BlockchainProcessBuiltInFunctionResponse, bs "BlockchainProcessBuiltInFunctionResponse" ++ [Byte.x09]);
    (MessageKind.UndefinedRequestOrResponse, bs "UndefinedRequestOrResponse");
    (MessageKind.LastKind, bs "LastKind")
  ].

Definition messageKindNames : list (Z * bytes) := messageKindNames_1 ++ messageKindNames_2.

(** ** Errors ([errors.go]) *)

(** [CriticalError]: its text is that of [fmt.Errorf] and it unwraps to its inner
    error; nothing but [IsCriticalError] looks at its type. *)
Definition CriticalError (InnerErr : error) : error := ErrFmt (bs "critical error: ") InnerErr [].

Definition WrapCriticalError (err : error) : error := CriticalError err.

Definition IsCriticalError (err : error) : bool :=
  match err with ErrFmt prefix _ [] => bytes_eqb prefix (bs "critical error: ") | _ => false end.

Definition critical (text : string) : error := CriticalError (ErrNew (bs text)).

Definition ErrBadVMArguments : error := critical "bad arguments passed to vm".
Definition ErrVMClosed : error := critical "vm closed".
Definition ErrVMTimeExpired : error := critical "vm time expired".
Definition ErrVMNotFound : error := critical "vm binary not found".
Definition ErrInvalidMessageNonce : error := critical "invalid dialogue nonce".
Definition ErrStopPerNodeRequest : error := critical "vm will stop, as requested".
Definition ErrBadRequestFromNode : error := critical "bad message from node".
Definition ErrBadMessageFromVM : error := critical "bad message from vm".
Definition ErrCannotSendContractRequest : error := critical "cannot send contract request".
Definition ErrCannotSendHookCallResponse : error := critical "cannot send hook call response".
Definition ErrCannotSendHookCallRequest : error := critical "cannot send hook call request".
Definition ErrCannotReceiveHookCallResponse : error :=
  critical "cannot receive hook call response".
Definition ErrBadHookResponseFromNode : error := critical "bad hook response from node".

(** ** Accounts ([account.go]) *)

Record Account := mkAccount {
  ac_Nonce : Z;
  ac_Balance : option Z;
  ac_CodeHash : bytes;
  ac_RootHash : bytes;
  ac_Address : bytes;
  ac_DeveloperReward : option Z;
  ac_OwnerAddress : bytes;
  ac_UserName : bytes;
  ac_CodeMetadata : bytes;
}.

Definition AddressBytes (a : Account) : bytes := ac_Address a.
Definition GetNonce (a : Account) : Z := ac_Nonce a.
Definition GetCodeMetadata (a : Account) : bytes := ac_CodeMetadata a.
Definition GetCodeHash (a : Account) : bytes := ac_CodeHash a.
Definition GetRootHash (a : Account) : bytes := ac_RootHash a.
Definition GetBalance (a : Account) : Z := match ac_Balance a with Some b => b | None => 0 end.
Definition GetDeveloperReward (a : Account) : Z :=
  match ac_DeveloperReward a with Some r => r | None => 0 end.
Definition GetOwnerAddress (a : Account) : bytes := ac_OwnerAddress a.
Definition GetUserName (a : Account) : bytes := ac_UserName a.

(** An [Account] as the [UserAccountHandler] it implements. *)
Definition account_handler (a : Account) : UserAccount :=
  mkUserAccount (GetBalance a) (GetNonce a) (GetCodeHash a) (GetCodeMetadata a)
    (GetOwnerAddress a) (GetRootHash a) (AddressBytes a) (GetDeveloperReward a) (GetUserName a).

(** The [Account] that the parts make of a [UserAccountHandler]. *)
Definition account_of (account : UserAccount) : Account :=
  mkAccount (acc_GetNonce account) (Some (acc_GetBalance account)) (acc_GetCodeHash account)
    (acc_GetRootHash account) (acc_AddressBytes account) (Some (acc_GetDeveloperReward account))
    (acc_GetOwnerAddress account) (acc_GetUserName account) (acc_GetCodeMetadata account).

(** ** Maps and outputs *)

Record SerializableMapStringBytes := mkSerializableMapStringBytes {
  sm_Keys : list bytes;
  sm_Values : list bytes;
}.

Record SerializableOutputTransfer := mkSerializableOutputTransfer {
  sot_Value : Z;
  sot_Data : bytes;
  sot_GasLimit : Z;
  sot_GasLocked : Z;
  sot_CallType : CallType;
  sot_SenderAddress : bytes;
}.

Record SerializableOutputAccount := mkSerializableOutputAccount {
  soa_Address : bytes;
  soa_Nonce : Z;
  soa_Balance : option Z;
  soa_BalanceDelta : option Z;
  soa_StorageUpdates : list StorageUpdate;
  soa_Code : bytes;
  soa_CodeMetadata : bytes;
  soa_GasUsed : Z;
  soa_Transfers : list SerializableOutputTransfer;
  soa_CodeDeployerAddress : option bytes;
}.

Record SerializableVMOutput := mkSerializableVMOutput {
  so_ReturnData : list bytes;
  so_ReturnCode : ReturnCode;
  so_ReturnMessage : bytes;
  so_GasRemaining : Z;
  so_GasRefund : option Z;
  so_CorrectedOutputAccounts : list SerializableOutputAccount;
  so_DeletedAccounts : list bytes;
  so_TouchedAccounts : list bytes;
  so_Logs : list LogEntry;
}.

Section Serializable.
Context `{Ext : Externals}.

Definition NewSerializableMapStringBytes (data : gmap bytes bytes) : SerializableMapStringBytes :=
  fold_left (fun s '(key, value) =>
      mkSerializableMapStringBytes (sm_Keys s ++ [key]) (sm_Values s ++ [value]))
    (range data) (mkSerializableMapStringBytes [] []).

(** [s.Values[i]] is out of range when there are fewer values than keys. *)
Fixpoint convert_to_map (keys values : list bytes) (m : gmap bytes bytes) :
    option (gmap bytes bytes) :=
  match keys, values with
  | [], _ => Some m
  | key :: keys', value :: values' => convert_to_map keys' values' (<[key := value]> m)
  | _ :: _, [] => None
  end.

Definition ConvertToMap (s : SerializableMapStringBytes) : option (gmap bytes bytes) :=
  convert_to_map (sm_Keys s) (sm_Values s) ∅.

Definition serializable_transfer (transfer : OutputTransfer) : SerializableOutputTransfer :=
  mkSerializableOutputTransfer (ot_Value transfer) (ot_Data transfer) (ot_GasLimit transfer)
    (ot_GasLocked transfer) (ot_CallType transfer) (ot_SenderAddress transfer).

Definition NewSerializableOutputAccount (account : OutputAccount) : SerializableOutputAccount :=
  mkSerializableOutputAccount (Address account) (Nonce account) (Balance account)
    (BalanceDelta account)
    (fold_left (fun updates '(_, storageUpdate) => updates ++ [storageUpdate])
       (range (StorageUpdates account)) [])
    (Code account) (CodeMetadata account) (GasUsed account)
    (map serializable_transfer (OutputTransfers account)) (CodeDeployerAddress account).

Definition output_transfer (transfer : SerializableOutputTransfer) : OutputTransfer :=
  mkOutputTransfer (sot_Value transfer) (sot_GasLimit transfer) (sot_GasLocked transfer)
    (sot_Data transfer) (sot_CallType transfer) (sot_SenderAddress transfer).

Definition ConvertToOutputAccount (a : SerializableOutputAccount) : OutputAccount :=
  mkOutputAccount (soa_Address a) (soa_Nonce a) (soa_Balance a) (soa_BalanceDelta a)
    (fold_left (fun (updatesMap : gmap bytes StorageUpdate) item =>
        <[Offset item := item]> updatesMap) (soa_StorageUpdates a) ∅)
    (soa_Code a) (soa_CodeMetadata a) (soa_CodeDeployerAddress a)
    (map output_transfer (soa_Transfers a)) (soa_GasUsed a).

(** [&SerializableVMOutput{}]: the code 0 is [Ok]. *)
Definition zeroSerializableVMOutput : SerializableVMOutput :=
  mkSerializableVMOutput [] Ok [] 0 None [] [] [] [].

Definition NewSerializableVMOutput (vmOutput : option VMOutput) : SerializableVMOutput :=
  match vmOutput with
  | None => zeroSerializableVMOutput
  | Some vmOutput =>
      mkSerializableVMOutput (ReturnData vmOutput) (out_ReturnCode vmOutput)
        (ReturnMessage vmOutput) (GasRemaining vmOutput) (GasRefund vmOutput)
        (fold_left (fun accounts '(_, account) =>
            accounts ++ [NewSerializableOutputAccount account]) (range (OutputAccounts vmOutput)) [])
        (DeletedAccounts vmOutput) (TouchedAccounts vmOutput) (Logs vmOutput)
  end.

Definition ConvertToVMOutput (o : SerializableVMOutput) : VMOutput :=
  mkVMOutput (so_ReturnData o) (so_ReturnCode o) (so_ReturnMessage o) (so_GasRemaining o)
    (so_GasRefund o)
    (fold_left (fun (accountsMap : gmap bytes OutputAccount) item =>
        <[soa_Address item := ConvertToOutputAccount item]> accountsMap)
       (so_CorrectedOutputAccounts o) ∅)
    (so_DeletedAccounts o) (so_TouchedAccounts o) (so_Logs o).

End Serializable.

(** ** The arguments of the VM ([arguments.go]) *)

(** [vmhost.VMHostParameters], but for the built-in functions and the flags, which
    are parameters of the host. *)
Record VMHostParameters := mkVMHostParameters {
  VMType : bytes;
  BlockGasLimit : Z;
  GasSchedule_ : GasScheduleMap;
  ProtectedKeyPrefix : bytes;
  WasmerSIGSEGVPassthrough : bool;
  UseWarmInstance : bool;
}.

Record VMArguments := mkVMArguments {
  HostParameters : VMHostParameters;
  LogsMarshalizer : Z;
  MessagesMarshalizer : Z;
}.

Definition zeroVMArguments : VMArguments :=
  mkVMArguments (mkVMHostParameters [] 0 ∅ [] false false) 0 0.

(** ** Messages *)

(** The structures that embed [Message]; [PlainMessage] is a [Message] by itself. *)
Inductive Body :=
| PlainMessage
| MessageInitialize (Arguments : VMArguments)
| MessageStop
| UndefinedMessage
| MessageContractDeployRequest (CreateInput : option ContractCreateInput)
| MessageContractCallRequest (CallInput : option ContractCallInput)
| MessageContractResponse (SerializableVMOutput : option SerializableVMOutput)
| MessageVersionRequest
| MessageVersionResponse (Version : bytes)
| MessageGasScheduleChangeRequest (GasSchedule : GasScheduleMap)
| MessageDiagnoseWaitRequest (Milliseconds : Z)
| MessageDiagnoseWaitResponse
| MessageBlockchainNewAddressRequest (CreatorAddress : bytes) (CreatorNonce : Z) (VmType : bytes)
| MessageBlockchainNewAddressResponse (Result : bytes)
| MessageBlockchainGetStorageDataRequest (AccountAddress : bytes) (Index : bytes)
| MessageBlockchainGetStorageDataResponse (Data : bytes)
| MessageBlockchainGetBlockhashRequest (Nonce : Z)
| MessageBlockchainGetBlockhashResponse (Result : bytes)
| MessageBlockchainLastNonceRequest
| MessageBlockchainLastNonceResponse (Result : Z)
| MessageBlockchainLastRoundRequest
| MessageBlockchainLastRoundResponse (Result : Z)
| MessageBlockchainLastTimeStampRequest
| MessageBlockchainLastTimeStampResponse (Result : Z)
| MessageBlockchainLastRandomSeedRequest
| MessageBlockchainLastRandomSeedResponse (Result : bytes)
| MessageBlockchainLastEpochRequest
| MessageBlockchainLastEpochResponse (Result : Z)
| MessageBlockchainGetStateRootHashRequest
| MessageBlockchainGetStateRootHashResponse (Result : bytes)
| MessageBlockchainCurrentNonceRequest
| MessageBlockchainCurrentNonceResponse (Result : Z)
| MessageBlockchainCurrentRoundRequest
| MessageBlockchainCurrentRoundResponse (Result : Z)
| MessageBlockchainCurrentTimeStampRequest
| MessageBlockchainCurrentTimeStampResponse (Result : Z)
| MessageBlockchainCurrentRandomSeedRequest
| MessageBlockchainCurrentRandomSeedResponse (Result : bytes)
| MessageBlockchainCurrentEpochRequest
| MessageBlockchainCurrentEpochResponse (Result : Z)
| MessageBlockchainProcessBuiltInFunctionRequest (Input : option ContractCallInput)
| MessageBlockchainProcessBuiltInFunctionResponse (VmOutput : option SerializableVMOutput)
| MessageBlockchainGetBuiltinFunctionNamesRequest
| MessageBlockchainGetBuiltinFunctionNamesResponse (Result : gset bytes)
| MessageBlockchainGetAllStateRequest (Address : bytes)
| MessageBlockchainGetAllStateResponse (Result : option SerializableMapStringBytes)
| MessageBlockchainGetUserAccountRequest (Address : bytes)
| MessageBlockchainGetUserAccountResponse (Result : option Account)
| MessageBlockchainGetCodeRequest (Account : option Account)
| MessageBlockchainGetCodeResponse (Code : bytes)
| MessageBlockchainGetShardOfAddressRequest (Address : bytes)
| MessageBlockchainGetShardOfAddressResponse (Result : Z)
| MessageBlockchainIsSmartContractRequest (Address : bytes)
| MessageBlockchainIsSmartContractResponse (Result : bool)
| MessageBlockchainIsPayableRequest (Address : bytes)
| MessageBlockchainIsPayableResponse (Result : bool)
| MessageBlockchainSaveCompiledCodeRequest (CodeHash : bytes) (Code : bytes)
| MessageBlockchainSaveCompiledCodeResponse
| MessageBlockchainGetCompiledCodeRequest (CodeHash : bytes)
| MessageBlockchainGetCompiledCodeResponse (Found : bool) (Code : bytes)
| MessageBlockchainClearCompiledCodesRequest
| MessageBlockchainClearCompiledCodesResponse
| MessageBlockchainGetESDTTokenRequest (Address : bytes) (TokenID : bytes) (Nonce : Z)
| MessageBlockchainGetESDTTokenResponse (Result : option ESDigitalToken)
| MessageBlockchainIsInterfaceNilRequest
| MessageBlockchainIsInterfaceNilResponse (Result : bool)
| MessageBlockchainGetSnapshotRequest
| MessageBlockchainGetSnapshotResponse (Result : Z)
| MessageBlockchainRevertToSnapshotRequest (Snapshot : Z)
| MessageBlockchainRevertToSnapshotResponse.

Record Message := mkMessage {
  DialogueNonce : Z;
  Kind : Z;
  ErrorMessage : bytes;
}.

Record MessageHandler := mkMessageHandler {
  base : Message;
  body : Body;
}.

Definition zeroMessage : Message := mkMessage 0 0 [].

Definition GetNonce_ (message : MessageHandler) : Z := DialogueNonce (base message).

Definition SetNonce (nonce : Z) (message : MessageHandler) : MessageHandler :=
  mkMessageHandler (mkMessage nonce (Kind (base message)) (ErrorMessage (base message)))
    (body message).

Definition GetKind (message : MessageHandler) : Z := Kind (base message).

Definition SetKind (kind : Z) (message : MessageHandler) : MessageHandler :=
  mkMessageHandler (mkMessage (DialogueNonce (base message)) kind (ErrorMessage (base message)))
    (body message).

Definition SetError (err : option error) (message : MessageHandler) : MessageHandler :=
  match err with
  | None => message
  | Some err =>
      mkMessageHandler (mkMessage (DialogueNonce (base message)) (Kind (base message)) (Error err))
        (body message)
  end.

(** [fmt.Errorf] with a text and nothing to format: a text without a percent sign
    is taken as it is. *)
Class Fmt := {
  fmt_Errorf : bytes -> bytes;
  fmt_Errorf_plain text : Byte.x25 ∉ text -> fmt_Errorf text = text;
}.

Definition GetError `{Fmt} (message : MessageHandler) : option error :=
  match ErrorMessage (base message) with
  | [] => None
  | text => Some (ErrNew (fmt_Errorf text))
  end.

Definition GetKindName (message : MessageHandler) : bytes :=
  match find (fun '(kind, _) => kind =? GetKind message) messageKindNames with
  | Some (_, name) => name
  | None => []
  end.

(** [&T{}] and [message.Kind = kind] *)
Definition new_message (kind : Z) (b : Body) : MessageHandler :=
  mkMessageHandler (mkMessage 0 kind []) b.

Definition IsHookCall (message : MessageHandler) : bool :=
  let kind := GetKind message in
  (MessageKind.BlockchainNewAddressRequest <=? kind) &&
  (kind <=? MessageKind.BlockchainGetCompiledCodeResponse).

Definition IsStopRequest (message : MessageHandler) : bool := GetKind message =? MessageKind.Stop.

Definition IsVersionResponse (message : MessageHandler) : bool :=
  GetKind message =? MessageKind.VersionResponse.

Definition IsContractResponse (message : MessageHandler) : bool :=
  GetKind message =? MessageKind.ContractResponse.

Definition IsGasScheduleChangeResponse (message : MessageHandler) : bool :=
  GetKind message =? MessageKind.GasScheduleChangeResponse.

Definition IsDiagnose (message : MessageHandler) : bool :=
  let kind := GetKind message in
  (MessageKind.DiagnoseWaitRequest <=? kind) && (kind <=? MessageKind.DiagnoseWaitResponse).

(** ** Constructors *)

Definition MaxUint32 : Z := 2 ^ 32 - 1.

Section Constructors.
Context `{Ext : Externals}.

Definition NewMessageInitialize (arguments : VMArguments) : MessageHandler :=
  new_message MessageKind.Initialize (MessageInitialize arguments).

Definition NewMessageStop : MessageHandler :=
  new_message MessageKind.Stop MessageStop.

Definition NewUndefinedMessage : MessageHandler :=
  SetNonce MaxUint32 (new_message MessageKind.UndefinedRequestOrResponse UndefinedMessage).

Definition NewMessageContractDeployRequest (input : option ContractCreateInput) : MessageHandler
    :=
  new_message MessageKind.ContractDeployRequest (MessageContractDeployRequest input).

Definition NewMessageContractCallRequest (input : option ContractCallInput) : MessageHandler :=
  new_message MessageKind.ContractCallRequest (MessageContractCallRequest input).

Definition NewMessageContractResponse (vmOutput : option VMOutput) (err : option error) :
    MessageHandler :=
  SetError err (new_message MessageKind.ContractResponse (MessageContractResponse (Some
    (NewSerializableVMOutput vmOutput)))).

Definition NewMessageVersionRequest : MessageHandler :=
  new_message MessageKind.VersionRequest MessageVersionRequest.

Definition NewMessageVersionResponse (version : bytes) : MessageHandler :=
  new_message MessageKind.VersionResponse (MessageVersionResponse version).

Definition NewMessageGasScheduleChangeRequest (gasSchedule : GasScheduleMap) : MessageHandler :=
  new_message MessageKind.GasScheduleChangeRequest (MessageGasScheduleChangeRequest gasSchedule).

Definition NewGasScheduleChangeResponse : MessageHandler :=
  new_message MessageKind.GasScheduleChangeResponse PlainMessage.

Definition NewMessageDiagnoseWaitRequest (milliseconds : Z) : MessageHandler :=
  new_message MessageKind.DiagnoseWaitRequest (MessageDiagnoseWaitRequest milliseconds).

Definition NewMessageDiagnoseWaitResponse : MessageHandler :=
  new_message MessageKind.DiagnoseWaitResponse MessageDiagnoseWaitResponse.

Definition NewMessageBlockchainNewAddressRequest (creatorAddress : bytes) (creatorNonce : Z)
    (vmType : bytes) : MessageHandler :=
  new_message MessageKind.BlockchainNewAddressRequest (MessageBlockchainNewAddressRequest
    creatorAddress creatorNonce vmType).

Definition NewMessageBlockchainNewAddressResponse (result : bytes) (err : option error) :
    MessageHandler :=
  SetError err (new_message MessageKind.BlockchainNewAddressResponse
    (MessageBlockchainNewAddressResponse result)).

Definition NewMessageBlockchainGetStorageDataRequest (accountAddress : bytes) (index : bytes) :
    MessageHandler :=
  new_message MessageKind.BlockchainGetStorageDataRequest (MessageBlockchainGetStorageDataRequest
    accountAddress index).

Definition NewMessageBlockchainGetStorageDataResponse (data : bytes) (err : option error) :
    MessageHandler :=
  SetError err (new_message MessageKind.BlockchainGetStorageDataResponse
    (MessageBlockchainGetStorageDataResponse data)).

Definition NewMessageBlockchainGetBlockhashRequest (nonce : Z) : MessageHandler :=
  new_message MessageKind.BlockchainGetBlockhashRequest (MessageBlockchainGetBlockhashRequest nonce).

Definition NewMessageBlockchainGetBlockhashResponse (result : bytes) (err : option error) :
    MessageHandler :=
  SetError err (new_message MessageKind.BlockchainGetBlockhashResponse
    (MessageBlockchainGetBlockhashResponse result)).

Definition NewMessageBlockchainLastNonceRequest : MessageHandler :=
  new_message MessageKind.BlockchainLastNonceRequest MessageBlockchainLastNonceRequest.

Definition NewMessageBlockchainLastNonceResponse (result : Z) : MessageHandler :=
  new_message MessageKind.BlockchainLastNonceResponse (MessageBlockchainLastNonceResponse result).

Definition NewMessageBlockchainLastRoundRequest : MessageHandler :=
  new_message MessageKind.BlockchainLastRoundRequest MessageBlockchainLastRoundRequest.

Definition NewMessageBlockchainLastRoundResponse (result : Z) : MessageHandler :=
  new_message MessageKind.BlockchainLastRoundResponse (MessageBlockchainLastRoundResponse result).

Definition NewMessageBlockchainLastTimeStampRequest : MessageHandler :=
  new_message MessageKind.BlockchainLastTimeStampRequest MessageBlockchainLastTimeStampRequest.

Definition NewMessageBlockchainLastTimeStampResponse (result : Z) : MessageHandler :=
  new_message MessageKind.BlockchainLastTimeStampResponse (MessageBlockchainLastTimeStampResponse
    result).

Definition NewMessageBlockchainLastRandomSeedRequest : MessageHandler :=
  new_message MessageKind.BlockchainLastRandomSeedRequest MessageBlockchainLastRandomSeedRequest.

Definition NewMessageBlockchainLastRandomSeedResponse (result : bytes) : MessageHandler :=
  new_message MessageKind.BlockchainLastRandomSeedResponse (MessageBlockchainLastRandomSeedResponse
    result).

Definition NewMessageBlockchainLastEpochRequest : MessageHandler :=
  new_message MessageKind.BlockchainLastEpochRequest MessageBlockchainLastEpochRequest.

Definition NewMessageBlockchainLastEpochResponse (result : Z) : MessageHandler :=
  new_message MessageKind.BlockchainLastEpochResponse (MessageBlockchainLastEpochResponse result).

Definition NewMessageBlockchainGetStateRootHashRequest : MessageHandler :=
  new_message MessageKind.BlockchainGetStateRootHashRequest MessageBlockchainGetStateRootHashRequest.

Definition NewMessageBlockchainGetStateRootHashResponse (result : bytes) : MessageHandler :=
  new_message MessageKind.BlockchainGetStateRootHashResponse
    (MessageBlockchainGetStateRootHashResponse result).

Definition NewMessageBlockchainCurrentNonceRequest : MessageHandler :=
  new_message MessageKind.BlockchainCurrentNonceRequest MessageBlockchainCurrentNonceRequest.

Definition NewMessageBlockchainCurrentNonceResponse (result : Z) : MessageHandler :=
  new_message MessageKind.BlockchainCurrentNonceResponse (MessageBlockchainCurrentNonceResponse
    result).

Definition NewMessageBlockchainCurrentRoundRequest : MessageHandler :=
  new_message MessageKind.BlockchainCurrentRoundRequest MessageBlockchainCurrentRoundRequest.

Definition NewMessageBlockchainCurrentRoundResponse (result : Z) : MessageHandler :=
  new_message MessageKind.BlockchainCurrentRoundResponse (MessageBlockchainCurrentRoundResponse
    result).

Definition NewMessageBlockchainCurrentTimeStampRequest : MessageHandler :=
  new_message MessageKind.BlockchainCurrentTimeStampRequest MessageBlockchainCurrentTimeStampRequest.

Definition NewMessageBlockchainCurrentTimeStampResponse (result : Z) : MessageHandler :=
  new_message MessageKind.BlockchainCurrentTimeStampResponse
    (MessageBlockchainCurrentTimeStampResponse result).

Definition NewMessageBlockchainCurrentRandomSeedRequest : MessageHandler :=
  new_message MessageKind.BlockchainCurrentRandomSeedRequest
    MessageBlockchainCurrentRandomSeedRequest.

Definition NewMessageBlockchainCurrentRandomSeedResponse (result : bytes) : MessageHandler :=
  new_message MessageKind.BlockchainCurrentRandomSeedResponse
    (MessageBlockchainCurrentRandomSeedResponse result).

Definition NewMessageBlockchainCurrentEpochRequest : MessageHandler :=
  new_message MessageKind.BlockchainCurrentEpochRequest MessageBlockchainCurrentEpochRequest.

Definition NewMessageBlockchainCurrentEpochResponse (result : Z) : MessageHandler :=
  new_message MessageKind.BlockchainCurrentEpochResponse (MessageBlockchainCurrentEpochResponse
    result).

Definition NewMessageBlockchainProcessBuiltInFunctionRequest (input : option ContractCallInput) :
    MessageHandler :=
  new_message MessageKind.BlockchainProcessBuiltInFunctionRequest
    (MessageBlockchainProcessBuiltInFunctionRequest input).

Definition NewMessageBlockchainProcessBuiltInFunctionResponse (vmOutput : option VMOutput) (err :
    option error) : MessageHandler :=
  SetError err (new_message MessageKind.BlockchainProcessBuiltInFunctionResponse
    (MessageBlockchainProcessBuiltInFunctionResponse (Some (NewSerializableVMOutput vmOutput)))).

Definition NewMessageBlockchainGetBuiltinFunctionNamesRequest : MessageHandler :=
  new_message MessageKind.BlockchainGetBuiltinFunctionNamesRequest
    MessageBlockchainGetBuiltinFunctionNamesRequest.

Definition NewMessageBlockchainGetBuiltinFunctionNamesResponse (result : gset bytes) :
    MessageHandler :=
  new_message MessageKind.BlockchainGetBuiltinFunctionNamesResponse
    (MessageBlockchainGetBuiltinFunctionNamesResponse result).

Definition NewMessageBlockchainGetAllStateRequest (address : bytes) : MessageHandler :=
  new_message MessageKind.BlockchainGetAllStateRequest (MessageBlockchainGetAllStateRequest address).

Definition NewMessageBlockchainGetAllStateResponse (result : gmap bytes bytes) (err : option
    error) : MessageHandler :=
  SetError err (new_message MessageKind.BlockchainGetAllStateResponse
    (MessageBlockchainGetAllStateResponse (Some (NewSerializableMapStringBytes result)))).

Definition NewMessageBlockchainGetUserAccountRequest (address : bytes) : MessageHandler :=
  new_message MessageKind.BlockchainGetUserAccountRequest (MessageBlockchainGetUserAccountRequest
    address).

Definition NewMessageBlockchainGetUserAccountResponse (result : option Account) (err : option
    error) : MessageHandler :=
  SetError err (new_message MessageKind.BlockchainGetUserAccountResponse
    (MessageBlockchainGetUserAccountResponse result)).

Definition NewMessageBlockchainGetCodeRequest (account : option Account) : MessageHandler :=
  new_message MessageKind.BlockchainGetCodeRequest (MessageBlockchainGetCodeRequest account).

Definition NewMessageBlockchainGetCodeResponse (code : bytes) : MessageHandler :=
  new_message MessageKind.BlockchainGetCodeResponse (MessageBlockchainGetCodeResponse code).

Definition NewMessageBlockchainGetShardOfAddressRequest (address : bytes) : MessageHandler :=
  new_message MessageKind.BlockchainGetShardOfAddressRequest
    (MessageBlockchainGetShardOfAddressRequest address).

Definition NewMessageBlockchainGetShardOfAddressResponse (result : Z) : MessageHandler :=
  new_message MessageKind.BlockchainGetShardOfAddressResponse
    (MessageBlockchainGetShardOfAddressResponse result).

Definition NewMessageBlockchainIsSmartContractRequest (address : bytes) : MessageHandler :=
  new_message MessageKind.BlockchainIsSmartContractRequest (MessageBlockchainIsSmartContractRequest
    address).

Definition NewMessageBlockchainIsSmartContractResponse (result : bool) : MessageHandler :=
  new_message MessageKind.BlockchainIsSmartContractResponse
    (MessageBlockchainIsSmartContractResponse result).

Definition NewMessageBlockchainIsPayableRequest (address : bytes) : MessageHandler :=
  new_message MessageKind.BlockchainIsPayableRequest (MessageBlockchainIsPayableRequest address).

Definition NewMessageBlockchainIsPayableResponse (result : bool) (err : option error) :
    MessageHandler :=
  SetError err (new_message MessageKind.BlockchainIsPayableResponse
    (MessageBlockchainIsPayableResponse result)).

Definition NewMessageBlockchainSaveCompiledCodeRequest (codeHash : bytes) (code : bytes) :
    MessageHandler :=
  new_message MessageKind.BlockchainSaveCompiledCodeRequest
    (MessageBlockchainSaveCompiledCodeRequest codeHash code).

Definition NewMessageBlockchainSaveCompiledCodeResponse : MessageHandler :=
  new_message MessageKind.BlockchainSaveCompiledCodeResponse
    MessageBlockchainSaveCompiledCodeResponse.

Definition NewMessageBlockchainGetCompiledCodeRequest (codeHash : bytes) : MessageHandler :=
  new_message MessageKind.BlockchainGetCompiledCodeRequest (MessageBlockchainGetCompiledCodeRequest
    codeHash).

Definition NewMessageBlockchainGetCompiledCodeResponse (found : bool) (code : bytes) :
    MessageHandler :=
  new_message MessageKind.BlockchainGetCompiledCodeResponse
    (MessageBlockchainGetCompiledCodeResponse found code).

Definition NewMessageBlockchainClearCompiledCodesRequest : MessageHandler :=
  new_message MessageKind.BlockchainClearCompiledCodesRequest
    MessageBlockchainClearCompiledCodesRequest.

Definition NewMessageBlockchainClearCompiledCodesResponse : MessageHandler :=
  new_message MessageKind.BlockchainClearCompiledCodesResponse
    MessageBlockchainClearCompiledCodesResponse.

Definition NewMessageBlockchainGetESDTTokenRequest (address : bytes) (tokenID : bytes) (nonce : Z)
    : MessageHandler :=
  new_message MessageKind.BlockchainGetESDTTokenRequest (MessageBlockchainGetESDTTokenRequest
    address tokenID nonce).

Definition NewMessageBlockchainGetESDTTokenResponse (result : option ESDigitalToken) (err : option
    error) : MessageHandler :=
  SetError err (new_message MessageKind.BlockchainGetESDTTokenResponse
    (MessageBlockchainGetESDTTokenResponse result)).

Definition NewMessageBlockchainIsInterfaceNilRequest : MessageHandler :=
  new_message MessageKind.BlockchainIsInterfaceNilRequest MessageBlockchainIsInterfaceNilRequest.

Definition NewMessageBlockchainIsInterfaceNilResponse (result : bool) : MessageHandler :=
  new_message MessageKind.BlockchainIsInterfaceNilResponse (MessageBlockchainIsInterfaceNilResponse
    result).

Definition NewMessageBlockchainGetSnapshotRequest : MessageHandler :=
  new_message MessageKind.BlockchainGetSnapshotRequest MessageBlockchainGetSnapshotRequest.

Definition NewMessageBlockchainGetSnapshotResponse (result : Z) : MessageHandler :=
  new_message MessageKind.BlockchainGetSnapshotResponse (MessageBlockchainGetSnapshotResponse
    result).

Definition NewMessageBlockchainRevertToSnapshotRequest (snapshot : Z) : MessageHandler :=
  new_message MessageKind.BlockchainRevertToSnapshotRequest
    (MessageBlockchainRevertToSnapshotRequest snapshot).

Definition NewMessageBlockchainRevertToSnapshotResponse (err : option error) : MessageHandler :=
  SetError err (new_message MessageKind.BlockchainRevertToSnapshotResponse
    MessageBlockchainRevertToSnapshotResponse).

End Constructors.

(** ** The factory ([messagesFactory.go]) *)

Definition createMessageInitialize : MessageHandler :=
  mkMessageHandler zeroMessage (MessageInitialize zeroVMArguments).
Definition createMessageStop : MessageHandler :=
  mkMessageHandler zeroMessage MessageStop.
Definition createMessageContractDeployRequest : MessageHandler :=
  mkMessageHandler zeroMessage (MessageContractDeployRequest None).
Definition createMessageContractCallRequest : MessageHandler :=
  mkMessageHandler zeroMessage (MessageContractCallRequest None).
Definition createMessageContractResponse : MessageHandler :=
  mkMessageHandler zeroMessage (MessageContractResponse None).
Definition createMessageDiagnoseWaitRequest : MessageHandler :=
  mkMessageHandler zeroMessage (MessageDiagnoseWaitRequest 0).
Definition createMessageDiagnoseWaitResponse : MessageHandler :=
  mkMessageHandler zeroMessage MessageDiagnoseWaitResponse.
Definition createMessageVersionRequest : MessageHandler :=
  mkMessageHandler zeroMessage MessageVersionRequest.
Definition createMessageVersionResponse : MessageHandler :=
  mkMessageHandler zeroMessage (MessageVersionResponse []).
Definition createUndefinedMessage : MessageHandler :=
  NewUndefinedMessage.
Definition createMessageBlockchainNewAddressRequest : MessageHandler :=
  mkMessageHandler zeroMessage (MessageBlockchainNewAddressRequest [] 0 []).
Definition createMessageBlockchainNewAddressResponse : MessageHandler :=
  mkMessageHandler zeroMessage (MessageBlockchainNewAddressResponse []).
Definition createMessageBlockchainGetStorageDataRequest : MessageHandler :=
  mkMessageHandler zeroMessage (MessageBlockchainGetStorageDataRequest [] []).
Definition createMessageBlockchainGetStorageDataResponse : MessageHandler :=
  mkMessageHandler zeroMessage (MessageBlockchainGetStorageDataResponse []).
Definition createMessageBlockchainGetBlockhashRequest : MessageHandler :=
  mkMessageHandler zeroMessage (MessageBlockchainGetBlockhashRequest 0).
Definition createMessageBlockchainGetBlockhashResponse : MessageHandler :=
  mkMessageHandler zeroMessage (MessageBlockchainGetBlockhashResponse []).
Definition createMessageBlockchainLastNonceRequest : MessageHandler :=
  mkMessageHandler zeroMessage MessageBlockchainLastNonceRequest.
Definition createMessageBlockchainLastNonceResponse : MessageHandler :=
  mkMessageHandler zeroMessage (MessageBlockchainLastNonceResponse 0).
Definition createMessageBlockchainLastRoundRequest : MessageHandler :=
  mkMessageHandler zeroMessage MessageBlockchainLastRoundRequest.
Definition createMessageBlockchainLastRoundResponse : MessageHandler :=
  mkMessageHandler zeroMessage (MessageBlockchainLastRoundResponse 0).
Definition createMessageBlockchainLastTimeStampRequest : MessageHandler :=
  mkMessageHandler zeroMessage MessageBlockchainLastTimeStampRequest.
Definition createMessageBlockchainLastTimeStampResponse : MessageHandler :=
  mkMessageHandler zeroMessage (MessageBlockchainLastTimeStampResponse 0).
Definition createMessageBlockchainLastRandomSeedRequest : MessageHandler :=
  mkMessageHandler zeroMessage MessageBlockchainLastRandomSeedRequest.
Definition createMessageBlockchainLastRandomSeedResponse : MessageHandler :=
  mkMessageHandler zeroMessage (MessageBlockchainLastRandomSeedResponse []).
Definition createMessageBlockchainLastEpochRequest : MessageHandler :=
  mkMessageHandler zeroMessage MessageBlockchainLastEpochRequest.
Definition createMessageBlockchainLastEpochResponse : MessageHandler :=
  mkMessageHandler zeroMessage (MessageBlockchainLastEpochResponse 0).
Definition createMessageBlockchainGetStateRootHashRequest : MessageHandler :=
  mkMessageHandler zeroMessage MessageBlockchainGetStateRootHashRequest.
Definition createMessageBlockchainGetStateRootHashResponse : MessageHandler :=
  mkMessageHandler zeroMessage (MessageBlockchainGetStateRootHashResponse []).
Definition createMessageBlockchainCurrentNonceRequest : MessageHandler :=
  mkMessageHandler zeroMessage MessageBlockchainCurrentNonceRequest.
Definition createMessageBlockchainCurrentNonceResponse : MessageHandler :=
  mkMessageHandler zeroMessage (MessageBlockchainCurrentNonceResponse 0).
Definition createMessageBlockchainCurrentRoundRequest : MessageHandler :=
  mkMessageHandler zeroMessage MessageBlockchainCurrentRoundRequest.
Definition createMessageBlockchainCurrentRoundResponse : MessageHandler :=
  mkMessageHandler zeroMessage (MessageBlockchainCurrentRoundResponse 0).
Definition createMessageBlockchainCurrentTimeStampRequest : MessageHandler :=
  mkMessageHandler zeroMessage MessageBlockchainCurrentTimeStampRequest.
Definition createMessageBlockchainCurrentTimeStampResponse : MessageHandler :=
  mkMessageHandler zeroMessage (MessageBlockchainCurrentTimeStampResponse 0).
Definition createMessageBlockchainCurrentRandomSeedRequest : MessageHandler :=
  mkMessageHandler zeroMessage MessageBlockchainCurrentRandomSeedRequest.
Definition createMessageBlockchainCurrentRandomSeedResponse : MessageHandler :=
  mkMessageHandler zeroMessage (MessageBlockchainCurrentRandomSeedResponse []).
Definition createMessageBlockchainCurrentEpochRequest : MessageHandler :=
  mkMessageHandler zeroMessage MessageBlockchainCurrentEpochRequest.
Definition createMessageBlockchainCurrentEpochResponse : MessageHandler :=
  mkMessageHandler zeroMessage (MessageBlockchainCurrentEpochResponse 0).
Definition createMessageBlockchainProcessBuiltInFunctionRequest : MessageHandler :=
  mkMessageHandler zeroMessage (MessageBlockchainProcessBuiltInFunctionRequest None).
Definition createMessageBlockchainProcessBuiltInFunctionResponse : MessageHandler :=
  mkMessageHandler zeroMessage (MessageBlockchainProcessBuiltInFunctionResponse None).
Definition createMessageBlockchainGetBuiltinFunctionNamesRequest : MessageHandler :=
  mkMessageHandler zeroMessage MessageBlockchainGetBuiltinFunctionNamesRequest.
Definition createMessageBlockchainGetBuiltinFunctionNamesResponse : MessageHandler :=
  mkMessageHandler zeroMessage (MessageBlockchainGetBuiltinFunctionNamesResponse ∅).
Definition createMessageBlockchainGetAllStateRequest : MessageHandler :=
  mkMessageHandler zeroMessage (MessageBlockchainGetAllStateRequest []).
Definition createMessageBlockchainGetAllStateResponse : MessageHandler :=
  mkMessageHandler zeroMessage (MessageBlockchainGetAllStateResponse None).
Definition createMessageBlockchainGetUserAccountRequest : MessageHandler :=
  mkMessageHandler zeroMessage (MessageBlockchainGetUserAccountRequest []).
Definition createMessageBlockchainGetUserAccountResponse : MessageHandler :=
  mkMessageHandler zeroMessage (MessageBlockchainGetUserAccountResponse None).
Definition createMessageBlockchainGetCodeRequest : MessageHandler :=
  mkMessageHandler zeroMessage (MessageBlockchainGetCodeRequest None).
Definition createMessageBlockchainGetCodeResponse : MessageHandler :=
  mkMessageHandler zeroMessage (MessageBlockchainGetCodeResponse []).
Definition createMessageBlockchainGetShardOfAddressRequest : MessageHandler :=
  mkMessageHandler zeroMessage (MessageBlockchainGetShardOfAddressRequest []).
Definition createMessageBlockchainGetShardOfAddressResponse : MessageHandler :=
  mkMessageHandler zeroMessage (MessageBlockchainGetShardOfAddressResponse 0).
Definition createMessageBlockchainIsSmartContractRequest : MessageHandler :=
  mkMessageHandler zeroMessage (MessageBlockchainIsSmartContractRequest []).
Definition createMessageBlockchainIsSmartContractResponse : MessageHandler :=
  mkMessageHandler zeroMessage (MessageBlockchainIsSmartContractResponse false).
Definition createMessageBlockchainIsPayableRequest : MessageHandler :=
  mkMessageHandler zeroMessage (MessageBlockchainIsPayableRequest []).
Definition createMessageBlockchainIsPayableResponse : MessageHandler :=
  mkMessageHandler zeroMessage (MessageBlockchainIsPayableResponse false).
Definition createMessageBlockchainSaveCompiledCodeRequest : MessageHandler :=
  mkMessageHandler zeroMessage (MessageBlockchainSaveCompiledCodeRequest [] []).
Definition createMessageBlockchainSaveCompiledCodeResponse : MessageHandler :=
  mkMessageHandler zeroMessage MessageBlockchainSaveCompiledCodeResponse.
Definition createMessageBlockchainGetCompiledCodeRequest : MessageHandler :=
  mkMessageHandler zeroMessage (MessageBlockchainGetCompiledCodeRequest []).
Definition createMessageBlockchainGetCompiledCodeResponse : MessageHandler :=
  mkMessageHandler zeroMessage (MessageBlockchainGetCompiledCodeResponse false []).
Definition createMessageBlockchainClearCompiledCodesRequest : MessageHandler :=
  mkMessageHandler zeroMessage MessageBlockchainClearCompiledCodesRequest.
Definition createMessageBlockchainClearCompiledCodesResponse : MessageHandler :=
  mkMessageHandler zeroMessage MessageBlockchainClearCompiledCodesResponse.
Definition createMessageBlockchainGetESDTTokenRequest : MessageHandler :=
  mkMessageHandler zeroMessage (MessageBlockchainGetESDTTokenRequest [] [] 0).
Definition createMessageBlockchainGetESDTTokenResponse : MessageHandler :=
  mkMessageHandler zeroMessage (MessageBlockchainGetESDTTokenResponse None).
Definition createMessageBlockchainIsInterfaceNilRequest : MessageHandler :=
  mkMessageHandler zeroMessage MessageBlockchainIsInterfaceNilRequest.
Definition createMessageBlockchainIsInterfaceNilResponse : MessageHandler :=
  mkMessageHandler zeroMessage (MessageBlockchainIsInterfaceNilResponse false).
Definition createMessageBlockchainGetSnapshotRequest : MessageHandler :=
  mkMessageHandler zeroMessage MessageBlockchainGetSnapshotRequest.
Definition createMessageBlockchainGetSnapshotResponse : MessageHandler :=
  mkMessageHandler zeroMessage (MessageBlockchainGetSnapshotResponse 0).
Definition createMessageBlockchainRevertToSnapshotRequest : MessageHandler :=
  mkMessageHandler zeroMessage (MessageBlockchainRevertToSnapshotRequest 0).
Definition createMessageBlockchainRevertToSnapshotResponse : MessageHandler :=
  mkMessageHandler zeroMessage MessageBlockchainRevertToSnapshotResponse.

(** The assignments of [init]. *)
Definition creators_assigned : list (Z * MessageHandler) :=
  [
    (MessageKind.Initialize, createMessageInitialize);
    (MessageKind.Stop, createMessageStop);
    (MessageKind.ContractDeployRequest, createMessageContractDeployRequest);
    (MessageKind.ContractCallRequest, createMessageContractCallRequest);
    (MessageKind.ContractResponse, createMessageContractResponse);
    (MessageKind.DiagnoseWaitRequest, createMessageDiagnoseWaitRequest);
    (MessageKind.DiagnoseWaitResponse, createMessageDiagnoseWaitResponse);
    (MessageKind.VersionRequest, createMessageVersionRequest);
    (MessageKind.VersionResponse, createMessageVersionResponse);
    (MessageKind.BlockchainNewAddressRequest, createMessageBlockchainNewAddressRequest);
    (MessageKind.BlockchainNewAddressResponse, createMessageBlockchainNewAddressResponse);
    (MessageKind.BlockchainGetStorageDataRequest, createMessageBlockchainGetStorageDataRequest);
    (MessageKind.BlockchainGetStorageDataResponse, createMessageBlockchainGetStorageDataResponse);
    (MessageKind.BlockchainGetBlockhashRequest, createMessageBlockchainGetBlockhashRequest);
    (MessageKind.BlockchainGetBlockhashResponse, createMessageBlockchainGetBlockhashResponse);
    (MessageKind.BlockchainLastNonceRequest, createMessageBlockchainLastNonceRequest);
    (MessageKind.BlockchainLastNonceResponse, createMessageBlockchainLastNonceResponse);
    (MessageKind.BlockchainLastRoundRequest, createMessageBlockchainLastRoundRequest);
    (MessageKind.BlockchainLastRoundResponse, createMessageBlockchainLastRoundResponse);
    (MessageKind.BlockchainLastTimeStampRequest, createMessageBlockchainLastTimeStampRequest);
    (MessageKind.BlockchainLastTimeStampResponse, createMessageBlockchainLastTimeStampResponse);
    (MessageKind.BlockchainLastRandomSeedRequest, createMessageBlockchainLastRandomSeedRequest);
    (MessageKind.BlockchainLastRandomSeedResponse, createMessageBlockchainLastRandomSeedResponse);
    (MessageKind.BlockchainLastEpochRequest, createMessageBlockchainLastEpochRequest);
    (MessageKind.BlockchainLastEpochResponse, createMessageBlockchainLastEpochResponse);
    (MessageKind.BlockchainGetStateRootHashRequest, createMessageBlockchainGetStateRootHashRequest);
    (MessageKind.BlockchainGetStateRootHashResponse, createMessageBlockchainGetStateRootHashResponse);
    (MessageKind.BlockchainCurrentNonceRequest, createMessageBlockchainCurrentNonceRequest);
    (MessageKind.BlockchainCurrentNonceResponse, createMessageBlockchainCurrentNonceResponse);
    (MessageKind.BlockchainCurrentRoundRequest, createMessageBlockchainCurrentRoundRequest);
    (MessageKind.BlockchainCurrentRoundResponse, createMessageBlockchainCurrentRoundResponse);
    (MessageKind.BlockchainCurrentTimeStampRequest, createMessageBlockchainCurrentTimeStampRequest);
    (MessageKind.BlockchainCurrentTimeStampResponse, createMessageBlockchainCurrentTimeStampResponse);
    (MessageKind.BlockchainCurrentRandomSeedRequest, createMessageBlockchainCurrentRandomSeedRequest);
    (MessageKind.BlockchainCurrentRandomSeedResponse, createMessageBlockchainCurrentRandomSeedResponse);
    (MessageKind.BlockchainCurrentEpochRequest, createMessageBlockchainCurrentEpochRequest);
    (MessageKind.BlockchainCurrentEpochResponse, createMessageBlockchainCurrentEpochResponse);
    (MessageKind.BlockchainProcessBuiltInFunctionRequest, createMessageBlockchainProcessBuiltInFunctionRequest);
    (MessageKind.BlockchainProcessBuiltInFunctionResponse, createMessageBlockchainProcessBuiltInFunctionResponse);
    (MessageKind.BlockchainGetBuiltinFunctionNamesRequest, createMessageBlockchainGetBuiltinFunctionNamesRequest);
    (MessageKind.BlockchainGetBuiltinFunctionNamesResponse, createMessageBlockchainGetBuiltinFunctionNamesResponse);
    (MessageKind.BlockchainGetAllStateRequest, createMessageBlockchainGetAllStateRequest);
    (MessageKind.BlockchainGetAllStateResponse, createMessageBlockchainGetAllStateResponse);
    (MessageKind.BlockchainGetUserAccountRequest, createMessageBlockchainGetUserAccountRequest);
    (MessageKind.BlockchainGetUserAccountResponse, createMessageBlockchainGetUserAccountResponse);
    (MessageKind.BlockchainGetCodeRequest, createMessageBlockchainGetCodeRequest);
    (MessageKind.BlockchainGetCodeResponse, createMessageBlockchainGetCodeResponse);
    (MessageKind.BlockchainGetShardOfAddressRequest, createMessageBlockchainGetShardOfAddressRequest);
    (MessageKind.BlockchainGetShardOfAddressResponse, createMessageBlockchainGetShardOfAddressResponse);
    (MessageKind.BlockchainIsSmartContractRequest, createMessageBlockchainIsSmartContractRequest);
    (MessageKind.BlockchainIsSmartContractResponse, createMessageBlockchainIsSmartContractResponse);
    (MessageKind.BlockchainIsPayableRequest, createMessageBlockchainIsPayableRequest);
    (MessageKind.BlockchainIsPayableResponse, createMessageBlockchainIsPayableResponse);
    (MessageKind.BlockchainSaveCompiledCodeRequest, createMessageBlockchainSaveCompiledCodeRequest);
    (MessageKind.BlockchainSaveCompiledCodeResponse, createMessageBlockchainSaveCompiledCodeResponse);
    (MessageKind.BlockchainGetCompiledCodeRequest, createMessageBlockchainGetCompiledCodeRequest);
    (MessageKind.BlockchainGetCompiledCodeResponse, createMessageBlockchainGetCompiledCodeResponse);
    (MessageKind.BlockchainClearCompiledCodesRequest, createMessageBlockchainClearCompiledCodesRequest);
    (MessageKind.BlockchainClearCompiledCodesResponse, createMessageBlockchainClearCompiledCodesResponse);
    (MessageKind.BlockchainGetESDTTokenRequest, createMessageBlockchainGetESDTTokenRequest);
    (MessageKind.BlockchainGetESDTTokenResponse, createMessageBlockchainGetESDTTokenResponse);
    (MessageKind.BlockchainIsInterfaceNilRequest, createMessageBlockchainIsInterfaceNilRequest);
    (MessageKind.BlockchainIsInterfaceNilResponse, createMessageBlockchainIsInterfaceNilResponse);
    (MessageKind.BlockchainGetSnapshotRequest, createMessageBlockchainGetSnapshotRequest);
    (MessageKind.BlockchainGetSnapshotResponse, createMessageBlockchainGetSnapshotResponse);
    (MessageKind.BlockchainRevertToSnapshotRequest, createMessageBlockchainRevertToSnapshotRequest);
    (MessageKind.BlockchainRevertToSnapshotResponse, createMessageBlockchainRevertToSnapshotResponse)
  ].

Definition messageCreators : list MessageHandler :=
  fold_left (fun creators '(kind, creator) => <[Z.to_nat kind := creator]> creators)
    creators_assigned (replicate (Z.to_nat MessageKind.LastKind) createUndefinedMessage).

Definition CreateMessage (kind : Z) : MessageHandler :=
  match messageCreators !! Z.to_nat kind with
  | Some message => SetKind kind message
  | None => createUndefinedMessage
  end.
