(* ===== verification/IpcPipes.v ===== *)
(** Processes that talk through pipes, and how messages travel
    ([src/ipc/common/sender.go], [receiver.go], [messenger.go], [arguments.go] and
    [src/ipc/marshaling]).

    A process is a tree of its writes and reads; what a read gives is what the
    other side wrote.  [io.ReadFull] of [n] bytes is one read: it waits until the
    pipe has them.  The marshalizers are those of the standard library
    ([encoding/json] and [encoding/gob]): parameters. *)
From S2P Require Import Prelude Errors Types State GasConfig IpcMessages.

#[local] Open Scope Z_scope.

(** ** Processes *)

Inductive proc (A : Type) :=
| PRet (a : A)
| PWrite (data : bytes) (k : option error -> proc A)
| PRead (n : nat) (k : error + bytes -> proc A).
Arguments PRet {A} a.
Arguments PWrite {A} data k.
Arguments PRead {A} n k.

Fixpoint proc_bind {A B} (f : A -> proc B) (p : proc A) : proc B :=
  match p with
  | PRet a => f a
  | PWrite data k => PWrite data (fun err => proc_bind f (k err))
  | PRead n k => PRead n (fun r => proc_bind f (k r))
  end.

(** An operation of a part: it has the state of the part, reads and writes, and may
    panic ([None]). *)
Definition Act (S A : Type) : Type := S -> proc (S * option A).

#[export] Instance Act_ret {S} : MRet (Act S) := fun A a s => PRet (s, Some a).

#[export] Instance Act_bind {S} : MBind (Act S) := fun A B f m s =>
  proc_bind (fun '(s', r) => match r with Some a => f a s' | None => PRet (s', None) end) (m s).

Section Operations.
Context {S : Type}.

Definition act_panic {A} : Act S A := fun s => PRet (s, None).
Definition act_deref {A} (o : option A) : Act S A := fun s => PRet (s, o).
Definition act_get : Act S S := fun s => PRet (s, Some s).
Definition act_modify (f : S -> S) : Act S unit := fun s => PRet (f s, Some tt).

(** [file.Write] *)
Definition Write (data : bytes) : Act S (option error) :=
  fun s => PWrite data (fun err => PRet (s, Some err)).

(** [io.ReadFull] *)
Definition ReadFull (n : nat) : Act S (error + bytes) :=
  fun s => PRead n (fun r => PRet (s, Some r)).

End Operations.

(** ** Marshalizers ([marshaling/core.go], [factory.go]) *)

Definition JSON : Z := 0.
Definition Gob : Z := 1.

(** [Unmarshal] decodes over a message that [CreateMessage] made. *)
Class Marshalizer := {
  Marshal : MessageHandler -> error + bytes;
  Unmarshal : MessageHandler -> bytes -> error + MessageHandler;
}.

(** ** Sender and receiver *)

Section Messages.
Context {S : Type} `{Mar : Marshalizer}.

Definition sendMessageLengthAndKind (length kind : Z) : Act S (option error) :=
  Write (PutUint32 (u32 length) ++ PutUint32 (u32 kind)).

Definition Sender_Send (message : MessageHandler) : Act S (Z * option error) :=
  match Marshal message with
  | inl err => mret (0, Some err)
  | inr dataBytes =>
      let length := len dataBytes in
      err ← sendMessageLengthAndKind length (GetKind message);
      match err with
      | Some err => mret (0, Some err)
      | None =>
          err ← Write dataBytes;
          match err with
          | Some err => mret (0, Some err)
          | None => mret (length, None)
          end
      end
  end.

Definition receiveMessageLengthAndKind : Act S (error + Z * Z) :=
  buffer ← ReadFull 8;
  match buffer with
  | inl err => mret (inl err)
  | inr [a0; a1; a2; a3; b0; b1; b2; b3] =>
      mret (inr (LittleEndian_Uint32 a0 a1 a2 a3, LittleEndian_Uint32 b0 b1 b2 b3))
  | inr _ => act_panic
  end.

Definition readMessage (kind length : Z) : Act S (error + MessageHandler) :=
  buffer ← ReadFull (Z.to_nat length);
  match buffer with
  | inl err => mret (inl err)
  | inr buffer => mret (Unmarshal (CreateMessage kind) buffer)
  end.

(** [os.ErrDeadlineExceeded] *)
Definition ErrDeadlineExceeded : error := ErrNew (bs "i/o timeout").

(** [expired]: the message is not there when the deadline passes.  There is a
    deadline only if [timeout] is positive. *)
Definition Receiver_Receive (timeout : Z) (expired : bool) :
    Act S (error + MessageHandler * Z) :=
  if (0 <? timeout) && expired then mret (inl ErrDeadlineExceeded)
  else
    header ← receiveMessageLengthAndKind;
    match header with
    | inl err => mret (inl err)
    | inr (length, kind) =>
        message ← readMessage kind length;
        match message with
        | inl err => mret (inl err)
        | inr message => mret (inr (message, length))
        end
    end.

End Messages.

(** ** Messengers ([messenger.go]) *)

Record Messenger := mkMessenger {
  m_Name : bytes;
  m_Nonce : Z;
}.

Definition NewMessengerPipes (name : bytes) : Messenger := mkMessenger name 0.

Section Messenger.
Context `{Mar : Marshalizer}.

Definition Send (message : MessageHandler) : Act Messenger (option error) :=
  act_modify (fun m => mkMessenger (m_Name m) (u32 (m_Nonce m + 1))) ;;
  messenger ← act_get;
  let message := SetNonce (m_Nonce messenger) message in
  '(_, err) ← Sender_Send message;
  mret err.

Definition Receive (timeout : Z) (expired : bool) : Act Messenger (error + MessageHandler) :=
  r ← Receiver_Receive timeout expired;
  match r with
  | inl err => mret (inl err)
  | inr (message, _) =>
      messenger ← act_get;
      let messageNonce := GetNonce_ message in
      if negb (messageNonce =? u32 (m_Nonce messenger + 1)) then
        mret (inl ErrInvalidMessageNonce)
      else
        act_modify (fun m => mkMessenger (m_Name m) messageNonce) ;;
        mret (inr message)
  end.

Definition ResetDialogue : Act Messenger unit :=
  act_modify (fun m => mkMessenger (m_Name m) 0).

Definition Reset : Act Messenger unit := ResetDialogue.

End Messenger.

(** ** The arguments of the VM ([arguments.go]) *)

Section Arguments.
Context `{Mar : Marshalizer}.

Definition SendVMArguments (pipeArguments : VMArguments) : Act unit (option error) :=
  '(_, err) ← Sender_Send (NewMessageInitialize pipeArguments);
  mret err.

Definition GetVMArguments : Act unit (error + VMArguments) :=
  r ← Receiver_Receive 0 false;
  match r with
  | inl err => mret (inl err)
  | inr (message, _) =>
      match body message with
      | MessageInitialize arguments => mret (inr arguments)
      | _ => act_panic
      end
  end.

End Arguments.

(** ** Two processes and the pipes between them *)

(** A part loops: its body runs with what the last round left ([inl]) until it
    returns ([inr]) or panics. *)
Section System.
Context {S1 L1 R1 S2 L2 R2 : Type}.

Definition running (S L R : Type) : Type := proc (S * option (L + R)).

Definition ended {S L R} (p : running S L R) : bool :=
  match p with
  | PRet (_, Some (inl _)) => false
  | PRet _ => true
  | _ => false
  end.

(** [syscall.EPIPE], [io.EOF] *)
Definition ErrBrokenPipe : error := ErrNew (bs "broken pipe").
Definition EOF : error := ErrNew (bs "EOF").

(** The next move of a process: what is left of its input, and its output.
    [closed]: the other side has closed its ends of the pipes. *)
Definition advance {S L R} (loop : L -> Act S (L + R)) (p : running S L R) (input : bytes)
    (closed : bool) : option (running S L R * bytes * bytes) :=
  match p with
  | PRet (s, Some (inl l)) => Some (loop l s, input, [])
  | PRet _ => None
  | PWrite data k =>
      if closed then Some (k (Some ErrBrokenPipe), input, []) else Some (k None, input, data)
  | PRead n k =>
      if bool_decide (n <= length input)%nat then
        Some (k (inr (take n input)), drop n input, [])
      else if closed then Some (k (inl EOF), [], []) else None
  end.

Record system := mksystem {
  node : running S1 L1 R1;
  vm : running S2 L2 R2;
  to_vm : bytes;
  to_node : bytes;
}.

Context (node_loop : L1 -> Act S1 (L1 + R1)) (vm_loop : L2 -> Act S2 (L2 + R2)).

(** The Node keeps its ends of the pipes open between transactions; a VM that ended
    has closed its own. *)
Definition node_move (c : system) : option system :=
  match advance node_loop (node c) (to_node c) (ended (vm c)) with
  | Some (p, input, written) => Some (mksystem p (vm c) (to_vm c ++ written) input)
  | None => None
  end.

Definition vm_move (c : system) : option system :=
  match advance vm_loop (vm c) (to_vm c) false with
  | Some (p, input, written) => Some (mksystem (node c) p input (to_node c ++ written))
  | None => None
  end.

(** Either part may move. *)
Inductive step (c c' : system) : Prop :=
| step_node : node_move c = Some c' -> step c c'
| step_vm : vm_move c = Some c' -> step c c'.

(** One schedule: the Node moves whenever it can, until nothing moves. *)
Fixpoint run (fuel : nat) (c : system) : outcome system :=
  match fuel with
  | O => OutOfFuel
  | S fuel' =>
      match node_move c with
      | Some c' => run fuel' c'
      | None =>
          match vm_move c with
          | Some c' => run fuel' c'
          | None => Ret c
          end
      end
  end.

End System.
Arguments system S1 L1 R1 S2 L2 R2 : clear implicits.
