(* ===== verification/IpcParts.v ===== *)
(** The two parts and the driver: the gateway and the loop of the VM
    ([src/ipc/vmpart]), the repliers and the loop of the Node
    ([src/ipc/nodepart/blockchainRepliers.go], [part.go], [messenger.go]) and
    the operations of [VMDriver] ([vmDriver.go]).

    The VM host is behind [vmcommon.VMExecutionHandler]: a parameter, whose runs
    are trees of calls of the hook.  The time messages take is an input of the
    Node: how long each took to come, and whether its deadline passed first. *)
From S2P Require Import Prelude Errors Types State GasConfig IpcMessages IpcPipes.

#[local] Open Scope Z_scope.

(** ** The blockchain hook *)

(** The methods of the hook that [Externals] does not have. *)
Class HookExtra `{Ext : Externals} := {
  bh_GetAllState : World -> bytes -> gmap bytes bytes * option error;
  bh_GetBuiltinFunctionNames : World -> gset bytes;
  bh_ClearCompiledCodes : World -> World;
  bh_IsInterfaceNil : World -> bool;
}.

(** The calls of [vmcommon.BlockchainHook] that the gateway forwards. *)
Inductive hook_call : Type -> Type :=
| NewAddress (creatorAddress : bytes) (creatorNonce : Z) (vmType : bytes) : hook_call (bytes * option error)
| GetStorageData (accountAddress : bytes) (index : bytes) : hook_call (bytes * option error)
| GetBlockhash (nonce : Z) : hook_call (bytes * option error)
| LastNonce : hook_call Z
| LastRound : hook_call Z
| LastTimeStamp : hook_call Z
| LastRandomSeed : hook_call bytes
| LastEpoch : hook_call Z
| GetStateRootHash : hook_call bytes
| CurrentNonce : hook_call Z
| CurrentRound : hook_call Z
| CurrentTimeStamp : hook_call Z
| CurrentRandomSeed : hook_call bytes
| CurrentEpoch : hook_call Z
| ProcessBuiltInFunction (input : ContractCallInput) : hook_call (option VMOutput * option error)
| GetBuiltinFunctionNames : hook_call (gset bytes)
| GetAllState (address : bytes) : hook_call (gmap bytes bytes * option error)
| GetUserAccount (address : bytes) : hook_call (option UserAccount * option error)
| GetCode (account : UserAccount) : hook_call bytes
| GetShardOfAddress (address : bytes) : hook_call Z
| IsSmartContract (address : bytes) : hook_call bool
| IsPayable (address : bytes) : hook_call (bool * option error)
| SaveCompiledCode (codeHash : bytes) (code : bytes) : hook_call unit
| GetCompiledCode (codeHash : bytes) : hook_call (bool * bytes)
| ClearCompiledCodes : hook_call unit
| GetESDTToken (address : bytes) (tokenID : bytes) (nonce : Z) : hook_call (option ESDigitalToken * option error)
| GetSnapshot : hook_call Z
| RevertToSnapshot (snapshot : Z) : hook_call (option error).

(** A run of the host: a call of the hook that panics gives [None]. *)
Inductive hook_program (A : Type) : Type :=
| Return (a : A)
| Call {X : Type} (c : hook_call X) (k : option X -> hook_program A).
Arguments Return {A} a.
Arguments Call {A X} c k.

(** [vmcommon.VMExecutionHandler] *)
Class ExecutionHandler := {
  Host : Type;
  NewVMHost : VMHostParameters -> error + Host;
  RunSmartContractCreate :
    Host -> option ContractCreateInput -> hook_program (Host * (option VMOutput * option error));
  RunSmartContractCall :
    Host -> option ContractCallInput -> hook_program (Host * (option VMOutput * option error));
  GasScheduleChange : Host -> GasScheduleMap -> Host;
}.

Section Hook.
Context `{Extra : HookExtra}.

Definition call_hook {X} (c : hook_call X) : World -> World * X :=
  match c in hook_call X return World -> World * X with
  | NewAddress creatorAddress creatorNonce vmType => fun w => (w, bh_NewAddress w creatorAddress creatorNonce vmType)
  | GetStorageData accountAddress index => fun w => (w, bh_GetStorageData w accountAddress index)
  | GetBlockhash nonce => fun w => (w, bh_GetBlockhash w nonce)
  | LastNonce => fun w => (w, bh_LastNonce w)
  | LastRound => fun w => (w, bh_LastRound w)
  | LastTimeStamp => fun w => (w, bh_LastTimeStamp w)
  | LastRandomSeed => fun w => (w, bh_LastRandomSeed w)
  | LastEpoch => fun w => (w, bh_LastEpoch w)
  | GetStateRootHash => fun w => (w, bh_GetStateRootHash w)
  | CurrentNonce => fun w => (w, bh_CurrentNonce w)
  | CurrentRound => fun w => (w, bh_CurrentRound w)
  | CurrentTimeStamp => fun w => (w, bh_CurrentTimeStamp w)
  | CurrentRandomSeed => fun w => (w, bh_CurrentRandomSeed w)
  | CurrentEpoch => fun w => (w, bh_CurrentEpoch w)
  | ProcessBuiltInFunction input => fun w => bh_ProcessBuiltInFunction w input
  | GetBuiltinFunctionNames => fun w => (w, bh_GetBuiltinFunctionNames w)
  | GetAllState address => fun w => (w, bh_GetAllState w address)
  | GetUserAccount address => fun w => (w, bh_GetUserAccount w address)
  | GetCode account => fun w => (w, bh_GetCode w account)
  | GetShardOfAddress address => fun w => (w, bh_GetShardOfAddress w address)
  | IsSmartContract address => fun w => (w, bh_IsSmartContract w address)
  | IsPayable address => fun w => (w, bh_IsPayable w address)
  | SaveCompiledCode codeHash code => fun w => (bh_SaveCompiledCode w codeHash code, tt)
  | GetCompiledCode codeHash => fun w => (w, bh_GetCompiledCode w codeHash)
  | ClearCompiledCodes => fun w => (bh_ClearCompiledCodes w, tt)
  | GetESDTToken address tokenID nonce => fun w => (w, bh_GetESDTToken w address tokenID nonce)
  | GetSnapshot => fun w => (w, bh_GetSnapshot w)
  | RevertToSnapshot snapshot => fun w => bh_RevertToSnapshot w snapshot
  end.

End Hook.

(** ** The part of the VM ([vmpart]) *)

(** [VMMessenger] *)
Section VMMessenger.
Context `{Mar : Marshalizer}.

Definition ReceiveNodeRequest : Act Messenger (error + MessageHandler) :=
  message ← Receive 0 false;
  match message with
  | inl err => mret (inl err)
  | inr message => mret (inr message)
  end.

Definition SendContractResponse (response : MessageHandler) : Act Messenger (option error) :=
  err ← Send response;
  match err with
  | Some err => mret (Some err)
  | None => mret None
  end.

Definition SendHookCallRequest (request : MessageHandler) :
    Act Messenger (error + MessageHandler) :=
  err ← Send request;
  match err with
  | Some _ => mret (inl ErrCannotSendHookCallRequest)
  | None =>
      response ← Receive 0 false;
      match response with
      | inl _ => mret (inl ErrCannotReceiveHookCallResponse)
      | inr response => mret (inr response)
      end
  end.

End VMMessenger.

Module BlockchainHookGateway.
Section Gateway.
Context `{Ext : Externals} `{Mar : Marshalizer} `{Fmt}.

(** Every method sends its request, tests the kind of the response and reads it. *)
Definition forward {X} (request : MessageHandler) (kind : Z) (failed : error -> X)
    (typed : MessageHandler -> option X) : Act Messenger X :=
  rawResponse ← SendHookCallRequest request;
  match rawResponse with
  | inl err => mret (failed err)
  | inr rawResponse =>
      if negb (GetKind rawResponse =? kind) then mret (failed ErrBadHookResponseFromNode)
      else act_deref (typed rawResponse)
  end.

Definition NewAddress (creatorAddress : bytes) (creatorNonce : Z) (vmType : bytes) :
    Act Messenger (bytes * option error) :=
  forward (NewMessageBlockchainNewAddressRequest creatorAddress creatorNonce vmType) MessageKind.BlockchainNewAddressResponse
    (fun err => ([], Some err))
    (fun response =>
      match body response with
      | MessageBlockchainNewAddressResponse Result =>
          Some (Result, GetError response)
      | _ => None
      end).

Definition GetStorageData (accountAddress : bytes) (index : bytes) :
    Act Messenger (bytes * option error) :=
  forward (NewMessageBlockchainGetStorageDataRequest accountAddress index) MessageKind.BlockchainGetStorageDataResponse
    (fun err => ([], Some err))
    (fun response =>
      match body response with
      | MessageBlockchainGetStorageDataResponse Data =>
          Some (Data, GetError response)
      | _ => None
      end).

Definition GetBlockhash (nonce : Z) :
    Act Messenger (bytes * option error) :=
  forward (NewMessageBlockchainGetBlockhashRequest nonce) MessageKind.BlockchainGetBlockhashResponse
    (fun err => ([], Some err))
    (fun response =>
      match body response with
      | MessageBlockchainGetBlockhashResponse Result =>
          Some (Result, GetError response)
      | _ => None
      end).

Definition LastNonce :
    Act Messenger Z :=
  forward NewMessageBlockchainLastNonceRequest MessageKind.BlockchainLastNonceResponse
    (fun _ => 0)
    (fun response =>
      match body response with
      | MessageBlockchainLastNonceResponse Result =>
          Some Result
      | _ => None
      end).

Definition LastRound :
    Act Messenger Z :=
  forward NewMessageBlockchainLastRoundRequest MessageKind.BlockchainLastRoundResponse
    (fun _ => 0)
    (fun response =>
      match body response with
      | MessageBlockchainLastRoundResponse Result =>
          Some Result
      | _ => None
      end).

Definition LastTimeStamp :
    Act Messenger Z :=
  forward NewMessageBlockchainLastTimeStampRequest MessageKind.BlockchainLastTimeStampResponse
    (fun _ => 0)
    (fun response =>
      match body response with
      | MessageBlockchainLastTimeStampResponse Result =>
          Some Result
      | _ => None
      end).

Definition LastRandomSeed :
    Act Messenger bytes :=
  forward NewMessageBlockchainLastRandomSeedRequest MessageKind.BlockchainLastRandomSeedResponse
    (fun _ => [])
    (fun response =>
      match body response with
      | MessageBlockchainLastRandomSeedResponse Result =>
          Some Result
      | _ => None
      end).

Definition LastEpoch :
    Act Messenger Z :=
  forward NewMessageBlockchainLastEpochRequest MessageKind.BlockchainLastEpochResponse
    (fun _ => 0)
    (fun response =>
      match body response with
      | MessageBlockchainLastEpochResponse Result =>
          Some Result
      | _ => None
      end).

Definition GetStateRootHash :
    Act Messenger bytes :=
  forward NewMessageBlockchainGetStateRootHashRequest MessageKind.BlockchainGetStateRootHashResponse
    (fun _ => [])
    (fun response =>
      match body response with
      | MessageBlockchainGetStateRootHashResponse Result =>
          Some Result
      | _ => None
      end).

Definition CurrentNonce :
    Act Messenger Z :=
  forward NewMessageBlockchainCurrentNonceRequest MessageKind.BlockchainCurrentNonceResponse
    (fun _ => 0)
    (fun response =>
      match body response with
      | MessageBlockchainCurrentNonceResponse Result =>
          Some Result
      | _ => None
      end).

Definition CurrentRound :
    Act Messenger Z :=
  forward NewMessageBlockchainCurrentRoundRequest MessageKind.BlockchainCurrentRoundResponse
    (fun _ => 0)
    (fun response =>
      match body response with
      | MessageBlockchainCurrentRoundResponse Result =>
          Some Result
      | _ => None
      end).

Definition CurrentTimeStamp :
    Act Messenger Z :=
  forward NewMessageBlockchainCurrentTimeStampRequest MessageKind.BlockchainCurrentTimeStampResponse
    (fun _ => 0)
    (fun response =>
      match body response with
      | MessageBlockchainCurrentTimeStampResponse Result =>
          Some Result
      | _ => None
      end).

Definition CurrentRandomSeed :
    Act Messenger bytes :=
  forward NewMessageBlockchainCurrentRandomSeedRequest MessageKind.BlockchainCurrentRandomSeedResponse
    (fun _ => [])
    (fun response =>
      match body response with
      | MessageBlockchainCurrentRandomSeedResponse Result =>
          Some Result
      | _ => None
      end).

Definition CurrentEpoch :
    Act Messenger Z :=
  forward NewMessageBlockchainCurrentEpochRequest MessageKind.BlockchainCurrentEpochResponse
    (fun _ => 0)
    (fun response =>
      match body response with
      | MessageBlockchainCurrentEpochResponse Result =>
          Some Result
      | _ => None
      end).

Definition ProcessBuiltInFunction (input : ContractCallInput) :
    Act Messenger (option VMOutput * option error) :=
  forward (NewMessageBlockchainProcessBuiltInFunctionRequest (Some input)) MessageKind.BlockchainProcessBuiltInFunctionResponse
    (fun err => (None, Some err))
    (fun response =>
      match body response with
      | MessageBlockchainProcessBuiltInFunctionResponse VmOutput =>
          match VmOutput with Some o => Some (Some (ConvertToVMOutput o), GetError response) | None => None end
      | _ => None
      end).

Definition GetBuiltinFunctionNames :
    Act Messenger (gset bytes) :=
  forward NewMessageBlockchainGetBuiltinFunctionNamesRequest MessageKind.BlockchainGetBuiltinFunctionNamesResponse
    (fun _ => ∅)
    (fun response =>
      match body response with
      | MessageBlockchainGetBuiltinFunctionNamesResponse Result =>
          Some Result
      | _ => None
      end).

Definition GetAllState (address : bytes) :
    Act Messenger (gmap bytes bytes * option error) :=
  forward (NewMessageBlockchainGetAllStateRequest address) MessageKind.BlockchainGetAllStateResponse
    (fun err => (∅, Some err))
    (fun response =>
      match body response with
      | MessageBlockchainGetAllStateResponse Result =>
          match Result with
        | Some s =>
            match ConvertToMap s with Some m => Some (m, GetError response) | None => None end
        | None => None
        end
      | _ => None
      end).

Definition GetUserAccount (address : bytes) :
    Act Messenger (option UserAccount * option error) :=
  forward (NewMessageBlockchainGetUserAccountRequest address) MessageKind.BlockchainGetUserAccountResponse
    (fun err => (None, Some err))
    (fun response =>
      match body response with
      | MessageBlockchainGetUserAccountResponse Result =>
          Some (account_handler <$> Result, GetError response)
      | _ => None
      end).

Definition GetCode (account : UserAccount) :
    Act Messenger bytes :=
  forward (NewMessageBlockchainGetCodeRequest (Some (account_of account))) MessageKind.BlockchainGetCodeResponse
    (fun _ => [])
    (fun response =>
      match body response with
      | MessageBlockchainGetCodeResponse Code =>
          Some Code
      | _ => None
      end).

Definition GetShardOfAddress (address : bytes) :
    Act Messenger Z :=
  forward (NewMessageBlockchainGetShardOfAddressRequest address) MessageKind.BlockchainGetShardOfAddressResponse
    (fun _ => 0)
    (fun response =>
      match body response with
      | MessageBlockchainGetShardOfAddressResponse Result =>
          Some Result
      | _ => None
      end).

Definition IsSmartContract (address : bytes) :
    Act Messenger bool :=
  forward (NewMessageBlockchainIsSmartContractRequest address) MessageKind.BlockchainIsSmartContractResponse
    (fun _ => false)
    (fun response =>
      match body response with
      | MessageBlockchainIsSmartContractResponse Result =>
          Some Result
      | _ => None
      end).

Definition IsPayable (sender address : bytes) :
    Act Messenger (bool * option error) :=
  forward (NewMessageBlockchainIsPayableRequest address) MessageKind.BlockchainIsPayableResponse
    (fun err => (false, Some err))
    (fun response =>
      match body response with
      | MessageBlockchainIsPayableResponse Result =>
          Some (Result, GetError response)
      | _ => None
      end).

Definition SaveCompiledCode (codeHash : bytes) (code : bytes) :
    Act Messenger unit :=
  forward (NewMessageBlockchainSaveCompiledCodeRequest codeHash code) MessageKind.BlockchainSaveCompiledCodeResponse
    (fun _ => tt) (fun _ => Some tt).

Definition GetCompiledCode (codeHash : bytes) :
    Act Messenger (bool * bytes) :=
  forward (NewMessageBlockchainGetCompiledCodeRequest codeHash) MessageKind.BlockchainGetCompiledCodeResponse
    (fun _ => (false, []))
    (fun response =>
      match body response with
      | MessageBlockchainGetCompiledCodeResponse Found Code =>
          Some (Found, Code)
      | _ => None
      end).

Definition ClearCompiledCodes :
    Act Messenger unit :=
  forward NewMessageBlockchainClearCompiledCodesRequest MessageKind.BlockchainClearCompiledCodesResponse
    (fun _ => tt) (fun _ => Some tt).

Definition GetESDTToken (address : bytes) (tokenID : bytes) (nonce : Z) :
    Act Messenger (option ESDigitalToken * option error) :=
  forward (NewMessageBlockchainGetESDTTokenRequest address tokenID nonce) MessageKind.BlockchainGetESDTTokenResponse
    (fun err => (None, Some err))
    (fun response =>
      match body response with
      | MessageBlockchainGetESDTTokenResponse Result =>
          Some (Result, GetError response)
      | _ => None
      end).

Definition GetSnapshot :
    Act Messenger Z :=
  forward NewMessageBlockchainGetSnapshotRequest MessageKind.BlockchainGetSnapshotResponse
    (fun _ => 0)
    (fun response =>
      match body response with
      | MessageBlockchainGetSnapshotResponse Result =>
          Some Result
      | _ => None
      end).

Definition RevertToSnapshot (snapshot : Z) :
    Act Messenger (option error) :=
  forward (NewMessageBlockchainRevertToSnapshotRequest snapshot) MessageKind.BlockchainRevertToSnapshotResponse
    (fun err => Some err) (fun _ => Some None).

Definition IsPaused (address : bytes) : bool := false.
Definition IsLimitedTransfer (address : bytes) : bool := false.

Definition ExecuteSmartContractCallOnOtherVM (input : option ContractCallInput) :
    option VMOutput * option error :=
  (None, Some (ErrNew (bs "not implemented"))).

End Gateway.
End BlockchainHookGateway.

(** The hook that the VM host is given. *)
Definition gateway `{Ext : Externals} `{Mar : Marshalizer} `{Fmt} {X} (c : hook_call X) :
    Act Messenger X :=
  match c in hook_call X return Act Messenger X with
  | NewAddress creatorAddress creatorNonce vmType => BlockchainHookGateway.NewAddress creatorAddress creatorNonce vmType
  | GetStorageData accountAddress index => BlockchainHookGateway.GetStorageData accountAddress index
  | GetBlockhash nonce => BlockchainHookGateway.GetBlockhash nonce
  | LastNonce => BlockchainHookGateway.LastNonce
  | LastRound => BlockchainHookGateway.LastRound
  | LastTimeStamp => BlockchainHookGateway.LastTimeStamp
  | LastRandomSeed => BlockchainHookGateway.LastRandomSeed
  | LastEpoch => BlockchainHookGateway.LastEpoch
  | GetStateRootHash => BlockchainHookGateway.GetStateRootHash
  | CurrentNonce => BlockchainHookGateway.CurrentNonce
  | CurrentRound => BlockchainHookGateway.CurrentRound
  | CurrentTimeStamp => BlockchainHookGateway.CurrentTimeStamp
  | CurrentRandomSeed => BlockchainHookGateway.CurrentRandomSeed
  | CurrentEpoch => BlockchainHookGateway.CurrentEpoch
  | ProcessBuiltInFunction input => BlockchainHookGateway.ProcessBuiltInFunction input
  | GetBuiltinFunctionNames => BlockchainHookGateway.GetBuiltinFunctionNames
  | GetAllState address => BlockchainHookGateway.GetAllState address
  | GetUserAccount address => BlockchainHookGateway.GetUserAccount address
  | GetCode account => BlockchainHookGateway.GetCode account
  | GetShardOfAddress address => BlockchainHookGateway.GetShardOfAddress address
  | IsSmartContract address => BlockchainHookGateway.IsSmartContract address
  | IsPayable address => BlockchainHookGateway.IsPayable [] address
  | SaveCompiledCode codeHash code => BlockchainHookGateway.SaveCompiledCode codeHash code
  | GetCompiledCode codeHash => BlockchainHookGateway.GetCompiledCode codeHash
  | ClearCompiledCodes => BlockchainHookGateway.ClearCompiledCodes
  | GetESDTToken address tokenID nonce => BlockchainHookGateway.GetESDTToken address tokenID nonce
  | GetSnapshot => BlockchainHookGateway.GetSnapshot
  | RevertToSnapshot snapshot => BlockchainHookGateway.RevertToSnapshot snapshot
  end.

(** Running the host: a panic of the gateway is the host's to recover from. *)
Fixpoint run_program `{Ext : Externals} `{Mar : Marshalizer} `{Fmt} {A}
    (p : hook_program A) : Act Messenger A :=
  match p with
  | Return a => mret a
  | Call c k => fun m => proc_bind (fun '(m', r) => run_program (k r) m') (gateway c m)
  end.

Record VMPart `{ExecutionHandler} := mkVMPart {
  vm_Messenger : Messenger;
  vm_VMHost : Host;
  vm_Version : bytes;
}.

Section VMPart.
Context `{Ext : Externals} `{Mar : Marshalizer} `{Fm : Fmt} `{Handler : ExecutionHandler}.

Definition with_vm_messenger {A} (m : Act Messenger A) : Act VMPart A := fun part =>
  proc_bind (fun '(messenger, r) =>
      PRet (mkVMPart _ messenger (vm_VMHost part) (vm_Version part), r)) (m (vm_Messenger part)).

Definition set_VMHost (host : Host) : Act VMPart unit :=
  act_modify (fun part => mkVMPart _ (vm_Messenger part) host (vm_Version part)).

Definition vm_noopReplier (request : MessageHandler) : Act VMPart MessageHandler :=
  mret (CreateMessage MessageKind.UndefinedRequestOrResponse).

Definition replyToRunSmartContractCreate (request : MessageHandler) :
    Act VMPart MessageHandler :=
  match body request with
  | MessageContractDeployRequest CreateInput =>
      part ← act_get;
      '(host, (vmOutput, err)) ←
        with_vm_messenger (run_program (RunSmartContractCreate (vm_VMHost part) CreateInput));
      set_VMHost host ;;
      mret (NewMessageContractResponse vmOutput err)
  | _ => act_panic
  end.

Definition replyToRunSmartContractCall (request : MessageHandler) : Act VMPart MessageHandler :=
  match body request with
  | MessageContractCallRequest CallInput =>
      part ← act_get;
      '(host, (vmOutput, err)) ←
        with_vm_messenger (run_program (RunSmartContractCall (vm_VMHost part) CallInput));
      set_VMHost host ;;
      mret (NewMessageContractResponse vmOutput err)
  | _ => act_panic
  end.

(** The pause is left out. *)
Definition replyToDiagnoseWait (request : MessageHandler) : Act VMPart MessageHandler :=
  match body request with
  | MessageDiagnoseWaitRequest Milliseconds => mret NewMessageDiagnoseWaitResponse
  | _ => act_panic
  end.

Definition replyToVersionRequest (request : MessageHandler) : Act VMPart MessageHandler :=
  part ← act_get;
  mret (NewMessageVersionResponse (vm_Version part)).

Definition replyToGasScheduleChange (request : MessageHandler) : Act VMPart MessageHandler :=
  match body request with
  | MessageGasScheduleChangeRequest GasSchedule =>
      part ← act_get;
      set_VMHost (GasScheduleChange (vm_VMHost part) GasSchedule) ;;
      mret NewGasScheduleChangeResponse
  | _ => act_panic
  end.

(** [common.CreateReplySlots] *)
Definition CreateReplySlots {R} (noopReplier : R) : list R :=
  replicate (Z.to_nat MessageKind.LastKind) noopReplier.

Definition vm_repliers : list (Z * (MessageHandler -> Act VMPart MessageHandler)) :=
  [
    (MessageKind.ContractDeployRequest, replyToRunSmartContractCreate);
    (MessageKind.ContractCallRequest, replyToRunSmartContractCall);
    (MessageKind.DiagnoseWaitRequest, replyToDiagnoseWait);
    (MessageKind.VersionRequest, replyToVersionRequest);
    (MessageKind.GasScheduleChangeRequest, replyToGasScheduleChange)
  ].

(** [slots[kind] = replier], for each. *)
Definition fill_slots {R} (repliers : list (Z * R)) (slots : list R) : list R :=
  fold_left (fun slots '(kind, replier) => <[Z.to_nat kind := replier]> slots) repliers slots.

Definition vm_Repliers : list (MessageHandler -> Act VMPart MessageHandler) :=
  fill_slots vm_repliers (CreateReplySlots vm_noopReplier).

(** [part.Repliers[kind]] is out of range for a kind from [LastKind] on. *)
Definition replyToNodeRequest (request : MessageHandler) : Act VMPart MessageHandler :=
  match vm_Repliers !! Z.to_nat (GetKind request) with
  | Some replier => replier request
  | None => act_panic
  end.

(** A round of [doLoop]: it ends only with an error. *)
Definition vm_doLoop (_ : unit) : Act VMPart (unit + error) :=
  request ← with_vm_messenger ReceiveNodeRequest;
  match request with
  | inl err => mret (inr err)
  | inr request =>
      if IsStopRequest request then mret (inr ErrStopPerNodeRequest)
      else
        response ← replyToNodeRequest request;
        err ← with_vm_messenger (SendContractResponse response);
        match err with
        | Some err => mret (inr err)
        | None => with_vm_messenger ResetDialogue ;; mret (inl tt)
        end
  end.

(** [StartLoop], up to the loop *)
Definition vm_StartLoop : Act VMPart (unit + error) :=
  with_vm_messenger Reset ;; mret (inl tt).

Definition NewVMPart (version : bytes) (vmHostParameters : VMHostParameters) : error + VMPart :=
  match NewVMHost vmHostParameters with
  | inl err => inl err
  | inr newVMHost => inr (mkVMPart _ (NewMessengerPipes (bs "VM")) newVMHost version)
  end.

End VMPart.

(** ** The part of the Node ([nodepart]) *)

Section Repliers.
Context `{Extra : HookExtra}.

Definition replyToBlockchainNewAddress (request : MessageHandler) (w : World) :
    option (World * MessageHandler) :=
  match body request with
  | MessageBlockchainNewAddressRequest creatorAddress creatorNonce vmType =>
      let '(result, err) := bh_NewAddress w creatorAddress creatorNonce vmType in
      Some (w, NewMessageBlockchainNewAddressResponse result err)
  | _ => None
  end.

Definition replyToBlockchainGetStorageData (request : MessageHandler) (w : World) :
    option (World * MessageHandler) :=
  match body request with
  | MessageBlockchainGetStorageDataRequest accountAddress index =>
      let '(result, err) := bh_GetStorageData w accountAddress index in
      Some (w, NewMessageBlockchainGetStorageDataResponse result err)
  | _ => None
  end.

Definition replyToBlockchainGetBlockhash (request : MessageHandler) (w : World) :
    option (World * MessageHandler) :=
  match body request with
  | MessageBlockchainGetBlockhashRequest nonce =>
      let '(result, err) := bh_GetBlockhash w nonce in
      Some (w, NewMessageBlockchainGetBlockhashResponse result err)
  | _ => None
  end.

Definition replyToBlockchainLastNonce (request : MessageHandler) (w : World) :
    option (World * MessageHandler) :=
  Some (w, NewMessageBlockchainLastNonceResponse (bh_LastNonce w)).

Definition replyToBlockchainLastRound (request : MessageHandler) (w : World) :
    option (World * MessageHandler) :=
  Some (w, NewMessageBlockchainLastRoundResponse (bh_LastRound w)).

Definition replyToBlockchainLastTimeStamp (request : MessageHandler) (w : World) :
    option (World * MessageHandler) :=
  Some (w, NewMessageBlockchainLastTimeStampResponse (bh_LastTimeStamp w)).

Definition replyToBlockchainLastRandomSeed (request : MessageHandler) (w : World) :
    option (World * MessageHandler) :=
  Some (w, NewMessageBlockchainLastRandomSeedResponse (bh_LastRandomSeed w)).

Definition replyToBlockchainLastEpoch (request : MessageHandler) (w : World) :
    option (World * MessageHandler) :=
  Some (w, NewMessageBlockchainLastEpochResponse (bh_LastEpoch w)).

Definition replyToBlockchainGetStateRootHash (request : MessageHandler) (w : World) :
    option (World * MessageHandler) :=
  Some (w, NewMessageBlockchainGetStateRootHashResponse (bh_GetStateRootHash w)).

Definition replyToBlockchainCurrentNonce (request : MessageHandler) (w : World) :
    option (World * MessageHandler) :=
  Some (w, NewMessageBlockchainCurrentNonceResponse (bh_CurrentNonce w)).

Definition replyToBlockchainCurrentRound (request : MessageHandler) (w : World) :
    option (World * MessageHandler) :=
  Some (w, NewMessageBlockchainCurrentRoundResponse (bh_CurrentRound w)).

Definition replyToBlockchainCurrentTimeStamp (request : MessageHandler) (w : World) :
    option (World * MessageHandler) :=
  Some (w, NewMessageBlockchainCurrentTimeStampResponse (bh_CurrentTimeStamp w)).

Definition replyToBlockchainCurrentRandomSeed (request : MessageHandler) (w : World) :
    option (World * MessageHandler) :=
  Some (w, NewMessageBlockchainCurrentRandomSeedResponse (bh_CurrentRandomSeed w)).

Definition replyToBlockchainCurrentEpoch (request : MessageHandler) (w : World) :
    option (World * MessageHandler) :=
  Some (w, NewMessageBlockchainCurrentEpochResponse (bh_CurrentEpoch w)).

Definition replyToBlockchainProcessBuiltInFunction (request : MessageHandler) (w : World) :
    option (World * MessageHandler) :=
  match body request with
  | MessageBlockchainProcessBuiltInFunctionRequest (Some input) =>
      let '(w, (vmOutput, err)) := bh_ProcessBuiltInFunction w input in
      Some (w, NewMessageBlockchainProcessBuiltInFunctionResponse vmOutput err)
  | _ => None
  end.

Definition replyToBlockchainGetBuiltinFunctionNames (request : MessageHandler) (w : World) :
    option (World * MessageHandler) :=
  Some (w, NewMessageBlockchainGetBuiltinFunctionNamesResponse (bh_GetBuiltinFunctionNames w)).

Definition replyToBlockchainGetAllState (request : MessageHandler) (w : World) :
    option (World * MessageHandler) :=
  match body request with
  | MessageBlockchainGetAllStateRequest address =>
      let '(result, err) := bh_GetAllState w address in
      Some (w, NewMessageBlockchainGetAllStateResponse result err)
  | _ => None
  end.

Definition replyToBlockchainGetUserAccount (request : MessageHandler) (w : World) :
    option (World * MessageHandler) :=
  match body request with
  | MessageBlockchainGetUserAccountRequest address =>
      match bh_GetUserAccount w address with
      | (Some result, None) => Some (w, NewMessageBlockchainGetUserAccountResponse (Some (account_of result)) None)
      | (_, err) => Some (w, NewMessageBlockchainGetUserAccountResponse None err)
      end
  | _ => None
  end.

Definition replyToBlockchainGetCode (request : MessageHandler) (w : World) :
    option (World * MessageHandler) :=
  match body request with
  | MessageBlockchainGetCodeRequest (Some account) =>
      Some (w, NewMessageBlockchainGetCodeResponse (bh_GetCode w (account_handler account)))
  | _ => None
  end.

Definition replyToBlockchainGetShardOfAddress (request : MessageHandler) (w : World) :
    option (World * MessageHandler) :=
  match body request with
  | MessageBlockchainGetShardOfAddressRequest address => Some (w, NewMessageBlockchainGetShardOfAddressResponse (bh_GetShardOfAddress w address))
  | _ => None
  end.

Definition replyToBlockchainIsSmartContract (request : MessageHandler) (w : World) :
    option (World * MessageHandler) :=
  match body request with
  | MessageBlockchainIsSmartContractRequest address => Some (w, NewMessageBlockchainIsSmartContractResponse (bh_IsSmartContract w address))
  | _ => None
  end.

Definition replyToBlockchainIsPayable (request : MessageHandler) (w : World) :
    option (World * MessageHandler) :=
  match body request with
  | MessageBlockchainIsPayableRequest address =>
      let '(result, err) := bh_IsPayable w address in
      Some (w, NewMessageBlockchainIsPayableResponse result err)
  | _ => None
  end.

Definition replyToBlockchainSaveCompiledCode (request : MessageHandler) (w : World) :
    option (World * MessageHandler) :=
  match body request with
  | MessageBlockchainSaveCompiledCodeRequest codeHash code => Some (bh_SaveCompiledCode w codeHash code, NewMessageBlockchainSaveCompiledCodeResponse)
  | _ => None
  end.

Definition replyToBlockchainGetCompiledCode (request : MessageHandler) (w : World) :
    option (World * MessageHandler) :=
  match body request with
  | MessageBlockchainGetCompiledCodeRequest codeHash =>
      let '(found, code) := bh_GetCompiledCode w codeHash in Some (w, NewMessageBlockchainGetCompiledCodeResponse found code)
  | _ => None
  end.

Definition replyToBlockchainClearCompiledCodes (request : MessageHandler) (w : World) :
    option (World * MessageHandler) :=
  Some (bh_ClearCompiledCodes w, NewMessageBlockchainClearCompiledCodesResponse).

Definition replyToBlockchainGetESDTToken (request : MessageHandler) (w : World) :
    option (World * MessageHandler) :=
  match body request with
  | MessageBlockchainGetESDTTokenRequest address tokenID nonce =>
      let '(result, err) := bh_GetESDTToken w address tokenID nonce in
      Some (w, NewMessageBlockchainGetESDTTokenResponse result err)
  | _ => None
  end.

Definition replyToBlockchainGetSnapshot (request : MessageHandler) (w : World) :
    option (World * MessageHandler) :=
  Some (w, NewMessageBlockchainGetSnapshotResponse (bh_GetSnapshot w)).

Definition replyToBlockchainRevertToSnapshot (request : MessageHandler) (w : World) :
    option (World * MessageHandler) :=
  match body request with
  | MessageBlockchainRevertToSnapshotRequest snapshot =>
      let '(w, err) := bh_RevertToSnapshot w snapshot in Some (w, NewMessageBlockchainRevertToSnapshotResponse err)
  | _ => None
  end.

Definition replyToBlockchainIsInterfaceNil (request : MessageHandler) (w : World) :
    option (World * MessageHandler) :=
  Some (w, NewMessageBlockchainIsInterfaceNilResponse (bh_IsInterfaceNil w)).

Definition node_noopReplier (request : MessageHandler) (w : World) :
    option (World * MessageHandler) :=
  Some (w, CreateMessage MessageKind.UndefinedRequestOrResponse).

Definition node_repliers :
    list (Z * (MessageHandler -> World -> option (World * MessageHandler))) :=
  [
    (MessageKind.BlockchainNewAddressRequest, replyToBlockchainNewAddress);
    (MessageKind.BlockchainGetStorageDataRequest, replyToBlockchainGetStorageData);
    (MessageKind.BlockchainGetBlockhashRequest, replyToBlockchainGetBlockhash);
    (MessageKind.BlockchainLastNonceRequest, replyToBlockchainLastNonce);
    (MessageKind.BlockchainLastRoundRequest, replyToBlockchainLastRound);
    (MessageKind.BlockchainLastTimeStampRequest, replyToBlockchainLastTimeStamp);
    (MessageKind.BlockchainLastRandomSeedRequest, replyToBlockchainLastRandomSeed);
    (MessageKind.BlockchainLastEpochRequest, replyToBlockchainLastEpoch);
    (MessageKind.BlockchainGetStateRootHashRequest, replyToBlockchainGetStateRootHash);
    (MessageKind.BlockchainCurrentNonceRequest, replyToBlockchainCurrentNonce);
    (MessageKind.BlockchainCurrentRoundRequest, replyToBlockchainCurrentRound);
    (MessageKind.BlockchainCurrentTimeStampRequest, replyToBlockchainCurrentTimeStamp);
    (MessageKind.BlockchainCurrentRandomSeedRequest, replyToBlockchainCurrentRandomSeed);
    (MessageKind.BlockchainCurrentEpochRequest, replyToBlockchainCurrentEpoch);
    (MessageKind.BlockchainProcessBuiltInFunctionRequest, replyToBlockchainProcessBuiltInFunction);
    (MessageKind.BlockchainGetBuiltinFunctionNamesRequest, replyToBlockchainGetBuiltinFunctionNames);
    (MessageKind.BlockchainGetAllStateRequest, replyToBlockchainGetAllState);
    (MessageKind.BlockchainGetUserAccountRequest, replyToBlockchainGetUserAccount);
    (MessageKind.BlockchainGetCodeRequest, replyToBlockchainGetCode);
    (MessageKind.BlockchainGetShardOfAddressRequest, replyToBlockchainGetShardOfAddress);
    (MessageKind.BlockchainIsSmartContractRequest, replyToBlockchainIsSmartContract);
    (MessageKind.BlockchainIsPayableRequest, replyToBlockchainIsPayable);
    (MessageKind.BlockchainSaveCompiledCodeRequest, replyToBlockchainSaveCompiledCode);
    (MessageKind.BlockchainGetCompiledCodeRequest, replyToBlockchainGetCompiledCode);
    (MessageKind.BlockchainClearCompiledCodesRequest, replyToBlockchainClearCompiledCodes);
    (MessageKind.BlockchainGetESDTTokenRequest, replyToBlockchainGetESDTToken);
    (MessageKind.BlockchainIsInterfaceNilRequest, replyToBlockchainIsInterfaceNil);
    (MessageKind.BlockchainGetSnapshotRequest, replyToBlockchainGetSnapshot);
    (MessageKind.BlockchainRevertToSnapshotRequest, replyToBlockchainRevertToSnapshot)
  ].

Definition node_Repliers : list (MessageHandler -> World -> option (World * MessageHandler)) :=
  fill_slots node_repliers (CreateReplySlots node_noopReplier).

End Repliers.

(** [config] is [MaxLoopTime]; [arrivals]: for each message the Node waits for, how
    many milliseconds it takes and whether the deadline passes before it comes. *)
Record NodePart `{Externals} := mkNodePart {
  node_Messenger : Messenger;
  blockchain : World;
  config_MaxLoopTime : Z;
  arrivals : list (Z * bool);
}.

(** What [doLoop] returns. *)
Abbreviation loop_result := (option MessageHandler * option error)%type.

Section NodePart.
Context `{Extra : HookExtra} `{Mar : Marshalizer}.

Definition with_node_messenger {A} (m : Act Messenger A) : Act NodePart A := fun part =>
  proc_bind (fun '(messenger, r) =>
      PRet (mkNodePart _ messenger (blockchain part) (config_MaxLoopTime part) (arrivals part), r))
    (m (node_Messenger part)).

Definition set_blockchain (w : World) : Act NodePart unit :=
  act_modify (fun part =>
    mkNodePart _ (node_Messenger part) w (config_MaxLoopTime part) (arrivals part)).

(** The time of the next message; when nothing is said it comes at once. *)
Definition next_arrival : Act NodePart (Z * bool) :=
  part ← act_get;
  match arrivals part with
  | [] => mret (0, false)
  | a :: rest =>
      act_modify (fun part =>
        mkNodePart _ (node_Messenger part) (blockchain part) (config_MaxLoopTime part) rest) ;;
      mret a
  end.

(** [NodeMessenger] *)
Definition SendContractRequest (request : MessageHandler) : Act NodePart (option error) :=
  err ← with_node_messenger (Send request);
  match err with
  | Some _ => mret (Some ErrCannotSendContractRequest)
  | None => mret None
  end.

Definition SendHookCallResponse (response : MessageHandler) : Act NodePart (option error) :=
  err ← with_node_messenger (Send response);
  match err with
  | Some _ => mret (Some ErrCannotSendHookCallResponse)
  | None => mret None
  end.

Definition ReceiveHookCallRequestOrContractResponse (timeout : Z) :
    Act NodePart (error + MessageHandler * Z) :=
  '(duration, expired) ← next_arrival;
  message ← with_node_messenger (Receive timeout expired);
  match message with
  | inl err => mret (inl err)
  | inr message => mret (inr (message, duration))
  end.

Definition replyToHookCallRequest (request : MessageHandler) : Act NodePart (option error) :=
  match node_Repliers !! Z.to_nat (GetKind request) with
  | None => act_panic
  | Some replier =>
      part ← act_get;
      '(w, hookResponse) ← act_deref (replier request (blockchain part));
      set_blockchain w ;;
      SendHookCallResponse hookResponse
  end.

(** A round of [doLoop], with the milliseconds that remain. *)
Definition node_doLoop_round (remainingMilliseconds : Z) : Act NodePart (Z + loop_result) :=
  r ← ReceiveHookCallRequestOrContractResponse remainingMilliseconds;
  match r with
  | inl err => mret (inr (None, Some err))
  | inr (message, duration) =>
      let remainingMilliseconds := remainingMilliseconds - duration in
      if remainingMilliseconds <? 0 then mret (inr (None, Some ErrVMTimeExpired))
      else if IsHookCall message then
        err ← replyToHookCallRequest message;
        match err with
        | Some err => mret (inr (None, Some err))
        | None => mret (inl remainingMilliseconds)
        end
      else if IsVersionResponse message then mret (inr (Some message, None))
      else if IsContractResponse message then mret (inr (Some message, None))
      else if IsDiagnose message then mret (inr (Some message, None))
      else if IsGasScheduleChangeResponse message then mret (inr (Some message, None))
      else mret (inr (None, Some ErrBadMessageFromVM))
  end.

(** The round and, after the last one, the end of [StartLoop]. *)
Definition node_doLoop (remainingMilliseconds : Z) : Act NodePart (Z + loop_result) :=
  r ← node_doLoop_round remainingMilliseconds;
  match r with
  | inl remainingMilliseconds => mret (inl remainingMilliseconds)
  | inr result => with_node_messenger ResetDialogue ;; mret (inr result)
  end.

(** [StartLoop], up to the loop *)
Definition node_StartLoop (request : MessageHandler) : Act NodePart (Z + loop_result) :=
  err ← SendContractRequest request;
  match err with
  | Some err => mret (inr (None, Some err))
  | None =>
      part ← act_get;
      mret (inl (config_MaxLoopTime part))
  end.

(** Should only be used for tests. *)
Definition SendStopSignal : Act NodePart (option error) :=
  with_node_messenger (Send NewMessageStop).

End NodePart.
