(* ===== verification/IpcDriver.v ===== *)
(** [VMDriver] ([src/ipc/nodepart/vmDriver.go]): the Node's handle on the process of
    the VM, which it starts, asks, kills when something goes wrong and starts
    again.

    The program that the process runs is not in the repository: [vm_main] is the
    process started with some arguments.  What the operating system answers when
    the process is started is an input of the driver.  Logs are left out, and the
    mutex that makes the operations exclude each other: one operation at a time. *)
From S2P Require Import Prelude Errors Types State GasConfig IpcMessages IpcPipes IpcParts.

#[local] Open Scope Z_scope.

Section Driver.
Context `{Extra : HookExtra} `{Mar : Marshalizer} `{Fm : Fmt} `{Handler : ExecutionHandler}.
Context (vm_main : VMArguments -> running VMPart unit error).

(** What starting the process comes to: it runs, or it fails before there is a
    command, or the command has no process. *)
Inductive start_result :=
| Started
| NotPrepared (err : error)
| NotStarted (err : error).

(** [driver.command.Process] *)
Inductive process :=
| NoProcess
| Killed
| Running (p : running VMPart unit error) (to_vm to_node : bytes).

Record VMDriver := mkVMDriver {
  d_vmArguments : VMArguments;
  d_counterDeploy : Z;
  d_counterCall : Z;
  d_process : process;
  d_part : NodePart;
  d_starts : list start_result;
}.

(** [NewNodePart]: the hook and the configuration are those of the driver. *)
Definition NewNodePart (part : NodePart) (w : World) : NodePart :=
  mkNodePart _ (NewMessengerPipes (bs "NODE")) w (config_MaxLoopTime part) (arrivals part).

Definition startVM (driver : VMDriver) : VMDriver * option error :=
  let '(result, starts) :=
    match d_starts driver with [] => (Started, []) | r :: starts => (r, starts) end in
  let with_ process part :=
    mkVMDriver (d_vmArguments driver) (d_counterDeploy driver) (d_counterCall driver)
      process part starts in
  match result with
  | NotPrepared err => (with_ (d_process driver) (d_part driver), Some err)
  | NotStarted err => (with_ NoProcess (d_part driver), Some err)
  | Started =>
      let w := bh_ClearCompiledCodes (blockchain (d_part driver)) in
      (with_ (Running (vm_main (d_vmArguments driver)) [] []) (NewNodePart (d_part driver) w), None)
  end.

(** [driver.command.Process.Pid] of a command that was not started is a nil
    dereference ([None]).  A process that ended by itself was not waited for: it
    still takes signals. *)
Definition IsClosed (driver : VMDriver) : option bool :=
  match d_process driver with
  | NoProcess => None
  | Killed => Some true
  | Running _ _ _ => Some false
  end.

Definition RestartVMIfNecessary (driver : VMDriver) : outcome (VMDriver * option error) :=
  match IsClosed driver with
  | None => Panic
  | Some false => Ret (driver, None)
  | Some true => Ret (startVM driver)
  end.

(** [Close]: the process is killed and waited for. *)
Definition Close (driver : VMDriver) : VMDriver :=
  mkVMDriver (d_vmArguments driver) (d_counterDeploy driver) (d_counterCall driver) Killed
    (d_part driver) (d_starts driver).

(** The Node's part and the process side by side, for a request. *)
Definition linked (request : MessageHandler) (part : NodePart) (p : running VMPart unit error)
    (to_vm to_node : bytes) : system NodePart Z loop_result VMPart unit error :=
  mksystem (node_StartLoop request part) p to_vm to_node.

(** [driver.part.StartLoop(request)]; a Node that waits for ever does not return. *)
Definition StartLoop (fuel : nat) (request : MessageHandler) (driver : VMDriver) :
    outcome (VMDriver * loop_result) :=
  match d_process driver with
  | Running p to_vm to_node =>
      match run node_doLoop vm_doLoop fuel (linked request (d_part driver) p to_vm to_node) with
      | Ret (mksystem (PRet (part, Some (inr result))) p to_vm to_node) =>
          Ret (mkVMDriver (d_vmArguments driver) (d_counterDeploy driver) (d_counterCall driver)
                 (Running p to_vm to_node) part (d_starts driver), result)
      | Ret (mksystem (PRet (_, None)) _ _ _) => Panic
      | Panic => Panic
      | _ => OutOfFuel
      end
  | _ => Panic
  end.

(** [RestartVMIfNecessary], then [StartLoop]; an error of either closes the VM (of
    [StartLoop] only) and is returned. *)
Definition ask (fuel : nat) (request : MessageHandler) (driver : VMDriver) :
    outcome (VMDriver * (error + MessageHandler)) :=
  match RestartVMIfNecessary driver with
  | Ret (driver, Some err) => Ret (driver, inl err)
  | Ret (driver, None) =>
      match StartLoop fuel request driver with
      | Ret (driver, (_, Some err)) => Ret (Close driver, inl err)
      | Ret (driver, (Some response, None)) => Ret (driver, inr response)
      | Ret (_, (None, None)) => Panic
      | Panic => Panic
      | OutOfFuel => OutOfFuel
      end
  | Panic => Panic
  | OutOfFuel => OutOfFuel
  end.

Definition GetVersion (fuel : nat) (driver : VMDriver) : outcome (VMDriver * bytes) :=
  match ask fuel NewMessageVersionRequest driver with
  | Ret (driver, inl _) => Ret (driver, [])
  | Ret (driver, inr response) =>
      match body response with
      | MessageVersionResponse Version => Ret (driver, Version)
      | _ => Panic
      end
  | Panic => Panic
  | OutOfFuel => OutOfFuel
  end.

Definition set_GasSchedule (gasSchedule : GasScheduleMap) (arguments : VMArguments) : VMArguments :=
  let h := HostParameters arguments in
  mkVMArguments
    (mkVMHostParameters (VMType h) (BlockGasLimit h) gasSchedule (ProtectedKeyPrefix h)
       (WasmerSIGSEGVPassthrough h) (UseWarmInstance h))
    (LogsMarshalizer arguments) (MessagesMarshalizer arguments).

Definition driver_GasScheduleChange (fuel : nat) (newGasSchedule : GasScheduleMap)
    (driver : VMDriver) : outcome VMDriver :=
  let driver :=
    mkVMDriver (set_GasSchedule newGasSchedule (d_vmArguments driver)) (d_counterDeploy driver)
      (d_counterCall driver) (d_process driver) (d_part driver) (d_starts driver) in
  match ask fuel (NewMessageGasScheduleChangeRequest newGasSchedule) driver with
  | Ret (driver, inl _) => Ret driver
  | Ret (driver, inr response) =>
      match GetError response with
      | Some _ => Ret (Close driver)
      | None => Ret driver
      end
  | Panic => Panic
  | OutOfFuel => OutOfFuel
  end.

(** [typedResponse := response.( *common.MessageContractResponse)] and what follows *)
Definition contract_output (response : MessageHandler) :
    option (option VMOutput * option error) :=
  match body response with
  | MessageContractResponse (Some output) =>
      let vmOutput := ConvertToVMOutput output in
      match GetError response with
      | Some err => Some (None, Some err)
      | None => Some (Some vmOutput, None)
      end
  | _ => None
  end.

Definition ask_contract (fuel : nat) (request : MessageHandler) (driver : VMDriver) :
    outcome (VMDriver * (option VMOutput * option error)) :=
  match ask fuel request driver with
  | Ret (driver, inl err) => Ret (driver, (None, Some (WrapCriticalError err)))
  | Ret (driver, inr response) =>
      match contract_output response with
      | Some output => Ret (driver, output)
      | None => Panic
      end
  | Panic => Panic
  | OutOfFuel => OutOfFuel
  end.

Definition driver_RunSmartContractCreate (fuel : nat) (input : ContractCreateInput)
    (driver : VMDriver) : outcome (VMDriver * (option VMOutput * option error)) :=
  let driver :=
    mkVMDriver (d_vmArguments driver) (u64 (d_counterDeploy driver + 1)) (d_counterCall driver)
      (d_process driver) (d_part driver) (d_starts driver) in
  ask_contract fuel (NewMessageContractDeployRequest (Some input)) driver.

Definition driver_RunSmartContractCall (fuel : nat) (input : ContractCallInput)
    (driver : VMDriver) : outcome (VMDriver * (option VMOutput * option error)) :=
  let driver :=
    mkVMDriver (d_vmArguments driver) (d_counterDeploy driver) (u64 (d_counterCall driver + 1))
      (d_process driver) (d_part driver) (d_starts driver) in
  ask_contract fuel (NewMessageContractCallRequest (Some input)) driver.

Definition DiagnoseWait (fuel : nat) (milliseconds : Z) (driver : VMDriver) :
    outcome (VMDriver * option error) :=
  match ask fuel (NewMessageDiagnoseWaitRequest milliseconds) driver with
  | Ret (driver, inl err) => Ret (driver, Some (WrapCriticalError err))
  | Ret (driver, inr response) => Ret (driver, GetError response)
  | Panic => Panic
  | OutOfFuel => OutOfFuel
  end.

End Driver.
