(* ===== verification/IpcToy.v ===== *)
(** A concrete link for the witnesses of [IpcProps]: a marshalizer for the messages
    of one host, which asks for the last nonce and, on the function [snapshot], for a
    snapshot. *)
From S2P Require Import Prelude Errors Types State Toy GasConfig IpcMessages IpcPipes IpcParts.
From S2P Require Import IpcDriver.

#[local] Open Scope Z_scope.

Definition toy_extra : @HookExtra toy :=
  {| bh_GetAllState := fun w a => (∅, None);
     bh_GetBuiltinFunctionNames := fun w => {[ bs "ESDTTransfer" ]};
     bh_ClearCompiledCodes := fun w => w;
     bh_IsInterfaceNil := fun w => false |}.

Definition toy_fmt : Fmt := {| fmt_Errorf := fun t => t; fmt_Errorf_plain := fun t H => eq_refl |}.

Definition toy_input (function : bytes) : ContractCallInput :=
  mkContractCallInput zeroVMInput (bs "sc1") function false.

(** A byte for the nonce and then the function, a number or the gas that is left. *)
Definition toy_encode (m : MessageHandler) : error + bytes :=
  let n := byte_of_Z (DialogueNonce (base m)) in
  match body m with
  | MessageContractCallRequest (Some input) => inr (n :: Function_ input)
  | MessageBlockchainLastNonceRequest | MessageBlockchainGetSnapshotRequest => inr [n]
  | MessageBlockchainLastNonceResponse result => inr (n :: Bytes result)
  | MessageContractResponse (Some output) => inr (n :: Bytes (so_GasRemaining output))
  | MessageGasScheduleChangeRequest _ => inr [n]
  | _ => inl (ErrNew (bs "cannot marshal"))
  end.

Definition toy_decode (m : MessageHandler) (data : bytes) : error + MessageHandler :=
  match data with
  | [] => inl (ErrNew (bs "cannot unmarshal"))
  | n :: rest =>
      let with_body b :=
        inr (mkMessageHandler (mkMessage (Z_of_byte n) (GetKind m) (ErrorMessage (base m))) b) in
      match body m with
      | MessageContractCallRequest _ => with_body (MessageContractCallRequest (Some (toy_input rest)))
      | MessageBlockchainLastNonceResponse _ =>
          with_body (MessageBlockchainLastNonceResponse (SetBytes rest))
      | MessageContractResponse _ =>
          with_body (MessageContractResponse
            (Some (@NewSerializableVMOutput toy (Some (toy_vmOutput (SetBytes rest))))))
      | b => with_body b
      end
  end.

Definition toy_marshalizer : Marshalizer := {| Marshal := toy_encode; Unmarshal := toy_decode |}.

Definition toy_run (h : nat) (input : option ContractCallInput) :
    hook_program (nat * (option VMOutput * option error)) :=
  Call LastNonce (fun nonce =>
    let done gas := Return (S h, (Some (toy_vmOutput gas), None)) in
    match input with
    | Some i =>
        if bool_decide (Function_ i = bs "snapshot") then
          Call GetSnapshot (fun _ => done 0)
        else done (default 0 nonce)
    | None => done 0
    end).

Definition toy_handler : ExecutionHandler :=
  {| Host := nat;
     NewVMHost := fun _ => inr 0%nat;
     RunSmartContractCreate := fun h _ => toy_run h None;
     RunSmartContractCall := toy_run;
     GasScheduleChange := fun h _ => h |}.

(** The process waits, the Node has two seconds and its messages take one
    millisecond each. *)
Definition toy_part : @VMPart toy_handler :=
  mkVMPart toy_handler (mkMessenger (bs "VM") 0) 0%nat (bs "1").

Definition toy_process : running (@VMPart toy_handler) unit error :=
  @vm_doLoop toy toy_marshalizer toy_fmt toy_handler tt toy_part.

Definition toy_driver : @VMDriver toy toy_handler :=
  mkVMDriver zeroVMArguments 0 0 (Running toy_process [] [])
    (mkNodePart toy (mkMessenger (bs "NODE") 0) ([ ∅ ] : list (gmap bytes toyAccount)) 2000 [(1, false); (1, false); (1, false)])
    [].
