(* ===== verification/IpcTraces.v ===== *)
(** Reasoning about processes and pipes: what a process does by itself as a list of
    writes and reads, two processes with dual lists run together, and the order
    in which the parts move does not matter. *)
From stdpp Require Import relations.
From S2P Require Import Prelude Errors Types State GasConfig IpcMessages IpcPipes.

#[local] Open Scope Z_scope.

(** ** Traces *)

Inductive event := Out (data : bytes) | In (data : bytes).

Definition dual (e : event) : event := match e with Out d => In d | In d => Out d end.

Lemma map_dual_involutive t : map dual (map dual t) = t.
Proof. induction t as [|[d|d] t IH]; cbn; congruence. Qed.

(** [p] gets to [q] when its writes succeed and its reads give the data of [t]. *)
Inductive reach {A} : proc A -> list event -> proc A -> Prop :=
| reach_refl p : reach p [] p
| reach_write data k t q : reach (k None) t q -> reach (PWrite data k) (Out data :: t) q
| reach_read n k data t q :
    length data = n -> reach (k (inr data)) t q -> reach (PRead n k) (In data :: t) q.

Lemma reach_bind {A B} (f : A -> proc B) p t a t' q :
  reach p t (PRet a) -> reach (f a) t' q -> reach (proc_bind f p) (t ++ t') q.
Proof.
  intros H Hf. remember (PRet a) as r eqn:Hr.
  induction H; subst; cbn; [done | constructor; auto..].
Qed.

Lemma reach_bind_l {A B} (f : A -> proc B) p t q :
  reach p t q -> reach (proc_bind f p) t (proc_bind f q).
Proof. induction 1; cbn; constructor; auto. Qed.

Lemma reach_bind_ret {A B} (f : A -> proc B) p t a b :
  reach p t (PRet a) -> f a = PRet b -> reach (proc_bind f p) t (PRet b).
Proof.
  intros H Hf. rewrite <- (app_nil_r t). eapply reach_bind; [done|]. rewrite Hf. constructor.
Qed.

(** An operation that returns [a] and leaves [s']. *)
Definition acts {S A} (m : Act S A) (s : S) (t : list event) (s' : S) (a : A) : Prop :=
  reach (m s) t (PRet (s', Some a)).

(** An operation that waits for the other side after [t]. *)
Definition waiting {A} (p : proc A) : Prop := exists n k, p = PRead (S n) k.

Definition stops {S A} (m : Act S A) (s : S) (t : list event) : Prop :=
  exists q, reach (m s) t q /\ waiting q.

Lemma waiting_bind {A B} (f : A -> proc B) p : waiting p -> waiting (proc_bind f p).
Proof. intros (n & k & ->). by do 2 eexists. Qed.

Section Acts.
Context {S : Type}.
Implicit Types s : S.

Lemma acts_ret {A} (a : A) s : acts (mret a) s [] s a.
Proof. constructor. Qed.

Lemma acts_bind {A B} (m : Act S A) (f : A -> Act S B) s t s' a t' s'' b :
  acts m s t s' a -> acts (f a) s' t' s'' b -> acts (m ≫= f) s (t ++ t') s'' b.
Proof. intros Hm Hf. unfold acts. cbv [mbind Act_bind]. by eapply reach_bind. Qed.

Lemma stops_bind {A B} (m : Act S A) (f : A -> Act S B) s t s' a t' :
  acts m s t s' a -> stops (f a) s' t' -> stops (m ≫= f) s (t ++ t').
Proof.
  intros Hm (q & Hq & Hw). exists q. split; [|done]. cbv [mbind Act_bind]. by eapply reach_bind.
Qed.

Lemma stops_bind_l {A B} (m : Act S A) (f : A -> Act S B) s t :
  stops m s t -> stops (m ≫= f) s t.
Proof. intros (q & Hq & Hw). eexists. split; [by apply reach_bind_l | by apply waiting_bind]. Qed.

(** A silent first operation. *)
Lemma acts_bind_nil {A B} (m : Act S A) (f : A -> Act S B) s s' a t' s'' b :
  acts m s [] s' a -> acts (f a) s' t' s'' b -> acts (m ≫= f) s t' s'' b.
Proof. exact (acts_bind m f s [] s' a t' s'' b). Qed.

(** A silent rest. *)
Lemma acts_bind_r {A B} (m : Act S A) (f : A -> Act S B) s t s' a s'' b :
  acts m s t s' a -> acts (f a) s' [] s'' b -> acts (m ≫= f) s t s'' b.
Proof. intros Hm Hf. rewrite <- (app_nil_r t). by eapply acts_bind. Qed.

Lemma acts_get s : acts act_get s [] s s.
Proof. constructor. Qed.

Lemma acts_modify f s : acts (act_modify f) s [] (f s) tt.
Proof. constructor. Qed.

Lemma acts_deref {A} (a : A) s : acts (act_deref (Some a)) s [] s a.
Proof. constructor. Qed.

Lemma acts_Write data s : acts (Write data) s [Out data] s None.
Proof. repeat constructor. Qed.

Lemma acts_ReadFull data n s : length data = n -> acts (ReadFull n) s [In data] s (inr data).
Proof. intros H. constructor; [done | constructor]. Qed.

End Acts.

(** ** Loops *)

Section Loop.
Context {S L R : Type} (loop : L -> Act S (L + R)).

Inductive talks : running S L R -> list event -> running S L R -> Prop :=
| talks_refl p : talks p [] p
| talks_again s l t q : talks (loop l s) t q -> talks (PRet (s, Some (inl l))) t q
| talks_write data k t q : talks (k None) t q -> talks (PWrite data k) (Out data :: t) q
| talks_read n k data t q :
    length data = n -> talks (k (inr data)) t q -> talks (PRead n k) (In data :: t) q.

Lemma reach_talks p t q : reach p t q -> talks p t q.
Proof. induction 1; constructor; auto. Qed.

Lemma talks_trans p t q t' r : talks p t q -> talks q t' r -> talks p (t ++ t') r.
Proof. intros H Hr. induction H; cbn; [done | constructor; auto..]. Qed.

(** One round. *)
Lemma talks_round l s t s' l' t' q :
  acts (loop l) s t s' (inl l') -> talks (PRet (s', Some (inl l'))) t' q ->
  talks (PRet (s, Some (inl l))) (t ++ t') q.
Proof. intros H Hq. apply talks_again. eapply talks_trans; [by apply reach_talks | done]. Qed.

Lemma ended_talks p e t q : ended p = true -> ~ talks p (e :: t) q.
Proof. intros Hp H. inversion H; subst; done. Qed.

End Loop.

(** ** Two dual processes *)

Section Duality.
Context {S1 L1 R1 S2 L2 R2 : Type}.
Context (node_loop : L1 -> Act S1 (L1 + R1)) (vm_loop : L2 -> Act S2 (L2 + R2)).

#[local] Abbreviation sys := (system S1 L1 R1 S2 L2 R2).
#[local] Abbreviation steps := (rtc (step node_loop vm_loop)).

(** The VM up to its next event. *)
Definition exposes (q : running S2 L2 R2) (e : event) (t : list event) (q' : running S2 L2 R2) :
    Prop :=
  match e, q with
  | Out d, PWrite d' k => d' = d /\ talks vm_loop (k None) t q'
  | In d, PRead n k => length d = n /\ talks vm_loop (k (inr d)) t q'
  | _, _ => False
  end.

Lemma vm_silent q t q' :
  talks vm_loop q t q' ->
  match t with
  | [] => forall p a b, steps (mksystem p q a b) (mksystem p q' a b)
  | e :: t => exists q1, exposes q1 e t q' /\
      forall p a b, steps (mksystem p q a b) (mksystem p q1 a b)
  end.
Proof.
  induction 1 as [q|s l t q' H IH|data k t q' H _|n k data t q' Hn H _].
  - intros. apply rtc_refl.
  - assert (forall p a b, step node_loop vm_loop (mksystem p (PRet (s, Some (inl l))) a b)
              (mksystem p (vm_loop l s) a b)) as Hstep.
    { intros p a b. apply step_vm. cbn. by rewrite app_nil_r. }
    destruct t as [|e t].
    + intros p a b. eapply rtc_l; [apply Hstep | apply IH].
    + destruct IH as (q1 & He & Hq1). exists q1. split; [done|]. intros p a b.
      eapply rtc_l; [apply Hstep | apply Hq1].
  - exists (PWrite data k). split; [done | intros; apply rtc_refl].
  - exists (PRead n k). split; [done | intros; apply rtc_refl].
Qed.

(** Each side's events are the other's: together they do them all, and the pipes
    are empty again. *)
Lemma duality p t p' q q' :
  talks node_loop p t p' -> talks vm_loop q (map dual t) q' ->
  steps (mksystem p q [] []) (mksystem p' q' [] []).
Proof.
  intros H. revert q. induction H as [p|s l t p' H IH|data k t p' H IH|n k data t p' Hn H IH];
    intros q Hq.
  - apply (vm_silent q [] q' Hq).
  - eapply rtc_l; [|by apply IH]. apply step_node. done.
  - destruct (vm_silent _ _ _ Hq) as (q1 & He & Hq1). cbn in He.
    destruct q1 as [|? ?|m k']; try done. destruct He as [Hm Hk].
    etrans; [apply Hq1|].
    eapply rtc_l; [by apply step_node|].
    eapply rtc_l; [|by apply IH].
    apply step_vm. unfold vm_move. cbn [vm to_vm to_node node app advance].
    rewrite bool_decide_eq_true_2 by lia. subst m. by rewrite take_ge, drop_ge by lia.
  - destruct (vm_silent _ _ _ Hq) as (q1 & He & Hq1). cbn in He.
    destruct q1 as [|data' k'|]; try done. destruct He as [-> Hk].
    etrans; [apply Hq1|].
    eapply rtc_l; [by apply step_vm|].
    eapply rtc_l; [|by apply IH].
    apply step_node. unfold node_move. cbn [vm to_vm to_node node app advance].
    rewrite bool_decide_eq_true_2 by lia. subst n. by rewrite take_ge, drop_ge by lia.
Qed.

(** ** The order of moves *)

Definition at_rest (c : sys) : Prop :=
  node_move node_loop c = None /\ vm_move vm_loop c = None.

(** A process that can move still can when its input has grown, and moves alike. *)
Lemma advance_more {S L R} (loop : L -> Act S (L + R)) p input more closed p' input' written :
  advance loop p input closed = Some (p', input', written) -> (closed = false \/ more = []) ->
  advance loop p (input ++ more) closed = Some (p', input' ++ more, written).
Proof.
  intros H Hc. destruct p as [[s [[l|r]| ] ] | data k | n k]; cbn in *; try done.
  - by injection H as <- <- <-.
  - destruct closed; by injection H as <- <- <-.
  - case_bool_decide as Hn.
    + injection H as <- <- <-. rewrite bool_decide_eq_true_2 by (rewrite length_app; lia).
      by rewrite take_app_le, drop_app_le by lia.
    + destruct closed; [|done]. destruct Hc as [ | ->]; [done|].
      rewrite app_nil_r, bool_decide_eq_false_2 by done. by injection H as <- <- <-.
Qed.

Lemma ended_stays c c' :
  step node_loop vm_loop c c' -> ended (vm c) = true -> ended (vm c') = true.
Proof.
  intros [H|H] He; unfold node_move, vm_move in H.
  - destruct (advance node_loop _ _ _) as [[[p b] w]|]; [|done]. by injection H as <-.
  - by destruct (vm c) as [[s [[l|r]| ] ] | data k | n k].
Qed.

Lemma alive_before c f : steps c f -> ended (vm f) = false -> ended (vm c) = false.
Proof.
  intros H. induction H as [|c c' f Hs _ IH]; [done|]. intros Hf.
  destruct (ended (vm c)) eqn:He; [|done].
  by rewrite <- (IH Hf), (ended_stays _ _ Hs He).
Qed.

(** The VM's move does not depend on the Node's, nor the Node's on the VM's while
    the VM runs. *)
Lemma vm_moves_after c c1 c2 :
  node_move node_loop c = Some c1 -> vm_move vm_loop c = Some c2 ->
  exists d, vm_move vm_loop c1 = Some d /\ vm d = vm c2 /\
    (ended (vm c2) = false -> node_move node_loop c2 = Some d).
Proof.
  unfold node_move, vm_move. destruct c as [p q a b]. cbn.
  destruct (advance node_loop p b (ended q)) as [[[p' b'] w]|] eqn:Hn; [|done].
  destruct (advance vm_loop q a false) as [[[q' a'] v]|] eqn:Hv; [|done].
  intros [= <-] [= <-]. cbn.
  rewrite (advance_more _ _ _ _ _ _ _ _ Hv) by auto.
  eexists. split; [done|]. split; [done|]. intros Hq'. cbn in *.
  assert (ended q = false) as Hq by (by destruct q as [[s [[l|r]| ] ] | data k | n k]).
  rewrite Hq in Hn. rewrite Hq'. by rewrite (advance_more _ _ _ _ _ _ _ _ Hn) by auto.
Qed.

Lemma step_to_rest n c f c1 :
  nsteps (step node_loop vm_loop) n c f -> at_rest f -> ended (vm f) = false ->
  step node_loop vm_loop c c1 ->
  exists m, n = S m /\ nsteps (step node_loop vm_loop) m c1 f.
Proof.
  intros H Hrest Halive. revert c1.
  induction H as [f|n c d f Hs Hn IH]; intros c1 Hc1.
  { destruct Hrest as [H1 H2]. destruct Hc1; congruence. }
  specialize (IH Hrest Halive). exists n. split; [done|].
  assert (forall c', steps c' f -> ended (vm c') = false) as Hal
    by (intros c' Hc'; by eapply alive_before).
  assert (steps d f) as Hdf by (by eapply rtc_nsteps_2).
  destruct Hs as [Hs|Hs], Hc1 as [Hc|Hc]; try (rewrite Hs in Hc; by injection Hc as <-).
  - destruct (vm_moves_after _ _ _ Hs Hc) as (e & Hde & Hvm & Hce).
    destruct (IH e (step_vm _ _ _ _ Hde)) as (m & -> & Hm).
    eapply nsteps_l; [|done]. apply step_node, Hce. rewrite <- Hvm.
    by eapply Hal, rtc_nsteps_2.
  - destruct (vm_moves_after _ _ _ Hc Hs) as (e & Hce & _ & Hde).
    destruct (IH e (step_node _ _ _ _ (Hde (Hal _ Hdf)))) as (m & -> & Hm).
    eapply nsteps_l; [by apply step_vm | done].
Qed.

(** Whatever the order of the moves, the parts come to the same rest. *)
Lemma any_order n c f k c' :
  nsteps (step node_loop vm_loop) n c f -> at_rest f -> ended (vm f) = false ->
  nsteps (step node_loop vm_loop) k c c' ->
  exists m, n = (k + m)%nat /\ nsteps (step node_loop vm_loop) m c' f.
Proof.
  intros Hn Hrest Halive Hk. revert n Hn.
  induction Hk as [c|k c c1 c' Hs _ IH]; intros n Hn; [by exists n|].
  destruct (step_to_rest _ _ _ _ Hn Hrest Halive Hs) as (m & -> & Hm).
  destruct (IH _ Hm) as (m' & -> & Hm'). by exists m'.
Qed.

(** In particular the schedule of [run]. *)
Lemma run_to_rest n c f :
  nsteps (step node_loop vm_loop) n c f -> at_rest f -> ended (vm f) = false ->
  run node_loop vm_loop (S n) c = Ret f.
Proof.
  revert c. induction n as [|n IH]; intros c Hn Hrest Halive.
  - inversion Hn; subst. destruct Hrest as [H1 H2]. cbn. by rewrite H1, H2.
  - change (run node_loop vm_loop (S (S n)) c) with
      (match node_move node_loop c with
       | Some c' => run node_loop vm_loop (S n) c'
       | None =>
           match vm_move vm_loop c with
           | Some c' => run node_loop vm_loop (S n) c'
           | None => Ret c
           end
       end).
    assert (forall c1, step node_loop vm_loop c c1 ->
              run node_loop vm_loop (S n) c1 = Ret f) as Hrun.
    { intros c1 Hc1. destruct (step_to_rest _ _ _ _ Hn Hrest Halive Hc1) as (m & [= <-] & Hm).
      by apply IH. }
    destruct (node_move node_loop c) eqn:H1; [by apply Hrun, step_node|].
    destruct (vm_move vm_loop c) eqn:H2; [by apply Hrun, step_vm|].
    inversion Hn as [|? ? c1 ? Hs]; subst. destruct Hs; congruence.
Qed.

End Duality.
