(* ===== verification/IpcSerial.v ===== *)
(** The forms in which maps and outputs travel between the Node and the VM
    ([src/ipc/common/serializableMaps.go], [serializableVMOutput.go]): lists of the
    entries, in any order, that are put back under the keys found in them. *)
From S2P Require Import Prelude Errors Types State Toy Output GasConfig IpcMessages.

#[local] Open Scope Z_scope.

(** ** Loops that build lists and maps *)

Lemma fold_left_snoc {K A B} (f : A -> B) (l : list (K * A)) acc :
  fold_left (fun acc '(_, v) => acc ++ [f v]) l acc = acc ++ map (fun e => f (snd e)) l.
Proof.
  revert acc. induction l as [|[k v] l IH]; intros acc; cbn; [by rewrite app_nil_r|].
  by rewrite IH, <- app_assoc.
Qed.

(** Entries put into a map one after the other. *)
Definition insert_all {A B} (key : A -> bytes) (value : A -> B) (l : list A) (m : gmap bytes B) :
    gmap bytes B :=
  fold_left (fun m x => <[key x := value x]> m) l m.

Lemma insert_all_lookup {A B} (key : A -> bytes) (value : A -> B) l m k :
  NoDup (map key l) ->
  insert_all key value l m !! k =
    match (list_to_map (map (fun x => (key x, value x)) l) : gmap bytes B) !! k with
    | Some v => Some v
    | None => m !! k
    end.
Proof.
  revert m. induction l as [|x l IH]; intros m Hl; [done|].
  inversion Hl as [|? ? Hx Hl']; subst.
  change (insert_all key value (x :: l) m) with (insert_all key value l (<[key x := value x]> m)).
  rewrite (IH _ Hl'). cbn [map list_to_map foldr].
  destruct (decide (k = key x)) as [->|Hne].
  - rewrite !lookup_insert_eq, not_elem_of_list_to_map_1; [done|].
    by rewrite <- list_fmap_compose.
  - by rewrite !lookup_insert_ne.
Qed.

(** Whatever the keys, an entry of the map is one that was put in. *)
Lemma insert_all_Some {A B} (key : A -> bytes) (value : A -> B) l m k v :
  insert_all key value l m !! k = Some v ->
  m !! k = Some v \/ exists x, In x l /\ key x = k /\ value x = v.
Proof.
  revert m. induction l as [|x l IH]; intros m; [by left|]. intros H.
  destruct (IH _ H) as [Hm|(y & Hy & Hk & Hv)]; [|right; exists y; split; [by right | done]].
  destruct (decide (k = key x)) as [->|Hne].
  - rewrite lookup_insert_eq in Hm. injection Hm as <-. right. exists x. split; [by left | done].
  - rewrite lookup_insert_ne in Hm by done. by left.
Qed.

Section Serial.
Context `{Ext : Externals}.

(** The entries of a map, put back under their keys, are the map. *)
Lemma insert_all_range {A} (m : gmap bytes A) : insert_all fst snd (range m) ∅ = m.
Proof.
  apply map_eq. intros k. rewrite insert_all_lookup by apply range_keys.
  replace (map (fun x : bytes * A => (fst x, snd x)) (range m)) with (range m).
  - rewrite range_list_to_map, lookup_empty. by destruct (m !! k).
  - rewrite <- (List.map_id (range m)) at 1. apply List.map_ext. by intros [k' v'].
Qed.

Lemma in_range {A} (m : gmap bytes A) k v : In (k, v) (range m) -> m !! k = Some v.
Proof.
  intros H. apply list_elem_of_In in H. rewrite range_perm in H. by apply elem_of_map_to_list.
Qed.

Lemma convert_to_map_insert (l : list (bytes * bytes)) m :
  convert_to_map (map fst l) (map snd l) m = Some (insert_all fst snd l m).
Proof. revert m. induction l as [|[k v] l IH]; intros m; [done|]. apply IH. Qed.

(** A map travels unharmed. *)
Lemma StringBytes_roundtrip data :
  ConvertToMap (NewSerializableMapStringBytes data) = Some data.
Proof.
  unfold ConvertToMap, NewSerializableMapStringBytes.
  assert (forall l ks vs,
    fold_left (fun s '(key, value) =>
        mkSerializableMapStringBytes (sm_Keys s ++ [key]) (sm_Values s ++ [value])) l
      (mkSerializableMapStringBytes ks vs) =
    mkSerializableMapStringBytes (ks ++ map fst l) (vs ++ map snd l)) as H.
  { induction l as [|[k v] l IH]; intros ks vs; cbn; [by rewrite !app_nil_r|].
    by rewrite IH, <- !app_assoc. }
  rewrite H. cbn [sm_Keys sm_Values app]. by rewrite convert_to_map_insert, insert_all_range.
Qed.

Lemma transfers_roundtrip l : map output_transfer (map serializable_transfer l) = l.
Proof.
  rewrite List.map_map. rewrite <- (List.map_id l) at 2. apply List.map_ext. by intros [].
Qed.

(** The entries of a map whose keys are the keys of its values. *)
Lemma insert_all_keyed {A B} (key : B -> bytes) (value : B -> A) (f : A -> B) (m : gmap bytes A) :
  (forall k v, m !! k = Some v -> key (f v) = k /\ value (f v) = v) ->
  insert_all key value (map (fun e => f (snd e)) (range m)) ∅ = m.
Proof.
  intros H. rewrite <- (insert_all_range m) at 2.
  assert (forall l m', (forall k v, In (k, v) l -> key (f v) = k /\ value (f v) = v) ->
    insert_all key value (map (fun e => f (snd e)) l) m' = insert_all fst snd l m') as Hl.
  { induction l as [|[k v] l IH]; intros m' Hl; [done|].
    cbn. destruct (Hl k v) as [-> ->]; [by left|].
    apply IH. intros k' v' Hin. apply Hl. by right. }
  apply Hl. intros k v Hin. by apply H, in_range.
Qed.

(** Every account is under its address and every update under its offset. *)
Definition keyed (o : VMOutput) : Prop :=
  forall k account, OutputAccounts o !! k = Some account ->
    Address account = k /\
    forall k' update, StorageUpdates account !! k' = Some update -> Offset update = k'.

Lemma account_roundtrip account :
  (forall k update, StorageUpdates account !! k = Some update -> Offset update = k) ->
  ConvertToOutputAccount (NewSerializableOutputAccount account) = account.
Proof.
  intros H. unfold ConvertToOutputAccount, NewSerializableOutputAccount. cbn.
  rewrite transfers_roundtrip.
  rewrite (fold_left_snoc (fun u => u)). cbn [app].
  pose proof (insert_all_keyed Offset (fun u => u) (fun u => u) (StorageUpdates account)) as Hi.
  unfold insert_all in Hi. rewrite Hi; [by destruct account|]. intros k v Hv. by rewrite (H k v).
Qed.

Lemma VMOutput_keyed_roundtrip o :
  keyed o -> ConvertToVMOutput (NewSerializableVMOutput (Some o)) = o.
Proof.
  intros H. unfold ConvertToVMOutput, NewSerializableVMOutput. cbn.
  rewrite (fold_left_snoc NewSerializableOutputAccount). cbn [app].
  pose proof (insert_all_keyed soa_Address ConvertToOutputAccount NewSerializableOutputAccount
    (OutputAccounts o)) as Hi.
  unfold insert_all in Hi. rewrite Hi; [by destruct o|]. intros k account Hk.
  destruct (H _ _ Hk) as [<- Hu]. split; [done | by apply account_roundtrip].
Qed.

Lemma converted_keyed s : keyed (ConvertToVMOutput s).
Proof.
  intros k account Hk. cbn in Hk.
  apply (insert_all_Some soa_Address ConvertToOutputAccount) in Hk.
  destruct Hk as [Hk|(item & _ & <- & <-)]; [by rewrite lookup_empty in Hk|].
  split; [done|]. intros k' u Hu. cbn in Hu.
  apply (insert_all_Some Offset (fun u => u)) in Hu.
  by destruct Hu as [Hu|(u' & _ & <- & <-)]; [rewrite lookup_empty in Hu|].
Qed.

(** ** Properties *)

(** C29: an output that travels comes out as it was exactly when every account is
    under its own address and every storage update under its own offset - the keys
    of the maps do not travel - in whatever order the entries are visited; no output
    at all comes out as an empty one. *)
Theorem VMOutput_roundtrip o :
  match o with
  | Some output =>
      ConvertToVMOutput (NewSerializableVMOutput o) = output <-> keyed output
  | None =>
      ConvertToVMOutput (NewSerializableVMOutput o) = mkVMOutput [] Ok [] 0 None ∅ [] [] []
  end.
Proof.
  destruct o as [output|]; [|done].
  split; [intros <-; apply converted_keyed | apply VMOutput_keyed_roundtrip].
Qed.

End Serial.
