(* ===== verification/IpcMessaging.v ===== *)
(** Sending and receiving messages, calls of the hook through the gateway, and the
    runs of the host that make them: what each side writes and reads, with the
    abstract run [remote] that the parts implement. *)
From S2P Require Import Prelude Errors Types State GasConfig IpcMessages IpcPipes IpcParts.
From S2P Require Import IpcTraces IpcSerial.

#[local] Open Scope Z_scope.

(** ** One message *)

Section Messages.
Context `{Mar : Marshalizer}.

(** The marshalizer carries [m]: what it writes for [m] fits in a frame, and read
    over the message that the factory makes for its kind it gives [m] again. *)
Definition carried (m : MessageHandler) : Prop :=
  0 <= GetKind m < 2 ^ 32 /\
  exists data, Marshal m = inr data /\ len data < 2 ^ 32 /\
    Unmarshal (CreateMessage (GetKind m)) data = inr m.

(** What the sender of [m] writes. *)
Definition sent (m : MessageHandler) : list event :=
  match Marshal m with
  | inl _ => []
  | inr data => [Out (PutUint32 (u32 (len data)) ++ PutUint32 (u32 (GetKind m))); Out data]
  end.

(** What its receiver reads. *)
Definition received (m : MessageHandler) : list event := map dual (sent m).

Context {S : Type}.
Implicit Types s : S.

Lemma Sender_Send_acts m data s :
  Marshal m = inr data -> exists n, acts (Sender_Send m) s (sent m) s (n, None).
Proof.
  intros Hdata. exists (len data). unfold Sender_Send, sent. rewrite Hdata.
  eapply (acts_bind _ _ _ [_] _ _ [_]); [apply acts_Write|].
  eapply acts_bind_r; [apply acts_Write | apply acts_ret].
Qed.

Lemma receiveMessageLengthAndKind_acts length kind s :
  0 <= length < 2 ^ 32 -> 0 <= kind < 2 ^ 32 ->
  acts receiveMessageLengthAndKind s [In (PutUint32 length ++ PutUint32 kind)] s
    (inr (length, kind)).
Proof.
  intros Hl Hk. eapply acts_bind_r; [by apply acts_ReadFull|].
  cbn [PutUint32 app]. rewrite !Uint32_PutUint32 by done. apply acts_ret.
Qed.

Lemma Receiver_Receive_acts m timeout s :
  carried m -> exists n, acts (Receiver_Receive timeout false) s (received m) s (inr (m, n)).
Proof.
  intros (Hk & data & Hdata & Hlen & Hm). exists (len data).
  unfold Receiver_Receive, received, sent. rewrite andb_false_r, Hdata. cbn [map dual].
  pose proof (len_nonneg data). rewrite !u32_nonneg by lia.
  eapply (acts_bind _ _ _ [_] _ _ [_]).
  { apply receiveMessageLengthAndKind_acts; lia. }
  cbn beta iota. eapply acts_bind_r.
  - eapply acts_bind_r; [apply acts_ReadFull; unfold len; lia|]. cbn beta iota. rewrite Hm. apply acts_ret.
  - apply acts_ret.
Qed.

End Messages.

Section Messengers.
Context `{Mar : Marshalizer}.

Definition with_nonce (m : Messenger) (n : Z) : Messenger := mkMessenger (m_Name m) n.

(** The next nonce of a dialogue. *)
Definition next (n : Z) : Z := u32 (n + 1).

Lemma Send_marshalled m data ms :
  Marshal (SetNonce (next (m_Nonce ms)) m) = inr data ->
  acts (Send m) ms (sent (SetNonce (next (m_Nonce ms)) m)) (with_nonce ms (next (m_Nonce ms))) None.
Proof.
  intros Hm. unfold Send. eapply acts_bind_nil; [apply acts_modify|].
  eapply acts_bind_nil; [apply acts_get|].
  destruct (Sender_Send_acts _ data (with_nonce ms (next (m_Nonce ms))) Hm) as [n Hn].
  eapply acts_bind_r; [exact Hn | apply acts_ret].
Qed.

Lemma Send_acts m ms :
  carried (SetNonce (next (m_Nonce ms)) m) ->
  acts (Send m) ms (sent (SetNonce (next (m_Nonce ms)) m)) (with_nonce ms (next (m_Nonce ms))) None.
Proof. intros (_ & data & Hdata & _). by eapply Send_marshalled. Qed.

Lemma Receive_acts m timeout ms :
  carried m -> GetNonce_ m = next (m_Nonce ms) ->
  acts (Receive timeout false) ms (received m) (with_nonce ms (next (m_Nonce ms))) (inr m).
Proof.
  intros Hm Hnonce. destruct (Receiver_Receive_acts m timeout ms Hm) as [n Hn].
  eapply acts_bind_r; [exact Hn|]. eapply acts_bind_nil; [apply acts_get|].
  unfold next in *. rewrite Hnonce, Z.eqb_refl. cbn [negb].
  eapply acts_bind_nil; [apply acts_modify | apply acts_ret].
Qed.

End Messengers.

(** ** Calls of the hook *)

Section Calls.
Context `{Extra : HookExtra} `{Mar : Marshalizer} `{Fm : Fmt}.

(** The error that comes out of a message: made anew from its text. *)
Definition relayed_error (err : option error) : option error :=
  match err with
  | None => None
  | Some err => match Error err with [] => None | text => Some (ErrNew (fmt_Errorf text)) end
  end.

(** The request of a call, the response to it, and what the gateway makes of the
    response. *)
Definition request {X} (c : hook_call X) : MessageHandler :=
  match c with
  | NewAddress creatorAddress creatorNonce vmType => NewMessageBlockchainNewAddressRequest creatorAddress creatorNonce vmType
  | GetStorageData accountAddress index => NewMessageBlockchainGetStorageDataRequest accountAddress index
  | GetBlockhash nonce => NewMessageBlockchainGetBlockhashRequest nonce
  | LastNonce => NewMessageBlockchainLastNonceRequest
  | LastRound => NewMessageBlockchainLastRoundRequest
  | LastTimeStamp => NewMessageBlockchainLastTimeStampRequest
  | LastRandomSeed => NewMessageBlockchainLastRandomSeedRequest
  | LastEpoch => NewMessageBlockchainLastEpochRequest
  | GetStateRootHash => NewMessageBlockchainGetStateRootHashRequest
  | CurrentNonce => NewMessageBlockchainCurrentNonceRequest
  | CurrentRound => NewMessageBlockchainCurrentRoundRequest
  | CurrentTimeStamp => NewMessageBlockchainCurrentTimeStampRequest
  | CurrentRandomSeed => NewMessageBlockchainCurrentRandomSeedRequest
  | CurrentEpoch => NewMessageBlockchainCurrentEpochRequest
  | ProcessBuiltInFunction input => NewMessageBlockchainProcessBuiltInFunctionRequest (Some input)
  | GetBuiltinFunctionNames => NewMessageBlockchainGetBuiltinFunctionNamesRequest
  | GetAllState address => NewMessageBlockchainGetAllStateRequest address
  | GetUserAccount address => NewMessageBlockchainGetUserAccountRequest address
  | GetCode account => NewMessageBlockchainGetCodeRequest (Some (account_of account))
  | GetShardOfAddress address => NewMessageBlockchainGetShardOfAddressRequest address
  | IsSmartContract address => NewMessageBlockchainIsSmartContractRequest address
  | IsPayable address => NewMessageBlockchainIsPayableRequest address
  | SaveCompiledCode codeHash code => NewMessageBlockchainSaveCompiledCodeRequest codeHash code
  | GetCompiledCode codeHash => NewMessageBlockchainGetCompiledCodeRequest codeHash
  | ClearCompiledCodes => NewMessageBlockchainClearCompiledCodesRequest
  | GetESDTToken address tokenID nonce => NewMessageBlockchainGetESDTTokenRequest address tokenID nonce
  | GetSnapshot => NewMessageBlockchainGetSnapshotRequest
  | RevertToSnapshot snapshot => NewMessageBlockchainRevertToSnapshotRequest snapshot
  end.

Definition response {X} (c : hook_call X) : X -> MessageHandler :=
  match c in hook_call X return X -> MessageHandler with
  | NewAddress _ _ _ => fun '(result, err) => NewMessageBlockchainNewAddressResponse result err
  | GetStorageData _ _ => fun '(result, err) => NewMessageBlockchainGetStorageDataResponse result err
  | GetBlockhash _ => fun '(result, err) => NewMessageBlockchainGetBlockhashResponse result err
  | LastNonce => NewMessageBlockchainLastNonceResponse
  | LastRound => NewMessageBlockchainLastRoundResponse
  | LastTimeStamp => NewMessageBlockchainLastTimeStampResponse
  | LastRandomSeed => NewMessageBlockchainLastRandomSeedResponse
  | LastEpoch => NewMessageBlockchainLastEpochResponse
  | GetStateRootHash => NewMessageBlockchainGetStateRootHashResponse
  | CurrentNonce => NewMessageBlockchainCurrentNonceResponse
  | CurrentRound => NewMessageBlockchainCurrentRoundResponse
  | CurrentTimeStamp => NewMessageBlockchainCurrentTimeStampResponse
  | CurrentRandomSeed => NewMessageBlockchainCurrentRandomSeedResponse
  | CurrentEpoch => NewMessageBlockchainCurrentEpochResponse
  | ProcessBuiltInFunction _ => fun '(result, err) => NewMessageBlockchainProcessBuiltInFunctionResponse result err
  | GetBuiltinFunctionNames => NewMessageBlockchainGetBuiltinFunctionNamesResponse
  | GetAllState _ => fun '(result, err) => NewMessageBlockchainGetAllStateResponse result err
  | GetUserAccount _ => fun r =>
      match r with
      | (Some result, None) => NewMessageBlockchainGetUserAccountResponse (Some (account_of result)) None
      | (_, err) => NewMessageBlockchainGetUserAccountResponse None err
      end
  | GetCode _ => NewMessageBlockchainGetCodeResponse
  | GetShardOfAddress _ => NewMessageBlockchainGetShardOfAddressResponse
  | IsSmartContract _ => NewMessageBlockchainIsSmartContractResponse
  | IsPayable _ => fun '(result, err) => NewMessageBlockchainIsPayableResponse result err
  | SaveCompiledCode _ _ => fun _ => NewMessageBlockchainSaveCompiledCodeResponse
  | GetCompiledCode _ => fun '(found, code) => NewMessageBlockchainGetCompiledCodeResponse found code
  | ClearCompiledCodes => fun _ => NewMessageBlockchainClearCompiledCodesResponse
  | GetESDTToken _ _ _ => fun '(result, err) => NewMessageBlockchainGetESDTTokenResponse result err
  | GetSnapshot => NewMessageBlockchainGetSnapshotResponse
  | RevertToSnapshot _ => NewMessageBlockchainRevertToSnapshotResponse
  end.

Definition relayed {X} (c : hook_call X) : X -> X :=
  match c in hook_call X return X -> X with
  | NewAddress _ _ _ => fun '(result, err) => (result, relayed_error err)
  | GetStorageData _ _ => fun '(result, err) => (result, relayed_error err)
  | GetBlockhash _ => fun '(result, err) => (result, relayed_error err)
  | LastNonce => fun result => result
  | LastRound => fun result => result
  | LastTimeStamp => fun result => result
  | LastRandomSeed => fun result => result
  | LastEpoch => fun result => result
  | GetStateRootHash => fun result => result
  | CurrentNonce => fun result => result
  | CurrentRound => fun result => result
  | CurrentTimeStamp => fun result => result
  | CurrentRandomSeed => fun result => result
  | CurrentEpoch => fun result => result
  | ProcessBuiltInFunction _ => fun '(vmOutput, err) =>
      (Some (ConvertToVMOutput (NewSerializableVMOutput vmOutput)), relayed_error err)
  | GetBuiltinFunctionNames => fun result => result
  | GetAllState _ => fun '(result, err) => (result, relayed_error err)
  | GetUserAccount _ => fun r =>
      match r with
      | (Some result, None) => (Some result, None)
      | (_, err) => (None, relayed_error err)
      end
  | GetCode _ => fun result => result
  | GetShardOfAddress _ => fun result => result
  | IsSmartContract _ => fun result => result
  | IsPayable _ => fun '(result, err) => (result, relayed_error err)
  | SaveCompiledCode _ _ => fun result => result
  | GetCompiledCode _ => fun result => result
  | ClearCompiledCodes => fun result => result
  | GetESDTToken _ _ _ => fun '(result, err) => (result, relayed_error err)
  | GetSnapshot => fun result => result
  | RevertToSnapshot _ => fun _ => None
  end.

(** Whether the Node takes the request for a call of the hook. *)
Definition served {X} (c : hook_call X) : bool := IsHookCall (request c).

Lemma account_handler_of a : account_handler (account_of a) = a.
Proof. by destruct a. Qed.

(** A method of the gateway, when the Node answers. *)
Lemma forward_acts {X} req resp kind failed (typed : MessageHandler -> option X) x ms n1 n2 :
  n1 = next (m_Nonce ms) -> n2 = next n1 ->
  carried (SetNonce n1 req) -> carried (SetNonce n2 resp) -> GetKind resp = kind ->
  typed (SetNonce n2 resp) = Some x ->
  acts (BlockchainHookGateway.forward req kind failed typed) ms
    (sent (SetNonce n1 req) ++ received (SetNonce n2 resp)) (with_nonce ms n2) x.
Proof.
  intros -> -> Hreq Hresp Hkind Hx. unfold BlockchainHookGateway.forward.
  eapply acts_bind_r.
  - unfold SendHookCallRequest. eapply acts_bind; [by apply Send_acts|].
    eapply acts_bind_r; [by apply Receive_acts | apply acts_ret].
  - cbn beta iota. replace (GetKind (SetNonce _ resp)) with kind by done.
    rewrite Z.eqb_refl. cbn [negb]. unfold with_nonce. cbn [m_Name m_Nonce].
    rewrite Hx. apply acts_deref.
Qed.

Lemma gateway_acts {X} (c : hook_call X) r ms n1 n2 :
  n1 = next (m_Nonce ms) -> n2 = next n1 ->
  carried (SetNonce n1 (request c)) -> carried (SetNonce n2 (response c r)) ->
  acts (gateway c) ms (sent (SetNonce n1 (request c)) ++ received (SetNonce n2 (response c r)))
    (with_nonce ms n2) (relayed c r).
Proof.
  intros -> -> Hreq Hresp.
  destruct c; cbn [gateway request response relayed] in *; repeat case_match; subst;
    (eapply forward_acts; [reflexivity | reflexivity | exact Hreq | exact Hresp | |]);
    try reflexivity.
  all: repeat match goal with e : option error |- _ => destruct e end; try reflexivity.
  all: cbn [body SetNonce SetError base new_message]; cbn.
  all: rewrite ?StringBytes_roundtrip, ?account_handler_of; try reflexivity.
  all: by destruct r.
Qed.

(** The Node's side of a call. *)
Lemma replier_answers {X} (c : hook_call X) :
  exists replier, node_Repliers !! Z.to_nat (GetKind (request c)) = Some replier /\
    forall n w, replier (SetNonce n (request c)) w =
      let '(w', r) := call_hook c w in Some (w', response c r).
Proof.
  destruct c; eexists; (split; [reflexivity|]); intros n w; cbn;
    unfold replyToBlockchainProcessBuiltInFunction, replyToBlockchainGetUserAccount; cbn;
    repeat case_match; simplify_eq; try reflexivity; by rewrite ?account_handler_of.
Qed.

(** ** Runs of the host *)

(** The run of the host with the hook of the Node behind the gateway: errors are
    made anew, and the first call that the Node does not take for one ends it. *)
Fixpoint remote {A} (p : hook_program A) (w : World) : World * option A :=
  match p with
  | Return a => (w, Some a)
  | Call c k =>
      if served c then
        let '(w', r) := call_hook c w in remote (k (Some (relayed c r))) w'
      else (w, None)
  end.

(** The messages of that run, the last nonce being [n]. *)
Fixpoint dialogue {A} (p : hook_program A) (w : World) (n : Z) : list MessageHandler :=
  match p with
  | Return _ => []
  | Call c k =>
      SetNonce (next n) (request c) ::
      if served c then
        let '(w', r) := call_hook c w in
        SetNonce (next (next n)) (response c r) ::
        dialogue (k (Some (relayed c r))) w' (next (next n))
      else []
  end.

Fixpoint last_nonce {A} (p : hook_program A) (w : World) (n : Z) : Z :=
  match p with
  | Return _ => n
  | Call c k =>
      if served c then
        let '(w', r) := call_hook c w in
        last_nonce (k (Some (relayed c r))) w' (next (next n))
      else n
  end.

(** How many calls are answered. *)
Fixpoint answered {A} (p : hook_program A) (w : World) : nat :=
  match p with
  | Return _ => 0
  | Call c k =>
      if served c then
        let '(w', r) := call_hook c w in S (answered (k (Some (relayed c r))) w')
      else 0
  end.

(** ** The Node's side *)

(** The Node has time for [k] more messages: none comes after its deadline, and the
    milliseconds that remain suffice. *)
Fixpoint timely (k : nat) (arrivals : list (Z * bool)) (remaining : Z) : bool :=
  match k with
  | O => true
  | S k' =>
      match arrivals with
      | [] => (0 <=? remaining) && timely k' [] remaining
      | (duration, expired) :: rest =>
          negb expired && (0 <=? remaining - duration) && timely k' rest (remaining - duration)
      end
  end.

Lemma with_node_messenger_acts {A} (m : Act Messenger A) ms t ms' a w mx arr :
  acts m ms t ms' a ->
  acts (with_node_messenger m) (mkNodePart _ ms w mx arr) t (mkNodePart _ ms' w mx arr) a.
Proof. intros H. unfold acts, with_node_messenger. by eapply reach_bind_ret. Qed.

(** The next message comes in time. *)
Lemma receive_in_time m k ms w mx arr rem :
  carried m -> GetNonce_ m = next (m_Nonce ms) -> timely (S k) arr rem = true ->
  exists duration,
    acts (ReceiveHookCallRequestOrContractResponse rem) (mkNodePart _ ms w mx arr) (received m)
      (mkNodePart _ (with_nonce ms (next (m_Nonce ms))) w mx (drop 1 arr)) (inr (m, duration)) /\
    0 <= rem - duration /\ timely k (drop 1 arr) (rem - duration) = true.
Proof.
  intros Hm Hnonce Ht. unfold ReceiveHookCallRequestOrContractResponse, next_arrival.
  destruct arr as [|[d e] arr]; cbn [timely] in Ht.
  - apply andb_prop in Ht as [Hrem Ht]. exists 0. rewrite Z.sub_0_r.
    split; [|split; [by apply Z.leb_le | done]].
    eapply acts_bind_nil; [eapply acts_bind_nil; [apply acts_get | apply acts_ret]|].
    eapply acts_bind_r; [by apply with_node_messenger_acts, Receive_acts | apply acts_ret].
  - apply andb_prop in Ht as [Hrem Ht]. apply andb_prop in Hrem as [He Hrem].
    destruct e; [done|]. exists d. split; [|split; [by apply Z.leb_le | done]].
    eapply acts_bind_nil.
    { eapply acts_bind_nil; [apply acts_get|].
      eapply acts_bind_nil; [apply acts_modify | apply acts_ret]. }
    cbn [node_Messenger blockchain config_MaxLoopTime arrivals].
    eapply acts_bind_r; [by apply with_node_messenger_acts, Receive_acts | apply acts_ret].
Qed.

(** A round that answers a call. *)
Lemma round_answers {X} (c : hook_call X) k ms w mx arr rem n1 n2 w' r :
  served c = true -> call_hook c w = (w', r) -> n1 = next (m_Nonce ms) -> n2 = next n1 ->
  carried (SetNonce n1 (request c)) -> carried (SetNonce n2 (response c r)) ->
  timely (S k) arr rem = true ->
  exists rem', timely k (drop 1 arr) rem' = true /\
    acts (node_doLoop rem) (mkNodePart _ ms w mx arr)
      (received (SetNonce n1 (request c)) ++ sent (SetNonce n2 (response c r)))
      (mkNodePart _ (with_nonce ms n2) w' mx (drop 1 arr)) (inl rem').
Proof.
  intros Hs Hc -> -> Hreq Hresp Ht.
  destruct (receive_in_time _ k ms w mx arr rem Hreq eq_refl Ht) as (d & Hr & Hd & Ht').
  destruct (replier_answers c) as (replier & Hreplier & Hanswer).
  exists (rem - d). split; [done|]. unfold node_doLoop, node_doLoop_round.
  eapply acts_bind_r with (a := inl (rem - d)); [eapply acts_bind; [exact Hr|] | apply acts_ret].
  cbn beta iota zeta. destruct (Z.ltb_spec (rem - d) 0); [lia|].
  change (IsHookCall (SetNonce _ (request c))) with (served c). rewrite Hs.
  eapply acts_bind_r with (a := None); [|apply acts_ret].
  unfold replyToHookCallRequest. cbn [GetKind SetNonce base Kind].
  change (Kind (base (request c))) with (GetKind (request c)). rewrite Hreplier.
  eapply acts_bind_nil; [apply acts_get|].
  cbn [blockchain]. rewrite Hanswer, Hc.
  eapply acts_bind_nil; [apply acts_deref|]. cbn beta iota.
  eapply acts_bind_nil; [apply acts_modify|].
  unfold SendHookCallResponse. eapply acts_bind_r with (a := None); [|apply acts_ret].
  cbn [node_Messenger config_MaxLoopTime arrivals].
  apply with_node_messenger_acts. by apply (Send_acts _ (with_nonce ms (next (m_Nonce ms)))).
Qed.

(** The last round: a message that is no call of the hook. *)
Lemma round_ends m ms w mx arr rem result :
  carried m -> GetNonce_ m = next (m_Nonce ms) -> timely 1 arr rem = true ->
  IsHookCall m = false ->
  result = (if IsVersionResponse m || IsContractResponse m || IsDiagnose m
                || IsGasScheduleChangeResponse m
            then (Some m, None) else (None, Some ErrBadMessageFromVM)) ->
  acts (node_doLoop rem) (mkNodePart _ ms w mx arr) (received m)
    (mkNodePart _ (with_nonce ms 0) w mx (drop 1 arr)) (inr result).
Proof.
  intros Hm Hnonce Ht Hcall ->.
  destruct (receive_in_time _ 0 ms w mx arr rem Hm Hnonce Ht) as (d & Hr & Hd & _).
  unfold node_doLoop, node_doLoop_round.
  eapply acts_bind_r with (a := inr (if IsVersionResponse m || IsContractResponse m || IsDiagnose m
    || IsGasScheduleChangeResponse m then (Some m, None) else (None, Some ErrBadMessageFromVM)));
    [eapply acts_bind_r; [exact Hr|]|].
  - cbn beta iota zeta. destruct (Z.ltb_spec (rem - d) 0); [lia|]. rewrite Hcall.
    destruct (IsVersionResponse m), (IsContractResponse m), (IsDiagnose m),
      (IsGasScheduleChangeResponse m); apply acts_ret.
  - cbn beta iota. eapply acts_bind_nil; [|apply acts_ret].
    apply with_node_messenger_acts. exact (acts_modify _ (with_nonce ms (next (m_Nonce ms)))).
Qed.

(** ** Both sides of a run *)

#[local] Abbreviation node_at name n w mx arr rem :=
  (PRet (mkNodePart _ (mkMessenger name n) w mx arr, Some (inl rem))).

Lemma program_runs {A} (p : hook_program A) w n w' a ms :
  remote p w = (w', Some a) -> m_Nonce ms = n -> Forall carried (dialogue p w n) ->
  exists t, acts (run_program p) ms t (with_nonce ms (last_nonce p w n)) a /\
    forall j name mx arr rem, timely (answered p w + j) arr rem = true ->
      exists rem', timely j (drop (answered p w) arr) rem' = true /\
        talks node_doLoop (node_at name n w mx arr rem) (map dual t)
          (node_at name (last_nonce p w n) w' mx (drop (answered p w) arr) rem').
Proof.
  revert w n ms. induction p as [a'|X c k IH]; intros w n ms Hp Hn Hd; cbn in *.
  - injection Hp as -> ->. exists []. split; [destruct ms; subst n; apply acts_ret|].
    intros j name mx arr rem Ht. exists rem. split; [done | constructor].
  - destruct (served c) eqn:Hs; [|done]. destruct (call_hook c w) as [w1 r] eqn:Hc.
    inversion_clear Hd as [|? ? Hreq Hd']. inversion_clear Hd' as [|? ? Hresp Hd''].
    subst n. set (n1 := next (m_Nonce ms)) in *.
    destruct (IH _ w1 (next n1) (with_nonce ms (next n1)) Hp eq_refl Hd'') as (t & Hvm & Hnode).
    eexists. split.
    + eapply reach_bind; [by eapply (gateway_acts c r _ n1 (next n1))|]. exact Hvm.
    + intros j name mx arr rem Ht.
      destruct (round_answers c (answered (k (Some (relayed c r))) w1 + j) (mkMessenger name (m_Nonce ms))
        w mx arr rem n1 (next n1) w1 r) as (rem1 & Ht1 & Hround); try done.
      destruct (Hnode j name mx _ _ Ht1) as (rem' & Ht' & Htalks).
      rewrite drop_drop in Ht', Htalks. exists rem'. split; [done|].
      rewrite !map_app. unfold received. rewrite map_dual_involutive.
      by eapply talks_round.
Qed.

(** Of the calls that the Node does not take for one the requests are like any other
    message to it, and not an answer. *)
Lemma unserved_request {X} (c : hook_call X) n :
  served c = false ->
  IsHookCall (SetNonce n (request c)) = false /\
  IsVersionResponse (SetNonce n (request c)) || IsContractResponse (SetNonce n (request c)) ||
    IsDiagnose (SetNonce n (request c)) ||
    IsGasScheduleChangeResponse (SetNonce n (request c)) = false.
Proof. by destruct c. Qed.

(** A run that makes such a call: the VM waits for an answer, the Node gives up. *)
Lemma program_stops {A} (p : hook_program A) w n w' ms :
  remote p w = (w', None) -> m_Nonce ms = n -> Forall carried (dialogue p w n) ->
  exists t, stops (run_program p) ms t /\
    forall name mx arr rem, timely (answered p w + 1) arr rem = true ->
      talks node_doLoop (node_at name n w mx arr rem) (map dual t)
        (PRet (mkNodePart _ (mkMessenger name 0) w' mx (drop (S (answered p w)) arr),
               Some (inr (None, Some ErrBadMessageFromVM)))).
Proof.
  revert w n ms. induction p as [a'|X c k IH]; intros w n ms Hp Hn Hd; cbn in *; [done|].
  inversion_clear Hd as [|? ? Hreq Hd']. subst n. set (n1 := next (m_Nonce ms)) in *.
  destruct (served c) eqn:Hs.
  - destruct (call_hook c w) as [w1 r] eqn:Hc. inversion_clear Hd' as [|? ? Hresp Hd''].
    destruct (IH _ w1 (next n1) (with_nonce ms (next n1)) Hp eq_refl Hd'') as (t & Hvm & Hnode).
    destruct Hvm as (q & Hq & Hw).
    eexists. split.
    + exists q. split; [|exact Hw].
      eapply reach_bind; [by eapply (gateway_acts c r _ n1 (next n1))|]. exact Hq.
    + intros name mx arr rem Ht.
      destruct (round_answers c (answered (k (Some (relayed c r))) w1 + 1)
        (mkMessenger name (m_Nonce ms)) w mx arr rem n1 (next n1) w1 r)
        as (rem1 & Ht1 & Hround); try done.
      specialize (Hnode name mx _ _ Ht1). rewrite drop_drop in Hnode.
      rewrite !map_app. unfold received. rewrite map_dual_involutive.
      by eapply talks_round.
  - injection Hp as <-. exists (sent (SetNonce n1 (request c))). split.
    + assert (stops (gateway c) ms (sent (SetNonce n1 (request c)))) as (q & Hq & Hw).
      { assert (forall kind failed (typed : MessageHandler -> option X),
          stops (BlockchainHookGateway.forward (request c) kind failed typed) ms
            (sent (SetNonce n1 (request c)))) as H.
        { intros kind failed typed. unfold BlockchainHookGateway.forward, SendHookCallRequest.
          apply stops_bind_l. rewrite <- (app_nil_r (sent _)).
          eapply stops_bind; [by apply Send_acts|]. apply stops_bind_l.
          eexists. split; [constructor|]. by do 2 eexists. }
        by destruct c; try apply H. }
      eexists. split; [by apply reach_bind_l | by apply waiting_bind].
    + intros name mx arr rem Ht. destruct (unserved_request c n1 Hs) as [Hcall Hother].
      replace (map dual _) with (received (SetNonce n1 (request c)) ++ []) by apply app_nil_r.
      apply talks_again. eapply talks_trans; [apply reach_talks | constructor].
      apply (round_ends _ (mkMessenger name (m_Nonce ms))); try done. by rewrite Hother.
Qed.

End Calls.
