(* ===== verification/IpcProps.v ===== *)
(** Transactions over the pipes: the driver of the Node, its part and the process
    of the VM together implement the run of the host against the hook - in whatever
    order they move - and what happens when they cannot. *)
From stdpp Require Import relations.
From S2P Require Import Prelude Errors Types State Toy GasConfig IpcMessages IpcPipes IpcParts.
From S2P Require Import IpcDriver IpcToy IpcTraces IpcSerial IpcMessaging.

#[local] Open Scope Z_scope.

Section Transactions.
Context `{Extra : HookExtra} `{Mar : Marshalizer} `{Fm : Fmt} `{Handler : ExecutionHandler}.
Context (vm_main : VMArguments -> running VMPart unit error).

(** ** One transaction *)

(** The VM waits for a request of the Node: [part] at the start of a round, before
    any message of the dialogue. *)
Definition vm_idle (p : running VMPart unit error) (part : VMPart) : Prop :=
  talks vm_doLoop p [] (vm_doLoop tt part) /\ m_Nonce (vm_Messenger part) = 0.

Definition with_host (host : Host) (part : VMPart) : VMPart :=
  mkVMPart _ (vm_Messenger part) host (vm_Version part).

Lemma vm_doLoop_waits part : waiting (vm_doLoop tt part).
Proof. by do 2 eexists. Qed.

Lemma with_vm_messenger_acts {A} (m : Act Messenger A) part t ms a :
  acts m (vm_Messenger part) t ms a ->
  acts (with_vm_messenger m) part t (mkVMPart _ ms (vm_VMHost part) (vm_Version part)) a.
Proof. intros H. unfold acts, with_vm_messenger. by eapply reach_bind_ret. Qed.

(** What the repliers to the contract requests do. *)
Definition contract_reply (p : hook_program (Host * (option VMOutput * option error))) :
    Act VMPart MessageHandler :=
  '(host, (vmOutput, err)) ← with_vm_messenger (run_program p);
  set_VMHost host ;;
  mret (NewMessageContractResponse vmOutput err).

(** A request that makes the VM run [p]. *)
Definition asks_for (req : MessageHandler) (part : VMPart)
    (p : hook_program (Host * (option VMOutput * option error))) : Prop :=
  IsStopRequest (SetNonce 1 req) = false /\
  forall ms, let part := mkVMPart _ ms (vm_VMHost part) (vm_Version part) in
    replyToNodeRequest (SetNonce 1 req) part = contract_reply p part.

Lemma call_request_asks part input :
  asks_for (NewMessageContractCallRequest (Some input)) part
    (RunSmartContractCall (vm_VMHost part) (Some input)).
Proof. done. Qed.

Lemma create_request_asks part input :
  asks_for (NewMessageContractDeployRequest (Some input)) part
    (RunSmartContractCreate (vm_VMHost part) (Some input)).
Proof. done. Qed.

(** The Node sends its request and enters its loop. *)
Lemma request_sent req data name w mx arr :
  Marshal (SetNonce 1 req) = inr data ->
  acts (node_StartLoop req) (mkNodePart _ (mkMessenger name 0) w mx arr)
    (sent (SetNonce 1 req)) (mkNodePart _ (mkMessenger name 1) w mx arr) (inl mx).
Proof.
  intros Hreq. unfold node_StartLoop, SendContractRequest.
  eapply acts_bind_r with (a := None).
  - eapply acts_bind_r with (a := None); [|apply acts_ret].
    by eapply with_node_messenger_acts, (Send_marshalled _ _ (mkMessenger name 0)).
  - eapply acts_bind_nil; [apply acts_get | apply acts_ret].
Qed.

(** The VM receives it and replies. *)
Lemma vm_round req part p t host out err n :
  asks_for req part p -> m_Nonce (vm_Messenger part) = 0 ->
  carried (SetNonce 1 req) ->
  acts (run_program p) (with_nonce (vm_Messenger part) 1) t
    (with_nonce (vm_Messenger part) n) (host, (out, err)) ->
  carried (SetNonce (next n) (NewMessageContractResponse out err)) ->
  acts (vm_doLoop tt) part
    (received (SetNonce 1 req) ++ t ++ sent (SetNonce (next n) (NewMessageContractResponse out err)))
    (with_host host part) (inl tt).
Proof.
  intros [Hstop Hasks] H0 Hreq Hp Hresp. destruct part as [[name n0] h version].
  cbn in H0. subst n0. unfold with_nonce, with_host in *. cbn [m_Name vm_Messenger] in *.
  unfold vm_doLoop. eapply acts_bind.
  { apply with_vm_messenger_acts. unfold ReceiveNodeRequest.
    eapply acts_bind_r; [by apply (Receive_acts _ 0 (mkMessenger name 0)) | apply acts_ret]. }
  cbn beta iota. rewrite Hstop. eapply acts_bind.
  { unfold acts. cbn [vm_VMHost vm_Version with_nonce m_Name vm_Messenger].
    change (next (m_Nonce (mkMessenger name 0))) with 1.
    rewrite Hasks. unfold contract_reply.
    eapply acts_bind_r with (a := (host, (out, err))); [by apply with_vm_messenger_acts|].
    eapply acts_bind_nil; [apply acts_modify | apply acts_ret]. }
  cbn [vm_Messenger vm_Version].
  eapply acts_bind_r with (a := None).
  - apply with_vm_messenger_acts. unfold SendContractResponse.
    eapply acts_bind_r with (a := None); [|apply acts_ret].
    by apply (Send_acts _ (mkMessenger name n)).
  - eapply acts_bind_nil; [|apply acts_ret].
    apply with_vm_messenger_acts. apply reach_refl.
Qed.

(** ... or it waits in the middle of the run. *)
Lemma vm_round_stops req part p t :
  asks_for req part p -> m_Nonce (vm_Messenger part) = 0 ->
  carried (SetNonce 1 req) -> stops (run_program p) (with_nonce (vm_Messenger part) 1) t ->
  stops (vm_doLoop tt) part (received (SetNonce 1 req) ++ t).
Proof.
  intros [Hstop Hasks] H0 Hreq Hp. destruct part as [[name n0] h version].
  cbn in H0. subst n0. unfold with_nonce in *. cbn [m_Name vm_Messenger] in *.
  unfold vm_doLoop. eapply stops_bind.
  { apply with_vm_messenger_acts. unfold ReceiveNodeRequest.
    eapply acts_bind_r; [by apply (Receive_acts _ 0 (mkMessenger name 0)) | apply acts_ret]. }
  cbn beta iota. rewrite Hstop. apply stops_bind_l. unfold stops.
  cbn [vm_VMHost vm_Version with_nonce m_Name vm_Messenger].
  change (next (m_Nonce (mkMessenger name 0))) with 1. rewrite Hasks.
  unfold contract_reply. apply stops_bind_l. destruct Hp as (q & Hq & Hw).
  eexists. split; [by apply reach_bind_l | by apply waiting_bind].
Qed.

(** ** The parts at rest *)

#[local] Abbreviation moves := (step node_doLoop vm_doLoop).

Definition node_done part (result : loop_result) : running NodePart Z loop_result :=
  PRet (part, Some (inr result)).

Lemma rest_of_waiting part result q :
  waiting q -> at_rest node_doLoop vm_doLoop (mksystem (node_done part result) q [] []).
Proof. intros (n & k & ->). by split. Qed.

Lemma waiting_alive {S L R} (q : running S L R) : waiting q -> ended q = false.
Proof. by intros (n & k & ->). Qed.

(** A transaction: what the parts come to. *)
Definition comes_to (driver : VMDriver)
    (p : hook_program (Host * (option VMOutput * option error))) (part : VMPart)
    (f : system NodePart Z loop_result VMPart unit error) : Prop :=
  let w := blockchain (d_part driver) in
  let done w result k :=
    node f = node_done (mkNodePart _ (with_nonce (node_Messenger (d_part driver)) 0) w
      (config_MaxLoopTime (d_part driver)) (drop k (arrivals (d_part driver)))) result /\
    to_vm f = [] /\ to_node f = [] in
  match remote p w with
  | (w', Some (host, (out, err))) =>
      done w' (Some (SetNonce (next (last_nonce p w 1)) (NewMessageContractResponse out err)), None)
        (S (answered p w)) /\
      vm_idle (vm f) (with_host host part)
  | (w', None) => done w' (None, Some ErrBadMessageFromVM) (S (answered p w))
  end.

(** The link between transactions: the process runs and waits, nothing is in the
    pipes, and both count from 0. *)
Definition ready (driver : VMDriver) (part : VMPart) : Prop :=
  m_Nonce (node_Messenger (d_part driver)) = 0 /\
  exists p, d_process driver = Running p [] [] /\ vm_idle p part.

(** The messages of a transaction are carried. *)
Definition all_carried (req : MessageHandler)
    (p : hook_program (Host * (option VMOutput * option error))) (w : World) : Prop :=
  Forall carried (SetNonce 1 req :: dialogue p w 1) /\
  match remote p w with
  | (_, Some (_, (out, err))) =>
      carried (SetNonce (next (last_nonce p w 1)) (NewMessageContractResponse out err))
  | _ => True
  end.

(** The messages of a transaction come in time. *)
Definition all_timely (driver : VMDriver)
    (p : hook_program (Host * (option VMOutput * option error))) : Prop :=
  timely (answered p (blockchain (d_part driver)) + 1) (arrivals (d_part driver))
    (config_MaxLoopTime (d_part driver)) = true.

Lemma transaction driver part req p q :
  m_Nonce (node_Messenger (d_part driver)) = 0 -> vm_idle q part -> asks_for req part p ->
  all_carried req p (blockchain (d_part driver)) -> all_timely driver p ->
  exists n f, nsteps moves n (linked req (d_part driver) q [] []) f /\
    at_rest node_doLoop vm_doLoop f /\ ended (vm f) = false /\ comes_to driver p part f.
Proof.
  intros Hn0 [Hidle Hv0] Hasks [Hd Hresp] Ht. inversion_clear Hd as [|? ? Hreq Hdia].
  pose proof Hreq as (_ & reqdata & Hreqdata & _).
  unfold all_timely, comes_to, linked in *.
  destruct (d_part driver) as [[name n0] w mx arr]. cbn in Hn0. subst n0.
  cbn [blockchain arrivals config_MaxLoopTime node_Messenger] in *.
  destruct (remote p w) as [w' [[host [out err]]|]] eqn:Hp.
  - destruct (program_runs p w 1 w' _ (with_nonce (vm_Messenger part) 1) Hp eq_refl Hdia)
      as (t & Hvm & Hnode).
    destruct (Hnode 1%nat name mx arr mx Ht) as (rem & Ht' & Htalks).
    pose proof (vm_round req part p t host out err _ Hasks Hv0 Hreq Hvm Hresp) as Hround.
    set (resp := SetNonce _ (NewMessageContractResponse out err)) in *.
    assert (talks node_doLoop (node_StartLoop req (mkNodePart _ (mkMessenger name 0) w mx arr))
      (sent (SetNonce 1 req) ++ map dual t ++ received resp ++ [])
      (node_done (mkNodePart _ (mkMessenger name 0) w' mx (drop 1 (drop (answered p w) arr)))
         (Some resp, None))) as Hn.
    { eapply talks_trans; [by eapply reach_talks, request_sent|].
      eapply talks_trans; [exact Htalks|]. apply talks_again.
      eapply talks_trans; [apply reach_talks | constructor].
      by apply (round_ends resp (mkMessenger name (last_nonce p w 1))); try done; destruct err. }
    assert (talks vm_doLoop q
      (map dual (sent (SetNonce 1 req) ++ map dual t ++ received resp ++ []))
      (vm_doLoop tt (with_host host part))) as Hv.
    { rewrite !map_app, map_dual_involutive.
      replace (map dual (received resp)) with (sent resp) by (symmetry; apply map_dual_involutive).
      cbn [map]. rewrite app_nil_r. eapply (talks_trans _ _ []); [exact Hidle|].
      change (map dual (sent (SetNonce 1 req))) with (received (SetNonce 1 req)).
      rewrite <- (app_nil_r (received _ ++ t ++ sent resp)).
      eapply talks_trans; [apply reach_talks; exact Hround|]. apply talks_again. constructor. }
    destruct (rtc_nsteps_1 _ _ (duality _ _ _ _ _ _ _ Hn Hv)) as [k Hk].
    exists k. eexists. split; [exact Hk|].
    split; [apply rest_of_waiting, vm_doLoop_waits|].
    split; [apply waiting_alive, vm_doLoop_waits|].
    rewrite drop_drop, Nat.add_1_r. cbn [vm]. repeat split; try done. constructor.
  - destruct (program_stops p w 1 w' (with_nonce (vm_Messenger part) 1) Hp eq_refl Hdia)
      as (t & Hvm & Hnode).
    specialize (Hnode name mx arr mx Ht).
    destruct (vm_round_stops req part p t Hasks Hv0 Hreq Hvm) as (q' & Hq' & Hw).
    assert (talks node_doLoop (node_StartLoop req (mkNodePart _ (mkMessenger name 0) w mx arr))
      (sent (SetNonce 1 req) ++ map dual t)
      (node_done (mkNodePart _ (mkMessenger name 0) w' mx (drop (S (answered p w)) arr))
         (None, Some ErrBadMessageFromVM))) as Hn.
    { eapply talks_trans; [by eapply reach_talks, request_sent | exact Hnode]. }
    assert (talks vm_doLoop q (map dual (sent (SetNonce 1 req) ++ map dual t)) q') as Hv.
    { rewrite map_app, map_dual_involutive.
      eapply (talks_trans _ _ []); [exact Hidle | by apply reach_talks]. }
    destruct (rtc_nsteps_1 _ _ (duality _ _ _ _ _ _ _ Hn Hv)) as [k Hk].
    exists k. eexists. split; [exact Hk|].
    split; [by apply rest_of_waiting|]. split; [by apply waiting_alive | done].
Qed.

(** ** The driver *)

(** A deployment or a call. *)
Definition contract_request (input : ContractCreateInput + ContractCallInput) : MessageHandler :=
  match input with
  | inl input => NewMessageContractDeployRequest (Some input)
  | inr input => NewMessageContractCallRequest (Some input)
  end.

Definition host_run (part : VMPart) (input : ContractCreateInput + ContractCallInput) :
    hook_program (Host * (option VMOutput * option error)) :=
  match input with
  | inl input => RunSmartContractCreate (vm_VMHost part) (Some input)
  | inr input => RunSmartContractCall (vm_VMHost part) (Some input)
  end.

Definition driver_run (fuel : nat) (input : ContractCreateInput + ContractCallInput)
    (driver : VMDriver) : outcome (VMDriver * (option VMOutput * option error)) :=
  match input with
  | inl input => driver_RunSmartContractCreate vm_main fuel input driver
  | inr input => driver_RunSmartContractCall vm_main fuel input driver
  end.

(** The counters of the driver. *)
Definition counted (input : ContractCreateInput + ContractCallInput) (driver : VMDriver) :
    VMDriver :=
  mkVMDriver (d_vmArguments driver)
    (if input is inl _ then u64 (d_counterDeploy driver + 1) else d_counterDeploy driver)
    (if input is inl _ then d_counterCall driver else u64 (d_counterCall driver + 1))
    (d_process driver) (d_part driver) (d_starts driver).

Lemma driver_run_ask fuel input driver :
  driver_run fuel input driver =
    ask_contract vm_main fuel (contract_request input) (counted input driver).
Proof. by destruct input. Qed.

Lemma contract_request_asks part input :
  asks_for (contract_request input) part (host_run part input).
Proof. destruct input; [apply create_request_asks | apply call_request_asks]. Qed.

(** What the Node gets for an output of the host. *)
Definition delivered (out : option VMOutput) (err : option error) :
    option VMOutput * option error :=
  match relayed_error err with
  | Some err => (None, Some err)
  | None => (Some (ConvertToVMOutput (NewSerializableVMOutput out)), None)
  end.

Lemma contract_output_delivered n out err :
  contract_output (SetNonce n (NewMessageContractResponse out err)) = Some (delivered out err).
Proof.
  unfold delivered. destruct err as [err|]; [|done].
  unfold contract_output. cbn. unfold GetError. cbn. by destruct (Error err).
Qed.

Lemma ask_transaction driver part req p :
  ready driver part -> asks_for req part p ->
  all_carried req p (blockchain (d_part driver)) -> all_timely driver p ->
  exists fuel,
    match remote p (blockchain (d_part driver)) with
    | (w', Some (host, (out, err))) =>
        exists driver' n, ask vm_main fuel req driver =
          Ret (driver', inr (SetNonce n (NewMessageContractResponse out err))) /\
          ready driver' (with_host host part) /\ blockchain (d_part driver') = w'
    | (w', None) =>
        exists driver', ask vm_main fuel req driver = Ret (driver', inl ErrBadMessageFromVM) /\
          d_process driver' = Killed /\ blockchain (d_part driver') = w'
    end.
Proof.
  intros (Hn0 & q & Hq & Hidle) Hasks Hcarried Htimely.
  destruct (transaction driver part req p q Hn0 Hidle Hasks Hcarried Htimely)
    as (n & f & Hn & Hrest & Halive & Hf).
  exists (S n). unfold ask, RestartVMIfNecessary, IsClosed. rewrite Hq.
  unfold StartLoop. rewrite Hq, (run_to_rest _ _ _ _ _ Hn Hrest Halive).
  unfold comes_to in Hf. destruct f as [pn pv a b]. cbn [node vm to_vm to_node] in Hf.
  destruct (remote p _) as [w' [[host [out err]]|]].
  - destruct Hf as ((-> & -> & ->) & Hvm). cbn.
    do 2 eexists. split; [reflexivity|]. split; [|done]. split; [done|]. by eexists.
  - destruct Hf as (-> & -> & ->). cbn. by eexists.
Qed.

(** The run with the hook called directly. *)
Fixpoint direct {A} (p : hook_program A) (w : World) : World * A :=
  match p with
  | Return a => (w, a)
  | Call c k => let '(w', r) := call_hook c w in direct (k (Some r)) w'
  end.

(** All the calls of that run are served and their results come through unchanged. *)
Fixpoint unchanged {A} (p : hook_program A) (w : World) : Prop :=
  match p with
  | Return a => True
  | Call c k =>
      let '(w', r) := call_hook c w in
      served c = true /\ relayed c r = r /\ unchanged (k (Some r)) w'
  end.

Lemma remote_direct {A} (p : hook_program A) w :
  unchanged p w -> remote p w = (fst (direct p w), Some (snd (direct p w))).
Proof.
  revert w. induction p as [a|X c k IH]; intros w Hp; [done|]. cbn in *.
  destruct (call_hook c w) as [w' r]. destruct Hp as (Hs & Hr & Hp). rewrite Hs, Hr. by apply IH.
Qed.

(** ** A VM that ends *)

(** While the Node waits, [run] lets the VM move. *)
Lemma run_vm_move fuel (c c' : system NodePart Z loop_result VMPart unit error) :
  node_move node_doLoop c = None -> vm_move vm_doLoop c = Some c' ->
  run node_doLoop vm_doLoop (S fuel) c = run node_doLoop vm_doLoop fuel c'.
Proof. intros H1 H2. cbn. by rewrite H1, H2. Qed.

Lemma run_node_move fuel (c c' : system NodePart Z loop_result VMPart unit error) :
  node_move node_doLoop c = Some c' ->
  run node_doLoop vm_doLoop (S fuel) c = run node_doLoop vm_doLoop fuel c'.
Proof. intros H. cbn. by rewrite H. Qed.

(** A Node that has no move whatever the VM does, short of writing or ending. *)
Definition stuck (p : running NodePart Z loop_result) : Prop :=
  (exists part result, p = node_done part result) \/ waiting p.

Lemma stuck_node_move p (q : running VMPart unit error) a :
  stuck p -> ended q = false -> node_move node_doLoop (mksystem p q a []) = None.
Proof.
  intros [(part & r & ->)|(n & k & ->)] Hq; [done|]. unfold node_move. cbn. by rewrite Hq.
Qed.

(** A VM that reads all there is for it, while the Node is stuck. *)
Lemma run_vm_reads p q t q' :
  stuck p -> talks vm_doLoop q (map In t) q' ->
  exists k, forall fuel, run node_doLoop vm_doLoop (k + fuel) (mksystem p q (concat t) []) =
    run node_doLoop vm_doLoop fuel (mksystem p q' [] []).
Proof.
  intros Hp H. remember (map In t) as u eqn:Hu. revert t Hu.
  induction H as [q|s l u q' H IH|data k u q' H IH|n k data u q' Hn H IH]; intros t Hu.
  - destruct t; [by exists 0%nat | done].
  - destruct (IH t Hu) as [m Hm]. exists (S m). intros fuel. cbn [Nat.add]. rewrite <- Hm.
    apply run_vm_move; [by apply stuck_node_move | done].
  - by destruct t.
  - destruct t as [|d t]; [done|]. injection Hu as <- ->. destruct (IH t eq_refl) as [m Hm].
    exists (S m). intros fuel. cbn [Nat.add concat]. rewrite <- Hm.
    apply run_vm_move; [by apply stuck_node_move|].
    unfold vm_move. cbn [vm to_vm to_node node advance].
    rewrite bool_decide_eq_true_2 by (rewrite length_app; lia).
    by rewrite take_app_length', drop_app_length' by done.
Qed.

(** The VM reads a message that it takes for an undefined one, and panics. *)
Lemma gas_schedule_crashes part m data :
  m_Nonce (vm_Messenger part) = 0 -> base m = mkMessage 1 MessageKind.GasScheduleChangeRequest [] ->
  len data < 2 ^ 32 ->
  Unmarshal (CreateMessage MessageKind.GasScheduleChangeRequest) data =
    inr (mkMessageHandler (base m) UndefinedMessage) ->
  reach (vm_doLoop tt part)
    (map In [PutUint32 (len data) ++ PutUint32 MessageKind.GasScheduleChangeRequest; data])
    (PRet (mkVMPart _ (with_nonce (vm_Messenger part) 1) (vm_VMHost part) (vm_Version part), None)).
Proof.
  intros H0 Hbase Hlen Hdata. destruct part as [[name n0] h version]. cbn in H0. subst n0.
  unfold vm_doLoop. cbn -[PutUint32 LittleEndian_Uint32 CreateMessage].
  apply reach_read; [done|]. cbn [PutUint32 app]. pose proof (len_nonneg data).
  rewrite !Uint32_PutUint32 by (unfold MessageKind.GasScheduleChangeRequest; lia).
  cbn -[CreateMessage]. apply reach_read; [unfold len; lia|].
  rewrite Hdata. cbn. rewrite Hbase. cbn. apply reach_refl.
Qed.

(** A Node that writes. *)
Lemma run_node_writes p t p' q a :
  ended q = false -> talks node_doLoop p (map Out t) p' ->
  exists k, forall fuel, run node_doLoop vm_doLoop (k + fuel) (mksystem p q a []) =
    run node_doLoop vm_doLoop fuel (mksystem p' q (a ++ concat t) []).
Proof.
  intros Hq H. remember (map Out t) as u eqn:Hu. revert t Hu a.
  induction H as [p|s l u p' H IH|data k u p' H IH|n k data u p' Hn H IH]; intros t Hu a.
  - destruct t; [|done]. exists 0%nat. intros. cbn. by rewrite app_nil_r.
  - destruct (IH t Hu a) as [m Hm]. exists (S m). intros fuel. cbn [Nat.add]. rewrite <- Hm.
    apply run_node_move. unfold node_move. cbn. by rewrite app_nil_r.
  - destruct t as [|d t]; [done|]. injection Hu as <- ->.
    destruct (IH t eq_refl (a ++ data)) as [m Hm]. exists (S m). intros fuel.
    cbn [Nat.add concat]. rewrite app_assoc, <- Hm. apply run_node_move.
    unfold node_move. cbn. by rewrite Hq.
  - by destruct t.
Qed.

(** A Node that waits for a message that never comes. *)
Lemma node_waits name n w mx arr :
  let done_ err := node_done (mkNodePart _ (mkMessenger name 0) w mx (drop 1 arr)) (None, Some err) in
  let p := node_doLoop mx (mkNodePart _ (mkMessenger name n) w mx arr) in
  p = done_ ErrDeadlineExceeded \/ exists k, p = PRead 8 k /\ k (inl EOF) = done_ EOF.
Proof.
  cbn zeta. unfold node_doLoop, node_doLoop_round, ReceiveHookCallRequestOrContractResponse.
  unfold Receive, Receiver_Receive.
  destruct (0 <? mx), arr as [|[d [|]] arr];
    first [left; reflexivity | right; eexists; split; reflexivity].
Qed.

(** The Node sends the change and waits; the VM panics; the Node sees that. *)
Lemma gas_schedule_exchange driver part q newGasSchedule data :
  m_Nonce (node_Messenger (d_part driver)) = 0 -> talks vm_doLoop q [] (vm_doLoop tt part) ->
  m_Nonce (vm_Messenger part) = 0 ->
  Marshal (SetNonce 1 (NewMessageGasScheduleChangeRequest newGasSchedule)) = inr data ->
  len data < 2 ^ 32 ->
  Unmarshal (CreateMessage MessageKind.GasScheduleChangeRequest) data =
    inr (mkMessageHandler (mkMessage 1 MessageKind.GasScheduleChangeRequest []) UndefinedMessage) ->
  exists fuel f,
    run node_doLoop vm_doLoop fuel
      (linked (NewMessageGasScheduleChangeRequest newGasSchedule) (d_part driver) q [] []) = Ret f /\
    exists err, node f = node_done
      (mkNodePart _ (with_nonce (node_Messenger (d_part driver)) 0) (blockchain (d_part driver))
         (config_MaxLoopTime (d_part driver)) (drop 1 (arrivals (d_part driver)))) (None, Some err).
Proof.
  intros Hn0 Hidle Hv0 Hdata Hlen Hun.
  destruct (d_part driver) as [[name n0] w mx arr]. cbn in Hn0. subst n0.
  set (m := SetNonce 1 (NewMessageGasScheduleChangeRequest newGasSchedule)) in *.
  set (header := PutUint32 (len data) ++ PutUint32 MessageKind.GasScheduleChangeRequest).
  pose proof (len_nonneg data) as Hnn.
  assert (talks vm_doLoop q (map In [header; data])
    (PRet (mkVMPart _ (with_nonce (vm_Messenger part) 1) (vm_VMHost part) (vm_Version part), None)))
    as Hvm.
  { eapply (talks_trans _ _ []); [exact Hidle|]. apply reach_talks.
    by apply (gas_schedule_crashes part m data). }
  set (crashed := PRet _) in Hvm.
  assert (ended q = false) as Hq by (destruct (ended q) eqn:He; [|done]; by apply ended_talks in Hvm).
  assert (talks node_doLoop
    (node_StartLoop (NewMessageGasScheduleChangeRequest newGasSchedule)
       (mkNodePart _ (mkMessenger name 0) w mx arr)) (map Out [header; data])
    (node_doLoop mx (mkNodePart _ (mkMessenger name 1) w mx arr))) as Hnode.
  { rewrite <- (app_nil_r (map Out _)). eapply talks_trans; [|apply talks_again; constructor].
    pose proof (request_sent _ _ name w mx arr Hdata) as Hs. unfold sent in Hs.
    fold m in Hs. rewrite Hdata, u32_nonneg in Hs by lia. by apply reach_talks. }
  pose proof (run_node_writes _ [header; data] _ q [] Hq Hnode) as Hsent.
  (* the Node waits, or its deadline has passed *)
  assert (exists p, stuck p /\ (exists k, forall fuel,
      run node_doLoop vm_doLoop (k + fuel)
        (linked (NewMessageGasScheduleChangeRequest newGasSchedule)
           (mkNodePart _ (mkMessenger name 0) w mx arr) q [] []) =
      run node_doLoop vm_doLoop fuel (mksystem p q (concat [header; data]) [])) /\
    exists fuel f, run node_doLoop vm_doLoop fuel (mksystem p crashed [] []) = Ret f /\
      exists err, node f = node_done (mkNodePart _ (mkMessenger name 0) w mx (drop 1 arr))
        (None, Some err)) as (p & Hp & [k Hk] & fuel & f & Hf & Herr).
  { exists (node_doLoop mx (mkNodePart _ (mkMessenger name 1) w mx arr)).
    destruct (node_waits name 1 w mx arr) as [Hp|(k & Hp & Heof)].
    - split; [left; rewrite Hp; do 2 eexists; reflexivity|]. split; [exact Hsent|].
      rewrite Hp. exists 1%nat. eexists. split; [reflexivity | by eexists].
    - split; [right; rewrite Hp; do 2 eexists; reflexivity|]. split; [exact Hsent|]. rewrite Hp.
      exists 2%nat. eexists. split.
      { rewrite run_node_move with (c' := mksystem (k (inl EOF)) crashed [] []) by done.
        rewrite Heof. reflexivity. }
      by eexists. }
  destruct (run_vm_reads p q [header; data] crashed Hp Hvm) as [k' Hk'].
  exists (k + (k' + fuel))%nat, f. by rewrite Hk, Hk'.
Qed.

(** ** Properties *)

(** C9: a deployment or a call that the Node makes through the driver runs the host
    against the Node's own hook, on three conditions: the marshalizer carries the messages,
    they come in time, and the host makes only calls of the hook that the Node serves.  Then
    the output of the host is delivered, with the effects on the world of the calls it made,
    and the link is ready for the next transaction.  The calls are answered as the hook
    answers them, but for errors, which are made anew from their texts ([remote]); so is the
    host's.  If every call comes through unchanged, that is the run against the hook itself. *)
Theorem contracts_over_pipes driver part input w' host out err :
  ready driver part ->
  all_carried (contract_request input) (host_run part input) (blockchain (d_part driver)) ->
  all_timely driver (host_run part input) ->
  remote (host_run part input) (blockchain (d_part driver)) = (w', Some (host, (out, err))) ->
  (exists fuel driver',
     driver_run fuel input driver = Ret (driver', delivered out err) /\
     ready driver' (with_host host part) /\ blockchain (d_part driver') = w') /\
  (unchanged (host_run part input) (blockchain (d_part driver)) ->
     direct (host_run part input) (blockchain (d_part driver)) = (w', (host, (out, err)))).
Proof.
  intros Hready Hc Ht Hr. split.
  - destruct (ask_transaction (counted input driver) part _ _ Hready
      (contract_request_asks part input) Hc Ht) as (fuel & H).
    cbn [counted d_part] in H. rewrite Hr in H. destruct H as (driver' & n & Hask & H).
    exists fuel, driver'. split; [|exact H].
    by rewrite driver_run_ask; unfold ask_contract; rewrite Hask, contract_output_delivered.
  - intros Hu. rewrite (remote_direct _ _ Hu) in Hr. injection Hr as <- <-.
    by destruct (direct _ _).
Qed.
(** C30: the Node does not take the requests for a snapshot, for going back to one,
    for a built-in function and for clearing the compiled codes for calls of the
    hook: a transaction that makes one fails with a critical error, the process is
    killed, and what the calls before it did to the world stays. *)
Theorem unserved_calls_kill_the_vm driver part input w' :
  ready driver part ->
  all_carried (contract_request input) (host_run part input) (blockchain (d_part driver)) ->
  all_timely driver (host_run part input) ->
  remote (host_run part input) (blockchain (d_part driver)) = (w', None) ->
  (exists fuel driver',
     driver_run fuel input driver =
       Ret (driver', (None, Some (CriticalError ErrBadMessageFromVM))) /\
     d_process driver' = Killed /\ blockchain (d_part driver') = w') /\
  served GetSnapshot = false /\ (forall snapshot, served (RevertToSnapshot snapshot) = false) /\
  (forall i, served (ProcessBuiltInFunction i) = false) /\ served ClearCompiledCodes = false.
Proof.
  intros Hready Hc Ht Hr. split; [|done].
  destruct (ask_transaction (counted input driver) part _ _ Hready
    (contract_request_asks part input) Hc Ht) as (fuel & H).
  cbn [counted d_part] in H. rewrite Hr in H. destruct H as (driver' & Hask & H).
  exists fuel, driver'. split; [|exact H].
  by rewrite driver_run_ask; unfold ask_contract; rewrite Hask.
Qed.


(** The kind of a change of the gas schedule is not known to the factory of
    messages: the VM reads an undefined message and panics when it answers it.  The
    Node sees the pipe close and kills the process; only the process started for the
    next operation has the new schedule, from its arguments. *)
Theorem gas_schedule_change_restarts driver part newGasSchedule data :
  ready driver part ->
  Marshal (SetNonce 1 (NewMessageGasScheduleChangeRequest newGasSchedule)) = inr data ->
  len data < 2 ^ 32 ->
  Unmarshal (CreateMessage MessageKind.GasScheduleChangeRequest) data =
    inr (mkMessageHandler (mkMessage 1 MessageKind.GasScheduleChangeRequest []) UndefinedMessage) ->
  exists fuel driver',
    driver_GasScheduleChange vm_main fuel newGasSchedule driver = Ret driver' /\
    d_process driver' = Killed /\
    blockchain (d_part driver') = blockchain (d_part driver) /\
    (d_starts driver = [] ->
     d_process (fst (startVM vm_main driver')) =
       Running (vm_main (set_GasSchedule newGasSchedule (d_vmArguments driver))) [] []).
Proof.
  intros (Hn0 & q & Hq & Hidle & Hv0) Hdata Hlen Hun.
  destruct (gas_schedule_exchange driver part q newGasSchedule data) as (fuel & f & Hrun & Hf);
    [done..|].
  exists fuel. unfold driver_GasScheduleChange, ask, RestartVMIfNecessary, IsClosed.
  cbn [d_process d_part d_vmArguments d_starts]. rewrite Hq.
  unfold StartLoop. cbn [d_process d_part]. rewrite Hrun.
  destruct Hf as (err & Hf). destruct f as [pn pv a b]. cbn [node] in Hf. rewrite Hf. cbn.
  eexists. split; [reflexivity|]. split; [done|]. split; [done|]. intros Hs. by rewrite Hs.
Qed.

End Transactions.

(** ** Witnesses *)

Section Witnesses.
#[local] Existing Instances toy toy_extra toy_fmt toy_marshalizer toy_handler.

Lemma toy_carried m data :
  0 <= GetKind m < 2 ^ 32 -> toy_encode m = inr data -> len data < 2 ^ 32 ->
  toy_decode (CreateMessage (GetKind m)) data = inr m -> carried m.
Proof. intros. split; [done|]. by exists data. Qed.

Lemma toy_driver_ready : ready toy_driver toy_part.
Proof. split; [done|]. eexists. split; [done|]. split; [constructor | done]. Qed.

Lemma toy_call_carried : all_carried (contract_request (inr (toy_input (bs "main"))))
  (host_run toy_part (inr (toy_input (bs "main")))) (blockchain (d_part toy_driver)).
Proof.
  split.
  - repeat constructor; try (eapply toy_carried; [| reflexivity | |]; vm_compute; done).
  - eapply toy_carried; [| reflexivity | |]; vm_compute; done.
Qed.

Lemma contracts_over_pipes_witness :
  (exists fuel driver',
     driver_run (fun _ => toy_process) fuel (inr (toy_input (bs "main"))) toy_driver =
       Ret (driver', (Some (toy_vmOutput 99), None)) /\
     ready driver' (with_host 1%nat toy_part)) /\
  direct (host_run toy_part (inr (toy_input (bs "main")))) [ ∅ ] =
    ([ ∅ ], (1%nat, (Some (toy_vmOutput 99), None))).
Proof.
  destruct (contracts_over_pipes (fun _ => toy_process) toy_driver toy_part
    (inr (toy_input (bs "main"))) [ ∅ ] 1%nat (Some (toy_vmOutput 99)) None
    toy_driver_ready toy_call_carried eq_refl eq_refl) as [(fuel & driver' & Hrun & Hready & _) Hd].
  split; [|by apply Hd].
  exists fuel, driver'. split; [|done]. rewrite Hrun. reflexivity.
Defined.

Lemma unserved_calls_kill_the_vm_witness :
  exists fuel driver',
    driver_run (fun _ => toy_process) fuel (inr (toy_input (bs "snapshot"))) toy_driver =
      Ret (driver', (None, Some (CriticalError ErrBadMessageFromVM))) /\
    d_process driver' = Killed.
Proof.
  destruct (unserved_calls_kill_the_vm (fun _ => toy_process) toy_driver toy_part
    (inr (toy_input (bs "snapshot"))) [ ∅ ] toy_driver_ready) as [(fuel & driver' & Hrun & Hk & _) _].
  - split; [|done].
    repeat constructor; try (eapply toy_carried; [| reflexivity | |]; vm_compute; done).
  - reflexivity.
  - reflexivity.
  - by exists fuel, driver'.
Defined.


Lemma gas_schedule_change_restarts_witness :
  exists fuel driver',
    driver_GasScheduleChange (fun _ => toy_process) fuel ∅ toy_driver = Ret driver' /\
    d_process driver' = Killed.
Proof.
  destruct (gas_schedule_change_restarts (fun _ => toy_process) toy_driver toy_part ∅ [Byte.x01]
    toy_driver_ready eq_refl ltac:(vm_compute; done) eq_refl)
    as (fuel & driver' & Hrun & Hk & _).
  by exists fuel, driver'.
Defined.

End Witnesses.
