(* ===== verification/GoText.v ===== *)
(** What the test tooling uses of the standard library on texts: [strings.Split],
    [ReplaceAll], [TrimRight]; [encoding/hex]; decimal and binary numbers of
    [math/big] - and their round trips. *)
From S2P Require Import Prelude Errors.

#[local] Open Scope Z_scope.

(** ** [strings] *)

(** [strings.Split] for a separator of one character. *)
Fixpoint Split (s : bytes) (sep : Byte.byte) : list bytes :=
  match s with
  | [] => [[]]
  | c :: rest =>
      if Byte.eqb c sep then [] :: Split rest sep
      else
        match Split rest sep with
        | part :: parts => (c :: part) :: parts
        | [] => [[c]]
        end
  end.

(** [strings.ReplaceAll(s, c, "")] for one character. *)
Definition remove_all (s : bytes) (c : Byte.byte) : bytes :=
  List.filter (fun x => negb (Byte.eqb x c)) s.

(** [strings.TrimRight] for a set of one character. *)
Fixpoint TrimRight (s : bytes) (c : Byte.byte) : bytes :=
  match s with
  | [] => []
  | x :: rest =>
      match TrimRight rest c with
      | [] => if Byte.eqb x c then [] else [x]
      | trimmed => x :: trimmed
      end
  end.

Lemma byte_eqb_false a b : a <> b -> Byte.eqb a b = false.
Proof.
  intros H. destruct (Byte.eqb a b) eqn:E; [|done].
  apply Byte.byte_dec_bl in E. done.
Qed.

Lemma byte_eqb_same a : Byte.eqb a a = true.
Proof. by apply Byte.byte_dec_lb. Qed.

Lemma Split_nonempty s sep : Split s sep <> [].
Proof. destruct s as [|c s]; cbn; [done|]. case_match; [done|]. by destruct (Split s sep). Qed.

(** A text without the separator is one part. *)
Lemma Split_none s sep : sep ∉ s -> Split s sep = [s].
Proof.
  induction s as [|c s IH]; cbn; [done|]. intros [Hc Hs]%not_elem_of_cons.
  by rewrite byte_eqb_false, IH by done.
Qed.

Lemma Split_app s t sep : sep ∉ s -> Split (s ++ sep :: t) sep = s :: Split t sep.
Proof.
  induction s as [|c s IH]; cbn; [by rewrite byte_eqb_same|].
  intros [Hc Hs]%not_elem_of_cons. by rewrite byte_eqb_false, IH by done.
Qed.

(** The parts of a text that has the separator are shorter. *)
Lemma Split_shorter s sep p : p ∈ Split s sep -> (length p <= length s)%nat.
Proof.
  revert p. induction s as [|c s IH]; cbn; intros p; [by intros ->%list_elem_of_singleton|].
  destruct (Byte.eqb c sep).
  - intros [->|H]%elem_of_cons; cbn; [lia|]. apply IH in H. lia.
  - destruct (Split s sep) as [|q ps] eqn:E; [by apply Split_nonempty in E|].
    intros [->|H]%elem_of_cons; cbn.
    + specialize (IH q ltac:(by left)). lia.
    + specialize (IH p ltac:(by right)). lia.
Qed.

Lemma Split_smaller s sep p :
  (1 < length (Split s sep))%nat -> p ∈ Split s sep -> (length p < length s)%nat.
Proof.
  revert p. induction s as [|c s IH]; cbn; intros p; [lia|].
  destruct (Byte.eqb c sep).
  - intros _ [->|H]%elem_of_cons; cbn; [lia|]. apply Split_shorter in H. lia.
  - destruct (Split s sep) as [|q ps] eqn:E; [by apply Split_nonempty in E|].
    cbn. intros Hl [->|H]%elem_of_cons; cbn.
    + specialize (IH q ltac:(cbn; lia) ltac:(by left)). lia.
    + specialize (IH p ltac:(cbn; lia) ltac:(by right)). lia.
Qed.

Lemma remove_all_none s c : c ∉ s -> remove_all s c = s.
Proof.
  unfold remove_all. induction s as [|x s IH]; cbn; [done|]. intros [Hx Hs]%not_elem_of_cons.
  rewrite byte_eqb_false by done. cbn. by rewrite IH.
Qed.

(** Trimming drops a run of [c] at the end. *)
Lemma TrimRight_spec s c :
  exists n, s = TrimRight s c ++ replicate n c.
Proof.
  induction s as [|x s [n IH]]; cbn; [by exists 0%nat|].
  destruct (TrimRight s c) as [|y t] eqn:E.
  - destruct (Byte.eqb x c) eqn:Ex.
    + apply Byte.byte_dec_bl in Ex as ->. exists (S n). cbn. by rewrite IH at 1.
    + exists n. cbn. by rewrite IH at 1.
  - exists n. by rewrite IH at 1.
Qed.

(** ** [path/filepath], with [/] between the names *)

Module filepath.

Definition slash : Byte.byte := Byte.x2f.

(** The names of a path without empty ones, [.] and what a [..] takes back, the last
    one first. *)
Definition clean_name (rooted : bool) (out : list bytes) (name : bytes) : list bytes :=
  if bool_decide (name = []) || bool_decide (name = bs ".") then out
  else if bool_decide (name = bs "..") then
    match out with
    | top :: below =>
        if bool_decide (top = bs "..") then name :: out else below
    | [] => if rooted then [] else [name]
    end
  else name :: out.

Fixpoint join_names (names : list bytes) : bytes :=
  match names with
  | [] => []
  | [name] => name
  | name :: rest => name ++ slash :: join_names rest
  end.

Definition IsAbs (path : bytes) : bool := HasPrefix path [slash].

(** [filepath.Clean] *)
Definition Clean (path : bytes) : bytes :=
  let names := rev (fold_left (clean_name (IsAbs path)) (Split path slash) []) in
  if IsAbs path then slash :: join_names names
  else match names with [] => bs "." | _ :: _ => join_names names end.

(** What stands up to the last slash. *)
Fixpoint up_to_slash (path : bytes) : bytes :=
  match path with
  | [] => []
  | c :: rest =>
      match up_to_slash rest with
      | [] => if Byte.eqb c slash then [c] else []
      | found => c :: found
      end
  end.

(** [filepath.Dir] and [filepath.Join] of two elements. *)
Definition Dir (path : bytes) : bytes := Clean (up_to_slash path).

Definition Join (a b : bytes) : bytes :=
  match a, b with
  | [], [] => []
  | [], _ => Clean b
  | _, _ => Clean (a ++ slash :: b)
  end.

Example clean_path : Clean (bs "/a/./b//../../../c/") = bs "/c".
Proof. reflexivity. Qed.

Example clean_relative : Clean (bs "../x/../../y") = bs "../../y".
Proof. reflexivity. Qed.

Example join_dir : Join (Dir (bs "/tests/main.scen.json")) (bs "../steps.json") = bs "/steps.json".
Proof. reflexivity. Qed.

End filepath.

(** ** [encoding/hex] *)

Definition hex_value (c : Byte.byte) : option Z :=
  let z := Z_of_byte c in
  if (48 <=? z) && (z <=? 57) then Some (z - 48)
  else if (97 <=? z) && (z <=? 102) then Some (z - 87)
  else if (65 <=? z) && (z <=? 70) then Some (z - 55)
  else None.

Definition ErrLength : error := ErrNew (bs "encoding/hex: odd length hex string").

(** [InvalidByteError]; its text shows the byte. *)
Definition InvalidByteError (c : Byte.byte) : error :=
  ErrNew (bs "encoding/hex: invalid byte: " ++ [c]).

(** [hex.DecodeString]; what it decodes before an error is never used. *)
Fixpoint hex_DecodeString (s : bytes) : error + bytes :=
  match s with
  | [] => inr []
  | [c] => inl (if hex_value c is Some _ then ErrLength else InvalidByteError c)
  | a :: b :: rest =>
      match hex_value a, hex_value b with
      | None, _ => inl (InvalidByteError a)
      | _, None => inl (InvalidByteError b)
      | Some x, Some y =>
          match hex_DecodeString rest with
          | inl err => inl err
          | inr r => inr (byte_of_Z (16 * x + y) :: r)
          end
      end
  end.

Lemma hex_value_digit z : 0 <= z < 16 -> hex_value (hex_digit z) = Some z.
Proof.
  intros Hz. assert (z = 0 \/ z = 1 \/ z = 2 \/ z = 3 \/ z = 4 \/ z = 5 \/ z = 6 \/ z = 7 \/
    z = 8 \/ z = 9 \/ z = 10 \/ z = 11 \/ z = 12 \/ z = 13 \/ z = 14 \/ z = 15) as H by lia.
  by repeat destruct H as [->|H]; try subst z.
Qed.

(** Hexadecimal digits, of [%x] too: decoding inverts encoding. *)
Lemma hex_DecodeString_EncodeToString b : hex_DecodeString (hex_EncodeToString b) = inr b.
Proof.
  induction b as [|c b IH]; [done|].
  change (hex_EncodeToString (c :: b)) with
    (hex_digit (Z_of_byte c / 16) :: hex_digit (Z_of_byte c mod 16) :: hex_EncodeToString b).
  cbn [hex_DecodeString]. pose proof (Z_of_byte_range c).
  rewrite !hex_value_digit by
    (split; [apply Z.div_pos || apply Z.mod_pos_bound | apply Z.div_lt_upper_bound ||
      apply Z.mod_pos_bound]; lia).
  rewrite IH, <- Z.div_mod by lia. by rewrite byte_of_Z_of_byte.
Qed.

(** ** [math/big] *)

(** A digit below [base], for the bases 2 and 10. *)
Definition digit_value (base : Z) (c : Byte.byte) : option Z :=
  let z := Z_of_byte c - 48 in
  if (0 <=? z) && (z <? base) then Some z else None.

Fixpoint digits_value (base acc : Z) (s : bytes) : option Z :=
  match s with
  | [] => Some acc
  | c :: rest =>
      match digit_value base c with
      | Some z => digits_value base (acc * base + z) rest
      | None => None
      end
  end.

Definition minus : Byte.byte := Byte.x2d.
Definition plus : Byte.byte := Byte.x2b.

(** [new(big.Int).SetString(s, base)], for the bases 2 and 10: a sign and at least
    one digit, and nothing else. *)
Definition SetString (s : bytes) (base : Z) : option Z :=
  let unsigned s := match s with [] => None | _ :: _ => digits_value base 0 s end in
  match s with
  | c :: rest =>
      if Byte.eqb c minus then option_map Z.opp (unsigned rest)
      else if Byte.eqb c plus then unsigned rest
      else unsigned s
  | [] => None
  end.

Fixpoint dec_digits (fuel : nat) (z : Z) (acc : bytes) : bytes :=
  match fuel with
  | O => acc
  | S fuel' =>
      let acc := byte_of_Z (48 + z mod 10) :: acc in
      if z <? 10 then acc else dec_digits fuel' (z / 10) acc
  end.

(** [%d] of a number that is not negative: it has fewer than [Z.log2 z + 2] digits. *)
Definition Sprintf_d (z : Z) : bytes := dec_digits (Z.to_nat (Z.log2 z + 2)) z [].

(** [%d] of any number. *)
Definition Sprintf_int (z : Z) : bytes := if z <? 0 then bs "-" ++ Sprintf_d (- z) else Sprintf_d z.

Lemma digit_value_dec z : 0 <= z < 10 -> digit_value 10 (byte_of_Z (48 + z)) = Some z.
Proof.
  intros Hz. unfold digit_value. rewrite Z_of_byte_of_Z. unfold u8.
  rewrite Z.mod_small by lia. replace (48 + z - 48) with z by lia.
  by replace ((0 <=? z) && (z <? 10)) with true by lia.
Qed.

Lemma digits_value_app base acc s t :
  digits_value base acc (s ++ t) =
    match digits_value base acc s with Some a => digits_value base a t | None => None end.
Proof. revert acc. induction s as [|c s IH]; intros acc; cbn; [done|]. by case_match. Qed.

Lemma dec_digits_acc fuel z acc : dec_digits fuel z acc = dec_digits fuel z [] ++ acc.
Proof.
  revert z acc. induction fuel as [|fuel IH]; intros z acc; cbn; [done|].
  case_match; [done|]. rewrite IH, (IH _ [_]). by rewrite <- app_assoc.
Qed.

Lemma dec_digits_value fuel z :
  0 <= z < 10 ^ Z.of_nat fuel -> digits_value 10 0 (dec_digits fuel z []) = Some z.
Proof.
  revert z. induction fuel as [|fuel IH]; intros z Hz.
  { cbn in *. f_equal. lia. }
  pose proof (Z.mod_pos_bound z 10 ltac:(lia)). cbn [dec_digits]. destruct (z <? 10) eqn:E.
  - cbn [digits_value]. rewrite digit_value_dec, Z.mod_small by lia. done.
  - rewrite dec_digits_acc, digits_value_app, IH.
    + cbn [digits_value]. rewrite digit_value_dec by done. f_equal.
      pose proof (Z.div_mod z 10 ltac:(lia)). lia.
    + rewrite Nat2Z.inj_succ, Z.pow_succ_r in Hz by lia.
      split; [apply Z.div_pos; lia | apply Z.div_lt_upper_bound; lia].
Qed.

Lemma dec_digits_first fuel z acc :
  exists d rest, dec_digits (S fuel) z acc = byte_of_Z (48 + d) :: rest /\ 0 <= d < 10.
Proof.
  revert z acc. induction fuel as [|fuel IH]; intros z acc.
  - cbn. exists (z mod 10). pose proof (Z.mod_pos_bound z 10 ltac:(lia)).
    case_match; eauto.
  - cbn [dec_digits]. pose proof (Z.mod_pos_bound z 10 ltac:(lia)). case_match; [by eauto|].
    apply IH.
Qed.

Lemma Sprintf_d_first z :
  exists d rest, Sprintf_d z = byte_of_Z (48 + d) :: rest /\ 0 <= d < 10.
Proof.
  unfold Sprintf_d. pose proof (Z.log2_nonneg z).
  replace (Z.to_nat (Z.log2 z + 2)) with (S (Z.to_nat (Z.log2 z + 1))) by lia.
  apply dec_digits_first.
Qed.

Lemma Sprintf_d_value z : 0 <= z -> digits_value 10 0 (Sprintf_d z) = Some z.
Proof.
  intros Hz. apply dec_digits_value. split; [done|].
  pose proof (Z.log2_nonneg z). rewrite Z2Nat.id by lia.
  destruct (Z.eq_dec z 0) as [->|Hne]; [by compute|].
  destruct (Z.log2_spec z ltac:(lia)) as [_ Hlog].
  eapply Z.lt_le_trans; [exact Hlog|].
  transitivity (2 ^ (Z.log2 z + 2)); [apply Z.pow_le_mono_r; lia|].
  apply Z.pow_le_mono_l; lia.
Qed.

(** Decimal numbers: reading inverts printing. *)
Lemma SetString_Sprintf_d z : 0 <= z -> SetString (Sprintf_d z) 10 = Some z.
Proof.
  intros Hz. pose proof (Sprintf_d_value z Hz) as Hv.
  destruct (Sprintf_d_first z) as (d & rest & E & Hd). rewrite E in Hv |- *.
  unfold SetString. rewrite !byte_eqb_false; [done|..];
    intros H; apply (f_equal Z_of_byte) in H; rewrite Z_of_byte_of_Z in H;
    unfold u8 in H; change (2 ^ 8) with 256 in H; rewrite Z.mod_small in H by lia;
    vm_compute Z_of_byte in H; lia.
Qed.

(** All its characters are digits. *)
Lemma dec_digits_forall fuel z acc :
  Forall (fun c => 48 <= Z_of_byte c < 58) acc ->
  Forall (fun c => 48 <= Z_of_byte c < 58) (dec_digits fuel z acc).
Proof.
  revert z acc. induction fuel as [|fuel IH]; intros z acc Hacc; cbn; [done|].
  assert (Forall (fun c => 48 <= Z_of_byte c < 58) (byte_of_Z (48 + z mod 10) :: acc)).
  { constructor; [|done]. rewrite Z_of_byte_of_Z.
    pose proof (Z.mod_pos_bound z 10 ltac:(lia)).
    unfold u8. change (2 ^ 8) with 256. rewrite (Z.mod_small (48 + _)); lia. }
  case_match; auto.
Qed.

Lemma Sprintf_d_digits z : Forall (fun c => 48 <= Z_of_byte c < 58) (Sprintf_d z).
Proof. apply dec_digits_forall. constructor. Qed.
