(* ===== verification/Fallible.v ===== *)
(** Go functions without state that may fail or panic: [res A] is the pair of a value
    and an error of Go, where the value next to an error is never looked at. *)
From S2P Require Import Prelude Errors Types State.

Definition res (A : Type) : Type := outcome (error + A).

#[export] Instance res_ret : MRet res := fun A a => Ret (inr a).

#[export] Instance res_bind : MBind res := fun A B f m =>
  match m with
  | Ret (inr a) => f a
  | Ret (inl err) => Ret (inl err)
  | Panic => Panic
  | OutOfFuel => OutOfFuel
  end.

Definition fail {A} (err : error) : res A := Ret (inl err).

(** [return errors.New(text)] *)
Definition fails {A} (text : string) : res A := fail (ErrNew (bs text)).

Definition of_sum {A} (r : error + A) : res A := Ret r.

(** [if err != nil { return fmt.Errorf("prefix%w", err) }] *)
Definition wrap {A} (prefix : string) (m : res A) : res A :=
  match m with
  | Ret (inl err) => Ret (inl (ErrFmt (bs prefix) err []))
  | r => r
  end.

(** ... with a prefix that is made of other texts. *)
Definition wrap_with {A} (prefix : bytes) (m : res A) : res A :=
  match m with
  | Ret (inl err) => Ret (inl (ErrFmt prefix err []))
  | r => r
  end.

(** [if err != nil { return errors.New(text) }] *)
Definition instead {A} (text : string) (m : res A) : res A :=
  match m with
  | Ret (inl _) => fails text
  | r => r
  end.

(** The dereference of a pointer that may be nil. *)
Definition deref_res {A} (o : option A) : res A :=
  match o with Some a => Ret (inr a) | None => Panic end.

(** [for _, x := range l { acc, err = f(acc, x); if err != nil { return } }] *)
Fixpoint for_range {A B} (l : list A) (f : A -> B -> res B) (acc : B) : res B :=
  match l with
  | [] => mret acc
  | x :: rest => f x acc ≫= for_range rest f
  end.

(** ... appending to a slice. *)
Fixpoint map_range {A B} (l : list A) (f : A -> res B) : res (list B) :=
  match l with
  | [] => mret []
  | x :: rest => y ← f x; ys ← map_range rest f; mret (y :: ys)
  end.

(** Comparison of texts that computes on closed ones next to variables. *)
Fixpoint text_eqb (a b : bytes) : bool :=
  match a, b with
  | [], [] => true
  | x :: a', y :: b' => Byte.eqb x y && text_eqb a' b'
  | _, _ => false
  end.

(** [switch key { case ...: }] *)
Fixpoint switch {A} (key : bytes) (cases : list (bytes * A)) (default : A) : A :=
  match cases with
  | [] => default
  | (k, a) :: rest => if text_eqb key k then a else switch key rest default
  end.

(** ** Laws *)

Lemma text_eqb_eq a b : text_eqb a b = true <-> a = b.
Proof.
  revert b. induction a as [|x a IH]; intros [|y b]; cbn; try done.
  rewrite andb_true_iff, IH. split; [intros [->%Byte.byte_dec_bl ->]; done|].
  intros [= -> ->]. split; [by apply Byte.byte_dec_lb | done].
Qed.

Lemma text_eqb_refl a : text_eqb a a = true.
Proof. by apply text_eqb_eq. Qed.

Lemma text_eqb_ne a b : a <> b -> text_eqb a b = false.
Proof. intros H. destruct (text_eqb a b) eqn:E; [|done]. by apply text_eqb_eq in E. Qed.

Lemma res_bind_ret {A B} (f : A -> res B) a : mbind f (Ret (inr a)) = f a.
Proof. done. Qed.

Lemma res_bind_inr {A B} (m : res A) (f : A -> res B) b :
  mbind f m = Ret (inr b) -> exists a, m = Ret (inr a) /\ f a = Ret (inr b).
Proof. destruct m as [[err|a]| |]; cbn; try done. by exists a. Qed.

Lemma wrap_inr {A} p (m : res A) a : wrap p m = Ret (inr a) -> m = Ret (inr a).
Proof. by destruct m as [[err|]| |]. Qed.

Lemma instead_inr {A} p (m : res A) a : instead p m = Ret (inr a) -> m = Ret (inr a).
Proof. by destruct m as [[err|]| |]. Qed.

Lemma for_range_app {A B} (l k : list A) (f : A -> B -> res B) acc :
  for_range (l ++ k) f acc = for_range l f acc ≫= for_range k f.
Proof.
  revert acc. induction l as [|x l IH]; intros acc; [done|]. cbn.
  destruct (f x acc) as [[err|b]| |]; cbn; auto.
Qed.

(** What holds of the accumulator after every step holds at the end. *)
Lemma for_range_inv {A B} (P : B -> Prop) (l : list A) (f : A -> B -> res B) acc b :
  P acc -> (forall x acc b, P acc -> f x acc = Ret (inr b) -> P b) ->
  for_range l f acc = Ret (inr b) -> P b.
Proof.
  intros Hacc Hf. revert acc Hacc. induction l as [|x l IH]; cbn; intros acc Hacc.
  { by intros [= ->]. }
  intros (b' & Hb' & Hb)%res_bind_inr. eauto.
Qed.

Lemma map_range_Forall2 {A B} (l : list A) (f : A -> res B) k :
  map_range l f = Ret (inr k) <-> Forall2 (fun x y => f x = Ret (inr y)) l k.
Proof.
  revert k. induction l as [|x l IH]; intros k; cbn.
  - split; [intros [= <-]; constructor | intros H; by inversion H].
  - split.
    + intros (y & Hy & (ys & Hys & [= <-])%res_bind_inr)%res_bind_inr.
      constructor; [done | by apply IH].
    + intros H. inversion H as [|? y ? ys Hy Hys]; subst. apply IH in Hys.
      by rewrite Hy; cbn; rewrite Hys.
Qed.

(** Running a fallible function and keeping its results by [res_bind_inr]. *)
Ltac res_inv :=
  repeat match goal with
  | H : mbind _ _ = Ret (inr _) |- _ =>
      let a := fresh "a" in let Ha := fresh "Ha" in
      apply res_bind_inr in H as (a & Ha & H)
  | H : wrap _ _ = Ret (inr _) |- _ => apply wrap_inr in H
  | H : instead _ _ = Ret (inr _) |- _ => apply instead_inr in H
  | H : mret _ = Ret (inr _) |- _ => injection H as H
  | H : fails _ = Ret (inr _) |- _ => discriminate H
  | H : fail _ = Ret (inr _) |- _ => discriminate H
  end.

(** ** Ending: functions that do not run out of fuel *)

Definition ends {A} (r : res A) : Prop := r <> OutOfFuel.

Lemma ends_bind {A B} (m : res A) (f : A -> res B) :
  ends m -> (forall a, m = Ret (inr a) -> ends (f a)) -> ends (mbind f m).
Proof. unfold ends. destruct m as [[err|a]| |]; cbn; eauto; done. Qed.

Lemma ends_wrap {A} p (m : res A) : ends m -> ends (wrap p m).
Proof. by destruct m as [[err|a]| |]. Qed.

Lemma ends_map_range {A B} (l : list A) (f : A -> res B) :
  (forall x, x ∈ l -> ends (f x)) -> ends (map_range l f).
Proof.
  induction l as [|x l IH]; cbn; intros Hf; [done|].
  apply ends_bind; [apply Hf; by left|]. intros y _. apply ends_bind; [|done].
  apply IH. intros z Hz. apply Hf. by right.
Qed.

Lemma ends_wrap_with {A} p (m : res A) : ends m -> ends (wrap_with p m).
Proof. by destruct m as [[err|a]| |]. Qed.

Lemma ends_instead {A} p (m : res A) : ends m -> ends (instead p m).
Proof. by destruct m as [[err|a]| |]. Qed.

Lemma ends_for_range {A B} (l : list A) (f : A -> B -> res B) acc :
  (forall x acc, ends (f x acc)) -> ends (for_range l f acc).
Proof.
  intros Hf. revert acc. induction l as [|x l IH]; cbn; intros acc; [done|].
  apply ends_bind; auto.
Qed.

Lemma ends_deref {A} (o : option A) : ends (deref_res o).
Proof. by destruct o. Qed.

Lemma ends_of_sum {A} (r : error + A) : ends (of_sum r).
Proof. done. Qed.

Lemma ends_ret {A} (a : A) : ends (mret a).
Proof. done. Qed.

Lemma ends_fail {A} err : ends (fail err : res A).
Proof. done. Qed.

Lemma ends_Ret {A} (r : error + A) : ends (Ret r).
Proof. done. Qed.

Lemma ends_panic {A} : ends (Panic : res A).
Proof. done. Qed.

Lemma ends_switch {A} key (cases : list (bytes * res A)) default :
  Forall (fun c => ends (snd c)) cases -> ends default -> ends (switch key cases default).
Proof.
  intros Hcases Hdefault. induction Hcases as [|[k a] cases Ha _ IH]; cbn; [done|].
  by destruct (text_eqb key k).
Qed.

Create HintDb ends.

#[export] Hint Resolve ends_wrap ends_wrap_with ends_instead ends_deref ends_of_sum ends_ret ends_fail ends_Ret ends_panic : ends.

Ltac head_of t := match t with ?f _ => head_of f | _ => t end.

(** Through the parts of a function, unfolding the functions it calls. *)
Ltac ends_parts :=
  repeat match goal with
  | |- forall _, _ => intro
  | |- _ -> _ => intro
  | |- Forall _ _ => repeat constructor; cbn [snd]
  | |- ends _ => solve [eauto 2 with ends]
  | |- ends (mbind _ _) => apply ends_bind
  | |- ends (wrap _ _) => apply ends_wrap
  | |- ends (wrap_with _ _) => apply ends_wrap_with
  | |- ends (instead _ _) => apply ends_instead
  | |- ends (map_range _ _) => apply ends_map_range
  | |- ends (for_range _ _ _) => apply ends_for_range
  | |- ends (switch _ _ _) => apply ends_switch
  | |- ends (let x := _ in _) => intro x || cbv zeta
  | |- ends (match ?x with _ => _ end) => destruct x
  | |- ends ((match ?x with _ => _ end) _) => destruct x; cbv beta
  | |- ends ?t => let h := head_of t in unfold h
  end.
