(* ===== verification/ScenExpr.v ===== *)
(** The values of scenarios: the interpreter of expressions
    ([src/scenarios/expression/interpreter]) and the reconstructor, which makes
    expressions of raw bytes ([src/scenarios/expression/reconstructor]).

    Texts are lists of bytes.  The files behind [file:], the Keccak hash, the
    functions of [twos-complement] and [strconv.Quote] are parameters. *)
From S2P Require Import Prelude Errors Types State OrderedJson GoText Fallible.

#[local] Open Scope Z_scope.

(** What the interpreter is given or calls outside the repository. *)
Class ScenEnv := {
  (** the [FileResolver], which may be nil *)
  ResolveFileValue : option (bytes -> error + bytes);
  (** [sha3.NewLegacyKeccak256] *)
  LegacyKeccak256 : bytes -> bytes;
  (** [twos-complement] of mx-components-big-int *)
  scen_ToBytes : Z -> bytes;
  scen_FromBytes : bytes -> Z;
  ToBytesOfLength : Z -> Z -> error + bytes;
  CopyAlignRight : bytes -> Z -> bytes;
  (** [strconv.Quote] *)
  Quote : bytes -> bytes;
}.

(** ** Addresses ([functions.go]) *)

(** [SCAddressNumLeadingZeros] *)
Definition SCAddressNumLeadingZeros : Z := 8.

Definition underscore : Byte.byte := Byte.x5f.
Definition hash_sign : Byte.byte := Byte.x23.
Definition pipe : Byte.byte := Byte.x7c.

Section Expressions.
Context `{Env : ScenEnv}.

Definition Keccak256 (data : bytes) : res bytes := mret (LegacyKeccak256 data).

Definition decodeShardId (shardIdRaw : bytes) : res Byte.byte :=
  shardId ← wrap "could not parse address shard id: " (of_sum (hex_DecodeString shardIdRaw));
  match shardId with
  | [b] => mret b
  | _ => fail (ErrNew (bs "bad address shard id length: " ++ shardIdRaw))
  end.

(** A zero array of 32 bytes with [prefix] from [startIndex] on, filled up to
    [endIndex] with underscores. *)
Definition createAddressFromPrefix (prefix : bytes) (startIndex endIndex : Z) : bytes :=
  let copied := slice prefix 0 (Z.min (len prefix) (endIndex - startIndex)) in
  let filled := replicate (Z.to_nat (endIndex - (len prefix + startIndex))) underscore in
  splice (splice (replicate 32 Byte.x00) startIndex copied) (len prefix + startIndex) filled.

Definition createAddressOptionalShardId (input : bytes) (numLeadingZeros : Z) : res bytes :=
  match Split input hash_sign with
  | [token] => mret (createAddressFromPrefix token numLeadingZeros 32)
  | [token; shard] =>
      shardId ← decodeShardId shard;
      let address := createAddressFromPrefix token numLeadingZeros 32 in
      mret (splice address 31 [shardId])
  | _ =>
      fail (ErrNew (bs "only one shard id separator allowed in address expression. Got: `" ++
        input ++ bs "`"))
  end.

Definition addressExpression (input : bytes) : res bytes := createAddressOptionalShardId input 0.

Definition scExpression (input : bytes) : res bytes :=
  createAddressOptionalShardId input SCAddressNumLeadingZeros.

(** ** Numbers ([interpreter.go]) *)

Definition interpretUnsignedNumber (strRaw : bytes) : res bytes :=
  let str := remove_all (remove_all strRaw underscore) comma in
  if HasPrefix strRaw (bs "0x") || HasPrefix strRaw (bs "0X") then
    let str := drop 2 strRaw in
    let str := if len str mod 2 =? 1 then bs "0" ++ str else str in
    of_sum (hex_DecodeString str)
  else if HasPrefix strRaw (bs "0b") || HasPrefix strRaw (bs "0B") then
    match SetString (drop 2 str) 2 with
    | None => fail (ErrNew (bs "could not parse binary value: " ++ strRaw))
    | Some result => mret (Bytes result)
    end
  else
    match SetString str 10 with
    | None => fail (ErrNew (bs "could not parse base 10 value: " ++ strRaw))
    | Some result =>
        if result <? 0 then
          fail (ErrNew (bs "negative numbers not allowed in this context: " ++ strRaw))
        else mret (Bytes result)
    end.

Definition interpretUnsignedNumberFixedWidth (strRaw : bytes) (targetWidth : Z) : res bytes :=
  numberBytes ← interpretUnsignedNumber strRaw;
  if targetWidth =? 0 then mret numberBytes
  else if targetWidth <? len numberBytes then
    fail (ErrNew (bs "representation of " ++ strRaw ++ bs " does not fit in " ++
      Sprintf_d targetWidth ++ bs " bytes"))
  else mret (CopyAlignRight numberBytes targetWidth).

(** [strRaw[0]] panics on an empty text. *)
Definition interpretNumber (strRaw : bytes) (targetWidth : Z) : res bytes :=
  match strRaw with
  | [] => Panic
  | c :: rest =>
      if Byte.eqb c minus || Byte.eqb c plus then
        numberBytes ← interpretUnsignedNumber rest;
        let number := SetBytes numberBytes in
        let number := if Byte.eqb c minus then - number else number in
        if targetWidth =? 0 then mret (scen_ToBytes number)
        else of_sum (ToBytesOfLength number targetWidth)
      else if targetWidth =? 0 then interpretUnsignedNumber strRaw
      else interpretUnsignedNumberFixedWidth strRaw targetWidth
  end.

(** The length of a nested value on four bytes, before it. *)
Definition with_length (value : bytes) : bytes := CopyAlignRight (Bytes (len value)) 4 ++ value.

(** ** Expressions *)

Definition strPrefixes : list bytes := [bs "str:"; bs "``"; bs "''"].

(** The first prefix of the list that the text has: what is after it. *)
Fixpoint after_prefix (prefixes : list bytes) (s : bytes) : option bytes :=
  match prefixes with
  | [] => None
  | p :: rest => if HasPrefix s p then Some (drop (length p) s) else after_prefix rest s
  end.

(** [tryInterpretFixedWidth]: None when no prefix is found; [interpret] is
    [InterpretString]. *)
Definition tryInterpretFixedWidth (interpret : bytes -> res bytes) (strRaw : bytes) :
    option (res bytes) :=
  let prefixed p (f : bytes -> res bytes) otherwise :=
    if HasPrefix strRaw (bs p) then Some (f (drop (length (bs p)) strRaw)) else otherwise in
  prefixed "u64:"%string (fun s => interpretUnsignedNumberFixedWidth s 8)
  (prefixed "u32:"%string (fun s => interpretUnsignedNumberFixedWidth s 4)
  (prefixed "u16:"%string (fun s => interpretUnsignedNumberFixedWidth s 2)
  (prefixed "u8:"%string (fun s => interpretUnsignedNumberFixedWidth s 1)
  (prefixed "i64:"%string (fun s => interpretNumber s 8)
  (prefixed "i32:"%string (fun s => interpretNumber s 4)
  (prefixed "i16:"%string (fun s => interpretNumber s 2)
  (prefixed "i8:"%string (fun s => interpretNumber s 1)
  (prefixed "biguint:"%string (fun s => biBytes ← interpretUnsignedNumber s; mret (with_length biBytes))
  (prefixed "nested:"%string (fun s => nestedBytes ← interpret s; mret (with_length nestedBytes))
  None))))))))).

(** The cases of [InterpretString] for a text that is one part, without [file:] and
    [keccak256:]. *)
Definition interpretPart (interpret : bytes -> res bytes) (strRaw : bytes) : res bytes :=
  if text_eqb strRaw (bs "false") then mret []
  else if text_eqb strRaw (bs "true") then mret [Byte.x01]
  else
    match after_prefix strPrefixes strRaw with
    | Some str => mret str
    | None =>
        if HasPrefix strRaw (bs "address:") then addressExpression (drop 8 strRaw)
        else if HasPrefix strRaw (bs "sc:") then scExpression (drop 3 strRaw)
        else
          match tryInterpretFixedWidth interpret strRaw with
          | Some result => result
          | None => interpretNumber strRaw 0
          end
    end.

Definition concat_parts (interpret : bytes -> res bytes) (parts : list bytes) : res bytes :=
  evals ← map_range parts interpret; mret (concat evals).

(** [InterpretString], with fuel for the calls of itself: each is on a shorter text. *)
Fixpoint interpret (fuel : nat) (strRaw : bytes) : res bytes :=
  match fuel with
  | O => OutOfFuel
  | S fuel' =>
      match strRaw with
      | [] => mret []
      | _ :: _ =>
          if HasPrefix strRaw (bs "file:") then
            match ResolveFileValue with
            | None => fails "parser FileResolver not provided"
            | Some resolve => of_sum (resolve (drop 5 strRaw))
            end
          else if HasPrefix strRaw (bs "keccak256:") then
            arg ← wrap "cannot parse keccak256 argument: " (interpret fuel' (drop 10 strRaw));
            wrap "error computing keccak256: " (Keccak256 arg)
          else
            let parts := Split strRaw pipe in
            if 1 <? len parts then concat_parts (interpret fuel') parts
            else interpretPart (interpret fuel') strRaw
      end
  end.

Definition InterpretString (strRaw : bytes) : res bytes := interpret (S (length strRaw)) strRaw.

(** [KeyValuePairsSortedByKey], for what stands at the keys. *)
Definition key_order {A} (p q : bytes * A) : Prop := string_leb (fst p) (fst q) = true.
#[global] Instance key_order_dec {A} (p q : bytes * A) : Decision (key_order p q) :=
  decide (string_leb _ _ = true).

Definition by_key {A} (l : list (bytes * A)) : list (bytes * A) :=
  sorting.merge_sort key_order l.

(** The values of a map in the order of its keys: they are interpreted first here, and
    looked at in that order. *)
Fixpoint InterpretSubTree (obj : OJsonObject) : res bytes :=
  match obj with
  | OString value => InterpretString value
  | OList items =>
      values ← map_range (map InterpretSubTree items) (fun value => value);
      mret (concat values)
  | OMap _ kvs =>
      values ← map_range (by_key (map (fun kv => (fst kv, InterpretSubTree (snd kv))) kvs)) snd;
      mret (concat values)
  | OBool _ | ONil => fails "cannot interpret given JSON subtree as value"
  end.

(** ** The reconstructor ([reconstructor.go]) *)

Inductive ExprReconstructorHint := NoHint | NumberHint | AddressHint | StrHint | CodeHint.

Definition maxBytesInterpretedAsNumber : Z := 15.

Definition canInterpretAsString (b : bytes) : bool :=
  match b with
  | [] => false
  | _ :: _ => forallb (fun c => (32 <=? Z_of_byte c) && (Z_of_byte c <=? 126)) b
  end.

Definition unknownByteArrayPretty (b : bytes) : bytes :=
  match b with
  | [] => []
  | _ :: _ =>
      if canInterpretAsString b then
        bs "0x" ++ hex_EncodeToString b ++ bs " (str:" ++ b ++ bs ")"
      else if len b <? maxBytesInterpretedAsNumber then
        bs "0x" ++ hex_EncodeToString b ++ bs " (" ++ Sprintf_d (SetBytes b) ++ bs ")"
      else bs "0x" ++ hex_EncodeToString b ++ bs " (str:" ++ Quote b ++ bs ")"
  end.

(** [%x] of one byte has no leading zero, [%02x] has. *)
Definition Sprintf_x (b : Byte.byte) : bytes :=
  if Z_of_byte b <? 16 then [hex_digit (Z_of_byte b)] else hex_EncodeToString [b].

Definition addressPretty (value : bytes) : bytes :=
  if negb (len value =? 32) then unknownByteArrayPretty value
  else
    let last := List.nth 31 value Byte.x00 in
    if text_eqb (slice value 0 SCAddressNumLeadingZeros) (replicate 8 Byte.x00) then
      if Byte.eqb last underscore then
        bs "sc:" ++ TrimRight (drop 8 value) underscore
      else
        bs "sc:" ++ TrimRight (slice value SCAddressNumLeadingZeros 31) underscore ++
        bs "#" ++ Sprintf_x last
    else if Byte.eqb last underscore then
      bs "address:" ++ TrimRight value underscore
    else
      bs "address:" ++ TrimRight (slice value 0 31) underscore ++ bs "#" ++
      hex_EncodeToString [last].

Definition codePretty (b : bytes) : bytes :=
  match b with
  | [] => []
  | _ :: _ =>
      let encoded := hex_EncodeToString b in
      if 20 <? len encoded then bs "0x" ++ slice encoded 0 20 ++ bs "..."
      else bs "0x" ++ encoded
  end.

Definition Reconstruct (value : bytes) (hint : ExprReconstructorHint) : bytes :=
  match hint with
  | NumberHint => Sprintf_d (SetBytes value)
  | StrHint => bs "str:" ++ value
  | AddressHint => addressPretty value
  | CodeHint => codePretty value
  | NoHint => unknownByteArrayPretty value
  end.

Definition ReconstructFromBigInt (value : Z) : bytes := Reconstruct (Bytes value) NumberHint.

Definition ReconstructFromUint64 (value : Z) : bytes := Reconstruct (Bytes value) NumberHint.

End Expressions.
