(* ===== verification/ScenExprProps.v ===== *)
(** Expressions of scenarios: interpreting ends, texts compose, numbers have their
    widths, and what the reconstructor makes is read back. *)
From S2P Require Import Prelude Errors Types State OrderedJson GoText Fallible ScenExpr.
From S2P Require Import Toy.

#[local] Open Scope Z_scope.

Section Props.
Context `{Env : ScenEnv}.

(** ** Fuel *)

Lemma map_range_ext {A B} (l : list A) (f g : A -> res B) :
  (forall x, x ∈ l -> f x = g x) -> map_range l f = map_range l g.
Proof.
  induction l as [|x l IH]; cbn; intros Hf; [done|].
  rewrite (Hf x) by (by left). destruct (g x) as [[err|y]| |]; cbn; [done| |done..].
  rewrite IH; [done|]. intros z Hz. apply Hf. by right.
Qed.

Lemma unsigned_ends s : ends (interpretUnsignedNumber s).
Proof. unfold interpretUnsignedNumber. repeat case_match; done. Qed.

Lemma fixed_width_ends s w : ends (interpretUnsignedNumberFixedWidth s w).
Proof.
  unfold interpretUnsignedNumberFixedWidth. apply ends_bind; [apply unsigned_ends|].
  intros a _. by repeat case_match.
Qed.

Lemma number_ends s w : ends (interpretNumber s w).
Proof.
  unfold interpretNumber. destruct s as [|c s]; [done|]. case_match.
  - apply ends_bind; [apply unsigned_ends|]. intros a _. by repeat case_match.
  - case_match; [apply unsigned_ends | apply fixed_width_ends].
Qed.

Lemma address_ends s n : ends (createAddressOptionalShardId s n).
Proof.
  unfold createAddressOptionalShardId. destruct (Split s hash_sign) as [|t [|u [|]]]; try done.
  apply ends_bind; [|done]. unfold decodeShardId. apply ends_bind; [by apply ends_wrap|].
  intros a _. by repeat case_match.
Qed.

#[local] Hint Resolve unsigned_ends fixed_width_ends number_ends address_ends : ends.

Lemma after_shorter s p :
  HasPrefix s p = true -> p <> [] -> (length (drop (length p) s) < length s)%nat.
Proof.
  intros [t ->]%HasPrefix_spec Hp. rewrite drop_app_length, length_app.
  destruct p; [done|]. cbn. lia.
Qed.

(** The interpreter only calls itself on shorter texts. *)
Lemma fixed_width_ext f g s :
  (forall t, (length t < length s)%nat -> f t = g t) ->
  tryInterpretFixedWidth f s = tryInterpretFixedWidth g s.
Proof.
  intros Hfg. unfold tryInterpretFixedWidth.
  repeat (case_match; [done|]). case_match eqn:Hp; [|done].
  rewrite Hfg; [done|]. by apply after_shorter.
Qed.

Lemma fixed_width_result_ends f s r :
  (forall t, (length t < length s)%nat -> ends (f t)) ->
  tryInterpretFixedWidth f s = Some r -> ends r.
Proof.
  intros Hf. unfold tryInterpretFixedWidth.
  repeat case_match; intros [= <-]; auto with ends; apply ends_bind; auto with ends; try done.
  by apply Hf, (after_shorter s (bs "nested:")).
Qed.

Lemma part_ext f g s :
  (forall t, (length t < length s)%nat -> f t = g t) -> interpretPart f s = interpretPart g s.
Proof. intros Hfg. unfold interpretPart. by rewrite (fixed_width_ext f g). Qed.

Lemma part_ends f s :
  (forall t, (length t < length s)%nat -> ends (f t)) -> ends (interpretPart f s).
Proof.
  intros Hf. unfold interpretPart. repeat (case_match; try done); auto with ends.
  - by apply address_ends.
  - by apply address_ends.
  - by eapply fixed_width_result_ends.
Qed.

Lemma interpret_fuel n m s :
  (length s < n)%nat -> (length s < m)%nat -> interpret n s = interpret m s.
Proof.
  revert m s. induction n as [|n IH]; intros m s Hn Hm; [lia|].
  destruct m as [|m]; [lia|]. cbn [interpret]. destruct s as [|c s]; [done|].
  set (text := c :: s) in *. case_match; [done|]. case_match eqn:Hk.
  { f_equal. f_equal. apply IH; unfold text in *; cbn in *; rewrite length_drop; lia. }
  case_match eqn:Hp.
  - unfold concat_parts. f_equal. apply map_range_ext. intros t Ht.
    apply Split_smaller in Ht; [apply IH; lia|]. unfold len in Hp. lia.
  - apply part_ext. intros t Ht. apply IH; lia.
Qed.

Lemma interpret_ends n s : (length s < n)%nat -> ends (interpret n s).
Proof.
  revert s. induction n as [|n IH]; intros s Hn; [lia|].
  cbn [interpret]. destruct s as [|c s]; [done|]. set (text := c :: s) in *.
  case_match; [by case_match|]. case_match eqn:Hk.
  { apply ends_bind; [|done]. apply ends_wrap, IH. unfold text in *. cbn in *.
    rewrite length_drop. lia. }
  case_match eqn:Hp.
  - unfold concat_parts. apply ends_bind; [|done]. apply ends_map_range. intros t Ht.
    apply Split_smaller in Ht; [apply IH; lia|]. unfold len in Hp. lia.
  - apply part_ends. intros t Ht. apply IH. lia.
Qed.

Lemma InterpretString_ends s : ends (InterpretString s).
Proof. apply interpret_ends. lia. Qed.

Lemma InterpretSubTree_ends obj : ends (InterpretSubTree obj).
Proof.
  induction obj as [k kv IH|l IH|v|b|] using OJsonObject_ind; cbn [InterpretSubTree]; try done.
  - apply ends_bind; [|done]. apply ends_map_range. intros [key r] Hin. cbn [snd].
    unfold by_key in Hin. rewrite sorting.merge_sort_Permutation in Hin.
    apply list_elem_of_fmap in Hin as ([key' v] & [= -> ->] & Hin). cbn [snd].
    rewrite Forall_forall in IH. by apply (IH (key', v)), list_elem_of_In.
  - apply ends_bind; [|done]. apply ends_map_range. intros r Hin.
    apply list_elem_of_fmap in Hin as (v & -> & Hin). rewrite Forall_forall in IH.
    by apply IH, list_elem_of_In.
  - apply InterpretString_ends.
Qed.

(** [InterpretString] without fuel. *)
Lemma InterpretString_eq s :
  s <> [] -> HasPrefix s (bs "file:") = false -> HasPrefix s (bs "keccak256:") = false ->
  InterpretString s =
    if 1 <? len (Split s pipe) then concat_parts InterpretString (Split s pipe)
    else interpretPart InterpretString s.
Proof.
  intros Hs Hf Hk. unfold InterpretString at 1. cbn [interpret].
  destruct s as [|c s]; [done|]. rewrite Hf, Hk. case_match eqn:Hp.
  - unfold concat_parts. f_equal. apply map_range_ext. intros t Ht.
    apply Split_smaller in Ht; [|unfold len in Hp; lia]. apply interpret_fuel; lia.
  - apply part_ext. intros t Ht. apply interpret_fuel; lia.
Qed.

Lemma InterpretString_part s :
  s <> [] -> pipe ∉ s -> HasPrefix s (bs "file:") = false ->
  HasPrefix s (bs "keccak256:") = false ->
  InterpretString s = interpretPart InterpretString s.
Proof. intros Hs Hpipe Hf Hk. rewrite InterpretString_eq by done. by rewrite Split_none. Qed.

(** ** Addresses *)

Lemma take_slice (l : bytes) z : slice l 0 z = take (Z.to_nat z) l.
Proof. unfold slice. by rewrite Z.sub_0_r, drop_0. Qed.

(** The text of an address: at most [32 - k] characters after [k] zeros. *)
Lemma address_from_prefix (k : nat) t :
  (k + length t <= 32)%nat ->
  createAddressFromPrefix t (Z.of_nat k) 32 =
    replicate k Byte.x00 ++ t ++ replicate (32 - k - length t) underscore.
Proof.
  intros Hk. unfold createAddressFromPrefix.
  replace (Z.min (len t) (32 - Z.of_nat k)) with (len t) by (unfold len; lia).
  rewrite take_slice, take_ge by (unfold len; lia). unfold splice, len.
  replace (Z.to_nat (Z.of_nat (length t) + Z.of_nat k)) with (k + length t)%nat by lia.
  rewrite Nat2Z.id, !length_replicate.
  replace (Z.to_nat (Z.of_nat k + Z.of_nat (length t))) with (k + length t)%nat by lia.
  rewrite take_replicate, drop_replicate, Nat.min_l by lia.
  rewrite (app_assoc (replicate k _)), take_app_length' by (rewrite length_app, length_replicate; lia).
  rewrite (drop_ge _ (Z.to_nat _)); [by rewrite app_nil_r, <- app_assoc; repeat f_equal; lia|].
  rewrite !length_app, !length_replicate. lia.
Qed.

Lemma replicate_split (n m : nat) (x : Byte.byte) l :
  l = replicate n x -> length l = m -> l = replicate m x.
Proof. intros -> <-. by rewrite length_replicate. Qed.

(** Trimming and filling up again. *)
Lemma trim_fill (k : nat) v :
  (k + length v = 32)%nat ->
  createAddressFromPrefix (TrimRight v underscore) (Z.of_nat k) 32 = replicate k Byte.x00 ++ v.
Proof.
  intros Hk. destruct (TrimRight_spec v underscore) as [n Hn].
  assert (length v = (length (TrimRight v underscore) + n)%nat) as Hl
    by (rewrite Hn at 1; by rewrite length_app, length_replicate).
  rewrite address_from_prefix by lia. rewrite Hn at 3. do 3 f_equal. lia.
Qed.

Lemma trim_fill_shard (k : nat) v b :
  (k + length v = 31)%nat ->
  splice (createAddressFromPrefix (TrimRight v underscore) (Z.of_nat k) 32) 31 [b] =
    replicate k Byte.x00 ++ v ++ [b].
Proof.
  intros Hk. destruct (TrimRight_spec v underscore) as [n Hn].
  assert (length v = (length (TrimRight v underscore) + n)%nat) as Hl
    by (rewrite Hn at 1; by rewrite length_app, length_replicate).
  rewrite address_from_prefix by lia.
  replace (32 - k - length (TrimRight v underscore))%nat with (n + 1)%nat by lia.
  rewrite replicate_add, (app_assoc _ (replicate n _)), <- Hn, app_assoc.
  unfold splice. change (Z.to_nat 31) with 31%nat. change (Z.to_nat (31 + _)) with 32%nat.
  rewrite take_app_length' by (rewrite length_app, length_replicate; lia).
  rewrite drop_ge by (rewrite !length_app, !length_replicate; cbn; lia).
  by rewrite app_nil_r, <- app_assoc.
Qed.

Lemma trim_snoc v c : TrimRight (v ++ [c]) c = TrimRight v c.
Proof. induction v as [|x v IH]; cbn; [by rewrite byte_eqb_same|]. by rewrite IH. Qed.

Lemma trim_elem x v c : x ∈ TrimRight v c -> x ∈ v.
Proof. destruct (TrimRight_spec v c) as [n Hn]. rewrite Hn at 2. rewrite elem_of_app. by left. Qed.

(** An address expression of one or two parts. *)
Lemma address_plain t n :
  hash_sign ∉ t ->
  createAddressOptionalShardId t n = mret (createAddressFromPrefix t n 32).
Proof. intros Ht. unfold createAddressOptionalShardId. by rewrite Split_none. Qed.

Lemma address_shard t u n :
  hash_sign ∉ t -> hash_sign ∉ u ->
  createAddressOptionalShardId (t ++ bs "#" ++ u) n =
    (shardId ← decodeShardId u; mret (splice (createAddressFromPrefix t n 32) 31 [shardId])).
Proof.
  intros Ht Hu. unfold createAddressOptionalShardId. cbn [app bs].
  change (bs "#" ++ u) with (hash_sign :: u). by rewrite Split_app, Split_none by done.
Qed.

Lemma decode_shard b : decodeShardId (hex_EncodeToString [b]) = mret b.
Proof. unfold decodeShardId. by rewrite hex_DecodeString_EncodeToString. Qed.

Lemma hex_digit_range z : 0 <= z < 16 ->
  48 <= Z_of_byte (hex_digit z) < 58 \/ 97 <= Z_of_byte (hex_digit z) < 103.
Proof.
  intros Hz. unfold hex_digit. case_match; rewrite Z_of_byte_of_Z; unfold u8;
    change (2 ^ 8) with 256; rewrite Z.mod_small; lia.
Qed.

(** Hexadecimal digits are neither separators. *)
Lemma hex_no_sign c b : Z_of_byte c < 48 \/ 103 <= Z_of_byte c -> c ∉ hex_EncodeToString b.
Proof.
  intros Hc. unfold hex_EncodeToString. rewrite list_elem_of_In, in_flat_map.
  intros (x & _ & Hx). pose proof (Z_of_byte_range x).
  destruct Hx as [<-|[<-|[]]].
  - destruct (hex_digit_range (Z_of_byte x / 16)); [split; [apply Z.div_pos | apply Z.div_lt_upper_bound]|..]; lia.
  - destruct (hex_digit_range (Z_of_byte x mod 16)); [apply Z.mod_pos_bound|..]; lia.
Qed.

Lemma interpret_address t :
  pipe ∉ t -> InterpretString (bs "address:" ++ t) = addressExpression t.
Proof.
  intros Ht. rewrite InterpretString_part; [reflexivity | done | | reflexivity..].
  rewrite not_elem_of_app. split; [|done]. by apply (bool_decide_unpack _).
Qed.

Lemma interpret_sc t : pipe ∉ t -> InterpretString (bs "sc:" ++ t) = scExpression t.
Proof.
  intros Ht. rewrite InterpretString_part; [reflexivity | done | | reflexivity..].
  rewrite not_elem_of_app. split; [|done]. by apply (bool_decide_unpack _).
Qed.

(** ** Numbers *)

Lemma Sprintf_d_no c z : Z_of_byte c < 48 \/ 58 <= Z_of_byte c -> c ∉ Sprintf_d z.
Proof.
  intros Hc Hin%list_elem_of_In. pose proof (Sprintf_d_digits z) as H.
  rewrite List.Forall_forall in H. specialize (H c Hin). lia.
Qed.

Lemma digits_no_prefix z p c :
  (Z_of_byte c < 48 \/ 58 <= Z_of_byte c) -> c ∈ p -> HasPrefix (Sprintf_d z) p = false.
Proof.
  intros Hc Hp. destruct (HasPrefix (Sprintf_d z) p) eqn:E; [|done].
  apply HasPrefix_spec in E as [t Ht]. exfalso. apply (Sprintf_d_no c z Hc).
  rewrite Ht, elem_of_app. by left.
Qed.

Ltac no_digit := solve [left; vm_compute; reflexivity | right; vm_compute; discriminate].
Ltac member := apply (bool_decide_unpack _); vm_compute; exact I.

Lemma interpret_decimal z : 0 <= z -> interpretUnsignedNumber (Sprintf_d z) = mret (Bytes z).
Proof.
  intros Hz. unfold interpretUnsignedNumber.
  rewrite (digits_no_prefix z (bs "0x") Byte.x78), (digits_no_prefix z (bs "0X") Byte.x58),
    (digits_no_prefix z (bs "0b") Byte.x62), (digits_no_prefix z (bs "0B") Byte.x42)
    by first [no_digit | member].
  cbn [orb]. rewrite (remove_all_none (Sprintf_d z)) by (apply Sprintf_d_no; no_digit).
  rewrite remove_all_none by (apply Sprintf_d_no; no_digit).
  rewrite SetString_Sprintf_d by done. by replace (z <? 0) with false by lia.
Qed.

Lemma be_digits_len fuel z acc w :
  0 <= w -> z < 256 ^ w -> len (be_digits fuel z acc) <= w + len acc.
Proof.
  revert z acc w. induction fuel as [|fuel IH]; intros z acc w Hw Hz; cbn [be_digits]; [lia|].
  case_match; [lia|].
  assert (0 < w) by (destruct (Z.eq_dec w 0) as [->|]; cbn in Hz; lia).
  etransitivity; [apply (IH _ _ (w - 1)); [lia|]|].
  - apply Z.div_lt_upper_bound; [lia|]. rewrite <- Z.pow_succ_r by lia.
    by replace (Z.succ (w - 1)) with w by lia.
  - unfold len. cbn. lia.
Qed.

(** A number fits in [w] bytes exactly when it is below [256 ^ w]. *)
Lemma Bytes_fits z w : 0 <= z -> 0 <= w -> (len (Bytes z) <= w <-> z < 256 ^ w).
Proof.
  intros Hz Hw. split.
  - intros Hl. pose proof (SetBytes_bound (Bytes z)) as Hb. rewrite SetBytes_Bytes in Hb.
    assert (256 ^ len (Bytes z) <= 256 ^ w) by (apply Z.pow_le_mono_r; lia). lia.
  - intros Hlt. unfold Bytes. pose proof (be_digits_len (Z.to_nat (Z.log2 (Z.abs z) + 2))
      (Z.abs z) [] w Hw ltac:(lia)) as H. change (len []) with 0 in H. lia.
Qed.

(** What [CopyAlignRight] documents. *)
Definition align_right : Prop := forall b w,
  len b <= w -> CopyAlignRight b w = replicate (Z.to_nat (w - len b)) Byte.x00 ++ b.

Lemma SetBytes_zeros n b : SetBytes (replicate n Byte.x00 ++ b) = SetBytes b.
Proof.
  assert (SetBytes (replicate n Byte.x00) = 0) as Hn.
  { induction n as [|n IH]; [done|]. rewrite replicate_S_end, SetBytes_app, IH. done. }
  rewrite SetBytes_app, Hn. lia.
Qed.

Lemma fixed_width_decimal z w :
  align_right -> 0 <= z -> 0 < w ->
  if z <? 256 ^ w then
    exists b, interpretUnsignedNumberFixedWidth (Sprintf_d z) w = mret b /\ len b = w /\
      SetBytes b = z
  else exists err, interpretUnsignedNumberFixedWidth (Sprintf_d z) w = fail err.
Proof.
  intros Hal Hz Hw. unfold interpretUnsignedNumberFixedWidth.
  rewrite interpret_decimal by done. cbn [mbind res_bind mret res_ret].
  replace (w =? 0) with false by lia. pose proof (Bytes_fits z w Hz ltac:(lia)).
  destruct (z <? 256 ^ w) eqn:E.
  - replace (w <? len (Bytes z)) with false by lia. eexists. split; [done|].
    rewrite Hal by lia. split.
    + unfold len in *. rewrite length_app, length_replicate. lia.
    + rewrite SetBytes_zeros, SetBytes_Bytes. lia.
  - replace (w <? len (Bytes z)) with true by lia. by eexists.
Qed.

(** The prefix of a fixed width does not hide in another rule. *)
Lemma interpret_prefixed p z :
  pipe ∉ p -> p <> [] ->
  HasPrefix (p ++ Sprintf_d z) (bs "file:") = false ->
  HasPrefix (p ++ Sprintf_d z) (bs "keccak256:") = false ->
  InterpretString (p ++ Sprintf_d z) = interpretPart InterpretString (p ++ Sprintf_d z).
Proof.
  intros Hp Hne Hf Hk. apply InterpretString_part; try done.
  - by destruct p.
  - rewrite not_elem_of_app. split; [done|]. apply Sprintf_d_no. no_digit.
Qed.

(** The last byte of an address. *)
Lemma last_of_address (v : bytes) :
  length v = 32%nat -> v = take 31 v ++ [List.nth 31 v Byte.x00].
Proof.
  intros Hv. rewrite <- (take_drop 31 v) at 1. f_equal.
  destruct (drop 31 v) as [|b [|]] eqn:E; apply (f_equal length) in E as El;
    rewrite length_drop in El; cbn in El; [lia| |lia].
  f_equal. rewrite <- (take_drop 31 v), E, app_nth2 by (rewrite length_take; lia).
  rewrite length_take, Nat.min_l, Nat.sub_diag by lia. done.
Qed.

(** No rule but the one for numbers applies to a decimal number. *)
Lemma digits_part f z :
  0 <= z -> interpretPart f (Sprintf_d z) = Ret (inr (Bytes z)).
Proof.
  intros Hz. unfold interpretPart, tryInterpretFixedWidth, strPrefixes, after_prefix.
  rewrite !text_eqb_ne by
    (intros E; apply (Sprintf_d_no Byte.x65 z ltac:(no_digit)); rewrite E; member).
  repeat match goal with
  | |- context [HasPrefix (Sprintf_d z) ?p] =>
      first [ rewrite (digits_no_prefix z p Byte.x3a) by first [no_digit | member]
            | rewrite (digits_no_prefix z p Byte.x60) by first [no_digit | member]
            | rewrite (digits_no_prefix z p Byte.x27) by first [no_digit | member] ]
  end.
  cbn beta iota. destruct (Sprintf_d_first z) as (d & rest & E & Hd).
  pose proof (interpret_decimal z Hz) as H. rewrite E in H |- *. unfold interpretNumber.
  rewrite !byte_eqb_false; [exact H|..];
    intros Hb; apply (Sprintf_d_no (byte_of_Z (48 + d)) z); first [rewrite Hb; no_digit | rewrite E; by left].
Qed.

Lemma reconstruct_number v :
  InterpretString (Sprintf_d (SetBytes v)) = Ret (inr (Bytes (SetBytes v))).
Proof.
  set (z := SetBytes v). assert (0 <= z) as Hz by apply SetBytes_bound.
  rewrite InterpretString_part; [by apply digits_part| | | |].
  - destruct (Sprintf_d_first z) as (d & rest & -> & _). done.
  - apply Sprintf_d_no. no_digit.
  - by rewrite (digits_no_prefix z _ Byte.x3a) by first [no_digit | member].
  - by rewrite (digits_no_prefix z _ Byte.x3a) by first [no_digit | member].
Qed.

Lemma hex_length c : len (hex_EncodeToString c) = 2 * len c.
Proof.
  unfold len. induction c as [|x c IH]; [done|].
  change (hex_EncodeToString (x :: c)) with
    ([hex_digit (Z_of_byte x / 16); hex_digit (Z_of_byte x mod 16)] ++ hex_EncodeToString c).
  rewrite length_app. cbn [length] in *. lia.
Qed.

Lemma reconstruct_code v :
  len v <= 10 -> InterpretString (codePretty v) = Ret (inr v).
Proof.
  intros Hv. destruct v as [|b v]; [done|]. set (c := b :: v) in *.
  pose proof (hex_length c) as Hl.
  unfold codePretty, c at 1. fold c. replace (20 <? len (hex_EncodeToString c)) with false by lia.
  rewrite InterpretString_part; [| done | | reflexivity..].
  - change (interpretPart InterpretString (bs "0x" ++ hex_EncodeToString c)) with
      (interpretUnsignedNumber (bs "0x" ++ hex_EncodeToString c)).
    unfold interpretUnsignedNumber. change (HasPrefix _ (bs "0x")) with true. cbn [orb].
    change (drop 2 (bs "0x" ++ hex_EncodeToString c)) with (hex_EncodeToString c).
    replace (len (hex_EncodeToString c) mod 2 =? 1) with false;
      [by rewrite hex_DecodeString_EncodeToString|].
    rewrite Hl, Z.mul_comm, Z.mod_mul by lia. done.
  - rewrite not_elem_of_app. split; [by apply (bool_decide_unpack _)|].
    apply hex_no_sign. right. vm_compute. discriminate.
Qed.

Lemma Sprintf_x_no c b : Z_of_byte c < 48 \/ 103 <= Z_of_byte c -> c ∉ Sprintf_x b.
Proof.
  intros Hc. unfold Sprintf_x. case_match; [|by apply hex_no_sign].
  intros ->%list_elem_of_singleton. pose proof (Z_of_byte_range b).
  destruct (hex_digit_range (Z_of_byte b)); lia.
Qed.

Lemma decode_Sprintf_x b :
  if Z_of_byte b <? 16 then exists err, decodeShardId (Sprintf_x b) = fail err
  else decodeShardId (Sprintf_x b) = mret b.
Proof.
  unfold Sprintf_x. destruct (Z_of_byte b <? 16); [|apply decode_shard].
  unfold decodeShardId. cbn. by eexists.
Qed.

Lemma shard_no_pipe t u : pipe ∉ t -> pipe ∉ u -> pipe ∉ t ++ bs "#" ++ u.
Proof.
  intros Ht Hu. rewrite !not_elem_of_app. split; [done|]. split; [|done].
  by apply (bool_decide_unpack _).
Qed.

Lemma reconstruct_address v :
  length v = 32%nat -> pipe ∉ take 31 v -> hash_sign ∉ take 31 v ->
  if text_eqb (take 8 v) (replicate 8 Byte.x00) && (Z_of_byte (List.nth 31 v Byte.x00) <? 16) then
    exists err, InterpretString (addressPretty v) = Ret (inl err)
  else InterpretString (addressPretty v) = Ret (inr v).
Proof.
  intros Hlen Hpipe Hhash. pose proof (last_of_address v Hlen) as Hv.
  set (b := List.nth 31 v Byte.x00) in *.
  assert (forall c k t, c ∉ take 31 v -> t = drop k (take 31 v) -> c ∉ TrimRight t underscore) as Hno.
  { intros c k t Hc -> Hin%trim_elem. apply Hc.
    rewrite <- (take_drop k (take 31 v)), elem_of_app. by right. }
  assert (slice v 8 31 = drop 8 (take 31 v)) as Hmid.
  { unfold slice. change (Z.to_nat 8) with 8%nat. change (Z.to_nat (31 - 8)) with 23%nat.
    by rewrite take_drop_commute. }
  assert (length (take 31 v) = 31%nat) as Hl31 by (rewrite length_take; lia).
  unfold addressPretty. replace (negb (len v =? 32)) with false by (unfold len; rewrite Hlen; done).
  rewrite !take_slice. fold b. change (Z.to_nat SCAddressNumLeadingZeros) with 8%nat.
  change SCAddressNumLeadingZeros with 8. change (Z.to_nat 31) with 31%nat.
  destruct (text_eqb (take 8 v) (replicate 8 Byte.x00)) eqn:Hz; cbn [andb].
  - apply text_eqb_eq in Hz.
    assert (replicate 8 Byte.x00 ++ drop 8 v = v) as Hzero by (by rewrite <- Hz, take_drop).
    destruct (Byte.eqb b underscore) eqn:Hb.
    + apply Byte.byte_dec_bl in Hb. rewrite Hb. change (Z_of_byte underscore <? 16) with false.
      assert (drop 8 v = drop 8 (take 31 v) ++ [underscore]) as Hd
        by (rewrite Hv at 1; rewrite drop_app_le, Hb by lia; done).
      rewrite interpret_sc by (rewrite Hd, trim_snoc; by eapply Hno).
      unfold scExpression. rewrite address_plain by (rewrite Hd, trim_snoc; by eapply Hno).
      pose proof (trim_fill 8 (drop 8 v) ltac:(rewrite length_drop; lia)) as Hf.
      unfold mret, res_ret. by rewrite <- Hzero at 2; rewrite <- Hf.
    + assert (forall c, Z_of_byte c < 48 \/ 103 <= Z_of_byte c -> c ∉ Sprintf_x b) as Hx
        by (intros; by apply Sprintf_x_no).
      rewrite Hmid, interpret_sc by (apply shard_no_pipe; [by eapply Hno | apply Hx; no_digit]).
      unfold scExpression. rewrite address_shard by first [by eapply Hno | apply Hx; no_digit].
      pose proof (decode_Sprintf_x b) as Hdec. destruct (Z_of_byte b <? 16).
      * destruct Hdec as [err Hdec]. exists err. by rewrite Hdec.
      * rewrite Hdec. cbn [mbind res_bind mret res_ret].
        pose proof (trim_fill_shard 8 (drop 8 (take 31 v)) b ltac:(rewrite length_drop; lia)) as Hf.
        unfold mret, res_ret. do 2 f_equal. etransitivity; [exact Hf|]. rewrite Hv at 2.
        rewrite <- (take_drop 8 (take 31 v)) at 2.
        rewrite take_take, Nat.min_l, Hz by lia. by rewrite <- app_assoc.
  - destruct (Byte.eqb b underscore) eqn:Hb.
    + apply Byte.byte_dec_bl in Hb.
      assert (TrimRight v underscore = TrimRight (take 31 v) underscore) as Ht
        by (rewrite Hv at 1; rewrite Hb; apply trim_snoc).
      rewrite interpret_address by (rewrite Ht; by apply (Hno _ 0%nat)).
      unfold addressExpression. rewrite address_plain by (rewrite Ht; by apply (Hno _ 0%nat)).
      pose proof (trim_fill 0 v ltac:(lia)) as Hf.
      unfold mret, res_ret. do 2 f_equal. exact Hf.
    + rewrite interpret_address by (apply shard_no_pipe;
        [by apply (Hno _ 0%nat) | apply hex_no_sign; no_digit]).
      unfold addressExpression.
      rewrite address_shard by first [by apply (Hno _ 0%nat) | apply hex_no_sign; no_digit].
      rewrite decode_shard. cbn [mbind res_bind mret res_ret].
      pose proof (trim_fill_shard 0 (take 31 v) b ltac:(lia)) as Hf.
      unfold mret, res_ret. do 2 f_equal. etransitivity; [exact Hf|]. by symmetry.
Qed.

(** ** Properties *)

(** Interpreting an expression ends, with fuel for its length: [keccak256:],
    [nested:] and the parts between pipes go on with shorter texts.  A text of
    several parts is their values, one after the other.  A fixed width with nothing
    after it is a panic, not an error. *)
Theorem InterpretString_total s :
  InterpretString s <> OutOfFuel /\
  (HasPrefix s (bs "file:") = false -> HasPrefix s (bs "keccak256:") = false -> pipe ∈ s ->
   InterpretString s = (values ← map_range (Split s pipe) InterpretString; mret (concat values))) /\
  (HasPrefix s (bs "keccak256:") = true ->
   InterpretString s = (arg ← wrap "cannot parse keccak256 argument: "
     (InterpretString (drop 10 s)); mret (LegacyKeccak256 arg))) /\
  InterpretString (bs "i8:") = Panic.
Proof.
  split; [apply interpret_ends; lia|]. split; [|split; [|done]].
  - intros Hf Hk Hp. destruct (decide (s = [])) as [->|Hs]; [by apply not_elem_of_nil in Hp|].
    rewrite InterpretString_eq by done.
    apply list_elem_of_split in Hp as (a & b & ->).
    replace (1 <? len (Split (a ++ pipe :: b) pipe)) with true; [done|].
    symmetry. apply Z.ltb_lt. clear. induction a as [|x a IH]; cbn [app Split].
    + rewrite byte_eqb_same. pose proof (Split_nonempty b pipe). unfold len. cbn.
      destruct (Split b pipe); [done|]. cbn. lia.
    + case_match; [unfold len in *; cbn; lia|]. destruct (Split (a ++ pipe :: b) pipe); [done|].
      unfold len in *. cbn in *. lia.
  - intros Hk. pose proof Hk as [t E]%HasPrefix_spec.
    assert (HasPrefix s (bs "file:") = false) as Hf by (rewrite E; reflexivity).
    unfold InterpretString at 1. destruct s as [|c s]; [done|]. cbn [interpret].
    pose proof (after_shorter _ _ Hk ltac:(done)) as Hl.
    change (length (bs "keccak256:")) with 10%nat in Hl.
    by rewrite Hf, Hk, (interpret_fuel _ (S (length (drop 10 (c :: s))))) by lia.
Qed.

(** A decimal number with a width is its big-endian bytes, padded to the width,
    exactly when it fits; else it is an error. *)
Theorem fixed_width_exact z :
  align_right -> 0 <= z ->
  Forall (fun '(p, w) =>
    if z <? 256 ^ w then
      exists b, InterpretString (bs p ++ Sprintf_d z) = Ret (inr b) /\ len b = w /\ SetBytes b = z
    else exists err, InterpretString (bs p ++ Sprintf_d z) = Ret (inl err))
  [("u64:", 8); ("u32:", 4); ("u16:", 2); ("u8:", 1)]%string.
Proof.
  intros Hal Hz.
  repeat (constructor;
    [rewrite interpret_prefixed by (done || reflexivity || by apply (bool_decide_unpack _));
     apply (fixed_width_decimal z _ Hal Hz); lia|]).
  constructor.
Qed.

(** C32: what the reconstructor makes is read back under four hints: any number without its
    leading zeros; a text that holds no pipe; code of at most ten bytes; and an address of 32
    bytes whose first 31 bytes hold neither a pipe nor a hash sign, unless it is that of a
    contract in a shard below 16, whose number gets one hexadecimal digit and is refused. *)
Theorem reconstruct_roundtrip v :
  InterpretString (Reconstruct v NumberHint) = Ret (inr (Bytes (SetBytes v))) /\
  (pipe ∉ v -> InterpretString (Reconstruct v StrHint) = Ret (inr v)) /\
  (len v <= 10 -> InterpretString (Reconstruct v CodeHint) = Ret (inr v)) /\
  (len v = 32 -> pipe ∉ take 31 v -> hash_sign ∉ take 31 v ->
   if text_eqb (take 8 v) (replicate 8 Byte.x00) && (Z_of_byte (List.nth 31 v Byte.x00) <? 16) then
     exists err, InterpretString (Reconstruct v AddressHint) = Ret (inl err)
   else InterpretString (Reconstruct v AddressHint) = Ret (inr v)).
Proof.
  split; [apply reconstruct_number|]. split; [|split; [apply reconstruct_code|]].
  - intros Hv. cbn [Reconstruct]. rewrite InterpretString_part; [reflexivity | done | | reflexivity..].
    rewrite not_elem_of_app. split; [|done]. by apply (bool_decide_unpack _).
  - intros Hlen. apply reconstruct_address. unfold len in Hlen. lia.
Qed.

End Props.

(** ** Witnesses *)

#[export] Instance toy_scen : ScenEnv := {|
  ResolveFileValue := None;
  LegacyKeccak256 := fun data => data;
  scen_ToBytes := toy_twos_ToBytes;
  scen_FromBytes := toy_twos_SetBytes;
  ToBytesOfLength := fun z w => inr (toy_digits (Z.to_nat w) z []);
  CopyAlignRight := fun b w => replicate (Z.to_nat (w - len b)) Byte.x00 ++ b;
  Quote := fun b => b;
|}.

Lemma InterpretString_total_witness :
  InterpretString (bs "u8:1|str:ab") = Ret (inr (Byte.x01 :: bs "ab")) /\
  (values ← map_range (Split (bs "u8:1|str:ab") pipe) InterpretString; mret (concat values)) =
    Ret (inr (Byte.x01 :: bs "ab")).
Proof.
  split; [|reflexivity].
  destruct (InterpretString_total (bs "u8:1|str:ab")) as (_ & H & _).
  rewrite H; [reflexivity | reflexivity.. | apply (bool_decide_unpack _); vm_compute; exact I].
Defined.

Lemma fixed_width_exact_witness :
  Forall (fun '(p, w) =>
    if 300 <? 256 ^ w then
      exists b, InterpretString (bs p ++ Sprintf_d 300) = Ret (inr b) /\ len b = w /\
        SetBytes b = 300
    else exists err, InterpretString (bs p ++ Sprintf_d 300) = Ret (inl err))
  [("u64:", 8); ("u32:", 4); ("u16:", 2); ("u8:", 1)]%string.
Proof. apply (fixed_width_exact 300); [|lia]. by intros b w _. Defined.

(** The address [sc:owner#42], and [sc:owner#2], which is refused. *)
Lemma reconstruct_roundtrip_witness :
  let v := replicate 8 Byte.x00 ++ bs "owner" ++ replicate 18 underscore in
  InterpretString (Reconstruct (v ++ [Byte.x42]) AddressHint) = Ret (inr (v ++ [Byte.x42])) /\
  exists err, InterpretString (Reconstruct (v ++ [Byte.x02]) AddressHint) = Ret (inl err).
Proof.
  split.
  - destruct (reconstruct_roundtrip
      (replicate 8 Byte.x00 ++ bs "owner" ++ replicate 18 underscore ++ [Byte.x42]))
      as (_ & _ & _ & H).
    apply H; [reflexivity | apply (bool_decide_unpack _); vm_compute; exact I..].
  - destruct (reconstruct_roundtrip
      (replicate 8 Byte.x00 ++ bs "owner" ++ replicate 18 underscore ++ [Byte.x02]))
      as (_ & _ & _ & H).
    apply H; [reflexivity | apply (bool_decide_unpack _); vm_compute; exact I..].
Defined.
