(* ===== verification/ScenModel.v ===== *)
(** The model of scenarios ([src/scenarios/json/model]): values with the text they
    were parsed from, conditions on values, accounts, transactions, steps, and the
    tests of the older format with their conversion.

    [big.Int] pointers and trees that may be nil are options, as the pointers to
    structures that may be nil; the pointers of a slice never are. *)
From S2P Require Import Prelude Errors Types State OrderedJson GoText Fallible.

#[local] Open Scope Z_scope.

Module mj.

(** ** Structures, with the assignment to each field *)

(** A byte slice and the text it was parsed from. *)
Record JSONBytesFromString := mkJSONBytesFromString {
  jbs_Value : bytes;
  jbs_Original : bytes;
}.

Definition set_jbs_Value (v : bytes) (r : JSONBytesFromString) : JSONBytesFromString :=
  let '(mkJSONBytesFromString _ x2) := r in mkJSONBytesFromString v x2.
Definition set_jbs_Original (v : bytes) (r : JSONBytesFromString) : JSONBytesFromString :=
  let '(mkJSONBytesFromString x1 _) := r in mkJSONBytesFromString x1 v.

(** A byte slice and the subtree it was parsed from, nil when it was not. *)
Record JSONBytesFromTree := mkJSONBytesFromTree {
  jbt_Value : bytes;
  jbt_Original : option OJsonObject;
}.

Definition set_jbt_Value (v : bytes) (r : JSONBytesFromTree) : JSONBytesFromTree :=
  let '(mkJSONBytesFromTree _ x2) := r in mkJSONBytesFromTree v x2.
Definition set_jbt_Original (v : option OJsonObject) (r : JSONBytesFromTree) : JSONBytesFromTree :=
  let '(mkJSONBytesFromTree x1 _) := r in mkJSONBytesFromTree x1 v.

(** [Value] is a pointer. *)
Record JSONBigInt := mkJSONBigInt {
  jbi_Value : option Z;
  jbi_Original : bytes;
}.

Definition set_jbi_Value (v : option Z) (r : JSONBigInt) : JSONBigInt :=
  let '(mkJSONBigInt _ x2) := r in mkJSONBigInt v x2.
Definition set_jbi_Original (v : bytes) (r : JSONBigInt) : JSONBigInt :=
  let '(mkJSONBigInt x1 _) := r in mkJSONBigInt x1 v.

Record JSONUint64 := mkJSONUint64 {
  ju_Value : Z;
  ju_Original : bytes;
}.

Definition set_ju_Value (v : Z) (r : JSONUint64) : JSONUint64 :=
  let '(mkJSONUint64 _ x2) := r in mkJSONUint64 v x2.
Definition set_ju_Original (v : bytes) (r : JSONUint64) : JSONUint64 :=
  let '(mkJSONUint64 x1 _) := r in mkJSONUint64 x1 v.

Record JSONCheckBytes := mkJSONCheckBytes {
  jcb_Value : bytes;
  jcb_IsStar : bool;
  jcb_Original : option OJsonObject;
  jcb_Unspecified : bool;
}.

Definition set_jcb_Value (v : bytes) (r : JSONCheckBytes) : JSONCheckBytes :=
  let '(mkJSONCheckBytes _ x2 x3 x4) := r in mkJSONCheckBytes v x2 x3 x4.
Definition set_jcb_IsStar (v : bool) (r : JSONCheckBytes) : JSONCheckBytes :=
  let '(mkJSONCheckBytes x1 _ x3 x4) := r in mkJSONCheckBytes x1 v x3 x4.
Definition set_jcb_Original (v : option OJsonObject) (r : JSONCheckBytes) : JSONCheckBytes :=
  let '(mkJSONCheckBytes x1 x2 _ x4) := r in mkJSONCheckBytes x1 x2 v x4.
Definition set_jcb_Unspecified (v : bool) (r : JSONCheckBytes) : JSONCheckBytes :=
  let '(mkJSONCheckBytes x1 x2 x3 _) := r in mkJSONCheckBytes x1 x2 x3 v.

Record JSONCheckBigInt := mkJSONCheckBigInt {
  jcbi_Value : option Z;
  jcbi_IsStar : bool;
  jcbi_Original : bytes;
  jcbi_Unspecified : bool;
}.

Definition set_jcbi_Value (v : option Z) (r : JSONCheckBigInt) : JSONCheckBigInt :=
  let '(mkJSONCheckBigInt _ x2 x3 x4) := r in mkJSONCheckBigInt v x2 x3 x4.
Definition set_jcbi_IsStar (v : bool) (r : JSONCheckBigInt) : JSONCheckBigInt :=
  let '(mkJSONCheckBigInt x1 _ x3 x4) := r in mkJSONCheckBigInt x1 v x3 x4.
Definition set_jcbi_Original (v : bytes) (r : JSONCheckBigInt) : JSONCheckBigInt :=
  let '(mkJSONCheckBigInt x1 x2 _ x4) := r in mkJSONCheckBigInt x1 x2 v x4.
Definition set_jcbi_Unspecified (v : bool) (r : JSONCheckBigInt) : JSONCheckBigInt :=
  let '(mkJSONCheckBigInt x1 x2 x3 _) := r in mkJSONCheckBigInt x1 x2 x3 v.

Record JSONCheckUint64 := mkJSONCheckUint64 {
  jcu_Value : Z;
  jcu_IsStar : bool;
  jcu_Original : bytes;
  jcu_Unspecified : bool;
}.

Definition set_jcu_Value (v : Z) (r : JSONCheckUint64) : JSONCheckUint64 :=
  let '(mkJSONCheckUint64 _ x2 x3 x4) := r in mkJSONCheckUint64 v x2 x3 x4.
Definition set_jcu_IsStar (v : bool) (r : JSONCheckUint64) : JSONCheckUint64 :=
  let '(mkJSONCheckUint64 x1 _ x3 x4) := r in mkJSONCheckUint64 x1 v x3 x4.
Definition set_jcu_Original (v : bytes) (r : JSONCheckUint64) : JSONCheckUint64 :=
  let '(mkJSONCheckUint64 x1 x2 _ x4) := r in mkJSONCheckUint64 x1 x2 v x4.
Definition set_jcu_Unspecified (v : bool) (r : JSONCheckUint64) : JSONCheckUint64 :=
  let '(mkJSONCheckUint64 x1 x2 x3 _) := r in mkJSONCheckUint64 x1 x2 x3 v.

Record ESDTTxData := mkESDTTxData {
  etx_TokenIdentifier : JSONBytesFromString;
  etx_Nonce : JSONUint64;
  etx_Value : JSONBigInt;
}.

Definition set_etx_TokenIdentifier (v : JSONBytesFromString) (r : ESDTTxData) : ESDTTxData :=
  let '(mkESDTTxData _ x2 x3) := r in mkESDTTxData v x2 x3.
Definition set_etx_Nonce (v : JSONUint64) (r : ESDTTxData) : ESDTTxData :=
  let '(mkESDTTxData x1 _ x3) := r in mkESDTTxData x1 v x3.
Definition set_etx_Value (v : JSONBigInt) (r : ESDTTxData) : ESDTTxData :=
  let '(mkESDTTxData x1 x2 _) := r in mkESDTTxData x1 x2 v.

Record ESDTInstance := mkESDTInstance {
  ei_Nonce : JSONUint64;
  ei_Balance : JSONBigInt;
  ei_Creator : JSONBytesFromString;
  ei_Royalties : JSONUint64;
  ei_Hash : JSONBytesFromString;
  ei_Uri : JSONBytesFromTree;
  ei_Attributes : JSONBytesFromString;
}.

Definition set_ei_Nonce (v : JSONUint64) (r : ESDTInstance) : ESDTInstance :=
  let '(mkESDTInstance _ x2 x3 x4 x5 x6 x7) := r in mkESDTInstance v x2 x3 x4 x5 x6 x7.
Definition set_ei_Balance (v : JSONBigInt) (r : ESDTInstance) : ESDTInstance :=
  let '(mkESDTInstance x1 _ x3 x4 x5 x6 x7) := r in mkESDTInstance x1 v x3 x4 x5 x6 x7.
Definition set_ei_Creator (v : JSONBytesFromString) (r : ESDTInstance) : ESDTInstance :=
  let '(mkESDTInstance x1 x2 _ x4 x5 x6 x7) := r in mkESDTInstance x1 x2 v x4 x5 x6 x7.
Definition set_ei_Royalties (v : JSONUint64) (r : ESDTInstance) : ESDTInstance :=
  let '(mkESDTInstance x1 x2 x3 _ x5 x6 x7) := r in mkESDTInstance x1 x2 x3 v x5 x6 x7.
Definition set_ei_Hash (v : JSONBytesFromString) (r : ESDTInstance) : ESDTInstance :=
  let '(mkESDTInstance x1 x2 x3 x4 _ x6 x7) := r in mkESDTInstance x1 x2 x3 x4 v x6 x7.
Definition set_ei_Uri (v : JSONBytesFromTree) (r : ESDTInstance) : ESDTInstance :=
  let '(mkESDTInstance x1 x2 x3 x4 x5 _ x7) := r in mkESDTInstance x1 x2 x3 x4 x5 v x7.
Definition set_ei_Attributes (v : JSONBytesFromString) (r : ESDTInstance) : ESDTInstance :=
  let '(mkESDTInstance x1 x2 x3 x4 x5 x6 _) := r in mkESDTInstance x1 x2 x3 x4 x5 x6 v.

Record ESDTData := mkESDTData {
  ed_TokenIdentifier : JSONBytesFromString;
  ed_Instances : list ESDTInstance;
  ed_LastNonce : JSONUint64;
  ed_Roles : list bytes;
  ed_Frozen : JSONUint64;
}.

Definition set_ed_TokenIdentifier (v : JSONBytesFromString) (r : ESDTData) : ESDTData :=
  let '(mkESDTData _ x2 x3 x4 x5) := r in mkESDTData v x2 x3 x4 x5.
Definition set_ed_Instances (v : list ESDTInstance) (r : ESDTData) : ESDTData :=
  let '(mkESDTData x1 _ x3 x4 x5) := r in mkESDTData x1 v x3 x4 x5.
Definition set_ed_LastNonce (v : JSONUint64) (r : ESDTData) : ESDTData :=
  let '(mkESDTData x1 x2 _ x4 x5) := r in mkESDTData x1 x2 v x4 x5.
Definition set_ed_Roles (v : list bytes) (r : ESDTData) : ESDTData :=
  let '(mkESDTData x1 x2 x3 _ x5) := r in mkESDTData x1 x2 x3 v x5.
Definition set_ed_Frozen (v : JSONUint64) (r : ESDTData) : ESDTData :=
  let '(mkESDTData x1 x2 x3 x4 _) := r in mkESDTData x1 x2 x3 x4 v.

Record CheckESDTInstance := mkCheckESDTInstance {
  cei_Nonce : JSONCheckUint64;
  cei_Balance : JSONCheckBigInt;
  cei_Creator : JSONCheckBytes;
  cei_Royalties : JSONCheckUint64;
  cei_Hash : JSONCheckBytes;
  cei_Uri : JSONCheckBytes;
  cei_Attributes : JSONCheckBytes;
}.

Definition set_cei_Nonce (v : JSONCheckUint64) (r : CheckESDTInstance) : CheckESDTInstance :=
  let '(mkCheckESDTInstance _ x2 x3 x4 x5 x6 x7) := r in mkCheckESDTInstance v x2 x3 x4 x5 x6 x7.
Definition set_cei_Balance (v : JSONCheckBigInt) (r : CheckESDTInstance) : CheckESDTInstance :=
  let '(mkCheckESDTInstance x1 _ x3 x4 x5 x6 x7) := r in mkCheckESDTInstance x1 v x3 x4 x5 x6 x7.
Definition set_cei_Creator (v : JSONCheckBytes) (r : CheckESDTInstance) : CheckESDTInstance :=
  let '(mkCheckESDTInstance x1 x2 _ x4 x5 x6 x7) := r in mkCheckESDTInstance x1 x2 v x4 x5 x6 x7.
Definition set_cei_Royalties (v : JSONCheckUint64) (r : CheckESDTInstance) : CheckESDTInstance :=
  let '(mkCheckESDTInstance x1 x2 x3 _ x5 x6 x7) := r in mkCheckESDTInstance x1 x2 x3 v x5 x6 x7.
Definition set_cei_Hash (v : JSONCheckBytes) (r : CheckESDTInstance) : CheckESDTInstance :=
  let '(mkCheckESDTInstance x1 x2 x3 x4 _ x6 x7) := r in mkCheckESDTInstance x1 x2 x3 x4 v x6 x7.
Definition set_cei_Uri (v : JSONCheckBytes) (r : CheckESDTInstance) : CheckESDTInstance :=
  let '(mkCheckESDTInstance x1 x2 x3 x4 x5 _ x7) := r in mkCheckESDTInstance x1 x2 x3 x4 x5 v x7.
Definition set_cei_Attributes (v : JSONCheckBytes) (r : CheckESDTInstance) : CheckESDTInstance :=
  let '(mkCheckESDTInstance x1 x2 x3 x4 x5 x6 _) := r in mkCheckESDTInstance x1 x2 x3 x4 x5 x6 v.

Record CheckESDTData := mkCheckESDTData {
  ced_TokenIdentifier : JSONBytesFromString;
  ced_Instances : list CheckESDTInstance;
  ced_LastNonce : JSONCheckUint64;
  ced_Roles : list bytes;
  ced_Frozen : JSONCheckUint64;
}.

Definition set_ced_TokenIdentifier (v : JSONBytesFromString) (r : CheckESDTData) : CheckESDTData :=
  let '(mkCheckESDTData _ x2 x3 x4 x5) := r in mkCheckESDTData v x2 x3 x4 x5.
Definition set_ced_Instances (v : list CheckESDTInstance) (r : CheckESDTData) : CheckESDTData :=
  let '(mkCheckESDTData x1 _ x3 x4 x5) := r in mkCheckESDTData x1 v x3 x4 x5.
Definition set_ced_LastNonce (v : JSONCheckUint64) (r : CheckESDTData) : CheckESDTData :=
  let '(mkCheckESDTData x1 x2 _ x4 x5) := r in mkCheckESDTData x1 x2 v x4 x5.
Definition set_ced_Roles (v : list bytes) (r : CheckESDTData) : CheckESDTData :=
  let '(mkCheckESDTData x1 x2 x3 _ x5) := r in mkCheckESDTData x1 x2 x3 v x5.
Definition set_ced_Frozen (v : JSONCheckUint64) (r : CheckESDTData) : CheckESDTData :=
  let '(mkCheckESDTData x1 x2 x3 x4 _) := r in mkCheckESDTData x1 x2 x3 x4 v.

Record StorageKeyValuePair := mkStorageKeyValuePair {
  st_Key : JSONBytesFromString;
  st_Value : JSONBytesFromTree;
}.

Definition set_st_Key (v : JSONBytesFromString) (r : StorageKeyValuePair) : StorageKeyValuePair :=
  let '(mkStorageKeyValuePair _ x2) := r in mkStorageKeyValuePair v x2.
Definition set_st_Value (v : JSONBytesFromTree) (r : StorageKeyValuePair) : StorageKeyValuePair :=
  let '(mkStorageKeyValuePair x1 _) := r in mkStorageKeyValuePair x1 v.

Record Account := mkAccount {
  acct_Address : JSONBytesFromString;
  acct_Shard : JSONUint64;
  acct_IsSmartContract : bool;
  acct_Comment : bytes;
  acct_Nonce : JSONUint64;
  acct_Balance : JSONBigInt;
  acct_Username : JSONBytesFromString;
  acct_Storage : list StorageKeyValuePair;
  acct_Code : JSONBytesFromString;
  acct_Owner : JSONBytesFromString;
  acct_AsyncCallData : bytes;
  acct_ESDTData : list ESDTData;
}.

Definition set_acct_Address (v : JSONBytesFromString) (r : Account) : Account :=
  let '(mkAccount _ x2 x3 x4 x5 x6 x7 x8 x9 x10 x11 x12) := r in
  mkAccount v x2 x3 x4 x5 x6 x7 x8 x9 x10 x11 x12.
Definition set_acct_Shard (v : JSONUint64) (r : Account) : Account :=
  let '(mkAccount x1 _ x3 x4 x5 x6 x7 x8 x9 x10 x11 x12) := r in
  mkAccount x1 v x3 x4 x5 x6 x7 x8 x9 x10 x11 x12.
Definition set_acct_IsSmartContract (v : bool) (r : Account) : Account :=
  let '(mkAccount x1 x2 _ x4 x5 x6 x7 x8 x9 x10 x11 x12) := r in
  mkAccount x1 x2 v x4 x5 x6 x7 x8 x9 x10 x11 x12.
Definition set_acct_Comment (v : bytes) (r : Account) : Account :=
  let '(mkAccount x1 x2 x3 _ x5 x6 x7 x8 x9 x10 x11 x12) := r in
  mkAccount x1 x2 x3 v x5 x6 x7 x8 x9 x10 x11 x12.
Definition set_acct_Nonce (v : JSONUint64) (r : Account) : Account :=
  let '(mkAccount x1 x2 x3 x4 _ x6 x7 x8 x9 x10 x11 x12) := r in
  mkAccount x1 x2 x3 x4 v x6 x7 x8 x9 x10 x11 x12.
Definition set_acct_Balance (v : JSONBigInt) (r : Account) : Account :=
  let '(mkAccount x1 x2 x3 x4 x5 _ x7 x8 x9 x10 x11 x12) := r in
  mkAccount x1 x2 x3 x4 x5 v x7 x8 x9 x10 x11 x12.
Definition set_acct_Username (v : JSONBytesFromString) (r : Account) : Account :=
  let '(mkAccount x1 x2 x3 x4 x5 x6 _ x8 x9 x10 x11 x12) := r in
  mkAccount x1 x2 x3 x4 x5 x6 v x8 x9 x10 x11 x12.
Definition set_acct_Storage (v : list StorageKeyValuePair) (r : Account) : Account :=
  let '(mkAccount x1 x2 x3 x4 x5 x6 x7 _ x9 x10 x11 x12) := r in
  mkAccount x1 x2 x3 x4 x5 x6 x7 v x9 x10 x11 x12.
Definition set_acct_Code (v : JSONBytesFromString) (r : Account) : Account :=
  let '(mkAccount x1 x2 x3 x4 x5 x6 x7 x8 _ x10 x11 x12) := r in
  mkAccount x1 x2 x3 x4 x5 x6 x7 x8 v x10 x11 x12.
Definition set_acct_Owner (v : JSONBytesFromString) (r : Account) : Account :=
  let '(mkAccount x1 x2 x3 x4 x5 x6 x7 x8 x9 _ x11 x12) := r in
  mkAccount x1 x2 x3 x4 x5 x6 x7 x8 x9 v x11 x12.
Definition set_acct_AsyncCallData (v : bytes) (r : Account) : Account :=
  let '(mkAccount x1 x2 x3 x4 x5 x6 x7 x8 x9 x10 _ x12) := r in
  mkAccount x1 x2 x3 x4 x5 x6 x7 x8 x9 x10 v x12.
Definition set_acct_ESDTData (v : list ESDTData) (r : Account) : Account :=
  let '(mkAccount x1 x2 x3 x4 x5 x6 x7 x8 x9 x10 x11 _) := r in
  mkAccount x1 x2 x3 x4 x5 x6 x7 x8 x9 x10 x11 v.

Record CheckStorageKeyValuePair := mkCheckStorageKeyValuePair {
  cst_Key : JSONBytesFromString;
  cst_CheckValue : JSONCheckBytes;
}.

Definition set_cst_Key (v : JSONBytesFromString) (r : CheckStorageKeyValuePair) : CheckStorageKeyValuePair :=
  let '(mkCheckStorageKeyValuePair _ x2) := r in mkCheckStorageKeyValuePair v x2.
Definition set_cst_CheckValue (v : JSONCheckBytes) (r : CheckStorageKeyValuePair) : CheckStorageKeyValuePair :=
  let '(mkCheckStorageKeyValuePair x1 _) := r in mkCheckStorageKeyValuePair x1 v.

Record CheckAccount := mkCheckAccount {
  ca_Address : JSONBytesFromString;
  ca_Comment : bytes;
  ca_Nonce : JSONCheckUint64;
  ca_Balance : JSONCheckBigInt;
  ca_Username : JSONCheckBytes;
  ca_CheckStorage : list CheckStorageKeyValuePair;
  ca_IgnoreStorage : bool;
  ca_MoreStorageAllowed : bool;
  ca_Code : JSONCheckBytes;
  ca_Owner : JSONCheckBytes;
  ca_AsyncCallData : JSONCheckBytes;
  ca_CheckESDTData : list CheckESDTData;
  ca_IgnoreESDT : bool;
  ca_MoreESDTTokensAllowed : bool;
}.

Definition set_ca_Address (v : JSONBytesFromString) (r : CheckAccount) : CheckAccount :=
  let '(mkCheckAccount _ x2 x3 x4 x5 x6 x7 x8 x9 x10 x11 x12 x13 x14) := r in
  mkCheckAccount v x2 x3 x4 x5 x6 x7 x8 x9 x10 x11 x12 x13 x14.
Definition set_ca_Comment (v : bytes) (r : CheckAccount) : CheckAccount :=
  let '(mkCheckAccount x1 _ x3 x4 x5 x6 x7 x8 x9 x10 x11 x12 x13 x14) := r in
  mkCheckAccount x1 v x3 x4 x5 x6 x7 x8 x9 x10 x11 x12 x13 x14.
Definition set_ca_Nonce (v : JSONCheckUint64) (r : CheckAccount) : CheckAccount :=
  let '(mkCheckAccount x1 x2 _ x4 x5 x6 x7 x8 x9 x10 x11 x12 x13 x14) := r in
  mkCheckAccount x1 x2 v x4 x5 x6 x7 x8 x9 x10 x11 x12 x13 x14.
Definition set_ca_Balance (v : JSONCheckBigInt) (r : CheckAccount) : CheckAccount :=
  let '(mkCheckAccount x1 x2 x3 _ x5 x6 x7 x8 x9 x10 x11 x12 x13 x14) := r in
  mkCheckAccount x1 x2 x3 v x5 x6 x7 x8 x9 x10 x11 x12 x13 x14.
Definition set_ca_Username (v : JSONCheckBytes) (r : CheckAccount) : CheckAccount :=
  let '(mkCheckAccount x1 x2 x3 x4 _ x6 x7 x8 x9 x10 x11 x12 x13 x14) := r in
  mkCheckAccount x1 x2 x3 x4 v x6 x7 x8 x9 x10 x11 x12 x13 x14.
Definition set_ca_CheckStorage (v : list CheckStorageKeyValuePair) (r : CheckAccount) : CheckAccount :=
  let '(mkCheckAccount x1 x2 x3 x4 x5 _ x7 x8 x9 x10 x11 x12 x13 x14) := r in
  mkCheckAccount x1 x2 x3 x4 x5 v x7 x8 x9 x10 x11 x12 x13 x14.
Definition set_ca_IgnoreStorage (v : bool) (r : CheckAccount) : CheckAccount :=
  let '(mkCheckAccount x1 x2 x3 x4 x5 x6 _ x8 x9 x10 x11 x12 x13 x14) := r in
  mkCheckAccount x1 x2 x3 x4 x5 x6 v x8 x9 x10 x11 x12 x13 x14.
Definition set_ca_MoreStorageAllowed (v : bool) (r : CheckAccount) : CheckAccount :=
  let '(mkCheckAccount x1 x2 x3 x4 x5 x6 x7 _ x9 x10 x11 x12 x13 x14) := r in
  mkCheckAccount x1 x2 x3 x4 x5 x6 x7 v x9 x10 x11 x12 x13 x14.
Definition set_ca_Code (v : JSONCheckBytes) (r : CheckAccount) : CheckAccount :=
  let '(mkCheckAccount x1 x2 x3 x4 x5 x6 x7 x8 _ x10 x11 x12 x13 x14) := r in
  mkCheckAccount x1 x2 x3 x4 x5 x6 x7 x8 v x10 x11 x12 x13 x14.
Definition set_ca_Owner (v : JSONCheckBytes) (r : CheckAccount) : CheckAccount :=
  let '(mkCheckAccount x1 x2 x3 x4 x5 x6 x7 x8 x9 _ x11 x12 x13 x14) := r in
  mkCheckAccount x1 x2 x3 x4 x5 x6 x7 x8 x9 v x11 x12 x13 x14.
Definition set_ca_AsyncCallData (v : JSONCheckBytes) (r : CheckAccount) : CheckAccount :=
  let '(mkCheckAccount x1 x2 x3 x4 x5 x6 x7 x8 x9 x10 _ x12 x13 x14) := r in
  mkCheckAccount x1 x2 x3 x4 x5 x6 x7 x8 x9 x10 v x12 x13 x14.
Definition set_ca_CheckESDTData (v : list CheckESDTData) (r : CheckAccount) : CheckAccount :=
  let '(mkCheckAccount x1 x2 x3 x4 x5 x6 x7 x8 x9 x10 x11 _ x13 x14) := r in
  mkCheckAccount x1 x2 x3 x4 x5 x6 x7 x8 x9 x10 x11 v x13 x14.
Definition set_ca_IgnoreESDT (v : bool) (r : CheckAccount) : CheckAccount :=
  let '(mkCheckAccount x1 x2 x3 x4 x5 x6 x7 x8 x9 x10 x11 x12 _ x14) := r in
  mkCheckAccount x1 x2 x3 x4 x5 x6 x7 x8 x9 x10 x11 x12 v x14.
Definition set_ca_MoreESDTTokensAllowed (v : bool) (r : CheckAccount) : CheckAccount :=
  let '(mkCheckAccount x1 x2 x3 x4 x5 x6 x7 x8 x9 x10 x11 x12 x13 _) := r in
  mkCheckAccount x1 x2 x3 x4 x5 x6 x7 x8 x9 x10 x11 x12 x13 v.

Record CheckAccounts := mkCheckAccounts {
  cas_Accounts : list CheckAccount;
  cas_MoreAccountsAllowed : bool;
}.

Definition set_cas_Accounts (v : list CheckAccount) (r : CheckAccounts) : CheckAccounts :=
  let '(mkCheckAccounts _ x2) := r in mkCheckAccounts v x2.
Definition set_cas_MoreAccountsAllowed (v : bool) (r : CheckAccounts) : CheckAccounts :=
  let '(mkCheckAccounts x1 _) := r in mkCheckAccounts x1 v.

Inductive TransactionType := ScDeploy | ScCall | ScQuery | Transfer | ValidatorReward.

#[global] Instance TransactionType_eq_dec : EqDecision TransactionType.
Proof. solve_decision. Defined.

Definition HasSender (tt : TransactionType) : bool :=
  match tt with ScQuery | ValidatorReward => false | _ => true end.

Definition HasReceiver (tt : TransactionType) : bool :=
  match tt with ScDeploy => false | _ => true end.

Definition IsSmartContractTx (tt : TransactionType) : bool :=
  match tt with ScDeploy | ScCall | ScQuery => true | _ => false end.

Definition HasValue (tt : TransactionType) : bool :=
  match tt with ScQuery => false | _ => true end.

Definition HasESDT (tt : TransactionType) : bool :=
  match tt with ScQuery | ValidatorReward => false | _ => true end.

Definition HasFunction (tt : TransactionType) : bool :=
  match tt with ScCall | ScQuery => true | _ => false end.

Definition HasGas (tt : TransactionType) : bool :=
  match tt with ScDeploy | ScCall => true | _ => HasESDT tt end.

Record Transaction := mkTransaction {
  tx_Type : TransactionType;
  tx_Nonce : JSONUint64;
  tx_Value : JSONBigInt;
  tx_ESDTValue : option ESDTTxData;
  tx_From : JSONBytesFromString;
  tx_To : JSONBytesFromString;
  tx_Function : bytes;
  tx_Code : JSONBytesFromString;
  tx_Arguments : list JSONBytesFromTree;
  tx_GasPrice : JSONUint64;
  tx_GasLimit : JSONUint64;
}.

Definition set_tx_Type (v : TransactionType) (r : Transaction) : Transaction :=
  let '(mkTransaction _ x2 x3 x4 x5 x6 x7 x8 x9 x10 x11) := r in
  mkTransaction v x2 x3 x4 x5 x6 x7 x8 x9 x10 x11.
Definition set_tx_Nonce (v : JSONUint64) (r : Transaction) : Transaction :=
  let '(mkTransaction x1 _ x3 x4 x5 x6 x7 x8 x9 x10 x11) := r in
  mkTransaction x1 v x3 x4 x5 x6 x7 x8 x9 x10 x11.
Definition set_tx_Value (v : JSONBigInt) (r : Transaction) : Transaction :=
  let '(mkTransaction x1 x2 _ x4 x5 x6 x7 x8 x9 x10 x11) := r in
  mkTransaction x1 x2 v x4 x5 x6 x7 x8 x9 x10 x11.
Definition set_tx_ESDTValue (v : option ESDTTxData) (r : Transaction) : Transaction :=
  let '(mkTransaction x1 x2 x3 _ x5 x6 x7 x8 x9 x10 x11) := r in
  mkTransaction x1 x2 x3 v x5 x6 x7 x8 x9 x10 x11.
Definition set_tx_From (v : JSONBytesFromString) (r : Transaction) : Transaction :=
  let '(mkTransaction x1 x2 x3 x4 _ x6 x7 x8 x9 x10 x11) := r in
  mkTransaction x1 x2 x3 x4 v x6 x7 x8 x9 x10 x11.
Definition set_tx_To (v : JSONBytesFromString) (r : Transaction) : Transaction :=
  let '(mkTransaction x1 x2 x3 x4 x5 _ x7 x8 x9 x10 x11) := r in
  mkTransaction x1 x2 x3 x4 x5 v x7 x8 x9 x10 x11.
Definition set_tx_Function (v : bytes) (r : Transaction) : Transaction :=
  let '(mkTransaction x1 x2 x3 x4 x5 x6 _ x8 x9 x10 x11) := r in
  mkTransaction x1 x2 x3 x4 x5 x6 v x8 x9 x10 x11.
Definition set_tx_Code (v : JSONBytesFromString) (r : Transaction) : Transaction :=
  let '(mkTransaction x1 x2 x3 x4 x5 x6 x7 _ x9 x10 x11) := r in
  mkTransaction x1 x2 x3 x4 x5 x6 x7 v x9 x10 x11.
Definition set_tx_Arguments (v : list JSONBytesFromTree) (r : Transaction) : Transaction :=
  let '(mkTransaction x1 x2 x3 x4 x5 x6 x7 x8 _ x10 x11) := r in
  mkTransaction x1 x2 x3 x4 x5 x6 x7 x8 v x10 x11.
Definition set_tx_GasPrice (v : JSONUint64) (r : Transaction) : Transaction :=
  let '(mkTransaction x1 x2 x3 x4 x5 x6 x7 x8 x9 _ x11) := r in
  mkTransaction x1 x2 x3 x4 x5 x6 x7 x8 x9 v x11.
Definition set_tx_GasLimit (v : JSONUint64) (r : Transaction) : Transaction :=
  let '(mkTransaction x1 x2 x3 x4 x5 x6 x7 x8 x9 x10 _) := r in
  mkTransaction x1 x2 x3 x4 x5 x6 x7 x8 x9 x10 v.

Record LogEntry := mkLogEntry {
  log_Address : JSONCheckBytes;
  log_Identifier : JSONCheckBytes;
  log_Topics : list JSONCheckBytes;
  log_Data : JSONCheckBytes;
}.

Definition set_log_Address (v : JSONCheckBytes) (r : LogEntry) : LogEntry :=
  let '(mkLogEntry _ x2 x3 x4) := r in mkLogEntry v x2 x3 x4.
Definition set_log_Identifier (v : JSONCheckBytes) (r : LogEntry) : LogEntry :=
  let '(mkLogEntry x1 _ x3 x4) := r in mkLogEntry x1 v x3 x4.
Definition set_log_Topics (v : list JSONCheckBytes) (r : LogEntry) : LogEntry :=
  let '(mkLogEntry x1 x2 _ x4) := r in mkLogEntry x1 x2 v x4.
Definition set_log_Data (v : JSONCheckBytes) (r : LogEntry) : LogEntry :=
  let '(mkLogEntry x1 x2 x3 _) := r in mkLogEntry x1 x2 x3 v.

Record TransactionResult := mkTransactionResult {
  res_Out : list JSONCheckBytes;
  res_Status : JSONCheckBigInt;
  res_Message : JSONCheckBytes;
  res_Gas : JSONCheckUint64;
  res_Refund : JSONCheckBigInt;
  res_LogsStar : bool;
  res_LogsUnspecified : bool;
  res_LogHash : bytes;
  res_Logs : list LogEntry;
}.

Definition set_res_Out (v : list JSONCheckBytes) (r : TransactionResult) : TransactionResult :=
  let '(mkTransactionResult _ x2 x3 x4 x5 x6 x7 x8 x9) := r in
  mkTransactionResult v x2 x3 x4 x5 x6 x7 x8 x9.
Definition set_res_Status (v : JSONCheckBigInt) (r : TransactionResult) : TransactionResult :=
  let '(mkTransactionResult x1 _ x3 x4 x5 x6 x7 x8 x9) := r in
  mkTransactionResult x1 v x3 x4 x5 x6 x7 x8 x9.
Definition set_res_Message (v : JSONCheckBytes) (r : TransactionResult) : TransactionResult :=
  let '(mkTransactionResult x1 x2 _ x4 x5 x6 x7 x8 x9) := r in
  mkTransactionResult x1 x2 v x4 x5 x6 x7 x8 x9.
Definition set_res_Gas (v : JSONCheckUint64) (r : TransactionResult) : TransactionResult :=
  let '(mkTransactionResult x1 x2 x3 _ x5 x6 x7 x8 x9) := r in
  mkTransactionResult x1 x2 x3 v x5 x6 x7 x8 x9.
Definition set_res_Refund (v : JSONCheckBigInt) (r : TransactionResult) : TransactionResult :=
  let '(mkTransactionResult x1 x2 x3 x4 _ x6 x7 x8 x9) := r in
  mkTransactionResult x1 x2 x3 x4 v x6 x7 x8 x9.
Definition set_res_LogsStar (v : bool) (r : TransactionResult) : TransactionResult :=
  let '(mkTransactionResult x1 x2 x3 x4 x5 _ x7 x8 x9) := r in
  mkTransactionResult x1 x2 x3 x4 x5 v x7 x8 x9.
Definition set_res_LogsUnspecified (v : bool) (r : TransactionResult) : TransactionResult :=
  let '(mkTransactionResult x1 x2 x3 x4 x5 x6 _ x8 x9) := r in
  mkTransactionResult x1 x2 x3 x4 x5 x6 v x8 x9.
Definition set_res_LogHash (v : bytes) (r : TransactionResult) : TransactionResult :=
  let '(mkTransactionResult x1 x2 x3 x4 x5 x6 x7 _ x9) := r in
  mkTransactionResult x1 x2 x3 x4 x5 x6 x7 v x9.
Definition set_res_Logs (v : list LogEntry) (r : TransactionResult) : TransactionResult :=
  let '(mkTransactionResult x1 x2 x3 x4 x5 x6 x7 x8 _) := r in
  mkTransactionResult x1 x2 x3 x4 x5 x6 x7 x8 v.

Record NewAddressMock := mkNewAddressMock {
  nam_CreatorAddress : JSONBytesFromString;
  nam_CreatorNonce : JSONUint64;
  nam_NewAddress : JSONBytesFromString;
}.

Definition set_nam_CreatorAddress (v : JSONBytesFromString) (r : NewAddressMock) : NewAddressMock :=
  let '(mkNewAddressMock _ x2 x3) := r in mkNewAddressMock v x2 x3.
Definition set_nam_CreatorNonce (v : JSONUint64) (r : NewAddressMock) : NewAddressMock :=
  let '(mkNewAddressMock x1 _ x3) := r in mkNewAddressMock x1 v x3.
Definition set_nam_NewAddress (v : JSONBytesFromString) (r : NewAddressMock) : NewAddressMock :=
  let '(mkNewAddressMock x1 x2 _) := r in mkNewAddressMock x1 x2 v.

Record BlockInfo := mkBlockInfo {
  bi_BlockTimestamp : JSONUint64;
  bi_BlockNonce : JSONUint64;
  bi_BlockRound : JSONUint64;
  bi_BlockEpoch : JSONUint64;
  bi_BlockRandomSeed : option JSONBytesFromTree;
}.

Definition set_bi_BlockTimestamp (v : JSONUint64) (r : BlockInfo) : BlockInfo :=
  let '(mkBlockInfo _ x2 x3 x4 x5) := r in mkBlockInfo v x2 x3 x4 x5.
Definition set_bi_BlockNonce (v : JSONUint64) (r : BlockInfo) : BlockInfo :=
  let '(mkBlockInfo x1 _ x3 x4 x5) := r in mkBlockInfo x1 v x3 x4 x5.
Definition set_bi_BlockRound (v : JSONUint64) (r : BlockInfo) : BlockInfo :=
  let '(mkBlockInfo x1 x2 _ x4 x5) := r in mkBlockInfo x1 x2 v x4 x5.
Definition set_bi_BlockEpoch (v : JSONUint64) (r : BlockInfo) : BlockInfo :=
  let '(mkBlockInfo x1 x2 x3 _ x5) := r in mkBlockInfo x1 x2 x3 v x5.
Definition set_bi_BlockRandomSeed (v : option JSONBytesFromTree) (r : BlockInfo) : BlockInfo :=
  let '(mkBlockInfo x1 x2 x3 x4 _) := r in mkBlockInfo x1 x2 x3 x4 v.

Record ExternalStepsStep := mkExternalStepsStep {
  ext_Comment : bytes;
  ext_Path : bytes;
}.

Definition set_ext_Comment (v : bytes) (r : ExternalStepsStep) : ExternalStepsStep :=
  let '(mkExternalStepsStep _ x2) := r in mkExternalStepsStep v x2.
Definition set_ext_Path (v : bytes) (r : ExternalStepsStep) : ExternalStepsStep :=
  let '(mkExternalStepsStep x1 _) := r in mkExternalStepsStep x1 v.

Record SetStateStep := mkSetStateStep {
  set_Comment : bytes;
  set_Accounts : list Account;
  set_PreviousBlockInfo : option BlockInfo;
  set_CurrentBlockInfo : option BlockInfo;
  set_BlockHashes : list JSONBytesFromString;
  set_NewAddressMocks : list NewAddressMock;
}.

Definition set_set_Comment (v : bytes) (r : SetStateStep) : SetStateStep :=
  let '(mkSetStateStep _ x2 x3 x4 x5 x6) := r in mkSetStateStep v x2 x3 x4 x5 x6.
Definition set_set_Accounts (v : list Account) (r : SetStateStep) : SetStateStep :=
  let '(mkSetStateStep x1 _ x3 x4 x5 x6) := r in mkSetStateStep x1 v x3 x4 x5 x6.
Definition set_set_PreviousBlockInfo (v : option BlockInfo) (r : SetStateStep) : SetStateStep :=
  let '(mkSetStateStep x1 x2 _ x4 x5 x6) := r in mkSetStateStep x1 x2 v x4 x5 x6.
Definition set_set_CurrentBlockInfo (v : option BlockInfo) (r : SetStateStep) : SetStateStep :=
  let '(mkSetStateStep x1 x2 x3 _ x5 x6) := r in mkSetStateStep x1 x2 x3 v x5 x6.
Definition set_set_BlockHashes (v : list JSONBytesFromString) (r : SetStateStep) : SetStateStep :=
  let '(mkSetStateStep x1 x2 x3 x4 _ x6) := r in mkSetStateStep x1 x2 x3 x4 v x6.
Definition set_set_NewAddressMocks (v : list NewAddressMock) (r : SetStateStep) : SetStateStep :=
  let '(mkSetStateStep x1 x2 x3 x4 x5 _) := r in mkSetStateStep x1 x2 x3 x4 x5 v.

Record CheckStateStep := mkCheckStateStep {
  chk_Comment : bytes;
  chk_CheckAccounts : option CheckAccounts;
}.

Definition set_chk_Comment (v : bytes) (r : CheckStateStep) : CheckStateStep :=
  let '(mkCheckStateStep _ x2) := r in mkCheckStateStep v x2.
Definition set_chk_CheckAccounts (v : option CheckAccounts) (r : CheckStateStep) : CheckStateStep :=
  let '(mkCheckStateStep x1 _) := r in mkCheckStateStep x1 v.

Record DumpStateStep := mkDumpStateStep {
  dump_Comment : bytes;
}.

Definition set_dump_Comment (v : bytes) (r : DumpStateStep) : DumpStateStep :=
  let '(mkDumpStateStep _) := r in mkDumpStateStep v.

Record TxStep := mkTxStep {
  step_TxIdent : bytes;
  step_Comment : bytes;
  step_Tx : option Transaction;
  step_ExpectedResult : option TransactionResult;
}.

Definition set_step_TxIdent (v : bytes) (r : TxStep) : TxStep :=
  let '(mkTxStep _ x2 x3 x4) := r in mkTxStep v x2 x3 x4.
Definition set_step_Comment (v : bytes) (r : TxStep) : TxStep :=
  let '(mkTxStep x1 _ x3 x4) := r in mkTxStep x1 v x3 x4.
Definition set_step_Tx (v : option Transaction) (r : TxStep) : TxStep :=
  let '(mkTxStep x1 x2 _ x4) := r in mkTxStep x1 x2 v x4.
Definition set_step_ExpectedResult (v : option TransactionResult) (r : TxStep) : TxStep :=
  let '(mkTxStep x1 x2 x3 _) := r in mkTxStep x1 x2 x3 v.

(** The implementations of the interface. *)
Inductive Step :=
| ExternalSteps (step : ExternalStepsStep)
| SetState (step : SetStateStep)
| CheckState (step : CheckStateStep)
| DumpState (step : DumpStateStep)
| TxSteps (step : TxStep).

Inductive GasSchedule :=
| GasScheduleDefault | GasScheduleDummy | GasScheduleV1 | GasScheduleV2 | GasScheduleV3.

Definition StepNameExternalSteps : bytes := bs "externalSteps".
Definition StepNameSetState : bytes := bs "setState".
Definition StepNameCheckState : bytes := bs "checkState".
Definition StepNameDumpState : bytes := bs "dumpState".
Definition StepNameScCall : bytes := bs "scCall".
Definition StepNameScDeploy : bytes := bs "scDeploy".
Definition StepNameScQuery : bytes := bs "scQuery".
Definition StepNameTransfer : bytes := bs "transfer".
Definition StepNameValidatorReward : bytes := bs "validatorReward".

Definition TxStepTypeName (type : TransactionType) : bytes :=
  match type with
  | ScCall => StepNameScCall
  | ScDeploy => StepNameScDeploy
  | ScQuery => StepNameScQuery
  | Transfer => StepNameTransfer
  | ValidatorReward => StepNameValidatorReward
  end.

(** [t.Tx.Type] of a step without a transaction panics. *)
Definition StepTypeName (s : Step) : res bytes :=
  match s with
  | ExternalSteps _ => mret StepNameExternalSteps
  | SetState _ => mret StepNameSetState
  | CheckState _ => mret StepNameCheckState
  | DumpState _ => mret StepNameDumpState
  | TxSteps t => tx ← deref_res (step_Tx t); mret (TxStepTypeName (tx_Type tx))
  end.

Record Scenario := mkScenario {
  sc_Name : bytes;
  sc_Comment : bytes;
  sc_CheckGas : bool;
  sc_GasSchedule : GasSchedule;
  sc_Steps : list Step;
}.

Definition set_sc_Name (v : bytes) (r : Scenario) : Scenario :=
  let '(mkScenario _ x2 x3 x4 x5) := r in mkScenario v x2 x3 x4 x5.
Definition set_sc_Comment (v : bytes) (r : Scenario) : Scenario :=
  let '(mkScenario x1 _ x3 x4 x5) := r in mkScenario x1 v x3 x4 x5.
Definition set_sc_CheckGas (v : bool) (r : Scenario) : Scenario :=
  let '(mkScenario x1 x2 _ x4 x5) := r in mkScenario x1 x2 v x4 x5.
Definition set_sc_GasSchedule (v : GasSchedule) (r : Scenario) : Scenario :=
  let '(mkScenario x1 x2 x3 _ x5) := r in mkScenario x1 x2 x3 v x5.
Definition set_sc_Steps (v : list Step) (r : Scenario) : Scenario :=
  let '(mkScenario x1 x2 x3 x4 _) := r in mkScenario x1 x2 x3 x4 v.

Record BlockHeader := mkBlockHeader {
  bh_Beneficiary : JSONBigInt;
  bh_Difficulty : JSONBigInt;
  bh_Number : JSONBigInt;
  bh_GasLimit : JSONBigInt;
  bh_Timestamp : JSONUint64;
}.

Definition set_bh_Beneficiary (v : JSONBigInt) (r : BlockHeader) : BlockHeader :=
  let '(mkBlockHeader _ x2 x3 x4 x5) := r in mkBlockHeader v x2 x3 x4 x5.
Definition set_bh_Difficulty (v : JSONBigInt) (r : BlockHeader) : BlockHeader :=
  let '(mkBlockHeader x1 _ x3 x4 x5) := r in mkBlockHeader x1 v x3 x4 x5.
Definition set_bh_Number (v : JSONBigInt) (r : BlockHeader) : BlockHeader :=
  let '(mkBlockHeader x1 x2 _ x4 x5) := r in mkBlockHeader x1 x2 v x4 x5.
Definition set_bh_GasLimit (v : JSONBigInt) (r : BlockHeader) : BlockHeader :=
  let '(mkBlockHeader x1 x2 x3 _ x5) := r in mkBlockHeader x1 x2 x3 v x5.
Definition set_bh_Timestamp (v : JSONUint64) (r : BlockHeader) : BlockHeader :=
  let '(mkBlockHeader x1 x2 x3 x4 _) := r in mkBlockHeader x1 x2 x3 x4 v.

Record Block := mkBlock {
  bl_Results : list TransactionResult;
  bl_Transactions : list Transaction;
  bl_BlockHeader : option BlockHeader;
}.

Definition set_bl_Results (v : list TransactionResult) (r : Block) : Block :=
  let '(mkBlock _ x2 x3) := r in mkBlock v x2 x3.
Definition set_bl_Transactions (v : list Transaction) (r : Block) : Block :=
  let '(mkBlock x1 _ x3) := r in mkBlock x1 v x3.
Definition set_bl_BlockHeader (v : option BlockHeader) (r : Block) : Block :=
  let '(mkBlock x1 x2 _) := r in mkBlock x1 x2 v.

Record Test := mkTest {
  test_TestName : bytes;
  test_CheckGas : bool;
  test_Pre : list Account;
  test_Blocks : list Block;
  test_Network : bytes;
  test_BlockHashes : list JSONBytesFromString;
  test_PostState : option CheckAccounts;
}.

Definition set_test_TestName (v : bytes) (r : Test) : Test :=
  let '(mkTest _ x2 x3 x4 x5 x6 x7) := r in mkTest v x2 x3 x4 x5 x6 x7.
Definition set_test_CheckGas (v : bool) (r : Test) : Test :=
  let '(mkTest x1 _ x3 x4 x5 x6 x7) := r in mkTest x1 v x3 x4 x5 x6 x7.
Definition set_test_Pre (v : list Account) (r : Test) : Test :=
  let '(mkTest x1 x2 _ x4 x5 x6 x7) := r in mkTest x1 x2 v x4 x5 x6 x7.
Definition set_test_Blocks (v : list Block) (r : Test) : Test :=
  let '(mkTest x1 x2 x3 _ x5 x6 x7) := r in mkTest x1 x2 x3 v x5 x6 x7.
Definition set_test_Network (v : bytes) (r : Test) : Test :=
  let '(mkTest x1 x2 x3 x4 _ x6 x7) := r in mkTest x1 x2 x3 x4 v x6 x7.
Definition set_test_BlockHashes (v : list JSONBytesFromString) (r : Test) : Test :=
  let '(mkTest x1 x2 x3 x4 x5 _ x7) := r in mkTest x1 x2 x3 x4 x5 v x7.
Definition set_test_PostState (v : option CheckAccounts) (r : Test) : Test :=
  let '(mkTest x1 x2 x3 x4 x5 x6 _) := r in mkTest x1 x2 x3 x4 x5 x6 v.

(** ** Values ([valueInit.go], [valueCheck.go]) *)

Definition NewJSONBytesFromString (value originalStr : bytes) : JSONBytesFromString :=
  mkJSONBytesFromString value originalStr.

Definition is_empty_text (o : option OJsonObject) : bool :=
  match o with Some (OString []) => true | _ => false end.

Definition OriginalEmpty (jb : JSONBytesFromTree) : bool := is_empty_text (jbt_Original jb).

Definition JSONBigIntZero : JSONBigInt := mkJSONBigInt (Some 0) [].
Definition JSONUint64Zero : JSONUint64 := mkJSONUint64 0 [].

Definition JSONCheckBytesUnspecified : JSONCheckBytes :=
  mkJSONCheckBytes [] false (Some (OString [])) true.

Definition JSONCheckBytesStar : JSONCheckBytes :=
  mkJSONCheckBytes [] true (Some (OString (bs "*"))) false.

Definition JSONCheckBytesReconstructed (value originalString : bytes) : JSONCheckBytes :=
  mkJSONCheckBytes value false (Some (OString originalString)) false.

Definition CheckBytes_OriginalEmpty (jcbytes : JSONCheckBytes) : bool :=
  is_empty_text (jcb_Original jcbytes).

Definition CheckBytes_Check (jcbytes : JSONCheckBytes) (other : bytes) : bool :=
  if jcb_IsStar jcbytes then true else bool_decide (jcb_Value jcbytes = other).

Definition JSONCheckBigIntUnspecified : JSONCheckBigInt := mkJSONCheckBigInt (Some 0) false [] true.

(** [jcbi.Value.Cmp(other)] of a nil pointer panics. *)
Definition CheckBigInt_Check (jcbi : JSONCheckBigInt) (other : Z) : res bool :=
  if jcbi_IsStar jcbi then mret true
  else value ← deref_res (jcbi_Value jcbi); mret (value =? other).

Definition JSONCheckUint64Unspecified : JSONCheckUint64 := mkJSONCheckUint64 0 false [] true.

Definition CheckUint64_Check (jcu : JSONCheckUint64) (other : Z) : bool :=
  if jcu_IsStar jcu then true else jcu_Value jcu =? other.

Definition CheckBool (jcu : JSONCheckUint64) (other : bool) : bool :=
  if jcu_IsStar jcu then true else Bool.eqb (0 <? jcu_Value jcu) other.

(** The zero values of Go. *)
Definition zeroBytes : JSONBytesFromString := mkJSONBytesFromString [] [].
Definition zeroTree : JSONBytesFromTree := mkJSONBytesFromTree [] None.
Definition zeroBigInt : JSONBigInt := mkJSONBigInt None [].
Definition zeroUint64 : JSONUint64 := mkJSONUint64 0 [].
Definition zeroCheckBytes : JSONCheckBytes := mkJSONCheckBytes [] false None false.
Definition zeroCheckUint64 : JSONCheckUint64 := mkJSONCheckUint64 0 false [] false.

(** ** Tokens, accounts and transactions *)

Definition zeroESDTInstance : ESDTInstance :=
  mkESDTInstance zeroUint64 zeroBigInt zeroBytes zeroUint64 zeroBytes zeroTree zeroBytes.

Definition NewCheckESDTInstance : CheckESDTInstance :=
  mkCheckESDTInstance JSONCheckUint64Unspecified JSONCheckBigIntUnspecified
    JSONCheckBytesUnspecified JSONCheckUint64Unspecified JSONCheckBytesUnspecified
    JSONCheckBytesUnspecified JSONCheckBytesUnspecified.

Definition FindAccount (accounts : list Account) (address : bytes) : option Account :=
  List.find (fun acct => bool_decide (jbs_Value (acct_Address acct) = address)) accounts.

Definition FindCheckAccount (accounts : list CheckAccount) (address : bytes) : option CheckAccount :=
  List.find (fun acct => bool_decide (jbs_Value (ca_Address acct) = address)) accounts.

(** ** Results ([util.go]) *)

Definition ResultEqual (expected : JSONBytesFromString) (actual : bytes) : bool :=
  if bool_decide (jbs_Value expected = actual) then true
  else SetBytes (jbs_Value expected) =? SetBytes actual.

Definition ResultAsString (result : list bytes) : bytes :=
  bs "[" ++
  (fix go (l : list bytes) : bytes :=
     match l with
     | [] => []
     | [res] => bs "0x" ++ hex_EncodeToString res
     | res :: rest => bs "0x" ++ hex_EncodeToString res ++ bs ", " ++ go rest
     end) result ++ bs "]".

Definition JSONBytesFromStringValues (jbs : list JSONBytesFromString) : list bytes :=
  map jbs_Value jbs.

Definition JSONBytesFromTreeValues (jbs : list JSONBytesFromTree) : list bytes := map jbt_Value jbs.

(** ** The older tests ([convertTestToScenario.go]) *)

(** The transactions with the results of the same index, numbered from [txIndex + 1]. *)
Fixpoint tx_steps (txIndex : Z) (transactions : list Transaction)
    (results : list TransactionResult) : list Step :=
  match transactions, results with
  | tx :: transactions, result :: results =>
      TxSteps (mkTxStep (Sprintf_d (txIndex + 1)) [] (Some tx) (Some result)) ::
      tx_steps (txIndex + 1) transactions results
  | _, _ => []
  end.

Definition ConvertTestToScenario (top : list Test) : res Scenario :=
  match top with
  | [test] =>
      match test_Blocks test with
      | [block] =>
          if negb (len (bl_Transactions block) =? len (bl_Results block)) then
            fails "transactions must match results"
          else
            mret (mkScenario [] [] (test_CheckGas test) GasScheduleDefault
              ([SetState (mkSetStateStep [] (test_Pre test) None None (test_BlockHashes test) [])] ++
               tx_steps 0 (bl_Transactions block) (bl_Results block) ++
               [CheckState (mkCheckStateStep [] (test_PostState test))]))
      | _ => fails "only one block per test file supported"
      end
  | _ => fails "only one test per test file supported"
  end.

End mj.
