(* ===== verification/ScenParse.v ===== *)
(** Parsing scenarios and the older tests ([src/scenarios/json/parse]): from an
    ordered JSON tree to the structures of [ScenModel].

    The loops over the keys of a map with a [switch] in them are [for_range] with
    [switch]; what a case assigns to a field is the result of the case. *)
From S2P Require Import Prelude Errors Types State OrderedJson GoText Fallible ScenExpr ScenModel.
Import mj.

#[local] Open Scope Z_scope.

Section Parse.
Context `{Env : ScenEnv}.

(** The type assertions to a map and to a list, with the error of the caller. *)
Definition as_map (text : string) (obj : OJsonObject) : res (list (bytes * OJsonObject)) :=
  match obj with OMap _ kvs => mret kvs | _ => fails text end.

Definition as_list (text : string) (obj : OJsonObject) : res (list OJsonObject) :=
  match obj with OList items => mret items | _ => fails text end.

Definition unknown {A} (text : string) (key : bytes) : res A := fail (ErrNew (bs text ++ key)).

(** ** Values ([parseValue.go]) *)

Inductive bigIntParseFormat := bigIntSignedBytes | bigIntUnsignedBytes.

Definition parseString (obj : OJsonObject) : res bytes :=
  match obj with OString value => mret value | _ => fails "not a string value" end.

Definition IsStar (obj : OJsonObject) : bool :=
  match obj with OString value => text_eqb value (bs "*") | _ => false end.

Definition parseBigInt (strRaw : bytes) (format : bigIntParseFormat) : res Z :=
  bytes ← InterpretString strRaw;
  match format with
  | bigIntSignedBytes => mret (scen_FromBytes bytes)
  | bigIntUnsignedBytes => mret (SetBytes bytes)
  end.

Definition processBigInt (obj : OJsonObject) (format : bigIntParseFormat) : res JSONBigInt :=
  strVal ← parseString obj;
  bi ← parseBigInt strVal format;
  mret (mkJSONBigInt (Some bi) strVal).

Definition processCheckBigInt (obj : OJsonObject) (format : bigIntParseFormat) :
    res JSONCheckBigInt :=
  if IsStar obj then mret (mkJSONCheckBigInt None true (bs "*") false)
  else
    jbi ← processBigInt obj format;
    mret (mkJSONCheckBigInt (jbi_Value jbi) false (jbi_Original jbi) false).

Definition processUint64 (obj : OJsonObject) : res JSONUint64 :=
  bi ← processBigInt obj bigIntUnsignedBytes;
  match jbi_Value bi with
  | Some value =>
      if (0 <=? value) && (value <? 2 ^ 64) then mret (mkJSONUint64 value (jbi_Original bi))
      else fails "value is not uint64"
  | None => fails "value is not uint64"
  end.

Definition processCheckUint64 (obj : OJsonObject) : res JSONCheckUint64 :=
  if IsStar obj then mret (mkJSONCheckUint64 0 true (bs "*") false)
  else
    ju ← processUint64 obj;
    mret (mkJSONCheckUint64 (ju_Value ju) false (ju_Original ju) false).

Definition processSubTreeAsByteArray (obj : OJsonObject) : res JSONBytesFromTree :=
  value ← InterpretSubTree obj;
  mret (mkJSONBytesFromTree value (Some obj)).

Definition parseCheckBytes (obj : OJsonObject) : res JSONCheckBytes :=
  if IsStar obj then mret JSONCheckBytesStar
  else
    jb ← processSubTreeAsByteArray obj;
    mret (mkJSONCheckBytes (jbt_Value jb) false (jbt_Original jb) false).

Definition processStringAsByteArray (obj : OJsonObject) : res JSONBytesFromString :=
  strVal ← parseString obj;
  result ← InterpretString strVal;
  mret (NewJSONBytesFromString result strVal).

(** ** Lists ([parseList.go]) *)

Definition parse_list {A} (parse : OJsonObject -> res A) (obj : OJsonObject) : res (list A) :=
  items ← as_list "not a JSON list" obj; map_range items parse.

Definition processStringList : OJsonObject -> res (list bytes) := parse_list parseString.

Definition parseByteArrayList : OJsonObject -> res (list JSONBytesFromString) :=
  parse_list processStringAsByteArray.

Definition parseSubTreeList : OJsonObject -> res (list JSONBytesFromTree) :=
  parse_list processSubTreeAsByteArray.

Definition parseCheckBytesList : OJsonObject -> res (list JSONCheckBytes) :=
  parse_list parseCheckBytes.

(** ** Tokens ([parseESDTTx.go], [parseESDT.go], [parseESDTCheck.go]) *)

Definition zeroESDTTxData : ESDTTxData := mkESDTTxData zeroBytes zeroUint64 zeroBigInt.

Definition txESDT_field (kvp : bytes * OJsonObject) (esdtData : ESDTTxData) : res ESDTTxData :=
  let '(key, value) := kvp in
  switch key [
    (bs "tokenIdentifier",
      x ← wrap "invalid ESDT token name: " (processStringAsByteArray value);
      mret (set_etx_TokenIdentifier x esdtData));
    (bs "nonce",
      x ← instead "invalid account nonce" (processUint64 value);
      mret (set_etx_Nonce x esdtData));
    (bs "value",
      x ← wrap "invalid ESDT balance: " (processBigInt value bigIntUnsignedBytes);
      mret (set_etx_Value x esdtData))
  ] (unknown "unknown transaction ESDT data field: " key).

Definition processTxESDT (txEsdtRaw : OJsonObject) : res ESDTTxData :=
  kvs ← as_map "unmarshalled account object is not a map" txEsdtRaw;
  for_range kvs txESDT_field zeroESDTTxData.

(** [fmt.Errorf] with a nil error, when only the value is bad. *)
Definition wrapped_nil {A} (text : string) : res A := fail (ErrNew (bs text ++ bs "%!w(<nil>)")).

(** The target is changed in place: [None] is the result false. *)
Definition tryProcessESDTInstanceField (kvp : bytes * OJsonObject) (targetInstance : ESDTInstance) :
    res (option ESDTInstance) :=
  let '(key, value) := kvp in
  switch key [
    (bs "nonce",
      x ← wrap "invalid account nonce: " (processUint64 value);
      mret (Some (set_ei_Nonce x targetInstance)));
    (bs "balance",
      x ← wrap "invalid ESDT balance: " (processBigInt value bigIntUnsignedBytes);
      mret (Some (set_ei_Balance x targetInstance)));
    (bs "creator",
      x ← wrap "invalid ESDT NFT creator address: " (processStringAsByteArray value);
      if negb (len (jbs_Value x) =? 32) then wrapped_nil "invalid ESDT NFT creator address: "
      else mret (Some (set_ei_Creator x targetInstance)));
    (bs "royalties",
      x ← wrap "invalid ESDT NFT royalties: " (processUint64 value);
      if 10000 <? ju_Value x then wrapped_nil "invalid ESDT NFT royalties: "
      else mret (Some (set_ei_Royalties x targetInstance)));
    (bs "hash",
      x ← wrap "invalid ESDT NFT hash: " (processStringAsByteArray value);
      mret (Some (set_ei_Hash x targetInstance)));
    (bs "uri",
      x ← wrap "invalid ESDT NFT URI: " (processSubTreeAsByteArray value);
      mret (Some (set_ei_Uri x targetInstance)));
    (bs "attributes",
      x ← wrap "invalid ESDT NFT attributes: " (processStringAsByteArray value);
      mret (Some (set_ei_Attributes x targetInstance)))
  ] (mret None).

(** The errors of the instances in a list. *)
Definition in_instances_list {A} (try : bytes * OJsonObject -> A -> res (option A))
    (kvp : bytes * OJsonObject) (instance : A) : res A :=
  loaded ← wrap "invalid account ESDT instance field in instances list: " (try kvp instance);
  match loaded with
  | Some instance => mret instance
  | None =>
      fail (ErrNew (bs "invalid account ESDT instance field in instances list: `" ++ fst kvp ++
        bs "`"))
  end.

Definition parse_instance {A} (try : bytes * OJsonObject -> A -> res (option A)) (zero : A)
    (instanceItem : OJsonObject) : res A :=
  kvs ← as_map "JSON map expected as esdt instances list item" instanceItem;
  for_range kvs (in_instances_list try) zero.

Definition parse_instances {A} (try : bytes * OJsonObject -> A -> res (option A)) (zero : A)
    (esdtInstancesRaw : OJsonObject) : res (list A) :=
  items ← as_list "esdt instances object is not a list" esdtInstancesRaw;
  map_range items (parse_instance try zero).

Definition processESDTInstances : OJsonObject -> res (list ESDTInstance) :=
  parse_instances tryProcessESDTInstanceField zeroESDTInstance.

(** The variables of the loop: the data, the first instance and whether it was loaded,
    and the explicit instances. *)
Definition esdtData_field (kvp : bytes * OJsonObject)
    (acc : ESDTData * ESDTInstance * bool * list ESDTInstance) :
    res (ESDTData * ESDTInstance * bool * list ESDTInstance) :=
  let '(esdtData, firstInstance, firstInstanceLoaded, explicitInstances) := acc in
  let '(key, value) := kvp in
  loaded ← wrap "invalid account ESDT instance field: "
    (tryProcessESDTInstanceField kvp firstInstance);
  match loaded with
  | Some firstInstance => mret (esdtData, firstInstance, true, explicitInstances)
  | None =>
      let set esdtData := mret (esdtData, firstInstance, firstInstanceLoaded, explicitInstances) in
      switch key [
        (bs "instances",
          x ← wrap "invalid account ESDT instances: " (processESDTInstances value);
          mret (esdtData, firstInstance, firstInstanceLoaded, x));
        (bs "lastNonce",
          x ← wrap "invalid account ESDT lastNonce: " (processUint64 value);
          set (set_ed_LastNonce x esdtData));
        (bs "roles",
          x ← wrap "invalid account ESDT roles: " (processStringList value);
          set (set_ed_Roles x esdtData));
        (bs "frozen",
          x ← wrap "invalid ESDT frozen flag: " (processUint64 value);
          set (set_ed_Frozen x esdtData))
      ] (unknown "unknown ESDT data field: " key)
  end.

Definition processESDTDataMap (tokenName : JSONBytesFromString)
    (esdtDataMap : list (bytes * OJsonObject)) : res ESDTData :=
  let esdtData := mkESDTData tokenName [] zeroUint64 [] zeroUint64 in
  '(esdtData, firstInstance, firstInstanceLoaded, explicitInstances) ←
    for_range esdtDataMap esdtData_field (esdtData, zeroESDTInstance, false, []);
  mret (set_ed_Instances
    ((if firstInstanceLoaded : bool then [firstInstance] else []) ++ explicitInstances) esdtData).

Definition processESDTData (tokenName : JSONBytesFromString) (esdtDataRaw : OJsonObject) :
    res ESDTData :=
  match esdtDataRaw with
  | OString _ =>
      balance ← wrap "invalid ESDT balance: " (processBigInt esdtDataRaw bigIntUnsignedBytes);
      mret (mkESDTData tokenName [set_ei_Balance balance zeroESDTInstance] zeroUint64 [] zeroUint64)
  | OMap _ data => processESDTDataMap tokenName data
  | _ => fails "invalid JSON object for ESDT"
  end.

Definition tryProcessCheckESDTInstanceField (kvp : bytes * OJsonObject)
    (targetInstance : CheckESDTInstance) : res (option CheckESDTInstance) :=
  let '(key, value) := kvp in
  switch key [
    (bs "nonce",
      x ← wrap "invalid account nonce: " (processCheckUint64 value);
      mret (Some (set_cei_Nonce x targetInstance)));
    (bs "balance",
      x ← wrap "invalid ESDT balance: " (processCheckBigInt value bigIntUnsignedBytes);
      mret (Some (set_cei_Balance x targetInstance)));
    (bs "creator",
      x ← wrap "invalid ESDT NFT creator address: " (parseCheckBytes value);
      mret (Some (set_cei_Creator x targetInstance)));
    (bs "royalties",
      x ← wrap "invalid ESDT NFT royalties: " (processCheckUint64 value);
      if 10000 <? jcu_Value x then
        fails "invalid ESDT NFT royalties: value exceeds maximum allowed 10000"
      else mret (Some (set_cei_Royalties x targetInstance)));
    (bs "hash",
      x ← wrap "invalid ESDT NFT hash: " (parseCheckBytes value);
      mret (Some (set_cei_Hash x targetInstance)));
    (bs "uri",
      x ← wrap "invalid ESDT NFT URI: " (parseCheckBytes value);
      mret (Some (set_cei_Uri x targetInstance)));
    (bs "attributes",
      x ← wrap "invalid ESDT NFT attributes: " (parseCheckBytes value);
      mret (Some (set_cei_Attributes x targetInstance)))
  ] (mret None).

Definition processCheckESDTInstances : OJsonObject -> res (list CheckESDTInstance) :=
  parse_instances tryProcessCheckESDTInstanceField NewCheckESDTInstance.

Definition checkESDTData_field (kvp : bytes * OJsonObject)
    (acc : CheckESDTData * CheckESDTInstance * bool * list CheckESDTInstance) :
    res (CheckESDTData * CheckESDTInstance * bool * list CheckESDTInstance) :=
  let '(esdtData, firstInstance, firstInstanceLoaded, explicitInstances) := acc in
  let '(key, value) := kvp in
  loaded ← wrap "invalid account ESDT instance field: "
    (tryProcessCheckESDTInstanceField kvp firstInstance);
  match loaded with
  | Some firstInstance => mret (esdtData, firstInstance, true, explicitInstances)
  | None =>
      let set esdtData := mret (esdtData, firstInstance, firstInstanceLoaded, explicitInstances) in
      switch key [
        (bs "instances",
          x ← wrap "invalid account ESDT instances: " (processCheckESDTInstances value);
          mret (esdtData, firstInstance, firstInstanceLoaded, x));
        (bs "lastNonce",
          x ← wrap "invalid account ESDT lastNonce: " (processCheckUint64 value);
          set (set_ced_LastNonce x esdtData));
        (bs "roles",
          x ← wrap "invalid account ESDT roles: " (processStringList value);
          set (set_ced_Roles x esdtData));
        (bs "frozen",
          x ← wrap "invalid ESDT frozen flag: " (processCheckUint64 value);
          set (set_ced_Frozen x esdtData))
      ] (unknown "unknown ESDT data field: " key)
  end.

Definition processCheckESDTDataMap (tokenName : JSONBytesFromString)
    (esdtDataMap : list (bytes * OJsonObject)) : res CheckESDTData :=
  let esdtData := mkCheckESDTData tokenName [] zeroCheckUint64 [] zeroCheckUint64 in
  '(esdtData, firstInstance, firstInstanceLoaded, explicitInstances) ←
    for_range esdtDataMap checkESDTData_field (esdtData, NewCheckESDTInstance, false, []);
  mret (set_ced_Instances
    ((if firstInstanceLoaded : bool then [firstInstance] else []) ++ explicitInstances) esdtData).

(** A compact entry: the other fields of its instance are zero values, not
    unspecified ones. *)
Definition compactCheckInstance (balance : JSONCheckBigInt) : CheckESDTInstance :=
  mkCheckESDTInstance zeroCheckUint64 balance zeroCheckBytes zeroCheckUint64 zeroCheckBytes
    zeroCheckBytes zeroCheckBytes.

Definition processCheckESDTData (tokenName : JSONBytesFromString) (esdtDataRaw : OJsonObject) :
    res CheckESDTData :=
  match esdtDataRaw with
  | OString _ =>
      balance ← wrap "invalid ESDT balance: " (processCheckBigInt esdtDataRaw bigIntUnsignedBytes);
      mret (mkCheckESDTData tokenName [compactCheckInstance balance] zeroCheckUint64 []
        zeroCheckUint64)
  | OMap _ data => processCheckESDTDataMap tokenName data
  | _ => fails "invalid JSON object for ESDT"
  end.

(** ** Accounts ([parseAccounts.go], [parseAccountsCheck.go]) *)

Definition parseAccountAddress (addrRaw : bytes) : res JSONBytesFromString :=
  match addrRaw with
  | [] => fails "missing account address"
  | _ :: _ =>
      addrBytes ← InterpretString addrRaw;
      if negb (len addrBytes =? 32) then fails "account address is not 32 bytes in length"
      else mret (NewJSONBytesFromString addrBytes addrRaw)
  end.

Definition zeroAccount : Account :=
  mkAccount zeroBytes JSONUint64Zero false [] JSONUint64Zero JSONBigIntZero
    (NewJSONBytesFromString [] []) [] (NewJSONBytesFromString [] []) (NewJSONBytesFromString [] [])
    [] [].

Definition esdt_entry (esdtKvp : bytes * OJsonObject) : res ESDTData :=
  let '(key, value) := esdtKvp in
  tokenNameStr ← wrap "invalid esdt token identifer: " (InterpretString key);
  wrap "invalid esdt value: " (processESDTData (NewJSONBytesFromString tokenNameStr key) value).

Definition storage_entry (storageKvp : bytes * OJsonObject) : res StorageKeyValuePair :=
  let '(key, value) := storageKvp in
  byteKey ← wrap "invalid account storage key: " (InterpretString key);
  byteVal ← wrap "invalid account storage value: " (processSubTreeAsByteArray value);
  mret (mkStorageKeyValuePair (NewJSONBytesFromString byteKey key) byteVal).

Definition account_field (kvp : bytes * OJsonObject) (acct : Account) : res Account :=
  let '(key, value) := kvp in
  switch key [
    (bs "comment",
      x ← wrap "invalid account comment: " (parseString value); mret (set_acct_Comment x acct));
    (bs "shard",
      x ← wrap "invalid shard number: " (processUint64 value); mret (set_acct_Shard x acct));
    (bs "nonce",
      x ← instead "invalid account nonce" (processUint64 value); mret (set_acct_Nonce x acct));
    (bs "balance",
      x ← instead "invalid account balance" (processBigInt value bigIntUnsignedBytes);
      mret (set_acct_Balance x acct));
    (bs "esdt",
      kvs ← as_map "invalid ESDT map" value;
      x ← map_range kvs esdt_entry;
      mret (set_acct_ESDTData (acct_ESDTData acct ++ x) acct));
    (bs "username",
      x ← wrap "invalid account username: " (processStringAsByteArray value);
      mret (set_acct_Username x acct));
    (bs "storage",
      kvs ← as_map "invalid account storage" value;
      x ← map_range kvs storage_entry;
      mret (set_acct_Storage (acct_Storage acct ++ x) acct));
    (bs "code",
      x ← wrap "invalid account code: " (processStringAsByteArray value);
      mret (set_acct_Code x acct));
    (bs "owner",
      x ← wrap "invalid account owner: " (processStringAsByteArray value);
      mret (set_acct_Owner x acct));
    (bs "asyncCallData",
      x ← wrap "invalid asyncCallData string: " (parseString value);
      mret (set_acct_AsyncCallData x acct))
  ] (unknown "unknown account field: " key).

Definition processAccount (acctRaw : OJsonObject) : res Account :=
  kvs ← as_map "unmarshalled account object is not a map" acctRaw;
  for_range kvs account_field zeroAccount.

Definition account_entry (acctKVP : bytes * OJsonObject) : res Account :=
  acct ← processAccount (snd acctKVP);
  acctAddr ← parseAccountAddress (fst acctKVP);
  mret (set_acct_Address acctAddr acct).

Definition processAccountMap (acctMapRaw : OJsonObject) : res (list Account) :=
  kvs ← as_map "unmarshalled account map object is not a map" acctMapRaw;
  map_range kvs account_entry.

Definition zeroCheckAccount : CheckAccount :=
  mkCheckAccount zeroBytes [] JSONCheckUint64Unspecified JSONCheckBigIntUnspecified
    JSONCheckBytesUnspecified [] false false JSONCheckBytesUnspecified JSONCheckBytesUnspecified
    JSONCheckBytesUnspecified [] false false.

(** An entry under the key [+] allows more of them. *)
Definition check_esdt_entry (esdtKvp : bytes * OJsonObject) (acct : CheckAccount) :
    res CheckAccount :=
  let '(key, value) := esdtKvp in
  if text_eqb key (bs "+") then mret (set_ca_MoreESDTTokensAllowed true acct)
  else
    tokenNameStr ← wrap "invalid esdt token identifer: " (InterpretString key);
    esdtItem ← wrap "invalid esdt value: "
      (processCheckESDTData (NewJSONBytesFromString tokenNameStr key) value);
    mret (set_ca_CheckESDTData (ca_CheckESDTData acct ++ [esdtItem]) acct).

Definition check_storage_entry (storageKvp : bytes * OJsonObject) (acct : CheckAccount) :
    res CheckAccount :=
  let '(key, value) := storageKvp in
  if text_eqb key (bs "+") then mret (set_ca_MoreStorageAllowed true acct)
  else
    byteKey ← wrap "invalid account storage key: " (InterpretString key);
    byteVal ← wrap "invalid account storage value: " (parseCheckBytes value);
    mret (set_ca_CheckStorage (ca_CheckStorage acct ++
      [mkCheckStorageKeyValuePair (NewJSONBytesFromString byteKey key) byteVal]) acct).

Definition checkAccount_field (kvp : bytes * OJsonObject) (acct : CheckAccount) :
    res CheckAccount :=
  let '(key, value) := kvp in
  switch key [
    (bs "comment",
      x ← wrap "invalid check account comment: " (parseString value); mret (set_ca_Comment x acct));
    (bs "nonce",
      x ← instead "invalid account nonce" (processCheckUint64 value); mret (set_ca_Nonce x acct));
    (bs "balance",
      x ← instead "invalid account balance" (processCheckBigInt value bigIntUnsignedBytes);
      mret (set_ca_Balance x acct));
    (bs "esdt",
      let acct := set_ca_IgnoreESDT (IsStar value) acct in
      if IsStar value then mret acct
      else kvs ← as_map "invalid ESDT map" value; for_range kvs check_esdt_entry acct);
    (bs "username",
      x ← wrap "invalid account username: " (parseCheckBytes value);
      mret (set_ca_Username x acct));
    (bs "storage",
      let acct := set_ca_IgnoreStorage (IsStar value) acct in
      if IsStar value then mret acct
      else kvs ← as_map "invalid account storage" value; for_range kvs check_storage_entry acct);
    (bs "code",
      x ← wrap "invalid account code: " (parseCheckBytes value); mret (set_ca_Code x acct));
    (bs "owner",
      x ← wrap "invalid account owner: " (parseCheckBytes value); mret (set_ca_Owner x acct));
    (bs "asyncCallData",
      x ← wrap "invalid asyncCallData: " (parseCheckBytes value);
      mret (set_ca_AsyncCallData x acct))
  ] (unknown "unknown account field: " key).

Definition processCheckAccount (acctRaw : OJsonObject) : res CheckAccount :=
  kvs ← as_map "unmarshalled account object is not a map" acctRaw;
  for_range kvs checkAccount_field zeroCheckAccount.

Definition check_account_entry (acctKVP : bytes * OJsonObject) (checkAccounts : CheckAccounts) :
    res CheckAccounts :=
  let '(key, value) := acctKVP in
  if text_eqb key (bs "+") then mret (set_cas_MoreAccountsAllowed true checkAccounts)
  else
    acct ← processCheckAccount value;
    acctAddr ← parseAccountAddress key;
    mret (set_cas_Accounts (cas_Accounts checkAccounts ++ [set_ca_Address acctAddr acct])
      checkAccounts).

Definition processCheckAccountMap (acctMapRaw : OJsonObject) : res CheckAccounts :=
  kvs ← as_map "unmarshalled check account map object is not a map" acctMapRaw;
  for_range kvs check_account_entry (mkCheckAccounts [] false).

(** ** Logs and results ([parseLogs.go], [parseTxResult.go]) *)

Definition zeroLogEntry : LogEntry := mkLogEntry zeroCheckBytes zeroCheckBytes [] zeroCheckBytes.

Definition log_field (kvp : bytes * OJsonObject) (logEntry : LogEntry) : res LogEntry :=
  let '(key, value) := kvp in
  switch key [
    (bs "address",
      x ← wrap "invalid log address: " (parseCheckBytes value); mret (set_log_Address x logEntry));
    (bs "identifier",
      x ← wrap "invalid log identifier: " (parseCheckBytes value);
      mret (set_log_Identifier x logEntry));
    (bs "topics",
      x ← wrap "invalid log entry topics: " (parseCheckBytesList value);
      mret (set_log_Topics x logEntry));
    (bs "data",
      x ← wrap "invalid log data: " (parseCheckBytes value); mret (set_log_Data x logEntry))
  ] (unknown "unknown log field: " key).

Definition log_entry (logRaw : OJsonObject) : res LogEntry :=
  kvs ← as_map "unmarshalled log entry is not a map" logRaw;
  for_range kvs log_field zeroLogEntry.

Definition processLogList (logsRaw : OJsonObject) : res (list LogEntry) :=
  logList ← as_list "unmarshalled logs list is not a list" logsRaw;
  map_range logList log_entry.

Definition unspecifiedResult : TransactionResult :=
  mkTransactionResult [] JSONCheckBigIntUnspecified JSONCheckBytesUnspecified
    JSONCheckUint64Unspecified JSONCheckBigIntUnspecified true true [] [].

(** The error of [parseString] only says that [logs] is no hash. *)
Definition result_logs (value : OJsonObject) (blr : TransactionResult) : res TransactionResult :=
  let blr := set_res_LogsUnspecified false blr in
  if IsStar value then mret (set_res_LogsStar true blr)
  else
    let blr := set_res_LogsStar false blr in
    match parseString value with
    | Ret (inr logHash) => mret (set_res_LogHash logHash blr)
    | _ =>
        logs ← processLogList value;
        mret (set_res_Logs logs (set_res_LogHash [] blr))
    end.

Definition result_field (kvp : bytes * OJsonObject) (blr : TransactionResult) :
    res TransactionResult :=
  let '(key, value) := kvp in
  switch key [
    (bs "out",
      x ← wrap "invalid block result out: " (parseCheckBytesList value); mret (set_res_Out x blr));
    (bs "status",
      x ← wrap "invalid block result status: " (processCheckBigInt value bigIntSignedBytes);
      mret (set_res_Status x blr));
    (bs "message",
      x ← wrap "invalid block result message: " (parseCheckBytes value);
      mret (set_res_Message x blr));
    (bs "logs", result_logs value blr);
    (bs "gas",
      x ← wrap "invalid block result gas: " (processCheckUint64 value); mret (set_res_Gas x blr));
    (bs "refund",
      x ← wrap "invalid block result refund: " (processCheckBigInt value bigIntUnsignedBytes);
      mret (set_res_Refund x blr))
  ] (unknown "unknown tx result field: " key).

Definition processTxExpectedResult (blrRaw : OJsonObject) : res TransactionResult :=
  kvs ← as_map "unmarshalled block result is not a map" blrRaw;
  for_range kvs result_field unspecifiedResult.

(** ** Transactions ([parseTx.go]) *)

Definition zeroTransaction (txType : TransactionType) : Transaction :=
  mkTransaction txType zeroUint64 JSONBigIntZero None zeroBytes zeroBytes [] zeroBytes []
    zeroUint64 zeroUint64.

(** [if !allowed { return error }] *)
Definition only_if {A} (allowed : bool) (text : string) (m : res A) : res A :=
  if allowed then m else fails text.

Definition tx_field (txType : TransactionType) (kvp : bytes * OJsonObject) (blt : Transaction) :
    res Transaction :=
  let '(key, value) := kvp in
  switch key [
    (bs "nonce",
      x ← wrap "invalid transaction nonce: " (processUint64 value); mret (set_tx_Nonce x blt));
    (bs "from",
      only_if (HasSender txType) "`from` not allowed in transaction, it is always the zero address" (
        fromStr ← wrap "invalid transaction from: " (parseString value);
        x ← parseAccountAddress fromStr;
        mret (set_tx_From x blt)));
    (bs "to",
      toStr ← wrap "invalid transaction to: " (parseString value);
      if bool_decide (txType = ScDeploy) then
        only_if (len toStr =? 0) "transaction to field not allowed for scDeploy transactions"
          (mret blt)
      else x ← parseAccountAddress toStr; mret (set_tx_To x blt));
    (bs "function",
      x ← wrap "invalid transaction function: " (parseString value);
      only_if (HasFunction txType || (len x =? 0))
        "transaction function field not allowed in this context" (mret (set_tx_Function x blt)));
    (bs "value",
      only_if (HasValue txType) "`value` not allowed in this context" (
        x ← wrap "invalid transaction value: " (processBigInt value bigIntUnsignedBytes);
        mret (set_tx_Value x blt)));
    (bs "esdt",
      only_if (HasESDT txType) "`esdt` not allowed in this context" (
        x ← wrap "invalid transaction ESDT value: " (processTxESDT value);
        mret (set_tx_ESDTValue (Some x) blt)));
    (bs "arguments",
      x ← wrap "invalid transaction arguments: " (parseSubTreeList value);
      only_if (negb (bool_decide (txType = Transfer)) || (len x =? 0))
        "function arguments not allowed for transfer transactions"
        (mret (set_tx_Arguments x blt)));
    (bs "contractCode",
      x ← wrap "invalid transaction contract code: " (processStringAsByteArray value);
      only_if (bool_decide (txType = ScDeploy) || (len (jbs_Value x) =? 0))
        "transaction contractCode field only allowed int scDeploy transactions"
        (mret (set_tx_Code x blt)));
    (bs "gasPrice",
      only_if (HasGas txType) "`gasPrice` not allowed in this context" (
        x ← wrap "invalid transaction gasPrice: " (processUint64 value);
        mret (set_tx_GasPrice x blt)));
    (bs "gasLimit",
      only_if (HasGas txType) "`gasLimit` not allowed in this context" (
        x ← wrap "invalid transaction gasLimit: " (processUint64 value);
        mret (set_tx_GasLimit x blt)))
  ] (unknown "unknown field in transaction: " key).

Definition processTx (txType : TransactionType) (blrRaw : OJsonObject) : res Transaction :=
  kvs ← as_map "unmarshalled transaction is not a map" blrRaw;
  for_range kvs (tx_field txType) (zeroTransaction txType).

(** ** Blocks and new addresses ([parseBlockInfo.go], [parseNewAddresses.go]) *)

Definition zeroBlockInfo : BlockInfo := mkBlockInfo zeroUint64 zeroUint64 zeroUint64 zeroUint64 None.

Definition blockInfo_field (kvp : bytes * OJsonObject) (blockInfo : BlockInfo) : res BlockInfo :=
  let '(key, value) := kvp in
  switch key [
    (bs "blockTimestamp",
      x ← wrap "error parsing blockTimestamp: " (processUint64 value);
      mret (set_bi_BlockTimestamp x blockInfo));
    (bs "blockNonce",
      x ← wrap "error parsing blockNonce: " (processUint64 value);
      mret (set_bi_BlockNonce x blockInfo));
    (bs "blockRound",
      x ← wrap "error parsing blockRound: " (processUint64 value);
      mret (set_bi_BlockRound x blockInfo));
    (bs "blockEpoch",
      x ← wrap "error parsing blockEpoch: " (processUint64 value);
      mret (set_bi_BlockEpoch x blockInfo));
    (bs "blockRandomSeed",
      x ← wrap "error parsing blockEpoch: " (processSubTreeAsByteArray value);
      if negb (len (jbt_Value x) =? 48) then
        fail (ErrNew (bs "blockRandomSeed must be 48 bytes long. Actual length: " ++
          Sprintf_d (len (jbt_Value x))))
      else mret (set_bi_BlockRandomSeed (Some x) blockInfo))
  ] (unknown "unknown block info field: " key).

Definition processBlockInfo (blockInfoRaw : OJsonObject) : res BlockInfo :=
  kvs ← as_map "unmarshalled block info object is not a map" blockInfoRaw;
  for_range kvs blockInfo_field zeroBlockInfo.

Definition zeroNewAddressMock : NewAddressMock := mkNewAddressMock zeroBytes zeroUint64 zeroBytes.

Definition nam_field (kvp : bytes * OJsonObject) (namEntry : NewAddressMock) : res NewAddressMock :=
  let '(key, value) := kvp in
  switch key [
    (bs "creatorAddress",
      caStr ← wrap "creatorAddress is not a json string: " (parseString value);
      x ← parseAccountAddress caStr;
      mret (set_nam_CreatorAddress x namEntry));
    (bs "creatorNonce",
      x ← instead "invalid creatorNonce" (processUint64 value);
      mret (set_nam_CreatorNonce x namEntry));
    (bs "newAddress",
      naStr ← wrap "newAddress is not a json string: " (parseString value);
      x ← parseAccountAddress naStr;
      mret (set_nam_NewAddress x namEntry))
  ] (unknown "unknown nam field: " key).

Definition nam_entry (namRaw : OJsonObject) : res NewAddressMock :=
  kvs ← as_map "new address mock entry is not a map" namRaw;
  for_range kvs nam_field zeroNewAddressMock.

Definition processNewAddressMocks (namsRaw : OJsonObject) : res (list NewAddressMock) :=
  namList ← as_list "newAddresses list is not a list" namsRaw;
  map_range namList nam_entry.

(** ** Steps and scenarios ([parseScenario.go]) *)

(** The key [step] is read before the others. *)
Definition ext_field (kvp : bytes * OJsonObject) (step : ExternalStepsStep) :
    res ExternalStepsStep :=
  let '(key, value) := kvp in
  switch key [
    (bs "step", mret step);
    (bs "comment",
      x ← wrap "bad externalSteps step comment: " (parseString value);
      mret (set_ext_Comment x step));
    (bs "path",
      x ← wrap "bad externalSteps path: " (parseString value); mret (set_ext_Path x step))
  ] (unknown "invalid externalSteps field: " key).

Definition setState_field (kvp : bytes * OJsonObject) (step : SetStateStep) : res SetStateStep :=
  let '(key, value) := kvp in
  switch key [
    (bs "step", mret step);
    (bs "comment",
      x ← wrap "bad set state step comment: " (parseString value); mret (set_set_Comment x step));
    (bs "accounts",
      x ← wrap "cannot parse set state step: " (processAccountMap value);
      mret (set_set_Accounts x step));
    (bs "newAddresses",
      x ← wrap "error parsing new addresses: " (processNewAddressMocks value);
      mret (set_set_NewAddressMocks x step));
    (bs "previousBlockInfo",
      x ← wrap "error parsing previousBlockInfo: " (processBlockInfo value);
      mret (set_set_PreviousBlockInfo (Some x) step));
    (bs "currentBlockInfo",
      x ← wrap "error parsing currentBlockInfo: " (processBlockInfo value);
      mret (set_set_CurrentBlockInfo (Some x) step));
    (bs "blockHashes",
      x ← wrap "error parsing block hashes: " (parseByteArrayList value);
      mret (set_set_BlockHashes x step))
  ] (unknown "invalid set state field: " key).

Definition checkState_field (kvp : bytes * OJsonObject) (step : CheckStateStep) :
    res CheckStateStep :=
  let '(key, value) := kvp in
  switch key [
    (bs "step", mret step);
    (bs "comment",
      x ← wrap "bad check state step comment: " (parseString value);
      mret (set_chk_Comment x step));
    (bs "accounts",
      x ← wrap "cannot parse check state step: " (processCheckAccountMap value);
      mret (set_chk_CheckAccounts (Some x) step))
  ] (unknown "invalid check state field: " key).

Definition dumpState_field (kvp : bytes * OJsonObject) (step : DumpStateStep) : res DumpStateStep :=
  let '(key, value) := kvp in
  switch key [
    (bs "step", mret step);
    (bs "comment",
      x ← wrap "bad check state step comment: " (parseString value);
      mret (set_dump_Comment x step))
  ] (unknown "invalid check state field: " key).

(** [expect] before [tx] reads the type of no transaction, which panics. *)
Definition txStep_field (txType : TransactionType) (kvp : bytes * OJsonObject) (step : TxStep) :
    res TxStep :=
  let '(key, value) := kvp in
  switch key [
    (bs "step", mret step);
    (bs "txId",
      x ← wrap "bad tx step id: " (parseString value); mret (set_step_TxIdent x step));
    (bs "comment",
      x ← wrap "bad tx step comment: " (parseString value); mret (set_step_Comment x step));
    (bs "tx",
      x ← wrap "cannot parse tx step transaction: " (processTx txType value);
      mret (set_step_Tx (Some x) step));
    (bs "expect",
      tx ← deref_res (step_Tx step);
      if negb (IsSmartContractTx (tx_Type tx)) then
        fail (ErrNew (bs "no expected result allowed for step of type " ++
          TxStepTypeName (tx_Type tx)))
      else
        x ← wrap "cannot parse tx expected result: " (processTxExpectedResult value);
        mret (set_step_ExpectedResult (Some x) step))
  ] (unknown "invalid tx step field: " key).

Definition parseTxStep (txType : TransactionType) (stepMap : list (bytes * OJsonObject)) :
    res TxStep :=
  for_range stepMap (txStep_field txType) (mkTxStep [] [] None None).

Definition step_type (kvp : bytes * OJsonObject) (stepTypeStr : bytes) : res bytes :=
  let '(key, value) := kvp in
  if text_eqb key (bs "step") then wrap "step type not a string: " (parseString value)
  else mret stepTypeStr.

Definition processScenarioStep (stepObj : OJsonObject) : res Step :=
  stepMap ← as_map "unmarshalled step object is not a map" stepObj;
  stepTypeStr ← for_range stepMap step_type [];
  let tx txType := step ← parseTxStep txType stepMap; mret (TxSteps step) in
  switch stepTypeStr [
    ([], fails "no step type field provided");
    (StepNameExternalSteps,
      step ← for_range stepMap ext_field (mkExternalStepsStep [] []); mret (ExternalSteps step));
    (StepNameSetState,
      step ← for_range stepMap setState_field (mkSetStateStep [] [] None None [] []);
      mret (SetState step));
    (StepNameCheckState,
      step ← for_range stepMap checkState_field (mkCheckStateStep [] None);
      mret (CheckState step));
    (StepNameDumpState,
      step ← for_range stepMap dumpState_field (mkDumpStateStep []); mret (DumpState step));
    (StepNameScCall, tx ScCall);
    (StepNameScDeploy, tx ScDeploy);
    (StepNameScQuery, tx ScQuery);
    (StepNameTransfer, tx Transfer);
    (StepNameValidatorReward, tx ValidatorReward)
  ] (unknown "unknown step type: " stepTypeStr).

Definition processScenarioStepList (obj : OJsonObject) : res (list Step) :=
  items ← as_list "steps not a JSON list" obj; map_range items processScenarioStep.

Definition parseGasSchedule (value : OJsonObject) : res GasSchedule :=
  gasScheduleStr ← wrap "gasSchedule type not a string: " (parseString value);
  switch gasScheduleStr [
    (bs "default", mret GasScheduleDefault);
    (bs "dummy", mret GasScheduleDummy);
    (bs "v1", mret GasScheduleV1);
    (bs "v2", mret GasScheduleV2);
    (bs "v3", mret GasScheduleV3)
  ] (unknown "invalid gasSchedule: " gasScheduleStr).

Definition scenario_field (kvp : bytes * OJsonObject) (scenario : Scenario) : res Scenario :=
  let '(key, value) := kvp in
  switch key [
    (bs "name",
      x ← wrap "bad scenario name: " (parseString value); mret (set_sc_Name x scenario));
    (bs "comment",
      x ← wrap "bad scenario comment: " (parseString value); mret (set_sc_Comment x scenario));
    (bs "checkGas",
      match value with
      | OBool b => mret (set_sc_CheckGas b scenario)
      | _ => fails "scenario checkGas flag is not boolean"
      end);
    (bs "gasSchedule",
      x ← wrap "bad scenario gasSchedule: " (parseGasSchedule value);
      mret (set_sc_GasSchedule x scenario));
    (bs "steps",
      x ← wrap "error processing steps: " (processScenarioStepList value);
      mret (set_sc_Steps x scenario))
  ] (unknown "unknown scenario field: " key).

(** The tree of a text; a text of blanks only has none. *)
Definition parse_json (jsonString : bytes) : res (option OJsonObject) :=
  match ParseOrderedJSON jsonString with
  | Ret (_, Some err) => fail err
  | Ret (jobj, None) => mret jobj
  | Panic => Panic
  | OutOfFuel => OutOfFuel
  end.

Definition top_map (text : string) (jobj : option OJsonObject) : res (list (bytes * OJsonObject)) :=
  match jobj with Some jobj => as_map text jobj | None => fails text end.

Definition ParseScenarioFile (jsonString : bytes) : res Scenario :=
  jobj ← parse_json jsonString;
  topMap ← top_map "unmarshalled test top level object is not a map" jobj;
  for_range topMap scenario_field (mkScenario [] [] true GasScheduleDefault []).

Definition ParseScenarioStep (jsonSnippet : bytes) : res Step :=
  jobj ← parse_json jsonSnippet;
  match jobj with
  | Some jobj => processScenarioStep jobj
  | None => fails "unmarshalled step object is not a map"
  end.

(** ** The older tests ([parseBlock.go], [parseTest.go]) *)

(** The first key [to] of a map; it has no other. *)
Definition txIsCreate (txRaw : OJsonObject) : res bool :=
  kvs ← as_map "unmarshalled block transaction is not a map" txRaw;
  match List.find (fun kvp => text_eqb (fst kvp) (bs "to")) kvs with
  | Some (_, value) =>
      toStr ← wrap "invalid block transaction to: " (parseString value);
      mret (len toStr =? 0)
  | None => mret false
  end.

Definition block_tx (trRaw : OJsonObject) : res Transaction :=
  isCreate ← txIsCreate trRaw;
  processTx (if isCreate : bool then ScDeploy else ScCall) trRaw.

Definition blockHeader_field (kvp : bytes * OJsonObject) (blh : BlockHeader) : res BlockHeader :=
  let '(key, value) := kvp in
  switch key [
    (bs "gasLimit",
      x ← wrap "invalid block header gasLimit: " (processBigInt value bigIntUnsignedBytes);
      mret (set_bh_GasLimit x blh));
    (bs "number",
      x ← wrap "invalid block header number: " (processBigInt value bigIntUnsignedBytes);
      mret (set_bh_Number x blh));
    (bs "difficulty",
      x ← wrap "invalid block header difficulty: " (processBigInt value bigIntUnsignedBytes);
      mret (set_bh_Difficulty x blh));
    (bs "timestamp",
      x ← wrap "invalid block header timestamp: " (processUint64 value);
      mret (set_bh_Timestamp x blh));
    (bs "coinbase",
      x ← wrap "invalid block header coinbase: " (processBigInt value bigIntUnsignedBytes);
      mret (set_bh_Beneficiary x blh))
  ] (unknown "unknown block header field: " key).

Definition processBlockHeader (blhRaw : OJsonObject) : res BlockHeader :=
  kvs ← as_map "unmarshalled block header is not a map" blhRaw;
  for_range kvs blockHeader_field
    (mkBlockHeader zeroBigInt zeroBigInt zeroBigInt zeroBigInt zeroUint64).

Definition block_field (kvp : bytes * OJsonObject) (bl : Block) : res Block :=
  let '(key, value) := kvp in
  switch key [
    (bs "results",
      items ← as_list "unmarshalled block results object is not a list" value;
      x ← map_range items processTxExpectedResult;
      mret (set_bl_Results (bl_Results bl ++ x) bl));
    (bs "transactions",
      items ← as_list "unmarshalled block transactions object is not a list" value;
      x ← map_range items block_tx;
      mret (set_bl_Transactions (bl_Transactions bl ++ x) bl));
    (bs "blockHeader",
      x ← processBlockHeader value; mret (set_bl_BlockHeader (Some x) bl))
  ] (unknown "unknown block field: " key).

Definition processBlock (blockRaw : OJsonObject) : res Block :=
  kvs ← as_map "unmarshalled block object is not a map" blockRaw;
  bl ← for_range kvs block_field (mkBlock [] [] None);
  if negb (len (bl_Results bl) =? len (bl_Transactions bl)) then
    fails "mismatched number of blocks and transactions"
  else mret bl.

Definition test_field (kvp : bytes * OJsonObject) (test : Test) : res Test :=
  let '(key, value) := kvp in
  switch key [
    (bs "checkGas",
      match value with
      | OBool b => mret (set_test_CheckGas b test)
      | _ => fails "unmarshalled test checkGas flag is not boolean"
      end);
    (bs "pre",
      x ← wrap "cannot parse pre: " (processAccountMap value); mret (set_test_Pre x test));
    (bs "blocks",
      items ← as_list "unmarshalled blocks object is not a list" value;
      x ← map_range items processBlock;
      mret (set_test_Blocks (test_Blocks test ++ x) test));
    (bs "network",
      x ← wrap "test network value not a string: " (parseString value);
      mret (set_test_Network x test));
    (bs "blockHashes",
      x ← wrap "unmarshalled blockHashes object is not a list: " (parseByteArrayList value);
      mret (set_test_BlockHashes x test));
    (bs "postState",
      x ← wrap "cannot parse postState: " (processCheckAccountMap value);
      mret (set_test_PostState (Some x) test))
  ] (unknown "unknown test: " key).

Definition processTest (testObj : OJsonObject) : res Test :=
  kvs ← as_map "unmarshalled test object is not a map" testObj;
  for_range kvs test_field (mkTest [] true [] [] [] [] None).

Definition ParseTestFile (jsonString : bytes) : res (list Test) :=
  jobj ← parse_json jsonString;
  topMap ← top_map "unmarshalled test top level object is not a map" jobj;
  map_range topMap (fun kvp => t ← processTest (snd kvp); mret (set_test_TestName (fst kvp) t)).

End Parse.
