(* ===== verification/ScenWrite.v ===== *)
(** Writing scenarios and the older tests ([src/scenarios/json/write]): from the
    structures of [ScenModel] to an ordered JSON tree.

    A tree that is nil may be put in a map, where it is printed as nothing; in a list,
    printing it panics.  Here that panic comes when the list is made. *)
From S2P Require Import Prelude Errors Types State OrderedJson GoText Fallible ScenExpr ScenModel.
Import mj.

#[local] Open Scope Z_scope.

Definition ojmap (m : OJsonMap) : OJsonObject := OMap (KeySet m) (OrderedKV m).

(** [if condition { m.Put(key, value) }] *)
Definition put_if (condition : bool) (key : string) (value : OJsonObject) (m : OJsonMap) :
    OJsonMap :=
  if condition then Put (bs key) value m else m.

Definition put (key : string) : OJsonObject -> OJsonMap -> OJsonMap := put_if true key.

(** [if x != nil { m.Put(key, value(x)) }] *)
Definition written_some {A} (value : A -> res OJsonObject) (o : option A) :
    res (option OJsonObject) :=
  match o with
  | Some x => v ← value x; mret (Some v)
  | None => mret None
  end.

Definition put_opt (key : string) (o : option OJsonObject) (m : OJsonMap) : OJsonMap :=
  match o with Some v => put key v m | None => m end.

Definition given {A} (l : list A) : bool := 0 <? len l.

(** ** Values ([writeCommon.go]) *)

Definition stringToOJ (str : bytes) : OJsonObject := OString str.
Definition bigIntToOJ (i : JSONBigInt) : OJsonObject := OString (jbi_Original i).
Definition checkBigIntToOJ (i : JSONCheckBigInt) : OJsonObject := OString (jcbi_Original i).
Definition uint64ToOJ (i : JSONUint64) : OJsonObject := OString (ju_Original i).
Definition checkUint64ToOJ (i : JSONCheckUint64) : OJsonObject := OString (jcu_Original i).

Definition bytesFromStringToString (b : JSONBytesFromString) : bytes :=
  if negb (given (jbs_Original b)) && given (jbs_Value b) then hex_EncodeToString (jbs_Value b)
  else jbs_Original b.

Definition bytesFromStringToOJ (b : JSONBytesFromString) : OJsonObject :=
  OString (bytesFromStringToString b).

Definition bytesFromTreeToOJ (b : JSONBytesFromTree) : OJsonObject :=
  if OriginalEmpty b then OString (hex_EncodeToString (jbt_Value b))
  else default ONil (jbt_Original b).

Definition checkBytesToOJ (checkBytes : JSONCheckBytes) : OJsonObject :=
  if CheckBytes_OriginalEmpty checkBytes && given (jcb_Value checkBytes) then
    OString (hex_EncodeToString (jcb_Value checkBytes))
  else default ONil (jcb_Original checkBytes).

(** An item of a list that is printed. *)
Definition item (obj : OJsonObject) : res OJsonObject :=
  match obj with ONil => Panic | _ => mret obj end.

Definition blockHashesToOJ (blockHashes : list JSONBytesFromString) : OJsonObject :=
  OList (map bytesFromStringToOJ blockHashes).

Definition logToOJ (logEntry : LogEntry) : res OJsonObject :=
  topicsList ← map_range (log_Topics logEntry) (fun c => item (checkBytesToOJ c));
  mret (ojmap
    (put "data" (checkBytesToOJ (log_Data logEntry))
    (put "topics" (OList topicsList)
    (put "identifier" (checkBytesToOJ (log_Identifier logEntry))
    (put "address" (checkBytesToOJ (log_Address logEntry)) NewMap))))).

Definition logsToOJ (logEntries : list LogEntry) : res OJsonObject :=
  logList ← map_range logEntries logToOJ; mret (OList logList).

Definition LogToString (logEntry : LogEntry) : res bytes :=
  logOJ ← logToOJ logEntry; mret (JSONString logOJ).

(** The value of a case that may not be written. *)
Definition when_written (condition : bool) (value : res OJsonObject) : res OJsonObject :=
  if condition then value else mret (OString []).

Definition resultToOJ (result : TransactionResult) : res OJsonObject :=
  outList ← map_range (res_Out result) (fun c => item (checkBytesToOJ c));
  message ← when_written (negb (jcb_Unspecified (res_Message result)))
    (mret (checkBytesToOJ (res_Message result)));
  logs ← when_written (negb (res_LogsUnspecified result))
    (if res_LogsStar result then mret (stringToOJ (bs "*"))
     else if given (res_LogHash result) then mret (stringToOJ (res_LogHash result))
     else logsToOJ (res_Logs result));
  mret (ojmap
    (put_if (negb (jcbi_Unspecified (res_Refund result))) "refund" (checkBigIntToOJ (res_Refund result))
    (put_if (negb (jcu_Unspecified (res_Gas result))) "gas" (checkUint64ToOJ (res_Gas result))
    (put_if (negb (res_LogsUnspecified result)) "logs" logs
    (put_if (negb (jcb_Unspecified (res_Message result))) "message" message
    (put_if (negb (jcbi_Unspecified (res_Status result))) "status" (checkBigIntToOJ (res_Status result))
    (put "out" (OList outList) NewMap))))))).

(** Of the two digits of a hexadecimal byte, without a sign. *)
Definition Text16 (i : Z) : bytes :=
  let encoded := hex_EncodeToString (Bytes i) in
  match encoded with
  | d :: rest => if Byte.eqb d Byte.x30 then rest else encoded
  | [] => bs "0"
  end.

Definition intToString (i : option Z) : bytes :=
  match i with
  | None => []
  | Some i =>
      if i =? 0 then bs "0x00"
      else
        let str := Text16 i in
        let str := if len str mod 2 =? 0 then str else bs "0" ++ str in
        (if i <? 0 then bs "-" else []) ++ bs "0x" ++ str
  end.

(** ** Tokens ([writeESDT.go], [writeESDTCheck.go]) *)

Definition esdtTxDataToOJ (esdtItem : ESDTTxData) : OJsonObject :=
  ojmap
    (put_if (given (jbi_Original (etx_Value esdtItem))) "value" (bigIntToOJ (etx_Value esdtItem))
    (put_if (given (ju_Original (etx_Nonce esdtItem))) "nonce" (uint64ToOJ (etx_Nonce esdtItem))
    (put_if (given (jbs_Original (etx_TokenIdentifier esdtItem))) "tokenIdentifier"
      (bytesFromStringToOJ (etx_TokenIdentifier esdtItem)) NewMap))).

Definition appendESDTInstanceToOJ (i : ESDTInstance) (targetOj : OJsonMap) : res OJsonMap :=
  uri ← when_written (given (jbt_Value (ei_Uri i))) (mret (bytesFromTreeToOJ (ei_Uri i)));
  mret
    (put_if (given (jbs_Original (ei_Attributes i))) "attributes" (bytesFromStringToOJ (ei_Attributes i))
    (put_if (given (jbt_Value (ei_Uri i))) "uri" uri
    (put_if (given (jbs_Original (ei_Hash i))) "hash" (bytesFromStringToOJ (ei_Hash i))
    (put_if (given (ju_Original (ei_Royalties i))) "royalties" (uint64ToOJ (ei_Royalties i))
    (put_if (given (jbs_Original (ei_Creator i))) "creator" (bytesFromStringToOJ (ei_Creator i))
    (put_if (given (jbi_Original (ei_Balance i))) "balance" (bigIntToOJ (ei_Balance i))
    (put_if (given (ju_Original (ei_Nonce i))) "nonce" (uint64ToOJ (ei_Nonce i)) targetOj))))))).

Definition isCompactESDT (esdtItem : ESDTData) : bool :=
  match ed_Instances esdtItem with
  | [instance] =>
      negb (given (ju_Original (ei_Nonce instance))) && negb (given (ed_Roles esdtItem)) &&
      negb (given (ju_Original (ed_Frozen esdtItem)))
  | _ => false
  end.

(** One instance in the map itself, several in a list. *)
Definition put_instances {A} (append : A -> OJsonMap -> res OJsonMap) (instances : list A)
    (m : OJsonMap) : res OJsonMap :=
  match instances with
  | [instance] => append instance m
  | _ =>
      convertedList ← map_range instances (fun instance =>
        instanceOJ ← append instance NewMap; mret (ojmap instanceOJ));
      mret (put "instances" (OList convertedList) m)
  end.

Definition esdtItemToOJ (esdtItem : ESDTData) : res OJsonObject :=
  match isCompactESDT esdtItem, ed_Instances esdtItem with
  | true, instance :: _ => mret (bigIntToOJ (ei_Balance instance))
  | _, instances =>
      m ← put_instances appendESDTInstanceToOJ instances NewMap;
      mret (ojmap
        (put_if (given (ju_Original (ed_Frozen esdtItem))) "frozen" (uint64ToOJ (ed_Frozen esdtItem))
        (put_if (given (ed_Roles esdtItem)) "roles" (OList (map stringToOJ (ed_Roles esdtItem)))
        (put_if (given (ju_Original (ed_LastNonce esdtItem))) "lastNonce"
          (uint64ToOJ (ed_LastNonce esdtItem)) m))))
  end.

(** [for _, x := range l { m.Put(key(x), value(x)) }] *)
Definition put_all {A} (key : A -> bytes) (value : A -> res OJsonObject) (l : list A) (m : OJsonMap) :
    res OJsonMap :=
  for_range l (fun x m => v ← value x; mret (Put (key x) v m)) m.

Definition esdtDataToOJ (esdtItems : list ESDTData) : res OJsonObject :=
  m ← put_all (fun e => jbs_Original (ed_TokenIdentifier e)) esdtItemToOJ esdtItems NewMap;
  mret (ojmap m).

(** [uri] is given the tree of the creator. *)
Definition appendCheckESDTInstanceToOJ (i : CheckESDTInstance) (targetOj : OJsonMap) : res OJsonMap :=
  let specified (c : JSONCheckBytes) := negb (jcb_Unspecified c) && given (jcb_Value c) in
  let written c value := when_written (specified c) (mret (checkBytesToOJ value)) in
  creator ← written (cei_Creator i) (cei_Creator i);
  hash ← written (cei_Hash i) (cei_Hash i);
  uri ← written (cei_Uri i) (cei_Creator i);
  attributes ← written (cei_Attributes i) (cei_Attributes i);
  mret
    (put_if (specified (cei_Attributes i)) "attributes" attributes
    (put_if (specified (cei_Uri i)) "uri" uri
    (put_if (specified (cei_Hash i)) "hash" hash
    (put_if (negb (jcu_Unspecified (cei_Royalties i)) && given (jcu_Original (cei_Royalties i)))
      "royalties" (checkUint64ToOJ (cei_Royalties i))
    (put_if (specified (cei_Creator i)) "creator" creator
    (put_if (given (jcbi_Original (cei_Balance i))) "balance" (checkBigIntToOJ (cei_Balance i))
    (put_if (given (jcu_Original (cei_Nonce i))) "nonce" (checkUint64ToOJ (cei_Nonce i))
      targetOj))))))).

Definition isCompactCheckESDT (esdtItem : CheckESDTData) : bool :=
  match ced_Instances esdtItem with
  | [instance] =>
      negb (given (jcu_Original (cei_Nonce instance))) && negb (given (ced_Roles esdtItem)) &&
      negb (given (jcu_Original (ced_Frozen esdtItem)))
  | _ => false
  end.

Definition checkESDTItemToOJ (esdtItem : CheckESDTData) : res OJsonObject :=
  match isCompactCheckESDT esdtItem, ced_Instances esdtItem with
  | true, instance :: _ => mret (checkBigIntToOJ (cei_Balance instance))
  | _, instances =>
      m ← put_instances appendCheckESDTInstanceToOJ instances NewMap;
      mret (ojmap
        (put_if (given (jcu_Original (ced_Frozen esdtItem))) "frozen" (checkUint64ToOJ (ced_Frozen esdtItem))
        (put_if (given (ced_Roles esdtItem)) "roles" (OList (map stringToOJ (ced_Roles esdtItem)))
        (put_if (given (jcu_Original (ced_LastNonce esdtItem))) "lastNonce"
          (checkUint64ToOJ (ced_LastNonce esdtItem)) m))))
  end.

Definition checkESDTDataToOJ (esdtItems : list CheckESDTData) (moreESDTTokensAllowed : bool) :
    res OJsonObject :=
  m ← put_all (fun e => jbs_Original (ced_TokenIdentifier e)) checkESDTItemToOJ esdtItems NewMap;
  mret (ojmap (put_if moreESDTTokensAllowed "+" (stringToOJ []) m)).

(** ** Accounts ([writeAccount.go]) *)

Definition accountToOJ (account : Account) : res OJsonObject :=
  esdt ← when_written (given (acct_ESDTData account)) (esdtDataToOJ (acct_ESDTData account));
  storageOJ ← put_all (fun st => bytesFromStringToString (st_Key st))
    (fun st => mret (bytesFromTreeToOJ (st_Value st))) (acct_Storage account) NewMap;
  mret (ojmap
    (put_if (given (acct_AsyncCallData account)) "asyncCallData" (stringToOJ (acct_AsyncCallData account))
    (put_if (given (jbs_Value (acct_Owner account))) "owner" (bytesFromStringToOJ (acct_Owner account))
    (put "code" (bytesFromStringToOJ (acct_Code account))
    (put "storage" (ojmap storageOJ)
    (put_if (given (jbs_Value (acct_Username account))) "username"
      (bytesFromStringToOJ (acct_Username account))
    (put_if (given (acct_ESDTData account)) "esdt" esdt
    (put "balance" (bigIntToOJ (acct_Balance account))
    (put "nonce" (uint64ToOJ (acct_Nonce account))
    (put_if (given (acct_Comment account)) "comment" (stringToOJ (acct_Comment account))
      NewMap)))))))))).

Definition AccountsToOJ (accounts : list Account) : res OJsonObject :=
  m ← put_all (fun a => bytesFromStringToString (acct_Address a)) accountToOJ accounts NewMap;
  mret (ojmap m).

Definition checkStorageToOJ (account : CheckAccount) : res OJsonObject :=
  if ca_IgnoreStorage account then mret (stringToOJ (bs "*"))
  else
    storageOJ ← put_all (fun st => bytesFromStringToString (cst_Key st))
      (fun st => mret (checkBytesToOJ (cst_CheckValue st))) (ca_CheckStorage account) NewMap;
    mret (ojmap (put_if (ca_MoreStorageAllowed account) "+" (stringToOJ []) storageOJ)).

Definition checkAccountToOJ (account : CheckAccount) : res OJsonObject :=
  let specified (c : JSONCheckBytes) := negb (jcb_Unspecified c) in
  let written c := when_written (specified c) (mret (checkBytesToOJ c)) in
  let has_esdt := ca_IgnoreESDT account || given (ca_CheckESDTData account) in
  esdt ← when_written has_esdt
    (if ca_IgnoreESDT account then mret (stringToOJ (bs "*"))
     else checkESDTDataToOJ (ca_CheckESDTData account) (ca_MoreESDTTokensAllowed account));
  username ← written (ca_Username account);
  storage ← checkStorageToOJ account;
  code ← written (ca_Code account);
  owner ← written (ca_Owner account);
  asyncCallData ← written (ca_AsyncCallData account);
  mret (ojmap
    (put_if (specified (ca_AsyncCallData account)) "asyncCallData" asyncCallData
    (put_if (specified (ca_Owner account)) "owner" owner
    (put_if (specified (ca_Code account)) "code" code
    (put "storage" storage
    (put_if (specified (ca_Username account)) "username" username
    (put_if has_esdt "esdt" esdt
    (put_if (negb (jcbi_Unspecified (ca_Balance account))) "balance" (checkBigIntToOJ (ca_Balance account))
    (put_if (negb (jcu_Unspecified (ca_Nonce account))) "nonce" (checkUint64ToOJ (ca_Nonce account))
    (put_if (given (ca_Comment account)) "comment" (stringToOJ (ca_Comment account))
      NewMap)))))))))).

(** A nil pointer is dereferenced. *)
Definition checkAccountsToOJ (checkAccounts : option CheckAccounts) : res OJsonObject :=
  checkAccounts ← deref_res checkAccounts;
  m ← put_all (fun a => bytesFromStringToString (ca_Address a)) checkAccountToOJ
    (cas_Accounts checkAccounts) NewMap;
  mret (ojmap (put_if (cas_MoreAccountsAllowed checkAccounts) "+" (stringToOJ []) m)).

(** ** Scenarios ([writeScenario.go]) *)

Definition transactionToScenarioOJ (tx : Transaction) : res OJsonObject :=
  let type := tx_Type tx in
  argList ← map_range (tx_Arguments tx) (fun a => item (bytesFromTreeToOJ a));
  mret (ojmap
    (put_if (HasGas type) "gasPrice" (uint64ToOJ (tx_GasPrice tx))
    (put_if (HasGas type) "gasLimit" (uint64ToOJ (tx_GasLimit tx))
    (put_if (HasFunction type || bool_decide (type = ScDeploy)) "arguments" (OList argList)
    (put_if (bool_decide (type = ScDeploy)) "contractCode" (bytesFromStringToOJ (tx_Code tx))
    (put_if (HasFunction type) "function" (stringToOJ (tx_Function tx))
    (put_opt "esdt" (option_map esdtTxDataToOJ (tx_ESDTValue tx))
    (put_if (HasValue type) "value" (bigIntToOJ (tx_Value tx))
    (put_if (HasReceiver type) "to" (bytesFromStringToOJ (tx_To tx))
    (put_if (HasSender type) "from" (bytesFromStringToOJ (tx_From tx)) NewMap)))))))))).

Definition newAddressMockToOJ (namEntry : NewAddressMock) : OJsonObject :=
  ojmap
    (put "newAddress" (bytesFromStringToOJ (nam_NewAddress namEntry))
    (put "creatorNonce" (uint64ToOJ (nam_CreatorNonce namEntry))
    (put "creatorAddress" (bytesFromStringToOJ (nam_CreatorAddress namEntry)) NewMap))).

Definition newAddressMocksToOJ (newAddressMocks : list NewAddressMock) : OJsonObject :=
  OList (map newAddressMockToOJ newAddressMocks).

Definition blockInfoToOJ (blockInfo : BlockInfo) : res OJsonObject :=
  seed ← written_some (fun b => mret (bytesFromTreeToOJ b)) (bi_BlockRandomSeed blockInfo);
  mret (ojmap
    (put_opt "blockRandomSeed" seed
    (put_if (given (ju_Original (bi_BlockEpoch blockInfo))) "blockEpoch" (uint64ToOJ (bi_BlockEpoch blockInfo))
    (put_if (given (ju_Original (bi_BlockRound blockInfo))) "blockRound" (uint64ToOJ (bi_BlockRound blockInfo))
    (put_if (given (ju_Original (bi_BlockNonce blockInfo))) "blockNonce" (uint64ToOJ (bi_BlockNonce blockInfo))
    (put_if (given (ju_Original (bi_BlockTimestamp blockInfo))) "blockTimestamp"
      (uint64ToOJ (bi_BlockTimestamp blockInfo)) NewMap)))))).

Definition gasScheduleToOJ (gasSchedule : GasSchedule) : OJsonObject :=
  match gasSchedule with
  | GasScheduleDefault => stringToOJ (bs "default")
  | GasScheduleDummy => stringToOJ (bs "dummy")
  | GasScheduleV1 => stringToOJ (bs "v1")
  | GasScheduleV2 => stringToOJ (bs "v2")
  | GasScheduleV3 => stringToOJ (bs "v3")
  end.

Definition stepToOJ (generalStep : Step) : res OJsonObject :=
  name ← StepTypeName generalStep;
  let stepOJ := put "step" (stringToOJ name) NewMap in
  let commented comment := put_if (given comment) "comment" (stringToOJ comment) in
  match generalStep with
  | ExternalSteps step =>
      mret (ojmap (put "path" (stringToOJ (ext_Path step)) (commented (ext_Comment step) stepOJ)))
  | SetState step =>
      accounts ← when_written (given (set_Accounts step)) (AccountsToOJ (set_Accounts step));
      previous ← written_some blockInfoToOJ (set_PreviousBlockInfo step);
      current ← written_some blockInfoToOJ (set_CurrentBlockInfo step);
      mret (ojmap
        (put_if (given (set_BlockHashes step)) "blockHashes" (blockHashesToOJ (set_BlockHashes step))
        (put_opt "currentBlockInfo" current
        (put_opt "previousBlockInfo" previous
        (put_if (given (set_NewAddressMocks step)) "newAddresses"
          (newAddressMocksToOJ (set_NewAddressMocks step))
        (put_if (given (set_Accounts step)) "accounts" accounts
        (commented (set_Comment step) stepOJ)))))))
  | CheckState step =>
      accounts ← checkAccountsToOJ (chk_CheckAccounts step);
      mret (ojmap (put "accounts" accounts (commented (chk_Comment step) stepOJ)))
  | DumpState step => mret (ojmap (commented (dump_Comment step) stepOJ))
  | TxSteps step =>
      transaction ← deref_res (step_Tx step);
      tx ← transactionToScenarioOJ transaction;
      expect ← written_some resultToOJ
        (if IsSmartContractTx (tx_Type transaction) then step_ExpectedResult step else None);
      mret (ojmap
        (put_opt "expect" expect
        (put "tx" tx
        (commented (step_Comment step)
        (put_if (given (step_TxIdent step)) "txId" (stringToOJ (step_TxIdent step)) stepOJ)))))
  end.

Definition ScenarioToOrderedJSON (scenario : Scenario) : res OJsonObject :=
  stepOJList ← map_range (sc_Steps scenario) stepToOJ;
  mret (ojmap
    (put "steps" (OList stepOJList)
    (put "gasSchedule" (gasScheduleToOJ (sc_GasSchedule scenario))
    (put_if (negb (sc_CheckGas scenario)) "checkGas" (OBool false)
    (put_if (given (sc_Comment scenario)) "comment" (stringToOJ (sc_Comment scenario))
    (put_if (given (sc_Name scenario)) "name" (stringToOJ (sc_Name scenario)) NewMap)))))).

Definition ScenarioToJSONString (scenario : Scenario) : res bytes :=
  jobj ← ScenarioToOrderedJSON scenario; mret (JSONString jobj ++ [newline]).

(** ** The older tests ([writeTest.go]) *)

Definition transactionToTestOJ (tx : Transaction) : res OJsonObject :=
  argList ← map_range (tx_Arguments tx) (fun a => item (bytesFromTreeToOJ a));
  mret (ojmap
    (put "from" (bytesFromStringToOJ (tx_From tx))
    (put "gasPrice" (uint64ToOJ (tx_GasPrice tx))
    (put_if (given (jbs_Original (tx_Code tx))) "contractCode" (bytesFromStringToOJ (tx_Code tx))
    (put "arguments" (OList argList)
    (put "to" (bytesFromStringToOJ (tx_To tx))
    (put "value" (bigIntToOJ (tx_Value tx))
    (put "gasLimit" (uint64ToOJ (tx_GasLimit tx))
    (put "function" (stringToOJ (tx_Function tx))
    (put "nonce" (uint64ToOJ (tx_Nonce tx)) NewMap)))))))))).

Definition blockToOJ (block : Block) : res OJsonObject :=
  resultList ← map_range (bl_Results block) resultToOJ;
  txList ← map_range (bl_Transactions block) transactionToTestOJ;
  header ← deref_res (bl_BlockHeader block);
  let blockHeaderOJ :=
    put "coinbase" (bigIntToOJ (bh_Beneficiary header))
    (put "timestamp" (uint64ToOJ (bh_Timestamp header))
    (put "difficulty" (bigIntToOJ (bh_Difficulty header))
    (put "number" (bigIntToOJ (bh_Number header))
    (put "gasLimit" (bigIntToOJ (bh_GasLimit header)) NewMap)))) in
  mret (ojmap
    (put "blockHeader" (ojmap blockHeaderOJ)
    (put "transactions" (OList txList)
    (put "results" (OList resultList) NewMap)))).

Definition testToOJ (test : Test) : res OJsonObject :=
  pre ← AccountsToOJ (test_Pre test);
  blockList ← map_range (test_Blocks test) blockToOJ;
  postState ← checkAccountsToOJ (test_PostState test);
  mret (ojmap
    (put "postState" postState
    (put "blockHashes" (blockHashesToOJ (test_BlockHashes test))
    (put "network" (stringToOJ (test_Network test))
    (put "blocks" (OList blockList)
    (put "pre" pre
    (put_if (negb (test_CheckGas test)) "checkGas" (OBool false) NewMap))))))).

Definition TestToOrderedJSON (testTopLevel : list Test) : res OJsonObject :=
  m ← put_all test_TestName testToOJ testTopLevel NewMap; mret (ojmap m).

Definition TestToJSONString (testTopLevel : list Test) : res bytes :=
  jobj ← TestToOrderedJSON testTopLevel; mret (JSONString jobj ++ [newline]).
