(* ===== verification/ScenRoundtrip.v ===== *)
(** Scenarios that are written are read back: for every structure, the values that
    are what their originals mean, and its round trip through the ordered tree. *)
From S2P Require Import Prelude Errors Types State OrderedJson GoText Fallible ScenExpr ScenModel.
From S2P Require Import OrderedJsonProps ScenExprProps ScenParse ScenWrite.
Import mj.

#[local] Open Scope Z_scope.

Lemma Forall_weaken {A} (P Q : A -> Prop) l : (forall a, P a -> Q a) -> Forall P l -> Forall Q l.
Proof. intros H Hl. induction Hl; constructor; auto. Qed.

(** ** Maps that are written and read key by key *)

Section Maps.
Context {T : Type}.
Implicit Types (step : bytes * OJsonObject -> T -> res T) (m : OJsonMap) (x : T).

(** The keys of [m] are among [keys], and reading them from [init] gives [x]. *)
Definition writes step (keys : list bytes) m (init x : T) : Prop :=
  (forall k, k ∈ KeySet m -> k ∈ keys) /\ for_range (OrderedKV m) step init = mret x.

Lemma writes_new step init : writes step [] NewMap init init.
Proof. split; [|done]. intros k Hk. by apply not_elem_of_empty in Hk. Qed.

Lemma writes_Put step keys m init x (key : bytes) v x' :
  writes step keys m init x -> key ∉ keys -> step (key, v) x = mret x' ->
  writes step (key :: keys) (Put key v m) init x'.
Proof.
  intros [Hkeys Hm] Hkey Hstep. unfold Put.
  rewrite bool_decide_eq_false_2 by (intros H; by apply Hkey, Hkeys).
  split; cbn [KeySet OrderedKV].
  - intros k [->%elem_of_singleton|Hk]%elem_of_union; [by left | right; auto].
  - rewrite for_range_app, Hm. cbn. rewrite Hstep. done.
Qed.

Lemma writes_put_if step keys m init x (c : bool) (key : string) v x' :
  writes step keys m init x -> bs key ∉ keys ->
  (if c then step (bs key, v) x = mret x' else x' = x) ->
  writes step (bs key :: keys) (put_if c key v m) init x'.
Proof.
  intros Hm Hkey Hstep. destruct c; cbn.
  - by eapply writes_Put.
  - subst x'. destruct Hm as [Hkeys Hm]. split; [|done]. intros k Hk. right. auto.
Qed.

Lemma writes_put step keys m init x (key : string) v x' :
  writes step keys m init x -> bs key ∉ keys -> step (bs key, v) x = mret x' ->
  writes step (bs key :: keys) (put key v m) init x'.
Proof. intros. by eapply writes_put_if. Qed.

Lemma writes_put_opt step keys m init x (key : string) o x' :
  writes step keys m init x -> bs key ∉ keys ->
  match o with Some v => step (bs key, v) x = mret x' | None => x' = x end ->
  writes step (bs key :: keys) (put_opt key o m) init x'.
Proof.
  intros Hm Hkey Hstep. destruct o as [v|]; cbn; [by eapply writes_put|]. subst x'.
  destruct Hm as [Hkeys Hm]. split; [|done]. intros k Hk. right. auto.
Qed.

Lemma writes_done step keys m init x x' :
  writes step keys m init x -> x = x' -> for_range (OrderedKV m) step init = mret x'.
Proof. by intros [_ H] ->. Qed.

Lemma writes_eq step keys m init x x' :
  writes step keys m init x -> x = x' -> writes step keys m init x'.
Proof. by intros H <-. Qed.

(** Entries under the keys of a list without duplicates. *)
Lemma writes_all {A} step (key : A -> bytes) (value : A -> res OJsonObject) (f : A -> T -> T)
    (l : list A) keys m :
  (forall k, k ∈ KeySet m -> k ∈ keys) -> NoDup (map key l) -> (forall k, k ∈ keys -> k ∉ map key l) ->
  Forall (fun a => exists v, value a = mret v /\ forall x, step (key a, v) x = mret (f a x)) l ->
  exists m', put_all key value l m = mret m' /\ forall init x,
    writes step keys m init x ->
    writes step (rev (map key l) ++ keys) m' init (fold_left (fun x a => f a x) l x).
Proof.
  intros Hm Hnd Hkeys Hl. revert keys m Hm Hkeys.
  induction Hl as [|a l (v & Hv & Hstep) Hl IH]; cbn; intros keys m Hm Hkeys; [by exists m|].
  inversion_clear Hnd as [|? ? Ha Hnd']. unfold put_all in *. cbn [for_range].
  rewrite Hv. cbn [mbind res_bind mret res_ret].
  assert (key a ∉ keys) as Hnew by (intros Hin; apply (Hkeys _ Hin); by left).
  destruct (IH Hnd' (key a :: keys) (Put (key a) v m)) as (m' & Hput & Hw).
  { unfold Put. case_match; [intros k Hk; right; auto|]. cbn [KeySet].
    intros k [->%elem_of_singleton|Hk]%elem_of_union; [by left | right; auto]. }
  { intros k [->|Hk]%elem_of_cons; [done|]. intros Hin. apply (Hkeys k Hk). by right. }
  exists m'. split; [exact Hput|]. intros init x Hx. rewrite <- app_assoc. apply Hw.
  eapply writes_Put; [exact Hx | done | apply Hstep].
Qed.

End Maps.

(** A field that is written on a condition, and else has its default. *)
Definition optional {A} (written : bool) (ok : A -> Prop) (default a : A) : Prop :=
  if written then ok a else a = default.

(** A field that is written on a condition: it is set, or it is as it was. *)
Lemma optional_step {A T} (set : A -> T -> T) (c : bool) (ok : A -> Prop) (default a : A)
    (read : res T) (x x' : T) :
  optional c ok default a -> (c = true -> ok a -> read = mret (set a x)) ->
  set a x = x' -> set default x = x -> if c then read = mret x' else x' = x.
Proof. intros H Hread <-. destruct c; cbn in H; [auto | by subst a]. Qed.

(** A pointer that may be nil. *)
Definition opt_back {A} (parse : OJsonObject -> res A) (o : option A) (o' : option OJsonObject) :
    Prop :=
  match o, o' with
  | Some a, Some v => parse v = mret a
  | None, None => True
  | _, _ => False
  end.

Lemma opt_step {A T} (set : option A -> T -> T) parse o o' (read : OJsonObject -> res T) x x' :
  opt_back parse o o' ->
  (forall a v, o = Some a -> parse v = mret a -> read v = mret (set (Some a) x)) ->
  set o x = x' -> set None x = x ->
  match o' with Some v => read v = mret x' | None => x' = x end.
Proof. intros H Hread <-. destruct o, o'; cbn in *; auto; done. Qed.

Lemma written_some_back {A} (ok : A -> Prop) (toOJ : A -> res OJsonObject) parse o :
  (forall a, ok a -> exists v, toOJ a = mret v /\ parse v = mret a) ->
  match o with Some a => ok a | None => True end ->
  exists o', written_some toOJ o = mret o' /\ opt_back parse o o'.
Proof.
  intros Hback Ho. destruct o as [a|]; [|by exists None].
  destruct (Hback a Ho) as (v & Hv & Hp). exists (Some v). cbn. by rewrite Hv.
Qed.

(** The case of a key. *)
Ltac at_key :=
  cbn [switch];
  repeat match goal with
  | |- context [text_eqb ?a ?b] =>
      let r := eval vm_compute in (text_eqb a b) in change (text_eqb a b) with r; cbv iota
  end.

(** The field of [H], set by [set], read by [step]. *)
Tactic Notation "field" reference(step) constr(set) constr(H) :=
  eapply (optional_step set _ _ _ _ _ _ _ H);
    [|lazy beta iota zeta delta [set]; reflexivity..];
  let Hc := fresh "Hc" in let Hok := fresh "Hok" in intros Hc Hok; cbv beta in Hok; unfold step; at_key.

(** The pointer of [H]. *)
Tactic Notation "pointer" reference(step) constr(set) constr(H) :=
  eapply (opt_step set _ _ _ _ _ _ H); [|lazy beta iota zeta delta [set]; reflexivity..];
  let a := fresh "a" in let v := fresh "v" in let Ho := fresh "Ho" in let Hok := fresh "Hok" in
  intros a v Ho Hok; unfold step; at_key.

(** A field that is always written. *)
Lemma read_step {A T} (set : A -> T -> T) a (read : res T) x x' :
  read = mret (set a x) -> set a x = x' -> read = mret x'.
Proof. by intros -> <-. Qed.

Tactic Notation "required" reference(step) constr(set) constr(a) :=
  eapply (read_step set a); [unfold step; at_key | lazy beta iota zeta delta [set]; reflexivity].

(** The keys of a map are texts of the program. *)
Ltac other_key := apply (bool_decide_unpack _); vm_compute; exact I.

(** One field of a map: [tac] reads it. *)
Ltac write_fields :=
  lazymatch goal with
  | |- writes _ _ NewMap _ _ => apply writes_new
  | |- writes _ _ (put _ _ _) _ _ => eapply writes_put; [write_fields | other_key | ]
  | |- writes _ _ (put_opt _ _ _) _ _ => eapply writes_put_opt; [write_fields | other_key | ]
  | |- writes _ _ (put_if _ _ _ _) _ _ => eapply writes_put_if; [write_fields | other_key | ]
  | |- writes _ _ _ _ _ => eassumption
  end.

Section Roundtrip.
Context `{Env : ScenEnv}.

(** ** Values *)

Definition string_ok (b : JSONBytesFromString) : Prop :=
  processStringAsByteArray (OString (jbs_Original b)) = mret b.

Definition address_ok (b : JSONBytesFromString) : Prop :=
  parseAccountAddress (jbs_Original b) = mret b.

Definition tree_ok (b : JSONBytesFromTree) : Prop :=
  exists obj, jbt_Original b = Some obj /\ processSubTreeAsByteArray obj = mret b.

Definition bigInt_ok (i : JSONBigInt) : Prop :=
  processBigInt (bigIntToOJ i) bigIntUnsignedBytes = mret i.

Definition uint64_ok (i : JSONUint64) : Prop := processUint64 (uint64ToOJ i) = mret i.

Definition checkBytes_ok (c : JSONCheckBytes) : Prop :=
  exists obj, jcb_Original c = Some obj /\ parseCheckBytes obj = mret c.

Definition checkBigInt_ok (format : bigIntParseFormat) (c : JSONCheckBigInt) : Prop :=
  processCheckBigInt (checkBigIntToOJ c) format = mret c.

Definition checkUint64_ok (c : JSONCheckUint64) : Prop :=
  processCheckUint64 (checkUint64ToOJ c) = mret c.

Lemma InterpretString_empty : InterpretString [] = mret [].
Proof. done. Qed.

Lemma string_original b : string_ok b -> bytesFromStringToString b = jbs_Original b.
Proof.
  unfold string_ok, bytesFromStringToString. destruct b as [value [|c original]]; [|done].
  unfold processStringAsByteArray. cbn. by intros [= <-].
Qed.

Lemma address_original b : address_ok b -> bytesFromStringToString b = jbs_Original b.
Proof. unfold address_ok, bytesFromStringToString. by destruct b as [value [|c original]]. Qed.

Lemma string_back b : string_ok b -> processStringAsByteArray (bytesFromStringToOJ b) = mret b.
Proof. intros Hb. unfold bytesFromStringToOJ. by rewrite string_original. Qed.

Lemma tree_read b :
  tree_ok b -> processSubTreeAsByteArray (bytesFromTreeToOJ b) = mret b.
Proof.
  intros (obj & Ho & Hb). assert (bytesFromTreeToOJ b = obj) as ->; [|done]. unfold bytesFromTreeToOJ.
  destruct (OriginalEmpty b) eqn:E; [|by rewrite Ho].
  unfold OriginalEmpty in E. rewrite Ho in E. destruct obj as [| |[|]| |]; try done.
  unfold processSubTreeAsByteArray in Hb. cbn in Hb. by injection Hb as <-.
Qed.

Lemma checkBytes_read c :
  checkBytes_ok c -> parseCheckBytes (checkBytesToOJ c) = mret c.
Proof.
  intros (obj & Ho & Hc). assert (checkBytesToOJ c = obj) as ->; [|done]. unfold checkBytesToOJ.
  destruct (CheckBytes_OriginalEmpty c) eqn:E; [|by rewrite Ho].
  unfold CheckBytes_OriginalEmpty in E. rewrite Ho in E. destruct obj as [| |[|]| |]; try done.
  unfold parseCheckBytes in Hc. cbn in Hc. by injection Hc as <-.
Qed.

(** What is read is not nil: it may be an item. *)
Lemma item_read {A} (parse : OJsonObject -> res A) obj a :
  (forall a, parse ONil <> mret a) -> parse obj = mret a -> item obj = mret obj.
Proof. intros Hnil Hp. destruct obj; try done. by destruct (Hnil a). Qed.

Lemma tree_back b :
  tree_ok b ->
  exists obj, (mret (bytesFromTreeToOJ b) : res _) = mret obj /\ processSubTreeAsByteArray obj = mret b.
Proof. intros Hb. eexists. split; [reflexivity | by apply tree_read]. Qed.

Lemma checkBytes_back c :
  checkBytes_ok c ->
  exists obj, (mret (checkBytesToOJ c) : res _) = mret obj /\ parseCheckBytes obj = mret c.
Proof. intros Hc. eexists. split; [reflexivity | by apply checkBytes_read]. Qed.

Lemma tree_item b :
  tree_ok b ->
  exists obj, item (bytesFromTreeToOJ b) = mret obj /\ processSubTreeAsByteArray obj = mret b.
Proof.
  intros Hb%tree_read. eexists. split; [|exact Hb]. by apply (item_read processSubTreeAsByteArray _ b).
Qed.

Lemma checkBytes_item c :
  checkBytes_ok c ->
  exists obj, item (checkBytesToOJ c) = mret obj /\ parseCheckBytes obj = mret c.
Proof.
  intros Hc%checkBytes_read. eexists. split; [|exact Hc]. by apply (item_read parseCheckBytes _ c).
Qed.

Lemma list_back {A} (ok : A -> Prop) (toOJ : A -> res OJsonObject) (parse : OJsonObject -> res A) l :
  (forall a, ok a -> exists obj, toOJ a = mret obj /\ parse obj = mret a) ->
  Forall ok l ->
  exists objs, map_range l toOJ = mret objs /\ map_range objs parse = mret l.
Proof.
  intros Hback Hl. induction Hl as [|a l Ha _ (objs & Ht & Hp)]; [by exists []|].
  destruct (Hback a Ha) as (obj & Hta & Hpa). exists (obj :: objs). cbn.
  by rewrite Hta, Hpa; cbn; rewrite Ht, Hp.
Qed.

Lemma pure_list_back {A} (ok : A -> Prop) (toOJ : A -> OJsonObject) (parse : OJsonObject -> res A) l :
  (forall a, ok a -> parse (toOJ a) = mret a) -> Forall ok l ->
  map_range (map toOJ l) parse = mret l.
Proof.
  intros Hback Hl. induction Hl as [|a l Ha _ IH]; [done|]. cbn. by rewrite Hback; cbn; rewrite ?IH.
Qed.

(** ** Transactions *)

Definition esdtTx_ok (e : ESDTTxData) : Prop :=
  optional (given (jbs_Original (etx_TokenIdentifier e))) string_ok zeroBytes (etx_TokenIdentifier e) /\
  optional (given (ju_Original (etx_Nonce e))) uint64_ok zeroUint64 (etx_Nonce e) /\
  optional (given (jbi_Original (etx_Value e))) bigInt_ok zeroBigInt (etx_Value e).

Lemma esdtTx_back e : esdtTx_ok e -> processTxESDT (esdtTxDataToOJ e) = mret e.
Proof.
  intros (Htok & Hnonce & Hvalue). unfold processTxESDT, esdtTxDataToOJ, zeroESDTTxData.
  cbn [ojmap as_map mbind res_bind mret res_ret].
  eapply writes_done; [write_fields|].
  - field txESDT_field set_etx_TokenIdentifier Htok. by rewrite string_back.
  - field txESDT_field set_etx_Nonce Hnonce. by rewrite Hok.
  - field txESDT_field set_etx_Value Hvalue. by rewrite Hok.
  - destruct e. reflexivity.
Qed.

(** What is written of a transaction: it depends on its type. *)
Definition tx_ok (tx : Transaction) : Prop :=
  let type := tx_Type tx in
  tx_Nonce tx = zeroUint64 /\
  optional (HasSender type) address_ok zeroBytes (tx_From tx) /\
  optional (HasReceiver type) address_ok zeroBytes (tx_To tx) /\
  optional (HasValue type) bigInt_ok JSONBigIntZero (tx_Value tx) /\
  match tx_ESDTValue tx with Some e => HasESDT type = true /\ esdtTx_ok e | None => True end /\
  optional (HasFunction type) (fun _ => True) [] (tx_Function tx) /\
  optional (bool_decide (type = ScDeploy)) string_ok zeroBytes (tx_Code tx) /\
  optional (HasFunction type || bool_decide (type = ScDeploy)) (Forall tree_ok) [] (tx_Arguments tx) /\
  optional (HasGas type) uint64_ok zeroUint64 (tx_GasLimit tx) /\
  optional (HasGas type) uint64_ok zeroUint64 (tx_GasPrice tx).

Lemma trees_back l :
  Forall tree_ok l ->
  exists objs, map_range l (fun a => item (bytesFromTreeToOJ a)) = mret objs /\
    map_range objs processSubTreeAsByteArray = mret l.
Proof. apply list_back, tree_item. Qed.

Lemma optional_list_back {A} c (ok : A -> Prop) (toOJ : A -> res OJsonObject)
    (parse : OJsonObject -> res A) l :
  (forall a, ok a -> exists obj, toOJ a = mret obj /\ parse obj = mret a) ->
  optional c (Forall ok) [] l ->
  exists objs, map_range l toOJ = mret objs /\
    optional c (fun l => map_range objs parse = mret l) [] l.
Proof.
  intros Hback Hl. destruct c; cbn in *; [by eapply list_back|]. subst l. by exists [].
Qed.

Lemma tx_back tx :
  tx_ok tx ->
  exists j, transactionToScenarioOJ tx = mret j /\ processTx (tx_Type tx) j = mret tx.
Proof.
  intros (Hnonce & Hfrom & Hto & Hvalue & Hesdt & Hfun & Hcode & Hargs & Hlimit & Hprice).
  destruct (optional_list_back _ _ _ _ _ tree_item Hargs) as (objs & Hobjs & Hargs').
  assert (opt_back processTxESDT (tx_ESDTValue tx) (option_map esdtTxDataToOJ (tx_ESDTValue tx)))
    as Hesdt' by (destruct (tx_ESDTValue tx) as [e|]; [apply esdtTx_back, Hesdt | done]).
  unfold transactionToScenarioOJ. rewrite Hobjs. eexists. split; [reflexivity|].
  unfold processTx, zeroTransaction. cbn [ojmap as_map mbind res_bind mret res_ret].
  eapply writes_done; [write_fields | ].
  - field tx_field set_tx_From Hfrom. unfold only_if. rewrite Hc. cbn.
    rewrite address_original, Hok by done. done.
  - field tx_field set_tx_To Hto. cbn. rewrite bool_decide_eq_false_2 by (by destruct (tx_Type tx)).
    rewrite address_original, Hok by done. done.
  - field tx_field set_tx_Value Hvalue. unfold only_if. by rewrite Hc, Hok.
  - pointer tx_field set_tx_ESDTValue Hesdt'. unfold only_if. rewrite Ho in Hesdt.
    destruct Hesdt as [-> _]. by rewrite Hok.
  - field tx_field set_tx_Function Hfun. unfold only_if. cbn. by rewrite Hc.
  - field tx_field set_tx_Code Hcode. unfold only_if. rewrite string_back by done. cbn.
    by rewrite Hc.
  - field tx_field set_tx_Arguments Hargs'. unfold only_if, parseSubTreeList, parse_list. cbn.
    rewrite Hok. cbn. rewrite bool_decide_eq_false_2; [done|]. by destruct (tx_Type tx).
  - field tx_field set_tx_GasLimit Hlimit. unfold only_if. by rewrite Hc, Hok.
  - field tx_field set_tx_GasPrice Hprice. unfold only_if. by rewrite Hc, Hok.
  - destruct tx. cbn [tx_Nonce] in Hnonce. subst. reflexivity.
Qed.

(** ** Results *)

(** A value that is written on a condition. *)
Lemma when_back {A} c (ok : A -> Prop) (toOJ : res OJsonObject) (parse : OJsonObject -> res A)
    (default a : A) :
  (ok a -> exists obj, toOJ = mret obj /\ parse obj = mret a) ->
  optional c ok default a ->
  exists obj, when_written c toOJ = mret obj /\ optional c (fun a => parse obj = mret a) default a.
Proof. intros Hback Ha. destruct c; cbn in *; [auto | by exists (OString [])]. Qed.

Definition log_ok (l : LogEntry) : Prop :=
  checkBytes_ok (log_Address l) /\ checkBytes_ok (log_Identifier l) /\
  Forall checkBytes_ok (log_Topics l) /\ checkBytes_ok (log_Data l).

Lemma log_back l : log_ok l -> exists j, logToOJ l = mret j /\ log_entry j = mret l.
Proof.
  intros (Ha & Hi & Ht & Hd). unfold logToOJ.
  pose proof (checkBytes_read _ Ha) as Ha'. pose proof (checkBytes_read _ Hi) as Hi'.
  destruct (list_back _ _ _ _ checkBytes_item Ht) as (jt & Hjt & Ht').
  pose proof (checkBytes_read _ Hd) as Hd'.
  rewrite Hjt. eexists. split; [reflexivity|].
  unfold log_entry, zeroLogEntry. cbn [ojmap as_map mbind res_bind mret res_ret].
  eapply writes_done; [write_fields | ].
  - required log_field set_log_Address (log_Address l). by rewrite Ha'.
  - required log_field set_log_Identifier (log_Identifier l). by rewrite Hi'.
  - required log_field set_log_Topics (log_Topics l). unfold parseCheckBytesList, parse_list.
    cbn [as_list mbind res_bind mret res_ret]. by rewrite Ht'.
  - required log_field set_log_Data (log_Data l). by rewrite Hd'.
  - by destruct l.
Qed.

(** The logs of a result: not given, any, a hash or a list. *)
Definition logs_ok (r : TransactionResult) : Prop :=
  if res_LogsUnspecified r then res_LogsStar r = true /\ res_LogHash r = [] /\ res_Logs r = []
  else if res_LogsStar r then res_LogHash r = [] /\ res_Logs r = []
  else if given (res_LogHash r) then res_LogHash r <> bs "*" /\ res_Logs r = []
  else res_LogHash r = [] /\ Forall log_ok (res_Logs r).

Definition result_ok (r : TransactionResult) : Prop :=
  Forall checkBytes_ok (res_Out r) /\
  optional (negb (jcbi_Unspecified (res_Status r))) (checkBigInt_ok bigIntSignedBytes)
    JSONCheckBigIntUnspecified (res_Status r) /\
  optional (negb (jcb_Unspecified (res_Message r))) checkBytes_ok JSONCheckBytesUnspecified
    (res_Message r) /\
  logs_ok r /\
  optional (negb (jcu_Unspecified (res_Gas r))) checkUint64_ok JSONCheckUint64Unspecified (res_Gas r) /\
  optional (negb (jcbi_Unspecified (res_Refund r))) (checkBigInt_ok bigIntUnsignedBytes)
    JSONCheckBigIntUnspecified (res_Refund r).

(** The fields for the logs are read together. *)
Definition set_logs (v : bool * bool * bytes * list LogEntry) (r : TransactionResult) :
    TransactionResult :=
  let '(unspecified, star, hash, logs) := v in
  let '(mkTransactionResult x1 x2 x3 x4 x5 _ _ _ _) := r in
  mkTransactionResult x1 x2 x3 x4 x5 star unspecified hash logs.

Definition logs_of (r : TransactionResult) : bool * bool * bytes * list LogEntry :=
  (res_LogsUnspecified r, res_LogsStar r, res_LogHash r, res_Logs r).

Definition logsOJ (r : TransactionResult) : res OJsonObject :=
  if res_LogsStar r then mret (stringToOJ (bs "*"))
  else if given (res_LogHash r) then mret (stringToOJ (res_LogHash r))
  else logsToOJ (res_Logs r).

Lemma logs_back r :
  logs_ok r ->
  exists obj, when_written (negb (res_LogsUnspecified r)) (logsOJ r) = mret obj /\
    forall x, logs_of x = (true, true, [], []) ->
      if negb (res_LogsUnspecified r) then result_logs obj x = mret (set_logs (logs_of r) x)
      else set_logs (logs_of r) x = x.
Proof.
  unfold logs_ok, logsOJ, logs_of. intros H. destruct (res_LogsUnspecified r) eqn:Hu.
  { destruct H as (-> & -> & ->). eexists. split; [reflexivity|]. intros x.
    destruct x. cbn. by intros [= -> -> -> ->]. }
  cbn [negb when_written]. destruct (res_LogsStar r).
  { destruct H as [-> ->]. eexists. split; [reflexivity|]. intros x.
    destruct x. cbn. by intros [= -> -> -> ->]. }
  destruct (given (res_LogHash r)) eqn:Hg.
  { destruct H as [Hne ->]. eexists. split; [reflexivity|]. intros x Hx.
    unfold result_logs, IsStar, stringToOJ. rewrite text_eqb_ne by done.
    destruct x. cbn in *. by injection Hx as -> -> -> ->. }
  destruct H as [-> Hl]. destruct (list_back _ _ _ _ log_back Hl) as (objs & Ho & Hp).
  exists (OList objs). unfold logsToOJ. rewrite Ho. split; [done|]. intros x Hx.
  unfold result_logs. cbn [IsStar parseString fails fail]. unfold processLogList. cbn [as_list].
  cbn [mbind res_bind mret res_ret]. rewrite Hp. destruct x. cbn in *.
  by injection Hx as -> -> -> ->.
Qed.

Lemma result_back r :
  result_ok r -> exists j, resultToOJ r = mret j /\ processTxExpectedResult j = mret r.
Proof.
  intros (Hout & Hstatus & Hmsg & Hlogs & Hgas & Hrefund). unfold resultToOJ.
  destruct (list_back _ _ _ _ checkBytes_item Hout) as (jout & -> & Hout').
  destruct (when_back _ _ _ _ _ _ (checkBytes_back _) Hmsg) as (jmsg & Hjmsg & Hmsg').
  destruct (logs_back r Hlogs) as (jlogs & Hjlogs & Hlogs'). unfold logsOJ in Hjlogs.
  cbn [mbind res_bind mret res_ret]. rewrite Hjmsg. cbn [mbind res_bind mret res_ret].
  rewrite Hjlogs. eexists. split; [reflexivity|].
  unfold processTxExpectedResult, unspecifiedResult. cbn [ojmap as_map mbind res_bind mret res_ret].
  eapply writes_done; [write_fields | ].
  - required result_field set_res_Out (res_Out r). unfold parseCheckBytesList, parse_list.
    cbn [as_list mbind res_bind mret res_ret]. by rewrite Hout'.
  - field result_field set_res_Status Hstatus. by rewrite Hok.
  - field result_field set_res_Message Hmsg'. by rewrite Hok.
  - lazymatch goal with |- if _ then result_field _ ?x = _ else _ =>
      specialize (Hlogs' x eq_refl); lazy beta iota zeta delta [set_logs logs_of] in Hlogs';
      exact Hlogs'
    end.
  - field result_field set_res_Gas Hgas. by rewrite Hok.
  - field result_field set_res_Refund Hrefund. by rewrite Hok.
  - by destruct r.
Qed.

(** ** Tokens *)

Definition instance_ok (i : ESDTInstance) : Prop :=
  optional (given (ju_Original (ei_Nonce i))) uint64_ok zeroUint64 (ei_Nonce i) /\
  optional (given (jbi_Original (ei_Balance i))) bigInt_ok zeroBigInt (ei_Balance i) /\
  optional (given (jbs_Original (ei_Creator i)))
    (fun b => string_ok b /\ len (jbs_Value b) = 32) zeroBytes (ei_Creator i) /\
  optional (given (ju_Original (ei_Royalties i)))
    (fun u => uint64_ok u /\ ju_Value u <= 10000) zeroUint64 (ei_Royalties i) /\
  optional (given (jbs_Original (ei_Hash i))) string_ok zeroBytes (ei_Hash i) /\
  optional (given (jbt_Value (ei_Uri i))) tree_ok zeroTree (ei_Uri i) /\
  optional (given (jbs_Original (ei_Attributes i))) string_ok zeroBytes (ei_Attributes i).

Definition instance_keys : list bytes :=
  map bs ["attributes"; "uri"; "hash"; "royalties"; "creator"; "balance"; "nonce"]%string.

(** A field of an instance, in a list or in the entry itself. *)
Lemma in_list_step {A} (try : bytes * OJsonObject -> A -> res (option A)) kvp i i' :
  try kvp i = mret (Some i') -> in_instances_list try kvp i = mret i'.
Proof. unfold in_instances_list. by intros ->. Qed.

Lemma in_list_inv {A} (try : bytes * OJsonObject -> A -> res (option A)) kvp i i' :
  in_instances_list try kvp i = mret i' -> try kvp i = mret (Some i').
Proof.
  unfold in_instances_list. destruct (try kvp i) as [[err|[a|]]| |]; cbn; try done.
  by intros [= ->].
Qed.

Lemma optional_try {A T} step (set : A -> T -> T) (c : bool) (ok : A -> Prop) (default a : A)
    (kvp : bytes * OJsonObject) (x x' : T) :
  optional c ok default a ->
  (c = true -> ok a -> step kvp x = mret (Some (set a x))) ->
  set a x = x' -> set default x = x ->
  if c then in_instances_list step kvp x = mret x' else x' = x.
Proof.
  intros H Hread <-. destruct c; cbn in H; [|by subst a].
  intros Hd. by apply in_list_step, Hread.
Qed.

Tactic Notation "subfield" reference(step) constr(set) constr(H) :=
  eapply (optional_try _ set _ _ _ _ _ _ _ H);
    [|lazy beta iota zeta delta [set]; reflexivity..];
  let Hc := fresh "Hc" in let Hok := fresh "Hok" in
  intros Hc Hok; cbv beta in Hok; unfold step; at_key.

Lemma instance_back i :
  instance_ok i ->
  exists m, appendESDTInstanceToOJ i NewMap = mret m /\
    writes (in_instances_list tryProcessESDTInstanceField) instance_keys m zeroESDTInstance i.
Proof.
  intros (Hn & Hb & Hc & Hr & Hh & Hu & Ha). unfold appendESDTInstanceToOJ.
  destruct (when_back _ _ _ _ _ _ (tree_back _) Hu) as (ju & -> & Hu'). eexists. split; [reflexivity|].
  unfold instance_keys, zeroESDTInstance. cbn [map].
  eapply writes_eq; [write_fields | ].
  - subfield tryProcessESDTInstanceField set_ei_Nonce Hn. by rewrite Hok.
  - subfield tryProcessESDTInstanceField set_ei_Balance Hb. by rewrite Hok.
  - subfield tryProcessESDTInstanceField set_ei_Creator Hc. destruct Hok as [Hok Hlen].
    rewrite string_back by done. cbn. by rewrite (proj2 (Z.eqb_eq _ _) Hlen).
  - subfield tryProcessESDTInstanceField set_ei_Royalties Hr. destruct Hok as [-> Hle]. cbn.
    by rewrite (proj2 (Z.ltb_ge _ _) Hle).
  - subfield tryProcessESDTInstanceField set_ei_Hash Hh. by rewrite string_back.
  - subfield tryProcessESDTInstanceField set_ei_Uri Hu'. by rewrite Hok.
  - subfield tryProcessESDTInstanceField set_ei_Attributes Ha. by rewrite string_back.
  - by destruct i.
Qed.

(** What the fields of an entry do to the variables of the loop. *)
Lemma writes_lift {A D} (try : bytes * OJsonObject -> A -> res (option A))
    (step : bytes * OJsonObject -> D * A * bool * list A -> res (D * A * bool * list A))
    keys m zero i d e :
  (forall kvp i i' loaded, try kvp i = mret (Some i') ->
    step kvp (d, i, loaded, e) = mret (d, i', true, e)) ->
  writes (in_instances_list try) keys m zero i ->
  writes step keys m (d, zero, false, e)
    (d, i, match OrderedKV m with [] => false | _ => true end, e).
Proof.
  intros Hstep [Hkeys Hm]. split; [done|].
  assert (forall loaded, for_range (OrderedKV m) step (d, zero, loaded, e) =
    mret (d, i, match OrderedKV m with [] => loaded | _ => true end, e)) as H; [|apply H].
  clear Hkeys. revert zero Hm. induction (OrderedKV m) as [|kvp kvs IH]; cbn; intros zero Hm loaded.
  { by injection Hm as ->. }
  apply res_bind_inr in Hm as (i' & Hi' & Hm). apply in_list_inv in Hi'.
  rewrite (Hstep _ _ _ _ Hi'). cbn [mbind res_bind mret res_ret].
  rewrite (IH _ Hm true). by destruct kvs.
Qed.

Lemma writes_nonempty {T} (step : bytes * OJsonObject -> T -> res T) keys m init x :
  writes step keys m init x -> x <> init -> OrderedKV m <> [].
Proof. intros [_ Hm] Hne E. rewrite E in Hm. injection Hm as ->. done. Qed.

Definition instances_ok (l : list ESDTInstance) : Prop :=
  match l with
  | [i] => instance_ok i /\ i <> zeroESDTInstance
  | _ => Forall instance_ok l
  end.

(** An entry that is one number, or a map. *)
Definition esdt_ok (e : ESDTData) : Prop :=
  string_ok (ed_TokenIdentifier e) /\
  if isCompactESDT e then
    exists balance, bigInt_ok balance /\
      e = mkESDTData (ed_TokenIdentifier e) [set_ei_Balance balance zeroESDTInstance] zeroUint64 []
        zeroUint64
  else
    instances_ok (ed_Instances e) /\
    optional (given (ju_Original (ed_LastNonce e))) uint64_ok zeroUint64 (ed_LastNonce e) /\
    optional (given (ed_Roles e)) (fun _ => True) [] (ed_Roles e) /\
    optional (given (ju_Original (ed_Frozen e))) uint64_ok zeroUint64 (ed_Frozen e).

(** The instances of an entry, and those in a list. *)
Lemma instances_back {A D} (ok : A -> Prop) (append : A -> OJsonMap -> res OJsonMap) try zero
    (step : bytes * OJsonObject -> D * A * bool * list A -> res (D * A * bool * list A)) l d :
  (forall i, ok i -> exists m, append i NewMap = mret m /\
    writes (in_instances_list try) instance_keys m zero i) ->
  (forall kvp i i' loaded, try kvp i = mret (Some i') ->
    step kvp (d, i, loaded, []) = mret (d, i', true, [])) ->
  (forall value x, parse_instances try zero value = mret x ->
    step (bs "instances", value) (d, zero, false, []) = mret (d, zero, false, x)) ->
  match l with [i] => ok i /\ i <> zero | _ => Forall ok l end ->
  exists m i loaded explicit, put_instances append l NewMap = mret m /\
    writes step (bs "instances" :: instance_keys) m (d, zero, false, []) (d, i, loaded, explicit) /\
    (if (loaded : bool) then [i] else []) ++ explicit = l.
Proof.
  intros Hback Htry Hlist Hl.
  assert (Forall ok l -> put_instances append l NewMap =
      (convertedList ← map_range l (fun instance =>
         instanceOJ ← append instance NewMap; mret (ojmap instanceOJ));
       mret (put "instances" (OList convertedList) NewMap)) ->
    exists m i loaded explicit, put_instances append l NewMap = mret m /\
      writes step (bs "instances" :: instance_keys) m (d, zero, false, []) (d, i, loaded, explicit) /\
      (if (loaded : bool) then [i] else []) ++ explicit = l) as Hmany.
  { intros Hok ->.
    destruct (list_back ok (fun instance => instanceOJ ← append instance NewMap; mret (ojmap instanceOJ))
      (parse_instance try zero) l) as (objs & Ho & Hp); [|done|].
    { intros a Ha. destruct (Hback a Ha) as (m & Hm & _ & Hr). exists (ojmap m).
      by rewrite Hm. }
    rewrite Ho. eexists _, zero, false, l. split; [reflexivity|]. split; [|done].
    eapply writes_put; [|other_key | apply Hlist].
    - split; [|reflexivity]. intros k Hk. by apply not_elem_of_empty in Hk.
    - unfold parse_instances. cbn [as_list mbind res_bind mret res_ret]. exact Hp. }
  destruct l as [|i [|j l]]; [by apply Hmany| |by apply Hmany].
  destruct Hl as [Hi Hne]. destruct (Hback i Hi) as (m & Hm & Hw).
  exists m, i, true, []. split; [done|]. split; [|done].
  pose proof (writes_nonempty _ _ _ _ _ Hw Hne) as Hnil.
  destruct (writes_lift try step _ _ _ _ d [] Htry Hw) as [Hkeys Hr]. split.
  - intros k Hk. right. by apply Hkeys.
  - rewrite Hr. by destruct (OrderedKV m).
Qed.

Lemma roles_back l : processStringList (OList (map stringToOJ l)) = mret l.
Proof.
  unfold processStringList, parse_list. cbn [as_list mbind res_bind mret res_ret].
  apply (pure_list_back (fun _ => True)); [done | by apply Forall_true].
Qed.

Lemma string_value b : string_ok b -> InterpretString (jbs_Original b) = mret (jbs_Value b).
Proof.
  unfold string_ok, processStringAsByteArray. cbn [parseString mbind res_bind mret res_ret].
  intros (v & Hv & [= <-])%res_bind_inr. done.
Qed.

(** A field of the data of an entry. *)
Definition in_data {D A E} (set : D -> D) (acc : D * A * bool * E) : D * A * bool * E :=
  let '(d, i, loaded, e) := acc in (set d, i, loaded, e).

Tactic Notation "datafield" reference(step) reference(try) constr(set) constr(H) :=
  eapply (optional_step (fun v => in_data (set v)) _ _ _ _ _ _ _ H);
    [|lazy beta iota zeta delta [in_data set]; reflexivity..];
  let Hc := fresh "Hc" in let Hok := fresh "Hok" in
  intros Hc Hok; cbv beta in Hok; unfold step, try; at_key;
  cbn [wrap mbind res_bind mret res_ret].

Lemma esdt_back e :
  esdt_ok e -> exists j, esdtItemToOJ e = mret j /\
    esdt_entry (jbs_Original (ed_TokenIdentifier e), j) = mret e.
Proof.
  intros [Htok He]. unfold esdtItemToOJ, esdt_entry. rewrite (string_value _ Htok).
  cbn [wrap mbind res_bind mret res_ret].
  replace (NewJSONBytesFromString (jbs_Value (ed_TokenIdentifier e)) _) with (ed_TokenIdentifier e)
    by (by destruct (ed_TokenIdentifier e)).
  destruct (isCompactESDT e).
  { destruct He as (balance & Hb & He). rewrite He. cbn [ed_Instances ed_TokenIdentifier].
    eexists. split; [reflexivity|]. unfold processESDTData, bigIntToOJ. cbn [ei_Balance set_ei_Balance zeroESDTInstance].
    change (OString (jbi_Original balance)) with (bigIntToOJ balance).
    cbn [wrap mbind]. unfold bigInt_ok in Hb. by rewrite Hb. }
  destruct He as (Hi & Hn & Hr & Hf).
  destruct (instances_back instance_ok appendESDTInstanceToOJ tryProcessESDTInstanceField
    zeroESDTInstance esdtData_field (ed_Instances e)
    (mkESDTData (ed_TokenIdentifier e) [] zeroUint64 [] zeroUint64) instance_back)
    as (m & i & loaded & explicit & Hm & Hw & Hl); [| |exact Hi|].
  { intros kvp i i' loaded Htry. unfold esdtData_field. destruct kvp. by rewrite Htry. }
  { intros value x Hx. unfold esdtData_field, tryProcessESDTInstanceField. at_key.
    cbn [wrap mbind res_bind mret res_ret]. unfold processESDTInstances. by rewrite Hx. }
  rewrite Hm. eexists. split; [reflexivity|]. unfold processESDTData, processESDTDataMap.
  cbn [ojmap]. erewrite (writes_done _ _ _ _ _
    (mkESDTData (ed_TokenIdentifier e) [] (ed_LastNonce e) (ed_Roles e) (ed_Frozen e), i, loaded,
     explicit)).
  - cbn [mbind res_bind mret res_ret set_ed_Instances]. rewrite Hl. by destruct e.
  - write_fields.
    + datafield esdtData_field tryProcessESDTInstanceField set_ed_LastNonce Hn. by rewrite Hok.
    + datafield esdtData_field tryProcessESDTInstanceField set_ed_Roles Hr. by rewrite roles_back.
    + datafield esdtData_field tryProcessESDTInstanceField set_ed_Frozen Hf. by rewrite Hok.
  - reflexivity.
Qed.

(** ** Entries under the keys of a list *)

Lemma for_range_collect {A B} (f : A -> res B) l acc :
  for_range l (fun x acc => y ← f x; mret (acc ++ [y])) acc = (ys ← map_range l f; mret (acc ++ ys)).
Proof.
  revert acc. induction l as [|x l IH]; cbn; intros acc; [by rewrite app_nil_r|].
  destruct (f x) as [[err|y]| |]; cbn; [done| |done..]. rewrite IH.
  destruct (map_range l f) as [[err|ys]| |]; cbn; try done. by rewrite <- app_assoc.
Qed.

Lemma fold_left_collect {A} (l acc : list A) : fold_left (fun acc a => acc ++ [a]) l acc = acc ++ l.
Proof.
  revert acc. induction l as [|a l IH]; cbn; intros acc; [by rewrite app_nil_r|].
  by rewrite IH, <- app_assoc.
Qed.

Lemma entries_back {A} (key : A -> bytes) (value : A -> res OJsonObject)
    (read : bytes * OJsonObject -> res A) l :
  NoDup (map key l) ->
  Forall (fun a => exists v, value a = mret v /\ read (key a, v) = mret a) l ->
  exists m, put_all key value l NewMap = mret m /\ map_range (OrderedKV m) read = mret l.
Proof.
  intros Hnd Hl.
  destruct (writes_all (fun kvp acc => a ← read kvp; mret (acc ++ [a])) key value
    (fun a acc => acc ++ [a]) l [] NewMap) as (m & Hm & Hw).
  - intros k Hk. by apply not_elem_of_empty in Hk.
  - done.
  - intros k Hk. by apply not_elem_of_nil in Hk.
  - revert Hl. apply Forall_weaken. intros a (v & Hv & Ha). exists v. split; [done|].
    intros x. by rewrite Ha.
  - exists m. split; [done|]. destruct (Hw [] [] (writes_new _ _)) as [_ Hr].
    rewrite for_range_collect, fold_left_collect in Hr.
    apply res_bind_inr in Hr as (l' & Hl' & [= ->]). done.
Qed.

(** ** Accounts *)

Definition storage_ok (s : StorageKeyValuePair) : Prop := string_ok (st_Key s) /\ tree_ok (st_Value s).

Definition acct_ok (a : Account) : Prop :=
  address_ok (acct_Address a) /\ acct_Shard a = JSONUint64Zero /\ acct_IsSmartContract a = false /\
  uint64_ok (acct_Nonce a) /\ bigInt_ok (acct_Balance a) /\
  optional (given (jbs_Value (acct_Username a))) string_ok zeroBytes (acct_Username a) /\
  (NoDup (map (fun s => bytesFromStringToString (st_Key s)) (acct_Storage a)) /\
   Forall storage_ok (acct_Storage a)) /\
  string_ok (acct_Code a) /\
  optional (given (jbs_Value (acct_Owner a))) string_ok zeroBytes (acct_Owner a) /\
  optional (given (acct_ESDTData a))
    (fun l => NoDup (map (fun e => jbs_Original (ed_TokenIdentifier e)) l) /\ Forall esdt_ok l) []
    (acct_ESDTData a).

Lemma storage_back l :
  NoDup (map (fun s => bytesFromStringToString (st_Key s)) l) -> Forall storage_ok l ->
  exists m, put_all (fun st => bytesFromStringToString (st_Key st))
      (fun st => mret (bytesFromTreeToOJ (st_Value st))) l NewMap = mret m /\
    map_range (OrderedKV m) storage_entry = mret l.
Proof.
  intros Hnd Hl. apply entries_back; [done|]. revert Hl. apply Forall_weaken.
  intros s [Hk Hv]. destruct (tree_back _ Hv) as (v & Hj & Hp). exists v. split; [done|].
  unfold storage_entry. rewrite string_original, string_value by done.
  cbn [wrap mbind res_bind mret res_ret]. rewrite Hp. by destruct s as [[] ].
Qed.

Lemma esdts_back l :
  NoDup (map (fun e => jbs_Original (ed_TokenIdentifier e)) l) /\ Forall esdt_ok l ->
  exists j, esdtDataToOJ l = mret j /\
    (kvs ← as_map "invalid ESDT map" j; map_range kvs esdt_entry) = mret l.
Proof.
  intros [Hnd Hl].
  destruct (entries_back _ esdtItemToOJ esdt_entry l Hnd) as (m & Hm & Hr).
  - exact (Forall_weaken _ _ _ esdt_back Hl).
  - unfold esdtDataToOJ. rewrite Hm. exists (ojmap m). by split.
Qed.

Lemma acct_back a :
  acct_ok a -> exists j, accountToOJ a = mret j /\
    account_entry (bytesFromStringToString (acct_Address a), j) = mret a.
Proof.
  intros (Haddr & Hshard & Hsc & Hnonce & Hbal & Huser & [Hnd Hst] & Hcode & Howner & Hesdt).
  unfold accountToOJ. destruct (storage_back _ Hnd Hst) as (m & Hm & Hst').
  destruct (when_back _ _ _ _ _ _ (esdts_back _) Hesdt) as (je & -> & Hesdt').
  cbn [mbind res_bind mret res_ret]. rewrite Hm. eexists. split; [reflexivity|].
  unfold account_entry, processAccount, zeroAccount, NewJSONBytesFromString.
  cbn [fst snd ojmap as_map mbind res_bind mret res_ret].
  erewrite (writes_done _ _ _ _ _ (set_acct_Address zeroBytes a)).
  - cbn [mbind res_bind mret res_ret]. rewrite address_original, Haddr by done. by destruct a.
  - assert (optional (given (acct_Comment a)) (fun _ => True) [] (acct_Comment a)) as Hcomment
      by (by destruct (acct_Comment a)).
    assert (optional (given (acct_AsyncCallData a)) (fun _ => True) [] (acct_AsyncCallData a))
      as Hasync by (by destruct (acct_AsyncCallData a)).
    write_fields.
    + field account_field set_acct_Comment Hcomment. done.
    + required account_field set_acct_Nonce (acct_Nonce a). by rewrite Hnonce.
    + required account_field set_acct_Balance (acct_Balance a). by rewrite Hbal.
    + field account_field set_acct_ESDTData Hesdt'.
      apply res_bind_inr in Hok as (kvs & -> & Hok). cbn [mbind res_bind mret res_ret].
      by rewrite Hok.
    + field account_field set_acct_Username Huser. by rewrite string_back.
    + required account_field set_acct_Storage (acct_Storage a).
      cbn [ojmap as_map mbind res_bind mret res_ret]. by rewrite Hst'.
    + required account_field set_acct_Code (acct_Code a). by rewrite string_back.
    + field account_field set_acct_Owner Howner. by rewrite string_back.
    + field account_field set_acct_AsyncCallData Hasync. done.
  - destruct a. cbn [acct_Shard acct_IsSmartContract] in *. by subst.
Qed.

Definition accounts_ok (l : list Account) : Prop :=
  NoDup (map (fun a => bytesFromStringToString (acct_Address a)) l) /\ Forall acct_ok l.

Lemma accounts_back l :
  accounts_ok l -> exists j, AccountsToOJ l = mret j /\ processAccountMap j = mret l.
Proof.
  intros [Hnd Hl].
  destruct (entries_back _ accountToOJ account_entry l Hnd) as (m & Hm & Hr).
  - exact (Forall_weaken _ _ _ acct_back Hl).
  - unfold AccountsToOJ. rewrite Hm. exists (ojmap m). by split.
Qed.

(** ** Conditions on tokens *)

Definition specified (c : JSONCheckBytes) : bool := negb (jcb_Unspecified c) && given (jcb_Value c).

(** The condition on the [uri] comes back as the one on the creator. *)
Definition checkInstance_ok (i : CheckESDTInstance) : Prop :=
  optional (given (jcu_Original (cei_Nonce i))) checkUint64_ok JSONCheckUint64Unspecified
    (cei_Nonce i) /\
  optional (given (jcbi_Original (cei_Balance i))) (checkBigInt_ok bigIntUnsignedBytes)
    JSONCheckBigIntUnspecified (cei_Balance i) /\
  optional (specified (cei_Creator i)) checkBytes_ok JSONCheckBytesUnspecified (cei_Creator i) /\
  optional (negb (jcu_Unspecified (cei_Royalties i)) && given (jcu_Original (cei_Royalties i)))
    (fun u => checkUint64_ok u /\ jcu_Value u <= 10000) JSONCheckUint64Unspecified
    (cei_Royalties i) /\
  optional (specified (cei_Hash i)) checkBytes_ok JSONCheckBytesUnspecified (cei_Hash i) /\
  optional (specified (cei_Uri i)) (fun u => checkBytes_ok u /\ u = cei_Creator i)
    JSONCheckBytesUnspecified (cei_Uri i) /\
  optional (specified (cei_Attributes i)) checkBytes_ok JSONCheckBytesUnspecified
    (cei_Attributes i).

Lemma checkInstance_back i :
  checkInstance_ok i ->
  exists m, appendCheckESDTInstanceToOJ i NewMap = mret m /\
    writes (in_instances_list tryProcessCheckESDTInstanceField) instance_keys m
      NewCheckESDTInstance i.
Proof.
  intros (Hn & Hb & Hc & Hr & Hh & Hu & Ha). unfold appendCheckESDTInstanceToOJ.
  destruct (when_back _ _ _ _ _ _ (checkBytes_back _) Hc) as (jc & Hjc & Hc').
  destruct (when_back _ _ _ _ _ _ (checkBytes_back _) Hh) as (jh & Hjh & Hh').
  destruct (when_back _ _ (mret (checkBytesToOJ (cei_Creator i))) parseCheckBytes _ _
    (fun H => match H with conj Hok E => eq_ind _ (fun c =>
       exists obj, (mret (checkBytesToOJ c) : res _) = mret obj /\ parseCheckBytes obj = mret (cei_Uri i))
       (checkBytes_back _ Hok) _ E end) Hu) as (ju & Hju & Hu').
  destruct (when_back _ _ _ _ _ _ (checkBytes_back _) Ha) as (ja & Hja & Ha').
  unfold specified in *. rewrite Hjc. cbn [mbind res_bind mret res_ret]. rewrite Hjh.
  cbn [mbind res_bind mret res_ret]. rewrite Hju. cbn [mbind res_bind mret res_ret]. rewrite Hja.
  eexists. split; [reflexivity|].
  unfold instance_keys, NewCheckESDTInstance. cbn [map].
  eapply writes_eq; [write_fields | ].
  - subfield tryProcessCheckESDTInstanceField set_cei_Nonce Hn. by rewrite Hok.
  - subfield tryProcessCheckESDTInstanceField set_cei_Balance Hb. by rewrite Hok.
  - subfield tryProcessCheckESDTInstanceField set_cei_Creator Hc'. by rewrite Hok.
  - subfield tryProcessCheckESDTInstanceField set_cei_Royalties Hr. destruct Hok as [-> Hle]. cbn.
    by rewrite (proj2 (Z.ltb_ge _ _) Hle).
  - subfield tryProcessCheckESDTInstanceField set_cei_Hash Hh'. by rewrite Hok.
  - subfield tryProcessCheckESDTInstanceField set_cei_Uri Hu'. by rewrite Hok.
  - subfield tryProcessCheckESDTInstanceField set_cei_Attributes Ha'. by rewrite Hok.
  - by destruct i.
Qed.

Definition checkInstances_ok (l : list CheckESDTInstance) : Prop :=
  match l with
  | [i] => checkInstance_ok i /\ i <> NewCheckESDTInstance
  | _ => Forall checkInstance_ok l
  end.

Definition checkESDT_ok (e : CheckESDTData) : Prop :=
  string_ok (ced_TokenIdentifier e) /\
  if isCompactCheckESDT e then
    exists balance, checkBigInt_ok bigIntUnsignedBytes balance /\
      e = mkCheckESDTData (ced_TokenIdentifier e) [compactCheckInstance balance] zeroCheckUint64 []
        zeroCheckUint64
  else
    checkInstances_ok (ced_Instances e) /\
    optional (given (jcu_Original (ced_LastNonce e))) checkUint64_ok zeroCheckUint64
      (ced_LastNonce e) /\
    optional (given (ced_Roles e)) (fun _ => True) [] (ced_Roles e) /\
    optional (given (jcu_Original (ced_Frozen e))) checkUint64_ok zeroCheckUint64 (ced_Frozen e).

(** [+] is no expression. *)
Lemma string_not_plus b : string_ok b -> jbs_Original b <> bs "+".
Proof. intros Hb E. apply string_value in Hb. rewrite E in Hb. discriminate. Qed.

Lemma checkESDT_value_back e :
  checkESDT_ok e -> exists j, checkESDTItemToOJ e = mret j /\
    processCheckESDTData (ced_TokenIdentifier e) j = mret e.
Proof.
  intros [Htok He]. unfold checkESDTItemToOJ.
  destruct (isCompactCheckESDT e).
  { destruct He as (balance & Hb & He). rewrite He. cbn [ced_Instances ced_TokenIdentifier].
    eexists. split; [reflexivity|]. unfold processCheckESDTData, checkBigIntToOJ.
    cbn [cei_Balance compactCheckInstance].
    change (OString (jcbi_Original balance)) with (checkBigIntToOJ balance).
    cbn [wrap mbind]. unfold checkBigInt_ok in Hb. by rewrite Hb. }
  destruct He as (Hi & Hn & Hr & Hf).
  destruct (instances_back checkInstance_ok appendCheckESDTInstanceToOJ
    tryProcessCheckESDTInstanceField NewCheckESDTInstance checkESDTData_field (ced_Instances e)
    (mkCheckESDTData (ced_TokenIdentifier e) [] zeroCheckUint64 [] zeroCheckUint64)
    checkInstance_back) as (m & i & loaded & explicit & Hm & Hw & Hl); [| |exact Hi|].
  { intros kvp i i' loaded Htry. unfold checkESDTData_field. destruct kvp. by rewrite Htry. }
  { intros value x Hx. unfold checkESDTData_field, tryProcessCheckESDTInstanceField. at_key.
    cbn [wrap mbind res_bind mret res_ret]. unfold processCheckESDTInstances. by rewrite Hx. }
  rewrite Hm. eexists. split; [reflexivity|]. unfold processCheckESDTData, processCheckESDTDataMap.
  cbn [ojmap]. erewrite (writes_done _ _ _ _ _
    (mkCheckESDTData (ced_TokenIdentifier e) [] (ced_LastNonce e) (ced_Roles e) (ced_Frozen e), i,
     loaded, explicit)).
  - cbn [wrap mbind res_bind mret res_ret set_ced_Instances]. rewrite Hl. by destruct e.
  - write_fields.
    + datafield checkESDTData_field tryProcessCheckESDTInstanceField set_ced_LastNonce Hn.
      by rewrite Hok.
    + datafield checkESDTData_field tryProcessCheckESDTInstanceField set_ced_Roles Hr.
      by rewrite roles_back.
    + datafield checkESDTData_field tryProcessCheckESDTInstanceField set_ced_Frozen Hf.
      by rewrite Hok.
  - reflexivity.
Qed.

Lemma checkESDT_back e :
  checkESDT_ok e -> exists j, checkESDTItemToOJ e = mret j /\ forall acct,
    check_esdt_entry (jbs_Original (ced_TokenIdentifier e), j) acct =
      mret (set_ca_CheckESDTData (ca_CheckESDTData acct ++ [e]) acct).
Proof.
  intros He. destruct (checkESDT_value_back e He) as (j & Hj & Hp). destruct He as [Htok _].
  exists j. split; [done|]. intros acct. unfold check_esdt_entry.
  rewrite text_eqb_ne by (by apply string_not_plus). rewrite (string_value _ Htok).
  cbn [wrap mbind res_bind mret res_ret].
  replace (NewJSONBytesFromString (jbs_Value (ced_TokenIdentifier e)) _) with (ced_TokenIdentifier e)
    by (by destruct (ced_TokenIdentifier e)).
  by rewrite Hp.
Qed.

(** ** Conditions on accounts *)

(** The fields for the tokens, and those for the storage, are read together. *)
Definition set_esdt (v : bool * list CheckESDTData * bool) (r : CheckAccount) : CheckAccount :=
  let '(ignore, data, more) := v in
  let '(mkCheckAccount x1 x2 x3 x4 x5 x6 x7 x8 x9 x10 x11 _ _ _) := r in
  mkCheckAccount x1 x2 x3 x4 x5 x6 x7 x8 x9 x10 x11 data ignore more.

Definition esdt_of (a : CheckAccount) : bool * list CheckESDTData * bool :=
  (ca_IgnoreESDT a, ca_CheckESDTData a, ca_MoreESDTTokensAllowed a).

Definition set_storage (v : bool * list CheckStorageKeyValuePair * bool) (r : CheckAccount) :
    CheckAccount :=
  let '(ignore, storage, more) := v in
  let '(mkCheckAccount x1 x2 x3 x4 x5 _ _ _ x9 x10 x11 x12 x13 x14) := r in
  mkCheckAccount x1 x2 x3 x4 x5 storage ignore more x9 x10 x11 x12 x13 x14.

Definition storage_of (a : CheckAccount) : bool * list CheckStorageKeyValuePair * bool :=
  (ca_IgnoreStorage a, ca_CheckStorage a, ca_MoreStorageAllowed a).

Definition has_esdt (a : CheckAccount) : bool := ca_IgnoreESDT a || given (ca_CheckESDTData a).

(** More tokens are only allowed along with some. *)
Definition checkESDTs_ok (a : CheckAccount) : Prop :=
  if ca_IgnoreESDT a then ca_CheckESDTData a = [] /\ ca_MoreESDTTokensAllowed a = false
  else if given (ca_CheckESDTData a) then
    NoDup (map (fun e => jbs_Original (ced_TokenIdentifier e)) (ca_CheckESDTData a)) /\
    Forall checkESDT_ok (ca_CheckESDTData a)
  else ca_CheckESDTData a = [] /\ ca_MoreESDTTokensAllowed a = false.

Definition checkStorageEntry_ok (s : CheckStorageKeyValuePair) : Prop :=
  string_ok (cst_Key s) /\ checkBytes_ok (cst_CheckValue s).

Definition checkStorage_ok (a : CheckAccount) : Prop :=
  if ca_IgnoreStorage a then ca_CheckStorage a = [] /\ ca_MoreStorageAllowed a = false
  else
    NoDup (map (fun s => bytesFromStringToString (cst_Key s)) (ca_CheckStorage a)) /\
    Forall checkStorageEntry_ok (ca_CheckStorage a).

Lemma fold_esdts l acct :
  fold_left (fun x e => set_ca_CheckESDTData (ca_CheckESDTData x ++ [e]) x) l acct =
    set_ca_CheckESDTData (ca_CheckESDTData acct ++ l) acct.
Proof.
  revert acct. induction l as [|e l IH]; cbn; intros acct; [destruct acct; cbn; by rewrite app_nil_r|].
  rewrite IH. destruct acct. cbn. by rewrite <- app_assoc.
Qed.

Lemma fold_storage l acct :
  fold_left (fun x e => set_ca_CheckStorage (ca_CheckStorage x ++ [e]) x) l acct =
    set_ca_CheckStorage (ca_CheckStorage acct ++ l) acct.
Proof.
  revert acct. induction l as [|e l IH]; cbn; intros acct; [destruct acct; cbn; by rewrite app_nil_r|].
  rewrite IH. destruct acct. cbn. by rewrite <- app_assoc.
Qed.

(** The keys that [writes_all] gives, when none is [+]. *)
Lemma plus_other {A} (key : A -> bytes) l :
  Forall (fun a => key a <> bs "+") l -> bs "+" ∉ rev (map key l) ++ [].
Proof.
  intros Hl. rewrite app_nil_r, list_elem_of_In, <- in_rev, in_map_iff. intros (a & Ha & Hin).
  rewrite List.Forall_forall in Hl. by apply (Hl a Hin).
Qed.

Lemma checkESDTs_back a :
  checkESDTs_ok a ->
  exists j, when_written (has_esdt a)
    (if ca_IgnoreESDT a then mret (stringToOJ (bs "*"))
     else checkESDTDataToOJ (ca_CheckESDTData a) (ca_MoreESDTTokensAllowed a)) = mret j /\
    forall x, esdt_of x = (false, [], false) ->
      if has_esdt a then checkAccount_field (bs "esdt", j) x = mret (set_esdt (esdt_of a) x)
      else set_esdt (esdt_of a) x = x.
Proof.
  unfold checkESDTs_ok, has_esdt, esdt_of. intros H. destruct (ca_IgnoreESDT a).
  { destruct H as [-> ->]. eexists. split; [reflexivity|]. intros x. destruct x. cbn.
    by intros [= -> -> ->]. }
  destruct (given (ca_CheckESDTData a)) eqn:Hg; cbn [orb when_written].
  - destruct H as [Hnd Hl]. unfold checkESDTDataToOJ.
    assert (Forall (fun e => jbs_Original (ced_TokenIdentifier e) <> bs "+") (ca_CheckESDTData a))
      as Hplus by (revert Hl; apply Forall_weaken; intros e [He _]; by apply string_not_plus).
    destruct (writes_all check_esdt_entry _ checkESDTItemToOJ _ _ [] NewMap
      ltac:(intros k Hk; by apply not_elem_of_empty in Hk) Hnd
      ltac:(intros k Hk; by apply not_elem_of_nil in Hk) (Forall_weaken _ _ _ checkESDT_back Hl))
      as (m & Hm & Hw).
    rewrite Hm. eexists. split; [reflexivity|]. intros x Hx.
    unfold checkAccount_field. at_key. cbn [IsStar ojmap as_map mbind res_bind mret res_ret].
    replace (set_ca_IgnoreESDT false x) with x by (destruct x; cbn in *; by injection Hx as -> -> ->).
    specialize (Hw x x (writes_new _ _)). rewrite fold_esdts in Hw.
    eapply writes_done; [eapply (writes_put_if _ _ _ _ _ _ _ _ (set_esdt
      (false, ca_CheckESDTData a, ca_MoreESDTTokensAllowed a) x) Hw)|reflexivity].
    + by apply plus_other.
    + destruct x. cbn in *. injection Hx as -> -> ->. by destruct (ca_MoreESDTTokensAllowed a).
  - destruct H as [-> ->]. eexists. split; [reflexivity|]. intros x. destruct x. cbn.
    by intros [= -> -> ->].
Qed.

Lemma checkStorageEntry_back e :
  checkStorageEntry_ok e -> exists j, (mret (checkBytesToOJ (cst_CheckValue e)) : res _) = mret j /\ forall acct,
    check_storage_entry (bytesFromStringToString (cst_Key e), j) acct =
      mret (set_ca_CheckStorage (ca_CheckStorage acct ++ [e]) acct).
Proof.
  intros [Hk Hv]. destruct (checkBytes_back _ Hv) as (j & Hj & Hp). exists j. split; [done|].
  intros acct. unfold check_storage_entry. rewrite string_original by done.
  rewrite text_eqb_ne, string_value by (done || by apply string_not_plus).
  cbn [wrap mbind res_bind mret res_ret]. rewrite Hp. by destruct e as [[] ].
Qed.

Lemma checkStorage_back a :
  checkStorage_ok a ->
  exists j, checkStorageToOJ a = mret j /\ forall x, storage_of x = (false, [], false) ->
    checkAccount_field (bs "storage", j) x = mret (set_storage (storage_of a) x).
Proof.
  unfold checkStorage_ok, checkStorageToOJ, storage_of. intros H. destruct (ca_IgnoreStorage a).
  { destruct H as [-> ->]. eexists. split; [reflexivity|]. intros x. destruct x. cbn.
    by intros [= -> -> ->]. }
  destruct H as [Hnd Hl].
  assert (Forall (fun e => bytesFromStringToString (cst_Key e) <> bs "+") (ca_CheckStorage a))
    as Hplus by (revert Hl; apply Forall_weaken; intros e [He _]; rewrite string_original by done;
      by apply string_not_plus).
  destruct (writes_all check_storage_entry _ (fun st => mret (checkBytesToOJ (cst_CheckValue st))) _ _ []
    NewMap ltac:(intros k Hk; by apply not_elem_of_empty in Hk) Hnd
    ltac:(intros k Hk; by apply not_elem_of_nil in Hk)
    (Forall_weaken _ _ _ checkStorageEntry_back Hl)) as (m & Hm & Hw).
  rewrite Hm. eexists. split; [reflexivity|]. intros x Hx.
  unfold checkAccount_field. at_key. cbn [IsStar ojmap as_map mbind res_bind mret res_ret].
  replace (set_ca_IgnoreStorage false x) with x by (destruct x; cbn in *; by injection Hx as -> -> ->).
  specialize (Hw x x (writes_new _ _)). rewrite fold_storage in Hw.
  eapply writes_done; [eapply (writes_put_if _ _ _ _ _ _ _ _ (set_storage
    (false, ca_CheckStorage a, ca_MoreStorageAllowed a) x) Hw)|reflexivity].
  - by apply plus_other.
  - destruct x. cbn in *. injection Hx as -> -> ->. by destruct (ca_MoreStorageAllowed a).
Qed.

Definition checkAccount_ok (a : CheckAccount) : Prop :=
  let given_ok c := optional (negb (jcb_Unspecified c)) checkBytes_ok JSONCheckBytesUnspecified c in
  address_ok (ca_Address a) /\
  optional (negb (jcu_Unspecified (ca_Nonce a))) checkUint64_ok JSONCheckUint64Unspecified
    (ca_Nonce a) /\
  optional (negb (jcbi_Unspecified (ca_Balance a))) (checkBigInt_ok bigIntUnsignedBytes)
    JSONCheckBigIntUnspecified (ca_Balance a) /\
  given_ok (ca_Username a) /\ given_ok (ca_Code a) /\ given_ok (ca_Owner a) /\
  given_ok (ca_AsyncCallData a) /\ checkESDTs_ok a /\ checkStorage_ok a.

Lemma checkAccount_value_back a :
  checkAccount_ok a -> exists j, checkAccountToOJ a = mret j /\
    processCheckAccount j = mret (set_ca_Address zeroBytes a).
Proof.
  intros (Haddr & Hn & Hb & Hu & Hc & Ho & Ha & Hesdt & Hst). unfold checkAccountToOJ.
  destruct (checkESDTs_back a Hesdt) as (je & Hje & Hesdt'). unfold has_esdt in *. rewrite Hje.
  cbn [mbind res_bind mret res_ret].
  destruct (when_back _ _ _ _ _ _ (checkBytes_back _) Hu) as (ju & -> & Hu').
  destruct (checkStorage_back a Hst) as (js & Hjs & Hst'). cbn [mbind res_bind mret res_ret].
  rewrite Hjs. cbn [mbind res_bind mret res_ret].
  destruct (when_back _ _ _ _ _ _ (checkBytes_back _) Hc) as (jc & -> & Hc').
  destruct (when_back _ _ _ _ _ _ (checkBytes_back _) Ho) as (jo & Hjo & Ho').
  cbn [mbind res_bind mret res_ret]. rewrite Hjo. cbn [mbind res_bind mret res_ret].
  destruct (when_back _ _ _ _ _ _ (checkBytes_back _) Ha) as (ja & -> & Ha').
  eexists. split; [reflexivity|].
  assert (optional (given (ca_Comment a)) (fun _ => True) [] (ca_Comment a)) as Hcomment
    by (by destruct (ca_Comment a)).
  unfold processCheckAccount, zeroCheckAccount. cbn [ojmap as_map mbind res_bind mret res_ret].
  eapply writes_done; [write_fields | ].
  - field checkAccount_field set_ca_Comment Hcomment. done.
  - field checkAccount_field set_ca_Nonce Hn. by rewrite Hok.
  - field checkAccount_field set_ca_Balance Hb. by rewrite Hok.
  - lazymatch goal with |- if _ then checkAccount_field _ ?x = _ else _ =>
      specialize (Hesdt' x eq_refl); lazy beta iota zeta delta [set_esdt esdt_of] in Hesdt';
      exact Hesdt'
    end.
  - field checkAccount_field set_ca_Username Hu'. by rewrite Hok.
  - lazymatch goal with |- checkAccount_field _ ?x = _ =>
      specialize (Hst' x eq_refl); lazy beta iota zeta delta [set_storage storage_of] in Hst';
      exact Hst'
    end.
  - field checkAccount_field set_ca_Code Hc'. by rewrite Hok.
  - field checkAccount_field set_ca_Owner Ho'. by rewrite Hok.
  - field checkAccount_field set_ca_AsyncCallData Ha'. by rewrite Hok.
  - by destruct a.
Qed.

Lemma checkAccount_back a :
  checkAccount_ok a -> exists j, checkAccountToOJ a = mret j /\ forall accounts,
    check_account_entry (bytesFromStringToString (ca_Address a), j) accounts =
      mret (set_cas_Accounts (cas_Accounts accounts ++ [a]) accounts).
Proof.
  intros Ha. destruct (checkAccount_value_back a Ha) as (j & Hj & Hp). destruct Ha as [Haddr _].
  exists j. split; [done|]. intros accounts. unfold check_account_entry.
  rewrite address_original by done.
  rewrite text_eqb_ne by (intros E; unfold address_ok in Haddr; rewrite E in Haddr; discriminate).
  rewrite Hp. cbn [mbind res_bind mret res_ret]. rewrite Haddr. by destruct a.
Qed.

Lemma fold_accounts l accounts :
  fold_left (fun x a => set_cas_Accounts (cas_Accounts x ++ [a]) x) l accounts =
    set_cas_Accounts (cas_Accounts accounts ++ l) accounts.
Proof.
  revert accounts. induction l as [|a l IH]; cbn; intros accounts.
  - destruct accounts. cbn. by rewrite app_nil_r.
  - rewrite IH. destruct accounts. cbn. by rewrite <- app_assoc.
Qed.

Definition checkAccounts_ok (c : CheckAccounts) : Prop :=
  NoDup (map (fun a => bytesFromStringToString (ca_Address a)) (cas_Accounts c)) /\
  Forall checkAccount_ok (cas_Accounts c).

Lemma checkAccounts_back c :
  checkAccounts_ok c ->
  exists j, checkAccountsToOJ (Some c) = mret j /\ processCheckAccountMap j = mret c.
Proof.
  intros [Hnd Hl].
  assert (Forall (fun a => bytesFromStringToString (ca_Address a) <> bs "+") (cas_Accounts c))
    as Hplus.
  { revert Hl. apply Forall_weaken. intros a [Ha _] E. rewrite address_original in E by done.
    unfold address_ok in Ha. rewrite E in Ha. discriminate. }
  destruct (writes_all check_account_entry _ checkAccountToOJ _ _ [] NewMap
    ltac:(intros k Hk; by apply not_elem_of_empty in Hk) Hnd
    ltac:(intros k Hk; by apply not_elem_of_nil in Hk) (Forall_weaken _ _ _ checkAccount_back Hl))
    as (m & Hm & Hw).
  unfold checkAccountsToOJ. cbn [deref_res mbind res_bind]. rewrite Hm. eexists.
  split; [reflexivity|]. unfold processCheckAccountMap. cbn [ojmap as_map mbind res_bind mret res_ret].
  specialize (Hw _ _ (writes_new _ (mkCheckAccounts [] false))). rewrite fold_accounts in Hw.
  eapply writes_done; [eapply (writes_put_if _ _ _ _ _ _ _ _ c Hw)|reflexivity].
  - by apply plus_other.
  - destruct c as [accounts more]. by destruct more.
Qed.

(** ** Blocks and new addresses *)

Definition blockInfo_ok (b : BlockInfo) : Prop :=
  optional (given (ju_Original (bi_BlockTimestamp b))) uint64_ok zeroUint64 (bi_BlockTimestamp b) /\
  optional (given (ju_Original (bi_BlockNonce b))) uint64_ok zeroUint64 (bi_BlockNonce b) /\
  optional (given (ju_Original (bi_BlockRound b))) uint64_ok zeroUint64 (bi_BlockRound b) /\
  optional (given (ju_Original (bi_BlockEpoch b))) uint64_ok zeroUint64 (bi_BlockEpoch b) /\
  match bi_BlockRandomSeed b with
  | Some seed => tree_ok seed /\ len (jbt_Value seed) = 48
  | None => True
  end.

Lemma blockInfo_back b :
  blockInfo_ok b -> exists j, blockInfoToOJ b = mret j /\ processBlockInfo j = mret b.
Proof.
  intros (Ht & Hn & Hr & He & Hs). unfold blockInfoToOJ.
  destruct (written_some_back (fun seed => tree_ok seed /\ len (jbt_Value seed) = 48)
    (fun b => mret (bytesFromTreeToOJ b)) processSubTreeAsByteArray (bi_BlockRandomSeed b)) as (js & -> & Hs');
    [intros a [Ha _]; by apply tree_back | exact Hs|].
  eexists. split; [reflexivity|]. unfold processBlockInfo, zeroBlockInfo.
  cbn [ojmap as_map mbind res_bind mret res_ret]. eapply writes_done; [write_fields | ].
  - field blockInfo_field set_bi_BlockTimestamp Ht. by rewrite Hok.
  - field blockInfo_field set_bi_BlockNonce Hn. by rewrite Hok.
  - field blockInfo_field set_bi_BlockRound Hr. by rewrite Hok.
  - field blockInfo_field set_bi_BlockEpoch He. by rewrite Hok.
  - pointer blockInfo_field set_bi_BlockRandomSeed Hs'. rewrite Ho in Hs. destruct Hs as [_ Hlen].
    rewrite Hok. cbn. by rewrite (proj2 (Z.eqb_eq _ _) Hlen).
  - by destruct b.
Qed.

Definition nam_ok (n : NewAddressMock) : Prop :=
  address_ok (nam_CreatorAddress n) /\ uint64_ok (nam_CreatorNonce n) /\ address_ok (nam_NewAddress n).

Lemma nam_back n : nam_ok n -> nam_entry (newAddressMockToOJ n) = mret n.
Proof.
  intros (Hc & Hn & Ha). unfold nam_entry, newAddressMockToOJ, zeroNewAddressMock.
  cbn [ojmap as_map mbind res_bind mret res_ret]. eapply writes_done; [write_fields | ].
  - required nam_field set_nam_CreatorAddress (nam_CreatorAddress n).
    unfold bytesFromStringToOJ. cbn [wrap parseString mbind res_bind mret res_ret].
    by rewrite address_original, Hc.
  - required nam_field set_nam_CreatorNonce (nam_CreatorNonce n). by rewrite Hn.
  - required nam_field set_nam_NewAddress (nam_NewAddress n).
    unfold bytesFromStringToOJ. cbn [wrap parseString mbind res_bind mret res_ret].
    by rewrite address_original, Ha.
  - by destruct n.
Qed.

Lemma nams_back l :
  Forall nam_ok l -> processNewAddressMocks (newAddressMocksToOJ l) = mret l.
Proof.
  intros Hl. unfold processNewAddressMocks, newAddressMocksToOJ.
  cbn [as_list mbind res_bind mret res_ret]. by apply (pure_list_back nam_ok); [exact nam_back|].
Qed.

Lemma hashes_back l : Forall string_ok l -> parseByteArrayList (blockHashesToOJ l) = mret l.
Proof.
  intros Hl. unfold parseByteArrayList, parse_list, blockHashesToOJ.
  cbn [as_list mbind res_bind mret res_ret]. by apply (pure_list_back string_ok); [exact string_back|].
Qed.

(** ** Steps *)

Definition setState_ok (s : SetStateStep) : Prop :=
  optional (given (set_Accounts s)) accounts_ok [] (set_Accounts s) /\
  Forall nam_ok (set_NewAddressMocks s) /\
  match set_PreviousBlockInfo s with Some b => blockInfo_ok b | None => True end /\
  match set_CurrentBlockInfo s with Some b => blockInfo_ok b | None => True end /\
  Forall string_ok (set_BlockHashes s).

(** A step that is not for a contract has no expected result. *)
Definition txStep_ok (s : TxStep) : Prop :=
  match step_Tx s with
  | Some tx =>
      tx_ok tx /\
      match step_ExpectedResult s with
      | Some r => IsSmartContractTx (tx_Type tx) = true /\ result_ok r
      | None => True
      end
  | None => False
  end.

Definition step_ok (s : Step) : Prop :=
  match s with
  | ExternalSteps _ | DumpState _ => True
  | SetState s => setState_ok s
  | CheckState s => match chk_CheckAccounts s with Some c => checkAccounts_ok c | None => False end
  | TxSteps s => txStep_ok s
  end.

Definition commented (s : bytes) : optional (given s) (fun _ => True) [] s.
Proof. by destruct s. Qed.

Lemma given_list {A} (ok : A -> Prop) l : Forall ok l -> optional (given l) (Forall ok) [] l.
Proof. by destruct l. Qed.

Lemma skip_if {T} (c : bool) (read : res T) x x' :
  read = mret x -> x' = x -> if c then read = mret x' else x' = x.
Proof. intros ? ->. by destruct c. Qed.

Lemma skip_opt {A T} (o : option A) (read : A -> res T) x x' :
  (forall a, read a = mret x) -> x' = x ->
  match o with Some a => read a = mret x' | None => x' = x end.
Proof. intros ? ->. by destruct o. Qed.

(** The key [step] is among the others: they are skipped. *)
Ltac skip_fields :=
  eapply writes_done;
  [write_fields;
   first [reflexivity | (eapply skip_if; reflexivity) | (eapply skip_opt; [intro|]; reflexivity)]
  |reflexivity].

(** The kind of a step is found, and its fields are read to [value]. *)
Ltac step_of name value :=
  eexists; split; [reflexivity|]; unfold processScenarioStep; cbn [ojmap as_map mbind res_bind mret res_ret];
  match goal with |- context [for_range ?l step_type []] =>
    let H := fresh in assert (H : for_range l step_type [] = mret name) by skip_fields;
    rewrite H; clear H
  end;
  cbn [mbind res_bind mret res_ret]; at_key;
  match goal with |- context [for_range ?l ?f ?init] =>
    let H := fresh in assert (H : for_range l f init = mret value); [|by rewrite H]
  end.

Lemma ext_back s :
  exists j, stepToOJ (ExternalSteps s) = mret j /\ processScenarioStep j = mret (ExternalSteps s).
Proof.
  pose proof (commented (ext_Comment s)) as Hcomment.
  unfold stepToOJ. cbn [StepTypeName mbind res_bind mret res_ret].
  step_of StepNameExternalSteps s.
  eapply writes_done; [write_fields | ].
  - unfold ext_field. at_key. reflexivity.
  - field ext_field set_ext_Comment Hcomment. done.
  - required ext_field set_ext_Path (ext_Path s). done.
  - by destruct s.
Qed.

Lemma dump_back s :
  exists j, stepToOJ (DumpState s) = mret j /\ processScenarioStep j = mret (DumpState s).
Proof.
  pose proof (commented (dump_Comment s)) as Hcomment.
  unfold stepToOJ. cbn [StepTypeName mbind res_bind mret res_ret].
  step_of StepNameDumpState s.
  eapply writes_done; [write_fields | ].
  - unfold dumpState_field. at_key. reflexivity.
  - field dumpState_field set_dump_Comment Hcomment. done.
  - by destruct s.
Qed.

Lemma checkState_back s :
  step_ok (CheckState s) ->
  exists j, stepToOJ (CheckState s) = mret j /\ processScenarioStep j = mret (CheckState s).
Proof.
  pose proof (commented (chk_Comment s)) as Hcomment. cbn [step_ok].
  destruct (chk_CheckAccounts s) as [c|] eqn:Hs; [|done]. intros Hc.
  destruct (checkAccounts_back c Hc) as (j & Hj & Hp).
  unfold stepToOJ. cbn [StepTypeName mbind res_bind mret res_ret]. rewrite Hs, Hj.
  cbn [mbind res_bind mret res_ret]. step_of StepNameCheckState s.
  eapply writes_done; [write_fields | ].
  - unfold checkState_field. at_key. reflexivity.
  - field checkState_field set_chk_Comment Hcomment. done.
  - required checkState_field set_chk_CheckAccounts (Some c). by rewrite Hp.
  - destruct s. cbn [chk_CheckAccounts] in Hs. by subst.
Qed.

Lemma setState_back s :
  setState_ok s ->
  exists j, stepToOJ (SetState s) = mret j /\ processScenarioStep j = mret (SetState s).
Proof.
  intros (Hacc & Hnam & Hprev & Hcur & Hhash). pose proof (commented (set_Comment s)) as Hcomment.
  unfold stepToOJ. cbn [StepTypeName mbind res_bind mret res_ret].
  destruct (when_back _ _ _ _ _ _ (accounts_back _) Hacc) as (ja & -> & Hacc').
  destruct (written_some_back _ _ _ _ blockInfo_back Hprev) as (jp & Hjp & Hprev').
  destruct (written_some_back _ _ _ _ blockInfo_back Hcur) as (jc & Hjc & Hcur').
  cbn [mbind res_bind mret res_ret]. rewrite Hjp. cbn [mbind res_bind mret res_ret]. rewrite Hjc.
  cbn [mbind res_bind mret res_ret].
  pose proof (given_list _ _ Hnam) as Hnam'. pose proof (given_list _ _ Hhash) as Hhash'.
  step_of StepNameSetState s.
  eapply writes_done; [write_fields | ].
  - unfold setState_field. at_key. reflexivity.
  - field setState_field set_set_Comment Hcomment. done.
  - field setState_field set_set_Accounts Hacc'. by rewrite Hok.
  - field setState_field set_set_NewAddressMocks Hnam'. by rewrite nams_back.
  - pointer setState_field set_set_PreviousBlockInfo Hprev'. by rewrite Hok.
  - pointer setState_field set_set_CurrentBlockInfo Hcur'. by rewrite Hok.
  - field setState_field set_set_BlockHashes Hhash'. by rewrite hashes_back.
  - by destruct s.
Qed.

(** A step with a transaction is read as its name says. *)
Lemma processScenarioStep_tx txType m :
  for_range (OrderedKV m) step_type [] = mret (TxStepTypeName txType) ->
  processScenarioStep (ojmap m) = (step ← parseTxStep txType (OrderedKV m); mret (TxSteps step)).
Proof.
  intros H. unfold processScenarioStep. cbn [ojmap as_map mbind res_bind mret res_ret].
  rewrite H. cbn [mbind res_bind mret res_ret]. by destruct txType.
Qed.

Lemma txStep_back s :
  txStep_ok s ->
  exists j, stepToOJ (TxSteps s) = mret j /\ processScenarioStep j = mret (TxSteps s).
Proof.
  unfold txStep_ok. destruct (step_Tx s) as [tx|] eqn:Hs; [|done]. intros [Htx Hres].
  destruct (tx_back tx Htx) as (jt & Hjt & Hpt).
  assert (exists o, written_some resultToOJ
      (if IsSmartContractTx (tx_Type tx) then step_ExpectedResult s else None) = mret o /\
    opt_back processTxExpectedResult (step_ExpectedResult s) o) as (jr & Hjr & Hres').
  { destruct (step_ExpectedResult s) as [r|]; [destruct Hres as [-> Hr]|by case_match; exists None].
    by apply (written_some_back _ _ _ _ result_back). }
  pose proof (commented (step_Comment s)) as Hcomment.
  pose proof (commented (step_TxIdent s)) as Hident.
  unfold stepToOJ, StepTypeName. rewrite Hs. cbn [deref_res mbind res_bind mret res_ret].
  rewrite Hjt. cbn [mbind res_bind mret res_ret]. rewrite Hjr. cbn [mbind res_bind mret res_ret].
  eexists. split; [reflexivity|].
  rewrite (processScenarioStep_tx (tx_Type tx)) by skip_fields.
  unfold parseTxStep.
  match goal with |- context [for_range ?l ?f ?init] =>
    assert (for_range l f init = mret s) as ->; [|done]
  end.
  eapply writes_done; [write_fields | ].
  - unfold txStep_field. at_key. reflexivity.
  - field txStep_field set_step_TxIdent Hident. done.
  - field txStep_field set_step_Comment Hcomment. done.
  - required txStep_field set_step_Tx (Some tx). by rewrite Hpt.
  - pointer txStep_field set_step_ExpectedResult Hres'. cbn [step_Tx deref_res mbind res_bind mret res_ret].
    rewrite Ho in Hres. destruct Hres as [-> _]. cbn [negb]. by rewrite Hok.
  - destruct s. cbn [step_Tx] in Hs. by subst.
Qed.

Lemma step_back s :
  step_ok s -> exists j, stepToOJ s = mret j /\ processScenarioStep j = mret s.
Proof.
  destruct s as [s|s|s|s|s].
  all: first [intros _; apply ext_back | intros _; apply dump_back | apply checkState_back
             | apply setState_back | apply txStep_back].
Qed.

(** ** Scenarios *)

Definition scenario_ok (s : Scenario) : Prop := Forall step_ok (sc_Steps s).

Lemma gasSchedule_back g : parseGasSchedule (gasScheduleToOJ g) = mret g.
Proof. by destruct g. Qed.

Lemma scenario_back s :
  scenario_ok s ->
  exists j, ScenarioToOrderedJSON s = mret (ojmap j) /\
    for_range (OrderedKV j) scenario_field (mkScenario [] [] true GasScheduleDefault []) = mret s.
Proof.
  intros Hs. destruct (list_back _ _ _ _ step_back Hs) as (objs & Hobjs & Hp).
  pose proof (commented (sc_Name s)) as Hname. pose proof (commented (sc_Comment s)) as Hcomment.
  assert (optional (negb (sc_CheckGas s)) (fun b => b = false) true (sc_CheckGas s)) as Hgas
    by by destruct (sc_CheckGas s).
  unfold ScenarioToOrderedJSON. rewrite Hobjs. cbn [mbind res_bind mret res_ret].
  eexists. split; [reflexivity|].
  eapply writes_done; [write_fields | ].
  - field scenario_field set_sc_Name Hname. done.
  - field scenario_field set_sc_Comment Hcomment. done.
  - field scenario_field set_sc_CheckGas Hgas. by rewrite Hok.
  - required scenario_field set_sc_GasSchedule (sc_GasSchedule s). by rewrite gasSchedule_back.
  - required scenario_field set_sc_Steps (sc_Steps s). unfold processScenarioStepList.
    cbn [as_list mbind res_bind mret res_ret]. by rewrite Hp.
  - by destruct s.
Qed.

(** A blank line ends a file. *)
Lemma parse_json_line j :
  printable j = true -> (forall b, j <> OBool b) ->
  parse_json (JSONString j ++ [newline]) = mret (Some j).
Proof.
  intros Hp Hj. unfold parse_json, ParseOrderedJSON, JSONString, initial.
  pose proof (printable_reads j Hp 0) as H.
  assert (reads_to (writeJSON j 0) j) as H'
    by (destruct j as [s kv|l|v|b|]; [done..|by destruct (Hj b)|done]).
  by rewrite (read_all_app _ _ _ _ _ (H' Byte.x00 [])).
Qed.

(** C31: a scenario that keeps to what files can say ([scenario_ok]) is written without an
    error, and the file - its tree, indented, and an empty line - is parsed to the same
    scenario, every step, account, token, transaction, result and check in its place, as long
    as all texts of it are printable, so that none needs an escape.  A scenario keeps to it
    when every value is what its original means; what is not written has its default, so
    shards of accounts and nonces of transactions are zero and no account is marked as a
    contract; what is optional is absent or not empty; a single instance of a token is not
    the empty one; accounts, storage keys and tokens do not occur twice; a token
    written as one number has nothing else; a hash of logs is no star; what is not to be
    checked is not described; more tokens are allowed only along with some; royalties are at
    most 10000, creators 32 bytes and seeds 48 bytes long; transactions and checks are there,
    and only transactions of contracts have expected results.  One condition is due to the
    writer: a check of the uri of a token is the check of its creator, which is what is
    written for it. *)
Theorem scenario_file_roundtrip s :
  scenario_ok s ->
  exists m, ScenarioToOrderedJSON s = mret (ojmap m) /\
    ScenarioToJSONString s = mret (JSONString (ojmap m) ++ [newline]) /\
    (printable (ojmap m) = true -> ParseScenarioFile (JSONString (ojmap m) ++ [newline]) = mret s).
Proof.
  intros Hs. destruct (scenario_back s Hs) as (m & Hm & Hp). exists m. split; [exact Hm|].
  split; [by unfold ScenarioToJSONString; rewrite Hm|]. intros Hprint.
  unfold ParseScenarioFile. by rewrite parse_json_line.
Qed.

End Roundtrip.

(** ** Witness *)

(** A text with quotes for double quotes. *)
Definition with_quotes (text : string) : bytes :=
  map (fun c => if byte_eqb c Byte.x27 then quote else c) (bs text).

Definition sample_text : bytes := with_quotes "
{ 'name': 'sample', 'checkGas': false, 'gasSchedule': 'v3',
  'steps': [
    { 'step': 'externalSteps', 'path': 'init.scen.json' },
    { 'step': 'setState', 'comment': 'two accounts',
      'accounts': {
        'address:alice': { 'nonce': '1', 'balance': '1,000',
          'esdt': { 'str:TOK-123456': '500' } },
        'sc:adder': { 'nonce': '0', 'balance': '0', 'storage': { 'str:sum': '5' },
          'code': 'str:adder' } },
      'newAddresses': [
        { 'creatorAddress': 'address:alice', 'creatorNonce': '1', 'newAddress': 'sc:new' } ],
      'currentBlockInfo': { 'blockTimestamp': '0x10', 'blockNonce': '7' } },
    { 'step': 'scCall', 'txId': 'add',
      'tx': { 'from': 'address:alice', 'to': 'sc:adder', 'value': '0', 'function': 'add',
        'arguments': [ '3', [ 'u32:1', 'str:x' ] ], 'gasLimit': '5,000,000', 'gasPrice': '0' },
      'expect': { 'out': [ '8', '*' ], 'status': '0', 'gas': '*', 'refund': '*' } },
    { 'step': 'checkState',
      'accounts': {
        'sc:adder': { 'nonce': '*', 'balance': '0', 'storage': { 'str:sum': '8' }, 'code': '*' },
        '+': '' } } ] }"%string.

Definition sample_scenario : Scenario :=
  Eval vm_compute in
    match ParseScenarioFile sample_text with
    | Ret (inr s) => s
    | _ => mkScenario [] [] true GasScheduleDefault []
    end.

(** The values of a concrete scenario are computed. *)
Ltac concrete :=
  lazymatch goal with
  | |- _ /\ _ => split; concrete
  | |- Forall ?P ?l =>
      let l' := eval hnf in l in change (Forall P l');
      first [apply List.Forall_nil | apply List.Forall_cons; concrete]
  | |- True => exact I
  | |- NoDup _ => apply (bool_decide_unpack _); vm_compute; exact I
  | |- exists _, _ => eexists; first [split; [reflexivity|]; concrete | split; [|reflexivity]; concrete]
  | |- _ = _ => vm_compute; reflexivity
  | |- _ <> _ => discriminate
  | |- _ <= _ => discriminate
  | |- _ => progress hnf; concrete
  end.

Lemma scenario_file_roundtrip_witness :
  exists m, ScenarioToOrderedJSON sample_scenario = mret (ojmap m) /\
    printable (ojmap m) = true /\
    ParseScenarioFile (JSONString (ojmap m) ++ [newline]) = mret sample_scenario.
Proof.
  destruct (scenario_file_roundtrip sample_scenario) as (m & Hm & _ & Hp).
  - unfold scenario_ok, sample_scenario. cbn [sc_Steps]. concrete.
  - assert (match ScenarioToOrderedJSON sample_scenario with
            | Ret (inr j) => printable j | _ => false end = true) as Hprint
      by (vm_compute; reflexivity).
    rewrite Hm in Hprint. exists m. by auto.
Defined.
