(* ===== verification/Stateful.v ===== *)
(** Go functions that change a state, may fail and may panic: [act S E A] is from a
    state to a state and the pair of a value and an error of Go.  The state at a panic
    is kept: a deferred function or [recover] goes on with it. *)
From S2P Require Import Prelude Errors Types State Fallible.

Definition act (S E A : Type) : Type := S -> S * outcome (E + A).

#[export] Instance act_ret {S E} : MRet (act S E) := fun A a st => (st, Ret (inr a)).

#[export] Instance act_bind {S E} : MBind (act S E) := fun A B f m st =>
  match m st with
  | (st', Ret (inr a)) => f a st'
  | (st', Ret (inl err)) => (st', Ret (inl err))
  | (st', Panic) => (st', Panic)
  | (st', OutOfFuel) => (st', OutOfFuel)
  end.

Definition act_fail {S E A} (err : E) : act S E A := fun st => (st, Ret (inl err)).

Definition act_gets {S E A} (f : S -> A) : act S E A := fun st => (st, Ret (inr (f st))).

Definition act_modify {S E} (f : S -> S) : act S E unit := fun st => (f st, Ret (inr tt)).

(** A function that does not change the state. *)
Definition pure_act {S A} (m : res A) : act S error A := fun st => (st, m).

Definition act_deref {S E A} (o : option A) : act S E A := fun st =>
  (st, match o with Some a => Ret (inr a) | None => Panic end).

(** The error of [m] is a value: nothing returns on its own. *)
Definition attempt {S E E' A} (m : act S E A) : act S E' (E + A) := fun st =>
  match m st with
  | (st', Ret r) => (st', Ret (inr r))
  | (st', Panic) => (st', Panic)
  | (st', OutOfFuel) => (st', OutOfFuel)
  end.

(** An error of [m] is returned as [f] makes it. *)
Definition on_error {S E E' A} (f : E -> E') (m : act S E A) : act S E' A := fun st =>
  match m st with
  | (st', Ret (inl err)) => (st', Ret (inl (f err)))
  | (st', Ret (inr a)) => (st', Ret (inr a))
  | (st', Panic) => (st', Panic)
  | (st', OutOfFuel) => (st', OutOfFuel)
  end.

(** [m] on a part of the state. *)
Definition on_part {S T E A} (get : S -> T) (put : T -> S -> S) (m : act T E A) : act S E A :=
  fun st => let '(t, r) := m (get st) in (put t st, r).

(** [for _, x := range l { if err := f(x); err != nil { return err } }] *)
Fixpoint act_range {S E A} (l : list A) (f : A -> act S E unit) : act S E unit :=
  match l with
  | [] => mret tt
  | x :: rest => f x ≫= fun _ => act_range rest f
  end.

(** ** Laws *)

Lemma act_bind_ret {S E A B} (f : A -> act S E B) a st : mbind f (mret a) st = f a st.
Proof. done. Qed.

Lemma act_bind_eq {S E A B} (m : act S E A) (f : A -> act S E B) st st' a :
  m st = (st', Ret (inr a)) -> mbind f m st = f a st'.
Proof. intros H. unfold mbind, act_bind. by rewrite H. Qed.

Lemma act_bind_err {S E A B} (m : act S E A) (f : A -> act S E B) st st' err :
  m st = (st', Ret (inl err)) -> mbind f m st = (st', Ret (inl err)).
Proof. intros H. unfold mbind, act_bind. by rewrite H. Qed.

Lemma act_bind_inr {S E A B} (m : act S E A) (f : A -> act S E B) st st' b :
  mbind f m st = (st', Ret (inr b)) ->
  exists st1 a, m st = (st1, Ret (inr a)) /\ f a st1 = (st', Ret (inr b)).
Proof.
  unfold mbind, act_bind. destruct (m st) as [st1 [[e|a]| |]]; try done. by exists st1, a.
Qed.

(** Running it, and keeping what it went through. *)
Ltac act_inv :=
  repeat match goal with
  | H : mbind _ _ _ = (_, Ret (inr _)) |- _ =>
      let st := fresh "st" in let a := fresh "a" in let Ha := fresh "Ha" in
      apply act_bind_inr in H as (st & a & Ha & H)
  end.

(** A loop keeps what its body keeps. *)
Lemma act_range_inv {S E A} (P : S -> Prop) (l : list A) (f : A -> act S E unit) st st' r :
  P st -> (forall x st st' r, x ∈ l -> P st -> f x st = (st', r) -> P st') ->
  act_range l f st = (st', r) -> P st'.
Proof.
  revert st. induction l as [|x l IH]; cbn; intros st Hst Hf.
  { by intros [= <- <-]. }
  unfold mbind, act_bind. destruct (f x st) as [st1 r1] eqn:Ef.
  assert (P st1) as Hst1 by (eapply Hf; [by left | exact Hst | exact Ef]).
  destruct r1 as [[e|[]]| |]; try (by intros [= <- <-]).
  apply IH; [done|]. intros y s s' r' Hy. apply Hf. by right.
Qed.

(** ** What a function keeps

    However it ends, but for a lack of fuel. *)

Definition keeps {S E A} (P : S -> Prop) (m : act S E A) : Prop :=
  forall st st' r, P st -> m st = (st', r) -> r <> OutOfFuel -> P st'.

Section Keeps.
Context {S E : Type} (P : S -> Prop).

Lemma keeps_ret {A} (a : A) : keeps P (mret a : act S E A).
Proof. by intros st st' r Hst [= <- <-]. Qed.

Lemma keeps_fail {A} (err : E) : keeps P (act_fail err : act S E A).
Proof. by intros st st' r Hst [= <- <-]. Qed.

Lemma keeps_gets {A} (f : S -> A) : keeps P (act_gets f : act S E A).
Proof. by intros st st' r Hst [= <- <-]. Qed.

Lemma keeps_pure {A} (m : res A) : keeps P (pure_act m).
Proof. by intros st st' r Hst [= <- <-]. Qed.

Lemma keeps_deref {A} (o : option A) : keeps P (act_deref o : act S E A).
Proof. by intros st st' r Hst [= <- <-]. Qed.

Lemma keeps_act_modify (f : S -> S) : (forall st, P st -> P (f st)) -> keeps P (act_modify f : act S E unit).
Proof. intros Hf st st' r Hst [= <- <-] _. auto. Qed.

Lemma keeps_bind_pure {A B} (m : res A) (f : A -> act S error B) :
  (forall a, m = Ret (inr a) -> keeps P (f a)) -> keeps P (mbind f (pure_act m)).
Proof.
  intros Hf st st' r Hst. unfold mbind, act_bind, pure_act. destruct m as [[err|a]| |]; try by intros [= <- _].
  by apply (Hf a).
Qed.

Lemma keeps_bind {A B} (m : act S E A) (f : A -> act S E B) :
  keeps P m -> (forall a, keeps P (f a)) -> keeps P (mbind f m).
Proof.
  intros Hm Hf st st' r Hst. unfold mbind, act_bind.
  destruct (m st) as [st1 [[err|a]| |]] eqn:E1; intros H Hr.
  - injection H as <- <-. by eapply Hm.
  - eapply Hf; [|exact H|done]. by eapply Hm.
  - injection H as <- <-. by eapply Hm.
  - by injection H as <- <-.
Qed.

Lemma keeps_range {A} (l : list A) (f : A -> act S E unit) :
  (forall x, keeps P (f x)) -> keeps P (act_range l f).
Proof. intros Hf. induction l as [|x l IH]; cbn; [apply keeps_ret | by apply keeps_bind]. Qed.

Lemma keeps_attempt {E' A} (m : act S E A) : keeps P m -> keeps P (attempt m : act S E' (E + A)).
Proof.
  intros Hm st st' r Hst. unfold attempt.
  destruct (m st) as [st1 [x| |]] eqn:E1; intros [= <- <-] Hr; by eapply Hm.
Qed.

Lemma keeps_on_error {E' A} (f : E -> E') (m : act S E A) : keeps P m -> keeps P (on_error f m).
Proof.
  intros Hm st st' r Hst. unfold on_error.
  destruct (m st) as [st1 [[e|x]| |]] eqn:E1; intros [= <- <-] Hr; by eapply Hm.
Qed.

End Keeps.

Lemma keeps_on_part {S T E A} (P : S -> Prop) (Q : T -> Prop) (get : S -> T) (put : T -> S -> S)
    (m : act T E A) :
  (forall st, P st -> Q (get st)) -> (forall st t, P st -> Q t -> P (put t st)) ->
  keeps Q m -> keeps P (on_part get put m).
Proof.
  intros Hget Hput Hm st st' r Hst. unfold on_part.
  destruct (m (get st)) as [t o] eqn:E1. intros [= <- <-] Hr. eauto.
Qed.

Create HintDb keeps.

#[export] Hint Resolve keeps_ret keeps_fail keeps_gets keeps_pure keeps_deref keeps_bind keeps_range
  keeps_attempt keeps_on_error : keeps.

(** ** Ending *)

Definition act_ends {S E A} (m : act S E A) : Prop := forall st, snd (m st) <> OutOfFuel.

Section Ends.
Context {S E : Type}.

Lemma act_ends_bind {A B} (m : act S E A) (f : A -> act S E B) :
  act_ends m -> (forall a, act_ends (f a)) -> act_ends (mbind f m).
Proof.
  intros Hm Hf st. specialize (Hm st). unfold mbind, act_bind.
  destruct (m st) as [st1 [[err|a]| |]]; try done. apply Hf.
Qed.

Lemma act_ends_ret {A} (a : A) : act_ends (mret a : act S E A).
Proof. done. Qed.

Lemma act_ends_fail {A} (err : E) : act_ends (act_fail err : act S E A).
Proof. done. Qed.

Lemma act_ends_gets {A} (f : S -> A) : act_ends (act_gets f : act S E A).
Proof. done. Qed.

Lemma act_ends_modify (f : S -> S) : act_ends (act_modify f : act S E unit).
Proof. done. Qed.

Lemma act_ends_pure {A} (m : res A) : ends m -> act_ends (pure_act m : act S error A).
Proof. by intros Hm st. Qed.

Lemma act_ends_deref {A} (o : option A) : act_ends (act_deref o : act S E A).
Proof. intros st. by destruct o. Qed.

Lemma act_ends_range {A} (l : list A) (f : A -> act S E unit) :
  (forall x, act_ends (f x)) -> act_ends (act_range l f).
Proof. intros Hf. induction l as [|x l IH]; cbn; [done | by apply act_ends_bind]. Qed.

Lemma act_ends_attempt {E' A} (m : act S E A) : act_ends m -> act_ends (attempt m : act S E' (E + A)).
Proof. intros Hm st. specialize (Hm st). unfold attempt. by destruct (m st) as [st1 [x| |]]. Qed.

Lemma act_ends_on_error {E' A} (f : E -> E') (m : act S E A) : act_ends m -> act_ends (on_error f m).
Proof. intros Hm st. specialize (Hm st). unfold on_error. by destruct (m st) as [st1 [[e|x]| |]]. Qed.

Lemma act_ends_on_part {T A} (get : S -> T) (put : T -> S -> S) (m : act T E A) :
  act_ends m -> act_ends (on_part get put m).
Proof. intros Hm st. specialize (Hm (get st)). unfold on_part. by destruct (m (get st)). Qed.

(** A loop whose body ends on the states it goes through. *)
Lemma act_range_ends_on {A} (P : S -> Prop) (l : list A) (f : A -> act S E unit) st :
  (forall x st, x ∈ l -> P st -> snd (f x st) <> OutOfFuel) ->
  (forall x st st', x ∈ l -> P st -> f x st = (st', Ret (inr tt)) -> P st') ->
  P st -> snd (act_range l f st) <> OutOfFuel.
Proof.
  revert st. induction l as [|x l IH]; cbn; intros st Hf Hkeep Hst; [done|].
  unfold mbind, act_bind. pose proof (Hf x st ltac:(by left) Hst) as Hx.
  destruct (f x st) as [st1 [[err|[]]| |]] eqn:E1; try done.
  apply IH; [| |by eapply Hkeep; [left|..]]; intros y *; eauto using list_elem_of_further.
Qed.

(** Two loops that agree on the states they go through. *)
Lemma act_range_ext_on {A} (P : S -> Prop) (l : list A) (f g : A -> act S E unit) st :
  (forall x st, x ∈ l -> P st -> f x st = g x st) ->
  (forall x st st', x ∈ l -> P st -> f x st = (st', Ret (inr tt)) -> P st') ->
  P st -> act_range l f st = act_range l g st.
Proof.
  revert st. induction l as [|x l IH]; cbn; intros st Hf Hkeep Hst; [done|].
  unfold mbind, act_bind. rewrite <-(Hf x st) by (done || by left).
  destruct (f x st) as [st1 [[err|[]]| |]] eqn:E1; try done.
  apply IH; [| |by eapply Hkeep; [left|..]]; intros y *; eauto using list_elem_of_further.
Qed.

End Ends.

Create HintDb act_ends.

#[export] Hint Resolve act_ends_ret act_ends_fail act_ends_gets act_ends_modify act_ends_deref : act_ends.

Ltac act_ends_parts :=
  repeat match goal with
  | |- forall _, _ => intro
  | |- _ -> _ => intro
  | |- act_ends _ => solve [eauto 2 with act_ends]
  | |- act_ends (mbind _ _) => apply act_ends_bind
  | |- act_ends (pure_act _) => apply act_ends_pure
  | |- act_ends (act_range _ _) => apply act_ends_range
  | |- act_ends (attempt _) => apply act_ends_attempt
  | |- act_ends (on_error _ _) => apply act_ends_on_error
  | |- act_ends (on_part _ _ _) => apply act_ends_on_part
  | |- act_ends (let x := _ in _) => intro x || cbv zeta
  | |- act_ends (match ?x with _ => _ end) => destruct x
  | |- act_ends ?t => let h := head_of t in unfold h
  | |- ends _ => progress ends_parts
  end.

(** The same for what a function keeps: what is left are the changes. *)
Ltac keeps_parts :=
  repeat match goal with
  | |- forall _, _ => intro
  | |- keeps _ _ => solve [eauto 2 with keeps]
  | |- keeps _ (mbind _ _) => apply keeps_bind
  | |- keeps _ (act_range _ _) => apply keeps_range
  | |- keeps _ (attempt _) => apply keeps_attempt
  | |- keeps _ (on_error _ _) => apply keeps_on_error
  | |- keeps _ (let x := _ in _) => intro x || cbv zeta
  | |- keeps _ (match ?x with _ => _ end) => destruct x
  | |- keeps _ (act_modify _) => apply keeps_act_modify
  | |- keeps _ (on_part _ _ _) => idtac; fail 1
  | |- keeps _ ?t => let h := head_of t in unfold h
  end.
