(* ===== verification/WorldMock.v ===== *)
(** The test world ([src/mock/world]): the accounts, blocks and snapshots behind the
    blockchain hook of the tests.

    An account is reached by its pointer in the map of accounts only - snapshots are
    clones - so accounts are values under their keys.  [big.Int] pointers of accounts
    that may be nil are options. *)
From S2P Require Import Prelude Errors Types State OrderedJson GoText Fallible Stateful ScenExpr.

#[local] Open Scope Z_scope.

Module worldmock.

(** ** Structures ([worldDef.go], [worldAccount.go]), with the assignment to each field *)

Record NewAddressMock := mkNewAddressMock {
  nam_CreatorAddress : bytes;
  nam_CreatorNonce : Z;
  nam_NewAddress : bytes;
}.

Definition set_nam_CreatorAddress (v : bytes) (r : NewAddressMock) : NewAddressMock :=
  let '(mkNewAddressMock _ x2 x3) := r in mkNewAddressMock v x2 x3.
Definition set_nam_CreatorNonce (v : Z) (r : NewAddressMock) : NewAddressMock :=
  let '(mkNewAddressMock x1 _ x3) := r in mkNewAddressMock x1 v x3.
Definition set_nam_NewAddress (v : bytes) (r : NewAddressMock) : NewAddressMock :=
  let '(mkNewAddressMock x1 x2 _) := r in mkNewAddressMock x1 x2 v.

(** [RandomSeed] points to 48 bytes. *)
Record BlockInfo := mkBlockInfo {
  wbi_BlockTimestamp : Z;
  wbi_BlockNonce : Z;
  wbi_BlockRound : Z;
  wbi_BlockEpoch : Z;
  wbi_RandomSeed : option bytes;
}.

Definition set_wbi_BlockTimestamp (v : Z) (r : BlockInfo) : BlockInfo :=
  let '(mkBlockInfo _ x2 x3 x4 x5) := r in mkBlockInfo v x2 x3 x4 x5.
Definition set_wbi_BlockNonce (v : Z) (r : BlockInfo) : BlockInfo :=
  let '(mkBlockInfo x1 _ x3 x4 x5) := r in mkBlockInfo x1 v x3 x4 x5.
Definition set_wbi_BlockRound (v : Z) (r : BlockInfo) : BlockInfo :=
  let '(mkBlockInfo x1 x2 _ x4 x5) := r in mkBlockInfo x1 x2 v x4 x5.
Definition set_wbi_BlockEpoch (v : Z) (r : BlockInfo) : BlockInfo :=
  let '(mkBlockInfo x1 x2 x3 _ x5) := r in mkBlockInfo x1 x2 x3 v x5.
Definition set_wbi_RandomSeed (v : option bytes) (r : BlockInfo) : BlockInfo :=
  let '(mkBlockInfo x1 x2 x3 x4 _) := r in mkBlockInfo x1 x2 x3 x4 v.

(** [MockWorld] tells whether the pointer to the world is there. *)
Record Account := mkAccount {
  wa_Exists : bool;
  wa_Address : bytes;
  wa_Nonce : Z;
  wa_Balance : option Z;
  wa_BalanceDelta : option Z;
  wa_Storage : gmap bytes bytes;
  wa_RootHash : bytes;
  wa_Code : bytes;
  wa_CodeHash : bytes;
  wa_CodeMetadata : bytes;
  wa_OwnerAddress : bytes;
  wa_AsyncCallData : bytes;
  wa_Username : bytes;
  wa_DeveloperReward : Z;
  wa_ShardID : Z;
  wa_IsSmartContract : bool;
  wa_MockWorld : bool;
}.

Definition set_wa_Exists (v : bool) (r : Account) : Account :=
  let '(mkAccount _ x2 x3 x4 x5 x6 x7 x8 x9 x10 x11 x12 x13 x14 x15 x16 x17) := r in
  mkAccount v x2 x3 x4 x5 x6 x7 x8 x9 x10 x11 x12 x13 x14 x15 x16 x17.
Definition set_wa_Address (v : bytes) (r : Account) : Account :=
  let '(mkAccount x1 _ x3 x4 x5 x6 x7 x8 x9 x10 x11 x12 x13 x14 x15 x16 x17) := r in
  mkAccount x1 v x3 x4 x5 x6 x7 x8 x9 x10 x11 x12 x13 x14 x15 x16 x17.
Definition set_wa_Nonce (v : Z) (r : Account) : Account :=
  let '(mkAccount x1 x2 _ x4 x5 x6 x7 x8 x9 x10 x11 x12 x13 x14 x15 x16 x17) := r in
  mkAccount x1 x2 v x4 x5 x6 x7 x8 x9 x10 x11 x12 x13 x14 x15 x16 x17.
Definition set_wa_Balance (v : option Z) (r : Account) : Account :=
  let '(mkAccount x1 x2 x3 _ x5 x6 x7 x8 x9 x10 x11 x12 x13 x14 x15 x16 x17) := r in
  mkAccount x1 x2 x3 v x5 x6 x7 x8 x9 x10 x11 x12 x13 x14 x15 x16 x17.
Definition set_wa_BalanceDelta (v : option Z) (r : Account) : Account :=
  let '(mkAccount x1 x2 x3 x4 _ x6 x7 x8 x9 x10 x11 x12 x13 x14 x15 x16 x17) := r in
  mkAccount x1 x2 x3 x4 v x6 x7 x8 x9 x10 x11 x12 x13 x14 x15 x16 x17.
Definition set_wa_Storage (v : gmap bytes bytes) (r : Account) : Account :=
  let '(mkAccount x1 x2 x3 x4 x5 _ x7 x8 x9 x10 x11 x12 x13 x14 x15 x16 x17) := r in
  mkAccount x1 x2 x3 x4 x5 v x7 x8 x9 x10 x11 x12 x13 x14 x15 x16 x17.
Definition set_wa_RootHash (v : bytes) (r : Account) : Account :=
  let '(mkAccount x1 x2 x3 x4 x5 x6 _ x8 x9 x10 x11 x12 x13 x14 x15 x16 x17) := r in
  mkAccount x1 x2 x3 x4 x5 x6 v x8 x9 x10 x11 x12 x13 x14 x15 x16 x17.
Definition set_wa_Code (v : bytes) (r : Account) : Account :=
  let '(mkAccount x1 x2 x3 x4 x5 x6 x7 _ x9 x10 x11 x12 x13 x14 x15 x16 x17) := r in
  mkAccount x1 x2 x3 x4 x5 x6 x7 v x9 x10 x11 x12 x13 x14 x15 x16 x17.
Definition set_wa_CodeHash (v : bytes) (r : Account) : Account :=
  let '(mkAccount x1 x2 x3 x4 x5 x6 x7 x8 _ x10 x11 x12 x13 x14 x15 x16 x17) := r in
  mkAccount x1 x2 x3 x4 x5 x6 x7 x8 v x10 x11 x12 x13 x14 x15 x16 x17.
Definition set_wa_CodeMetadata (v : bytes) (r : Account) : Account :=
  let '(mkAccount x1 x2 x3 x4 x5 x6 x7 x8 x9 _ x11 x12 x13 x14 x15 x16 x17) := r in
  mkAccount x1 x2 x3 x4 x5 x6 x7 x8 x9 v x11 x12 x13 x14 x15 x16 x17.
Definition set_wa_OwnerAddress (v : bytes) (r : Account) : Account :=
  let '(mkAccount x1 x2 x3 x4 x5 x6 x7 x8 x9 x10 _ x12 x13 x14 x15 x16 x17) := r in
  mkAccount x1 x2 x3 x4 x5 x6 x7 x8 x9 x10 v x12 x13 x14 x15 x16 x17.
Definition set_wa_AsyncCallData (v : bytes) (r : Account) : Account :=
  let '(mkAccount x1 x2 x3 x4 x5 x6 x7 x8 x9 x10 x11 _ x13 x14 x15 x16 x17) := r in
  mkAccount x1 x2 x3 x4 x5 x6 x7 x8 x9 x10 x11 v x13 x14 x15 x16 x17.
Definition set_wa_Username (v : bytes) (r : Account) : Account :=
  let '(mkAccount x1 x2 x3 x4 x5 x6 x7 x8 x9 x10 x11 x12 _ x14 x15 x16 x17) := r in
  mkAccount x1 x2 x3 x4 x5 x6 x7 x8 x9 x10 x11 x12 v x14 x15 x16 x17.
Definition set_wa_DeveloperReward (v : Z) (r : Account) : Account :=
  let '(mkAccount x1 x2 x3 x4 x5 x6 x7 x8 x9 x10 x11 x12 x13 _ x15 x16 x17) := r in
  mkAccount x1 x2 x3 x4 x5 x6 x7 x8 x9 x10 x11 x12 x13 v x15 x16 x17.
Definition set_wa_ShardID (v : Z) (r : Account) : Account :=
  let '(mkAccount x1 x2 x3 x4 x5 x6 x7 x8 x9 x10 x11 x12 x13 x14 _ x16 x17) := r in
  mkAccount x1 x2 x3 x4 x5 x6 x7 x8 x9 x10 x11 x12 x13 x14 v x16 x17.
Definition set_wa_IsSmartContract (v : bool) (r : Account) : Account :=
  let '(mkAccount x1 x2 x3 x4 x5 x6 x7 x8 x9 x10 x11 x12 x13 x14 x15 _ x17) := r in
  mkAccount x1 x2 x3 x4 x5 x6 x7 x8 x9 x10 x11 x12 x13 x14 x15 v x17.
Definition set_wa_MockWorld (v : bool) (r : Account) : Account :=
  let '(mkAccount x1 x2 x3 x4 x5 x6 x7 x8 x9 x10 x11 x12 x13 x14 x15 x16 _) := r in
  mkAccount x1 x2 x3 x4 x5 x6 x7 x8 x9 x10 x11 x12 x13 x14 x15 x16 v.

(** [Snapshots] is the one of the accounts adapter; [BuiltinFuncs] tells whether the
    wrapper of the built-in functions is there. *)
Record MockWorld := mkMockWorld {
  mw_SelfShardID : Z;
  mw_AcctMap : gmap bytes Account;
  mw_Snapshots : list (gmap bytes Account);
  mw_PreviousBlockInfo : option BlockInfo;
  mw_CurrentBlockInfo : option BlockInfo;
  mw_Blockhashes : list bytes;
  mw_NewAddressMocks : list NewAddressMock;
  mw_StateRootHash : bytes;
  mw_Err : option error;
  mw_LastCreatedContractAddress : bytes;
  mw_CompiledCode : gmap bytes bytes;
  mw_BuiltinFuncs : bool;
}.

Definition set_mw_SelfShardID (v : Z) (r : MockWorld) : MockWorld :=
  let '(mkMockWorld _ x2 x3 x4 x5 x6 x7 x8 x9 x10 x11 x12) := r in
  mkMockWorld v x2 x3 x4 x5 x6 x7 x8 x9 x10 x11 x12.
Definition set_mw_AcctMap (v : gmap bytes Account) (r : MockWorld) : MockWorld :=
  let '(mkMockWorld x1 _ x3 x4 x5 x6 x7 x8 x9 x10 x11 x12) := r in
  mkMockWorld x1 v x3 x4 x5 x6 x7 x8 x9 x10 x11 x12.
Definition set_mw_Snapshots (v : list (gmap bytes Account)) (r : MockWorld) : MockWorld :=
  let '(mkMockWorld x1 x2 _ x4 x5 x6 x7 x8 x9 x10 x11 x12) := r in
  mkMockWorld x1 x2 v x4 x5 x6 x7 x8 x9 x10 x11 x12.
Definition set_mw_PreviousBlockInfo (v : option BlockInfo) (r : MockWorld) : MockWorld :=
  let '(mkMockWorld x1 x2 x3 _ x5 x6 x7 x8 x9 x10 x11 x12) := r in
  mkMockWorld x1 x2 x3 v x5 x6 x7 x8 x9 x10 x11 x12.
Definition set_mw_CurrentBlockInfo (v : option BlockInfo) (r : MockWorld) : MockWorld :=
  let '(mkMockWorld x1 x2 x3 x4 _ x6 x7 x8 x9 x10 x11 x12) := r in
  mkMockWorld x1 x2 x3 x4 v x6 x7 x8 x9 x10 x11 x12.
Definition set_mw_Blockhashes (v : list bytes) (r : MockWorld) : MockWorld :=
  let '(mkMockWorld x1 x2 x3 x4 x5 _ x7 x8 x9 x10 x11 x12) := r in
  mkMockWorld x1 x2 x3 x4 x5 v x7 x8 x9 x10 x11 x12.
Definition set_mw_NewAddressMocks (v : list NewAddressMock) (r : MockWorld) : MockWorld :=
  let '(mkMockWorld x1 x2 x3 x4 x5 x6 _ x8 x9 x10 x11 x12) := r in
  mkMockWorld x1 x2 x3 x4 x5 x6 v x8 x9 x10 x11 x12.
Definition set_mw_StateRootHash (v : bytes) (r : MockWorld) : MockWorld :=
  let '(mkMockWorld x1 x2 x3 x4 x5 x6 x7 _ x9 x10 x11 x12) := r in
  mkMockWorld x1 x2 x3 x4 x5 x6 x7 v x9 x10 x11 x12.
Definition set_mw_Err (v : option error) (r : MockWorld) : MockWorld :=
  let '(mkMockWorld x1 x2 x3 x4 x5 x6 x7 x8 _ x10 x11 x12) := r in
  mkMockWorld x1 x2 x3 x4 x5 x6 x7 x8 v x10 x11 x12.
Definition set_mw_LastCreatedContractAddress (v : bytes) (r : MockWorld) : MockWorld :=
  let '(mkMockWorld x1 x2 x3 x4 x5 x6 x7 x8 x9 _ x11 x12) := r in
  mkMockWorld x1 x2 x3 x4 x5 x6 x7 x8 x9 v x11 x12.
Definition set_mw_CompiledCode (v : gmap bytes bytes) (r : MockWorld) : MockWorld :=
  let '(mkMockWorld x1 x2 x3 x4 x5 x6 x7 x8 x9 x10 _ x12) := r in
  mkMockWorld x1 x2 x3 x4 x5 x6 x7 x8 x9 x10 v x12.
Definition set_mw_BuiltinFuncs (v : bool) (r : MockWorld) : MockWorld :=
  let '(mkMockWorld x1 x2 x3 x4 x5 x6 x7 x8 x9 x10 x11 _) := r in
  mkMockWorld x1 x2 x3 x4 x5 x6 x7 x8 x9 x10 x11 v.

Definition W (A : Type) : Type := act MockWorld error A.

(** What the test world calls outside the repository. *)
Class MockEnv := {
  (** [vmcommon]: the byte of payable metadata, the system account, the format of
      contract addresses, [CodeMetadata.ToBytes] of payable, upgradeable and readable,
      and [CodeMetadataFromBytes(...).Payable] *)
  vm_MetadataPayable : Byte.byte;
  vm_SystemAccountAddress : bytes;
  vm_IsSmartContractAddress : bytes -> bool;
  CodeMetadata_ToBytes : bool -> bool -> bool -> bytes;
  CodeMetadata_Payable : bytes -> bool;
  (** [core.ESDTKeyIdentifier] and [core.ESDTRoleIdentifier] *)
  core_ESDTKeyIdentifier : bytes;
  core_ESDTRoleIdentifier : bytes;
  (** [ESDTUserMetadata.ToBytes] of frozen *)
  ESDTUserMetadata_ToBytes : bool -> bytes;
  (** the generated [Marshal] and [Unmarshal] of [ESDigitalToken] and [ESDTRoles] *)
  token_Marshal : ESDigitalToken -> error + bytes;
  token_Unmarshal : bytes -> error + ESDigitalToken;
  roles_Marshal : list bytes -> error + bytes;
  roles_Unmarshal : bytes -> error + list bytes;
  (** the container of built-in functions: [Get], and [ProcessBuiltinFunction] on the
      accounts of the caller and of the recipient - pointers, nil when they are in
      another shard *)
  Container_Get : bytes -> option error;
  ProcessBuiltinFunction : bytes -> option bytes -> option bytes -> ContractCallInput ->
    W (option VMOutput);
  (** [range] on a map with numbers for keys *)
  range_numbers : forall {A}, gmap Z A -> list (Z * A);
  range_numbers_perm : forall {A} (m : gmap Z A), range_numbers m ≡ₚ map_to_list m;
}.

(** ** Accounts by address ([worldAccountMap.go]) *)

Definition PutAccount (account : Account) (am : gmap bytes Account) : gmap bytes Account :=
  <[wa_Address account := account]> am.

Definition PutAccounts (accounts : list Account) (am : gmap bytes Account) : gmap bytes Account :=
  fold_left (fun am account => PutAccount account am) accounts am.

(** [None] is the nil pointer. *)
Definition GetAccount (am : gmap bytes Account) (address : bytes) : option Account := am !! address.

Definition DeleteAccount (address : bytes) (am : gmap bytes Account) : gmap bytes Account :=
  delete address am.

(** The account [CreateAccount] puts into the map. *)
Definition newAccount (address : bytes) (world : bool) : Account :=
  mkAccount true address 0 (Some 0) (Some 0) ∅ [] [] [] [] [] [] [] 0 0 false world.

Definition CreateAccount (address : bytes) (world : bool) (am : gmap bytes Account) :
    gmap bytes Account :=
  PutAccount (newAccount address world) am.

Section World.
Context `{Ext : Externals} `{Env : MockEnv}.

Definition CreateSmartContractAccount (owner address code : bytes) (world : bool)
    (am : gmap bytes Account) : gmap bytes Account :=
  let account := newAccount address world in
  <[address := set_wa_Code code (set_wa_IsSmartContract true (set_wa_OwnerAddress owner
     (set_wa_CodeMetadata [Byte.x00; vm_MetadataPayable] account)))]> (CreateAccount address world am).

(** [Account.Clone]: [big.Int.Set] of a nil pointer panics. *)
Definition Account_Clone (a : Account) : res Account :=
  balance ← deref_res (wa_Balance a);
  delta ← deref_res (wa_BalanceDelta a);
  mret (set_wa_Balance (Some balance) (set_wa_BalanceDelta (Some delta) a)).

Definition AccountMap_Clone (am : gmap bytes Account) : res (gmap bytes Account) :=
  for_range (range am) (fun '(address, account) clone =>
    account ← Account_Clone account; mret (<[address := account]> clone)) ∅.

Definition load_storage (otherAM : gmap bytes Account) (kv : bytes * Account) :
    act (gmap bytes Account) error unit :=
  let '(address, account) := kv in
  match otherAM !! address with
  | Some otherAccount => act_modify (<[address := set_wa_Storage (wa_Storage otherAccount) account]>)
  | None =>
      if bool_decide (address = vm_SystemAccountAddress) then mret tt
      else act_fail (ErrNew (bs "account " ++ hex_EncodeToString address ++
             bs " could not be loaded from AccountMap"))
  end.

(** The accounts visited before an error keep the storage they were given. *)
Definition LoadAccountStorageFrom (otherAM : gmap bytes Account) : act (gmap bytes Account) error unit :=
  fun am => act_range (range am) (load_storage otherAM) am.

(** ** The fields of an account ([worldAccount.go]) *)

Definition StorageValue (a : Account) (key : bytes) : bytes := default [] (wa_Storage a !! key).

(** An error of the hash is only logged. *)
Definition SetCodeAndMetadata (code codeMetadata : bytes) (a : Account) : Account :=
  let hash := fst (crypto_Sha256 code) in
  set_wa_CodeMetadata codeMetadata (set_wa_IsSmartContract true (set_wa_CodeHash hash (set_wa_Code code a))).

Definition SetCode (code : bytes) (a : Account) : Account :=
  set_wa_IsSmartContract true (set_wa_CodeHash (fst (crypto_Sha256 code)) (set_wa_Code code a)).

Definition SetBalance (balance : Z) (a : Account) : Account := set_wa_Balance (Some balance) a.

Definition ErrInsufficientFunds : error := ErrNew (bs "insufficient funds").
Definition ErrNilWorldMock : error := ErrNew (bs "nil worldmock").
Definition ErrOperationNotPermitted : error := ErrNew (bs "operation not permitted").
Definition ErrInvalidAddressLength : error := ErrNew (bs "invalid address length").
Definition ErrNegativeValue : error := ErrNew (bs "negative value").
Definition ErrBuiltinFuncWrapperNotInitialized : error :=
  ErrNew (bs "builtin function not found or container not initialized").

Definition AddToBalance (value : Z) (a : Account) : res Account :=
  balance ← deref_res (wa_Balance a);
  if balance + value <? 0 then fail ErrInsufficientFunds
  else mret (set_wa_Balance (Some (balance + value)) a).

Definition SubFromBalance (value : Z) (a : Account) : res Account :=
  balance ← deref_res (wa_Balance a);
  if balance - value <? 0 then fail ErrInsufficientFunds
  else mret (set_wa_Balance (Some (balance - value)) a).

Definition ClaimDeveloperRewards (sender : bytes) (a : Account) : res (Z * Account) :=
  if bool_decide (sender = wa_OwnerAddress a) then
    mret (wa_DeveloperReward a, set_wa_DeveloperReward 0 a)
  else fail ErrOperationNotPermitted.

Definition AddToDeveloperReward (value : Z) (a : Account) : Account :=
  set_wa_DeveloperReward (wa_DeveloperReward a + value) a.

Definition ChangeOwnerAddress (sender newAddress : bytes) (a : Account) : res Account :=
  if negb (bool_decide (sender = wa_OwnerAddress a)) then fail ErrOperationNotPermitted
  else if negb (len newAddress =? len (wa_Address a)) then fail ErrInvalidAddressLength
  else mret (set_wa_OwnerAddress newAddress a).

Definition IncreaseNonce (nonce : Z) (a : Account) : Account :=
  set_wa_Nonce (u64 (wa_Nonce a + nonce)) a.

(** The account as the hook gives it: the developer reward it shows is zero. *)
Definition UserAccount_of (a : Account) : res UserAccount :=
  balance ← deref_res (wa_Balance a);
  mret (mkUserAccount balance (wa_Nonce a) (wa_CodeHash a) (wa_CodeMetadata a)
    (wa_OwnerAddress a) (wa_RootHash a) (wa_Address a) 0 (wa_Username a)).

(** [IsSmartContractAddress] of [worldAccountValidate.go]: a slice of a shorter address
    is out of bounds. *)
Definition IsSmartContractAddress (address : bytes) : res bool :=
  if len address <? 8 then Panic
  else mret (bool_decide (slice address 0 8 = replicate 8 Byte.x00)).

Definition Validate (a : Account) : res unit :=
  let shown := hex_EncodeToString (wa_Address a) in
  if negb (len (wa_Address a) =? 32) then
    fail (ErrNew (bs "account address should be 32 bytes long: 0x" ++ shown))
  else
    scAddress ← IsSmartContractAddress (wa_Address a);
    if 0 <? len (wa_Code a) then
      if negb scAddress then
        fail (ErrNew (bs "account has a smart contract address, but has no code: 0x" ++ shown))
      else mret tt
    else if (scAddress : bool) then
      fail (ErrNew (bs "account has code but not a smart contract address: " ++ shown))
    else mret tt.

(** ** The accounts adapter ([worldAccountsAdapter.go]) *)

Definition GetExistingAccount (address : bytes) : W Account := fun w =>
  (w, Ret (match mw_AcctMap w !! address with
           | Some account => inr account
           | None => inl (ErrInvalidAccount : error)
           end)).

(** The key of the account it gives. *)
Definition LoadAccount (address : bytes) : W Account := fun w =>
  match mw_AcctMap w !! address with
  | Some account => (w, Ret (inr account))
  | None => (set_mw_AcctMap (CreateAccount address true (mw_AcctMap w)) w,
             Ret (inr (newAccount address true)))
  end.

Definition SaveAccount (account : Account) : W unit :=
  act_modify (fun w => set_mw_AcctMap (PutAccount account (mw_AcctMap w)) w).

Definition RemoveAccount (address : bytes) : W unit := fun w =>
  match mw_AcctMap w !! address with
  | Some _ => (set_mw_AcctMap (DeleteAccount address (mw_AcctMap w)) w, Ret (inr tt))
  | None => (w, Ret (inl (ErrInvalidAccount : error)))
  end.

Definition Commit : W unit := act_modify (set_mw_Snapshots []).

Definition JournalLen (w : MockWorld) : Z := len (mw_Snapshots w) - 1.

Definition adapter_RevertToSnapshot (snapshotIndex : Z) : W unit :=
  snapshots ← act_gets mw_Snapshots;
  if len snapshots =? 0 then act_fail (ErrNew (bs "no snapshots"))
  else if (len snapshots <=? snapshotIndex) || (snapshotIndex <? 0) then
    act_fail (ErrNew (bs "snapshot " ++ Sprintf_int snapshotIndex ++ bs " out of bounds (min 0, max " ++
      Sprintf_d (len snapshots - 1) ++ bs ")"))
  else
    snapshot ← act_deref (snapshots !! Z.to_nat snapshotIndex);
    act_modify (set_mw_Snapshots (take (Z.to_nat snapshotIndex) snapshots)) ;;
    on_part mw_AcctMap set_mw_AcctMap (LoadAccountStorageFrom snapshot).

Definition GetNumCheckpoints (w : MockWorld) : Z := u32 (len (mw_Snapshots w)).

Definition SnapshotState : W unit :=
  accounts ← act_gets mw_AcctMap;
  snapshot ← pure_act (AccountMap_Clone accounts);
  act_modify (fun w => set_mw_Snapshots (mw_Snapshots w ++ [snapshot]) w).

(** The code of the first account with that hash. *)
Definition adapter_GetCode (w : MockWorld) (codeHash : bytes) : bytes :=
  match List.find (fun '(_, account) => bool_decide (wa_CodeHash account = codeHash))
          (range (mw_AcctMap w)) with
  | Some (_, account) => wa_Code account
  | None => []
  end.

(** ** Changing the world ([worldUpdate.go], [worldDef.go]) *)

Definition CreateStateBackup : W unit := SnapshotState.

Definition CommitChanges : W unit := Commit.

Definition RollbackChanges : W unit := adapter_RevertToSnapshot 0.

(** An account that is there, changed in place. *)
Definition modify_account (address : bytes) (f : Account -> Account) : W unit :=
  act_modify (fun w => set_mw_AcctMap (alter f address (mw_AcctMap w)) w).

(** The account under an address, or the error that names the method. *)
Definition existing (method : string) (address : bytes) : W Account :=
  accounts ← act_gets mw_AcctMap;
  match GetAccount accounts address with
  | Some acct => mret acct
  | None => act_fail (ErrNew (bs "method " ++ bs method ++ bs " expects an existing address"))
  end.

Definition UpdateBalance (address : bytes) (newBalance : option Z) : W unit :=
  _ ← existing "UpdateBalance" address;
  modify_account address (set_wa_Balance newBalance).

Definition UpdateBalanceWithDelta (address : bytes) (balanceDelta : Z) : W unit :=
  acct ← existing "UpdateBalanceWithDelta" address;
  balance ← act_deref (wa_Balance acct);
  modify_account address (set_wa_Balance (Some (balance + balanceDelta))).

Definition UpdateWorldStateBefore (fromAddr : bytes) (gasLimit gasPrice : Z) : W unit :=
  acct ← existing "UpdateWorldStateBefore" fromAddr;
  modify_account fromAddr (set_wa_Nonce (u64 (wa_Nonce acct + 1))) ;;
  let gasPayment := gasLimit * gasPrice in
  balance ← act_deref (wa_Balance acct);
  if balance <? gasPayment then act_fail (ErrNew (bs "not enough balance to pay gas upfront"))
  else modify_account fromAddr (set_wa_Balance (Some (balance - gasPayment))).

(** The changes to an account that is there. *)
Definition updated_account (modAcct : OutputAccount) (acct : Account) : res Account :=
  balance ← match BalanceDelta modAcct with
            | Some delta => balance ← deref_res (wa_Balance acct); mret (Some (balance + delta))
            | None => mret (Balance modAcct)
            end;
  let acct := set_wa_Balance balance (set_wa_Exists true acct) in
  let acct := if wa_Nonce acct <? Nonce modAcct then set_wa_Nonce (Nonce modAcct) acct else acct in
  let acct :=
    if 0 <? len (Code modAcct) then
      SetCodeAndMetadata (Code modAcct) (CodeMetadata_ToBytes true true true) acct
    else acct in
  let acct :=
    match OutputTransfers modAcct with
    | first :: _ => if 0 <? len (ot_Data first) then set_wa_AsyncCallData (ot_Data first) acct else acct
    | [] => acct
    end in
  mret (set_wa_Storage (fold_left (fun storage '(_, stu) => <[Offset stu := Data stu]> storage)
          (range (StorageUpdates modAcct)) (wa_Storage acct)) acct).

Definition UpdateAccountFromOutputAccount (modAcct : OutputAccount) : W unit :=
  let address := Address modAcct in
  accounts ← act_gets mw_AcctMap;
  (match GetAccount accounts address with
   | Some _ => mret tt
   | None =>
       act_modify (fun w => set_mw_AcctMap (PutAccount
         (set_wa_OwnerAddress (default [] (CodeDeployerAddress modAcct)) (newAccount address true))
         (mw_AcctMap w)) w)
   end) ;;
  accounts ← act_gets mw_AcctMap;
  acct ← act_deref (GetAccount accounts address);
  acct ← pure_act (updated_account modAcct acct);
  modify_account address (fun _ => acct).

Definition UpdateAccounts (outputAccounts : gmap bytes OutputAccount) (accountsToDelete : list bytes) :
    W unit :=
  act_range (range outputAccounts) (fun '(_, modAcct) => UpdateAccountFromOutputAccount modAcct) ;;
  act_modify (fun w =>
    set_mw_AcctMap (fold_left (fun am delAddr => DeleteAccount delAddr am) accountsToDelete (mw_AcctMap w)) w).

(** [SaveKeyValue] of the account at [address]: it is written, and then backed up. *)
Definition SaveKeyValue (address key value : bytes) : W unit :=
  accounts ← act_gets mw_AcctMap;
  acct ← act_deref (GetAccount accounts address);
  modify_account address (set_wa_Storage (<[key := value]> (wa_Storage acct))) ;;
  if wa_MockWorld acct then CreateStateBackup else act_fail ErrNilWorldMock.

(** [NewMockWorld] *)
Definition NewMockWorld : MockWorld :=
  mkMockWorld 0 ∅ [] None (Some (mkBlockInfo 0 0 0 0 None)) [] [] [] None [] ∅ false.

Definition Clear : W unit :=
  act_modify (fun w =>
    set_mw_AcctMap ∅ (set_mw_Snapshots [] (set_mw_PreviousBlockInfo None (set_mw_CurrentBlockInfo None
    (set_mw_Blockhashes [] (set_mw_NewAddressMocks [] (set_mw_CompiledCode ∅ w))))))).

Definition SetCurrentBlockHash (blockHash : bytes) : W unit :=
  act_modify (fun w =>
    let w := match mw_CurrentBlockInfo w with
             | None => set_mw_CurrentBlockInfo (Some (mkBlockInfo 0 0 0 0 None)) w
             | Some _ => w
             end in
    set_mw_Blockhashes [blockHash] w).

Definition NumberOfShards (w : MockWorld) : Z :=
  u32 (fold_left (fun maxShardID '(_, account) => Z.max maxShardID (wa_ShardID account))
    (range (mw_AcctMap w)) 0 + 1).

(** [account.ShardID] of a nil account panics. *)
Definition ComputeId (w : MockWorld) (address : bytes) : res Z :=
  acct ← deref_res (GetAccount (mw_AcctMap w) address); mret (wa_ShardID acct).

Definition SelfId (w : MockWorld) : Z := mw_SelfShardID w.

Definition SameShard (w : MockWorld) (firstAddress secondAddress : bytes) : res bool :=
  first ← ComputeId w firstAddress;
  second ← ComputeId w secondAddress;
  mret (first =? second).

Definition GetSnapshot (w : MockWorld) : Z := JournalLen w.

Definition RevertToSnapshot (snapshot : Z) : W unit := adapter_RevertToSnapshot snapshot.

(** ** New addresses ([worldUtil.go], [dnsUtil.go]) *)

(** [creatorAddress[30:]] of a shorter address is out of bounds. *)
Definition GenerateMockAddress (creatorAddress : bytes) (creatorNonce : Z) : res bytes :=
  if len creatorAddress <? 30 then Panic
  else
    let result := splice (replicate 32 Byte.x00) 10 (replicate 4 Byte.x11) in
    let result := splice result 14 (take 15 creatorAddress) in
    let result := splice result 29 [byte_of_Z (u8 creatorNonce)] in
    mret (splice result 30 (take 2 (drop 30 creatorAddress))).

(** [numDNSAddresses] *)
Definition numDNSAddresses : Z := 255.

(** The number of an address in two hexadecimal digits. *)
Definition makeDNSAddresses `{ScenEnv} (numAddresses : Z) : res (gset bytes) :=
  for_range (seqZ 0 numAddresses) (fun i dnsMap =>
    match InterpretString (bs "sc:dns#" ++ hex_EncodeToString [byte_of_Z i]) with
    | Ret (inr dnsAddress) => mret ({[dnsAddress]} ∪ dnsMap)
    | Ret (inl _) => mret ({[[]]} ∪ dnsMap)
    | Panic => Panic
    | OutOfFuel => OutOfFuel
    end) ∅.

(** ** The hook ([worldCallbacks.go]) *)

(** The custom error of the world. *)
Definition custom_error : W unit := fun w =>
  (w, Ret (match mw_Err w with Some err => inl err | None => inr tt end)).

Definition NewAddress (creatorAddress : bytes) (creatorNonce : Z) : W bytes :=
  custom_error ;;
  mocks ← act_gets mw_NewAddressMocks;
  match List.find (fun m => bool_decide (creatorAddress = nam_CreatorAddress m) &&
                            (creatorNonce =? nam_CreatorNonce m)) mocks with
  | Some newAddressMock =>
      act_modify (set_mw_LastCreatedContractAddress (nam_NewAddress newAddressMock)) ;;
      mret (nam_NewAddress newAddressMock)
  | None =>
      result ← pure_act (GenerateMockAddress creatorAddress creatorNonce);
      act_modify (set_mw_LastCreatedContractAddress result) ;;
      mret result
  end.

Definition GetStorageData (accountAddress key : bytes) : W bytes :=
  custom_error ;;
  accounts ← act_gets mw_AcctMap;
  match GetAccount accounts accountAddress with
  | None => mret []
  | Some acct => mret (StorageValue acct key)
  end.

(** A field of the block, zero when there is none. *)
Definition block_number (field : BlockInfo -> Z) (block : option BlockInfo) : Z :=
  match block with Some b => field b | None => 0 end.

(** [RandomSeed[:]] of a nil pointer panics. *)
Definition block_seed (block : option BlockInfo) : res bytes :=
  match block with Some b => deref_res (wbi_RandomSeed b) | None => mret [] end.

Definition LastNonce (w : MockWorld) : Z := block_number wbi_BlockNonce (mw_PreviousBlockInfo w).
Definition LastRound (w : MockWorld) : Z := block_number wbi_BlockRound (mw_PreviousBlockInfo w).
Definition LastTimeStamp (w : MockWorld) : Z := block_number wbi_BlockTimestamp (mw_PreviousBlockInfo w).
Definition LastEpoch (w : MockWorld) : Z := block_number wbi_BlockEpoch (mw_PreviousBlockInfo w).
Definition LastRandomSeed (w : MockWorld) : res bytes := block_seed (mw_PreviousBlockInfo w).
Definition CurrentNonce (w : MockWorld) : Z := block_number wbi_BlockNonce (mw_CurrentBlockInfo w).
Definition CurrentRound (w : MockWorld) : Z := block_number wbi_BlockRound (mw_CurrentBlockInfo w).
Definition CurrentTimeStamp (w : MockWorld) : Z := block_number wbi_BlockTimestamp (mw_CurrentBlockInfo w).
Definition CurrentEpoch (w : MockWorld) : Z := block_number wbi_BlockEpoch (mw_CurrentBlockInfo w).
Definition CurrentRandomSeed (w : MockWorld) : res bytes := block_seed (mw_CurrentBlockInfo w).

(** A difference of [2 ^ 63] or more is a negative [int], below every length. *)
Definition GetBlockhash (nonce : Z) : W bytes :=
  custom_error ;;
  currentNonce ← act_gets CurrentNonce;
  hashes ← act_gets mw_Blockhashes;
  if currentNonce <? nonce then
    act_fail (ErrNew (bs "requested nonce is greater than current nonce"))
  else
    let offset := s64 (currentNonce - nonce) in
    if len hashes <=? offset then
      act_fail (ErrNew (bs "requested nonce is older than the oldest available block nonce"))
    else if offset <? 0 then (fun w => (w, Panic))
    else act_deref (hashes !! Z.to_nat offset).

Definition GetStateRootHash (w : MockWorld) : bytes := mw_StateRootHash w.

Definition not_found (address : bytes) : error :=
  ErrNew (bs "account not found: " ++ hex_EncodeToString address).

Definition GetAllState (accountAddress : bytes) : W (gmap bytes bytes) := fun w =>
  (w, Ret (match GetAccount (mw_AcctMap w) accountAddress with
           | Some account => inr (wa_Storage account)
           | None => inl (not_found accountAddress)
           end)).

Definition GetUserAccount (address : bytes) : W Account :=
  custom_error ;;
  accounts ← act_gets mw_AcctMap;
  match GetAccount accounts address with
  | Some account => mret account
  | None => act_fail (not_found address)
  end.

(** Of an account with that address. *)
Definition GetCode (w : MockWorld) (address : bytes) : bytes :=
  match GetAccount (mw_AcctMap w) address with Some account => wa_Code account | None => [] end.

Definition GetShardOfAddress (w : MockWorld) (address : bytes) : Z :=
  match GetAccount (mw_AcctMap w) address with Some account => wa_ShardID account | None => 0 end.

Definition IsSmartContract (w : MockWorld) (address : bytes) : bool :=
  match GetAccount (mw_AcctMap w) address with
  | Some account => wa_IsSmartContract account
  | None => vm_IsSmartContractAddress address
  end.

Definition IsPayable (w : MockWorld) (address : bytes) : bool :=
  match GetAccount (mw_AcctMap w) address with
  | Some account => if wa_IsSmartContract account then CodeMetadata_Payable (wa_CodeMetadata account) else true
  | None => true
  end.

Definition SaveCompiledCode (codeHash code : bytes) : W unit :=
  act_modify (fun w => set_mw_CompiledCode (<[codeHash := code]> (mw_CompiledCode w)) w).

Definition GetCompiledCode (w : MockWorld) (codeHash : bytes) : bool * bytes :=
  match mw_CompiledCode w !! codeHash with Some code => (true, code) | None => (false, []) end.

Definition ClearCompiledCodes : W unit := act_modify (set_mw_CompiledCode ∅).

(** ** Built-in functions ([builtinFunctionsWrapper.go]) *)

(** The key of an account of this shard: one of another shard is nil, one that is not
    there panics. *)
Definition getAccountSharded (w : MockWorld) (address : bytes) : res (option bytes) :=
  accountShard ← ComputeId w address;
  mret (if accountShard =? SelfId w then Some address else None).

Definition wrapper_ProcessBuiltInFunction (input : ContractCallInput) : W (option VMOutput) :=
  w ← act_gets (fun w => w);
  caller ← pure_act (getAccountSharded w (CallerAddr (call_VMInput input)));
  recipient ← pure_act (getAccountSharded w (RecipientAddr input));
  match Container_Get (Function_ input) with
  | Some err => act_fail err
  | None => ProcessBuiltinFunction (Function_ input) caller recipient input
  end.

Definition ProcessBuiltInFunction (input : ContractCallInput) : W (option VMOutput) :=
  custom_error ;;
  initialized ← act_gets mw_BuiltinFuncs;
  if (initialized : bool) then wrapper_ProcessBuiltInFunction input
  else act_fail ErrBuiltinFuncWrapperNotInitialized.

(** ** Tokens ([mockESDT.go], [mockESDTAccount.go]) *)

Definition ESDTTokenKeyPrefix : bytes := core_ProtectedKeyPrefix ++ core_ESDTKeyIdentifier.

Definition ESDTRoleKeyPrefix : bytes :=
  core_ProtectedKeyPrefix ++ core_ESDTRoleIdentifier ++ core_ESDTKeyIdentifier.

Definition ESDTNonceKeyPrefix : bytes := core_ProtectedKeyPrefix ++ core_ESDTNFTLatestNonceIdentifier.

Definition MakeTokenKey (tokenName : bytes) (nonce : Z) : bytes :=
  ESDTTokenKeyPrefix ++ tokenName ++ Bytes nonce.

Definition MakeTokenRolesKey (tokenName : bytes) : bytes := ESDTRoleKeyPrefix ++ tokenName.
Definition MakeLastNonceKey (tokenName : bytes) : bytes := ESDTNonceKeyPrefix ++ tokenName.

Definition IsTokenKey (key : bytes) : bool := HasPrefix key ESDTTokenKeyPrefix.
Definition IsRoleKey (key : bytes) : bool := HasPrefix key ESDTRoleKeyPrefix.
Definition IsNonceKey (key : bytes) : bool := HasPrefix key ESDTNonceKeyPrefix.
Definition IsESDTKey (key : bytes) : bool := IsTokenKey key || IsRoleKey key || IsNonceKey key.

Definition GetTokenNameFromKey (key : bytes) : res bytes :=
  if len key <? len ESDTTokenKeyPrefix then Panic else mret (drop (length ESDTTokenKeyPrefix) key).

Definition GetTokenData (a : Account) (tokenKey : bytes) : res ESDigitalToken :=
  name ← GetTokenNameFromKey tokenKey;
  let marshaledData := default [] (wa_Storage a !! tokenKey) in
  if len marshaledData =? 0 then
    mret (mkESDigitalToken (u32 core_Fungible) (Some 0) [] (Some (mkMetaData 0 name [] 0 [] [] [])))
  else of_sum (token_Unmarshal marshaledData).

Definition SetTokenData (tokenKey : bytes) (tokenData : ESDigitalToken) (a : Account) : res Account :=
  marshaledData ← of_sum (token_Marshal tokenData);
  mret (set_wa_Storage (<[tokenKey := marshaledData]> (wa_Storage a)) a).

Definition GetTokenBalance (a : Account) (tokenKey : bytes) : res (option Z) :=
  tokenData ← GetTokenData a tokenKey; mret (esdt_Value tokenData).

Definition GetTokenBalanceByName (a : Account) (tokenName : bytes) : res (option Z) :=
  GetTokenBalance a (MakeTokenKey tokenName 0).

Definition token_with_value (v : Z) (t : ESDigitalToken) : ESDigitalToken :=
  mkESDigitalToken (esdt_Type t) (Some v) (esdt_Properties t) (esdt_TokenMetaData t).

Definition SetTokenBalance (tokenKey : bytes) (balance : Z) (a : Account) : res Account :=
  tokenData ← GetTokenData a tokenKey;
  if balance <? 0 then fail ErrNegativeValue
  else SetTokenData tokenKey (token_with_value balance tokenData) a.

Definition GetTokenBalanceUint64 (a : Account) (tokenKey : bytes) : res Z :=
  tokenData ← GetTokenData a tokenKey;
  value ← deref_res (esdt_Value tokenData);
  mret (u64 (Z.abs value)).

Definition SetTokenBalanceUint64 (tokenKey : bytes) (balance : Z) (a : Account) : res Account :=
  tokenData ← GetTokenData a tokenKey;
  SetTokenData tokenKey (token_with_value balance tokenData) a.

Definition SetTokenRoles (tokenName : bytes) (roles : list bytes) (a : Account) : res Account :=
  marshaledData ← of_sum (roles_Marshal roles);
  mret (set_wa_Storage (<[MakeTokenRolesKey tokenName := marshaledData]> (wa_Storage a)) a).

Definition SetTokenRolesAsStrings (tokenName : bytes) (rolesAsStrings : list bytes) (a : Account) :
    res Account :=
  SetTokenRoles tokenName rolesAsStrings a.

Definition SetLastNonce (tokenName : bytes) (lastNonce : Z) (a : Account) : Account :=
  set_wa_Storage (<[MakeLastNonceKey tokenName := Bytes lastNonce]> (wa_Storage a)) a.

Definition SetLastNonces (lastNonces : gmap bytes Z) (a : Account) : Account :=
  fold_left (fun a '(tokenName, nonce) => SetLastNonce tokenName nonce a) (range lastNonces) a.

Definition GetTokenRoles (a : Account) (tokenName : bytes) : res (list bytes) :=
  let marshaledData := default [] (wa_Storage a !! MakeTokenRolesKey tokenName) in
  if len marshaledData =? 0 then mret [] else of_sum (roles_Unmarshal marshaledData).

Definition GetTokenKeys (a : Account) : list bytes :=
  List.filter IsTokenKey (map fst (range (wa_Storage a))).

Record MockESDTData := mkMockESDTData {
  me_TokenIdentifier : bytes;
  me_Instances : list ESDigitalToken;
  me_LastNonce : Z;
  me_Roles : list bytes;
}.

(** [None] for the name is the error, returned with an empty name. *)
Definition loadMockESDTDataInstance (a : Account) (tokenKey : bytes) : res (bytes * ESDigitalToken) :=
  tokenInstance ← GetTokenData a tokenKey;
  tokenNameFromKey ← GetTokenNameFromKey tokenKey;
  let fungible :=
    mkESDigitalToken (esdt_Type tokenInstance) (esdt_Value tokenInstance) (esdt_Properties tokenInstance)
      (Some (mkMetaData 0 tokenNameFromKey [] 0 [] [] [])) in
  match esdt_TokenMetaData tokenInstance with
  | None => mret (tokenNameFromKey, fungible)
  | Some metadata =>
      if md_Nonce metadata =? 0 then mret (tokenNameFromKey, fungible)
      else
        let nonceAsBytes := Bytes (md_Nonce metadata) in
        let tokenNameLen := len tokenNameFromKey - len nonceAsBytes in
        if tokenNameLen <? 0 then Panic
        else if bool_decide (nonceAsBytes = drop (Z.to_nat tokenNameLen) tokenNameFromKey) then
          mret (take (Z.to_nat tokenNameLen) tokenNameFromKey, tokenInstance)
        else fails "Invalid key for NFT (key does not end in nonce)"
  end.

(** The entry of a token, made when it is not there, changed by [f]. *)
Definition with_entry (tokenName : bytes) (f : MockESDTData -> MockESDTData)
    (resultMap : gmap bytes MockESDTData) : gmap bytes MockESDTData :=
  <[tokenName := f (default (mkMockESDTData tokenName [] 0 []) (resultMap !! tokenName))]> resultMap.

Definition esdt_entry (a : Account) (kv : bytes * bytes) (resultMap : gmap bytes MockESDTData) :
    res (gmap bytes MockESDTData) :=
  let '(key, stored) := kv in
  if IsTokenKey key then
    '(tokenName, tokenInstance) ← loadMockESDTDataInstance a key;
    value ← deref_res (esdt_Value tokenInstance);
    mret (if 0 <? value then
            with_entry tokenName (fun d =>
              mkMockESDTData (me_TokenIdentifier d) (me_Instances d ++ [tokenInstance]) (me_LastNonce d)
                (me_Roles d)) resultMap
          else resultMap)
  else if IsNonceKey key then
    mret (with_entry (drop (length ESDTNonceKeyPrefix) key) (fun d =>
      mkMockESDTData (me_TokenIdentifier d) (me_Instances d) (u64 (SetBytes stored)) (me_Roles d)) resultMap)
  else if IsRoleKey key then
    let tokenName := drop (length ESDTRoleKeyPrefix) key in
    roles ← GetTokenRoles a tokenName;
    mret (with_entry tokenName (fun d =>
      mkMockESDTData (me_TokenIdentifier d) (me_Instances d) (me_LastNonce d) roles) resultMap)
  else mret resultMap.

Definition GetFullMockESDTData (a : Account) : res (gmap bytes MockESDTData) :=
  for_range (range (wa_Storage a)) (esdt_entry a) ∅.

(** Of the wrapper: the account of an address that is not there is nil, and reading its
    storage panics. *)
Definition wrapper_GetTokenData (address tokenKey : bytes) : W ESDigitalToken :=
  accounts ← act_gets mw_AcctMap;
  account ← act_deref (GetAccount accounts address);
  pure_act (GetTokenData account tokenKey).

Definition wrapper_GetTokenBalance (address tokenKey : bytes) : W (option Z) :=
  tokenData ← wrapper_GetTokenData address tokenKey; mret (esdt_Value tokenData).

Definition wrapper_SetTokenBalance (address tokenKey : bytes) (balance : Z) : W unit :=
  accounts ← act_gets mw_AcctMap;
  account ← act_deref (GetAccount accounts address);
  account ← pure_act (SetTokenBalance tokenKey balance account);
  modify_account address (fun _ => account).

Definition wrapper_SetTokenData (address tokenKey : bytes) (tokenData : ESDigitalToken) : W unit :=
  accounts ← act_gets mw_AcctMap;
  account ← act_deref (GetAccount accounts address);
  account ← pure_act (SetTokenData tokenKey tokenData account);
  modify_account address (fun _ => account).

Definition GetESDTToken (address tokenName : bytes) (nonce : Z) : W ESDigitalToken :=
  custom_error ;;
  initialized ← act_gets mw_BuiltinFuncs;
  if (initialized : bool) then wrapper_GetTokenData address (MakeTokenKey tokenName nonce)
  else act_fail ErrBuiltinFuncWrapperNotInitialized.

(** A nonce makes it a transfer of the sender to itself that names the receiver. *)
Definition PerformDirectESDTTransfer (sender receiver token : bytes) (nonce value : Z)
    (callType : CallType) (gasLimit gasPrice : Z) : W Z :=
  let vmInput arguments :=
    mkVMInput sender arguments 0 callType gasPrice gasLimit 0 [] [] [] [] false in
  let input :=
    if 0 <? nonce then
      mkContractCallInput (vmInput [token; Bytes nonce; Bytes value; receiver]) sender
        core_BuiltInFunctionESDTNFTTransfer false
    else
      mkContractCallInput (vmInput [token; Bytes value]) receiver core_BuiltInFunctionESDTTransfer false in
  vmOutput ← wrapper_ProcessBuiltInFunction input;
  vmOutput ← act_deref vmOutput;
  if bool_decide (out_ReturnCode vmOutput = Ok) then mret (GasRemaining vmOutput)
  else act_fail (ErrNew (bs "ESDTtransfer failed: retcode = " ++ Sprintf_int (ReturnCode_Int64 (out_ReturnCode vmOutput)) ++
         bs ", msg = " ++ ReturnMessage vmOutput)).

End World.

End worldmock.
