(* ===== verification/ScenExec.v ===== *)
(** Executing scenarios ([src/scenarioexec], [src/scenarios/controller],
    [src/scenarios/fileresolver]): the executor with its world and its VM, and the steps
    that set the state, run transactions, run other files and dump the world.  Checking
    is in [ScenCheck].

    Printing and logging are left out, the dump of the world but for its text. *)
From S2P Require Import Prelude Errors Types State OrderedJson GoText Fallible Stateful GasConfig.
From S2P Require Import ScenExpr ScenModel ScenParse ScenWrite WorldMock.

#[local] Open Scope Z_scope.

(** ** What the executor is given *)

(** [vmcommon.VMExecutionHandler], over the world its hook reads and writes. *)
Class VMExecutionHandler `{Externals} `{worldmock.MockEnv} := {
  vm_state : Type;
  vm_RunSmartContractCreate : ContractCreateInput ->
    act (vm_state * worldmock.MockWorld) error (option VMOutput);
  vm_RunSmartContractCall : ContractCallInput ->
    act (vm_state * worldmock.MockWorld) error (option VMOutput);
  vm_GasScheduleChange : GasScheduleMap -> vm_state -> vm_state;
}.

(** The operating system, the TOML library - a table of tables of 64-bit integers, where
    [None] is a value of another type - and the texts of the gas schedules, which are
    generated files; [LogEntry.GetFirstDataItem], and [%s] on a tree. *)
Class ExecEnv := {
  os_Getwd : error + bytes;
  os_ReadFile : bytes -> error + bytes;
  toml_Load : bytes -> error + gmap bytes (option (gmap bytes (option Z)));
  gasScheduleV1 : bytes;
  gasScheduleV2 : bytes;
  gasScheduleV3 : bytes;
  GetFirstDataItem : LogEntry -> bytes;
  Sprintf_tree : option OJsonObject -> bytes;
}.

(** ** Files ([fileResolverDefault.go]) *)

Record DefaultFileResolver := mkDefaultFileResolver {
  fr_contextPath : bytes;
  fr_contractPathReplacements : gmap bytes bytes;
}.

Definition NewDefaultFileResolver : DefaultFileResolver := mkDefaultFileResolver [] ∅.

Definition ReplacePath (pathInTest actualPath : bytes) (fr : DefaultFileResolver) : DefaultFileResolver :=
  mkDefaultFileResolver (fr_contextPath fr) (<[pathInTest := actualPath]> (fr_contractPathReplacements fr)).

Definition SetContext (contextPath : bytes) (fr : DefaultFileResolver) : DefaultFileResolver :=
  mkDefaultFileResolver contextPath (fr_contractPathReplacements fr).

Definition ResolveAbsolutePath (fr : DefaultFileResolver) (value : bytes) : bytes :=
  match fr_contractPathReplacements fr !! value with
  | Some replacement => replacement
  | None => filepath.Join (filepath.Dir (fr_contextPath fr)) value
  end.

Section Files.
Context `{Files : ExecEnv}.

Definition DefaultFileResolver_ResolveFileValue (fr : DefaultFileResolver) (value : bytes) :
    error + bytes :=
  if len value =? 0 then inr [] else os_ReadFile (ResolveAbsolutePath fr value).

(** [filepath.Abs] *)
Definition filepath_Abs (path : bytes) : res bytes :=
  if filepath.IsAbs path then mret (filepath.Clean path)
  else wd ← of_sum os_Getwd; mret (filepath.Join wd path).

(** The interpreter of a parser with this resolver. *)
Definition with_resolver (Env : ScenEnv) (fr : DefaultFileResolver) : ScenEnv := {|
  ResolveFileValue := Some (DefaultFileResolver_ResolveFileValue fr);
  LegacyKeccak256 := @LegacyKeccak256 Env;
  scen_ToBytes := @scen_ToBytes Env;
  scen_FromBytes := @scen_FromBytes Env;
  ToBytesOfLength := @ToBytesOfLength Env;
  CopyAlignRight := @CopyAlignRight Env;
  Quote := @Quote Env;
|}.

End Files.

(** [%x] of a [big.Int]. *)
Definition Sprintf_hex (z : Z) : bytes := (if z <? 0 then bs "-" else []) ++ Text16 z.

(** A text between quotes. *)
Definition quoted (text : bytes) : bytes := quote :: text ++ [quote].

Section Exec.
Context `{Ext : Externals} `{Mock : worldmock.MockEnv} `{VM : !VMExecutionHandler} `{Files : ExecEnv}.
Context `{Scen : ScenEnv}.
Import worldmock.

(** The interpreter of a [VMTestExecutor] is the one of its runner. *)
Record VMTestExecutor := mkVMTestExecutor {
  ae_World : MockWorld;
  ae_vm : vm_state;
  ae_checkGas : bool;
  ae_scenGasScheduleLoaded : bool;
  ae_fileResolver : option DefaultFileResolver;
}.

Definition set_ae_World (v : MockWorld) (r : VMTestExecutor) : VMTestExecutor :=
  mkVMTestExecutor v (ae_vm r) (ae_checkGas r) (ae_scenGasScheduleLoaded r) (ae_fileResolver r).

Definition set_ae_vm (v : vm_state) (r : VMTestExecutor) : VMTestExecutor :=
  mkVMTestExecutor (ae_World r) v (ae_checkGas r) (ae_scenGasScheduleLoaded r) (ae_fileResolver r).

Definition set_ae_checkGas (v : bool) (r : VMTestExecutor) : VMTestExecutor :=
  mkVMTestExecutor (ae_World r) (ae_vm r) v (ae_scenGasScheduleLoaded r) (ae_fileResolver r).

Definition set_ae_scenGasScheduleLoaded (v : bool) (r : VMTestExecutor) : VMTestExecutor :=
  mkVMTestExecutor (ae_World r) (ae_vm r) (ae_checkGas r) v (ae_fileResolver r).

Definition set_ae_fileResolver (v : option DefaultFileResolver) (r : VMTestExecutor) : VMTestExecutor :=
  mkVMTestExecutor (ae_World r) (ae_vm r) (ae_checkGas r) (ae_scenGasScheduleLoaded r) v.

Definition X (A : Type) : Type := act VMTestExecutor error A.

Definition on_world {E A} (m : act MockWorld E A) : act VMTestExecutor E A :=
  on_part ae_World set_ae_World m.

Definition on_vm {E A} (m : act (vm_state * MockWorld) E A) : act VMTestExecutor E A :=
  on_part (fun ae => (ae_vm ae, ae_World ae)) (fun '(vm, w) ae => set_ae_vm vm (set_ae_World w ae)) m.

(** ** Gas schedules ([exec.go], [gasScheduleLoad.go]) *)

Definition LoadGasScheduleConfig (fileContents : bytes) : res GasScheduleMap :=
  loadedTree ← of_sum (toml_Load fileContents);
  for_range (range loadedTree) (fun '(libType, costs) flattened =>
    costsMap ← deref_res costs;
    operations ← for_range (range costsMap) (fun '(operationName, cost) operations =>
      cost ← deref_res cost; mret (<[operationName := u64 cost]> operations)) ∅;
    mret (<[libType := operations]> flattened)) ∅.

Definition gasScheduleMapFromScenarios (scenGasSchedule : mj.GasSchedule) : res GasScheduleMap :=
  match scenGasSchedule with
  | mj.GasScheduleDefault => LoadGasScheduleConfig gasScheduleV3
  | mj.GasScheduleDummy => mret MakeGasMapForTests
  | mj.GasScheduleV1 => LoadGasScheduleConfig gasScheduleV1
  | mj.GasScheduleV2 => LoadGasScheduleConfig gasScheduleV2
  | mj.GasScheduleV3 => LoadGasScheduleConfig gasScheduleV3
  end.

(** Only the first of the schedules is loaded. *)
Definition SetScenariosGasSchedule (newGasSchedule : mj.GasSchedule) : X unit :=
  loaded ← act_gets ae_scenGasScheduleLoaded;
  if (loaded : bool) then mret tt
  else
    gasSchedule ← pure_act (gasScheduleMapFromScenarios newGasSchedule);
    act_modify (set_ae_scenGasScheduleLoaded true) ;;
    act_modify (fun ae => set_ae_vm (vm_GasScheduleChange gasSchedule (ae_vm ae)) ae).

(** ** Conversions ([util.go]) *)

(** One instance of a token of the account. *)
Definition put_instance (tokenName : bytes) (isFrozen : bool) (lastNonce : Z) (instance : mj.ESDTInstance)
    (account : Account) : res Account :=
  let tokenNonce := mj.ju_Value (mj.ei_Nonce instance) in
  let metadata := mkMetaData tokenNonce tokenName (mj.jbs_Value (mj.ei_Creator instance))
    (u32 (mj.ju_Value (mj.ei_Royalties instance))) (mj.jbs_Value (mj.ei_Hash instance))
    [mj.jbt_Value (mj.ei_Uri instance)] (mj.jbs_Value (mj.ei_Attributes instance)) in
  let tokenData := mkESDigitalToken (u32 core_Fungible) (mj.jbi_Value (mj.ei_Balance instance))
    (ESDTUserMetadata_ToBytes isFrozen) (Some metadata) in
  account ← SetTokenData (MakeTokenKey tokenName tokenNonce) tokenData account;
  mret (SetLastNonce tokenName lastNonce account).

Definition put_token (scenESDTData : mj.ESDTData) (account : Account) : res Account :=
  let tokenName := mj.jbs_Value (mj.ed_TokenIdentifier scenESDTData) in
  let isFrozen := 0 <? mj.ju_Value (mj.ed_Frozen scenESDTData) in
  account ← for_range (mj.ed_Instances scenESDTData)
    (put_instance tokenName isFrozen (mj.ju_Value (mj.ed_LastNonce scenESDTData))) account;
  SetTokenRolesAsStrings tokenName (mj.ed_Roles scenESDTData) account.

Definition convertAccount (testAcct : mj.Account) : res Account :=
  let storage := fold_left (fun storage stkvp =>
    <[mj.jbs_Value (mj.st_Key stkvp) := mj.jbt_Value (mj.st_Value stkvp)]> storage)
    (mj.acct_Storage testAcct) ∅ in
  let address := mj.jbs_Value (mj.acct_Address testAcct) in
  if negb (len address =? 32) then fails "bad test: account address should be 32 bytes long"
  else
    balance ← deref_res (mj.jbi_Value (mj.acct_Balance testAcct));
    let code := mj.jbs_Value (mj.acct_Code testAcct) in
    for_range (mj.acct_ESDTData testAcct) put_token
      (mkAccount false address (mj.ju_Value (mj.acct_Nonce testAcct)) (Some balance) (Some 0) storage []
         code [] (CodeMetadata_ToBytes true true true) (mj.jbs_Value (mj.acct_Owner testAcct))
         (mj.acct_AsyncCallData testAcct) (mj.jbs_Value (mj.acct_Username testAcct)) 0
         (u32 (mj.ju_Value (mj.acct_Shard testAcct))) (0 <? len code) true).

Definition validateSetStateAccount (scenAccount : mj.Account) (converted : Account) : res unit :=
  wrap_with (quoted (bs "setState") ++ bs " step validation failed for account " ++
    quoted (mj.jbs_Original (mj.acct_Address scenAccount)) ++ bs ": ") (Validate converted).

Definition validateNewAddressMocks (testNAMs : list mj.NewAddressMock) : res unit :=
  for_range testNAMs (fun testNAM _ =>
    sc ← IsSmartContractAddress (mj.jbs_Value (mj.nam_NewAddress testNAM));
    if (sc : bool) then mret tt
    else fail (ErrNew (bs "address in " ++ quoted (bs "setState") ++ bs " " ++ quoted (bs "newAddresses") ++
           bs " field should have SC format: " ++ mj.jbs_Original (mj.nam_NewAddress testNAM)))) tt.

Definition convertNewAddressMocks (testNAMs : list mj.NewAddressMock) : list NewAddressMock :=
  map (fun testNAM =>
    mkNewAddressMock (mj.jbs_Value (mj.nam_CreatorAddress testNAM))
      (mj.ju_Value (mj.nam_CreatorNonce testNAM)) (mj.jbs_Value (mj.nam_NewAddress testNAM))) testNAMs.

(** [copy] into an array of 48 bytes. *)
Definition convertBlockInfo (testBlockInfo : option mj.BlockInfo) : option BlockInfo :=
  match testBlockInfo with
  | None => None
  | Some b =>
      let seed := match mj.bi_BlockRandomSeed b with Some s => take 48 (mj.jbt_Value s) | None => [] end in
      Some (mkBlockInfo (mj.ju_Value (mj.bi_BlockTimestamp b)) (mj.ju_Value (mj.bi_BlockNonce b))
        (mj.ju_Value (mj.bi_BlockRound b)) (u32 (mj.ju_Value (mj.bi_BlockEpoch b)))
        (Some (splice (replicate 48 Byte.x00) 0 seed)))
  end.

Definition generateTxHash (txIndex : bytes) : bytes :=
  if 32 <? len txIndex then take 32 txIndex
  else txIndex ++ replicate (32 - length txIndex) Byte.x2e.

Definition addESDTToVMInput (esdtData : option mj.ESDTTxData) (vmInput : VMInput) : res VMInput :=
  match esdtData with
  | None => mret vmInput
  | Some e =>
      value ← deref_res (mj.jbi_Value (mj.etx_Value e));
      let nonce := mj.ju_Value (mj.etx_Nonce e) in
      mret (set_ESDTTransfers
        [mkESDTTransfer value (mj.jbs_Value (mj.etx_TokenIdentifier e))
           (u32 (if nonce =? 0 then core_Fungible else core_NonFungible)) nonce] vmInput)
  end.

(** ** Transactions ([stepRunTx.go]) *)

(** [RewardKey] *)
Definition RewardKey : bytes := core_ProtectedKeyPrefix ++ bs "reward".

(** The value of a transaction, a pointer. *)
Definition tx_value {S E} (tx : mj.Transaction) : act S E Z := act_deref (mj.jbi_Value (mj.tx_Value tx)).

Definition senderHasEnoughBalance (tx : mj.Transaction) : X bool :=
  if negb (mj.HasSender (mj.tx_Type tx)) then mret true
  else
    accounts ← act_gets (fun ae => mw_AcctMap (ae_World ae));
    sender ← act_deref (GetAccount accounts (mj.jbs_Value (mj.tx_From tx)));
    balance ← act_deref (wa_Balance sender);
    value ← tx_value tx;
    mret (value <=? balance).

Definition plainOutput (code : ReturnCode) (accounts : gmap bytes OutputAccount) : VMOutput :=
  mkVMOutput [] code [] 0 (Some 0) accounts [] [] [].

Definition simpleTransferOutput (tx : mj.Transaction) : X VMOutput :=
  let to := mj.jbs_Value (mj.tx_To tx) in
  mret (plainOutput Ok
    {[to := mkOutputAccount to 0 None (mj.jbi_Value (mj.tx_Value tx)) ∅ [] [] None [] 0]}).

Definition not_existing (address : bytes) : error :=
  ErrNew (bs "tx recipient (address: " ++ hex_EncodeToString address ++ bs ") does not exist").

Definition validatorRewardOutput (tx : mj.Transaction) : X VMOutput :=
  let to := mj.jbs_Value (mj.tx_To tx) in
  accounts ← act_gets (fun ae => mw_AcctMap (ae_World ae));
  match GetAccount accounts to with
  | None => act_fail (not_existing to)
  | Some recipient =>
      on_world (modify_account to (set_wa_BalanceDelta (mj.jbi_Value (mj.tx_Value tx)))) ;;
      reward ← tx_value tx;
      let storageReward := Bytes (SetBytes (StorageValue recipient RewardKey) + reward) in
      mret (plainOutput Ok
        {[to := mkOutputAccount to 0 None (Some reward)
                  {[RewardKey := mkStorageUpdate RewardKey storageReward]} [] [] None [] 0]})
  end.

Definition outOfFundsResult : VMOutput := plainOutput OutOfFunds ∅.

(** The input of a deployment or of a call. *)
Definition tx_VMInput (txIndex : bytes) (tx : mj.Transaction) (gasLimit : Z) : X VMInput :=
  let txHash := generateTxHash txIndex in
  value ← tx_value tx;
  pure_act (addESDTToVMInput (mj.tx_ESDTValue tx)
    (mkVMInput (mj.jbs_Value (mj.tx_From tx)) (mj.JSONBytesFromTreeValues (mj.tx_Arguments tx)) value
       DirectCall (mj.ju_Value (mj.tx_GasPrice tx)) gasLimit 0 txHash txHash [] [] false)).

Definition scCreate (txIndex : bytes) (tx : mj.Transaction) (gasLimit : Z) : X (option VMOutput) :=
  vmInput ← tx_VMInput txIndex tx gasLimit;
  on_vm (vm_RunSmartContractCreate (mkContractCreateInput vmInput (mj.jbs_Value (mj.tx_Code tx)) [])).

Definition scCall (txIndex : bytes) (tx : mj.Transaction) (gasLimit : Z) : X (option VMOutput) :=
  let to := mj.jbs_Value (mj.tx_To tx) in
  accounts ← act_gets (fun ae => mw_AcctMap (ae_World ae));
  match GetAccount accounts to with
  | None => act_fail (not_existing to)
  | Some recipient =>
      if len (wa_Code recipient) =? 0 then
        act_fail (ErrNew (bs "tx recipient (address: " ++ hex_EncodeToString to ++
          bs ") is not a smart contract"))
      else
        vmInput ← tx_VMInput txIndex tx gasLimit;
        on_vm (vm_RunSmartContractCall (mkContractCallInput vmInput to (mj.tx_Function tx) false))
  end.

Definition directESDTTransferFromTx (tx : mj.Transaction) (e : mj.ESDTTxData) : X Z :=
  value ← act_deref (mj.jbi_Value (mj.etx_Value e));
  on_world (PerformDirectESDTTransfer (mj.jbs_Value (mj.tx_From tx)) (mj.jbs_Value (mj.tx_To tx))
    (mj.jbs_Value (mj.etx_TokenIdentifier e)) (mj.ju_Value (mj.etx_Nonce e)) value DirectCall
    (mj.ju_Value (mj.tx_GasLimit tx)) (mj.ju_Value (mj.tx_GasPrice tx))).

(** [sumOfBalanceDeltas]: a nil delta panics. *)
Definition sum_of_deltas (accounts : gmap bytes OutputAccount) : res Z :=
  for_range (range accounts) (fun '(_, oa) sum => delta ← deref_res (BalanceDelta oa); mret (sum + delta)) 0.

(** The error of [UpdateBalanceWithDelta] is dropped. *)
Definition updateStateAfterTx (tx : mj.Transaction) (output : VMOutput) : X unit :=
  let sender := mj.HasSender (mj.tx_Type tx) in
  (if sender then
     value ← tx_value tx;
     _ ← attempt (on_world (UpdateBalanceWithDelta (mj.jbs_Value (mj.tx_From tx)) (- value)));
     mret tt
   else mret tt) ;;
  on_world (UpdateAccounts (OutputAccounts output) (DeletedAccounts output)) ;;
  if sender then
    sumOfBalanceDeltas ← pure_act (sum_of_deltas (OutputAccounts output));
    value ← tx_value tx;
    if sumOfBalanceDeltas =? value then mret tt
    else act_fail (ErrNew (
      bs "sum of balance deltas should equal call value. Sum of balance deltas: " ++
      Sprintf_int sumOfBalanceDeltas ++ bs " (0x" ++ Sprintf_hex sumOfBalanceDeltas ++ bs "). Call value: " ++
      Sprintf_int value ++ bs " (0x" ++ Sprintf_hex value ++ bs ")"))
  else mret tt.

(** An error, and whether the variable [err] that the deferred function reads holds it:
    it does not where an inner [err] hides it or where it was never assigned. *)
Definition tx_error : Type := bool * error.

Definition seen {A} (m : X A) : act VMTestExecutor tx_error A := on_error (pair true) m.
Definition unseen {A} (m : X A) : act VMTestExecutor tx_error A := on_error (pair false) m.

(** The gas for the execution; the sender pays all of it first. *)
Definition prepareTx (txIndex : bytes) (tx : mj.Transaction) : act VMTestExecutor tx_error Z :=
  if mj.HasSender (mj.tx_Type tx) then
    seen (on_error (fun err => ErrFmt (bs "could not set up tx " ++ txIndex ++ bs ": ") err [])
      (on_world (UpdateWorldStateBefore (mj.jbs_Value (mj.tx_From tx)) (mj.ju_Value (mj.tx_GasLimit tx))
         (mj.ju_Value (mj.tx_GasPrice tx))))) ;;
    match mj.tx_ESDTValue tx with
    | Some e => unseen (directESDTTransferFromTx tx e)
    | None => mret (mj.ju_Value (mj.tx_GasLimit tx))
    end
  else mret 0.

(** A query is sent by the contract itself, with all the gas there is. *)
Definition query (tx : mj.Transaction) : mj.Transaction :=
  mj.set_tx_From (mj.tx_To tx)
    (mj.set_tx_GasLimit (mj.mkJSONUint64 MaxUint64 (mj.ju_Original (mj.tx_GasLimit tx))) tx).

(** The output of the VM, or what stands for it, and the transaction as it was changed. *)
Definition outputOfTx (txIndex : bytes) (tx : mj.Transaction) (gasForExecution : Z) :
    act VMTestExecutor tx_error (mj.Transaction * VMOutput) :=
  enough ← unseen (senderHasEnoughBalance tx);
  if negb enough then mret (tx, outOfFundsResult)
  else
    let returned tx m := output ← seen m; output ← act_deref output; mret (tx, output) in
    match mj.tx_Type tx with
    | mj.ScDeploy => returned tx (scCreate txIndex tx gasForExecution)
    | mj.ScQuery => returned (query tx) (scCall txIndex (query tx) MaxUint64)
    | mj.ScCall => returned tx (scCall txIndex tx gasForExecution)
    | mj.Transfer => output ← unseen (simpleTransferOutput tx); mret (tx, output)
    | mj.ValidatorReward => output ← seen (validatorRewardOutput tx); mret (tx, output)
    end.

(** Everything between the backup and the return: the output and [err]. *)
Definition runTx (txIndex : bytes) (tx : mj.Transaction) :
    act VMTestExecutor tx_error (VMOutput * option error) :=
  gasForExecution ← prepareTx txIndex tx;
  '(tx, output) ← outputOfTx txIndex tx gasForExecution;
  if bool_decide (out_ReturnCode output = Ok) then
    unseen (updateStateAfterTx tx output) ;; mret (output, None)
  else
    mret (output, Some (ErrNew (bs "tx step failed: retcode=" ++
      Sprintf_int (ReturnCode_Int64 (out_ReturnCode output)) ++ bs ", msg=" ++ ReturnMessage output))).

(** The deferred function: its error is assigned to [err], which nobody reads. *)
Definition deferred (err : option error) (ae : VMTestExecutor) : VMTestExecutor :=
  let finish := match err with Some _ => RollbackChanges | None => CommitChanges end in
  set_ae_World (fst (finish (ae_World ae))) ae.

Definition with_deferred {A} (m : act VMTestExecutor tx_error (A * option error)) : X A := fun ae =>
  match m ae with
  | (ae, Ret (inr (output, err))) => (deferred err ae, Ret (inr output))
  | (ae, Ret (inl (assigned, e))) =>
      (deferred (if assigned : bool then Some e else None) ae, Ret (inl e))
  | (ae, Panic) => (deferred None ae, Panic)
  | (ae, OutOfFuel) => (ae, OutOfFuel)
  end.

(** A nil transaction panics when its type is looked at. *)
Definition executeTx (txIndex : bytes) (tx : option mj.Transaction) : X VMOutput :=
  on_world CreateStateBackup ;; with_deferred (tx ← act_deref tx; runTx txIndex tx).

End Exec.
