(* ===== verification/ScenCheck.v ===== *)
(** Checking the world and the results of transactions against what a scenario expects
    ([stepCheckAccounts.go], [stepCheckTxResult.go]).

    The maps made to collect keys are walked in the order of [range], or of
    [range_numbers]; the errors that one check collects are kept as their texts. *)
From S2P Require Import Prelude Errors Types State OrderedJson GoText Fallible Stateful.
From S2P Require Import ScenExpr ScenModel ScenParse ScenWrite WorldMock ScenExec.

#[local] Open Scope Z_scope.

Section Check.
Context `{Ext : Externals} `{Mock : worldmock.MockEnv} `{Files : ExecEnv} `{Scen : ScenEnv}.
Import worldmock.

(** [return fmt.Errorf(...)] *)
Definition mismatch {A : Type} (parts : list bytes) : res A := fail (ErrNew (concat parts)).

(** [oj.JSONString]: of a nil tree it panics. *)
Definition printed (tree : option OJsonObject) : res bytes :=
  tree ← deref_res tree; mret (JSONString tree).

(** [JSONCheckBigInt.Check] of a pointer. *)
Definition check_pointer (jcbi : mj.JSONCheckBigInt) (other : option Z) : res bool :=
  match other with
  | Some other => mj.CheckBigInt_Check jcbi other
  | None => if mj.jcbi_IsStar jcbi then mret true else Panic
  end.

(** [if !condition { return err }] *)
Definition require (condition : bool) (err : res unit) : res unit :=
  if condition then mret tt else err.

(** ** Storage *)

(** The keys of two maps. *)
Definition all_keys {A B : Type} (m : gmap bytes A) (n : gmap bytes B) : gmap bytes bool :=
  ((fun _ => true) <$> m) ∪ ((fun _ => true) <$> n).

Definition expectedStorage (expectedAcct : mj.CheckAccount) : gmap bytes mj.JSONCheckBytes :=
  fold_left (fun m stkvp => <[mj.jbs_Value (mj.cst_Key stkvp) := mj.cst_CheckValue stkvp]> m)
    (mj.ca_CheckStorage expectedAcct) ∅.

(** What is wanted of a key. *)
Definition wanted (expectedAcct : mj.CheckAccount) (k : bytes) : mj.JSONCheckBytes :=
  match expectedStorage expectedAcct !! k with
  | Some want => want
  | None =>
      if mj.ca_MoreStorageAllowed expectedAcct then mj.JSONCheckBytesStar
      else mj.JSONCheckBytesUnspecified
  end.

(** Reserved keys are ignored. *)
Definition check_key (expectedAcct : mj.CheckAccount) (matchingAcct : Account) (k : bytes)
    (storageError : bytes) : res bytes :=
  if HasPrefix k core_ProtectedKeyPrefix then mret storageError
  else
    let want := wanted expectedAcct k in
    let have := StorageValue matchingAcct k in
    if mj.CheckBytes_Check want have then mret storageError
    else
      original ← printed (mj.jcb_Original want);
      mret (storageError ++ newline :: bs "  for key " ++ Reconstruct k NoHint ++ bs ": Want: " ++
        original ++ bs ". Have: " ++ quoted (Reconstruct have NoHint)).

Definition checkAccountStorage (expectedAcct : mj.CheckAccount) (matchingAcct : Account) : res unit :=
  if mj.ca_IgnoreStorage expectedAcct then mret tt
  else
    let allKeys := all_keys (expectedStorage expectedAcct) (wa_Storage matchingAcct) in
    storageError ← for_range (range allKeys) (fun '(k, _) => check_key expectedAcct matchingAcct k) [];
    if 0 <? len storageError then
      mismatch [bs "wrong account storage for account ";
        quoted (mj.jbs_Original (mj.ca_Address expectedAcct)); bs ":"; storageError]
    else mret tt.

(** ** Tokens *)

(** [if !ok { errors = append(errors, text) }] *)
Definition note_if (wrong : bool) (text : res bytes) (errors : list bytes) : res (list bytes) :=
  if wrong then text ← text; mret (errors ++ [text]) else mret errors.

Definition getExpectedTokens (expectedAcct : mj.CheckAccount) : gmap bytes mj.CheckESDTData :=
  fold_left (fun m expectedTokenData =>
    <[mj.jbs_Value (mj.ced_TokenIdentifier expectedTokenData) := expectedTokenData]> m)
    (mj.ca_CheckESDTData expectedAcct) ∅.

(** What is expected of an instance that is not mentioned, whose other conditions are
    zero values: an empty value, not none. *)
Definition unexpected_instance (nonce : Z) : mj.CheckESDTInstance :=
  mj.mkCheckESDTInstance (mj.mkJSONCheckUint64 nonce false [] false)
    (mj.mkJSONCheckBigInt (Some 0) false [] false) mj.zeroCheckBytes mj.zeroCheckUint64
    mj.zeroCheckBytes mj.zeroCheckBytes mj.zeroCheckBytes.

Definition missing_instance (tokenName : bytes) (nonce : Z) : ESDigitalToken :=
  mkESDigitalToken 0 (Some 0) [] (Some (mkMetaData nonce tokenName [] 0 [] [] [])).

Definition unmet_bytes (want : mj.JSONCheckBytes) (have : bytes) : bool :=
  negb (mj.jcb_Unspecified want) && negb (mj.CheckBytes_Check want have).

(** [for token: ..., nonce: ...: Bad ... Want: ... Have: ...] *)
Definition bad_instance (tokenName : bytes) (nonce : Z) (what : string) (parts : list bytes) : bytes :=
  bs "for token: " ++ tokenName ++ bs ", nonce: " ++ Sprintf_d nonce ++ bs ": " ++ bs what ++ concat parts.

Definition checkTokenInstance (tokenName : bytes) (nonce : Z) (expected : mj.CheckESDTInstance)
    (have : ESDigitalToken) (errors : list bytes) : res (list bytes) :=
  let bad := bad_instance tokenName nonce in
  let want_have tree have := original ← printed tree;
    mret [bs ". Want: "; original; bs ". Have: "; have] in
  let bad_bytes what want have shown :=
    note_if (unmet_bytes want have)
      (parts ← want_have (mj.jcb_Original want) shown; mret (bad what parts)) in
  balance_ok ← check_pointer (mj.cei_Balance expected) (esdt_Value have);
  errors ← note_if (negb balance_ok)
    (value ← deref_res (esdt_Value have);
     mret (bad "Bad balance. Want: " [quoted (mj.jcbi_Original (mj.cei_Balance expected));
       bs ". Have: "; quoted (Sprintf_int value)])) errors;
  metadata ← deref_res (esdt_TokenMetaData have);
  let creator := md_Creator metadata in
  let royalties := md_Royalties metadata in
  errors ← bad_bytes "Bad creator"%string (mj.cei_Creator expected) creator
    (quoted (Reconstruct creator AddressHint)) errors;
  errors ← note_if (negb (mj.jcu_Unspecified (mj.cei_Royalties expected)) &&
                    negb (mj.CheckUint64_Check (mj.cei_Royalties expected) royalties))
    (mret (bad "Bad royalties. Want: " [quoted (mj.jcu_Original (mj.cei_Royalties expected));
       bs ". Have: "; quoted (ReconstructFromUint64 royalties)])) errors;
  errors ← bad_bytes "Bad hash"%string (mj.cei_Hash expected) (md_Hash metadata)
    (Reconstruct (md_Hash metadata) NoHint) errors;
  errors ← note_if (1 <? len (md_URIs metadata))
    (mret (bad "More than one URI currently not supported" [])) errors;
  let actualUri := match md_URIs metadata with [uri] => uri | _ => [] end in
  errors ← bad_bytes "Bad URI"%string (mj.cei_Uri expected) actualUri
    (quoted (Reconstruct actualUri StrHint)) errors;
  bad_bytes "Bad attributes"%string (mj.cei_Attributes expected) (md_Attributes metadata)
    (quoted (Reconstruct (md_Attributes metadata) StrHint)) errors.

Definition expectedInstances (expectedToken : mj.CheckESDTData) : gmap Z mj.CheckESDTInstance :=
  fold_left (fun m i => <[mj.jcu_Value (mj.cei_Nonce i) := i]> m) (mj.ced_Instances expectedToken) ∅.

Definition accountInstances (accountToken : MockESDTData) : res (gmap Z ESDigitalToken) :=
  for_range (me_Instances accountToken) (fun i m =>
    metadata ← deref_res (esdt_TokenMetaData i); mret (<[md_Nonce metadata := i]> m)) ∅.

Definition checkTokenInstances (tokenName : bytes) (expectedToken : mj.CheckESDTData)
    (accountToken : MockESDTData) : res (list bytes) :=
  let expected := expectedInstances expectedToken in
  actual ← accountInstances accountToken;
  let allNonces := ((fun _ => true) <$> expected) ∪ ((fun _ => true) <$> actual) in
  for_range (range_numbers allNonces) (fun '(nonce, _) =>
    checkTokenInstance tokenName nonce (default (unexpected_instance nonce) (expected !! nonce))
      (default (missing_instance tokenName nonce) (actual !! nonce))) [].

(** [Account: ... Token: ... Role: ...] *)
Definition bad_role (what : string) (accountAddress tokenName role : bytes) : bytes :=
  bs what ++ bs " ESDT role. Account: " ++ accountAddress ++ bs ". Token: " ++ tokenName ++
  bs ". Role: " ++ role.

Definition role_map (roles : list bytes) : gmap bytes bool :=
  fold_left (fun m role => <[role := true]> m) roles ∅.

Definition checkTokenRoles (accountAddress tokenName : bytes) (expectedToken : mj.CheckESDTData)
    (accountToken : MockESDTData) : list bytes :=
  let expectedRoles := role_map (mj.ced_Roles expectedToken) in
  let accountRoles := role_map (me_Roles accountToken) in
  let allRoles := all_keys expectedRoles accountRoles in
  fold_left (fun errors '(role, _) =>
    errors ++
    (if default false (expectedRoles !! role) then []
     else [bad_role "unexpected" accountAddress tokenName role]) ++
    (if default false (accountRoles !! role) then []
     else [bad_role "missing" accountAddress tokenName role])) (range allRoles) [].

Definition checkTokenState (accountAddress tokenName : bytes) (expectedToken : mj.CheckESDTData)
    (accountToken : MockESDTData) : res (list bytes) :=
  errors ← checkTokenInstances tokenName expectedToken accountToken;
  let lastNonce := mj.ced_LastNonce expectedToken in
  errors ← note_if (negb (mj.CheckUint64_Check lastNonce (me_LastNonce accountToken)))
    (mret (bs "bad account ESDT last nonce. Account: " ++ accountAddress ++ bs ". Token: " ++ tokenName ++
       bs ". Want: " ++ quoted (mj.jcu_Original lastNonce) ++ bs ". Have: " ++
       Sprintf_d (me_LastNonce accountToken))) errors;
  mret (errors ++ checkTokenRoles accountAddress tokenName expectedToken accountToken).

Definition makeErrorString (errors : list bytes) : bytes :=
  concat (map (fun err => newline :: bs "  " ++ err) errors).

(** What is expected of a token that is not mentioned. *)
Definition unexpected_token (tokenName : bytes) : mj.CheckESDTData :=
  mj.mkCheckESDTData (mj.mkJSONBytesFromString tokenName (Reconstruct tokenName StrHint)) []
    (mj.mkJSONCheckUint64 0 false [] false) [] mj.zeroCheckUint64.

Definition checkAccountESDT (expectedAcct : mj.CheckAccount) (matchingAcct : Account) : res unit :=
  if mj.ca_IgnoreESDT expectedAcct then mret tt
  else
    let accountAddress := mj.jbs_Original (mj.ca_Address expectedAcct) in
    let expectedTokens := getExpectedTokens expectedAcct in
    accountTokens ← GetFullMockESDTData matchingAcct;
    let allTokenNames := all_keys expectedTokens accountTokens in
    errors ← for_range (range allTokenNames) (fun '(tokenName, _) errors =>
      more ← checkTokenState accountAddress tokenName
        (default (unexpected_token tokenName) (expectedTokens !! tokenName))
        (default (mkMockESDTData tokenName [] 0 []) (accountTokens !! tokenName));
      mret (errors ++ more)) [];
    let errorString := makeErrorString errors in
    if 0 <? len errorString then
      mismatch [bs "mismatch for account "; quoted accountAddress; bs ":"; errorString]
    else mret tt.

(** ** Accounts *)

Definition checkAccount (w : MockWorld) (expectedAcct : mj.CheckAccount) : res unit :=
  let address := mj.ca_Address expectedAcct in
  let shown := mj.jbs_Original address in
  match mw_AcctMap w !! mj.jbs_Value address with
  | None => mismatch [bs "account "; shown; bs " expected but not found after running test"]
  | Some matchingAcct =>
      require (bool_decide (wa_Address matchingAcct = mj.jbs_Value address))
        (mismatch [bs "bad account address "; Reconstruct (wa_Address matchingAcct) AddressHint]) ;;
      require (mj.CheckUint64_Check (mj.ca_Nonce expectedAcct) (wa_Nonce matchingAcct))
        (mismatch [bs "bad account nonce. Account: "; shown; bs ". Want: ";
           quoted (mj.jcu_Original (mj.ca_Nonce expectedAcct)); bs ". Have: ";
           quoted (Sprintf_d (wa_Nonce matchingAcct))]) ;;
      balance_ok ← check_pointer (mj.ca_Balance expectedAcct) (wa_Balance matchingAcct);
      require balance_ok
        (balance ← deref_res (wa_Balance matchingAcct);
         mismatch [bs "bad account balance. Account: "; shown; bs ". Want: ";
           quoted (mj.jcbi_Original (mj.ca_Balance expectedAcct)); bs ". Have: ";
           quoted (ReconstructFromBigInt balance)]) ;;
      require (mj.CheckBytes_Check (mj.ca_Username expectedAcct) (wa_Username matchingAcct))
        (original ← printed (mj.jcb_Original (mj.ca_Username expectedAcct));
         mismatch [bs "bad account username. Account: "; shown; bs ". Want: "; original; bs ". Have: ";
           quoted (Reconstruct (wa_Username matchingAcct) StrHint)]) ;;
      require (mj.CheckBytes_Check (mj.ca_Code expectedAcct) (wa_Code matchingAcct))
        (original ← printed (mj.jcb_Original (mj.ca_Code expectedAcct));
         mismatch [bs "bad account code. Account: "; shown; bs ". Want: "; original; bs ". Have: ";
           quoted (Reconstruct (wa_Code matchingAcct) CodeHint)]) ;;
      require (negb (unmet_bytes (mj.ca_AsyncCallData expectedAcct) (wa_AsyncCallData matchingAcct)))
        (mismatch [bs "bad async call data. Account: "; shown; bs ". Want: [";
           Sprintf_tree (mj.jcb_Original (mj.ca_AsyncCallData expectedAcct)); bs "]. Have: [";
           wa_AsyncCallData matchingAcct; bs "]"]) ;;
      checkAccountStorage expectedAcct matchingAcct ;;
      checkAccountESDT expectedAcct matchingAcct
  end.

(** An address of the world is expected, or the one of the system account. *)
Definition check_address (checkAccounts : mj.CheckAccounts) (worldAcctAddr : bytes) : res unit :=
  match mj.FindCheckAccount (mj.cas_Accounts checkAccounts) worldAcctAddr with
  | Some _ => mret tt
  | None =>
      require (bool_decide (vm_SystemAccountAddress = worldAcctAddr))
        (mismatch [bs "unexpected account address: "; Reconstruct worldAcctAddr AddressHint])
  end.

Definition check_unexpected (w : MockWorld) (checkAccounts : mj.CheckAccounts) : res unit :=
  for_range (range (mw_AcctMap w)) (fun kv _ => check_address checkAccounts (fst kv)) tt.

Definition checkAccounts (w : MockWorld) (checkAccounts : option mj.CheckAccounts) : res unit :=
  checkAccounts ← deref_res checkAccounts;
  (if mj.cas_MoreAccountsAllowed checkAccounts then mret tt else check_unexpected w checkAccounts) ;;
  for_range (mj.cas_Accounts checkAccounts) (fun expectedAcct _ => checkAccount w expectedAcct) tt.

(** ** Results of transactions *)

(** An original that is nil is not printed. *)
Definition checkBytesListPretty (jcbs : list mj.JSONCheckBytes) : res bytes :=
  texts ← map_range jcbs (fun jcb => printed (mj.jcb_Original jcb));
  mret (bs "[" ++
    match texts with
    | [] => []
    | first :: rest => first ++ concat (map (fun text => bs ", " ++ text) rest)
    end ++ bs "]").

Definition convertLogToTestFormat (outputLog : LogEntry) : mj.LogEntry :=
  mj.mkLogEntry
    (mj.JSONCheckBytesReconstructed (log_Address outputLog) (Reconstruct (log_Address outputLog) AddressHint))
    (mj.JSONCheckBytesReconstructed (Identifier outputLog) (Reconstruct (Identifier outputLog) StrHint))
    (map (fun topic => mj.JSONCheckBytesReconstructed topic []) (Topics outputLog))
    (mj.JSONCheckBytesReconstructed (GetFirstDataItem outputLog) []).

(** [mjwrite.LogToString] of the two logs. *)
Definition log_mismatch (what : string) (txIndex : bytes) (testLog : mj.LogEntry) (outLog : LogEntry) :
    res unit :=
  want ← LogToString testLog;
  got ← LogToString (convertLogToTestFormat outLog);
  mismatch [bs what; bs ". Tx "; txIndex; bs ". Want:"; [newline]; want; [newline]; bs "Got:"; [newline]; got].

Definition checkLog (txIndex : bytes) (testLog : mj.LogEntry) (outLog : LogEntry) : res unit :=
  require (mj.CheckBytes_Check (mj.log_Address testLog) (log_Address outLog))
    (log_mismatch "bad log address" txIndex testLog outLog) ;;
  require (mj.CheckBytes_Check (mj.log_Identifier testLog) (Identifier outLog))
    (log_mismatch "bad log identifier" txIndex testLog outLog) ;;
  require (len (Topics outLog) =? len (mj.log_Topics testLog))
    (log_mismatch "wrong number of log topics" txIndex testLog outLog) ;;
  for_range (zip (mj.log_Topics testLog) (Topics outLog)) (fun '(want, topic) _ =>
    require (mj.CheckBytes_Check want topic) (log_mismatch "bad log topic" txIndex testLog outLog)) tt ;;
  require (mj.CheckBytes_Check (mj.log_Data testLog) (GetFirstDataItem outLog))
    (log_mismatch "bad log data" txIndex testLog outLog).

(** The lists that are walked together have the same length by then. *)
Definition checkTxResults (txIndex : bytes) (blResult : mj.TransactionResult) (checkGas : bool)
    (output : VMOutput) : res unit :=
  let code := ReturnCode_Int64 (out_ReturnCode output) in
  let bad what parts := mismatch (bs what :: bs " mismatch. Tx " :: txIndex :: bs ". Want: " :: parts) in
  let bad_out what :=
    want ← checkBytesListPretty (mj.res_Out blResult);
    bad what [want; bs ". Have: "; mj.ResultAsString (ReturnData output)] in
  status_ok ← mj.CheckBigInt_Check (mj.res_Status blResult) code;
  require status_ok
    (bad "result code"%string [mj.jcbi_Original (mj.res_Status blResult); bs ". Have: "; Sprintf_int code;
       bs " ("; ReturnCode_String (out_ReturnCode output); bs "). Message: "; ReturnMessage output]) ;;
  require (mj.CheckBytes_Check (mj.res_Message blResult) (ReturnMessage output))
    (bad "result message"%string [Sprintf_tree (mj.jcb_Original (mj.res_Message blResult)); bs ". Have: ";
       ReturnMessage output]) ;;
  require (len (ReturnData output) =? len (mj.res_Out blResult)) (bad_out "result length"%string) ;;
  for_range (zip (mj.res_Out blResult) (ReturnData output)) (fun '(expected, actual) _ =>
    require (mj.CheckBytes_Check expected actual) (bad_out "result"%string)) tt ;;
  refund_ok ← check_pointer (mj.res_Refund blResult) (GasRefund output);
  require refund_ok
    (refund ← deref_res (GasRefund output);
     bad "result gas refund"%string [mj.jcbi_Original (mj.res_Refund blResult); bs ". Have: 0x";
       Sprintf_hex refund]) ;;
  let gas := mj.res_Gas blResult in
  require (negb (checkGas && negb (mj.jcu_Unspecified gas) &&
                 negb (mj.CheckUint64_Check gas (GasRemaining output))))
    (bad "result gas"%string [mj.jcu_Original gas; bs ". Got: "; Sprintf_d (GasRemaining output); bs " (0x";
       Sprintf_hex (GasRemaining output); bs ")"]) ;;
  if mj.res_LogsStar blResult then mret tt
  else
    require (len (mj.res_Logs blResult) =? len (Logs output))
      (mismatch [bs "wrong number of logs. Tx "; txIndex; bs ". Want:";
         Sprintf_d (len (mj.res_Logs blResult)); bs ". Got:"; Sprintf_d (len (Logs output))]) ;;
    for_range (zip (mj.res_Logs blResult) (Logs output)) (fun '(testLog, outLog) _ =>
      checkLog txIndex testLog outLog) tt.

End Check.
