(* ===== verification/ScenRun.v ===== *)
(** Running scenarios and tests ([execScenario.go], [execTest.go], [stepDumpWorld.go],
    and the runners of [src/scenarios/controller]).

    A scenario may run the scenario of another file, which may run a third, or itself:
    the runner takes the depth of the files as fuel. *)
From S2P Require Import Prelude Errors Types State OrderedJson GoText Fallible Stateful GasConfig.
From S2P Require Import ScenExpr ScenModel ScenParse ScenWrite WorldMock ScenExec ScenCheck.

#[local] Open Scope Z_scope.

Section Run.
Context `{Ext : Externals} `{Mock : worldmock.MockEnv} `{VM : !VMExecutionHandler} `{Files : ExecEnv}.
Context `{Scen : ScenEnv}.
Import worldmock.

(** [NewVMTestExecutor], with the VM that [NewVMHost] made. *)
Definition NewVMTestExecutor (vm : vm_state) : VMTestExecutor :=
  mkVMTestExecutor (set_mw_BuiltinFuncs true NewMockWorld) vm true false None.

Definition Reset : X unit := on_world Clear.

(** ** Dumping the world *)

Definition includeProtectedStorage : bool := false.

(** A value with the text made from it. *)
Definition dump_bytes (value : bytes) (hint : ExprReconstructorHint) : mj.JSONBytesFromString :=
  mj.mkJSONBytesFromString value (Reconstruct value hint).

Definition dump_tree (value : bytes) : mj.JSONBytesFromTree :=
  mj.mkJSONBytesFromTree value (Some (OString (Reconstruct value NoHint))).

Definition dump_uint64 (value : Z) : mj.JSONUint64 :=
  mj.mkJSONUint64 value (ReconstructFromUint64 value).

Definition dump_bigint (value : option Z) : res mj.JSONBigInt :=
  v ← deref_res value; mret (mj.mkJSONBigInt (Some v) (ReconstructFromBigInt v)).

Definition dump_storage (storage : gmap bytes bytes) : list mj.StorageKeyValuePair :=
  let included := fun '(storageKey, storageValue) =>
    (includeProtectedStorage || negb (HasPrefix storageKey core_ProtectedKeyPrefix)) &&
    (0 <? len storageValue) in
  map (fun '(storageKey, storageValue) =>
    mj.mkStorageKeyValuePair (dump_bytes storageKey NoHint) (dump_tree storageValue))
    (List.filter included (by_key (range storage))).

(** A value that is given when it is not empty. *)
Definition dump_some (value : bytes) (hint : ExprReconstructorHint) : mj.JSONBytesFromString :=
  if 0 <? len value then dump_bytes value hint else mj.zeroBytes.

Definition dump_instance (mockInstance : ESDigitalToken) : res mj.ESDTInstance :=
  metadata ← deref_res (esdt_TokenMetaData mockInstance);
  balance ← dump_bigint (esdt_Value mockInstance);
  mret (mj.mkESDTInstance (dump_uint64 (md_Nonce metadata)) balance
    (dump_some (md_Creator metadata) AddressHint)
    (if 0 <? md_Royalties metadata then dump_uint64 (md_Royalties metadata) else mj.zeroUint64)
    (dump_some (md_Hash metadata) NoHint)
    (match md_URIs metadata with uri :: _ => dump_tree uri | [] => mj.zeroTree end)
    (dump_some (md_Attributes metadata) NoHint)).

Definition dump_token (esdtObj : MockESDTData) : res mj.ESDTData :=
  scenInstances ← map_range (me_Instances esdtObj) dump_instance;
  mret (mj.mkESDTData (dump_bytes (me_TokenIdentifier esdtObj) StrHint) scenInstances
    (dump_uint64 (me_LastNonce esdtObj)) (me_Roles esdtObj) mj.zeroUint64).

Definition convertMockAccountToScenarioFormat (account : Account) : res mj.Account :=
  tokenData ← GetFullMockESDTData account;
  scenESDT ← map_range (by_key (range tokenData)) (fun '(_, esdtObj) => dump_token esdtObj);
  balance ← dump_bigint (wa_Balance account);
  mret (mj.mkAccount (dump_bytes (wa_Address account) AddressHint) mj.zeroUint64 false []
    (dump_uint64 (wa_Nonce account)) balance mj.zeroBytes (dump_storage (wa_Storage account))
    mj.zeroBytes mj.zeroBytes [] scenESDT).

(** The text that [DumpWorld] prints after its first line. *)
Definition dump_text (w : MockWorld) : res bytes :=
  scenAccounts ← map_range (range (mw_AcctMap w)) (fun '(_, account) =>
    convertMockAccountToScenarioFormat account);
  ojAccount ← AccountsToOJ scenAccounts;
  mret (JSONString ojAccount).

Definition DumpWorld : X unit := w ← act_gets ae_World; _ ← pure_act (dump_text w); mret tt.

(** ** Steps *)

Definition setState_account (scenAccount : mj.Account) : X unit :=
  worldAccount ← pure_act (convertAccount scenAccount);
  pure_act (validateSetStateAccount scenAccount worldAccount) ;;
  on_world (act_modify (fun w => set_mw_AcctMap (PutAccount worldAccount (mw_AcctMap w)) w)).

Definition ExecuteSetStateStep (step : mj.SetStateStep) : X unit :=
  act_range (mj.set_Accounts step) setState_account ;;
  on_world (act_modify (fun w =>
    set_mw_PreviousBlockInfo (convertBlockInfo (mj.set_PreviousBlockInfo step))
      (set_mw_CurrentBlockInfo (convertBlockInfo (mj.set_CurrentBlockInfo step))
      (set_mw_Blockhashes (mj.JSONBytesFromStringValues (mj.set_BlockHashes step)) w)))) ;;
  pure_act (validateNewAddressMocks (mj.set_NewAddressMocks step)) ;;
  on_world (act_modify (fun w =>
    set_mw_NewAddressMocks
      (mw_NewAddressMocks w ++ convertNewAddressMocks (mj.set_NewAddressMocks step)) w)).

Definition ExecuteTxStep (step : mj.TxStep) : X VMOutput :=
  output ← executeTx (mj.step_TxIdent step) (mj.step_Tx step);
  match mj.step_ExpectedResult step with
  | None => mret output
  | Some expected =>
      checkGas ← act_gets ae_checkGas;
      pure_act (checkTxResults (mj.step_TxIdent step) expected checkGas output) ;;
      mret output
  end.

(** [ae.checkAccounts] *)
Definition check_world (expected : option mj.CheckAccounts) : X unit :=
  w ← act_gets ae_World; pure_act (checkAccounts w expected).

Definition ExecuteCheckStateStep (step : mj.CheckStateStep) : X unit :=
  check_world (mj.chk_CheckAccounts step).

(** [RunSingleJSONScenario] of a runner with this executor and this resolver. *)
Section Steps.
Variable RunSingleJSONScenario : DefaultFileResolver -> bytes -> X unit.

(** The resolver is put back after a success only. *)
Definition ExecuteExternalStep (step : mj.ExternalStepsStep) : X unit :=
  fileResolverBackup ← act_gets ae_fileResolver;
  clonedFileResolver ← act_deref fileResolverBackup;
  RunSingleJSONScenario clonedFileResolver (ResolveAbsolutePath clonedFileResolver (mj.ext_Path step)) ;;
  act_modify (set_ae_fileResolver fileResolverBackup).

Definition ExecuteStep (generalStep : mj.Step) : X unit :=
  match generalStep with
  | mj.ExternalSteps step => ExecuteExternalStep step
  | mj.SetState step => ExecuteSetStateStep step
  | mj.CheckState step => ExecuteCheckStateStep step
  | mj.TxSteps step => _ ← ExecuteTxStep step; mret tt
  | mj.DumpState _ => DumpWorld
  end.

Definition ExecuteScenario (scenario : mj.Scenario) (fileResolver : DefaultFileResolver) : X unit :=
  act_modify (set_ae_fileResolver (Some fileResolver)) ;;
  act_modify (set_ae_checkGas (mj.sc_CheckGas scenario)) ;;
  SetScenariosGasSchedule (mj.sc_GasSchedule scenario) ;;
  act_range (mj.sc_Steps scenario) ExecuteStep.

End Steps.

(** The scenario of a file, read by a parser whose resolver is at the file. *)
Definition load_scenario (fr : DefaultFileResolver) (contextPath : bytes) :
    res (mj.Scenario * DefaultFileResolver) :=
  contextPath ← filepath_Abs contextPath;
  byteValue ← of_sum (os_ReadFile contextPath);
  let fr := SetContext contextPath fr in
  scenario ← @ParseScenarioFile (with_resolver Scen fr) byteValue;
  mret (scenario, fr).

Fixpoint RunSingleJSONScenario (fuel : nat) (fr : DefaultFileResolver) (contextPath : bytes) : X unit :=
  match fuel with
  | O => fun ae => (ae, OutOfFuel)
  | S fuel =>
      '(scenario, fr) ← pure_act (load_scenario fr contextPath);
      ExecuteScenario (RunSingleJSONScenario fuel) scenario fr
  end.

(** ** Tests of the older format *)

Definition test_account (acct : mj.Account) : X unit :=
  account ← pure_act (convertAccount acct);
  on_world (act_modify (fun w => set_mw_AcctMap (PutAccount account (mw_AcctMap w)) w)).

(** [block.Results[txIndex]] is looked up after the transaction. *)
Fixpoint test_transactions (checkGas : bool) (results : list mj.TransactionResult) (txIndex : nat)
    (transactions : list mj.Transaction) : X unit :=
  match transactions with
  | [] => mret tt
  | tx :: rest =>
      let txName := Sprintf_d (Z.of_nat txIndex) in
      output ← executeTx txName (Some tx);
      blResult ← act_deref (results !! txIndex);
      pure_act (checkTxResults txName blResult checkGas output) ;;
      test_transactions checkGas results (S txIndex) rest
  end.

Definition ExecuteTest (test : mj.Test) : X unit :=
  on_world Clear ;;
  on_world (act_modify (set_mw_Blockhashes (mj.JSONBytesFromStringValues (mj.test_BlockHashes test)))) ;;
  act_range (mj.test_Pre test) test_account ;;
  act_range (mj.test_Blocks test) (fun block =>
    test_transactions (mj.test_CheckGas test) (mj.bl_Results block) 0 (mj.bl_Transactions block)) ;;
  check_world (mj.test_PostState test).

Definition RunSingleJSONTest (fr : DefaultFileResolver) (contextPath : bytes) : X unit :=
  contextPath ← pure_act (filepath_Abs contextPath);
  byteValue ← pure_act (of_sum (os_ReadFile contextPath));
  top ← pure_act (@ParseTestFile (with_resolver Scen (SetContext contextPath fr)) byteValue);
  act_range top ExecuteTest.

End Run.
