(* ===== verification/ScenEnds.v ===== *)
(** Parsing, checking and dumping end: the only fuel is that of the expressions. *)
From S2P Require Import Prelude Errors Types State OrderedJson OrderedJsonProps GoText Fallible.
From S2P Require Import ScenExpr ScenExprProps ScenModel ScenParse.
From S2P Require Import ScenWrite WorldMock Stateful ScenExec ScenCheck ScenRun.

#[export] Hint Resolve InterpretString_ends InterpretSubTree_ends : ends.

Section Ends.
Context `{Env : ScenEnv}.

Lemma processUint64_ends obj : ends (processUint64 obj).
Proof. ends_parts. Qed.

Lemma processBigInt_ends obj format : ends (processBigInt obj format).
Proof. ends_parts. Qed.

#[local] Hint Resolve processUint64_ends processBigInt_ends : ends.

Lemma parse_json_ends s : ends (parse_json s).
Proof. unfold parse_json. destruct (ParseOrderedJSON_returns s) as [[o [e|]] ->]; done. Qed.

#[local] Hint Resolve parse_json_ends : ends.

Lemma processScenarioStep_ends obj : ends (processScenarioStep obj).
Proof. ends_parts. Qed.

#[local] Hint Resolve processScenarioStep_ends : ends.

Lemma ParseScenarioFile_ends s : ends (ParseScenarioFile s).
Proof. ends_parts. Qed.

End Ends.

#[export] Hint Resolve ParseScenarioFile_ends : ends.

(** ** Checking and dumping *)

Section Checking.
Context `{Ext : Externals} `{Mock : worldmock.MockEnv} `{Files : ExecEnv} `{Scen : ScenEnv}.
Import worldmock.

Lemma GetFullMockESDTData_ends a : ends (GetFullMockESDTData a).
Proof. ends_parts. Qed.

#[local] Hint Resolve GetFullMockESDTData_ends : ends.

Lemma printed_ends o : ends (printed o).
Proof. ends_parts. Qed.

Lemma check_pointer_ends c o : ends (check_pointer c o).
Proof. ends_parts. Qed.

Lemma note_if_ends wrong text errors : ends text -> ends (note_if wrong text errors).
Proof. intros. ends_parts. Qed.

#[local] Hint Resolve printed_ends check_pointer_ends : ends.

Lemma checkTokenInstance_ends name nonce expected have errors :
  ends (checkTokenInstance name nonce expected have errors).
Proof.
  unfold checkTokenInstance. cbv zeta.
  repeat first [apply ends_bind; [|intros ? _] | apply note_if_ends]; ends_parts.
Qed.

#[local] Hint Resolve checkTokenInstance_ends : ends.

Lemma checkAccount_ends w c : ends (checkAccount w c).
Proof. ends_parts. Qed.

Lemma checkAccounts_ends w c : ends (checkAccounts w c).
Proof. pose proof checkAccount_ends. ends_parts. Qed.

Lemma checkTxResults_ends id r gas out : ends (checkTxResults id r gas out).
Proof. ends_parts. Qed.

Lemma dump_text_ends w : ends (dump_text w).
Proof. ends_parts. Qed.

End Checking.

#[export] Hint Resolve checkAccounts_ends checkTxResults_ends dump_text_ends : ends.
