(* ===== verification/ScenToy.v ===== *)
(** A small VM, its files and its world, at which the theorems on the execution of
    scenarios are applied. *)
From S2P Require Import Prelude Errors Types State OrderedJson GoText Fallible Stateful Toy.
From S2P Require Import ScenExpr ScenExprProps ScenModel ScenParse ScenWrite WorldMock ScenExec ScenCheck ScenRun.
Import worldmock.

#[local] Open Scope Z_scope.
#[export] Existing Instance toy.

(** Tokens of one byte of balance and one of nonce. *)
Definition toy_token_Marshal (t : ESDigitalToken) : error + bytes :=
  match t with
  | mkESDigitalToken 0 (Some value) [] (Some (mkMetaData nonce name [] 0 [] [] [])) =>
      if (0 <=? value) && (value <? 256) && (0 <=? nonce) && (nonce <? 256) then
        inr (byte_of_Z value :: byte_of_Z nonce :: name)
      else inl (ErrNew (bs "too large"))
  | _ => inl (ErrNew (bs "not a plain token"))
  end.

Definition toy_token_Unmarshal (b : bytes) : error + ESDigitalToken :=
  match b with
  | value :: nonce :: name =>
      inr (mkESDigitalToken 0 (Some (Z_of_byte value)) []
        (Some (mkMetaData (Z_of_byte nonce) name [] 0 [] [] [])))
  | _ => inl (ErrNew (bs "too short"))
  end.

#[export] Instance toy_mock : MockEnv := {|
  vm_MetadataPayable := Byte.x02;
  vm_SystemAccountAddress := replicate 32 Byte.xff;
  vm_IsSmartContractAddress := fun a => HasPrefix a (replicate 8 Byte.x00);
  CodeMetadata_ToBytes := fun p u r => [Byte.x05; Byte.x02];
  CodeMetadata_Payable := fun m => true;
  core_ESDTKeyIdentifier := bs "esdt";
  core_ESDTRoleIdentifier := bs "role";
  ESDTUserMetadata_ToBytes := fun frozen => if frozen then [Byte.x01] else [];
  token_Marshal := toy_token_Marshal;
  token_Unmarshal := toy_token_Unmarshal;
  roles_Marshal := fun roles => inr (concat roles);
  roles_Unmarshal := fun b => inr [b];
  Container_Get := fun f => Some (ErrNew (bs "unknown function"));
  ProcessBuiltinFunction := fun f caller recipient input => mret None;
  range_numbers := fun A m => map_to_list m;
  range_numbers_perm := fun A m => reflexivity _;
|}.

(** The VM writes to the storage of the contract before it fails; a call that succeeds
    leaves the value with the contract. *)
Definition toy_call (input : ContractCallInput) : act (unit * MockWorld) error (option VMOutput) :=
  fun '(vm, w) =>
    let to := RecipientAddr input in
    if text_eqb (Function_ input) (bs "fail") then
      ((vm, set_mw_AcctMap (alter (fun a => set_wa_Storage (<[bs "left" := bs "over"]> (wa_Storage a)) a) to
              (mw_AcctMap w)) w), Ret (inr (Some (plainOutput UserError ∅))))
    else
      ((vm, w), Ret (inr (Some (plainOutput Ok
        {[to := mkOutputAccount to 0 None (Some (CallValue (call_VMInput input))) ∅ [] [] None [] 0]})))).

#[export] Instance toy_vm : VMExecutionHandler := {|
  vm_state := unit;
  vm_RunSmartContractCreate := fun input => mret None;
  vm_RunSmartContractCall := toy_call;
  vm_GasScheduleChange := fun gasMap vm => vm;
|}.

(** Two files: the first runs the second and checks the world. *)
Definition with_quotes (text : string) : bytes :=
  map (fun c => if Byte.eqb c Byte.x27 then quote else c) (bs text).

Definition main_file : bytes := with_quotes
  "{'name':'main','gasSchedule':'dummy','steps':[
    {'step':'externalSteps','path':'state.scen.json'},
    {'step':'scCall','tx':{'from':'address:alice','to':'sc:adder','value':'7','function':'add',
      'arguments':[],'gasLimit':'2','gasPrice':'3'},'expect':{'out':[],'status':'0'}},
    {'step':'checkState','accounts':{'address:alice':{'nonce':'1','balance':'87'},'+':''}}]}".

Definition state_file : bytes := with_quotes
  "{'name':'state','steps':[{'step':'setState','accounts':{
    'address:alice':{'nonce':'0','balance':'100'},
    'sc:adder':{'nonce':'0','balance':'20','code':'str:code'}}}]}".

#[export] Instance toy_exec : ExecEnv := {|
  os_Getwd := inr (bs "/home");
  os_ReadFile := fun path =>
    if text_eqb path (bs "/home/main.scen.json") then inr main_file
    else if text_eqb path (bs "/home/state.scen.json") then inr state_file
    else inl (ErrNew (bs "no such file"));
  toml_Load := fun _ => inr ∅;
  gasScheduleV1 := [];
  gasScheduleV2 := [];
  gasScheduleV3 := [];
  GetFirstDataItem := fun l => default [] (head (log_Data l));
  Sprintf_tree := fun o => match o with Some j => JSONString j | None => bs "<nil>" end;
|}.

(** The world after the second file. *)
Definition toy_alice : bytes := bs "alice" ++ replicate 27 Byte.x5f.
Definition toy_adder : bytes := replicate 8 Byte.x00 ++ bs "adder" ++ replicate 19 Byte.x5f.

Definition toy_account (address : bytes) (balance : Z) (code : bytes) : Account :=
  set_wa_Code code (set_wa_Balance (Some balance) (newAccount address true)).

Definition toy_executor : VMTestExecutor :=
  set_ae_World (set_mw_AcctMap
    (PutAccounts [toy_account toy_alice 100 []; toy_account toy_adder 20 (bs "code")] ∅) NewMockWorld)
    (NewVMTestExecutor tt).

(** A call of a function that pays 7, with gas for 6. *)
Definition toy_tx (function : string) : mj.Transaction :=
  mj.mkTransaction mj.ScCall mj.zeroUint64 (mj.mkJSONBigInt (Some 7) []) None
    (mj.mkJSONBytesFromString toy_alice []) (mj.mkJSONBytesFromString toy_adder []) (bs function)
    mj.zeroBytes [] (mj.mkJSONUint64 3 []) (mj.mkJSONUint64 2 []).

Definition toy_run (fuel : nat) : VMTestExecutor * outcome (error + unit) :=
  RunSingleJSONScenario fuel NewDefaultFileResolver (bs "main.scen.json") (NewVMTestExecutor tt).

Example toy_run_passes : snd (toy_run 2) = Ret (inr tt).
Proof. vm_compute. reflexivity. Qed.
