(* ===== verification/ScenExecProps.v ===== *)
(** What the executor of scenarios guarantees of a transaction: value is conserved, and a
    transaction that failed changes the nonce and the balance of its sender only. *)
From S2P Require Import Prelude Errors Types State OrderedJson GoText Fallible Stateful.
From S2P Require Import ScenExpr ScenModel WorldMock ScenExec ScenRun ScenToy.

#[local] Open Scope Z_scope.

Section Props.
Context `{Ext : Externals} `{Mock : worldmock.MockEnv} `{VM : !VMExecutionHandler} `{Files : ExecEnv}.
Context `{Scen : ScenEnv}.
Import worldmock.

(** ** The hypothesis on the VM

    The hook of the VM writes to the world through built-in functions, which move tokens
    between the storages of accounts and may change their owners and names, and through
    snapshots.  Which of it a theorem allows is a relation on worlds. *)

Definition without_storage (am : gmap bytes Account) : gmap bytes Account := set_wa_Storage ∅ <$> am.

Definition storage_only (w w' : MockWorld) : Prop :=
  without_storage (mw_AcctMap w') = without_storage (mw_AcctMap w).

(** The snapshots there are stay, under new ones. *)
Definition keeps_snapshots (w w' : MockWorld) : Prop :=
  exists more, mw_Snapshots w' = mw_Snapshots w ++ more.

(** What an account has, nothing when it is not there. *)
Definition balance_at (am : gmap bytes Account) (k : bytes) : Z := default 0 (am !! k ≫= wa_Balance).

(** Balances stay; owners, names, code and storages may change, and accounts without a
    balance may come. *)
Definition keeps_balances (w w' : MockWorld) : Prop := forall k,
  balance_at (mw_AcctMap w') k = balance_at (mw_AcctMap w) k /\
  (is_Some (mw_AcctMap w !! k ≫= wa_Balance) -> is_Some (mw_AcctMap w' !! k ≫= wa_Balance)).

(** No account comes but the system account. *)
Definition no_new_accounts (w w' : MockWorld) : Prop := forall k,
  is_Some (mw_AcctMap w' !! k) -> is_Some (mw_AcctMap w !! k) \/ k = vm_SystemAccountAddress.

Record vm_respects (R : MockWorld -> MockWorld -> Prop) : Prop := {
  respects_create : forall input s w s' w' r,
    vm_RunSmartContractCreate input (s, w) = ((s', w'), r) -> R w w';
  respects_call : forall input s w s' w' r,
    vm_RunSmartContractCall input (s, w) = ((s', w'), r) -> R w w';
  respects_builtin : forall function caller recipient input w w' r,
    ProcessBuiltinFunction function caller recipient input w = (w', r) -> R w w';
}.

(** ** Sums of balances *)

Definition balance_of (a : Account) : Z := default 0 (wa_Balance a).

Definition total_balance (am : gmap bytes Account) : Z := map_fold (fun _ a t => balance_of a + t) 0 am.

Lemma total_balance_new am k a : am !! k = None -> total_balance (<[k := a]> am) = balance_of a + total_balance am.
Proof. intros Hk. unfold total_balance. rewrite map_fold_insert_L; [done | intros; lia | done]. Qed.

Lemma total_balance_delete am k a :
  am !! k = Some a -> total_balance am = balance_of a + total_balance (delete k am).
Proof. intros Hk. unfold total_balance. by rewrite (map_fold_delete_L _ _ k a); [|intros; lia|]. Qed.

Lemma total_balance_insert am k a b :
  am !! k = Some a -> total_balance (<[k := b]> am) = total_balance am - balance_of a + balance_of b.
Proof.
  intros Hk. rewrite <-insert_delete_eq, total_balance_new by apply lookup_delete_eq.
  rewrite (total_balance_delete am k a Hk). lia.
Qed.

Lemma alter_here (f : Account -> Account) (am : gmap bytes Account) k a : am !! k = Some a -> alter f k am = <[k := f a]> am.
Proof.
  intros Hk. apply map_eq. intros j. destruct (decide (k = j)) as [<-|Hj].
  - by rewrite lookup_alter_eq, lookup_insert_eq, Hk.
  - by rewrite lookup_alter_ne, lookup_insert_ne.
Qed.

Lemma total_balance_alter (f : Account -> Account) am k a :
  am !! k = Some a ->
  total_balance (alter f k am) = total_balance am - balance_of a + balance_of (f a).
Proof. intros Hk. by rewrite (alter_here f am k a Hk), (total_balance_insert _ _ a). Qed.

(** Balances do not depend on the storages. *)
Lemma total_without_storage am : total_balance (without_storage am) = total_balance am.
Proof.
  induction am as [|k a am Hk IH] using map_ind; [done|]. unfold without_storage in *.
  rewrite fmap_insert, !total_balance_new; [|done| by rewrite lookup_fmap, Hk].
  rewrite IH. by destruct a.
Qed.

(** Equal balances have equal sums. *)
Lemma total_balance_pointwise am am' :
  (forall k, balance_at am' k = balance_at am k) -> total_balance am' = total_balance am.
Proof.
  revert am'. induction am as [|k a am Hk IH] using map_ind; intros am' H.
  - induction am' as [|j b am' Hj IH] using map_ind; [done|]. rewrite total_balance_new by done.
    rewrite IH.
    + specialize (H j). unfold balance_at in H. rewrite lookup_insert_eq, lookup_empty in H. cbn in H.
      unfold balance_of, total_balance in *. rewrite map_fold_empty. lia.
    + intros i. specialize (H i). unfold balance_at in *. destruct (decide (i = j)) as [->|Hi].
      * by rewrite Hj.
      * by rewrite lookup_insert_ne in H by done.
  - rewrite total_balance_new by done. rewrite <-(IH (delete k am')); last first.
    { intros i. specialize (H i). unfold balance_at in *. destruct (decide (i = k)) as [->|Hi].
      - by rewrite lookup_delete_eq, Hk.
      - by rewrite lookup_insert_ne in H; rewrite ?lookup_delete_ne. }
    specialize (H k). unfold balance_at in H. rewrite lookup_insert_eq in H. cbn in H.
    destruct (am' !! k) as [b|] eqn:Eb.
    + rewrite (total_balance_delete am' k b Eb). unfold balance_of. cbn in H. lia.
    + rewrite delete_id by done. unfold balance_of. cbn in H. lia.
Qed.

Lemma storage_only_lookup w w' k a :
  storage_only w w' -> mw_AcctMap w !! k = Some a ->
  exists a', mw_AcctMap w' !! k = Some a' /\ set_wa_Storage ∅ a' = set_wa_Storage ∅ a.
Proof.
  intros H Hk. assert (Hs : without_storage (mw_AcctMap w') !! k = Some (set_wa_Storage ∅ a)).
  { rewrite H. unfold without_storage. by rewrite lookup_fmap, Hk. }
  unfold without_storage in Hs. rewrite lookup_fmap, fmap_Some in Hs.
  destruct Hs as (a' & Ha' & E). by exists a'.
Qed.

Lemma same_balance a a' : set_wa_Storage ∅ a' = set_wa_Storage ∅ a -> wa_Balance a' = wa_Balance a.
Proof. destruct a, a'. by intros [= ]. Qed.

Lemma same_with_storage a a' :
  set_wa_Storage ∅ a' = set_wa_Storage ∅ a -> set_wa_Storage (wa_Storage a) a' = a.
Proof. destruct a, a'. cbn. intros H. injection H. intros. by subst. Qed.

Lemma storage_only_balances w w' : storage_only w w' -> keeps_balances w w'.
Proof.
  intros H k. assert (Hb : mw_AcctMap w' !! k ≫= wa_Balance = mw_AcctMap w !! k ≫= wa_Balance).
  { destruct (mw_AcctMap w !! k) as [a|] eqn:Ea.
    - destruct (storage_only_lookup _ _ _ _ H Ea) as (a' & -> & E). cbn. by apply same_balance.
    - symmetry in H. destruct (mw_AcctMap w' !! k) as [a'|] eqn:Ea'; [|done].
      destruct (storage_only_lookup w' w k a' H Ea') as (a & Ha & _). congruence. }
  unfold balance_at. by rewrite Hb.
Qed.

Lemma keeps_balances_total w w' :
  keeps_balances w w' -> total_balance (mw_AcctMap w') = total_balance (mw_AcctMap w).
Proof. intros H. apply total_balance_pointwise. intros k. apply H. Qed.

Lemma keeps_balances_lookup w w' k a b :
  keeps_balances w w' -> mw_AcctMap w !! k = Some a -> wa_Balance a = Some b ->
  exists a' b', mw_AcctMap w' !! k = Some a' /\ wa_Balance a' = Some b'.
Proof.
  intros H Ha Hb. destruct (H k) as [_ Hk]. rewrite Ha in Hk. cbn in Hk. rewrite Hb in Hk.
  destruct Hk as [b' Hb']; [by eexists|]. destruct (mw_AcctMap w' !! k) as [a'|]; [|done]. by exists a', b'.
Qed.

#[export] Instance keeps_balances_preorder : PreOrder keeps_balances.
Proof.
  split; [intros w k; by split|]. intros u v w H1 H2 k. destruct (H1 k) as [E1 S1], (H2 k) as [E2 S2].
  split; [congruence | auto].
Qed.

#[export] Instance storage_only_preorder : PreOrder storage_only.
Proof. split; [by intros w | intros u v w H1 H2; unfold storage_only in *; congruence]. Qed.

(** ** The storages a snapshot puts back *)

Definition with_storage_of (other : gmap bytes Account) (k : bytes) (a : Account) : Account :=
  match other !! k with Some o => set_wa_Storage (wa_Storage o) a | None => a end.

Lemma inserts_lookup {B} (g : bytes -> Account -> B) (l : list (bytes * Account)) (m : gmap bytes B) k :
  NoDup (l.*1) ->
  fold_left (fun m '(k, a) => <[k := g k a]> m) l m !! k =
  match (list_to_map l : gmap bytes Account) !! k with Some a => Some (g k a) | None => m !! k end.
Proof.
  revert m. induction l as [|[j a] l IH]; cbn; intros m Hnd.
  { by rewrite lookup_empty. }
  inversion_clear Hnd as [|? ? Hj Hnd']. rewrite IH by done. destruct (decide (j = k)) as [<-|Hne].
  - rewrite lookup_insert_eq. rewrite (not_elem_of_list_to_map_1 l j Hj). by rewrite lookup_insert_eq.
  - rewrite !lookup_insert_ne by done. done.
Qed.

Lemma visit_list_to_map {A} (m : gmap bytes A) : list_to_map (range m) = m.
Proof.
  rewrite (list_to_map_proper _ (map_to_list m)).
  - apply list_to_map_to_list.
  - rewrite range_perm. apply NoDup_fst_map_to_list.
  - apply range_perm.
Qed.

Lemma range_NoDup {A} (m : gmap bytes A) : NoDup ((range m).*1).
Proof. rewrite range_perm. apply NoDup_fst_map_to_list. Qed.

Lemma elem_of_visit {A} (m : gmap bytes A) k a : (k, a) ∈ range m <-> m !! k = Some a.
Proof. rewrite range_perm. apply elem_of_map_to_list. Qed.

Lemma load_storage_run other k a m :
  m !! k = Some a -> is_Some (other !! k) \/ k = vm_SystemAccountAddress ->
  load_storage other (k, a) m = (<[k := with_storage_of other k a]> m, Ret (inr tt)).
Proof.
  intros Hm Hk. unfold load_storage, with_storage_of. destruct (other !! k) as [o|]; [done|].
  destruct Hk as [[? ?]| ->]; [done|]. rewrite bool_decide_eq_true_2 by done. by rewrite (insert_id m).
Qed.

(** Only the system account may be new. *)
Lemma LoadAccountStorageFrom_all other am :
  (forall k, is_Some (am !! k) -> is_Some (other !! k) \/ k = vm_SystemAccountAddress) ->
  LoadAccountStorageFrom other am = (map_imap (fun k a => Some (with_storage_of other k a)) am, Ret (inr tt)).
Proof.
  intros Hdom. unfold LoadAccountStorageFrom.
  assert (H : forall l m, NoDup (l.*1) -> (forall k a, (k, a) ∈ l -> m !! k = Some a) ->
    (forall k a, (k, a) ∈ l -> is_Some (other !! k) \/ k = vm_SystemAccountAddress) ->
    act_range l (load_storage other) m =
    (fold_left (fun m '(k, a) => <[k := with_storage_of other k a]> m) l m, Ret (inr tt))).
  { induction l as [|[k a] l IH]; intros m Hnd Hm Hl; [done|]. cbn [act_range fold_left].
    inversion_clear Hnd as [|? ? Hk Hnd'].
    rewrite (act_bind_eq _ _ _ _ _ (load_storage_run other k a m (Hm k a ltac:(by left)) (Hl k a ltac:(by left)))).
    apply IH; [done | |].
    - intros k' a' Hin. rewrite lookup_insert_ne; [apply Hm; by right|]. intros <-. apply Hk.
      apply list_elem_of_fmap. by exists (k, a').
    - intros k' a' Hin. apply (Hl k' a'). by right. }
  rewrite H; [|apply range_NoDup | by intros k a Hin%elem_of_visit |].
  2: { intros k a Hin%elem_of_visit. apply Hdom. by exists a. }
  f_equal. apply map_eq. intros k.
  rewrite inserts_lookup by apply range_NoDup. rewrite visit_list_to_map, map_lookup_imap.
  by destruct (am !! k).
Qed.

(** Whatever it is given, and however it ends, only storages change. *)
Lemma LoadAccountStorageFrom_storage other am am' r :
  LoadAccountStorageFrom other am = (am', r) -> without_storage am' = without_storage am.
Proof.
  intros H. unfold LoadAccountStorageFrom in H.
  apply (act_range_inv (fun m => without_storage m = without_storage am)) in H; [done | done|].
  intros [k a] m m' r' Hin%elem_of_visit Hm. unfold load_storage. destruct (other !! k) as [o|]; [|case_bool_decide]; intros [= <- <-].
  - unfold without_storage in *. rewrite fmap_insert, Hm. apply insert_id.
    rewrite lookup_fmap, Hin. by destruct a.
  - done.
  - done.
Qed.

(** ** The parts of a transaction *)

(** What the sender has paid before the execution. *)
Definition charged (tx : mj.Transaction) (a : Account) : Account :=
  let gasPayment := mj.ju_Value (mj.tx_GasLimit tx) * mj.ju_Value (mj.tx_GasPrice tx) in
  set_wa_Balance (Some (balance_of a - gasPayment)) (set_wa_Nonce (u64 (wa_Nonce a + 1)) a).

Definition charge (tx : mj.Transaction) (am : gmap bytes Account) : gmap bytes Account :=
  if mj.HasSender (mj.tx_Type tx) then alter (charged tx) (mj.jbs_Value (mj.tx_From tx)) am else am.

Lemma UpdateWorldStateBefore_exact w w' from gasLimit gasPrice :
  UpdateWorldStateBefore from gasLimit gasPrice w = (w', Ret (inr tt)) ->
  exists a b, mw_AcctMap w !! from = Some a /\ wa_Balance a = Some b /\ gasLimit * gasPrice <= b /\
    w' = set_mw_AcctMap (<[from := set_wa_Balance (Some (b - gasLimit * gasPrice))
           (set_wa_Nonce (u64 (wa_Nonce a + 1)) a)]> (mw_AcctMap w)) w.
Proof.
  unfold UpdateWorldStateBefore, existing, modify_account, act_gets, act_modify, act_deref, act_fail.
  unfold mbind, act_bind, GetAccount. cbn.
  destruct (mw_AcctMap w !! from) as [a|] eqn:Ea; cbn; [|done].
  destruct (wa_Balance a) as [b|] eqn:Eb; cbn; [|done].
  destruct (Z.ltb_spec b (gasLimit * gasPrice)); [done|]. intros [= <-].
  exists a, b. split_and!; try done. destruct w; cbn in *.
  rewrite (alter_here _ _ _ a Ea), (alter_here _ _ _ (set_wa_Nonce (u64 (wa_Nonce a + 1)) a)).
  - by rewrite insert_insert_eq.
  - apply lookup_insert_eq.
Qed.

Lemma on_world_run {E A} (m : act MockWorld E A) ae ae' r :
  on_world m ae = (ae', r) -> exists w', m (ae_World ae) = (w', r) /\ ae' = set_ae_World w' ae.
Proof. unfold on_world, on_part. destruct (m (ae_World ae)) as [w' o]. intros [= <- <-]. by exists w'. Qed.

Lemma on_vm_run {E A} (m : act (vm_state * MockWorld) E A) ae ae' r :
  on_vm m ae = (ae', r) ->
  exists s' w', m (ae_vm ae, ae_World ae) = ((s', w'), r) /\ ae_World ae' = w'.
Proof.
  unfold on_vm, on_part. destruct (m (ae_vm ae, ae_World ae)) as [[s' w'] o]. intros [= <- <-].
  by exists s', w'.
Qed.

Lemma on_error_inr {S E E' A} (f : E -> E') (m : act S E A) st st' a :
  on_error f m st = (st', Ret (inr a)) -> m st = (st', Ret (inr a)).
Proof. unfold on_error. destruct (m st) as [st1 [[e|x]| |]]; congruence. Qed.

Section Respects.
Variable R : MockWorld -> MockWorld -> Prop.
Context `{!PreOrder R}.
Hypothesis HR : vm_respects R.

Lemma PerformDirectESDTTransfer_respects sender receiver token nonce value callType gasLimit gasPrice w w' r :
  PerformDirectESDTTransfer sender receiver token nonce value callType gasLimit gasPrice w = (w', r) ->
  R w w'.
Proof.
  unfold PerformDirectESDTTransfer. set (input := if 0 <? nonce then _ else _). clearbody input.
  unfold wrapper_ProcessBuiltInFunction, act_gets, pure_act, act_deref, act_fail, mbind, act_bind, mret, act_ret.
  destruct (getAccountSharded w _) as [[e|c]| |]; try (intros [= <- <-]; reflexivity).
  destruct (getAccountSharded w (RecipientAddr input)) as [[e|rc]| |]; try (intros [= <- <-]; reflexivity).
  destruct (Container_Get _) as [e|]; [intros [= <- <-]; reflexivity|].
  destruct (ProcessBuiltinFunction _ _ _ input w) as [w1 o] eqn:Ep.
  apply (respects_builtin R HR) in Ep.
  destruct o as [[e|[out|]]| |]; try case_bool_decide; by intros [= <- <-].
Qed.

(** The sender pays for all the gas, and then the tokens move. *)
Lemma prepareTx_run txIndex tx ae ae' gas :
  prepareTx txIndex tx ae = (ae', Ret (inr gas)) ->
  exists w1, mw_AcctMap w1 = charge tx (mw_AcctMap (ae_World ae)) /\
    mw_Snapshots w1 = mw_Snapshots (ae_World ae) /\ R w1 (ae_World ae') /\
    (mj.HasSender (mj.tx_Type tx) = true -> exists a b,
      mw_AcctMap (ae_World ae) !! mj.jbs_Value (mj.tx_From tx) = Some a /\ wa_Balance a = Some b).
Proof.
  unfold prepareTx, charge. destruct (mj.HasSender (mj.tx_Type tx)).
  2: { intros [= <- <-]. exists (ae_World ae). by split_and!; [| |reflexivity|]. }
  intros H. apply act_bind_inr in H as (ae1 & [] & H1 & H).
  apply on_error_inr, on_error_inr, on_world_run in H1 as (w1 & H1 & ->).
  apply UpdateWorldStateBefore_exact in H1 as (a & b & Ha & Hb & Hle & ->).
  match type of H with _ (set_ae_World ?w1 _) = _ => exists w1 end.
  split_and!; [| | |by intros _; exists a, b].
  { destruct (ae_World ae). cbn in *. rewrite (alter_here _ _ _ a Ha). unfold charged, balance_of. by rewrite Hb. }
  { by destruct (ae_World ae). }
  destruct (mj.tx_ESDTValue tx) as [e|].
  - apply on_error_inr, act_bind_inr in H as (ae2 & v & H2 & H).
    unfold act_deref in H2. destruct (mj.jbi_Value (mj.etx_Value e)); [|done]. injection H2 as <- <-.
    apply on_world_run in H as (w2 & H & ->). apply PerformDirectESDTTransfer_respects in H.
    by destruct ae.
  - injection H as <- <-. destruct ae. reflexivity.
Qed.

Lemma tx_VMInput_world txIndex tx gasLimit ae ae' r :
  tx_VMInput txIndex tx gasLimit ae = (ae', r) -> ae' = ae.
Proof.
  unfold tx_VMInput, tx_value, act_deref, pure_act, mbind, act_bind.
  destruct (mj.jbi_Value _); by intros [= <- <-].
Qed.

Lemma scCreate_respects txIndex tx gasLimit ae ae' o :
  scCreate txIndex tx gasLimit ae = (ae', Ret (inr o)) -> R (ae_World ae) (ae_World ae').
Proof.
  unfold scCreate. intros H. apply act_bind_inr in H as (ae1 & v & H1%tx_VMInput_world & H). subst ae1.
  apply on_vm_run in H as (s & w & H & ->). by eapply respects_create.
Qed.

Lemma scCall_respects txIndex tx gasLimit ae ae' o :
  scCall txIndex tx gasLimit ae = (ae', Ret (inr o)) -> R (ae_World ae) (ae_World ae').
Proof.
  unfold scCall. intros H. apply act_bind_inr in H as (ae1 & am & [= <- <-] & H).
  destruct (GetAccount _ _) as [a|]; [|done]. destruct (len (wa_Code a) =? 0); [done|].
  apply act_bind_inr in H as (ae1 & v & H1%tx_VMInput_world & H). subst ae1.
  apply on_vm_run in H as (s & w & H & ->). by eapply respects_call.
Qed.

Lemma senderHasEnoughBalance_world tx ae ae' r : senderHasEnoughBalance tx ae = (ae', r) -> ae' = ae.
Proof.
  unfold senderHasEnoughBalance, tx_value, act_deref, act_gets, mbind, act_bind.
  destruct (mj.HasSender _); cbn; [|by intros [= <- <-]].
  destruct (GetAccount _ _) as [a|]; [|by intros [= <- <-]].
  destruct (wa_Balance a); [|by intros [= <- <-]]. destruct (mj.jbi_Value _); by intros [= <- <-].
Qed.

(** The VM runs on the world it is given; only a reward changes an account here, and only a
    query is sent by somebody else. *)
Lemma outputOfTx_run txIndex tx gas ae ae' tx' output :
  outputOfTx txIndex tx gas ae = (ae', Ret (inr (tx', output))) ->
  mj.tx_Type tx <> mj.ValidatorReward \/ out_ReturnCode output <> Ok ->
  R (ae_World ae) (ae_World ae') /\ (mj.tx_Type tx <> mj.ScQuery -> tx' = tx).
Proof.
  unfold outputOfTx. intros H Htype.
  apply act_bind_inr in H as (ae1 & enough & H1%on_error_inr%senderHasEnoughBalance_world & H). subst ae1.
  destruct enough; cbn [negb] in H; [|by injection H as <- <- <-; split; [reflexivity|]].
  destruct (mj.tx_Type tx) eqn:Et; act_inv.
  - apply on_error_inr, scCreate_respects in Ha. destruct a as [out|]; [|done]. injection Ha0 as <- <-.
    by injection H as <- <- <-.
  - apply on_error_inr, scCall_respects in Ha. destruct a as [out|]; [|done]. injection Ha0 as <- <-.
    by injection H as <- <- <-.
  - apply on_error_inr, scCall_respects in Ha. destruct a as [out|]; [|done]. injection Ha0 as <- <-.
    by injection H as <- <- <-.
  - apply on_error_inr in Ha. injection Ha as <- <-. injection H as <- <- <-. by split; [reflexivity|].
  - exfalso. destruct Htype as [?|Hcode]; [done|]. injection H as <- <- <-. apply Hcode.
    apply on_error_inr in Ha. unfold validatorRewardOutput in Ha. act_inv. injection Ha0 as <- <-.
    destruct (GetAccount _ _); [|done]. act_inv. by injection Ha as <- <-.
Qed.

End Respects.

(** ** The state after a transaction *)

Lemma UpdateBalanceWithDelta_exact from delta w a b :
  mw_AcctMap w !! from = Some a -> wa_Balance a = Some b ->
  UpdateBalanceWithDelta from delta w =
  (set_mw_AcctMap (alter (set_wa_Balance (Some (b + delta))) from (mw_AcctMap w)) w, Ret (inr tt)).
Proof.
  intros Ha Hb. unfold UpdateBalanceWithDelta, existing, modify_account, act_gets, act_deref, act_modify.
  unfold mbind, act_bind, GetAccount. cbn. rewrite Ha. cbn. by rewrite Hb.
Qed.

Lemma updated_account_delta modAcct acct acct' d :
  BalanceDelta modAcct = Some d -> updated_account modAcct acct = Ret (inr acct') ->
  balance_of acct' = balance_of acct + d /\ wa_Address acct' = wa_Address acct.
Proof.
  intros Hd. unfold updated_account. rewrite Hd. unfold balance_of.
  destruct (wa_Balance acct) as [b|]; [|done]. cbn. intros [= <-].
  destruct acct. by repeat case_match.
Qed.

Lemma UpdateAccount_total modAcct d w w' :
  BalanceDelta modAcct = Some d -> UpdateAccountFromOutputAccount modAcct w = (w', Ret (inr tt)) ->
  total_balance (mw_AcctMap w') = total_balance (mw_AcctMap w) + d.
Proof.
  intros Hd. unfold UpdateAccountFromOutputAccount. intros H. act_inv.
  injection Ha as <- <-. injection Ha1 as <- <-.
  assert (Hst : total_balance (mw_AcctMap st0) = total_balance (mw_AcctMap w)).
  { destruct (GetAccount (mw_AcctMap w) (Address modAcct)) as [acct|] eqn:E; injection Ha0 as <-; [done|].
    destruct w. cbn in *. unfold PutAccount. cbn. by rewrite total_balance_new. }
  unfold act_deref in Ha2. destruct (GetAccount (mw_AcctMap st0) (Address modAcct)) as [acct|] eqn:E; [|done].
  injection Ha2 as <- <-. unfold pure_act in Ha3. injection Ha3 as <- Hu.
  apply (updated_account_delta _ _ _ d) in Hu as [Hu _]; [|done].
  injection H as <-. destruct st0. cbn in *.
  rewrite (total_balance_alter _ _ _ acct E). lia.
Qed.

(** The accounts get what the sum of the deltas says. *)
Lemma UpdateAccounts_total (l : list (bytes * OutputAccount)) acc sum w w' :
  for_range l (fun '(_, oa) sum => delta ← deref_res (BalanceDelta oa); mret (sum + delta)) acc =
    Ret (inr sum) ->
  act_range l (fun '(_, modAcct) => UpdateAccountFromOutputAccount modAcct) w = (w', Ret (inr tt)) ->
  total_balance (mw_AcctMap w') = total_balance (mw_AcctMap w) + (sum - acc).
Proof.
  revert acc w. induction l as [|[k oa] l IH]; cbn [for_range act_range]; intros acc w.
  { intros [= <-] [= <-]. lia. }
  intros (acc' & Hacc & Hsum)%res_bind_inr H. act_inv. destruct a.
  destruct (BalanceDelta oa) as [d|] eqn:Hd; [|done]. injection Hacc as <-.
  rewrite (IH _ _ Hsum H). rewrite (UpdateAccount_total _ _ _ _ Hd Ha). lia.
Qed.

Lemma updateStateAfterTx_total tx output ae ae' a b :
  mj.HasSender (mj.tx_Type tx) = true -> DeletedAccounts output = [] ->
  mw_AcctMap (ae_World ae) !! mj.jbs_Value (mj.tx_From tx) = Some a -> wa_Balance a = Some b ->
  updateStateAfterTx tx output ae = (ae', Ret (inr tt)) ->
  total_balance (mw_AcctMap (ae_World ae')) = total_balance (mw_AcctMap (ae_World ae)).
Proof.
  intros Hsender Hdel Ha Hb. unfold updateStateAfterTx. rewrite Hsender, Hdel. intros H.
  apply act_bind_inr in H as (ae1 & [] & Hpay & H).
  apply act_bind_inr in H as (ae2 & [] & Hupd & H).
  apply act_bind_inr in H as (ae3 & sum & [= <- Hsum] & H).
  unfold tx_value, act_deref in *. destruct (mj.jbi_Value (mj.tx_Value tx)) as [value|]; [|done].
  rewrite (act_bind_eq _ _ ae2 ae2 value eq_refl) in H.
  rewrite (act_bind_eq _ _ ae ae value eq_refl) in Hpay.
  apply act_bind_inr in Hpay as (ae4 & r & Hpay & [= <-]). unfold attempt in Hpay.
  destruct (on_world (UpdateBalanceWithDelta _ _) ae) as [ae1 r1] eqn:Eb.
  apply on_world_run in Eb as (w1 & Eb & ->).
  rewrite (UpdateBalanceWithDelta_exact _ _ _ a b Ha Hb) in Eb. injection Eb as <- <-.
  injection Hpay as <- <-. apply on_world_run in Hupd as (w2 & Hupd & ->).
  unfold UpdateAccounts in Hupd. apply act_bind_inr in Hupd as (w3 & [] & Hrange & Hdelete).
  injection Hdelete as <-.
  apply (UpdateAccounts_total _ _ _ _ _ Hsum) in Hrange.
  destruct (Z.eqb_spec sum value) as [->|]; [|done]. injection H as <-. destruct ae as [w ?], w, w3. cbn in *.
  rewrite Hrange, (total_balance_alter _ _ _ a Ha). unfold balance_of. rewrite Hb. cbn. destruct a. cbn. lia.
Qed.

(** A clone of the accounts is the accounts. *)
Lemma AccountMap_Clone_same am clone : AccountMap_Clone am = Ret (inr clone) -> clone = am.
Proof.
  unfold AccountMap_Clone. intros H.
  assert (Hl : forall l m, for_range l (fun '(address, account) clone =>
      account ← Account_Clone account; mret (<[address := account]> clone)) m = Ret (inr clone) ->
    clone = fold_left (fun m '(k, a) => <[k := a]> m) l m).
  { induction l as [|[k a] l IH]; cbn; intros m; [by intros [= ->]|].
    intros (m' & Hm & Hrest)%res_bind_inr. apply IH in Hrest as ->. f_equal.
    unfold Account_Clone in Hm. destruct a as [? ? ? [b|] [d|]]; try done. by injection Hm as <-. }
  apply Hl in H as ->. apply map_eq. intros k. rewrite (inserts_lookup (fun _ a => a)) by apply range_NoDup.
  rewrite visit_list_to_map, lookup_empty. by destruct (am !! k).
Qed.

Lemma CreateStateBackup_run w w' r :
  CreateStateBackup w = (w', Ret (inr r)) -> w' = set_mw_Snapshots (mw_Snapshots w ++ [mw_AcctMap w]) w.
Proof.
  unfold CreateStateBackup, SnapshotState. intros H. act_inv.
  injection Ha as <- <-. unfold pure_act in Ha0. injection Ha0 as <- Hc%AccountMap_Clone_same.
  subst. by injection H as <-.
Qed.

Lemma executeTx_run txIndex tx ae ae' output :
  executeTx txIndex (Some tx) ae = (ae', Ret (inr output)) ->
  exists ae1 ae2 err,
    ae1 = set_ae_World (set_mw_Snapshots (mw_Snapshots (ae_World ae) ++ [mw_AcctMap (ae_World ae)])
            (ae_World ae)) ae /\
    runTx txIndex tx ae1 = (ae2, Ret (inr (output, err))) /\ ae' = deferred err ae2.
Proof.
  unfold executeTx. intros H. apply act_bind_inr in H as (ae1 & [] & H1 & H).
  apply on_world_run in H1 as (w1 & H1%CreateStateBackup_run & ->). subst w1.
  unfold with_deferred, mbind, act_bind, act_deref in H. cbn beta iota in H.
  destruct (runTx txIndex tx _) as [ae2 [[[? e]|[out err]]| |]] eqn:E; try done.
  injection H as <- <-. by eexists _, ae2, err.
Qed.

Lemma runTx_run txIndex tx ae ae' output err :
  runTx txIndex tx ae = (ae', Ret (inr (output, err))) ->
  exists gas ae1 tx' ae2,
    prepareTx txIndex tx ae = (ae1, Ret (inr gas)) /\
    outputOfTx txIndex tx gas ae1 = (ae2, Ret (inr (tx', output))) /\
    (if bool_decide (out_ReturnCode output = Ok)
     then updateStateAfterTx tx' output ae2 = (ae', Ret (inr tt)) /\ err = None
     else ae' = ae2 /\ is_Some err).
Proof.
  unfold runTx. intros H. apply act_bind_inr in H as (ae1 & gas & Hgas & H).
  apply act_bind_inr in H as (ae2 & [tx' out] & Hout & H). exists gas, ae1, tx', ae2.
  case_bool_decide as Hcode.
  - apply act_bind_inr in H as (ae3 & [] & Hupd%on_error_inr & H). injection H as <- <- <-.
    by rewrite bool_decide_eq_true_2 by done.
  - injection H as <- <- <-. by rewrite bool_decide_eq_false_2 by done.
Qed.

(** Committing or rolling back changes storages only. *)
Lemma deferred_storage_only err ae : storage_only (ae_World ae) (ae_World (deferred err ae)).
Proof.
  unfold deferred, storage_only. destruct ae as [w ?]. cbn. destruct err; [|by destruct w].
  unfold RollbackChanges, adapter_RevertToSnapshot, act_gets, act_fail, act_modify, act_deref, on_part.
  unfold mbind, act_bind. destruct (len (mw_Snapshots w) =? 0); [done|].
  destruct (_ || _); [done|]. destruct (mw_Snapshots w !! _) as [snapshot|]; [|done]. cbn.
  destruct (LoadAccountStorageFrom snapshot _) as [am r] eqn:E. cbn.
  apply LoadAccountStorageFrom_storage in E. by destruct w.
Qed.

(** ** The theorems *)

(** C33: When the VM's own writes to the world, which are those of its built-in functions,
    change no balance (a claim of developer rewards does; moving tokens, changing an owner or
    a user name and creating empty accounts do not), a transaction with a sender that ends
    with an output and deletes no account conserves value, whether it succeeded or not: the
    sum of all balances falls by exactly the gas the sender paid for.  What the output does
    with the value is checked by the executor, not assumed. *)
Theorem executeTx_conserves (HR : vm_respects keeps_balances) txIndex tx ae ae' output
    (Hsender : mj.HasSender (mj.tx_Type tx) = true)
    (Hrun : executeTx txIndex (Some tx) ae = (ae', Ret (inr output)))
    (Hdeleted : DeletedAccounts output = []) :
  total_balance (mw_AcctMap (ae_World ae')) =
  total_balance (mw_AcctMap (ae_World ae)) -
  mj.ju_Value (mj.tx_GasLimit tx) * mj.ju_Value (mj.tx_GasPrice tx).
Proof.
  apply executeTx_run in Hrun as (ae1 & ae2 & err & Hae1 & Hrun & ->).
  rewrite (keeps_balances_total _ _ (storage_only_balances _ _ (deferred_storage_only err ae2))).
  apply runTx_run in Hrun as (gas & ae3 & tx' & ae4 & Hprep & Hout & Hend).
  apply (prepareTx_run keeps_balances HR) in Hprep as (w1 & Hw1 & _ & Hstep & Hfrom).
  destruct (Hfrom Hsender) as (a & b & Ha & Hb).
  assert (Hnot : mj.tx_Type tx <> mj.ValidatorReward /\ mj.tx_Type tx <> mj.ScQuery).
  { by destruct (mj.tx_Type tx). }
  destruct Hnot as [Hreward Hquery].
  apply (outputOfTx_run keeps_balances HR) in Hout as [Hvm Htx']; [|by left].
  rewrite (Htx' Hquery) in Hend. clear Htx'.
  assert (Hs : keeps_balances w1 (ae_World ae4)) by by etransitivity.
  assert (Htotal : total_balance (mw_AcctMap (ae_World ae4)) =
    total_balance (mw_AcctMap (ae_World ae)) -
    mj.ju_Value (mj.tx_GasLimit tx) * mj.ju_Value (mj.tx_GasPrice tx)).
  { rewrite (keeps_balances_total _ _ Hs), Hw1. unfold charge. rewrite Hsender.
    rewrite (total_balance_alter _ _ _ a Ha). unfold charged, balance_of. subst ae1.
    destruct ae as [w ?], w, a. cbn in *. rewrite Hb. cbn. lia. }
  case_bool_decide; [|by destruct Hend as [-> _]]. destruct Hend as [Hend ->].
  assert (Hpaid : exists b', wa_Balance (charged tx a) = Some b') by (unfold charged; destruct a; by eexists).
  destruct Hpaid as [b' Hb'].
  destruct (keeps_balances_lookup _ _ (mj.jbs_Value (mj.tx_From tx)) (charged tx a) b' Hs) as (a2 & b2 & Ha2 & Hb2);
    [|done|by rewrite (updateStateAfterTx_total _ _ _ _ a2 b2 Hsender Hdeleted Ha2 Hb2 Hend)].
  rewrite Hw1. unfold charge. rewrite Hsender, lookup_alter_eq. subst ae1.
  by destruct ae as [w ?], w; cbn in *; rewrite Ha.
Qed.

Lemma charge_storage tx am k : wa_Storage <$> charge tx am !! k = wa_Storage <$> am !! k.
Proof.
  unfold charge. destruct (mj.HasSender _); [|done].
  destruct (decide (k = mj.jbs_Value (mj.tx_From tx))) as [->|Hne].
  - rewrite lookup_alter_eq. destruct (am !! _) as [a|]; [|done]. by destruct a.
  - by rewrite lookup_alter_ne.
Qed.

Lemma set_storage_twice s t a : set_wa_Storage s (set_wa_Storage t a) = set_wa_Storage s a.
Proof. by destruct a. Qed.

(** The storages of one map of accounts and the rest of another make the accounts. *)
Lemma same_accounts am am' :
  without_storage am' = without_storage am ->
  (forall k a', am' !! k = Some a' -> wa_Storage <$> am !! k = Some (wa_Storage a')) -> am' = am.
Proof.
  intros Hothers Hstorage. apply map_eq. intros k. pose proof (f_equal (lookup k) Hothers) as H.
  unfold without_storage in H. rewrite !lookup_fmap in H.
  destruct (am' !! k) as [a'|] eqn:Ea'.
  - specialize (Hstorage k a' Ea'). destruct (am !! k) as [a|]; [|done]. f_equal.
    injection H as H. injection Hstorage as Hs. rewrite <-(same_with_storage a' a') by done.
    rewrite <-Hs. by apply same_with_storage.
  - by destruct (am !! k).
Qed.

(** The accounts after a rollback. *)
Definition restored (before am : gmap bytes Account) : gmap bytes Account :=
  map_imap (fun k a => Some (with_storage_of before k a)) am.

(** After a rollback to a snapshot with all accounts but the system account's. *)
Lemma rolled_back_exact snapshot more w :
  mw_Snapshots w = snapshot :: more ->
  (forall k, is_Some (mw_AcctMap w !! k) -> is_Some (snapshot !! k) \/ k = vm_SystemAccountAddress) ->
  RollbackChanges w =
    (set_mw_Snapshots [] (set_mw_AcctMap (restored snapshot (mw_AcctMap w)) w), Ret (inr tt)).
Proof.
  intros Hsn Hdom. unfold RollbackChanges, adapter_RevertToSnapshot, act_gets, act_modify, act_deref.
  unfold mbind, act_bind, on_part. destruct w. cbn in *. rewrite Hsn. unfold len. cbn [length].
  rewrite (proj2 (Z.eqb_neq (Z.of_nat (S (length more))) 0)) by lia.
  rewrite (proj2 (Z.leb_gt (Z.of_nat (S (length more))) 0)) by lia. cbn.
  change ((snapshot :: more) !! Z.to_nat 0) with (Some snapshot). cbn.
  by rewrite (LoadAccountStorageFrom_all snapshot _ Hdom).
Qed.

Lemma restored_others before am : without_storage (restored before am) = without_storage am.
Proof.
  apply map_eq. intros k. unfold without_storage, restored. rewrite !lookup_fmap, map_lookup_imap.
  destruct (am !! k) as [x|]; [|done]. cbn. f_equal. unfold with_storage_of.
  destruct (before !! k); [by rewrite set_storage_twice | done].
Qed.

Lemma restored_storage before am k a' :
  (is_Some (am !! k) -> is_Some (before !! k) \/ k = vm_SystemAccountAddress) ->
  restored before am !! k = Some a' ->
  (exists a, before !! k = Some a /\ wa_Storage a' = wa_Storage a) \/
  (k = vm_SystemAccountAddress /\ before !! k = None).
Proof.
  intros Hdom. unfold restored. rewrite map_lookup_imap. destruct (am !! k) as [x|]; [|done].
  intros [= <-]. unfold with_storage_of. destruct (before !! k) as [o|].
  - left. exists o. by destruct x.
  - right. by destruct Hdom as [[? ?]| ->].
Qed.

Lemma restored_charge tx before after :
  (forall k a', after !! k = Some a' -> (exists a, before !! k = Some a /\ wa_Storage a' = wa_Storage a) \/
     (k = vm_SystemAccountAddress /\ before !! k = None)) ->
  without_storage after = without_storage (charge tx before) -> after = charge tx before.
Proof.
  intros Hafter Hothers. apply same_accounts; [exact Hothers|]. intros k a' Ha'. rewrite charge_storage.
  destruct (Hafter k a' Ha') as [(a & -> & ->)|[_ Hnone]]; [done|]. exfalso.
  pose proof (f_equal (lookup k) Hothers) as H. unfold without_storage in H. rewrite !lookup_fmap, Ha' in H.
  pose proof (charge_storage tx before k) as Hc. rewrite Hnone in Hc. by destruct (charge tx before !! k).
Qed.

Section Rollback.
(** What the VM may do to the accounts but for their storages. *)
Context (S : gmap bytes Account -> gmap bytes Account -> Prop) `{!PreOrder S}.

Definition writes (w w' : MockWorld) : Prop :=
  S (without_storage (mw_AcctMap w)) (without_storage (mw_AcctMap w')) /\
  no_new_accounts w w' /\ keeps_snapshots w w'.

#[export] Instance writes_preorder : PreOrder writes.
Proof.
  split.
  - intros w. split_and!; [reflexivity | by left | exists []; by rewrite app_nil_r].
  - intros u v w (H1 & N1 & l1 & E1) (H2 & N2 & l2 & E2). split_and!.
    + by transitivity (without_storage (mw_AcctMap v)).
    + intros k [Hk| ->]%N2; [by apply N1 | by right].
    + exists (l1 ++ l2). by rewrite E2, E1, app_assoc.
Qed.

(** C34: A transaction that ends with a return code other than Ok has its storages rolled back,
    and nothing else of what the VM wrote.  When the VM keeps the snapshot taken before the
    transaction and creates no account but the system account, then afterwards every account
    has the storage it had before, but a system account created meanwhile, and no snapshot is
    left.  The rest of the accounts is what the sender's payment of nonce and gas and the VM's
    own writes made of it: whatever relation [S] these respect holds from the accounts
    charged, so an owner changed by a built-in function stays changed.  With nothing but
    storages written the accounts are as before, but for the nonce and the gas. *)
Theorem failed_tx_rolls_back (HR : vm_respects writes) txIndex tx ae ae' output
    (Hsnapshots : mw_Snapshots (ae_World ae) = [])
    (Hrun : executeTx txIndex (Some tx) ae = (ae', Ret (inr output)))
    (Hfailed : out_ReturnCode output <> Ok) :
  let before := mw_AcctMap (ae_World ae) in
  let after := mw_AcctMap (ae_World ae') in
  S (without_storage (charge tx before)) (without_storage after) /\
  (forall k a', after !! k = Some a' ->
     (exists a, before !! k = Some a /\ wa_Storage a' = wa_Storage a) \/
     (k = vm_SystemAccountAddress /\ before !! k = None)) /\
  (without_storage after = without_storage (charge tx before) -> after = charge tx before) /\
  mw_Snapshots (ae_World ae') = [].
Proof.
  apply executeTx_run in Hrun as (ae1 & ae2 & err & Hae1 & Hrun & ->).
  apply runTx_run in Hrun as (gas & ae3 & tx' & ae4 & Hprep & Hout & Hend).
  rewrite bool_decide_eq_false_2 in Hend by done. destruct Hend as [-> [e ->]].
  apply (prepareTx_run writes HR) in Hprep as (w1 & Hw1 & Hsn & Hstep & _).
  apply (outputOfTx_run writes HR) in Hout as [Hvm _]; [|by right].
  assert (Hs : writes w1 (ae_World ae4)) by by etransitivity. clear Hstep Hvm.
  destruct Hs as (Hs & Hnew & more & Hmore). subst ae1. set (before := mw_AcctMap (ae_World ae)).
  assert (Hw : mw_AcctMap w1 = charge tx before) by by rewrite Hw1; destruct ae as [[] ?].
  assert (Hsnap : mw_Snapshots (ae_World ae4) = before :: more).
  { rewrite Hmore, Hsn. subst before. destruct ae as [[] ?]; cbn in *. by rewrite Hsnapshots. }
  assert (Hdom : forall k, is_Some (mw_AcctMap (ae_World ae4) !! k) ->
    is_Some (before !! k) \/ k = vm_SystemAccountAddress).
  { intros k Hk. destruct (Hnew k Hk) as [H| ->]; [left | by right]. rewrite Hw in H.
    pose proof (charge_storage tx before k) as Hc. destruct H as [x Hx]. rewrite Hx in Hc.
    destruct (before !! k); [by eexists | done]. }
  unfold deferred. rewrite (rolled_back_exact before more _ Hsnap Hdom). cbn [fst].
  replace (mw_AcctMap (ae_World (set_ae_World _ ae4))) with (restored before (mw_AcctMap (ae_World ae4)))
    by by destruct ae4 as [[] ?].
  cbv zeta. rewrite restored_others, <-Hw. split_and!; [exact Hs | | | by destruct ae4 as [[] ?]].
  - intros k a'. apply restored_storage, Hdom.
  - rewrite <-(restored_others before), Hw. apply restored_charge. intros k a'. apply restored_storage, Hdom.
Qed.

End Rollback.

End Props.

(** ** Witnesses *)

Import worldmock.

(** The VM of the examples. *)
Lemma toy_call_storage input s w s' w' r :
  toy_call input (s, w) = ((s', w'), r) -> storage_only w w' /\ keeps_snapshots w w'.
Proof.
  unfold toy_call. destruct (text_eqb _ _).
  - intros H. injection H as <- <- <-. split.
    + unfold storage_only, without_storage. destruct w. cbn. apply map_eq. intros k. rewrite !lookup_fmap.
      destruct (decide (k = RecipientAddr input)) as [->|Hne]; [|by rewrite lookup_alter_ne].
      rewrite lookup_alter_eq. destruct (_ !! RecipientAddr input) as [a|]; [|done]. by destruct a.
    + exists []. destruct w. cbn. by rewrite app_nil_r.
  - intros H. injection H as <- <- <-. split; [done|]. exists []. by rewrite app_nil_r.
Qed.

Lemma toy_respects (R : MockWorld -> MockWorld -> Prop) :
  (forall w, R w w) -> (forall w w', storage_only w w' -> keeps_snapshots w w' -> R w w') -> vm_respects R.
Proof.
  intros Hrefl HR. split.
  - intros input s w s' w' r [= _ <- _]. apply Hrefl.
  - intros input s w s' w' r [H1 H2]%toy_call_storage. by apply HR.
  - intros f c rc input w w' r [= <- _]. apply Hrefl.
Qed.

Lemma executeTx_conserves_witness :
  match executeTx (bs "1") (Some (toy_tx "add")) toy_executor with
  | (ae', Ret (inr output)) =>
      out_ReturnCode output = Ok /\ total_balance (mw_AcctMap (ae_World ae')) = 114
  | _ => False
  end.
Proof.
  assert (Hrun : match snd (executeTx (bs "1") (Some (toy_tx "add")) toy_executor) with
    | Ret (inr output) => out_ReturnCode output = Ok /\ DeletedAccounts output = [] | _ => False end)
    by (vm_compute; split; reflexivity).
  revert Hrun. destruct (executeTx (bs "1") (Some (toy_tx "add")) toy_executor) as [ae' [[e|output]| |]] eqn:E;
    cbn [snd]; [intros [] | intros Hrun | intros [] | intros []].
  destruct Hrun as [Hok Hdeleted]. split; [exact Hok|].
  rewrite (executeTx_conserves (toy_respects keeps_balances (fun w => reflexivity w)
    (fun w w' H _ => storage_only_balances w w' H)) (bs "1") (toy_tx "add")
    toy_executor ae' output eq_refl E Hdeleted).
  vm_compute. reflexivity.
Defined.

(** A VM that gives the contract a new owner and writes to its storage before it fails. *)
Definition owner_call (input : ContractCallInput) : act (unit * MockWorld) error (option VMOutput) :=
  fun '(vm, w) =>
    ((vm, set_mw_AcctMap (alter (fun a => set_wa_OwnerAddress (bs "new")
            (set_wa_Storage (<[bs "left" := bs "over"]> (wa_Storage a)) a)) (RecipientAddr input)
            (mw_AcctMap w)) w), Ret (inr (Some (plainOutput UserError ∅)))).

Definition owner_vm : VMExecutionHandler := {|
  vm_state := unit;
  vm_RunSmartContractCreate := fun input => mret None;
  vm_RunSmartContractCall := owner_call;
  vm_GasScheduleChange := fun gasMap vm => vm;
|}.

Definition owner_executor : @VMTestExecutor _ _ owner_vm :=
  @set_ae_World _ _ owner_vm (ae_World toy_executor) (@NewVMTestExecutor _ _ owner_vm tt).

(** Only owners differ. *)
Definition but_for_owners (m m' : gmap bytes Account) : Prop :=
  set_wa_OwnerAddress [] <$> m' = set_wa_OwnerAddress [] <$> m.

#[local] Instance but_for_owners_preorder : PreOrder but_for_owners.
Proof. split; [done | intros x y z H1 H2; unfold but_for_owners in *; congruence]. Qed.

Lemma owner_vm_writes : @vm_respects _ _ owner_vm (writes but_for_owners).
Proof.
  split.
  - intros input s w s' w' r [= _ <- _]. reflexivity.
  - intros input s w s' w' r H. injection H as _ <- _. split_and!.
    + unfold but_for_owners, without_storage. destruct w. cbn. apply map_eq. intros k. rewrite !lookup_fmap.
      destruct (decide (k = RecipientAddr input)) as [->|Hne]; [|by rewrite lookup_alter_ne].
      rewrite lookup_alter_eq. destruct (_ !! RecipientAddr input) as [a|]; [|done]. by destruct a.
    + intros k Hk. left. destruct w. cbn in *. by apply lookup_alter_is_Some in Hk.
    + exists []. destruct w. cbn. by rewrite app_nil_r.
  - intros f c rc input w w' r [= <- _]. reflexivity.
Qed.

Lemma failed_tx_rolls_back_witness :
  match @executeTx _ _ owner_vm (bs "1") (Some (toy_tx "call")) owner_executor with
  | (ae', Ret (inr output)) =>
      out_ReturnCode output = UserError /\
      but_for_owners (without_storage (charge (toy_tx "call") (mw_AcctMap (ae_World toy_executor))))
        (without_storage (mw_AcctMap (ae_World ae'))) /\
      wa_OwnerAddress <$> mw_AcctMap (ae_World ae') !! toy_adder = Some (bs "new")
  | _ => False
  end.
Proof.
  assert (Hrun : match @executeTx _ _ owner_vm (bs "1") (Some (toy_tx "call")) owner_executor with
    | (ae', Ret (inr output)) => out_ReturnCode output = UserError /\
        wa_OwnerAddress <$> mw_AcctMap (ae_World ae') !! toy_adder = Some (bs "new")
    | _ => False end) by (vm_compute; by split).
  revert Hrun. destruct (@executeTx _ _ owner_vm (bs "1") (Some (toy_tx "call")) owner_executor)
    as [ae' [[e|output]| |]] eqn:E; [intros [] | intros [Hrun Howner] | intros [] | intros []].
  split; [exact Hrun|]. split; [|exact Howner].
  assert (Hs : mw_Snapshots (ae_World owner_executor) = []) by (vm_compute; reflexivity).
  assert (Hf : out_ReturnCode output <> Ok) by (rewrite Hrun; discriminate).
  exact (proj1 (@failed_tx_rolls_back _ _ owner_vm but_for_owners _ owner_vm_writes _ _ _ _ _ Hs E Hf)).
Defined.
