(* ===== verification/ScenCheckProps.v ===== *)
(** What it means that a scenario accepts the world or the result of a transaction. *)
From S2P Require Import Prelude Errors Types State OrderedJson GoText Fallible Stateful.
From S2P Require Import ScenExpr ScenModel ScenWrite WorldMock ScenExec ScenCheck ScenExecProps.

#[local] Open Scope Z_scope.

Section Props.
Context `{Ext : Externals} `{Mock : worldmock.MockEnv} `{Files : ExecEnv} `{Scen : ScenEnv}.
Import worldmock.

(** ** Loops that collect errors *)

(** A step that collects: nothing when [ok], otherwise something, or it panics. *)
Definition collects {B} (ok : Prop) (f : list B -> res (list B)) : Prop :=
  (ok -> forall acc, f acc = Ret (inr acc)) /\
  (forall acc acc', f acc = Ret (inr acc') -> exists more, acc' = acc ++ more /\ (more = [] -> ok)).

Lemma collects_nil {B} ok (f : list B -> res (list B)) :
  collects ok f -> f [] = Ret (inr []) <-> ok.
Proof.
  intros [H1 H2]. split; [|by intros Hok; apply H1]. intros H.
  destruct (H2 _ _ H) as (more & Hm & Hok). by apply Hok.
Qed.

Lemma collects_ret {B} : collects True (fun acc : list B => mret acc).
Proof. split; [done|]. intros acc acc' [= <-]. exists []. by rewrite app_nil_r. Qed.

Lemma collects_bind {B} ok1 ok2 (f g : list B -> res (list B)) :
  collects ok1 f -> collects ok2 g -> collects (ok1 /\ ok2) (fun acc => f acc ≫= g).
Proof.
  intros [F1 F2] [G1 G2]. split.
  - intros [H1 H2] acc. rewrite (F1 H1). apply (G1 H2).
  - intros acc acc' (a & Ha & Hg)%res_bind_inr. apply F2 in Ha as (m1 & -> & Hok1).
    apply G2 in Hg as (m2 & -> & Hok2). exists (m1 ++ m2). rewrite app_assoc. split; [done|].
    intros [-> ->]%app_eq_nil. auto.
Qed.

Lemma collects_range {A B} (l : list A) (ok : A -> Prop) (f : A -> list B -> res (list B)) :
  (forall x, collects (ok x) (f x)) -> collects (forall x, x ∈ l -> ok x) (for_range l f).
Proof.
  intros Hf. split.
  - induction l as [|x l IH]; cbn [for_range]; intros Hok acc; [done|].
    rewrite (proj1 (Hf x) (Hok x ltac:(by left))). apply IH. intros y Hy. apply Hok. by right.
  - induction l as [|x l IH]; cbn [for_range]; intros acc acc'.
    { intros [= <-]. exists []. rewrite app_nil_r. split; [done|]. by intros _ x ?%not_elem_of_nil. }
    intros (a & Ha & Hrest)%res_bind_inr. apply (proj2 (Hf x)) in Ha as (m1 & -> & H1).
    apply IH in Hrest as (m2 & -> & H2). exists (m1 ++ m2). rewrite app_assoc. split; [done|].
    intros [-> ->]%app_eq_nil y [-> | Hy]%elem_of_cons; auto.
Qed.

Lemma collects_iff {B} ok ok' (f : list B -> res (list B)) :
  (ok <-> ok') -> collects ok f -> collects ok' f.
Proof. intros Hiff [H1 H2]. split; [|intros acc acc' H; destruct (H2 _ _ H) as (m & -> & ?); exists m]; intuition. Qed.

Lemma collects_note wrong text : collects (wrong = false) (note_if wrong text).
Proof.
  split; [by intros ->|]. intros acc acc'. unfold note_if. destruct wrong.
  - intros (t & _ & [= <-])%res_bind_inr. by exists [t].
  - intros [= <-]. exists []. by rewrite app_nil_r.
Qed.

(** ** Storage *)

Definition storage_matches (expectedAcct : mj.CheckAccount) (a : Account) : Prop :=
  mj.ca_IgnoreStorage expectedAcct = true \/
  forall k, HasPrefix k core_ProtectedKeyPrefix = false ->
    mj.CheckBytes_Check (wanted expectedAcct k) (StorageValue a k) = true.

Lemma check_key_collects expectedAcct a k :
  collects (HasPrefix k core_ProtectedKeyPrefix = false ->
    mj.CheckBytes_Check (wanted expectedAcct k) (StorageValue a k) = true) (check_key expectedAcct a k).
Proof.
  unfold check_key. split.
  - intros Hok acc. destruct (HasPrefix _ _); [done|]. by rewrite Hok.
  - intros acc acc'. destruct (HasPrefix _ _); [intros [= <-]; exists []; by rewrite app_nil_r|].
    destruct (mj.CheckBytes_Check _ _); [intros [= <-]; exists []; by rewrite app_nil_r|].
    intros (original & _ & [= <-])%res_bind_inr. eexists. by split.
Qed.

Lemma all_keys_lookup {A B : Type} (m : gmap bytes A) (n : gmap bytes B) k :
  is_Some (all_keys m n !! k) <-> is_Some (m !! k) \/ is_Some (n !! k).
Proof.
  unfold all_keys. rewrite lookup_union_is_Some, !lookup_fmap, !fmap_is_Some. done.
Qed.

Lemma error_text_nil (e : bytes) (err : res unit) :
  (forall a, err <> Ret (inr a)) -> (if 0 <? len e then err else mret tt) = Ret (inr tt) <-> e = [].
Proof.
  intros Herr. destruct e as [|b e]; [done|]. unfold len. cbn [length].
  rewrite (proj2 (Z.ltb_lt 0 (Z.of_nat (S (length e))))) by lia. by split; [intros H; destruct (Herr tt)|].
Qed.

Lemma checkAccountStorage_exact expectedAcct a :
  checkAccountStorage expectedAcct a = Ret (inr tt) <-> storage_matches expectedAcct a.
Proof.
  unfold checkAccountStorage, storage_matches. destruct (mj.ca_IgnoreStorage expectedAcct).
  { split; [by left | done]. }
  set (l := range _). set (f := fun '(k, _) => _).
  assert (Hc : collects (forall x, x ∈ l -> HasPrefix (fst x) core_ProtectedKeyPrefix = false ->
    mj.CheckBytes_Check (wanted expectedAcct (fst x)) (StorageValue a (fst x)) = true) (for_range l f)).
  { apply collects_range. intros [k ?]. apply check_key_collects. }
  trans (for_range l f [] = Ret (inr [])).
  { destruct (for_range l f []) as [[err|e]| |]; cbn; try by split.
    rewrite error_text_nil by done. split; [by intros -> | by intros [= ->]]. }
  rewrite (collects_nil _ _ Hc). split.
  - intros Hall. right. intros k Hk.
    destruct (all_keys (expectedStorage expectedAcct) (wa_Storage a) !! k) as [b|] eqn:E.
    { apply (Hall (k, b)); [|done]. by apply elem_of_visit. }
    assert (Hnone : expectedStorage expectedAcct !! k = None /\ wa_Storage a !! k = None).
    { rewrite !eq_None_not_Some. apply eq_None_not_Some in E. rewrite all_keys_lookup in E. tauto. }
    destruct Hnone as [H1 H2]. unfold wanted, StorageValue. rewrite H1, H2.
    by destruct (mj.ca_MoreStorageAllowed _).
  - intros [?|Hall] x _; [done|]. apply Hall.
Qed.

(** ** Tokens *)

(** A condition that may be left out. *)
Definition met_bytes (want : mj.JSONCheckBytes) (have : bytes) : Prop :=
  mj.jcb_Unspecified want = true \/ mj.CheckBytes_Check want have = true.

Lemma unmet_bytes_false want have : unmet_bytes want have = false <-> met_bytes want have.
Proof. unfold unmet_bytes, met_bytes. destruct (mj.jcb_Unspecified _), (mj.CheckBytes_Check _ _); cbn; intuition. Qed.

Definition single_uri (uris : list bytes) : bytes := match uris with [uri] => uri | _ => [] end.

Definition instance_matches (expected : mj.CheckESDTInstance) (have : ESDigitalToken) : Prop :=
  check_pointer (mj.cei_Balance expected) (esdt_Value have) = Ret (inr true) /\
  exists metadata, esdt_TokenMetaData have = Some metadata /\
    met_bytes (mj.cei_Creator expected) (md_Creator metadata) /\
    (mj.jcu_Unspecified (mj.cei_Royalties expected) = true \/
     mj.CheckUint64_Check (mj.cei_Royalties expected) (md_Royalties metadata) = true) /\
    met_bytes (mj.cei_Hash expected) (md_Hash metadata) /\
    len (md_URIs metadata) <= 1 /\
    met_bytes (mj.cei_Uri expected) (single_uri (md_URIs metadata)) /\
    met_bytes (mj.cei_Attributes expected) (md_Attributes metadata).

Lemma collects_after {A B} (m : res A) (ok : A -> Prop) (f : A -> list B -> res (list B)) :
  (forall a, collects (ok a) (f a)) ->
  collects (exists a, m = Ret (inr a) /\ ok a) (fun acc => m ≫= fun a => f a acc).
Proof.
  intros Hf. split.
  - intros (a & -> & Hok) acc. by apply (proj1 (Hf a)).
  - intros acc acc' (a & -> & H)%res_bind_inr. apply (proj2 (Hf a)) in H as (more & -> & Hok).
    exists more. split; [done|]. intros Hm. exists a. auto.
Qed.

Lemma checkTokenInstance_collects tokenName nonce expected have :
  collects (instance_matches expected have) (checkTokenInstance tokenName nonce expected have).
Proof.
  eapply collects_iff; last first.
  { unfold checkTokenInstance. cbv zeta. apply collects_after. intros balance_ok.
    apply collects_bind; [apply collects_note|]. apply collects_after. intros metadata.
    repeat (apply collects_bind; [apply collects_note|]). apply collects_note. }
  unfold instance_matches. cbv beta. split.
  - intros (b & Hb & Hok & md & Hmd & H1 & H2 & H3 & H4 & H5 & H6).
    apply negb_false_iff in Hok as ->. split; [done|]. exists md.
    destruct (esdt_TokenMetaData have); [|done]. injection Hmd as ->.
    rewrite <-!unmet_bytes_false. split_and!; try done; [|lia].
    destruct (mj.jcu_Unspecified _), (mj.CheckUint64_Check _ _); cbn in H2; auto.
  - intros (Hb & md & Hmd & H1 & H2 & H3 & H4 & H5 & H6). exists true. split; [done|]. split; [done|].
    exists md. rewrite Hmd. rewrite !unmet_bytes_false. split_and!; try done; [|lia].
    by destruct H2 as [-> | ->]; rewrite ?andb_false_r.
Qed.

Definition instances_match (tokenName : bytes) (expectedToken : mj.CheckESDTData)
    (accountToken : MockESDTData) : Prop :=
  exists actual, accountInstances accountToken = Ret (inr actual) /\
    forall nonce, instance_matches
      (default (unexpected_instance nonce) (expectedInstances expectedToken !! nonce))
      (default (missing_instance tokenName nonce) (actual !! nonce)).

Lemma absent_instance_matches tokenName nonce :
  instance_matches (unexpected_instance nonce) (missing_instance tokenName nonce).
Proof. split; [done|]. eexists. split; [done|]. cbn. split_and!; first [by right | by vm_compute]. Qed.

Lemma checkTokenInstances_exact tokenName expectedToken accountToken :
  checkTokenInstances tokenName expectedToken accountToken = Ret (inr []) <->
  instances_match tokenName expectedToken accountToken.
Proof.
  unfold checkTokenInstances, instances_match. cbv zeta.
  destruct (accountInstances accountToken) as [[err|actual]| |]; cbn;
    try (split; [done | by intros (? & ? & _)]).
  set (l := range_numbers _). set (f := fun '(nonce, _) => _).
  assert (Hc : collects (forall x, x ∈ l -> instance_matches
    (default (unexpected_instance (fst x)) (expectedInstances expectedToken !! fst x))
    (default (missing_instance tokenName (fst x)) (actual !! fst x))) (for_range l f)).
  { apply collects_range. intros [k ?]. apply checkTokenInstance_collects. }
  rewrite (collects_nil _ _ Hc). split.
  - intros Hall. exists actual. split; [done|]. intros nonce.
    match (eval cbv delta [l] in l) with range_numbers ?m => destruct (m !! nonce) as [b|] eqn:E end.
    { apply (Hall (nonce, b)). unfold l. by rewrite range_numbers_perm, elem_of_map_to_list. }
    apply lookup_union_None in E as [E1 E2]. rewrite lookup_fmap, fmap_None in E1.
    rewrite lookup_fmap, fmap_None in E2. rewrite E1, E2.
    apply absent_instance_matches.
  - intros (a & [= <-] & Hall) x _. apply Hall.
Qed.

Lemma role_map_lookup roles role : default false (role_map roles !! role) = bool_decide (role ∈ roles).
Proof.
  unfold role_map. assert (H : forall m : gmap bytes bool, default false (fold_left (fun m role => <[role := true]> m) roles m !! role) =
    bool_decide (role ∈ roles) || default false (m !! role)).
  { induction roles as [|r roles IH]; cbn; intros m.
    { by rewrite bool_decide_eq_false_2 by apply not_elem_of_nil. }
    rewrite IH. destruct (decide (r = role)) as [->|Hne].
    - rewrite lookup_insert_eq, orb_true_r. by rewrite bool_decide_eq_true_2 by left.
    - rewrite lookup_insert_ne by done. f_equal. apply bool_decide_ext. rewrite elem_of_cons.
      split; [by right | by intros [->|]]. }
  by rewrite H, lookup_empty, orb_false_r.
Qed.

Lemma role_map_is_Some roles role : is_Some (role_map roles !! role) <-> role ∈ roles.
Proof.
  pose proof (role_map_lookup roles role) as H. split.
  - intros [b Hb]. rewrite Hb in H. assert (Hall : map_Forall (fun _ x => x = true) (role_map roles)).
    { unfold role_map. assert (Hm : forall m : gmap bytes bool, map_Forall (fun _ x => x = true) m ->
        map_Forall (fun _ x => x = true) (fold_left (fun m role => <[role := true]> m) roles m)).
      { clear. induction roles as [|r roles IH]; cbn; [done|]. intros m Hm. by apply IH, map_Forall_insert_2. }
      apply Hm, map_Forall_empty. }
    rewrite (Hall _ _ Hb) in H. symmetry in H. by apply bool_decide_eq_true in H.
  - intros Hin. rewrite bool_decide_eq_true_2 in H by done.
    destruct (role_map roles !! role); [by eexists | done].
Qed.

Lemma checkTokenRoles_exact accountAddress tokenName expectedToken accountToken :
  checkTokenRoles accountAddress tokenName expectedToken accountToken = [] <->
  forall role, role ∈ mj.ced_Roles expectedToken <-> role ∈ me_Roles accountToken.
Proof.
  unfold checkTokenRoles. cbv zeta. set (l := range _). set (f := fun errors '(role, _) => _).
  assert (Hl : forall role b, (role, b) ∈ l -> role ∈ mj.ced_Roles expectedToken \/ role ∈ me_Roles accountToken).
  { intros role b H%elem_of_visit. rewrite <-!role_map_is_Some, <-all_keys_lookup. by eexists. }
  assert (Hl' : forall role, role ∈ mj.ced_Roles expectedToken \/ role ∈ me_Roles accountToken -> exists b, (role, b) ∈ l).
  { intros role. rewrite <-!role_map_is_Some, <-all_keys_lookup. intros [b Hb]. exists b. by apply elem_of_visit. }
  assert (Hf : forall l errors, fold_left f l errors = [] <-> errors = [] /\
    forall role b, (role, b) ∈ l -> role ∈ mj.ced_Roles expectedToken /\ role ∈ me_Roles accountToken).
  { clear. intros l. induction l as [|[role b] l IH]; intros errors; cbn [fold_left].
    { split; [intros ->; split; [done|]; by intros ? ? ?%not_elem_of_nil | tauto]. }
    rewrite IH. unfold f. rewrite !role_map_lookup. split.
    - intros [[-> [H1 H2]%app_eq_nil]%app_eq_nil Hall]. split; [done|].
      case_bool_decide; [|done]. case_bool_decide; [|done].
      intros r c [[= -> ->] | Hin]%elem_of_cons; eauto.
    - intros [-> Hall]. destruct (Hall role b) as [H1 H2]; [by left|].
      rewrite !bool_decide_eq_true_2 by done. split; [done|]. intros r c Hin. apply (Hall r c). by right. }
  rewrite Hf. split.
  - intros [_ Hall] role. split; intros Hin.
    + destruct (Hl' role) as [b Hb]; [by left|]. by apply (Hall role b).
    + destruct (Hl' role) as [b Hb]; [by right|]. by apply (Hall role b).
  - intros Hiff. split; [done|]. intros role b Hin. apply Hl in Hin. rewrite Hiff in *. tauto.
Qed.

Definition token_matches (tokenName : bytes) (expectedToken : mj.CheckESDTData)
    (accountToken : MockESDTData) : Prop :=
  instances_match tokenName expectedToken accountToken /\
  mj.CheckUint64_Check (mj.ced_LastNonce expectedToken) (me_LastNonce accountToken) = true /\
  forall role, role ∈ mj.ced_Roles expectedToken <-> role ∈ me_Roles accountToken.

Lemma checkTokenState_exact accountAddress tokenName expectedToken accountToken :
  checkTokenState accountAddress tokenName expectedToken accountToken = Ret (inr []) <->
  token_matches tokenName expectedToken accountToken.
Proof.
  unfold checkTokenState, token_matches. cbv zeta.
  rewrite <-checkTokenInstances_exact, <-(checkTokenRoles_exact accountAddress tokenName).
  destruct (checkTokenInstances _ _ _) as [[err|errors]| |]; cbn; try (split; [done | by intros (? & _)]).
  unfold note_if. destruct (mj.CheckUint64_Check _ _); cbn.
  - split; [intros [= [-> ->]%app_eq_nil]; done | intros ([= ->] & _ & ->); done].
  - split; [intros [= [[-> ?]%app_eq_nil ?]%app_eq_nil]; done | by intros (_ & ? & _)].
Qed.

Definition tokens_match (expectedAcct : mj.CheckAccount) (a : Account) : Prop :=
  mj.ca_IgnoreESDT expectedAcct = true \/
  exists tokens, GetFullMockESDTData a = Ret (inr tokens) /\
    forall tokenName, token_matches tokenName
      (default (unexpected_token tokenName) (getExpectedTokens expectedAcct !! tokenName))
      (default (mkMockESDTData tokenName [] 0 []) (tokens !! tokenName)).

Lemma absent_token_matches tokenName :
  token_matches tokenName (unexpected_token tokenName) (mkMockESDTData tokenName [] 0 []).
Proof.
  split_and!; [|done|done]. exists ∅. split; [done|]. intros nonce. unfold expectedInstances. cbn.
  rewrite !lookup_empty. apply absent_instance_matches.
Qed.

Lemma collects_append {B} (m : res (list B)) :
  collects (m = Ret (inr [])) (fun acc => more ← m; mret (acc ++ more)).
Proof.
  split; [intros -> acc; cbn; by rewrite app_nil_r|].
  intros acc acc' (more & Hm & [= <-])%res_bind_inr. exists more. split; [done|]. by intros ->.
Qed.

Lemma makeErrorString_nil errors : makeErrorString errors = [] <-> errors = [].
Proof. by destruct errors. Qed.

Lemma checkAccountESDT_exact expectedAcct a :
  checkAccountESDT expectedAcct a = Ret (inr tt) <-> tokens_match expectedAcct a.
Proof.
  unfold checkAccountESDT, tokens_match. destruct (mj.ca_IgnoreESDT expectedAcct).
  { split; [by left | done]. }
  cbv zeta. destruct (GetFullMockESDTData a) as [[err|tokens]| |]; cbn [mbind res_bind];
    try (split; [done | by intros [? | (? & ? & _)]]).
  set (l := range _). set (f := fun '(tokenName, _) errors => _).
  set (matches := fun tokenName => token_matches tokenName
    (default (unexpected_token tokenName) (getExpectedTokens expectedAcct !! tokenName))
    (default (mkMockESDTData tokenName [] 0 []) (tokens !! tokenName))).
  assert (Hc : collects (forall x, x ∈ l -> matches (fst x)) (for_range l f)).
  { apply collects_range. intros [k ?]. eapply collects_iff; [|apply collects_append].
    apply checkTokenState_exact. }
  trans (for_range l f [] = Ret (inr [])).
  { destruct (for_range l f []) as [[err|e]| |]; cbn [mbind res_bind]; try by split.
    rewrite error_text_nil, makeErrorString_nil by done. split; [by intros -> | by intros [= ->]]. }
  rewrite (collects_nil _ _ Hc). split.
  - intros Hall. right. exists tokens. split; [done|]. intros name. fold (matches name).
    destruct (all_keys (getExpectedTokens expectedAcct) tokens !! name) as [b|] eqn:E.
    { apply (Hall (name, b)). by apply elem_of_visit. }
    assert (Hnone : getExpectedTokens expectedAcct !! name = None /\ tokens !! name = None).
    { rewrite !eq_None_not_Some. apply eq_None_not_Some in E. rewrite all_keys_lookup in E. tauto. }
    destruct Hnone as [H1 H2]. unfold matches. rewrite H1, H2. apply absent_token_matches.
  - intros [? | (t & [= <-] & Hall)] x _; [done|]. apply Hall.
Qed.

(** ** Checks one after the other *)

Definition never_fine (err : res unit) : Prop := forall a, err <> Ret (inr a).

Lemma mismatch_never_fine parts : never_fine (mismatch parts).
Proof. by intros a. Qed.

Lemma bind_never_fine {A} (m : res A) (f : A -> res unit) :
  (forall a, never_fine (f a)) -> never_fine (mbind f m).
Proof. intros Hf a (x & _ & H)%res_bind_inr. by destruct (Hf x a). Qed.

Create HintDb fine.

#[local] Hint Resolve mismatch_never_fine : fine.

Lemma require_iff c err (rest : res unit) :
  never_fine err -> (require c err ;; rest) = Ret (inr tt) <-> c = true /\ rest = Ret (inr tt).
Proof.
  intros Herr. destruct c; cbn; [tauto|]. split; [|by intros []].
  destruct err as [[e|a]| |] eqn:E; try done. by destruct (Herr a).
Qed.

Lemma require_last c err : never_fine err -> require c err = Ret (inr tt) <-> c = true.
Proof.
  intros Herr. destruct c; cbn; [done|]. by split; [intros H; destruct (Herr tt)|].
Qed.

Lemma for_range_unit {A} (l : list A) (f : A -> res unit) :
  for_range l (fun x _ => f x) tt = Ret (inr tt) <-> forall x, x ∈ l -> f x = Ret (inr tt).
Proof.
  induction l as [|x l IH]; cbn [for_range].
  { split; [by intros _ x ?%not_elem_of_nil | done]. }
  split.
  - intros ([] & Hx & Hl)%res_bind_inr y [-> | Hy]%elem_of_cons; [done|]. by apply IH.
  - intros Hall. rewrite (Hall x) by by left. apply IH. intros y Hy. apply Hall. by right.
Qed.

Lemma bind_true_iff (m : res bool) (f : bool -> res unit) :
  (f false <> Ret (inr tt)) ->
  (m ≫= f) = Ret (inr tt) <-> m = Ret (inr true) /\ f true = Ret (inr tt).
Proof. intros Hf. destruct m as [[e|[]]| |]; cbn; split; try done; by intros []. Qed.

(** ** Accounts *)

Definition account_matches (w : MockWorld) (c : mj.CheckAccount) : Prop :=
  exists a, mw_AcctMap w !! mj.jbs_Value (mj.ca_Address c) = Some a /\
    wa_Address a = mj.jbs_Value (mj.ca_Address c) /\
    mj.CheckUint64_Check (mj.ca_Nonce c) (wa_Nonce a) = true /\
    check_pointer (mj.ca_Balance c) (wa_Balance a) = Ret (inr true) /\
    mj.CheckBytes_Check (mj.ca_Username c) (wa_Username a) = true /\
    mj.CheckBytes_Check (mj.ca_Code c) (wa_Code a) = true /\
    met_bytes (mj.ca_AsyncCallData c) (wa_AsyncCallData a) /\
    storage_matches c a /\ tokens_match c a.

Lemma checkAccount_exact w c : checkAccount w c = Ret (inr tt) <-> account_matches w c.
Proof.
  unfold checkAccount, account_matches. cbv zeta.
  destruct (mw_AcctMap w !! _) as [a|]; last first.
  { split; [intros H; by destruct (mismatch_never_fine _ _ H) | by intros (? & ? & _)]. }
  rewrite require_iff by auto with fine. rewrite bool_decide_eq_true.
  rewrite require_iff by auto with fine.
  rewrite bind_true_iff; last first.
  { cbn [require]. intros (? & ? & _)%res_bind_inr. by eapply (bind_never_fine _ _ (fun _ => mismatch_never_fine _)). }
  rewrite require_iff by (apply bind_never_fine; auto with fine).
  rewrite require_iff by (apply bind_never_fine; auto with fine).
  rewrite require_iff by (apply bind_never_fine; auto with fine).
  rewrite require_iff by auto with fine. rewrite negb_true_iff, unmet_bytes_false.
  assert (Hlast : (checkAccountStorage c a ;; checkAccountESDT c a) = Ret (inr tt) <->
    storage_matches c a /\ tokens_match c a).
  { rewrite <-checkAccountStorage_exact, <-checkAccountESDT_exact.
    destruct (checkAccountStorage c a) as [[e|[]]| |]; cbn; split; try done; by intros []. }
  rewrite Hlast. split.
  - intros. exists a. cbn in *. tauto.
  - intros (a' & [= <-] & H). cbn. tauto.
Qed.

Definition accounts_match (w : MockWorld) (c : mj.CheckAccounts) : Prop :=
  (mj.cas_MoreAccountsAllowed c = true \/
   forall address, is_Some (mw_AcctMap w !! address) -> address <> vm_SystemAccountAddress ->
     exists expected, expected ∈ mj.cas_Accounts c /\ mj.jbs_Value (mj.ca_Address expected) = address) /\
  forall expected, expected ∈ mj.cas_Accounts c -> account_matches w expected.

Lemma FindCheckAccount_Some accounts address :
  is_Some (mj.FindCheckAccount accounts address) <->
  exists c, c ∈ accounts /\ mj.jbs_Value (mj.ca_Address c) = address.
Proof.
  unfold mj.FindCheckAccount. split.
  - intros [c [Hin Hc%bool_decide_eq_true]%List.find_some]. exists c. by rewrite list_elem_of_In.
  - intros (c & Hin & Hc). destruct (List.find _ accounts) as [d|] eqn:E; [by eexists|].
    pose proof (List.find_none _ _ E c) as H. rewrite bool_decide_eq_false in H.
    by destruct (H (proj1 (list_elem_of_In _ _) Hin)).
Qed.

Lemma check_unexpected_exact w c :
  check_unexpected w c = Ret (inr tt) <->
  forall address, is_Some (mw_AcctMap w !! address) -> address <> vm_SystemAccountAddress ->
    exists expected, expected ∈ mj.cas_Accounts c /\ mj.jbs_Value (mj.ca_Address expected) = address.
Proof.
  unfold check_unexpected. rewrite (for_range_unit _ (fun kv => check_address c (fst kv))). unfold check_address.
  split.
  - intros Hall address [a Ha] Hsys. apply FindCheckAccount_Some.
    specialize (Hall (address, a) (proj2 (elem_of_visit _ _ _) Ha)). cbn in Hall.
    destruct (mj.FindCheckAccount _ _); [by eexists|].
    rewrite require_last in Hall by auto with fine. by apply bool_decide_eq_true in Hall.
  - intros Hall [address a] Ha%elem_of_visit. cbn.
    destruct (decide (address = vm_SystemAccountAddress)) as [->|Hne].
    + destruct (mj.FindCheckAccount _ _); [done|]. by rewrite bool_decide_eq_true_2.
    + destruct (proj2 (FindCheckAccount_Some (mj.cas_Accounts c) address)) as [x ->]; [|done].
      apply Hall; [by eexists | done].
Qed.

Lemma checkAccounts_iff w c : checkAccounts w (Some c) = Ret (inr tt) <-> accounts_match w c.
Proof.
  unfold checkAccounts, accounts_match. cbn [deref_res]. rewrite res_bind_ret.
  assert (Hlast : for_range (mj.cas_Accounts c) (fun expectedAcct _ => checkAccount w expectedAcct) tt =
      Ret (inr tt) <-> forall expected, expected ∈ mj.cas_Accounts c -> account_matches w expected).
  { rewrite (for_range_unit _ (checkAccount w)). split; intros H x Hx; apply checkAccount_exact; auto. }
  destruct (mj.cas_MoreAccountsAllowed c); cbn [mbind res_bind mret res_ret].
  - rewrite Hlast. split; [by auto | tauto].
  - rewrite <-check_unexpected_exact, <-Hlast.
    destruct (check_unexpected w c) as [[e|[]]| |]; cbn [mbind res_bind]; split; try done; try tauto;
      intros [[?|?] ?]; done.
Qed.

(** *** What is never looked at *)

(** A world that has forgotten its owners. *)
Definition without_owners (w : MockWorld) : MockWorld :=
  set_mw_AcctMap (set_wa_OwnerAddress [] <$> mw_AcctMap w) w.

Definition unfrozen (t : mj.CheckESDTData) : mj.CheckESDTData := mj.set_ced_Frozen mj.zeroCheckUint64 t.

(** A check without what it says of the owner, of frozen tokens and of more tokens. *)
Definition looked_at (c : mj.CheckAccount) : mj.CheckAccount :=
  mj.set_ca_Owner mj.zeroCheckBytes (mj.set_ca_MoreESDTTokensAllowed false
    (mj.set_ca_CheckESDTData (map unfrozen (mj.ca_CheckESDTData c)) c)).

Definition all_looked_at (c : mj.CheckAccounts) : mj.CheckAccounts :=
  mj.set_cas_Accounts (map looked_at (mj.cas_Accounts c)) c.

Lemma getExpectedTokens_looked_at c : getExpectedTokens (looked_at c) = unfrozen <$> getExpectedTokens c.
Proof.
  unfold getExpectedTokens. replace (mj.ca_CheckESDTData (looked_at c)) with (map unfrozen (mj.ca_CheckESDTData c))
    by by destruct c.
  assert (H : forall l (m : gmap bytes mj.CheckESDTData),
    fold_left (fun m t => <[mj.jbs_Value (mj.ced_TokenIdentifier t) := t]> m) (map unfrozen l) (unfrozen <$> m) =
    unfrozen <$> fold_left (fun m t => <[mj.jbs_Value (mj.ced_TokenIdentifier t) := t]> m) l m).
  { induction l as [|t l IH]; intros m; [done|]. cbn [map fold_left]. rewrite <-IH, fmap_insert. by destruct t. }
  rewrite <-H, fmap_empty. done.
Qed.

Lemma tokens_match_looked_at c a :
  tokens_match (looked_at c) (set_wa_OwnerAddress [] a) <-> tokens_match c a.
Proof.
  unfold tokens_match. rewrite getExpectedTokens_looked_at.
  replace (mj.ca_IgnoreESDT (looked_at c)) with (mj.ca_IgnoreESDT c) by by destruct c.
  replace (GetFullMockESDTData (set_wa_OwnerAddress [] a)) with (GetFullMockESDTData a) by by destruct a.
  assert (H : forall (tokens : gmap bytes MockESDTData) tokenName,
    token_matches tokenName (default (unexpected_token tokenName) ((unfrozen <$> getExpectedTokens c) !! tokenName))
      (default (mkMockESDTData tokenName [] 0 []) (tokens !! tokenName)) <->
    token_matches tokenName (default (unexpected_token tokenName) (getExpectedTokens c !! tokenName))
      (default (mkMockESDTData tokenName [] 0 []) (tokens !! tokenName))).
  { intros tokens tokenName. rewrite lookup_fmap. by destruct (getExpectedTokens c !! tokenName) as [[]|]. }
  split; (intros [Hi|(tokens & Ht & Hall)]; [by left | right; exists tokens; split; [done|]]);
    intros tokenName; apply H, Hall.
Qed.

Lemma account_matches_looked_at w c :
  account_matches (without_owners w) (looked_at c) <-> account_matches w c.
Proof.
  unfold account_matches. replace (mw_AcctMap (without_owners w)) with (set_wa_OwnerAddress [] <$> mw_AcctMap w)
    by by destruct w.
  replace (mj.ca_Address (looked_at c)) with (mj.ca_Address c) by by destruct c. rewrite lookup_fmap.
  destruct (mw_AcctMap w !! _) as [a|]; cbn [fmap option_fmap option_map];
    [|by split; intros (a & [=] & _)].
  pose proof (tokens_match_looked_at c a) as Htokens.
  assert (Hstorage : storage_matches (looked_at c) (set_wa_OwnerAddress [] a) <-> storage_matches c a)
    by by destruct c, a.
  split; intros (a' & [= <-] & H); eexists; (split; [reflexivity|]);
    rewrite ?Hstorage, ?Htokens in *; by destruct c, a.
Qed.

Lemma accounts_match_looked_at w c :
  accounts_match (without_owners w) (all_looked_at c) <-> accounts_match w c.
Proof.
  unfold accounts_match. replace (mw_AcctMap (without_owners w)) with (set_wa_OwnerAddress [] <$> mw_AcctMap w)
    by by destruct w.
  replace (mj.cas_MoreAccountsAllowed (all_looked_at c)) with (mj.cas_MoreAccountsAllowed c) by by destruct c.
  replace (mj.cas_Accounts (all_looked_at c)) with (looked_at <$> mj.cas_Accounts c) by by destruct c.
  assert (Haddr : forall x, mj.ca_Address (looked_at x) = mj.ca_Address x) by by intros [].
  assert (Hfound : forall address,
    (exists x, x ∈ looked_at <$> mj.cas_Accounts c /\ mj.jbs_Value (mj.ca_Address x) = address) <->
    exists x, x ∈ mj.cas_Accounts c /\ mj.jbs_Value (mj.ca_Address x) = address).
  { intros address. split.
    - intros (x & (y & -> & Hy)%list_elem_of_fmap & Hx). exists y. by rewrite Haddr in Hx.
    - intros (y & Hy & Hx). exists (looked_at y). rewrite Haddr. split; [|done].
      apply list_elem_of_fmap. by exists y. }
  assert (Hin : forall address, is_Some ((set_wa_OwnerAddress [] <$> mw_AcctMap w) !! address) <->
    is_Some (mw_AcctMap w !! address)) by (intros address; by rewrite lookup_fmap, fmap_is_Some).
  assert (Hall : (forall x, x ∈ looked_at <$> mj.cas_Accounts c -> account_matches (without_owners w) x) <->
    forall x, x ∈ mj.cas_Accounts c -> account_matches w x).
  { split; intros Hall x Hx.
    - apply account_matches_looked_at, Hall, list_elem_of_fmap. by exists x.
    - apply list_elem_of_fmap in Hx as (y & -> & Hy). by apply account_matches_looked_at, Hall. }
  rewrite Hall. setoid_rewrite Hfound. setoid_rewrite Hin. done.
Qed.

(** C40: what a check of the state compares, and what it does not.  It passes exactly when
    every account but the system account is expected unless more are allowed, and each
    expected account has the nonce, balance, user name and code, the asynchronous data when
    they are given, the storage under all keys that are not reserved unless it is to be
    ignored, and unless tokens are to be ignored, for every token the balance, creator,
    royalties, hash, uri and attributes of each instance, the last nonce and the roles -
    whatever the order of the maps that are walked.  Nothing else counts: the owner that an
    account has and the one that is expected, whether a token is expected to be frozen and
    whether more tokens are allowed (with the + too, tokens that are not mentioned fail)
    change no result. *)
Theorem checkAccounts_exact w c :
  (checkAccounts w (Some c) = Ret (inr tt) <-> accounts_match w c) /\
  (checkAccounts (without_owners w) (Some (all_looked_at c)) = Ret (inr tt) <->
   checkAccounts w (Some c) = Ret (inr tt)).
Proof. split; [apply checkAccounts_iff|]. rewrite !checkAccounts_iff. apply accounts_match_looked_at. Qed.

(** ** Results of transactions *)

Lemma Forall2_zip {A B} (P : A -> B -> Prop) l k :
  Forall2 P l k <-> len k = len l /\ forall x y, (x, y) ∈ zip l k -> P x y.
Proof.
  unfold len. split.
  - intros H. split; [by rewrite (Forall2_length H)|].
    induction H as [|x y l k Hxy H IH]; cbn; [by intros ? ? ?%not_elem_of_nil|].
    intros x' y' [[= -> ->] | Hin]%elem_of_cons; auto.
  - revert k. induction l as [|x l IH]; intros [|y k]; cbn; intros [Hlen Hall]; try lia; [constructor|].
    constructor; [apply Hall; by left|]. apply IH. split; [lia|]. intros x' y' Hin. apply Hall. by right.
Qed.

Lemma for_range_pairs {A B} (l : list (A * B)) (f : A -> B -> res unit) :
  for_range l (fun '(x, y) _ => f x y) tt = Ret (inr tt) <-> forall x y, (x, y) ∈ l -> f x y = Ret (inr tt).
Proof.
  trans (for_range l (fun p _ => f (fst p) (snd p)) tt = Ret (inr tt)).
  { assert (E : forall u, for_range l (fun '(x, y) _ => f x y) u = for_range l (fun p _ => f (fst p) (snd p)) u).
    { induction l as [|[x y] l IH]; intros u; [done|]. cbn [for_range fst snd].
      by destruct (f x y) as [[e|[]]| |]; cbn. }
    by rewrite E. }
  rewrite (for_range_unit _ (fun p => f (fst p) (snd p))). split.
  - intros Hall x y Hin. apply (Hall (x, y) Hin).
  - intros Hall [x y] Hin. by apply Hall.
Qed.

Definition log_matches (want : mj.LogEntry) (have : LogEntry) : Prop :=
  mj.CheckBytes_Check (mj.log_Address want) (log_Address have) = true /\
  mj.CheckBytes_Check (mj.log_Identifier want) (Identifier have) = true /\
  Forall2 (fun want topic => mj.CheckBytes_Check want topic = true) (mj.log_Topics want) (Topics have) /\
  mj.CheckBytes_Check (mj.log_Data want) (GetFirstDataItem have) = true.

Definition result_matches (want : mj.TransactionResult) (checkGas : bool) (output : VMOutput) : Prop :=
  mj.CheckBigInt_Check (mj.res_Status want) (ReturnCode_Int64 (out_ReturnCode output)) = Ret (inr true) /\
  mj.CheckBytes_Check (mj.res_Message want) (ReturnMessage output) = true /\
  Forall2 (fun want data => mj.CheckBytes_Check want data = true) (mj.res_Out want) (ReturnData output) /\
  check_pointer (mj.res_Refund want) (GasRefund output) = Ret (inr true) /\
  (checkGas = true -> mj.jcu_Unspecified (mj.res_Gas want) = false ->
   mj.CheckUint64_Check (mj.res_Gas want) (GasRemaining output) = true) /\
  (mj.res_LogsStar want = false -> Forall2 log_matches (mj.res_Logs want) (Logs output)).

Lemma log_mismatch_never_fine what txIndex testLog outLog : never_fine (log_mismatch what txIndex testLog outLog).
Proof. apply bind_never_fine. intros w. apply bind_never_fine. intros g. apply mismatch_never_fine. Qed.

#[local] Hint Resolve log_mismatch_never_fine : fine.

Lemma then_iff (m rest : res unit) :
  (m ;; rest) = Ret (inr tt) <-> m = Ret (inr tt) /\ rest = Ret (inr tt).
Proof. destruct m as [[e|[]]| |]; cbn; split; try done; by intros []. Qed.

(** Lists of the same length that agree. *)
Lemma agree_iff (l : list mj.JSONCheckBytes) (k : list bytes) (err : res unit) :
  never_fine err ->
  len k = len l /\ for_range (zip l k) (fun '(want, have) _ => require (mj.CheckBytes_Check want have) err) tt =
    Ret (inr tt) <->
  Forall2 (fun want have => mj.CheckBytes_Check want have = true) l k.
Proof.
  intros Herr. rewrite Forall2_zip, (for_range_pairs _ (fun w h => require (mj.CheckBytes_Check w h) err)).
  split; intros [? Hall]; (split; [done|]); intros x y Hin; specialize (Hall x y Hin).
  - by apply require_last in Hall.
  - by apply require_last.
Qed.

Lemma checkLog_exact txIndex testLog outLog :
  checkLog txIndex testLog outLog = Ret (inr tt) <-> log_matches testLog outLog.
Proof.
  unfold checkLog, log_matches. rewrite !require_iff by auto with fine.
  rewrite then_iff, require_last, Z.eqb_eq by auto with fine.
  rewrite <-(agree_iff _ _ _ (log_mismatch_never_fine "bad log topic" txIndex testLog outLog)). tauto.
Qed.

(** The result of a transaction is accepted exactly when the return code, the message,
    each item of the data, the refund, the gas left - when it is checked and given - and,
    unless any are allowed, all logs with their topics are as expected. *)
Theorem checkTxResults_exact txIndex want checkGas output :
  checkTxResults txIndex want checkGas output = Ret (inr tt) <-> result_matches want checkGas output.
Proof.
  unfold checkTxResults, result_matches. cbv zeta.
  assert (Hpretty : forall parts, never_fine (want' ← checkBytesListPretty (mj.res_Out want);
    mismatch (parts want'))) by (intros parts; apply bind_never_fine; auto with fine).
  rewrite bind_true_iff by by intros ?%mismatch_never_fine.
  rewrite !require_iff by first [apply Hpretty | auto with fine]. rewrite then_iff.
  rewrite bind_true_iff; last first.
  { intros H. revert H. destruct (GasRefund output); cbn; done. }
  rewrite Z.eqb_eq.
  rewrite require_iff by (apply bind_never_fine; auto with fine).
  rewrite require_iff by auto with fine.
  assert (Hgas : negb (checkGas && negb (mj.jcu_Unspecified (mj.res_Gas want)) &&
      negb (mj.CheckUint64_Check (mj.res_Gas want) (GasRemaining output))) = true <->
    (checkGas = true -> mj.jcu_Unspecified (mj.res_Gas want) = false ->
     mj.CheckUint64_Check (mj.res_Gas want) (GasRemaining output) = true)).
  { destruct checkGas, (mj.jcu_Unspecified _), (mj.CheckUint64_Check _ _); cbn; intuition. }
  rewrite Hgas. clear Hgas.
  assert (Hlogs : (if mj.res_LogsStar want then mret tt else
      require (len (mj.res_Logs want) =? len (Logs output))
        (mismatch [bs "wrong number of logs. Tx "; txIndex; bs ". Want:";
           Sprintf_d (len (mj.res_Logs want)); bs ". Got:"; Sprintf_d (len (Logs output))]) ;;
      for_range (zip (mj.res_Logs want) (Logs output)) (fun '(testLog, outLog) _ =>
        checkLog txIndex testLog outLog) tt) = Ret (inr tt) <->
    (mj.res_LogsStar want = false -> Forall2 log_matches (mj.res_Logs want) (Logs output))).
  { destruct (mj.res_LogsStar want); [by split|].
    rewrite require_iff, Z.eqb_eq, (for_range_pairs _ (checkLog txIndex)), Forall2_zip by auto with fine.
    split.
    - intros [Hl Hall] _. split; [done|]. intros x y Hin. by apply (checkLog_exact txIndex), Hall.
    - intros H. destruct (H eq_refl) as [Hl Hall]. split; [done|]. intros x y Hin. by apply checkLog_exact, Hall. }
  rewrite Hlogs. clear Hlogs.
  rewrite <-(agree_iff (mj.res_Out want) (ReturnData output) _
    (Hpretty (fun want' => bs "result" :: bs " mismatch. Tx " :: txIndex :: bs ". Want: " ::
       [want'; bs ". Have: "; mj.ResultAsString (ReturnData output)]))). tauto.
Qed.

End Props.
