(* ===== verification/ScenRunProps.v ===== *)
(** Running scenarios: they end, with fuel for the files they include, and keep the world
    well formed. *)
From S2P Require Import Prelude Errors Types State OrderedJson GoText Fallible Stateful GasConfig.
From S2P Require Import ScenExpr ScenModel ScenParse ScenWrite WorldMock ScenExec ScenCheck ScenRun.
From S2P Require Import ScenExprProps ScenEnds Toy ScenToy ScenExecProps.

#[local] Open Scope Z_scope.

Section Ending.
Context `{Ext : Externals} `{Mock : worldmock.MockEnv} `{VM : !VMExecutionHandler} `{Files : ExecEnv}.
Context `{Scen : ScenEnv}.
Import worldmock.

Record vm_ends : Prop := {
  create_ends : forall input, act_ends (vm_RunSmartContractCreate input);
  call_ends : forall input, act_ends (vm_RunSmartContractCall input);
  builtin_ends : forall function caller recipient input,
    act_ends (ProcessBuiltinFunction function caller recipient input);
}.

Section VmEnds.
Hypothesis Hvm : vm_ends.

#[local] Hint Resolve create_ends call_ends builtin_ends : act_ends.

Lemma with_deferred_ends {A} (m : act VMTestExecutor tx_error (A * option error)) :
  act_ends m -> act_ends (with_deferred m).
Proof.
  intros Hm ae. specialize (Hm ae). unfold with_deferred.
  by destruct (m ae) as [ae1 [[[? ?]|[? ?]]| |]].
Qed.

Lemma executeTx_ends txIndex tx : act_ends (executeTx txIndex tx).
Proof.
  unfold executeTx. apply act_ends_bind; [act_ends_parts|]. intros _. apply with_deferred_ends.
  act_ends_parts.
Qed.

Lemma step_ends run step :
  (forall e, step <> mj.ExternalSteps e) -> act_ends (ExecuteStep run step).
Proof.
  intros Hstep. destruct step; [by destruct (Hstep step)|..]; cbn [ExecuteStep].
  - act_ends_parts.
  - act_ends_parts.
  - act_ends_parts.
  - pose proof executeTx_ends. act_ends_parts.
Qed.

(** ** The resolver of the executor *)

Definition resolver_is (fr : DefaultFileResolver) (ae : VMTestExecutor) : Prop :=
  ae_fileResolver ae = Some fr.

Lemma on_world_resolver {E A} fr (m : act MockWorld E A) : keeps (resolver_is fr) (on_world m).
Proof. apply (keeps_on_part _ (fun _ => True)); [done|by intros []|by intros ????]. Qed.

Lemma on_vm_resolver {E A} fr (m : act (vm_state * MockWorld) E A) : keeps (resolver_is fr) (on_vm m).
Proof. apply (keeps_on_part _ (fun _ => True)); [done|by intros [] []|by intros ????]. Qed.

#[local] Hint Resolve on_world_resolver on_vm_resolver : keeps.

Lemma executeTx_resolver fr txIndex tx : keeps (resolver_is fr) (executeTx txIndex tx).
Proof.
  unfold executeTx. apply keeps_bind; [keeps_parts|]. intros _.
  assert (Hm : keeps (resolver_is fr) (tx ← act_deref tx; runTx txIndex tx)) by keeps_parts.
  intros ae ae' r Hae. specialize (Hm ae). unfold with_deferred.
  destruct ((tx ← act_deref tx; runTx txIndex tx) ae) as [ae1 o] eqn:E.
  assert (Hae1 : o <> OutOfFuel -> resolver_is fr ae1) by by apply (Hm ae1 o).
  destruct o as [[[? ?]|[? ?]]| |]; intros [= <- <-] Hr; try done; unfold deferred;
    destruct ae1; by apply Hae1.
Qed.

#[local] Hint Resolve executeTx_resolver : keeps.

Lemma step_resolver fr run step :
  (forall e, step <> mj.ExternalSteps e) -> keeps (resolver_is fr) (ExecuteStep run step).
Proof.
  intros Hstep. destruct step; [by destruct (Hstep step)|..]; cbn [ExecuteStep]; keeps_parts.
Qed.

(** ** Files that include files *)

(** The files reached from a file are at most [fuel] levels deep: this only depends on the
    files. *)
Fixpoint fits (fuel : nat) (fr : DefaultFileResolver) (contextPath : bytes) : bool :=
  match fuel with
  | O => false
  | S fuel =>
      match load_scenario fr contextPath with
      | Ret (inr (scenario, fr)) =>
          forallb (fun step =>
            match step with
            | mj.ExternalSteps e => fits fuel fr (ResolveAbsolutePath fr (mj.ext_Path e))
            | _ => true
            end) (mj.sc_Steps scenario)
      | _ => true
      end
  end.

(** A step that ends, goes on as the files do, and keeps the resolver. *)
Lemma step_runs run run' fr step ae :
  resolver_is fr ae ->
  (forall e, step = mj.ExternalSteps e -> forall ae,
    snd (run fr (ResolveAbsolutePath fr (mj.ext_Path e)) ae) <> OutOfFuel /\
    run' fr (ResolveAbsolutePath fr (mj.ext_Path e)) ae = run fr (ResolveAbsolutePath fr (mj.ext_Path e)) ae) ->
  snd (ExecuteStep run step ae) <> OutOfFuel /\ ExecuteStep run step ae = ExecuteStep run' step ae /\
  (forall ae', ExecuteStep run step ae = (ae', Ret (inr tt)) -> resolver_is fr ae').
Proof.
  intros Hae Hrun. destruct step as [e|s|s|s|s].
  2-5: split_and!;
    [by apply step_ends | done | intros ae' H; by eapply (step_resolver fr run); [..|exact H|done]].
  destruct (Hrun e eq_refl ae) as [Hends Hsame]. destruct ae as [w vm gas loaded o].
  unfold resolver_is in Hae. cbn in Hae. subst o. cbn [ExecuteStep]. unfold ExecuteExternalStep.
  unfold act_gets, act_deref, act_modify, mbind, act_bind. cbn [ae_fileResolver]. rewrite Hsame.
  destruct (run fr _ _) as [ae1 [[err|[]]| |]]; try done. split_and!; [done..|].
  intros ae' [= <-]. by destruct ae1.
Qed.

End VmEnds.

(** C35: running a scenario ends.  Fuel for the depth of the files that include each other is
    enough, more changes nothing, and what else is run ends by itself - parsing, checking,
    the loops of the steps - when the VM does. *)
Theorem scenario_ends (Hvm : vm_ends) fuel fuel' fr contextPath ae
    (Hfits : fits fuel fr contextPath = true) (Hfuel : (fuel <= fuel')%nat) :
  snd (RunSingleJSONScenario fuel fr contextPath ae) <> OutOfFuel /\
  RunSingleJSONScenario fuel' fr contextPath ae = RunSingleJSONScenario fuel fr contextPath ae.
Proof.
  revert fuel' fr contextPath ae Hfits Hfuel.
  induction fuel as [|fuel IH]; cbn [fits]; intros fuel' fr path ae Hfits Hfuel; [done|].
  destruct fuel' as [|fuel']; [lia|]. cbn [RunSingleJSONScenario].
  assert (Hload : ends (load_scenario fr path)) by ends_parts.
  unfold mbind, act_bind, pure_act.
  destruct (load_scenario fr path) as [[err|[scenario fr']]| |]; try done. clear Hload.
  unfold ExecuteScenario, act_modify, mbind, act_bind. cbv beta iota.
  set (ae1 := set_ae_checkGas _ _).
  assert (Hgas : act_ends (SetScenariosGasSchedule (mj.sc_GasSchedule scenario))) by act_ends_parts.
  assert (Hres : keeps (resolver_is fr') (SetScenariosGasSchedule (mj.sc_GasSchedule scenario))).
  { keeps_parts; by match goal with st : VMTestExecutor |- _ => destruct st end. }
  specialize (Hgas ae1). specialize (Hres ae1).
  destruct (SetScenariosGasSchedule _ ae1) as [ae2 [[err|[]]| |]] eqn:E; try done.
  assert (Hae2 : resolver_is fr' ae2) by by apply (Hres ae2 (Ret (inr tt))). clear Hgas Hres E.
  rewrite forallb_forall in Hfits.
  assert (Hstep : forall step ae, step ∈ mj.sc_Steps scenario -> resolver_is fr' ae ->
    let run := RunSingleJSONScenario fuel in let run' := RunSingleJSONScenario fuel' in
    snd (ExecuteStep run step ae) <> OutOfFuel /\ ExecuteStep run step ae = ExecuteStep run' step ae /\
    (forall ae', ExecuteStep run step ae = (ae', Ret (inr tt)) -> resolver_is fr' ae')).
  { intros step ae0 Hin Hae0. apply step_runs; [done|done|]. intros e -> ae3.
    apply IH; [|lia]. apply (Hfits (mj.ExternalSteps e)). by apply list_elem_of_In. }
  split.
  - apply (act_range_ends_on (resolver_is fr')); [| |done].
    + intros step ae0 Hin Hae0. by apply Hstep.
    + intros step ae0 ae0' Hin Hae0. by apply Hstep.
  - symmetry. apply (act_range_ext_on (resolver_is fr')); [| |done].
    + intros step ae0 Hin Hae0. by apply Hstep.
    + intros step ae0 ae0' Hin Hae0. by apply Hstep.
Qed.

End Ending.

(** ** The world between steps *)

Section Invariant.
Context `{Ext : Externals} `{Mock : worldmock.MockEnv} `{VM : !VMExecutionHandler} `{Files : ExecEnv}.
Context `{Scen : ScenEnv}.
Import worldmock.

(** Every account is under its own address. *)
Definition own_keys (w : MockWorld) : Prop :=
  map_Forall (fun address a => wa_Address a = address) (mw_AcctMap w).

(** ... and no transaction is open. *)
Definition world_ok (w : MockWorld) : Prop := own_keys w /\ mw_Snapshots w = [].

Definition executor_ok (ae : VMTestExecutor) : Prop := world_ok (ae_World ae).
Definition executor_keys (ae : VMTestExecutor) : Prop := own_keys (ae_World ae).

Definition keeps_keys (w w' : MockWorld) : Prop := own_keys w -> own_keys w'.

#[export] Instance keeps_keys_preorder : PreOrder keeps_keys.
Proof. split; [intros w H; exact H | intros u v w H1 H2 H; auto]. Qed.

Lemma own_keys_accounts am w :
  map_Forall (fun address a => wa_Address a = address) am -> own_keys (set_mw_AcctMap am w).
Proof. by destruct w. Qed.

Lemma PutAccount_keys a w : own_keys w -> own_keys (set_mw_AcctMap (PutAccount a (mw_AcctMap w)) w).
Proof. intros H. by apply own_keys_accounts, map_Forall_insert_2. Qed.

(** An account that is replaced by one with its address. *)
Lemma modify_account_keys address (f : Account -> Account) :
  (forall a, wa_Address a = address -> wa_Address (f a) = address) -> keeps own_keys (modify_account address f).
Proof.
  intros Hf. apply keeps_act_modify. intros w Hw. apply own_keys_accounts. intros k a.
  destruct (decide (k = address)) as [->|Hne].
  - rewrite lookup_alter_eq. destruct (mw_AcctMap w !! address) as [b|] eqn:E; [|done].
    intros [= <-]. apply Hf. by apply (Hw address b).
  - rewrite lookup_alter_ne by done. apply Hw.
Qed.

#[local] Hint Extern 1 (keeps own_keys (modify_account _ _)) =>
  apply modify_account_keys; by intros [] : keeps.

Lemma keeps_on_world {E A} (m : act MockWorld E A) : keeps own_keys m -> keeps executor_keys (on_world m).
Proof. apply keeps_on_part; [done | by intros []]. Qed.

Section Vm.
Hypothesis HR : vm_respects keeps_keys.

Lemma keeps_on_vm {A} (m : act (vm_state * MockWorld) error A) :
  (forall s w s' w' r, m (s, w) = ((s', w'), r) -> keeps_keys w w') -> keeps executor_keys (on_vm m).
Proof.
  intros Hm ae ae' r Hae H _. apply on_vm_run in H as (s' & w' & H & Hw).
  unfold executor_keys. rewrite Hw. exact (Hm _ _ _ _ _ H Hae).
Qed.

Lemma create_keys input : keeps executor_keys (on_vm (vm_RunSmartContractCreate input)).
Proof. apply keeps_on_vm. intros *. apply (respects_create _ HR). Qed.

Lemma call_keys input : keeps executor_keys (on_vm (vm_RunSmartContractCall input)).
Proof. apply keeps_on_vm. intros *. apply (respects_call _ HR). Qed.

Lemma before_keys from gasLimit gasPrice :
  keeps executor_keys (on_world (UpdateWorldStateBefore from gasLimit gasPrice)).
Proof.
  apply keeps_on_world. unfold UpdateWorldStateBefore.
  keeps_parts.
Qed.

Lemma transfer_keys sender receiver token nonce value callType gasLimit gasPrice :
  keeps executor_keys (on_world (PerformDirectESDTTransfer sender receiver token nonce value callType
    gasLimit gasPrice)).
Proof.
  apply keeps_on_world. intros w w' r Hw H _.
  by eapply (PerformDirectESDTTransfer_respects keeps_keys HR).
Qed.

Lemma delta_keys address delta : keeps executor_keys (on_world (UpdateBalanceWithDelta address delta)).
Proof.
  apply keeps_on_world. unfold UpdateBalanceWithDelta.
  keeps_parts.
Qed.

Lemma reward_keys address delta :
  keeps executor_keys (on_world (E := error) (modify_account address (set_wa_BalanceDelta delta))).
Proof. apply keeps_on_world, modify_account_keys. by intros []. Qed.

Lemma UpdateAccount_keys modAcct : keeps own_keys (UpdateAccountFromOutputAccount modAcct).
Proof.
  unfold UpdateAccountFromOutputAccount. apply keeps_bind; [apply keeps_gets|]. intros am.
  apply keeps_bind.
  { destruct (GetAccount am _); [apply keeps_ret|]. apply keeps_act_modify. intros w. apply PutAccount_keys. }
  intros _ w w' r Hw. unfold act_gets, act_deref, pure_act, mbind, act_bind, GetAccount.
  destruct (mw_AcctMap w !! Address modAcct) as [acct|] eqn:E; [|by intros [= <- <-]].
  destruct (updated_account modAcct acct) as [[err|acct']| |] eqn:Eu; try by intros [= <- <-].
  intros H Hr. eapply (modify_account_keys (Address modAcct) (fun _ => acct')); [|exact Hw|exact H|done].
  intros _ _. specialize (Hw _ _ E). unfold updated_account in Eu.
  apply res_bind_inr in Eu as (b & _ & [= <-]). rewrite <-Hw. by destruct acct; repeat case_match.
Qed.

Lemma update_keys accounts deleted : keeps executor_keys (on_world (UpdateAccounts accounts deleted)).
Proof.
  apply keeps_on_world. unfold UpdateAccounts. apply keeps_bind.
  { apply keeps_range. intros [k modAcct]. apply UpdateAccount_keys. }
  intros _. apply keeps_act_modify. intros w Hw. apply own_keys_accounts. unfold own_keys in Hw.
  revert Hw. generalize (mw_AcctMap w) as am.
  induction deleted as [|d deleted IH]; cbn; [done|]. intros am Ham. by apply IH, map_Forall_delete.
Qed.

#[local] Hint Resolve create_keys call_keys before_keys transfer_keys delta_keys reward_keys
  update_keys : keeps.

Lemma runTx_keys txIndex tx : keeps executor_keys (tx ← act_deref tx; runTx txIndex tx).
Proof. keeps_parts. Qed.

Lemma storage_only_keys w w' : storage_only w w' -> keeps_keys w w'.
Proof.
  intros H Hw k a Hk. pose proof (f_equal (lookup k) H) as Hk'. unfold without_storage in Hk'.
  rewrite !lookup_fmap, Hk in Hk'. destruct (mw_AcctMap w !! k) as [b|] eqn:E; [|done].
  rewrite <-(Hw k b E). injection Hk' as Hk'. destruct a, b. cbn in *. by injection Hk'; intros; subst.
Qed.

Lemma deferred_ok err ae : executor_keys ae -> executor_ok (deferred err ae).
Proof.
  intros Hae. split.
  - apply (storage_only_keys _ _ (deferred_storage_only err ae)), Hae.
  - unfold deferred. destruct ae as [w ?], err; cbn; [|by destruct w].
    unfold RollbackChanges, adapter_RevertToSnapshot, act_gets, act_modify, act_deref, mbind, act_bind.
    destruct (mw_Snapshots w) as [|snapshot more] eqn:E; [done|]. unfold len. cbn [length].
    rewrite (proj2 (Z.eqb_neq (Z.of_nat (S (length more))) 0)) by lia.
    rewrite (proj2 (Z.leb_gt (Z.of_nat (S (length more))) 0)) by lia. cbn.
    change ((snapshot :: more) !! Z.to_nat 0) with (Some snapshot).
    unfold on_part. destruct w. cbn in *. by destruct (LoadAccountStorageFrom _ _).
Qed.

Lemma with_deferred_ok {A} (m : act VMTestExecutor tx_error (A * option error)) ae ae' r :
  keeps executor_keys m -> executor_keys ae -> with_deferred m ae = (ae', r) -> r <> OutOfFuel ->
  executor_ok ae'.
Proof.
  intros Hm Hae. unfold with_deferred. destruct (m ae) as [ae1 o] eqn:E. intros H Hr.
  assert (H1 : o <> OutOfFuel -> executor_keys ae1) by by apply (Hm ae ae1 o).
  destruct o as [[[? ?]|[? ?]]| |]; injection H as <- <-; try done; by apply deferred_ok, H1.
Qed.

(** However it ends, a transaction leaves no snapshot. *)
Lemma executeTx_ok txIndex tx : keeps executor_ok (executeTx txIndex tx).
Proof.
  intros ae ae' r [Hkeys Hsn]. unfold executeTx.
  destruct (on_world CreateStateBackup ae) as [ae1 o] eqn:E.
  apply on_world_run in E as (w1 & E & ->).
  assert (Hw : own_keys w1 /\ (o = Ret (inr tt) \/ w1 = ae_World ae)).
  { revert E. unfold CreateStateBackup, SnapshotState, act_gets, pure_act, act_modify, mbind, act_bind.
    destruct (AccountMap_Clone _) as [[err|clone]| |]; intros [= <- <-]; split; eauto. by destruct (ae_World ae). }
  unfold mbind, act_bind. unfold on_world, on_part in *. rewrite E.
  destruct Hw as [Hw1 [-> | ->]].
  - apply with_deferred_ok; [apply runTx_keys | by destruct ae].
  - destruct o as [[err|[]]| |]; intros H Hr.
    + injection H as <- <-. by destruct ae.
    + exfalso. apply CreateStateBackup_run in E. apply (f_equal mw_Snapshots) in E.
      rewrite Hsn in E. by destruct (ae_World ae).
    + injection H as <- <-. by destruct ae.
    + injection H as <- <-. by destruct ae.
Qed.

Lemma set_account_ok a :
  keeps executor_ok (on_world (E := error) (act_modify (fun w => set_mw_AcctMap (PutAccount a (mw_AcctMap w)) w))).
Proof.
  apply (keeps_on_part _ world_ok); [done | by intros []|]. apply keeps_act_modify. intros w [Hw Hsn].
  split; [by apply PutAccount_keys | by destruct w].
Qed.

(** What does not touch the accounts and the snapshots. *)
Lemma set_other_ok (f : MockWorld -> MockWorld) :
  (forall w, mw_AcctMap (f w) = mw_AcctMap w /\ mw_Snapshots (f w) = mw_Snapshots w) ->
  keeps executor_ok (on_world (E := error) (act_modify f)).
Proof.
  intros Hf. apply (keeps_on_part _ world_ok); [done | by intros []|]. apply keeps_act_modify.
  intros w [Hw Hsn]. destruct (Hf w) as [H1 H2]. split; [|congruence].
  unfold own_keys in *. by rewrite H1.
Qed.

#[local] Hint Resolve executeTx_ok set_account_ok : keeps.
#[local] Hint Extern 1 (keeps executor_ok (on_world (act_modify _))) =>
  apply set_other_ok; by intros [] : keeps.

Lemma modify_executor_ok (f : VMTestExecutor -> VMTestExecutor) :
  (forall ae, ae_World (f ae) = ae_World ae) -> keeps executor_ok (act_modify (E := error) f).
Proof. intros Hf. apply keeps_act_modify. intros ae. unfold executor_ok. by rewrite Hf. Qed.

#[local] Hint Extern 2 (keeps executor_ok (act_modify _)) =>
  apply modify_executor_ok; by intros [] : keeps.

(** C36: running a scenario - with its setting of states, its transactions and the files it
    includes - leaves, however it ends, every account under its own address and no
    transaction open, when the VM keeps the addresses; in particular the rollback of a
    transaction finds its own snapshot. *)
Theorem scenario_keeps_world fuel fr contextPath ae ae' r
    (Hok : executor_ok ae) (Hrun : RunSingleJSONScenario fuel fr contextPath ae = (ae', r))
    (Hends : r <> OutOfFuel) :
  executor_ok ae'.
Proof.
  revert Hok Hrun Hends. assert (Hkeeps : keeps executor_ok (RunSingleJSONScenario fuel fr contextPath)).
  2: { intros Hok Hrun Hr. by apply (Hkeeps ae ae' r). }
  revert fr contextPath. induction fuel as [|fuel IH]; cbn [RunSingleJSONScenario]; intros fr path.
  { by intros st st' o _ [= <- <-]. }
  keeps_parts.
Qed.

End Vm.
End Invariant.

(** ** Witnesses *)

Import worldmock.

Lemma scenario_ends_witness :
  fits 2 NewDefaultFileResolver (bs "main.scen.json") = true /\ snd (toy_run 2) <> OutOfFuel /\
  toy_run 7 = toy_run 2.
Proof.
  split; [vm_compute; reflexivity|]. apply scenario_ends.
  - split; intros; intros st; [done| |done]. cbn. unfold toy_call. destruct st. by destruct (text_eqb _ _).
  - vm_compute. reflexivity.
  - lia.
Defined.

Lemma toy_keys : vm_respects keeps_keys.
Proof. apply toy_respects; [intros w H; exact H|]. intros w w' H _. by apply storage_only_keys. Qed.

Lemma scenario_keeps_world_witness : executor_ok (fst (toy_run 2)).
Proof.
  apply (scenario_keeps_world toy_keys 2 NewDefaultFileResolver (bs "main.scen.json")
    (NewVMTestExecutor (VM := toy_vm) tt) _ (snd (toy_run 2))).
  - split; [apply map_Forall_empty | reflexivity].
  - apply surjective_pairing.
  - vm_compute. discriminate.
Defined.
