(* ===== verification/ScenHost.v ===== *)
(** The host as the VM of the scenarios: [NewVMTestExecutor] of
    [src/scenarioexec/exec.go] gives the executor the host of [src/vmhost], whose hook is
    the test world ([src/mock/world/worldCallbacks.go]).  Here that host is the one of
    [Host], so that it is known, and not assumed, what the executor relies on.

    The hook of [Externals] cannot panic.  Where the test world does - a seed that was
    never set, an account without a balance, the address for a creator whose own is too
    short, a token of an unknown account - the parameter [crash] says what the host
    reads instead, and the theorems hold whatever it is.  The world's record of the last
    address it made up is not kept. *)
From S2P Require Import Prelude Errors Overflow Types State Logic Toy BigInt Runtime Output Metering.
From S2P Require Import AsyncCall Execution Host GasConfig.
From S2P Require Import Hooks Nesting Guarantees WorldAccess HostSetup.
From S2P Require Import OrderedJson GoText Fallible Stateful ScenExpr ScenModel WorldMock.
From S2P Require Import ScenExec ScenRun ScenExecProps ScenRunProps.
Import worldmock.

#[local] Open Scope Z_scope.

(** ** The hook *)

Record HookCrash := mkHookCrash {
  crash_address : bytes * option error;
  crash_account : option UserAccount * option error;
  crash_hash : bytes * option error;
  crash_token : option ESDigitalToken * option error;
  crash_seed : bytes;
}.

(** Two results of Go, [none] with an error. *)
Definition answer {A} (crash : A * option error) (none : A) (r : outcome (error + A)) : A * option error :=
  match r with
  | Ret (inr a) => (a, None)
  | Ret (inl err) => (none, Some err)
  | _ => crash
  end.

Definition or_else {A} (crash : A) (r : outcome (error + A)) : A :=
  match r with Ret (inr a) => a | _ => crash end.

Section Hook.
Context (Rest : Externals) (Mock : MockEnv) (crash : HookCrash).

Definition hook_GetUserAccount (w : MockWorld) (address : bytes) : option UserAccount * option error :=
  answer (crash_account crash) None
    (account ← (snd (GetUserAccount address w) : res Account); u ← UserAccount_of account; mret (Some u)).

Definition hook_GetESDTToken (w : MockWorld) (address tokenName : bytes) (nonce : Z) :
    option ESDigitalToken * option error :=
  answer (crash_token crash) None
    (token ← (snd (GetESDTToken address tokenName nonce w) : res ESDigitalToken); mret (Some token)).

(** A panic inside a built-in function is a nil output, which the host dereferences. *)
Definition hook_ProcessBuiltInFunction (w : MockWorld) (input : ContractCallInput) :
    MockWorld * (option VMOutput * option error) :=
  let '(w', r) := ProcessBuiltInFunction input w in (w', answer (None, None) None r).

Definition hook_RevertToSnapshot (w : MockWorld) (snapshot : Z) : MockWorld * option error :=
  let '(w', r) := RevertToSnapshot snapshot w in
  (w', match r with Ret (inl err) => Some err | _ => None end).

(** [IsFlagEnabledCalled] of [NewVMTestExecutor] *)
Definition flags_for_tests (flag : EnableEpochFlag) : bool :=
  match flag with
  | SCDeployFlag | AheadOfTimeGasUsageFlag | RepairCallbackFlag | BuiltInFunctionsFlag => true
  end.

(** The rest of [Externals] is that of [Rest]. *)
Definition world_hook : Externals := {|
  World := MockWorld;
  bh_NewAddress := fun w creatorAddress creatorNonce vmType =>
    answer (crash_address crash) [] (snd (NewAddress creatorAddress creatorNonce w));
  bh_GetUserAccount := hook_GetUserAccount;
  bh_GetCode := fun w account => GetCode w (acc_AddressBytes account);
  bh_GetStorageData := fun w accountAddress key =>
    answer ([], None) [] (snd (GetStorageData accountAddress key w));
  bh_GetBlockhash := fun w nonce => answer (crash_hash crash) [] (snd (GetBlockhash nonce w));
  bh_GetShardOfAddress := GetShardOfAddress;
  bh_IsSmartContract := IsSmartContract;
  bh_IsPayable := fun w address => (IsPayable w address, None);
  bh_SaveCompiledCode := fun w codeHash code => fst (SaveCompiledCode codeHash code w);
  bh_GetCompiledCode := GetCompiledCode;
  bh_ProcessBuiltInFunction := hook_ProcessBuiltInFunction;
  bh_GetSnapshot := GetSnapshot;
  bh_RevertToSnapshot := hook_RevertToSnapshot;
  bh_GetESDTToken := fun w address tokenName nonce =>
    hook_GetESDTToken w address tokenName nonce;
  bh_CurrentEpoch := CurrentEpoch;
  bh_CurrentNonce := CurrentNonce;
  bh_CurrentRound := CurrentRound;
  bh_CurrentTimeStamp := CurrentTimeStamp;
  bh_CurrentRandomSeed := fun w => or_else (crash_seed crash) (CurrentRandomSeed w);
  bh_LastEpoch := LastEpoch;
  bh_LastNonce := LastNonce;
  bh_LastRound := LastRound;
  bh_LastTimeStamp := LastTimeStamp;
  bh_LastRandomSeed := fun w => or_else (crash_seed crash) (LastRandomSeed w);
  bh_GetStateRootHash := GetStateRootHash;
  bf_IsActive := @bf_IsActive Rest;
  bf_Keys := @bf_Keys Rest;
  core_BuiltInFunctionESDTTransfer := @core_BuiltInFunctionESDTTransfer Rest;
  core_BuiltInFunctionESDTNFTTransfer := @core_BuiltInFunctionESDTNFTTransfer Rest;
  core_Fungible := @core_Fungible Rest;
  core_NonFungible := @core_NonFungible Rest;
  core_ProtectedKeyPrefix := @core_ProtectedKeyPrefix Rest;
  core_ESDTNFTLatestNonceIdentifier := @core_ESDTNFTLatestNonceIdentifier Rest;
  json_Marshal := @json_Marshal Rest;
  json_Unmarshal := @json_Unmarshal Rest;
  IsFlagEnabled := flags_for_tests;
  CodeMetadata_Readable := @CodeMetadata_Readable Rest;
  CodeMetadata_Upgradeable := @CodeMetadata_Upgradeable Rest;
  ParseData := @ParseData Rest;
  ReturnCode_Int64 := @ReturnCode_Int64 Rest;
  ReturnCode_String := @ReturnCode_String Rest;
  caller_location := @caller_location Rest;
  crypto_Sha256 := @crypto_Sha256 Rest;
  crypto_Keccak256 := @crypto_Keccak256 Rest;
  crypto_Ripemd160 := @crypto_Ripemd160 Rest;
  crypto_VerifyBLS := @crypto_VerifyBLS Rest;
  crypto_VerifyEd25519 := @crypto_VerifyEd25519 Rest;
  crypto_VerifySecp256k1 := @crypto_VerifySecp256k1 Rest;
  twos_ToBytes := @twos_ToBytes Rest;
  twos_SetBytes := @twos_SetBytes Rest;
  w_NewInstanceWithOptions := @w_NewInstanceWithOptions Rest;
  w_NewInstanceFromCompiledCodeWithOptions := @w_NewInstanceFromCompiledCodeWithOptions Rest;
  w_Cache := @w_Cache Rest;
  w_MemoryGrow := @w_MemoryGrow Rest;
  range := @range Rest;
  range_perm := @range_perm Rest;
|}.

(** ** The VM *)

Context (wasm : @HostAPI world_hook -> bytes -> @M world_hook (option error)).
Context (recovered : @HostState world_hook -> error).
Context (Decode : gmap bytes Z -> list (bytes * Z) -> list Z * option error).

(** The levels of nesting for which instances may still be started. *)
Definition levels (st : @HostState world_hook) : nat :=
  S (Z.to_nat (maxWasmerInstances (st_runtime st) - len (instanceStack (st_runtime st)))).

(** A state that a program can be in: a [uint64] and a slice shorter than the memory. *)
Definition representable (st : @HostState world_hook) : bool :=
  (maxWasmerInstances (st_runtime st) <=? MaxUint64) && (len (instanceStack (st_runtime st)) <? MaxUint64).

Definition run_host (run : @HostAPI world_hook -> @M world_hook (option VMOutput * option error)) :
    act ((@HostState world_hook * hostSchedule) * MockWorld) error (option VMOutput) :=
  fun '((st, schedule), w) =>
    let st := @set_st_world world_hook w st in
    if representable st then
      match run (host_api wasm (levels st)) st with
      | (st', Ret (vmOutput, None)) => ((st', schedule, @st_world world_hook st'), Ret (inr vmOutput))
      | (st', Ret (_, Some err)) => ((st', schedule, @st_world world_hook st'), Ret (inl err))
      | (st', Panic) => ((st', schedule, @st_world world_hook st'), Panic)
      | (_, OutOfFuel) => ((st, schedule, w), OutOfFuel)
      end
    else ((st, schedule, w), Panic).

#[export] Instance host_vm : VMExecutionHandler (H := Rest) := {|
  vm_state := @HostState world_hook * hostSchedule;
  vm_RunSmartContractCreate := fun input =>
    run_host (fun api => RunSmartContractCreate wasm recovered api input);
  vm_RunSmartContractCall := fun input =>
    run_host (fun api => RunSmartContractCall wasm recovered api input);
  vm_GasScheduleChange := fun newGasSchedule '(st, schedule) =>
    match GasConfig.GasScheduleChange Decode newGasSchedule schedule st with
    | (st', Ret schedule') => (st', schedule')
    | (st', _) => (st', schedule)
    end;
|}.

(** The parameters of [NewVMTestExecutor]; [TestVMType] is two zeros. *)
Definition test_parameters : VMHostParameters :=
  mkVMHostParameters [Byte.x00; Byte.x00] 10000000 MakeGasMapForTests
    (@core_ProtectedKeyPrefix Rest) false true.

Definition NewHostExecutor : error + VMTestExecutor :=
  match @NewVMHost world_hook Decode (fun _ => None) test_parameters
          (set_mw_BuiltinFuncs true NewMockWorld) with
  | inl err => inl err
  | inr vm => inr (NewVMTestExecutor (vm : vm_state))
  end.

End Hook.

(** ** What the executor asks of a VM *)

(** The built-in functions, the only code outside the repository that a transaction
    still runs on the test world. *)
Definition builtins_respect `{Mock : MockEnv} (R : MockWorld -> MockWorld -> Prop) : Prop :=
  forall function caller recipient input w w' r,
    ProcessBuiltinFunction function caller recipient input w = (w', r) -> R w w'.

Definition builtins_end `{Mock : MockEnv} : Prop :=
  forall function caller recipient input, act_ends (ProcessBuiltinFunction function caller recipient input).

Section Vm.
Context (Rest : Externals) (Mock : MockEnv) (crash : HookCrash).
Abbreviation hook := (world_hook Rest Mock crash).
Context (wasm : @HostAPI hook -> bytes -> @M hook (option error)).
Context (recovered : @HostState hook -> error).
Context (Decode : gmap bytes Z -> list (bytes * Z) -> list Z * option error).
Context (Hsandboxed : sandboxed wasm).
Abbreviation vm := (host_vm Rest Mock crash wasm recovered Decode).

(** ** Termination *)

Lemma levels_enough st :
  representable Rest Mock crash st = true -> transaction_fuel (levels Rest Mock crash st) st.
Proof.
  unfold representable, transaction_fuel, levels. rewrite andb_true_iff, Z.leb_le, Z.ltb_lt.
  intros [Hmax Hlen]. split_and!; [lia | lia | exact Hmax | exact Hlen].
Qed.

Lemma run_host_ends (run : @HostAPI hook -> @M hook (option VMOutput * option error)) :
  (forall fuel st, transaction_fuel fuel st -> (run (host_api wasm fuel) st).2 <> OutOfFuel) ->
  act_ends (run_host Rest Mock crash wasm run).
Proof.
  intros Hrun [[st schedule] w]. unfold run_host. cbv zeta.
  destruct (representable _ _ _ _) eqn:Hst; [|done]. apply levels_enough in Hst.
  specialize (Hrun _ _ Hst). destruct (run _ _) as [st' [[vmOutput [err|]]| |]]; done.
Qed.

Lemma host_create_ends input : act_ends (@vm_RunSmartContractCreate _ _ vm input).
Proof.
  apply run_host_ends. intros fuel st Hst.
  destruct (host_returns wasm recovered fuel st Hsandboxed Hst) as [_ H].
  destruct (H input) as (st' & r & -> & _). discriminate.
Qed.

Lemma host_call_ends input : act_ends (@vm_RunSmartContractCall _ _ vm input).
Proof.
  apply run_host_ends. intros fuel st Hst.
  destruct (host_returns wasm recovered fuel st Hsandboxed Hst) as [H _].
  destruct (H input) as (st' & r & -> & _). discriminate.
Qed.

(** ** The world *)

Section Respects.
Context (R : MockWorld -> MockWorld -> Prop) `{!PreOrder R}.
Context (Hcode : forall codeHash code w, R w (fst (SaveCompiledCode codeHash code w))).
Context (Hrevert : forall snapshot w, R w (fst (adapter_RevertToSnapshot snapshot w))).
Context (Hbuiltin : builtins_respect R).

Lemma ProcessBuiltInFunction_respects input w : R w (fst (ProcessBuiltInFunction input w)).
Proof.
  unfold ProcessBuiltInFunction, wrapper_ProcessBuiltInFunction, custom_error, act_gets, pure_act,
    act_fail, mbind, act_bind.
  destruct (mw_Err w) as [err|]; [reflexivity|]. destruct (mw_BuiltinFuncs w); [|reflexivity].
  destruct (getAccountSharded w _) as [[e|c]| |]; try reflexivity.
  destruct (getAccountSharded w (RecipientAddr input)) as [[e|rc]| |]; try reflexivity.
  destruct (Container_Get _) as [e|]; [reflexivity|].
  destruct (ProcessBuiltinFunction _ _ _ input w) as [w1 o] eqn:Ep. exact (Hbuiltin _ _ _ _ _ _ _ Ep).
Qed.

Lemma world_step_respects w w' : @world_step hook w w' -> R w w'.
Proof.
  intros [w1 codeHash code | w1 input | w1 snapshot].
  - apply Hcode.
  - cbn. unfold hook_ProcessBuiltInFunction. pose proof (ProcessBuiltInFunction_respects input w1) as H.
    by destruct (ProcessBuiltInFunction input w1).
  - cbn. unfold hook_RevertToSnapshot, RevertToSnapshot. pose proof (Hrevert snapshot w1) as H.
    by destruct (adapter_RevertToSnapshot snapshot w1).
Qed.

Lemma world_steps_respect w w' : rtc (@world_step hook) w w' -> R w w'.
Proof. induction 1; [reflexivity|]. etransitivity; [by apply world_step_respects | done]. Qed.

Lemma run_host_respects (run : @HostAPI hook -> @M hook (option VMOutput * option error)) s w s' w' r :
  (forall fuel, Steps (run (host_api wasm fuel))) ->
  run_host Rest Mock crash wasm run (s, w) = ((s', w'), r) -> R w w'.
Proof.
  intros Hrun. destruct s as [st schedule]. unfold run_host. cbv zeta.
  set (st0 := @set_st_world hook w st). assert (Hw : @st_world hook st0 = w) by by destruct st.
  destruct (representable _ _ _ _); [|by intros [= _ <- _]].
  specialize (Hrun (levels Rest Mock crash st0) st0).
  destruct (run _ _) as [st' [[vmOutput [err|]]| |]]; intros [= _ <- _];
    first [reflexivity | apply world_steps_respect; unfold world_steps in Hrun; by rewrite Hw in Hrun].
Qed.

Lemma host_respects : @vm_respects _ _ vm R.
Proof.
  split; [| |exact Hbuiltin]; intros input s w s' w' r; apply run_host_respects; intros fuel.
  - by apply RunSmartContractCreate_steps, host_api_steps.
  - by apply RunSmartContractCall_steps, host_api_steps.
Qed.

End Respects.

Lemma adapter_RevertToSnapshot_storage_only `{!MockEnv} snapshot w :
  storage_only w (fst (adapter_RevertToSnapshot snapshot w)).
Proof.
  unfold storage_only, adapter_RevertToSnapshot, act_gets, act_fail, act_modify, act_deref, on_part.
  unfold mbind, act_bind. destruct (len (mw_Snapshots w) =? 0); [done|].
  destruct (_ || _); [done|]. destruct (mw_Snapshots w !! _) as [s|]; [|done]. cbn.
  destruct (LoadAccountStorageFrom s _) as [am r] eqn:E. cbn.
  apply LoadAccountStorageFrom_storage in E. by destruct w.
Qed.

End Vm.

