(* ===== verification/ScenHostRun.v ===== *)
(** A scenario run by the host: a contract that is a program over the imports, deployed in
    the test world by a scenario that calls it and checks its storage. *)
From stdpp Require Import vector.
From S2P Require Import Prelude Errors Overflow Types State Logic Toy BigInt Runtime Output Metering.
From S2P Require Import AsyncCall Execution Host GasConfig SmallIntOps Hooks Imports Contracts.
From S2P Require Import OrderedJson GoText Fallible Stateful ScenExpr ScenExprProps ScenModel WorldMock.
From S2P Require Import ScenExec ScenCheck ScenRun ScenToy ScenExecProps ScenRunProps ScenHost.
Import worldmock.

#[local] Open Scope Z_scope.

Definition toy_crash : HookCrash := mkHookCrash ([], None) (None, None) ([], None) (None, None) [].

Abbreviation toy_hook := (world_hook toy toy_mock toy_crash).

(** Stores 7 under the first four bytes of its memory, zeros. *)
Definition store_import : @Import toy_hook :=
  @Append toy_hook "int64storageStore" [I32; I32; I64] (Some I32) (fun _ => @v1_3_int64storageStore toy_hook).

Lemma store_linked : In store_import (@vm_imports toy_hook).
Proof.
  unfold vm_imports, CryptoImports, SmallIntImports. apply in_or_app. left. apply in_or_app. right.
  do 9 right. left. reflexivity.
Qed.

Definition toy_contract (inst : Instance) (function : bytes) : @program toy_hook :=
  @CallImport toy_hook store_import store_linked [# 0; 4; 7] (fun _ => @Return toy_hook None).

Definition toy_wasmer : @HostAPI toy_hook -> bytes -> @M toy_hook (option error) :=
  @run_contract toy_hook toy_contract.

Definition toy_recover (_ : @HostState toy_hook) : error := ErrExecutionFailed.

Abbreviation toy_host := (host_vm toy toy_mock toy_crash toy_wasmer toy_recover exact_Decode).

Definition host_file : bytes := with_quotes
  "{'name':'main','gasSchedule':'dummy','steps':[
    {'step':'setState','accounts':{
      'address:alice':{'nonce':'0','balance':'10,000,000'},
      'sc:adder':{'nonce':'0','balance':'20','code':'str:code'}}},
    {'step':'scCall','tx':{'from':'address:alice','to':'sc:adder','value':'0','function':'main',
      'arguments':[],'gasLimit':'500,000','gasPrice':'2'},'expect':{'out':[],'status':'0'}},
    {'step':'checkState','accounts':{
      'address:alice':{'nonce':'1','balance':'*'},
      'sc:adder':{'nonce':'0','balance':'20','storage':{'0x00000000':'7'},'code':'str:code'}}}]}".

Definition host_exec : ExecEnv := {|
  os_Getwd := inr (bs "/home");
  os_ReadFile := fun path =>
    if text_eqb path (bs "/home/main.scen.json") then inr host_file
    else inl (ErrNew (bs "no such file"));
  toml_Load := fun _ => inr ∅;
  gasScheduleV1 := [];
  gasScheduleV2 := [];
  gasScheduleV3 := [];
  GetFirstDataItem := fun l => default [] (head (log_Data l));
  Sprintf_tree := fun o => match o with Some j => JSONString j | None => bs "<nil>" end;
|}.

Definition host_executor : error + @VMTestExecutor toy toy_mock toy_host :=
  NewHostExecutor toy toy_mock toy_crash toy_wasmer toy_recover exact_Decode.

Definition host_run : option (outcome (error + unit)) :=
  match host_executor with
  | inr ae => Some (snd (@RunSingleJSONScenario toy toy_mock toy_host host_exec _ 1
      NewDefaultFileResolver (bs "main.scen.json") ae))
  | inl _ => None
  end.

Example host_run_passes : host_run = Some (Ret (inr tt)).
Proof. vm_compute. reflexivity. Qed.

(** ** Witnesses *)

