(* ===== verification/DebugServer.v ===== *)
(** The debug server ([src/vmserver], and the command line of [src/cmd/vmserver]): requests
    that deploy, upgrade, run and query contracts in a world of accounts, which is kept in
    a folder of JSON files between requests.

    Logging, printing and the router are left out. *)
From S2P Require Import Prelude Errors Overflow Types State GasConfig HostSetup GoText Fallible Stateful.
From S2P Require Import ScenExpr ScenModel WorldMock ScenExec.

#[local] Open Scope Z_scope.

(** ** Errors and values ([errors.go], [common.go], [constants.go]) *)

Definition NewRequestError (message : bytes) : error :=
  ErrNew (bs "request error: message=" ++ message).

Definition NewRequestErrorMessageInner (message : bytes) (err : option error) : error :=
  match err with
  | None => NewRequestError message
  | Some err => ErrFmt (bs "request error: message=" ++ message ++ bs "; inner=") err []
  end.

Definition ErrInvalidArgumentEncoding : error := ErrNew (bs "invalid contract argument encoding").

Definition DefaultGasPrice : Z := 200000000000.

(** [fromHex] *)
Definition fromHex (encoded : bytes) : res bytes := of_sum (hex_DecodeString encoded).

Definition toHex (value : bytes) : bytes := hex_EncodeToString value.

Definition decodeArguments (arguments : list bytes) : res (list bytes) :=
  map_range arguments (fun argument =>
    match hex_DecodeString argument with
    | inl _ => fail ErrInvalidArgumentEncoding
    | inr decoded => mret decoded
    end).

Definition parseValue (value : bytes) : res Z :=
  if 0 <? len value then
    match SetString value 10 with
    | Some v => mret v
    | None => fail (NewRequestError (bs "invalid value"))
    end
  else mret 0.

(** An error that a request explains. *)
Definition explained {A} (message : string) (m : res A) : res A :=
  match m with
  | Ret (inl err) => fail (NewRequestErrorMessageInner (bs message) (Some err))
  | _ => m
  end.

(** ** Requests ([messagesBase.go] and the other messages) *)

Record RequestBase := mkRequestBase {
  rb_DatabasePath : bytes;
  rb_World : bytes;
  rb_Outcome : bytes;
}.

Record ContractRequestBase := mkContractRequestBase {
  crb_RequestBase : RequestBase;
  crb_ImpersonatedHex : bytes;
  crb_Impersonated : bytes;
  crb_Value : bytes;
  crb_ValueAsBigInt : Z;
  crb_GasPrice : Z;
  crb_GasLimit : Z;
}.

Record DeployRequest := mkDeployRequest {
  dr_ContractRequestBase : ContractRequestBase;
  dr_CodeHex : bytes;
  dr_Code : bytes;
  dr_CodePath : bytes;
  dr_CodeMetadata : bytes;
  dr_CodeMetadataBytes : bytes;
  dr_ArgumentsHex : list bytes;
  dr_Arguments : list bytes;
}.

Record UpgradeRequest := mkUpgradeRequest {
  ur_DeployRequest : DeployRequest;
  ur_ContractAddressHex : bytes;
  ur_ContractAddress : bytes;
}.

Record RunRequest := mkRunRequest {
  rr_ContractRequestBase : ContractRequestBase;
  rr_ContractAddressHex : bytes;
  rr_ContractAddress : bytes;
  rr_Function : bytes;
  rr_ArgumentsHex : list bytes;
  rr_Arguments : list bytes;
}.

Record QueryRequest := mkQueryRequest { qr_RunRequest : RunRequest }.

Record CreateAccountRequest := mkCreateAccountRequest {
  car_RequestBase : RequestBase;
  car_AddressHex : bytes;
  car_Address : bytes;
  car_Balance : bytes;
  car_BalanceAsBigInt : Z;
  car_Nonce : Z;
}.

(** *** [digest] fills in what the text of a request leaves out. *)

Definition request_defaults (request : RequestBase) : RequestBase :=
  mkRequestBase
    (if bool_decide (rb_DatabasePath request = []) then bs "./db" else rb_DatabasePath request)
    (if bool_decide (rb_World request = []) then bs "default" else rb_World request)
    (rb_Outcome request).

Definition RequestBase_digest (request : RequestBase) : res RequestBase := mret (request_defaults request).

Definition ContractRequestBase_digest (request : ContractRequestBase) : res ContractRequestBase :=
  base ← RequestBase_digest (crb_RequestBase request);
  if bool_decide (crb_ImpersonatedHex request = []) then
    fail (NewRequestError (bs "empty impersonated address"))
  else
    impersonated ← explained "invalid impersonated address" (fromHex (crb_ImpersonatedHex request));
    let gasPrice := if crb_GasPrice request =? 0 then DefaultGasPrice else crb_GasPrice request in
    if crb_GasLimit request =? 0 then fail (NewRequestError (bs "invalid gas limit"))
    else
      value ← parseValue (crb_Value request);
      mret (mkContractRequestBase base (crb_ImpersonatedHex request) impersonated (crb_Value request)
        value gasPrice (crb_GasLimit request)).

Definition RunRequest_digest (request : RunRequest) : res RunRequest :=
  base ← ContractRequestBase_digest (rr_ContractRequestBase request);
  arguments ← decodeArguments (rr_ArgumentsHex request);
  address ← fromHex (rr_ContractAddressHex request);
  mret (mkRunRequest base (rr_ContractAddressHex request) address (rr_Function request)
    (rr_ArgumentsHex request) arguments).

Definition CreateAccountRequest_digest (request : CreateAccountRequest) : res CreateAccountRequest :=
  base ← RequestBase_digest (car_RequestBase request);
  if len (car_AddressHex request) =? 0 then
    fail (NewRequestErrorMessageInner (bs "empty account address") None)
  else
    address ← explained "invalid account address" (fromHex (car_AddressHex request));
    balance ← parseValue (car_Balance request);
    mret (mkCreateAccountRequest base (car_AddressHex request) address (car_Balance request) balance
      (car_Nonce request)).

(** ** Responses *)

(** [Error] is the one of [ResponseBase]. *)
Record ContractResponseBase := mkContractResponseBase {
  cresp_Error : option error;
  cresp_Input : VMInput;
  cresp_Output : option VMOutput;
  cresp_ReturnCodeString : bytes;
}.

Record DeployResponse := mkDeployResponse {
  dresp_Base : ContractResponseBase;
  dresp_ContractAddress : bytes;
  dresp_ContractAddressHex : bytes;
}.

(** [UpgradeResponse], [RunResponse] and [QueryResponse] are a base and nothing else. *)
Inductive Response :=
| ADeployResponse (r : DeployResponse)
| AnUpgradeResponse (r : ContractResponseBase)
| ARunResponse (r : ContractResponseBase)
| AQueryResponse (r : ContractResponseBase)
| ACreateAccountResponse (account : worldmock.Account).

Definition createContractResponseBase `{Externals} (input : VMInput) (err : option error)
    (output : option VMOutput) : ContractResponseBase :=
  mkContractResponseBase err input output
    (match output with Some o => ReturnCode_String (out_ReturnCode o) | None => [] end).

(** ** Files and JSON *)

Record worldDataModel := mkworldDataModel {
  wdm_ID : bytes;
  wdm_Accounts : gmap bytes worldmock.Account;
}.

(** The operating system and [encoding/json], on the data of worlds and responses and on
    the bodies of requests. *)
Class DebugEnv := {
  FS : Type;
  os_MkdirAll : bytes -> FS -> FS;
  os_Stat : FS -> bytes -> bool;
  ioutil_ReadFile : FS -> bytes -> error + bytes;
  ioutil_WriteFile : bytes -> bytes -> FS -> FS * option error;
  json_MarshalWorld : worldDataModel -> error + bytes;
  json_UnmarshalWorld : bytes -> error + worldDataModel;
  json_MarshalResponse : Response -> error + bytes;
  bind_DeployRequest : bytes -> error + DeployRequest;
  bind_UpgradeRequest : bytes -> error + UpgradeRequest;
  bind_RunRequest : bytes -> error + RunRequest;
  bind_QueryRequest : bytes -> error + QueryRequest;
  bind_CreateAccountRequest : bytes -> error + CreateAccountRequest;
}.

Section Server.
Context `{Ext : Externals} `{Mock : worldmock.MockEnv} `{VM : !VMExecutionHandler} `{Debug : DebugEnv}.
(** [hostCore.NewVMHost] *)
Context (newVM : VMHostParameters -> worldmock.MockWorld -> error + vm_state).
Import worldmock.

Definition DeployRequest_digest (fs : FS) (request : DeployRequest) : res DeployRequest :=
  base ← ContractRequestBase_digest (dr_ContractRequestBase request);
  code ← (if 0 <? len (dr_CodeHex request)
          then explained "invalid contract code" (fromHex (dr_CodeHex request))
          else mret (dr_Code request));
  code ← (if 0 <? len (dr_CodePath request)
          then of_sum (ioutil_ReadFile fs (dr_CodePath request))
          else mret code);
  if len code =? 0 then fail (NewRequestError (bs "invalid contract code"))
  else
    metadata ← (if 0 <? len (dr_CodeMetadata request) then fromHex (dr_CodeMetadata request)
                else mret (CodeMetadata_ToBytes false true false));
    arguments ← decodeArguments (dr_ArgumentsHex request);
    mret (mkDeployRequest base (dr_CodeHex request) code (dr_CodePath request)
      (dr_CodeMetadata request) metadata (dr_ArgumentsHex request) arguments).

Definition UpgradeRequest_digest (fs : FS) (request : UpgradeRequest) : res UpgradeRequest :=
  deploy ← DeployRequest_digest fs (ur_DeployRequest request);
  address ← fromHex (ur_ContractAddressHex request);
  mret (mkUpgradeRequest deploy (ur_ContractAddressHex request) address).

(** ** Worlds ([world.go], [worldInput.go]) *)

Record world := mkworld {
  w_id : bytes;
  w_blockchainHook : MockWorld;
  w_vm : vm_state;
}.

Definition newWorldDataModel (worldID : bytes) : worldDataModel := mkworldDataModel worldID ∅.

Definition getHostParameters : VMHostParameters :=
  mkVMHostParameters [Byte.x05; Byte.x00] 10000000 (MakeGasMap 1 1) (bs "ELROND") false true.

Definition newWorld (dataModel : worldDataModel) : res world :=
  let blockchainHook := set_mw_AcctMap (wdm_Accounts dataModel) NewMockWorld in
  vm ← of_sum (newVM getHostParameters blockchainHook);
  mret (mkworld (wdm_ID dataModel) blockchainHook vm).

Definition request_VMInput (base : ContractRequestBase) (arguments : list bytes) : VMInput :=
  set_CallerAddr (crb_Impersonated base) (set_CallValue (crb_ValueAsBigInt base)
    (set_Arguments arguments (set_GasProvided (crb_GasLimit base)
      (set_GasPrice (crb_GasPrice base) zeroVMInput)))).

Definition prepareDeployInput (request : DeployRequest) : ContractCreateInput :=
  mkContractCreateInput (request_VMInput (dr_ContractRequestBase request) (dr_Arguments request))
    (dr_Code request) (dr_CodeMetadataBytes request).

Definition prepareUpgradeInput (request : UpgradeRequest) : ContractCallInput :=
  let deploy := ur_DeployRequest request in
  mkContractCallInput
    (request_VMInput (dr_ContractRequestBase deploy)
      ([dr_Code deploy; dr_CodeMetadataBytes deploy] ++ dr_Arguments deploy))
    (ur_ContractAddress request) UpgradeFunctionName false.

Definition prepareCallInput (request : RunRequest) : ContractCallInput :=
  mkContractCallInput (request_VMInput (rr_ContractRequestBase request) (rr_Arguments request))
    (rr_ContractAddress request) (rr_Function request) false.

(** What the VM and its hook are, in a world. *)
Definition on_machine {E A} (m : act (vm_state * MockWorld) E A) : act world E A :=
  on_part (fun w => (w_vm w, w_blockchainHook w)) (fun '(vm, hook) w => mkworld (w_id w) hook vm) m.

Definition on_hook {E A} (m : act MockWorld E A) : act world E A :=
  on_part w_blockchainHook (fun hook w => mkworld (w_id w) hook (w_vm w)) m.

(** The error of [UpdateAccounts] is dropped; an output that is nil is dereferenced. *)
Definition update_world (r : error + option VMOutput) : act world error unit :=
  match r with
  | inl _ => mret tt
  | inr vmOutput =>
      vmOutput ← act_deref vmOutput;
      _ ← (attempt (on_hook (UpdateAccounts (OutputAccounts vmOutput) [])) : act world error (error + unit));
      mret tt
  end.

Definition contract_response (input : VMInput) (r : error + option VMOutput) : ContractResponseBase :=
  match r with
  | inl err => createContractResponseBase input (Some err) None
  | inr vmOutput => createContractResponseBase input None vmOutput
  end.

Definition deploySmartContract (request : DeployRequest) : act world error DeployResponse :=
  let input := prepareDeployInput request in
  r ← attempt (on_machine (vm_RunSmartContractCreate input));
  update_world r ;;
  address ← act_gets (fun w => mw_LastCreatedContractAddress (w_blockchainHook w));
  mret (mkDeployResponse (contract_response (create_VMInput input) r) address (toHex address)).

Definition upgradeSmartContract (request : UpgradeRequest) : act world error ContractResponseBase :=
  let input := prepareUpgradeInput request in
  r ← attempt (on_machine (vm_RunSmartContractCall input));
  update_world r ;;
  mret (contract_response (call_VMInput input) r).

Definition runSmartContract (request : RunRequest) : act world error ContractResponseBase :=
  let input := prepareCallInput request in
  r ← attempt (on_machine (vm_RunSmartContractCall input));
  update_world r ;;
  mret (contract_response (call_VMInput input) r).

Definition querySmartContract (request : QueryRequest) : act world error ContractResponseBase :=
  let input := prepareCallInput (qr_RunRequest request) in
  r ← attempt (on_machine (vm_RunSmartContractCall input));
  mret (contract_response (call_VMInput input) r).

Definition request_account (request : CreateAccountRequest) : Account :=
  set_wa_Nonce (car_Nonce request) (set_wa_Balance (Some (car_BalanceAsBigInt request))
    (set_wa_BalanceDelta (Some 0) (set_wa_MockWorld false (set_wa_Exists false
      (newAccount (car_Address request) false))))).

Definition createAccount (request : CreateAccountRequest) : act world error Account :=
  let account := request_account request in
  on_hook (act_modify (fun hook => set_mw_AcctMap (PutAccount account (mw_AcctMap hook)) hook)) ;;
  mret account.

Definition toDataModel (w : world) : res worldDataModel :=
  accounts ← AccountMap_Clone (mw_AcctMap (w_blockchainHook w));
  mret (mkworldDataModel (w_id w) (set_wa_MockWorld false <$> accounts)).

(** ** The database ([database.go]) *)

Definition Join3 (a b c : bytes) : bytes := filepath.Join (filepath.Join a b) c.

Definition json_file (id : bytes) : bytes := id ++ bs ".json".

Definition getWorldFile (rootPath worldID : bytes) : bytes := Join3 rootPath (bs "worlds") (json_file worldID).

Definition getOutcomeFile (rootPath uniqueID : bytes) : bytes := Join3 rootPath (bs "out") (json_file uniqueID).

(** Errors are logged. *)
Definition initFolders (rootPath : bytes) : act FS error unit :=
  act_modify (os_MkdirAll (filepath.Join rootPath (bs "worlds"))) ;;
  act_modify (os_MkdirAll (filepath.Join rootPath (bs "out"))).

(** [unmarshalDataModel] *)
Definition readWorldDataModel (fs : FS) (filePath : bytes) : res worldDataModel :=
  data ← of_sum (ioutil_ReadFile fs filePath);
  of_sum (json_UnmarshalWorld data).

Definition loadWorld (rootPath worldID : bytes) (fs : FS) : res world :=
  let filePath := getWorldFile rootPath worldID in
  dataModel ← (if os_Stat fs filePath then readWorldDataModel fs filePath
               else mret (newWorldDataModel worldID));
  newWorld dataModel.

(** [marshalDataModel], of what was marshalled *)
Definition write_data (filePath : bytes) (marshalled : error + bytes) : act FS error unit := fun fs =>
  match marshalled with
  | inl err => (fs, Ret (inl err))
  | inr data =>
      let '(fs', err) := ioutil_WriteFile filePath data fs in
      (fs', Ret (match err with Some err => inl err | None => inr tt end))
  end.

Definition storeWorld (rootPath : bytes) (w : world) : act FS error unit :=
  dataModel ← pure_act (toDataModel w);
  write_data (getWorldFile rootPath (w_id w)) (json_MarshalWorld dataModel).

Definition storeOutcome (rootPath key : bytes) (outcome : Response) : act FS error unit :=
  if len key =? 0 then mret tt
  else write_data (getOutcomeFile rootPath key) (json_MarshalResponse outcome).

(** ** The facade ([facade.go]) *)

(** A computation on a world that was loaded, with the world it leaves. *)
Definition in_world {A} (w : world) (m : act world error A) : act FS error (world * A) := fun fs =>
  let '(w', r) := m w in
  (fs, match r with
       | Ret (inr a) => Ret (inr (w', a))
       | Ret (inl err) => Ret (inl err)
       | Panic => Panic
       | OutOfFuel => OutOfFuel
       end).

(** [loadDatabase] and [loadWorld] *)
Definition open_world (base : RequestBase) : act FS error world :=
  initFolders (rb_DatabasePath base) ;;
  fs ← act_gets (fun fs => fs);
  pure_act (loadWorld (rb_DatabasePath base) (rb_World base) fs).

(** The steps after a computation that changes the world. *)
Definition keep_world {A} (base : RequestBase) (outcome : A -> Response) (r : world * A) : act FS error A :=
  let '(w, response) := r in
  storeWorld (rb_DatabasePath base) w ;;
  storeOutcome (rb_DatabasePath base) (rb_Outcome base) (outcome response) ;;
  mret response.

Definition DeploySmartContract (request : DeployRequest) : act FS error DeployResponse :=
  fs ← act_gets (fun fs => fs);
  request ← pure_act (DeployRequest_digest fs request);
  let base := crb_RequestBase (dr_ContractRequestBase request) in
  w ← open_world base;
  r ← in_world w (deploySmartContract request);
  keep_world base ADeployResponse r.

Definition UpgradeSmartContract (request : UpgradeRequest) : act FS error ContractResponseBase :=
  fs ← act_gets (fun fs => fs);
  request ← pure_act (UpgradeRequest_digest fs request);
  let base := crb_RequestBase (dr_ContractRequestBase (ur_DeployRequest request)) in
  w ← open_world base;
  r ← in_world w (upgradeSmartContract request);
  keep_world base AnUpgradeResponse r.

Definition RunSmartContract (request : RunRequest) : act FS error ContractResponseBase :=
  request ← pure_act (RunRequest_digest request);
  let base := crb_RequestBase (rr_ContractRequestBase request) in
  w ← open_world base;
  r ← in_world w (runSmartContract request);
  keep_world base ARunResponse r.

(** The world is not stored. *)
Definition QuerySmartContract (request : QueryRequest) : act FS error ContractResponseBase :=
  run ← pure_act (RunRequest_digest (qr_RunRequest request));
  let base := crb_RequestBase (rr_ContractRequestBase run) in
  w ← open_world base;
  r ← in_world w (querySmartContract (mkQueryRequest run));
  storeOutcome (rb_DatabasePath base) (rb_Outcome base) (AQueryResponse (snd r)) ;;
  mret (snd r).

Definition CreateAccount (request : CreateAccountRequest) : act FS error Account :=
  request ← pure_act (CreateAccountRequest_digest request);
  let base := car_RequestBase request in
  w ← open_world base;
  r ← in_world w (createAccount request);
  keep_world base ACreateAccountResponse r.

(** ** The server ([server.go]) *)

(** The status and body of a reply. *)
Inductive reply :=
| BadRequest (errScope : bytes) (err : error)
| OkResponse (data : Response).

(** The handlers differ in what they call and in the scopes of their errors. *)
Definition serve {Request A} (bind : bytes -> error + Request) (bindScope callScope : string)
    (call : Request -> act FS error A) (data : A -> Response) (body : bytes) : act FS error reply := fun fs =>
  match bind body with
  | inl err => (fs, Ret (inr (BadRequest (bs bindScope) err)))
  | inr request =>
      match call request fs with
      | (fs', Ret (inl err)) => (fs', Ret (inr (BadRequest (bs callScope) err)))
      | (fs', Ret (inr response)) => (fs', Ret (inr (OkResponse (data response))))
      | (fs', Panic) => (fs', Panic)
      | (fs', OutOfFuel) => (fs', OutOfFuel)
      end
  end.

Definition handleCreateAccount : bytes -> act FS error reply :=
  serve bind_CreateAccountRequest "handleCreateAccount.ShouldBindJSON" "handleCreateAccount.CreateAccount"
    CreateAccount ACreateAccountResponse.

Definition handleDeploy : bytes -> act FS error reply :=
  serve bind_DeployRequest "handleDeploy.ShouldBindJSON" "handleDeploy.DeploySmartContract"
    DeploySmartContract ADeployResponse.

Definition handleUpgrade : bytes -> act FS error reply :=
  serve bind_UpgradeRequest "handleUpgrade.ShouldBindJSON" "handleUpgrade.UpgradeSmartContract"
    UpgradeSmartContract AnUpgradeResponse.

Definition handleRun : bytes -> act FS error reply :=
  serve bind_RunRequest "handleRun.ShouldBindJSON" "handleRun.UpgradeSmartContract"
    RunSmartContract ARunResponse.

Definition handleQuery : bytes -> act FS error reply :=
  serve bind_QueryRequest "handleQuery.ShouldBindJSON" "handleQuery.UpgradeSmartContract"
    QuerySmartContract AQueryResponse.

(** [router.POST] *)
Definition routes : list (bytes * (bytes -> act FS error reply)) :=
  [(bs "/account", handleCreateAccount); (bs "/deploy", handleDeploy); (bs "/upgrade", handleUpgrade);
   (bs "/run", handleRun); (bs "/query", handleQuery)].

End Server.

(** ** The command line ([cmd/vmserver/cliArguments.go]) *)

Record cliArguments := mkcliArguments {
  cli_ServerAddress : bytes;
  cli_Database : bytes;
  cli_World : bytes;
  cli_Outcome : bytes;
  cli_Impersonated : bytes;
  cli_ContractAddress : bytes;
  cli_Action : bytes;
  cli_Function : bytes;
  cli_Arguments : list bytes;
  cli_Code : bytes;
  cli_CodePath : bytes;
  cli_CodeMetadata : bytes;
  cli_Value : bytes;
  cli_GasLimit : Z;
  cli_GasPrice : Z;
  cli_AccountAddress : bytes;
  cli_AccountBalance : bytes;
  cli_AccountNonce : Z;
}.

(** [populateRequestBase] *)
Definition cli_RequestBase (args : cliArguments) : RequestBase :=
  mkRequestBase (cli_Database args) (cli_World args) (cli_Outcome args).

(** [populateContractRequestBase] *)
Definition cli_ContractRequestBase (args : cliArguments) : ContractRequestBase :=
  mkContractRequestBase (cli_RequestBase args) (cli_Impersonated args) [] (cli_Value args) 0
    (cli_GasPrice args) (cli_GasLimit args).

(** [populateDeployRequest] *)
Definition toDeployRequest (args : cliArguments) : DeployRequest :=
  mkDeployRequest (cli_ContractRequestBase args) (cli_Code args) [] (cli_CodePath args)
    (cli_CodeMetadata args) [] (cli_Arguments args) [].

Definition toUpgradeRequest (args : cliArguments) : UpgradeRequest :=
  mkUpgradeRequest (toDeployRequest args) (cli_ContractAddress args) [].

(** [populateRunRequest] *)
Definition toRunRequest (args : cliArguments) : RunRequest :=
  mkRunRequest (cli_ContractRequestBase args) (cli_ContractAddress args) [] (cli_Function args)
    (cli_Arguments args) [].

Definition toQueryRequest (args : cliArguments) : QueryRequest := mkQueryRequest (toRunRequest args).

Definition toCreateAccountRequest (args : cliArguments) : CreateAccountRequest :=
  mkCreateAccountRequest (cli_RequestBase args) (cli_AccountAddress args) [] (cli_AccountBalance args) 0
    (cli_AccountNonce args).
