(* ===== verification/DebugServerProps.v ===== *)
(** What the debug server keeps between requests: a query changes no world, and the world a
    transaction leaves is the one the next request finds. *)
From S2P Require Import Prelude Errors Overflow Types State GasConfig HostSetup GoText Fallible Stateful Toy.
From S2P Require Import ScenExpr ScenModel WorldMock ScenExec ScenExecProps ScenToy DebugServer.
Import worldmock.

#[local] Open Scope Z_scope.

(** ** Texts

    [utf8.ValidString]: every byte belongs to the encoding of a code point, none overlong,
    none a surrogate. *)

Definition in_range (lo hi : Z) (b : Byte.byte) : bool := (lo <=? Z_of_byte b) && (Z_of_byte b <=? hi).
Definition continuation : Byte.byte -> bool := in_range 128 191.

(** The bytes that may come second after the first one of three or four. *)
Definition second_of_three (a : Byte.byte) : Byte.byte -> bool :=
  if Z_of_byte a =? 224 then in_range 160 191 else if Z_of_byte a =? 237 then in_range 128 159 else continuation.
Definition second_of_four (a : Byte.byte) : Byte.byte -> bool :=
  if Z_of_byte a =? 240 then in_range 144 191 else if Z_of_byte a =? 244 then in_range 128 143 else continuation.

Fixpoint utf8_ValidString (s : bytes) : bool :=
  match s with
  | [] => true
  | a :: s1 =>
      if Z_of_byte a <? 128 then utf8_ValidString s1
      else match s1 with
      | [] => false
      | b :: s2 =>
          if in_range 194 223 a then continuation b && utf8_ValidString s2
          else match s2 with
          | [] => false
          | c :: s3 =>
              if in_range 224 239 a then second_of_three a b && continuation c && utf8_ValidString s3
              else match s3 with
              | [] => false
              | d :: s4 =>
                  in_range 240 244 a && second_of_four a b && continuation c && continuation d &&
                  utf8_ValidString s4
              end
          end
      end
  end.

(** The strings of Go that are stored of a world are valid UTF-8: its name, the addresses of
    its accounts, which are the keys of a map, the data of asynchronous calls and the keys of
    storages.  (Slices of bytes are stored in base 64, whatever they hold.)  No account
    carries the world itself along. *)
Definition textual_account (a : Account) : Prop :=
  utf8_ValidString (wa_AsyncCallData a) = true /\ wa_MockWorld a = false /\
  map_Forall (fun k _ => utf8_ValidString k = true) (wa_Storage a).

Definition textual (m : worldDataModel) : Prop :=
  utf8_ValidString (wdm_ID m) = true /\
  map_Forall (fun k a => utf8_ValidString k = true /\ textual_account a) (wdm_Accounts m).

(** What [encoding/json] documents of the data of a world: valid strings are carried
    unchanged (the others get replacement characters), as are numbers, slices and maps. *)
Class JsonLaw `{DebugEnv} : Prop := {
  json_roundtrip m data :
    textual m -> json_MarshalWorld m = inr data -> json_UnmarshalWorld data = inr m;
}.

(** Files, as far as the server relies on them: making folders leaves their contents alone,
    what is written is read, and the other files stay. *)
Class FileLaws `{DebugEnv} : Prop := {
  mkdir_reads dir fs path data :
    ioutil_ReadFile (os_MkdirAll dir fs) path = inr data <-> ioutil_ReadFile fs path = inr data;
  write_reads path data fs fs' :
    ioutil_WriteFile path data fs = (fs', None) -> ioutil_ReadFile fs' path = inr data;
  write_stat path data fs fs' :
    ioutil_WriteFile path data fs = (fs', None) -> os_Stat fs' path = true;
  write_others path data fs fs' err path' :
    ioutil_WriteFile path data fs = (fs', err) -> path' <> path ->
    os_Stat fs' path' = os_Stat fs path' /\ ioutil_ReadFile fs' path' = ioutil_ReadFile fs path';
}.

Section Props.
Context `{Ext : Externals} `{Mock : MockEnv} `{VM : !VMExecutionHandler} `{Debug : DebugEnv} `{Laws : !FileLaws} `{Json : !JsonLaw}.
Context (newVM : VMHostParameters -> MockWorld -> error + vm_state).

(** ** What is not written *)

(** The files that can be read, but for one, have the contents they had. *)
Definition other_files (path : bytes) (fs fs' : FS) : Prop :=
  forall path' data, path' <> path ->
  ioutil_ReadFile fs' path' = inr data <-> ioutil_ReadFile fs path' = inr data.

Lemma keeps_write path fs0 marshalled : keeps (other_files path fs0) (write_data path marshalled).
Proof.
  intros fs fs' r Hfs H _. unfold write_data in H. destruct marshalled as [err|data].
  { by injection H as <- _. }
  destruct (ioutil_WriteFile path data fs) as [fs1 err] eqn:E. injection H as <- _.
  intros path' d Hne. destruct (write_others _ _ _ _ _ path' E Hne) as [_ ->]. by apply Hfs.
Qed.

Lemma keeps_initFolders rootPath path fs0 : keeps (other_files path fs0) (initFolders rootPath).
Proof.
  assert (H : forall dir, keeps (other_files path fs0) (act_modify (os_MkdirAll dir) : act FS error unit)).
  { intros dir. apply keeps_act_modify. intros fs Hfs path' data Hne. rewrite mkdir_reads. by apply Hfs. }
  unfold initFolders. keeps_parts; apply H.
Qed.

Lemma keeps_in_world {A} w (m : act world error A) path fs0 : keeps (other_files path fs0) (in_world w m).
Proof. intros fs fs' r Hfs H _. unfold in_world in H. destruct (m w) as [w' o]. by injection H as <- _. Qed.

Lemma keeps_open_world base path fs0 : keeps (other_files path fs0) (open_world newVM base).
Proof. unfold open_world. apply keeps_bind; [apply keeps_initFolders|]. intros _. keeps_parts. Qed.

Lemma contract_digest_base request base :
  ContractRequestBase_digest request = Ret (inr base) ->
  crb_RequestBase base = request_defaults (crb_RequestBase request).
Proof.
  intros (b & [= <-] & Hd)%res_bind_inr. revert Hd. unfold fail.
  case_bool_decide; [done|]. intros (impersonated & _ & Hd)%res_bind_inr. revert Hd.
  destruct (_ =? 0); [done|]. by intros (value & _ & [= <-])%res_bind_inr.
Qed.

Lemma digest_base request run :
  RunRequest_digest request = Ret (inr run) ->
  crb_RequestBase (rr_ContractRequestBase run) = request_defaults (crb_RequestBase (rr_ContractRequestBase request)).
Proof.
  intros (base & Hbase%contract_digest_base & Hd)%res_bind_inr.
  by apply res_bind_inr in Hd as (arguments & _ & (address & _ & [= <-])%res_bind_inr).
Qed.

(** C39: A query changes no world: whatever the contract does, and whether the query ends with a
    response, an error or a panic, every file keeps its contents but the one that the
    request names for its outcome. *)
Theorem query_changes_no_world request fs fs' r :
  QuerySmartContract newVM request fs = (fs', r) -> r <> OutOfFuel ->
  let base := request_defaults (crb_RequestBase (rr_ContractRequestBase (qr_RunRequest request))) in
  other_files (getOutcomeFile (rb_DatabasePath base) (rb_Outcome base)) fs fs'.
Proof.
  intros H Hr base. set (P := other_files _ fs).
  assert (Hkeeps : keeps P (QuerySmartContract newVM request)).
  { unfold QuerySmartContract. apply keeps_bind_pure. intros run Hrun.
    apply digest_base in Hrun. subst P base. rewrite <-Hrun.
    apply keeps_bind; [apply keeps_open_world|]. intros w.
    apply keeps_bind; [apply keeps_in_world|]. intros [w' response].
    apply keeps_bind; [|keeps_parts]. unfold storeOutcome. destruct (len _ =? 0); [keeps_parts|].
    apply keeps_write. }
  by apply (Hkeeps fs fs' r).
Qed.

(** ** What is kept *)

(** What is stored of a world: its name and its accounts. *)
Definition stored_model (w : world) : worldDataModel :=
  mkworldDataModel (w_id w) (set_wa_MockWorld false <$> mw_AcctMap (w_blockchainHook w)).

(** The outcome is not written over the world. *)
Definition apart (base : RequestBase) (worldID : bytes) : Prop :=
  rb_Outcome base = [] \/
  getOutcomeFile (rb_DatabasePath base) (rb_Outcome base) <> getWorldFile (rb_DatabasePath base) worldID.

(** The folders of the database are there. *)
Definition with_folders (rootPath : bytes) (fs : FS) : FS :=
  os_MkdirAll (filepath.Join rootPath (bs "out")) (os_MkdirAll (filepath.Join rootPath (bs "worlds")) fs).

(** [m] was run on the world that the request names, and the world it left is the one that
    the database has from then on, with a machine made anew. *)
Definition kept {A} (base : RequestBase) (m : act world error A) (fs fs' : FS) (response : A) : Prop :=
  exists w w',
    loadWorld newVM (rb_DatabasePath base) (rb_World base) (with_folders (rb_DatabasePath base) fs) =
      Ret (inr w) /\
    m w = (w', Ret (inr response)) /\ w_id w' = w_id w /\
    (textual (stored_model w') -> apart base (w_id w) ->
     loadWorld newVM (rb_DatabasePath base) (w_id w) fs' = newWorld newVM (stored_model w')).

Lemma toDataModel_run w m : toDataModel w = Ret (inr m) -> m = stored_model w.
Proof. unfold toDataModel. by intros (clone & ->%AccountMap_Clone_same & [= <-])%res_bind_inr. Qed.

Lemma write_data_run path marshalled fs fs' a :
  write_data path marshalled fs = (fs', Ret (inr a)) ->
  exists data, marshalled = inr data /\ ioutil_WriteFile path data fs = (fs', None).
Proof.
  unfold write_data. destruct marshalled as [err|data]; [done|].
  destruct (ioutil_WriteFile path data fs) as [fs1 [err|]] eqn:E; [done|]. intros [= <- _].
  by exists data.
Qed.

Lemma load_written worldID rootPath m data fs :
  ioutil_ReadFile fs (getWorldFile rootPath worldID) = inr data ->
  os_Stat fs (getWorldFile rootPath worldID) = true -> json_UnmarshalWorld data = inr m ->
  loadWorld newVM rootPath worldID fs = newWorld newVM m.
Proof.
  intros Hread Hstat Hm. unfold loadWorld, readWorldDataModel. by rewrite Hstat, Hread; cbn; rewrite Hm.
Qed.

Lemma keep_world_run {A} base outcome w (response a : A) fs fs' :
  keep_world base outcome (w, response) fs = (fs', Ret (inr a)) ->
  a = response /\
  (textual (stored_model w) -> apart base (w_id w) ->
   loadWorld newVM (rb_DatabasePath base) (w_id w) fs' = newWorld newVM (stored_model w)).
Proof.
  unfold keep_world, storeWorld. intros Hrun. act_inv. injection Hrun as -> <-. split; [done|].
  unfold pure_act in Ha1. injection Ha1 as -> Hm%toDataModel_run. subst.
  apply write_data_run in Ha as (data & Hdata & Hwrite). intros Htext Hapart.
  pose proof (write_reads _ _ _ _ Hwrite) as Hread. pose proof (write_stat _ _ _ _ Hwrite) as Hstat.
  apply (json_roundtrip _ _ Htext) in Hdata. unfold storeOutcome in Ha0.
  destruct (Z.eqb_spec (len (rb_Outcome base)) 0) as [Hlen|Hlen].
  - injection Ha0 as <-. by eapply load_written.
  - apply write_data_run in Ha0 as (outcome_data & _ & Hother).
    destruct Hapart as [Hapart|Hapart]; [by rewrite Hapart in Hlen|].
    destruct (write_others _ _ _ _ _ (getWorldFile (rb_DatabasePath base) (w_id w)) Hother) as [Hs Hr]; [done|].
    eapply load_written; [by rewrite Hr | by rewrite Hs | done].
Qed.

Lemma open_world_run base fs fs' w :
  open_world newVM base fs = (fs', Ret (inr w)) ->
  fs' = with_folders (rb_DatabasePath base) fs /\
  loadWorld newVM (rb_DatabasePath base) (rb_World base) (with_folders (rb_DatabasePath base) fs) = Ret (inr w).
Proof. unfold open_world, initFolders. cbn. intros [= <- Hload]. by split. Qed.

Lemma kept_run {A} base (m : act world error A) outcome fs fs' response :
  (forall id, keeps (fun w => w_id w = id) m) ->
  (w ← open_world newVM base; r ← in_world w m; keep_world base outcome r) fs = (fs', Ret (inr response)) ->
  kept base m fs fs' response.
Proof.
  intros Hid Hrun. act_inv. destruct a0 as [w' b].
  apply open_world_run in Ha as [_ Hload].
  unfold in_world in Ha0. destruct (m a) as [w1 [[err|c]| |]] eqn:Em; try done. injection Ha0 as <- <- <-.
  apply keep_world_run in Hrun as [-> Hkept]. exists a, w1.
  assert (Hid' : w_id w1 = w_id a) by by apply (Hid (w_id a) a w1 (Ret (inr c))).
  split_and!; [exact Hload | exact Em | exact Hid' | by rewrite <-Hid'].
Qed.

Lemma keeps_id_machine {E A} (m : act (vm_state * MockWorld) E A) id : keeps (fun w => w_id w = id) (on_machine m).
Proof. intros w w' r Hw Hm _. unfold on_machine, on_part in Hm. destruct (m _) as [[vm hook] o]. by injection Hm as <- _. Qed.

Lemma keeps_id_hook {E A} (m : act MockWorld E A) id : keeps (fun w => w_id w = id) (on_hook m).
Proof. intros w w' r Hw Hm _. unfold on_hook, on_part in Hm. destruct (m _) as [hook o]. by injection Hm as <- _. Qed.

#[local] Hint Resolve keeps_id_machine keeps_id_hook : keeps.

Lemma deploy_digest_base fs request deploy :
  DeployRequest_digest fs request = Ret (inr deploy) ->
  crb_RequestBase (dr_ContractRequestBase deploy) = request_defaults (crb_RequestBase (dr_ContractRequestBase request)).
Proof.
  unfold DeployRequest_digest. intros (base & Hbase%contract_digest_base & Hd)%res_bind_inr.
  apply res_bind_inr in Hd as (code0 & _ & Hd). apply res_bind_inr in Hd as (code & _ & Hd).
  destruct (len code =? 0); [done|]. apply res_bind_inr in Hd as (metadata & _ & Hd).
  by apply res_bind_inr in Hd as (arguments & _ & [= <-]).
Qed.

(** C38: What a request does stays: when creating an account, deploying, upgrading or running a
    contract gives a response, the world it was made on is the one the database had under
    the name in the request.  The world after it is the one the database has from then on,
    accounts and storages unchanged, for a machine made anew, on two conditions: the addresses
    of all its accounts, the keys of their storages and the other strings of Go in it are
    valid UTF-8, which [encoding/json] requires to bring them back and which most addresses
    of the network are not; and the request does not name the file of the world for its
    outcome. *)
Theorem transactions_are_kept fs fs' :
  (forall request account, DebugServer.CreateAccount newVM request fs = (fs', Ret (inr account)) ->
   exists digested, CreateAccountRequest_digest request = Ret (inr digested) /\
     kept (car_RequestBase digested) (createAccount digested) fs fs' account) /\
  (forall request response, DeploySmartContract newVM request fs = (fs', Ret (inr response)) ->
   exists digested, DeployRequest_digest fs request = Ret (inr digested) /\
     kept (crb_RequestBase (dr_ContractRequestBase digested)) (deploySmartContract digested) fs fs' response) /\
  (forall request response, UpgradeSmartContract newVM request fs = (fs', Ret (inr response)) ->
   exists digested, UpgradeRequest_digest fs request = Ret (inr digested) /\
     kept (crb_RequestBase (dr_ContractRequestBase (ur_DeployRequest digested)))
       (upgradeSmartContract digested) fs fs' response) /\
  (forall request response, RunSmartContract newVM request fs = (fs', Ret (inr response)) ->
   exists digested, RunRequest_digest request = Ret (inr digested) /\
     kept (crb_RequestBase (rr_ContractRequestBase digested)) (runSmartContract digested) fs fs' response).
Proof.
  split_and!; intros request response Hrun.
  all: try (apply act_bind_inr in Hrun as (fs0 & fs1 & [= <- <-] & Hrun)).
  all: apply act_bind_inr in Hrun as (fs2 & digested & [= <- Hd] & Hrun); exists digested; split; [exact Hd|].
  all: eapply kept_run; [|exact Hrun]; intros id.
  - unfold createAccount. keeps_parts.
  - unfold deploySmartContract, update_world. keeps_parts.
  - unfold upgradeSmartContract, update_world. keeps_parts.
  - unfold runSmartContract, update_world. keeps_parts.
Qed.

End Props.

(** ** Witnesses *)

Definition toy_alice_account : Account :=
  set_wa_Balance (Some 42) (set_wa_Exists false (newAccount (bs "alice") false)).

Definition toy_model : worldDataModel := mkworldDataModel (bs "default") {[ bs "alice" := toy_alice_account ]}.

Lemma toy_model_textual : textual toy_model.
Proof. split; [reflexivity|]. apply map_Forall_singleton. repeat split. apply map_Forall_empty. Qed.

(** Instead of JSON, an encoding of every world by numbers, written as bits. *)

#[local] Instance toy_account_eq : EqDecision Account.
Proof. solve_decision. Defined.

Definition account_code (a : Account) : list positive :=
  let '(mkAccount x1 x2 x3 x4 x5 x6 x7 x8 x9 x10 x11 x12 x13 x14 x15 x16 x17) := a in
  [encode x1; encode x2; encode x3; encode x4; encode x5; encode x6; encode x7; encode x8; encode x9;
   encode x10; encode x11; encode x12; encode x13; encode x14; encode x15; encode x16; encode x17].

Definition account_decoded (l : list positive) : option Account :=
  match l with
  | [p1; p2; p3; p4; p5; p6; p7; p8; p9; p10; p11; p12; p13; p14; p15; p16; p17] =>
      x1 ← decode p1; x2 ← decode p2; x3 ← decode p3; x4 ← decode p4; x5 ← decode p5; x6 ← decode p6;
      x7 ← decode p7; x8 ← decode p8; x9 ← decode p9; x10 ← decode p10; x11 ← decode p11; x12 ← decode p12;
      x13 ← decode p13; x14 ← decode p14; x15 ← decode p15; x16 ← decode p16; x17 ← decode p17;
      Some (mkAccount x1 x2 x3 x4 x5 x6 x7 x8 x9 x10 x11 x12 x13 x14 x15 x16 x17)
  | _ => None
  end.

#[local] Program Instance toy_account_countable : Countable Account := {|
  encode a := positives_flatten (account_code a);
  decode p := positives_unflatten p ≫= account_decoded;
|}.
Next Obligation.
  intros []. rewrite positives_unflatten_flatten. cbn [account_code mbind option_bind account_decoded].
  by rewrite !decode_encode.
Qed.

Fixpoint bits (p : positive) : bytes :=
  match p with
  | xH => []
  | xO p => Byte.x00 :: bits p
  | xI p => Byte.x01 :: bits p
  end.

Fixpoint of_bits (s : bytes) : positive :=
  match s with
  | [] => xH
  | Byte.x00 :: s => xO (of_bits s)
  | _ :: s => xI (of_bits s)
  end.

Lemma of_bits_bits p : of_bits (bits p) = p.
Proof. by induction p; cbn; f_equal. Qed.

Definition toy_json (m : worldDataModel) : bytes := bits (encode (wdm_ID m, wdm_Accounts m)).

Definition toy_parsed (s : bytes) : option worldDataModel :=
  '(id, accounts) ← decode (of_bits s); Some (mkworldDataModel id accounts).

Lemma toy_json_roundtrip m : toy_parsed (toy_json m) = Some m.
Proof. unfold toy_parsed, toy_json. rewrite of_bits_bits, decode_encode. by destruct m. Qed.

(** Files in memory. *)
#[local] Instance toy_debug : DebugEnv := {|
  FS := gmap bytes bytes;
  os_MkdirAll := fun dir fs => fs;
  os_Stat := fun fs path => bool_decide (is_Some (fs !! path));
  ioutil_ReadFile := fun fs path =>
    match fs !! path with Some data => inr data | None => inl (ErrNew (bs "no such file")) end;
  ioutil_WriteFile := fun path data fs => (<[path := data]> fs, None);
  json_MarshalWorld := fun m => inr (toy_json m);
  json_UnmarshalWorld := fun data =>
    match toy_parsed data with Some m => inr m | None => inl (ErrNew (bs "not a world")) end;
  json_MarshalResponse := fun r => inr (bs "response");
  bind_DeployRequest := fun _ => inl (ErrNew []);
  bind_UpgradeRequest := fun _ => inl (ErrNew []);
  bind_RunRequest := fun _ => inl (ErrNew []);
  bind_QueryRequest := fun _ => inl (ErrNew []);
  bind_CreateAccountRequest := fun _ => inl (ErrNew []);
|}.

#[local] Instance toy_laws : FileLaws.
Proof.
  split; cbn.
  - done.
  - intros path data fs fs' [= <-]. by rewrite lookup_insert_eq.
  - intros path data fs fs' [= <-]. rewrite lookup_insert_eq. by apply bool_decide_eq_true_2.
  - intros path data fs fs' err path' [= <- _] Hne. by rewrite lookup_insert_ne.
Qed.

#[local] Instance toy_json_law : JsonLaw.
Proof. split. cbn. intros m data _ [= <-]. by rewrite toy_json_roundtrip. Qed.

Definition toy_newVM (params : VMHostParameters) (w : MockWorld) : error + unit := inr tt.

Definition toy_create : CreateAccountRequest :=
  mkCreateAccountRequest (mkRequestBase [] [] (bs "first")) (bs "616c696365") [] (bs "42") 0 0.

Abbreviation toy_created := (DebugServer.CreateAccount (VM := toy_vm) toy_newVM toy_create ∅).

Lemma transactions_are_kept_witness :
  snd toy_created = Ret (inr toy_alice_account) /\
  loadWorld (VM := toy_vm) toy_newVM (bs "./db") (bs "default") (fst toy_created) =
    newWorld (VM := toy_vm) toy_newVM toy_model.
Proof.
  split; [vm_compute; reflexivity|].
  assert (Hrun : toy_created = (fst toy_created, Ret (inr toy_alice_account))).
  { transitivity (fst toy_created, snd toy_created); [apply surjective_pairing | reflexivity]. }
  destruct (proj1 (transactions_are_kept (VM := toy_vm) toy_newVM ∅ (fst toy_created)) _ _ Hrun)
    as (digested & [= <-] & w & w' & Hload & Hm & Hid & Hkept).
  injection Hload as <-. injection Hm as <-. apply Hkept.
  - match goal with |- textual ?m => replace m with toy_model by (vm_compute; reflexivity) end.
    exact toy_model_textual.
  - right. vm_compute. discriminate.
Defined.

Definition toy_query : QueryRequest :=
  mkQueryRequest (mkRunRequest (mkContractRequestBase (mkRequestBase [] [] []) (bs "616c696365") [] [] 0 0 5)
    (bs "616464") [] (bs "fail") [] []).

Abbreviation toy_queried := (QuerySmartContract (VM := toy_vm) toy_newVM toy_query (fst toy_created)).

Lemma query_changes_no_world_witness :
  other_files (bs "db/out/.json") (fst toy_created) (fst toy_queried).
Proof.
  refine (query_changes_no_world (VM := toy_vm) toy_newVM toy_query (fst toy_created) (fst toy_queried)
    (snd toy_queried) (surjective_pairing _) _).
  vm_compute. discriminate.
Defined.
