(* ===== verification/ScenDirs.v ===== *)
(** Directories of scenarios and of tests ([src/scenarios/controller]), the test runner of
    the command line ([src/cmd/test]), and the tools that rewrite files.  What running a
    directory says of its files, and which prices its scenarios run with. *)
From S2P Require Import Prelude Errors Types State OrderedJson GoText Fallible Stateful GasConfig.
From S2P Require Import ScenExpr ScenModel ScenParse ScenWrite WorldMock ScenExec ScenCheck ScenRun.
From S2P Require Import ScenExprProps ScenEnds Toy ScenToy ScenExecProps ScenRunProps.

#[local] Open Scope Z_scope.

(** The files and directories [filepath.Walk] visits below a path, in order, and whether
    a path is a directory. *)
Class DirEnv := {
  filepath_Walk : bytes -> list bytes;
  filepath_Match : bytes -> bytes -> error + bool;
  os_StatIsDir : bytes -> error + bool;
  os_IsNotExist : error -> bool;
  (** the files that the tools write *)
  Disk : Type;
  disk_MkdirAll : bytes -> Disk -> Disk * option error;
  disk_WriteFile : bytes -> bytes -> Disk -> Disk * option error;
}.

(** [strings.HasSuffix]: a shorter text is not equal to the suffix. *)
Definition HasSuffix (s suffix : bytes) : bool :=
  bool_decide (drop (length s - length suffix) s = suffix).

Section Dirs.
Context `{Dirs : DirEnv}.

(** A malformed pattern panics. *)
Fixpoint isExcluded (excludedFilePatterns : list bytes) (testPath generalTestPath : bytes) : res bool :=
  match excludedFilePatterns with
  | [] => mret false
  | et :: rest =>
      match filepath_Match (filepath.Join generalTestPath et) testPath with
      | inl _ => Panic
      | inr true => mret true
      | inr false => isExcluded rest testPath generalTestPath
      end
  end.

Definition shortenTestPath (path generalTestPath : bytes) : bytes :=
  if HasPrefix path (generalTestPath ++ bs "/") then drop (length generalTestPath + 1) path else path.

(** The counters, and what is printed. *)
Record tally := mktally {
  nrPassed : Z;
  nrFailed : Z;
  nrSkipped : Z;
  printed : bytes;
}.

Definition print (text : bytes) (t : tally) : tally :=
  mktally (nrPassed t) (nrFailed t) (nrSkipped t) (printed t ++ text).

Definition count_passed (t : tally) : tally :=
  mktally (nrPassed t + 1) (nrFailed t) (nrSkipped t) (printed t).
Definition count_failed (t : tally) : tally :=
  mktally (nrPassed t) (nrFailed t + 1) (nrSkipped t) (printed t).
Definition count_skipped (t : tally) : tally :=
  mktally (nrPassed t) (nrFailed t) (nrSkipped t + 1) (printed t).

(** The walks over scenarios and tests differ in these three. *)
Record walker (S : Type) := mkwalker {
  wk_label : bytes;
  wk_run : bytes -> act S error unit;
  wk_failure : error -> bytes;
}.
#[global] Arguments mkwalker {S}.
#[global] Arguments wk_label {S}.
#[global] Arguments wk_run {S}.
#[global] Arguments wk_failure {S}.

Section Walk.
Context {S : Type} (walker : walker S).
Context (generalTestPath allowedSuffix : bytes) (excludedFilePatterns : list bytes).

(** The function given to [filepath.Walk]. *)
Definition visit (testFilePath : bytes) (t : tally) : act S error tally :=
  if HasSuffix testFilePath allowedSuffix then
    let t := print (wk_label walker ++ bs ": " ++ shortenTestPath testFilePath generalTestPath ++ bs " ... ") t in
    excluded ← pure_act (isExcluded excludedFilePatterns testFilePath generalTestPath);
    if (excluded : bool) then mret (print (bs "  skip" ++ [newline]) (count_skipped t))
    else
      testErr ← attempt (wk_run walker testFilePath);
      match testErr with
      | inr _ => mret (print (bs "  ok" ++ [newline]) (count_passed t))
      | inl err => mret (print (wk_failure walker err ++ [newline]) (count_failed t))
      end
  else mret t.

Fixpoint walk (files : list bytes) (t : tally) : act S error tally :=
  match files with
  | [] => mret t
  | file :: rest => t ← visit file t; walk rest t
  end.

Definition RunAll (specificTestPath : bytes) : act S error (tally * option error) :=
  let mainDirPath := filepath.Join generalTestPath specificTestPath in
  t ← walk (filepath_Walk mainDirPath) (mktally 0 0 0 []);
  let t := print (bs "Done. Passed: " ++ Sprintf_d (nrPassed t) ++ bs ". Failed: " ++
    Sprintf_d (nrFailed t) ++ bs ". Skipped: " ++ Sprintf_d (nrSkipped t) ++ bs "." ++ [newline]) t in
  mret (t, if 0 <? nrFailed t then Some (ErrNew (bs "Some tests failed")) else None).

End Walk.

Section Runners.
Context `{Ext : Externals} `{Mock : worldmock.MockEnv} `{VM : !VMExecutionHandler} `{Files : ExecEnv}.
Context `{Scen : ScenEnv}.
Import worldmock.

(** The executor is reset before each scenario; [fuel] is for the files that one includes. *)
Definition scenario_walker (fuel : nat) (fr : DefaultFileResolver) : walker VMTestExecutor :=
  mkwalker (bs "Scenario") (fun path => Reset ;; RunSingleJSONScenario fuel fr path)
    (fun err => bs "  FAIL: " ++ Error err).

Definition RunAllJSONScenariosInDirectory (fuel : nat) (fr : DefaultFileResolver)
    (generalTestPath specificTestPath allowedSuffix : bytes) (excludedFilePatterns : list bytes) :
    X (tally * option error) :=
  RunAll (scenario_walker fuel fr) generalTestPath allowedSuffix excludedFilePatterns specificTestPath.

Definition test_walker (fr : DefaultFileResolver) : walker VMTestExecutor :=
  mkwalker (bs "Test") (RunSingleJSONTest fr) (fun _ => bs "  FAIL!!!").

Definition RunAllJSONTestsInDirectory (fr : DefaultFileResolver)
    (generalTestPath specificTestPath allowedSuffix : bytes) (excludedFilePatterns : list bytes) :
    X (tally * option error) :=
  RunAll (test_walker fr) generalTestPath allowedSuffix excludedFilePatterns specificTestPath.

(** ** The command line ([cmd/test/runner.go]) *)

(** The path and whether it is a directory. *)
Definition resolveArgument (exeDir arg : bytes) : error + bytes * bool :=
  let '(arg, fi) :=
    match os_StatIsDir arg with
    | inl err =>
        if os_IsNotExist err
        then let arg := filepath.Join exeDir arg in (arg, os_StatIsDir arg)
        else (arg, inl err)
    | fi => (arg, fi)
    end in
  match fi with
  | inl err => inl err
  | inr isDir => inr (arg, isDir)
  end.

(** What [main] runs for its argument; an error ends it with a message and status 1. *)
Definition run_argument (fuel : nat) (exeDir arg : bytes) : X unit :=
  '(jsonFilePath, isDir) ← pure_act (of_sum (resolveArgument exeDir arg));
  if (isDir : bool) then
    '(_, err) ← RunAllJSONScenariosInDirectory fuel NewDefaultFileResolver jsonFilePath []
      (bs ".scen.json") [];
    match err with Some err => act_fail err | None => mret tt end
  else if HasSuffix jsonFilePath (bs ".scen.json") then
    RunSingleJSONScenario fuel NewDefaultFileResolver jsonFilePath
  else RunSingleJSONTest NewDefaultFileResolver jsonFilePath.

End Runners.

(** ** The tools *)

Section Tools.
Context `{Scen : ScenEnv}.

(** Errors panic. *)
Definition write_or_panic (toPath data : bytes) : act Disk error unit := fun d =>
  match disk_MkdirAll (filepath.Dir toPath) d with
  | (d, Some _) => (d, Panic)
  | (d, None) =>
      match disk_WriteFile toPath data d with
      | (d, Some _) => (d, Panic)
      | (d, None) => (d, Ret (inr tt))
      end
  end.

Definition saveModifiedScenario (toPath : bytes) (scenario : mj.Scenario) : act Disk error unit :=
  resultJSON ← pure_act (ScenarioToJSONString scenario);
  write_or_panic toPath resultJSON.

Definition saveModifiedTest (toPath : bytes) (top : list mj.Test) : act Disk error unit :=
  resultJSON ← pure_act (TestToJSONString top);
  write_or_panic toPath resultJSON.

Definition convertTestToScenario (contextPath : bytes) (top : list mj.Test) : act Disk error unit :=
  if HasSuffix contextPath (bs ".test.json") then
    match mj.ConvertTestToScenario top with
    | Ret (inr scenario) =>
        scenarioSerialized ← pure_act (ScenarioToJSONString scenario);
        let newPath := take (length contextPath - length (bs ".test.json")) contextPath ++
          bs ".scen.json" in
        write_or_panic newPath scenarioSerialized
    | Ret (inl _) => fun d => (d, Panic)
    | Panic => fun d => (d, Panic)
    | OutOfFuel => fun d => (d, OutOfFuel)
    end
  else mret tt.

End Tools.

End Dirs.

(** ** Directories *)

Section Walks.
Context `{Dirs : DirEnv} {S : Type} (walker : walker S).
Context (generalTestPath allowedSuffix : bytes) (excludedFilePatterns : list bytes).

Abbreviation excluded file := (isExcluded excludedFilePatterns file generalTestPath).
Abbreviation walk := (walk walker generalTestPath allowedSuffix excludedFilePatterns).
Abbreviation visit := (visit walker generalTestPath allowedSuffix excludedFilePatterns).

(** The files that are run: with the suffix, and no pattern that excludes them. *)
Fixpoint selected (files : list bytes) : list bytes :=
  match files with
  | [] => []
  | file :: rest =>
      if HasSuffix file allowedSuffix then
        match excluded file with
        | Ret (inr false) => file :: selected rest
        | _ => selected rest
        end
      else selected rest
  end.

(** No pattern that is tried is malformed. *)
Definition well_formed (files : list bytes) : Prop :=
  forall file, file ∈ files -> HasSuffix file allowedSuffix = true -> excluded file <> Panic.

Lemma isExcluded_cases patterns file general :
  (exists b, isExcluded patterns file general = Ret (inr b)) \/ isExcluded patterns file general = Panic.
Proof.
  induction patterns as [|et rest IH]; cbn; [left; by exists false|].
  destruct (filepath_Match _ _) as [err|[]]; [by right | left; by exists true | done].
Qed.

Lemma well_formed_cons file files :
  well_formed (file :: files) <->
  (HasSuffix file allowedSuffix = true -> excluded file <> Panic) /\ well_formed files.
Proof.
  unfold well_formed. split.
  - intros H. split; [apply H, list_elem_of_here|]. intros f Hf. apply H. by apply list_elem_of_further.
  - intros [Hfile Hrest] f [->|Hf]%elem_of_cons; [done | by apply Hrest].
Qed.

(** What a visit leaves of the counters, and what it runs. *)
Lemma visit_run file t s s' t' :
  visit file t s = (s', Ret (inr t')) ->
  (HasSuffix file allowedSuffix = true -> excluded file <> Panic) /\
  nrFailed t <= nrFailed t' /\
  (nrFailed t' = nrFailed t -> forall rest,
   act_range (selected (file :: rest)) (wk_run walker) s = act_range (selected rest) (wk_run walker) s' /\
   len (selected (file :: rest)) = nrPassed t' - nrPassed t + len (selected rest)).
Proof.
  unfold visit. cbn [selected]. destruct (HasSuffix file allowedSuffix); [|intros [= <- <-]].
  2:{ split_and!; [done | lia |]. intros _ rest. split; [done | lia]. }
  unfold pure_act, attempt, mbind, act_bind.
  destruct (isExcluded_cases excludedFilePatterns file generalTestPath) as [[[] Hex] | Hex]; rewrite Hex; cbv beta iota.
  - intros [= <- <-]. split_and!; [done | cbn; lia |]. intros _ rest. cbn. split; [done | lia].
  - destruct (wk_run walker file s) as [s1 [[err|[]]| |]] eqn:Erun; intros [= <- <-];
      (split_and!; [done | cbn; lia |]); cbn; intros Hfailed rest; [lia|].
    unfold mbind, act_bind. rewrite Erun. unfold len. cbn [length]. split; [done | lia].
  - done.
Qed.

Lemma walk_run files t s s' t' :
  walk files t s = (s', Ret (inr t')) ->
  nrFailed t <= nrFailed t' /\
  (nrFailed t' = nrFailed t ->
   well_formed files /\ act_range (selected files) (wk_run walker) s = (s', Ret (inr tt)) /\
   nrPassed t' = nrPassed t + len (selected files)).
Proof.
  revert t s. induction files as [|file files IH]; intros t s; cbn [ScenDirs.walk].
  { intros [= <- <-]. split; [lia|]. intros _. split_and!; [by intros ? ?%elem_of_nil | done | unfold len; cbn; lia]. }
  intros (s1 & t1 & Hvisit & Hwalk)%act_bind_inr. apply visit_run in Hvisit as (Hex & Hle & Hrun).
  apply IH in Hwalk as [Hle' Hwalk]. split; [lia|]. intros Heq.
  destruct Hwalk as (Hwf & Hrange & Hcount); [lia|]. destruct (Hrun ltac:(lia) files) as [-> Hlen].
  rewrite well_formed_cons. split_and!; [done | done | exact Hrange | lia].
Qed.

Lemma walk_passes files t s s' :
  well_formed files -> act_range (selected files) (wk_run walker) s = (s', Ret (inr tt)) ->
  exists t', walk files t s = (s', Ret (inr t')) /\ nrFailed t' = nrFailed t.
Proof.
  revert t s. induction files as [|file files IH]; intros t s; cbn [ScenDirs.walk selected].
  { intros _ [= <-]. by exists t. }
  rewrite well_formed_cons. intros [Hex Hwf] Hrange.
  assert (Hvisit : exists s1 t1, visit file t s = (s1, Ret (inr t1)) /\ nrFailed t1 = nrFailed t /\
    act_range (selected files) (wk_run walker) s1 = (s', Ret (inr tt))).
  { unfold visit. destruct (HasSuffix file allowedSuffix); [|by exists s, t].
    unfold pure_act, attempt, mbind, act_bind.
    destruct (isExcluded_cases excludedFilePatterns file generalTestPath) as [[[] He] | He];
      rewrite He in *; [by do 2 eexists | | by destruct (Hex eq_refl)].
    cbn [act_range] in Hrange. apply act_bind_inr in Hrange as (s1 & [] & Hrun & Hrange).
    rewrite Hrun. by exists s1; eexists. }
  destruct Hvisit as (s1 & t1 & Hvisit & Hfailed & Hrest).
  destruct (IH t1 s1 Hwf Hrest) as (t' & Hwalk & Hfailed'). exists t'.
  unfold mbind, act_bind. rewrite Hvisit. split; [exact Hwalk | lia].
Qed.

(** A directory passes exactly when its files do: running it gives no error if and
    only if no pattern it tries is malformed and running the selected files, one after the
    other from the executor the one before left, gives no error; then all of them are
    counted as passed. *)
Theorem directory_passes_exactly specificTestPath s s' :
  let files := filepath_Walk (filepath.Join generalTestPath specificTestPath) in
  (exists t, RunAll walker generalTestPath allowedSuffix excludedFilePatterns specificTestPath s =
     (s', Ret (inr (t, None))) /\ nrPassed t = len (selected files) /\ nrFailed t = 0) <->
  well_formed files /\ act_range (selected files) (wk_run walker) s = (s', Ret (inr tt)).
Proof.
  intros files. unfold RunAll. fold files. split.
  - intros (t & (s1 & t1 & Hwalk & [= <- <- Herr])%act_bind_inr & _ & Hfailed).
    apply walk_run in Hwalk as [_ Hwalk]. cbn in Hfailed, Hwalk. destruct (Hwalk Hfailed) as (? & ? & _). by split.
  - intros [Hwf Hrange]. destruct (walk_passes files (mktally 0 0 0 []) s s' Hwf Hrange) as (t & Hwalk & Hfailed).
    pose proof (walk_run _ _ _ _ _ Hwalk) as [_ Hcount]. destruct (Hcount Hfailed) as (_ & _ & Hpassed).
    cbn [nrFailed nrPassed] in *. unfold mbind, act_bind. rewrite Hwalk. cbv beta iota.
    cbn [nrFailed print nrPassed nrSkipped]. rewrite Hfailed. eexists. split; [reflexivity|].
    cbn [nrFailed nrPassed print]. split; [lia | done].
Qed.

End Walks.

(** ** Prices *)

Section Prices.
Context `{Ext : Externals} `{Mock : worldmock.MockEnv} `{VM : !VMExecutionHandler} `{Files : ExecEnv}.
Context `{Scen : ScenEnv} `{Dirs : DirEnv}.
Import worldmock.

(** A schedule was set for the scenarios of this executor. *)
Definition scheduled (ae : VMTestExecutor) : Prop := ae_scenGasScheduleLoaded ae = true.

Lemma on_world_scheduled {E A} (m : act MockWorld E A) : keeps scheduled (on_world m).
Proof. apply (keeps_on_part _ (fun _ => True)); [done | by intros [] | by intros ????]. Qed.

Lemma on_vm_scheduled {E A} (m : act (vm_state * MockWorld) E A) : keeps scheduled (on_vm m).
Proof. apply (keeps_on_part _ (fun _ => True)); [done | by intros [] [] | by intros ????]. Qed.

#[local] Hint Resolve on_world_scheduled on_vm_scheduled : keeps.

Lemma executeTx_scheduled txIndex tx : keeps scheduled (executeTx txIndex tx).
Proof.
  unfold executeTx. apply keeps_bind; [keeps_parts|]. intros _.
  assert (Hm : keeps scheduled (tx ← act_deref tx; runTx txIndex tx)) by keeps_parts.
  intros ae ae' r Hae. specialize (Hm ae). unfold with_deferred.
  destruct ((tx ← act_deref tx; runTx txIndex tx) ae) as [ae1 o] eqn:E.
  assert (Hae1 : o <> OutOfFuel -> scheduled ae1) by by apply (Hm ae1 o).
  destruct o as [[[? ?]|[? ?]]| |]; intros [= <- <-] Hr; try done; unfold deferred;
    destruct ae1; by apply Hae1.
Qed.

#[local] Hint Resolve executeTx_scheduled : keeps.

Lemma modify_scheduled (f : VMTestExecutor -> VMTestExecutor) :
  (forall ae, ae_scenGasScheduleLoaded (f ae) = ae_scenGasScheduleLoaded ae) ->
  keeps scheduled (act_modify f : X unit).
Proof. intros Hf. apply keeps_act_modify. intros ae. unfold scheduled. by rewrite Hf. Qed.

(** A schedule that was set stays. *)
Lemma SetScenariosGasSchedule_scheduled g ae :
  scheduled ae -> SetScenariosGasSchedule g ae = (ae, Ret (inr tt)).
Proof. intros Hae. unfold SetScenariosGasSchedule, mbind, act_bind, act_gets. by rewrite Hae. Qed.

Lemma SetScenariosGasSchedule_keeps g : keeps scheduled (SetScenariosGasSchedule g).
Proof. intros ae ae' r Hae. rewrite (SetScenariosGasSchedule_scheduled g ae Hae). by intros [= <- _]. Qed.

Lemma ExecuteStep_scheduled run step :
  (forall fr path, keeps scheduled (run fr path)) -> keeps scheduled (ExecuteStep run step).
Proof.
  intros Hrun. destruct step; cbn [ExecuteStep].
  - unfold ExecuteExternalStep. repeat (apply keeps_bind; [keeps_parts|]; intros ?).
    apply modify_scheduled. by intros [].
  - keeps_parts.
  - keeps_parts.
  - keeps_parts.
  - keeps_parts.
Qed.

Lemma ExecuteScenario_sets run scenario fr ae ae' :
  (forall fr path, keeps scheduled (run fr path)) ->
  ExecuteScenario run scenario fr ae = (ae', Ret (inr tt)) -> scheduled ae'.
Proof.
  intros Hrun. unfold ExecuteScenario.
  intros (ae1 & [] & _ & (ae2 & [] & _ & (ae3 & [] & Hset & Hsteps)%act_bind_inr)%act_bind_inr)%act_bind_inr.
  apply (keeps_range scheduled (mj.sc_Steps scenario) (ExecuteStep run)
    (fun step => ExecuteStep_scheduled run step Hrun) ae3 ae' (Ret (inr tt))); [|exact Hsteps | done].
  revert Hset. unfold SetScenariosGasSchedule, mbind, act_bind, act_gets, pure_act, act_modify.
  destruct (ae_scenGasScheduleLoaded ae2) eqn:El; [by intros [= <-]|].
  destruct (gasScheduleMapFromScenarios _) as [[err|g]| |]; intros [= <-]. by destruct ae2.
Qed.

Lemma RunSingleJSONScenario_scheduled fuel : forall fr path, keeps scheduled (RunSingleJSONScenario fuel fr path).
Proof.
  induction fuel as [|fuel IH]; intros fr path; cbn [RunSingleJSONScenario]; [by intros ae ae' r ? [= _ <-] ?|].
  apply keeps_bind; [keeps_parts|]. intros [scenario fr']. unfold ExecuteScenario.
  apply keeps_bind; [apply modify_scheduled; by intros []|]. intros _.
  apply keeps_bind; [apply modify_scheduled; by intros []|]. intros _.
  apply keeps_bind; [apply SetScenariosGasSchedule_keeps|]. intros _.
  apply keeps_range. intros step. by apply ExecuteStep_scheduled.
Qed.

Lemma RunSingleJSONScenario_sets fuel fr path ae ae' :
  RunSingleJSONScenario fuel fr path ae = (ae', Ret (inr tt)) -> scheduled ae'.
Proof.
  destruct fuel as [|fuel]; cbn [RunSingleJSONScenario]; [done|].
  intros (ae1 & [scenario fr'] & _ & Hrun)%act_bind_inr. revert Hrun.
  apply ExecuteScenario_sets. intros. apply RunSingleJSONScenario_scheduled.
Qed.

(** C37: The first scenario of a directory decides the prices of all: once one has passed,
    every executor that the runner has after any further files has its schedule set for
    good, so that what a scenario says about its gas schedule changes nothing of its run. *)
Theorem first_schedule_stays fuel fr path ae ae1 files ae2 r :
  RunSingleJSONScenario fuel fr path ae = (ae1, Ret (inr tt)) ->
  act_range files (fun file => Reset ;; RunSingleJSONScenario fuel fr file) ae1 = (ae2, r) -> r <> OutOfFuel ->
  forall run scenario gasSchedule fr',
    ExecuteScenario run (mj.set_sc_GasSchedule gasSchedule scenario) fr' ae2 =
    ExecuteScenario run scenario fr' ae2.
Proof.
  intros Hfirst Hfiles Hr run scenario g fr'. apply RunSingleJSONScenario_sets in Hfirst.
  assert (Hae2 : scheduled ae2).
  { assert (Hkeeps : keeps scheduled (act_range files (fun file => Reset ;; RunSingleJSONScenario fuel fr file))).
    { apply keeps_range. intros file. apply keeps_bind; [apply on_world_scheduled|]. intros _.
      apply RunSingleJSONScenario_scheduled. }
    by apply (Hkeeps ae1 ae2 r). }
  destruct scenario as [name comment checkGas gs steps]. unfold ExecuteScenario. cbn.
  unfold mbind, act_bind, act_modify. cbv beta iota.
  by rewrite !SetScenariosGasSchedule_scheduled by by destruct ae2.
Qed.

End Prices.

(** ** Witnesses *)

Import worldmock.

(** What is in the directory of the toy world; every path is excluded by its own pattern. *)
#[local] Instance toy_dirs : DirEnv := {|
  filepath_Walk := fun _ => map bs ["/home"; "/home/main.scen.json"; "/home/notes.txt"; "/home/state.scen.json"]%string;
  filepath_Match := fun pattern name => inr (text_eqb pattern name);
  os_StatIsDir := fun _ => inr true;
  os_IsNotExist := fun _ => false;
  Disk := unit;
  disk_MkdirAll := fun _ d => (d, None);
  disk_WriteFile := fun _ _ d => (d, None);
|}.

Definition toy_directory : outcome (error + (tally * option error)) :=
  snd (RunAllJSONScenariosInDirectory 3 NewDefaultFileResolver (bs "/home") [] (bs ".scen.json")
    [bs "state.scen.json"] (NewVMTestExecutor (VM := toy_vm) tt)).

Example toy_directory_passes :
  toy_directory = Ret (inr (mktally 1 0 1 (bs "Scenario: main.scen.json ...   ok" ++ [newline] ++
    bs "Scenario: state.scen.json ...   skip" ++ [newline] ++
    bs "Done. Passed: 1. Failed: 0. Skipped: 1." ++ [newline]), None)).
Proof. vm_compute. reflexivity. Qed.

Lemma first_schedule_stays_witness :
  let '(ae, r) := act_range [bs "main.scen.json"]
    (fun file => Reset ;; RunSingleJSONScenario 2 NewDefaultFileResolver file) (fst (toy_run 2)) in
  r = Ret (inr tt) /\
  ExecuteScenario (RunSingleJSONScenario 1) (mj.mkScenario [] [] true mj.GasScheduleV1 [])
    NewDefaultFileResolver ae =
  ExecuteScenario (RunSingleJSONScenario 1) (mj.mkScenario [] [] true mj.GasScheduleDefault [])
    NewDefaultFileResolver ae.
Proof.
  destruct (act_range _ _ _) as [ae r] eqn:Hrun.
  assert (Hr : r = Ret (inr tt)) by (change r with (snd (ae, r)); rewrite <-Hrun; vm_compute; reflexivity).
  split; [exact Hr|].
  apply (first_schedule_stays 2 NewDefaultFileResolver (bs "main.scen.json")
    (NewVMTestExecutor (VM := toy_vm) tt) (fst (toy_run 2)) [bs "main.scen.json"] ae r)
    with (scenario := mj.mkScenario [] [] true mj.GasScheduleDefault []) (gasSchedule := mj.GasScheduleV1).
  - rewrite <-toy_run_passes. apply surjective_pairing.
  - exact Hrun.
  - by rewrite Hr.
Defined.
