(* ===== verification/Kast.v ===== *)
(** Scenarios for the K framework ([src/scenarios/orderedjson2kast]): a tree is written as
    a term of K, after the code of its contracts was assembled. *)
From S2P Require Import Prelude Errors Types State OrderedJson OrderedJsonProps GoText Fallible.

#[local] Open Scope Z_scope.

(** ** Terms ([ojToKast.go]) *)

Definition token (text sort : bytes) : bytes :=
  bs "#token(" ++ string_text text ++ [comma] ++ string_text sort ++ bs ")".

(** The quotes of the value are escaped, what is in it is not. *)
Definition writeStringKast (value : bytes) : bytes :=
  token (backslash :: quote :: value ++ [backslash; quote]) (bs "String").

(** The end of [n] nested pairs. *)
Definition close_items (n : nat) : bytes :=
  bs "`.List{" ++ string_text (bs "_,__IELE-DATA") ++ bs "}`(.KList)" ++ replicate n Byte.x29 ++ bs ")".

(** The loops of [writeKast]. *)
Definition kast_pairs (write : OJsonObject -> res bytes) :=
  fix go (kv : list (bytes * OJsonObject)) : res bytes :=
    match kv with
    | [] => mret []
    | (key, value) :: rest =>
        v ← write value;
        r ← go rest;
        mret (bs "`_,__IELE-DATA`(`_:__IELE-DATA`(" ++ writeStringKast key ++ bs "," ++ v ++ bs ")," ++ r)
    end.

Definition kast_items (write : OJsonObject -> res bytes) :=
  fix go (l : list OJsonObject) : res bytes :=
    match l with
    | [] => mret []
    | elem :: rest =>
        v ← write elem;
        r ← go rest;
        mret (bs "`_,__IELE-DATA`(" ++ v ++ bs "," ++ r)
    end.

Fixpoint writeKast (j : OJsonObject) : res bytes :=
  match j with
  | OMap _ kv =>
      pairs ← kast_pairs writeKast kv;
      mret (bs "`{_}_IELE-DATA`(" ++ pairs ++ close_items (length kv))
  | OList l =>
      items ← kast_items writeKast l;
      mret (bs "`[_]_IELE-DATA`(" ++ items ++ close_items (length l))
  | OString value => mret (writeStringKast value)
  | OBool b => mret (token (if b then bs "true" else bs "false") (bs "Bool"))
  | ONil => Panic
  end.

Definition jsonToKastOrdered (j : OJsonObject) : res bytes := writeKast j.

(** ** Code ([ojProcessCode.go]) *)

Section Code.
(** [ProcessCodeFunc] *)
Context (processCodeCallback : bytes -> bytes -> bytes).

(** The [to] of the map is an empty text. *)
Definition isCreateTx (kv : list (bytes * OJsonObject)) : bool :=
  existsb (fun '(key, value) =>
    bool_decide (key = bs "to") && match value with OString v => bool_decide (v = []) | _ => false end) kv.

Fixpoint processTestCode (jobj : OJsonObject) (testPath : bytes) : OJsonObject :=
  match jobj with
  | OMap keySet kv =>
      OMap keySet (map (fun '(key, value) =>
        (key,
         if bool_decide (key = bs "code") || (bool_decide (key = bs "contractCode") && isCreateTx kv)
         then match value with
              | OString v => OString (processCodeCallback testPath v)
              | _ => value
              end
         else processTestCode value testPath)) kv)
  | OList l => OList (map (fun elem => processTestCode elem testPath) l)
  | _ => jobj
  end.

(** [ojMain.go] *)
Definition ConvertOrderedJSONToKast (data testFilePath : bytes) : res bytes :=
  match ParseOrderedJSON data with
  | Ret (_, Some err) => fail err
  | Ret (Some jsonObj, None) => jsonToKastOrdered (processTestCode jsonObj (filepath.Dir testFilePath))
  | Ret (None, None) => Panic
  | Panic => Panic
  | OutOfFuel => OutOfFuel
  end.

End Code.

(** ** Terms say which tree they are of *)

(** A token ends at the first quote without a backslash before it. *)
Lemma quoted_unique prev v v' r r' :
  quotable prev v = true -> quotable prev v' = true ->
  v ++ backslash :: quote :: quote :: r = v' ++ backslash :: quote :: quote :: r' -> v = v' /\ r = r'.
Proof.
  assert (Hend : forall prev c w r r', quotable prev (c :: w) = true ->
    backslash :: quote :: quote :: r <> (c :: w) ++ backslash :: quote :: quote :: r').
  { intros p c w s s' Hq [= <- H]. cbn in Hq. destruct w as [|c' w]; [done|].
    injection H as <- H. cbn in Hq. destruct w as [|c' w]; [done|]. by injection H as <- H. }
  revert prev v'. induction v as [|c v IH]; intros prev [|c' v'] Hv Hv' Heq.
  - by injection Heq as ->.
  - by destruct (Hend _ _ _ _ _ Hv' Heq).
  - by destruct (Hend _ _ _ _ _ Hv (eq_sym Heq)).
  - injection Heq as <- Heq. cbn in Hv, Hv'. apply andb_true_iff in Hv as [_ Hv], Hv' as [_ Hv'].
    by destruct (IH c v' Hv Hv' Heq) as [-> ->].
Qed.

Lemma writeStringKast_unique v v' r r' :
  quotable quote v = true -> quotable quote v' = true ->
  writeStringKast v ++ r = writeStringKast v' ++ r' -> v = v' /\ r = r'.
Proof.
  intros Hv Hv' Heq.
  apply (quoted_unique quote v v' (bs "," ++ string_text (bs "String") ++ bs ")" ++ r)
    (bs "," ++ string_text (bs "String") ++ bs ")" ++ r')) in Hv as [-> Hr]; [|done|].
  - split; [done|]. by injection Hr.
  - revert Heq. unfold writeStringKast, token, string_text. rewrite <-!app_assoc. cbn.
    rewrite <-!app_assoc. cbn. intros Heq. by injection Heq.
Qed.

Lemma ret_inj {A} (a b : A) : (mret a : res A) = Ret (inr b) -> a = b.
Proof. by intros [= ->]. Qed.

(** A term of one tree is no prefix of a term of another one. *)
Definition kast_unique (j : OJsonObject) : Prop := forall j' k k' r r',
  printable j = true -> printable j' = true ->
  writeKast j = Ret (inr k) -> writeKast j' = Ret (inr k') -> k ++ r = k' ++ r' -> j = j' /\ r = r'.

Lemma pairs_unique kv kv' k k' n n' r r' :
  Forall (fun p => kast_unique (snd p)) kv ->
  forallb (fun '(key, value) => quotable quote key && printable value) kv = true ->
  forallb (fun '(key, value) => quotable quote key && printable value) kv' = true ->
  kast_pairs writeKast kv = Ret (inr k) -> kast_pairs writeKast kv' = Ret (inr k') ->
  k ++ close_items n ++ r = k' ++ close_items n' ++ r' ->
  kv = kv' /\ close_items n ++ r = close_items n' ++ r'.
Proof.
  intros Hkv. revert kv' k k'. induction Hkv as [|[key j] kv Hj _ IH]; intros [|[key' j'] kv'] k k' Hp Hp' Hk Hk' Heq.
  - injection Hk as <-. injection Hk' as <-. done.
  - injection Hk as <-. apply res_bind_inr in Hk' as (v' & _ & (w' & _ & [= <-])%res_bind_inr). done.
  - injection Hk' as <-. apply res_bind_inr in Hk as (v & _ & (w & _ & [= <-])%res_bind_inr). done.
  - apply res_bind_inr in Hk as (v & Hv & (w & Hw & <-%ret_inj)%res_bind_inr).
    apply res_bind_inr in Hk' as (v' & Hv' & (w' & Hw' & <-%ret_inj)%res_bind_inr).
    cbn [forallb] in Hp, Hp'. rewrite !andb_true_iff in Hp, Hp'.
    destruct Hp as [[Hq Hpj] Hp], Hp' as [[Hq' Hpj'] Hp'].
    rewrite <-!app_assoc in Heq. apply app_inv_head in Heq.
    apply writeStringKast_unique in Heq as [-> Heq]; [|done..]. apply app_inv_head in Heq.
    cbn [snd] in Hj. apply (Hj _ _ _ _ _ Hpj Hpj' Hv Hv') in Heq as [-> Heq]. apply app_inv_head in Heq.
    by destruct (IH kv' w w' Hp Hp' Hw Hw' Heq) as [-> ?].
Qed.

Lemma items_unique l l' k k' n n' r r' :
  Forall kast_unique l -> forallb printable l = true -> forallb printable l' = true ->
  kast_items writeKast l = Ret (inr k) -> kast_items writeKast l' = Ret (inr k') ->
  k ++ close_items n ++ r = k' ++ close_items n' ++ r' ->
  l = l' /\ close_items n ++ r = close_items n' ++ r'.
Proof.
  intros Hl. revert l' k k'. induction Hl as [|j l Hj _ IH]; intros [|j' l'] k k' Hp Hp' Hk Hk' Heq.
  - injection Hk as <-. injection Hk' as <-. done.
  - injection Hk as <-. apply res_bind_inr in Hk' as (v' & _ & (w' & _ & [= <-])%res_bind_inr). done.
  - injection Hk' as <-. apply res_bind_inr in Hk as (v & _ & (w & _ & [= <-])%res_bind_inr). done.
  - apply res_bind_inr in Hk as (v & Hv & (w & Hw & <-%ret_inj)%res_bind_inr).
    apply res_bind_inr in Hk' as (v' & Hv' & (w' & Hw' & <-%ret_inj)%res_bind_inr).
    cbn [forallb] in Hp, Hp'. rewrite !andb_true_iff in Hp, Hp'. destruct Hp as [Hpj Hp], Hp' as [Hpj' Hp'].
    rewrite <-!app_assoc in Heq. apply app_inv_head in Heq.
    apply (Hj _ _ _ _ _ Hpj Hpj' Hv Hv') in Heq as [-> Heq]. apply app_inv_head in Heq.
    by destruct (IH l' w w' Hp Hp' Hw Hw' Heq) as [-> ?].
Qed.

Lemma every_term_unique j : kast_unique j.
Proof.
  induction j as [s kv IH | l IH | v | b |] using OJsonObject_ind; intros j' k k' r r' Hp Hp' Hk Hk' Heq; [| | | |done].
  - apply res_bind_inr in Hk as (pairs & Hpairs & <-%ret_inj).
    destruct j' as [s' kv' | l' | v' | b' |]; [| apply res_bind_inr in Hk' as (items' & _ & [= <-]); done | | |done];
      [|injection Hk' as <-; done | injection Hk' as <-; by destruct b'].
    apply res_bind_inr in Hk' as (pairs' & Hpairs' & <-%ret_inj).
    cbn [printable] in Hp, Hp'. rewrite !andb_true_iff, !bool_decide_eq_true in Hp, Hp'.
    destruct Hp as [[-> _] Hp], Hp' as [[-> _] Hp']. rewrite <-!app_assoc in Heq. apply app_inv_head in Heq.
    apply (pairs_unique kv kv') in Heq as [-> Heq]; try done. split; [done|]. by apply app_inv_head in Heq.
  - apply res_bind_inr in Hk as (items & Hitems & <-%ret_inj).
    destruct j' as [s' kv' | l' | v' | b' |]; [apply res_bind_inr in Hk' as (pairs' & _ & [= <-]); done | | | |done];
      [|injection Hk' as <-; done | injection Hk' as <-; by destruct b'].
    apply res_bind_inr in Hk' as (items' & Hitems' & <-%ret_inj).
    rewrite <-!app_assoc in Heq. apply app_inv_head in Heq.
    apply (items_unique l l') in Heq as [-> Heq]; try done. split; [done|]. by apply app_inv_head in Heq.
  - apply ret_inj in Hk as <-. destruct j' as [s' kv' | l' | v' | b' |]; [..|done].
    + apply res_bind_inr in Hk' as (pairs' & _ & [= <-]); done.
    + apply res_bind_inr in Hk' as (items' & _ & [= <-]); done.
    + apply ret_inj in Hk' as <-. by apply writeStringKast_unique in Heq as [-> ->].
    + injection Hk' as <-. by destruct b'.
  - injection Hk as <-. destruct j' as [s' kv' | l' | v' | b' |]; [..|done].
    + apply res_bind_inr in Hk' as (pairs' & _ & [= <-]). by destruct b.
    + apply res_bind_inr in Hk' as (items' & _ & [= <-]). by destruct b.
    + injection Hk' as <-. by destruct b.
    + injection Hk' as <-. destruct b, b'; first [done | injection Heq as ->; done].
Qed.

Lemma writeKast_printable j : printable j = true -> exists k, writeKast j = Ret (inr k).
Proof.
  induction j as [s kv IH | l IH | v | b |] using OJsonObject_ind; [| |by eexists..|done].
  - cbn [printable]. rewrite !andb_true_iff. intros [_ Hp].
    assert (Hpairs : exists k, kast_pairs writeKast kv = Ret (inr k)).
    { induction IH as [|[key j] kv Hj _ IHkv]; [by eexists|]. cbn [forallb] in Hp.
      rewrite !andb_true_iff in Hp. destruct Hp as [[_ Hpj] Hp].
      destruct (Hj Hpj) as [v Hv], (IHkv Hp) as [r Hr]. cbn. cbn in Hv. rewrite Hv. cbn. rewrite Hr. by eexists. }
    destruct Hpairs as [k Hk]. cbn. rewrite Hk. by eexists.
  - cbn [printable]. intros Hp.
    assert (Hitems : exists k, kast_items writeKast l = Ret (inr k)).
    { induction IH as [|j l Hj _ IHl]; [by eexists|]. cbn [forallb] in Hp. rewrite andb_true_iff in Hp.
      destruct Hp as [Hpj Hp]. destruct (Hj Hpj) as [v Hv], (IHl Hp) as [r Hr]. cbn. rewrite Hv. cbn.
      rewrite Hr. by eexists. }
    destruct Hitems as [k Hk]. cbn. rewrite Hk. by eexists.
Qed.

(** Every tree that JSON can carry has a term, and no two of them have the same: the
    export for K loses nothing, neither the order of keys nor the escapes in texts. *)
Theorem kast_lossless j j' :
  printable j = true -> printable j' = true ->
  exists k k', jsonToKastOrdered j = Ret (inr k) /\ jsonToKastOrdered j' = Ret (inr k') /\
    (k = k' -> j = j').
Proof.
  intros Hj Hj'. destruct (writeKast_printable j Hj) as [k Hk], (writeKast_printable j' Hj') as [k' Hk'].
  exists k, k'. split_and!; [done | done |]. intros ->.
  by destruct (every_term_unique j j' k' k' [] [] Hj Hj' Hk Hk' eq_refl).
Qed.

Lemma kast_lossless_witness :
  exists k k', jsonToKastOrdered sample_tree = Ret (inr k) /\ jsonToKastOrdered (OString (bs "x")) = Ret (inr k') /\
    (k = k' -> sample_tree = OString (bs "x")).
Proof. apply (kast_lossless sample_tree (OString (bs "x"))); vm_compute; reflexivity. Defined.
