(* ===== verification/Conservation.v ===== *)
(** Where value goes in a transaction.  The executor of a node adds the balance changes
    of the output to the accounts; nothing of it may be made or lost on the way.  Every
    operation of the contexts, and so every contract, keeps the sum of all balance
    changes, across the outputs that nested executions save, merge and put back.

    One operation does not: when a contract fails to create another one, the account
    of the new address is deleted from the output, with what was sent to it before. *)
From S2P Require Import Prelude Errors Overflow Helpers Types State Logic Toy BigInt Runtime.
From S2P Require Import Output Metering Blockchain Transfers Storage Validator RuntimeExec.
From S2P Require Import Builtin AsyncCall Execution Host Hooks Nesting Guarantees.

#[local] Open Scope Z_scope.

(** ** Sums *)

Section Sums.
Context {A : Type} (f : A -> Z).

(** A sum over a map is one over any map with more keys. *)
Lemma sum_map_wider (l : gmap bytes A) {B} (m : gmap bytes B) :
  dom l ⊆ dom m -> sum_map (fun k _ => default 0 (f <$> l !! k)) m = sum_map (fun _ a => f a) l.
Proof.
  revert m. induction l as [|k a l Hk IH] using map_ind; intros m Hdom.
  - rewrite sum_map_empty. rewrite (sum_map_ext _ (fun _ _ => 0)) by done.
    clear. induction m as [|k a m Hk IH] using map_ind; [done|]. by rewrite sum_map_insert.
  - assert (is_Some (m !! k)) as [b Hb] by (apply elem_of_dom, Hdom; set_solver).
    rewrite (sum_map_split _ m k b Hb), lookup_insert_eq, sum_map_insert by done. cbn. f_equal.
    rewrite <-(IH (delete k m)).
    + apply sum_map_ext. intros i x Hi. rewrite lookup_insert_ne; [done|].
      intros ->. by rewrite lookup_delete_eq in Hi.
    + intros i Hi. rewrite dom_delete. apply elem_of_difference. split; [apply Hdom; set_solver|].
      intros ->%elem_of_singleton. apply elem_of_dom in Hi as [x Hx]. congruence.
Qed.

End Sums.

Section Conservation.
Context `{Ext : Externals}.

Lemma total_delta_wider (o : VMOutput) {B} (m : gmap bytes B) :
  dom (OutputAccounts o) ⊆ dom m -> sum_map (fun k _ => delta_of o k) m = total_delta o.
Proof.
  intros Hdom. unfold total_delta. rewrite <-(sum_map_wider _ (OutputAccounts o) m Hdom).
  apply sum_map_ext. intros k a _. unfold delta_of. by destruct (OutputAccounts o !! k).
Qed.

(** ** Outputs with a sum *)

(** A well-formed output whose balance changes sum up to [v]. *)
Definition sums_to (v : Z) (o : VMOutput) : Prop := output_wf o /\ total_delta o = v.

Definition within (a b : VMOutput) : Prop := dom (OutputAccounts a) ⊆ dom (OutputAccounts b).

#[export] Instance within_preorder : PreOrder within.
Proof. split; [intros a; unfold within; reflexivity | intros a b c; unfold within; apply transitivity]. Qed.

(** The outputs of a context from the oldest to the current one: all with the same sum,
    each with the accounts of those before. *)
Definition history (c : outputContext) : list VMOutput := out_stateStack c ++ [outputState c].

Definition grows (l : list VMOutput) : Prop :=
  forall i j a b, (i <= j)%nat -> l !! i = Some a -> l !! j = Some b -> within a b.

Definition even (v : Z) (c : outputContext) : Prop :=
  Forall (sums_to v) (history c) /\ grows (history c).

Definition balanced (v : Z) (st : HostState) : Prop := even v (st_output st).

Lemma grows_snoc l b : grows (l ++ [b]) <-> grows l /\ Forall (fun a => within a b) l.
Proof.
  split.
  - intros H. split.
    + intros i j a c Hij Ha Hc. apply (H i j); [done|..]; by apply lookup_app_l_Some.
    + apply Forall_lookup. intros i a Ha. apply (H i (length l)).
      * apply lookup_lt_Some in Ha. lia.
      * by apply lookup_app_l_Some.
      * by rewrite lookup_app_r, Nat.sub_diag by lia.
  - intros [H Hb] i j a c Hij Ha Hc. rewrite Forall_lookup in Hb.
    apply lookup_app_Some in Ha as [Ha | [Hi Ha]], Hc as [Hc | [Hj Hc]].
    + by apply (H i j).
    + destruct (j - length l)%nat; [|done]. injection Hc as <-. by apply (Hb i).
    + apply lookup_lt_Some in Hc. lia.
    + destruct (i - length l)%nat, (j - length l)%nat; try done; injection Ha as <-; injection Hc as <-; reflexivity.
Qed.

(** The current output changes, with its sum and its accounts kept. *)
Lemma even_step v c c' :
  even v c -> out_stateStack c' = out_stateStack c ->
  (sums_to v (outputState c) -> sums_to v (outputState c') /\ within (outputState c) (outputState c')) ->
  even v c'.
Proof.
  unfold even, history. intros [Hsum Hgrows] -> Hstep. rewrite Forall_app, Forall_singleton in *.
  rewrite grows_snoc in *. destruct Hsum as [Hsaved Hcur], Hgrows as [Hgrows Hin].
  destruct (Hstep Hcur) as [Hcur' Hw]. split_and!; try done.
  eapply Forall_impl; [|exact Hin]. intros a Ha. by transitivity (outputState c).
Qed.

Lemma even_push v c : even v c -> even v (Output.PushState c).
Proof.
  unfold even, history. cbn. rewrite !grows_snoc, !Forall_app, !Forall_singleton.
  intros [[Hsaved [Hwf Hsum]] [Hgrows Hin]].
  assert (Hnew : OutputAccounts (mergeVMOutputs newVMOutput (outputState c)) = OutputAccounts (outputState c))
    by apply merge_new_accounts, Hwf.
  unfold sums_to, total_delta, output_wf, within in *. rewrite Hnew. split_and!; try done; try apply Hwf.
Qed.

Lemma even_pop v c : even v c -> even v (Output.PopSetActiveState c).
Proof.
  unfold Output.PopSetActiveState. destruct (pop (out_stateStack c)) as [[s l]|] eqn:E; [|done].
  apply pop_Some in E. unfold even, history. cbn. rewrite E, !grows_snoc, !Forall_app, !Forall_singleton.
  by intros [[[? ?] ?] [[? ?] ?]].
Qed.

Lemma even_discard v c : even v c -> even v (Output.PopDiscard c).
Proof.
  unfold Output.PopDiscard. destruct (pop (out_stateStack c)) as [[s l]|] eqn:E; [|done].
  apply pop_Some in E. unfold even, history. cbn. rewrite E, !grows_snoc, !Forall_app, !Forall_singleton.
  by intros [[[? ?] ?] [[? ?] [? ?]]].
Qed.

Lemma even_clear v c : even v c -> even v (Output.ClearStateStack c).
Proof.
  unfold even, history. cbn. rewrite Forall_app, !Forall_singleton. intros [[_ ?] _]. split; [done|].
  intros i j a b Hij Ha Hb. destruct i, j; try done; injection Ha as <-; injection Hb as <-; reflexivity.
Qed.

(** Merging what grew from an output into it. *)
Lemma merge_sums v s o :
  sums_to v s -> sums_to v o -> within s o ->
  sums_to v (mergeVMOutputs newVMOutput (mergeVMOutputs s o)) /\
  within o (mergeVMOutputs newVMOutput (mergeVMOutputs s o)).
Proof.
  intros [Hs _] [Ho Hsum] Hin. pose proof (merge_wf _ _ Hs Ho) as Hm.
  assert (Hnew : OutputAccounts (mergeVMOutputs newVMOutput (mergeVMOutputs s o)) = OutputAccounts (mergeVMOutputs s o))
    by apply merge_new_accounts, Hm.
  assert (Hkeyed : keyed (OutputAccounts o)) by apply accounts_wf_keyed, Ho.
  assert (Hdom : dom (OutputAccounts o) ⊆ dom (OutputAccounts (mergeVMOutputs s o))).
  { intros k. rewrite !elem_of_dom, mergeVMOutputs_lookup by done. intros [a ->]. by eexists. }
  split; [split|].
  - split; [by rewrite Hnew; apply Hm | by eexists].
  - unfold total_delta at 1. rewrite Hnew. fold (total_delta (mergeVMOutputs s o)).
    rewrite <-Hsum, <-(total_delta_wider o _ Hdom), <-(total_delta_wider (mergeVMOutputs s o) _ (reflexivity _)).
    apply sum_map_ext. intros k a Hk. unfold delta_of. rewrite mergeVMOutputs_lookup in * by done.
    destruct (OutputAccounts o !! k) as [b|] eqn:Eb; cbn.
    + destruct (proj1 Ho k b Eb) as (_ & [d Hd] & _). by rewrite Hd.
    + exfalso. apply not_elem_of_dom in Eb. apply Eb, Hin. apply elem_of_dom. by eexists.
  - unfold within. by rewrite Hnew.
Qed.

Lemma even_merge v c : even v c -> even v (Output.PopMergeActiveState c).
Proof.
  unfold Output.PopMergeActiveState. destruct (pop (out_stateStack c)) as [[s l]|] eqn:E; [|done].
  apply pop_Some in E. unfold even, history. cbn [out_stateStack outputState set_outputState set_out_stateStack].
  rewrite E, !grows_snoc, !Forall_app, !Forall_singleton.
  intros [[[Hl Hs] Ho] [[Hg Hls] [Hlo Hso]]].
  destruct (merge_sums v s (outputState c) Hs Ho Hso) as [Hm Hin]. split_and!; try done.
  eapply Forall_impl; [|exact Hlo]. intros a Ha. by transitivity (outputState c).
Qed.

(** ** Operations that keep the sum *)

Class Conserves {A} (m : M A) : Prop :=
  conserves v st : balanced v st ->
    match m st with (_, OutOfFuel) => True | (st', _) => balanced v st' end.

Lemma same_conserves {A} (m : M A) : Keeps (same st_output) m -> Conserves m.
Proof.
  intros Hm v st Hst. specialize (Hm st). unfold same, balanced in *.
  destruct (m st) as [st' []]; cbn in Hm; by rewrite ?Hm.
Qed.

(** With what [m] returns known. *)
Lemma conserves_bind_post {A B} (m : M A) (f : A -> M B) (Q : A -> Prop) :
  Conserves m -> (forall st st' a, m st = (st', Ret a) -> Q a) -> (forall a, Q a -> Conserves (f a)) ->
  Conserves (m ≫= f).
Proof.
  intros Hm HQ Hf v st Hst. cbv [mbind M_bind]. specialize (Hm v st Hst). specialize (HQ st).
  destruct (m st) as [st' [a| |]]; [|exact Hm | done]. by apply Hf; [eapply HQ|].
Qed.

Lemma conserves_bind {A B} (m : M A) (f : A -> M B) :
  Conserves m -> (forall a, Conserves (f a)) -> Conserves (m ≫= f).
Proof. intros Hm Hf. by apply (conserves_bind_post m f (fun _ => True)). Qed.

Lemma conserves_with_defer {A B} (body : M A) (d : option A -> M B) :
  Conserves body -> (forall a, Conserves (d a)) -> Conserves (with_defer body d).
Proof.
  intros Hb Hd v st Hst. unfold with_defer. specialize (Hb v st Hst).
  destruct (body st) as [st' [a| |]]; [| |done].
  - specialize (Hd (Some a) v st' Hb). by destruct (d (Some a) st') as [st'' []].
  - specialize (Hd None v st' Hb). by destruct (d None st') as [st'' []].
Qed.

Lemma conserves_for_each {A} (l : list A) (f : A -> M unit) :
  (forall a, Conserves (f a)) -> Conserves (for_each l f).
Proof. intros Hf. induction l; cbn; [by apply same_conserves | by apply conserves_bind]. Qed.

Lemma conserves_for_each_err {A} (l : list A) (f : A -> M (option error)) :
  (forall a, Conserves (f a)) -> Conserves (for_each_err l f).
Proof.
  intros Hf. induction l as [|a l IH]; cbn; [by apply same_conserves|].
  apply conserves_bind; [done|]. intros [e|]; [by apply same_conserves | exact IH].
Qed.

Lemma conserves_context (f : outputContext -> outputContext) :
  (forall v c, even v c -> even v (f c)) -> Conserves (modify_output f).
Proof. intros Hf v st Hst. by apply Hf. Qed.

(** The stack is left alone, and no account is lost. *)
Definition grown (st st' : HostState) : Prop :=
  out_stateStack (st_output st') = out_stateStack (st_output st) /\ within (outputOf st) (outputOf st').

#[export] Instance grown_preorder : PreOrder grown.
Proof.
  split; [by split|]. intros a b c [H1 H2] [H3 H4]. split; [congruence | by transitivity (outputOf b)].
Qed.

Lemma conserves_grown {A} (m : M A) :
  Keeps grown m ->
  (forall v st, sums_to v (outputOf st) ->
   match m st with (_, OutOfFuel) => True | (st', _) => sums_to v (outputOf st') end) ->
  Conserves m.
Proof.
  intros Hm Hsum v st Hst. destruct (Hm st) as [Hstack Hin]. specialize (Hsum v st).
  destruct (m st) as [st' []]; [..|done]; by apply (even_step v (st_output st)); [| | intros ?%Hsum].
Qed.

Lemma same_grown {A} (m : M A) : Keeps (same st_output) m -> Keeps grown m.
Proof. intros Hm st. specialize (Hm st). unfold same, grown, outputOf in *. by rewrite Hm. Qed.

#[export] Instance get_account_grown a : Keeps grown (get_account a).
Proof.
  intros st. destruct (get_account_run st a) as (st' & -> & ->). split; [done|]. unfold within. cbn.
  intros k. rewrite !elem_of_dom. intros [x Hx]. destruct (decide (k = a)) as [->|].
  - rewrite accounts_with_lookup. by eexists.
  - rewrite accounts_with_ne by done. by exists x.
Qed.

#[export] Instance modify_account_grown a f : Keeps grown (modify_account a f).
Proof.
  intros st. assert (Hf : frame_of (fst (modify_account a f st)) = frame_of st) by apply modify_account_frame.
  destruct (modify_account_run st a f) as (st' & Hrun & _ & _ & Ha). rewrite Hrun in *. cbn [fst] in *.
  split; [exact (f_equal fr_output Hf)|]. unfold within. rewrite Ha, dom_insert. set_solver.
Qed.

(** *** Accounts *)

Lemma get_account_conserves a : Conserves (get_account a).
Proof.
  apply conserves_grown; [apply _|]. intros v st [Hwf Hsum].
  destruct (get_account_moved st a Hwf) as (st' & -> & [Hw _ _ _ Htotal] & _).
  split; [done|]. rewrite Htotal. lia.
Qed.

(** A change that leaves address and balance change of an account alone. *)
Lemma modify_account_conserves a f :
  (forall x, Address (f x) = Address x /\ BalanceDelta (f x) = BalanceDelta x /\
     (0 <= Nonce x -> 0 <= Nonce (f x))) ->
  Conserves (modify_account a f).
Proof.
  intros Hf. apply conserves_grown; [apply _|]. intros v st [Hwf Hsum].
  destruct (modify_account_run st a f) as (st' & -> & _ & Hr & Ha).
  destruct (Hf (account_at a (OutputAccounts (outputOf st)))) as (HA & HB & HN).
  split; [split|].
  - rewrite Ha. apply map_Forall_insert_2; [|apply Hwf].
    destruct (account_at_wf a _ Hwf) as (? & ? & ?). unfold account_wf. rewrite HA, HB. auto.
  - rewrite Hr. apply Hwf.
  - rewrite (total_delta_insert _ _ _ _ Ha), delta_of_account_at, HB. lia.
Qed.

Lemma TransferValueOnly_conserves_sum destination sender value checkPayable :
  Conserves (TransferValueOnly destination sender value checkPayable).
Proof.
  apply conserves_grown.
  - unfold TransferValueOnly, add_to_delta. keeps_deep; apply same_grown; apply _.
  - intros v st [Hwf Hsum].
    destruct (TransferValueOnly_run st destination sender value checkPayable Hwf) as (st' & r & -> & _ & [Hw _ _ _ Htotal]).
    split; [done|]. rewrite Htotal. lia.
Qed.

(** *** The rest of the output *)

Lemma on_state_conserves f :
  (forall o, OutputAccounts (f o) = OutputAccounts o) ->
  (forall o, is_Some (GasRefund o) -> is_Some (GasRefund (f o))) ->
  Conserves (modify_output (Output.on_state f)).
Proof.
  intros Ha Hr. apply conserves_context. intros v c Hc. apply (even_step v c); [done | done |].
  intros [[Hwf Hg] Hsum]. unfold sums_to, output_wf, total_delta, within in *. cbn. rewrite Ha.
  split_and!; try done. by apply Hr.
Qed.

(** Every account is replaced by one with its address and its balance change. *)
Lemma map_accounts_conserves (h : outputContext -> bytes -> OutputAccount -> OutputAccount) :
  (forall c k x, Address (h c k x) = Address x /\ BalanceDelta (h c k x) = BalanceDelta x /\
     Nonce (h c k x) = Nonce x) ->
  Conserves (modify_output (fun c => Output.on_state (fun o =>
    set_OutputAccounts (map_imap (fun k x => Some (h c k x)) (OutputAccounts o)) o) c)).
Proof.
  intros Hh. apply conserves_context. intros v c Hc. apply (even_step v c); [done | done |].
  intros [[Hwf Hg] Hsum]. unfold sums_to, output_wf, total_delta, within in *. cbn. split_and!; try done.
  - intros k y. rewrite map_lookup_imap. destruct (OutputAccounts (outputState c) !! k) as [x|] eqn:E; [|done].
    cbn. intros [= <-]. unfold account_wf. destruct (Hh c k x) as (-> & -> & ->). by apply Hwf.
  - rewrite (sum_map_imap (fun _ a => default 0 (BalanceDelta a)) (h c)). rewrite <-Hsum.
    apply sum_map_ext. intros k x _. by destruct (Hh c k x) as (_ & -> & _).
  - intros k. rewrite !elem_of_dom, map_lookup_imap. intros [x ->]. by eexists.
Qed.

(** ** Built-in functions *)

(** An output that keeps its accounts under their addresses and makes no value. *)
Definition neutral (o : VMOutput) : Prop :=
  keyed (OutputAccounts o) /\ map_Forall (fun _ a => 0 <= Nonce a) (OutputAccounts o) /\ total_delta o = 0.

Lemma neutral_accounts o o' : OutputAccounts o' = OutputAccounts o -> neutral o -> neutral o'.
Proof. unfold neutral, total_delta. by intros ->. Qed.

(** Accounts whose transfers differ. *)
Lemma neutral_transfers o o' :
  (forall k, option_map (fun a => (Address a, Nonce a, BalanceDelta a)) (OutputAccounts o' !! k) =
     option_map (fun a => (Address a, Nonce a, BalanceDelta a)) (OutputAccounts o !! k)) ->
  neutral o -> neutral o'.
Proof.
  intros Hsame (Hkeyed & Hnonce & Htotal). split_and!.
  - intros k a Hk. specialize (Hsame k). rewrite Hk in Hsame.
    destruct (OutputAccounts o !! k) as [b|] eqn:E; [|done]. injection Hsame as -> _ _. by apply Hkeyed.
  - intros k a Hk. specialize (Hsame k). rewrite Hk in Hsame.
    destruct (OutputAccounts o !! k) as [b|] eqn:E; [|done]. injection Hsame as _ -> _. by apply (Hnonce k).
  - assert (Hdom : dom (OutputAccounts o') ⊆ dom (OutputAccounts o)).
    { intros k. rewrite !elem_of_dom. specialize (Hsame k). intros [a Ha]. rewrite Ha in Hsame.
      destruct (OutputAccounts o !! k); [by eexists | done]. }
    rewrite <-(total_delta_wider o' (OutputAccounts o) Hdom), <-Htotal,
      <-(total_delta_wider o (OutputAccounts o) (reflexivity _)).
    apply sum_map_ext. intros k a _. specialize (Hsame k). unfold delta_of.
    destruct (OutputAccounts o' !! k), (OutputAccounts o !! k); try done. injection Hsame as _ _ Hd. cbn. by rewrite Hd.
Qed.

Lemma merge_entry_wf k l r :
  (forall x, l = Some x -> account_wf k x) -> Address r = k -> 0 <= Nonce r ->
  account_wf k (mergeOutputAccounts (default zeroOutputAccount l) r).
Proof.
  intros Hl HA HN. split_and!; cbn.
  - unfold nonempty_or. destruct (Address r) eqn:E; [|done]. destruct l as [x|]; cbn; [|done].
    by destruct (Hl x eq_refl).
  - destruct (BalanceDelta r); by eexists.
  - destruct (Z.ltb_spec (Nonce (default zeroOutputAccount l)) (Nonce r)); [lia|].
    destruct l as [x|]; cbn in *; [|lia]. by destruct (Hl x eq_refl) as (_ & _ & ?).
Qed.

Lemma plus_delta_Nonce l r : Nonce (plus_delta l r) = Nonce r.
Proof. unfold plus_delta. destruct l; [|done]. by destruct (BalanceDelta r). Qed.

Lemma add_to_active_state_conserves o : neutral o -> Conserves (add_to_active_state o).
Proof.
  intros (Hkeyed & Hnonce & Htotal) v st Hst.
  assert (Hcur : sums_to v (outputOf st)).
  { destruct Hst as [Hst _]. unfold history in Hst. rewrite Forall_app, Forall_singleton in Hst. apply Hst. }
  destruct Hcur as [Hwf Hsum]. unfold add_to_active_state.
  destruct (AddToActiveState_run (st_output st) o Hwf Hkeyed) as (c' & o' & Hrun & Hstack & _ & _ & _ & _ & Hr & Ha).
  destruct (AddToActiveState_adds (st_output st) o Hwf Hkeyed) as (c1 & o1 & Hrun' & Hdeltas & _).
  rewrite Hrun in Hrun' |- *. injection Hrun' as <- <-.
  assert (Hdom : dom (OutputAccounts (outputState c')) =
    dom (OutputAccounts (outputOf st)) ∪ dom (OutputAccounts o)).
  { apply set_eq. intros k. rewrite elem_of_union, !elem_of_dom, (Ha k). unfold outputOf.
    destruct (OutputAccounts (outputState (st_output st)) !! k), (OutputAccounts o !! k); cbn;
      split; try (by intros [[]|[]] || by intros []); eauto. }
  unfold balanced. replace (st_output (set_st_output c' st)) with c' by by destruct st.
  apply (even_step v (st_output st)); [exact Hst | exact Hstack |]. intros _.
  split; [split; [split|]|].
  - intros k x. rewrite (Ha k). destruct (OutputAccounts o !! k) as [r|] eqn:Er; cbn.
    + intros [= <-]. apply merge_entry_wf.
      * intros y. destruct (OutputAccounts (outputState (st_output st)) !! k) as [l|] eqn:El; [|done].
        intros [= <-]. by apply (proj1 Hwf k l).
      * rewrite plus_delta_Address. by apply Hkeyed.
      * rewrite plus_delta_Nonce. by apply (Hnonce k).
    + destruct (OutputAccounts (outputState (st_output st)) !! k) as [l|] eqn:El; [|done].
      intros [= <-]. by apply (proj1 Hwf k l).
  - rewrite Hr. by eexists.
  - rewrite <-(total_delta_wider (outputState c') (OutputAccounts (outputState c')) (reflexivity _)).
    rewrite (sum_map_ext _ (fun k _ => delta_of (outputOf st) k + delta_of o k)) by (intros k a _; apply Hdeltas).
    rewrite sum_map_add, !total_delta_wider by (rewrite Hdom; first [apply union_subseteq_l | apply union_subseteq_r]). lia.
  - unfold within. rewrite Hdom. apply union_subseteq_l.
Qed.

(** [neutral] is what the built-in functions of the protocol promise that move tokens,
    metadata and names: they change no balance.  (The one that pays out the rewards of a
    developer does.)  The nonces of accounts are unsigned. *)
Record hook_conserves : Prop := {
  builtins_neutral w input w' o err : bh_ProcessBuiltInFunction w input = (w', (Some o, err)) -> neutral o;
  nonces_unsigned w address account err :
    bh_GetUserAccount w address = (Some account, err) -> 0 <= acc_GetNonce account;
}.

#[export] Instance bigInt_GetOne_output h : Keeps (same st_output) (bigInt_GetOne h).
Proof. intros st. unfold bigInt_GetOne. by destruct (BigInt.GetOne h (st_bigInt st)). Qed.

#[export] Instance bigInt_Put_output v : Keeps (same st_output) (bigInt_Put v).
Proof. intros st. unfold bigInt_Put. by destruct (BigInt.Put v (st_bigInt st)) as [[]|]. Qed.

#[export] Instance new_asyncContextInfo_output info :
  Keeps (same st_output) (Runtime.new_asyncContextInfo info).
Proof. done. Qed.

#[export] Instance new_instance_output i : Keeps (same st_output) (RuntimeExec.new_instance i).
Proof. done. Qed.

#[export] Instance ProcessBuiltInFunction_output input :
  Keeps (same st_output) (Blockchain.ProcessBuiltInFunction input).
Proof.
  intros st. unfold Blockchain.ProcessBuiltInFunction.
  by destruct (bh_ProcessBuiltInFunction (st_world st) input).
Qed.

#[export] Instance MemLoadMultiple_output offset lengths :
  Keeps (same st_output) (Runtime.MemLoadMultiple offset lengths).
Proof.
  unfold Runtime.MemLoadMultiple. generalize (@nil bytes).
  revert offset. induction lengths; intros offset results; cbn; [apply _ | keeps_deep; apply IHlengths].
Qed.

Lemma setGasUsed_conserves (used : gmap bytes Z) :
  Conserves (modify_output (Output.on_state (fun o => set_OutputAccounts
    (map_imap (fun address account => Some (set_GasUsed (default 0 (used !! address)) account))
       (OutputAccounts o)) o))).
Proof. apply (map_accounts_conserves (fun _ k x => set_GasUsed (default 0 (used !! k)) x)). by intros _ k []. Qed.

Lemma removeNonUpdatedCode_conserves : Conserves (modify_output Output.removeNonUpdatedCode).
Proof.
  unfold Output.removeNonUpdatedCode.
  refine (map_accounts_conserves (fun c k x => if decide (k ∈ codeUpdates c) then x
    else set_Code [] (set_CodeMetadata [] (set_CodeDeployerAddress None x))) _).
  intros c k x. by case_decide; destruct x.
Qed.

Lemma DeployCode_conserves input : Conserves (modify_output (Output.DeployCode input)).
Proof.
  intros v st Hst. pose proof (modify_account_conserves (cdi_ContractAddress input) (fun a =>
    set_Code (cdi_ContractCode input) (set_CodeMetadata (cdi_ContractCodeMetadata input)
      (set_CodeDeployerAddress (Some (cdi_CodeDeployerAddress input)) a)))) as H.
  specialize (H ltac:(by intros []) v st Hst). unfold modify_account, modify_output, modify in *.
  unfold balanced in *. by destruct st.
Qed.

End Conservation.

Create HintDb conserves discriminated.
#[export] Hint Resolve get_account_conserves TransferValueOnly_conserves_sum setGasUsed_conserves
  removeNonUpdatedCode_conserves DeployCode_conserves : conserves.
#[export] Hint Extern 1 (Conserves (modify_account _ _)) => apply modify_account_conserves; by intros [] : conserves.
#[export] Hint Extern 1 (Conserves (modify_output Output.PushState)) => apply conserves_context, even_push : conserves.
#[export] Hint Extern 1 (Conserves (modify_output Output.PopSetActiveState)) => apply conserves_context, even_pop : conserves.
#[export] Hint Extern 1 (Conserves (modify_output Output.PopDiscard)) => apply conserves_context, even_discard : conserves.
#[export] Hint Extern 1 (Conserves (modify_output Output.PopMergeActiveState)) => apply conserves_context, even_merge : conserves.
#[export] Hint Extern 1 (Conserves (modify_output Output.ClearStateStack)) => apply conserves_context, even_clear : conserves.
#[export] Hint Extern 2 (Conserves (modify_output _)) =>
  apply on_state_conserves; [by intros [] | intros [] []; by eexists] : conserves.

(** Derives [Conserves m] from the text of [m]. *)
Ltac conserves_step :=
  first
    [ solve [eauto 1 with conserves nocore]
    | lazymatch goal with
      | |- Conserves (mbind _ _) => apply conserves_bind; [|intros ?]
      | |- Conserves (with_defer _ _) => apply conserves_with_defer; [|intros ?]
      | |- Conserves (for_each _ _) => apply conserves_for_each; intros ?
      | |- Conserves (for_each_err _ _) => apply conserves_for_each_err; intros ?
      | |- Conserves (match ?x with _ => _ end) => destruct x
      | |- Conserves (let _ := _ in _) => cbv zeta
      end
    | apply same_conserves; solve [keeps_deep]
    | lazymatch goal with |- Conserves ?m => let h := head_of m in unfold h end ].
Ltac conserves_auto := repeat conserves_step.

(** ** The operations of the host *)

Section Transactions.
Context `{Ext : Externals} (Hhook : hook_conserves).

Lemma GetNonce_conserves address : Conserves (Blockchain.GetNonce address).
Proof.
  unfold Blockchain.GetNonce. do 2 (apply conserves_bind; [conserves_auto|]; intros ?).
  cbv zeta. destruct (negb _); [conserves_auto|].
  apply (conserves_bind_post _ _ (fun r => forall u, Blockchain.present r = Some u -> 0 <= acc_GetNonce u)).
  - conserves_auto.
  - intros st st' r. unfold Blockchain.GetUserAccount, gets. intros [= _ <-] u Hu.
    destruct (bh_GetUserAccount (st_world st) address) as [[w|] [e|]] eqn:E; try done.
    injection Hu as <-. by eapply nonces_unsigned.
  - intros r Hr. destruct (Blockchain.present r) as [u|]; [|conserves_auto].
    apply conserves_bind; [|intros ?; conserves_auto]. apply modify_account_conserves. intros []. cbn.
    split_and!; [done | done |]. intros _. by apply Hr.
Qed.

Lemma IncreaseNonce_conserves address : Conserves (Blockchain.IncreaseNonce address).
Proof.
  apply conserves_bind; [apply GetNonce_conserves|]. intros r. apply modify_account_conserves.
  intros []. cbn. split_and!; [done | done |]. intros _. apply Z.mod_pos_bound. lia.
Qed.

#[local] Hint Resolve GetNonce_conserves IncreaseNonce_conserves : conserves.

Lemma hook_op_conserves {A} (m : M A) : hook_op m -> Conserves m.
Proof. destruct 1; conserves_auto. Qed.

(** The output of a built-in function that the host goes on with. *)
Lemma callBuiltinFunction_neutral input st st' i o err :
  callBuiltinFunction input st = (st', Ret (i, Some o, err)) -> neutral o.
Proof.
  intros (r & st1 & Hrun & H)%bind_Ret_inv. unfold Blockchain.ProcessBuiltInFunction in Hrun.
  destruct (bh_ProcessBuiltInFunction (st_world st) input) as [w [vmOutput e]] eqn:E. injection Hrun as _ <-.
  destruct e as [e|]; [by apply bind_Ret_inv in H as (? & ? & _ & [=])|].
  destruct vmOutput as [out|]; [|done].
  apply builtins_neutral in E; [|done]. rename out into o0.
  apply bind_Ret_inv in H as (? & ? & [= <- <-] & H).
  apply bind_Ret_inv in H as ([newInput [e|]] & st2 & _ & H).
  { by apply bind_Ret_inv in H as (? & ? & _ & [=]). }
  apply bind_Ret_inv in H as (? & st3 & _ & (o1 & st4 & H & [= _ _ <- _])%bind_Ret_inv).
  assert (Hclear : neutral (match newInput with
     | Some _ => set_OutputAccounts (set_OutputTransfers [] <$> OutputAccounts o0) o0
     | None => o0 end)).
  { destruct newInput; [|done]. revert E. apply neutral_transfers. intros k. cbn. rewrite lookup_fmap.
    destruct (OutputAccounts o0 !! k) as [[]|]; done. }
  revert H Hclear. generalize (match newInput with
     | Some _ => set_OutputAccounts (set_OutputTransfers [] <$> OutputAccounts o0) o0
     | None => o0 end). clear. intros o2 H Hclear.
  unfold addESDTTransferToVMOutputSCIntraShardCall in H.
  destruct (negb _); [by injection H as _ <-|]. apply bind_Ret_inv in H as (b & st5 & _ & H).
  assert (Hadd : forall f a s r t, neutral (addOutputTransferToVMOutput f a s r t o2)).
  { intros f a s r t. unfold addOutputTransferToVMOutput. destruct Hclear as (Hk & Hn & Ht).
    set (x := default _ _). assert (Hx : Address x = r /\ 0 <= Nonce x /\ default 0 (BalanceDelta x) = delta_of o2 r).
    { unfold x, delta_of. destruct (OutputAccounts o2 !! r) as [y|] eqn:Ey; cbn; [|done].
      split_and!; [by apply Hk | by apply (Hn r) | done]. }
    destruct Hx as (HA & HN & HD). split_and!; cbn.
    - apply map_Forall_insert_2; [by destruct x | exact Hk].
    - apply map_Forall_insert_2; [by destruct x | exact Hn].
    - rewrite (total_delta_insert r _ o2 _ (reflexivity _)), Ht. destruct x. cbn in *. lia. }
  repeat (case_match; try done); by injection H as _ <-.
Qed.

Lemma handleBuiltinFunctionCall_conserves input : Conserves (handleBuiltinFunctionCall input).
Proof.
  apply (conserves_bind_post _ _ (fun r => forall o, snd (fst r) = Some o -> neutral o)).
  - unfold callBuiltinFunction. conserves_auto.
  - intros st st' [[i o0] err] Hrun o. cbn. intros ->. by eapply callBuiltinFunction_neutral.
  - intros [[i [o|]] [err|]] Hr; [conserves_auto | | conserves_auto | by intros v st Hst].
    apply conserves_bind_post with (Q := neutral); [conserves_auto | |].
    + intros st st' a [= _ <-]. by apply Hr.
    + intros a Ha. apply conserves_bind; [by apply add_to_active_state_conserves|].
      intros ?. conserves_auto.
Qed.

#[local] Hint Resolve handleBuiltinFunctionCall_conserves : conserves.

(** ** Contracts *)

Context (wasm : HostAPI -> bytes -> M (option error)) (Hsandboxed : sandboxed wasm).

(** The contracts create no others: how that would be done makes no difference. *)
Definition deploys_nothing : Prop := forall dest same_context create create' f st,
  wasm (mkHostAPI Ext dest same_context create) f st = wasm (mkHostAPI Ext dest same_context create') f st.

Context (Hdeploys : deploys_nothing).

Record api_conserves (api : HostAPI) : Prop := {
  dest_conserves i : Conserves (api_ExecuteOnDestContext api i);
  same_context_conserves i : Conserves (api_ExecuteOnSameContext api i);
}.

Lemma conserves_ends_in {A} (m : M A) v :
  Conserves m -> ends_in True (balanced v) (balanced v) m (fun _ => balanced v).
Proof. intros Hm st Hst. specialize (Hm v st Hst). by destruct (m st) as [st' []]. Qed.

Lemma wasm_conserves api f : api_conserves api -> Conserves (wasm api f).
Proof.
  intros [Hdest Hsame] v st Hst. destruct api as [dest same_context create].
  rewrite (Hdeploys dest same_context create (fun _ => panic) f st).
  assert (H : ends_in True (balanced v) (balanced v)
    (wasm (mkHostAPI Ext dest same_context (fun _ => panic)) f) (fun _ => balanced v)).
  { apply Hsandboxed; [done | |].
    - intros A m Hm. by apply conserves_ends_in, hook_op_conserves.
    - split; intros i; apply conserves_ends_in; [apply Hdest | apply Hsame | by apply same_conserves]. }
  specialize (H st Hst). by destruct (wasm _ f st) as [st' []].
Qed.

Section Level.
Context (api : HostAPI) (Hapi : api_conserves api).

#[local] Hint Extern 0 (Conserves (wasm _ _)) => (exact (wasm_conserves _ _ Hapi)) : conserves.
#[local] Hint Extern 0 (Conserves (api_ExecuteOnDestContext _ _)) => (apply (dest_conserves _ Hapi)) : conserves.
#[local] Hint Extern 0 (Conserves (api_ExecuteOnSameContext _ _)) => (apply (same_context_conserves _ Hapi)) : conserves.

Lemma handleBreakpointIfAny_conserves e : Conserves (handleBreakpointIfAny api e).
Proof. conserves_auto. Qed.

Lemma processAsyncInfo_conserves loc : Conserves (processAsyncInfo api loc).
Proof. conserves_auto. Qed.

#[local] Hint Resolve handleBreakpointIfAny_conserves processAsyncInfo_conserves : conserves.

Lemma processCallbackStack_conserves : Conserves (processCallbackStack api).
Proof. conserves_auto. Qed.

Lemma callInitFunction_conserves : Conserves (callInitFunction wasm api).
Proof. conserves_auto. Qed.

Lemma callSCMethod_conserves : Conserves (callSCMethod wasm api).
Proof. unfold callSCMethod. conserves_auto. Qed.

#[local] Hint Resolve callInitFunction_conserves callSCMethod_conserves : conserves.

Lemma performCodeDeployment_conserves input : Conserves (performCodeDeployment wasm api input).
Proof. conserves_auto. Qed.

#[local] Hint Resolve processCallbackStack_conserves performCodeDeployment_conserves : conserves.

Lemma execute_conserves input : Conserves (execute wasm api input).
Proof. conserves_auto. Qed.

#[local] Hint Resolve execute_conserves : conserves.

Lemma executeOnDestContextNoBuiltinFunction_conserves input :
  Conserves (executeOnDestContextNoBuiltinFunction wasm api input).
Proof.
  apply conserves_bind; [unfold enterDestContext; conserves_auto|]. intros ?.
  apply conserves_with_defer; [unfold runOnDestContext; conserves_auto|].
  intros r. destruct (default (None, None) r) as [info err].
  apply conserves_bind; [|intros ?; by apply same_conserves].
  unfold finishExecuteOnDestContext. conserves_auto.
Qed.

#[local] Hint Resolve executeOnDestContextNoBuiltinFunction_conserves : conserves.

Lemma ExecuteOnDestContext_conserves input : Conserves (ExecuteOnDestContext wasm api input).
Proof. conserves_auto. Qed.

Lemma ExecuteOnSameContext_conserves input : Conserves (ExecuteOnSameContext wasm api input).
Proof. conserves_auto. Qed.

End Level.

Lemma host_api_conserves fuel : api_conserves (host_api wasm fuel).
Proof.
  induction fuel as [|fuel IH]; [by split|]. split; intros i; cbn [host_api
    api_ExecuteOnDestContext api_ExecuteOnSameContext].
  - by apply ExecuteOnDestContext_conserves.
  - by apply ExecuteOnSameContext_conserves.
Qed.

(** ** The outputs of transactions *)

(** An output whose balance changes sum up to [v], or a failed one without accounts. *)
Definition settled (v : Z) (o : VMOutput) : Prop :=
  total_delta o = v \/ (out_ReturnCode o <> Ok /\ OutputAccounts o = ∅).

Definition settles (P : HostState -> Prop) {B} (Q : B -> Prop) (m : M B) : Prop :=
  forall st st' b, P st -> m st = (st', Ret b) -> Q b.

Lemma settles_bind (P P' : HostState -> Prop) {A B} (Q : B -> Prop) (m : M A) (f : A -> M B) :
  (forall st st' a, P st -> m st = (st', Ret a) -> P' st') -> (forall a, settles P' Q (f a)) ->
  settles P Q (m ≫= f).
Proof. intros Hm Hf st st' o Hst (a & st1 & H1 & H2)%bind_Ret_inv. exact (Hf a st1 st' o (Hm _ _ _ Hst H1) H2). Qed.

Lemma settles_conserves v {A B} (Q : B -> Prop) (m : M A) (f : A -> M B) :
  Conserves m -> (forall a, settles (balanced v) Q (f a)) -> settles (balanced v) Q (m ≫= f).
Proof.
  intros Hm. apply settles_bind. intros st st' a Hst Hrun. specialize (Hm v st Hst). by rewrite Hrun in Hm.
Qed.

(** What is returned is settled whatever is done after. *)
Lemma settles_after (P : HostState -> Prop) {A B} (Q : A -> Prop) (Q' : B -> Prop) m (d : M unit) (f : A -> B) :
  settles P Q m -> (forall a, Q a -> Q' (f a)) -> settles P Q' (a ← m; d ;; mret (f a)).
Proof.
  intros Hm HQ st st' o Hst (o1 & st1 & H1 & H2)%bind_Ret_inv.
  apply bind_Ret_inv in H2 as (? & ? & _ & [= _ <-]). by eapply HQ, Hm.
Qed.

Lemma settles_error (P : HostState -> Prop) v e : settles P (settled v) (CreateVMOutputInCaseOfError e).
Proof.
  intros st st' o _ H. unfold CreateVMOutputInCaseOfError in H.
  repeat (apply bind_Ret_inv in H as (? & ? & _ & H)). injection H as _ <-. right. split; [|done]. cbn.
  repeat (case_match; try done).
Qed.

Lemma GetVMOutput_settles v : settles (balanced v) (settled v) GetVMOutput.
Proof.
  apply settles_conserves; [conserves_auto|]. intros ?.
  do 3 (apply settles_conserves; [conserves_auto|]; intros ?).
  case_match; [apply settles_error|]. intros st st' o [Hst _] [= _ <-]. left.
  unfold history in Hst. rewrite Forall_app, Forall_singleton in Hst. apply Hst.
Qed.

Lemma settles_with_clean (P : HostState -> Prop) Q m : settles P Q m -> settles P Q (with_clean m).
Proof.
  intros Hm st st' o Hst H. unfold with_clean, with_defer in H.
  destruct (m st) as [st1 [a| |]] eqn:E; [| |done].
  - destruct ((Clean ;; deref (Some a)) st1) as [st2 []] eqn:E2; try done. injection H as _ <-.
    apply bind_Ret_inv in E2 as (? & ? & _ & [= _ <-]). by eapply Hm.
  - by destruct ((Clean ;; deref None) st1) as [st2 []].
Qed.

(** *** From the start of a transaction *)

(** Nothing paid and no output saved yet. *)
Definition fresh (st : HostState) : Prop := balanced 0 st /\ out_stateStack (st_output st) = [].

End Transactions.

(** ** Transactions from their start to their end *)

Section Payments.
Context `{Ext : Externals} (Hhook : hook_conserves).

#[local] Abbreviation saved_outputs := (fun st : HostState => out_stateStack (st_output st)).

Lemma fresh_step {A} (m : M A) st st' a :
  Conserves m -> Keeps (same saved_outputs) m -> fresh st -> m st = (st', Ret a) -> fresh st'.
Proof.
  intros Hm Hk [Hst Hl] Hrun. specialize (Hm 0 st Hst). specialize (Hk st). rewrite Hrun in Hm, Hk.
  split; [done|]. by rewrite <-Hl.
Qed.

Lemma fresh_output st : st_output st = mkoutputContext newVMOutput [] ∅ -> fresh st.
Proof.
  unfold fresh, balanced, even, history. intros ->. cbn. split; [split|done].
  - apply Forall_singleton. split; [split; [apply map_Forall_empty | by eexists] | apply sum_map_empty].
  - intros [|i] [|j] a b _; try done. by intros [= <-] [= <-].
Qed.

Lemma initContexts_fresh st st' u : initContexts st = (st', Ret u) -> fresh st'.
Proof. intros H%(f_equal fst). cbv [fst] in H. rewrite <-H. apply fresh_output. reflexivity. Qed.

#[local] Instance get_account_saved a : Keeps (same saved_outputs) (get_account a).
Proof. intros st. apply get_account_grown. Qed.

#[local] Instance modify_account_saved a f : Keeps (same saved_outputs) (modify_account a f).
Proof. intros st. apply modify_account_grown. Qed.

#[local] Instance new_asyncContextInfo_saved info :
  Keeps (same saved_outputs) (Runtime.new_asyncContextInfo info).
Proof. done. Qed.

#[local] Instance AddTxValue_saved a v : Keeps (same saved_outputs) (AddTxValueToAccount a v).
Proof. keeps_deep. Qed.

Lemma AddTxValue_balanced a v st st' u :
  fresh st -> AddTxValueToAccount a v st = (st', Ret u) -> balanced v st'.
Proof.
  intros [[Hsum _] Hl] Hrun. unfold history in Hsum. rewrite Hl in Hsum. apply Forall_singleton in Hsum as [Hwf Hsum].
  destruct (add_to_delta_moved st a v Hwf) as (st1 & H1 & [Hw _ _ _ Ht]). unfold AddTxValueToAccount in Hrun.
  rewrite Hrun in H1. injection H1 as <- _. pose proof (AddTxValue_saved a v st) as Hstack.
  unfold same, AddTxValueToAccount in Hstack. rewrite Hrun in Hstack. cbn in Hstack.
  unfold balanced, even, history. rewrite Hstack, Hl. split.
  - apply Forall_singleton. split; [done|]. unfold outputOf in *. rewrite Ht. lia.
  - intros [|i] [|j] x y _; try done. by intros [= <-] [= <-].
Qed.

Section Level.
Context (wasm : HostAPI -> bytes -> M (option error)) (Hsandboxed : sandboxed wasm).
Context (Hdeploys : deploys_nothing wasm) (api : HostAPI) (Hapi : api_conserves api).

#[local] Hint Extern 0 (Conserves (callInitFunction _ _)) =>
  (apply callInitFunction_conserves; assumption) : conserves.
#[local] Hint Extern 0 (Conserves (callSCMethod _ _)) =>
  (apply callSCMethod_conserves; assumption) : conserves.
#[local] Hint Extern 0 (Conserves (performCodeDeployment _ _ _)) =>
  (apply performCodeDeployment_conserves; assumption) : conserves.
#[local] Hint Extern 0 (Conserves (Blockchain.GetNonce _)) => (apply GetNonce_conserves; assumption) : conserves.

(** Goes through an operation to what it returns. *)
Ltac settles_auto := repeat
  match goal with
  | |- settles _ _ (CreateVMOutputInCaseOfError _) => apply settles_error
  | |- settles _ _ (mret _) => by intros ? ? ? _ [= _ <-]
  | |- settles _ _ (match ?x with _ => _ end) => destruct x
  | |- settles (balanced ?v) _ (mbind (fun a => mbind (fun _ => mret (@?f a)) ?d) GetVMOutput) =>
      apply (settles_after _ (settled v) _ GetVMOutput d f); [apply GetVMOutput_settles | intros ? ?]
  | |- settles _ _ (mbind _ _) => apply settles_conserves; [solve [conserves_auto] | intros ?]
  end.

(** A deployment that succeeds has a settled output. *)
Lemma performCodeDeployment_settles v input :
  settles (balanced v) (fun r => r.2 = None -> forall o, r.1 = Some o -> settled v o)
    (performCodeDeployment wasm api input).
Proof. unfold performCodeDeployment. settles_auto. cbn. by intros _ ? [= <-]. Qed.

Lemma deployment_output_settles v input :
  settles (balanced v) (settled v) (deployment_output wasm api input).
Proof.
  intros st st' o Hst ([vmOutput [e|]] & st1 & H1 & H2)%bind_Ret_inv; [by apply (settles_error (fun _ => True) v e st1 st' o)|].
  destruct vmOutput as [out|]; [|done]. cbn in H2. injection H2 as _ <-.
  by apply (performCodeDeployment_settles v input st st1 _ Hst H1).
Qed.

Lemma runSmartContractCall_settles v input :
  settles (balanced v) (settled v) (runSmartContractCall wasm api input).
Proof. unfold runSmartContractCall. settles_auto. done. Qed.

(** The start of a transaction, up to the value it brings. *)
Lemma fresh_after {A B} (Q : B -> Prop) (m : M A) (f : A -> M B) :
  Conserves m -> Keeps (same saved_outputs) m -> (forall a, settles fresh Q (f a)) ->
  settles fresh Q (m ≫= f).
Proof. intros Hm Hk. apply settles_bind. intros st st' a. by apply fresh_step. Qed.

Lemma paid_after {B} (Q : B -> Prop) a v (f : unit -> M B) :
  (forall u, settles (balanced v) Q (f u)) -> settles fresh Q (AddTxValueToAccount a v ≫= f).
Proof. apply settles_bind. intros st st' u. apply AddTxValue_balanced. Qed.

Lemma start_after {B} (Q : B -> Prop) (P : HostState -> Prop) (f : unit -> M B) :
  (forall u, settles fresh Q (f u)) -> settles P Q (initContexts ≫= f).
Proof. apply settles_bind. intros st st' u _. apply initContexts_fresh. Qed.

Lemma doRunSmartContractCreate_settles input :
  settles (fun _ => True) (settled (CallValue (create_VMInput input)))
    (doRunSmartContractCreate wasm api input).
Proof.
  apply start_after. intros _. apply settles_with_clean. cbv zeta.
  apply fresh_after; [conserves_auto | keeps_deep|]. intros [address [e|]]; [apply settles_error|].
  do 3 (apply fresh_after; [conserves_auto | keeps_deep|]; intros ?).
  apply paid_after. intros _. do 2 (apply settles_conserves; [conserves_auto|]; intros ?).
  apply deployment_output_settles.
Qed.

(** The gas locked for a callback is taken from the input, its value stays. *)
Lemma metered_value v st st' v' :
  Metering.InitStateFromContractCallInput v st = (st', Ret v') -> CallValue v' = CallValue v.
Proof.
  intros (u & s1 & _ & H)%bind_Ret_inv. apply bind_Ret_inv in H as (w & s2 & H1 & H).
  repeat (apply bind_Ret_inv in H as (? & ? & _ & H)). injection H as _ <-.
  unfold Metering.unlockGasIfAsyncCallback in H1. case_match; repeat (apply bind_Ret_inv in H1 as (? & ? & _ & H1));
    injection H1 as _ <-; by destruct v.
Qed.

Lemma enterCall_settles {B} (Q : B -> Prop) input (f : ContractCallInput -> M B) :
  (forall i, settles (balanced (CallValue (call_VMInput input))) Q (f i)) ->
  settles fresh Q (enterCall input ≫= f).
Proof.
  intros Hf st st' b Hst (i & st1 & Hrun & H2)%bind_Ret_inv. refine (Hf i st1 st' b _ H2). clear Hf H2.
  apply bind_Ret_inv in Hrun as (u1 & s1 & R1 & Hrun).
  apply bind_Ret_inv in Hrun as (w & s2 & R2 & Hrun). rewrite <-(metered_value _ _ _ _ R2).
  apply fresh_step in R1; [| solve [conserves_auto] | solve [keeps_deep] | done].
  apply fresh_step in R2; [| solve [conserves_auto] | solve [keeps_deep] | done].
  apply bind_Ret_inv in Hrun as (u3 & s3 & R3%AddTxValue_balanced & Hrun); [|done].
  apply bind_Ret_inv in Hrun as (u4 & s4 & R4 & Hrun). apply bind_Ret_inv in Hrun as (u5 & s5 & R5 & Hrun).
  injection R4 as <- <-. injection R5 as <- _. injection Hrun as <- _. exact R3.
Qed.

Lemma doRunSmartContractCall_settles input :
  settles (fun _ => True) (settled (CallValue (call_VMInput input))) (doRunSmartContractCall wasm api input).
Proof.
  apply start_after. intros _. apply settles_with_clean, enterCall_settles.
  intros i. apply runSmartContractCall_settles.
Qed.

Lemma doRunSmartContractUpgrade_settles input :
  settles (fun _ => True) (settled (CallValue (call_VMInput input))) (doRunSmartContractUpgrade wasm api input).
Proof.
  apply start_after. intros _. apply settles_with_clean, enterCall_settles. intros i.
  apply settles_conserves; [conserves_auto|]. intros [[code metadata] [e|]]; [apply settles_error|].
  apply deployment_output_settles.
Qed.

End Level.

Lemma TryCatch_settled recovered Q (m : M VMOutput) st st' o err :
  settles (fun _ => True) Q m -> TryCatch recovered m st = (st', Ret (Some o, err)) -> Q o.
Proof.
  unfold TryCatch. intros Hm. destruct (m st) as [st1 [a| |]] eqn:E; intros [= _ <-]. by eapply Hm.
Qed.

(** C3: value is neither made nor lost by a transaction whose contracts deploy no other
    ones, when the built-in functions change no balance in sum ([hook_conserves]).  However its
    contracts call each other, send value, call built-in functions, fail or are undone on the
    way, the balance changes of the output of a call, an upgrade or a creation sum up to the
    value it brought; an output whose return code is not [Ok] does so too or carries no
    account at all. *)
Theorem transactions_conserve_value wasm recovered fuel st st' o err :
  sandboxed wasm -> deploys_nothing wasm ->
  (forall input, RunSmartContractCall wasm recovered (host_api wasm fuel) input st = (st', Ret (Some o, err)) ->
     settled (CallValue (call_VMInput input)) o) /\
  (forall input, RunSmartContractCreate wasm recovered (host_api wasm fuel) input st = (st', Ret (Some o, err)) ->
     settled (CallValue (create_VMInput input)) o).
Proof.
  intros Hw Hd. pose proof (host_api_conserves Hhook wasm Hw Hd fuel) as Hapi. split; intros input.
  - unfold RunSmartContractCall. case_match; apply TryCatch_settled.
    + by apply doRunSmartContractUpgrade_settles.
    + intros st1 st2 o1 _ (o2 & st3 & H1 & H2)%bind_Ret_inv.
      apply bind_Ret_inv in H2 as (? & ? & _ & H2). apply bind_Ret_inv in H2 as (? & ? & _ & [= _ <-]).
      by eapply doRunSmartContractCall_settles.
  - by apply TryCatch_settled, doRunSmartContractCreate_settles.
Qed.

End Payments.

(** ** Creations that fail *)

Section Creations.
Context `{Ext : Externals}.

(** Nonces of accounts are unsigned. *)
Context (Hnonces : forall w address account err,
  bh_GetUserAccount w address = (Some account, err) -> 0 <= acc_GetNonce account).

Lemma total_delta_same o o' :
  (forall k, delta_of o' k = delta_of o k) -> total_delta o' = total_delta o.
Proof.
  intros H. set (m := OutputAccounts o ∪ OutputAccounts o').
  assert (Hd : dom m = dom (OutputAccounts o) ∪ dom (OutputAccounts o')) by apply dom_union_L.
  rewrite <-(total_delta_wider o m), <-(total_delta_wider o' m) by (rewrite Hd; first [apply union_subseteq_l | apply union_subseteq_r]).
  apply sum_map_ext. intros k a _. apply H.
Qed.

(** The output stays well-formed and no balance change moves. *)
Definition steady (st st' : HostState) : Prop :=
  output_wf (outputOf st) ->
  output_wf (outputOf st') /\ forall k, delta_of (outputOf st') k = delta_of (outputOf st) k.

#[local] Instance steady_preorder : PreOrder steady.
Proof.
  split; [by intros st ?|]. intros a b c Hab Hbc Ha. destruct (Hab Ha) as [Hb E1], (Hbc Hb) as [Hc E2].
  split; [done|]. intros k. by rewrite E2, E1.
Qed.

Lemma same_steady {A} (m : M A) : Keeps (same st_output) m -> Keeps steady m.
Proof. intros Hm st Hwf. specialize (Hm st). unfold same, outputOf in *. by rewrite Hm. Qed.

#[local] Instance get_account_steady a : Keeps steady (get_account a).
Proof.
  intros st Hwf. destruct (get_account_moved st a Hwf) as (st' & -> & [Hw _ Hd _ _] & _).
  split; [exact Hw|]. intros k. rewrite Hd. unfold nothing. lia.
Qed.

Lemma modify_account_steady a f :
  (forall x, Address (f x) = Address x /\ BalanceDelta (f x) = BalanceDelta x /\
     (0 <= Nonce x -> 0 <= Nonce (f x)) /\ OutputTransfers (f x) = OutputTransfers x) ->
  Keeps steady (modify_account a f).
Proof.
  intros Hf st Hwf.
  destruct (modify_account_moved st a f 0 Hwf) as (st' & -> & [Hw _ Hd _ _]).
  { set (x := account_at a _). destruct (Hf x) as (HA & HB & HN & HT). cbv zeta.
    destruct (account_at_wf a _ Hwf) as (? & ? & ?). split_and!; [|exact HT | rewrite HB; lia].
    unfold account_wf. rewrite HA, HB. auto. }
  split; [exact Hw|]. intros k. rewrite Hd. unfold at_address. case_match; lia.
Qed.

Lemma keeps_bind_post_steady {A B} (m : M A) (f : A -> M B) (Q : A -> Prop) :
  Keeps steady m -> (forall st st' a, m st = (st', Ret a) -> Q a) -> (forall a, Q a -> Keeps steady (f a)) ->
  Keeps steady (m ≫= f).
Proof.
  intros Hm HQ Hf st. cbv [mbind M_bind]. specialize (Hm st). specialize (HQ st).
  destruct (m st) as [st' [a| |]]; [|exact Hm..]. cbn in Hm. transitivity st'; [exact Hm|].
  by apply Hf; eapply HQ.
Qed.

#[local] Instance GetNonce_steady address : Keeps steady (Blockchain.GetNonce address).
Proof.
  unfold Blockchain.GetNonce. apply keeps_bind; [apply _ | by apply same_steady |]. intros isNew.
  apply keeps_bind; [apply _ | apply _ |]. intros outputAccount. cbv zeta.
  destruct (negb _); [by apply same_steady|].
  apply (keeps_bind_post_steady _ _ (fun r => forall u, Blockchain.present r = Some u -> 0 <= acc_GetNonce u)).
  - apply same_steady. keeps_deep.
  - intros st st' r. unfold Blockchain.GetUserAccount, gets. intros [= _ <-] u Hu.
    destruct (bh_GetUserAccount (st_world st) address) as [[w|] [e|]] eqn:E; try done.
    injection Hu as <-. by eapply Hnonces.
  - intros r Hr. destruct (Blockchain.present r) as [u|]; [|by apply same_steady].
    apply keeps_bind; [apply _ | |intros ?; by apply same_steady]. apply modify_account_steady. intros []. cbn.
    split_and!; try done. intros _. by apply Hr.
Qed.

#[local] Instance DeployCode_steady i : Keeps steady (modify_output (Output.DeployCode i)).
Proof.
  intros st Hwf.
  destruct (modify_account_steady (cdi_ContractAddress i) (fun a => set_Code (cdi_ContractCode i)
    (set_CodeMetadata (cdi_ContractCodeMetadata i)
       (set_CodeDeployerAddress (Some (cdi_CodeDeployerAddress i)) a))) ltac:(by intros []) st Hwf) as [Hw Hd].
  exact (conj Hw Hd).
Qed.

(** [CreateNewContract] up to the execution of the new contract: an error, or the new address. *)
Definition creation_started (input : ContractCreateInput) : M (error + bytes) :=
  let v := create_VMInput input in
  let codeDeployInput address :=
    mkCodeDeployInput (ContractCode input) (ContractCodeMetadata input) address (CallerAddr v) in
  err ← Metering.DeductInitialGasForIndirectDeployment (codeDeployInput []);
  match err with
  | Some e => mret (inl e)
  | None =>
      readOnly ← Runtime.ReadOnly;
      if (readOnly : bool) then mret (inl (ErrInvalidCallOnReadOnlyMode : error))
      else
        r ← Blockchain.NewAddress (CallerAddr v);
        match r with
        | (_, Some e) => mret (inl e)
        | (newContractAddress, None) =>
            exists_ ← Blockchain.AccountExists newContractAddress;
            if (exists_ : bool) then mret (inl (ErrDeploymentOverExistingAccount : error))
            else
              modify_output (Output.DeployCode (codeDeployInput newContractAddress)) ;;
              Runtime.MustVerifyNextContractCode ;;
              mret (inr newContractAddress)
        end
  end.

Lemma creation_started_steady input : Keeps steady (creation_started input).
Proof.
  unfold creation_started. cbv zeta. apply keeps_bind; [apply _ | apply same_steady; keeps_deep |]. intros [e|]; [by apply same_steady|].
  apply keeps_bind; [apply _ | apply same_steady; keeps_deep |]. intros [|]; [by apply same_steady|].
  apply keeps_bind; [apply _ | |].
  { unfold Blockchain.NewAddress. apply keeps_bind; [apply _ | apply _ |]. intros [n [e|]]; apply same_steady; keeps_deep. }
  intros [a [e|]]; [by apply same_steady|].
  apply keeps_bind; [apply _ | apply same_steady; keeps_deep |]. intros [|]; [by apply same_steady|].
  apply keeps_bind; [apply _ | apply _ |]. intros _. apply same_steady. keeps_deep.
Qed.

Lemma CreateNewContract_started executeOnDest input st :
  CreateNewContract executeOnDest input st =
  (r ← creation_started input;
   match r with
   | inl e => mret ([], Some e)
   | inr address =>
       r ← executeOnDest (mkContractCallInput (create_VMInput input) address InitFunctionName true);
       let '(_, _, err) := r in
       match err with
       | Some e => modify_output (Output.DeleteOutputAccount address) ;; mret ([], Some e)
       | None => Blockchain.IncreaseNonce (CallerAddr (create_VMInput input)) ;; mret (address, None)
       end
   end) st.
Proof.
  unfold CreateNewContract, creation_started. cbv [mbind M_bind mret M_ret]. cbv zeta.
  repeat (case_match; simplify_eq; try reflexivity).
Qed.




(** C4: a creation that fails loses value.  The address of a new contract can be told in
    advance, so value may have been sent there before.  When [CreateNewContract], from a
    well-formed output and with [init] no built-in function, has found
    the new address and the initialisation of the contract then fails, whatever the code does,
    the account of that address is gone from the caller's output, every other balance change
    is as it was, and so their sum falls by what had been sent to the new contract, which no
    sender gets back. *)
Theorem failed_creation_loses_value wasm fuel input st st1 address st' a e :
  sandboxed wasm -> IsBuiltinFunctionName InitFunctionName = false -> output_wf (outputOf st) ->
  creation_started input st = (st1, Ret (inr address)) ->
  CreateNewContract (ExecuteOnDestContext wasm (host_api wasm fuel)) input st = (st', Ret (a, Some e)) ->
  a = [] /\ OutputAccounts (outputOf st') !! address = None /\
  (forall k, k <> address -> delta_of (outputOf st') k = delta_of (outputOf st) k) /\
  total_delta (outputOf st') = total_delta (outputOf st) - delta_of (outputOf st) address.
Proof.
  intros Hw Hinit Hwf Hstart Hrun. rewrite CreateNewContract_started in Hrun.
  rewrite (bind_run _ _ _ _ _ Hstart) in Hrun.
  apply bind_Ret_inv in Hrun as ([[v i] [e'|]] & st2 & Hexec & Hrun); last first.
  { by apply bind_Ret_inv in Hrun as (? & ? & _ & [= ]). }
  pose proof (ExecuteOnDestContext_triple wasm Hw (host_api wasm fuel) _ st1
    (mkContractCallInput (create_VMInput input) address InitFunctionName true)
    (host_api_serves wasm fuel _ (host_api_triple wasm Hw fuel)) st1 eq_refl) as H.
  rewrite Hexec in H. destruct H as (_ & _ & _ & Hroll).
  destruct (Hroll Hinit) as [_ Hback]. destruct (Hback ltac:(done)) as [Hout _].
  pose proof (creation_started_steady input st Hwf) as [Hwf1 Hdelta1]. rewrite Hstart in Hwf1, Hdelta1. cbn in Hwf1, Hdelta1.
  assert (Hacc : OutputAccounts (outputOf st') = delete address (OutputAccounts (outputOf st1))).
  { rewrite (bind_run _ _ _ _ _ eq_refl) in Hrun. injection Hrun as <- _ _. unfold outputOf in *. cbn. rewrite Hout.
    f_equal. apply merge_new_accounts, Hwf1. }
  assert (Ha : a = []).
  { rewrite (bind_run _ _ _ _ _ eq_refl) in Hrun. by injection Hrun as _ <- _. }
  split; [exact Ha|]. rewrite <-(total_delta_same _ _ Hdelta1), <-Hdelta1. split_and!.
  - by rewrite Hacc, lookup_delete_eq.
  - intros k Hk. rewrite <-Hdelta1. unfold delta_of. by rewrite Hacc, lookup_delete_ne.
  - unfold total_delta, delta_of. rewrite Hacc.
    destruct (OutputAccounts (outputOf st1) !! address) as [x|] eqn:E; cbn.
    + rewrite (sum_map_split _ _ _ _ E). lia.
    + rewrite delete_id by done. lia.
Qed.

End Creations.

(** ** Witnesses *)

(** [sc1] calls [sc2], which fails: [Guarantees.toy_wasm]. *)
Definition paying_call : ContractCallInput :=
  mkContractCallInput
    (set_CallerAddr (bs "alice") (set_CallValue 7 (set_GasProvided 60 zeroVMInput)))
    (bs "sc1") (bs "main") false.

Lemma toy_hook_conserves : @hook_conserves toy.
Proof.
  split.
  - intros w input w' o err [= _ <- _]. split_and!; [apply map_Forall_empty | apply map_Forall_empty | apply sum_map_empty].
  - intros w a account err. cbn. unfold toy_find. destruct (toy_now w !! a) as [x|]; cbn; [|done].
    destruct (0 <=? acc_GetNonce (toy_account x)) eqn:E; [|done]. intros [= <- _]. lia.
Qed.

Definition successful (r : outcome (option VMOutput * option error)) : option VMOutput :=
  match r with
  | Ret (Some o, None) => if bool_decide (out_ReturnCode o = Ok) then Some o else None
  | _ => None
  end.

Lemma successful_run {Ext : Externals} (m : M (option VMOutput * option error)) st o :
  successful (snd (m st)) = Some o -> m st = (fst (m st), Ret (Some o, None)) /\ out_ReturnCode o = Ok.
Proof.
  destruct (m st) as [st' [[[o1|] [e|]]| |]]; cbn; try done.
  case_bool_decide; [|done]. by intros [= <-].
Qed.

Abbreviation paying_run := (@RunSmartContractCall toy toy_wasm toy_recovered
  (@host_api toy toy_wasm 10) paying_call).

Lemma transactions_conserve_value_witness : exists o,
  successful (snd (paying_run toy_two)) = Some o /\ total_delta o = 7.
Proof.
  destruct (successful (snd (paying_run toy_two))) as [o|] eqn:E;
    [|vm_compute in E; discriminate E].
  exists o. split; [reflexivity|]. destruct (successful_run _ _ _ E) as [Hrun Hok].
  destruct (proj1 (@transactions_conserve_value toy toy_hook_conserves toy_wasm toy_recovered 10 toy_two _ _ _
    (@toy_wasm_sandboxed toy) (fun _ _ _ _ _ _ => eq_refl)) paying_call Hrun) as [H | [H _]]; [exact H|].
  contradiction.
Defined.

(** *** Where value is lost *)

Definition new_address : bytes := bs "sc1" ++ [Byte.x01].

Definition creation : ContractCreateInput :=
  mkContractCreateInput (set_CallerAddr (bs "sc1") (set_GasProvided 20 zeroVMInput)) (bs "code") [].

(** [sc1] sends 5 to the contract it is about to create, whose initialisation fails. *)
Definition creator_wasm `{Ext : Externals} (api : HostAPI) (f : bytes) : M (option error) :=
  address ← Runtime.GetSCAddress;
  if bytes_eqb address (bs "sc1") then
    _ ← Transfer new_address (bs "sc1") 0 0 5 [] DirectCall;
    _ ← api_CreateNewContract api creation;
    mret None
  else
    RuntimeExec.SignalUserError (bs "no") ;;
    mret (Some (ErrNew (bs "breakpoint"))).

Lemma creator_wasm_sandboxed `{Ext : Externals} : sandboxed creator_wasm.
Proof.
  intros api f F X P HX Hop Hapi. unfold creator_wasm.
  eapply ends_in_bind; [apply Hop; constructor|]. intros address. case_match.
  - eapply ends_in_bind; [apply Hop; constructor|]. intros ?.
    eapply ends_in_bind; [apply Hapi|]. intros ?. by apply ends_in_ret.
  - eapply ends_in_bind; [apply Hop; constructor|]. intros ?. by apply ends_in_ret.
Qed.

Definition creator_call : ContractCallInput :=
  mkContractCallInput (set_CallerAddr (bs "alice") (set_GasProvided 60 zeroVMInput))
    (bs "sc1") (bs "main") false.

Abbreviation creator_run := (@RunSmartContractCall toy creator_wasm toy_recovered
  (@host_api toy creator_wasm 10) creator_call toy_two).

(** From the call of [sc1] to the output of the transaction: it brings no value, ends well,
    and 5 are gone. *)
Example creator_loses_value : exists o,
  @sandboxed toy creator_wasm /\ CallValue (call_VMInput creator_call) = 0 /\
  successful (snd creator_run) = Some o /\
  delta_of o (bs "sc1") = -5 /\ OutputAccounts o !! new_address = None /\ total_delta o = -5.
Proof.
  destruct (successful (snd creator_run)) as [o|] eqn:E; [|vm_compute in E; discriminate E].
  exists o. split; [apply creator_wasm_sandboxed|]. split; [reflexivity|]. split; [reflexivity|].
  vm_compute in E. injection E as <-. by vm_compute.
Qed.

(** The state in which [sc1] has sent 5 to the address of the contract it creates next. *)
Definition toy_creating : @HostState toy :=
  fst ((initContexts ;; enterCall (Ext := toy) creator_call ;;
        Transfer new_address (bs "sc1") 0 0 5 [] DirectCall) toy_two).

Abbreviation creation_run := (@CreateNewContract toy
  (@ExecuteOnDestContext toy creator_wasm (@host_api toy creator_wasm 10)) creation toy_creating).

Lemma toy_nonces w address account err :
  @bh_GetUserAccount toy w address = (Some account, err) -> 0 <= acc_GetNonce account.
Proof. apply (@nonces_unsigned toy toy_hook_conserves). Qed.

Definition account_ok (k : bytes) (x : OutputAccount) : bool :=
  bytes_eqb (Address x) k && bool_decide (is_Some (BalanceDelta x)) && (0 <=? Nonce x).

Lemma accounts_checked (m : gmap bytes OutputAccount) :
  forallb (fun p => account_ok p.1 p.2) (map_to_list m) = true -> accounts_wf m.
Proof.
  intros H k x Hk%elem_of_map_to_list. rewrite forallb_forall in H.
  apply list_elem_of_In in Hk. specialize (H _ Hk). unfold account_ok in H. cbn in H.
  apply andb_prop in H as [[Ha%bytes_eqb_eq Hb%bool_decide_eq_true]%andb_prop Hc%Z.leb_le]. done.
Qed.

Lemma toy_creating_wf : output_wf (@outputOf toy toy_creating).
Proof.
  split; [apply accounts_checked; vm_compute; reflexivity|].
  assert (H : bool_decide (is_Some (GasRefund (@outputOf toy toy_creating))) = true) by (vm_compute; reflexivity).
  by apply bool_decide_eq_true in H.
Qed.

Lemma failed_creation_loses_value_witness :
  snd creation_run = Ret ([], Some (ErrSignalError : error)) /\
  delta_of (@outputOf toy toy_creating) new_address = 5 /\ total_delta (@outputOf toy toy_creating) = 0 /\
  total_delta (@outputOf toy (fst creation_run)) = -5.
Proof.
  assert (Hr : snd creation_run = Ret ([], Some (ErrSignalError : error))) by (vm_compute; reflexivity).
  assert (Hd : delta_of (@outputOf toy toy_creating) new_address = 5) by (vm_compute; reflexivity).
  assert (Ht : total_delta (@outputOf toy toy_creating) = 0) by (vm_compute; reflexivity).
  assert (Hs : snd (@creation_started toy creation toy_creating) = Ret (inr new_address)) by (vm_compute; reflexivity).
  split_and!; [exact Hr | exact Hd | exact Ht |].
  destruct (@failed_creation_loses_value toy toy_nonces creator_wasm 10 creation toy_creating
    (fst (@creation_started toy creation toy_creating)) new_address (fst creation_run) [] ErrSignalError
    (@creator_wasm_sandboxed toy) eq_refl toy_creating_wf) as (_ & _ & _ & ->).
  - rewrite <-Hs. apply surjective_pairing.
  - rewrite <-Hr. apply surjective_pairing.
  - rewrite Hd, Ht. reflexivity.
Defined.
