(* ===== verification/Wasmer.v ===== *)
(** The bindings to the WebAssembly engine ([src/wasmer]): instances with the functions and
    the memory they export, the conversion of arguments and results, the imports that are
    registered with the engine.

    The engine is a library in C: what the bindings call of it ([bridge.go]) is the class
    [WasmerLib], over the state [Native] behind its pointers.  A function of it that
    does not return [WASMER_OK] returns [None].  The machine is little-endian, as all the
    ones the library is built for. *)
From S2P Require Import Prelude Errors Overflow Helpers Types State GoText Fallible Stateful.
From S2P Require Import Toy Imports Contracts.

#[local] Open Scope Z_scope.

Module wasmer.

(** ** Values ([value.go]) *)

Inductive ValueType := TypeI32 | TypeI64 | TypeVoid.

#[export] Instance ValueType_eq_dec : EqDecision ValueType.
Proof. solve_decision. Defined.

Record Value := mkValue { value : Z; ty : ValueType }.

Definition I32 (v : Z) : Value := mkValue (u64 v) TypeI32.
Definition I64 (v : Z) : Value := mkValue (u64 v) TypeI64.
Definition Void : Value := mkValue 0 TypeVoid.

Definition GetType (v : Value) : ValueType := ty v.
Definition ToI32 (v : Value) : Z := s32 (value v).
Definition ToI64 (v : Value) : Z := s64 (value v).

(** The method [String]. *)
Definition Value_String (v : Value) : bytes :=
  match ty v with
  | TypeI32 => Sprintf_int (ToI32 v)
  | TypeI64 => Sprintf_int (ToI64 v)
  | TypeVoid => bs "void"
  end.

Definition IsVoid (v : Value) : bool := bool_decide (ty v = TypeVoid).

(** What a Go function takes as [interface{}]: an integer of one of the types, a [Value], or
    anything else. *)
Inductive any :=
| int8 (z : Z) | uint8 (z : Z) | int16 (z : Z) | uint16 (z : Z)
| int32 (z : Z) | uint32 (z : Z) | int64 (z : Z) | uint64 (z : Z)
| int (z : Z) | uint (z : Z)
| AValue (v : Value)
| other.

(** The tag of a value of the engine, and its eight bytes as a number. *)
Inductive cWasmerValueTag := cWasmI32 | cWasmI64 | cWasmOther.

#[export] Instance cWasmerValueTag_eq_dec : EqDecision cWasmerValueTag.
Proof. solve_decision. Defined.

Record cWasmerValueT := mkcValue { tag : cWasmerValueTag; union : Z }.

Inductive cExportKind := cWasmFunction | cWasmMemory | cWasmOtherExport.

(** A text of C ends at its first zero. *)
Fixpoint cString (s : bytes) : bytes :=
  match s with
  | [] => []
  | c :: rest => if Byte.eqb c Byte.x00 then [] else c :: cString rest
  end.

(** ** The engine *)

(** A function to import, as the engine is given it. *)
Record cWasmerImportT (F : Type) := mkcImport {
  module_name : bytes;
  import_name : bytes;
  function : F;
}.
#[global] Arguments mkcImport {F}.
#[global] Arguments module_name {F}.
#[global] Arguments import_name {F}.
#[global] Arguments function {F}.

Class WasmerLib := {
  Native : Type;
  cWasmerInstanceT : Type;
  cWasmerInstanceContextT : Type;
  cWasmerExportsT : Type;
  cWasmerExportT : Type;
  cWasmerExportFuncT : Type;
  cWasmerMemoryT : Type;
  cWasmerImportFuncT : Type;
  cWasmerInstantiateWithOptions : bytes -> CompilationOptions -> Native -> Native * option cWasmerInstanceT;
  cWasmerInstanceFromCache : bytes -> CompilationOptions -> Native -> Native * option cWasmerInstanceT;
  cWasmerInstanceCache : option cWasmerInstanceT -> Native -> Native * option bytes;
  cWasmerInstanceDestroy : cWasmerInstanceT -> Native -> Native;
  (** the name, the inputs, the number of results *)
  cWasmerInstanceCall : cWasmerInstanceT -> bytes -> list cWasmerValueT -> Z ->
    Native -> Native * option (list cWasmerValueT);
  cWasmerInstanceGetPointsUsed : option cWasmerInstanceT -> Native -> Z;
  cWasmerInstanceSetPointsUsed : option cWasmerInstanceT -> Z -> Native -> Native;
  cWasmerInstanceSetGasLimit : option cWasmerInstanceT -> Z -> Native -> Native;
  cWasmerInstanceSetBreakpointValue : option cWasmerInstanceT -> Z -> Native -> Native;
  cWasmerInstanceGetBreakpointValue : option cWasmerInstanceT -> Native -> Z;
  cWasmerInstanceIsFunctionImported : option cWasmerInstanceT -> bytes -> Native -> bool;
  cWasmerInstanceContextGet : cWasmerInstanceT -> cWasmerInstanceContextT;
  cWasmerInstanceContextMemory : cWasmerInstanceContextT -> option cWasmerMemoryT;
  (** the data is a Go pointer to a number *)
  cWasmerInstanceContextDataSet : option cWasmerInstanceT -> Z -> Native -> Native;
  cWasmerInstanceContextDataGet : option cWasmerInstanceContextT -> Native -> Z;
  cWasmerInstanceExports : cWasmerInstanceT -> Native -> Native * cWasmerExportsT;
  cWasmerExportsDestroy : cWasmerExportsT -> Native -> Native;
  (** the exports at 0, 1, ... below [cWasmerExportsLen] *)
  cWasmerExportsAll : cWasmerExportsT -> list cWasmerExportT;
  cWasmerExportKind : cWasmerExportT -> cExportKind;
  cWasmerExportName : cWasmerExportT -> bytes;
  cWasmerExportToFunc : cWasmerExportT -> cWasmerExportFuncT;
  cWasmerExportToMemory : cWasmerExportT -> option cWasmerMemoryT;
  cWasmerExportFuncParamsArity : cWasmerExportFuncT -> option Z;
  cWasmerExportFuncParams : cWasmerExportFuncT -> Z -> option (list cWasmerValueTag);
  cWasmerExportFuncResultsArity : cWasmerExportFuncT -> option Z;
  cWasmerMemoryData : cWasmerMemoryT -> Native -> bytes;
  cWasmerMemoryDataLength : cWasmerMemoryT -> Native -> Z;
  cWasmerMemoryGrow : cWasmerMemoryT -> Z -> Native -> Native * bool;
  cWasmerMemoryDestroy : cWasmerMemoryT -> Native -> Native;
  (** the address of the function in C, its inputs and its outputs *)
  cWasmerImportFuncNew : Z -> list cWasmerValueTag -> list cWasmerValueTag ->
    Native -> Native * cWasmerImportFuncT;
  cWasmerImportFuncDestroy : cWasmerImportFuncT -> Native -> Native;
  cWasmerCacheImportObjectFromImports : list (cWasmerImportT cWasmerImportFuncT) ->
    Native -> Native * bool;
  cWasmerSetOpcodeCosts : list Z -> Native -> Native;
  cWasmerSetSIGSEGVPassthrough : Native -> Native;
  cWasmerForceInstallSighandlers : Native -> Native;
  cWasmerLastErrorLength : Native -> Z;
  (** the message is taken from the engine; [None] is -1 *)
  cWasmerLastErrorMessage : Z -> Native -> Native * option bytes;
  (** Arities are unsigned, and arrays are filled to their length. *)
  inputs_arity f n : cWasmerExportFuncParamsArity f = Some n -> 0 <= n;
  outputs_arity f n : cWasmerExportFuncResultsArity f = Some n -> 0 <= n;
  params_length f n l : cWasmerExportFuncParams f n = Some l -> len l = n;
}.

Section Bindings.
Context `{Lib : WasmerLib}.

Abbreviation Act := (act Native error).

(** A call of the engine. *)
Definition native {A} (f : Native -> Native * A) : Act A := fun n => let '(n, a) := f n in (n, Ret (inr a)).

(** ** Errors ([error.go]) *)

Definition ErrFailedInstantiation : error := ErrNew (bs "could not create wasmer instance").
Definition ErrFailedCacheImports : error := ErrNew (bs "could not cache imports").
Definition ErrInvalidBytecode : error := ErrNew (bs "invalid bytecode").
Definition ErrCachingFailed : error := ErrNew (bs "instance caching failed").

(** A buffer of negative length panics. *)
Definition GetLastError : Act bytes :=
  errorLength ← act_gets cWasmerLastErrorLength;
  if errorLength =? 0 then mret []
  else if errorLength <? 0 then pure_act Panic
  else
    errorMessage ← native (cWasmerLastErrorMessage errorLength);
    match errorMessage with
    | None => act_fail (ErrNew (bs "Cannot read last error"))
    | Some message => mret (cString message)
    end.

Definition newWrappedError (target : error) : Act error :=
  r ← attempt GetLastError;
  let lastError := match r with inl _ => bs "unknown details" | inr text => text end in
  mret (ErrFmt [] target (bs ": " ++ lastError)).

(** The error of an exported function: the name is kept in the error, but [Error] returns
    the message alone. *)
Definition NewExportedFunctionError (functionName message : bytes) : error := ErrNew message.

(** ** Calling exported functions ([function_wrapper_helpers.go]) *)

Record ExportedFunctionSignature := mkSignature { InputArity : Z; OutputArity : Z }.

Definition getExportedFunctionSignature (wasmFunction : cWasmerExportFuncT) (exportedFunctionName : bytes) :
    error + list cWasmerValueTag * Z :=
  match cWasmerExportFuncParamsArity wasmFunction with
  | None => inl (NewExportedFunctionError exportedFunctionName
              (bs "Failed to read the input arity of the `%s` exported function."))
  | Some arity =>
      if 0 <? arity then
        match cWasmerExportFuncParams wasmFunction arity with
        | None => inl (NewExportedFunctionError exportedFunctionName
                    (bs "Failed to read the signature of the `%s` exported function."))
        | Some signatures => inr (signatures, arity)
        end
      else inr ([], arity)
  end.

Definition getExportedFunctionOutputArity (wasmFunction : cWasmerExportFuncT) (exportedFunctionName : bytes) :
    error + Z :=
  match cWasmerExportFuncResultsArity wasmFunction with
  | None => inl (NewExportedFunctionError exportedFunctionName
              (bs "Failed to read the output arity of the `%s` exported function."))
  | Some arity => inr arity
  end.

Definition validateGivenArguments (exportedFunctionName : bytes) (arguments : list any) (arity : Z) :
    option error :=
  let given := len arguments in
  let diff := arity - given in
  let counts := bs " exported function; Expect " ++ Sprintf_int arity ++ bs " argument(s), given " ++
    Sprintf_int given ++ bs "." in
  if 0 <? diff then
    Some (NewExportedFunctionError exportedFunctionName
      (bs "Missing " ++ Sprintf_int diff ++ bs " argument(s) when calling the `%s`" ++ counts))
  else if diff <? 0 then
    Some (NewExportedFunctionError exportedFunctionName
      (bs "Given " ++ Sprintf_int (- diff) ++ bs " extra argument(s) when calling the `%s`" ++ counts))
  else None.

Definition cannot_cast (exportedFunctionName : bytes) (index : nat) (type : bytes) : error :=
  NewExportedFunctionError exportedFunctionName
    (bs "Argument #" ++ Sprintf_int (Z.of_nat index + 1) ++ bs " of the `%s` exported function must be of type `" ++
     type ++ bs "`, cannot cast given value to this type.").

(** The low half of the bytes, which were zero. *)
Definition writeInt32ToWasmInputs (index : nat) (v : any) (exportedFunctionName : bytes) :
    error + cWasmerValueT :=
  let pointer z := inr (mkcValue cWasmI32 (u32 (s32 z))) in
  match v with
  | int8 z | uint8 z | int16 z | uint16 z | int32 z | int z | uint z => pointer z
  | AValue v =>
      if negb (bool_decide (GetType v = TypeI32)) then inl (cannot_cast exportedFunctionName index (bs "i32"))
      else pointer (ToI32 v)
  | _ => inl (cannot_cast exportedFunctionName index (bs "i32"))
  end.

Definition writeInt64ToWasmInputs (index : nat) (v : any) (exportedFunctionName : bytes) :
    error + cWasmerValueT :=
  let pointer z := inr (mkcValue cWasmI64 (u64 (s64 z))) in
  match v with
  | int8 z | uint8 z | int16 z | uint16 z | int32 z | uint32 z | int64 z | int z | uint z => pointer z
  | AValue v =>
      if negb (bool_decide (GetType v = TypeI64)) then inl (cannot_cast exportedFunctionName index (bs "i64"))
      else pointer (ToI64 v)
  | _ => inl (cannot_cast exportedFunctionName index (bs "i64"))
  end.

(** The loop over the arguments, from [index] on. *)
Fixpoint write_inputs (index : nat) (arguments : list any) (signatures : list cWasmerValueTag)
    (exportedFunctionName : bytes) (wasmInputs : list cWasmerValueT) : res (list cWasmerValueT) :=
  match arguments with
  | [] => mret wasmInputs
  | v :: rest =>
      wasmInputType ← deref_res (signatures !! index);
      _ ← deref_res (wasmInputs !! index);
      input ← of_sum (match wasmInputType with
        | cWasmI32 => writeInt32ToWasmInputs index v exportedFunctionName
        | cWasmI64 => writeInt64ToWasmInputs index v exportedFunctionName
        | cWasmOther => inl (NewExportedFunctionError exportedFunctionName
                          (bs "Invalid arguments type when calling the `%s` exported function."))
        end);
      write_inputs (S index) rest signatures exportedFunctionName (<[index := input]> wasmInputs)
  end.

Definition createWasmInputsFromArguments (arguments : list any) (arity : Z)
    (signatures : list cWasmerValueTag) (exportedFunctionName : bytes) : res (list cWasmerValueT) :=
  write_inputs 0 arguments signatures exportedFunctionName (replicate (Z.to_nat arity) (mkcValue cWasmI32 0)).

Definition callWasmFunction (c_instance : cWasmerInstanceT) (exportedFunctionName : bytes)
    (inputsArity outputsArity : Z) (wasmInputs : list cWasmerValueT) : Act (option (list cWasmerValueT)) :=
  native (cWasmerInstanceCall c_instance (cString exportedFunctionName)
            (take (Z.to_nat inputsArity) wasmInputs) outputsArity).

Definition convertWasmOutputToValue (outputsArity : Z) (wasmOutputs : list cWasmerValueT)
    (exportedFunctionName : bytes) : res Value :=
  if 0 <? outputsArity then
    result ← deref_res (head wasmOutputs);
    match tag result with
    | cWasmI32 => mret (I32 (s32 (union result)))
    | cWasmI64 => mret (I64 (s64 (union result)))
    | cWasmOther => fail (NewExportedFunctionError exportedFunctionName
                      (bs "Invalid output type retrieved from function `%s`."))
    end
  else mret Void.

(** ** Exports ([instance_helpers.go]) *)

(** With an error the value is [Void]. *)
Definition ExportedFunctionCallback : Type := list any -> Act Value.

Definition createExportedFunctionWrapper (c_instance : cWasmerInstanceT) (wasmFunction : cWasmerExportFuncT)
    (exportedFunctionName : bytes) : error + ExportedFunctionCallback * ExportedFunctionSignature :=
  match getExportedFunctionSignature wasmFunction exportedFunctionName with
  | inl err => inl err
  | inr (signatures, inputsArity) =>
      match getExportedFunctionOutputArity wasmFunction exportedFunctionName with
      | inl err => inl err
      | inr outputsArity =>
          let wrapper arguments :=
            match validateGivenArguments exportedFunctionName arguments inputsArity with
            | Some err => act_fail err
            | None =>
                wasmInputs ← pure_act
                  (createWasmInputsFromArguments arguments inputsArity signatures exportedFunctionName);
                callResult ← callWasmFunction c_instance exportedFunctionName inputsArity outputsArity wasmInputs;
                match callResult with
                | None =>
                    err ← newWrappedError (ErrNew (bs "Failed to call the `" ++ exportedFunctionName ++
                                                   bs "` exported function."));
                    act_fail err
                | Some wasmOutputs =>
                    pure_act (convertWasmOutputToValue outputsArity wasmOutputs exportedFunctionName)
                end
            end in
          inr (wrapper, mkSignature inputsArity outputsArity)
      end
  end.

(** A name that is exported twice is the last one. *)
Fixpoint export_functions (c_instance : cWasmerInstanceT) (wasmExports : list cWasmerExportT)
    (exports : gmap bytes ExportedFunctionCallback) (signatures : gmap bytes ExportedFunctionSignature) :
    error + gmap bytes ExportedFunctionCallback * gmap bytes ExportedFunctionSignature :=
  match wasmExports with
  | [] => inr (exports, signatures)
  | wasmExport :: rest =>
      match cWasmerExportKind wasmExport with
      | cWasmFunction =>
          let name := cWasmerExportName wasmExport in
          match createExportedFunctionWrapper c_instance (cWasmerExportToFunc wasmExport) name with
          | inl err => inl err
          | inr (wrapped, signature) =>
              export_functions c_instance rest (<[name := wrapped]> exports) (<[name := signature]> signatures)
          end
      | _ => export_functions c_instance rest exports signatures
      end
  end.

Definition retrieveExportedFunctions (c_instance : cWasmerInstanceT) (wasmExports : cWasmerExportsT) :=
  export_functions c_instance (cWasmerExportsAll wasmExports) ∅ ∅.

(** ** Memory ([memory.go]) *)

Record Memory := newMemory { memory : option cWasmerMemoryT }.

Definition Memory_Length (m : Memory) : Act Z :=
  match memory m with
  | None => mret 0
  | Some p => act_gets (fun n => u32 (cWasmerMemoryDataLength p n))
  end.

(** The slice shares its bytes with the engine. *)
Definition Memory_Data (m : Memory) : Act bytes :=
  match memory m with
  | None => mret []
  | Some p =>
      length ← Memory_Length m;
      act_gets (fun n => take (Z.to_nat length) (cWasmerMemoryData p n))
  end.

Definition Memory_Grow (m : Memory) (numberOfPages : Z) : Act (option error) :=
  match memory m with
  | None => mret None
  | Some p =>
      growResult ← native (cWasmerMemoryGrow p numberOfPages);
      if (growResult : bool) then mret None
      else
        lastError ← attempt GetLastError;
        let details := match lastError with inl _ => bs "(unknown details)" | inr text => text end in
        mret (Some (ErrNew (bs "Failed to grow the memory:" ++ [Byte.x0a] ++ bs "    " ++ details)))
  end.

Definition Memory_Destroy (m : Memory) : Act unit :=
  match memory m with
  | None => mret tt
  | Some p => act_modify (cWasmerMemoryDestroy p)
  end.

(** The last memory that is exported. *)
Fixpoint export_memory (wasmExports : list cWasmerExportT) (m : option Memory) : error + option Memory :=
  match wasmExports with
  | [] => inr m
  | wasmExport :: rest =>
      match cWasmerExportKind wasmExport with
      | cWasmMemory =>
          match cWasmerExportToMemory wasmExport with
          | None => inl (ErrNew (bs "Failed to extract the exported memory."))
          | Some p => export_memory rest (Some (newMemory (Some p)))
          end
      | _ => export_memory rest m
      end
  end.

Definition retrieveExportedMemory (wasmExports : cWasmerExportsT) : error + option Memory :=
  export_memory (cWasmerExportsAll wasmExports) None.

(** ** Instances ([instance.go]) *)

Record InstanceContext := mkInstanceContext {
  context : option cWasmerInstanceContextT;
  ctx_memory : option Memory;
}.

(** [NewInstanceContext] *)
Definition NewInstanceContext (ctx : cWasmerInstanceContextT) (mem : Memory) : InstanceContext :=
  mkInstanceContext (Some ctx) (Some mem).

(** [IntoInstanceContextDirect], and [IntoInstanceContext] of an untyped pointer. *)
Definition IntoInstanceContextDirect (instanceContext : cWasmerInstanceContextT) : InstanceContext :=
  mkInstanceContext (Some instanceContext) (Some (newMemory (cWasmerInstanceContextMemory instanceContext))).

Definition InstanceContext_Data (c : InstanceContext) : Act Z :=
  act_gets (cWasmerInstanceContextDataGet (context c)).

Record Instance := mkInstance {
  instance : option cWasmerInstanceT;
  Exports : gmap bytes ExportedFunctionCallback;
  Signatures : gmap bytes ExportedFunctionSignature;
  inst_Memory : option Memory;
  Data : option Z;
  InstanceCtx : InstanceContext;
}.

Definition emptyInstance : Instance := mkInstance None ∅ ∅ None None (mkInstanceContext None None).

Definition newInstance (c_instance : cWasmerInstanceT) : Act (Instance * option error) :=
  wasmExports ← native (cWasmerInstanceExports c_instance);
  act_modify (cWasmerExportsDestroy wasmExports) ;;
  mret (match retrieveExportedFunctions c_instance wasmExports with
        | inl err => (emptyInstance, Some err)
        | inr (exports, signatures) =>
            match retrieveExportedMemory wasmExports with
            | inl err => (emptyInstance, Some err)
            | inr m => (mkInstance (Some c_instance) exports signatures m None (mkInstanceContext None None), None)
            end
        end).

(** What making an instance of code and of compiled code share. *)
Definition instantiate
    (make : bytes -> CompilationOptions -> Native -> Native * option cWasmerInstanceT)
    (code : bytes) (options : CompilationOptions) : Act (Instance * option error) :=
  if len code =? 0 then
    err ← newWrappedError ErrInvalidBytecode;
    mret (emptyInstance, Some err)
  else
    c_instance ← native (make code options);
    match c_instance with
    | None =>
        err ← newWrappedError ErrFailedInstantiation;
        mret (emptyInstance, Some err)
    | Some c_instance =>
        '(i, err) ← newInstance c_instance;
        mret (match inst_Memory i with
              | None => i
              | Some _ =>
                  mkInstance (instance i) (Exports i) (Signatures i) (inst_Memory i) (Data i)
                    (IntoInstanceContextDirect (cWasmerInstanceContextGet c_instance))
              end, err)
    end.

Definition NewInstanceWithOptions := instantiate cWasmerInstantiateWithOptions.
Definition NewInstanceFromCompiledCodeWithOptions := instantiate cWasmerInstanceFromCache.

Definition HasMemory (i : Instance) : bool := bool_decide (is_Some (inst_Memory i)).

Definition SetContextData (data : Z) (i : Instance) : Act Instance :=
  act_modify (cWasmerInstanceContextDataSet (instance i) data) ;;
  mret (mkInstance (instance i) (Exports i) (Signatures i) (inst_Memory i) (Some data) (InstanceCtx i)).

Definition Clean (i : Instance) : Act unit :=
  match instance i with
  | None => mret tt
  | Some c_instance =>
      act_modify (cWasmerInstanceDestroy c_instance) ;;
      match inst_Memory i with
      | None => mret tt
      | Some m => Memory_Destroy m
      end
  end.

Definition GetPointsUsed (i : Instance) : Act Z := act_gets (cWasmerInstanceGetPointsUsed (instance i)).
Definition SetPointsUsed (i : Instance) (points : Z) : Act unit :=
  act_modify (cWasmerInstanceSetPointsUsed (instance i) points).
Definition SetGasLimit (i : Instance) (gasLimit : Z) : Act unit :=
  act_modify (cWasmerInstanceSetGasLimit (instance i) gasLimit).
Definition SetBreakpointValue (i : Instance) (v : Z) : Act unit :=
  act_modify (cWasmerInstanceSetBreakpointValue (instance i) v).
Definition GetBreakpointValue (i : Instance) : Act Z :=
  act_gets (cWasmerInstanceGetBreakpointValue (instance i)).

Definition Cache (i : Instance) : Act bytes :=
  r ← native (cWasmerInstanceCache (instance i));
  match r with None => act_fail ErrCachingFailed | Some goBytes => mret goBytes end.

Definition IsFunctionImported (i : Instance) (name : bytes) : Act bool :=
  act_gets (cWasmerInstanceIsFunctionImported (instance i) (cString name)).

Definition GetExports (i : Instance) : gmap bytes ExportedFunctionCallback := Exports i.
Definition GetSignature (i : Instance) (functionName : bytes) : option ExportedFunctionSignature :=
  Signatures i !! functionName.
Definition GetData (i : Instance) : Act Z := act_deref (Data i).
Definition GetInstanceCtxMemory (i : Instance) : option Memory := ctx_memory (InstanceCtx i).
Definition GetMemory (i : Instance) : option Memory := inst_Memory i.

Definition SetOpcodeCosts (opcode_costs : list Z) : Act unit := act_modify (cWasmerSetOpcodeCosts opcode_costs).
Definition SetSIGSEGVPassthrough : Act unit := act_modify cWasmerSetSIGSEGVPassthrough.
Definition ForceInstallSighandlers : Act unit := act_modify cWasmerForceInstallSighandlers.

End Bindings.

(** ** Imports ([import.go]) *)

(** What [reflect] says of the type of an implementation. *)
Inductive Kind := Int32 | Int64 | UnsafePointer | Func | OtherKind (name : bytes).

Definition Kind_String (k : Kind) : bytes :=
  match k with
  | Int32 => bs "int32"
  | Int64 => bs "int64"
  | UnsafePointer => bs "unsafe.Pointer"
  | Func => bs "func"
  | OtherKind name => name
  end.

Inductive GoType := TFunc (ins outs : list Kind) | TOther (k : Kind).

(** [fmt.Sprintf(message, functionName)], where the message is cut at its [%s]. *)
Definition NewImportedFunctionError (functionName before after : bytes) : error :=
  ErrNew (before ++ functionName ++ after).

Section Imports.
Context `{Lib : WasmerLib} `{Ext : Externals}.

Abbreviation Act := (act Native error).

Record Import := mkImport {
  implementation : GoType;
  cgoPointer : Z;
  importedFunctionPointer : option cWasmerImportFuncT;
  wasmInputs : list cWasmerValueTag;
  wasmOutputs : list cWasmerValueTag;
  namespace : bytes;
}.

Record Imports := mkImports {
  imports : gmap bytes (gmap bytes Import);
  currentNamespace : bytes;
}.

Definition NewImports : Imports := mkImports ∅ (bs "env").

Definition Namespace (ns : bytes) (i : Imports) : Imports := mkImports (imports i) ns.

Definition Count (i : Imports) : Z :=
  foldr (fun '(_, namespacedImports) count => Z.of_nat (size (namespacedImports : gmap bytes Import)) + count) 0
    (range (imports i)).

Definition Names (i : Imports) : gset bytes :=
  ⋃ (map (fun '(_, env) => dom (env : gmap bytes Import)) (range (imports i))).

Definition invalid_type (way importName : bytes) (k : Kind) : error :=
  NewImportedFunctionError importName (bs "Invalid " ++ way ++ bs " type for the `")
    (bs "` imported function; given `" ++ Kind_String k ++
     bs "`; only accept `int32`, `int64`, `float32`, and `float64`.").

(** The switch over the type of an input or an output. *)
Definition wasm_type (way importName : bytes) (k : Kind) : error + cWasmerValueTag :=
  match k with
  | Int32 => inr cWasmI32
  | Int64 => inr cWasmI64
  | _ => inl (invalid_type way importName k)
  end.

Fixpoint wasm_inputs (importName : bytes) (ins : list Kind) : error + list cWasmerValueTag :=
  match ins with
  | [] => inr []
  | k :: rest =>
      match wasm_type (bs "input") importName k with
      | inl err => inl err
      | inr t =>
          match wasm_inputs importName rest with inl err => inl err | inr ts => inr (t :: ts) end
      end
  end.

Definition wasm_outputs (importName : bytes) (outs : list Kind) : error + list cWasmerValueTag :=
  match outs with
  | [] => inr []
  | [k] => match wasm_type (bs "output") importName k with inl err => inl err | inr t => inr [t] end
  | _ => inl (NewImportedFunctionError importName (bs "The `")
                (bs "` imported function must have at most one output value."))
  end.

Definition Append (importName : bytes) (importType : GoType) (pointer : Z) (i : Imports) : error + Imports :=
  match importType with
  | TOther k =>
      inl (NewImportedFunctionError importName (bs "Imported function `")
             (bs "` must be a function; given `" ++ Kind_String k ++ bs "`."))
  | TFunc [] _ =>
      inl (NewImportedFunctionError importName (bs "Imported function `")
             (bs "` must at least have one argument for the instance context."))
  | TFunc (context :: ins) outs =>
      match context with
      | UnsafePointer =>
          match wasm_inputs importName ins with
          | inl err => inl err
          | inr inputs =>
              match wasm_outputs importName outs with
              | inl err => inl err
              | inr outputs =>
                  let ns := currentNamespace i in
                  let namespaced := default ∅ (imports i !! ns) in
                  inr (mkImports
                    (<[ns := <[importName := mkImport importType pointer None inputs outputs ns]> namespaced]>
                       (imports i)) ns)
              end
          end
      | k =>
          inl (NewImportedFunctionError importName (bs "The instance context of the `")
                 (bs "` imported function must be of kind `unsafe.Pointer`; given `" ++ Kind_String k ++
                  bs "`; is it missing?"))
      end
  end.

Definition Close (i : Imports) : Act unit :=
  act_range (range (imports i)) (fun '(_, namespacedImports) =>
    act_range (range namespacedImports) (fun '(_, importFunction) =>
      match importedFunctionPointer importFunction with
      | None => mret tt
      | Some p => act_modify (cWasmerImportFuncDestroy p)
      end)).

(** *** Registering them ([instance_helpers.go], [SetImports]) *)

(** The variable of the loop is a copy of the entry: the pointer that is written to it does
    not reach the map. *)
Definition generate_import (importName : bytes) (importFunction : Import) :
    Act (cWasmerImportT cWasmerImportFuncT) :=
  p ← native (cWasmerImportFuncNew (cgoPointer importFunction) (wasmInputs importFunction)
                (wasmOutputs importFunction));
  let importFunction := mkImport (implementation importFunction) (cgoPointer importFunction) (Some p)
    (wasmInputs importFunction) (wasmOutputs importFunction) (namespace importFunction) in
  mret (mkcImport (namespace importFunction) importName p).

Fixpoint generate_all (l : list (bytes * Import)) : Act (list (cWasmerImportT cWasmerImportFuncT)) :=
  match l with
  | [] => mret []
  | (importName, importFunction) :: rest =>
      wasmImport ← generate_import importName importFunction;
      wasmImports ← generate_all rest;
      mret (wasmImport :: wasmImports)
  end.

(** Namespace after namespace. *)
Definition generateWasmerImports (i : Imports) : Act (list (cWasmerImportT cWasmerImportFuncT)) :=
  generate_all (mjoin (map (fun '(_, namespacedImports) => range namespacedImports) (range (imports i)))).

Definition SetImports (i : Imports) : Act (option error) :=
  wasmImports ← generateWasmerImports i;
  result ← native (cWasmerCacheImportObjectFromImports wasmImports);
  if (result : bool) then mret None
  else err ← newWrappedError ErrFailedCacheImports; mret (Some err).

End Imports.

(** ** What the bindings promise *)

Section Values.

Lemma I32_roundtrip v : is_s32 v -> ToI32 (I32 v) = v.
Proof. intros. unfold ToI32, I32. cbn. word_lia. Qed.

Lemma I64_roundtrip v : is_s64 v -> ToI64 (I64 v) = v.
Proof. intros. unfold ToI64, I64. cbn. word_lia. Qed.

Lemma u32_s32 z : u32 (s32 z) = u32 z.
Proof. word_lia. Qed.

Lemma u64_s64 z : u64 (s64 z) = u64 z.
Proof. word_lia. Qed.

(** The number that an argument of Go is where the engine expects type [t]: every integer
    that fits, but also [int] and [uint], which may not; no [uint32] for [cWasmI32]. *)
Definition accepted (t : cWasmerValueTag) (a : any) : option Z :=
  match a, t with
  | (int8 z | uint8 z | int16 z | uint16 z | int32 z | int z | uint z), (cWasmI32 | cWasmI64) => Some z
  | (uint32 z | int64 z), cWasmI64 => Some z
  | AValue (mkValue v TypeI32), cWasmI32 => Some v
  | AValue (mkValue v TypeI64), cWasmI64 => Some v
  | _, _ => None
  end.

(** The engine is given that number modulo the width of the type. *)
Definition encode (t : cWasmerValueTag) (a : any) : option cWasmerValueT :=
  (fun z => mkcValue t (match t with cWasmI32 => u32 z | _ => u64 z end)) <$> accepted t a.

Definition encodes (t : cWasmerValueTag) (a : any) (w : cWasmerValueT) : Prop := encode t a = Some w.

End Values.

Section Calls.
Context `{Lib : WasmerLib}.

Lemma write_input_exact index t a name :
  match t with
  | cWasmI32 => writeInt32ToWasmInputs index a name
  | cWasmI64 => writeInt64ToWasmInputs index a name
  | cWasmOther => inl (NewExportedFunctionError name
                    (bs "Invalid arguments type when calling the `%s` exported function."))
  end = match encode t a with
        | Some w => inr w
        | None => inl match t with
                      | cWasmI32 => cannot_cast name index (bs "i32")
                      | cWasmI64 => cannot_cast name index (bs "i64")
                      | cWasmOther => NewExportedFunctionError name
                          (bs "Invalid arguments type when calling the `%s` exported function.")
                      end
        end.
Proof.
  unfold encode, writeInt32ToWasmInputs, writeInt64ToWasmInputs, GetType, ToI32, ToI64.
  destruct t, a as [z|z|z|z|z|z|z|z|z|z|[v []]|]; cbn; rewrite ?u32_s32, ?u64_s64; done.
Qed.

(** The loop fills the inputs from [index] on, or finds the first argument that does not fit. *)
Lemma write_inputs_exact name arguments : forall types done_ rest,
  length types = length arguments -> length rest = length arguments ->
  (exists inputs, Forall3 encodes types arguments inputs /\
     forall before, length before = length done_ ->
     write_inputs (length done_) arguments (before ++ types) name (done_ ++ rest) = mret (done_ ++ inputs)) \/
  ((forall inputs, ~ Forall3 encodes types arguments inputs) /\
     forall before, length before = length done_ ->
     exists err, write_inputs (length done_) arguments (before ++ types) name (done_ ++ rest) = fail err).
Proof.
  induction arguments as [|a arguments IH]; intros [|t types] done_ [|w rest] Ht Hr; try done.
  { left. exists []. split; [constructor|]. intros before _. cbn. done. }
  assert (Hstep : forall before, length before = length done_ ->
    write_inputs (length done_) (a :: arguments) (before ++ t :: types) name (done_ ++ w :: rest) =
    (input ← of_sum (match encode t a with
        | Some w => inr w
        | None => inl match t with
                      | cWasmI32 => cannot_cast name (length done_) (bs "i32")
                      | cWasmI64 => cannot_cast name (length done_) (bs "i64")
                      | cWasmOther => NewExportedFunctionError name
                          (bs "Invalid arguments type when calling the `%s` exported function.")
                      end
        end);
     write_inputs (S (length done_)) arguments ((before ++ [t]) ++ types) name ((done_ ++ [input]) ++ rest))).
  { intros before Hb. cbn [write_inputs].
    rewrite !list_lookup_middle by done. cbn [deref_res]. rewrite <-write_input_exact. cbn [mbind res_bind of_sum].
    assert (Hins : forall input, <[length done_ := input]> (done_ ++ w :: rest) = (done_ ++ [input]) ++ rest).
    { intros input. by rewrite insert_app_r_alt, Nat.sub_diag, <-app_assoc by done. }
    rewrite <-(app_assoc before). cbn [app]. destruct t; [| |done];
      [destruct (writeInt32ToWasmInputs _ _ _) | destruct (writeInt64ToWasmInputs _ _ _)]; by rewrite ?Hins. }
  destruct (encode t a) as [input|] eqn:E.
  - destruct (IH types (done_ ++ [input]) rest) as [(inputs & Hall & Hrun) | [Hnone Hrun]]; [cbn in *; lia..| |].
    + left. exists (input :: inputs). split; [by constructor|]. intros before Hb. rewrite (Hstep before Hb).
      cbn [of_sum mbind res_bind]. specialize (Hrun (before ++ [t])).
      rewrite !length_app, Nat.add_comm, (Nat.add_comm (length done_)) in Hrun. cbn [length Nat.add] in Hrun.
      rewrite Hrun by lia. by rewrite <-app_assoc.
    + right. split; [intros inputs Hall; inversion Hall; subst; by eapply Hnone|].
      intros before Hb. rewrite (Hstep before Hb). cbn [of_sum mbind res_bind]. specialize (Hrun (before ++ [t])).
      rewrite !length_app, Nat.add_comm, (Nat.add_comm (length done_)) in Hrun. cbn [length Nat.add] in Hrun.
      apply Hrun. lia.
  - right. split; [intros inputs Hall; inversion Hall; subst; unfold encodes in *; congruence|].
    intros before Hb. rewrite (Hstep before Hb). by eexists.
Qed.

(** What a call makes of the results of the engine: nothing, or the first one. *)
Definition result_is (outputsArity : Z) (wasmOutputs : list cWasmerValueT) (v : Value) : Prop :=
  (outputsArity = 0 /\ v = Void) \/
  (0 < outputsArity /\ exists w rest, wasmOutputs = w :: rest /\
     ((tag w = cWasmI32 /\ GetType v = TypeI32 /\ ToI32 v = s32 (union w)) \/
      (tag w = cWasmI64 /\ GetType v = TypeI64 /\ ToI64 v = s64 (union w)))).

Lemma convert_result outputsArity outputs name v :
  0 <= outputsArity ->
  convertWasmOutputToValue outputsArity outputs name = Ret (inr v) -> result_is outputsArity outputs v.
Proof.
  intros Hn. unfold convertWasmOutputToValue. destruct (0 <? outputsArity) eqn:E.
  - intros (w & Hw & H)%res_bind_inr. destruct outputs as [|w' rest]; [done|]. injection Hw as ->.
    right. split; [lia|]. exists w, rest. split; [done|].
    unfold mret, res_ret, fail in H. destruct (tag w); [| |done]; injection H as <-; [left | right]; (split_and!; [done | done |]);
      [apply I32_roundtrip, s32_range | apply I64_roundtrip, s64_range].
  - intros [= <-]. left. split; [lia | done].
Qed.

Lemma validate_exact name arguments arity :
  validateGivenArguments name arguments arity = None <-> len arguments = arity.
Proof. unfold validateGivenArguments. split; [|intros ->]; repeat case_match; try done; lia. Qed.

Lemma arities wasmFunction name types inputsArity outputsArity :
  getExportedFunctionSignature wasmFunction name = inr (types, inputsArity) ->
  getExportedFunctionOutputArity wasmFunction name = inr outputsArity ->
  len types = inputsArity /\ 0 <= outputsArity.
Proof.
  unfold getExportedFunctionSignature, getExportedFunctionOutputArity. intros Hin Hout. split.
  - destruct (cWasmerExportFuncParamsArity wasmFunction) as [n|] eqn:En; [|done].
    destruct (0 <? n) eqn:E; [|injection Hin as <- <-; apply inputs_arity in En; unfold len; cbn; lia].
    destruct (cWasmerExportFuncParams wasmFunction n) as [l|] eqn:El; [|done].
    injection Hin as <- <-. by apply params_length in El.
  - destruct (cWasmerExportFuncResultsArity wasmFunction) eqn:E; [|done].
    injection Hout as ->. by apply outputs_arity in E.
Qed.

(** C19: calling an exported function is exact.  When the arguments are as many as the function
    takes and each is of a type of Go that its parameter accepts, the engine is called once,
    by the name of the function, with these numbers modulo the width of the parameters (an
    [int] or [uint] that does not fit an i32 is cut without an error), and the value returned
    is its first result, or none; a call that the engine refuses and a result of another type
    are errors after it.  Arguments of another number or of a type that is not accepted give
    an error before any call, and the engine is as it was. *)
Theorem exported_call_exact c_instance wasmFunction name wrapper signature :
  createExportedFunctionWrapper c_instance wasmFunction name = inr (wrapper, signature) ->
  exists types, getExportedFunctionSignature wasmFunction name = inr (types, InputArity signature) /\
  forall arguments st,
  (exists inputs, Forall3 encodes types arguments inputs /\
     match cWasmerInstanceCall c_instance (cString name) inputs (OutputArity signature) st with
     | (st1, None) => forall st' v, wrapper arguments st <> (st', Ret (inr v))
     | (st1, Some outputs) =>
         wrapper arguments st = (st1, convertWasmOutputToValue (OutputArity signature) outputs name) /\
         forall st' v, wrapper arguments st = (st', Ret (inr v)) -> result_is (OutputArity signature) outputs v
     end) \/
  ((forall inputs, ~ Forall3 encodes types arguments inputs) /\
     exists err, wrapper arguments st = (st, Ret (inl err))).
Proof.
  unfold createExportedFunctionWrapper.
  destruct (getExportedFunctionSignature wasmFunction name) as [err|[types inputsArity]] eqn:Hin; [done|].
  destruct (getExportedFunctionOutputArity wasmFunction name) as [err|outputsArity] eqn:Hout; [done|].
  intros [= <- <-]. exists types. split; [done|]. cbn [InputArity OutputArity].
  destruct (arities wasmFunction name types inputsArity outputsArity Hin Hout) as [Hlen Houts].
  intros arguments st. destruct (validateGivenArguments name arguments inputsArity) as [err|] eqn:Hval.
  { right. split; [|by exists err]. intros inputs Hall. apply Forall3_length_lm in Hall.
    assert (len arguments = inputsArity) as Hv%(validate_exact name) by (unfold len in *; lia). congruence. }
  apply validate_exact in Hval. unfold createWasmInputsFromArguments.
  destruct (write_inputs_exact name arguments types [] (replicate (Z.to_nat inputsArity) (mkcValue cWasmI32 0)))
    as [(inputs & Hall & Hrun) | [Hnone Hrun]]; [unfold len in *; lia | rewrite length_replicate; unfold len in *; lia | |].
  - left. exists inputs. split; [done|]. specialize (Hrun [] eq_refl). cbn [length app] in Hrun. rewrite Hrun.
    unfold callWasmFunction, native, pure_act, mbind, act_bind, mret, res_ret. cbv beta iota.
    assert (Htake : take (Z.to_nat inputsArity) inputs = inputs).
    { apply take_ge. apply Forall3_length_lr in Hall. unfold len in *. lia. }
    rewrite Htake. destruct (cWasmerInstanceCall c_instance (cString name) inputs outputsArity st) as [st1 [outputs|]].
    + split; [done|]. intros st' v [= _ H]. by apply convert_result in H.
    + intros st' v. destruct (newWrappedError _ st1) as [st2 [[?|?]| |]]; by cbn.
  - right. split; [done|]. destruct (Hrun [] eq_refl) as [err Herr]. exists err. cbn [length app] in Herr.
    by rewrite Herr.
Qed.

End Calls.

(** *** Instances that fail *)

Section Failures.
Context `{Lib : WasmerLib}.

(** An instance that could not be read is never destroyed: when the engine has made
    it and then a signature, an arity or a memory of it cannot be read, the bindings return
    an empty instance with the error.  What the engine made is out of reach, and cleaning
    what was returned does nothing. *)
Theorem failed_instance_leaks make code options st st' i err :
  instantiate make code options st = (st', Ret (inr (i, Some err))) ->
  i = emptyInstance /\ Clean i st' = (st', Ret (inr tt)) /\
  forall st1 c_instance, len code <> 0 -> make code options st = (st1, Some c_instance) ->
  st' = (let '(st2, wasmExports) := cWasmerInstanceExports c_instance st1 in cWasmerExportsDestroy wasmExports st2).
Proof.
  unfold instantiate. destruct (len code =? 0) eqn:E.
  { intros (st1 & err1 & _ & [= <- <- _])%act_bind_inr. split_and!; [done | done | lia]. }
  intros (st1 & [c|] & Hmake & H)%act_bind_inr; unfold native in Hmake.
  - destruct (make code options st) as [st1' r] eqn:Em. injection Hmake as -> ->.
    apply act_bind_inr in H as (st2 & [i' err'] & Hnew & H).
    unfold newInstance in Hnew. apply act_bind_inr in Hnew as (st3 & wasmExports & Hexp & Hnew).
    apply act_bind_inr in Hnew as (st4 & [] & Hdestroy & Hnew). unfold native in Hexp.
    destruct (cWasmerInstanceExports c st1) as [st3' exports'] eqn:Ee. injection Hexp as -> ->.
    injection Hdestroy as <-. assert (Hi : i' = emptyInstance /\ st2 = cWasmerExportsDestroy wasmExports st3 /\ err' = Some err).
    { injection H as <- Hi ->. unfold mret, act_ret in Hnew. injection Hnew as <- Hr.
      split_and!; [|done|done].
      destruct (retrieveExportedFunctions c wasmExports) as [?|[exports signatures]]; [by injection Hr as <- _|].
      destruct (retrieveExportedMemory wasmExports) as [?|m]; [by injection Hr as <- _ | done]. }
    destruct Hi as (-> & -> & ->). injection H as <- <-. split_and!; [done | done |].
    intros st1'' c' _ [= <- <-]. by rewrite Ee.
  - apply act_bind_inr in H as (st2 & err1 & _ & [= <- <- _]). split_and!; [done | done |].
    intros st1' c _ Hc. rewrite Hc in Hmake. done.
Qed.

End Failures.

(** *** The imports of the host *)

Section Registration.
Context `{Lib : WasmerLib} `{Ext : Externals}.
(** Where the wrappers in C are. *)
Context (address : bytes -> Z).

Definition kind_of (t : ValType) : Kind := match t with Imports.I32 => Int32 | Imports.I64 => Int64 end.
Definition tag_of (t : ValType) : cWasmerValueTag := match t with Imports.I32 => cWasmI32 | Imports.I64 => cWasmI64 end.

(** The type of the wrapper in Go of an import of the host. *)
Definition go_type (imp : Imports.Import) : GoType :=
  TFunc (UnsafePointer :: map kind_of (imp_args imp))
    (match imp_result imp with None => [] | Some t => [kind_of t] end).

(** [imports, err = imports.Append(name, implementation, pointer)], one after the other. *)
Fixpoint append_all (l : list Imports.Import) (i : Imports) : error + Imports :=
  match l with
  | [] => inr i
  | imp :: rest =>
      match Append (imp_name imp) (go_type imp) (address (imp_name imp)) i with
      | inl err => inl err
      | inr i => append_all rest i
      end
  end.

(** The entry of an import. *)
Definition registered (imp : Imports.Import) : Import :=
  mkImport (go_type imp) (address (imp_name imp)) None (map tag_of (imp_args imp))
    (match imp_result imp with None => [] | Some t => [tag_of t] end) (bs "env").

Lemma wasm_inputs_exact name args : wasm_inputs name (map kind_of args) = inr (map tag_of args).
Proof. induction args as [|[] args IH]; cbn; by rewrite ?IH. Qed.

Lemma Append_import imp i :
  currentNamespace i = bs "env" ->
  Append (imp_name imp) (go_type imp) (address (imp_name imp)) i =
  inr (mkImports (<[bs "env" := <[imp_name imp := registered imp]> (default ∅ (imports i !! bs "env"))]> (imports i))
         (bs "env")).
Proof.
  intros Hns. unfold Append, go_type. rewrite wasm_inputs_exact, Hns. unfold registered, go_type.
  by destruct (imp_result imp) as [[]|].
Qed.

Definition entries (l : list Imports.Import) : list (bytes * Import) :=
  map (fun imp => (imp_name imp, registered imp)) l.

Lemma entries_fresh imp l :
  imp_name imp ∉ map imp_name l -> (list_to_map (entries l) : gmap bytes Import) !! imp_name imp = None.
Proof.
  intros Hin. apply not_elem_of_list_to_map_1. intros H. apply Hin.
  apply list_elem_of_fmap in H as ([k v] & -> & H). apply list_elem_of_fmap in H as (imp' & [= -> ->] & H).
  apply list_elem_of_fmap. by exists imp'.
Qed.

Lemma append_all_env l : forall env,
  NoDup (map imp_name l) -> (forall imp, imp ∈ l -> env !! imp_name imp = None) ->
  append_all l (mkImports {[bs "env" := env]} (bs "env")) =
  inr (mkImports {[bs "env" := list_to_map (entries l) ∪ env]} (bs "env")).
Proof.
  induction l as [|imp l IH]; intros env Hnd Hfresh; cbn [append_all].
  { cbn. by rewrite (left_id_L ∅ (∪)). }
  rewrite Append_import by done. cbn [imports]. rewrite lookup_singleton_eq, insert_singleton_eq. cbn [default].
  cbn [map] in Hnd. apply list_relations.list.NoDup_cons in Hnd as [Hin Hnd]. rewrite IH; [|done|].
  - cbn [entries map list_to_map foldr]. do 2 f_equal. f_equal. rewrite <-insert_union_l.
    symmetry. by apply (insert_union_r (list_to_map (entries l)) env), entries_fresh.
  - intros imp' Himp'. rewrite lookup_insert_ne; [apply Hfresh; by right|].
    intros Heq. apply Hin. apply list_elem_of_fmap. by exists imp'.
Qed.

Lemma append_all_new l :
  l <> [] -> NoDup (map imp_name l) ->
  append_all l NewImports = inr (mkImports {[bs "env" := list_to_map (entries l)]} (bs "env")).
Proof.
  destruct l as [|imp l]; [done|]. intros _ Hnd. cbn [append_all]. rewrite Append_import by done.
  cbn [NewImports imports]. rewrite lookup_empty. cbn [default]. rewrite insert_empty.
  cbn [map] in Hnd. apply list_relations.list.NoDup_cons in Hnd as [Hin Hnd]. rewrite insert_empty, append_all_env; [|done|].
  - cbn [entries map list_to_map foldr]. do 2 f_equal. f_equal. symmetry. apply (insert_union_singleton_r (list_to_map (entries l))). by apply entries_fresh.
  - intros imp' Himp'. rewrite lookup_singleton_ne; [done|]. intros Heq. apply Hin.
    apply list_elem_of_fmap. by exists imp'.
Qed.

Lemma range_singleton (ns : bytes) {A} (env : A) : range {[ns := env]} = [(ns, env)].
Proof. apply Permutation_singleton_r. rewrite range_perm. by rewrite map_to_list_singleton. Qed.

(** What the engine is to be given for these imports, in their order: of each the address of
    its wrapper with the types of its arguments and of its result, and then, under its own
    name in the namespace env, what the engine made of these. *)
Fixpoint give_all (l : list Imports.Import) (n : Native) :
    Native * list (cWasmerImportT cWasmerImportFuncT) :=
  match l with
  | [] => (n, [])
  | imp :: rest =>
      let '(n, p) := cWasmerImportFuncNew (address (imp_name imp)) (map tag_of (imp_args imp))
                       (match imp_result imp with None => [] | Some t => [tag_of t] end) n in
      let '(n, wasmImports) := give_all rest n in
      (n, mkcImport (bs "env") (imp_name imp) p :: wasmImports)
  end.

Lemma generate_all_run l : forall st,
  generate_all (entries l) st = ((give_all l st).1, Ret (inr (give_all l st).2)).
Proof.
  induction l as [|imp l IH]; intros st; [done|].
  cbn [entries map generate_all give_all]. unfold generate_import, native, mbind, act_bind.
  cbn [registered cgoPointer wasmInputs wasmOutputs namespace].
  destruct (cWasmerImportFuncNew _ _ _ st) as [st1 p]. cbn [mret act_ret].
  change (map (fun imp => (imp_name imp, registered imp)) l) with (entries l). rewrite IH.
  by destruct (give_all l st1).
Qed.

Lemma append_all_registers l : l <> [] -> NoDup (map imp_name l) -> exists i given,
  append_all l NewImports = inr i /\
  Count i = len l /\ Names i = list_to_set (map imp_name l) /\
  (forall imp, imp ∈ l ->
     imports i !! bs "env" ≫= (fun env => env !! imp_name imp) = Some (registered imp)) /\
  Permutation given l /\
  forall st, generateWasmerImports i st = ((give_all given st).1, Ret (inr (give_all given st).2)) /\
    Close i st = (st, Ret (inr tt)).
Proof.
  intros Hne Hkeys.
  pose (env := list_to_map (entries l) : gmap bytes Import).
  assert (Hnd : NoDup (entries l).*1) by (unfold entries; by rewrite <-list_fmap_compose).
  assert (Hrange : Permutation (range env) (entries l)).
  { rewrite range_perm. by apply map_to_list_to_map. }
  destruct (Permutation_map_inv _ _ Hrange) as (given & Hgiven & Hperm).
  exists (mkImports {[bs "env" := env]} (bs "env")), given.
  assert (Hnone : Forall (fun e : bytes * Import => importedFunctionPointer e.2 = None) (range env)).
  { rewrite Hrange. apply List.Forall_map, Forall_forall. by intros imp _. }
  split; [by apply append_all_new|]. unfold Count, Names, generateWasmerImports, Close. cbn [imports].
  rewrite range_singleton. cbn [map mjoin foldr union_list mjoin list_join app]. split_and!.
  - unfold env. rewrite map_size_list_to_map by done. unfold entries, len. rewrite length_map. lia.
  - rewrite (right_id_L ∅ (∪)). unfold env. rewrite dom_list_to_map_L. unfold entries.
    by rewrite <-list_fmap_compose.
  - intros imp Himp. rewrite lookup_singleton_eq. cbn. apply elem_of_list_to_map_1; [done|].
    apply list_elem_of_fmap. by exists imp.
  - by symmetry.
  - intros st. rewrite app_nil_r. split; [rewrite Hgiven; apply generate_all_run|].
    cbn [act_range mbind act_bind]. clear -Hnone. induction Hnone as [|[name e] es He _ IH]; [done|].
    cbn [act_range]. cbn in He. by rewrite He.
Qed.

(** C20: the host registers what its contracts may import: appending the functions of its
    four tables gives no error, each is under the namespace env by its own name with the
    types it is declared with, and none replaces another.  The engine is given exactly
    these, each once, in the order in which Go visits the map: for each the address of its
    own wrapper with its own argument types and result type, and what the engine made of
    them goes into the import object under its name in env.  Closing the imports frees none
    of them: the pointers that the engine returned were written to copies of the entries. *)
Theorem host_imports_registered : exists i given,
  append_all vm_imports NewImports = inr i /\
  Count i = len vm_imports /\ Names i = list_to_set import_names /\
  (forall imp, imp ∈ vm_imports ->
     imports i !! bs "env" ≫= (fun env => env !! imp_name imp) = Some (registered imp)) /\
  Permutation given vm_imports /\
  forall st, generateWasmerImports i st = ((give_all given st).1, Ret (inr (give_all given st).2)) /\
    Close i st = (st, Ret (inr tt)).
Proof. apply (append_all_registers vm_imports); [done | exact import_names_NoDup]. Qed.

End Registration.

(** ** Witnesses

    An engine that keeps the calls made of it and counts the instances alive.  Its
    instances export one function, sum, and a memory that cannot be read. *)

Record toyNative := mktoyNative { calls : list (bytes * list cWasmerValueT); alive : Z }.

Definition toy_sum (inputs : list cWasmerValueT) : Z := foldr (fun w s => union w + s) 0 inputs.

Definition toy_lib : WasmerLib.
Proof.
  refine {|
  Native := toyNative;
  cWasmerInstanceT := unit; cWasmerInstanceContextT := unit; cWasmerExportsT := unit;
  cWasmerExportT := bool; cWasmerExportFuncT := unit; cWasmerMemoryT := unit; cWasmerImportFuncT := unit;
  cWasmerInstantiateWithOptions := fun _ _ n => (mktoyNative (calls n) (alive n + 1), Some tt);
  cWasmerInstanceFromCache := fun _ _ n => (n, None);
  cWasmerInstanceCache := fun _ n => (n, None);
  cWasmerInstanceDestroy := fun _ n => mktoyNative (calls n) (alive n - 1);
  cWasmerInstanceCall := fun _ name inputs _ n =>
    (mktoyNative (calls n ++ [(name, inputs)]) (alive n), Some [mkcValue cWasmI64 (u64 (toy_sum inputs))]);
  cWasmerInstanceGetPointsUsed := fun _ _ => 0;
  cWasmerInstanceSetPointsUsed := fun _ _ n => n;
  cWasmerInstanceSetGasLimit := fun _ _ n => n;
  cWasmerInstanceSetBreakpointValue := fun _ _ n => n;
  cWasmerInstanceGetBreakpointValue := fun _ _ => 0;
  cWasmerInstanceIsFunctionImported := fun _ _ _ => false;
  cWasmerInstanceContextGet := fun _ => tt;
  cWasmerInstanceContextMemory := fun _ => None;
  cWasmerInstanceContextDataSet := fun _ _ n => n;
  cWasmerInstanceContextDataGet := fun _ _ => 0;
  cWasmerInstanceExports := fun _ n => (n, tt);
  cWasmerExportsDestroy := fun _ n => n;
  cWasmerExportsAll := fun _ => [true; false];
  cWasmerExportKind := fun e => if e : bool then cWasmFunction else cWasmMemory;
  cWasmerExportName := fun _ => bs "sum";
  cWasmerExportToFunc := fun _ => tt;
  cWasmerExportToMemory := fun _ => None;
  cWasmerExportFuncParamsArity := fun _ => Some 2;
  cWasmerExportFuncParams := fun _ n => if n =? 2 then Some [cWasmI32; cWasmI64] else None;
  cWasmerExportFuncResultsArity := fun _ => Some 1;
  cWasmerMemoryData := fun _ _ => [];
  cWasmerMemoryDataLength := fun _ _ => 0;
  cWasmerMemoryGrow := fun _ _ n => (n, false);
  cWasmerMemoryDestroy := fun _ n => n;
  cWasmerImportFuncNew := fun _ _ _ n => (n, tt);
  cWasmerImportFuncDestroy := fun _ n => n;
  cWasmerCacheImportObjectFromImports := fun _ n => (n, true);
  cWasmerSetOpcodeCosts := fun _ n => n;
  cWasmerSetSIGSEGVPassthrough := fun n => n;
  cWasmerForceInstallSighandlers := fun n => n;
  cWasmerLastErrorLength := fun _ => 0;
  cWasmerLastErrorMessage := fun _ n => (n, None) |}.
  - by intros ? ? [= <-].
  - by intros ? ? [= <-].
  - intros ? n l. destruct (n =? 2) eqn:E; [|done]. intros [= <-]. unfold len. cbn. lia.
Defined.

Definition toy_wrapper : error + @ExportedFunctionCallback toy_lib * ExportedFunctionSignature :=
  @createExportedFunctionWrapper toy_lib tt tt (bs "sum").

Definition toy_callback : @ExportedFunctionCallback toy_lib :=
  match toy_wrapper with inr (wrapper, _) => wrapper | inl _ => fun _ => mret Void end.

Definition no_calls : toyNative := mktoyNative [] 0.

Example toy_calls :
  toy_callback [int 7; uint32 5] no_calls =
    (mktoyNative [(bs "sum", [mkcValue cWasmI32 7; mkcValue cWasmI64 5])] 0, Ret (inr (I64 12))) /\
  (exists err, toy_callback [uint32 7; uint32 5] no_calls = (no_calls, Ret (inl err))).
Proof. split; [vm_compute; reflexivity|]. eexists. vm_compute. reflexivity. Qed.

Lemma exported_call_exact_witness :
  (exists inputs, Forall3 encodes [cWasmI32; cWasmI64] [int 7; uint32 5] inputs) \/
  (exists err, toy_callback [int 7; uint32 5] no_calls = (no_calls, Ret (inl err))).
Proof.
  destruct (@exported_call_exact toy_lib tt tt (bs "sum") toy_callback (mkSignature 2 1) eq_refl)
    as (types & Htypes & Hcall).
  vm_compute in Htypes. injection Htypes as <-.
  destruct (Hcall [int 7; uint32 5] no_calls) as [(inputs & Hall & _) | [_ Herr]];
    [left; by exists inputs | right; exact Herr].
Defined.

(** Its exports cannot be read: one instance stays alive. *)
Definition toy_leak : toyNative * outcome (error + @Instance toy_lib * option error) :=
  @NewInstanceWithOptions toy_lib (bs "code") (mkCompilationOptions 0 0 0 0 false true true) no_calls.

Lemma failed_instance_leaks_witness :
  alive (fst toy_leak) = 1 /\
  @Clean toy_lib (@emptyInstance toy_lib) (fst toy_leak) = (fst toy_leak, Ret (inr tt)).
Proof.
  split; [vm_compute; reflexivity|].
  apply (@failed_instance_leaks toy_lib (@cWasmerInstantiateWithOptions toy_lib) (bs "code")
    (mkCompilationOptions 0 0 0 0 false true true) no_calls (fst toy_leak) (@emptyInstance toy_lib)
    (ErrNew (bs "Failed to extract the exported memory."))).
  reflexivity.
Defined.

End wasmer.
